(* ===== verification/_CoqProject ===== *)
-Q . S2P
Prelude.v
CircuitConfig.v
RollingWindow.v
CircuitBreaker.v
GuardedCalls.v
RateLimiter.v
Json.v
Async.v
RedisCache.v
OneTimeCodes.v
JsVal.v
Columns.v
SqlFilter.v
SqlMeaning.v
Password.v
UserModel.v
Sessions.v
IdentityIndex.v
OAuthLogin.v
Tokens.v
SessionHandlers.v
UsersTable.v
Documents.v
Application.v
AuthController.v
MigrationController.v
AppFacts.v
MemApp.v
MigrationHistory.v
AuthFacts.v
RegisterFacts.v
MigrationFacts.v
Backfill.v
Profile.v
Scripts.v
RequestLimits.v
Validators.v
Server.v
RecentAccounts.v
Base64.v
ApiClient.v
AuthContext.v
DemoBackend.v
Config.v
SchemaRunner.v
Pages.v
MigrationPage.v
Metrics.v
ControlPlane.v
BreakerTests.v
AuthContract.v
Schema.v
Maintenance.v
Screens.v
Views.v
MigrationView.v
Boot.v
Telemetry.v
Lifecycle.v
Clients.v
Background.v
