(* ===== verification/Prelude.v ===== *)
(** * Routiq: a verification library for the user-account service

    Routiq is an API gateway with a user-account service.  The service
    ([uam-backend], TypeScript on Express, PostgreSQL and Redis) keeps accounts
    and sessions, issues the tokens that the gateway checks, and protects itself
    from a slow or absent Redis.  A React application ([uam-frontend]) is its
    client, and a small service ([demo-backend]) stands behind the gateway in
    development.  This library models the logic of the three and proves what
    their parts promise.  Paths without a prefix are relative to
    [uam-backend/src].

    ** The parts and how they interact

    A request passes the guards of its route ([routes/], [middleware/]), which
    check origin, CSRF token, body, access token and verified address, and
    reaches a handler ([controllers/]).  Handlers use the services: sessions,
    one-time codes, tokens, mail and the identity index.  Durable state is in
    two PostgreSQL tables, reached through a Mongo-style layer ([db/]);
    short-lived state is in Redis, reached through a cache wrapper
    ([config/redis.ts]) whose commands all run under a circuit breaker
    ([config/redisCircuitBreaker.ts]).  OAuth callbacks ([config/passport.ts])
    join accounts with provider identities through the identity index.  Rate
    limiters count in Redis or in memory.  In the browser an API client holds
    the access token and the CSRF token; the authentication context keeps the
    signed-in user on top of it, and the pages run their forms on both.

    ** Files

    Foundations.
    - [Prelude]: record update, JavaScript numbers and strings, sums, tactics
      ([split_ifs], [breflect]) and the hint database [uam].
    - [Json], [JsVal]: JSON printing and parsing; values and objects with
      insertion order.
    - [Async]: asynchronous functions as trees of uninterrupted pieces, run
      alone ([run]) or interleaved ([play], [pool_step]); [always] is a weakest
      precondition over every environment; [embed] runs a component in a larger
      state.

    Redis and limits.
    - [CircuitConfig], [RollingWindow], [CircuitBreaker], [GuardedCalls]:
      [config/redisCircuitBreaker.ts]: configuration and clamping, the ring of
      one-second buckets, the class with [acquire] and [release], and
      [withCircuitBreaker] as a step relation of the event loop.
    - [RedisCache]: [config/redis.ts]; Redis is the class [RedisKV] with laws.
    - [RateLimiter]: [robustRateLimiter.ts].  [RequestLimits]:
      [middleware/limiter.middleware.ts], [middleware/advancedLimiter.ts],
      [config/rateLimit.config.ts].
    - [Metrics]: [metrics.ts] and the series of [otel.ts], over the class
      [Meter]; a history interleaves the event loop with scrapes.
      [Telemetry]: the life of the module [otel.ts].
    - [BreakerTests]: the program [scripts/test-redis-circuit-breaker.ts], run
      against the modelled breaker with timers that are late.

    Data.
    - [Columns], [SqlFilter], [SqlMeaning]: [db/columns.ts], [db/filter.ts];
      the SQL text is produced exactly and given PostgreSQL's three-valued
      meaning.
    - [Password]: [utils/password.util.ts].  [UserModel], [UsersTable],
      [Documents]: [db/User.ts] over the class [UsersDb], an instance of it
      with the columns, defaults and constraints of [db/schema.ts], and
      documents as rows.
    - [IdentityIndex]: [db/UserIdentityIndex.ts] and
      [services/identity-index.service.ts].  [Backfill]: the cursor of
      [db/User.ts] and [backfillIdentityIndexes].
    - [SchemaRunner]: [runMigrations] and the sweeper of [db/migrations.ts], and
      [config/database.ts].  [Schema]: the tables of [db/migrations.ts] and
      [db/schema.ts] as data, with the rows they accept.
    - [Scripts], [Maintenance]: the scripts of [scripts/] that change accounts
      or tables.

    Services and handlers.
    - [OneTimeCodes]: email links, OAuth exchange codes, OAuth state and PKCE,
      verification poll tokens, each with its Redis and its memory back end.
    - [Sessions]: [services/session.service.ts].  [Tokens]:
      [services/token.service.ts], [utils/cookie.util.ts], and the middleware
      for tokens and CSRF; [jsonwebtoken] is the class [Jwt] with laws.
    - [OAuthLogin]: [config/passport.ts], [utils/oauth.util.ts].
    - [Application]: the state of the application that handlers share, mail
      ([services/email.service.ts]) and the configuration they read.
    - [SessionHandlers], [AuthController]: [controllers/auth.controller.ts].
      [MigrationController]: [controllers/migration.controller.ts] and
      [utils/migration-data-preserver.ts].  [Profile]:
      [controllers/profile.controller.ts].
    - [AppFacts], [MigrationHistory], [AuthFacts], [RegisterFacts],
      [MigrationFacts]: their theorems; [MemApp]: an application in memory, on
      which witnesses run.
    - [Validators]: [validators/] and [middleware/validate.middleware.ts], the
      package [zod] being the class [Zod] with laws.  [Server]: [index.ts] and
      [routes/]: tables, guards and [serve].
    - [Config]: [config/index.ts], [config/env.util.ts],
      [utils/secrets.util.ts], [utils/admin-sign.util.ts].  [ControlPlane]: the
      signed requests of [services/revoke.service.ts].
    - [Lifecycle]: [startServer], [shutdown] and the request log of [index.ts],
      as a process that changes with events.  [Boot]: [utils/boot.ts].
      [Clients]: the options of the clients ([redisClient.ts], [db/client.ts],
      the SMTP transport, the OAuth strategies) and the waiting for them.
    - [AuthContract]: the program [scripts/test-auth-contract.ts], run against
      the modelled password and token code.

    Clients.
    - [Base64]: the two base64url encoders.  [RecentAccounts]:
      [uam-frontend/src/utils/recentAccounts.ts].
    - [ApiClient]: [uam-frontend/src/api/client.ts]; a [fetch] runs
      [Server.serve], so the client is composed with the server.
      [AuthContext]: [uam-frontend/src/context/AuthContext.tsx].
    - [Pages], [MigrationPage]: the routes of [App.tsx] and the state, effects
      and handlers of [uam-frontend/src/pages].
    - [Screens]: markup as a tree, what it offers to the user, and the life of
      a page on which the user acts while requests are under way.  [Views],
      [MigrationView]: the markup of the pages and components, connected with
      the handlers of [Pages] and [MigrationPage].
    - [Background]: [uam-frontend/src/components/AnimatedBackground.tsx].
    - [DemoBackend]: [demo-backend/src].

    A TypeScript function keeps its name; a helper that stands for a part of
    one says which.  State is passed explicitly; a function that throws
    returns [outcome] or a sum; machine numbers are [Z] (every number of the
    modelled code is an integer below 2^53, or a rational [Q] where it divides),
    and times are in the unit of the code.

    ** What the theorems show

    - Circuit breaker: every transition of [acquire] and [release] with its
      exact condition; the ring refines the log of calls; the in-flight counter
      equals the number of unsettled calls in every reachable state; a
      half-open circuit past its deadline reopens, and an open one admits a
      probe after its cooldown; percentiles of the window; a scrape shows its counters exactly; its
      own test program passes, and when one of its checks does not.
    - Cache and limits: a command refines a guarded call; the local limiter
      refines a fixed window; deviations of windows and delays in memory.
    - One-time codes: round trips within their lifetimes, single use, binding
      to kind and state; under interleaving, a replay with Redis.
    - Data layer: compiled filters select exactly the matching rows, for the
      operators and operands that [SqlMeaning] names; the
      index resolves what a document stands for; the backfill ends and misses
      nobody; a migration is applied and recorded together or not at all;
      sweeping expired entries cannot be observed; the rows of [UsersTable]
      are those the DDL accepts.
    - Sessions and tokens: rotation with reuse detection, lifetimes and token
      versions, and a double spend under interleaving.
    - Handlers: registration (without AUTO_VERIFY_EMAIL), sign-in, password reset and the finalisation of
      a migration on every branch, with the accounts they change and keep;
      histories stay well typed; where a migration loses an account, gets
      stuck, or is finalised for a wrong password.
    - Server: a handler runs only behind all guards of its route.  Validators:
      front end and server agree on passwords; where they disagree on
      addresses.
    - Clients: after every session the client repeats the cookie the server
      checks, except after verification and migration; redirects of the pages
      end; waiting for a verification ends after at most forty requests, also
      when they overlap; an OAuth answer is used only for a
      sign-in of this browser; links are redeemed once; what the migration
      page does not notice or cannot send; forms have one submission under way,
      and the migration page offers only what its state allows, but its
      warning does not follow the address.
    - Start-up: which misconfigurations stop a start, and which are missed;
      what holds in every life of the process, that a shutdown completes in its
      order, that a second signal during it makes it fail, that the health check ends in time, and the width of the banner.
      Control plane: a signed revocation vouches for itself only.

    Each interface class has a concrete instance (a [Module] such as
    [MemKV], [MemTable], [MemIndex], [ToyJwt], [ToyCrypto], [ToyZod],
    [ScrapeRun]) that satisfies its laws; witnesses evaluate the theorems there.

    ** Fuel and bounds

    The JSON parser has fuel [2 + 2 * length] of the text, proved sufficient for
    every printed value ([Json.parse_stringify]).  The cursor has a page of rows
    per turn, and its fuel is proved sufficient in [Backfill].  Redirects are
    followed three times, which [Pages] proves to be enough.  The scan for
    identifiers in a path takes a character per turn, and so does the scan for
    colours in [Boot].  The part of a handler that runs before its page is
    locked has at most [Screens.first_part] = 6 pieces; a handler that needed
    more would make the proofs of [Views] fail.  [BreakerTests] evaluates the
    tests that sleep on a grid of 40 starting milliseconds and 4 delays of the
    timers, and its theorem is about that grid; that the random source does
    not matter is proved, not evaluated.  All other recursion is structural.  Asynchronous programs are finite trees, so [run] always
    returns.

    ** Not modelled

    Console output other than the log of requests, the banner, the warnings
    at load time, the errors of the pool and the lines of a shutdown; HEAD
    requests, which Express answers with the GET route; the HTML of mails; styles, icons and drawing; the
    options of third-party middleware (helmet, body parsers); the sample
    resources and the HTML page of the demo service, which answer with
    constants, and the component [InputField], which no page uses; type
    declarations; load tests and a diagnostic script for a database that is no
    longer used ([dev/]).  The gateway, its control plane and its sidecars are
    programs in Rust and Lua, beside the service.  The others have no logic of
    their own that a theorem could be about.

    Three things are coarser than the code.  A transaction of PostgreSQL is one
    step.  A Redis command of [RedisCache] is one piece, in which no other code
    of the process runs; the pieces of commands, and [GuardedCalls] for the
    breaker, interleave.  The salt that bcrypt draws is fixed with the
    parameter [hashPassword], so equal passwords hash equally; no theorem
    relates the hashes of two calls.  Strings are sequences of bytes and case conversion is that
    of ASCII, except in [Boot], which counts UTF-16 code units. *)

From Stdlib Require Export QArith Qround Qminmax Lqa Ascii.
From stdpp Require Export base list gmap strings.

(** The header of stdpp opens scopes in which [<=] may mean [nat]; every file
    of the development states integers in [Z]. *)
#[global] Open Scope Z_scope.

Declare Scope js_scope.
Delimit Scope js_scope with js.

(** ** Record update

    TypeScript mutates one field of an object at a time.  [Setter p] is the
    functional counterpart for the projection [p]; [r <| p := v |>] is the
    assignment [r.p = v]. *)

Class Setter {R T : Type} (p : R → T) := set_field : (T → T) → R → R.
Arguments set_field {R T} p {_} _ _ /.

#[warnings="-postfix-notation-not-level-1"]
Notation "r <| p := v |>" := (set_field p (λ _, v) r)
  (at level 12, left associativity, p at next level, v at level 200) : js_scope.
#[warnings="-postfix-notation-not-level-1"]
Notation "r <| p ::= f |>" := (set_field p f r)
  (at level 12, left associativity, p at next level, f at level 200) : js_scope.
#[global] Open Scope js_scope.

(** ** Numbers

    JavaScript numbers that the code keeps integral are [Z]; rates and
    fractional thresholds are exact rationals [Q].  A parse can also give
    [NaN] or an infinity. *)

Inductive js_number (A : Type) : Type :=
  | NaN
  | Infinite
  | Fin (a : A).
Arguments NaN {A}.
Arguments Infinite {A}.
Arguments Fin {A} a.

(** [Number.MAX_SAFE_INTEGER] *)
Definition MAX_SAFE_INTEGER : Z := 2 ^ 53 - 1.

(** Magnitudes from here on round to an infinity in double precision. *)
Definition double_overflow : Z := 2 ^ 1024 - 2 ^ 970.

Definition Qlt_bool (x y : Q) : bool := negb (Qle_bool y x).

(** [Math.ceil (a / b)] on integers, [b > 0]. *)
Definition ceil_div (a b : Z) : Z := - ((- a) / b).

Lemma ceil_div_spec a b : 0 < b → b * (ceil_div a b - 1) < a ≤ b * ceil_div a b.
Proof.
  intros Hb. unfold ceil_div.
  pose proof (Z.div_mod (- a) b ltac:(lia)) as H1.
  pose proof (Z.mod_pos_bound (- a) b Hb) as H2. nia.
Qed.

Lemma ceil_div_le a b c : 0 < b → ceil_div a b ≤ c ↔ a ≤ b * c.
Proof. intros Hb. pose proof (ceil_div_spec a b Hb). split; nia. Qed.

(** ** Strings *)

Definition is_ws (c : Ascii.ascii) : bool :=
  let n := Ascii.N_of_ascii c in (n =? 32)%N || ((9 <=? n)%N && (n <=? 13)%N).

Definition is_digit (c : Ascii.ascii) : bool :=
  let n := Ascii.N_of_ascii c in (48 <=? n)%N && (n <=? 57)%N.

Definition is_upper (c : Ascii.ascii) : bool :=
  let n := Ascii.N_of_ascii c in (65 <=? n)%N && (n <=? 90)%N.

Definition is_lower (c : Ascii.ascii) : bool :=
  let n := Ascii.N_of_ascii c in (97 <=? n)%N && (n <=? 122)%N.

Definition digit_val (c : Ascii.ascii) : Z := Z.of_N (Ascii.N_of_ascii c) - 48.

Definition lower_ascii (c : Ascii.ascii) : Ascii.ascii :=
  if is_upper c then Ascii.ascii_of_N (Ascii.N_of_ascii c + 32) else c.

(** [s.toLowerCase()] *)
Fixpoint toLowerCase (s : string) : string :=
  match s with
  | EmptyString => EmptyString
  | String c s' => String (lower_ascii c) (toLowerCase s')
  end.

(** [s.startsWith(p)] *)
Definition startsWith (s p : string) : bool := String.prefix p s.

(** [s.includes(p)] *)
Fixpoint includes (s p : string) : bool :=
  startsWith s p ||
  match s with
  | EmptyString => false
  | String _ s' => includes s' p
  end.

Fixpoint trim_start (s : string) : string :=
  match s with
  | EmptyString => EmptyString
  | String c s' => if is_ws c then trim_start s' else s
  end.

Fixpoint trim_end (s : string) : string :=
  match s with
  | EmptyString => EmptyString
  | String c s' =>
      match trim_end s' with
      | EmptyString => if is_ws c then EmptyString else String c EmptyString
      | t => String c t
      end
  end.

(** [s.trim()] *)
Definition trim (s : string) : string := trim_start (trim_end s).

(** [s.length] *)
Definition strlen (s : string) : Z := Z.of_nat (String.length s).

Lemma string_length_app s t : String.length (s +:+ t) = (String.length s + String.length t)%nat.
Proof.
  induction s as [|c s IH]; [done|].
  change (String c s +:+ t) with (String c (s +:+ t)). cbn. by rewrite IH.
Qed.

(** The leading run of digits: its value, how many there are, what follows. *)
Fixpoint take_digits (acc n : Z) (s : string) : Z * Z * string :=
  match s with
  | EmptyString => (acc, n, s)
  | String c s' =>
      if is_digit c then take_digits (10 * acc + digit_val c) (n + 1) s'
      else (acc, n, s)
  end.

(** An optional sign. *)
Definition take_sign (s : string) : Z * string :=
  match s with
  | String "-"%char s' => (-1, s')
  | String "+"%char s' => (1, s')
  | _ => (1, s)
  end.

(** [Number.parseInt(s, 10)] *)
Definition parseInt10 (s : string) : js_number Z :=
  let '(sign, s1) := take_sign (trim_start s) in
  let '(v, n, _) := take_digits 0 0 s1 in
  if n =? 0 then NaN
  else if double_overflow <=? v then Infinite
  else Fin (sign * v).

(** [10^e] for any integer exponent. *)
Definition pow10 (e : Z) : Q :=
  if 0 <=? e then inject_Z (10 ^ e) else Qinv (inject_Z (10 ^ (- e))).

(** The exponent part of a decimal literal, [0] when there is none. *)
Definition take_exponent (s : string) : Z :=
  match s with
  | String c s' =>
      if (String.eqb (toLowerCase (String c EmptyString)) "e") then
        let '(sg, s1) := take_sign s' in
        let '(v, n, _) := take_digits 0 0 s1 in
        if n =? 0 then 0 else sg * v
      else 0
  | EmptyString => 0
  end.

(** [Number.parseFloat(s)] *)
Definition parseFloat (s : string) : js_number Q :=
  let '(sign, s1) := take_sign (trim_start s) in
  if startsWith s1 "Infinity" then Infinite else
  let '(ip, ni, s2) := take_digits 0 0 s1 in
  let '(m, nf, s3) :=
    match s2 with
    | String "."%char s' => take_digits ip 0 s'
    | _ => (ip, 0, s2)
    end in
  if ni + nf =? 0 then NaN else
  let v := Qred (inject_Z (sign * m) * pow10 (take_exponent s3 - nf)) in
  if Qle_bool (inject_Z double_overflow) v || Qle_bool v (inject_Z (- double_overflow))
  then Infinite else Fin v.

(** ** Arrays *)

(** [l.slice(k)] for a negative [k], [l.slice(0, k)] otherwise: the two forms
    the code uses. *)
Definition slice_last {A} (k : nat) (l : list A) : list A := drop (length l - k)%nat l.

Definition sumZ (l : list Z) : Z := foldr Z.add 0 l.

Lemma sumZ_cons x l : sumZ (x :: l) = x + sumZ l.
Proof. done. Qed.

Lemma sumZ_app l k : sumZ (l ++ k) = sumZ l + sumZ k.
Proof. induction l as [|x l IH]; simpl; lia. Qed.

Lemma sumZ_map_ext {A} (f g : A → Z) l :
  (∀ x, x ∈ l → f x = g x) → sumZ (map f l) = sumZ (map g l).
Proof.
  induction l as [|x l IH]; intros H; simpl; [done|].
  rewrite (H x ltac:(left)), IH; [done|]. intros y Hy. apply H. by right.
Qed.

Lemma sumZ_map_zero {A} (f : A → Z) l : (∀ x, x ∈ l → f x = 0) → sumZ (map f l) = 0.
Proof.
  intros H. rewrite (sumZ_map_ext f (λ _, 0) l H). induction l; simpl; [done|].
  rewrite IHl; [done|]. intros y Hy. apply H. by right.
Qed.

Lemma sumZ_map_plus {A} (f g : A → Z) l :
  sumZ (map (λ x, f x + g x) l) = sumZ (map f l) + sumZ (map g l).
Proof. induction l as [|x l IH]; simpl; lia. Qed.

(** Exchange of two finite sums. *)
Lemma sumZ_swap {A B} (f : A → B → Z) l k :
  sumZ (map (λ a, sumZ (map (f a) k)) l) = sumZ (map (λ b, sumZ (map (λ a, f a b) l)) k).
Proof.
  induction l as [|a l IH]; simpl.
  - symmetry. by apply sumZ_map_zero.
  - by rewrite IH, sumZ_map_plus.
Qed.

Lemma sumZ_map_nonneg {A} (f : A → Z) l : (∀ x, x ∈ l → 0 ≤ f x) → 0 ≤ sumZ (map f l).
Proof.
  induction l as [|x l IH]; intros H; simpl; [lia|].
  pose proof (H x ltac:(left)). assert (0 ≤ sumZ (map f l)); [|lia].
  apply IH. intros y Hy. apply H. by right.
Qed.

Lemma sumZ_map_le {A} (f g : A → Z) l :
  (∀ x, x ∈ l → f x ≤ g x) → sumZ (map f l) ≤ sumZ (map g l).
Proof.
  induction l as [|x l IH]; intros H; simpl; [lia|].
  pose proof (H x ltac:(left)). assert (sumZ (map f l) ≤ sumZ (map g l)); [|lia].
  apply IH. intros y Hy. apply H. by right.
Qed.

Lemma sumZ_map_const1 {A} (l : list A) : sumZ (map (λ _, 1) l) = Z.of_nat (length l).
Proof. induction l as [|x l IH]; simpl; lia. Qed.

Lemma sumZ_map_insert {A} (f : A → Z) l i x y :
  l !! i = Some x → sumZ (map f (<[i := y]> l)) = sumZ (map f l) - f x + f y.
Proof.
  revert i. induction l as [|a l IH]; intros [|i] H; simplify_eq/=; [lia|]. rewrite (IH i H). lia.
Qed.

(** The indicator of a boolean. *)
Definition ind (b : bool) : Z := if b then 1 else 0.

Lemma ind_bounds b : 0 ≤ ind b ≤ 1.
Proof. destruct b; simpl; lia. Qed.

(** ** Automation *)

(** Split every conditional and match of the goal, keeping the equations. *)
Ltac split_ifs :=
  repeat match goal with
  | |- context [if ?c then _ else _] => destruct c eqn:?
  | |- context [match ?c with Some _ => _ | None => _ end] => destruct c eqn:?
  end.

(** Boolean comparisons of the context and the goal become propositions. *)
Ltac breflect :=
  repeat match goal with
  | H : (_ && _) = true |- _ => apply andb_true_iff in H as [? ?]
  | H : (_ || _) = false |- _ => apply orb_false_iff in H as [? ?]
  | H : (_ && _) = false |- _ => apply andb_false_iff in H
  | H : (_ || _) = true |- _ => apply orb_true_iff in H
  | H : negb _ = true |- _ => apply negb_true_iff in H
  | H : negb _ = false |- _ => apply negb_false_iff in H
  | H : (_ <=? _) = true |- _ => apply Z.leb_le in H
  | H : (_ <=? _) = false |- _ => apply Z.leb_gt in H
  | H : (_ <? _) = true |- _ => apply Z.ltb_lt in H
  | H : (_ <? _) = false |- _ => apply Z.ltb_ge in H
  | H : (_ =? _) = true |- _ => apply Z.eqb_eq in H
  | H : (_ =? _) = false |- _ => apply Z.eqb_neq in H
  end.

Create HintDb uam.
Create Rewrite HintDb uam.
#[export] Hint Resolve ind_bounds sumZ_map_nonneg : uam.
