(* ===== verification/CircuitConfig.v ===== *)
(** * Circuit-breaker vocabulary and configuration

    Models the first part of [uam-backend/src/config/redisCircuitBreaker.ts]:
    the state and outcome types, the configuration record, the environment
    readers [intEnv]/[floatEnv], [defaultCircuitBreakerConfig] and
    [clampConfig].  Warnings printed on stderr have no effect on the result
    and are left out.  Thresholds that the code reads with [floatEnv] are
    exact rationals. *)

From S2P Require Import Prelude.
#[local] Open Scope string_scope.
#[local] Open Scope Z_scope.

Inductive CircuitState := CLOSED | OPEN | HALF_OPEN.

Inductive RedisCallOutcome :=
  | SUCCESS
  | REDIS_ERROR
  | TIMEOUT
  | CIRCUIT_OPEN
  | CONCURRENCY_REJECTED.

#[export] Instance CircuitState_eq_dec : EqDecision CircuitState.
Proof. solve_decision. Defined.

#[export] Instance RedisCallOutcome_eq_dec : EqDecision RedisCallOutcome.
Proof. solve_decision. Defined.

Definition STATE_VALUE (s : CircuitState) : Z :=
  match s with CLOSED => 0 | OPEN => 1 | HALF_OPEN => 2 end.

Record CircuitBreakerConfig := {
  windowSecs : Z;
  minSamples : Z;
  consecutiveFailOpen : Z;
  consecutiveTimeoutOpen : Z;
  errorRateOpen : Q;
  timeoutRateOpen : Q;
  p99UsOpen : Z;
  p99UsRecovery : Q;
  errorRateRecovery : Q;
  openCooldownMs : Z;
  cooldownJitterMs : Z;
  halfOpenProbes : Z;
  recoverySuccesses : Z;
  maxInflight : Z;
  halfOpenMaxMs : Z;
  operationTimeoutMs : Z;
}.

(** ** Reading the environment: [process.env] is a partial map. *)

Definition Env := string → option string.

(** [if (!raw) return fallback]: unset and empty are both falsy. *)
Definition intEnv (env : Env) (name : string) (fallback : Z) : Z :=
  match env name with
  | None | Some "" => fallback
  | Some raw => match parseInt10 raw with Fin n => n | _ => fallback end
  end.

Definition floatEnv (env : Env) (name : string) (fallback : Q) : Q :=
  match env name with
  | None | Some "" => fallback
  | Some raw => match parseFloat raw with Fin n => n | _ => fallback end
  end.

Definition defaultCircuitBreakerConfig (env : Env) : CircuitBreakerConfig := {|
  windowSecs := intEnv env "REDIS_CB_WINDOW_SECS" 10;
  minSamples := intEnv env "REDIS_CB_MIN_SAMPLES" 20;
  consecutiveFailOpen := intEnv env "REDIS_CB_CONSECUTIVE_FAIL_OPEN" 5;
  consecutiveTimeoutOpen := intEnv env "REDIS_CB_CONSECUTIVE_TIMEOUT_OPEN" 3;
  errorRateOpen := floatEnv env "REDIS_CB_ERROR_RATE_OPEN" (1 # 2);
  timeoutRateOpen := floatEnv env "REDIS_CB_TIMEOUT_RATE_OPEN" (4 # 10);
  p99UsOpen := intEnv env "REDIS_CB_P99_US_OPEN" 250000;
  p99UsRecovery := floatEnv env "REDIS_CB_P99_US_RECOVERY" 50000;
  errorRateRecovery := floatEnv env "REDIS_CB_ERROR_RATE_RECOVERY" (1 # 10);
  openCooldownMs := intEnv env "REDIS_CB_OPEN_COOLDOWN_MS" 5000;
  cooldownJitterMs := intEnv env "REDIS_CB_COOLDOWN_JITTER_MS" 2000;
  halfOpenProbes := intEnv env "REDIS_CB_HALF_OPEN_PROBES" 3;
  recoverySuccesses := intEnv env "REDIS_CB_RECOVERY_SUCCESSES" 3;
  maxInflight := intEnv env "REDIS_CB_MAX_INFLIGHT" 32;
  halfOpenMaxMs := intEnv env "REDIS_CB_HALF_OPEN_MAX_MS" 10000;
  operationTimeoutMs := intEnv env "REDIS_CB_OPERATION_TIMEOUT_MS" 5000;
|}.

(** [Math.min(hi, Math.max(lo, v))] on integers and on rationals. *)
Definition clampZ (lo hi v : Z) : Z := Z.min hi (Z.max lo v).
Definition clampQ (lo hi v : Q) : Q := Qmin hi (Qmax lo v).

Definition clampConfig (c : CircuitBreakerConfig) : CircuitBreakerConfig :=
  let probes := clampZ 1 20 (halfOpenProbes c) in
  let recovery := clampZ 1 20 (recoverySuccesses c) in
  {|
    windowSecs := clampZ 1 60 (windowSecs c);
    minSamples := clampZ 5 1000 (minSamples c);
    consecutiveFailOpen := clampZ 1 100 (consecutiveFailOpen c);
    consecutiveTimeoutOpen := clampZ 1 100 (consecutiveTimeoutOpen c);
    errorRateOpen := clampQ 0 1 (errorRateOpen c);
    timeoutRateOpen := clampQ 0 1 (timeoutRateOpen c);
    p99UsOpen := clampZ 1000 60000000 (p99UsOpen c);
    p99UsRecovery := clampQ 1000 60000000 (p99UsRecovery c);
    errorRateRecovery := clampQ 0 1 (errorRateRecovery c);
    openCooldownMs := clampZ 100 300000 (openCooldownMs c);
    cooldownJitterMs := clampZ 0 60000 (cooldownJitterMs c);
    halfOpenProbes := probes;
    recoverySuccesses := if probes <? recovery then probes else recovery;
    maxInflight := clampZ 1 10000 (maxInflight c);
    halfOpenMaxMs := clampZ 1000 600000 (halfOpenMaxMs c);
    operationTimeoutMs := clampZ 100 60000 (operationTimeoutMs c);
  |}.

(** ** What every running breaker may assume of its configuration *)

Record ConfigOk (c : CircuitBreakerConfig) : Prop := {
  ok_window : 1 ≤ windowSecs c ≤ 60;
  ok_samples : 5 ≤ minSamples c ≤ 1000;
  ok_fail : 1 ≤ consecutiveFailOpen c ≤ 100;
  ok_timeout : 1 ≤ consecutiveTimeoutOpen c ≤ 100;
  ok_error_rate : (0 <= errorRateOpen c <= 1)%Q;
  ok_timeout_rate : (0 <= timeoutRateOpen c <= 1)%Q;
  ok_p99 : 1000 ≤ p99UsOpen c ≤ 60000000;
  ok_p99_recovery : (1000 <= p99UsRecovery c <= 60000000)%Q;
  ok_error_recovery : (0 <= errorRateRecovery c <= 1)%Q;
  ok_cooldown : 100 ≤ openCooldownMs c ≤ 300000;
  ok_jitter : 0 ≤ cooldownJitterMs c ≤ 60000;
  ok_probes : 1 ≤ halfOpenProbes c ≤ 20;
  ok_recovery : 1 ≤ recoverySuccesses c ≤ halfOpenProbes c;
  ok_inflight : 1 ≤ maxInflight c ≤ 10000;
  ok_half_open : 1000 ≤ halfOpenMaxMs c ≤ 600000;
  ok_operation : 100 ≤ operationTimeoutMs c ≤ 60000;
}.

Lemma clampZ_bounds lo hi v : lo ≤ hi → lo ≤ clampZ lo hi v ≤ hi.
Proof. unfold clampZ. lia. Qed.

Lemma clampZ_id lo hi v : lo ≤ v ≤ hi → clampZ lo hi v = v.
Proof. unfold clampZ. lia. Qed.

Lemma clampQ_bounds lo hi v : (lo <= hi)%Q → (lo <= clampQ lo hi v <= hi)%Q.
Proof.
  intros H. unfold clampQ. split; [|apply Q.le_min_l].
  apply Q.min_glb; [done|apply Q.le_max_l].
Qed.

Lemma clampQ_id lo hi v : (lo <= v <= hi)%Q → (clampQ lo hi v == v)%Q.
Proof.
  intros [H1 H2]. unfold clampQ. rewrite (Q.max_r lo v H1). by apply Q.min_r.
Qed.

#[export] Hint Resolve clampZ_bounds clampQ_bounds : uam.

(** Whatever the environment holds, the configuration a breaker runs
    with lies in the documented ranges, and recovery stays possible: the
    number of successes it waits for never exceeds the number of probes it
    lets through. *)
Theorem clampConfig_ok (c : CircuitBreakerConfig) : ConfigOk (clampConfig c).
Proof.
  split; cbn [clampConfig windowSecs minSamples consecutiveFailOpen
    consecutiveTimeoutOpen errorRateOpen timeoutRateOpen p99UsOpen p99UsRecovery
    errorRateRecovery openCooldownMs cooldownJitterMs halfOpenProbes
    recoverySuccesses maxInflight halfOpenMaxMs operationTimeoutMs];
    try (apply clampZ_bounds; lia); try (apply clampQ_bounds; vm_compute; congruence).
  pose proof (clampZ_bounds 1 20 (halfOpenProbes c) ltac:(lia)).
  pose proof (clampZ_bounds 1 20 (recoverySuccesses c) ltac:(lia)).
  split_ifs; breflect; lia.
Qed.

(** Configurations that agree up to equality of rationals. *)
Definition config_equiv (c d : CircuitBreakerConfig) : Prop :=
  windowSecs c = windowSecs d ∧ minSamples c = minSamples d ∧
  consecutiveFailOpen c = consecutiveFailOpen d ∧
  consecutiveTimeoutOpen c = consecutiveTimeoutOpen d ∧
  (errorRateOpen c == errorRateOpen d)%Q ∧ (timeoutRateOpen c == timeoutRateOpen d)%Q ∧
  p99UsOpen c = p99UsOpen d ∧ (p99UsRecovery c == p99UsRecovery d)%Q ∧
  (errorRateRecovery c == errorRateRecovery d)%Q ∧
  openCooldownMs c = openCooldownMs d ∧ cooldownJitterMs c = cooldownJitterMs d ∧
  halfOpenProbes c = halfOpenProbes d ∧ recoverySuccesses c = recoverySuccesses d ∧
  maxInflight c = maxInflight d ∧ halfOpenMaxMs c = halfOpenMaxMs d ∧
  operationTimeoutMs c = operationTimeoutMs d.

(** A configuration already in range is left as it is: clamping only ever
    repairs. *)
Lemma clampConfig_id (c : CircuitBreakerConfig) : ConfigOk c → config_equiv (clampConfig c) c.
Proof.
  intros []. unfold config_equiv, clampConfig; cbn.
  repeat split; try (apply clampZ_id; lia); try (apply clampQ_id; done).
  rewrite !clampZ_id by lia. split_ifs; breflect; lia.
Qed.

(** The defaults are in range. *)
Example default_config_ok : ConfigOk (defaultCircuitBreakerConfig (λ _, None)).
Proof. split; vm_compute; split; congruence. Qed.
