(* ===== verification/RollingWindow.v ===== *)
(** * The rolling latency window

    Models [RollingWindow], [errorRate], [timeoutRate] and [percentileUs] of
    [uam-backend/src/config/redisCircuitBreaker.ts].  The window is a ring of
    one-second buckets; [Date.now()] is an argument (milliseconds).  The
    second half of the file gives the window its meaning: a bucket ring built
    by [record] from a log of calls answers [aggregate] with exact statistics
    of the recent part of that log. *)

From Stdlib Require Import Sorted.
From S2P Require Import Prelude CircuitConfig.
#[local] Open Scope Z_scope.

Definition HIST_BANDS : nat := 18.

Definition HIST_BOUNDS_US : list Z := [
  500; 1000; 2000; 4000; 8000; 16000; 32000; 64000;
  100000; 150000; 200000; 300000; 400000; 500000;
  750000; 1000000; 2000000 ].

Definition MAX_WINDOW_BUCKETS : Z := 64.

Record TimeBucket := {
  ts : Z;
  total : Z;
  errors : Z;
  timeouts : Z;
  latencySum : Z;
  hist : list Z;
}.

Record WindowStats := {
  w_total : Z;
  w_errors : Z;
  w_timeouts : Z;
  w_hist : list Z;
}.

(** The private field [buckets]. *)
Abbreviation RollingWindow := (list TimeBucket).

(** The bucket literal of the constructor, and what [record] and [reset]
    write back field by field. *)
Definition empty_bucket (t : Z) : TimeBucket :=
  {| ts := t; total := 0; errors := 0; timeouts := 0; latencySum := 0;
     hist := replicate HIST_BANDS 0 |}.

Definition new_RollingWindow (size : Z) : RollingWindow :=
  replicate (Z.to_nat (Z.min MAX_WINDOW_BUCKETS (Z.max 1 size))) (empty_bucket 0).

(** [Math.floor(Date.now() / 1000)] *)
Definition nowSecs (now : Z) : Z := now / 1000.

(** The index of the first bound that the latency does not exceed, the last
    (open-ended) band when there is none. *)
Fixpoint find_band (bounds : list Z) (i : nat) (latencyUs : Z) : nat :=
  match bounds with
  | [] => (HIST_BANDS - 1)%nat
  | b :: bs => if latencyUs <=? b then i else find_band bs (S i) latencyUs
  end.

Definition band_of (latencyUs : Z) : nat := find_band HIST_BOUNDS_US 0 latencyUs.

(** What [record] does to its bucket once the bucket is current. *)
Definition record_bucket (b : TimeBucket) (outcome : RedisCallOutcome) (latencyUs : Z) : TimeBucket :=
  {| ts := ts b;
     total := total b + 1;
     errors := errors b + (if decide (outcome = REDIS_ERROR) then 1 else 0);
     timeouts := timeouts b + (if decide (outcome = TIMEOUT) then 1 else 0);
     latencySum := latencySum b + latencyUs;
     hist := alter (Z.add 1) (band_of latencyUs) (hist b) |}.

(** The index of the bucket in charge of second [t]. *)
Definition slot (w : RollingWindow) (t : Z) : nat := Z.to_nat (t mod Z.of_nat (length w)).

Definition record (w : RollingWindow) (now : Z) (outcome : RedisCallOutcome) (latencyUs : Z)
    : RollingWindow :=
  let t := nowSecs now in
  alter (λ b, let b' := if ts b =? t then b else empty_bucket t in
              record_bucket b' outcome latencyUs) (slot w t) w.

Definition empty_stats : WindowStats :=
  {| w_total := 0; w_errors := 0; w_timeouts := 0; w_hist := replicate HIST_BANDS 0 |}.

Definition add_bucket (s : WindowStats) (b : TimeBucket) : WindowStats :=
  {| w_total := w_total s + total b;
     w_errors := w_errors s + errors b;
     w_timeouts := w_timeouts s + timeouts b;
     w_hist := zip_with Z.add (w_hist s) (hist b) |}.

Definition aggregate (w : RollingWindow) (now windowSecs : Z) : WindowStats :=
  let nowTs := nowSecs now in
  let cutoff := nowTs - windowSecs in
  foldl (λ s b, if (ts b <? cutoff) || (nowTs <? ts b) then s else add_bucket s b)
    empty_stats w.

Definition window_reset (w : RollingWindow) : RollingWindow := map (λ _, empty_bucket 0) w.

Definition errorRate (s : WindowStats) : Q :=
  if w_total s =? 0 then 0 else inject_Z (w_errors s) / inject_Z (w_total s).

Definition timeoutRate (s : WindowStats) : Q :=
  if w_total s =? 0 then 0 else inject_Z (w_timeouts s) / inject_Z (w_total s).

(** The loop of [percentileUs] over the bands, from band [i] on. *)
Fixpoint percentile_loop (hist bounds : list Z) (cumulative target : Z) : Z :=
  match hist with
  | [] => MAX_SAFE_INTEGER
  | h :: hs =>
      let cumulative := cumulative + h in
      if target <=? cumulative then
        match bounds with b :: _ => b | [] => MAX_SAFE_INTEGER end
      else percentile_loop hs (tail bounds) cumulative target
  end.

Definition percentileUs (s : WindowStats) (pct : Z) : Z :=
  if w_total s =? 0 then 0
  else percentile_loop (w_hist s) HIST_BOUNDS_US 0 (ceil_div (w_total s * pct) 100).

(** ** The log behind a window *)

Record call := { c_now : Z; c_outcome : RedisCallOutcome; c_latency : Z }.

Definition c_ts (e : call) : Z := nowSecs (c_now e).

Definition run_log (size : Z) (log : list call) : RollingWindow :=
  foldl (λ w e, record w (c_now e) (c_outcome e) (c_latency e)) (new_RollingWindow size) log.

(** A number kept per bucket, and what one call adds to it. *)
Inductive qty := QTotal | QErrors | QTimeouts | QLatency | QBand (i : nat).

#[export] Instance qty_eq_dec : EqDecision qty.
Proof. solve_decision. Defined.

Definition bucket_qty (q : qty) (b : TimeBucket) : Z :=
  match q with
  | QTotal => total b
  | QErrors => errors b
  | QTimeouts => timeouts b
  | QLatency => latencySum b
  | QBand i => hist b !!! i
  end.

Definition weight (q : qty) (e : call) : Z :=
  match q with
  | QTotal => 1
  | QErrors => if decide (c_outcome e = REDIS_ERROR) then 1 else 0
  | QTimeouts => if decide (c_outcome e = TIMEOUT) then 1 else 0
  | QLatency => c_latency e
  | QBand i => ind (band_of (c_latency e) =? i)%nat
  end.

Definition tally (q : qty) (l : list call) : Z := sumZ (map (weight q) l).

(** The statistics a reader of the log would compute. *)
Definition stats_of (l : list call) : WindowStats :=
  {| w_total := tally QTotal l;
     w_errors := tally QErrors l;
     w_timeouts := tally QTimeouts l;
     w_hist := map (λ i, tally (QBand i) l) (seq 0 HIST_BANDS) |}.

(** Which calls of the log a window of [n] seconds still shows at second
    [t]: those of the last [n] seconds and, as long as nothing was recorded
    in second [t] itself, those of second [t - n], whose bucket the ring has
    not reused yet. *)
Definition visible (n t : Z) (log : list call) (e : call) : bool :=
  (c_ts e <=? t) &&
  ((t - n <? c_ts e) || ((c_ts e =? t - n) && negb (existsb (λ e', c_ts e' =? t) log))).

(** Calls are recorded in the order of the clock. *)
Inductive clock_ordered : Z → list call → Prop :=
  | ordered_nil t : clock_ordered t []
  | ordered_snoc t log e :
      clock_ordered (c_ts e) log → 0 ≤ c_ts e ≤ t → clock_ordered t (log ++ [e]).

(** ** Helper lemmas *)

Lemma list_elem_of_snoc {A} (l : list A) x : x ∈ l ++ [x].
Proof. apply elem_of_app. right. by apply list_elem_of_singleton. Qed.

Definition qty_ok (q : qty) : Prop :=
  match q with QBand i => (i < HIST_BANDS)%nat | _ => True end.

Lemma find_band_lt bounds i l :
  (i + length bounds < HIST_BANDS)%nat → (find_band bounds i l < HIST_BANDS)%nat.
Proof.
  revert i. induction bounds as [|b bs IH]; intros i H; simpl in *; [unfold HIST_BANDS in *; lia|].
  case_match; [lia|]. apply IH. lia.
Qed.

Lemma band_of_lt l : (band_of l < HIST_BANDS)%nat.
Proof. apply find_band_lt. vm_compute. lia. Qed.

#[export] Hint Resolve band_of_lt : uam.

Lemma weight_nonneg q e : q ≠ QLatency → 0 ≤ weight q e.
Proof. intros H. destruct q; simpl; try case_decide; try lia; [done|apply ind_bounds]. Qed.

Lemma record_bucket_qty q b e :
  qty_ok q → length (hist b) = HIST_BANDS →
  bucket_qty q (record_bucket b (c_outcome e) (c_latency e)) = bucket_qty q b + weight q e.
Proof.
  intros Hq Hlen. destruct q as [| | | |i]; simpl in *; try done.
  destruct (decide (band_of (c_latency e) = i)) as [<-|Hne].
  - rewrite Nat.eqb_refl, list_lookup_total_alter_eq; simpl; [lia|].
    rewrite Hlen. apply band_of_lt.
  - rewrite (proj2 (Nat.eqb_neq _ _)) by done.
    rewrite list_lookup_total_alter_ne by done. simpl. lia.
Qed.

Lemma record_bucket_len b o l : length (hist (record_bucket b o l)) = length (hist b).
Proof. simpl. by rewrite length_alter. Qed.

Lemma empty_bucket_qty q t : qty_ok q → bucket_qty q (empty_bucket t) = 0.
Proof.
  intros Hq. destruct q as [| | | |i]; try done. by apply (lookup_total_replicate_2 HIST_BANDS).
Qed.

(** The slot of a second in a ring of [n] buckets. *)
Definition slot_of (n : nat) (t : Z) : nat := Z.to_nat (t mod Z.of_nat n).

Lemma slot_of_lt n t : (0 < n)%nat → (slot_of n t < n)%nat.
Proof.
  intros Hn. unfold slot_of. pose proof (Z.mod_pos_bound t (Z.of_nat n) ltac:(lia)). lia.
Qed.

Lemma slot_of_close n t u :
  (0 < n)%nat → slot_of n t = slot_of n u → t ≤ u < t + Z.of_nat n → t = u.
Proof.
  intros Hn Heq Hle. unfold slot_of in Heq.
  pose proof (Z.mod_pos_bound t (Z.of_nat n) ltac:(lia)).
  pose proof (Z.mod_pos_bound u (Z.of_nat n) ltac:(lia)).
  pose proof (Z.div_mod t (Z.of_nat n) ltac:(lia)).
  pose proof (Z.div_mod u (Z.of_nat n) ltac:(lia)).
  assert (t mod Z.of_nat n = u mod Z.of_nat n) by lia.
  assert (0 ≤ Z.of_nat n * (u / Z.of_nat n - t / Z.of_nat n) < Z.of_nat n) by lia.
  assert (u / Z.of_nat n - t / Z.of_nat n = 0) by nia. lia.
Qed.

Lemma slot_of_shift n t : (0 < n)%nat → slot_of n (t - Z.of_nat n) = slot_of n t.
Proof.
  intros Hn. unfold slot_of. f_equal.
  replace (t - Z.of_nat n) with (t + (-1) * Z.of_nat n) by lia. apply Z.mod_add. lia.
Qed.

(** ** The ring invariant *)

(** Calls that bucket [b] at index [i] accounts for. *)
Definition owned (n i : nat) (b : TimeBucket) (e : call) : bool :=
  (c_ts e =? ts b) && (slot_of n (c_ts e) =? i)%nat.

Record bucket_inv (n : nat) (t : Z) (log : list call) (i : nat) (b : TimeBucket) : Prop := {
  bi_len : length (hist b) = HIST_BANDS;
  bi_ts : 0 ≤ ts b ≤ Z.max 0 t;
  bi_slot : ts b = 0 ∨ slot_of n (ts b) = i;
  bi_seen : ts b = 0 ∨ ∃ e, e ∈ log ∧ c_ts e = ts b;
  bi_max : ∀ e, e ∈ log → slot_of n (c_ts e) = i → c_ts e ≤ ts b;
  bi_qty : ∀ q, qty_ok q →
    bucket_qty q b = sumZ (map (λ e, ind (owned n i b e) * weight q e) log);
}.

Definition ring_inv (n : nat) (t : Z) (log : list call) (w : RollingWindow) : Prop :=
  length w = n ∧ ∀ i b, w !! i = Some b → bucket_inv n t log i b.

Lemma ring_inv_new size t :
  ring_inv (Z.to_nat (Z.min MAX_WINDOW_BUCKETS (Z.max 1 size))) t [] (new_RollingWindow size).
Proof.
  split; [apply length_replicate|].
  intros i b [-> Hi]%lookup_replicate. split; simpl.
  - done.
  - lia.
  - by left.
  - by left.
  - intros e He. by apply not_elem_of_nil in He.
  - intros q Hq. by rewrite empty_bucket_qty.
Qed.

(** A bucket that [record] does not touch. *)
Lemma bucket_inv_other n t log i b e :
  bucket_inv n t log i b → slot_of n (c_ts e) ≠ i → t ≤ c_ts e → 
  bucket_inv n (c_ts e) (log ++ [e]) i b.
Proof.
  intros [Hl Ht Hs Hseen Hm Hq] Hne Hle. split; try done.
  - lia.
  - destruct Hseen as [|(e' & He' & Hts)]; [by left|right]. exists e'. rewrite elem_of_app. auto.
  - intros e' [He'|He']%elem_of_app Hslot; [by apply Hm|].
    apply list_elem_of_singleton in He' as ->. done.
  - intros q Hok. rewrite map_app, sumZ_app, <- Hq by done. simpl.
    unfold owned. rewrite (proj2 (Nat.eqb_neq _ _)) by done.
    rewrite andb_false_r. simpl. lia.
Qed.

(** The bucket in charge of the new call, already current. *)
Lemma bucket_inv_current n t log b e :
  bucket_inv n t log (slot_of n (c_ts e)) b → ts b = c_ts e → t ≤ c_ts e → 0 ≤ c_ts e →
  bucket_inv n (c_ts e) (log ++ [e]) (slot_of n (c_ts e))
    (record_bucket b (c_outcome e) (c_latency e)).
Proof.
  intros [Hl Ht Hs Hseen Hm Hq] Heq Hle Hpos. split; try done.
  - by rewrite record_bucket_len.
  - simpl. lia.
  - right. exists e. split; [by apply list_elem_of_snoc|done].
  - intros e' [He'|He']%elem_of_app Hslot; simpl; [by apply Hm|].
    apply list_elem_of_singleton in He' as ->. lia.
  - intros q Hok. rewrite record_bucket_qty by done.
    rewrite map_app, sumZ_app, Hq by done. f_equal. simpl.
    unfold owned; simpl. rewrite Heq, Z.eqb_refl, Nat.eqb_refl. simpl. lia.
Qed.

(** The bucket in charge of the new call, left over from an earlier second. *)
Lemma bucket_inv_stale n t log b e :
  bucket_inv n t log (slot_of n (c_ts e)) b → ts b ≠ c_ts e → t ≤ c_ts e → 0 ≤ c_ts e →
  (∀ e', e' ∈ log → c_ts e' ≤ c_ts e) →
  bucket_inv n (c_ts e) (log ++ [e]) (slot_of n (c_ts e))
    (record_bucket (empty_bucket (c_ts e)) (c_outcome e) (c_latency e)).
Proof.
  intros [Hl Ht Hs Hseen Hm Hq] Hne Hle Hpos Hall. split.
  - by rewrite record_bucket_len.
  - simpl. lia.
  - by right.
  - right. exists e. split; [by apply list_elem_of_snoc|done].
  - intros e' [He'|He']%elem_of_app Hslot; simpl; [by apply Hall|].
    apply list_elem_of_singleton in He' as ->. lia.
  - intros q Hok. rewrite record_bucket_qty, empty_bucket_qty by done.
    rewrite map_app, sumZ_app. simpl. rewrite sumZ_map_zero.
    + unfold owned; simpl. rewrite Z.eqb_refl, Nat.eqb_refl. simpl. lia.
    + intros e' He'. unfold owned; simpl.
      destruct (c_ts e' =? c_ts e) eqn:E1; [|done].
      destruct (slot_of n (c_ts e') =? slot_of n (c_ts e))%nat eqn:E2; [|done].
      apply Nat.eqb_eq in E2. breflect. specialize (Hm e' He' E2). lia.
Qed.

Lemma ring_inv_record n t log w e :
  (0 < n)%nat → ring_inv n t log w → t ≤ c_ts e → 0 ≤ c_ts e →
  (∀ e', e' ∈ log → c_ts e' ≤ c_ts e) →
  ring_inv n (c_ts e) (log ++ [e]) (record w (c_now e) (c_outcome e) (c_latency e)).
Proof.
  intros Hn [Hlen Hb] Hle Hpos Hall. split.
  { unfold record. by rewrite length_alter. }
  intros i b' Hi. unfold record, slot in Hi. rewrite Hlen in Hi.
  fold (c_ts e) (slot_of n (c_ts e)) in Hi.
  destruct (decide (slot_of n (c_ts e) = i)) as [<-|Hne].
  - rewrite list_lookup_alter_eq in Hi.
    destruct (w !! _) as [b|] eqn:Hw; simpl in Hi; [|done]. injection Hi as <-.
    specialize (Hb _ _ Hw). destruct (ts b =? c_ts e) eqn:E; breflect.
    + by eapply bucket_inv_current.
    + by eapply bucket_inv_stale.
  - rewrite list_lookup_alter_ne in Hi by done. by eapply bucket_inv_other; eauto.
Qed.

Lemma clock_ordered_le t log e : clock_ordered t log → e ∈ log → 0 ≤ c_ts e ≤ t.
Proof.
  induction 1 as [t|t log e' H IH Hle]; [by intros ?%not_elem_of_nil|].
  intros [He|He]%elem_of_app; [specialize (IH He); lia|].
  apply list_elem_of_singleton in He as ->. lia.
Qed.

Lemma ring_inv_mono n t t' log w : ring_inv n t log w → t ≤ t' → ring_inv n t' log w.
Proof.
  intros [Hl Hb] Hle. split; [done|]. intros i b Hi. destruct (Hb i b Hi). split; try done. lia.
Qed.

(** Every window reached by recording a clock-ordered log satisfies the
    invariant. *)
Lemma ring_inv_run n t log :
  (0 < n ≤ 64)%nat → clock_ordered t log → ring_inv n t log (run_log (Z.of_nat n) log).
Proof.
  intros Hn Hlog. induction Hlog as [t|t log e Hlog IH Hle].
  - replace n with (Z.to_nat (Z.min MAX_WINDOW_BUCKETS (Z.max 1 (Z.of_nat n)))) at 1
      by (unfold MAX_WINDOW_BUCKETS; lia).
    apply ring_inv_new.
  - unfold run_log. rewrite foldl_app. simpl. fold (run_log (Z.of_nat n) log).
    apply (ring_inv_mono _ (c_ts e)); [|lia].
    apply (ring_inv_record n (c_ts e)); try done; try lia.
    intros e' He'. by apply (clock_ordered_le _ _ _ Hlog).
Qed.

(** ** [aggregate] against the log *)

#[export] Instance TimeBucket_inhabited : Inhabited TimeBucket := populate (empty_bucket 0).

Definition stats_qty (q : qty) (s : WindowStats) : Z :=
  match q with
  | QTotal => w_total s
  | QErrors => w_errors s
  | QTimeouts => w_timeouts s
  | QLatency => 0
  | QBand i => w_hist s !!! i
  end.

Definition in_range (now n : Z) (b : TimeBucket) : bool :=
  negb ((ts b <? nowSecs now - n) || (nowSecs now <? ts b)).

Lemma stats_eq s s' :
  length (w_hist s) = HIST_BANDS → length (w_hist s') = HIST_BANDS →
  (∀ q, qty_ok q → stats_qty q s = stats_qty q s') → s = s'.
Proof.
  destruct s as [t1 e1 o1 h1], s' as [t2 e2 o2 h2]; simpl. intros Hl1 Hl2 H.
  pose proof (H QTotal I). pose proof (H QErrors I). pose proof (H QTimeouts I). simpl in *. subst.
  f_equal. apply list_eq_same_length with HIST_BANDS; [done|done|].
  intros i x y Hi Hx Hy. specialize (H (QBand i) Hi). simpl in H.
  by rewrite (list_lookup_total_correct _ _ _ Hx), (list_lookup_total_correct _ _ _ Hy) in H.
Qed.

Lemma add_bucket_qty q s b :
  q ≠ QLatency → qty_ok q → length (w_hist s) = HIST_BANDS → length (hist b) = HIST_BANDS →
  stats_qty q (add_bucket s b) = stats_qty q s + bucket_qty q b.
Proof.
  intros Hn Hq Hs Hb. destruct q as [| | | |i]; try done. simpl in *.
  destruct (lookup_lt_is_Some_2 (w_hist s) i ltac:(lia)) as [x Hx].
  destruct (lookup_lt_is_Some_2 (hist b) i ltac:(lia)) as [y Hy].
  rewrite (list_lookup_total_correct _ _ _ Hx), (list_lookup_total_correct _ _ _ Hy).
  apply list_lookup_total_correct. by rewrite lookup_zip_with, Hx, Hy.
Qed.

Lemma aggregate_fold_qty q now n (w : RollingWindow) s :
  q ≠ QLatency → qty_ok q → length (w_hist s) = HIST_BANDS →
  Forall (λ b, length (hist b) = HIST_BANDS) w →
  let r := foldl (λ s b, if (ts b <? nowSecs now - n) || (nowSecs now <? ts b)
                         then s else add_bucket s b) s w in
  length (w_hist r) = HIST_BANDS ∧
  stats_qty q r = stats_qty q s + sumZ (map (λ b, ind (in_range now n b) * bucket_qty q b) w).
Proof.
  intros Hn Hq Hs Hw. revert s Hs. induction Hw as [|b w Hb Hw IH]; intros s Hs r; subst r.
  { simpl. split; [done|lia]. }
  cbn [foldl map]. rewrite sumZ_cons. unfold in_range at 1.
  destruct ((ts b <? nowSecs now - n) || (nowSecs now <? ts b)); cbn [negb ind].
  - destruct (IH s Hs) as [H1 H2]. split; [done|]. rewrite H2. lia.
  - assert (Hl : length (w_hist (add_bucket s b)) = HIST_BANDS).
    { unfold add_bucket. cbn [w_hist]. rewrite length_zip_with_l; lia. }
    destruct (IH _ Hl) as [H1 H2]. split; [done|]. rewrite H2, add_bucket_qty by done. lia.
Qed.

Lemma aggregate_qty q w now n :
  q ≠ QLatency → qty_ok q → Forall (λ b, length (hist b) = HIST_BANDS) w →
  length (w_hist (aggregate w now n)) = HIST_BANDS ∧
  stats_qty q (aggregate w now n) =
    sumZ (map (λ b, ind (in_range now n b) * bucket_qty q b) w).
Proof.
  intros Hn Hq Hw. destruct (aggregate_fold_qty q now n w empty_stats Hn Hq eq_refl Hw) as [H1 H2].
  split; [done|]. unfold aggregate. rewrite H2. destruct q as [| | | |i]; try done.
  cbn [stats_qty empty_stats w_hist]. by rewrite (lookup_total_replicate_2 HIST_BANDS 0 i Hq).
Qed.

Lemma sumZ_index (f : TimeBucket → Z) (w : RollingWindow) :
  sumZ (map f w) = sumZ (map (λ i, f (w !!! i)) (seq 0 (length w))).
Proof.
  induction w as [|b w IH]; [done|]. simpl. rewrite IH. f_equal.
  rewrite <- fmap_S_seq. unfold fmap. rewrite map_map. done.
Qed.

(** A sum with one non-zero term. *)
Lemma sumZ_seq_single (f : nat → Z) n j :
  (j < n)%nat → (∀ i, i ≠ j → f i = 0) → sumZ (map f (seq 0 n)) = f j.
Proof.
  intros Hj Hf. induction n as [|n IH]; [lia|].
  rewrite seq_S, map_app, sumZ_app. simpl.
  destruct (decide (j = n)) as [->|Hne].
  - rewrite sumZ_map_zero; [lia|]. intros x Hx%elem_of_seq. apply Hf. lia.
  - rewrite IH by lia. rewrite (Hf n) by done. lia.
Qed.

Lemma sumZ_filter {A} (f : A → Z) (v : A → bool) l :
  sumZ (map f (List.filter v l)) = sumZ (map (λ e, ind (v e) * f e) l).
Proof. induction l as [|x l IH]; simpl; [done|]. destruct (v x); simpl; lia. Qed.

(** The bucket in charge of a call shows it exactly when it is visible. *)
Lemma owner_shows_visible n t log (w : RollingWindow) e b :
  (0 < n)%nat → ring_inv n (nowSecs t) log w → e ∈ log → 0 ≤ c_ts e ≤ nowSecs t →
  (∀ e', e' ∈ log → 0 ≤ c_ts e') →
  w !! slot_of n (c_ts e) = Some b →
  in_range t (Z.of_nat n) b && (c_ts e =? ts b) = visible (Z.of_nat n) (nowSecs t) log e.
Proof.
  intros Hn [Hlen Hb] He Hle Hpos Hw. destruct (Hb _ _ Hw) as [_ Hts Hs Hseen Hm _].
  specialize (Hm e He eq_refl). unfold in_range, visible.
  set (now := nowSecs t) in *. set (N := Z.of_nat n) in *.
  assert (HN : 0 < N) by (unfold N; lia).
  destruct (Z.lt_trichotomy (c_ts e) (now - N)) as [Hlt|[Heq|Hgt]].
  - (* too old *)
    rewrite (proj2 (Z.ltb_ge (now - N) (c_ts e))) by lia.
    rewrite (proj2 (Z.eqb_neq (c_ts e) (now - N))) by lia. rewrite andb_false_r.
    destruct (c_ts e =? ts b) eqn:E; [|by rewrite andb_false_r]. breflect.
    rewrite (proj2 (Z.ltb_lt (ts b) (now - N))) by lia. done.
  - (* the boundary second *)
    rewrite (proj2 (Z.leb_le (c_ts e) now)) by lia.
    rewrite (proj2 (Z.ltb_ge (now - N) (c_ts e))) by lia.
    rewrite (proj2 (Z.eqb_eq (c_ts e) (now - N))) by done. simpl.
    destruct (existsb (λ e', c_ts e' =? now) log) eqn:E; simpl.
    + apply existsb_exists in E as (e' & He' & Hnow). breflect.
      apply list_elem_of_In in He'. destruct (Hb _ _ Hw) as [_ _ _ _ Hm' _].
      assert (c_ts e' ≤ ts b).
      { apply Hm'; [done|]. rewrite Hnow, Heq. symmetry. by apply slot_of_shift. }
      rewrite (proj2 (Z.eqb_neq (c_ts e) (ts b))) by lia. apply andb_false_r.
    + destruct (c_ts e =? ts b) eqn:E2; breflect.
      * rewrite (proj2 (Z.ltb_ge (ts b) (now - N))) by lia.
        rewrite (proj2 (Z.ltb_ge now (ts b))) by lia. done.
      * exfalso. destruct Hs as [H0|Hs]; [lia|].
        destruct Hseen as [H0|(e' & He' & Hts')]; [lia|].
        assert (ts b ≠ now).
        { intros Hn'. assert (existsb (λ e', c_ts e' =? now) log = true); [|congruence].
          apply existsb_exists. exists e'. split; [by apply list_elem_of_In|].
          apply Z.eqb_eq. lia. }
        apply E2. apply (slot_of_close n); [done|by rewrite Hs|fold N; lia].
  - (* the last [n] seconds *)
    rewrite (proj2 (Z.leb_le (c_ts e) now)) by lia.
    rewrite (proj2 (Z.ltb_lt (now - N) (c_ts e))) by lia. simpl.
    assert (c_ts e = ts b) as <-.
    { destruct Hs as [H0|Hs]; [lia|]. apply (slot_of_close n); [done|by rewrite Hs|fold N; lia]. }
    rewrite Z.eqb_refl, (proj2 (Z.ltb_ge (c_ts e) (now - N))) by lia.
    by rewrite (proj2 (Z.ltb_ge now (c_ts e))) by lia.
Qed.

Lemma ring_sum_visible q n t log (w : RollingWindow) :
  (0 < n)%nat → qty_ok q → ring_inv n (nowSecs t) log w → clock_ordered (nowSecs t) log →
  sumZ (map (λ b, ind (in_range t (Z.of_nat n) b) * bucket_qty q b) w) =
  tally q (List.filter (visible (Z.of_nat n) (nowSecs t) log) log).
Proof.
  intros Hn Hq [Hlen Hb] Hord. unfold tally. rewrite sumZ_index, sumZ_filter, Hlen.
  transitivity (sumZ (map (λ i, sumZ (map (λ e, ind (in_range t (Z.of_nat n) (w !!! i)) *
    (ind (owned n i (w !!! i) e) * weight q e)) log)) (seq 0 n))).
  { apply sumZ_map_ext. intros i Hi%elem_of_seq.
    destruct (lookup_lt_is_Some_2 w i ltac:(lia)) as [b Hw].
    rewrite (list_lookup_total_correct _ _ _ Hw). rewrite (bi_qty _ _ _ _ _ (Hb _ _ Hw) q Hq).
    clear. induction log as [|e log IH]; simpl; lia. }
  rewrite sumZ_swap. apply sumZ_map_ext. intros e He.
  rewrite (sumZ_seq_single _ n (slot_of n (c_ts e))); [|by apply slot_of_lt|].
  - destruct (lookup_lt_is_Some_2 w (slot_of n (c_ts e))) as [b Hw].
    { rewrite Hlen. by apply slot_of_lt. }
    rewrite (list_lookup_total_correct _ _ _ Hw).
    rewrite <- (owner_shows_visible n t log w e b); try done.
    + unfold owned. rewrite Nat.eqb_refl, andb_true_r.
      destruct (in_range t _ b), (c_ts e =? ts b); simpl; lia.
    + by apply (clock_ordered_le _ _ _ Hord).
    + intros e' He'. by apply (clock_ordered_le _ _ _ Hord).
  - intros i Hi. unfold owned. rewrite (proj2 (Nat.eqb_neq _ _)) by done.
    rewrite andb_false_r. simpl. lia.
Qed.

(** C2. [aggregate] refines the log.  For a window of [n] seconds on a ring
    of [n] buckets, and calls recorded in clock order, the statistics are
    exactly those of the visible calls of the log: nothing recorded in the
    last [n] seconds is lost or counted twice, and nothing older than second
    [now - n] is counted. *)
Theorem aggregate_refines_log (n : nat) (log : list call) (now : Z) :
  (1 ≤ n ≤ 60)%nat → clock_ordered (nowSecs now) log →
  aggregate (run_log (Z.of_nat n) log) now (Z.of_nat n) =
  stats_of (List.filter (visible (Z.of_nat n) (nowSecs now) log) log).
Proof.
  intros Hn Hord. pose proof (ring_inv_run n (nowSecs now) log ltac:(lia) Hord) as Hinv.
  assert (Hlens : Forall (λ b, length (hist b) = HIST_BANDS) (run_log (Z.of_nat n) log)).
  { apply Forall_lookup. intros i b Hi. by destruct (proj2 Hinv i b Hi). }
  apply stats_eq.
  - by destruct (aggregate_qty QTotal (run_log (Z.of_nat n) log) now (Z.of_nat n)).
  - done.
  - intros q Hq. destruct (decide (q = QLatency)) as [->|Hne]; [done|].
    destruct (aggregate_qty q (run_log (Z.of_nat n) log) now (Z.of_nat n) Hne Hq Hlens) as [_ ->].
    rewrite (ring_sum_visible q n now log) by (done || lia).
    destruct q as [| | | |i]; try done. symmetry.
    cbn [stats_qty stats_of w_hist]. apply list_lookup_total_correct.
    rewrite list_lookup_fmap, lookup_seq_lt by done. done.
Qed.

Definition sample_ok : call := {| c_now := 10500; c_outcome := SUCCESS; c_latency := 700 |}.
Definition sample_late : call := {| c_now := 10900; c_outcome := TIMEOUT; c_latency := 5000000 |}.
Definition sample_err : call := {| c_now := 13100; c_outcome := REDIS_ERROR; c_latency := 900 |}.
Definition sample_log : list call := [sample_ok; sample_late; sample_err].

Lemma sample_log_ordered : clock_ordered 13 sample_log.
Proof.
  apply (ordered_snoc 13 [sample_ok; sample_late] sample_err); [|vm_compute; split; congruence].
  apply (ordered_snoc 13 [sample_ok] sample_late); [|vm_compute; split; congruence].
  apply (ordered_snoc 10 [] sample_ok); [constructor|vm_compute; split; congruence].
Defined.

(** On a ring of two buckets only the last call is left at second 13. *)
Lemma aggregate_refines_log_witness :
  aggregate (run_log 2 sample_log) 13200 2 =
  stats_of (List.filter (visible 2 13 sample_log) sample_log) ∧
  w_total (aggregate (run_log 2 sample_log) 13200 2) = 1.
Proof.
  split; [|vm_compute; reflexivity].
  apply (aggregate_refines_log 2 sample_log 13200); [lia|apply sample_log_ordered].
Defined.

(** ** Percentiles *)

Definition count_le (b : Z) (l : list call) : Z := sumZ (map (λ e, ind (c_latency e <=? b)) l).

(** Calls in the first [i] bands. *)
Definition cum (i : nat) (l : list call) : Z := sumZ (map (λ e, ind (band_of (c_latency e) <? i)%nat) l).

Lemma cum_0 l : cum 0 l = 0.
Proof. by apply sumZ_map_zero. Qed.

Lemma cum_S i l : cum (S i) l = cum i l + tally (QBand i) l.
Proof.
  unfold cum, tally. rewrite <- sumZ_map_plus. apply sumZ_map_ext. intros e _. simpl.
  destruct (Nat.ltb_spec (band_of (c_latency e)) (S i)), (Nat.ltb_spec (band_of (c_latency e)) i),
    (Nat.eqb_spec (band_of (c_latency e)) i); simpl; lia.
Qed.

Lemma cum_all l : cum HIST_BANDS l = tally QTotal l.
Proof.
  apply sumZ_map_ext. intros e _. pose proof (band_of_lt (c_latency e)) as H.
  by rewrite (proj2 (Nat.ltb_lt _ _)).
Qed.

Lemma find_band_ge bounds i l : (i + length bounds < HIST_BANDS)%nat → (i ≤ find_band bounds i l)%nat.
Proof.
  revert i. induction bounds as [|b bs IH]; intros i H; simpl in *; [unfold HIST_BANDS in *; lia|].
  case_match; [lia|]. specialize (IH (S i) ltac:(lia)). lia.
Qed.

Lemma find_band_le bounds i l k b :
  StronglySorted Z.lt bounds → (i + length bounds < HIST_BANDS)%nat → bounds !! k = Some b →
  (find_band bounds i l ≤ i + k)%nat ↔ l ≤ b.
Proof.
  intros Hs. revert i k. induction Hs as [|b0 bs Hs IH Hall]; intros i k Hlen Hk; [done|].
  simpl in *. destruct k as [|k]; simpl in Hk.
  - injection Hk as ->. case_match; breflect; [lia|].
    pose proof (find_band_ge bs (S i) l ltac:(lia)). lia.
  - assert (b0 < b). { by apply (proj1 (Forall_lookup _ _) Hall k). }
    case_match; breflect; [lia|]. specialize (IH (S i) k ltac:(lia) Hk).
    rewrite <- IH. lia.
Qed.

Lemma HIST_BOUNDS_sorted : StronglySorted Z.lt HIST_BOUNDS_US.
Proof. unfold HIST_BOUNDS_US. repeat constructor. Qed.

Lemma cum_bound k b l : HIST_BOUNDS_US !! k = Some b → cum (S k) l = count_le b l.
Proof.
  intros Hk. apply sumZ_map_ext. intros e _. f_equal. apply eq_true_iff_eq.
  rewrite Nat.ltb_lt, Z.leb_le.
  rewrite <- (find_band_le _ 0 (c_latency e) k b HIST_BOUNDS_sorted ltac:(vm_compute; lia) Hk).
  fold (band_of (c_latency e)). lia.
Qed.

Definition bound_at (k : nat) : Z := default MAX_SAFE_INTEGER (HIST_BOUNDS_US !! k).

Lemma percentile_loop_spec l target m i :
  (i + m = HIST_BANDS)%nat → cum i l < target ≤ cum HIST_BANDS l →
  ∃ k, (i ≤ k < HIST_BANDS)%nat ∧
    percentile_loop (map (λ j, tally (QBand j) l) (seq i m)) (drop i HIST_BOUNDS_US) (cum i l) target
      = bound_at k ∧
    cum k l < target ≤ cum (S k) l.
Proof.
  revert i. induction m as [|m IH]; intros i Him Ht.
  { rewrite Nat.add_0_r in Him. subst. lia. }
  cbn [seq map percentile_loop]. rewrite <- cum_S.
  destruct (target <=? cum (S i) l) eqn:E; breflect.
  - exists i. split; [lia|]. split; [|lia]. unfold bound_at.
    rewrite <- (Nat.add_0_r i) at 2. rewrite <- lookup_drop. by destruct (drop i HIST_BOUNDS_US).
  - destruct (IH (S i) ltac:(lia) ltac:(lia)) as (k & Hk & Heq & Hcum).
    exists k. split; [lia|]. split; [|done]. rewrite <- Heq.
    enough (tail (drop i HIST_BOUNDS_US) = drop (S i) HIST_BOUNDS_US) as ->; [done|].
    rewrite <- (Nat.add_1_r i), <- drop_drop. by destruct (drop i HIST_BOUNDS_US).
Qed.

(** C22. [percentileUs] never under-reports.  On the statistics of any
    non-empty log it answers the least bucket bound below which at least
    [pct] percent of the calls lie ([MAX_SAFE_INTEGER] standing for the
    open-ended band). *)
Theorem percentileUs_spec (l : list call) (pct : Z) :
  l ≠ [] → 1 ≤ pct ≤ 100 →
  ∃ k, (k < HIST_BANDS)%nat ∧ percentileUs (stats_of l) pct = bound_at k ∧
    (∀ b, HIST_BOUNDS_US !! k = Some b → pct * Z.of_nat (length l) ≤ 100 * count_le b l) ∧
    (∀ j b, (j < k)%nat → HIST_BOUNDS_US !! j = Some b →
       100 * count_le b l < pct * Z.of_nat (length l)).
Proof.
  intros Hne Hpct. assert (Htot : tally QTotal l = Z.of_nat (length l)) by apply sumZ_map_const1.
  assert (Hlen : 0 < Z.of_nat (length l)) by (destruct l; [done|simpl; lia]).
  set (target := ceil_div (tally QTotal l * pct) 100).
  pose proof (ceil_div_spec (tally QTotal l * pct) 100 ltac:(lia)) as Hc. fold target in Hc.
  destruct (percentile_loop_spec l target HIST_BANDS 0) as (k & Hk & Heq & Hcum); [done| |].
  { rewrite cum_all. split; [|unfold target; apply ceil_div_le; nia].
    rewrite cum_0. nia. }
  exists k. split; [lia|]. split; [|split].
  - unfold percentileUs. cbn [stats_of w_total w_hist]. fold target.
    rewrite (proj2 (Z.eqb_neq _ _)) by lia. by rewrite <- Heq, cum_0.
  - intros b Hb. rewrite <- (cum_bound k b l Hb). lia.
  - intros j b Hj Hb. rewrite <- (cum_bound j b l Hb).
    assert (cum (S j) l ≤ cum k l); [|lia]. apply sumZ_map_le. intros e _.
    destruct (Nat.ltb_spec (band_of (c_latency e)) (S j)),
      (Nat.ltb_spec (band_of (c_latency e)) k); simpl; lia.
Qed.

Lemma percentileUs_spec_witness :
  percentileUs (stats_of sample_log) 99 = MAX_SAFE_INTEGER ∧
  percentileUs (stats_of sample_log) 50 = 1000 ∧
  ∃ k, (k < HIST_BANDS)%nat ∧ percentileUs (stats_of sample_log) 50 = bound_at k ∧
    (∀ b, HIST_BOUNDS_US !! k = Some b → 50 * 3 ≤ 100 * count_le b sample_log) ∧
    (∀ j b, (j < k)%nat → HIST_BOUNDS_US !! j = Some b → 100 * count_le b sample_log < 50 * 3).
Proof.
  split; [vm_compute; reflexivity|]. split; [vm_compute; reflexivity|].
  apply (percentileUs_spec sample_log 50); [discriminate|lia].
Defined.

(** ** Rates *)

(** The counters of a log are consistent: failures are calls. *)
Lemma tally_le q l : q = QErrors ∨ q = QTimeouts → 0 ≤ tally q l ≤ tally QTotal l.
Proof.
  intros Hq. split.
  - apply sumZ_map_nonneg. intros e _. apply weight_nonneg. by destruct Hq as [-> | ->].
  - apply sumZ_map_le. intros e _. destruct Hq as [-> | ->]; simpl; case_decide; lia.
Qed.

Lemma rate_bounds (a b : Z) : 0 ≤ a ≤ b → b ≠ 0 → (0 <= inject_Z a / inject_Z b <= 1)%Q.
Proof.
  intros Hab Hb. assert (Hp : (0 < inject_Z b)%Q) by (rewrite <- (Zlt_Qlt 0); lia). split.
  - apply Qle_shift_div_l; [done|]. rewrite Qmult_0_l. rewrite <- (Zle_Qle 0). lia.
  - apply Qle_shift_div_r; [done|]. rewrite Qmult_1_l. rewrite <- Zle_Qle. lia.
Qed.

(** The two health signals are rates: both stay in [0, 1], an empty
    window reads as healthy, and an error never shows up as a timeout nor a
    timeout as an error. *)
Theorem rates_in_unit_interval (l : list call) :
  (0 <= errorRate (stats_of l) <= 1)%Q ∧ (0 <= timeoutRate (stats_of l) <= 1)%Q ∧
  (l = [] → errorRate (stats_of l) = 0%Q ∧ timeoutRate (stats_of l) = 0%Q) ∧
  w_errors (stats_of l) + w_timeouts (stats_of l) ≤ w_total (stats_of l).
Proof.
  unfold errorRate, timeoutRate. cbn [stats_of w_total w_errors w_timeouts].
  pose proof (tally_le QErrors l (or_introl eq_refl)).
  pose proof (tally_le QTimeouts l (or_intror eq_refl)).
  split; [|split; [|split]].
  - split_ifs; breflect; [split; vm_compute; congruence|by apply rate_bounds].
  - split_ifs; breflect; [split; vm_compute; congruence|by apply rate_bounds].
  - by intros ->.
  - unfold tally. rewrite <- sumZ_map_plus. apply sumZ_map_le. intros e _. simpl.
    do 2 case_decide; try lia. congruence.
Qed.
