(* ===== verification/CircuitBreaker.v ===== *)
(** * The Redis circuit breaker

    Models the class [CircuitBreaker], [classifyRedisError] and
    [withCircuitBreaker] of [uam-backend/src/config/redisCircuitBreaker.ts].
    Every method is a function on the record of the object's fields.  The
    clock and the random source are read through a [Host]; a method runs
    synchronously, so all its readings of the clock are one value.  Log lines
    ([otelLog]) have no effect on the state and are left out. *)

From S2P Require Import Prelude CircuitConfig RollingWindow.
#[local] Open Scope string_scope.
#[local] Open Scope Z_scope.

(** What a method reads from its environment: [Date.now()] in milliseconds
    and [Math.random()] in [[0, 1)]. *)
Record Host := { now : Z; random : Q }.

Definition HostOk (h : Host) : Prop := (0 <= random h < 1)%Q.

Record CircuitBreaker := mkBreaker {
  config : CircuitBreakerConfig;
  state : CircuitState;
  openedAtMs : Z;
  cooldownMs : Z;
  consecutiveFail : Z;
  consecutiveTimeout : Z;
  probesDispatched : Z;
  halfOpenSuccesses : Z;
  halfOpenStartedAtMs : Z;
  inflight : Z;
  window : RollingWindow;
  requestsTotal : Z;
  successTotal : Z;
  errorsTotal : Z;
  timeoutsTotal : Z;
  circuitOpenTotal : Z;
  circuitHalfOpenTotal : Z;
  circuitRejectedTotal : Z;
}.

(** Field assignment, by destructuring the object once. *)
#[export] Instance set_state : Setter state := λ g '(mkBreaker c s o d f t p k a i w r u e m x y z),
  mkBreaker c (g s) o d f t p k a i w r u e m x y z.
#[export] Instance set_openedAtMs : Setter openedAtMs := λ g '(mkBreaker c s o d f t p k a i w r u e m x y z),
  mkBreaker c s (g o) d f t p k a i w r u e m x y z.
#[export] Instance set_cooldownMs : Setter cooldownMs := λ g '(mkBreaker c s o d f t p k a i w r u e m x y z),
  mkBreaker c s o (g d) f t p k a i w r u e m x y z.
#[export] Instance set_consecutiveFail : Setter consecutiveFail := λ g '(mkBreaker c s o d f t p k a i w r u e m x y z),
  mkBreaker c s o d (g f) t p k a i w r u e m x y z.
#[export] Instance set_consecutiveTimeout : Setter consecutiveTimeout := λ g '(mkBreaker c s o d f t p k a i w r u e m x y z),
  mkBreaker c s o d f (g t) p k a i w r u e m x y z.
#[export] Instance set_probesDispatched : Setter probesDispatched := λ g '(mkBreaker c s o d f t p k a i w r u e m x y z),
  mkBreaker c s o d f t (g p) k a i w r u e m x y z.
#[export] Instance set_halfOpenSuccesses : Setter halfOpenSuccesses := λ g '(mkBreaker c s o d f t p k a i w r u e m x y z),
  mkBreaker c s o d f t p (g k) a i w r u e m x y z.
#[export] Instance set_halfOpenStartedAtMs : Setter halfOpenStartedAtMs := λ g '(mkBreaker c s o d f t p k a i w r u e m x y z),
  mkBreaker c s o d f t p k (g a) i w r u e m x y z.
#[export] Instance set_inflight : Setter inflight := λ g '(mkBreaker c s o d f t p k a i w r u e m x y z),
  mkBreaker c s o d f t p k a (g i) w r u e m x y z.
#[export] Instance set_window : Setter window := λ g '(mkBreaker c s o d f t p k a i w r u e m x y z),
  mkBreaker c s o d f t p k a i (g w) r u e m x y z.
#[export] Instance set_requestsTotal : Setter requestsTotal := λ g '(mkBreaker c s o d f t p k a i w r u e m x y z),
  mkBreaker c s o d f t p k a i w (g r) u e m x y z.
#[export] Instance set_successTotal : Setter successTotal := λ g '(mkBreaker c s o d f t p k a i w r u e m x y z),
  mkBreaker c s o d f t p k a i w r (g u) e m x y z.
#[export] Instance set_errorsTotal : Setter errorsTotal := λ g '(mkBreaker c s o d f t p k a i w r u e m x y z),
  mkBreaker c s o d f t p k a i w r u (g e) m x y z.
#[export] Instance set_timeoutsTotal : Setter timeoutsTotal := λ g '(mkBreaker c s o d f t p k a i w r u e m x y z),
  mkBreaker c s o d f t p k a i w r u e (g m) x y z.
#[export] Instance set_circuitOpenTotal : Setter circuitOpenTotal := λ g '(mkBreaker c s o d f t p k a i w r u e m x y z),
  mkBreaker c s o d f t p k a i w r u e m (g x) y z.
#[export] Instance set_circuitHalfOpenTotal : Setter circuitHalfOpenTotal := λ g '(mkBreaker c s o d f t p k a i w r u e m x y z),
  mkBreaker c s o d f t p k a i w r u e m x (g y) z.
#[export] Instance set_circuitRejectedTotal : Setter circuitRejectedTotal := λ g '(mkBreaker c s o d f t p k a i w r u e m x y z),
  mkBreaker c s o d f t p k a i w r u e m x y (g z).

Definition new_CircuitBreaker (c : CircuitBreakerConfig) : CircuitBreaker :=
  let config := clampConfig c in
  {| config := config; state := CLOSED; openedAtMs := 0; cooldownMs := 0;
     consecutiveFail := 0; consecutiveTimeout := 0; probesDispatched := 0;
     halfOpenSuccesses := 0; halfOpenStartedAtMs := 0; inflight := 0;
     window := new_RollingWindow (windowSecs config);
     requestsTotal := 0; successTotal := 0; errorsTotal := 0; timeoutsTotal := 0;
     circuitOpenTotal := 0; circuitHalfOpenTotal := 0; circuitRejectedTotal := 0 |}.

Definition currentState (b : CircuitBreaker) : CircuitState := state b.
Definition isClosed (b : CircuitBreaker) : bool := bool_decide (state b = CLOSED).
Definition inflightCount (b : CircuitBreaker) : Z := inflight b.

(** [this.window.aggregate(this.config.windowSecs)] *)
Definition stats (h : Host) (b : CircuitBreaker) : WindowStats :=
  aggregate (window b) (now h) (windowSecs (config b)).

Definition p50Us (h : Host) (b : CircuitBreaker) : Z := percentileUs (stats h b) 50.
Definition p95Us (h : Host) (b : CircuitBreaker) : Z := percentileUs (stats h b) 95.
Definition p99Us (h : Host) (b : CircuitBreaker) : Z := percentileUs (stats h b) 99.
Definition breakerErrorRate (h : Host) (b : CircuitBreaker) : Q := errorRate (stats h b).

(** [cfg.openCooldownMs + jitterMs] *)
Definition effectiveCooldown (h : Host) (cfg : CircuitBreakerConfig) : Z :=
  let jitterMs :=
    if 0 <? cooldownJitterMs cfg
    then Qfloor (random h * inject_Z (cooldownJitterMs cfg)) else 0 in
  openCooldownMs cfg + jitterMs.

Definition tripOpen (h : Host) (b : CircuitBreaker) : CircuitBreaker :=
  if decide (state b = OPEN) then b
  else b <| state := OPEN |> <| openedAtMs := now h |>
         <| cooldownMs := effectiveCooldown h (config b) |>
         <| circuitOpenTotal ::= Z.succ |>.

(** The condition under which the statistical detector opens the circuit. *)
Definition statistically_bad (h : Host) (b : CircuitBreaker) : bool :=
  let cfg := config b in
  let s := stats h b in
  negb (w_total s <? minSamples cfg) &&
  (Qle_bool (errorRateOpen cfg) (errorRate s)
   || Qle_bool (timeoutRateOpen cfg) (timeoutRate s)
   || (p99UsOpen cfg <=? percentileUs s 99)).

Definition checkStatisticalOpen (h : Host) (b : CircuitBreaker) : CircuitBreaker :=
  if statistically_bad h b then tripOpen h b else b.

Definition acquireHalfOpen (h : Host) (b : CircuitBreaker)
    : option RedisCallOutcome * CircuitBreaker :=
  if halfOpenMaxMs (config b) <=? now h - halfOpenStartedAtMs b then
    let b := if decide (state b = HALF_OPEN) then tripOpen h b else b in
    (Some CIRCUIT_OPEN, b <| circuitRejectedTotal ::= Z.succ |>)
  else if halfOpenProbes (config b) <=? probesDispatched b then
    (Some CIRCUIT_OPEN, b <| circuitRejectedTotal ::= Z.succ |>)
  else if halfOpenProbes (config b) <=? inflight b then
    (Some CONCURRENCY_REJECTED, b <| circuitRejectedTotal ::= Z.succ |>)
  else (None, b <| probesDispatched ::= Z.succ |> <| inflight ::= Z.succ |>).

Definition acquire (h : Host) (b : CircuitBreaker) : option RedisCallOutcome * CircuitBreaker :=
  match state b with
  | CLOSED =>
      if maxInflight (config b) <=? inflight b
      then (Some CONCURRENCY_REJECTED, b <| circuitRejectedTotal ::= Z.succ |>)
      else (None, b <| inflight ::= Z.succ |>)
  | OPEN =>
      if cooldownMs b <=? now h - openedAtMs b then
        acquireHalfOpen h
          (b <| state := HALF_OPEN |> <| probesDispatched := 0 |>
             <| halfOpenSuccesses := 0 |> <| halfOpenStartedAtMs := now h |>
             <| circuitHalfOpenTotal ::= Z.succ |>)
      else (Some CIRCUIT_OPEN, b <| circuitRejectedTotal ::= Z.succ |>)
  | HALF_OPEN => acquireHalfOpen h b
  end.

(** The recovery test of a successful probe. *)
Definition recovered (h : Host) (b : CircuitBreaker) : bool :=
  Qle_bool (inject_Z (percentileUs (stats h b) 99)) (p99UsRecovery (config b))
  && Qle_bool (errorRate (stats h b)) (errorRateRecovery (config b)).

Definition release_success (h : Host) (b : CircuitBreaker) : CircuitBreaker :=
  let b := b <| successTotal ::= Z.succ |> <| consecutiveFail := 0 |>
             <| consecutiveTimeout := 0 |> in
  match state b with
  | HALF_OPEN =>
      let b := b <| halfOpenSuccesses ::= Z.succ |> in
      if (recoverySuccesses (config b) <=? halfOpenSuccesses b) && recovered h b
      then b <| state := CLOSED |> else b
  | _ => checkStatisticalOpen h b
  end.

Definition release_timeout (h : Host) (b : CircuitBreaker) : CircuitBreaker :=
  let b := b <| timeoutsTotal ::= Z.succ |> <| consecutiveFail ::= Z.succ |>
             <| consecutiveTimeout ::= Z.succ |> in
  match state b with
  | HALF_OPEN => tripOpen h b
  | _ =>
      if (consecutiveTimeoutOpen (config b) <=? consecutiveTimeout b)
         || (consecutiveFailOpen (config b) <=? consecutiveFail b)
      then tripOpen h b else checkStatisticalOpen h b
  end.

Definition release_error (h : Host) (b : CircuitBreaker) : CircuitBreaker :=
  let b := b <| errorsTotal ::= Z.succ |> <| consecutiveFail ::= Z.succ |> in
  match state b with
  | HALF_OPEN => tripOpen h b
  | _ =>
      if consecutiveFailOpen (config b) <=? consecutiveFail b
      then tripOpen h b else checkStatisticalOpen h b
  end.

Definition release (h : Host) (b : CircuitBreaker) (outcome : RedisCallOutcome) (latencyUs : Z)
    : CircuitBreaker :=
  let b := b <| inflight ::= λ n, Z.max 0 (n - 1) |>
             <| window ::= λ w, record w (now h) outcome latencyUs |>
             <| requestsTotal ::= Z.succ |> in
  match outcome with
  | SUCCESS => release_success h b
  | TIMEOUT => release_timeout h b
  | REDIS_ERROR => release_error h b
  | CIRCUIT_OPEN | CONCURRENCY_REJECTED => b
  end.

Definition reset (b : CircuitBreaker) : CircuitBreaker :=
  b <| state := CLOSED |> <| consecutiveFail := 0 |> <| consecutiveTimeout := 0 |>
    <| probesDispatched := 0 |> <| halfOpenSuccesses := 0 |>
    <| halfOpenStartedAtMs := 0 |> <| inflight := 0 |> <| window ::= window_reset |>.

(** The parts of a thrown value that [classifyRedisError] looks at; [repr] is
    [String(err)]. *)
Record RedisFailure := { f_message : option string; f_code : option string; repr : string }.

Definition classifyRedisError (e : RedisFailure) : RedisCallOutcome :=
  let message := default (repr e) (f_message e) in
  if includes (toLowerCase message) "timed out"
     || includes (toLowerCase message) "wouldblock"
     || includes (toLowerCase message) "timeout"
     || bool_decide (f_code e = Some "ETIMEDOUT")
  then TIMEOUT else REDIS_ERROR.

#[global] Arguments aggregate : simpl never.
#[global] Arguments record : simpl never.
#[global] Arguments percentileUs : simpl never.
#[global] Arguments errorRate : simpl never.
#[global] Arguments timeoutRate : simpl never.

(** ** Frames: what a step leaves alone *)

Lemma tripOpen_config h b : config (tripOpen h b) = config b.
Proof. unfold tripOpen. case_decide; [done|by destruct b]. Qed.

Lemma tripOpen_state h b : state (tripOpen h b) = OPEN.
Proof. unfold tripOpen. case_decide; [done|by destruct b]. Qed.

Lemma tripOpen_inflight h b : inflight (tripOpen h b) = inflight b.
Proof. unfold tripOpen. case_decide; [done|by destruct b]. Qed.

Lemma check_config h b : config (checkStatisticalOpen h b) = config b.
Proof. unfold checkStatisticalOpen. case_match; [apply tripOpen_config|done]. Qed.

Lemma check_inflight h b : inflight (checkStatisticalOpen h b) = inflight b.
Proof. unfold checkStatisticalOpen. case_match; [apply tripOpen_inflight|done]. Qed.

#[export] Hint Rewrite tripOpen_config tripOpen_state tripOpen_inflight check_config
  check_inflight : uam.

(** Run a method on an explicit object and split its conditionals. *)
Ltac cb_cases :=
  repeat (cbn in *; match goal with
    | |- context [match ?s with CLOSED => _ | OPEN => _ | HALF_OPEN => _ end] => destruct s eqn:?
    | |- context [if ?c then _ else _] => destruct c eqn:?
    end); cbn in *; autorewrite with uam; cbn in *.

Lemma acquire_config h b : config (acquire h b).2 = config b.
Proof. destruct b. unfold acquire, acquireHalfOpen. cb_cases; done. Qed.

Lemma release_config h b o l : config (release h b o l) = config b.
Proof.
  destruct b. unfold release, release_success, release_timeout, release_error.
  destruct o; cb_cases; done.
Qed.

Lemma release_inflight h b o l : inflight (release h b o l) = Z.max 0 (inflight b - 1).
Proof.
  destruct b. unfold release, release_success, release_timeout, release_error.
  destruct o; cb_cases; done.
Qed.

#[export] Hint Rewrite acquire_config release_config release_inflight : uam.

(** [release] is only ever called with the outcome of a call that ran. *)
Definition ran (o : RedisCallOutcome) : Prop := o = SUCCESS ∨ o = REDIS_ERROR ∨ o = TIMEOUT.

Definition failed (o : RedisCallOutcome) : Prop := o = REDIS_ERROR ∨ o = TIMEOUT.

(** Why a closed circuit opens: a run of failures reached a threshold, or the
    rolling statistics are bad. *)
Definition open_reason (h : Host) (o : RedisCallOutcome) (b' : CircuitBreaker) : Prop :=
  (failed o ∧ consecutiveFailOpen (config b') ≤ consecutiveFail b') ∨
  (o = TIMEOUT ∧ consecutiveTimeoutOpen (config b') ≤ consecutiveTimeout b') ∨
  statistically_bad h b' = true.

Ltac cb_release b o :=
  destruct b; unfold release, release_success, release_timeout, release_error,
    checkStatisticalOpen; destruct o; cbn in *; simplify_eq;
  repeat (cbn in *; match goal with
    | |- context [match ?s with CLOSED => _ | OPEN => _ | HALF_OPEN => _ end] => destruct s eqn:?
    | |- context [if ?c then _ else _] => destruct c eqn:?
    end); cbn in *; rewrite ?tripOpen_state; cbn in *.

(** Opening the circuit does not change what the detectors look at. *)
Lemma tripOpen_signals h b :
  window (tripOpen h b) = window b ∧ consecutiveFail (tripOpen h b) = consecutiveFail b ∧
  consecutiveTimeout (tripOpen h b) = consecutiveTimeout b.
Proof. unfold tripOpen. case_decide; [done|by destruct b]. Qed.

Lemma open_reason_trip h o b : open_reason h o b → open_reason h o (tripOpen h b).
Proof.
  unfold open_reason, statistically_bad, stats. rewrite !tripOpen_config.
  destruct (tripOpen_signals h b) as (-> & -> & ->). done.
Qed.

Lemma release_from_closed h b o l :
  ran o → state b = CLOSED →
  let b' := release h b o l in
  state b' = CLOSED ∧ ¬ open_reason h o b' ∨ state b' = OPEN ∧ open_reason h o b'.
Proof.
  intros Ho Hs. cbn zeta. unfold release.
  set (b0 := b <| inflight ::= _ |> <| window ::= _ |> <| requestsTotal ::= _ |>).
  assert (Hs0 : state b0 = CLOSED) by (by destruct b). clearbody b0. clear b Hs.
  destruct Ho as [-> | [-> | ->]].
  - unfold release_success. destruct b0; cbn in Hs0; subst; cbn. unfold checkStatisticalOpen.
    case_match eqn:E.
    + right. rewrite tripOpen_state. split; [done|]. apply open_reason_trip. by right; right.
    + left. split; [done|]. unfold open_reason, failed. rewrite E. intros [[[?|?] _]|[[? _]|?]]; done.
  - unfold release_error. destruct b0; cbn in Hs0; subst; cbn. unfold checkStatisticalOpen.
    case_match eqn:E; [|case_match eqn:E2].
    + right. rewrite tripOpen_state. split; [done|]. apply open_reason_trip. left.
      cbn. breflect. by split; [left|].
    + right. rewrite tripOpen_state. split; [done|]. apply open_reason_trip. by right; right.
    + left. split; [done|]. unfold open_reason, failed. rewrite E2. cbn. breflect.
      intros [[_ ?]|[[? _]|?]]; [lia|done|done].
  - unfold release_timeout. destruct b0; cbn in Hs0; subst; cbn. unfold checkStatisticalOpen.
    case_match eqn:E; [|case_match eqn:E2].
    + right. rewrite tripOpen_state. split; [done|]. apply open_reason_trip. unfold open_reason.
      cbn. unfold failed. breflect. destruct E; breflect; auto.
    + right. rewrite tripOpen_state. split; [done|]. apply open_reason_trip. by right; right.
    + left. split; [done|]. unfold open_reason, failed. rewrite E2. cbn. breflect.
      intros [[_ ?]|[[_ ?]|?]]; [lia|lia|done].
Qed.

Lemma release_from_open h b o l : state b = OPEN → state (release h b o l) = OPEN.
Proof. intros Hs. cb_release b o; subst; done. Qed.

Lemma release_from_half_open h b o l :
  ran o → state b = HALF_OPEN →
  let b' := release h b o l in
  (failed o → state b' = OPEN) ∧
  (o = SUCCESS → halfOpenSuccesses b' = halfOpenSuccesses b + 1 ∧
     (state b' = HALF_OPEN ∨ state b' = CLOSED) ∧
     (state b' = CLOSED ↔
        recoverySuccesses (config b) ≤ halfOpenSuccesses b + 1 ∧ recovered h b' = true)).
Proof.
  intros Ho Hs. cbn zeta. split.
  - intros [-> | ->]; destruct b; cbn in Hs; subst; cbn; by rewrite tripOpen_state.
  - intros ->. destruct b; cbn in Hs; subst; cbn.
    destruct (recoverySuccesses _ <=? _) eqn:E1; destruct (recovered h _) eqn:E2; cbn.
    all: unfold recovered, stats in *; cbn in *; rewrite ?E2; breflect;
      split; [lia|]; split; [auto|]; split; [|intros [? ?]];
      solve [done | lia | intros; split; [lia|done]].
Qed.

(** C1. The circuit moves only along the edges of its state machine, and each
    edge is taken exactly on its documented condition.  A closed circuit opens
    if and only if a consecutive-failure threshold is reached or the rolling
    statistics are bad; an open circuit ignores late results; a half-open
    circuit opens on any failed probe and closes if and only if enough probes
    succeeded and the recovery thresholds hold. *)
Theorem release_transitions (h : Host) (b : CircuitBreaker) (o : RedisCallOutcome) (l : Z) :
  ran o →
  let b' := release h b o l in
  match state b with
  | CLOSED => (state b' = OPEN ∧ open_reason h o b') ∨ (state b' = CLOSED ∧ ¬ open_reason h o b')
  | OPEN => state b' = OPEN
  | HALF_OPEN =>
      (failed o → state b' = OPEN) ∧
      (o = SUCCESS → (state b' = HALF_OPEN ∨ state b' = CLOSED) ∧
         (state b' = CLOSED ↔
            recoverySuccesses (config b) ≤ halfOpenSuccesses b + 1 ∧ recovered h b' = true))
  end.
Proof.
  intros Ho b'. destruct (state b) eqn:Hs.
  - destruct (release_from_closed h b o l Ho Hs); [by right|by left].
  - by apply release_from_open.
  - destruct (release_from_half_open h b o l Ho Hs) as [H1 H2]. split; [done|].
    intros Hsucc. by destruct (H2 Hsucc).
Qed.

Lemma release_transitions_witness :
  let h := {| now := 1000000; random := 0 |} in
  let b := new_CircuitBreaker (defaultCircuitBreakerConfig (λ _, None)) in
  let b2 := release h (release h b TIMEOUT 10) TIMEOUT 10 in
  state (release h b2 TIMEOUT 10) = OPEN ∧
  match state b2 with
  | CLOSED => (state (release h b2 TIMEOUT 10) = OPEN ∧ open_reason h TIMEOUT (release h b2 TIMEOUT 10))
      ∨ (state (release h b2 TIMEOUT 10) = CLOSED ∧ ¬ open_reason h TIMEOUT (release h b2 TIMEOUT 10))
  | OPEN => state (release h b2 TIMEOUT 10) = OPEN
  | HALF_OPEN => True
  end.
Proof.
  split; [vm_compute; reflexivity|].
  pose proof (release_transitions {| now := 1000000; random := 0 |}
    (release {| now := 1000000; random := 0 |}
       (release {| now := 1000000; random := 0 |}
          (new_CircuitBreaker (defaultCircuitBreakerConfig (λ _, None))) TIMEOUT 10) TIMEOUT 10)
    TIMEOUT 10 (or_intror (or_intror eq_refl))) as H.
  cbv zeta in H |- *. destruct (state (release _ (release _ _ _ _) _ _)); [exact H|exact H|exact I].
Defined.

(** ** Admission *)

Lemma effectiveCooldown_bounds h c :
  HostOk h → ConfigOk c →
  openCooldownMs c ≤ effectiveCooldown h c ≤ openCooldownMs c + cooldownJitterMs c.
Proof.
  intros [Hr1 Hr2] Hc. unfold effectiveCooldown. destruct Hc. case_match eqn:E; breflect; [|lia].
  assert (Hj : (0 < inject_Z (cooldownJitterMs c))%Q) by (rewrite <- (Zlt_Qlt 0); done).
  assert (0 ≤ Qfloor (random h * inject_Z (cooldownJitterMs c))).
  { apply (Qfloor_resp_le 0). apply Qmult_le_0_compat; [done|lra]. }
  assert (Qfloor (random h * inject_Z (cooldownJitterMs c)) ≤ cooldownJitterMs c); [|lia].
  rewrite <- (Qfloor_Z (cooldownJitterMs c)) at 2. apply Qfloor_resp_le. nra.
Qed.

(** C11. Admission control on every state.  Closed: admitted while fewer than
    [maxInflight] calls are in flight.  Open: rejected without touching
    anything but the rejection counter until the cooldown has elapsed; from
    then on the circuit is half-open.  Half-open: rejected and re-opened past
    the deadline, otherwise admitted exactly while both the probe budget and
    the in-flight budget last. *)
Theorem acquire_transitions (h : Host) (b : CircuitBreaker) :
  ConfigOk (config b) →
  let r := (acquire h b).1 in
  let b' := (acquire h b).2 in
  match state b with
  | CLOSED =>
      state b' = CLOSED ∧ (r = None ↔ inflight b < maxInflight (config b))
  | OPEN =>
      if now h - openedAtMs b <? cooldownMs b
      then r = Some CIRCUIT_OPEN ∧ b' = b <| circuitRejectedTotal ::= Z.succ |>
      else state b' = HALF_OPEN ∧ halfOpenStartedAtMs b' = now h ∧ halfOpenSuccesses b' = 0 ∧
           (r = None ↔ inflight b < halfOpenProbes (config b))
  | HALF_OPEN =>
      if halfOpenMaxMs (config b) <=? now h - halfOpenStartedAtMs b
      then r = Some CIRCUIT_OPEN ∧ state b' = OPEN ∧ openedAtMs b' = now h ∧
           cooldownMs b' = effectiveCooldown h (config b)
      else state b' = HALF_OPEN ∧
           (r = None ↔ probesDispatched b < halfOpenProbes (config b) ∧
                       inflight b < halfOpenProbes (config b))
  end.
Proof.
  intros Hok. destruct Hok as [_ _ _ _ _ _ _ _ _ _ _ Hp _ _ Hm _].
  destruct b; cbn in *. unfold acquire, acquireHalfOpen, tripOpen. cbn.
  destruct state0; cbn.
  - case_match eqn:E; cbn; breflect; (split; [done|]); split; intros; (done || lia).
  - rewrite Z.ltb_antisym.
    destruct (cooldownMs0 <=? now h - openedAtMs0) eqn:E; cbn; [|done].
    rewrite Z.sub_diag, (proj2 (Z.leb_gt _ _)) by lia.
    rewrite (proj2 (Z.leb_gt _ 0)) by lia. cbn.
    destruct (halfOpenProbes config0 <=? inflight0) eqn:E2; cbn; breflect;
      do 3 (split; [done|]); split; intros; (done || lia).
  - destruct (halfOpenMaxMs config0 <=? _) eqn:E; cbn; [done|].
    destruct (halfOpenProbes config0 <=? probesDispatched0) eqn:E2; cbn; breflect.
    { split; [done|]. split; intros; (done || lia). }
    destruct (halfOpenProbes config0 <=? inflight0) eqn:E3; cbn; breflect;
      (split; [done|]); split; intros; (done || lia).
Qed.

Lemma acquire_transitions_witness :
  let h := {| now := 7000; random := 1 # 2 |} in
  let b0 := new_CircuitBreaker (defaultCircuitBreakerConfig (λ _, None)) in
  let b := tripOpen {| now := 1000; random := 1 # 2 |} b0 in
  cooldownMs b = 6000 ∧ state (acquire h b).2 = HALF_OPEN ∧
  (if now h - openedAtMs b <? cooldownMs b
   then (acquire h b).1 = Some CIRCUIT_OPEN ∧ (acquire h b).2 = b <| circuitRejectedTotal ::= Z.succ |>
   else state (acquire h b).2 = HALF_OPEN ∧ halfOpenStartedAtMs (acquire h b).2 = now h ∧
        halfOpenSuccesses (acquire h b).2 = 0 ∧
        ((acquire h b).1 = None ↔ inflight b < halfOpenProbes (config b))).
Proof.
  split; [vm_compute; reflexivity|]. split; [vm_compute; reflexivity|].
  exact (acquire_transitions {| now := 7000; random := 1 # 2 |}
    (tripOpen {| now := 1000; random := 1 # 2 |}
      (new_CircuitBreaker (defaultCircuitBreakerConfig (λ _, None))))
    (clampConfig_ok (defaultCircuitBreakerConfig (λ _, None)))).
Defined.

(** ** Recovery is always possible *)

Lemma acquire_closed h b :
  ConfigOk (config b) → state b = CLOSED → inflight b < maxInflight (config b) →
  (acquire h b).1 = None ∧ state (acquire h b).2 = CLOSED.
Proof.
  intros Hok Hs Hi. destruct b; cbn in *; subst. unfold acquire; cbn.
  by rewrite (proj2 (Z.leb_gt _ _)) by lia.
Qed.

Lemma acquire_cooling h b :
  state b = OPEN → now h - openedAtMs b < cooldownMs b →
  (acquire h b).1 = Some CIRCUIT_OPEN ∧ state (acquire h b).2 = OPEN.
Proof.
  intros Hs Ht. destruct b; cbn in *; subst. unfold acquire; cbn.
  by rewrite (proj2 (Z.leb_gt _ _)) by lia.
Qed.

Lemma acquire_cooled h b :
  ConfigOk (config b) → state b = OPEN → cooldownMs b ≤ now h - openedAtMs b →
  inflight b < halfOpenProbes (config b) →
  (acquire h b).1 = None ∧ state (acquire h b).2 = HALF_OPEN ∧
  halfOpenStartedAtMs (acquire h b).2 = now h.
Proof.
  intros [_ _ _ _ _ _ _ _ _ _ _ Hp _ _ Hm _] Hs Ht Hi. destruct b; cbn in *; subst.
  unfold acquire, acquireHalfOpen; cbn. rewrite (proj2 (Z.leb_le _ _)) by lia. cbn.
  rewrite Z.sub_diag, (proj2 (Z.leb_gt _ _)) by lia.
  rewrite (proj2 (Z.leb_gt _ 0)) by lia. cbn.
  by rewrite (proj2 (Z.leb_gt _ inflight0)) by lia.
Qed.

Lemma acquire_overdue h b :
  state b = HALF_OPEN → halfOpenMaxMs (config b) ≤ now h - halfOpenStartedAtMs b →
  let b' := (acquire h b).2 in
  (acquire h b).1 = Some CIRCUIT_OPEN ∧ state b' = OPEN ∧ openedAtMs b' = now h ∧
  cooldownMs b' = effectiveCooldown h (config b) ∧ inflight b' = inflight b ∧ config b' = config b.
Proof.
  intros Hs Ht. destruct b; cbn in *; subst. unfold acquire, acquireHalfOpen, tripOpen; cbn.
  by rewrite (proj2 (Z.leb_le _ _)) by lia.
Qed.



(** ** The fast detector *)

Definition run_releases (b : CircuitBreaker) (l : list (Host * RedisCallOutcome * Z)) : CircuitBreaker :=
  foldl (λ b '(h, o, lat), release h b o lat) b l.

Lemma release_failed_counts h b o l :
  failed o → consecutiveFail (release h b o l) = consecutiveFail b + 1.
Proof.
  intros Ho. destruct b. unfold release, release_timeout, release_error, checkStatisticalOpen.
  destruct Ho as [-> | ->]; cbn; repeat case_match; cbn;
    repeat rewrite (proj1 (proj2 (tripOpen_signals _ _))); cbn; lia.
Qed.

Lemma run_releases_open b l : state b = OPEN → state (run_releases b l) = OPEN.
Proof.
  revert b. induction l as [|[[h o] lat] l IH]; intros b Hs; [done|].
  cbn. apply IH. by apply release_from_open.
Qed.

(** The fast detector is prompt.  From a closed circuit, at most
    [consecutiveFailOpen] failures in a row (errors or timeouts, whatever
    their latency and whatever the window holds) open it. *)
Theorem consecutive_failures_open (b : CircuitBreaker) (l : list (Host * RedisCallOutcome * Z)) :
  state b = CLOSED → 0 ≤ consecutiveFail b →
  Forall (λ '(_, o, _), failed o) l →
  consecutiveFailOpen (config b) ≤ Z.of_nat (length l) → l ≠ [] →
  state (run_releases b l) = OPEN.
Proof.
  intros Hs Hpos Hall Hlen Hne.
  assert (Hgen : consecutiveFailOpen (config b) ≤ consecutiveFail b + Z.of_nat (length l)) by lia.
  clear Hlen. revert b Hs Hpos Hgen. induction Hall as [|[[h o] lat] l Ho Hall IH]; [done|].
  intros b Hs Hpos Hgen. cbn in *.
  assert (Hran : ran o) by (destruct Ho; unfold ran; auto).
  pose proof (release_failed_counts h b o lat Ho) as Hc.
  destruct (release_from_closed h b o lat Hran Hs) as [[Hs' Hno]|[Hs' _]].
  - assert (¬ consecutiveFailOpen (config b) ≤ consecutiveFail b + 1).
    { intros Hle. apply Hno. left. by rewrite release_config, Hc. }
    apply IH; [|done|lia|rewrite release_config; lia].
    intros ->. cbn in Hgen. lia.
  - by apply run_releases_open.
Qed.

Lemma consecutive_failures_open_witness :
  let b := new_CircuitBreaker (defaultCircuitBreakerConfig (λ _, None)) in
  state (run_releases b (replicate 5 ({| now := 1000; random := 0 |}, REDIS_ERROR, 10))) = OPEN.
Proof.
  apply consecutive_failures_open; try (vm_compute; congruence).
  repeat constructor; by left.
Defined.

(** ** Hysteresis covers errors and latency, not timeouts

    Twelve fast timeouts among twenty calls open the circuit; three good
    probes close it, since recovery looks at latency and error rate only; the
    first successful call after that opens it again on the timeout rate that
    is still in the window. *)

Definition flapping_start : CircuitBreaker :=
  let h := {| now := 10000; random := 0 |} in
  let good := replicate 8 (h, SUCCESS, 300) in
  let bad := mjoin (replicate 6 [(h, TIMEOUT, 300); (h, TIMEOUT, 300); (h, SUCCESS, 300)]) in
  run_releases (new_CircuitBreaker (defaultCircuitBreakerConfig (λ _, None))) (good ++ bad).

Definition flapping_probe (b : CircuitBreaker) : CircuitBreaker :=
  let h := {| now := 16000; random := 0 |} in
  release h (acquire h b).2 SUCCESS 300.

(** Recovery ignores the timeout rate: the circuit closes on good probes
    while the rolling timeout rate is still above its opening threshold, and
    the next success opens it again. *)
Theorem recovery_ignores_timeout_rate :
  let b3 := flapping_probe (flapping_probe (flapping_probe flapping_start)) in
  state flapping_start = OPEN ∧ state b3 = CLOSED ∧
  Qle_bool (timeoutRateOpen (config b3)) (timeoutRate (stats {| now := 16000; random := 0 |} b3)) = true ∧
  state (flapping_probe b3) = OPEN.
Proof. vm_compute. repeat split. Qed.

#[global] Arguments release : simpl never.
#[global] Arguments acquire : simpl never.
