(* ===== verification/GuardedCalls.v ===== *)
(** * Guarded calls: [withCircuitBreaker] and its interleavings

    Models [withCircuitBreaker] of
    [uam-backend/src/config/redisCircuitBreaker.ts].  A call is admitted by
    [acquire], then waits for the first of two asynchronous events: the
    settling of the promise returned by [fn], or the breaker's own timer.
    Many calls share one breaker, so the system is a state machine whose
    steps are the synchronous pieces of JavaScript that run between two
    turns of the event loop: [begin_call], [on_timer], [on_fulfil],
    [on_reject].  A call has a fresh identifier; [T] is the type of the
    values [fn] produces. *)

From S2P Require Import Prelude CircuitConfig RollingWindow CircuitBreaker.
#[local] Open Scope Z_scope.

Section Guarded.
Context {T : Type}.

(** What the returned promise resolves to; [Raised] is a promise rejected
    because [fn] threw before returning a promise. *)
Inductive CallResult :=
  | Succeeded (value : T)
  | Declined (outcome : RedisCallOutcome)
  | Raised.

(** The closure variables of one call. *)
Record Call := {
  start : Z;                    (** [process.hrtime.bigint()], nanoseconds *)
  settled : bool;
  timer : option Z;             (** armed: the deadline in milliseconds *)
  fn_pending : bool;            (** the promise of [fn] has not settled *)
  result : option CallResult;   (** the promise handed to the caller *)
}.

Record System := { breaker : CircuitBreaker; calls : gmap nat Call }.

(** [Math.round(Number(hr - start) / 1e3)] *)
Definition elapsedUs (hr st : Z) : Z := (hr - st + 500) / 1000.

(** A promise keeps the first value it is settled with. *)
Definition resolve (c : Call) (r : CallResult) : option CallResult :=
  match result c with Some r0 => Some r0 | None => Some r end.

(** The closure [finish]; [c] is the call as the event left it. *)
Definition finish (h : Host) (hr : Z) (b : CircuitBreaker) (c : Call)
    (outcome : RedisCallOutcome) (r : CallResult) : CircuitBreaker * Call :=
  if settled c then (b, c)
  else (release h b outcome (elapsedUs hr (start c)),
        {| start := start c; settled := true; timer := timer c;
           fn_pending := fn_pending c; result := resolve c r |}).

(** What [fn()] does when it is invoked: return a pending promise, or throw. *)
Inductive FnStart := ReturnsPromise | Throws.

(** The synchronous part of [withCircuitBreaker]. *)
Definition begin_call (h : Host) (hr : Z) (f : FnStart) (id : nat) (s : System) : System :=
  match acquire h (breaker s) with
  | (Some rejected, b) =>
      {| breaker := b;
         calls := <[id := {| start := hr; settled := true; timer := None;
                             fn_pending := false; result := Some (Declined rejected) |}]> (calls s) |}
  | (None, b) =>
      {| breaker := b;
         calls := <[id := {| start := hr; settled := false;
                             timer := Some (now h + operationTimeoutMs (config b));
                             fn_pending := match f with ReturnsPromise => true | Throws => false end;
                             result := match f with ReturnsPromise => None | Throws => Some Raised end |}]>
                    (calls s) |}
  end.

Definition update_call (id : nat) (p : CircuitBreaker * Call) (s : System) : System :=
  {| breaker := p.1; calls := <[id := p.2]> (calls s) |}.

(** The timer callback: [finish('TIMEOUT')]. *)
Definition on_timer (h : Host) (hr : Z) (id : nat) (c : Call) (s : System) : System :=
  let c := {| start := start c; settled := settled c; timer := None;
              fn_pending := fn_pending c; result := result c |} in
  update_call id (finish h hr (breaker s) c TIMEOUT (Declined TIMEOUT)) s.

(** The two callbacks of [fn().then(...)]; both clear the timer first. *)
Definition fn_settles (h : Host) (hr : Z) (id : nat) (c : Call) (s : System)
    (outcome : RedisCallOutcome) (r : CallResult) : System :=
  let c := {| start := start c; settled := settled c; timer := None;
              fn_pending := false; result := result c |} in
  update_call id (finish h hr (breaker s) c outcome r) s.

Definition on_fulfil (h : Host) (hr : Z) (id : nat) (c : Call) (s : System) (v : T) : System :=
  fn_settles h hr id c s SUCCESS (Succeeded v).

Definition on_reject (h : Host) (hr : Z) (id : nat) (c : Call) (s : System) (e : RedisFailure) : System :=
  let o := classifyRedisError e in fn_settles h hr id c s o (Declined o).

(** ** The event loop *)

Inductive step : System → System → Prop :=
  | step_call h hr f id s :
      HostOk h → calls s !! id = None → step s (begin_call h hr f id s)
  | step_timer h hr id c s deadline :
      HostOk h → calls s !! id = Some c → timer c = Some deadline → deadline ≤ now h →
      step s (on_timer h hr id c s)
  | step_fulfil h hr id c s v :
      HostOk h → calls s !! id = Some c → fn_pending c = true →
      step s (on_fulfil h hr id c s v)
  | step_reject h hr id c s e :
      HostOk h → calls s !! id = Some c → fn_pending c = true →
      step s (on_reject h hr id c s e).

Definition initial (cfg : CircuitBreakerConfig) : System :=
  {| breaker := new_CircuitBreaker cfg; calls := ∅ |}.

Definition reachable (cfg : CircuitBreakerConfig) (s : System) : Prop := rtc step (initial cfg) s.

(** ** The accounting invariant *)

Definition unsettled (m : gmap nat Call) : nat := size (filter (λ p, settled p.2 = false) m).

Record call_inv (c : Call) : Prop := {
  ci_armed : settled c = false → is_Some (timer c);
  ci_done : settled c = true → is_Some (result c);
}.

Record sys_inv (s : System) : Prop := {
  si_cfg : ConfigOk (config (breaker s));
  si_count : inflight (breaker s) = Z.of_nat (unsettled (calls s));
  si_calls : ∀ id c, calls s !! id = Some c → call_inv c;
  si_probes : inflight (breaker s) ≤ Z.max (maxInflight (config (breaker s)))
                                           (halfOpenProbes (config (breaker s)));
}.

Lemma unsettled_insert_new m id c :
  m !! id = None →
  unsettled (<[id := c]> m) = ((if settled c then 0 else 1) + unsettled m)%nat.
Proof.
  intros Hid. unfold unsettled. destruct (settled c) eqn:E.
  - rewrite map_filter_insert_False by (simpl; congruence). by rewrite delete_id.
  - rewrite map_filter_insert_True by done. rewrite map_size_insert_None; [done|].
    apply map_lookup_filter_None. by left.
Qed.

Lemma unsettled_settle m id c c' :
  m !! id = Some c → settled c = false → settled c' = true →
  unsettled m = S (unsettled (<[id := c']> m)).
Proof.
  intros Hid Hc Hc'. rewrite <- (insert_id m id c Hid) at 1.
  rewrite <- (insert_delete_eq m id c), <- (insert_delete_eq m id c').
  rewrite !unsettled_insert_new by apply lookup_delete_eq. by rewrite Hc, Hc'.
Qed.

Lemma unsettled_same m id c c' :
  m !! id = Some c → settled c = settled c' → unsettled (<[id := c']> m) = unsettled m.
Proof.
  intros Hid Hc. rewrite <- (insert_id m id c Hid) at 2.
  rewrite <- (insert_delete_eq m id c), <- (insert_delete_eq m id c').
  rewrite !unsettled_insert_new by apply lookup_delete_eq. by rewrite Hc.
Qed.

(** Admission takes exactly one slot, rejection none. *)
Lemma acquire_inflight h b :
  inflight (acquire h b).2 = inflight b + (if (acquire h b).1 is Some _ then 0 else 1).
Proof.
  destruct b. unfold acquire, acquireHalfOpen, tripOpen.
  repeat (cbn in *; case_match); cbn; lia.
Qed.

Lemma acquire_inflight_bound h b :
  (acquire h b).1 = None →
  inflight b < Z.max (maxInflight (config b)) (halfOpenProbes (config b)).
Proof.
  destruct b. unfold acquire, acquireHalfOpen. cbn.
  repeat (cbn in *; case_match); cbn; intros; breflect; (done || lia).
Qed.

Lemma sys_inv_begin h hr f id s :
  sys_inv s → calls s !! id = None → sys_inv (begin_call h hr f id s).
Proof.
  intros [Hcfg Hcnt Hcalls Hp] Hid. unfold begin_call.
  pose proof (acquire_inflight h (breaker s)) as Hi.
  pose proof (acquire_config h (breaker s)) as Hc.
  pose proof (acquire_inflight_bound h (breaker s)) as Hb.
  destruct (acquire h (breaker s)) as [[o|] b]; cbn in *.
  - split; cbn; rewrite ?Hc; [done| | |lia].
    + rewrite unsettled_insert_new by done. cbn. lia.
    + intros id' c' [[-> <-]|[_ H]]%lookup_insert_Some; [|eauto]. by split.
  - split; cbn; rewrite ?Hc; [done| | |].
    + rewrite unsettled_insert_new by done. cbn. lia.
    + intros id' c' [[-> <-]|[_ H]]%lookup_insert_Some; [|eauto]. split; cbn; [eauto|done].
    + specialize (Hb eq_refl). lia.
Qed.

(** Any event on a call: it settles the call (and frees the slot) or leaves
    the books alone. *)
Lemma sys_inv_finish h hr id c c0 s o r :
  sys_inv s → calls s !! id = Some c → settled c0 = settled c → result c0 = result c →
  sys_inv (update_call id (finish h hr (breaker s) c0 o r) s).
Proof.
  intros [Hcfg Hcnt Hcalls Hp] Hid Hset Hres. unfold finish.
  pose proof (Hcalls _ _ Hid) as [Harm Hdone].
  destruct (settled c) eqn:E; rewrite Hset.
  - split; cbn; [done| | |done].
    + by rewrite (unsettled_same _ _ c) by congruence.
    + intros id' c' [[-> <-]|[_ H]]%lookup_insert_Some; [|eauto].
      split; rewrite Hset; [done|]. intros _. rewrite Hres. by apply Hdone.
  - split; cbn; rewrite ?release_config, ?release_inflight; [done| | |lia].
    + rewrite Hcnt, (unsettled_settle _ id c
        {| start := start c0; settled := true; timer := timer c0;
           fn_pending := fn_pending c0; result := resolve c0 r |}) by done. lia.
    + intros id' c' [[-> <-]|[_ H]]%lookup_insert_Some; [|eauto]. split; cbn; [done|].
      intros _. unfold resolve. destruct (result c0); eauto.
Qed.

Lemma sys_inv_step s s' : sys_inv s → step s s' → sys_inv s'.
Proof.
  intros Hinv Hstep. destruct Hstep.
  - by apply sys_inv_begin.
  - by eapply sys_inv_finish; eauto.
  - by eapply sys_inv_finish; eauto.
  - by eapply sys_inv_finish; eauto.
Qed.

Lemma sys_inv_initial cfg : sys_inv (initial cfg).
Proof.
  pose proof (clampConfig_ok cfg) as Hok. split; cbn; try done.
  pose proof (ok_inflight _ Hok). pose proof (ok_probes _ Hok). cbn in *. lia.
Qed.

Lemma sys_inv_reachable cfg s : reachable cfg s → sys_inv s.
Proof.
  intros H. pose proof (sys_inv_initial cfg) as H0.
  induction H as [|s0 s1 s2 Hstep _ IH]; eauto using sys_inv_step.
Qed.

Lemma inflight_books cfg s :
  reachable cfg s →
  inflight (breaker s) = Z.of_nat (unsettled (calls s)) ∧ ConfigOk (config (breaker s)).
Proof. intros Hr%sys_inv_reachable. by destruct Hr. Qed.

(** C3. Slots never leak.  In every state the event loop can reach, the
    breaker's in-flight counter equals the number of admitted calls that have
    not settled; each of those still has its timer armed, so each of them will
    give its slot back; and the counter never exceeds the larger of the two
    concurrency budgets. *)
Theorem inflight_exact (cfg : CircuitBreakerConfig) (s : System) :
  reachable cfg s →
  inflight (breaker s) = Z.of_nat (unsettled (calls s)) ∧
  (∀ id c, calls s !! id = Some c → settled c = false → is_Some (timer c)) ∧
  inflight (breaker s) ≤ Z.max (maxInflight (config (breaker s)))
                               (halfOpenProbes (config (breaker s))).
Proof.
  intros Hr%sys_inv_reachable. destruct Hr as [_ Hc Hcalls Hp].
  split; [done|]. split; [|done]. intros id c Hid. by apply (Hcalls id).
Qed.

(** ** Promises settle once *)

Lemma finish_result_stable h hr b c o r r0 :
  result c = Some r0 → result (finish h hr b c o r).2 = Some r0.
Proof. intros H. unfold finish, resolve. destruct (settled c); cbn; by rewrite ?H. Qed.

Lemma step_result_stable s s' id c r :
  step s s' → calls s !! id = Some c → result c = Some r →
  ∃ c', calls s' !! id = Some c' ∧ result c' = Some r.
Proof.
  intros Hstep Hid Hr.
  assert (Hupd : ∀ i c1 h hr b c0 o r', calls s !! i = Some c1 → result c0 = result c1 →
     ∃ c', <[i := (finish h hr b c0 o r').2]> (calls s) !! id = Some c' ∧ result c' = Some r).
  { intros i c1 h hr b c0 o r' Hi Hres. destruct (decide (i = id)) as [->|Hne].
    - rewrite lookup_insert_eq. eexists. split; [done|]. apply finish_result_stable. congruence.
    - rewrite lookup_insert_ne by done. eauto. }
  destruct Hstep as [h hr f i s ? Hnew| | |]; cbn; [|by eapply Hupd..].
  unfold begin_call. destruct (acquire h (breaker s)) as [[o|] b]; cbn;
    rewrite lookup_insert_ne by congruence; eauto.
Qed.

(** The promise of a call settles once and for all.  Whatever the timer,
    the late answer of [fn] and the other calls do afterwards, a call that
    has a result keeps that result. *)
Theorem result_final (s s' : System) (id : nat) (c : Call) (r : CallResult) :
  rtc step s s' → calls s !! id = Some c → result c = Some r →
  ∃ c', calls s' !! id = Some c' ∧ result c' = Some r.
Proof.
  intros Hrtc. revert c. induction Hrtc as [s|s s1 s' Hstep _ IH]; intros c Hid Hr; [eauto|].
  destruct (step_result_stable s s1 id c r Hstep Hid Hr) as (c1 & Hid1 & Hr1). eauto.
Qed.

(** A hung operation is cut off.  Firing the timer of an unsettled call
    settles it, resolves the caller with [TIMEOUT] (unless [fn] already threw),
    and frees exactly one slot. *)
Theorem timer_settles (cfg : CircuitBreakerConfig) (h : Host) (hr : Z) (id : nat) (c : Call) (s : System) :
  reachable cfg s → calls s !! id = Some c → settled c = false →
  let s' := on_timer h hr id c s in
  inflight (breaker s') = inflight (breaker s) - 1 ∧
  ∃ c', calls s' !! id = Some c' ∧ settled c' = true ∧
        result c' = Some (default (Declined TIMEOUT) (result c)).
Proof.
  intros Hr Hid Hset s'. destruct (inflight_books _ _ Hr) as [Hc _].
  unfold s', on_timer, finish; cbn. rewrite Hset. cbn. rewrite release_inflight, lookup_insert_eq.
  split.
  - assert (0 < unsettled (calls s))%nat; [|lia].
    rewrite (unsettled_settle (calls s) id c
      {| start := 0; settled := true; timer := None; fn_pending := false; result := None |} Hid Hset eq_refl).
    lia.
  - eexists. split; [done|]. split; [done|]. unfold resolve; cbn. by destruct (result c).
Qed.

End Guarded.
Arguments CallResult : clear implicits.
Arguments Call : clear implicits.
Arguments System : clear implicits.

(** ** A concrete interleaving

    Two calls are admitted, the first times out and answers late, the second
    succeeds. *)

Definition demo_host (t : Z) : Host := {| now := t; random := 0 |}.

Definition demo0 : System nat := initial (defaultCircuitBreakerConfig (λ _, None)).
Definition demo1 : System nat := begin_call (demo_host 1000) 0 ReturnsPromise 0 demo0.
Definition demo2 : System nat := begin_call (demo_host 1001) 10 ReturnsPromise 1 demo1.
Definition demo_call0 : Call nat :=
  {| start := 0; settled := false; timer := Some 6000; fn_pending := true; result := None |}.
Definition demo3 : System nat := on_timer (demo_host 6000) 5000000000 0 demo_call0 demo2.

Lemma demo_host_ok t : HostOk (demo_host t).
Proof. split; vm_compute; congruence. Qed.

Lemma demo2_call0 : calls demo2 !! 0%nat = Some demo_call0.
Proof. vm_compute. reflexivity. Qed.

Lemma demo3_reachable : reachable (defaultCircuitBreakerConfig (λ _, None)) demo3.
Proof.
  unfold reachable. apply rtc_l with demo1.
  { apply step_call; [apply demo_host_ok|done]. }
  apply rtc_l with demo2. { apply step_call; [apply demo_host_ok|done]. }
  apply rtc_once. apply step_timer with 6000; [apply demo_host_ok|apply demo2_call0|done|done].
Defined.

Lemma demo2_reachable : reachable (defaultCircuitBreakerConfig (λ _, None)) demo2.
Proof.
  unfold reachable. apply rtc_l with demo1.
  { apply step_call; [apply demo_host_ok|done]. }
  apply rtc_once. apply step_call; [apply demo_host_ok|done].
Defined.

Lemma inflight_exact_witness :
  inflight (breaker demo3) = 1 ∧
  inflight (breaker demo3) = Z.of_nat (unsettled (calls demo3)).
Proof.
  split; [vm_compute; reflexivity|].
  apply (inflight_exact (defaultCircuitBreakerConfig (λ _, None)) demo3 demo3_reachable).
Defined.

Definition demo_call0_late : Call nat :=
  {| start := 0; settled := true; timer := None; fn_pending := true;
     result := Some (Declined TIMEOUT) |}.

Lemma result_final_witness :
  let s' := on_fulfil (demo_host 7000) 6000000000 0 demo_call0_late demo3 42%nat in
  ∃ c', calls s' !! 0%nat = Some c' ∧ result c' = Some (Declined TIMEOUT).
Proof.
  cbv zeta. apply (result_final demo3 _ 0%nat demo_call0_late (Declined TIMEOUT)).
  - apply rtc_once. apply step_fulfil; [apply demo_host_ok|vm_compute; reflexivity|done].
  - vm_compute; reflexivity.
  - done.
Defined.

Lemma timer_settles_witness :
  inflight (breaker demo3) = inflight (breaker demo2) - 1 ∧
  ∃ c', calls demo3 !! 0%nat = Some c' ∧ settled c' = true ∧
        result c' = Some (default (Declined TIMEOUT) (result demo_call0)).
Proof.
  apply (timer_settles (defaultCircuitBreakerConfig (λ _, None)) (demo_host 6000) 5000000000 0%nat
    demo_call0 demo2 demo2_reachable demo2_call0 eq_refl).
Defined.
