(* ===== verification/RateLimiter.v ===== *)
(** * The distributed rate limiter with local fallback

    Models [uam-backend/src/robustRateLimiter.ts].  Redis is not part of the
    repository: the three commands the limiter issues are the operations of
    the class [RedisCounter], and what the Redis manual promises of them is
    the class [RedisCounterLaws].  [MemRedis] at the end of the file is an
    instance of both.  Times are milliseconds; a method that awaits takes one
    clock reading before and one after the await.  Console messages are left
    out. *)

From S2P Require Import Prelude.
#[local] Open Scope string_scope.
#[local] Open Scope list_scope.
#[local] Open Scope Z_scope.

(** ** The Redis commands the limiter uses *)

(** The outcome of [await pipeline.exec()]: the promise rejects, resolves to
    [null], or resolves to one entry per command, of which the limiter reads
    the first: [[err, count]]. *)
Inductive ExecReply :=
  | ExecRejects
  | ExecNull
  | ExecResults (entries : list (bool * Z)).   (** [(err is set, reply)] *)

Class RedisCounter (S : Type) := {
  (** [INCR key; EXPIREAT key at; GET key] sent at time [now] *)
  redis_exec : Z → string → Z → S → S * ExecReply;
  (** [PING]: did it answer in time? *)
  redis_ping : Z → S → S * bool;
  (** [DEL key]: did the command succeed? *)
  redis_del : Z → string → S → S * bool;
}.

Class RedisCounterLaws (S : Type) `{RedisCounter S} := {
  (** the integer a key holds at a time, [0] when it is absent or expired *)
  counter : S → Z → string → Z;
  counter_exec now k at_ s s' n rest :
    redis_exec now k at_ s = (s', ExecResults ((false, n) :: rest)) →
    n = counter s now k + 1 ∧
    ∀ t k', now ≤ t → counter s' t k' =
      if decide (k' = k) then (if t <? at_ * 1000 then n else 0) else counter s t k';
  counter_ping now s s' r t k : redis_ping now s = (s', r) → counter s' t k = counter s t k;
  counter_del now k s s' :
    redis_del now k s = (s', true) →
    ∀ t k', now ≤ t → counter s' t k' = if decide (k' = k) then 0 else counter s t k';
}.

(** ** The limiter *)

Record RateLimitRecord := {
  count : Z;
  resetAt : Z;
  lastReset : Z;
  maxRequests_rec : Z;
  windowMs_rec : Z;
}.

Record RateLimitResult := { allowed : bool; remaining : Z; r_resetAt : Z }.

Record LimiterConfig := { windowMs : Z; maxRequests : Z; keyPrefix : string }.

Record RobustRateLimiter := mkLimiter {
  config : LimiterConfig;
  localCache : gmap string RateLimitRecord;
  fallback : bool;
  initialized : bool;
  allowFallback : bool;
  lastRecoveryProbeMs : Z;
  lastSweepMs : Z;
}.

#[export] Instance set_localCache : Setter localCache := λ g '(mkLimiter c l f i a p s), mkLimiter c (g l) f i a p s.
#[export] Instance set_fallback : Setter fallback := λ g '(mkLimiter c l f i a p s), mkLimiter c l (g f) i a p s.
#[export] Instance set_initialized : Setter initialized := λ g '(mkLimiter c l f i a p s), mkLimiter c l f (g i) a p s.
#[export] Instance set_lastProbe : Setter lastRecoveryProbeMs := λ g '(mkLimiter c l f i a p s), mkLimiter c l f i a (g p) s.
#[export] Instance set_lastSweep : Setter lastSweepMs := λ g '(mkLimiter c l f i a p s), mkLimiter c l f i a p (g s).

(** [RATE_LIMIT_LOCAL_FALLBACK]; [None] is an unset variable. *)
Definition localFallbackEnabled (env : option string) : bool :=
  let raw := toLowerCase (trim (default "1" env)) in
  negb (String.eqb raw "0") && negb (String.eqb raw "false") && negb (String.eqb raw "off").

Definition new_RobustRateLimiter (env : option string) (c : LimiterConfig) : RobustRateLimiter :=
  {| config := c; localCache := ∅; fallback := false; initialized := false;
     allowFallback := localFallbackEnabled env; lastRecoveryProbeMs := 0; lastSweepMs := 0 |}.

(** What a method can throw. *)
Inductive LimiterError :=
  | RateLimiterUnavailableError
  | RedisRejected.

Inductive Outcome (A : Type) :=
  | Returns (a : A)
  | Throws (e : LimiterError).
Arguments Returns {A} a.
Arguments Throws {A} e.

Definition local_key (id : string) : string := "rate_limit:local:" +:+ id.

Definition sweepExpiredWindows (now : Z) (l : RobustRateLimiter) : RobustRateLimiter :=
  if (Z.of_nat (size (localCache l)) <? 4096) || (now - lastSweepMs l <? 60000) then l
  else l <| lastSweepMs := now |>
         <| localCache ::= filter (λ '(_, rec), ¬ (resetAt rec < now)) |>.

(** [|| d] on a number. *)
Definition or_default (v d : Z) : Z := if v =? 0 then d else v.

Definition localRateLimit (now : Z) (id : string) (l : RobustRateLimiter)
    : RobustRateLimiter * RateLimitResult :=
  let l := sweepExpiredWindows now l in
  let cfg := config l in
  let cacheKey := local_key id in
  let cacheEntry := default
    {| count := 0; resetAt := now + windowMs cfg; lastReset := now;
       maxRequests_rec := or_default (maxRequests cfg) 10;
       windowMs_rec := or_default (windowMs cfg) 60000 |} (localCache l !! cacheKey) in
  let cacheEntry :=
    if resetAt cacheEntry <? now
    then {| count := 0; resetAt := now + windowMs cfg; lastReset := now;
            maxRequests_rec := maxRequests_rec cacheEntry; windowMs_rec := windowMs_rec cacheEntry |}
    else cacheEntry in
  let cacheEntry :=
    {| count := count cacheEntry + 1; resetAt := resetAt cacheEntry; lastReset := lastReset cacheEntry;
       maxRequests_rec := maxRequests_rec cacheEntry; windowMs_rec := windowMs_rec cacheEntry |} in
  let remaining_ := maxRequests cfg - count cacheEntry in
  (l <| localCache ::= <[cacheKey := cacheEntry]> |>,
   {| allowed := count cacheEntry <=? maxRequests cfg;
      remaining := if 0 <? remaining_ then remaining_ else 0;
      r_resetAt := resetAt cacheEntry |}).

Definition degradeToLocal (now : Z) (id : string) (l : RobustRateLimiter)
    : RobustRateLimiter * Outcome RateLimitResult :=
  if negb (allowFallback l) then (l, Throws RateLimiterUnavailableError)
  else let '(l, r) := localRateLimit now id (l <| fallback := true |>) in (l, Returns r).

Section WithRedis.
Context {S : Type} `{RedisCounter S}.

Definition distributed_key (l : RobustRateLimiter) (id : string) : string :=
  keyPrefix (config l) +:+ ":" +:+ id.

(** [now] is read before the pipeline is sent, [now'] after it returned. *)
Definition distributedRateLimit (now now' : Z) (id : string) (l : RobustRateLimiter) (s : S)
    : S * RobustRateLimiter * Outcome RateLimitResult :=
  let w := windowMs (config l) in
  let window_start := now / w * w in
  let '(s, reply) := redis_exec now (distributed_key l id) (ceil_div (now + w) 1000) s in
  match reply with
  | ExecRejects => (s, l, Throws RedisRejected)
  | ExecNull | ExecResults [] => let '(l, r) := degradeToLocal now' id l in (s, l, r)
  | ExecResults ((err, currentCount) :: _) =>
      if err then let '(l, r) := degradeToLocal now' id l in (s, l, r)
      else
        let remaining_ := maxRequests (config l) - currentCount in
        (s, l, Returns
          {| allowed := currentCount <=? maxRequests (config l);
             remaining := if 0 <? remaining_ then remaining_ else 0;
             r_resetAt := window_start + w |})
  end.

Definition tryRecoverFromFallback (now : Z) (l : RobustRateLimiter) (s : S) : S * RobustRateLimiter :=
  if now - lastRecoveryProbeMs l <? 30000 then (s, l)
  else
    let l := l <| lastRecoveryProbeMs := now |> in
    let '(s, pong) := redis_ping now s in
    (s, if pong then l <| fallback := false |> else l).

(** [now] at entry, [now'] after the recovery probe, [now''] after the
    pipeline. *)
Definition checkLimit (now now' now'' : Z) (id : string) (l : RobustRateLimiter) (s : S)
    : S * RobustRateLimiter * Outcome RateLimitResult :=
  if fallback l then
    if negb (allowFallback l) then (s, l, Throws RateLimiterUnavailableError)
    else
      let '(s, l) := tryRecoverFromFallback now l s in
      if fallback l then let '(l, r) := localRateLimit now' id l in (s, l, Returns r)
      else distributedRateLimit now' now'' id l s
  else distributedRateLimit now' now'' id l s.

Definition resetLimit (now : Z) (id : string) (l : RobustRateLimiter) (s : S)
    : S * RobustRateLimiter * Outcome bool :=
  if fallback l then (s, l <| localCache ::= delete (local_key id) |>, Returns true)
  else
    let '(s, ok) := redis_del now ("rate_limit:" +:+ id) s in
    if ok then (s, l, Returns true)
    else if negb (allowFallback l) then (s, l, Throws RateLimiterUnavailableError)
    else (s, l <| fallback := true |> <| localCache ::= delete (local_key id) |>, Returns false).

(** What [init] ends with: the limiter is ready, the process exits, or the
    last error is rethrown. *)
Inductive InitOutcome := Ready | ExitProcess | InitThrows.

(** The retry loop of [init]; [i] counts the attempts, the sleep before the
    next one is [i * 2000] ms. *)
Fixpoint init_loop (attempts : nat) (i now : Z) (s : S) : S * bool :=
  match attempts with
  | O => (s, false)
  | Datatypes.S attempts =>
      let '(s, pong) := redis_ping now s in
      if pong then (s, true) else init_loop attempts (i + 1) (now + i * 2000) s
  end.

Definition init (now : Z) (l : RobustRateLimiter) (s : S) : S * RobustRateLimiter * InitOutcome :=
  if initialized l then (s, l, Ready)
  else
    let l := l <| initialized := true |> in
    let '(s, connected) := init_loop 5 1 now s in
    if connected then (s, l <| fallback := false |>, Ready)
    else if negb (allowFallback l) then (s, l, ExitProcess)
    else (s, l <| fallback := true |>, InitThrows).

End WithRedis.

Record LimiterState := {
  st_fallback : bool; st_redisAvailable : bool; st_allowFallback : bool; st_config : LimiterConfig }.

Definition getState (l : RobustRateLimiter) : LimiterState :=
  {| st_fallback := fallback l; st_redisAvailable := negb (fallback l) && initialized l;
     st_allowFallback := allowFallback l; st_config := config l |}.

Definition authLimiter (env : option string) : RobustRateLimiter := new_RobustRateLimiter env
  {| windowMs := 60 * 1000; maxRequests := 10; keyPrefix := "rate_limit:auth" |}.
Definition apiLimiter (env : option string) : RobustRateLimiter := new_RobustRateLimiter env
  {| windowMs := 60 * 1000; maxRequests := 100; keyPrefix := "rate_limit:api" |}.
Definition loginLimiter (env : option string) : RobustRateLimiter := new_RobustRateLimiter env
  {| windowMs := 60 * 1000; maxRequests := 5; keyPrefix := "rate_limit:login" |}.

(** ** The local limiter is a fixed-window counter *)

(** The specification: per client a count and the end of its window. *)
Definition spec_entry (w now : Z) (o : option (Z * Z)) : Z * Z :=
  match o with
  | Some (c, r) => if r <? now then (0, now + w) else (c, r)
  | None => (0, now + w)
  end.

Definition spec_step (w max now : Z) (id : string) (m : gmap string (Z * Z))
    : gmap string (Z * Z) * RateLimitResult :=
  let '(c, r) := spec_entry w now (m !! id) in
  (<[id := (c + 1, r)]> m,
   {| allowed := c + 1 <=? max; remaining := Z.max 0 (max - (c + 1)); r_resetAt := r |}).

(** A schedule of calls: when, and by whom. *)
Definition run_local (l : RobustRateLimiter) (calls : list (Z * string)) : list RateLimitResult :=
  (foldl (λ '(l, out) '(now, id), let '(l, r) := localRateLimit now id l in (l, out ++ [r]))
     (l, []) calls).2.

Definition run_spec (w max : Z) (m : gmap string (Z * Z)) (calls : list (Z * string))
    : list RateLimitResult :=
  (foldl (λ '(m, out) '(now, id), let '(m, r) := spec_step w max now id m in (m, out ++ [r]))
     (m, []) calls).2.

(** An entry whose window is over counts for nothing. *)
Definition live (t : Z) (o : option (Z * Z)) : option (Z * Z) :=
  match o with
  | Some (c, r) => if r <? t then None else Some (c, r)
  | None => None
  end.

Definition cached (l : RobustRateLimiter) (id : string) : option (Z * Z) :=
  (λ e, (count e, resetAt e)) <$> localCache l !! local_key id.

Definition simulates (t : Z) (l : RobustRateLimiter) (m : gmap string (Z * Z)) : Prop :=
  ∀ id, live t (cached l id) = live t (m !! id).

#[export] Instance local_key_inj : Inj (=) (=) local_key.
Proof. intros i j Hij. by apply (inj (String.append _)) in Hij. Qed.

Lemma live_mono t t' o o' : t ≤ t' → live t o = live t o' → live t' o = live t' o'.
Proof.
  intros Ht. destruct o as [[c r]|], o' as [[c' r']|]; cbn; repeat case_match; intros ?;
    simplify_eq; breflect; (done || lia).
Qed.

Lemma spec_entry_live w t o o' : live t o = live t o' → spec_entry w t o = spec_entry w t o'.
Proof.
  destruct o as [[c r]|], o' as [[c' r']|]; cbn; repeat case_match; intros ?; by simplify_eq.
Qed.

Lemma sweep_config now l : config (sweepExpiredWindows now l) = config l.
Proof. unfold sweepExpiredWindows. case_match; [done|by destruct l]. Qed.

Lemma sweep_live now l id : live now (cached (sweepExpiredWindows now l) id) = live now (cached l id).
Proof.
  unfold sweepExpiredWindows. case_match; [done|]. destruct l as [cfg cache f i a p sw]. cbn.
  unfold cached. cbn. rewrite map_lookup_filter. destruct (cache !! local_key id) as [e|]; cbn; [|done].
  destruct (resetAt e <? now) eqn:E; breflect.
  - rewrite option_guard_False by (intros Hn; by apply Hn). done.
  - rewrite option_guard_True by lia. cbn. by rewrite (proj2 (Z.ltb_ge _ _)).
Qed.

(** One local step in closed form. *)
Lemma localRateLimit_spec now id l :
  let '(c, r) := spec_entry (windowMs (config l)) now (cached l id) in
  let l' := (localRateLimit now id l).1 in
  (localRateLimit now id l).2 =
    {| allowed := c + 1 <=? maxRequests (config l);
       remaining := Z.max 0 (maxRequests (config l) - (c + 1)); r_resetAt := r |} ∧
  config l' = config l ∧ fallback l' = fallback l ∧ allowFallback l' = allowFallback l ∧
  cached l' id = Some (c + 1, r) ∧
  ∀ id', id' ≠ id → live now (cached l' id') = live now (cached l id').
Proof.
  rewrite <- (spec_entry_live _ now _ _ (sweep_live now l id)).
  pose proof (λ id', sweep_live now l id') as Hsw.
  unfold localRateLimit. rewrite <- !(sweep_config now l).
  assert (Hf : fallback (sweepExpiredWindows now l) = fallback l ∧
               allowFallback (sweepExpiredWindows now l) = allowFallback l).
  { unfold sweepExpiredWindows. case_match; [done|by destruct l]. }
  destruct Hf as [<- <-]. set (l0 := sweepExpiredWindows now l) in *. clearbody l0.
  destruct l0 as [cfg cache f i a p sw]. unfold cached in *. cbn in *.
  destruct (cache !! local_key id) as [e|] eqn:He; cbn.
  - destruct (resetAt e <? now) eqn:E; cbn; (split; [f_equal; case_match; breflect; lia|]);
      do 3 (split; [done|]); (split; [by rewrite lookup_insert_eq|]);
      intros id' Hne; rewrite lookup_insert_ne by (by intros ?%(inj local_key)); apply Hsw.
  - assert (E : (now + windowMs cfg <? now) = true ∨ (now + windowMs cfg <? now) = false)
      by (destruct (now + windowMs cfg <? now); auto).
    destruct (now + windowMs cfg <? now); cbn; (split; [f_equal; case_match; breflect; lia|]);
      do 3 (split; [done|]); (split; [by rewrite lookup_insert_eq|]);
      intros id' Hne; rewrite lookup_insert_ne by (by intros ?%(inj local_key)); apply Hsw.
Qed.

#[local] Arguments localRateLimit : simpl never.

Lemma local_step_simulates t now id l m :
  t ≤ now → simulates t l m →
  (localRateLimit now id l).2 = (spec_step (windowMs (config l)) (maxRequests (config l)) now id m).2 ∧
  simulates now (localRateLimit now id l).1
    (spec_step (windowMs (config l)) (maxRequests (config l)) now id m).1 ∧
  config (localRateLimit now id l).1 = config l.
Proof.
  intros Ht Hsim. pose proof (localRateLimit_spec now id l) as Hl. unfold spec_step.
  rewrite <- (spec_entry_live _ now (cached l id) (m !! id)) by (eapply live_mono; eauto).
  destruct (spec_entry _ now (cached l id)) as [c r]. cbn.
  destruct Hl as (-> & -> & _ & _ & Hid & Hother). split; [done|]. split; [|done].
  intros id'. destruct (decide (id' = id)) as [->|Hne].
  - by rewrite Hid, lookup_insert_eq.
  - rewrite Hother, lookup_insert_ne by done. eapply live_mono; eauto.
Qed.

(** Times of a schedule do not go back. *)
Fixpoint monotone (t : Z) (calls : list (Z * string)) : Prop :=
  match calls with
  | [] => True
  | (now, _) :: calls => t ≤ now ∧ monotone now calls
  end.

Lemma run_simulates t l m calls out :
  simulates t l m → monotone t calls →
  (foldl (λ '(l, out) '(now, id), let '(l, r) := localRateLimit now id l in (l, out ++ [r]))
     (l, out) calls).2 =
  (foldl (λ '(m, out) '(now, id),
       let '(m, r) := spec_step (windowMs (config l)) (maxRequests (config l)) now id m in (m, out ++ [r]))
     (m, out) calls).2.
Proof.
  revert t l m out. induction calls as [|[now id] calls IH]; intros t l m out Hsim Hmono; [done|].
  destruct Hmono as [Ht Hmono]. destruct (local_step_simulates t now id l m Ht Hsim) as (Hr & Hs & Hc).
  cbn. destruct (localRateLimit now id l) as [l' r]. cbn in *. rewrite <- Hc in *.
  destruct (spec_step _ _ now id m) as [m' r']. cbn in *. subst r'. by eapply IH.
Qed.

(** C36. The in-memory limiter refines the fixed-window counter.  On every
    schedule of calls with a monotone clock it answers exactly like a
    per-client counter with a window end: the lazy sweep that bounds its
    memory is invisible. *)
Theorem local_refines_fixed_window (l : RobustRateLimiter) (t : Z) (calls : list (Z * string)) :
  localCache l = ∅ → monotone t calls →
  run_local l calls = run_spec (windowMs (config l)) (maxRequests (config l)) ∅ calls.
Proof.
  intros Hempty Hmono. apply (run_simulates t); [|done].
  intros id. unfold cached. by rewrite Hempty, !lookup_empty.
Qed.

Lemma local_refines_fixed_window_witness :
  run_local (loginLimiter None) [(0, "a"); (10, "b"); (70000, "a")] =
  run_spec 60000 5 ∅ [(0, "a"); (10, "b"); (70000, "a")].
Proof.
  apply (local_refines_fixed_window (loginLimiter None) 0); [done|]. cbn. lia.
Defined.

(** ** The quota of a window *)

(** How many calls of client [id] a schedule grants. *)
Fixpoint grants (id : string) (l : RobustRateLimiter) (calls : list (Z * string)) : Z :=
  match calls with
  | [] => 0
  | (now, i) :: calls =>
      let '(l, r) := localRateLimit now i l in
      (if decide (i = id) then ind (allowed r) else 0) + grants id l calls
  end.

Definition attempts (id : string) (calls : list (Z * string)) : Z :=
  sumZ (map (λ '(_, i), if decide (i = id) then 1 else 0) calls).

Lemma spec_entry_alt w now o : spec_entry w now o = default (0, now + w) (live now o).
Proof. destruct o as [[c r]|]; cbn; [|done]. by case_match. Qed.

(** The window of [id] as seen at [t]: either none is open, or one is open
    with [c] calls counted and does not close before [t_end]. *)
Definition open_window (t t_end : Z) (l : RobustRateLimiter) (id : string) (c : Z) : Prop :=
  (live t (cached l id) = None ∧ c = 0) ∨ ∃ r, live t (cached l id) = Some (c, r) ∧ t_end ≤ r.

Lemma open_window_later t t' t_end l id c :
  open_window t t_end l id c → t ≤ t' ≤ t_end → open_window t' t_end l id c.
Proof.
  unfold open_window. intros Hw Ht. destruct (cached l id) as [[c' r]|]; cbn in *; [|done].
  destruct (r <? t) eqn:E1, (r <? t') eqn:E2; breflect; try (by left); try lia.
  - destruct Hw as [[_ ->]|(r' & ? & ?)]; [by left|done].
  - destruct Hw as [[? _]|(r' & ? & ?)]; [done|]. simplify_eq. lia.
  - destruct Hw as [[? _]|(r' & ? & ?)]; [done|]. right. eauto.
Qed.

Lemma grants_in_window t t_end l id c calls :
  0 ≤ c → 0 ≤ maxRequests (config l) → t_end ≤ t + windowMs (config l) →
  open_window t t_end l id c → monotone t calls → Forall (λ '(now, _), now ≤ t_end) calls →
  grants id l calls =
    Z.min (maxRequests (config l)) (c + attempts id calls) - Z.min (maxRequests (config l)) c.
Proof.
  revert t l c. induction calls as [|[now i] calls IH]; intros t l c Hc Hmax Hend Hw Hmono Hall.
  { cbn. rewrite Z.add_0_r. lia. }
  destruct Hmono as [Ht Hmono]. inversion Hall as [|? ? Hnow Hall']; subst.
  pose proof (open_window_later _ now _ _ _ _ Hw ltac:(lia)) as Hw'.
  unfold attempts. cbn [grants map]. rewrite sumZ_cons. fold (attempts id calls).
  pose proof (localRateLimit_spec now i l) as Hl. rewrite spec_entry_alt in Hl.
  destruct (localRateLimit now i l) as [l' r]. cbn [fst snd] in Hl.
  destruct (decide (i = id)) as [->|Hne].
  - assert (∃ r0, default (0, now + windowMs (config l)) (live now (cached l id)) = (c, r0) ∧ t_end ≤ r0)
      as (r0 & Heq & Hr0).
    { destruct Hw' as [[-> ->]|(r0 & -> & ?)]; cbn; eauto. exists (now + windowMs (config l)). split; [done|lia]. }
    rewrite Heq in Hl. destruct Hl as (-> & Hcfg & _ & _ & Hid & _).
    rewrite (IH now l' (c + 1)); rewrite ?Hcfg; try lia; try done.
    + cbn. destruct (c + 1 <=? maxRequests (config l)) eqn:E; breflect; cbn; lia.
    + right. exists r0. rewrite Hid. cbn. rewrite (proj2 (Z.ltb_ge _ _)) by lia. done.
  - destruct (default _ _) as [c0 r0] in Hl. destruct Hl as (_ & Hcfg & _ & _ & _ & Hother).
    rewrite (IH now l' c); rewrite ?Hcfg; try lia; try done.
    unfold open_window. by rewrite Hother by done.
Qed.

(** The quota is exact.  A client that starts with no open window gets,
    of any number of calls inside one window length, exactly the first
    [maxRequests]; what other clients do in between makes no difference. *)
Theorem window_quota (l : RobustRateLimiter) (id : string) (t0 : Z) (calls : list (Z * string)) :
  0 ≤ maxRequests (config l) → live t0 (cached l id) = None →
  monotone t0 calls → Forall (λ '(now, _), now ≤ t0 + windowMs (config l)) calls →
  grants id l calls = Z.min (maxRequests (config l)) (attempts id calls).
Proof.
  intros Hmax Hlive Hmono Hall.
  rewrite (grants_in_window t0 (t0 + windowMs (config l)) l id 0); try done; try lia. by left.
Qed.

Lemma window_quota_witness :
  grants "a" (loginLimiter None)
    [(0, "a"); (1, "a"); (2, "b"); (3, "a"); (4, "a"); (5, "a"); (6, "a"); (60000, "a")] = 5.
Proof.
  rewrite (window_quota (loginLimiter None) "a" 0); [reflexivity|cbn; lia|reflexivity|cbn; lia|].
  repeat constructor; cbn; lia.
Defined.

(** ** Strict mode *)

Section Redis.
Context {S : Type} `{RedisCounterLaws S}.

(** Strict mode fails closed.  With the local fallback disabled the
    limiter never counts locally and never changes: an answer is one Redis
    gave, everything else is an error the caller must turn into a 503. *)
Theorem strict_never_degrades (n1 n2 n3 : Z) (id : string) (l : RobustRateLimiter) (s : S) :
  allowFallback l = false →
  let '(s', l', out) := checkLimit n1 n2 n3 id l s in
  l' = l ∧
  match out with
  | Returns r => fallback l = false ∧ ∃ n rest,
      redis_exec n2 (distributed_key l id) (ceil_div (n2 + windowMs (config l)) 1000) s
        = (s', ExecResults ((false, n) :: rest)) ∧
      allowed r = (n <=? maxRequests (config l))
  | Throws _ => True
  end.
Proof.
  intros Hstrict. unfold checkLimit, distributedRateLimit, degradeToLocal. rewrite Hstrict. cbn.
  destruct (fallback l) eqn:Hf; [done|].
  destruct (redis_exec n2 _ _ s) as [s' [| |[|[[] n] rest]]] eqn:E; cbn; try done.
  split; [done|]. split; [done|]. by exists n, rest.
Qed.

(** ** What the distributed path really counts *)

(** Redis answers every pipeline. *)
Definition healthy : Prop := ∀ now k at_ (s : S), ∃ s' n rest,
  redis_exec now k at_ s = (s', ExecResults ((false, n) :: rest)).

Lemma distributed_step n1 n2 id l (s : S) :
  healthy → 0 < windowMs (config l) →
  let key := distributed_key l id in
  ∃ s' r, distributedRateLimit n1 n2 id l s = (s', l, Returns r) ∧
    allowed r = (counter s n1 key + 1 <=? maxRequests (config l)) ∧
    ∀ t, n1 ≤ t < n1 + windowMs (config l) → counter s' t key = counter s n1 key + 1.
Proof.
  intros Hh Hw key. unfold distributedRateLimit.
  destruct (Hh n1 (distributed_key l id) (ceil_div (n1 + windowMs (config l)) 1000) s)
    as (s' & n & rest & E). rewrite E.
  destruct (counter_exec _ _ _ _ _ _ _ E) as [-> Hc].
  eexists s', _. split; [reflexivity|]. split; [done|]. intros t Ht.
  rewrite Hc by lia. rewrite decide_True by done.
  pose proof (ceil_div_spec (n1 + windowMs (config l)) 1000 ltac:(lia)).
  by rewrite (proj2 (Z.ltb_lt _ _)) by lia.
Qed.

(** The answers to one client calling at the given times. *)
Fixpoint run_distributed (id : string) (l : RobustRateLimiter) (s : S) (times : list Z)
    : list (Outcome RateLimitResult) :=
  match times with
  | [] => []
  | t :: times =>
      let '(s, l, r) := distributedRateLimit t t id l s in r :: run_distributed id l s times
  end.

(** Each call comes less than one window after the previous one. *)
Fixpoint busy (w last : Z) (times : list Z) : Prop :=
  match times with
  | [] => True
  | t :: times => last ≤ t < last + w ∧ busy w t times
  end.

Lemma busy_client_counts id l (s : S) last c times :
  healthy → 0 < windowMs (config l) → busy (windowMs (config l)) last times →
  (∀ t, last ≤ t < last + windowMs (config l) → counter s t (distributed_key l id) = c) →
  Forall2 (λ i out, ∃ r, out = Returns r ∧ allowed r = (c + Z.of_nat i <=? maxRequests (config l)))
    (seq 1 (length times)) (run_distributed id l s times).
Proof.
  intros Hh Hw. revert s last c. induction times as [|t times IH]; intros s last c Hb Hc; [constructor|].
  destruct Hb as [Ht Hb]. cbn [run_distributed length seq].
  destruct (distributed_step t t id l s Hh Hw) as (s' & r & -> & Hr & Hs').
  constructor.
  - exists r. split; [done|]. by rewrite Hr, Hc.
  - rewrite <- fmap_S_seq. apply Forall2_fmap_l.
    rewrite Hc in Hs' by done. specialize (IH s' t (c + 1) Hb Hs').
    eapply Forall2_impl; [apply IH|]. intros i out (r' & -> & Hr'). exists r'. split; [done|].
    rewrite Hr'. cbn. f_equal. lia.
Qed.

(** The distributed window slides.  Every request pushes the expiry of
    the counter one window into the future, so a client that keeps calling at
    intervals shorter than the window is never forgiven: its [i]-th call is
    granted exactly when [i <= maxRequests], however long ago it started. *)
Theorem distributed_window_never_resets (id : string) (l : RobustRateLimiter) (s : S) (t0 : Z) (times : list Z) :
  healthy → 0 < windowMs (config l) → busy (windowMs (config l)) t0 times →
  (∀ t, t0 ≤ t < t0 + windowMs (config l) → counter s t (distributed_key l id) = 0) →
  Forall2 (λ i out, ∃ r, out = Returns r ∧ allowed r = (Z.of_nat i <=? maxRequests (config l)))
    (seq 1 (length times)) (run_distributed id l s times).
Proof. intros Hh Hw Hb Hc. exact (busy_client_counts id l s t0 0 times Hh Hw Hb Hc). Qed.

Lemma reset_key_differs l id p :
  keyPrefix (config l) = "rate_limit:" +:+ p → "rate_limit:" +:+ id ≠ distributed_key l id.
Proof.
  intros Hp Heq. unfold distributed_key in Heq. rewrite Hp in Heq.
  apply (f_equal String.length) in Heq. rewrite !string_length_app in Heq. cbn in Heq. lia.
Qed.

(** [resetLimit] misses the counter.  For a limiter whose key prefix is
    ["rate_limit:<name>"], as all three configured limiters have, a reset
    that reports success on the distributed path leaves the client's counter
    as it was: the deleted key is ["rate_limit:<client>"]. *)
Theorem resetLimit_misses_counter (now : Z) (id p : string) (l l' : RobustRateLimiter) (s s' : S) (t : Z) :
  keyPrefix (config l) = "rate_limit:" +:+ p → fallback l = false → now ≤ t →
  resetLimit now id l s = (s', l', Returns true) →
  counter s' t (distributed_key l id) = counter s t (distributed_key l id).
Proof.
  intros Hp Hf Ht. unfold resetLimit. rewrite Hf.
  destruct (redis_del now _ s) as [s1 ok] eqn:E. destruct ok.
  - intros Heq. simplify_eq. rewrite (counter_del _ _ _ _ E) by done.
    rewrite decide_False; [done|]. intros Heq. by apply (reset_key_differs l' id p Hp).
  - destruct (negb (allowFallback l)); intros ?; simplify_eq.
Qed.

(** ** Recovery from the fallback *)

(** The fallback is not a one-way trip, and probing is rationed.  In
    fallback mode a check less than 30 s after the last probe talks to nobody;
    a later one pings Redis once and leaves the fallback exactly when Redis
    answers. *)
Theorem recovery_probe (now : Z) (l : RobustRateLimiter) (s : S) :
  fallback l = true →
  let '(s', l') := tryRecoverFromFallback now l s in
  if now - lastRecoveryProbeMs l <? 30000 then s' = s ∧ l' = l
  else s' = (redis_ping now s).1 ∧ lastRecoveryProbeMs l' = now ∧
       fallback l' = negb (redis_ping now s).2 ∧ localCache l' = localCache l.
Proof.
  intros Hf. unfold tryRecoverFromFallback. destruct (now - _ <? 30000) eqn:E; [done|].
  destruct (redis_ping now s) as [s' []], l; cbn in *; by subst.
Qed.

End Redis.

(** ** An instance: a Redis that holds counters with an expiry *)

Module MemRedis.

Record t := { keys : gmap string (Z * Z); up : bool }.

Definition value (s : t) (now : Z) (k : string) : Z :=
  match keys s !! k with
  | Some (n, exp) => if now <? exp then n else 0
  | None => 0
  end.

#[global] Instance redis : RedisCounter t := {|
  redis_exec now k at_ s :=
    if up s then
      let n := value s now k + 1 in
      ({| keys := <[k := (n, at_ * 1000)]> (keys s); up := true |},
       ExecResults [(false, n); (false, 1); (false, n)])
    else (s, ExecResults [(true, 0); (true, 0); (true, 0)]);
  redis_ping now s := (s, up s);
  redis_del now k s := if up s then ({| keys := delete k (keys s); up := true |}, true) else (s, false);
|}.

#[global] Instance laws : RedisCounterLaws t.
Proof.
  refine {| counter := value |}.
  - intros now k at_ [m []] s' n rest; cbn; intros ?; simplify_eq. split; [done|].
    intros u k' Hu. unfold value at 1. cbn. rewrite lookup_insert.
    destruct (decide (k = k')) as [->|Hne]; [by rewrite decide_True|by rewrite decide_False].
  - intros now s s' r u k ?. by simplify_eq/=.
  - intros now k [m []] s'; cbn; intros ?; simplify_eq. intros u k' Hu. unfold value at 1. cbn.
    rewrite lookup_delete.
    destruct (decide (k = k')) as [->|Hne]; [by rewrite decide_True|by rewrite decide_False].
Defined.

Definition fresh : t := {| keys := ∅; up := true |}.

End MemRedis.

(** A Redis that never goes down, for the hypotheses about healthy replies. *)
Module SteadyRedis.

Definition t : Type := gmap string (Z * Z).

Definition value (s : t) (now : Z) (k : string) : Z :=
  match (s : gmap string (Z * Z)) !! k with
  | Some (n, exp) => if now <? exp then n else 0
  | None => 0
  end.

#[global] Instance redis : RedisCounter t := {|
  redis_exec now k at_ s :=
    let n := value s now k + 1 in
    (<[k := (n, at_ * 1000)]> (s : gmap string (Z * Z)), ExecResults [(false, n); (false, 1); (false, n)]);
  redis_ping now s := (s, true);
  redis_del now k s := (delete k (s : gmap string (Z * Z)), true);
|}.

#[global] Instance laws : RedisCounterLaws t.
Proof.
  refine {| counter := value |}.
  - intros now k at_ s s' n rest; cbn; intros ?; simplify_eq. split; [done|].
    intros u k' Hu. unfold value at 1. rewrite lookup_insert.
    destruct (decide (k = k')) as [->|Hne]; [by rewrite decide_True|by rewrite decide_False].
  - intros now s s' r u k ?. by simplify_eq/=.
  - intros now k s s'; cbn; intros ?; simplify_eq. intros u k' Hu. unfold value at 1.
    rewrite lookup_delete.
    destruct (decide (k = k')) as [->|Hne]; [by rewrite decide_True|by rewrite decide_False].
Defined.

Definition fresh : t := (∅ : gmap string (Z * Z)).

Lemma steady_healthy : healthy (S := t).
Proof. intros now k at_ s. do 3 eexists. reflexivity. Qed.

End SteadyRedis.

Lemma strict_never_degrades_witness :
  let l := loginLimiter (Some "off") in
  let down := {| MemRedis.keys := ∅; MemRedis.up := false |} in
  checkLimit 0 0 0 "a" l down = (down, l, Throws RateLimiterUnavailableError) ∧
  let '(s', l', out) := checkLimit 0 0 0 "a" l down in
  l' = l ∧
  match out with
  | Returns r => fallback l = false ∧ ∃ n rest,
      redis_exec 0 (distributed_key l "a") (ceil_div (0 + windowMs (config l)) 1000) down
        = (s', ExecResults ((false, n) :: rest)) ∧
      allowed r = (n <=? maxRequests (config l))
  | Throws _ => True
  end.
Proof.
  split; [reflexivity|].
  exact (strict_never_degrades (S := MemRedis.t) 0 0 0 "a" (loginLimiter (Some "off"))
    {| MemRedis.keys := ∅; MemRedis.up := false |} eq_refl).
Defined.

(** Ten requests at intervals of 50 s to a limiter of 5 per minute. *)
Definition patient_times : list Z := (λ i, 50000 * Z.of_nat i) <$> seq 0 10.

Lemma distributed_window_never_resets_witness :
  maxRequests (config (loginLimiter None)) = 5 ∧
  Forall2 (λ i out, ∃ r, out = Returns r ∧
      allowed r = (Z.of_nat i <=? maxRequests (config (loginLimiter None))))
    (seq 1 (length patient_times))
    (run_distributed "a" (loginLimiter None) SteadyRedis.fresh patient_times).
Proof.
  split; [reflexivity|].
  apply (distributed_window_never_resets (S := SteadyRedis.t) "a" (loginLimiter None)
    SteadyRedis.fresh 0 patient_times SteadyRedis.steady_healthy).
  - cbn. lia.
  - cbn. lia.
  - reflexivity.
Defined.

Lemma resetLimit_misses_counter_witness :
  let l := loginLimiter None in
  let s := {| MemRedis.keys := {["rate_limit:login:a" := (7, 60000)]}; MemRedis.up := true |} in
  counter (resetLimit 0 "a" l s).1.1 10 (distributed_key l "a") = 7.
Proof.
  cbv zeta.
  rewrite (resetLimit_misses_counter (S := MemRedis.t) 0 "a" "login" (loginLimiter None) (loginLimiter None)
    {| MemRedis.keys := {["rate_limit:login:a" := (7, 60000)]}; MemRedis.up := true |} _ 10);
    try reflexivity. lia.
Defined.

Lemma recovery_probe_witness :
  let l := (loginLimiter None) <| fallback := true |> in
  let '(s', l') := tryRecoverFromFallback 40000 l MemRedis.fresh in
  fallback l' = false ∧
  (if 40000 - lastRecoveryProbeMs l <? 30000 then s' = MemRedis.fresh ∧ l' = l
   else s' = (redis_ping 40000 MemRedis.fresh).1 ∧ lastRecoveryProbeMs l' = 40000 ∧
        fallback l' = negb (redis_ping 40000 MemRedis.fresh).2 ∧ localCache l' = localCache l).
Proof.
  split; [reflexivity|].
  exact (recovery_probe 40000 ((loginLimiter None) <| fallback := true |>) MemRedis.fresh eq_refl).
Defined.
