(* ===== verification/Json.v ===== *)
(** * JSON

    The part of [JSON.stringify] and [JSON.parse] that the backend relies on
    when it stores records in Redis and reads token payloads: null, booleans,
    integers, strings, arrays and objects (members in insertion order, as
    JavaScript prints them).  Strings are sequences of bytes.  The main result
    is the round trip: parsing what was printed gives the value back. *)

From Stdlib Require Import DecimalString DecimalZ.
From S2P Require Import Prelude.
#[local] Open Scope string_scope.
#[local] Open Scope Z_scope.

Unset Elimination Schemes.
Inductive json :=
  | JNull
  | JBool (b : bool)
  | JNum (n : Z)
  | JStr (s : string)
  | JArr (l : list json)
  | JObj (l : list (string * json)).
Set Elimination Schemes.

Section JsonInd.
  Context (P : json → Prop).
  Hypothesis Hnull : P JNull.
  Hypothesis Hbool : ∀ b, P (JBool b).
  Hypothesis Hnum : ∀ n, P (JNum n).
  Hypothesis Hstr : ∀ s, P (JStr s).
  Hypothesis Harr : ∀ l, Forall P l → P (JArr l).
  Hypothesis Hobj : ∀ l, Forall (λ p, P p.2) l → P (JObj l).

Fixpoint json_ind (v : json) : P v :=
    match v with
    | JNull => Hnull
    | JBool b => Hbool b
    | JNum n => Hnum n
    | JStr s => Hstr s
    | JArr l => Harr l ((fix go l : Forall P l :=
        match l with
        | [] => Forall_nil_2 P
        | x :: l => Forall_cons_2 P x l (json_ind x) (go l)
        end) l)
    | JObj l => Hobj l ((fix go l : Forall (λ p : string * json, P p.2) l :=
        match l with
        | [] => Forall_nil_2 _
        | p :: l => Forall_cons_2 _ p l (json_ind p.2) (go l)
        end) l)
    end.
End JsonInd.

(** [obj.name] ([None] is [undefined]); of two members with one name the
    later one counts. *)
Fixpoint member (name : string) (l : list (string * json)) : option json :=
  match l with
  | [] => None
  | (k, v) :: l =>
      match member name l with
      | Some x => Some x
      | None => if String.eqb k name then Some v else None
      end
  end.

Definition get_member (name : string) (v : json) : option json :=
  match v with JObj l => member name l | _ => None end.

Definition as_string (v : json) : option string := match v with JStr s => Some s | _ => None end.

(** ** Printing *)

Definition dquote : Ascii.ascii := "034"%char.
Definition backslash : Ascii.ascii := "092"%char.

Definition hex_digit (n : N) : Ascii.ascii :=
  if (n <? 10)%N then Ascii.ascii_of_N (48 + n) else Ascii.ascii_of_N (87 + n).

(** One character of a string literal. *)
Definition escape_char (c : Ascii.ascii) (rest : string) : string :=
  let n := Ascii.N_of_ascii c in
  if (n =? 34)%N then String backslash (String dquote rest)
  else if (n =? 92)%N then String backslash (String backslash rest)
  else if (n =? 8)%N then String backslash (String "b"%char rest)
  else if (n =? 12)%N then String backslash (String "f"%char rest)
  else if (n =? 10)%N then String backslash (String "n"%char rest)
  else if (n =? 13)%N then String backslash (String "r"%char rest)
  else if (n =? 9)%N then String backslash (String "t"%char rest)
  else if (n <? 32)%N then
    String backslash (String "u"%char (String "0"%char (String "0"%char
      (String (hex_digit (n / 16)) (String (hex_digit (n mod 16)) rest)))))
  else String c rest.

Fixpoint escape (s : string) (rest : string) : string :=
  match s with
  | EmptyString => String dquote rest
  | String c s => escape_char c (escape s rest)
  end.

(** Printers take what follows, so that concatenation is on the right. *)
Definition print_string (s rest : string) : string := String dquote (escape s rest).

Definition print_number (n : Z) (rest : string) : string :=
  NilZero.string_of_int (Z.to_int n) +:+ rest.

Fixpoint print (v : json) (rest : string) : string :=
  match v with
  | JNull => "null" +:+ rest
  | JBool true => "true" +:+ rest
  | JBool false => "false" +:+ rest
  | JNum n => print_number n rest
  | JStr s => print_string s rest
  | JArr l =>
      let fix elems l :=
        match l with
        | [] => String "]"%char rest
        | x :: l => String ","%char (print x (elems l))
        end in
      match l with
      | [] => String "["%char (String "]"%char rest)
      | x :: l => String "["%char (print x (elems l))
      end
  | JObj l =>
      let fix members l :=
        match l with
        | [] => String "}"%char rest
        | (k, x) :: l => String ","%char (print_string k (String ":"%char (print x (members l))))
        end in
      match l with
      | [] => String "{"%char (String "}"%char rest)
      | (k, x) :: l => String "{"%char (print_string k (String ":"%char (print x (members l))))
      end
  end.

(** [JSON.stringify(v)] *)
Definition stringify (v : json) : string := print v "".

(** ** Parsing *)

(** The four white-space characters of JSON. *)
Definition is_json_ws (c : Ascii.ascii) : bool :=
  let n := Ascii.N_of_ascii c in ((n =? 32) || (n =? 9) || (n =? 10) || (n =? 13))%N.

Fixpoint skip_ws (s : string) : string :=
  match s with
  | EmptyString => EmptyString
  | String c s' => if is_json_ws c then skip_ws s' else s
  end.

Definition hex_val (c : Ascii.ascii) : option N :=
  let n := Ascii.N_of_ascii c in
  if ((48 <=? n) && (n <=? 57))%N then Some (n - 48)%N
  else if ((97 <=? n) && (n <=? 102))%N then Some (n - 87)%N
  else if ((65 <=? n) && (n <=? 70))%N then Some (n - 55)%N
  else None.

(** The character an escape letter stands for. *)
Definition unescape (c : Ascii.ascii) : option Ascii.ascii :=
  let n := Ascii.N_of_ascii c in
  if (n =? 34)%N then Some dquote
  else if (n =? 92)%N then Some backslash
  else if (n =? 47)%N then Some c
  else if (n =? 98)%N then Some (Ascii.ascii_of_N 8)
  else if (n =? 102)%N then Some (Ascii.ascii_of_N 12)
  else if (n =? 110)%N then Some (Ascii.ascii_of_N 10)
  else if (n =? 114)%N then Some (Ascii.ascii_of_N 13)
  else if (n =? 116)%N then Some (Ascii.ascii_of_N 9)
  else None.

(** The body of a string literal, up to its closing quote.  [\uXXXX] is
    understood for code points below 256. *)
Fixpoint parse_chars (fuel : nat) (s : string) : option (string * string) :=
  match fuel with
  | O => None
  | S fuel =>
      match s with
      | EmptyString => None
      | String c s =>
          if Ascii.eqb c dquote then Some ("", s)
          else if Ascii.eqb c backslash then
            match s with
            | String "u"%char (String a (String b (String c1 (String c0 s)))) =>
                match hex_val a, hex_val b, hex_val c1, hex_val c0 with
                | Some 0%N, Some 0%N, Some hi, Some lo =>
                    match parse_chars fuel s with
                    | Some (t, s) => Some (String (Ascii.ascii_of_N (16 * hi + lo)) t, s)
                    | None => None
                    end
                | _, _, _, _ => None
                end
            | String e s =>
                match unescape e, parse_chars fuel s with
                | Some c, Some (t, s) => Some (String c t, s)
                | _, _ => None
                end
            | EmptyString => None
            end
          else if (Ascii.N_of_ascii c <? 32)%N then None
          else match parse_chars fuel s with
               | Some (t, s) => Some (String c t, s)
               | None => None
               end
      end
  end.

Definition is_num_char (c : Ascii.ascii) : bool :=
  is_digit c || Ascii.eqb c "-"%char || Ascii.eqb c "+"%char || Ascii.eqb c "."%char
  || Ascii.eqb c "e"%char || Ascii.eqb c "E"%char.

(** The longest prefix of number characters. *)
Fixpoint span_num (s : string) : string * string :=
  match s with
  | String c s' =>
      if is_num_char c then let '(a, r) := span_num s' in (String c a, r) else ("", s)
  | EmptyString => ("", "")
  end.

(** Integer literals, in the form in which they are printed (so no leading
    zeros, which JSON forbids). *)
Definition parse_number (s : string) : option (json * string) :=
  let '(lexeme, rest) := span_num s in
  match NilZero.int_of_string lexeme with
  | Some d =>
      if String.eqb lexeme (NilZero.string_of_int (Z.to_int (Z.of_int d)))
      then Some (JNum (Z.of_int d), rest) else None
  | None => None
  end.

(** [s] without the prefix [p]. *)
Fixpoint strip (p s : string) : option string :=
  match p, s with
  | EmptyString, _ => Some s
  | String c p, String d s => if Ascii.eqb c d then strip p s else None
  | String _ _, EmptyString => None
  end.

Definition parse_lit (lit : string) (v : json) (s : string) : option (json * string) :=
  match strip lit s with Some rest => Some (v, rest) | None => None end.

Fixpoint parse_value (fuel : nat) (s : string) : option (json * string) :=
  match fuel with
  | O => None
  | S fuel =>
      match skip_ws s with
      | EmptyString => None
      | String c s' as s =>
          if Ascii.eqb c "n"%char then parse_lit "null" JNull s
          else if Ascii.eqb c "t"%char then parse_lit "true" (JBool true) s
          else if Ascii.eqb c "f"%char then parse_lit "false" (JBool false) s
          else if Ascii.eqb c dquote then
            match parse_chars (S (String.length s')) s' with
            | Some (t, rest) => Some (JStr t, rest)
            | None => None
            end
          else if Ascii.eqb c "["%char then
            match skip_ws s' with
            | String "]"%char rest => Some (JArr [], rest)
            | _ => match parse_elems fuel s' with
                   | Some (l, rest) => Some (JArr l, rest)
                   | None => None
                   end
            end
          else if Ascii.eqb c "{"%char then
            match skip_ws s' with
            | String "}"%char rest => Some (JObj [], rest)
            | _ => match parse_members fuel s' with
                   | Some (l, rest) => Some (JObj l, rest)
                   | None => None
                   end
            end
          else parse_number s
      end
  end
with parse_elems (fuel : nat) (s : string) : option (list json * string) :=
  match fuel with
  | O => None
  | S fuel =>
      match parse_value fuel s with
      | None => None
      | Some (v, s) =>
          match skip_ws s with
          | String "]"%char rest => Some ([v], rest)
          | String ","%char s =>
              match parse_elems fuel s with
              | Some (l, rest) => Some (v :: l, rest)
              | None => None
              end
          | _ => None
          end
      end
  end
with parse_members (fuel : nat) (s : string) : option (list (string * json) * string) :=
  match fuel with
  | O => None
  | S fuel =>
      match skip_ws s with
      | String c s =>
          if Ascii.eqb c dquote then
            match parse_chars (S (String.length s)) s with
            | Some (k, s) =>
                match skip_ws s with
                | String ":"%char s =>
                    match parse_value fuel s with
                    | Some (v, s) =>
                        match skip_ws s with
                        | String "}"%char rest => Some ([(k, v)], rest)
                        | String ","%char s =>
                            match parse_members fuel s with
                            | Some (l, rest) => Some ((k, v) :: l, rest)
                            | None => None
                            end
                        | _ => None
                        end
                    | None => None
                    end
                | _ => None
                end
            | None => None
            end
          else None
      | EmptyString => None
      end
  end.

(** [JSON.parse(s)]; [None] is a [SyntaxError].  Each level of nesting and
    each separator consumes a character, so twice the length is enough fuel. *)
Definition parse (s : string) : option json :=
  match parse_value (2 + 2 * String.length s) s with
  | Some (v, rest) => if String.eqb (skip_ws rest) "" then Some v else None
  | None => None
  end.

(** ** The round trip *)

Lemma parse_escape_char c s fuel :
  parse_chars (S fuel) (escape_char c s) =
  match parse_chars fuel s with Some (t, r) => Some (String c t, r) | None => None end.
Proof. destruct c as [[] [] [] [] [] [] [] []]; reflexivity. Qed.

Lemma escape_char_length c s : (String.length s < String.length (escape_char c s))%nat.
Proof. unfold escape_char. repeat case_match; cbn; lia. Qed.

Lemma escape_length s rest : (String.length s + String.length rest < String.length (escape s rest))%nat.
Proof.
  induction s as [|c s IH]; cbn [escape String.length]; [lia|].
  pose proof (escape_char_length c (escape s rest)). lia.
Qed.

Lemma parse_escape s rest fuel :
  (String.length s < fuel)%nat → parse_chars fuel (escape s rest) = Some (s, rest).
Proof.
  revert fuel. induction s as [|c s IH]; intros fuel Hf; (destruct fuel as [|fuel]; [lia|]).
  - done.
  - cbn [escape]. rewrite parse_escape_char, IH; [done|]. cbn in Hf. lia.
Qed.

Definition num_end (s : string) : Prop :=
  match s with String c _ => is_num_char c = false | EmptyString => True end.

(** Every character of a printed number is a number character. *)
Fixpoint all_num (s : string) : Prop :=
  match s with String c s => is_num_char c = true ∧ all_num s | EmptyString => True end.

Lemma string_of_uint_num d : all_num (NilEmpty.string_of_uint d).
Proof. induction d; cbn; auto. Qed.

Lemma string_of_int_num d :
  all_num (NilZero.string_of_int d) ∧ NilZero.string_of_int d ≠ "".
Proof.
  assert (Hu : ∀ u, all_num (NilZero.string_of_uint u) ∧ NilZero.string_of_uint u ≠ "").
  { intros u. destruct u; cbn; split; try done; split; try done; apply string_of_uint_num. }
  destruct d as [u|u]; cbn; [apply Hu|]. split; [|done]. split; [done|apply Hu].
Qed.

Lemma span_num_app s rest : all_num s → num_end rest → span_num (s +:+ rest) = (s, rest).
Proof.
  intros Hs Hr. induction s as [|c s IH].
  - destruct rest as [|c rest]; cbn in *; [done|]. change ("" +:+ String c rest) with (String c rest).
    cbn. by rewrite Hr.
  - destruct Hs as [Hc Hs]. change (String c s +:+ rest) with (String c (s +:+ rest)).
    cbn. by rewrite Hc, (IH Hs).
Qed.

Lemma to_int_not_nil n : Z.to_int n ≠ Decimal.Pos Decimal.Nil ∧ Z.to_int n ≠ Decimal.Neg Decimal.Nil.
Proof.
  assert (∀ d, Z.to_int n = d → Z.of_int d = n) as H by (intros d <-; apply DecimalZ.of_to).
  split; intros E; pose proof (H _ E) as Hn; cbn in Hn; subst n; discriminate E.
Qed.

Lemma parse_print_number n rest :
  num_end rest → parse_number (print_number n rest) = Some (JNum n, rest).
Proof.
  intros Hr. unfold parse_number, print_number. destruct (string_of_int_num (Z.to_int n)) as [Hn _].
  rewrite span_num_app by done. destruct (to_int_not_nil n).
  rewrite NilZero.isi by done. by rewrite DecimalZ.of_to, String.eqb_refl.
Qed.

(** The tails of arrays and objects. *)
Fixpoint print_elems (l : list json) (rest : string) : string :=
  match l with
  | [] => String "]"%char rest
  | x :: l => String ","%char (print x (print_elems l rest))
  end.

Fixpoint print_members (l : list (string * json)) (rest : string) : string :=
  match l with
  | [] => String "}"%char rest
  | (k, x) :: l => String ","%char (print_string k (String ":"%char (print x (print_members l rest))))
  end.

Lemma print_arr x l rest : print (JArr (x :: l)) rest = String "["%char (print x (print_elems l rest)).
Proof.
  cbn [print]. do 2 f_equal. induction l as [|y l IH]; [done|]. cbn [print_elems]. by rewrite <- IH.
Qed.

Lemma print_obj k x l rest :
  print (JObj ((k, x) :: l)) rest =
  String "{"%char (print_string k (String ":"%char (print x (print_members l rest)))).
Proof.
  cbn [print]. do 4 f_equal. induction l as [|[k' y] l IH]; [done|].
  cbn [print_members]. by rewrite <- IH.
Qed.

(** The fuel a value needs. *)
Fixpoint need (v : json) : nat :=
  match v with
  | JArr l => S (foldr (λ x n, S (need x) + n)%nat O l)
  | JObj l => S (foldr (λ p n, S (need (snd p)) + n)%nat O l)
  | _ => 1
  end.

Definition elems_need (l : list json) : nat := foldr (λ x n, S (need x) + n)%nat O l.
Definition members_need (l : list (string * json)) : nat :=
  foldr (λ p n, S (need p.2) + n)%nat O l.

Lemma print_string_length s rest :
  (1 + String.length rest < String.length (print_string s rest))%nat.
Proof. unfold print_string. cbn. pose proof (escape_length s rest). lia. Qed.

Lemma need_print v rest : (need v + 2 * String.length rest <= 2 * String.length (print v rest))%nat.
Proof.
  revert rest. induction v as [|b|n|s|l IH|l IH] using json_ind; intros rest.
  - cbn [print need]. rewrite string_length_app. cbn. lia.
  - destruct b; cbn [print need]; rewrite string_length_app; cbn; lia.
  - cbn [print need]. unfold print_number. rewrite string_length_app.
    destruct (string_of_int_num (Z.to_int n)) as [_ Hn].
    destruct (NilZero.string_of_int _); [done|cbn; lia].
  - cbn [print need]. pose proof (print_string_length s rest). lia.
  - assert (He : ∀ r, (elems_need l + 2 * String.length r + 2 <= 2 * String.length (print_elems l r))%nat).
    { intros r. induction IH as [|x l Hx _ IHl]; [cbn; lia|]. specialize (Hx (print_elems l r)).
      change (elems_need (x :: l)) with (S (need x) + elems_need l)%nat.
      cbn [print_elems String.length]. lia. }
    destruct l as [|x l]; [cbn; lia|]. rewrite print_arr. specialize (He rest).
    change (need (JArr (x :: l))) with (S (elems_need (x :: l))). cbn [print_elems String.length] in *. lia.
  - assert (He : ∀ r, (members_need l + 2 * String.length r + 2 <= 2 * String.length (print_members l r))%nat).
    { intros r. induction IH as [|[k x] l Hx _ IHl]; [cbn; lia|]. specialize (Hx (print_members l r)).
      change (members_need ((k, x) :: l)) with (S (need x) + members_need l)%nat. cbn [snd] in Hx.
      pose proof (print_string_length k (String ":"%char (print x (print_members l r)))) as Hk.
      cbn [print_members String.length] in *. lia. }
    destruct l as [|[k x] l]; [cbn; lia|]. rewrite print_obj. specialize (He rest).
    change (need (JObj ((k, x) :: l))) with (S (members_need ((k, x) :: l))).
    cbn [print_members String.length] in *. lia.
Qed.

(** What a printed value starts with. *)
Definition value_start (c : Ascii.ascii) : bool :=
  is_num_char c || Ascii.eqb c "n"%char || Ascii.eqb c "t"%char || Ascii.eqb c "f"%char
  || Ascii.eqb c dquote || Ascii.eqb c "["%char || Ascii.eqb c "{"%char.

Lemma print_head v rest : ∃ c s, print v rest = String c s ∧ value_start c = true.
Proof.
  destruct v as [|[]|n|s|[|x l]|[|[k x] l]]; try (eexists _, _; by split).
  cbn. unfold print_number. destruct (string_of_int_num (Z.to_int n)) as [Ha Hn].
  destruct (NilZero.string_of_int (Z.to_int n)) as [|c s]; [done|].
  exists c, (s +:+ rest). split; [done|]. destruct Ha as [Ha _]. unfold value_start. by rewrite Ha.
Qed.

Lemma value_start_spec c :
  value_start c = true → is_json_ws c = false ∧ Ascii.eqb c "]"%char = false.
Proof. destruct c as [[] [] [] [] [] [] [] []]; cbn; intros ?; done. Qed.

Lemma num_char_spec c :
  is_num_char c = true →
  is_json_ws c = false ∧ Ascii.eqb c "n"%char = false ∧ Ascii.eqb c "t"%char = false ∧
  Ascii.eqb c "f"%char = false ∧ Ascii.eqb c dquote = false ∧ Ascii.eqb c "["%char = false ∧
  Ascii.eqb c "{"%char = false.
Proof. destruct c as [[] [] [] [] [] [] [] []]; cbn; intros ?; done. Qed.

Lemma skip_ws_print v rest : skip_ws (print v rest) = print v rest.
Proof.
  destruct (print_head v rest) as (c & s & -> & Hc). apply value_start_spec in Hc as [Hc _].
  cbn. by rewrite Hc.
Qed.

(** [parse_value] reads [v] back from its printed form. *)
Definition reads (v : json) : Prop :=
  ∀ fuel rest, num_end rest → (need v <= fuel)%nat → parse_value fuel (print v rest) = Some (v, rest).

Lemma reads_num n : reads (JNum n).
Proof.
  intros [|fuel] rest Hr Hf; [cbn in Hf; lia|]. pose proof (parse_print_number n rest Hr) as Hp.
  cbn [print]. destruct (string_of_int_num (Z.to_int n)) as [Ha Hn].
  unfold print_number in *. destruct (NilZero.string_of_int (Z.to_int n)) as [|c s]; [done|].
  destruct Ha as [Ha _]. apply num_char_spec in Ha as (H1 & H2 & H3 & H4 & H5 & H6 & H7).
  change (String c s +:+ rest) with (String c (s +:+ rest)) in *.
  cbn. by rewrite H1, H2, H3, H4, H5, H6, H7.
Qed.

Lemma reads_elems x l fuel rest :
  reads x → Forall reads l → (elems_need (x :: l) <= fuel)%nat →
  parse_elems fuel (print x (print_elems l rest)) = Some (x :: l, rest).
Proof.
  intros Hx Hl. revert x Hx fuel. induction Hl as [|y l Hy _ IH]; intros x Hx fuel Hf;
    (destruct fuel as [|fuel]; [cbn in Hf; lia|]); cbn in Hf; cbn [parse_elems print_elems];
    rewrite Hx by (done || lia); [done|].
  cbn [skip_ws]. change (is_json_ws ","%char) with false. cbn match.
  rewrite IH; [done..|]. cbn. lia.
Qed.

(** A quoted string in front of anything. *)
Lemma parse_chars_escape k rest :
  parse_chars (S (String.length (escape k rest))) (escape k rest) = Some (k, rest).
Proof. apply parse_escape. pose proof (escape_length k rest). lia. Qed.

Lemma reads_members k x l fuel rest :
  reads x → Forall (λ p, reads p.2) l → (members_need ((k, x) :: l) <= fuel)%nat →
  parse_members fuel (print_string k (String ":"%char (print x (print_members l rest)))) =
  Some ((k, x) :: l, rest).
Proof.
  intros Hx Hl. revert k x Hx fuel. induction Hl as [|[k' y] l Hy _ IH]; intros k x Hx fuel Hf;
    (destruct fuel as [|fuel]; [cbn in Hf; lia|]); cbn in Hf;
    unfold print_string at 1; cbn [parse_members skip_ws];
    change (is_json_ws dquote) with false; cbn match;
    change (Ascii.eqb dquote dquote) with true; cbn match; rewrite parse_chars_escape;
    cbn [skip_ws]; change (is_json_ws ":"%char) with false; cbn match;
    rewrite Hx by (done || lia); [done|].
  cbn [print_members skip_ws]. change (is_json_ws ","%char) with false. cbn match.
  rewrite IH; [done..|]. cbn. lia.
Qed.

Lemma reads_all v : reads v.
Proof.
  induction v as [|b|n|s|l IH|l IH] using json_ind.
  1-2: intros [|fuel] rest Hr Hf; [cbn in Hf; lia|]; try destruct b; done.
  - apply reads_num.
  - intros [|fuel] rest Hr Hf; [cbn in Hf; lia|]. cbn [print]. unfold print_string.
    cbn [parse_value skip_ws]. change (is_json_ws dquote) with false. cbn match.
    cbn [Ascii.eqb dquote Bool.eqb]. by rewrite parse_chars_escape.
  - intros [|fuel] rest Hr Hf; [cbn in Hf; lia|]. destruct IH as [|x l Hx Hl]; [done|].
    rewrite print_arr. cbn [need] in Hf. fold (elems_need (x :: l)) in Hf.
    cbn [parse_value skip_ws]. change (is_json_ws "["%char) with false. cbn match.
    cbn [Ascii.eqb dquote Bool.eqb]. rewrite skip_ws_print, reads_elems by (done || lia).
    destruct (print_head x (print_elems l rest)) as (c & s & -> & Hc).
    apply value_start_spec in Hc as [_ Hc]. destruct c as [[] [] [] [] [] [] [] []]; done.
  - intros [|fuel] rest Hr Hf; [cbn in Hf; lia|]. destruct IH as [|[k x] l Hx Hl]; [done|].
    rewrite print_obj. cbn [need] in Hf. fold (members_need ((k, x) :: l)) in Hf.
    cbn [parse_value skip_ws]. change (is_json_ws "{"%char) with false. cbn match.
    cbn [Ascii.eqb dquote Bool.eqb]. rewrite reads_members by (done || lia). done.
Qed.

(** Parsing a printed value gives the value back. *)
Lemma parse_stringify v : parse (stringify v) = Some v.
Proof.
  unfold parse, stringify. pose proof (need_print v "") as Hn.
  rewrite reads_all by (done || (cbn in Hn; lia)). done.
Qed.

Lemma stringify_inj v w : stringify v = stringify w → v = w.
Proof. intros H. apply (f_equal parse) in H. rewrite !parse_stringify in H. congruence. Qed.

#[export] Hint Rewrite parse_stringify : uam.
