(* ===== verification/Async.v ===== *)
(** * Asynchronous programs

    An [async] function runs in pieces: the code between two [await]s is
    executed without interruption, and other requests may run in between.
    [prog E S A] is such a function over a shared state [S]: [Act] is one
    uninterrupted piece (it also reads an environment [E]: clock, randomness,
    how a remote call fares), [Ret] the returned value.  [run] executes a
    program alone; [pool_step] interleaves several programs. *)

From S2P Require Import Prelude.

Section Async.
Context {E S : Type}.

Inductive prog (A : Type) : Type :=
  | Ret (a : A)
  | Act (X : Type) (f : E → S → X * S) (k : X → prog A).
Arguments Ret {A} a.
Arguments Act {A} X f k.

Fixpoint bind {A B} (p : prog A) (q : A → prog B) : prog B :=
  match p with
  | Ret a => q a
  | Act X f k => Act X f (λ x, bind (k x) q)
  end.

(** One uninterrupted piece on its own. *)
Definition act {A} (f : E → S → A * S) : prog A := Act A f Ret.

(** The environments of the pieces, in order. *)
Definition envs := nat → E.
Definition env_tail (es : envs) : envs := λ n, es (Datatypes.S n).

Fixpoint run {A} (p : prog A) (es : envs) (s : S) : A * S :=
  match p with
  | Ret a => (a, s)
  | Act X f k => let '(x, s) := f (es O) s in run (k x) (env_tail es) s
  end.

(** ** Interleaving *)

Inductive pool_step {A} : list (prog A) * S → list (prog A) * S → Prop :=
  | pool_act i X f k e s x s' ps :
      ps !! i = Some (Act X f k) → f e s = (x, s') →
      pool_step (ps, s) (<[i := k x]> ps, s').

Definition pool_reach {A} : list (prog A) * S → list (prog A) * S → Prop := rtc pool_step.

(** One piece of a program. *)
Definition step_of {A} (p : prog A) (e : E) (s : S) : option (prog A * S) :=
  match p with
  | Act X f k => let '(x, s) := f e s in Some (k x, s)
  | Ret _ => None
  end.

Lemma pool_step_inv {A} (c c' : list (prog A) * S) :
  pool_step c c' →
  ∃ i p e p' s', c.1 !! i = Some p ∧ step_of p e c.2 = Some (p', s') ∧ c' = (<[i := p']> c.1, s').
Proof.
  intros [i X f k e s x s' ps Hi Hf]. exists i, (Act X f k), e, (k x), s'. cbn. by rewrite Hf.
Qed.

(** The threads of a pool one after the other: a schedule names the thread
    to run and its environment. *)
Fixpoint play {A} (sched : list (nat * E)) (ps : list (prog A)) (s : S) : list (prog A) * S :=
  match sched with
  | [] => (ps, s)
  | (i, e) :: sched =>
      match ps !! i with
      | Some (Act X f k) => let '(x, s) := f e s in play sched (<[i := k x]> ps) s
      | _ => play sched ps s
      end
  end.

Lemma play_reach {A} sched (ps : list (prog A)) s : pool_reach (ps, s) (play sched ps s).
Proof.
  revert ps s. induction sched as [|[i e] sched IH]; intros ps s; cbn; [apply rtc_refl|].
  destruct (ps !! i) as [[a|X f k]|] eqn:Hi; [apply IH| |apply IH].
  destruct (f e s) as [x s'] eqn:Hf. eapply rtc_l; [by eapply pool_act|]. apply IH.
Qed.

(** An invariant of every piece of every program is an invariant of the pool. *)
Fixpoint keeps {A} (I : S → Prop) (p : prog A) : Prop :=
  match p with
  | Ret _ => True
  | Act X f k => (∀ e s, I s → I (f e s).2) ∧ ∀ x, keeps I (k x)
  end.

Lemma pool_invariant {A} (I : S → Prop) (c c' : list (prog A) * S) :
  pool_reach c c' → I c.2 → Forall (keeps I) c.1 → I c'.2 ∧ Forall (keeps I) c'.1.
Proof.
  induction 1 as [c|c1 c2 c3 Hs _ IH]; [done|]. intros HI Hk.
  destruct Hs as [i X f k e s x s' ps Hi Hf]. cbn in *.
  pose proof (Forall_lookup_1 _ _ _ _ Hk Hi) as [Hf' Hk']. apply IH.
  - specialize (Hf' e s HI). by rewrite Hf in Hf'.
  - by apply Forall_insert.
Qed.

(** A program continued: the rest runs on what the first part left. *)
Lemma run_bind_any {A B} (p : prog A) (q : A → prog B) es s :
  ∃ es', run (bind p q) es s = run (q (run p es s).1) es' (run p es s).2.
Proof.
  revert es s. induction p as [a|X f k IH]; intros es s; cbn; [by exists es|].
  destruct (f (es O) s) as [x s']. apply IH.
Qed.
End Async.
Arguments prog E S A : clear implicits.
Arguments Ret {E S A} a.
Arguments Act {E S A} X f k.

Declare Scope async_scope.
Delimit Scope async_scope with async.
Notation "'let!' x := p 'in' q" := (bind p (λ x, q))
  (at level 10, x name, p at level 100, q at level 200) : async_scope.
Notation "p ;; q" := (bind p (λ _, q))
  (at level 100, q at level 200, right associativity) : async_scope.

(** What a function that may throw gives. *)
Inductive outcome (A : Type) :=
  | Returned (a : A)
  | Thrown (message : string).
Arguments Returned {A} a.
Arguments Thrown {A} message.

(** ** A weakest precondition

    [path P p es s]: every piece of this run of [p] meets [P] (a condition on
    its environment and on the state it starts in).  [always P p s Q]: every
    such run returns a result and a state in [Q]. *)

Fixpoint path {E S A} (P : E → S → Prop) (p : prog E S A) (es : nat → E) (s : S) : Prop :=
  match p with
  | Ret _ => True
  | Act X f k => P (es O) s ∧ path P (k (f (es O) s).1) (env_tail es) (f (es O) s).2
  end.

Definition always {E S A} (P : E → S → Prop) (p : prog E S A) (s : S) (Q : A → S → Prop) : Prop :=
  ∀ es, path P p es s → Q (run p es s).1 (run p es s).2.

Section Always.
Context {E S : Type} (P : E → S → Prop).

Lemma always_ret {A} (a : A) s (Q : A → S → Prop) : Q a s → always P (Ret a) s Q.
Proof. by intros H es _. Qed.

Lemma always_act {A} X f (k : X → prog E S A) s Q :
  (∀ e, P e s → always P (k (f e s).1) (f e s).2 Q) → always P (Act X f k) s Q.
Proof.
  intros H es [HP Hp]. cbn. specialize (H (es O) HP). destruct (f (es O) s) as [x s'].
  by apply H.
Qed.

Lemma run_bind {A B} (p : prog E S A) (q : A → prog E S B) es s :
  path P (bind p q) es s →
  path P p es s ∧ ∃ es', path P (q (run p es s).1) es' (run p es s).2 ∧
    run (bind p q) es s = run (q (run p es s).1) es' (run p es s).2.
Proof.
  revert es s. induction p as [a|X f k IH]; intros es s HP; cbn in *; [split; [done|by exists es]|].
  destruct (f (es O) s) as [x s1]. cbn in *. destruct HP as [HP Hp].
  destruct (IH x _ _ Hp) as [? ?]. done.
Qed.

Lemma always_bind {A B} (p : prog E S A) (q : A → prog E S B) s Q :
  always P p s (λ a s', always P (q a) s' Q) → always P (bind p q) s Q.
Proof.
  intros H es HP. apply run_bind in HP as (Hp & es' & Hq & ->). by apply H.
Qed.

Lemma always_mono {A} (p : prog E S A) s (Q R : A → S → Prop) :
  always P p s Q → (∀ a s', Q a s' → R a s') → always P p s R.
Proof. intros H HQR es HP. by apply HQR, H. Qed.
End Always.

(** ** Programs of a component inside a larger state

    [embed] runs a component's program in a state that contains the
    component's: [enter] prepares a piece (it says what of the environment the
    component sees, and may move the clock), [get] and [put] read and write the
    component's part. *)

Section Embed.
Context {E S E' S' : Type} (enter : E' → S' → E * S') (get : S' → S) (put : S → S' → S').

Fixpoint embed {A} (p : prog E S A) : prog E' S' A :=
  match p with
  | Ret a => Ret a
  | Act X f k =>
      Act X (λ e s, let '(e, s) := enter e s in let '(x, t) := f e (get s) in (x, put t s)) (λ x, embed (k x))
  end.

(** [R] relates the states before and after a part of the run. *)
Context (R : S' → S' → Prop) `{!PreOrder R}.
Hypothesis get_enter : ∀ e s, get (enter e s).2 = get s.
Hypothesis enter_R : ∀ e s, R s (enter e s).2.
Hypothesis get_put : ∀ t s, get (put t s) = t.
Hypothesis put_R : ∀ t s, R s (put t s).

(** What holds of the component alone holds of it in the larger state, which
    changes elsewhere only as [R] allows. *)
Lemma always_embed {A} (P : E → S → Prop) (P' : E' → S' → Prop) (p : prog E S A) s0 s Q :
  R s0 s → (∀ e s1, R s0 s1 → P' e s1 → P (enter e s1).1 (get s1)) →
  always P p (get s) (λ a t, ∀ s', R s0 s' → get s' = t → Q a s') →
  always P' (embed p) s Q.
Proof.
  intros Hs HP. revert s Hs. induction p as [a|X f k IH]; intros s Hs H es Hpath.
  { apply (H (λ _, (enter (es O) s).1) I); done. }
  destruct Hpath as [He Hpath]. pose proof (get_enter (es O) s) as Hg.
  pose proof (enter_R (es O) s) as HR. pose proof (HP _ _ Hs He) as HPe. cbn in Hpath |- *.
  destruct (enter (es O) s) as [e s2] eqn:Een. cbn in Hg, HR, HPe. rewrite Hg in *.
  destruct (f e (get s)) as [x t] eqn:Ef. cbn in Hpath |- *.
  apply (IH x (put t s2)); [by etrans; [etrans; [exact Hs|exact HR]|]| |done].
  rewrite get_put. intros es' Hp'. specialize (H (λ n, match n with O => e | Datatypes.S n => es' n end)).
  cbn in H. rewrite Ef in H. by apply H.
Qed.
End Embed.

(** Checking a concrete run. *)
Fixpoint pathb {E S A} (Pb : E → S → bool) (p : prog E S A) (es : nat → E) (s : S) : bool :=
  match p with
  | Ret _ => true
  | Act X f k => Pb (es O) s && pathb Pb (k (f (es O) s).1) (env_tail es) (f (es O) s).2
  end.

Lemma path_check {E S A} (P : E → S → Prop) Pb (p : prog E S A) es s :
  (∀ e s, Pb e s = true → P e s) → pathb Pb p es s = true → path P p es s.
Proof.
  intros HP. revert es s. induction p as [a|X f k IH]; intros es s; [done|]. cbn. intros [He Hp]%andb_true_iff.
  split; [by apply HP|by apply IH].
Qed.

#[export] Hint Resolve always_ret : uam.
