(* ===== verification/RedisCache.v ===== *)
(** * The Redis cache pool

    Models [uam-backend/src/config/redis.ts]: the client options, the
    connection events that maintain [cacheReady] and [rateLimitReady], and the
    commands [cacheSet], [cacheGet] and [cacheDel], which run under the
    circuit breaker and never fail towards their caller.

    The Redis server and the [ioredis] client are not part of the repository:
    they are the class [RedisKV], whose laws state the documented behaviour of
    SETEX, SET, GET and DEL.  How one command fares (answered, lost, refused)
    and how the connection changes between two commands is read from an
    environment [Env], so every theorem covers every such course of events. *)

From S2P Require Import Prelude CircuitConfig RollingWindow CircuitBreaker GuardedCalls Async.
#[local] Open Scope string_scope.
#[local] Open Scope Z_scope.

(** ** Client construction *)

Inductive RedisRole := role_cache | role_ratelimit.

Definition role_name (r : RedisRole) : string :=
  match r with role_cache => "cache" | role_ratelimit => "ratelimit" end.

(** [config.redis], from [config/index.ts] *)
Record RedisConfig := {
  rc_enabled : bool;
  rc_host : string;
  rc_port : Z;
  rc_username : string;
  rc_password : string;
  rc_tls : bool;
  rc_db : Z;
  rc_connectTimeoutMs : Z;
  rc_commandTimeoutMs : Z;
  rc_keepAliveMs : Z;
  rc_maxRetriesPerRequest : Z;
}.

(** The options handed to [new Redis(...)]; [None] is [undefined]. *)
Record RedisOptions := {
  ro_target : string * Z;
  ro_username : option string;
  ro_password : option string;
  ro_tls_servername : option (option string);
  ro_db : option Z;
  ro_connectionName : string;
  ro_lazyConnect : bool;
  ro_enableReadyCheck : bool;
  ro_enableOfflineQueue : bool;
  ro_maxRetriesPerRequest : Z;
  ro_connectTimeout : Z;
  ro_commandTimeout : Z;
  ro_keepAlive : Z;
  ro_reconnectOnError : option (string → bool);
}.

(** [x || undefined] on a string *)
Definition or_undefined (s : string) : option string := if String.eqb s "" then None else Some s.

(** [retryStrategy: (times) => Math.min(times * 200, 5_000)] *)
Definition retryStrategy (times : Z) : Z := Z.min (times * 200) 5000.

Definition reconnectOnError (message : string) : bool :=
  includes message "READONLY" || includes message "ECONNRESET"
  || includes message "Connection is closed" || includes message "Stream isnt writeable".

Definition buildRedisOptions (redis : RedisConfig) (role : RedisRole) : RedisOptions :=
  {| ro_target := (rc_host redis, rc_port redis);
     ro_username := or_undefined (rc_username redis);
     ro_password := or_undefined (rc_password redis);
     ro_tls_servername := if rc_tls redis then Some (Some (rc_host redis)) else None;
     ro_db := Some (rc_db redis);
     ro_connectionName := "uam-" +:+ role_name role;
     ro_lazyConnect := true;
     ro_enableReadyCheck := true;
     ro_enableOfflineQueue := true;
     ro_maxRetriesPerRequest := rc_maxRetriesPerRequest redis;
     ro_connectTimeout := rc_connectTimeoutMs redis;
     ro_commandTimeout := rc_commandTimeoutMs redis;
     ro_keepAlive := rc_keepAliveMs redis;
     ro_reconnectOnError := Some reconnectOnError |}.

(** The URL itself names host, port, user and database. *)
Definition buildUrlClient (redis : RedisConfig) (url : string) (role : RedisRole) : RedisOptions :=
  let isTls := startsWith url "rediss://" in
  {| ro_target := (url, 0);
     ro_username := None;
     ro_password := None;
     ro_tls_servername := if isTls then Some None else None;
     ro_db := None;
     ro_connectionName := "uam-" +:+ role_name role;
     ro_lazyConnect := true;
     ro_enableReadyCheck := true;
     ro_enableOfflineQueue := true;
     ro_maxRetriesPerRequest := rc_maxRetriesPerRequest redis;
     ro_connectTimeout := rc_connectTimeoutMs redis;
     ro_commandTimeout := rc_commandTimeoutMs redis;
     ro_keepAlive := rc_keepAliveMs redis;
     ro_reconnectOnError := None |}.

(** ** The server *)

(** One database of the server; times are milliseconds, TTLs seconds. *)
Class RedisKV := {
  kv : Type;
  kv_setex : Z → string → Z → string → kv → kv;
  kv_set : string → string → kv → kv;
  kv_get : Z → string → kv → option string;
  kv_del : string → kv → kv;
}.

(** What the Redis documentation says of the four commands. *)
Class RedisKVLaws `(RedisKV) : Prop := {
  get_setex : ∀ t0 t k ttl v s, 0 < ttl → t0 ≤ t →
    kv_get t k (kv_setex t0 k ttl v s) = if t <? t0 + ttl * 1000 then Some v else None;
  get_setex_ne : ∀ t0 t k k' ttl v s, k ≠ k' →
    kv_get t k' (kv_setex t0 k ttl v s) = kv_get t k' s;
  get_set : ∀ t k v s, kv_get t k (kv_set k v s) = Some v;
  get_set_ne : ∀ t k k' v s, k ≠ k' → kv_get t k' (kv_set k v s) = kv_get t k' s;
  get_del : ∀ t k s, kv_get t k (kv_del k s) = None;
  get_del_ne : ∀ t k k' s, k ≠ k' → kv_get t k' (kv_del k s) = kv_get t k' s;
  get_earlier : ∀ t t' k v s, t ≤ t' → kv_get t' k s = Some v → kv_get t k s = Some v;
}.

(** ** The module state and its environment *)

(** Connection events of one client. *)
Inductive RedisEvent := ev_ready | ev_connect | ev_error | ev_close | ev_reconnecting.

(** The effect of the handlers on the ready flag. *)
Definition wireClientEvents (ev : RedisEvent) (ready : bool) : bool :=
  match ev with
  | ev_ready => true
  | ev_connect => ready
  | ev_error | ev_close | ev_reconnecting => false
  end.

(** How an admitted command fares.  A command whose answer is lost may or may
    not have been applied by the server. *)
Inductive Fate :=
  | Answered
  | TimedOut (applied : bool)
  | Failed (err : RedisFailure) (applied : bool).

(** What one uninterrupted piece of a request meets: time that has passed
    since the piece before, connection events in between, randomness, and the
    fate and duration of the command it issues. *)
Record Env := {
  elapse : N;
  events : list (RedisRole * RedisEvent);
  rand_begin : Q;
  rand_end : Q;
  fate : Fate;
  wait : N;
  fresh : string;          (** [crypto.randomBytes(32).toString('hex')] *)
  uuids : string * string; (** [crypto.randomUUID()], twice *)
}.

Section Cache.
Context `{RKV : RedisKV}.

Record Cache := mkCache {
  enabled : bool;                  (** [config.redis.enabled] *)
  redisCache : option RedisOptions;
  redisRateLimit : option RedisOptions;
  cacheReady : bool;
  rateLimitReady : bool;
  redisCircuitBreaker : CircuitBreaker;
  store : kv;                      (** the server's data *)
  clock : Z;                       (** [Date.now()] *)
}.

#[export] Instance set_cacheReady : Setter cacheReady := λ g '(mkCache a b c d e f s t), mkCache a b c (g d) e f s t.
#[export] Instance set_rateLimitReady : Setter rateLimitReady := λ g '(mkCache a b c d e f s t), mkCache a b c d (g e) f s t.
#[export] Instance set_redisCircuitBreaker : Setter redisCircuitBreaker := λ g '(mkCache a b c d e f s t), mkCache a b c d e (g f) s t.
#[export] Instance set_store : Setter store := λ g '(mkCache a b c d e f s t), mkCache a b c d e f (g s) t.
#[export] Instance set_clock : Setter clock := λ g '(mkCache a b c d e f s t), mkCache a b c d e f s (g t).

(** [createClients()], with [process.env.REDIS_URL] *)
Definition createClients (redis : RedisConfig) (redisUrl : option string)
    (cb : CircuitBreaker) (data : kv) (t : Z) : Cache :=
  let client role :=
    if rc_enabled redis then
      Some (match redisUrl with
            | Some url => if String.eqb url "" then buildRedisOptions redis role
                          else buildUrlClient redis url role
            | None => buildRedisOptions redis role
            end)
    else None in
  {| enabled := rc_enabled redis; redisCache := client role_cache;
     redisRateLimit := client role_ratelimit; cacheReady := false; rateLimitReady := false;
     redisCircuitBreaker := cb; store := data; clock := t |}.

Definition on_event (c : Cache) (p : RedisRole * RedisEvent) : Cache :=
  match p.1 with
  | role_cache => c <| cacheReady ::= wireClientEvents p.2 |>
  | role_ratelimit => c <| rateLimitReady ::= wireClientEvents p.2 |>
  end.

(** The state in which a piece starts to run. *)
Definition advance (e : Env) (c : Cache) : Cache :=
  foldl on_event (c <| clock ::= Z.add (Z.of_N (elapse e)) |>) (events e).

(** [connectRedis()]: [connected] says whether both clients became ready and
    answered a PING. *)
Definition connectRedis (connected : bool) (c : Cache) : Cache :=
  match enabled c, redisCache c, redisRateLimit c with
  | true, Some _, Some _ => c <| cacheReady := connected |> <| rateLimitReady := connected |>
  | _, _, _ => c
  end.

Definition closeRedis (c : Cache) : Cache := c <| cacheReady := false |> <| rateLimitReady := false |>.

Definition isRedisAvailable (c : Cache) : bool :=
  enabled c && cacheReady c && bool_decide (is_Some (redisCache c)).

Definition isRedisRateLimitAvailable (c : Cache) : bool :=
  enabled c && rateLimitReady c && bool_decide (is_Some (redisRateLimit c)).

(** ** Guarded commands *)

(** [runCacheCommand(fn)], awaited: [cmd] is what the server does.  The call is
    one piece here: what other calls do to the breaker while the answer is
    awaited is the subject of [GuardedCalls], where [acquire], the answer and
    [release] are separate steps that interleave. *)
Definition runCacheCommand {X} (e : Env) (cmd : Z → kv → X * kv) (c : Cache) : CallResult X * Cache :=
  let h0 := {| now := clock c; random := rand_begin e |} in
  match acquire h0 (redisCircuitBreaker c) with
  | (Some rejected, b) => (Declined rejected, c <| redisCircuitBreaker := b |>)
  | (None, b) =>
      let '(value, data) := cmd (clock c) (store c) in
      let t1 := clock c + Z.of_N (wait e) in
      let h1 := {| now := t1; random := rand_end e |} in
      let done outcome (applied : bool) :=
        c <| redisCircuitBreaker := release h1 b outcome (elapsedUs (t1 * 1000000) (clock c * 1000000)) |>
          <| store := if applied then data else store c |> <| clock := t1 |> in
      match fate e with
      | Answered => (Succeeded value, done SUCCESS true)
      | TimedOut applied => (Declined TIMEOUT, done TIMEOUT applied)
      | Failed err applied =>
          let o := classifyRedisError err in (Declined o, done o applied)
      end
  end.

Definition pingRedisCache (e : Env) (reply : string) (c : Cache) : bool * Cache :=
  match redisCache c with
  | None => (false, c)
  | Some _ =>
      match runCacheCommand e (λ _ s, (reply, s)) c with
      | (Succeeded v, c) => (String.eqb v "PONG", c)
      | (_, c) => (false, c)
      end
  end.

Definition pingRedisRateLimit (e : Env) (reply : string) (c : Cache) : bool * Cache :=
  match redisRateLimit c with
  | None => (false, c)
  | Some _ =>
      match runCacheCommand e (λ _ s, (reply, s)) c with
      | (Succeeded v, c) => (String.eqb v "PONG", c)
      | (_, c) => (false, c)
      end
  end.

Definition cacheSet (e : Env) (key value : string) (ttlSeconds : option Z) (c : Cache) : unit * Cache :=
  if negb (isRedisAvailable c) then (tt, c)
  else
    let cmd t s :=
      match ttlSeconds with
      | Some ttl => if ttl =? 0 then (tt, kv_set key value s) else (tt, kv_setex t key ttl value s)
      | None => (tt, kv_set key value s)
      end in
    (tt, (runCacheCommand e cmd c).2).

Definition cacheGet (e : Env) (key : string) (c : Cache) : option string * Cache :=
  if negb (isRedisAvailable c) then (None, c)
  else
    match runCacheCommand e (λ t s, (kv_get t key s, s)) c with
    | (Succeeded v, c) => (v, c)
    | (_, c) => (None, c)
    end.

Definition cacheDel (e : Env) (key : string) (c : Cache) : unit * Cache :=
  if negb (isRedisAvailable c) then (tt, c)
  else (tt, (runCacheCommand e (λ _ s, (tt, kv_del key s)) c).2).
End Cache.
Arguments Cache : clear implicits.
Arguments Cache {_}.

(** ** Basic facts *)

Section CacheFacts.
Context `{RKV : RedisKV}.

(** The connection part of the state is only changed by events. *)
Definition same_connection (c c' : Cache) : Prop :=
  enabled c' = enabled c ∧ redisCache c' = redisCache c ∧ redisRateLimit c' = redisRateLimit c ∧
  cacheReady c' = cacheReady c ∧ rateLimitReady c' = rateLimitReady c.

Lemma isRedisAvailable_same c c' : same_connection c c' → isRedisAvailable c' = isRedisAvailable c.
Proof. unfold isRedisAvailable. intros (-> & -> & _ & -> & _). done. Qed.

Lemma advance_frame e c :
  store (advance e c) = store c ∧ clock (advance e c) = clock c + Z.of_N (elapse e) ∧
  redisCircuitBreaker (advance e c) = redisCircuitBreaker c.
Proof.
  unfold advance. assert (H : ∀ l c, store (foldl on_event c l) = store c ∧
    clock (foldl on_event c l) = clock c ∧
    redisCircuitBreaker (foldl on_event c l) = redisCircuitBreaker c).
  { clear. induction l as [|p l IH]; intros c; cbn; [done|].
    destruct (IH (on_event c p)) as (-> & -> & ->). destruct p as [[] ev], c; done. }
  destruct (H (events e) (c <| clock ::= Z.add (Z.of_N (elapse e)) |>)) as (-> & -> & ->).
  destruct c. cbn. split; [done|]. split; [lia|done].
Qed.

(** The admission decision of the breaker at this moment. *)
Definition admitted (e : Env) (c : Cache) : bool :=
  match (acquire {| now := clock c; random := rand_begin e |} (redisCircuitBreaker c)).1 with
  | None => true
  | Some _ => false
  end.

(** A command that is admitted and answered. *)
Definition served (e : Env) (c : Cache) : Prop := admitted e c = true ∧ fate e = Answered.

(** What a guarded command can do: time does not run backwards, the
    connection is left alone, the data changes by the command or not at all,
    a value is returned only when the command was applied and answered. *)
Lemma command_cases {X} e (cmd : Z → kv → X * kv) c :
  let '(r, c') := runCacheCommand e cmd c in
  same_connection c c' ∧ clock c ≤ clock c' ∧
  match r with
  | Succeeded v => v = (cmd (clock c) (store c)).1 ∧ store c' = (cmd (clock c) (store c)).2
  | _ => store c' = store c ∨ store c' = (cmd (clock c) (store c)).2
  end.
Proof.
  destruct c. unfold runCacheCommand, same_connection. cbn.
  destruct (acquire _ _) as [[o|] b]; cbn; [split_and!; auto; lia|].
  destruct (cmd _ _) as [v d]. destruct (fate e) as [|[]|err []]; cbn; split_and!; auto; lia.
Qed.

Lemma command_served {X} e (cmd : Z → kv → X * kv) c :
  served e c → (runCacheCommand e cmd c).1 = Succeeded (cmd (clock c) (store c)).1.
Proof.
  intros [Ha Hf]. unfold admitted in Ha. destruct c. unfold runCacheCommand. cbn in *.
  destruct (acquire _ _) as [[o|] b]; cbn in *; [done|]. rewrite Hf. by destruct (cmd _ _).
Qed.

(** A declined command does not reach the server. *)
Lemma command_declined {X} e (cmd : Z → kv → X * kv) c :
  admitted e c = false → store (runCacheCommand e cmd c).2 = store c ∧
  ∃ o, (runCacheCommand e cmd c).1 = Declined o.
Proof.
  intros Ha. unfold admitted in Ha. destruct c. unfold runCacheCommand. cbn in *.
  destruct (acquire _ _) as [[o|] b]; cbn in *; [eauto|done].
Qed.

(** The frame of every cache operation. *)
Definition cache_step (c c' : Cache) : Prop := same_connection c c' ∧ clock c ≤ clock c'.

Lemma cache_step_refl c : cache_step c c.
Proof. repeat split; lia. Qed.

Lemma cacheGet_spec e k c :
  let '(r, c') := cacheGet e k c in
  cache_step c c' ∧ store c' = store c ∧
  (r = None ∨ r = kv_get (clock c) k (store c)) ∧
  (isRedisAvailable c = true → served e c → r = kv_get (clock c) k (store c)).
Proof.
  unfold cacheGet. destruct (isRedisAvailable c) eqn:Ha; cbn.
  - pose proof (command_cases e (λ t s, (kv_get t k s, s)) c) as Hc.
    pose proof (command_served e (λ t s, (kv_get t k s, s)) c) as Hs.
    destruct (runCacheCommand _ _ _) as [[v|o|] c']; destruct Hc as (H1 & H2 & H3); cbn in *;
      repeat split; try apply H1; try apply H2; intuition (eauto; congruence).
  - split; [apply cache_step_refl|]. split_and?; auto; done.
Qed.

Lemma cacheDel_spec e k c :
  let c' := (cacheDel e k c).2 in
  cache_step c c' ∧ (store c' = store c ∨ store c' = kv_del k (store c)) ∧
  (isRedisAvailable c = true → served e c → store c' = kv_del k (store c)).
Proof.
  unfold cacheDel. destruct (isRedisAvailable c) eqn:Ha; cbn.
  - pose proof (command_cases e (λ (_ : Z) s, (tt, kv_del k s)) c) as Hc.
    pose proof (command_served e (λ (_ : Z) s, (tt, kv_del k s)) c) as Hs.
    destruct (runCacheCommand _ _ _) as [[v|o|] c']; destruct Hc as (H1 & H2 & H3); cbn in *;
      repeat split; try apply H1; try apply H2; intuition (eauto; congruence).
  - split; [apply cache_step_refl|]. split_and?; auto; done.
Qed.

Lemma cacheSet_spec e k v ttl c :
  0 < ttl →
  let c' := (cacheSet e k v (Some ttl) c).2 in
  cache_step c c' ∧ (store c' = store c ∨ store c' = kv_setex (clock c) k ttl v (store c)) ∧
  (isRedisAvailable c = true → served e c → store c' = kv_setex (clock c) k ttl v (store c)).
Proof.
  intros Httl. assert (Hz : (ttl =? 0) = false) by (apply Z.eqb_neq; lia).
  unfold cacheSet. rewrite Hz. destruct (isRedisAvailable c) eqn:Ha; cbn.
  - pose proof (command_cases e (λ t s, (tt, kv_setex t k ttl v s)) c) as Hc.
    pose proof (command_served e (λ t s, (tt, kv_setex t k ttl v s)) c) as Hs.
    destruct (runCacheCommand _ _ _) as [[u|o|] c']; destruct Hc as (H1 & H2 & H3); cbn in *;
      repeat split; try apply H1; try apply H2; intuition (eauto; congruence).
  - split; [apply cache_step_refl|]. split_and?; auto; done.
Qed.

End CacheFacts.

(** ** A concrete server

    A map from keys to values with an optional expiry time; it satisfies the
    laws, so they can hold together. *)

Module MemKV.
Abbreviation data := (gmap string (string * option Z)).

Definition setex (t : Z) (k : string) (ttl : Z) (v : string) (m : data) : data :=
  <[k := (v, Some (t + ttl * 1000))]> m.

Definition get (t : Z) (k : string) (m : data) : option string :=
  match m !! k with
  | Some (v, Some exp) => if t <? exp then Some v else None
  | Some (v, None) => Some v
  | None => None
  end.

#[global] Instance mem_kv : RedisKV :=
  {| kv := data; kv_setex := setex; kv_set := λ k v m, <[k := (v, None)]> m;
     kv_get := get; kv_del := λ k m, delete k m |}.

#[global] Instance mem_kv_laws : RedisKVLaws mem_kv.
Proof.
  split; cbn; unfold setex, get; intros.
  - by simplify_map_eq.
  - by rewrite lookup_insert_ne.
  - by simplify_map_eq.
  - by rewrite lookup_insert_ne.
  - by rewrite lookup_delete_eq.
  - by rewrite lookup_delete_ne.
  - repeat case_match; simplify_eq; try done. breflect. lia.
Qed.

(** An environment in which the command is answered at once. *)
Definition good_env (code : string) : Env :=
  {| elapse := 0; events := []; rand_begin := 0; rand_end := 0; fate := Answered; wait := 1;
     fresh := code; uuids := ("uuid-1", "uuid-2") |}.

(** A connected cache with an empty database. *)
Definition fresh_cache : Cache (RKV := mem_kv) :=
  {| enabled := true; redisCache := Some (buildUrlClient
       {| rc_enabled := true; rc_host := "localhost"; rc_port := 6379; rc_username := "";
          rc_password := ""; rc_tls := false; rc_db := 0; rc_connectTimeoutMs := 10000;
          rc_commandTimeoutMs := 5000; rc_keepAliveMs := 30000; rc_maxRetriesPerRequest := 3 |}
       "redis://localhost:6379" role_cache);
     redisRateLimit := None; cacheReady := true; rateLimitReady := false;
     redisCircuitBreaker := new_CircuitBreaker (defaultCircuitBreakerConfig (λ _, None));
     store := (∅ : gmap string (string * option Z)); clock := 1000000 |}.
End MemKV.

(** ** Commands and the breaker *)

Section Guarded.
Context `{RKV : RedisKV}.

(** Refinement: an awaited cache command is an execution of the shared
    [withCircuitBreaker] machine.  From any system state with the same breaker
    and a fresh call identifier, the machine has a run (admission, then the
    answer, the error or the timer) that ends with the breaker the command
    leaves and with the call settled on the result the command returns. *)
Theorem command_refines_guarded {X} (e : Env) (cmd : Z → kv → X * kv) (c : Cache) (s : System X) id :
  breaker s = redisCircuitBreaker c → calls s !! id = None →
  (0 <= rand_begin e < 1)%Q → (0 <= rand_end e < 1)%Q →
  (∀ applied, fate e = TimedOut applied →
     operationTimeoutMs (config (redisCircuitBreaker c)) ≤ Z.of_N (wait e)) →
  ∃ s' call, rtc step s s' ∧
    breaker s' = redisCircuitBreaker (runCacheCommand e cmd c).2 ∧
    calls s' !! id = Some call ∧ settled call = true ∧
    result call = Some (runCacheCommand e cmd c).1.
Proof.
  intros Hb Hid Hr0 Hr1 Ht. destruct c as [en rc rr cr rlr cb data t]; cbn in Hb, Ht.
  set (h0 := {| now := t; random := rand_begin e |}).
  assert (Hs : step s (begin_call h0 (t * 1000000) ReturnsPromise id s)) by (by apply step_call).
  unfold begin_call in Hs. unfold runCacheCommand. cbn [clock store redisCircuitBreaker]. fold h0. rewrite Hb in Hs.
  pose proof (acquire_config h0 cb) as Hcfg.
  destruct (acquire h0 cb) as [[o|] b]; cbn in Hcfg.
  - eexists _, _. split; [by apply rtc_once|]. cbn. rewrite lookup_insert_eq. split_and!; reflexivity.
  - destruct (cmd t data) as [v d].
    set (h1 := {| now := t + Z.of_N (wait e); random := rand_end e |}).
    match type of Hs with step _ ?s1 => set (s1' := s1) in * end.
    assert (Hl : ∃ k, calls s1' !! id = Some k ∧ start k = t * 1000000 ∧ settled k = false ∧
      timer k = Some (t + operationTimeoutMs (config b)) ∧ fn_pending k = true ∧ result k = None)
      by (eexists; subst s1'; cbn; rewrite lookup_insert_eq; split_and!; reflexivity).
    assert (Hb1 : breaker s1' = b) by done. clearbody s1'.
    destruct Hl as (k & Hk & Hst & Hse & Hti & Hfn & Hre).
    assert (H1 : HostOk h1) by done.
    destruct (fate e) as [|applied|err applied] eqn:Hf;
      [pose proof (step_fulfil h1 ((t + Z.of_N (wait e)) * 1000000) id k s1' v H1 Hk Hfn) as H2
      |pose proof (step_timer h1 ((t + Z.of_N (wait e)) * 1000000) id k s1' _ H1 Hk Hti) as H2
      |pose proof (step_reject h1 ((t + Z.of_N (wait e)) * 1000000) id k s1' err H1 Hk Hfn) as H2].
    2: { specialize (H2 ltac:(specialize (Ht _ eq_refl); rewrite Hcfg; subst h1; cbn; lia)).
         eexists _, _. split; [eapply rtc_l; [apply Hs|by apply rtc_once]|].
         unfold on_timer, update_call, finish, resolve. cbn. rewrite Hse, Hre, Hst, Hb1.
         rewrite lookup_insert_eq. split_and!; reflexivity. }
    all: eexists _, _; (split; [eapply rtc_l; [apply Hs|by apply rtc_once]|]);
         unfold on_fulfil, on_reject, fn_settles, update_call, finish, resolve; cbn;
         rewrite Hse, Hre, Hst, Hb1; rewrite lookup_insert_eq; split_and!; reflexivity.
Qed.

(** Fail fast: while the circuit is open and cooling down, no cache
    operation contacts Redis: reads answer [null], writes and deletes change
    nothing, and the breaker only counts a rejection. *)
Theorem open_circuit_isolates (e : Env) (key value : string) (ttl : option Z) (c : Cache) :
  state (redisCircuitBreaker c) = OPEN →
  clock c - openedAtMs (redisCircuitBreaker c) < cooldownMs (redisCircuitBreaker c) →
  (cacheGet e key c).1 = None ∧
  store (cacheGet e key c).2 = store c ∧
  store (cacheSet e key value ttl c).2 = store c ∧
  store (cacheDel e key c).2 = store c ∧
  clock (cacheGet e key c).2 = clock c ∧
  state (redisCircuitBreaker (cacheGet e key c).2) = OPEN.
Proof.
  intros Ho Hc. unfold cacheGet, cacheSet, cacheDel.
  destruct (isRedisAvailable c); cbn; [|done]. unfold runCacheCommand, acquire. rewrite Ho. cbn.
  replace (cooldownMs _ <=? _) with false by (symmetry; apply Z.leb_gt; lia).
  destruct c, redisCircuitBreaker0. cbn in *. done.
Qed.
End Guarded.

Lemma command_refines_guarded_witness :
  ∃ (s' : System unit) call, rtc step (initial (defaultCircuitBreakerConfig (λ _, None))) s' ∧
    calls s' !! 7%nat = Some call ∧ result call = Some (Succeeded tt).
Proof.
  destruct (command_refines_guarded (RKV := MemKV.mem_kv) (MemKV.good_env "")
    (λ t s, (tt, kv_setex t "k" 60 "v" s)) MemKV.fresh_cache
    (initial (defaultCircuitBreakerConfig (λ _, None))) 7 eq_refl eq_refl) as (s' & call & H1 & _ & H2 & _ & H3);
    [done..|]. exists s', call. split; [exact H1|]. split; [exact H2|]. rewrite H3. vm_compute. reflexivity.
Defined.

Lemma open_circuit_isolates_witness :
  let c := MemKV.fresh_cache <| redisCircuitBreaker ::= λ b, tripOpen {| now := 1000000; random := 0 |} b |>
             <| store := ({["k" := ("v", None)]} : gmap string (string * option Z)) |> in
  (cacheGet (MemKV.good_env "") "k" c).1 = None.
Proof. apply (open_circuit_isolates (RKV := MemKV.mem_kv) _ "k" "w" None _); vm_compute; reflexivity. Defined.

Lemma retryStrategy_bounds times : 1 ≤ times → 200 ≤ retryStrategy times ≤ 5000.
Proof. unfold retryStrategy. lia. Qed.
