(* ===== verification/OneTimeCodes.v ===== *)
(** * One-time codes

    Models the four services that hand out opaque codes and later exchange
    them for what they stand for, under [uam-backend/src/services/]:
    [email-link.service.ts] (module [EmailLink]), [oauth-exchange.service.ts]
    ([OAuthExchange]), [oauth-pkce.service.ts] ([OAuthPkce]) and
    [verification-poll.service.ts] ([VerificationPoll]).

    Each keeps its records in Redis when Redis is available and in a [Map] of
    the process otherwise (refused in production).  Every function is a
    program of [Async]: one [Act] per stretch of code between two [await]s.
    Stored values are JSON values, as the services never check their shape
    after [JSON.parse]. *)

From S2P Require Import Prelude CircuitConfig RollingWindow CircuitBreaker GuardedCalls Async RedisCache Json.
#[local] Open Scope string_scope.
#[local] Open Scope Z_scope.
#[local] Open Scope async_scope.

(** ** Shared structure *)

(** A service state contains the cache module. *)
Class HasCache `{RedisKV} (S : Type) := {
  cache_of : S → Cache;
  with_cache : Cache → S → S;
  cache_with : ∀ c s, cache_of (with_cache c s) = c;
  with_with : ∀ c c' s, with_cache c (with_cache c' s) = with_cache c s;
}.

(** [Map<string, { ...; exp }>] *)
Abbreviation MemMap V := (gmap string (V * Z)).

(** [pruneMemory(store)] and its copies in the other services *)
Definition pruneMemory {V} (now : Z) (m : MemMap V) : MemMap V := filter (λ p, now < p.2.2) m.

(** The value of an entry that is there and not past its expiry
    ([!entry || entry.exp < Date.now()] is the negative answer). *)
Definition live {V} (now : Z) (entry : option (V * Z)) : option V :=
  match entry with
  | Some (v, exp) => if exp <? now then None else Some v
  | None => None
  end.

(** Falsy JSON values. *)
Definition json_truthy (v : json) : bool :=
  match v with
  | JNull | JBool false => false
  | JNum n => negb (n =? 0)
  | JStr s => negb (String.eqb s "")
  | _ => true
  end.

(** An object literal: members whose value is [undefined] do not survive
    [JSON.stringify] and read as [undefined] anyway. *)
Definition json_object (l : list (string * option json)) : json :=
  JObj (omap (λ p, match p.2 with Some v => Some (p.1, v) | None => None end) l).

Section Services.
Context `{RKV : RedisKV} {St : Type} {HC : HasCache St}.

(** One stretch of code: the environment first acts on the connection. *)
Definition seg {A} (f : Env → St → A * St) : prog Env St A :=
  act (λ e s, f e (with_cache (advance e (cache_of s)) s)).

(** A cache operation on the state of a service. *)
Definition on_cache {A} (g : Cache → A * Cache) (s : St) : A * St :=
  let '(a, c) := g (cache_of s) in (a, with_cache c s).

(** The common shape of reading a record that must not be read again: GET,
    then DEL, then the rest; without Redis the [Map] is asked instead. *)
Definition take_once {A} (key : string) (nothing : A) (memory : Env → St → A * St)
    (rest : string → prog Env St A) : prog Env St A :=
  let! r := seg (λ e s,
    if isRedisAvailable (cache_of s) then
      let '(raw, s) := on_cache (cacheGet e key) s in (inr raw, s)
    else let '(a, s) := memory e s in (inl a, s)) in
  match r with
  | inl a => Ret a
  | inr None => Ret nothing
  | inr (Some raw) =>
      if String.eqb raw "" then Ret nothing
      else seg (λ e, on_cache (cacheDel e key)) ;; rest raw
  end.
End Services.

(** Codes are 32 random bytes, printed as 64 hexadecimal digits. *)
Definition CODE_BYTES : Z := 32.

(** [!code || code.length < CODE_BYTES * 2] *)
Definition malformed (code : string) : bool :=
  String.eqb code "" || (strlen code <? CODE_BYTES * 2).

(** ** Reading once *)

Section TakeOnce.
Context `{RKV : RedisKV} {KL : RedisKVLaws RKV} {St : Type} {HC : HasCache St}.

(** The time at which a stretch of code runs. *)
Definition run_time (e : Env) (s : St) : Z := clock (cache_of s) + Z.of_N (elapse e).

(** Redis is connected and serves the command of this stretch; the random
    source gives 32 bytes in hexadecimal. *)
Definition healthy (e : Env) (s : St) : Prop :=
  isRedisAvailable (advance e (cache_of s)) = true ∧ served e (advance e (cache_of s)) ∧
  strlen (fresh e) = CODE_BYTES * 2.

(** The data changes from [s] to the cache [c'] by [f], and time goes on. *)
Definition stepped (f : kv → kv) (t : Z) (s : St) (c' : Cache) : Prop :=
  store c' = f (store (cache_of s)) ∧ t ≤ clock c'.

Lemma healthy_set e key v ttl s :
  0 < ttl → healthy e s →
  let c := advance e (cache_of s) in
  ∃ c', (cacheSet e key v (Some ttl) c).2 = c' ∧
        stepped (kv_setex (run_time e s) key ttl v) (run_time e s) s c'.
Proof.
  intros Httl (Ha & Hs & _). cbn. eexists; split; [done|]. unfold stepped, run_time.
  destruct (cacheSet_spec e key v ttl (advance e (cache_of s)) Httl) as ([_ Hc] & _ & Hst).
  rewrite (Hst Ha Hs). destruct (advance_frame e (cache_of s)) as (-> & Hck & _).
  rewrite Hck in Hc |- *. done.
Qed.

(** A stretch of code that stores a record when Redis is available. *)
Lemma store_served {A} (key : Env → string) v ttl (res : Env → A) (other : Env → St → A * St) es s :
  0 < ttl →
  let p := seg (λ e s,
    if isRedisAvailable (cache_of s) then
      let '(_, s) := on_cache (cacheSet e (key e) v (Some ttl)) s in (res e, s)
    else other e s) in
  path healthy p es s →
  ∃ c', run p es s = (res (es O), with_cache c' s) ∧
    stepped (kv_setex (run_time (es O) s) (key (es O)) ttl v) (run_time (es O) s) s c'.
Proof.
  intros Httl. unfold seg, act. cbn [path run bind]. intros [Hh _].
  destruct (healthy_set (es O) (key (es O)) v ttl s Httl Hh) as (c' & Hset & Hst).
  rewrite cache_with. destruct Hh as (-> & _ & _). unfold on_cache. rewrite cache_with.
  destruct (cacheSet _ _ _ _ _) as [u c1]. cbn in Hset. subst c1. rewrite with_with.
  by exists c'.
Qed.

(** Within its time to live a stored record is there to read. *)
Lemma stored_readable key v ttl t0 s c' e :
  0 < ttl → stepped (kv_setex t0 key ttl v) t0 s c' →
  run_time e (with_cache c' s) < t0 + ttl * 1000 →
  kv_get (run_time e (with_cache c' s)) key (store (cache_of (with_cache c' s))) = Some v.
Proof.
  intros Httl [Hs Hc] Ht. unfold run_time in *. rewrite cache_with in *.
  rewrite Hs, get_setex by (done || lia). by rewrite (proj2 (Z.ltb_lt _ _) Ht).
Qed.

(** Once it has passed, it is not. *)
Lemma stored_expired key v ttl t0 s c' e :
  0 < ttl → stepped (kv_setex t0 key ttl v) t0 s c' →
  t0 + ttl * 1000 ≤ run_time e (with_cache c' s) →
  kv_get (run_time e (with_cache c' s)) key (store (cache_of (with_cache c' s))) = None.
Proof.
  intros Httl [Hs Hc] Ht. unfold run_time in *. rewrite cache_with in *.
  rewrite Hs, get_setex by (done || lia). by rewrite (proj2 (Z.ltb_ge _ _) Ht).
Qed.

Lemma stringify_nonempty v : stringify v ≠ "".
Proof. destruct (print_head v "") as (c & r & H & _). unfold stringify. by rewrite H. Qed.

(** A served read-once: the record is read at the time of the first stretch,
    it is gone from the server when the rest of the function runs. *)
Lemma take_once_served {A} key (nothing : A) mem rest es s :
  path healthy (take_once key nothing mem rest) es s →
  match kv_get (run_time (es O) s) key (store (cache_of s)) with
  | Some raw =>
      raw ≠ "" → ∃ c' es',
        path healthy (rest raw) es' (with_cache c' s) ∧
        run (take_once key nothing mem rest) es s = run (rest raw) es' (with_cache c' s) ∧
        stepped (kv_del key) (run_time (es O) s) s c'
  | None => ∃ c', run (take_once key nothing mem rest) es s = (nothing, with_cache c' s) ∧
                  stepped id (run_time (es O) s) s c'
  end.
Proof.
  unfold take_once, seg, act. cbn [path run bind]. rewrite !cache_with. intros [(Ha & Hs & _) Hp].
  rewrite Ha in Hp |- *. unfold on_cache in *. rewrite !cache_with in *.
  pose proof (cacheGet_spec (es O) key (advance (es O) (cache_of s))) as Hg.
  destruct (advance_frame (es O) (cache_of s)) as (Hst & Hck & _).
  destruct (cacheGet (es O) key _) as [r c1]. destruct Hg as ([_ Hc1] & Hst1 & _ & Hr).
  specialize (Hr Ha Hs). cbn [fst snd] in Hp. rewrite with_with in Hp |- *.
  rewrite Hst, Hck in *. fold (run_time (es O) s) in *. rewrite <- Hr. destruct r as [raw|].
  - intros Hraw. apply String.eqb_neq in Hraw. rewrite Hraw in Hp |- *. cbn [path run bind] in *.
    rewrite !cache_with in Hp. destruct Hp as [(Ha2 & Hs2 & _) Hp].
    pose proof (cacheDel_spec (env_tail es O) key (advance (env_tail es O) c1)) as ([_ Hc2] & _ & Hd).
    rewrite !cache_with in Hs2, Ha2. rewrite !cache_with.
    destruct (cacheDel (env_tail es O) key _) as [u c2]. cbn [fst snd] in *.
    destruct (advance_frame (env_tail es O) c1) as (Hst2 & Hck2 & _).
    exists c2, (env_tail (env_tail es)). rewrite !with_with in Hp |- *.
    split; [done|]. split; [done|]. unfold stepped. rewrite (Hd Ha2 Hs2), Hst2, Hst1.
    split; [done|]. lia.
  - exists c1. split; [done|]. unfold stepped, id. split; [done|lia].
Qed.

(** Reading a JSON record once, when what follows only computes. *)
Lemma take_once_json {A} key (nothing : A) mem (g : option json → A) v es s :
  path healthy (take_once key nothing mem (λ raw, Ret (g (parse raw)))) es s →
  kv_get (run_time (es O) s) key (store (cache_of s)) = Some (stringify v) →
  ∃ c', run (take_once key nothing mem (λ raw, Ret (g (parse raw)))) es s = (g (Some v), with_cache c' s) ∧
        stepped (kv_del key) (run_time (es O) s) s c'.
Proof.
  intros Hp Hk. apply take_once_served in Hp. rewrite Hk in Hp.
  destruct (Hp (stringify_nonempty v)) as (c' & es' & _ & -> & Hs).
  rewrite parse_stringify. cbn. by exists c'.
Qed.

(** There is nothing to read under [key], now or later. *)
Definition absent (key : string) (c : Cache) : Prop :=
  kv_get (clock c) key (store c) = None ∨ kv_get (clock c) key (store c) = Some "".

Lemma absent_deleted key c s : store c = kv_del key s → absent key c.
Proof. intros H. left. by rewrite H, get_del. Qed.

Lemma absent_later key t c raw :
  absent key c → clock c ≤ t → kv_get t key (store c) = Some raw → raw = "".
Proof.
  intros Ha Ht Hk. eapply get_earlier in Hk; [|exact Ht]. destruct Ha as [Ha|Ha]; congruence.
Qed.

(** When neither side has the record the answer is the negative one, whatever
    the environment does. *)
Lemma take_once_absent {A} key (nothing : A) mem rest es s :
  absent key (cache_of s) →
  (∀ e c, (mem e (with_cache c s)).1 = nothing) →
  (run (take_once key nothing mem rest) es s).1 = nothing.
Proof.
  intros Hk Hm. unfold take_once, seg, act. cbn [run bind]. rewrite !cache_with.
  destruct (isRedisAvailable _).
  - unfold on_cache. rewrite !cache_with.
    pose proof (cacheGet_spec (es O) key (advance (es O) (cache_of s))) as Hg.
    destruct (advance_frame (es O) (cache_of s)) as (Hst & Hck & _).
    destruct (cacheGet (es O) key _) as [r c1]. destruct Hg as (_ & _ & Hr & _).
    rewrite Hst, Hck in Hr. destruct r as [raw|]; [|done].
    destruct Hr as [Hr|Hr]; [done|]. symmetry in Hr. apply absent_later in Hr; [|done|lia].
    by subst raw.
  - specialize (Hm (es O) (advance (es O) (cache_of s))).
    destruct (mem _ _) as [a s1]. done.
Qed.

(** After a served read-once the record is gone, if what follows does not put
    it back; only the cache part of the state has changed. *)
Definition gone (key : string) (s s' : St) : Prop :=
  ∃ c', s' = with_cache c' s ∧ absent key c'.

Lemma take_once_gone {A} key (nothing : A) mem rest es s :
  path healthy (take_once key nothing mem rest) es s →
  (∀ raw es' c, path healthy (rest raw) es' (with_cache c s) → absent key c →
     gone key s (run (rest raw) es' (with_cache c s)).2) →
  gone key s (run (take_once key nothing mem rest) es s).2.
Proof.
  intros Hp Hrest. pose proof (take_once_served key nothing mem rest es s Hp) as H.
  destruct (kv_get _ key _) as [raw|] eqn:Hk.
  - destruct (decide (raw = "")) as [->|Hne].
    + clear H Hrest. unfold take_once, seg, act in *. cbn [run path bind] in *. rewrite !cache_with in *.
      destruct Hp as [(Ha & Hs & _) _]. rewrite Ha. unfold on_cache. rewrite cache_with.
      pose proof (cacheGet_spec (es O) key (advance (es O) (cache_of s))) as Hg.
      destruct (advance_frame (es O) (cache_of s)) as (Hst & Hck & _).
      destruct (cacheGet (es O) key _) as [r c1]. destruct Hg as ([_ Hc] & Hst1 & _ & Hr).
      rewrite (Hr Ha Hs), Hst, Hck. fold (run_time (es O) s). rewrite Hk. cbn.
      exists c1. rewrite with_with. split; [done|]. unfold absent. rewrite Hst1, Hst.
      destruct (kv_get (clock c1) key _) as [raw|] eqn:E; [|by left]. right.
      eapply get_earlier in E; [rewrite Hk in E; congruence|]. unfold run_time. lia.
    + destruct (H Hne) as (c' & es' & Hp' & -> & Hs & _). apply Hrest; [done|].
      by eapply absent_deleted.
  - destruct H as (c' & -> & Hs & Hc). exists c'. split; [done|]. left. cbn in Hs. unfold id in Hs.
    rewrite Hs. destruct (kv_get (clock c') key _) as [raw|] eqn:E; [|done].
    eapply get_earlier in E; [|exact Hc]. congruence.
Qed.
End TakeOnce.

(** ** Email links *)

Module EmailLink.
Definition LINK_TTL_SECS : Z := 86400.
Definition FORM_TTL_SECS : Z := 600.

Inductive EmailLinkKind := verify_email | reset_password | migrate_current | migrate_new.

#[global] Instance EmailLinkKind_eq_dec : EqDecision EmailLinkKind.
Proof. solve_decision. Defined.

Definition kind_name (k : EmailLinkKind) : string :=
  match k with
  | verify_email => "verify-email"
  | reset_password => "reset-password"
  | migrate_current => "migrate-current"
  | migrate_new => "migrate-new"
  end.

Section EmailLink.
Context `{RKV : RedisKV}.

Record State := mkState {
  cache : Cache;
  nodeEnv : string;
  memoryLinks : MemMap json;
  memoryForms : MemMap json;
}.

#[global] Instance set_memoryLinks : Setter memoryLinks := λ g '(mkState a b c d), mkState a b (g c) d.
#[global] Instance set_memoryForms : Setter memoryForms := λ g '(mkState a b c d), mkState a b c (g d).

#[global] Instance has_cache : HasCache State.
Proof. refine {| cache_of := cache; with_cache := λ c '(mkState _ b l f), mkState c b l f |}; [by intros c []|by intros c c' []]. Defined.

Definition link_key (code : string) : string := "uam:email-link:" +:+ code.
Definition form_key (token : string) : string := "uam:email-form:" +:+ token.

(** [{ kind, secret, meta }] *)
Definition LinkPayload (kind : EmailLinkKind) (secret : string) (meta : option json) : json :=
  json_object [("kind", Some (JStr (kind_name kind))); ("secret", Some (JStr secret)); ("meta", meta)].

(** [{ kind: payload.kind, secret: payload.secret, meta: payload.meta }] *)
Definition FormPayload (payload : json) : json :=
  json_object [("kind", get_member "kind" payload); ("secret", get_member "secret" payload);
               ("meta", get_member "meta" payload)].

Definition createEmailLinkCode (kind : EmailLinkKind) (secret : string) (meta : option json)
    : prog Env State (outcome string) :=
  seg (λ e s,
    let code := fresh e in
    let payload := LinkPayload kind secret meta in
    if isRedisAvailable (cache s) then
      let '(_, s) := on_cache (cacheSet e (link_key code) (stringify payload) (Some LINK_TTL_SECS)) s in
      (Returned code, s)
    else if String.eqb (nodeEnv s) "production" then
      (Thrown "Redis required for email link codes in production", s)
    else
      let now := clock (cache s) in
      (Returned code,
       s <| memoryLinks ::= λ m, <[code := (payload, now + LINK_TTL_SECS * 1000)]> (pruneMemory now m) |>)).

(** What a successful redeem returns. *)
Record Redeemed := { r_kind : option json; r_formToken : string; r_meta : option json }.

(** From [if (!payload) return null] to the end of [redeemEmailLinkCode]. *)
Definition issue_form (payload : json) (e : Env) (s : State) : option Redeemed * State :=
  if negb (json_truthy payload) then (None, s)
  else
    let formToken := fresh e in
    let formPayload := FormPayload payload in
    let res := Some {| r_kind := get_member "kind" payload; r_formToken := formToken;
                       r_meta := get_member "meta" payload |} in
    if isRedisAvailable (cache s) then
      let '(_, s) := on_cache (cacheSet e (form_key formToken) (stringify formPayload) (Some FORM_TTL_SECS)) s in
      (res, s)
    else
      let now := clock (cache s) in
      (res, s <| memoryForms ::= λ m,
              <[formToken := (formPayload, now + FORM_TTL_SECS * 1000)]> (pruneMemory now m) |>).

Definition redeemEmailLinkCode (code : string) : prog Env State (option Redeemed) :=
  if malformed code then Ret None
  else
    take_once (link_key code) None
      (λ e s,
        let entry := memoryLinks s !! code in
        let s := s <| memoryLinks ::= delete code |> in
        match live (clock (cache s)) entry with
        | None => (None, s)
        | Some payload => issue_form payload e s
        end)
      (λ raw,
        match parse raw with
        | None => Ret None
        | Some payload => seg (issue_form payload)
        end).

(** The result of [consumeFormToken] once the payload is known. *)
Definition form_result (expectedKind : EmailLinkKind) (payload : json)
    : option (option json * option json) :=
  if negb (json_truthy payload) then None
  else
    match get_member "kind" payload with
    | Some (JStr k) =>
        if String.eqb k (kind_name expectedKind)
        then Some (get_member "secret" payload, get_member "meta" payload) else None
    | _ => None
    end.

Definition consumeFormToken (formToken : string) (expectedKind : EmailLinkKind)
    : prog Env State (option (option json * option json)) :=
  if malformed formToken then Ret None
  else
    take_once (form_key formToken) None
      (λ _ s,
        let entry := memoryForms s !! formToken in
        let s := s <| memoryForms ::= delete formToken |> in
        (match live (clock (cache s)) entry with
         | None => None
         | Some payload => form_result expectedKind payload
         end, s))
      (λ raw,
        Ret (match parse raw with
             | None => None
             | Some payload => form_result expectedKind payload
             end)).
End EmailLink.
End EmailLink.

(** ** OAuth exchange codes *)

Module OAuthExchange.
Definition CODE_TTL_SECS : Z := 120.

Section OAuthExchange.
Context `{RKV : RedisKV}.

Record State := mkState { cache : Cache; nodeEnv : string; memoryCodes : MemMap json }.

#[global] Instance set_memoryCodes : Setter memoryCodes := λ g '(mkState a b c), mkState a b (g c).

#[global] Instance has_cache : HasCache State.
Proof. refine {| cache_of := cache; with_cache := λ c '(mkState _ b m), mkState c b m |}; [by intros c []|by intros c c' []]. Defined.

Definition code_key (code : string) : string := "uam:oauth:" +:+ code.

Definition TokenPair (accessToken refreshToken : string) : json :=
  JObj [("accessToken", JStr accessToken); ("refreshToken", JStr refreshToken)].

Definition ExchangeRecord (accessToken refreshToken state : string) : json :=
  JObj [("tokens", TokenPair accessToken refreshToken); ("state", JStr state)].

Definition createOAuthExchangeCode (accessToken refreshToken state : string)
    : prog Env State (outcome string) :=
  if String.eqb state "" then Ret (Thrown "OAuth state is required for exchange codes")
  else
    seg (λ e s,
      let code := fresh e in
      let record := ExchangeRecord accessToken refreshToken state in
      if isRedisAvailable (cache s) then
        let '(_, s) := on_cache (cacheSet e (code_key code) (stringify record) (Some CODE_TTL_SECS)) s in
        (Returned code, s)
      else if String.eqb (nodeEnv s) "production" then
        (Thrown "Redis required for OAuth exchange codes in production", s)
      else
        let now := clock (cache s) in
        (Returned code,
         s <| memoryCodes ::= λ m, <[code := (record, now + CODE_TTL_SECS * 1000)]> (pruneMemory now m) |>)).

(** [!record || record.state !== state]; the inner [None] is [undefined]. *)
Definition exchange_result (state : string) (record : json) : option (option json) :=
  if negb (json_truthy record) then None
  else
    match get_member "state" record with
    | Some (JStr st) => if String.eqb st state then Some (get_member "tokens" record) else None
    | _ => None
    end.

Definition consumeOAuthExchangeCode (code state : string) : prog Env State (option (option json)) :=
  if malformed code || String.eqb state "" then Ret None
  else
    take_once (code_key code) None
      (λ _ s,
        let entry := memoryCodes s !! code in
        let s := s <| memoryCodes ::= delete code |> in
        (match live (clock (cache s)) entry with
         | None => None
         | Some record => exchange_result state record
         end, s))
      (λ raw, Ret (match parse raw with None => None | Some record => exchange_result state record end)).
End OAuthExchange.
End OAuthExchange.

(** ** OAuth state and PKCE *)

Module OAuthPkce.
Definition STATE_TTL_SECS : Z := 600.

(** What [new URL(s)] gives; [None] is a [TypeError]. *)
Record URL := { protocol : string; origin : string; pathname : string }.

(** [s.replace(/\/$/, '')] *)
Fixpoint strip_slash (s : string) : string :=
  match s with
  | EmptyString => ""
  | String "/"%char EmptyString => ""
  | String c s => String c (strip_slash s)
  end.

Lemma strip_slash_inv s t : strip_slash s = t → s = t ∨ s = t +:+ "/".
Proof.
  intros <-. induction s as [|c s IH]; [by left|].
  destruct (decide (c = "/"%char ∧ s = "")) as [[-> ->]|Hne]; [by right|].
  assert (E : strip_slash (String c s) = String c (strip_slash s)).
  { destruct s as [|d s]; [|by destruct c as [[] [] [] [] [] [] [] []]].
    destruct c as [[] [] [] [] [] [] [] []]; try done. by exfalso; apply Hne. }
  rewrite E. destruct IH as [IH|IH]; [left|right]; by rewrite IH at 1.
Qed.

Section Redirect.
(** The URL parser of the runtime and [config.clientUrls]. *)
Context (new_URL : string → option URL) (clientUrls : list string).

(** [None] as argument is a value that is not a string. *)
Definition resolveClientRedirectUri (redirectUri : option string) : option string :=
  match redirectUri with
  | None => None
  | Some uri =>
      if String.eqb uri "" then None
      else
        match new_URL uri with
        | None => None
        | Some parsed =>
            if negb (String.eqb (protocol parsed) "https:") && negb (String.eqb (protocol parsed) "http:")
            then None
            else if negb (String.eqb (strip_slash (pathname parsed)) "/oauth-callback") then None
            else
              let allowed := existsb (λ base,
                match new_URL base with
                | Some u => String.eqb (origin u) (origin parsed)
                | None => false
                end) clientUrls in
              if negb allowed then None else Some (origin parsed +:+ "/oauth-callback")
        end
  end.
End Redirect.

Section Pkce.
Context `{RKV : RedisKV}.
(** [crypto.createHash('sha256').update(v).digest('base64url')] *)
Context (sha256_base64url : string → string).

Record State := mkState { cache : Cache; nodeEnv : string; memoryStates : MemMap json }.

#[global] Instance set_memoryStates : Setter memoryStates := λ g '(mkState a b c), mkState a b (g c).

#[global] Instance has_cache : HasCache State.
Proof. refine {| cache_of := cache; with_cache := λ c '(mkState _ b m), mkState c b m |}; [by intros c []|by intros c c' []]. Defined.

Definition state_key (state : string) : string := "uam:oauth-state:" +:+ state.

(** [{ codeChallenge, ...(redirectUri ? { redirectUri } : {}) }] *)
Definition StateRecord (codeChallenge : string) (redirectUri : option string) : json :=
  json_object [("codeChallenge", Some (JStr codeChallenge));
               ("redirectUri", match redirectUri with
                               | Some u => if String.eqb u "" then None else Some (JStr u)
                               | None => None
                               end)].

Definition verifyPkceChallenge (codeVerifier : string) (codeChallenge : option json) : bool :=
  match codeChallenge with
  | Some (JStr c) => String.eqb (sha256_base64url codeVerifier) c
  | _ => false
  end.

Definition createOAuthState (codeChallenge : string) (redirectUri : option string)
    : prog Env State (outcome string) :=
  if String.eqb codeChallenge "" || (strlen codeChallenge <? 43) || (128 <? strlen codeChallenge)
  then Ret (Thrown "Invalid code challenge")
  else
    seg (λ e s,
      let state := fresh e in
      let record := StateRecord codeChallenge redirectUri in
      if isRedisAvailable (cache s) then
        let '(_, s) := on_cache (cacheSet e (state_key state) (stringify record) (Some STATE_TTL_SECS)) s in
        (Returned state, s)
      else if String.eqb (nodeEnv s) "production" then
        (Thrown "Redis required for OAuth state in production", s)
      else
        let now := clock (cache s) in
        (Returned state,
         s <| memoryStates ::= λ m, <[state := (record, now + STATE_TTL_SECS * 1000)]> (pruneMemory now m) |>)).

(** [record.redirectUri ?? null]; reading a member of [null] throws, which the
    function answers with [null] too. *)
Definition redirect_of (record : json) : option json :=
  match get_member "redirectUri" record with
  | Some JNull | None => None
  | Some u => Some u
  end.

Definition peekOAuthStateRedirectUri (state : string) : prog Env State (option json) :=
  if String.eqb state "" then Ret None
  else
    seg (λ e s,
      if isRedisAvailable (cache s) then
        let '(raw, s) := on_cache (cacheGet e (state_key state)) s in
        (match raw with
         | None => None
         | Some raw =>
             if String.eqb raw "" then None
             else match parse raw with Some record => redirect_of record | None => None end
         end, s)
      else
        (match live (clock (cache s)) (memoryStates s !! state) with
         | None => None
         | Some record => redirect_of record
         end, s)).

Definition state_result (codeVerifier : string) (record : json) : bool :=
  if negb (json_truthy record) then false
  else verifyPkceChallenge codeVerifier (get_member "codeChallenge" record).

Definition consumeOAuthState (state codeVerifier : string) : prog Env State bool :=
  if String.eqb state "" || String.eqb codeVerifier "" then Ret false
  else
    take_once (state_key state) false
      (λ _ s,
        let entry := memoryStates s !! state in
        let s := s <| memoryStates ::= delete state |> in
        (match live (clock (cache s)) entry with
         | None => false
         | Some record => state_result codeVerifier record
         end, s))
      (λ raw, Ret (match parse raw with None => false | Some record => state_result codeVerifier record end)).
End Pkce.
End OAuthPkce.

(** ** Verification poll tokens *)

Module VerificationPoll.
Definition POLL_TTL_SECS : Z := 86400.
Definition REDIS_PREFIX : string := "uam:verify-poll:".

Section Poll.
Context `{RKV : RedisKV}.

Record State := mkState { cache : Cache; nodeEnv : string; memoryPolls : MemMap string }.

#[global] Instance set_memoryPolls : Setter memoryPolls := λ g '(mkState a b c), mkState a b (g c).

#[global] Instance has_cache : HasCache State.
Proof. refine {| cache_of := cache; with_cache := λ c '(mkState _ b m), mkState c b m |}; [by intros c []|by intros c c' []]. Defined.

Definition createVerificationPollToken (userId : string) : prog Env State (outcome string) :=
  seg (λ e s,
    let token := fresh e in
    if isRedisAvailable (cache s) then
      let '(_, s) := on_cache (cacheSet e (REDIS_PREFIX +:+ token) userId (Some POLL_TTL_SECS)) s in
      (Returned token, s)
    else if String.eqb (nodeEnv s) "production" then
      (Thrown "Redis required for verification poll tokens in production", s)
    else
      let now := clock (cache s) in
      (Returned token,
       s <| memoryPolls ::= λ m, <[token := (userId, now + POLL_TTL_SECS * 1000)]> (pruneMemory now m) |>)).

Definition resolveVerificationPollToken (token : string) : prog Env State (option string) :=
  if malformed token then Ret None
  else
    seg (λ e s,
      if isRedisAvailable (cache s) then on_cache (cacheGet e (REDIS_PREFIX +:+ token)) s
      else
        match live (clock (cache s)) (memoryPolls s !! token) with
        | None => (None, s <| memoryPolls ::= delete token |>)
        | Some userId => (Some userId, s)
        end).

Definition revokeVerificationPollToken (token : string) : prog Env State unit :=
  if String.eqb token "" then Ret tt
  else
    seg (λ e s,
      if isRedisAvailable (cache s) then on_cache (cacheDel e (REDIS_PREFIX +:+ token)) s
      else (tt, s <| memoryPolls ::= delete token |>)).
End Poll.
End VerificationPoll.

(** ** Properties of the email links *)

Section EmailLinkFacts.
Context `{RKV : RedisKV} {KL : RedisKVLaws RKV}.
Import EmailLink.

Lemma well_formed code : strlen code = CODE_BYTES * 2 → malformed code = false.
Proof. intros H. unfold malformed. rewrite H. by destruct code. Qed.

Lemma link_form_keys code token : link_key code ≠ form_key token.
Proof. intros H. apply (f_equal (String.get 10)) in H. discriminate H. Qed.

(** The payload survives storage and the copy into the form record. *)
Lemma form_result_roundtrip kind secret meta :
  form_result kind (FormPayload (LinkPayload kind secret meta)) = Some (Some (JStr secret), meta) ∧
  json_truthy (LinkPayload kind secret meta) = true.
Proof. by destruct kind, meta. Qed.

Lemma create_served kind secret meta es s :
  path healthy (createEmailLinkCode kind secret meta) es s →
  ∃ c', run (createEmailLinkCode kind secret meta) es s = (Returned (fresh (es O)), with_cache c' s) ∧
    stepped (kv_setex (run_time (es O) s) (link_key (fresh (es O))) LINK_TTL_SECS
               (stringify (LinkPayload kind secret meta))) (run_time (es O) s) s c'.
Proof.
  exact (store_served (λ e, link_key (fresh e)) _ LINK_TTL_SECS (λ e, Returned (fresh e)) _ es s eq_refl).
Qed.

Lemma redeem_served code payload es s :
  path healthy (redeemEmailLinkCode code) es s → malformed code = false →
  kv_get (run_time (es O) s) (link_key code) (store (cache_of s)) = Some (stringify payload) →
  json_truthy payload = true →
  ∃ c' token t2,
    run (redeemEmailLinkCode code) es s =
      (Some {| r_kind := get_member "kind" payload; r_formToken := token;
               r_meta := get_member "meta" payload |}, with_cache c' s) ∧
    strlen token = CODE_BYTES * 2 ∧ run_time (es O) s ≤ t2 ≤ clock c' ∧
    store c' = kv_setex t2 (form_key token) FORM_TTL_SECS (stringify (FormPayload payload))
                 (kv_del (link_key code) (store (cache_of s))).
Proof.
  intros Hp Hm Hk Ht. unfold redeemEmailLinkCode in *. rewrite Hm in *.
  apply take_once_served in Hp. rewrite Hk in Hp.
  destruct Hp as (c' & es' & Hp & -> & Hs1 & Hc1).
  { apply stringify_nonempty. }
  rewrite parse_stringify in *. unfold seg, act, issue_form in *. cbn [path run bind] in *.
  rewrite Ht in *. cbn [negb] in *. destruct Hp as [Hh _].
  destruct (healthy_set (es' O) (form_key (fresh (es' O))) (stringify (FormPayload payload))
              FORM_TTL_SECS (with_cache c' s) ltac:(done) Hh) as (c2 & Hset & Hs2 & Hc2).
  change (cache (with_cache ?c ?s)) with (cache_of (with_cache c s)). rewrite !cache_with in *.
  pose proof Hh as (Ha & _ & Hf). rewrite cache_with in Ha. rewrite Ha. unfold on_cache.
  rewrite cache_with. destruct (cacheSet _ _ _ _ _) as [u c3]. cbn in Hset. subst c3.
  rewrite !with_with. exists c2, (fresh (es' O)), (run_time (es' O) (with_cache c' s)).
  split; [done|]. split; [done|]. rewrite Hs2, Hs1. unfold run_time in *. rewrite cache_with in *.
  split; [lia|done].
Qed.

Lemma consume_served token kind payload es s :
  path healthy (consumeFormToken token kind) es s → malformed token = false →
  kv_get (run_time (es O) s) (form_key token) (store (cache_of s)) = Some (stringify payload) →
  ∃ c', run (consumeFormToken token kind) es s = (form_result kind payload, with_cache c' s) ∧
        stepped (kv_del (form_key token)) (run_time (es O) s) s c'.
Proof.
  intros Hp Hm Hk. unfold consumeFormToken in *. rewrite Hm in *.
  by apply (take_once_json _ _ _ (λ o, match o with None => None | Some v => form_result kind v end) payload).
Qed.

(** C17. Round trip of an email link: a code that is redeemed within 24 hours
    of its creation, and whose form token is used within 10 minutes of the
    redeem for the same kind of action, delivers exactly the secret and the
    metadata the link was created for, provided Redis serves the commands. *)
Theorem email_link_roundtrip kind secret meta es1 es2 es3 s :
  let r1 := run (createEmailLinkCode kind secret meta) es1 s in
  let code := fresh (es1 O) in
  let r2 := run (redeemEmailLinkCode code) es2 r1.2 in
  path healthy (createEmailLinkCode kind secret meta) es1 s →
  path healthy (redeemEmailLinkCode code) es2 r1.2 →
  run_time (es2 O) r1.2 < run_time (es1 O) s + LINK_TTL_SECS * 1000 →
  r1.1 = Returned code ∧
  ∃ token, r2.1 = Some {| r_kind := Some (JStr (kind_name kind)); r_formToken := token; r_meta := meta |} ∧
    (path healthy (consumeFormToken token kind) es3 r2.2 →
     run_time (es3 O) r2.2 < run_time (es2 O) r1.2 + FORM_TTL_SECS * 1000 →
     (run (consumeFormToken token kind) es3 r2.2).1 = Some (Some (JStr secret), meta)).
Proof.
  cbv zeta. intros H1 H2 Ht2. pose proof H1 as [(_ & _ & Hlen) _].
  apply create_served in H1 as (c1 & E1 & Hst1 & Hck1). rewrite E1 in *. cbn [fst snd] in *.
  split; [done|]. destruct (form_result_roundtrip kind secret meta) as [Hform Htruthy].
  eapply redeem_served in H2 as (c2 & token & t2 & E2 & Htok & Ht & Hst2);
    [|by apply well_formed| |exact Htruthy].
  2: { by apply stored_readable with (ttl := LINK_TTL_SECS) (t0 := run_time (es1 O) s). }
  rewrite E2. cbn [fst snd]. exists token. split; [by destruct kind, meta|]. intros H3 Ht3.
  eapply consume_served in H3 as (c3 & E3 & _); [by rewrite E3|by apply well_formed|].
  unfold run_time in *. rewrite !cache_with in *. rewrite Hst2, get_setex by (done || lia).
  rewrite (proj2 (Z.ltb_lt _ _)); [done|]. unfold FORM_TTL_SECS in *. lia.
Qed.

(** After a redeem, whatever it answered, there is nothing left to redeem. *)
Lemma redeem_gone code es s :
  path healthy (redeemEmailLinkCode code) es s → malformed code = false →
  gone (link_key code) s (run (redeemEmailLinkCode code) es s).2.
Proof.
  intros Hp Hm. unfold redeemEmailLinkCode in *. rewrite Hm in *. apply take_once_gone; [done|].
  intros raw es' c Hpath Ha. destruct (parse raw) as [payload|]; [|by exists c].
  unfold seg, act, issue_form in *. cbn [path run bind] in *. rewrite cache_with.
  destruct (json_truthy payload); cbn [negb];
    destruct (advance_frame (es' O) c) as (Hst & Hck & _).
  - destruct Hpath as [(Hav & _ & _) _]. rewrite cache_with in Hav.
    change (cache (with_cache ?c ?s)) with (cache_of (with_cache c s)). rewrite cache_with, Hav.
    unfold on_cache. rewrite cache_with.
    pose proof (cacheSet_spec (es' O) (form_key (fresh (es' O))) (stringify (FormPayload payload))
                  FORM_TTL_SECS (advance (es' O) c) ltac:(done)) as ([_ Hc] & Hs & _).
    destruct (cacheSet _ _ _ _ _) as [u c2]. cbn [snd] in *. rewrite !with_with.
    exists c2. split; [done|]. unfold absent.
    assert (Hg : kv_get (clock c2) (link_key code) (store c2) = kv_get (clock c2) (link_key code) (store c)).
    { destruct Hs as [-> | ->]; rewrite Hst; [done|]. apply get_setex_ne.
      intros E. by apply (link_form_keys code (fresh (es' O))). }
    rewrite Hg. destruct (kv_get (clock c2) _ (store c)) as [r|] eqn:E; [|by left]. right. f_equal.
    eapply absent_later; [exact Ha| |exact E]. lia.
  - exists (advance (es' O) c). rewrite with_with. split; [done|]. unfold absent. rewrite Hst.
    destruct (kv_get _ _ (store c)) as [r|] eqn:E; [|by left]. right. f_equal.
    eapply absent_later; [exact Ha| |exact E]. lia.
Qed.

(** C34. Single use: once a link code has been redeemed with Redis serving
    the commands, every later attempt to redeem it is refused, whatever the
    state of the connection, of the circuit and of the clock by then. *)
Theorem email_link_single_use code es es' s :
  path healthy (redeemEmailLinkCode code) es s → memoryLinks s !! code = None →
  (run (redeemEmailLinkCode code) es' (run (redeemEmailLinkCode code) es s).2).1 = None.
Proof.
  intros Hp Hmem. destruct (malformed code) eqn:Hm.
  { unfold redeemEmailLinkCode. by rewrite Hm. }
  destruct (redeem_gone code es s Hp Hm) as (c' & -> & Ha).
  unfold redeemEmailLinkCode at 1. rewrite Hm. apply take_once_absent; [by rewrite cache_with|].
  intros e c. destruct s. cbn in *. by rewrite Hmem.
Qed.

Lemma form_result_kind kind kind' secret meta :
  form_result kind (FormPayload (LinkPayload kind' secret meta)) =
  if decide (kind = kind') then Some (Some (JStr secret), meta) else None.
Proof. by destruct kind, kind', meta. Qed.

(** A form token is bound to its kind of action and is used up by the
    first attempt: the attempt succeeds exactly when the kinds agree, and
    after it (right or wrong kind) every further attempt is refused. *)
Theorem form_token_bound_to_kind token kind kind' secret meta es s :
  path healthy (consumeFormToken token kind) es s → malformed token = false →
  memoryForms s !! token = None →
  kv_get (run_time (es O) s) (form_key token) (store (cache_of s)) =
    Some (stringify (FormPayload (LinkPayload kind' secret meta))) →
  (run (consumeFormToken token kind) es s).1 =
    (if decide (kind = kind') then Some (Some (JStr secret), meta) else None) ∧
  ∀ kind'' es',
    (run (consumeFormToken token kind'') es' (run (consumeFormToken token kind) es s).2).1 = None.
Proof.
  intros Hp Hm Hmem Hk. destruct (consume_served _ _ _ _ _ Hp Hm Hk) as (c' & -> & Hs & _).
  cbn [fst snd]. split; [apply form_result_kind|]. intros kind'' es'.
  unfold consumeFormToken. rewrite Hm. apply take_once_absent.
  - rewrite cache_with. by eapply absent_deleted.
  - intros e c. destruct s. cbn in *. by rewrite Hmem.
Qed.

(** ** Without Redis *)

(** The part of a state in which the [Map]s are the only store. *)
Definition memory_only (s : State) : Prop := enabled (cache s) = false.

Lemma memory_only_unavailable e s :
  memory_only s → isRedisAvailable (advance e (cache s)) = false.
Proof.
  unfold memory_only, advance, isRedisAvailable. intros H.
  assert (Hl : ∀ l c, enabled c = false → enabled (foldl on_event c l) = false).
  { induction l as [|p l IH]; intros c Hc; [done|]. cbn. apply IH. by destruct p as [[] ?], c. }
  rewrite Hl; [done|]. by destruct (cache s).
Qed.

(** A thread that tries to redeem [code]: it has not run yet or is done. *)
Definition redeemer (code : string) (p : prog Env State (option Redeemed)) : Prop :=
  p = redeemEmailLinkCode code ∨ ∃ r, p = Ret r.

Definition succeeded (p : prog Env State (option Redeemed)) : Z :=
  match p with Ret (Some _) => 1 | _ => 0 end.

Definition successes (ps : list (prog Env State (option Redeemed))) : Z := sumZ (map succeeded ps).

Definition present (code : string) (s : State) : Z :=
  if memoryLinks s !! code is Some _ then 1 else 0.

Lemma present_bounds code s : 0 ≤ present code s ≤ 1.
Proof. unfold present. case_match; lia. Qed.

(** One step of a redeem without Redis does all its work. *)
Lemma redeem_memory_step code e s p' s' :
  memory_only s → step_of (redeemEmailLinkCode code) e s = Some (p', s') →
  memory_only s' ∧ (∃ r, p' = Ret r) ∧ present code s' = 0 ∧ succeeded p' ≤ present code s.
Proof.
  intros Hm. unfold redeemEmailLinkCode. destruct (malformed code); [done|].
  unfold take_once, seg, act. cbn [bind step_of].
  change (cache_of (with_cache ?c s)) with (cache (with_cache c s)).
  replace (cache (with_cache (advance e (cache_of s)) s)) with (advance e (cache s)) by (by destruct s).
  rewrite memory_only_unavailable by done.
  pose proof (memory_only_unavailable e s Hm) as Hav.
  assert (Hen : enabled (advance e (cache s)) = false).
  { clear -Hm. unfold memory_only, advance in *. assert (Hl : ∀ l c, enabled (foldl on_event c l) = enabled c).
    { induction l as [|p l IH]; intros c; [done|]. cbn. rewrite IH. by destruct p as [[] ?], c. }
    rewrite Hl. by destruct (cache s). }
  destruct s as [c ne links forms]. cbn in *. unfold present. cbn.
  destruct (links !! code) as [[v exp]|] eqn:Hl; cbn.
  - unfold issue_form. cbn. rewrite Hav.
    destruct (exp <? clock (advance e c)), (json_truthy v); cbn; intros [= <- <-]; cbn;
      rewrite lookup_delete_eq; split_and!; eauto; done.
  - intros [= <- <-]. cbn. rewrite lookup_delete_eq. split_and!; eauto; done.
Qed.

(** Concurrency without Redis: any number of requests redeeming the same
    code, interleaved in any way, get at most one form token. *)
Theorem memory_redeem_at_most_once code n s ps' s' :
  memory_only s → pool_reach (replicate n (redeemEmailLinkCode code), s) (ps', s') →
  successes ps' ≤ 1.
Proof.
  intros Hm Hr.
  set (I := λ c : list (prog Env State (option Redeemed)) * State,
         memory_only c.2 ∧ Forall (redeemer code) c.1 ∧ successes c.1 + present code c.2 ≤ 1).
  assert (Hstep : ∀ c c', pool_step c c' → I c → I c').
  { intros c c' Hs (Hmo & Hall & Hsum).
    apply pool_step_inv in Hs as (i & p & e & p' & s1 & Hi & Hst & ->).
    destruct (Forall_lookup_1 _ _ _ _ Hall Hi) as [->|[r ->]]; [|done].
    destruct (redeem_memory_step _ _ _ _ _ Hmo Hst) as (H1 & [r ->] & H3 & H4).
    split_and!; cbn; [done|apply Forall_insert; [done|right; eauto]|].
    unfold successes in *. erewrite sumZ_map_insert by done. rewrite H3.
    assert (0 ≤ succeeded (redeemEmailLinkCode code)) by (unfold succeeded; repeat case_match; lia).
    lia. }
  assert (HI : I (replicate n (redeemEmailLinkCode code), s)).
  { split_and!; cbn; [done| |].
    - apply Forall_replicate. by left.
    - assert (Hz : succeeded (redeemEmailLinkCode code) = 0)
        by (unfold redeemEmailLinkCode; by destruct (malformed code)).
      unfold successes. rewrite sumZ_map_zero; [pose proof (present_bounds code s); lia|].
      intros p Hp. apply elem_of_replicate in Hp as [-> _]. done. }
  assert (HI' : I (ps', s')) by (revert HI; induction Hr; eauto).
  destruct HI' as (_ & _ & H). pose proof (present_bounds code s'). cbn [fst snd] in H. lia.
Qed.
End EmailLinkFacts.

(** *** Concrete runs *)

Module EmailLinkRuns.
Import EmailLink.

Definition code64 (c : Ascii.ascii) : string := String.string_of_list_ascii (replicate 64 c).

(** Production, Redis connected and empty. *)
Definition start : State (RKV := MemKV.mem_kv) :=
  {| cache := MemKV.fresh_cache; nodeEnv := "production"; memoryLinks := ∅; memoryForms := ∅ |}.

Definition good (c : Ascii.ascii) : Env := MemKV.good_env (code64 c).

(** A link for a password reset has been sent. *)
Definition mailed : State :=
  (run (createEmailLinkCode reset_password "secret" None) (λ _, good "a") start).2.

(** Development without Redis; a link has been sent. *)
Definition offline : State (RKV := MemKV.mem_kv) :=
  (run (createEmailLinkCode verify_email "secret" None) (λ _, good "a")
     {| cache := createClients {| rc_enabled := false; rc_host := ""; rc_port := 6379; rc_username := "";
                   rc_password := ""; rc_tls := false; rc_db := 0; rc_connectTimeoutMs := 10000;
                   rc_commandTimeoutMs := 5000; rc_keepAliveMs := 30000; rc_maxRetriesPerRequest := 3 |}
                   None (new_CircuitBreaker (defaultCircuitBreakerConfig (λ _, None)))
                   (∅ : gmap string (string * option Z)) 1000000;
        nodeEnv := "development"; memoryLinks := ∅; memoryForms := ∅ |}).2.

(** An environment that loses the answer and the effect of its command. *)
Definition lost (c : Ascii.ascii) : Env :=
  {| elapse := 0; events := []; rand_begin := 0; rand_end := 0; fate := TimedOut false; wait := 500;
     fresh := code64 c; uuids := ("uuid-1", "uuid-2") |}.
End EmailLinkRuns.

(** With Redis a code is not single-use under concurrency or loss: GET
    and DEL are two commands, so (i) two requests that interleave, each with
    every command served, both redeem one code, and (ii) a request whose DEL
    times out leaves the code to be redeemed again. *)
Theorem redis_redeem_replay :
  let redeem := EmailLink.redeemEmailLinkCode (EmailLinkRuns.code64 "a") in
  (∃ ps' s', pool_reach ([redeem; redeem], EmailLinkRuns.mailed) (ps', s') ∧ successes ps' = 2) ∧
  (∃ es1 es2, let '(r1, s1) := run redeem es1 EmailLinkRuns.mailed in
     is_Some r1 ∧ is_Some (run redeem es2 s1).1).
Proof.
  cbv zeta. split.
  - set (ps := [_; _]).
    set (sched := [(0%nat, EmailLinkRuns.good "b"); (1%nat, EmailLinkRuns.good "b");
                   (0%nat, EmailLinkRuns.good "b"); (1%nat, EmailLinkRuns.good "b");
                   (0%nat, EmailLinkRuns.good "b"); (1%nat, EmailLinkRuns.good "c")]).
    exists (play sched ps EmailLinkRuns.mailed).1, (play sched ps EmailLinkRuns.mailed).2.
    split; [rewrite <- surjective_pairing; apply play_reach|]. subst sched ps. vm_compute. reflexivity.
  - exists (λ n, match n with 1%nat => EmailLinkRuns.lost "b" | _ => EmailLinkRuns.good "b" end),
           (λ _, EmailLinkRuns.good "c").
    vm_compute. split; eauto.
Qed.

Ltac healthy_path := vm_compute; repeat split.

Lemma email_link_roundtrip_witness :
  let es2 := λ _ : nat, EmailLinkRuns.good "b" in
  let s2 := (run (EmailLink.redeemEmailLinkCode (EmailLinkRuns.code64 "a")) es2 EmailLinkRuns.mailed).2 in
  (run (EmailLink.consumeFormToken (EmailLinkRuns.code64 "b") EmailLink.reset_password)
     (λ _, EmailLinkRuns.good "c") s2).1 = Some (Some (JStr "secret"), None).
Proof.
  cbv zeta.
  destruct (email_link_roundtrip (RKV := MemKV.mem_kv) EmailLink.reset_password "secret" None
    (λ _, EmailLinkRuns.good "a") (λ _, EmailLinkRuns.good "b") (λ _, EmailLinkRuns.good "c")
    EmailLinkRuns.start) as (_ & token & H2 & H3); [healthy_path|healthy_path|by vm_compute|].
  assert (token = EmailLinkRuns.code64 "b") as -> by (vm_compute in H2; injection H2 as <-; reflexivity).
  apply H3; [healthy_path|by vm_compute].
Defined.

Lemma email_link_single_use_witness :
  let redeem := EmailLink.redeemEmailLinkCode (EmailLinkRuns.code64 "a") in
  let s1 := (run redeem (λ _, EmailLinkRuns.good "b") EmailLinkRuns.mailed).2 in
  is_Some (run redeem (λ _, EmailLinkRuns.good "b") EmailLinkRuns.mailed).1 ∧
  (run redeem (λ _, EmailLinkRuns.good "c") s1).1 = None.
Proof.
  cbv zeta. split; [vm_compute; eauto|].
  apply (email_link_single_use (RKV := MemKV.mem_kv)); [healthy_path|by vm_compute].
Defined.

Lemma form_token_bound_to_kind_witness :
  let s2 := (run (EmailLink.redeemEmailLinkCode (EmailLinkRuns.code64 "a"))
               (λ _, EmailLinkRuns.good "b") EmailLinkRuns.mailed).2 in
  (run (EmailLink.consumeFormToken (EmailLinkRuns.code64 "b") EmailLink.verify_email)
     (λ _, EmailLinkRuns.good "c") s2).1 = None.
Proof.
  cbv zeta. destruct (form_token_bound_to_kind (RKV := MemKV.mem_kv) (EmailLinkRuns.code64 "b")
    EmailLink.verify_email EmailLink.reset_password "secret" None (λ _, EmailLinkRuns.good "c")
    (run (EmailLink.redeemEmailLinkCode (EmailLinkRuns.code64 "a"))
       (λ _, EmailLinkRuns.good "b") EmailLinkRuns.mailed).2) as [H _]; [healthy_path|by vm_compute..|].
  rewrite H. reflexivity.
Defined.

Lemma memory_redeem_at_most_once_witness :
  let redeem := EmailLink.redeemEmailLinkCode (EmailLinkRuns.code64 "a") in
  let c := play [(1%nat, EmailLinkRuns.good "b"); (0%nat, EmailLinkRuns.good "c")]
             (replicate 2 redeem) EmailLinkRuns.offline in
  successes c.1 = 1 ∧ successes c.1 ≤ 1.
Proof.
  cbv zeta. split; [by vm_compute|].
  apply (memory_redeem_at_most_once (RKV := MemKV.mem_kv) (EmailLinkRuns.code64 "a") 2 EmailLinkRuns.offline
    _ (play [(1%nat, EmailLinkRuns.good "b"); (0%nat, EmailLinkRuns.good "c")]
         (replicate 2 (EmailLink.redeemEmailLinkCode (EmailLinkRuns.code64 "a"))) EmailLinkRuns.offline).2);
    [by vm_compute|].
  rewrite <- surjective_pairing. apply play_reach.
Defined.

(** ** Properties of the OAuth codes *)

Section OAuthFacts.
Context `{RKV : RedisKV} {KL : RedisKVLaws RKV}.

Lemma exchange_create_served access refresh state es s :
  state ≠ "" → path healthy (OAuthExchange.createOAuthExchangeCode access refresh state) es s →
  malformed (fresh (es O)) = false ∧
  ∃ c', run (OAuthExchange.createOAuthExchangeCode access refresh state) es s =
          (Returned (fresh (es O)), with_cache c' s) ∧
    stepped (kv_setex (run_time (es O) s) (OAuthExchange.code_key (fresh (es O))) OAuthExchange.CODE_TTL_SECS
      (stringify (OAuthExchange.ExchangeRecord access refresh state))) (run_time (es O) s) s c'.
Proof.
  intros Hs Hp. unfold OAuthExchange.createOAuthExchangeCode in *. apply String.eqb_neq in Hs.
  rewrite Hs in *. split; [destruct Hp as [(_ & _ & H) _]; by apply well_formed|].
  exact (store_served (λ e, OAuthExchange.code_key (fresh e)) _ OAuthExchange.CODE_TTL_SECS
           (λ e, Returned (fresh e)) _ es s eq_refl Hp).
Qed.

Lemma exchange_consume_served code state record es s :
  state ≠ "" → malformed code = false →
  path healthy (OAuthExchange.consumeOAuthExchangeCode code state) es s →
  kv_get (run_time (es O) s) (OAuthExchange.code_key code) (store (cache_of s)) = Some (stringify record) →
  ∃ c', run (OAuthExchange.consumeOAuthExchangeCode code state) es s =
          (OAuthExchange.exchange_result state record, with_cache c' s) ∧
        stepped (kv_del (OAuthExchange.code_key code)) (run_time (es O) s) s c'.
Proof.
  intros Hs Hm Hp Hk. unfold OAuthExchange.consumeOAuthExchangeCode in *. apply String.eqb_neq in Hs.
  rewrite Hm, Hs in *. cbn [orb] in *.
  by apply (take_once_json _ _ _
    (λ o, match o with None => None | Some v => OAuthExchange.exchange_result state v end) record).
Qed.

(** OAuth exchange codes: within 120 seconds a code yields exactly the
    token pair it was created for, and only to the holder of the OAuth state
    it is bound to; any attempt, with the right or a wrong state, uses the
    code up. *)
Theorem exchange_code_bound_to_state access refresh state state' es1 es2 s :
  let create := OAuthExchange.createOAuthExchangeCode access refresh state in
  let r1 := run create es1 s in
  let code := fresh (es1 O) in
  let consume := OAuthExchange.consumeOAuthExchangeCode code in
  state ≠ "" → state' ≠ "" → OAuthExchange.memoryCodes s !! code = None →
  path healthy create es1 s → path healthy (consume state') es2 r1.2 →
  run_time (es2 O) r1.2 < run_time (es1 O) s + OAuthExchange.CODE_TTL_SECS * 1000 →
  r1.1 = Returned code ∧
  (run (consume state') es2 r1.2).1 =
    (if String.eqb state state' then Some (Some (OAuthExchange.TokenPair access refresh)) else None) ∧
  ∀ state'' es3, (run (consume state'') es3 (run (consume state') es2 r1.2).2).1 = None.
Proof.
  cbv zeta. intros Hs Hs' Hmem H1 H2 Ht.
  destruct (exchange_create_served _ _ _ _ _ Hs H1) as (Hm & c1 & E1 & Hst1).
  rewrite E1 in *. cbn [fst snd] in *. split; [done|].
  destruct (exchange_consume_served _ _ _ _ _ Hs' Hm H2 (stored_readable _ _ OAuthExchange.CODE_TTL_SECS _ _ _ _ eq_refl Hst1 Ht))
    as (c2 & E2 & Hst2 & _).
  rewrite E2. cbn [fst snd]. split; [by cbn; destruct (String.eqb state state')|].
  intros state'' es3. unfold OAuthExchange.consumeOAuthExchangeCode. rewrite Hm. cbn [orb].
  destruct (String.eqb state'' ""); [done|]. apply take_once_absent.
  - rewrite cache_with. by eapply absent_deleted.
  - intros e c. destruct s. cbn in *. by rewrite Hmem.
Qed.

Lemma pkce_create_served challenge redirect es s :
  43 ≤ strlen challenge ≤ 128 → path healthy (OAuthPkce.createOAuthState challenge redirect) es s →
  String.eqb (fresh (es O)) "" = false ∧
  ∃ c', run (OAuthPkce.createOAuthState challenge redirect) es s =
          (Returned (fresh (es O)), with_cache c' s) ∧
    stepped (kv_setex (run_time (es O) s) (OAuthPkce.state_key (fresh (es O))) OAuthPkce.STATE_TTL_SECS
      (stringify (OAuthPkce.StateRecord challenge redirect))) (run_time (es O) s) s c'.
Proof.
  intros Hlen Hp. unfold OAuthPkce.createOAuthState in *.
  assert (Hb : String.eqb challenge "" || (strlen challenge <? 43) || (128 <? strlen challenge) = false).
  { rewrite !orb_false_iff, !Z.ltb_ge, String.eqb_neq. split; [split; [|lia]|lia].
    intros ->. exact (proj1 Hlen eq_refl). }
  rewrite Hb in *. split.
  { destruct Hp as [(_ & _ & H) _]. apply String.eqb_neq. intros E. by rewrite E in H. }
  exact (store_served (λ e, OAuthPkce.state_key (fresh e)) _ OAuthPkce.STATE_TTL_SECS
           (λ e, Returned (fresh e)) _ es s eq_refl Hp).
Qed.

(** Reading the redirect target leaves the record where it is. *)
Lemma pkce_peek_served state es s :
  String.eqb state "" = false → path healthy (OAuthPkce.peekOAuthStateRedirectUri state) es s →
  ∃ c', (run (OAuthPkce.peekOAuthStateRedirectUri state) es s).2 = with_cache c' s ∧
        stepped id (run_time (es O) s) s c' ∧
        ∀ record, kv_get (run_time (es O) s) (OAuthPkce.state_key state) (store (cache_of s)) = Some (stringify record) →
          (run (OAuthPkce.peekOAuthStateRedirectUri state) es s).1 = OAuthPkce.redirect_of record.
Proof.
  intros Hs. unfold OAuthPkce.peekOAuthStateRedirectUri. rewrite Hs. unfold seg, act. cbn [path run bind].
  intros [(Ha & Hsv & _) _]. change (OAuthPkce.cache (with_cache ?c s)) with (cache_of (with_cache c s)).
  rewrite cache_with, Ha. unfold on_cache. rewrite cache_with.
  pose proof (cacheGet_spec (es O) (OAuthPkce.state_key state) (advance (es O) (cache_of s))) as Hg.
  destruct (advance_frame (es O) (cache_of s)) as (Hst & Hck & _).
  destruct (cacheGet (es O) _ _) as [r c1]. destruct Hg as ([_ Hc] & Hst1 & _ & Hr).
  cbn [fst snd]. exists c1. rewrite with_with. split; [done|]. split.
  - unfold stepped, run_time, id. rewrite Hst1, Hst, <- Hck. done.
  - intros record Hk. rewrite (Hr Ha Hsv), Hst, Hck. unfold run_time in Hk. rewrite Hk.
    rewrite parse_stringify. by rewrite (proj2 (String.eqb_neq _ _) (stringify_nonempty record)).
Qed.

Lemma pkce_consume_served sha state verifier record es s :
  String.eqb state "" = false → verifier ≠ "" →
  path healthy (OAuthPkce.consumeOAuthState sha state verifier) es s →
  kv_get (run_time (es O) s) (OAuthPkce.state_key state) (store (cache_of s)) = Some (stringify record) →
  ∃ c', run (OAuthPkce.consumeOAuthState sha state verifier) es s =
          (OAuthPkce.state_result sha verifier record, with_cache c' s) ∧
        stepped (kv_del (OAuthPkce.state_key state)) (run_time (es O) s) s c'.
Proof.
  intros Hs Hv Hp Hk. unfold OAuthPkce.consumeOAuthState in *. apply String.eqb_neq in Hv.
  rewrite Hs, Hv in *. cbn [orb] in *.
  by apply (take_once_json _ _ _
    (λ o, match o with None => false | Some v => OAuthPkce.state_result sha verifier v end) record).
Qed.

(** PKCE: a state created for a code challenge accepts, within ten
    minutes, exactly the verifiers whose SHA-256 digest is the challenge; the
    first attempt, right or wrong, uses the state up.  Reading its redirect
    target before gives the target and does not use it up. *)
Theorem pkce_state_verifies sha challenge redirect verifier es1 es2 es3 s :
  let create := OAuthPkce.createOAuthState challenge redirect in
  let r1 := run create es1 s in
  let state := fresh (es1 O) in
  let peek := OAuthPkce.peekOAuthStateRedirectUri state in
  let consume := OAuthPkce.consumeOAuthState sha state in
  let r2 := run peek es2 r1.2 in
  let r3 := run (consume verifier) es3 r2.2 in
  43 ≤ strlen challenge ≤ 128 → verifier ≠ "" → OAuthPkce.memoryStates s !! state = None →
  path healthy create es1 s → path healthy peek es2 r1.2 → path healthy (consume verifier) es3 r2.2 →
  run_time (es3 O) r2.2 < run_time (es1 O) s + OAuthPkce.STATE_TTL_SECS * 1000 →
  r1.1 = Returned state ∧
  r2.1 = OAuthPkce.redirect_of (OAuthPkce.StateRecord challenge redirect) ∧
  r3.1 = String.eqb (sha verifier) challenge ∧
  ∀ verifier' es4, (run (consume verifier') es4 r3.2).1 = false.
Proof.
  cbv zeta. intros Hlen Hv Hmem H1 H2 H3 Ht.
  destruct (pkce_create_served _ _ _ _ Hlen H1) as (Hm & c1 & E1 & Hst1).
  rewrite E1 in *. cbn [fst snd] in *. split; [done|].
  destruct (pkce_peek_served _ _ _ Hm H2) as (c2 & E2 & (Hst2 & Hck2) & Hr2).
  assert (Hst12 : stepped (kv_setex (run_time (es1 O) s) (OAuthPkce.state_key (fresh (es1 O)))
            OAuthPkce.STATE_TTL_SECS (stringify (OAuthPkce.StateRecord challenge redirect)))
            (run_time (es1 O) s) s c2).
  { destruct Hst1 as [Hs1 Hc1]. unfold stepped, run_time, id in *. rewrite cache_with in *.
    rewrite Hst2. split; [done|lia]. }
  rewrite E2 in *. rewrite with_with in *. split.
  { apply Hr2. apply (stored_readable _ _ OAuthPkce.STATE_TTL_SECS (run_time (es1 O) s)); [done|exact Hst1|]. unfold run_time in *. rewrite cache_with in *. lia. }
  destruct (pkce_consume_served _ _ _ _ _ _ Hm Hv H3 (stored_readable _ _ OAuthPkce.STATE_TTL_SECS _ _ _ _ eq_refl Hst12 Ht))
    as (c3 & E3 & Hst3 & _).
  rewrite E3. cbn [fst snd]. split.
  { destruct redirect as [u|]; [|done]. unfold OAuthPkce.StateRecord. by destruct (String.eqb u ""). }
  intros verifier' es4. unfold OAuthPkce.consumeOAuthState. rewrite Hm. cbn [orb].
  destruct (String.eqb verifier' ""); [done|]. apply take_once_absent.
  - rewrite cache_with. by eapply absent_deleted.
  - intros e c. destruct s. cbn in *. by rewrite Hmem.
Qed.
End OAuthFacts.

(** Open-redirect safety: an accepted redirect target is the callback
    path on the origin of one of the configured client URLs, and it is the
    origin of the URL the client sent; the path is pinned. *)
Theorem redirect_allowlisted new_URL clientUrls uri target :
  OAuthPkce.resolveClientRedirectUri new_URL clientUrls uri = Some target →
  ∃ u parsed base b, uri = Some u ∧ new_URL u = Some parsed ∧
    In base clientUrls ∧ new_URL base = Some b ∧
    OAuthPkce.origin b = OAuthPkce.origin parsed ∧
    target = OAuthPkce.origin b +:+ "/oauth-callback" ∧
    (OAuthPkce.protocol parsed = "https:" ∨ OAuthPkce.protocol parsed = "http:") ∧
    (OAuthPkce.pathname parsed = "/oauth-callback" ∨ OAuthPkce.pathname parsed = "/oauth-callback/").
Proof.
  unfold OAuthPkce.resolveClientRedirectUri. destruct uri as [u|]; [|done].
  destruct (String.eqb u ""); [done|]. destruct (new_URL u) as [parsed|] eqn:Hu; [|done].
  destruct (negb _ && negb _) eqn:Hproto; [done|].
  destruct (negb (String.eqb (OAuthPkce.strip_slash _) _)) eqn:Hpath; [done|].
  destruct (negb (existsb _ _)) eqn:Hall; [done|]. intros [= <-].
  apply negb_false_iff, existsb_exists in Hall as (base & Hin & Hb).
  destruct (new_URL base) as [b|] eqn:Hbase; [|done]. apply String.eqb_eq in Hb.
  exists u, parsed, base, b. rewrite Hb. split_and!; try done.
  - apply andb_false_iff in Hproto as [H|H]; apply negb_false_iff, String.eqb_eq in H; auto.
  - apply negb_false_iff, String.eqb_eq in Hpath. by apply OAuthPkce.strip_slash_inv in Hpath.
Qed.

Section ServiceFacts.
Context `{RKV : RedisKV} {KL : RedisKVLaws RKV}.

(** In production no service falls back to process memory when it
    creates a code: whatever the environment, each of the four either stores
    nothing in its [Map] and returns the code, or throws, and it throws
    exactly when Redis is not available at that moment (or the argument is
    rejected before). *)
Theorem production_never_in_memory e :
  (∀ s kind secret meta, EmailLink.nodeEnv s = "production" →
     let r := run (EmailLink.createEmailLinkCode kind secret meta) (λ _, e) s in
     EmailLink.memoryLinks r.2 = EmailLink.memoryLinks s ∧
     (r.1 = Returned (fresh e) ↔ isRedisAvailable (advance e (cache_of s)) = true)) ∧
  (∀ s access refresh state, OAuthExchange.nodeEnv s = "production" →
     let r := run (OAuthExchange.createOAuthExchangeCode access refresh state) (λ _, e) s in
     OAuthExchange.memoryCodes r.2 = OAuthExchange.memoryCodes s ∧
     (r.1 = Returned (fresh e) ↔ state ≠ "" ∧ isRedisAvailable (advance e (cache_of s)) = true)) ∧
  (∀ s challenge redirect, OAuthPkce.nodeEnv s = "production" →
     let r := run (OAuthPkce.createOAuthState challenge redirect) (λ _, e) s in
     OAuthPkce.memoryStates r.2 = OAuthPkce.memoryStates s ∧
     (r.1 = Returned (fresh e) ↔
      43 ≤ strlen challenge ≤ 128 ∧ isRedisAvailable (advance e (cache_of s)) = true)) ∧
  (∀ s userId, VerificationPoll.nodeEnv s = "production" →
     let r := run (VerificationPoll.createVerificationPollToken userId) (λ _, e) s in
     VerificationPoll.memoryPolls r.2 = VerificationPoll.memoryPolls s ∧
     (r.1 = Returned (fresh e) ↔ isRedisAvailable (advance e (cache_of s)) = true)).
Proof.
  split; [|split; [|split]].
  - intros [c ne ml mf] kind secret meta Hp. cbn in *. subst ne. unfold on_cache. cbn.
    destruct (isRedisAvailable (advance e c)); [|by cbn].
    by destruct (cacheSet _ _ _ _ _).
  - intros [c ne mc] access refresh state Hp. cbn in *. subst ne.
    unfold OAuthExchange.createOAuthExchangeCode. destruct (String.eqb_spec state "") as [->|Hne]; cbn.
    { split; [done|]. split; [done|by intros [[] _]]. }
    unfold on_cache. cbn. destruct (isRedisAvailable (advance e c)); cbn.
    + destruct (cacheSet _ _ _ _ _); cbn. split; [done|]. by split.
    + split; [done|]. by split; [|intros [_ ?]].
  - intros [c ne ms] challenge redirect Hp. cbn in *. subst ne. unfold OAuthPkce.createOAuthState.
    destruct (_ || _) eqn:Hb; cbn.
    { split; [done|]. split; [done|]. intros [Hl _]. exfalso. breflect. destruct Hb as [Hb|Hb].
      - apply orb_true_iff in Hb as [Hb|Hb]; [|breflect; lia]. apply String.eqb_eq in Hb. subst.
        exact (proj1 Hl eq_refl).
      - breflect. lia. }
    breflect. assert (43 ≤ strlen challenge ≤ 128) by lia.
    unfold on_cache. cbn. destruct (isRedisAvailable (advance e c)); cbn.
    + destruct (cacheSet _ _ _ _ _); cbn. split; [done|]. by split.
    + split; [done|]. by split; [|intros [_ ?]].
  - intros [c ne mp] userId Hp. cbn in *. subst ne. unfold on_cache. cbn.
    destruct (isRedisAvailable (advance e c)); [|by cbn].
    by destruct (cacheSet _ _ _ _ _).
Qed.

Lemma poll_create_served userId es s :
  path healthy (VerificationPoll.createVerificationPollToken userId) es s →
  ∃ c', run (VerificationPoll.createVerificationPollToken userId) es s =
          (Returned (fresh (es O)), with_cache c' s) ∧
    stepped (kv_setex (run_time (es O) s) (VerificationPoll.REDIS_PREFIX +:+ fresh (es O))
               VerificationPoll.POLL_TTL_SECS userId) (run_time (es O) s) s c'.
Proof.
  exact (store_served (λ e, VerificationPoll.REDIS_PREFIX +:+ fresh e) userId VerificationPoll.POLL_TTL_SECS
           (λ e, Returned (fresh e)) _ es s eq_refl).
Qed.

Lemma poll_resolve_served token es s :
  malformed token = false → path healthy (VerificationPoll.resolveVerificationPollToken token) es s →
  (run (VerificationPoll.resolveVerificationPollToken token) es s).1 =
  kv_get (run_time (es O) s) (VerificationPoll.REDIS_PREFIX +:+ token) (store (cache_of s)).
Proof.
  intros Hm. unfold VerificationPoll.resolveVerificationPollToken. rewrite Hm. unfold seg, act.
  cbn [path run bind]. intros [(Ha & Hsv & _) _].
  change (VerificationPoll.cache (with_cache ?c s)) with (cache_of (with_cache c s)).
  rewrite cache_with, Ha. unfold on_cache. rewrite cache_with.
  pose proof (cacheGet_spec (es O) (VerificationPoll.REDIS_PREFIX +:+ token) (advance (es O) (cache_of s))) as Hg.
  destruct (advance_frame (es O) (cache_of s)) as (Hst & Hck & _).
  destruct (cacheGet (es O) _ _) as [r c1]. destruct Hg as (_ & _ & _ & Hr).
  cbn. rewrite (Hr Ha Hsv), Hst, Hck. done.
Qed.

Lemma poll_revoke_served token es s :
  token ≠ "" → path healthy (VerificationPoll.revokeVerificationPollToken token) es s →
  ∃ c', (run (VerificationPoll.revokeVerificationPollToken token) es s).2 = with_cache c' s ∧
        stepped (kv_del (VerificationPoll.REDIS_PREFIX +:+ token)) (run_time (es O) s) s c'.
Proof.
  intros Hm. apply String.eqb_neq in Hm. unfold VerificationPoll.revokeVerificationPollToken. rewrite Hm.
  unfold seg, act. cbn [path run bind]. intros [(Ha & Hsv & _) _].
  change (VerificationPoll.cache (with_cache ?c s)) with (cache_of (with_cache c s)).
  rewrite cache_with, Ha. unfold on_cache. rewrite cache_with.
  pose proof (cacheDel_spec (es O) (VerificationPoll.REDIS_PREFIX +:+ token) (advance (es O) (cache_of s)))
    as ([_ Hc] & _ & Hd).
  destruct (advance_frame (es O) (cache_of s)) as (Hst & Hck & _).
  destruct (cacheDel (es O) _ _) as [r c1]. cbn [fst snd] in *. exists c1. rewrite with_with.
  split; [done|]. unfold stepped, run_time. rewrite (Hd Ha Hsv), Hst, <- Hck. done.
Qed.

(** A verification poll token answers with the user it was created for
    during 24 hours and with nothing afterwards, and it can be asked any
    number of times; once it is revoked no later question is answered. *)
Theorem poll_token_lifecycle userId es1 es2 es3 es4 s :
  let create := VerificationPoll.createVerificationPollToken userId in
  let r1 := run create es1 s in
  let token := fresh (es1 O) in
  let resolve := VerificationPoll.resolveVerificationPollToken token in
  let revoke := VerificationPoll.revokeVerificationPollToken token in
  path healthy create es1 s → path healthy resolve es2 r1.2 → path healthy revoke es3 r1.2 →
  VerificationPoll.memoryPolls s !! token = None →
  r1.1 = Returned token ∧
  (run resolve es2 r1.2).1 =
    (if run_time (es2 O) r1.2 <? run_time (es1 O) s + VerificationPoll.POLL_TTL_SECS * 1000
     then Some userId else None) ∧
  (run resolve es4 (run revoke es3 r1.2).2).1 = None.
Proof.
  cbv zeta. intros H1 H2 H3 Hmem.
  assert (Hm : malformed (fresh (es1 O)) = false) by (destruct H1 as [(_ & _ & H) _]; by apply well_formed).
  destruct (poll_create_served _ _ _ H1) as (c1 & E1 & Hst1).
  rewrite E1 in *. cbn [fst snd] in *. split; [done|]. split.
  - rewrite poll_resolve_served by done. case_match eqn:Ht; breflect.
    + exact (stored_readable _ _ VerificationPoll.POLL_TTL_SECS _ _ _ _ eq_refl Hst1 Ht).
    + exact (stored_expired _ _ VerificationPoll.POLL_TTL_SECS _ _ _ _ eq_refl Hst1 Ht).
  - apply poll_revoke_served in H3 as (c2 & -> & Hst2); [|by intros E; rewrite E in Hm].
    rewrite with_with. unfold VerificationPoll.resolveVerificationPollToken. rewrite Hm.
    unfold seg, act. cbn [run bind].
    change (VerificationPoll.cache (with_cache ?c s)) with (cache_of (with_cache c s)). rewrite !cache_with.
    destruct (isRedisAvailable _).
    + unfold on_cache. rewrite cache_with.
      pose proof (cacheGet_spec (es4 O) (VerificationPoll.REDIS_PREFIX +:+ fresh (es1 O)) (advance (es4 O) c2)) as Hg.
      destruct (cacheGet _ _ _) as [r c3]. destruct Hg as (_ & _ & [->|Hr] & _); [done|]. cbn. rewrite Hr.
      destruct (advance_frame (es4 O) c2) as (-> & _ & _). destruct Hst2 as [-> _]. apply get_del.
    + destruct s. cbn in *. by rewrite Hmem.
Qed.
End ServiceFacts.

(** *** Concrete runs *)

Module OAuthRuns.
Import EmailLinkRuns.

Definition exchange_start : OAuthExchange.State (RKV := MemKV.mem_kv) :=
  {| OAuthExchange.cache := MemKV.fresh_cache; OAuthExchange.nodeEnv := "production";
     OAuthExchange.memoryCodes := ∅ |}.

Definition pkce_start : OAuthPkce.State (RKV := MemKV.mem_kv) :=
  {| OAuthPkce.cache := MemKV.fresh_cache; OAuthPkce.nodeEnv := "production"; OAuthPkce.memoryStates := ∅ |}.

Definition poll_start : VerificationPoll.State (RKV := MemKV.mem_kv) :=
  {| VerificationPoll.cache := MemKV.fresh_cache; VerificationPoll.nodeEnv := "production";
     VerificationPoll.memoryPolls := ∅ |}.

(** A digest for the examples. *)
Definition sha (s : string) : string := s +:+ code64 "h".

(** [https://app.example/x] has the origin [https://app.example]; enough for
    the examples. *)
Definition new_URL (s : string) : option OAuthPkce.URL :=
  if startsWith s "https://app.example" then
    Some {| OAuthPkce.protocol := "https:"; OAuthPkce.origin := "https://app.example";
            OAuthPkce.pathname := String.substring 19 100 s |}
  else None.
End OAuthRuns.

Lemma exchange_code_bound_to_state_witness :
  let create := OAuthExchange.createOAuthExchangeCode "acc" "ref" "st" in
  let consume := OAuthExchange.consumeOAuthExchangeCode (EmailLinkRuns.code64 "a") in
  let s1 := (run create (λ _, EmailLinkRuns.good "a") OAuthRuns.exchange_start).2 in
  (run (consume "st") (λ _, EmailLinkRuns.good "b") s1).1 =
    Some (Some (OAuthExchange.TokenPair "acc" "ref")).
Proof.
  cbv zeta. destruct (exchange_code_bound_to_state (RKV := MemKV.mem_kv) "acc" "ref" "st" "st"
    (λ _, EmailLinkRuns.good "a") (λ _, EmailLinkRuns.good "b") OAuthRuns.exchange_start) as (_ & H & _);
    [done|done|by vm_compute|healthy_path|healthy_path|by vm_compute|]. exact H.
Defined.

Lemma pkce_state_verifies_witness :
  let challenge := OAuthRuns.sha "verifier" in
  let s1 := (run (OAuthPkce.createOAuthState challenge None) (λ _, EmailLinkRuns.good "a") OAuthRuns.pkce_start).2 in
  let s2 := (run (OAuthPkce.peekOAuthStateRedirectUri (EmailLinkRuns.code64 "a")) (λ _, EmailLinkRuns.good "b") s1).2 in
  (run (OAuthPkce.consumeOAuthState OAuthRuns.sha (EmailLinkRuns.code64 "a") "verifier")
     (λ _, EmailLinkRuns.good "b") s2).1 = true.
Proof.
  cbv zeta. destruct (pkce_state_verifies (RKV := MemKV.mem_kv) OAuthRuns.sha (OAuthRuns.sha "verifier") None "verifier"
    (λ _, EmailLinkRuns.good "a") (λ _, EmailLinkRuns.good "b") (λ _, EmailLinkRuns.good "b")
    OAuthRuns.pkce_start) as (_ & _ & H & _);
    [by vm_compute|done|by vm_compute|healthy_path|healthy_path|healthy_path|by vm_compute|].
  etransitivity; [exact H|by vm_compute].
Defined.

Lemma redirect_allowlisted_witness :
  ∃ b, OAuthRuns.new_URL "https://app.example" = Some b ∧
       "https://app.example/oauth-callback" = OAuthPkce.origin b +:+ "/oauth-callback".
Proof.
  destruct (redirect_allowlisted OAuthRuns.new_URL ["https://app.example"]
    (Some "https://app.example/oauth-callback/") "https://app.example/oauth-callback")
    as (u & parsed & base & b & _ & _ & [<-|[]] & Hb & _ & Ht & _); [by vm_compute|].
  exists b. split; [exact Hb|exact Ht].
Defined.

Lemma poll_token_lifecycle_witness :
  let s1 := (run (VerificationPoll.createVerificationPollToken "user-1") (λ _, EmailLinkRuns.good "a")
               OAuthRuns.poll_start).2 in
  (run (VerificationPoll.resolveVerificationPollToken (EmailLinkRuns.code64 "a")) (λ _, EmailLinkRuns.good "b") s1).1
    = Some "user-1".
Proof.
  cbv zeta. destruct (poll_token_lifecycle (RKV := MemKV.mem_kv) "user-1" (λ _, EmailLinkRuns.good "a")
    (λ _, EmailLinkRuns.good "b") (λ _, EmailLinkRuns.good "b") (λ _, EmailLinkRuns.good "b")
    OAuthRuns.poll_start) as (_ & H & _); [healthy_path|healthy_path|healthy_path|by vm_compute|].
  etransitivity; [exact H|by vm_compute].
Defined.
