(* ===== verification/JsVal.v ===== *)
(** * JavaScript values and objects

    The values that pass through the database layer of the backend
    ([uam-backend/src/db/]): scalars, dates, regular expressions, arrays and
    plain objects.  An object is the list of its own properties in insertion
    order, which is the order [Object.entries] gives for names that are not
    array indices. *)

From Stdlib Require Import DecimalString.
From S2P Require Import Prelude Json Async.
#[local] Open Scope string_scope.
#[local] Open Scope Z_scope.

Unset Elimination Schemes.
Inductive val :=
  | VUndef
  | VNull
  | VBool (b : bool)
  | VNum (n : Z)
  | VStr (s : string)
  | VDate (ms : Z)
  | VRegExp (source flags : string)
  | VArr (l : list val)
  | VObj (l : list (string * val)).
Set Elimination Schemes.

Section ValInd.
  Context (P : val → Prop).
  Hypothesis Hundef : P VUndef.
  Hypothesis Hnull : P VNull.
  Hypothesis Hbool : ∀ b, P (VBool b).
  Hypothesis Hnum : ∀ n, P (VNum n).
  Hypothesis Hstr : ∀ s, P (VStr s).
  Hypothesis Hdate : ∀ t, P (VDate t).
  Hypothesis Hregexp : ∀ s f, P (VRegExp s f).
  Hypothesis Harr : ∀ l, Forall P l → P (VArr l).
  Hypothesis Hobj : ∀ l, Forall (λ p, P p.2) l → P (VObj l).

Fixpoint val_ind (v : val) : P v :=
    match v with
    | VUndef => Hundef
    | VNull => Hnull
    | VBool b => Hbool b
    | VNum n => Hnum n
    | VStr s => Hstr s
    | VDate t => Hdate t
    | VRegExp s f => Hregexp s f
    | VArr l => Harr l ((fix go l : Forall P l :=
        match l with
        | [] => Forall_nil_2 P
        | x :: l => Forall_cons_2 P x l (val_ind x) (go l)
        end) l)
    | VObj l => Hobj l ((fix go l : Forall (λ p : string * val, P p.2) l :=
        match l with
        | [] => Forall_nil_2 _
        | p :: l => Forall_cons_2 _ p l (val_ind p.2) (go l)
        end) l)
    end.
End ValInd.

(** Objects *)
Abbreviation object := (list (string * val)).

(** [hasOwnProperty] and property reads; a missing property is [undefined]. *)
Fixpoint obj_lookup (o : object) (k : string) : option val :=
  match o with
  | [] => None
  | (k', v) :: o => if String.eqb k' k then Some v else obj_lookup o k
  end.

Definition obj_has (o : object) (k : string) : bool := bool_decide (is_Some (obj_lookup o k)).
Definition obj_get (o : object) (k : string) : val := default VUndef (obj_lookup o k).

(** [o[k] = v]: an existing property keeps its place, a new one comes last. *)
Fixpoint obj_set (o : object) (k : string) (v : val) : object :=
  match o with
  | [] => [(k, v)]
  | (k', v') :: o => if String.eqb k' k then (k, v) :: o else (k', v') :: obj_set o k v
  end.

(** [Object.fromEntries] and [for (const [k, v] of Object.entries(l)) o[k] = v] *)
Definition obj_assign (o l : object) : object := foldl (λ o p, obj_set o p.1 p.2) o l.

Definition obj_keys (o : object) : list string := o.*1.

(** A property read on any value ([None]: a [TypeError], on [undefined] and
    [null]).  Values other than plain objects have none of the properties the
    code asks for. *)
Definition get_prop (v : val) (k : string) : option val :=
  match v with
  | VUndef | VNull => None
  | VObj o => Some (obj_get o k)
  | _ => Some VUndef
  end.

(** [v?.k] *)
Definition opt_prop (v : val) (k : string) : val := default VUndef (get_prop v k).

Definition truthy (v : val) : bool :=
  match v with
  | VUndef | VNull | VBool false => false
  | VNum n => negb (n =? 0)
  | VStr s => negb (String.eqb s "")
  | _ => true
  end.

(** [a === b].  Arrays, objects, dates and regular expressions are compared by
    identity; the code never compares two that could be the same object. *)
Definition strict_eq (a b : val) : bool :=
  match a, b with
  | VUndef, VUndef | VNull, VNull => true
  | VBool x, VBool y => Bool.eqb x y
  | VNum x, VNum y => x =? y
  | VStr x, VStr y => String.eqb x y
  | _, _ => false
  end.

(** [v ?? w] *)
Definition nullish (v w : val) : val := match v with VUndef | VNull => w | _ => v end.

Definition isArray (v : val) : bool := match v with VArr _ => true | _ => false end.

Definition Z_to_string (n : Z) : string := NilZero.string_of_int (Z.to_int n).

(** [l.join(sep)] *)
Fixpoint join (sep : string) (l : list string) : string :=
  match l with
  | [] => ""
  | [x] => x
  | x :: l => x +:+ sep +:+ join sep l
  end.

Section Conversions.
(** The printed form of a date depends on the time zone of the process. *)
Context (Date_toString : Z → string) (Date_toISOString : Z → string).

(** [String(v)], also in template literals *)
Fixpoint to_string (v : val) : string :=
  match v with
  | VUndef => "undefined"
  | VNull => "null"
  | VBool true => "true"
  | VBool false => "false"
  | VNum n => Z_to_string n
  | VStr s => s
  | VDate t => Date_toString t
  | VRegExp s f => "/" +:+ s +:+ "/" +:+ f
  | VArr l => join "," (map (λ x, match x with VUndef | VNull => "" | x => to_string x end) l)
  | VObj _ => "[object Object]"
  end.

(** The JSON value [JSON.stringify] prints; [None] is [undefined]. *)
Fixpoint to_json (v : val) : option json :=
  match v with
  | VUndef => None
  | VNull => Some JNull
  | VBool b => Some (JBool b)
  | VNum n => Some (JNum n)
  | VStr s => Some (JStr s)
  | VDate t => Some (JStr (Date_toISOString t))
  | VRegExp _ _ => Some (JObj [])
  | VArr l => Some (JArr (map (λ x, default JNull (to_json x)) l))
  | VObj l => Some (JObj (omap (λ p, match to_json p.2 with Some j => Some (p.1, j) | None => None end) l))
  end.
End Conversions.

(** What a JSON column holds after it was read back. *)
Fixpoint of_json (j : json) : val :=
  match j with
  | JNull => VNull
  | JBool b => VBool b
  | JNum n => VNum n
  | JStr s => VStr s
  | JArr l => VArr (map of_json l)
  | JObj l => VObj (map (λ p, (p.1, of_json p.2)) l)
  end.

(** ** Laws of objects *)

Lemma obj_lookup_set o k v k' :
  obj_lookup (obj_set o k v) k' = if String.eqb k k' then Some v else obj_lookup o k'.
Proof.
  induction o as [|[q w] o IH]; cbn; [done|].
  destruct (String.eqb_spec q k) as [->|Hqk]; cbn.
  - destruct (String.eqb_spec k k'); done.
  - rewrite IH. destruct (String.eqb_spec q k') as [->|]; [|done].
    destruct (String.eqb_spec k k'); [congruence|done].
Qed.

Lemma obj_get_set o k v k' : obj_get (obj_set o k v) k' = if String.eqb k k' then v else obj_get o k'.
Proof. unfold obj_get. rewrite obj_lookup_set. by destruct (String.eqb k k'). Qed.

Lemma obj_get_set_eq o k v : obj_get (obj_set o k v) k = v.
Proof. by rewrite obj_get_set, String.eqb_refl. Qed.

Lemma obj_get_set_ne o k v k' : k ≠ k' → obj_get (obj_set o k v) k' = obj_get o k'.
Proof. intros H. rewrite obj_get_set. by apply String.eqb_neq in H as ->. Qed.

Lemma strict_eq_str s v : strict_eq v (VStr s) = true ↔ v = VStr s.
Proof.
  destruct v; cbn; try (split; [done|congruence]). rewrite String.eqb_eq. split; [by intros ->|congruence].
Qed.

Lemma obj_has_defined o k : obj_get o k ≠ VUndef → obj_has o k = true.
Proof. unfold obj_has, obj_get. destruct (obj_lookup o k) as [v|]; intros H; [|done]. apply bool_decide_eq_true. eauto. Qed.

Lemma obj_has_set o k v k' : obj_has (obj_set o k v) k' = String.eqb k k' || obj_has o k'.
Proof. unfold obj_has. rewrite obj_lookup_set. destruct (String.eqb k k'); [|done]. by apply bool_decide_eq_true. Qed.

#[export] Hint Rewrite obj_get_set_eq : uam.

(** ** Sequencing with exceptions *)

Definition outcome_bind {A B} (m : outcome A) (k : A → outcome B) : outcome B :=
  match m with
  | Returned a => k a
  | Thrown e => Thrown e
  end.

Notation "'let?' x := m 'in' k" := (outcome_bind m (λ x, k))
  (at level 10, x pattern, m at level 100, k at level 200) : js_scope.

Lemma outcome_bind_returned {A B} (m : outcome A) (k : A → outcome B) b :
  outcome_bind m k = Returned b ↔ ∃ a, m = Returned a ∧ k a = Returned b.
Proof. destruct m; cbn; split; [eauto|by intros (? & [= ->] & ?)|done|by intros (? & ? & ?)]. Qed.

(** ** Objects without duplicate names *)

Lemma obj_set_keys_in o k v x : x ∈ obj_keys (obj_set o k v) → x = k ∨ x ∈ obj_keys o.
Proof.
  unfold obj_keys. induction o as [|[a b] o IH]; cbn; intros Hx.
  - left. by apply list_elem_of_singleton in Hx.
  - destruct (String.eqb_spec a k) as [->|]; cbn in *; apply elem_of_cons in Hx as [->|Hx];
      rewrite ?elem_of_cons; auto. destruct (IH Hx); auto.
Qed.

Lemma obj_set_keys o k v : NoDup (obj_keys o) → NoDup (obj_keys (obj_set o k v)).
Proof.
  induction o as [|[q w] o IH]; cbn; [intros _; by apply NoDup_singleton|]. intros [Hq Ho]%NoDup_cons.
  destruct (String.eqb_spec q k) as [->|Hne]; cbn; apply NoDup_cons; (split; [|by auto]); [done|].
  intros Hin. destruct (obj_set_keys_in o k v q Hin); [congruence|]. by apply Hq.
Qed.

Lemma obj_lookup_none o k : obj_lookup o k = None ↔ k ∉ obj_keys o.
Proof.
  induction o as [|[q w] o IH]; cbn; [split; [intros _; apply not_elem_of_nil|done]|].
  rewrite not_elem_of_cons, <- IH. destruct (String.eqb_spec q k) as [->|]; intuition congruence.
Qed.
