(* ===== verification/Columns.v ===== *)
(** * Columns of the users table

    Models [uam-backend/src/db/columns.ts]: the field/column dictionary and
    the two name translations.  Field names come from the queries the code
    itself writes; names that every JavaScript object inherits (such as
    [constructor]) are not among them. *)

From S2P Require Import Prelude Json Async JsVal.
#[local] Open Scope string_scope.

Definition FIELD_TO_COLUMN : list (string * string) :=
  [("id", "id"); ("email", "email"); ("previousEmail", "previous_email"); ("password", "password");
   ("displayName", "display_name"); ("avatar", "avatar"); ("bio", "bio");
   ("isEmailVerified", "is_email_verified"); ("loginCount", "login_count"); ("lastLogin", "last_login");
   ("emailVerificationToken", "email_verification_token");
   ("emailVerificationExpires", "email_verification_expires");
   ("passwordResetToken", "password_reset_token"); ("passwordResetExpires", "password_reset_expires");
   ("provider", "provider"); ("providerId", "provider_id"); ("refreshTokens", "refresh_tokens");
   ("activeAccessJtis", "active_access_jtis"); ("tokenVersion", "token_version");
   ("migrationExpiry", "migration_expiry"); ("migrationToken", "migration_token");
   ("migrationTokenExpires", "migration_token_expires"); ("newEmailPending", "new_email_pending");
   ("lastMigrationDate", "last_migration_date"); ("currentEmailVerified", "current_email_verified");
   ("newEmailVerified", "new_email_verified"); ("currentEmailToken", "current_email_token");
   ("newEmailToken", "new_email_token"); ("lastMigrationEmailSent", "last_migration_email_sent");
   ("migrationHistory", "migration_history"); ("createdAt", "created_at"); ("updatedAt", "updated_at")].

Fixpoint dict_get (d : list (string * string)) (k : string) : option string :=
  match d with
  | [] => None
  | (k', v) :: d => if String.eqb k' k then Some v else dict_get d k
  end.

Definition COLUMN_TO_FIELD : list (string * string) := map (λ p, (p.2, p.1)) FIELD_TO_COLUMN.

Definition ALL_FIELDS : list string := FIELD_TO_COLUMN.*1.

Definition SENSITIVE_FIELDS : list string := ["password"; "refreshTokens"; "activeAccessJtis"].

Definition JSONB_FIELDS : list string := ["refreshTokens"; "activeAccessJtis"; "migrationHistory"].

(** [set.has(x)] *)
Definition has (l : list string) (x : string) : bool := existsb (String.eqb x) l.

Lemma has_spec l x : has l x = true ↔ x ∈ l.
Proof.
  unfold has. rewrite existsb_exists. split.
  - intros (y & Hy & Heq). apply String.eqb_eq in Heq as ->. by apply list_elem_of_In.
  - intros Hx. exists x. split; [by apply list_elem_of_In|apply String.eqb_refl].
Qed.

Definition columnName (field : string) : outcome string :=
  if String.eqb field "_id" then Returned "id"
  else
    match dict_get FIELD_TO_COLUMN field with
    | Some col => Returned col
    | None => Thrown ("Unknown field: " +:+ field)
    end.

Definition fieldName (column : string) : outcome string :=
  match dict_get COLUMN_TO_FIELD column with
  | Some field => Returned field
  | None => Thrown ("Unknown column: " +:+ column)
  end.

Lemma dict_get_in d k v : dict_get d k = Some v → (k, v) ∈ d.
Proof.
  induction d as [|[k' v'] d IH]; cbn; [done|].
  destruct (String.eqb_spec k' k) as [->|]; intros H; [injection H as ->; left|right; auto].
Qed.

Lemma dict_get_unique d k v : NoDup d.*1 → (k, v) ∈ d → dict_get d k = Some v.
Proof.
  induction d as [|[k' v'] d IH]; cbn; [by intros _ ?%not_elem_of_nil|].
  intros [Hk Hd]%NoDup_cons [[= -> ->]|Hin]%elem_of_cons; [by rewrite String.eqb_refl|].
  destruct (String.eqb_spec k' k) as [->|]; [|auto]. exfalso. apply Hk.
  by apply (list_elem_of_fmap_2 fst _ (k, v)).
Qed.

Lemma fields_nodup : NoDup ALL_FIELDS.
Proof. by apply (bool_decide_unpack _); vm_compute. Qed.

Lemma columns_nodup : NoDup (FIELD_TO_COLUMN.*2).
Proof. by apply (bool_decide_unpack _); vm_compute. Qed.

(** The two dictionaries are inverse to each other. *)
Lemma dict_inverse f c : dict_get FIELD_TO_COLUMN f = Some c ↔ dict_get COLUMN_TO_FIELD c = Some f.
Proof.
  split; intros E; apply dict_get_in in E.
  - apply dict_get_unique; [apply columns_nodup|]. apply list_elem_of_fmap. by exists (f, c).
  - unfold COLUMN_TO_FIELD in E. apply list_elem_of_fmap in E as ([f' c'] & [= -> ->] & E).
    apply dict_get_unique; [apply fields_nodup|done].
Qed.

(** Translating a field to its column and back gives the field, and the other
    way round, so no two fields share a column. *)
Lemma column_field_inverse field column :
  field ≠ "_id" → columnName field = Returned column ↔ fieldName column = Returned field.
Proof.
  intros Hid. unfold columnName, fieldName. rewrite (proj2 (String.eqb_neq _ _) Hid).
  pose proof (dict_inverse field column) as H.
  destruct (dict_get FIELD_TO_COLUMN field), (dict_get COLUMN_TO_FIELD column);
    split; intros [= ->]; f_equal; destruct H as [H1 H2]; try specialize (H1 eq_refl); try specialize (H2 eq_refl);
    congruence.
Qed.
