(* ===== verification/SqlFilter.v ===== *)
(** * The filter compiler

    Models [uam-backend/src/db/filter.ts]: Mongo-style filter objects are
    compiled to the text of a SQL condition with numbered placeholders and the
    array of parameters that go with it.  [buildExpr], [buildOperatorExpr] and
    [buildWhere] produce the very text; [params], which the source mutates, is
    threaded through.  A thrown exception is [Thrown].

    [cond] is the abstract syntax of the conditions the compiler can produce,
    [render] its text.  The theorems show that every text the compiler returns
    is the rendering of a condition whose placeholders are numbered
    consecutively and match the parameters one to one, and that the text does
    not depend on the values a caller puts into a filter. *)

From S2P Require Import Prelude Json Async JsVal Columns.
#[local] Open Scope string_scope.
#[local] Open Scope list_scope.
#[local] Open Scope Z_scope.

Section Filter.
Context (Date_toString Date_toISOString : Z → string).

Definition isPlainObject (v : val) : bool := match v with VObj _ => true | _ => false end.

(** [JSON.stringify(v)] of an array *)
Definition stringify_val (v : val) : val :=
  match to_json Date_toISOString v with Some j => VStr (stringify j) | None => VUndef end.

(** [$${params.length + 1}] *)
Definition placeholder (params : list val) : string := "$" +:+ Z_to_string (Z.of_nat (length params) + 1).

(** [arr.length === 0]; [None] when reading [length] throws. *)
Definition length_is_zero (v : val) : option bool :=
  match v with
  | VUndef | VNull => None
  | VArr l => Some (match l with [] => true | _ => false end)
  | VStr s => Some (String.eqb s "")
  | VObj o => Some (strict_eq (obj_get o "length") (VNum 0))
  | _ => Some false
  end.

(** The clause and the parameters of one operator other than [$not]. *)
Definition operator_clause (col op : string) (operand : val) (params : list val)
    : outcome (string * list val) :=
  let binary sql := Returned ("(" +:+ col +:+ sql +:+ placeholder params +:+ ")", params ++ [operand]) in
  if String.eqb op "$gt" then binary " > "
  else if String.eqb op "$gte" then binary " >= "
  else if String.eqb op "$lt" then binary " < "
  else if String.eqb op "$lte" then binary " <= "
  else if String.eqb op "$ne" then
    match operand with
    | VNull => Returned ("(" +:+ col +:+ " IS NOT NULL)", params)
    | _ => binary " IS DISTINCT FROM "
    end
  else if String.eqb op "$exists" then
    Returned ("(" +:+ col +:+ (if truthy operand then " IS NOT NULL)" else " IS NULL)"), params)
  else if String.eqb op "$in" then
    match length_is_zero operand with
    | None => Thrown "TypeError"
    | Some true => Returned ("(FALSE)", params)
    | Some false => Returned ("(" +:+ col +:+ " = ANY(" +:+ placeholder params +:+ "))", params ++ [operand])
    end
  else if String.eqb op "$nin" then
    match length_is_zero operand with
    | None => Thrown "TypeError"
    | Some true => Returned ("(TRUE)", params)
    | Some false => Returned ("(NOT (" +:+ col +:+ " = ANY(" +:+ placeholder params +:+ ")))", params ++ [operand])
    end
  else if String.eqb op "$regex" then
    let '(pattern, insensitive) :=
      match operand with
      | VRegExp source flags => (source, includes flags "i")
      | _ => (to_string Date_toString operand, false)
      end in
    Returned ("(" +:+ col +:+ (if insensitive then " ~* " else " ~ ") +:+ placeholder params +:+ ")",
              params ++ [VStr pattern])
  else if String.eqb op "$size" then
    Returned ("(jsonb_array_length(" +:+ col +:+ ") = " +:+ to_string Date_toString operand +:+ ")", params)
  else Thrown ("Unsupported operator: " +:+ op).

(** [typeof notOps.$size === 'number'] *)
Definition not_size (notOps : val) : option Z :=
  match opt_prop notOps "$size" with VNum n => Some n | _ => None end.

(** The clause of a value that is not a plain object. *)
Definition scalar_clause (col : string) (isJsonb : bool) (value : val) (params : list val)
    : string * list val :=
  if isArray value then
    if isJsonb then ("(" +:+ col +:+ " @> " +:+ placeholder params +:+ "::jsonb)", params ++ [stringify_val value])
    else ("(" +:+ col +:+ " = " +:+ placeholder params +:+ ")", params ++ [value])
  else if isJsonb then
    ("(" +:+ col +:+ " @> to_jsonb(" +:+ placeholder params +:+ "::text))", params ++ [value])
  else ("(" +:+ col +:+ " = " +:+ placeholder params +:+ ")", params ++ [value]).

(** [buildExpr]; the loop of [buildOperatorExpr] is the inner [ops]. *)
Fixpoint buildExpr (field : string) (value : val) (params : list val) : outcome (string * list val) :=
  let? col := columnName field in
  match value with
  | VObj o =>
      let fix ops (l : object) (params : list val) : outcome (list string * list val) :=
        match l with
        | [] => Returned ([], params)
        | (op, operand) :: l =>
            let? (clause, params) :=
              if String.eqb op "$not" then
                match not_size operand with
                | Some size =>
                    Returned ("(jsonb_array_length(" +:+ col +:+ ") <> " +:+ Z_to_string size +:+ ")", params)
                | None =>
                    let? (inner, params) := buildExpr field operand params in
                    Returned ("(NOT " +:+ inner +:+ ")", params)
                end
              else operator_clause col op operand params in
            let? (clauses, params) := ops l params in
            Returned (clause :: clauses, params)
        end in
      let? (clauses, params) := ops o params in
      Returned ("(" +:+ join " AND " clauses +:+ ")", params)
  | _ => Returned (scalar_clause col (has JSONB_FIELDS field) value params)
  end.

(** [buildOperatorExpr] as the source has it, on its own. *)
Definition buildOperatorExpr (field : string) (ops : object) (params : list val) : outcome (string * list val) :=
  buildExpr field (VObj ops) params.

(** [for (const sub of subFilters)]: what cannot be iterated throws; the
    characters of a string are filters with the unknown field [0]. *)
Definition iterate (v : val) : outcome (list val) :=
  match v with
  | VArr l => Returned l
  | VStr s => if String.eqb s "" then Returned [] else Thrown "Unknown field: 0"
  | _ => Thrown "TypeError"
  end.

(** [buildWhere]; the loop over the entries is the inner [entries].  A filter
    that is no plain object has no entries, or array indices for fields. *)
Fixpoint buildWhere (filter : val) (params : list val) : outcome (string * list val) :=
  match filter with
  | VObj o =>
      let fix entries (l : object) (params : list val) : outcome (list string * list val) :=
        match l with
        | [] => Returned ([], params)
        | (key, value) :: l =>
            let? (cs, params) :=
              if String.eqb key "$or" then
                let fix subs (s : list val) (params : list val) : outcome (list string * list val) :=
                  match s with
                  | [] => Returned ([], params)
                  | sub :: s =>
                      let? (sql, params) := buildWhere sub params in
                      let? (sqls, params) := subs s params in
                      Returned (("(" +:+ sql +:+ ")") :: sqls, params)
                  end in
                match value with
                | VArr s =>
                    let? (orClauses, params) := subs s params in
                    Returned (match orClauses with [] => [] | _ => ["(" +:+ join " OR " orClauses +:+ ")"] end, params)
                | _ => let? _ := iterate value in Returned ([], params)
                end
              else if String.eqb key "$and" then
                let fix subs (s : list val) (params : list val) : outcome (list string * list val) :=
                  match s with
                  | [] => Returned ([], params)
                  | sub :: s =>
                      let? (sql, params) := buildWhere sub params in
                      let? (sqls, params) := subs s params in
                      Returned (if String.eqb sql "" then sqls else ("(" +:+ sql +:+ ")") :: sqls, params)
                  end in
                match value with
                | VArr s => subs s params
                | _ => let? _ := iterate value in Returned ([], params)
                end
              else
                let? (c, params) := buildExpr key value params in
                Returned ([c], params) in
            let? (rest, params) := entries l params in
            Returned (cs ++ rest, params)
        end in
      let? (clauses, params) := entries o params in
      Returned (join " AND " clauses, params)
  | VArr (_ :: _) => Thrown "Unknown field: 0"
  | VStr s => if String.eqb s "" then Returned ("", params) else Thrown "Unknown field: 0"
  | _ => Returned ("", params)
  end.
End Filter.

Definition example_filter : val :=
  VObj [("email", VStr "a@b.c"); ("refreshTokens", VObj [("$not", VObj [("$size", VNum 0)])]);
        ("$or", VArr [VObj [("loginCount", VObj [("$gt", VNum 3); ("$lte", VNum 9)])];
                      VObj [("previousEmail", VObj [("$regex", VRegExp "^a" "i")])]])].

Example buildWhere_example :
  buildWhere (λ _, "") (λ _, "") example_filter [] =
  Returned ("(email = $1) AND ((jsonb_array_length(refresh_tokens) <> 0)) AND ((((login_count > $2) AND (login_count <= $3))) OR (((previous_email ~* $4))))",
            [VStr "a@b.c"; VNum 3; VNum 9; VStr "^a"]).
Proof. vm_compute. reflexivity. Qed.

(** ** The language of the compiled conditions

    [cond_text n s m]: [s] is the text of a condition whose placeholders are
    [$(n+1)], ..., [$m], each once and in this order.  All text between them
    is fixed SQL, a column of the dictionary or a numeral. *)

Definition column (col : string) : Prop := ∃ field, columnName field = Returned col.

Definition hole (n : nat) : string := "$" +:+ Z_to_string (Z.of_nat n + 1).

(** What stands before and after the placeholder in a condition with one. *)
Definition comparisons : list (string * string) :=
  [(" = ", ")"); (" > ", ")"); (" >= ", ")"); (" < ", ")"); (" <= ", ")");
   (" IS DISTINCT FROM ", ")"); (" ~ ", ")"); (" ~* ", ")"); (" @> ", "::jsonb)");
   (" @> to_jsonb(", "::text))"); (" = ANY(", "))")].

Definition paren (s : string) : string := "(" +:+ s +:+ ")".

Inductive cond_text : nat → string → nat → Prop :=
  | CT_compare n col before after :
      column col → (before, after) ∈ comparisons →
      cond_text n ("(" +:+ col +:+ before +:+ hole n +:+ after) (S n)
  | CT_not_in n col : column col →
      cond_text n ("(NOT (" +:+ col +:+ " = ANY(" +:+ hole n +:+ ")))") (S n)
  | CT_null n col test : column col → test ∈ [" IS NOT NULL)"; " IS NULL)"] →
      cond_text n ("(" +:+ col +:+ test) n
  | CT_const n c : c ∈ ["(FALSE)"; "(TRUE)"] → cond_text n c n
  | CT_size n col rel size : column col → rel ∈ [") = "; ") <> "] →
      cond_text n ("(jsonb_array_length(" +:+ col +:+ rel +:+ Z_to_string size +:+ ")") n
  | CT_not n s m : cond_text n s m → cond_text n ("(NOT " +:+ s +:+ ")") m
  | CT_and n cs m : conds n cs m → cond_text n (paren (join " AND " cs)) m
  | CT_or n ss m : wheres n ss m → ss ≠ [] → cond_text n (paren (join " OR " (map paren ss))) m
  | CT_sub n s m : where_text n s m → cond_text n (paren s) m
with conds : nat → list string → nat → Prop :=
  | conds_nil n : conds n [] n
  | conds_cons n c k cs m : cond_text n c k → conds k cs m → conds n (c :: cs) m
with where_text : nat → string → nat → Prop :=
  | WT n cs m : conds n cs m → where_text n (join " AND " cs) m
with wheres : nat → list string → nat → Prop :=
  | wheres_nil n : wheres n [] n
  | wheres_cons n s k ss m : where_text n s k → wheres k ss m → wheres n (s :: ss) m.

Lemma conds_app n cs k ds m : conds n cs k → conds k ds m → conds n (cs ++ ds) m.
Proof. intros H. revert m. induction cs as [|c cs IH] in n, H |- *; intros m Hd; inversion H; subst; [done|]. econstructor; eauto. Qed.

(** Every [$size] operand is a number, as the type of filters says. *)
Fixpoint sizes_numeric (v : val) : bool :=
  match v with
  | VObj l => forallb (λ p, (negb (String.eqb p.1 "$size") || match p.2 with VNum _ => true | _ => false end)
                            && sizes_numeric p.2) l
  | VArr l => forallb sizes_numeric l
  | _ => true
  end.

(** Membership in a list that is written out. *)
Ltac in_list := unfold comparisons; repeat first [left | right].

Section FilterProofs.
Context (Date_toString Date_toISOString : Z → string).
Local Abbreviation expr := (buildExpr Date_toString Date_toISOString).
Local Abbreviation where_ := (buildWhere Date_toString Date_toISOString).

(** The inner loops, as functions of their own. *)
Fixpoint build_ops (field col : string) (l : object) (params : list val) : outcome (list string * list val) :=
  match l with
  | [] => Returned ([], params)
  | (op, operand) :: l =>
      let? (clause, params) :=
        if String.eqb op "$not" then
          match not_size operand with
          | Some size =>
              Returned ("(jsonb_array_length(" +:+ col +:+ ") <> " +:+ Z_to_string size +:+ ")", params)
          | None =>
              let? (inner, params) := expr field operand params in
              Returned ("(NOT " +:+ inner +:+ ")", params)
          end
        else operator_clause Date_toString col op operand params in
      let? (clauses, params) := build_ops field col l params in
      Returned (clause :: clauses, params)
  end.

Lemma buildExpr_obj field o params :
  expr field (VObj o) params =
  let? col := columnName field in
  let? (clauses, params) := build_ops field col o params in
  Returned (paren (join " AND " clauses), params).
Proof.
  cbn [buildExpr]. destruct (columnName field) as [col|e]; [|done]. cbn [outcome_bind].
  f_equal. revert params. induction o as [|[op operand] o IH]; intros params; [done|].
  cbn [build_ops]. destruct (if String.eqb op "$not" then _ else _) as [[c ps]|e]; [|done].
  cbn [outcome_bind]. by rewrite IH.
Qed.

(** What a step of the compiler guarantees. *)
Definition grows (params : list val) (text : nat → nat → Prop) (params' : list val) : Prop :=
  ∃ new, params' = params ++ new ∧ text (length params) (length params').

Lemma grows_id params text : text (length params) (length params) → grows params text params.
Proof. intros H. exists []. by rewrite app_nil_r. Qed.

Lemma grows_push params v text :
  text (length params) (S (length params)) → grows params text (params ++ [v]).
Proof. intros H. exists [v]. rewrite length_app. cbn. by rewrite Nat.add_1_r. Qed.

Lemma grows_mono params params' (t t' : nat → nat → Prop) :
  (∀ n m, t n m → t' n m) → grows params t params' → grows params t' params'.
Proof. intros H (new & -> & Ht). exists new. auto. Qed.

Lemma grows_trans ps qs rs (t u w : nat → nat → Prop) :
  (∀ n k m, t n k → u k m → w n m) → grows ps t qs → grows qs u rs → grows ps w rs.
Proof. intros H (a & -> & Ha) (b & -> & Hb). exists (a ++ b). rewrite app_assoc. eauto. Qed.

Lemma scalar_clause_text col isJsonb v params :
  column col →
  let '(s, params') := scalar_clause Date_toISOString col isJsonb v params in
  grows params (λ n m, cond_text n s m) params'.
Proof.
  intros Hc. unfold scalar_clause, placeholder. repeat case_match; simplify_eq/=; apply grows_push;
    change ("$" +:+ Z_to_string (Z.of_nat (length params) + 1)) with (hole (length params)).
  - apply (CT_compare _ col " @> " "::jsonb)"); [done|]. in_list.
  - apply (CT_compare _ col " = " ")"); [done|]. in_list.
  - apply (CT_compare _ col " @> to_jsonb(" "::text))"); [done|]. in_list.
  - apply (CT_compare _ col " = " ")"); [done|]. in_list.
Qed.

Ltac compare_text before after :=
  apply grows_push;
  match goal with |- cond_text (length ?ps) _ _ =>
    change ("$" +:+ Z_to_string (Z.of_nat (length ps) + 1)) with (hole (length ps))
  end; apply (CT_compare _ _ before after); [done|in_list].

Lemma operator_clause_text col op operand params s params' :
  column col → (op = "$size" → ∃ n, operand = VNum n) →
  operator_clause Date_toString col op operand params = Returned (s, params') →
  grows params (λ n m, cond_text n s m) params'.
Proof.
  intros Hc Hsize. unfold operator_clause, placeholder.
  destruct (String.eqb_spec op "$gt"); [intros [= <- <-]; compare_text " > " ")"|].
  destruct (String.eqb_spec op "$gte"); [intros [= <- <-]; compare_text " >= " ")"|].
  destruct (String.eqb_spec op "$lt"); [intros [= <- <-]; compare_text " < " ")"|].
  destruct (String.eqb_spec op "$lte"); [intros [= <- <-]; compare_text " <= " ")"|].
  destruct (String.eqb_spec op "$ne").
  { destruct operand; intros [= <- <-]; try (compare_text " IS DISTINCT FROM " ")").
    apply grows_id. apply CT_null; [done|in_list]. }
  destruct (String.eqb_spec op "$exists").
  { destruct (truthy operand); intros [= <- <-]; apply grows_id; (apply CT_null; [done|in_list]). }
  destruct (String.eqb_spec op "$in").
  { destruct (length_is_zero operand) as [[]|]; intros [= <- <-].
    - apply grows_id, CT_const. in_list.
    - compare_text " = ANY(" "))". }
  destruct (String.eqb_spec op "$nin").
  { destruct (length_is_zero operand) as [[]|]; intros [= <- <-].
    - apply grows_id, CT_const. in_list.
    - apply grows_push. by apply CT_not_in. }
  destruct (String.eqb_spec op "$regex").
  { destruct operand; try (intros [= <- <-]; compare_text " ~ " ")").
    destruct (includes flags "i"); intros [= <- <-]; [compare_text " ~* " ")"|compare_text " ~ " ")"]. }
  destruct (String.eqb_spec op "$size") as [->|]; [|done].
  destruct (Hsize eq_refl) as [k ->]. intros [= <- <-]. apply grows_id.
  apply (CT_size _ _ ") = "); [done|in_list].
Qed.

(** The compiler of one field. *)
Definition expr_text (v : val) : Prop := ∀ field params s params',
  sizes_numeric v = true → expr field v params = Returned (s, params') →
  grows params (λ n m, cond_text n s m) params'.

Lemma build_ops_text field col o params cs params' :
  column col → Forall (λ p, expr_text p.2) o → sizes_numeric (VObj o) = true →
  build_ops field col o params = Returned (cs, params') →
  grows params (λ n m, conds n cs m) params'.
Proof.
  intros Hc Hall. revert params cs. induction Hall as [|[op operand] o Hx _ IH]; intros params cs Hs.
  - intros [= <- <-]. apply grows_id. constructor.
  - cbn in Hs. apply andb_true_iff in Hs as [[Hop Hsz]%andb_true_iff Hs]. cbn [build_ops].
    intros ([c ps1] & Hc1 & ([cs2 ps2] & Hc2 & [= <- <-])%outcome_bind_returned)%outcome_bind_returned.
    apply (grows_trans _ ps1 _ (λ n m, cond_text n c m) (λ n m, conds n cs2 m)); [econstructor; eauto| |by apply IH].
    destruct (String.eqb_spec op "$not") as [->|Hnot].
    + destruct (not_size operand) as [size|].
      * injection Hc1 as <- <-. apply grows_id. apply (CT_size _ _ ") <> "); [done|in_list].
      * apply outcome_bind_returned in Hc1 as ([inner ps] & Hi & [= <- <-]).
        eapply grows_mono; [|eapply Hx; [exact Hsz|exact Hi]]. intros n m. apply CT_not.
    + eapply operator_clause_text; [exact Hc| |exact Hc1]. intros ->. cbn in Hop.
      destruct operand; try done. eauto.
Qed.

Lemma buildExpr_text v : expr_text v.
Proof.
  induction v as [| | | | | | |l _|l IH] using val_ind; intros field params txt params' Hs.
  1-8: cbn [buildExpr]; intros (col & Hcol & H)%outcome_bind_returned;
    pose proof (scalar_clause_text col (has JSONB_FIELDS field)) as Hsc;
    match type of H with Returned (scalar_clause _ _ _ ?v _) = _ => specialize (Hsc v params) end;
    match type of H with Returned ?p = _ => assert (p = (txt, params')) as E by congruence end;
    rewrite E in Hsc; apply Hsc; by exists field.
  rewrite buildExpr_obj. intros (col & Hcol & ([cs ps] & Hops & [= <- <-])%outcome_bind_returned)%outcome_bind_returned.
  eapply grows_mono; [|eapply build_ops_text; [by exists field|exact IH|exact Hs|exact Hops]].
  intros n m. apply CT_and.
Qed.

(** The loops of [buildWhere]. *)
Fixpoint build_subs (keep_empty : bool) (l : list val) (params : list val) : outcome (list string * list val) :=
  match l with
  | [] => Returned ([], params)
  | sub :: l =>
      let? (sql, params) := where_ sub params in
      let? (sqls, params) := build_subs keep_empty l params in
      Returned (if negb keep_empty && String.eqb sql "" then sqls else paren sql :: sqls, params)
  end.

Definition build_entry (key : string) (value : val) (params : list val) : outcome (list string * list val) :=
  if String.eqb key "$or" then
    match value with
    | VArr s =>
        let? (orClauses, params) := build_subs true s params in
        Returned (match orClauses with [] => [] | _ => [paren (join " OR " orClauses)] end, params)
    | _ => let? _ := iterate value in Returned ([], params)
    end
  else if String.eqb key "$and" then
    match value with
    | VArr s => build_subs false s params
    | _ => let? _ := iterate value in Returned ([], params)
    end
  else
    let? (c, params) := expr key value params in
    Returned ([c], params).

Fixpoint build_entries (l : object) (params : list val) : outcome (list string * list val) :=
  match l with
  | [] => Returned ([], params)
  | (key, value) :: l =>
      let? (cs, params) := build_entry key value params in
      let? (rest, params) := build_entries l params in
      Returned (cs ++ rest, params)
  end.

Lemma buildWhere_obj o params :
  where_ (VObj o) params =
  let? (clauses, params) := build_entries o params in
  Returned (join " AND " clauses, params).
Proof.
  cbn [buildWhere]. f_equal. revert params. induction o as [|[key value] o IH]; intros params; [done|].
  cbn [build_entries]. unfold build_entry.
  assert (Hor : ∀ s ps, (fix subs (s : list val) (params : list val) : outcome (list string * list val) :=
      match s with
      | [] => Returned ([], params)
      | sub :: s =>
          let? (sql, params) := where_ sub params in
          let? (sqls, params) := subs s params in
          Returned (("(" +:+ sql +:+ ")") :: sqls, params)
      end) s ps = build_subs true s ps).
  { induction s as [|v s IHs]; intros ps; [done|]. cbn [build_subs].
    destruct (where_ v ps) as [[t qs]|]; [|done]. cbn [outcome_bind]. by rewrite IHs. }
  assert (Hand : ∀ s ps, (fix subs (s : list val) (params : list val) : outcome (list string * list val) :=
      match s with
      | [] => Returned ([], params)
      | sub :: s =>
          let? (sql, params) := where_ sub params in
          let? (sqls, params) := subs s params in
          Returned (if String.eqb sql "" then sqls else ("(" +:+ sql +:+ ")") :: sqls, params)
      end) s ps = build_subs false s ps).
  { induction s as [|v s IHs]; intros ps; [done|]. cbn [build_subs].
    destruct (where_ v ps) as [[t qs]|]; [|done]. cbn [outcome_bind]. by rewrite IHs. }
  destruct (String.eqb key "$or"); [|destruct (String.eqb key "$and")].
  - destruct value; try (cbn [iterate]; repeat case_match; cbn; rewrite ?IH; done).
    rewrite Hor. destruct (build_subs true l params) as [[t qs]|]; [|done]. cbn [outcome_bind].
    by rewrite IH.
  - destruct value; try (cbn [iterate]; repeat case_match; cbn; rewrite ?IH; done).
    rewrite Hand. destruct (build_subs false l params) as [[t qs]|]; [|done]. cbn [outcome_bind].
    by rewrite IH.
  - destruct (expr key value params) as [[t qs]|]; [|done]. cbn [outcome_bind]. by rewrite IH.
Qed.

Definition where_ok (v : val) : Prop := ∀ params s params',
  sizes_numeric v = true → where_ v params = Returned (s, params') →
  grows params (λ n m, where_text n s m) params'.

Lemma build_subs_or_text l params ss params' :
  Forall where_ok l → forallb sizes_numeric l = true →
  build_subs true l params = Returned (ss, params') →
  grows params (λ n m, ∃ ts, ss = map paren ts ∧ wheres n ts m) params'.
Proof.
  intros Hall. revert params ss. induction Hall as [|v l Hv _ IH]; intros params ss Hs.
  - intros [= <- <-]. apply grows_id. exists []. split; [done|constructor].
  - cbn in Hs. apply andb_true_iff in Hs as [Hs1 Hs2]. cbn [build_subs].
    intros ([t ps1] & H1 & ([ts ps2] & H2 & [= <- <-])%outcome_bind_returned)%outcome_bind_returned.
    eapply grows_trans; [|eapply Hv; [exact Hs1|exact H1]|eapply IH; [exact Hs2|exact H2]].
    intros n k m Ht (us & -> & Hus). exists (t :: us). split; [done|]. eapply wheres_cons; [exact Ht|exact Hus].
Qed.

Lemma cond_text_nonempty n s m : cond_text n s m → s ≠ "".
Proof.
  intros H. destruct H as [| | |n c Hc| | | | | ]; intros E; try discriminate E.
  subst c. repeat (apply elem_of_cons in Hc as [Hc|Hc]; [discriminate Hc|]). by apply not_elem_of_nil in Hc.
Qed.

Lemma where_text_empty n m : where_text n "" m → n = m.
Proof.
  intros H. inversion H as [n' cs m' Hcs E Ht Em]. subst. destruct Hcs as [|n1 c k cs m1 Hc Hcs]; [done|].
  exfalso. apply cond_text_nonempty in Hc. destruct c as [|a c]; [done|]. destruct cs; discriminate Ht.
Qed.

Lemma build_subs_and_text l params ss params' :
  Forall where_ok l → forallb sizes_numeric l = true →
  build_subs false l params = Returned (ss, params') →
  grows params (λ n m, conds n ss m) params'.
Proof.
  intros Hall. revert params ss. induction Hall as [|v l Hv _ IH]; intros params ss Hs.
  - intros [= <- <-]. apply grows_id. constructor.
  - cbn in Hs. apply andb_true_iff in Hs as [Hs1 Hs2]. cbn [build_subs].
    intros ([t ps1] & H1 & ([ts ps2] & H2 & [= <- <-])%outcome_bind_returned)%outcome_bind_returned.
    eapply grows_trans; [|eapply Hv; [exact Hs1|exact H1]|eapply IH; [exact Hs2|exact H2]].
    intros n k m Ht Hts. cbn [negb andb]. destruct (String.eqb_spec t "") as [->|_].
    + apply where_text_empty in Ht as ->. exact Hts.
    + eapply conds_cons; [apply CT_sub; exact Ht|exact Hts].
Qed.

Lemma build_entry_text key value params cs params' :
  where_ok value → (∀ l, value = VArr l → Forall where_ok l) → sizes_numeric value = true →
  build_entry key value params = Returned (cs, params') →
  grows params (λ n m, conds n cs m) params'.
Proof.
  intros Hv Hl Hs. unfold build_entry.
  destruct (String.eqb key "$or"); [|destruct (String.eqb key "$and")].
  - destruct value as [| | | |t| | |l|]; try done.
    + cbn. destruct (String.eqb t ""); [|done]. intros [= <- <-]. apply grows_id. constructor.
    + intros ([ss ps] & H1 & [= <- <-])%outcome_bind_returned.
      eapply grows_mono; [|eapply build_subs_or_text; [by apply Hl|exact Hs|exact H1]].
      intros n m (ts & -> & Hts). destruct ts as [|t ts]; [by inversion Hts; constructor|].
      cbn [map]. eapply conds_cons; [|constructor]. by apply (CT_or n (t :: ts)).
  - destruct value as [| | | |t| | |l|]; try done.
    + cbn. destruct (String.eqb t ""); [|done]. intros [= <- <-]. apply grows_id. constructor.
    + intros H. eapply build_subs_and_text; [by apply Hl|exact Hs|exact H].
  - intros ([c ps] & H1 & [= <- <-])%outcome_bind_returned.
    eapply grows_mono; [|eapply buildExpr_text; [exact Hs|exact H1]].
    intros n m Hc. eapply conds_cons; [exact Hc|constructor].
Qed.

(** Sub-filters inside arrays need the statement one level down. *)
Definition where_ok_deep (v : val) : Prop :=
  where_ok v ∧ ∀ l, v = VArr l → Forall where_ok l.

Lemma build_entries_text o params cs params' :
  Forall (λ p, where_ok_deep p.2) o → sizes_numeric (VObj o) = true →
  build_entries o params = Returned (cs, params') →
  grows params (λ n m, conds n cs m) params'.
Proof.
  intros Hall. revert params cs. induction Hall as [|[k v] o [Hv Hl] _ IH]; intros params cs Hs.
  - intros [= <- <-]. apply grows_id. constructor.
  - cbn in Hs. apply andb_true_iff in Hs as [[_ Hs1]%andb_true_iff Hs2]. cbn [build_entries].
    intros ([c ps1] & H1 & ([cs2 ps2] & H2 & [= <- <-])%outcome_bind_returned)%outcome_bind_returned.
    eapply grows_trans; [|eapply build_entry_text; [exact Hv|exact Hl|exact Hs1|exact H1]|eapply IH; [exact Hs2|exact H2]].
    intros n k' m. apply conds_app.
Qed.

Lemma buildWhere_deep v : where_ok_deep v.
Proof.
  induction v as [| | | | | | |l IH|l IH] using val_ind; (split; [|try done]).
  1-4,6-7: intros params txt params' Hs [= <- <-]; apply grows_id; apply (WT _ []); constructor.
  - intros params txt params' Hs. cbn. destruct (String.eqb s ""); [|done]. intros [= <- <-].
    apply grows_id. apply (WT _ []). constructor.
  - intros params txt params' Hs. destruct l; [|done]. intros [= <- <-].
    apply grows_id. apply (WT _ []). constructor.
  - intros l' [= <-]. eapply Forall_impl; [exact IH|]. by intros v [].
  - intros params txt params' Hs. rewrite buildWhere_obj.
    intros ([cs ps] & H1 & [= <- <-])%outcome_bind_returned.
    eapply grows_mono; [|eapply build_entries_text; [exact IH|exact Hs|exact H1]]. intros n m. apply WT.
Qed.
End FilterProofs.

(** Injection safety and placeholder numbering: whatever values a filter
    carries, a compiled condition consists of fixed SQL text, columns of the
    dictionary, numerals and placeholders; the placeholders are numbered
    consecutively after the parameters already there, and exactly one
    parameter is appended for each, in the same order. *)
Theorem buildWhere_well_formed Date_toString Date_toISOString filter params sql params' :
  sizes_numeric filter = true →
  buildWhere Date_toString Date_toISOString filter params = Returned (sql, params') →
  ∃ new, params' = params ++ new ∧ where_text (length params) sql (length params').
Proof. intros Hs H. exact (proj1 (buildWhere_deep Date_toString Date_toISOString filter) _ _ _ Hs H). Qed.

Lemma buildWhere_well_formed_witness :
  ∃ new, [VStr "a@b.c"; VNum 3; VNum 9; VStr "^a"] = [] ++ new ∧
    where_text 0 "(email = $1) AND ((jsonb_array_length(refresh_tokens) <> 0)) AND ((((login_count > $2) AND (login_count <= $3))) OR (((previous_email ~* $4))))" 4.
Proof.
  apply (buildWhere_well_formed (λ _, "") (λ _, "") example_filter []); [by vm_compute|].
  apply buildWhere_example.
Defined.

(** The one operand that is not parameterised: [$size] is spliced into the
    text, so a string in its place would become SQL.  The hypothesis of the
    theorem above is the type the source gives to this operand. *)
Lemma size_operand_is_spliced Date_toString Date_toISOString text params :
  buildWhere Date_toString Date_toISOString
    (VObj [("refreshTokens", VObj [("$size", VStr text)])]) params =
  Returned ("((jsonb_array_length(refresh_tokens) = " +:+ (text +:+ ")") +:+ ")", params).
Proof. reflexivity. Qed.
