(* ===== verification/SqlMeaning.v ===== *)
(** * What compiled filters mean

    [SqlFilter] models the text the filter compiler prints
    ([uam-backend/src/db/filter.ts]).  This file gives the text a meaning and
    relates it to the filter.  [mclause] is the filter language of the backend
    and its scripts (equality, comparisons, [$ne], [$exists], [$in], [$nin],
    [$regex], [$size], [$not] around [$size], [$or], [$and]); [sql] is the shape of the conditions the compiler prints,
    [sql_text] their text and [sql_eval] their value on a row in SQL's
    three-valued logic ([None] is NULL).  The theorem: the printed condition is
    true of a row exactly when the filter matches it. *)

From S2P Require Import Prelude CircuitConfig Json Async JsVal Columns SqlFilter.
#[local] Open Scope string_scope.
#[local] Open Scope list_scope.

(** ** Filters *)

Inductive mop :=
  | OGt (v : val)
  | OGte (v : val)
  | OLt (v : val)
  | OLte (v : val)
  | ONe (v : val)
  | OExists (b : bool)
  | OIn (l : list val)
  | ONin (l : list val)
  | ORegex (source flags : string)
  | OPattern (pattern : string)
  | OSize (n : Z)
  | ONotSize (n : Z).

Unset Elimination Schemes.
Inductive mclause :=
  | MEq (field : string) (v : val)
  | MOps (field : string) (ops : list mop)
  | MOr (subs : list (list mclause))
  | MAnd (subs : list (list mclause)).
Set Elimination Schemes.

Section ClauseInd.
  Context (P : mclause → Prop).
  Hypothesis Heq : ∀ f v, P (MEq f v).
  Hypothesis Hops : ∀ f ops, P (MOps f ops).
  Hypothesis Hor : ∀ subs, Forall (Forall P) subs → P (MOr subs).
  Hypothesis Hand : ∀ subs, Forall (Forall P) subs → P (MAnd subs).

Fixpoint mclause_ind (c : mclause) : P c :=
    let all := fix all (l : list mclause) : Forall P l :=
      match l with
      | [] => Forall_nil_2 P
      | c :: l => Forall_cons_2 P c l (mclause_ind c) (all l)
      end in
    let alls := fix alls (ls : list (list mclause)) : Forall (Forall P) ls :=
      match ls with
      | [] => Forall_nil_2 _
      | l :: ls => Forall_cons_2 _ l ls (all l) (alls ls)
      end in
    match c with
    | MEq f v => Heq f v
    | MOps f ops => Hops f ops
    | MOr subs => Hor subs (alls subs)
    | MAnd subs => Hand subs (alls subs)
    end.
End ClauseInd.

(** The object literal that is the filter. *)
Definition op_entry (o : mop) : string * val :=
  match o with
  | OGt v => ("$gt", v)
  | OGte v => ("$gte", v)
  | OLt v => ("$lt", v)
  | OLte v => ("$lte", v)
  | ONe v => ("$ne", v)
  | OExists b => ("$exists", VBool b)
  | OIn l => ("$in", VArr l)
  | ONin l => ("$nin", VArr l)
  | ORegex source flags => ("$regex", VRegExp source flags)
  | OPattern pattern => ("$regex", VStr pattern)
  | OSize n => ("$size", VNum n)
  | ONotSize n => ("$not", VObj [("$size", VNum n)])
  end.

Fixpoint entry (c : mclause) : string * val :=
  match c with
  | MEq f v => (f, v)
  | MOps f ops => (f, VObj (map op_entry ops))
  | MOr subs => ("$or", VArr (map (λ s, VObj (map entry s)) subs))
  | MAnd subs => ("$and", VArr (map (λ s, VObj (map entry s)) subs))
  end.

Definition to_filter (f : list mclause) : val := VObj (map entry f).

(** ** Conditions *)

Inductive cmp := CGt | CGe | CLt | CLe | CEq | CDistinct.

Definition cmp_text (op : cmp) : string :=
  match op with
  | CGt => " > " | CGe => " >= " | CLt => " < " | CLe => " <= " | CEq => " = " | CDistinct => " IS DISTINCT FROM "
  end.

(** Parameters are numbered from 0 here and from 1 in the text. *)
Unset Elimination Schemes.
Inductive sql :=
  | SCmp (col : string) (op : cmp) (i : nat)
  | SNull (col : string) (yes : bool)
  | SAny (col : string) (i : nat)
  | SNotAny (col : string) (i : nat)
  | SConst (b : bool)
  | SLength (col : string) (yes : bool) (n : Z)
  | SRegex (col : string) (insensitive : bool) (i : nat)
  | SHas (col : string) (i : nat)
  | SGroup (l : list sql)
  | SOr (l : list (list sql)).
Set Elimination Schemes.

Fixpoint sql_text (c : sql) : string :=
  match c with
  | SCmp col op i => "(" +:+ col +:+ cmp_text op +:+ hole i +:+ ")"
  | SNull col yes => "(" +:+ col +:+ (if yes then " IS NULL)" else " IS NOT NULL)")
  | SAny col i => "(" +:+ col +:+ " = ANY(" +:+ hole i +:+ "))"
  | SNotAny col i => "(NOT (" +:+ col +:+ " = ANY(" +:+ hole i +:+ ")))"
  | SConst b => if b then "(TRUE)" else "(FALSE)"
  | SLength col yes n => "(jsonb_array_length(" +:+ col +:+ (if yes then ") = " else ") <> ") +:+ Z_to_string n +:+ ")"
  | SRegex col insensitive i => "(" +:+ col +:+ (if insensitive then " ~* " else " ~ ") +:+ hole i +:+ ")"
  | SHas col i => "(" +:+ col +:+ " @> to_jsonb(" +:+ hole i +:+ "::text))"
  | SGroup l => paren (join " AND " (map sql_text l))
  | SOr l => paren (join " OR " (map (λ c, paren (join " AND " (map sql_text c))) l))
  end.

Definition where_text_of (l : list sql) : string := join " AND " (map sql_text l).

(** *** Three-valued logic *)

Definition and3 (a b : option bool) : option bool :=
  match a, b with
  | Some false, _ | _, Some false => Some false
  | Some true, Some true => Some true
  | _, _ => None
  end.

Definition or3 (a b : option bool) : option bool :=
  match a, b with
  | Some true, _ | _, Some true => Some true
  | Some false, Some false => Some false
  | _, _ => None
  end.

Definition nonempty {A} (l : list A) : bool := match l with [] => false | _ => true end.

Definition null (v : val) : bool := match v with VUndef | VNull => true | _ => false end.

(** How the database orders texts (its collation) and matches them with a
    pattern, with or without regard to case. *)
Record TextOps := { text_lt : string → string → bool; text_like : bool → string → string → bool }.

Section Meaning.
Context (db : TextOps).

(** Scalars of one type; the code compares columns with values of their type. *)
Definition same (a b : val) : bool :=
  match a, b with
  | VStr x, VStr y => String.eqb x y
  | VNum x, VNum y | VDate x, VDate y => Z.eqb x y
  | VBool x, VBool y => Bool.eqb x y
  | _, _ => false
  end.

Definition less (a b : val) : bool :=
  match a, b with
  | VStr x, VStr y => text_lt db x y
  | VNum x, VNum y | VDate x, VDate y => Z.ltb x y
  | _, _ => false
  end.

Definition compare (op : cmp) (a b : val) : bool :=
  match op with
  | CGt => less b a
  | CGe => less b a || same a b
  | CLt => less a b
  | CLe => less a b || same a b
  | CEq => same a b
  | CDistinct => negb (same a b)
  end.

Definition cmp3 (op : cmp) (a b : val) : option bool :=
  match op with
  | CDistinct =>
      Some (match null a, null b with
            | true, true => false
            | false, false => negb (same a b)
            | _, _ => true
            end)
  | _ => if null a || null b then None else Some (compare op a b)
  end.

(** [a ~ pattern] and [a ~* pattern] *)
Definition like3 (insensitive : bool) (a pattern : val) : option bool :=
  match a, pattern with
  | VStr x, VStr p => Some (text_like db insensitive x p)
  | _, _ => None
  end.

(** [a @> to_jsonb(p::text)]: an array contains the text, or the value is the text. *)
Definition has3 (a p : val) : option bool :=
  match a with
  | VUndef | VNull => None
  | VArr l => Some (existsb (same p) l)
  | _ => Some (same a p)
  end.

(** [a = ANY(l)] for an array of values that are not NULL *)
Definition any3 (a : val) (l : list val) : option bool :=
  match l with
  | [] => Some false
  | _ => if null a then None else Some (existsb (same a) l)
  end.

Definition param_at (params : list val) (i : nat) : val := default VUndef (params !! i).
Definition array_at (params : list val) (i : nat) : list val :=
  match param_at params i with VArr l => l | _ => [] end.

Fixpoint sql_eval (params : list val) (row : object) (c : sql) : option bool :=
  match c with
  | SCmp col op i => cmp3 op (obj_get row col) (param_at params i)
  | SNull col yes => Some (Bool.eqb yes (null (obj_get row col)))
  | SAny col i => any3 (obj_get row col) (array_at params i)
  | SNotAny col i => negb <$> any3 (obj_get row col) (array_at params i)
  | SConst b => Some b
  | SLength col yes n =>
      match obj_get row col with VArr l => Some (Bool.eqb yes (Z.of_nat (length l) =? n)%Z) | _ => None end
  | SRegex col insensitive i => like3 insensitive (obj_get row col) (param_at params i)
  | SHas col i => has3 (obj_get row col) (param_at params i)
  | SGroup l => foldr (λ c acc, and3 (sql_eval params row c) acc) (Some true) l
  | SOr l => foldr (λ c acc, or3 (foldr (λ c acc, and3 (sql_eval params row c) acc) (Some true) c) acc) (Some false) l
  end.

(** A row is selected when the condition is true. *)
Definition selected (params : list val) (row : object) (l : list sql) : bool :=
  match sql_eval params row (SGroup l) with Some true => true | _ => false end.

(** ** What a filter asks for *)

(** [get] reads a field of the document. *)
Context (get : string → val).

Definition op_matches (a : val) (o : mop) : bool :=
  match o with
  | OGt v => negb (null a) && compare CGt a v
  | OGte v => negb (null a) && compare CGe a v
  | OLt v => negb (null a) && compare CLt a v
  | OLte v => negb (null a) && compare CLe a v
  | ONe v => if null v then negb (null a) else negb (same a v)
  | OExists b => Bool.eqb b (negb (null a))
  | OIn l => existsb (same a) l
  | ONin l => negb (existsb (same a) l)
  | ORegex source flags => match a with VStr x => text_like db (includes flags "i") x source | _ => false end
  | OPattern pattern => match a with VStr x => text_like db false x pattern | _ => false end
  | OSize n => match a with VArr l => (Z.of_nat (length l) =? n)%Z | _ => false end
  | ONotSize n => match a with VArr l => negb (Z.of_nat (length l) =? n)%Z | _ => false end
  end.

(** A value matches a field that has it, or whose array contains it. *)
Definition field_matches (a v : val) : bool :=
  match a with VArr l => existsb (same v) l | _ => same a v end.

Fixpoint clause_matches (c : mclause) : bool :=
  match c with
  | MEq f v => field_matches (get f) v
  | MOps f ops => forallb (op_matches (get f)) ops
  | MOr subs => existsb (forallb clause_matches) subs
  | MAnd subs => forallb (forallb clause_matches) subs
  end.

Definition filter_matches (f : list mclause) : bool := forallb clause_matches f.

(** Filters the code writes: known fields, operands that are not NULL (except
    that of [$ne: null]), no empty alternatives; [$nin] only on a field that is
    set; on a JSON array only [$exists], [$size], [$not] of [$size] and a text
    that it should contain. *)
Definition scalar_val (v : val) : bool :=
  match v with VBool _ | VNum _ | VStr _ | VDate _ => true | _ => false end.

Definition plain_field (f : string) : bool :=
  has ALL_FIELDS f && negb (has JSONB_FIELDS f).

Definition array_field (f : string) (a : val) : bool :=
  has JSONB_FIELDS f && match a with VArr _ => true | _ => null a end.

Definition op_ok (f : string) (a : val) (o : mop) : bool :=
  match o with
  | OGt v | OGte v | OLt v | OLte v => plain_field f && scalar_val v
  | ONe v => match v with VNull => true | _ => plain_field f && scalar_val v end
  | OExists _ => true
  | OIn l => plain_field f && forallb scalar_val l
  | ONin l => plain_field f && forallb scalar_val l && (negb (null a) || match l with [] => true | _ => false end)
  | ORegex _ _ | OPattern _ => plain_field f
  | OSize _ | ONotSize _ => array_field f a
  end.

Definition eq_ok (f : string) (a v : val) : bool :=
  (plain_field f && scalar_val v && negb (isArray a)) || (array_field f a && match v with VStr _ => true | _ => false end).

Fixpoint clause_ok (c : mclause) : bool :=
  match c with
  | MEq f v => eq_ok f (get f) v
  | MOps f ops => has ALL_FIELDS f && forallb (op_ok f (get f)) ops && nonempty ops
  | MOr subs | MAnd subs =>
      nonempty subs && forallb (λ s, forallb clause_ok s && nonempty s) subs
  end.
End Meaning.

(** ** Compiling *)

Definition field_col (f : string) : string := default f (dict_get FIELD_TO_COLUMN f).

Definition compile_op (col : string) (o : mop) (params : list val) : sql * list val :=
  let n := length params in
  match o with
  | OGt v => (SCmp col CGt n, params ++ [v])
  | OGte v => (SCmp col CGe n, params ++ [v])
  | OLt v => (SCmp col CLt n, params ++ [v])
  | OLte v => (SCmp col CLe n, params ++ [v])
  | ONe VNull => (SNull col false, params)
  | ONe v => (SCmp col CDistinct n, params ++ [v])
  | OExists b => (SNull col (negb b), params)
  | OIn [] => (SConst false, params)
  | OIn l => (SAny col n, params ++ [VArr l])
  | ONin [] => (SConst true, params)
  | ONin l => (SNotAny col n, params ++ [VArr l])
  | ORegex source flags => (SRegex col (includes flags "i") n, params ++ [VStr source])
  | OPattern pattern => (SRegex col false n, params ++ [VStr pattern])
  | OSize k => (SLength col true k, params)
  | ONotSize k => (SLength col false k, params)
  end.

Definition compile_eq (f : string) (n : nat) : sql :=
  if has JSONB_FIELDS f then SHas (field_col f) n else SCmp (field_col f) CEq n.

Fixpoint compile_ops (col : string) (ops : list mop) (params : list val) : list sql * list val :=
  match ops with
  | [] => ([], params)
  | o :: ops =>
      let '(c, params) := compile_op col o params in
      let '(cs, params) := compile_ops col ops params in (c :: cs, params)
  end.

Fixpoint compile_clause (c : mclause) (params : list val) : list sql * list val :=
  let compile_list := fix compile_list (l : list mclause) (params : list val) : list sql * list val :=
    match l with
    | [] => ([], params)
    | c :: l =>
        let '(cs, params) := compile_clause c params in
        let '(rest, params) := compile_list l params in (cs ++ rest, params)
    end in
  let compile_subs := fix compile_subs (ls : list (list mclause)) (params : list val) : list (list sql) * list val :=
    match ls with
    | [] => ([], params)
    | l :: ls =>
        let '(cs, params) := compile_list l params in
        let '(rest, params) := compile_subs ls params in (cs :: rest, params)
    end in
  match c with
  | MEq f v => ([compile_eq f (length params)], params ++ [v])
  | MOps f ops => let '(cs, params) := compile_ops (field_col f) ops params in ([SGroup cs], params)
  | MOr subs =>
      let '(l, params) := compile_subs subs params in (match l with [] => [] | _ => [SOr l] end, params)
  | MAnd subs => let '(l, params) := compile_subs subs params in (map SGroup l, params)
  end.

Fixpoint compile (l : list mclause) (params : list val) : list sql * list val :=
  match l with
  | [] => ([], params)
  | c :: l =>
      let '(cs, params) := compile_clause c params in
      let '(rest, params) := compile l params in (cs ++ rest, params)
  end.

Fixpoint compile_all (ls : list (list mclause)) (params : list val) : list (list sql) * list val :=
  match ls with
  | [] => ([], params)
  | l :: ls =>
      let '(cs, params) := compile l params in
      let '(rest, params) := compile_all ls params in (cs :: rest, params)
  end.

Lemma compile_clause_subs c params :
  compile_clause c params =
  match c with
  | MEq f v => ([compile_eq f (length params)], params ++ [v])
  | MOps f ops => let '(cs, params) := compile_ops (field_col f) ops params in ([SGroup cs], params)
  | MOr subs =>
      let '(l, params) := compile_all subs params in (match l with [] => [] | _ => [SOr l] end, params)
  | MAnd subs => let '(l, params) := compile_all subs params in (map SGroup l, params)
  end.
Proof.
  destruct c as [f v|f ops|subs|subs]; try done; cbn [compile_clause];
  (match goal with |- (let '(_, _) := ?f subs params in _) = _ =>
     enough (H : ∀ ps, f subs ps = compile_all subs ps) by by rewrite H end);
  (induction subs as [|l subs IH]; intros ps; [done|]); cbn [compile_all];
  (match goal with |- (let '(_, _) := ?g l ps in _) = _ =>
     enough (H : ∀ qs, g l qs = compile l qs) by (rewrite H; destruct (compile l ps); by rewrite IH) end);
  clear IH; (induction l as [|c l IHl]; intros qs; [done|]); cbn [compile];
  destruct (compile_clause c qs); by rewrite IHl.
Qed.

(** ** The compiled text *)

Section Text.
Context (Date_toString Date_toISOString : Z → string).
Local Abbreviation buildExpr := (buildExpr Date_toString Date_toISOString).
Local Abbreviation buildWhere := (buildWhere Date_toString Date_toISOString).
Local Abbreviation build_ops := (build_ops Date_toString Date_toISOString).
Local Abbreviation build_entry := (build_entry Date_toString Date_toISOString).
Local Abbreviation build_entries := (build_entries Date_toString Date_toISOString).
Local Abbreviation build_subs := (build_subs Date_toString Date_toISOString).
Context (get : string → val).

Definition prints {A} (text : A → list string) (out : A * list val) : outcome (list string * list val) :=
  Returned (text out.1, out.2).

Lemma known_field_col f :
  has ALL_FIELDS f = true →
  columnName f = Returned (field_col f) ∧ String.eqb f "$or" = false ∧ String.eqb f "$and" = false.
Proof.
  intros Hf. split_and!.
  2-3: apply String.eqb_neq; intros ->; by vm_compute in Hf.
  apply has_spec in Hf. apply list_elem_of_fmap in Hf as ([f' c] & -> & Hin). unfold columnName, field_col. cbn [fst].
  assert (Hid : String.eqb f' "_id" = false).
  { apply String.eqb_neq. intros ->. assert (H : has ALL_FIELDS "_id" = true); [|by vm_compute in H].
    apply has_spec. by apply (list_elem_of_fmap_2 fst _ ("_id", c)). }
  by rewrite Hid, (dict_get_unique _ _ _ fields_nodup Hin).
Qed.

Lemma array_field_known f a : array_field f a = true → has ALL_FIELDS f = true ∧ has JSONB_FIELDS f = true.
Proof.
  unfold array_field. intros [Hj _]%andb_true_iff. split; [|done].
  assert (H : forallb (has ALL_FIELDS) JSONB_FIELDS = true) by by vm_compute.
  rewrite forallb_forall in H. apply H, list_elem_of_In. by apply has_spec.
Qed.

(** One operator, [$not] included *)
Lemma compile_op_text field col a o params :
  op_ok field a o = true →
  build_ops field col [op_entry o] params =
    Returned ([sql_text (compile_op col o params).1], (compile_op col o params).2).
Proof.
  destruct o as [v|v|v|v|v|b|l|l|src fl|pt|n|n]; cbn; try done; repeat case_match; by simplify_eq/=.
Qed.

Lemma build_ops_cons field col p l params :
  build_ops field col (p :: l) params =
  let? (c, ps) := build_ops field col [p] params in
  let? (cs, qs) := build_ops field col l ps in Returned (c ++ cs, qs).
Proof.
  destruct p as [op operand]. cbn [SqlFilter.build_ops].
  destruct (if String.eqb op "$not" then _ else _) as [[c ps]|e]; [|done]. cbn [outcome_bind].
  by destruct (build_ops field col l ps) as [[cs qs]|e].
Qed.

Lemma compile_ops_text field col a ops params :
  forallb (op_ok field a) ops = true →
  build_ops field col (map op_entry ops) params = prints (map sql_text) (compile_ops col ops params).
Proof.
  revert params. induction ops as [|o ops IH]; intros params; [done|].
  cbn [forallb map compile_ops]. intros [Ho Hops]%andb_true_iff.
  rewrite build_ops_cons, (compile_op_text field col a o params Ho). cbn [outcome_bind].
  destruct (compile_op col o params) as [c ps]. cbn [fst snd]. rewrite (IH _ Hops).
  by destruct (compile_ops col ops ps).
Qed.

(** The statement for a clause, and for the lists of clauses under [$or]. *)
Definition clause_prints (c : mclause) : Prop := ∀ params,
  clause_ok get c = true →
  build_entry (entry c).1 (entry c).2 params = prints (map sql_text) (compile_clause c params).

Lemma entries_print l params :
  Forall clause_prints l → forallb (clause_ok get) l = true →
  build_entries (map entry l) params = prints (map sql_text) (compile l params).
Proof.
  intros Hl. revert params. induction Hl as [|c l Hc _ IH]; intros params; [done|].
  cbn [forallb map SqlFilter.build_entries compile]. intros [Hok Hoks]%andb_true_iff.
  specialize (Hc params Hok). destruct (entry c) as [key v]. cbn [fst snd] in Hc. rewrite Hc. unfold prints at 1.
  cbn [outcome_bind]. destruct (compile_clause c params) as [cs ps]. cbn [fst snd]. rewrite (IH _ Hoks).
  unfold prints. cbn [outcome_bind]. destruct (compile l ps) as [rest qs]. cbn. by rewrite map_app.
Qed.

Lemma join_nonempty sep l : l ≠ [] → Forall (λ s, s ≠ "") l → join sep l ≠ "".
Proof.
  intros Hl H. destruct l as [|x l]; [done|]. apply Forall_cons in H as [Hx _].
  cbn. destruct l; [done|]. destruct x; done.
Qed.

Lemma sql_text_nonempty c : sql_text c ≠ "".
Proof. destruct c as [| [] | | |[]| | | | |]; cbn; done. Qed.

Lemma texts_nonempty l : l ≠ [] → join " AND " (map sql_text l) ≠ "".
Proof.
  intros Hl. apply join_nonempty; [by destruct l|]. apply Forall_forall. intros s Hs.
  apply list_elem_of_fmap in Hs as (c & -> & _). apply sql_text_nonempty.
Qed.

Lemma compile_clause_nonempty c params : clause_ok get c = true → (compile_clause c params).1 ≠ [].
Proof.
  rewrite compile_clause_subs. destruct c as [f v|f ops|subs|subs]; [done| |..].
  - by destruct (compile_ops _ _ _).
  - cbn. destruct subs as [|s subs]; [done|]. intros _. cbn. destruct (compile s params) as [cs ps].
    by destruct (compile_all subs ps).
  - cbn. destruct subs as [|s subs]; [done|]. intros _. cbn. destruct (compile s params) as [cs ps].
    by destruct (compile_all subs ps).
Qed.

Lemma compile_nonempty l params : nonempty l = true → forallb (clause_ok get) l = true → (compile l params).1 ≠ [].
Proof.
  destruct l as [|c l]; [done|]. cbn. intros _ [Hc _]%andb_true_iff.
  pose proof (compile_clause_nonempty c params Hc) as Hne. destruct (compile_clause c params) as [cs ps].
  destruct (compile l ps) as [rest qs]. cbn in *. by destruct cs.
Qed.

(** The alternatives of [$or] and [$and]. *)
Lemma subs_print keep subs params :
  Forall (Forall clause_prints) subs → forallb (λ s, forallb (clause_ok get) s && nonempty s) subs = true →
  build_subs keep (map (λ s, VObj (map entry s)) subs) params =
    prints (map (λ c, paren (join " AND " (map sql_text c)))) (compile_all subs params).
Proof.
  intros Hs. revert params. induction Hs as [|s subs Hl _ IH]; intros params; [done|].
  cbn [forallb map SqlFilter.build_subs compile_all]. intros [[Hok Hne]%andb_true_iff Hoks]%andb_true_iff.
  rewrite buildWhere_obj, (entries_print _ _ Hl Hok). unfold prints at 1. cbn [outcome_bind].
  pose proof (compile_nonempty s params Hne Hok) as Hn. destruct (compile s params) as [cs ps]. cbn [fst snd] in *.
  rewrite (IH _ Hoks). unfold prints. cbn [outcome_bind]. destruct (compile_all subs ps) as [rest qs].
  rewrite (proj2 (String.eqb_neq _ _) (texts_nonempty cs Hn)), andb_false_r. done.
Qed.

Lemma compile_clause_text c : clause_prints c.
Proof.
  induction c as [f v|f ops|subs Hs|subs Hs] using mclause_ind; intros params; rewrite compile_clause_subs; cbn [entry fst snd clause_ok].
  - unfold eq_ok, compile_eq. intros [[[Hf Hv]%andb_true_iff _]%andb_true_iff|[Hf Hv]%andb_true_iff]%orb_true_iff.
    + unfold plain_field in Hf. apply andb_true_iff in Hf as [Hf Hj%negb_true_iff].
      apply known_field_col in Hf as (Hc & Ho & Ha). unfold SqlFilter.build_entry. rewrite Ho, Ha.
      destruct v; try done; cbn [SqlFilter.buildExpr]; rewrite Hc; cbn [outcome_bind]; unfold scalar_clause; rewrite Hj; done.
    + apply array_field_known in Hf as [Hf Hj]. apply known_field_col in Hf as (Hc & Ho & Ha).
      unfold SqlFilter.build_entry. rewrite Ho, Ha.
      destruct v; try done; cbn [SqlFilter.buildExpr]; rewrite Hc; cbn [outcome_bind]; unfold scalar_clause; rewrite Hj; done.
  - intros [[Hf Hops]%andb_true_iff _]%andb_true_iff. apply known_field_col in Hf as (Hc & Ho & Ha).
    unfold SqlFilter.build_entry. rewrite Ho, Ha, buildExpr_obj, Hc. cbn [outcome_bind].
    rewrite (compile_ops_text _ _ _ _ _ Hops). by destruct (compile_ops (field_col f) ops params).
  - intros [Hne Hok]%andb_true_iff. cbn. rewrite (subs_print _ _ _ Hs Hok). unfold prints.
    destruct (compile_all subs params) as [l qs]. cbn [outcome_bind fst snd]. by destruct l.
  - intros [Hne Hok]%andb_true_iff. cbn. rewrite (subs_print _ _ _ Hs Hok). unfold prints.
    destruct (compile_all subs params) as [l qs]. cbn [fst snd]. by rewrite map_map.
Qed.

(** The text of a filter is the text of its conditions. *)
Lemma compile_text f params :
  forallb (clause_ok get) f = true →
  buildWhere (to_filter f) params = Returned (where_text_of (compile f params).1, (compile f params).2).
Proof.
  intros Hok. unfold to_filter. rewrite buildWhere_obj, (entries_print _ _); [done| |done].
  apply Forall_forall. intros c _. apply compile_clause_text.
Qed.
End Text.

(** ** The meaning of the text *)

Lemma and3_true a b : and3 a b = Some true ↔ a = Some true ∧ b = Some true.
Proof. destruct a as [[]|], b as [[]|]; cbn; intuition congruence. Qed.

Lemma or3_true a b : or3 a b = Some true ↔ a = Some true ∨ b = Some true.
Proof. destruct a as [[]|], b as [[]|]; cbn; intuition congruence. Qed.

Section Eval.
Context (db : TextOps) (row : object).
Local Abbreviation eval := (sql_eval db).
Local Abbreviation get := (λ f, obj_get row (field_col f)).
Local Abbreviation true_in params c := (eval params row c = Some true).

Lemma group_true params l : true_in params (SGroup l) ↔ Forall (λ c, true_in params c) l.
Proof.
  cbn. induction l as [|c l IH]; cbn; [by rewrite Forall_nil|]. by rewrite and3_true, Forall_cons, IH.
Qed.

Lemma or_true params l : true_in params (SOr l) ↔ Exists (Forall (λ c, true_in params c)) l.
Proof.
  cbn. induction l as [|c l IH]; cbn; [by rewrite Exists_nil|]. rewrite or3_true, Exists_cons, IH.
  by rewrite <- (group_true params c).
Qed.

(** Compiling appends parameters; the conditions read them wherever the list
    goes on. *)
Definition means (out : list sql * list val) (params : list val) (b : bool) : Prop :=
  (∃ new, out.2 = params ++ new) ∧
  ∀ all, out.2 `prefix_of` all → Forall (λ c, true_in all c) out.1 ↔ b = true.

Lemma param_prefix params v all : params ++ [v] `prefix_of` all → param_at all (length params) = v.
Proof. intros [rest ->]. unfold param_at. rewrite <- app_assoc. cbn [app]. by rewrite list_lookup_middle. Qed.

Lemma cmp3_scalar op a v : scalar_val v = true → op ≠ CDistinct → cmp3 db op a v = if null a then None else Some (compare db op a v).
Proof. intros Hv Hop. unfold cmp3. assert (null v = false) as -> by by destruct v. rewrite orb_false_r. by destruct op. Qed.

Lemma like_means col i pat params :
  means ([SRegex col i (length params)], params ++ [VStr pat]) params
    match obj_get row col with VStr x => text_like db i x pat | _ => false end.
Proof.
  split; [eauto|]. intros all Hall. cbn [fst snd] in *. rewrite Forall_singleton. cbn [sql_eval].
  rewrite (param_prefix _ _ _ Hall). destruct (obj_get row col); try done. cbn. split; [congruence|by intros ->].
Qed.

Lemma length_means col yes n params :
  means ([SLength col yes n], params) params
    match obj_get row col with VArr l => Bool.eqb yes (Z.of_nat (length l) =? n)%Z | _ => false end.
Proof.
  split; [exists []; by rewrite app_nil_r|]. intros all _. cbn [fst]. rewrite Forall_singleton. cbn [sql_eval].
  destruct (obj_get row col); try done. split; [congruence|by intros ->].
Qed.

Lemma compile_op_means f o params :
  op_ok f (get f) o = true →
  means ([(compile_op (field_col f) o params).1], (compile_op (field_col f) o params).2) params
    (op_matches db (get f) o).
Proof.
  intros Ho. cbv beta in *. pose proof (eq_refl (obj_get row (field_col f))) as Ha0.
  set (a := obj_get row (field_col f)) in Ho, Ha0 at 2 |- *. clearbody a.
  assert (Hcmp : ∀ op v, scalar_val v = true → op ≠ CDistinct →
    means ([SCmp (field_col f) op (length params)], params ++ [v]) params (negb (null a) && compare db op a v)).
  { intros op v Hv Hop. split; [eauto|]. intros all Hall. cbn [fst snd] in *. rewrite Forall_singleton. cbn [sql_eval].
    rewrite (param_prefix _ _ _ Hall), (cmp3_scalar op) by done. rewrite ?Ha0. destruct (null a); cbn; [done|].
    by destruct (compare db op a v). }
  assert (Hconst : ∀ c b, (∀ all, true_in all c ↔ b = true) → means ([c], params) params b).
  { intros c b H. split; [exists []; by rewrite app_nil_r|]. intros all _. cbn [fst]. by rewrite Forall_singleton. }
  destruct o as [v|v|v|v|v|b|l|l|src fl|pt|n|n]; cbn [op_ok compile_op op_matches fst snd] in *.
  1-4: apply andb_true_iff in Ho as [_ Ho]; by apply Hcmp.
  - assert (Hd : scalar_val v = true → means ([SCmp (field_col f) CDistinct (length params)], params ++ [v]) params (negb (same a v))).
    { intros Hv. split; [eauto|]. intros all Hall. cbn [fst snd] in *. rewrite Forall_singleton. cbn [sql_eval].
      rewrite (param_prefix _ _ _ Hall). rewrite ?Ha0. unfold cmp3. assert (null v = false) as -> by by destruct v.
      destruct (null a) eqn:Ha; [|by destruct (same a v)]. by destruct a. }
    destruct v; try (apply andb_true_iff in Ho as [_ Ho]; first [done|by apply Hd]). apply Hconst. intros all. cbn [fst sql_eval]. rewrite ?Ha0. destruct (null a); cbn; intuition congruence.
  - apply Hconst. intros all. cbn [fst sql_eval]. rewrite ?Ha0. destruct b, (null a); cbn; intuition congruence.
  - destruct l as [|x l]; [by apply Hconst|]. split; [eauto|]. intros all Hall. cbn [fst snd] in *. rewrite Forall_singleton.
    cbn [sql_eval]. unfold array_at. rewrite (param_prefix _ _ _ Hall). rewrite ?Ha0. unfold any3.
    destruct (null a) eqn:Ha; [|by destruct (existsb (same a) (x :: l))].
    assert (H : existsb (same a) (x :: l) = false); [|by rewrite H]. generalize (x :: l). induction l0 as [|y l0 IH]; [done|].
    cbn. rewrite IH. by destruct a.
  - apply andb_true_iff in Ho as [_ Hn]. destruct l as [|x l]; [by apply Hconst|]. rewrite orb_false_r in Hn.
    apply negb_true_iff in Hn. split; [eauto|]. intros all Hall. cbn [fst snd] in *. rewrite Forall_singleton.
    cbn [sql_eval]. unfold array_at. rewrite (param_prefix _ _ _ Hall). rewrite ?Ha0. unfold any3. rewrite Hn. cbn [fmap option_fmap option_map].
    by destruct (existsb (same a) (x :: l)).
  - rewrite <- Ha0. apply like_means.
  - rewrite <- Ha0. apply like_means.
  - eapply eq_ind; [exact (length_means _ true n params)|rewrite Ha0; destruct a; try done; by destruct (_ =? _)%Z].
  - eapply eq_ind; [exact (length_means _ false n params)|rewrite Ha0; destruct a; try done; by destruct (_ =? _)%Z].
Qed.

(** Two parts one after the other. *)
Lemma means_seq cs ps b ds qs b' params :
  means (cs, ps) params b → means (ds, qs) ps b' → means (cs ++ ds, qs) params (b && b').
Proof.
  intros [[n1 H1] Hc] [[n2 H2] Hd]. cbn [fst snd] in *. split.
  - cbn. exists (n1 ++ n2). by rewrite app_assoc, <- H1.
  - intros all Hall. cbn [fst snd] in *. rewrite Forall_app, (Hd all Hall), Hc, andb_true_iff; [done|].
    etrans; [|exact Hall]. rewrite H2. by eexists.
Qed.

Lemma means_nil params : means ([], params) params true.
Proof. split; [exists []; by rewrite app_nil_r|]. by intros all _. Qed.

Lemma compile_ops_means f ops params :
  forallb (op_ok f (get f)) ops = true →
  means (compile_ops (field_col f) ops params) params (forallb (op_matches db (get f)) ops).
Proof.
  revert params. induction ops as [|o ops IH]; intros params; [intros _; apply means_nil|].
  cbn [forallb compile_ops]. intros [Ho Hops]%andb_true_iff. pose proof (compile_op_means f o params Ho) as H.
  destruct (compile_op (field_col f) o params) as [c ps]. specialize (IH ps Hops).
  destruct (compile_ops (field_col f) ops ps) as [cs qs]. by apply (means_seq [c] ps).
Qed.

Local Abbreviation ok := (clause_ok get).
Local Abbreviation matches_ := (clause_matches db get).

Definition clause_means (c : mclause) : Prop :=
  ∀ params, ok c = true → means (compile_clause c params) params (matches_ c).

Lemma compile_means l params :
  Forall clause_means l → forallb ok l = true → means (compile l params) params (forallb matches_ l).
Proof.
  intros Hl. revert params. induction Hl as [|c l Hc _ IH]; intros params; [intros _; apply means_nil|].
  cbn [forallb compile]. intros [Hok Hoks]%andb_true_iff. specialize (Hc params Hok).
  destruct (compile_clause c params) as [cs ps]. specialize (IH ps Hoks). destruct (compile l ps) as [rest qs].
  by apply means_seq with ps.
Qed.

Lemma compile_all_means subs params :
  Forall (Forall clause_means) subs → forallb (λ s, forallb ok s && nonempty s) subs = true →
  (∃ new, (compile_all subs params).2 = params ++ new) ∧
  ∀ all, (compile_all subs params).2 `prefix_of` all →
    Forall2 (λ cs s, Forall (λ c, true_in all c) cs ↔ forallb matches_ s = true) (compile_all subs params).1 subs.
Proof.
  intros Hs. revert params. induction Hs as [|s subs Hl _ IH]; intros params.
  { intros _. split; [exists []; by rewrite app_nil_r|]. intros all _. constructor. }
  cbn [forallb compile_all]. intros [[Hok _]%andb_true_iff Hoks]%andb_true_iff.
  destruct (compile_means s params Hl Hok) as [[n1 H1] Hm]. destruct (compile s params) as [cs ps]. cbn [fst snd] in *.
  destruct (IH ps Hoks) as [[n2 H2] Hrest]. destruct (compile_all subs ps) as [rest qs]. cbn [fst snd] in *. split.
  - exists (n1 ++ n2). by rewrite app_assoc, <- H1.
  - intros all Hall. constructor; [|by apply Hrest]. apply Hm. etrans; [|exact Hall]. rewrite H2. by eexists.
Qed.

Lemma Forall2_existsb {A B} (P : A → Prop) (g : B → bool) l k :
  Forall2 (λ a b, P a ↔ g b = true) l k → Exists P l ↔ existsb g k = true.
Proof.
  induction 1 as [|a b l k H _ IH]; cbn; [by rewrite Exists_nil|]. by rewrite Exists_cons, orb_true_iff, H, IH.
Qed.

Lemma Forall2_forallb {A B} (P : A → Prop) (g : B → bool) l k :
  Forall2 (λ a b, P a ↔ g b = true) l k → Forall P l ↔ forallb g k = true.
Proof.
  induction 1 as [|a b l k H _ IH]; cbn; [by rewrite Forall_nil|]. by rewrite Forall_cons, andb_true_iff, H, IH.
Qed.

Lemma eq_means f v params all :
  eq_ok f (get f) v = true → params ++ [v] `prefix_of` all →
  true_in all (compile_eq f (length params)) ↔ field_matches (get f) v = true.
Proof.
  intros Hok Hall. unfold eq_ok, compile_eq in *. cbv beta in *. apply orb_true_iff in Hok as
    [[[Hf Hv]%andb_true_iff Hna%negb_true_iff]%andb_true_iff|[Hf Hv]%andb_true_iff].
  - apply andb_true_iff in Hf as [_ ->%negb_true_iff]. cbn [sql_eval].
    rewrite (param_prefix _ _ _ Hall), (cmp3_scalar CEq) by done. cbn [compare].
    destruct (obj_get row (field_col f)); try done; cbn [null field_matches]; destruct (same _ v); intuition congruence.
  - pose proof (proj2 (array_field_known _ _ Hf)) as ->. cbn [sql_eval]. rewrite (param_prefix _ _ _ Hall).
    unfold array_field in Hf. apply andb_true_iff in Hf as [_ Hf].
    destruct (obj_get row (field_col f)); try done. cbn. destruct (existsb _ _); intuition congruence.
Qed.

Lemma compile_clause_means c : clause_means c.
Proof.
  induction c as [f v|f ops|subs Hs|subs Hs] using mclause_ind; intros params; rewrite compile_clause_subs; cbn [clause_ok].
  - intros Hok. split; [eauto|]. intros all Hall. cbn [fst snd clause_matches] in *.
    rewrite Forall_singleton. by apply eq_means.
  - intros [[_ Hops]%andb_true_iff _]%andb_true_iff. destruct (compile_ops_means f ops params Hops) as [Hn Hm].
    destruct (compile_ops (field_col f) ops params) as [cs ps]. split; [done|]. intros all Hall. cbn [fst snd] in *.
    rewrite Forall_singleton, group_true. by apply Hm.
  - intros [Hne Hok]%andb_true_iff. destruct (compile_all_means subs params Hs Hok) as [Hn Hm].
    destruct (compile_all subs params) as [l ps]. cbn [fst snd] in *. split; [done|]. intros all Hall.
    specialize (Hm all Hall). cbn [clause_matches]. rewrite <- (Forall2_existsb _ _ _ _ Hm), <- or_true.
    destruct l; cbn [fst]; [|by rewrite Forall_singleton]. inversion Hm; subst. done.
  - intros [Hne Hok]%andb_true_iff. destruct (compile_all_means subs params Hs Hok) as [Hn Hm].
    destruct (compile_all subs params) as [l ps]. cbn [fst snd] in *. split; [done|]. intros all Hall.
    specialize (Hm all Hall). cbn [fst clause_matches]. rewrite <- (Forall2_forallb _ _ _ _ Hm), Forall_map.
    apply Forall_iff. intros c. apply group_true.
Qed.

(** The conditions select the rows that the filter matches. *)
Lemma compile_selects f :
  forallb ok f = true → selected db (compile f []).2 row (compile f []).1 = forallb matches_ f.
Proof.
  intros Hok. destruct (compile_means f [] ltac:(apply Forall_forall; intros c _; apply compile_clause_means) Hok) as [_ Hm].
  specialize (Hm _ (reflexivity _)). rewrite <- (group_true _ (compile f []).1) in Hm. unfold selected.
  destruct (eval (compile f []).2 row (SGroup (compile f []).1)) as [[]|], (forallb matches_ f); intuition congruence.
Qed.
End Eval.


(** ** A concrete filter *)

(** The account whose verification token matches and has not expired, by one of
    two addresses; with a migration history and a session, and an address with
    a given part. *)
Definition example_clauses : list mclause :=
  [MEq "emailVerificationToken" (VStr "h"); MOps "emailVerificationExpires" [OGt (VDate 5)];
   MOps "migrationHistory" [OExists true; ONotSize 0]; MOps "email" [ORegex "z" "i"]; MEq "refreshTokens" (VStr "t");
   MOr [[MEq "email" (VStr "a@b.c")]; [MOps "previousEmail" [OExists true; ONe (VStr "x")]; MOps "provider" [OIn [VStr "local"]]]]].

Definition example_row : object :=
  [("email_verification_token", VStr "h"); ("email_verification_expires", VDate 9); ("email", VStr "z");
   ("previous_email", VStr "a@b.c"); ("provider", VStr "local"); ("migration_history", VArr [VObj []]);
   ("refresh_tokens", VArr [VStr "s"; VStr "t"])].

Definition example_texts : TextOps := {| text_lt := λ _ _, false; text_like := λ _ x p, includes x p |}.

