(* ===== verification/Password.v ===== *)
(** * Password hashing

    Models [uam-backend/src/utils/password.util.ts].  [bcryptjs] is a
    third-party package and HMAC-SHA256 a primitive of the runtime: they are
    the operations of the class [Crypto], with the documented behaviour the
    code relies on as laws ([CryptoLaws]).  bcrypt reads at most the first 72
    bytes of its input, which the laws state; up to that cut they idealise it
    as free of collisions. *)

From S2P Require Import Prelude CircuitConfig.
#[local] Open Scope string_scope.
#[local] Open Scope Z_scope.

Class Crypto := {
  hmac_sha256_hex : string → string → string;      (** key, message *)
  bcrypt_hash : string → string → string;          (** material, salt *)
  bcrypt_compare : string → string → bool;         (** material, hash *)
}.

Class CryptoLaws `(Crypto) : Prop := {
  hmac_length : ∀ key msg, String.length (hmac_sha256_hex key msg) = 64%nat;
  bcrypt_nonempty : ∀ m salt, bcrypt_hash m salt ≠ "";
  bcrypt_compare_hash : ∀ m m' salt,
    bcrypt_compare m (bcrypt_hash m' salt) = String.eqb (String.substring 0 72 m) (String.substring 0 72 m');
}.

Section Password.
Context `{C : Crypto}.
(** [process.env.PASSWORD_PEPPER] and [process.env.BCRYPT_COST] *)
Context (PASSWORD_PEPPER : option string).

(** The clamped cost factor: 12 unless the variable holds 10 to 15. *)
Definition BCRYPT_COST (env : option string) : Z :=
  let s := match env with Some s => if String.eqb s "" then "12" else s | None => "12" end in
  match parseInt10 s with
  | Fin n => if (10 <=? n) && (n <=? 15) then n else 12
  | _ => 12
  end.

Definition getPepper : string := match PASSWORD_PEPPER with Some p => p | None => "" end.

Definition hasPepper : bool := 0 <? strlen getPepper.

Definition material (password : string) : string :=
  if String.eqb getPepper "" then password else hmac_sha256_hex getPepper password.

(** [salt] is what [bcrypt.genSalt(BCRYPT_COST)] gave. *)
Definition hashPassword (salt password : string) : string := bcrypt_hash (material password) salt.

Record VerifyResult := { pw_match : bool; needsRehash : bool }.

Definition verifyPassword (candidate : string) (storedHash : option string) : VerifyResult :=
  match storedHash with
  | None => {| pw_match := false; needsRehash := false |}
  | Some storedHash =>
      if String.eqb storedHash "" then {| pw_match := false; needsRehash := false |}
      else if bcrypt_compare (material candidate) storedHash then {| pw_match := true; needsRehash := false |}
      else if hasPepper && bcrypt_compare candidate storedHash then {| pw_match := true; needsRehash := true |}
      else {| pw_match := false; needsRehash := false |}
  end.

Context {L : CryptoLaws C}.

Lemma substring_full s n : (String.length s <= n)%nat → String.substring 0 n s = s.
Proof.
  revert n. induction s as [|c s IH]; intros [|n] H; cbn in *; try done; [lia|]. f_equal. apply IH. lia.
Qed.

Lemma hasPepper_spec : hasPepper = negb (String.eqb getPepper "").
Proof. unfold hasPepper, strlen. by destruct getPepper. Qed.

Lemma BCRYPT_COST_bounds env : 10 ≤ BCRYPT_COST env ≤ 15.
Proof. unfold BCRYPT_COST. repeat case_match; breflect; lia. Qed.

Lemma material_short password : getPepper ≠ "" → String.substring 0 72 (material password) = material password.
Proof.
  intros Hp. apply String.eqb_neq in Hp. unfold material. rewrite Hp. apply substring_full.
  rewrite hmac_length. lia.
Qed.

(** What the verifier accepts.  For a hash of the current scheme it
    accepts exactly the passwords with the same material: with a pepper, the
    same HMAC (or, through the fallback for legacy hashes, a candidate that is
    the HMAC itself); without one, the same first 72 bytes.  For a legacy hash
    (made without pepper) of the same password it accepts as well, and asks
    for a new hash whenever a pepper is configured and the material differs;
    what the new hash then answers needs no further rehash. *)
Theorem verifyPassword_spec salt password candidate :
  let verify c h := verifyPassword c (Some h) in
  pw_match (verify candidate (hashPassword salt password)) =
    (if String.eqb getPepper "" then
       String.eqb (String.substring 0 72 candidate) (String.substring 0 72 password)
     else String.eqb (hmac_sha256_hex getPepper candidate) (hmac_sha256_hex getPepper password)
          || String.eqb (String.substring 0 72 candidate) (hmac_sha256_hex getPepper password)) ∧
  verify password (hashPassword salt password) = {| pw_match := true; needsRehash := false |} ∧
  pw_match (verify password (bcrypt_hash password salt)) = true ∧
  needsRehash (verify password (bcrypt_hash password salt)) =
    negb (String.eqb getPepper "")
    && negb (String.eqb (hmac_sha256_hex getPepper password) (String.substring 0 72 password)).
Proof.
  cbv zeta. unfold verifyPassword, hashPassword. rewrite hasPepper_spec.
  rewrite !(proj2 (String.eqb_neq _ _) (bcrypt_nonempty _ _)), !bcrypt_compare_hash, !String.eqb_refl.
  destruct (String.eqb_spec getPepper "") as [Hp|Hp]; cbn [negb andb orb].
  - unfold material. rewrite Hp. cbn. rewrite String.eqb_refl. cbn. split; [by destruct (String.eqb _ _)|done].
  - rewrite !material_short by done. unfold material. apply String.eqb_neq in Hp. rewrite Hp.
    split_and!; try done.
    + destruct (String.eqb (hmac_sha256_hex getPepper candidate) _); cbn [orb]; [done|].
      by destruct (String.eqb (String.substring 0 72 candidate) _).
    + by destruct (String.eqb (hmac_sha256_hex getPepper password) _).
    + by destruct (String.eqb (hmac_sha256_hex getPepper password) _).
Qed.
End Password.

(** A toy instance of the primitives: the laws can hold together. *)
Module ToyCrypto.
(** Pads or cuts to 64 characters. *)
Definition pad64 (s : string) : string :=
  String.substring 0 64 (s +:+ String.string_of_list_ascii (replicate 64 "0"%char)).

#[global] Instance toy : Crypto :=
  {| hmac_sha256_hex := λ key msg, pad64 (msg +:+ key);
     bcrypt_hash := λ m salt, "$" +:+ String.substring 0 72 m;
     bcrypt_compare := λ m h, String.eqb ("$" +:+ String.substring 0 72 m) h |}.

Lemma substring_length s n : (n <= String.length s)%nat → String.length (String.substring 0 n s) = n.
Proof. revert n. induction s as [|c s IH]; intros [|n] H; cbn in *; try lia. rewrite IH; lia. Qed.

#[global] Instance toy_laws : CryptoLaws toy.
Proof.
  split; cbn.
  - intros key msg. unfold pad64. apply substring_length. rewrite !string_length_app. cbn. lia.
  - done.
  - intros m m' _. change (String.eqb ("$" +:+ ?a) ("$" +:+ ?b)) with (String.eqb a b). done.
Qed.
End ToyCrypto.

(** With a pepper: a legacy hash is accepted and marked for rehashing. *)
Lemma verifyPassword_spec_witness :
  pw_match (verifyPassword (Some "pepper") "secret" (Some (bcrypt_hash "secret" "salt"))) = true ∧
  needsRehash (verifyPassword (Some "pepper") "secret" (Some (bcrypt_hash "secret" "salt"))) = true.
Proof.
  destruct (verifyPassword_spec (L := ToyCrypto.toy_laws) (Some "pepper") "salt" "secret" "other")
    as (_ & _ & Hm & Hr).
  split; [exact Hm|]. rewrite Hr. reflexivity.
Defined.
