(* ===== verification/UserModel.v ===== *)
(** * The user model

    Models [uam-backend/src/db/User.ts]: the query builder ([UserQuery]), the
    document class with its proxy-based dirty tracking ([User]), the
    transactional update with the Mongo operators ([applyUpdate]) and the
    translation of unique violations.

    Every database call is a [statement], the structured form of the SQL text
    the source sends ([render] gives that text), together with its parameters.
    PostgreSQL is not part of the repository: it is the class [UsersDb], and
    [UsersDbLaws] states what the code relies on (reads and writes by primary
    key).  Rows are objects keyed by column, documents objects keyed by
    field. *)

From S2P Require Import Prelude CircuitConfig Json Async JsVal Columns SqlFilter Password.
#[local] Open Scope string_scope.
#[local] Open Scope list_scope.
#[local] Open Scope Z_scope.

(** ** Errors *)

(** An error of the [pg] driver. *)
Record PgError := { pe_code : string; pe_detail : option string }.

(** What a model operation can throw: the Mongo-style duplicate key error
    with its [keyPattern]/[keyValue], a driver error, or an [Error]. *)
Inductive failure :=
  | E11000 (field : string) (value : option string)
  | Driver (e : PgError)
  | Err (message : string).

Definition is_word (c : Ascii.ascii) : bool :=
  is_digit c || is_upper c || is_lower c || Ascii.eqb c "_"%char.

(** The longest prefix of characters that satisfy [p], and the rest. *)
Fixpoint span (p : Ascii.ascii → bool) (s : string) : string * string :=
  match s with
  | String c s' => if p c then let '(a, r) := span p s' in (String c a, r) else ("", s)
  | EmptyString => ("", "")
  end.

(** The duplicate-key pattern (a word in parentheses after [Key], then [=] and
    a parenthesised value without closing parenthesis, then [already exists.])
    at the start of [s].  Both groups are followed by a character they do not
    contain, so the longest match is the only one. *)
Definition match_key_here (s : string) : option (string * string) :=
  match strip "Key (" s with
  | None => None
  | Some s =>
      let '(field, s) := span is_word s in
      if String.eqb field "" then None
      else
        match strip ")=(" s with
        | None => None
        | Some s =>
            let '(value, s) := span (λ c, negb (Ascii.eqb c ")"%char)) s in
            match strip ") already exists." s with
            | Some _ => Some (field, value)
            | None => None
            end
        end
  end.

(** [regex.exec(s)]: the leftmost match. *)
Fixpoint match_key (s : string) : option (string * string) :=
  match match_key_here s with
  | Some m => Some m
  | None => match s with String _ s => match_key s | EmptyString => None end
  end.

Definition translateDuplicateKey (err : PgError) : failure :=
  if String.eqb (pe_code err) "23505" then
    match match_key (default "" (pe_detail err)) with
    | Some (field, value) => E11000 field (Some value)
    | None => E11000 "key" None
    end
  else Driver err.

(** ** Statements *)

Inductive statement :=
  | Select (cols : list string) (where_ : string) (order : option (string * string)) (limit : option Z)
  | SelectPage (where_ : string)
  | SelectForUpdate (where_ : string)
  | InsertUser (cols : list string)
  | UpdateById (cols : list string)
  | DeleteById
  | DeleteWhere (where_ : string).

Definition quoted (col : string) : string :=
  String "034"%char (col +:+ String "034"%char "").

(** ["col" = $i] for the columns from the [i]-th parameter on *)
Fixpoint set_list (i : Z) (cols : list string) : list string :=
  match cols with
  | [] => []
  | c :: cols => (quoted c +:+ " = $" +:+ Z_to_string i) :: set_list (i + 1) cols
  end.

Fixpoint holes (i : Z) (cols : list string) : list string :=
  match cols with
  | [] => []
  | _ :: cols => ("$" +:+ Z_to_string i) :: holes (i + 1) cols
  end.

Definition line_break : string := String "010"%char "                     ".

(** The SQL text of a statement. *)
Definition render (st : statement) : string :=
  match st with
  | Select cols where_ order limit =>
      "SELECT " +:+ join ", " (map quoted cols) +:+ " FROM users"
      +:+ (if String.eqb where_ "" then "" else " WHERE " +:+ where_)
      +:+ (match order with Some (col, dir) => " ORDER BY " +:+ col +:+ " " +:+ dir | None => "" end)
      +:+ (match limit with Some n => " LIMIT " +:+ Z_to_string n | None => "" end)
  | SelectPage where_ =>
      "SELECT * FROM users" +:+ (if String.eqb where_ "" then "" else " WHERE " +:+ where_)
      +:+ " ORDER BY id ASC LIMIT 500"
  | SelectForUpdate where_ => "SELECT * FROM users WHERE " +:+ where_ +:+ " FOR UPDATE"
  | InsertUser cols =>
      "INSERT INTO users (" +:+ join ", " (map quoted cols) +:+ ")" +:+ line_break
      +:+ "VALUES (" +:+ join ", " (holes 1 cols) +:+ ")" +:+ line_break +:+ "RETURNING *"
  | UpdateById cols =>
      "UPDATE users SET " +:+ join ", " (set_list 1 cols ++ ["updated_at = NOW()"])
      +:+ " WHERE id = $" +:+ Z_to_string (Z.of_nat (length cols) + 1) +:+ " RETURNING *"
  | DeleteById => "DELETE FROM users WHERE id = $1 RETURNING *"
  | DeleteWhere where_ => "DELETE FROM users WHERE " +:+ where_
  end.

(** ** The database *)

(** [pg st params d]: rows and row count, or an error, and the new state.
    [table] is the content of the users table by primary key. *)
Class UsersDb := {
  db : Type;
  table : db → gmap string object;
  pg : statement → list val → db → (PgError + list object * Z) * db;
}.

Definition jsonb_columns : list string := ["refresh_tokens"; "active_access_jtis"; "migration_history"].

(** What a column holds after it was assigned a parameter: JSON columns parse
    the text. *)
Definition stored (col : string) (v : val) : val :=
  if has jsonb_columns col then
    match v with
    | VStr s => match parse s with Some j => of_json j | None => VNull end
    | _ => v
    end
  else v.

(** The row after [UPDATE ... SET cols = vals, updated_at = NOW()]. *)
Definition write_row (r : object) (cols : list string) (vals : list val) (now : Z) : object :=
  obj_set (foldl (λ r p, obj_set r p.1 (stored p.1 p.2)) r (zip cols vals)) "updated_at" (VDate now).

(** The columns that [cols] selects of a row. *)
Definition project (cols : list string) (r : object) : object := map (λ c, (c, obj_get r c)) cols.

(** Assignments no constraint of the table can reject: JSON arrays to the JSON
    columns, integers to the token version. *)
Definition safe_assignment (p : string * val) : Prop :=
  (p.1 ∈ jsonb_columns ∧ ∃ l, p.2 = VStr (stringify (JArr l))) ∨
  (p.1 = "token_version" ∧ ∃ n, p.2 = VNum n ∧ 0 ≤ n < 2 ^ 31).

(** Assignments that only the uniqueness of (provider, provider_id) can
    reject, besides the safe ones. *)
Definition login_assignment (p : string * val) : Prop :=
  safe_assignment p ∨
  (p.1 = "provider" ∧ p.2 ∈ [VStr "local"; VStr "google"; VStr "github"]) ∨
  (p.1 = "provider_id" ∧ ∃ s, p.2 = VStr s) ∨
  (p.1 = "is_email_verified" ∧ ∃ b, p.2 = VBool b).

(** The row has the provider and provider id that are assigned. *)
Definition same_login (r : object) (cols : list string) (vals : list val) : Prop :=
  ∀ c v, (c, v) ∈ zip cols vals → c ∈ ["provider"; "provider_id"] → obj_get r c = v.

Class UsersDbLaws `(UsersDb) : Prop := {
  pg_select_id : ∀ cols i d,
    (pg (Select cols "(id = $1)" None (Some 1)) [VStr i] d) =
      (inr (match table d !! i with Some r => ([project cols r], 1) | None => ([], 0) end), d);
  pg_lock_id : ∀ i d,
    (pg (SelectForUpdate "(id = $1)") [VStr i] d) =
      (inr (match table d !! i with Some r => ([r], 1) | None => ([], 0) end), d);
  pg_update_id : ∀ cols vals i d r,
    table d !! i = Some r → length cols = length vals → NoDup cols → Forall safe_assignment (zip cols vals) →
    ∃ now d', pg (UpdateById cols) (vals ++ [VStr i]) d = (inr ([write_row r cols vals now], 1), d') ∧
              table d' = <[i := write_row r cols vals now]> (table d);
  pg_link_id : ∀ cols vals i d r,
    table d !! i = Some r → length cols = length vals → NoDup cols → Forall login_assignment (zip cols vals) →
    (∀ j r', j ≠ i → table d !! j = Some r' → ¬ same_login r' cols vals) →
    ∃ now d', pg (UpdateById cols) (vals ++ [VStr i]) d = (inr ([write_row r cols vals now], 1), d') ∧
              table d' = <[i := write_row r cols vals now]> (table d);
  pg_update_missing : ∀ cols vals i d,
    table d !! i = None → length cols = length vals →
    pg (UpdateById cols) (vals ++ [VStr i]) d = (inr ([], 0), d);
  pg_row_id : ∀ i d r, table d !! i = Some r → obj_get r "id" = VStr i ∧ NoDup (obj_keys r);
}.

(** ** Rows and documents *)

(** [values[COLUMN_TO_FIELD_REV[col]] = val] for the known columns *)
Definition rowToValues (row : object) : object :=
  foldl (λ values p, match dict_get COLUMN_TO_FIELD p.1 with
                     | Some field => obj_set values field p.2
                     | None => values
                     end) [] row.

(** [set.add(x)] on a [Set], which keeps insertion order *)
Definition set_add (l : list string) (x : string) : list string := if has l x then l else l ++ [x].

Record User := { _values : object; _modified : list string; _isNew : bool }.

(** [new User(data, { isNew })] *)
Definition new_User (data : object) (isNew : bool) : User :=
  {| _values := foldl (λ o p, match p.2 with VUndef => o | v => obj_set o p.1 v end) [] data;
     _modified := []; _isNew := isNew |}.

(** The proxy: reading and assigning a field. *)
Definition user_get (u : User) (prop : string) : val :=
  if String.eqb prop "_id" then obj_get (_values u) "id" else obj_get (_values u) prop.

Definition user_set (u : User) (prop : string) (v : val) : User :=
  if startsWith prop "_" then u
  else {| _values := obj_set (_values u) prop v; _modified := set_add (_modified u) prop; _isNew := _isNew u |}.

Definition markModified (u : User) (field : string) : User :=
  {| _values := _values u; _modified := set_add (_modified u) field; _isNew := _isNew u |}.

(** ** Queries *)

Record UserQuery := {
  q_filter : val;
  q_projection : option string;
  q_lean : bool;
  q_single : bool;
  q_orderBy : option (string * string);
  q_limit : option Z;
}.

Definition new_UserQuery (filter : val) (single : bool) : UserQuery :=
  {| q_filter := filter; q_projection := None; q_lean := false; q_single := single;
     q_orderBy := None; q_limit := None |}.

Definition select (spec : string) (q : UserQuery) : UserQuery :=
  {| q_filter := q_filter q; q_projection := Some spec; q_lean := q_lean q; q_single := q_single q;
     q_orderBy := q_orderBy q; q_limit := q_limit q |}.

Definition lean (q : UserQuery) : UserQuery :=
  {| q_filter := q_filter q; q_projection := q_projection q; q_lean := true; q_single := q_single q;
     q_orderBy := q_orderBy q; q_limit := q_limit q |}.

(** [s.split(/\s+/).filter(Boolean)] *)
Fixpoint words (s : string) : list string :=
  match s with
  | EmptyString => []
  | String c s' =>
      if is_ws c then words s'
      else match s' with
           | EmptyString => [String c ""]
           | String d _ =>
               if is_ws d then String c "" :: words s'
               else match words s' with
                    | w :: ws => String c w :: ws
                    | [] => [String c ""]
                    end
           end
  end.

(** [spec.trim().match(/^(\S+)(?:\s+(asc|desc))?$/)] *)
Definition sort (spec : string) (q : UserQuery) : UserQuery :=
  let order :=
    match words spec with
    | [field] => Some (field, "asc")
    | [field; dir] => if String.eqb dir "asc" || String.eqb dir "desc" then Some (field, dir) else q_orderBy q
    | _ => q_orderBy q
    end in
  {| q_filter := q_filter q; q_projection := q_projection q; q_lean := q_lean q; q_single := q_single q;
     q_orderBy := order; q_limit := q_limit q |}.

Definition limit (n : Z) (q : UserQuery) : UserQuery :=
  {| q_filter := q_filter q; q_projection := q_projection q; q_lean := q_lean q; q_single := q_single q;
     q_orderBy := q_orderBy q; q_limit := Some n |}.

Definition default_fields : list string := filter (λ f, has SENSITIVE_FIELDS f = false) ALL_FIELDS.

(** [t.slice(1)] *)
Definition tail1 (s : string) : string := match s with String _ s => s | EmptyString => "" end.

Definition resolveFields (q : UserQuery) : list string :=
  match q_projection q with
  | None => default_fields
  | Some projection =>
      if String.eqb projection "" then default_fields
      else
        let tokens := words projection in
        let additive := filter (λ t, startsWith t "+" = true) tokens in
        let inclusion := filter (λ t, startsWith t "+" = false) tokens in
        match inclusion with
        | _ :: _ => foldl set_add [] ("id" :: inclusion)
        | [] => foldl (λ fields t, set_add fields (tail1 t)) default_fields additive
        end
  end.

(** [l.map(columnName)]; the first unknown field throws. *)
Fixpoint columnNames (l : list string) : outcome (list string) :=
  match l with
  | [] => Returned []
  | f :: l => let? c := columnName f in let? cs := columnNames l in Returned (c :: cs)
  end.

(** The document and the set of changed fields. *)
Abbreviation changes := (object * list string)%type.

Section Model.
Context (Date_toString Date_toISOString : Z → string).
Local Abbreviation buildWhere := (buildWhere Date_toString Date_toISOString).

Definition buildSelect (q : UserQuery) : outcome (statement * list val) :=
  let? cols := columnNames (resolveFields q) in
  let? (where_, params) := buildWhere (q_filter q) [] in
  let? order := match q_orderBy q with
                | Some (field, dir) => let? col := columnName field in Returned (Some (col, dir))
                | None => Returned None
                end in
  let lim := match q_limit q with
             | Some n => Some n
             | None => if q_single q then Some 1 else None
             end in
  Returned (Select cols where_ order lim, params).

(** ** Writing documents *)

(** [raw === undefined || raw === null ? '[]' : JSON.stringify(raw)] *)
Definition jsonb_param (raw : val) : val :=
  match raw with
  | VUndef | VNull => VStr "[]"
  | _ => stringify_val Date_toISOString raw
  end.

Section Hashing.
(** [await hashPassword(value)] *)
Context (hashPassword : string → string).

(** The parameter for one field; [hash] says whether passwords are hashed on
    this path. *)
Definition field_param (hash : bool) (field : string) (raw : val) : val :=
  if has JSONB_FIELDS field then jsonb_param raw
  else
    match raw with
    | VStr s => if hash && String.eqb field "password" && (0 <? strlen s) then VStr (hashPassword s) else raw
    | VUndef => VNull
    | _ => raw
    end.

(** The statement and parameters of [_insert]; [uuid] is [crypto.randomUUID()]. *)
Definition insert_statement (uuid : string) (u : User) : outcome (statement * list val) :=
  let values := if truthy (obj_get (_values u) "id") then _values u
                else obj_set (_values u) "id" (VStr uuid) in
  let written := filter (λ p, negb (String.eqb p.1 "createdAt" || String.eqb p.1 "updatedAt") = true) values in
  let? cols := columnNames (obj_keys written) in
  Returned (InsertUser cols, map (λ p, field_param true p.1 p.2) written).

(** The fields [_update] writes. *)
Definition write_fields (u : User) : list string :=
  let loaded := filter (λ f, obj_has (_values u) f = true) JSONB_FIELDS in
  filter (λ f, negb (String.eqb f "id" || String.eqb f "createdAt" || String.eqb f "updatedAt") = true)
    (foldl set_add (_modified u) loaded).

Definition update_statement (u : User) : outcome (statement * list val) :=
  let fields := write_fields u in
  let? cols := columnNames fields in
  Returned (UpdateById cols,
            map (λ f, field_param true f (obj_get (_values u) f)) fields ++ [obj_get (_values u) "id"]).
End Hashing.

(** ** Update documents *)

Record UpdateDoc := {
  u_push : object;
  u_pull : object;
  u_set : object;
  u_unset : list string;
  u_inc : list (string * Z);
}.

Definition empty_update : UpdateDoc :=
  {| u_push := []; u_pull := []; u_set := []; u_unset := []; u_inc := [] |}.

(** [Array.isArray(x) ? [...x] : []] *)
Definition array_of (v : val) : list val := match v with VArr l => l | _ => [] end.

(** [l.slice(k)] for negative [k], [l.slice(0, k)] otherwise *)
Definition slice_spec (k : Z) (l : list val) : list val :=
  if k <? 0 then slice_last (Z.to_nat (- k)) l else take (Z.to_nat k) l.

Definition apply_push (c : changes) (p : string * val) : changes :=
  let '(values, changed) := c in
  let '(field, spec) := p in
  let current := array_of (obj_get values field) in
  let current :=
    match opt_prop spec "$each" with
    | VArr each => current ++ each
    | _ => match spec with VUndef => current | _ => current ++ [spec] end
    end in
  let current :=
    match opt_prop spec "$slice" with
    | VNum k => slice_spec k current
    | _ => current
    end in
  (obj_set values field (VArr current), set_add changed field).

Definition apply_pull (c : changes) (p : string * val) : changes :=
  let '(values, changed) := c in
  let '(field, value) := p in
  let current := array_of (obj_get values field) in
  (obj_set values field (VArr (filter (λ x, strict_eq x value = false) current)), set_add changed field).

Definition apply_set (c : changes) (p : string * val) : changes :=
  (obj_set c.1 p.1 p.2, set_add c.2 p.1).

Definition apply_unset (c : changes) (field : string) : changes :=
  (obj_set c.1 field VUndef, set_add c.2 field).

Definition apply_inc (c : changes) (p : string * Z) : changes :=
  let current := match obj_get c.1 p.1 with VNum n => n | _ => 0 end in
  (obj_set c.1 p.1 (VNum (current + p.2)), set_add c.2 p.1).

(** The read-modify part of [applyUpdate]. *)
Definition apply_operators (update : UpdateDoc) (values : object) : changes :=
  let c := foldl apply_push (values, []) (u_push update) in
  let c := foldl apply_pull c (u_pull update) in
  let c := foldl apply_set c (u_set update) in
  let c := foldl apply_unset c (u_unset update) in
  foldl apply_inc c (u_inc update).

(** The write part: statement and parameters. *)
Definition changed_statement (rowId : val) (c : changes) : outcome (statement * list val) :=
  let fields := filter (λ f, String.eqb f "id" = false) c.2 in
  let? cols := columnNames fields in
  Returned (UpdateById cols,
            map (λ f, field_param (λ s, s) false f (obj_get c.1 f)) fields ++ [rowId]).

(** ** Operations on the database *)

Section Db.
Context `{UDB : UsersDb}.
Context (hashPassword : string → string).

Definition lift_error {A} (m : outcome A) : failure + A :=
  match m with Returned a => inr a | Thrown e => inl (Err e) end.

(** [await query]: the documents, or the plain value objects of [lean()]. *)
Definition execute (q : UserQuery) (d : db) : (failure + list User) * db :=
  match buildSelect q with
  | Thrown e => (inl (Err e), d)
  | Returned (st, params) =>
      match pg st params d with
      | (inl e, d) => (inl (Driver e), d)
      | (inr (rows, _), d) =>
          let rows := if q_single q then take 1 rows else rows in
          (inr (map (λ r, new_User (rowToValues r) false) rows), d)
      end
  end.

(** [await User.findById(id).select(spec)]; [None] is [null]. *)
Definition findById (id : string) (spec : option string) (d : db) : (failure + option User) * db :=
  let q := new_UserQuery (VObj [("id", VStr id)]) true in
  let q := match spec with Some s => select s q | None => q end in
  match execute q d with
  | (inl e, d) => (inl e, d)
  | (inr users, d) => (inr (head users), d)
  end.

(** [await User.findOne(filter).select(spec)] *)
Definition findOne (filter : val) (spec : option string) (d : db) : (failure + option User) * db :=
  let q := new_UserQuery filter true in
  let q := match spec with Some s => select s q | None => q end in
  match execute q d with
  | (inl e, d) => (inl e, d)
  | (inr users, d) => (inr (head users), d)
  end.

(** [user.save()] *)
Definition save (uuid : string) (u : User) (d : db) : (failure + User) * db :=
  match (if _isNew u then insert_statement hashPassword uuid u else update_statement hashPassword u) with
  | Thrown e => (inl (Err e), d)
  | Returned (st, params) =>
      match pg st params d with
      | (inl e, d) => (inl (translateDuplicateKey e), d)
      | (inr (row :: _, _), d) => (inr {| _values := rowToValues row; _modified := []; _isNew := false |}, d)
      | (inr ([], _), d) =>
          if _isNew u then (inl (Err "TypeError"), d)
          else (inr {| _values := _values u; _modified := []; _isNew := false |}, d)
      end
  end.

(** [user.comparePassword(candidate)]: the answer, and the document and
    database after the best-effort migration of a legacy hash. *)
Definition comparePassword (verify : string → option string → VerifyResult) (candidate : string)
    (u : User) (d : db) : bool * User * db :=
  match obj_get (_values u) "password" with
  | VStr stored =>
      if String.eqb stored "" then (false, u, d)
      else
        let r := verify candidate (Some stored) in
        if pw_match r && needsRehash r then
          let u := {| _values := obj_set (_values u) "password" (VStr candidate);
                      _modified := set_add (_modified u) "password"; _isNew := _isNew u |} in
          match save "" u d with
          | (inr u, d) => (true, u, d)
          | (inl _, d) => (true, u, d)
          end
        else (pw_match r, u, d)
  | _ => (false, u, d)
  end.

(** [User.create(data)] *)
Definition create (uuid : string) (data : object) (d : db) : (failure + User) * db :=
  save uuid (new_User data true) d.

(** [applyUpdate], a transaction: a failure rolls back to [d]. *)
Definition applyUpdate (filter : val) (update : UpdateDoc) (d : db) : (failure + option User) * db :=
  match buildWhere filter [] with
  | Thrown e => (inl (Err e), d)
  | Returned (where_, params) =>
      match pg (SelectForUpdate where_) params d with
      | (inl e, _) => (inl (translateDuplicateKey e), d)
      | (inr ([], _), _) => (inr None, d)
      | (inr (row :: _, _), d1) =>
          match changed_statement (obj_get row "id") (apply_operators update (rowToValues row)) with
          | Thrown e => (inl (Err e), d)
          | Returned (st, params) =>
              match pg st params d1 with
              | (inl e, _) => (inl (translateDuplicateKey e), d)
              | (inr ([], _), d2) => (inr None, d2)
              | (inr (updated :: _, _), d2) => (inr (Some (new_User (rowToValues updated) false)), d2)
              end
          end
      end
  end.

Definition findByIdAndUpdate (id : string) (update : UpdateDoc) (d : db) : (failure + option User) * db :=
  applyUpdate (VObj [("id", VStr id)]) update d.

Definition findOneAndUpdate (filter : val) (update : UpdateDoc) (d : db) : (failure + option User) * db :=
  applyUpdate filter update d.

Definition findByIdAndDelete (id : string) (d : db) : (failure + option User) * db :=
  match pg DeleteById [VStr id] d with
  | (inl e, d) => (inl (Driver e), d)
  | (inr (row :: _, _), d) => (inr (Some (new_User (rowToValues row) false)), d)
  | (inr ([], _), d) => (inr None, d)
  end.

Definition deleteMany (filter : val) (d : db) : (failure + Z) * db :=
  match buildWhere filter [] with
  | Thrown e => (inl (Err e), d)
  | Returned (where_, params) =>
      match pg (DeleteWhere where_) params d with
      | (inl e, d) => (inl (Driver e), d)
      | (inr (_, count), d) => (inr count, d)
      end
  end.

Definition deleteOne (filter : val) (d : db) : (failure + Z) * db := deleteMany filter d.
End Db.
End Model.

(** ** Rows, documents and their fields *)

#[local] Arguments dict_get : simpl never.
#[local] Arguments COLUMN_TO_FIELD : simpl never.
#[local] Arguments FIELD_TO_COLUMN : simpl never.
#[local] Arguments ALL_FIELDS : simpl never.

Lemma has_false l x : has l x = false ↔ x ∉ l.
Proof. rewrite <- has_spec. by destruct (has l x). Qed.

(** The column of a field, as a total function. *)
Definition col_of (f : string) : string := default f (dict_get FIELD_TO_COLUMN f).

Lemma dict_col f c : f ∈ ALL_FIELDS → (dict_get COLUMN_TO_FIELD c = Some f ↔ c = col_of f).
Proof.
  intros Hf. assert (Hd : ∃ c0, dict_get FIELD_TO_COLUMN f = Some c0).
  { apply list_elem_of_fmap in Hf as ([f' c0] & -> & Hin). exists c0. apply dict_get_unique; [|done].
    apply fields_nodup. }
  destruct Hd as [c0 Hc0]. rewrite <- dict_inverse. unfold col_of. rewrite Hc0.
  change (default f (Some c0)) with c0. split; congruence.
Qed.

Lemma rowToValues_lookup row f :
  NoDup (obj_keys row) → f ∈ ALL_FIELDS → obj_lookup (rowToValues row) f = obj_lookup row (col_of f).
Proof.
  intros Hnd Hf. unfold rowToValues.
  assert (H : ∀ acc, obj_lookup (foldl (λ values p, match dict_get COLUMN_TO_FIELD p.1 with
                     | Some field => obj_set values field p.2 | None => values end) acc row) f =
    match obj_lookup row (col_of f) with Some v => Some v | None => obj_lookup acc f end);
    [|rewrite H; by destruct (obj_lookup row (col_of f))].
  induction row as [|[c v] row IH]; intros acc; [done|]. cbn in Hnd. apply NoDup_cons in Hnd as [Hc Hnd].
  cbn [foldl]. rewrite (IH Hnd). cbn [fst snd obj_lookup].
  destruct (String.eqb_spec c (col_of f)) as [->|Hne].
  - apply obj_lookup_none in Hc. rewrite Hc. rewrite (proj2 (dict_col f (col_of f) Hf) eq_refl).
    by rewrite obj_lookup_set, String.eqb_refl.
  - destruct (obj_lookup row (col_of f)); [done|].
    destruct (dict_get COLUMN_TO_FIELD c) as [f'|] eqn:E; [|done]. rewrite obj_lookup_set.
    destruct (String.eqb_spec f' f) as [->|]; [|done]. exfalso. apply Hne. by apply dict_col.
Qed.

Lemma rowToValues_nodup row : NoDup (obj_keys (rowToValues row)).
Proof.
  unfold rowToValues. assert (H : ∀ acc, NoDup (obj_keys acc) → NoDup (obj_keys (foldl (λ values p,
    match dict_get COLUMN_TO_FIELD p.1 with Some field => obj_set values field p.2 | None => values end) acc row)));
    [|apply H; constructor].
  induction row as [|[c v] row IH]; intros acc Ha; [done|]. cbn. apply IH.
  destruct (dict_get COLUMN_TO_FIELD c); [by apply obj_set_keys|done].
Qed.

Lemma new_User_get data isNew f :
  NoDup (obj_keys data) → obj_get (_values (new_User data isNew)) f = obj_get data f.
Proof.
  intros Hnd. unfold obj_get. cbn.
  assert (H : ∀ acc, obj_lookup acc f = None →
    default VUndef (obj_lookup (foldl (λ o p, match p.2 with VUndef => o | v => obj_set o p.1 v end) acc data) f) =
    default VUndef (obj_lookup data f)); [|by apply H].
  assert (Hkeep : ∀ l acc, f ∉ obj_keys l →
    obj_lookup (foldl (λ o p, match p.2 with VUndef => o | v => obj_set o p.1 v end) acc l) f = obj_lookup acc f).
  { clear. induction l as [|[k v] l IH]; intros acc Hf; [done|]. cbn in Hf.
    apply not_elem_of_cons in Hf as [Hk Hl]. cbn. rewrite (IH _ Hl). destruct v; try done;
      cbn; rewrite obj_lookup_set; (destruct (String.eqb_spec k f); [congruence|done]). }
  induction data as [|[k v] data IH]; intros acc Ha; cbn; [by rewrite Ha|].
  cbn in Hnd. apply NoDup_cons in Hnd as [Hk Hnd]. destruct (String.eqb_spec k f) as [->|Hne].
  - cbn. rewrite Hkeep by done. destruct v; cbn; rewrite ?obj_lookup_set, ?String.eqb_refl; [|done..].
    by rewrite Ha.
  - apply (IH Hnd). destruct v; try done; rewrite obj_lookup_set;
      (destruct (String.eqb_spec k f); [congruence|done]).
Qed.

(** Documents hold no [undefined]. *)
Lemma new_User_has data isNew f :
  NoDup (obj_keys data) → obj_get data f = VUndef → obj_has (_values (new_User data isNew)) f = false.
Proof.
  intros Hnd Hf. rewrite <- (new_User_get data isNew f Hnd) in Hf. unfold obj_has, obj_get in *.
  apply bool_decide_eq_false. intros [v Hv]. rewrite Hv in Hf. cbn in Hf. subst v. revert Hv. cbn. clear.
  assert (H : ∀ acc, obj_lookup acc f ≠ Some VUndef →
    obj_lookup (foldl (λ o p, match p.2 with VUndef => o | v => obj_set o p.1 v end) acc data) f ≠ Some VUndef);
    [|by apply H].
  induction data as [|[k v] data IH]; intros acc Ha; [done|]. cbn. apply IH.
  destruct v; try done; cbn; rewrite obj_lookup_set; by destruct (String.eqb k f).
Qed.

Lemma obj_lookup_project cols r c : obj_lookup (project cols r) c = if has cols c then Some (obj_get r c) else None.
Proof.
  induction cols as [|c' cols IH]; [done|]. cbn. rewrite (String.eqb_sym c c').
  destruct (String.eqb_spec c' c) as [->|]; [done|]. apply IH.
Qed.

Lemma project_keys cols r : obj_keys (project cols r) = cols.
Proof. unfold obj_keys, project. rewrite <- list_fmap_compose. apply list_fmap_id. Qed.

(** A document made from selected columns has the field when its column was
    selected, and reads [undefined] otherwise. *)
Lemma document_get cols r f :
  NoDup cols → f ∈ ALL_FIELDS →
  obj_get (_values (new_User (rowToValues (project cols r)) false)) f =
  if has cols (col_of f) then obj_get r (col_of f) else VUndef.
Proof.
  intros Hnd Hf. rewrite new_User_get by apply rowToValues_nodup. unfold obj_get at 1.
  rewrite rowToValues_lookup by (rewrite ?project_keys; done). rewrite obj_lookup_project.
  by destruct (has cols (col_of f)).
Qed.

(** ** Projections *)

Lemma set_add_elem l x y : y ∈ set_add l x ↔ y ∈ l ∨ y = x.
Proof.
  unfold set_add. destruct (has l x) eqn:E.
  - apply has_spec in E. split; [auto|]. by intros [?| ->].
  - rewrite elem_of_app, list_elem_of_singleton. done.
Qed.

Lemma fold_set_add_elem {A} (g : A → string) l xs y :
  y ∈ foldl (λ fields t, set_add fields (g t)) l xs ↔ y ∈ l ∨ ∃ x, x ∈ xs ∧ y = g x.
Proof.
  revert l. induction xs as [|x xs IH]; intros l; cbn.
  - split; [auto|]. intros [?|(x & Hx & _)]; [done|by apply not_elem_of_nil in Hx].
  - rewrite IH, set_add_elem. split.
    + intros [[?|?]|(z & Hz & ?)]; [auto|right; exists x; split; [left|done]|right; exists z; split; [by right|done]].
    + intros [?|(z & [->|Hz]%elem_of_cons & ?)]; [auto|left; by right|right; eauto].
Qed.

(** A field is selected by default, or the projection names it. *)
Lemma resolveFields_named q f :
  f ∈ resolveFields q → f ∉ default_fields → f ≠ "id" →
  ∃ spec token, q_projection q = Some spec ∧ token ∈ words spec ∧ (token = f ∨ token = "+" +:+ f).
Proof.
  unfold resolveFields. intros Hf Hd Hid. destruct (q_projection q) as [spec|]; [|done].
  destruct (String.eqb spec ""); [done|]. exists spec.
  set (additive := filter (λ t, startsWith t "+" = true) (words spec)) in *.
  set (inclusion := filter (λ t, startsWith t "+" = false) (words spec)) in *.
  destruct inclusion as [|w ws] eqn:Ei.
  - apply fold_set_add_elem in Hf as [?|(t & Ht & ->)]; [done|]. exists t.
    apply list_elem_of_filter in Ht as [Hp Ht]. split; [done|]. split; [done|]. right.
    destruct t as [|c t]; [done|]. by destruct c as [[] [] [] [] [] [] [] []].
  - change (foldl set_add [] ("id" :: w :: ws)) with (foldl (λ fields t, set_add fields (id t)) [] ("id" :: w :: ws)) in Hf.
    apply fold_set_add_elem in Hf as [Hf|(t & Ht & ->)]; [by apply not_elem_of_nil in Hf|].
    apply elem_of_cons in Ht as [->|Ht]; [done|]. rewrite <- Ei in Ht. exists t.
    apply list_elem_of_filter in Ht as [_ Ht]. auto.
Qed.

Lemma columnNames_elem fields cols c :
  columnNames fields = Returned cols → c ∈ cols → ∃ f, f ∈ fields ∧ columnName f = Returned c.
Proof.
  revert cols. induction fields as [|f fields IH]; intros cols; cbn.
  - intros [= <-] Hc. by apply not_elem_of_nil in Hc.
  - intros (c0 & Hc0 & (cs & Hcs & [= <-])%outcome_bind_returned)%outcome_bind_returned Hc.
    apply elem_of_cons in Hc as [->|Hc]; [exists f; split; [left|done]|].
    destruct (IH _ Hcs Hc) as (g & Hg & Hgc). exists g. split; [by right|done].
Qed.

(** A field whose column is not in the row is not in the document. *)
Lemma document_absent row f :
  f ∈ ALL_FIELDS → col_of f ∉ obj_keys row → obj_get (_values (new_User (rowToValues row) false)) f = VUndef.
Proof.
  intros Hf Hc. rewrite new_User_get by apply rowToValues_nodup. unfold obj_get.
  assert (H : obj_lookup (rowToValues row) f = None); [|by rewrite H].
  unfold rowToValues. assert (Hg : ∀ acc, obj_lookup acc f = None → obj_lookup (foldl (λ values p,
    match dict_get COLUMN_TO_FIELD p.1 with Some field => obj_set values field p.2 | None => values end) acc row) f = None);
    [|by apply Hg].
  induction row as [|[c v] row IH]; intros acc Ha; [done|]. cbn in Hc. apply not_elem_of_cons in Hc as [Hne Hc].
  cbn. apply (IH Hc). destruct (dict_get COLUMN_TO_FIELD c) as [g|] eqn:E; [|done]. cbn in E |- *.
  rewrite obj_lookup_set. destruct (String.eqb_spec g f) as [->|]; [|done]. exfalso. apply Hne.
  symmetry. by apply dict_col.
Qed.

Section DbFacts.
Context (Date_toString Date_toISOString : Z → string).
Context `{UDB : UsersDb} {DL : UsersDbLaws UDB}.
Local Abbreviation findById := (findById Date_toString Date_toISOString).

(** [findById] reads the projected row. *)
Lemma findById_spec i spec d :
  let q := new_UserQuery (VObj [("id", VStr i)]) true in
  let q := match spec with Some s => select s q | None => q end in
  findById i spec d =
  match columnNames (resolveFields q) with
  | Thrown e => (inl (Err e), d)
  | Returned cols =>
      (inr (match table d !! i with
            | Some r => Some (new_User (rowToValues (project cols r)) false)
            | None => None
            end), d)
  end.
Proof.
  cbv zeta. unfold findById, execute, buildSelect.
  assert (Hq : ∀ q, q = match spec with
      | Some s => select s (new_UserQuery (VObj [("id", VStr i)]) true)
      | None => new_UserQuery (VObj [("id", VStr i)]) true end →
      q_filter q = VObj [("id", VStr i)] ∧ q_orderBy q = None ∧ q_limit q = None ∧ q_single q = true)
    by (intros q ->; by destruct spec).
  set (q := match spec with Some s => _ | None => _ end). destruct (Hq q eq_refl) as (-> & -> & -> & ->).
  destruct (columnNames (resolveFields q)) as [cols|e]; [|done].
  change (buildWhere Date_toString Date_toISOString (VObj [("id", VStr i)]) []) with
    (Returned ("(id = $1)", [VStr i]) : outcome (string * list val)).
  cbn [outcome_bind]. rewrite pg_select_id. by destruct (table d !! i).
Qed.

(** Sensitive fields: a document loaded by id carries the password hash,
    the refresh tokens or the access-token ids only if the query named the
    field; otherwise the field reads [undefined], whatever the row holds. *)
Theorem sensitive_fields_unloaded i spec f d u d' :
  f ∈ SENSITIVE_FIELDS →
  (∀ s token, spec = Some s → token ∈ words s → token ≠ f ∧ token ≠ ("+" +:+ f)) →
  findById i spec d = (inr (Some u), d') → user_get u f = VUndef.
Proof.
  intros Hf Hspec. rewrite findById_spec.
  set (q := match spec with Some s => _ | None => _ end).
  destruct (columnNames (resolveFields q)) as [cols|e] eqn:Hcols; [|done].
  destruct (table d !! i) as [r|]; [|done]. intros [= <- _].
  assert (Hall : f ∈ ALL_FIELDS ∧ (f ∉ default_fields) ∧ f ≠ "id" ∧ f ≠ "_id" ∧ (col_of f ≠ "id")).
  { apply has_spec in Hf. unfold has, SENSITIVE_FIELDS in Hf. cbn [existsb] in Hf.
    rewrite !orb_true_iff, !String.eqb_eq in Hf.
    destruct Hf as [->|[->|[->|?]]]; [..|done]; (split; [apply has_spec; by vm_compute|]);
      (split; [apply has_false; by vm_compute|]); split_and!; vm_compute; congruence. }
  destruct Hall as (Hin & Hnd & Hid & Hid' & Hcol). unfold user_get.
  rewrite (proj2 (String.eqb_neq _ _) Hid'). apply document_absent; [done|]. rewrite project_keys. intros Hc.
  destruct (columnNames_elem _ _ _ Hcols Hc) as (g & Hg & Hgc).
  assert (g = f) as ->.
  { unfold columnName in Hgc. destruct (String.eqb g "_id"); [congruence|].
    destruct (dict_get FIELD_TO_COLUMN g) as [c|] eqn:E; [|done]. injection Hgc as ->.
    pose proof (proj1 (dict_inverse _ _) E) as E1. pose proof (proj2 (dict_col f _ Hin) eq_refl) as E2. congruence. }
  destruct (resolveFields_named q f Hg Hnd Hid) as (s & token & Hq & Ht & Hor).
  destruct spec as [s'|]; [|done]. cbn in Hq. injection Hq as ->.
  destruct (Hspec s token eq_refl Ht). destruct Hor; congruence.
Qed.

(** An assignment the table accepts, as the update path produces it. *)
Definition jsonb_change (c : changes) (f : string) : Prop :=
  f ∈ JSONB_FIELDS ∧ ∃ l, obj_get c.1 f = VArr l.

Lemma columnNames_fields fields :
  Forall (λ f, f ∈ JSONB_FIELDS) fields → columnNames fields = Returned (map col_of fields).
Proof.
  induction 1 as [|f fields Hf _ IH]; [done|]. cbn [columnNames map].
  assert (Hc : columnName f = Returned (col_of f)).
  { apply has_spec in Hf. unfold has, JSONB_FIELDS in Hf. cbn [existsb] in Hf.
    rewrite !orb_true_iff, !String.eqb_eq in Hf. by destruct Hf as [->|[->|[->|?]]]. }
  by rewrite Hc, IH.
Qed.

Lemma jsonb_field_cases f :
  f ∈ JSONB_FIELDS → f = "refreshTokens" ∨ f = "activeAccessJtis" ∨ f = "migrationHistory".
Proof.
  intros Hf. apply has_spec in Hf. unfold has, JSONB_FIELDS in Hf. cbn [existsb] in Hf.
  rewrite !orb_true_iff, !String.eqb_eq in Hf. destruct Hf as [?|[?|[?|?]]]; auto; done.
Qed.

Lemma jsonb_change_safe c f :
  jsonb_change c f →
  String.eqb f "id" = false ∧
  safe_assignment (col_of f, field_param Date_toISOString (λ s, s) false f (obj_get c.1 f)).
Proof.
  intros [Hf [l Hl]]. unfold field_param. rewrite (proj2 (has_spec _ _) Hf), Hl. cbn.
  apply jsonb_field_cases in Hf. split; [by destruct Hf as [->|[->| ->]]|]. left. split; [|eauto].
  apply has_spec. destruct Hf as [->|[->| ->]]; by vm_compute.
Qed.

(** The changed fields are a set, and so are their columns. *)
Lemma set_add_nodup l x : NoDup l → NoDup (set_add l x).
Proof.
  intros H. unfold set_add. destruct (has l x) eqn:E; [done|]. apply has_false in E. apply NoDup_app.
  split_and!; [done| |apply NoDup_singleton]. by intros y Hy ->%list_elem_of_singleton.
Qed.

Lemma foldl_inv {A B} (P : A → Prop) (f : A → B → A) a l : (∀ a b, P a → P (f a b)) → P a → P (foldl f a l).
Proof. intros Hf. revert a. induction l as [|b l IH]; intros a Ha; [done|]. cbn. by apply IH, Hf. Qed.

Lemma apply_operators_nodup update values : NoDup (apply_operators update values).2.
Proof.
  unfold apply_operators. repeat (apply (foldl_inv (λ c : changes, NoDup c.2))); try constructor;
    intros [vs ch] b; cbn; try destruct b; intros H; by apply set_add_nodup.
Qed.

Lemma columns_distinct fields : NoDup fields → Forall (λ f, f ∈ JSONB_FIELDS) fields → NoDup (map col_of fields).
Proof.
  intros Hn Hf. induction Hn as [|f l Hfl _ IH]; [constructor|]. apply Forall_cons in Hf as [Hf Hl]. cbn.
  apply NoDup_cons. split; [|auto]. intros (g & Heq & Hg)%list_elem_of_fmap. apply Hfl.
  rewrite Forall_forall in Hl. specialize (Hl g Hg). apply jsonb_field_cases in Hf, Hl.
  by destruct Hf as [->|[->| ->]], Hl as [->|[->| ->]].
Qed.

(** An update by id whose operators leave arrays in JSON fields goes through:
    the row is rewritten in the changed columns only. *)
Lemma applyUpdate_id i update d r :
  table d !! i = Some r →
  let c := apply_operators update (rowToValues r) in
  Forall (jsonb_change c) c.2 →
  ∃ now d', let r' := write_row r (map col_of c.2)
                        (map (λ f, field_param Date_toISOString (λ s, s) false f (obj_get c.1 f)) c.2) now in
    findByIdAndUpdate Date_toString Date_toISOString i update d =
      (inr (Some (new_User (rowToValues r') false)), d') ∧ table d' = <[i := r']> (table d).
Proof.
  cbv zeta. intros Hr Hc. set (c := apply_operators update (rowToValues r)) in *.
  unfold findByIdAndUpdate, applyUpdate.
  change (buildWhere Date_toString Date_toISOString (VObj [("id", VStr i)]) []) with
    (Returned ("(id = $1)", [VStr i]) : outcome (string * list val)). cbn match.
  rewrite pg_lock_id, Hr. fold c. destruct (pg_row_id i d r Hr) as [-> Hnd]. unfold changed_statement.
  assert (Hfilter : filter (λ f, String.eqb f "id" = false) c.2 = c.2).
  { clearbody c. clear -Date_toISOString Hc. induction Hc as [|f l Hf _ IH]; [done|]. rewrite filter_cons_True; [by rewrite IH|].
    by apply jsonb_change_safe in Hf as [? _]. }
  rewrite Hfilter, columnNames_fields.
  2: { eapply Forall_impl; [exact Hc|]. by intros f []. }
  cbn [outcome_bind].
  destruct (pg_update_id (map col_of c.2) (map (λ f, field_param Date_toISOString (λ s, s) false f (obj_get c.1 f)) c.2)
              i d r Hr) as (now & d' & Hpg & Htab).
  { by rewrite !length_map. }
  { apply columns_distinct; [apply apply_operators_nodup|]. eapply Forall_impl; [exact Hc|]. by intros f []. }
  { clearbody c. clear -Date_toISOString Hc. induction Hc as [|f l Hf _ IH]; cbn; constructor; [|done].
    by apply jsonb_change_safe in Hf as [_ ?]. }
  exists now, d'. rewrite Hpg. done.
Qed.

Lemma applyUpdate_missing i update d :
  table d !! i = None → findByIdAndUpdate Date_toString Date_toISOString i update d = (inr None, d).
Proof.
  intros Hr. unfold findByIdAndUpdate, applyUpdate.
  change (buildWhere Date_toString Date_toISOString (VObj [("id", VStr i)]) []) with
    (Returned ("(id = $1)", [VStr i]) : outcome (string * list val)). cbn match.
  by rewrite pg_lock_id, Hr.
Qed.
End DbFacts.

(** *** What a rewritten row holds *)

Lemma write_row_get r cols vals now c :
  c ≠ "updated_at" → NoDup cols → length cols = length vals →
  obj_get (write_row r cols vals now) c =
  match list_find (λ c', c' = c) cols with
  | Some (n, _) => stored c (default VUndef (vals !! n))
  | None => obj_get r c
  end.
Proof.
  intros Hup Hnd Hlen. unfold write_row. rewrite obj_get_set_ne by congruence.
  revert r vals Hlen. induction cols as [|c0 cols IH]; intros r [|v vals] Hlen; try done.
  apply NoDup_cons in Hnd as [Hc0 Hnd]. cbn [zip zip_with foldl fst snd list_find].
  rewrite (IH Hnd) by (cbn in Hlen; lia). destruct (decide (c0 = c)) as [->|Hne].
  - destruct (list_find (λ c', c' = c) cols) as [[n c1]|] eqn:E.
    + apply list_find_Some in E as (Hn & -> & _). exfalso. apply Hc0. by eapply list_elem_of_lookup_2.
    + by rewrite obj_get_set_eq.
  - destruct (list_find (λ c', c' = c) cols) as [[n c1]|]; cbn; [done|]. by rewrite obj_get_set_ne.
Qed.

(** A JSON array of strings comes back as it was written. *)
Definition strs (l : list string) : val := VArr (map VStr l).

Lemma stored_strs Date_toISOString col f l :
  has jsonb_columns col = true → has JSONB_FIELDS f = true →
  stored col (field_param Date_toISOString (λ s, s) false f (strs l)) = strs l.
Proof.
  intros Hc Hf. unfold stored, field_param. rewrite Hc, Hf. unfold jsonb_param, strs, stringify_val.
  cbn [to_json]. rewrite parse_stringify. cbn [of_json]. f_equal. rewrite !map_map. apply map_ext. done.
Qed.

(** Any array comes back as an array. *)
Lemma stored_array Date_toISOString col f l :
  has jsonb_columns col = true → has JSONB_FIELDS f = true →
  isArray (stored col (field_param Date_toISOString (λ s, s) false f (VArr l))) = true.
Proof.
  intros Hc Hf. unfold stored, field_param. rewrite Hc, Hf. unfold jsonb_param, stringify_val.
  cbn [to_json]. by rewrite parse_stringify.
Qed.

(** ** Documents loaded with the default projection *)

(** The columns [User.findById(id)] selects. *)
Definition default_cols : list string :=
  match columnNames default_fields with Returned cols => cols | Thrown _ => [] end.

(** The document [User.findById(id)] makes of a row. *)
Definition loaded (r : object) : User := new_User (rowToValues (project default_cols r)) false.

Lemma default_cols_nodup : NoDup default_cols.
Proof. apply (bool_decide_unpack _). by vm_compute. Qed.

Lemma loaded_value r f :
  has ALL_FIELDS f = true →
  obj_get (_values (loaded r)) f = if has default_cols (col_of f) then obj_get r (col_of f) else VUndef.
Proof. intros Hf. apply document_get; [apply default_cols_nodup|]. by apply has_spec. Qed.

Lemma user_get_value u f : f ≠ "_id" → user_get u f = obj_get (_values u) f.
Proof. intros Hid. unfold user_get. by rewrite (proj2 (String.eqb_neq _ _) Hid). Qed.

Lemma loaded_has r f :
  has ALL_FIELDS f = true → has default_cols (col_of f) = false → obj_has (_values (loaded r)) f = false.
Proof.
  intros Hf Hc. unfold loaded.
  assert (H : obj_get (rowToValues (project default_cols r)) f = VUndef).
  { rewrite <- (new_User_get _ false) by apply rowToValues_nodup.
    rewrite document_get; [by rewrite Hc|apply default_cols_nodup|by apply has_spec]. }
  revert H. pose proof (rowToValues_nodup (project default_cols r)) as Hnd. revert Hnd.
  generalize (rowToValues (project default_cols r)). intros data Hnd H. by apply new_User_has.
Qed.

(** Read a concrete field of a loaded document. *)
Ltac load :=
  repeat match goal with
  | |- context [user_get (loaded ?r) ?f] => rewrite (user_get_value (loaded r) f) by done
  end;
  repeat match goal with
  | |- context [obj_get (_values (loaded ?r)) ?f] =>
      rewrite (loaded_value r f) by (by vm_compute);
      let b := eval vm_compute in (has default_cols (col_of f)) in
      let c := eval vm_compute in (col_of f) in
      change (has default_cols (col_of f)) with b; change (col_of f) with c; cbv iota
  end.

Lemma findById_loaded Date_toString Date_toISOString `{UDB : UsersDb} {DL : UsersDbLaws UDB} i d :
  findById Date_toString Date_toISOString i None d = (inr (loaded <$> table d !! i), d).
Proof.
  rewrite (findById_spec _ _ (DL := DL)).
  assert (Hc : columnNames (resolveFields (new_UserQuery (VObj [("id", VStr i)]) true)) = Returned default_cols)
    by (vm_compute; reflexivity).
  rewrite Hc. by destruct (table d !! i).
Qed.

(** ** A concrete database

    A map of rows with the statements by primary key; it satisfies the laws,
    so they can hold together. *)

Module MemPg.
Definition wf (p : string * object) : bool :=
  match obj_get p.2 "id" with VStr j => String.eqb j p.1 | _ => false end && bool_decide (NoDup (obj_keys p.2)).

Definition rows (m : gmap string object) : gmap string object := filter (λ p, wf p = true) m.

Definition unsupported : PgError := {| pe_code := "0A000"; pe_detail := None |}.

Definition query (st : statement) (params : list val) (m : gmap string object)
    : (PgError + list object * Z) * gmap string object :=
  match st with
  | Select cols w None (Some 1) =>
      match params with
      | [VStr i] =>
          if String.eqb w "(id = $1)" then
            (inr (match rows m !! i with Some r => ([project cols r], 1) | None => ([], 0) end), m)
          else (inl unsupported, m)
      | _ => (inl unsupported, m)
      end
  | SelectForUpdate w =>
      match params with
      | [VStr i] =>
          if String.eqb w "(id = $1)" then
            (inr (match rows m !! i with Some r => ([r], 1) | None => ([], 0) end), m)
          else (inl unsupported, m)
      | _ => (inl unsupported, m)
      end
  | UpdateById cols =>
      match last params with
      | Some (VStr i) =>
          match rows m !! i with
          | Some r =>
              let r' := write_row r cols (take (length cols) params) 0 in (inr ([r'], 1), <[i := r']> m)
          | None => (inr ([], 0), m)
          end
      | _ => (inl unsupported, m)
      end
  | _ => (inl unsupported, m)
  end.

#[global] Instance mem_pg : UsersDb := {| db := gmap string object; table := rows; pg := query |}.

Lemma write_row_keys r cols vals now : NoDup (obj_keys r) → NoDup (obj_keys (write_row r cols vals now)).
Proof.
  intros H. unfold write_row. apply obj_set_keys. revert r H.
  induction (zip cols vals) as [|p l IH]; intros r H; [done|]. cbn. by apply IH, obj_set_keys.
Qed.

Lemma login_not_id p : login_assignment p → p.1 ≠ "id".
Proof.
  intros [[[Hc _]|[-> _]]|[[-> _]|[[-> _]|[-> _]]]]; try done.
  apply has_spec in Hc. intros Heq. by rewrite Heq in Hc.
Qed.

Lemma write_row_id r cols vals now :
  Forall login_assignment (zip cols vals) → obj_get (write_row r cols vals now) "id" = obj_get r "id".
Proof.
  intros H. unfold write_row. rewrite obj_get_set_ne by done. revert r.
  induction H as [|[c v] l Hs _ IH]; intros r; [done|]. cbn [foldl]. rewrite IH. apply obj_get_set_ne.
  by apply login_not_id in Hs.
Qed.

Lemma rows_lookup m i r : rows m !! i = Some r ↔ m !! i = Some r ∧ wf (i, r) = true.
Proof. unfold rows. by rewrite map_lookup_filter_Some. Qed.

Lemma accepts cols vals i d r :
  rows d !! i = Some r → length cols = length vals → Forall login_assignment (zip cols vals) →
  ∃ now d', query (UpdateById cols) (vals ++ [VStr i]) d = (inr ([write_row r cols vals now], 1), d') ∧
            rows d' = <[i := write_row r cols vals now]> (rows d).
Proof.
  intros Hr Hlen Hsafe. exists 0, (<[i := write_row r cols vals 0]> d).
  cbn [query]. rewrite last_snoc, Hr, Hlen, take_app_length. split; [done|].
  unfold rows. rewrite map_filter_insert_True; [done|]. apply rows_lookup in Hr as [_ Hwf].
  unfold wf in *. cbn [fst snd] in *. rewrite write_row_id by done.
  apply andb_true_iff in Hwf as [-> Hk]. apply bool_decide_eq_true in Hk. cbn.
  apply bool_decide_eq_true. by apply write_row_keys.
Qed.

#[global] Instance mem_pg_laws : UsersDbLaws mem_pg.
Proof.
  split; cbn [db table pg mem_pg].
  - done.
  - done.
  - intros cols vals i d r Hr Hlen _ Hsafe. apply accepts; [done..|].
    eapply Forall_impl; [exact Hsafe|]. by left.
  - intros cols vals i d r Hr Hlen _ Hsafe _. by apply accepts.
  - intros cols vals i d Hr Hlen. cbn [query]. by rewrite last_snoc, Hr.
  - intros i d r Hr. apply rows_lookup in Hr as [_ Hwf]. unfold wf in Hwf. cbn [fst snd] in Hwf.
    apply andb_true_iff in Hwf as [Hid Hk]. apply bool_decide_eq_true in Hk. split; [|done].
    destruct (obj_get r "id"); try done. apply String.eqb_eq in Hid. congruence.
Qed.

(** A user row with the columns the sessions use. *)
Definition row (id : string) (tokens jtis : list string) (version : Z) : object :=
  [("id", VStr id); ("email", VStr "user@example.com"); ("password", VStr "$2b$12$hash");
   ("is_email_verified", VBool true); ("provider", VStr "local");
   ("refresh_tokens", strs tokens); ("active_access_jtis", strs jtis); ("token_version", VNum version);
   ("migration_history", VArr [])].
End MemPg.

Lemma sensitive_fields_unloaded_witness :
  ∃ u, findById (UDB := MemPg.mem_pg) (λ _, "") (λ _, "") "u1" None {["u1" := MemPg.row "u1" ["h"] [] 0]} =
       (inr (Some u), {["u1" := MemPg.row "u1" ["h"] [] 0]}) ∧ user_get u "password" = VUndef.
Proof.
  eexists. assert (H : findById (UDB := MemPg.mem_pg) (λ _, "") (λ _, "") "u1" None {["u1" := MemPg.row "u1" ["h"] [] 0]} =
       (inr (Some (new_User (rowToValues (project (map col_of default_fields) (MemPg.row "u1" ["h"] [] 0))) false)),
        {["u1" := MemPg.row "u1" ["h"] [] 0]})) by (vm_compute; reflexivity).
  split; [exact H|].
  apply (sensitive_fields_unloaded (λ _, "") (λ _, "") (UDB := MemPg.mem_pg) "u1" None "password" _ _ _
           ltac:(apply has_spec; reflexivity) ltac:(discriminate) H).
Defined.
