(* ===== verification/Sessions.v ===== *)
(** * Sessions

    Models [uam-backend/src/services/session.service.ts] with
    [utils/refresh-token.util.ts] and [revokeByJti] of
    [services/revoke.service.ts]: the refresh tokens and access-token ids a
    user document tracks, their rotation, removal and invalidation, and the
    token version published for the gateway.

    Every function is a program of [Async] over the cache, the users table and
    the log of revocation requests sent to the control plane; each database
    call, cache call or request is one stretch of code.  SHA-256 and base64url
    decoding are primitives of the runtime and parameters of the model. *)

From S2P Require Import Prelude CircuitConfig RollingWindow CircuitBreaker GuardedCalls Async RedisCache Json JsVal Columns SqlFilter Password UserModel OneTimeCodes.
#[local] Open Scope string_scope.
#[local] Open Scope list_scope.
#[local] Open Scope Z_scope.
#[local] Open Scope async_scope.

Definition TV_REDIS_PREFIX : string := "gateway:user:tv:".
Definition MAX_REFRESH : Z := 5.
Definition MAX_JTIS : Z := 20.
Definition ACCESS_REVOKE_TTL_SECS : Z := 900.

(** [s.split('.')] *)
Fixpoint split_dot (s : string) : list string :=
  match s with
  | EmptyString => [""]
  | String c s =>
      if Ascii.eqb c "."%char then "" :: split_dot s
      else match split_dot s with
           | x :: l => String c x :: l
           | [] => [String c ""]
           end
  end.

Section Sessions.
Context (sha256_hex : string → string) (base64url_decode : string → string).
Context (Date_toString Date_toISOString : Z → string).
Context `{RKV : RedisKV} `{UDB : UsersDb}.
Context (hashPassword : string → string).

Record State := mkState {
  cache : Cache;
  users : db;
  revocations : list object;        (** bodies of the revoke requests to the control plane *)
}.

#[global] Instance set_users : Setter users := λ g '(mkState a b c), mkState a (g b) c.
#[global] Instance set_revocations : Setter revocations := λ g '(mkState a b c), mkState a b (g c).

#[global] Instance has_cache : HasCache State.
Proof. refine {| cache_of := cache; with_cache := λ c '(mkState _ b m), mkState c b m |}; [by intros c []|by intros c c' []]. Defined.

(** A database call, awaited. *)
Definition on_db {A} (f : db → A * db) : prog Env State A :=
  seg (λ _ s, let '(a, d) := f (users s) in (a, s <| users := d |>)).

Definition hashRefreshToken (token : string) : string := sha256_hex token.

(** [stored] may be [undefined]. *)
Definition findStoredRefreshToken (stored : val) (presented : string) : option string :=
  match stored with
  | VArr ((_ :: _) as l) =>
      let hashed := hashRefreshToken presented in
      if existsb (λ x, strict_eq x (VStr hashed)) l then Some hashed else None
  | _ => None
  end.

(** [undefined] when the token is malformed or its payload no JSON object. *)
Definition extractAccessJti (accessToken : string) : val :=
  match split_dot accessToken with
  | [_; payload; _] =>
      match parse (base64url_decode payload) with
      | Some j => opt_prop (of_json j) "jti"
      | None => VUndef
      end
  | _ => VUndef
  end.

Definition publishTokenVersion (userId : string) (version : Z) : prog Env State bool :=
  let key := TV_REDIS_PREFIX +:+ userId in
  let! available := seg (λ e s,
    if isRedisAvailable (cache s) then
      let '(_, s) := on_cache (cacheSet e key (Z_to_string version) None) s in (true, s)
    else (false, s)) in
  if available : bool then
    let! stored := seg (λ e, on_cache (cacheGet e key)) in
    Ret (match stored with Some v => String.eqb v (Z_to_string version) | None => false end)
  else Ret false.

(** [revokeByJti(jti, ttlSecs)] starts a request unless the id is empty. *)
Definition revokeByJti (jti : val) (ttlSecs : Z) (s : State) : State :=
  if truthy jti then s <| revocations ::= λ l, l ++ [[("jti", jti); ("ttl_secs", VNum ttlSecs)]] |> else s.

(** [await Promise.all(jtis.map(...))]: all requests start together; their
    results are not looked at. *)
Definition revokeAllTrackedAccessJtis (jtis : val) : prog Env State unit :=
  match jtis with
  | VArr ((_ :: _) as l) =>
      seg (λ _ s, (tt, foldl (λ s jti, revokeByJti jti ACCESS_REVOKE_TTL_SECS s) s l))
  | _ => Ret tt
  end.

(** [user.tokenVersion ?? 0] *)
Definition token_version (u : User) : Z :=
  match user_get u "tokenVersion" with VNum n => n | _ => 0 end.

Definition invalidateAllSessions (userId : string) : prog Env State (failure + unit) :=
  let! r := on_db (findById Date_toString Date_toISOString userId (Some "+refreshTokens +activeAccessJtis")) in
  match r with
  | inl e => Ret (inl e)
  | inr None => Ret (inr tt)
  | inr (Some user) =>
      revokeAllTrackedAccessJtis (user_get user "activeAccessJtis") ;;
      let newVersion := token_version user + 1 in
      let user := user_set user "refreshTokens" (VArr []) in
      let user := user_set user "activeAccessJtis" (VArr []) in
      let user := user_set user "tokenVersion" (VNum newVersion) in
      let! saved := on_db (save Date_toISOString hashPassword "" user) in
      match saved with
      | inl e => Ret (inl e)
      | inr _ => publishTokenVersion userId newVersion ;; Ret (inr tt)
      end
  end.

(** [{ $each: [x], $slice: -n }] *)
Definition push_spec (x : val) (n : Z) : val := VObj [("$each", VArr [x]); ("$slice", VNum (- n))].

(** The [$push] part both functions build. *)
Definition session_push (refreshHash : string) (jti : val) : object :=
  ("refreshTokens", push_spec (VStr refreshHash) MAX_REFRESH)
  :: (if truthy jti then [("activeAccessJtis", push_spec jti MAX_JTIS)] else []).

Definition rotate_update (storedKey refreshHash : string) (jti : val) : UpdateDoc :=
  {| u_push := session_push refreshHash jti; u_pull := [("refreshTokens", VStr storedKey)];
     u_set := []; u_unset := []; u_inc := [] |}.

Definition persist_update (refreshHash : string) (jti : val) : UpdateDoc :=
  {| u_push := session_push refreshHash jti; u_pull := []; u_set := []; u_unset := []; u_inc := [] |}.

Definition publish_if (userId : string) (tokenVersion : option Z) : prog Env State unit :=
  match tokenVersion with
  | Some v => publishTokenVersion userId v ;; Ret tt
  | None => Ret tt
  end.

Definition rotateSessionTokens (userId oldRefreshToken accessToken refreshToken : string)
    (tokenVersion : option Z) : prog Env State (failure + bool) :=
  let! r := on_db (findById Date_toString Date_toISOString userId (Some "+refreshTokens")) in
  match r with
  | inl e => Ret (inl e)
  | inr user =>
      let stored := match user with Some u => user_get u "refreshTokens" | None => VUndef end in
      match findStoredRefreshToken stored oldRefreshToken with
      | None => Ret (inr false)
      | Some storedKey =>
          let update := rotate_update storedKey (hashRefreshToken refreshToken) (extractAccessJti accessToken) in
          let! result := on_db (findByIdAndUpdate Date_toString Date_toISOString userId update) in
          match result with
          | inl e => Ret (inl e)
          | inr None => Ret (inr false)
          | inr (Some _) => publish_if userId tokenVersion ;; Ret (inr true)
          end
      end
  end.

Definition persistSessionTokens (userId accessToken refreshToken : string) (tokenVersion : option Z)
    : prog Env State (failure + unit) :=
  let update := persist_update (hashRefreshToken refreshToken) (extractAccessJti accessToken) in
  let! result := on_db (findByIdAndUpdate Date_toString Date_toISOString userId update) in
  match result with
  | inl e => Ret (inl e)
  | inr _ => publish_if userId tokenVersion ;; Ret (inr tt)
  end.

Definition removeRefreshToken (userId refreshToken : string) : prog Env State (failure + unit) :=
  let! r := on_db (findById Date_toString Date_toISOString userId (Some "+refreshTokens")) in
  match r with
  | inl e => Ret (inl e)
  | inr None => Ret (inr tt)
  | inr (Some user) =>
      match user_get user "refreshTokens" with
      | VArr ((_ :: _) as l) =>
          match findStoredRefreshToken (VArr l) refreshToken with
          | None => Ret (inr tt)
          | Some storedKey =>
              let user := user_set user "refreshTokens"
                            (VArr (filter (λ t, strict_eq t (VStr storedKey) = false) l)) in
              let! saved := on_db (save Date_toISOString hashPassword "" user) in
              match saved with inl e => Ret (inl e) | inr _ => Ret (inr tt) end
          end
      | _ => Ret (inr tt)
      end
  end.
End Sessions.

(** ** Running a database call *)

Section RunDb.
Context `{RKV : RedisKV} `{UDB : UsersDb}.

Lemma run_on_db {A B} (f : db → A * db) (k : A → prog Env State B) es s :
  ∃ c, run (bind (on_db f) k) es s =
       run (k (f (users s)).1) (env_tail es) (mkState c (f (users s)).2 (revocations s)).
Proof.
  destruct s as [c d l]. cbn. destruct (f d) as [a d']. eexists. reflexivity.
Qed.

End RunDb.

(** Execute the database call at the head of the program. *)
Ltac step_db c :=
  match goal with
  | |- context [run (bind (on_db ?f) ?k) ?es ?s] =>
      let H := fresh in destruct (run_on_db f k es s) as [c H]; rewrite H; clear H
  end.

Section SessionFacts.
Context (sha256_hex : string → string) (base64url_decode : string → string).
Context (Date_toString Date_toISOString : Z → string).
Context `{RKV : RedisKV} `{UDB : UsersDb} {DL : UsersDbLaws UDB}.
Context (hashPassword : string → string).
Local Abbreviation rotate := (rotateSessionTokens sha256_hex base64url_decode Date_toString Date_toISOString).
Local Abbreviation persist := (persistSessionTokens sha256_hex base64url_decode Date_toString Date_toISOString).
Local Abbreviation jti_of := (extractAccessJti base64url_decode).

(** Publishing the version touches neither the table nor the log. *)
Lemma run_publish i v {B} (b : B) es s :
  ∃ c, run (publishTokenVersion i v ;; Ret b) es s = (b, mkState c (users s) (revocations s)).
Proof.
  destruct s as [c d l]. cbn. unfold publishTokenVersion, on_cache. cbn. destruct (isRedisAvailable _).
  - destruct (cacheSet _ _ _ _ _) as [u c1]. cbn. unfold on_cache. cbn.
    destruct (cacheGet _ _ _) as [r c2]. cbn. by exists c2.
  - cbn. eexists. reflexivity.
Qed.

Lemma run_publish_if i v {B} (b : B) es s :
  ∃ c, run (publish_if i v ;; Ret b) es s = (b, mkState c (users s) (revocations s)).
Proof.
  destruct v as [v|]; [|exists (cache s); by destruct s]. destruct (run_publish i v b es s) as [c Hc].
  exists c. rewrite <- Hc. cbn. clear Hc. destruct (isRedisAvailable _); [|done].
  by destruct (on_cache _ _).
Qed.

(** ** Reading the tokens *)

Definition session_cols : list string :=
  match columnNames (resolveFields (select "+refreshTokens" (new_UserQuery (VObj []) true))) with
  | Returned cols => cols
  | Thrown _ => []
  end.

Lemma session_cols_spec i :
  columnNames (resolveFields (select "+refreshTokens" (new_UserQuery (VObj [("id", VStr i)]) true))) =
  Returned session_cols.
Proof. vm_compute. reflexivity. Qed.

Lemma find_tokens i d r :
  table d !! i = Some r →
  ∃ u, findById Date_toString Date_toISOString i (Some "+refreshTokens") d = (inr (Some u), d) ∧
       u = new_User (rowToValues (project session_cols r)) false ∧
       user_get u "refreshTokens" = obj_get r "refresh_tokens".
Proof.
  intros Hr. exists (new_User (rowToValues (project session_cols r)) false).
  rewrite (findById_spec _ _ (DL := DL)), session_cols_spec, Hr. split; [done|]. split; [done|].
  assert (H1 : NoDup session_cols) by (apply (bool_decide_unpack _); by vm_compute).
  assert (H2 : "refreshTokens" ∈ ALL_FIELDS) by (apply has_spec; by vm_compute).
  change (obj_get (_values (new_User (rowToValues (project session_cols r)) false)) "refreshTokens" =
          obj_get r "refresh_tokens").
  rewrite (document_get _ _ _ H1 H2). by replace (has session_cols (col_of "refreshTokens")) with true by by vm_compute.
Qed.

Lemma find_missing i spec d :
  table d !! i = None →
  ∃ e, findById Date_toString Date_toISOString i spec d = (inr None, d) ∨
       findById Date_toString Date_toISOString i spec d = (inl e, d).
Proof. intros Hr. rewrite (findById_spec _ _ (DL := DL)). destruct (columnNames _) as [cols|e]; [rewrite Hr; exists (Err ""); auto|eauto]. Qed.

(** A stored list of hashes and a presented token. *)
Lemma find_stored rts token :
  findStoredRefreshToken sha256_hex (strs rts) token =
  if decide (sha256_hex token ∈ rts) then Some (sha256_hex token) else None.
Proof.
  unfold findStoredRefreshToken, strs, hashRefreshToken. destruct rts as [|x rts]; cbn [map].
  { destruct (decide _) as [H|]; [by apply not_elem_of_nil in H|done]. }
  change (VStr x :: map VStr rts) with (map VStr (x :: rts)). generalize (x :: rts). clear x rts. intros l.
  assert (H : existsb (λ y, strict_eq y (VStr (sha256_hex token))) (map VStr l) = true ↔ sha256_hex token ∈ l).
  { rewrite existsb_exists. split.
    - intros (v & Hv & ->%strict_eq_str). apply in_map_iff in Hv as (s & [= ->] & Hs). by apply list_elem_of_In.
    - intros Hin. exists (VStr (sha256_hex token)). split; [|cbn; apply String.eqb_refl].
      by apply in_map, list_elem_of_In. }
  destruct (existsb _ _); destruct (decide _) as [Hd|Hd]; try done; exfalso; [apply Hd; by apply H|].
  apply H in Hd. done.
Qed.

(** ** The updates *)

(** The refresh tokens after [$push ... $slice] and then [$pull]. *)
Definition pushed (rts : list string) (new : string) : list string := slice_last 5 (rts ++ [new]).
Definition pulled (old : string) (rts : list string) : list string := filter (λ t, t ≠ old) rts.

Lemma slice_last_map {A B} (g : A → B) k l : slice_last k (map g l) = map g (slice_last k l).
Proof. unfold slice_last. rewrite length_map. apply skipn_map. Qed.

Lemma apply_push_tokens values changed rts new :
  obj_get values "refreshTokens" = strs rts →
  apply_push (values, changed) ("refreshTokens", push_spec (VStr new) MAX_REFRESH) =
  (obj_set values "refreshTokens" (strs (pushed rts new)), set_add changed "refreshTokens").
Proof.
  intros H. unfold apply_push. rewrite H.
  change (opt_prop (push_spec (VStr new) MAX_REFRESH) "$each") with (VArr [VStr new]).
  change (opt_prop (push_spec (VStr new) MAX_REFRESH) "$slice") with (VNum (-5)).
  unfold strs, pushed. cbn [array_of]. change [VStr new] with (map VStr [new]).
  rewrite <- map_app, <- slice_last_map. done.
Qed.

Lemma apply_push_jti values changed jti :
  apply_push (values, changed) ("activeAccessJtis", push_spec jti MAX_JTIS) =
  (obj_set values "activeAccessJtis" (VArr (slice_last 20 (array_of (obj_get values "activeAccessJtis") ++ [jti]))),
   set_add changed "activeAccessJtis").
Proof. reflexivity. Qed.

Lemma apply_pull_tokens values changed rts old :
  obj_get values "refreshTokens" = strs rts →
  apply_pull (values, changed) ("refreshTokens", VStr old) =
  (obj_set values "refreshTokens" (strs (pulled old rts)), set_add changed "refreshTokens").
Proof.
  intros H. unfold apply_pull. rewrite H. unfold strs, pulled. cbn [array_of].
  assert (E : filter (λ x, strict_eq x (VStr old) = false) (map VStr rts) = map VStr (filter (λ t, t ≠ old) rts));
    [|by rewrite E].
  clear H. induction rts as [|t rts IH]; [done|]. cbn [map]. rewrite !filter_cons.
  destruct (decide (t ≠ old)) as [Hne|Heq].
  - rewrite decide_True by (cbn; by apply String.eqb_neq). cbn [map]. by rewrite IH.
  - rewrite decide_False; [done|]. cbn. intros E. apply Heq. by apply String.eqb_neq.
Qed.

(** The fields a session update changes, and what it puts there. *)
Definition session_fields (jti : val) : list string :=
  if truthy jti then ["refreshTokens"; "activeAccessJtis"] else ["refreshTokens"].

Lemma session_update_changes values rts new jti old :
  obj_get values "refreshTokens" = strs rts →
  ∃ vals, apply_operators
      (match old with Some old => rotate_update old new jti | None => persist_update new jti end) values =
      (vals, session_fields jti) ∧
    obj_get vals "refreshTokens" =
      strs (match old with Some old => pulled old (pushed rts new) | None => pushed rts new end) ∧
    (truthy jti = true → obj_get vals "activeAccessJtis" =
      VArr (slice_last 20 (array_of (obj_get values "activeAccessJtis") ++ [jti]))).
Proof.
  intros H. unfold apply_operators, rotate_update, persist_update, session_push, session_fields.
  destruct old as [old|]; cbn [u_push u_pull u_set u_unset u_inc foldl];
    rewrite (apply_push_tokens _ _ rts) by done; destruct (truthy jti); cbn [foldl];
    rewrite ?apply_push_jti, ?(obj_get_set_ne _ "refreshTokens" _ "activeAccessJtis") by done.
  3-4: eexists; split; [reflexivity|]; rewrite ?(obj_get_set_ne _ "activeAccessJtis" _ "refreshTokens"),
         ?obj_get_set_eq by done; done.
  all: rewrite (apply_pull_tokens _ _ (pushed rts new))
         by (rewrite ?(obj_get_set_ne _ "activeAccessJtis" _ "refreshTokens"), ?obj_get_set_eq by done; done);
       eexists; split; [reflexivity|];
       rewrite ?(obj_get_set_ne _ "refreshTokens" _ "activeAccessJtis"), ?obj_get_set_eq by done; done.
Qed.

Definition new_tokens (old : option string) (rts : list string) (new : string) : list string :=
  match old with Some old => pulled old (pushed rts new) | None => pushed rts new end.

(** A session update rewrites the token columns of one row and nothing else. *)
Definition tokens_updated (d d' : db) (i : string) (r : object) (rts : list string) : Prop :=
  ∃ r', table d' = <[i := r']> (table d) ∧ obj_get r' "refresh_tokens" = strs rts ∧
    (isArray (obj_get r "active_access_jtis") = true → isArray (obj_get r' "active_access_jtis") = true) ∧
    ∀ c, c ≠ "refresh_tokens" → c ≠ "active_access_jtis" → c ≠ "updated_at" → obj_get r' c = obj_get r c.

Lemma session_update_db i d r rts new jti old :
  table d !! i = Some r → obj_get r "refresh_tokens" = strs rts →
  ∃ u d', findByIdAndUpdate Date_toString Date_toISOString i
            (match old with Some old => rotate_update old new jti | None => persist_update new jti end) d =
          (inr (Some u), d') ∧ tokens_updated d d' i r (new_tokens old rts new).
Proof.
  intros Hr Hrts. destruct (pg_row_id i d r Hr) as [_ Hnd].
  assert (Hv : obj_get (rowToValues r) "refreshTokens" = strs rts).
  { unfold obj_get. rewrite rowToValues_lookup; [exact Hrts|done|]. apply has_spec. by vm_compute. }
  destruct (session_update_changes (rowToValues r) rts new jti old Hv) as (vals & Happ & Hv1 & Hv2).
  destruct (applyUpdate_id Date_toString Date_toISOString (DL := DL) i
    (match old with Some old => rotate_update old new jti | None => persist_update new jti end) d r Hr)
    as (now & d' & Hres & Htab).
  { rewrite Happ. cbn [fst snd]. unfold session_fields. destruct (truthy jti); repeat constructor; cbn [fst];
      try (apply has_spec; by vm_compute); eauto; rewrite Hv1; unfold strs; eauto. }
  rewrite Happ in Hres, Htab. cbn [fst snd] in Hres, Htab. eexists _, d'. split; [exact Hres|].
  eexists. split; [exact Htab|]. clear Hres Htab. unfold session_fields. destruct (truthy jti); (split; [|split]).
  1,4: rewrite write_row_get; [|done|apply (bool_decide_unpack _); by vm_compute|done];
       cbn [map list_find]; rewrite decide_True by done; cbn [lookup list_lookup default];
       rewrite Hv1; by apply stored_strs.
  1,3: intros Harr; rewrite write_row_get; [|done|apply (bool_decide_unpack _); by vm_compute|done];
       cbn [map list_find]; rewrite decide_False by done.
  1: rewrite decide_True by done; cbn [lookup list_lookup default fmap option_fmap option_map fst snd prod_map]; rewrite (Hv2 eq_refl); by apply stored_array.
  1: exact Harr.
  all: intros c H1 H2 H3; rewrite write_row_get; [|done|apply (bool_decide_unpack _); by vm_compute|done];
       cbn [map list_find]; rewrite !decide_False by (intros E; symmetry in E; revert E; by vm_compute); done.
Qed.

(** Rotation, run alone. *)
Lemma rotate_run i old access new v es s r rts :
  table (users s) !! i = Some r → obj_get r "refresh_tokens" = strs rts →
  if decide (sha256_hex old ∈ rts) then
    ∃ c d', run (rotate i old access new v) es s = (inr true, mkState c d' (revocations s)) ∧
      tokens_updated (users s) d' i r (pulled (sha256_hex old) (pushed rts (sha256_hex new)))
  else ∃ c, run (rotate i old access new v) es s = (inr false, mkState c (users s) (revocations s)).
Proof.
  intros Hr Hrts. unfold rotateSessionTokens.
  step_db c.
  destruct (find_tokens i (users s) r Hr) as (u & -> & _ & Hu). cbn [fst snd]. cbv zeta.
  rewrite Hu, Hrts, find_stored. destruct (decide _); [|by exists c].
  set (s1 := mkState c (users s) (revocations s)).
  step_db c1.
  destruct (session_update_db i (users s) r rts (sha256_hex new) (jti_of access) (Some (sha256_hex old)) Hr Hrts)
    as (u' & d' & Hup & Htok).
  change (users s1) with (users s). unfold hashRefreshToken. rewrite Hup. cbn [fst snd].
  destruct (run_publish_if i v (inr true : failure + bool) (env_tail (env_tail es)) (mkState c1 d' (revocations s1)))
    as [c2 ->]. exists c2, d'. done.
Qed.

(** Refresh-token rotation.  For a user whose document holds the hashes
    [rts]: presenting a token whose hash is not among them is refused and
    changes nothing; presenting one that is replaces it, leaves every other
    column and every other user alone, and afterwards the old token is refused
    (so a stolen token cannot be used again), unless the new token has the
    same hash. *)
Theorem rotate_spec i old access new v es s r rts :
  table (users s) !! i = Some r → obj_get r "refresh_tokens" = strs rts →
  let out := run (rotate i old access new v) es s in
  (sha256_hex old ∉ rts → out.1 = inr false ∧ users out.2 = users s) ∧
  (sha256_hex old ∈ rts → out.1 = inr true ∧
     tokens_updated (users s) (users out.2) i r (pulled (sha256_hex old) (pushed rts (sha256_hex new))) ∧
     ∀ access' new' v' es', (run (rotate i old access' new' v') es' out.2).1 = inr false).
Proof.
  intros Hr Hrts. cbv zeta. pose proof (rotate_run i old access new v es s r rts Hr Hrts) as H.
  split; intros Hin.
  - rewrite decide_False in H by done. by destruct H as [c ->].
  - rewrite decide_True in H by done. destruct H as (c & d' & -> & Htok). cbn [fst snd].
    split; [done|]. split; [done|]. intros access' new' v' es'. destruct Htok as (r' & Htab & Hrts' & _).
    pose proof (rotate_run i old access' new' v' es' (mkState c d' (revocations s)) r' _
      ltac:(cbn; by rewrite Htab, lookup_insert_eq) Hrts') as H.
    rewrite decide_False in H; [by destruct H as [c' ->]|].
    intros Hp. unfold pulled in Hp. apply list_elem_of_filter in Hp as [Hp _]. done.
Qed.

Lemma pushed_length rts new : (length (pushed rts new) <= 5)%nat.
Proof. unfold pushed, slice_last. rewrite length_drop. lia. Qed.

(** The bound on stored sessions: after persisting or rotating tokens a
    user never has more than five refresh tokens, however many there were. *)
Theorem session_bound i d r rts new jti old :
  table d !! i = Some r → obj_get r "refresh_tokens" = strs rts →
  ∃ u d' r' rts', findByIdAndUpdate Date_toString Date_toISOString i
      (match old with Some old => rotate_update old new jti | None => persist_update new jti end) d =
      (inr (Some u), d') ∧ table d' = <[i := r']> (table d) ∧ obj_get r' "refresh_tokens" = strs rts' ∧
    (length rts' <= 5)%nat ∧ (old ≠ Some new → new ∈ rts').
Proof.
  intros Hr Hrts. destruct (session_update_db i d r rts new jti old Hr Hrts) as (u & d' & Hup & r' & Htab & Ht & _).
  exists u, d', r', (new_tokens old rts new). split_and!; try done.
  - unfold new_tokens. pose proof (pushed_length rts new). destruct old; [|done].
    unfold pulled. etransitivity; [apply length_filter|done].
  - intros Hne. assert (Hnew : new ∈ pushed rts new).
    { unfold pushed, slice_last. rewrite length_app. cbn.
      rewrite drop_app_le by lia. apply elem_of_app. right. left. }
    unfold new_tokens. destruct old as [old|]; [|done]. unfold pulled. apply list_elem_of_filter.
    split; [congruence|done].
Qed.

(** Rotation at the limit loses a session.  The update slices to five
    tokens before it removes the old one; a user with five sessions who
    refreshes any but the oldest loses the oldest session as well and is left
    with four, although the number of sessions did not grow. *)
Theorem rotate_evicts_oldest i old access new v es s r oldest rest :
  table (users s) !! i = Some r → obj_get r "refresh_tokens" = strs (oldest :: rest) →
  length rest = 4%nat → sha256_hex old ∈ rest → NoDup (oldest :: rest) →
  sha256_hex new ∉ (oldest :: rest) →
  let out := run (rotate i old access new v) es s in
  out.1 = inr true ∧
  tokens_updated (users s) (users out.2) i r (pulled (sha256_hex old) rest ++ [sha256_hex new]) ∧
  length (pulled (sha256_hex old) rest ++ [sha256_hex new]) = 4%nat ∧
  oldest ∉ pulled (sha256_hex old) rest ++ [sha256_hex new].
Proof.
  intros Hr Hrts Hlen Hin Hnd Hnew. cbv zeta.
  pose proof (rotate_run i old access new v es s r _ Hr Hrts) as H.
  rewrite decide_True in H by (by right). destruct H as (c & d' & -> & Htok). cbn [fst snd].
  apply NoDup_cons in Hnd as [Hold Hnd]. apply not_elem_of_cons in Hnew as [Hne Hnew].
  assert (Hp : pulled (sha256_hex old) (pushed (oldest :: rest) (sha256_hex new)) =
               pulled (sha256_hex old) rest ++ [sha256_hex new]).
  { unfold pushed, slice_last. cbn [app length]. rewrite length_app, Hlen. cbn [length]. cbn [Nat.add Nat.sub drop].
    rewrite drop_0. unfold pulled. rewrite filter_app. f_equal. rewrite filter_cons_True; [done|]. congruence. }
  rewrite Hp in Htok. split; [done|]. split; [done|]. split.
  - rewrite length_app. cbn. unfold pulled. clear -Hin Hnd Hlen.
    assert (H : ∀ l, NoDup l → sha256_hex old ∈ l → S (length (filter (λ t, t ≠ sha256_hex old) l)) = length l).
    { clear. induction l as [|x l IH]; intros Hnd Hin; [by apply not_elem_of_nil in Hin|].
      apply NoDup_cons in Hnd as [Hx Hnd]. rewrite filter_cons. destruct (decide (x ≠ sha256_hex old)) as [Hne|He].
      - cbn. rewrite IH; [done|done|]. apply elem_of_cons in Hin as [?|?]; [congruence|done].
      - cbn. f_equal. apply dec_stable in He as ->. clear -Hx. induction l as [|y l IH]; [done|].
        apply not_elem_of_cons in Hx as [? ?]. rewrite filter_cons_True by congruence. cbn. f_equal. auto. }
    specialize (H rest Hnd Hin). lia.
  - rewrite elem_of_app, list_elem_of_singleton. intros [Ho|Ho]; [|congruence].
    unfold pulled in Ho. apply list_elem_of_filter in Ho as [_ ?]. done.
Qed.
End SessionFacts.

(** ** Invalidating every session *)

Section Invalidate.
Context (sha256_hex : string → string) (base64url_decode : string → string).
Context (Date_toString Date_toISOString : Z → string).
Context `{RKV : RedisKV} `{UDB : UsersDb} {DL : UsersDbLaws UDB}.
Context (hashPassword : string → string).
Local Abbreviation rotate := (rotateSessionTokens sha256_hex base64url_decode Date_toString Date_toISOString).
Local Abbreviation invalidate := (invalidateAllSessions Date_toString Date_toISOString hashPassword).

Definition full_cols : list string :=
  match columnNames (resolveFields (select "+refreshTokens +activeAccessJtis" (new_UserQuery (VObj []) true))) with
  | Returned cols => cols
  | Thrown _ => []
  end.

Lemma full_cols_spec i :
  columnNames (resolveFields (select "+refreshTokens +activeAccessJtis" (new_UserQuery (VObj [("id", VStr i)]) true))) =
  Returned full_cols.
Proof. vm_compute. reflexivity. Qed.

(** The document [invalidateAllSessions] loads has every field it needs. *)
Lemma full_document_get r f :
  f ∈ ["id"; "refreshTokens"; "activeAccessJtis"; "tokenVersion"; "migrationHistory"] →
  obj_get (_values (new_User (rowToValues (project full_cols r)) false)) f = obj_get r (col_of f).
Proof.
  intros Hf. assert (H1 : NoDup full_cols) by (apply (bool_decide_unpack _); by vm_compute).
  assert (H2 : f ∈ ALL_FIELDS ∧ has full_cols (col_of f) = true).
  { repeat (apply elem_of_cons in Hf as [->|Hf]; [split; [apply has_spec|]; by vm_compute|]).
    by apply not_elem_of_nil in Hf. }
  destruct H2 as [H2 H3]. by rewrite (document_get _ _ _ H1 H2), H3.
Qed.

(** The document as it is saved. *)
Definition emptied (u : User) (v : Z) : User :=
  user_set (user_set (user_set u "refreshTokens" (VArr [])) "activeAccessJtis" (VArr [])) "tokenVersion" (VNum v).

Lemma emptied_get u v f :
  obj_get (_values (emptied u v)) f =
  if String.eqb "tokenVersion" f then VNum v
  else if String.eqb "activeAccessJtis" f then VArr []
  else if String.eqb "refreshTokens" f then VArr []
  else obj_get (_values u) f.
Proof.
  unfold emptied, user_set. change (startsWith "refreshTokens" "_") with false.
  change (startsWith "activeAccessJtis" "_") with false. change (startsWith "tokenVersion" "_") with false.
  cbn match. cbn [_values]. by rewrite !obj_get_set.
Qed.

Definition emptied_fields : list string := ["refreshTokens"; "activeAccessJtis"; "tokenVersion"; "migrationHistory"].

Lemma emptied_write_fields r v h :
  obj_get r "migration_history" = VArr h →
  write_fields (emptied (new_User (rowToValues (project full_cols r)) false) v) = emptied_fields.
Proof.
  intros Hh. set (u := new_User _ false). unfold write_fields, JSONB_FIELDS.
  assert (H1 : obj_has (_values (emptied u v)) "refreshTokens" = true) by (apply obj_has_defined; by rewrite emptied_get).
  assert (H2 : obj_has (_values (emptied u v)) "activeAccessJtis" = true) by (apply obj_has_defined; by rewrite emptied_get).
  assert (H3 : obj_has (_values (emptied u v)) "migrationHistory" = true).
  { apply obj_has_defined. rewrite emptied_get. cbn [String.eqb Ascii.eqb Bool.eqb].
    unfold u. rewrite full_document_get by (repeat first [left | right]).
    change (col_of "migrationHistory") with "migration_history". by rewrite Hh. }
  rewrite !filter_cons, H1, H2, H3. done.
Qed.

(** The parameters of the UPDATE. *)
Definition emptied_vals (v : Z) (h : list val) : list val :=
  [VStr (stringify (JArr [])); VStr (stringify (JArr [])); VNum v;
   VStr (stringify (JArr (map (λ x, default JNull (to_json Date_toISOString x)) h)))].

Lemma emptied_statement i r v h :
  obj_get r "id" = VStr i → obj_get r "migration_history" = VArr h →
  update_statement Date_toISOString hashPassword (emptied (new_User (rowToValues (project full_cols r)) false) v) =
  Returned (UpdateById ["refresh_tokens"; "active_access_jtis"; "token_version"; "migration_history"],
            emptied_vals v h ++ [VStr i]).
Proof.
  intros Hid Hh. unfold update_statement. rewrite (emptied_write_fields r v h Hh).
  replace (columnNames emptied_fields) with
    (Returned ["refresh_tokens"; "active_access_jtis"; "token_version"; "migration_history"] : outcome (list string))
    by (vm_compute; reflexivity).
  cbn [outcome_bind]. do 2 f_equal. unfold emptied_fields. cbn [map].
  rewrite !emptied_get. cbn [String.eqb Ascii.eqb Bool.eqb].
  rewrite !full_document_get by (repeat first [left | right]).
  change (col_of "migrationHistory") with "migration_history". change (col_of "id") with "id".
  rewrite Hid, Hh. reflexivity.
Qed.

Lemma emptied_saved i d r v h :
  table d !! i = Some r → obj_get r "migration_history" = VArr h → 0 ≤ v < 2 ^ 31 →
  ∃ u' d' r', save Date_toISOString hashPassword ""
      (emptied (new_User (rowToValues (project full_cols r)) false) v) d = (inr u', d') ∧
    table d' = <[i := r']> (table d) ∧ obj_get r' "refresh_tokens" = strs [] ∧
    obj_get r' "active_access_jtis" = strs [] ∧ obj_get r' "token_version" = VNum v.
Proof.
  intros Hr Hh Hv. destruct (pg_row_id i d r Hr) as [Hid Hnd].
  unfold save. replace (_isNew _) with false by done. rewrite (emptied_statement i r v h Hid Hh).
  destruct (pg_update_id ["refresh_tokens"; "active_access_jtis"; "token_version"; "migration_history"]
    (emptied_vals v h) i d r Hr eq_refl ltac:(apply (bool_decide_unpack _); by vm_compute)) as (now & d' & -> & Htab).
  { unfold emptied_vals. cbn [zip zip_with]. repeat (apply Forall_cons_2 || apply Forall_nil_2).
    3: right; split; [done|]; exists v; done.
    all: left; split; [repeat first [left | right]|eauto]. }
  eexists _, d', _. split; [reflexivity|]. split; [exact Htab|].
  split_and!; (rewrite write_row_get; [|done|apply (bool_decide_unpack _); by vm_compute|done]); by vm_compute.
Qed.

(** The jtis a revocation request goes out for. *)
Definition revoke_requests (jtis : list val) : list object :=
  map (λ j, [("jti", j); ("ttl_secs", VNum ACCESS_REVOKE_TTL_SECS)]) (filter (λ j, truthy j = true) jtis).

Lemma revoke_fold l s :
  foldl (λ s jti, revokeByJti jti ACCESS_REVOKE_TTL_SECS s) s l =
  mkState (cache s) (users s) (revocations s ++ revoke_requests l).
Proof.
  revert s. induction l as [|j l IH]; intros s; cbn [foldl]; [destruct s; by rewrite app_nil_r|].
  rewrite IH. unfold revokeByJti, revoke_requests. rewrite filter_cons. destruct s as [c d rv], (truthy j); cbn.
  - by rewrite <- app_assoc.
  - done.
Qed.

Lemma run_revoke_all jtis {B} (k : prog Env State B) es s :
  ∃ c es', run (revokeAllTrackedAccessJtis (VArr jtis) ;; k) es s =
    run k es' (mkState c (users s) (revocations s ++ revoke_requests jtis)).
Proof.
  destruct jtis as [|j l].
  - exists (cache s), es. destruct s. cbn. by rewrite app_nil_r.
  - cbn [revokeAllTrackedAccessJtis]. unfold seg, act. cbn [bind run]. rewrite revoke_fold.
    destruct s as [c d rv]. eexists _, _. reflexivity.
Qed.

(** Invalidation, run alone. *)
Lemma invalidate_run i es s r jtis h n :
  table (users s) !! i = Some r → obj_get r "active_access_jtis" = VArr jtis →
  obj_get r "migration_history" = VArr h → obj_get r "token_version" = VNum n → 0 ≤ n < 2 ^ 31 - 1 →
  ∃ c d' r', run (invalidate i) es s =
      (inr tt, mkState c d' (revocations s ++ revoke_requests jtis)) ∧
      table d' = <[i := r']> (table (users s)) ∧ obj_get r' "refresh_tokens" = strs [] ∧
      obj_get r' "active_access_jtis" = strs [] ∧ obj_get r' "token_version" = VNum (n + 1).
Proof.
  intros Hr Hj Hh Hn Hrange.
  unfold invalidateAllSessions. step_db c. rewrite (findById_spec _ _ (DL := DL)), full_cols_spec, Hr. cbn [fst snd].
  set (u := new_User (rowToValues (project full_cols r)) false).
  assert (Hu1 : user_get u "activeAccessJtis" = VArr jtis).
  { change (obj_get (_values u) "activeAccessJtis" = VArr jtis). unfold u.
    rewrite full_document_get by (repeat first [left | right]). exact Hj. }
  assert (Hu2 : token_version u = n).
  { unfold token_version. change (user_get u "tokenVersion") with (obj_get (_values u) "tokenVersion"). unfold u.
    rewrite full_document_get by (repeat first [left | right]). change (col_of "tokenVersion") with "token_version".
    by rewrite Hn. }
  rewrite Hu1, Hu2.
  match goal with |- context [run (_ ;; ?k) ?es ?s] =>
    destruct (run_revoke_all jtis k es s) as (c1 & es1 & ->) end.
  cbn [users revocations]. fold (emptied u (n + 1)). step_db c2. cbn [users].
  destruct (emptied_saved i (users s) r (n + 1) h Hr Hh ltac:(lia)) as (u' & d' & r' & Hs & H1 & H2 & H3 & H4).
  fold u in Hs. rewrite Hs. cbn [fst snd].
  match goal with |- context [run (publishTokenVersion _ _ ;; Ret ?b) ?es ?s] =>
    destruct (run_publish i (n + 1) b es s) as [c3 ->] end.
  exists c3, d', r'. done.
Qed.

(** Invalidating all sessions: the user's refresh tokens and tracked
    access-token ids are emptied, the token version grows by one, a revocation
    request goes out for every tracked id, other users are untouched, and from
    then on every refresh token presented for this user is refused. *)
Theorem invalidate_spec i es s r jtis h n :
  table (users s) !! i = Some r → obj_get r "active_access_jtis" = VArr jtis →
  obj_get r "migration_history" = VArr h → obj_get r "token_version" = VNum n → 0 ≤ n < 2 ^ 31 - 1 →
  let out := run (invalidate i) es s in
  out.1 = inr tt ∧ revocations out.2 = revocations s ++ revoke_requests jtis ∧
  (∃ r', table (users out.2) = <[i := r']> (table (users s)) ∧ obj_get r' "refresh_tokens" = strs [] ∧
         obj_get r' "active_access_jtis" = strs [] ∧ obj_get r' "token_version" = VNum (n + 1)) ∧
  ∀ token access new v es', (run (rotate i token access new v) es' out.2).1 = inr false.
Proof.
  intros Hr Hj Hh Hn Hrange. cbv zeta.
  destruct (invalidate_run i es s r jtis h n Hr Hj Hh Hn Hrange) as (c & d' & r' & -> & H1 & H2 & H3 & H4). cbn [fst snd users revocations].
  split; [done|]. split; [done|]. split; [eauto|]. intros token access new v es'.
  pose proof (rotate_run sha256_hex base64url_decode Date_toString Date_toISOString (DL := DL) i token access new v es'
    (mkState c d' (revocations s ++ revoke_requests jtis)) r' [] ltac:(cbn; by rewrite H1, lookup_insert_eq) H2) as H.
  rewrite decide_False in H; [by destruct H as [c' ->]|]. apply not_elem_of_nil.
Qed.
End Invalidate.

(** ** Concrete runs *)

Module SessionRuns.
Import MemPg.

(** A hash for the examples, and undecodable access tokens (no [jti]). *)
Definition sha (s : string) : string := "#" +:+ s.
Definition decode (s : string) : string := s.
Definition no_date (_ : Z) : string := "".

Definition start (tokens jtis : list string) : State (RKV := MemKV.mem_kv) (UDB := mem_pg) :=
  mkState MemKV.fresh_cache ({["u1" := row "u1" tokens jtis 3]} : gmap string object) [].

Definition rotate := rotateSessionTokens sha decode no_date no_date (RKV := MemKV.mem_kv) (UDB := mem_pg).
Definition logout := removeRefreshToken sha no_date no_date (RKV := MemKV.mem_kv) (UDB := mem_pg) (λ s, s).
Definition invalidate := invalidateAllSessions no_date no_date (RKV := MemKV.mem_kv) (UDB := mem_pg) (λ s, s).

Definition e : Env := MemKV.good_env "".

(** What the finished requests of a pool have returned. *)
Definition answers (ps : list (prog Env (State (RKV := MemKV.mem_kv) (UDB := mem_pg)) (failure + bool)))
    : list (option bool) :=
  map (λ p, match p with Ret (inr b) => Some b | _ => None end) ps.

Definition tokens_of (s : State (RKV := MemKV.mem_kv) (UDB := mem_pg)) : val :=
  match table (users s) !! "u1" with Some r => obj_get r "refresh_tokens" | None => VUndef end.
End SessionRuns.

(** The check and the update of a rotation are two database calls, so
    two concurrent refreshes with one token can both succeed: each finds the
    stored hash, then each replaces it.  Reuse of the token goes undetected
    and both successor tokens are live. *)
Theorem rotate_double_spend :
  let s := SessionRuns.start [SessionRuns.sha "A"] [] in
  ∃ ps' s', pool_reach
      ([SessionRuns.rotate "u1" "A" "x" "B" None; SessionRuns.rotate "u1" "A" "y" "C" None], s) (ps', s') ∧
    SessionRuns.answers ps' = [Some true; Some true] ∧
    SessionRuns.tokens_of s' = strs [SessionRuns.sha "B"; SessionRuns.sha "C"].
Proof.
  cbv zeta. set (ps := [_; _]). set (s := SessionRuns.start _ _).
  set (sched := [(0%nat, SessionRuns.e); (1%nat, SessionRuns.e); (0%nat, SessionRuns.e); (1%nat, SessionRuns.e)]).
  exists (play sched ps s).1, (play sched ps s).2.
  split; [rewrite <- surjective_pairing; apply play_reach|]. subst sched ps s. split; vm_compute; reflexivity.
Qed.

(** Saving a document writes back the JSON arrays it loaded, so a logout
    that overlaps a rotation undoes it: device 1 rotates [A] to [A2] while
    device 2 logs out with [B]; afterwards the rotated-away token [A] is valid
    again and the token [A2] the user holds is not. *)
Theorem logout_resurrects_rotated_token :
  let s := SessionRuns.start [SessionRuns.sha "A"; SessionRuns.sha "B"] [] in
  let rotate := SessionRuns.rotate "u1" "A" "x" "A2" None in
  let logout := bind (SessionRuns.logout "u1" "B") (λ r, Ret (match r with inl e => inl e | inr _ => inr true end)) in
  ∃ ps' s', pool_reach ([rotate; logout], s) (ps', s') ∧
    SessionRuns.answers ps' = [Some true; Some true] ∧
    SessionRuns.tokens_of s' = strs [SessionRuns.sha "A"] ∧
    ∀ es, (run (SessionRuns.rotate "u1" "A2" "y" "A3" None) es s').1 = inr false.
Proof.
  cbv zeta. set (ps := [_; _]). set (s := SessionRuns.start _ _).
  set (sched := [(1%nat, SessionRuns.e); (0%nat, SessionRuns.e); (0%nat, SessionRuns.e); (1%nat, SessionRuns.e)]).
  exists (play sched ps s).1, (play sched ps s).2.
  split; [rewrite <- surjective_pairing; apply play_reach|].
  split; [subst sched ps s; vm_compute; reflexivity|].
  assert (Ht : table (users (play sched ps s).2) !! "u1" =
               Some (default [] (table (users (play sched ps s).2) !! "u1")))
    by (subst sched ps s; vm_compute; reflexivity).
  assert (Hr : obj_get (default [] (table (users (play sched ps s).2) !! "u1")) "refresh_tokens" =
               strs [SessionRuns.sha "A"]) by (subst sched ps s; vm_compute; reflexivity).
  split; [unfold SessionRuns.tokens_of; rewrite Ht; exact Hr|]. intros es.
  pose proof (rotate_run SessionRuns.sha SessionRuns.decode SessionRuns.no_date SessionRuns.no_date
    (RKV := MemKV.mem_kv) (UDB := MemPg.mem_pg) "u1" "A2" "y" "A3" None es _ _ _ Ht Hr) as H.
  rewrite decide_False in H; [destruct H as [c H]; unfold SessionRuns.rotate; by rewrite H|].
  intros Hin. apply list_elem_of_singleton in Hin. discriminate Hin.
Qed.

Lemma rotate_spec_witness :
  let s := SessionRuns.start ["#A"; "#B"] [] in
  (run (SessionRuns.rotate "u1" "A" "x" "C" None) (λ _, SessionRuns.e) s).1 = inr true.
Proof.
  cbv zeta. destruct (rotate_spec SessionRuns.sha SessionRuns.decode SessionRuns.no_date SessionRuns.no_date
    (RKV := MemKV.mem_kv) (UDB := MemPg.mem_pg) "u1" "A" "x" "C" None (λ _, SessionRuns.e)
    (SessionRuns.start ["#A"; "#B"] []) (MemPg.row "u1" ["#A"; "#B"] [] 3) ["#A"; "#B"]
    ltac:(vm_compute; reflexivity) ltac:(reflexivity)) as [_ H].
  exact (proj1 (H ltac:(left))).
Defined.

Lemma session_bound_witness :
  ∃ u d' r' rts', findByIdAndUpdate (UDB := MemPg.mem_pg) SessionRuns.no_date SessionRuns.no_date "u1"
      (persist_update "#F" VUndef) (users (SessionRuns.start ["#A"; "#B"; "#C"; "#D"; "#E"] [])) =
      (inr (Some u), d') ∧ obj_get r' "refresh_tokens" = strs rts' ∧ (length rts' <= 5)%nat ∧ "#F" ∈ rts'.
Proof.
  destruct (session_bound SessionRuns.no_date SessionRuns.no_date (UDB := MemPg.mem_pg) "u1"
    (users (SessionRuns.start ["#A"; "#B"; "#C"; "#D"; "#E"] [])) (MemPg.row "u1" ["#A"; "#B"; "#C"; "#D"; "#E"] [] 3)
    ["#A"; "#B"; "#C"; "#D"; "#E"] "#F" VUndef None ltac:(vm_compute; reflexivity) ltac:(reflexivity))
    as (u & d' & r' & rts' & H1 & _ & H2 & H3 & H4).
  exists u, d', r', rts'. split; [exact H1|]. split; [exact H2|]. split; [exact H3|]. apply H4. discriminate.
Defined.

Lemma rotate_evicts_oldest_witness :
  let s := SessionRuns.start ["#A"; "#B"; "#C"; "#D"; "#E"] [] in
  let out := run (SessionRuns.rotate "u1" "C" "x" "F" None) (λ _, SessionRuns.e) s in
  out.1 = inr true ∧ SessionRuns.tokens_of out.2 = strs ["#B"; "#D"; "#E"; "#F"].
Proof.
  cbv zeta. split; [|by vm_compute].
  apply (rotate_evicts_oldest SessionRuns.sha SessionRuns.decode SessionRuns.no_date SessionRuns.no_date
    (RKV := MemKV.mem_kv) (UDB := MemPg.mem_pg) "u1" "C" "x" "F" None (λ _, SessionRuns.e)
    (SessionRuns.start ["#A"; "#B"; "#C"; "#D"; "#E"] []) (MemPg.row "u1" ["#A"; "#B"; "#C"; "#D"; "#E"] [] 3)
    "#A" ["#B"; "#C"; "#D"; "#E"]); [by vm_compute|done|done|apply has_spec; by vm_compute
    |apply (bool_decide_unpack _); by vm_compute|apply has_false; by vm_compute].
Defined.

Lemma invalidate_spec_witness :
  let s := SessionRuns.start ["#A"; "#B"] ["j1"; "j2"] in
  let out := run (SessionRuns.invalidate "u1") (λ _, SessionRuns.e) s in
  out.1 = inr tt ∧ revocations out.2 =
    [[("jti", VStr "j1"); ("ttl_secs", VNum 900)]; [("jti", VStr "j2"); ("ttl_secs", VNum 900)]].
Proof.
  cbv zeta. destruct (invalidate_spec SessionRuns.sha SessionRuns.decode SessionRuns.no_date SessionRuns.no_date
    (RKV := MemKV.mem_kv) (UDB := MemPg.mem_pg) (λ s, s) "u1" (λ _, SessionRuns.e)
    (SessionRuns.start ["#A"; "#B"] ["j1"; "j2"]) (MemPg.row "u1" ["#A"; "#B"] ["j1"; "j2"] 3)
    [VStr "j1"; VStr "j2"] [] 3) as (H1 & H2 & _); [by vm_compute|done|done|done|done|].
  split; [exact H1|exact H2].
Defined.
