(* ===== verification/IdentityIndex.v ===== *)
(** * The identity index

    Models [uam-backend/src/db/UserIdentityIndex.ts] (the table of lookup keys
    and its Mongo-style operations), [services/identity-index.service.ts]
    (keys, resolution of e-mail addresses and OAuth ids, synchronisation with a
    user document) and [utils/email-normalize.util.ts].

    As in [UserModel], PostgreSQL is a class: [IndexDb] executes the statements
    the source sends ([render_index] gives their text) and [IndexDbLaws] states
    what the code relies on.  A WHERE clause is kept as the list of its
    conditions; [holds] is the meaning of a condition on a row.  The functions
    are programs of [Async] over any state that contains the table: every
    query is one uninterrupted piece, and reads the clock of its [Tick]. *)

From S2P Require Import Prelude CircuitConfig Json Async JsVal Columns SqlFilter Password UserModel.
#[local] Open Scope string_scope.
#[local] Open Scope list_scope.
#[local] Open Scope Z_scope.
#[local] Open Scope async_scope.

(** ** The table *)

Definition COLUMNS : list (string * string) :=
  [("key", "key"); ("kind", "kind"); ("userId", "user_id"); ("provider", "provider");
   ("verified", "verified"); ("expiresAt", "expires_at"); ("createdAt", "created_at");
   ("updatedAt", "updated_at")].

(** [COLUMNS[field] ?? field] *)
Definition index_column (field : string) : string := default field (dict_get COLUMNS field).

(** What [rowToDoc] gives; the properties keep the values of the row. *)
Record IUserIdentityIndex := {
  ix_key : val;
  ix_kind : val;
  ix_userId : val;
  ix_provider : val;
  ix_verified : val;
  ix_expiresAt : val;
  ix_createdAt : val;
  ix_updatedAt : val;
}.

Definition rowToDoc (row : object) : IUserIdentityIndex :=
  {| ix_key := obj_get row "key"; ix_kind := obj_get row "kind"; ix_userId := obj_get row "user_id";
     ix_provider := obj_get row "provider"; ix_verified := obj_get row "verified";
     ix_expiresAt := obj_get row "expires_at"; ix_createdAt := obj_get row "created_at";
     ix_updatedAt := obj_get row "updated_at" |}.

(** One condition of a WHERE clause; the number is that of its parameter. *)
Inductive comparison := CEq | CGt | CGe | CLt | CLe | CNe.

Inductive condition :=
  | Cmp (col : string) (op : comparison) (i : Z)
  | NotNull (col : string)
  | AnyOf (col : string) (i : Z)
  | NoneOf (col : string) (i : Z).

Definition op_text (op : comparison) : string :=
  match op with CEq => "=" | CGt => ">" | CGe => ">=" | CLt => "<" | CLe => "<=" | CNe => "<>" end.

Definition condition_text (c : condition) : string :=
  match c with
  | Cmp col op i => col +:+ " " +:+ op_text op +:+ " $" +:+ Z_to_string i
  | NotNull col => col +:+ " IS NOT NULL"
  | AnyOf col i => col +:+ " = ANY($" +:+ Z_to_string i +:+ ")"
  | NoneOf col i => "NOT (" +:+ col +:+ " = ANY($" +:+ Z_to_string i +:+ "))"
  end.

Definition conditions_text (l : list condition) : string := join " AND " (map condition_text l).

(** [params.push(v); clauses.push(mk params.length)] *)
Definition pushed_condition (st : list condition * list val) (v : val) (mk : Z → condition)
    : list condition * list val :=
  let params := st.2 ++ [v] in (st.1 ++ [mk (Z.of_nat (length params))], params).

(** One operator of an operator object. *)
Definition operator_condition (col : string) (st : list condition * list val) (p : string * val)
    : outcome (list condition * list val) :=
  let '(op, operand) := p in
  if String.eqb op "$gt" then Returned (pushed_condition st operand (Cmp col CGt))
  else if String.eqb op "$gte" then Returned (pushed_condition st operand (Cmp col CGe))
  else if String.eqb op "$lt" then Returned (pushed_condition st operand (Cmp col CLt))
  else if String.eqb op "$lte" then Returned (pushed_condition st operand (Cmp col CLe))
  else if String.eqb op "$ne" then
    Returned (match operand with
              | VNull => (st.1 ++ [NotNull col], st.2)
              | _ => pushed_condition st operand (Cmp col CNe)
              end)
  else if String.eqb op "$in" then Returned (pushed_condition st operand (AnyOf col))
  else if String.eqb op "$nin" then Returned (pushed_condition st operand (NoneOf col))
  else Thrown ("Unsupported operator for identity index: " +:+ op).

Fixpoint fold_outcome {A B} (f : A → B → outcome A) (a : A) (l : list B) : outcome A :=
  match l with
  | [] => Returned a
  | b :: l => let? a := f a b in fold_outcome f a l
  end.

(** [Object.entries(v)] of a value that is an object but no date: the
    indices of an array, nothing for a regular expression. *)
Definition entries_of (v : val) : option object :=
  match v with
  | VObj o => Some o
  | VArr l => Some (imap (λ i x, (Z_to_string (Z.of_nat i), x)) l)
  | VRegExp _ _ => Some []
  | _ => None
  end.

Definition field_conditions (st : list condition * list val) (p : string * val)
    : outcome (list condition * list val) :=
  let '(field, value) := p in
  let col := index_column field in
  match entries_of value with
  | Some ops => fold_outcome (operator_condition col) st ops
  | None => Returned (pushed_condition st value (Cmp col CEq))
  end.

Definition buildWhere (filter : object) (params : list val) : outcome (list condition * list val) :=
  fold_outcome field_conditions ([], params) filter.

(** ** Statements *)

Inductive index_statement :=
  | IxSelect (where_ : list condition)
  | IxSelectKey (where_ : list condition)
  | IxUpdate (cols : list string)
  | IxInsert (cols : list string)
  | IxDelete (where_ : list condition).

Definition insert_break : string := String "010"%char "                         ".

(** ["col = $i"] for the columns from the [i]-th parameter on *)
Fixpoint plain_set_list (i : Z) (cols : list string) : list string :=
  match cols with
  | [] => []
  | c :: cols => (c +:+ " = $" +:+ Z_to_string i) :: plain_set_list (i + 1) cols
  end.

Definition render_index (st : index_statement) : string :=
  match st with
  | IxSelect w => "SELECT * FROM user_identity_indexes WHERE " +:+ conditions_text w +:+ " LIMIT 1"
  | IxSelectKey w => "SELECT key FROM user_identity_indexes WHERE " +:+ conditions_text w +:+ " LIMIT 1"
  | IxUpdate cols =>
      "UPDATE user_identity_indexes SET " +:+ join ", " (plain_set_list 1 cols ++ ["updated_at = NOW()"])
      +:+ " WHERE key = $" +:+ Z_to_string (Z.of_nat (length cols) + 1)
  | IxInsert cols =>
      "INSERT INTO user_identity_indexes (" +:+ join ", " cols +:+ ")" +:+ insert_break
      +:+ "VALUES (" +:+ join ", " (holes 1 cols) +:+ ")"
  | IxDelete w => "DELETE FROM user_identity_indexes WHERE " +:+ conditions_text w
  end.

(** *** The meaning of a condition

    Columns hold texts, booleans, timestamps and NULL; a comparison with NULL
    is not true, and neither is its negation. *)

Definition sql_compare (op : comparison) (a b : val) : bool :=
  match a, b with
  | VDate x, VDate y =>
      match op with
      | CEq => x =? y | CGt => y <? x | CGe => y <=? x | CLt => x <? y | CLe => x <=? y | CNe => negb (x =? y)
      end
  | VStr x, VStr y => match op with CEq => String.eqb x y | CNe => negb (String.eqb x y) | _ => false end
  | VBool x, VBool y => match op with CEq => Bool.eqb x y | CNe => negb (Bool.eqb x y) | _ => false end
  | _, _ => false
  end.

Definition is_null (v : val) : bool := match v with VUndef | VNull => true | _ => false end.

Definition param (params : list val) (i : Z) : val := default VUndef (params !! Z.to_nat (i - 1)).

Definition holds (params : list val) (row : object) (c : condition) : bool :=
  match c with
  | Cmp col op i => sql_compare op (obj_get row col) (param params i)
  | NotNull col => negb (is_null (obj_get row col))
  | AnyOf col i => existsb (sql_compare CEq (obj_get row col)) (array_of (param params i))
  | NoneOf col i => forallb (sql_compare CNe (obj_get row col)) (array_of (param params i))
  end.

Definition matches (w : list condition) (params : list val) (row : object) : bool := forallb (holds params row) w.

(** *** The database *)

Class IndexDb := {
  idb : Type;
  entries : idb → gmap string object;
  (** the foreign key: the ids of the users table *)
  known_user : idb → string → bool;
  ipg : index_statement → list val → idb → (PgError + list object * Z) * idb;
}.

(** The row after [SET cols = vals, updated_at = NOW()], or inserted. *)
Definition written (r : object) (cols : list string) (vals : list val) : object :=
  foldl (λ r p, obj_set r p.1 p.2) r (zip cols vals).

Definition timestamps : list string := ["created_at"; "updated_at"].

(** Rows that differ at most in their timestamps. *)
Definition same_row (r r' : object) : Prop := ∀ c, c ∉ timestamps → obj_get r c = obj_get r' c.

(** The columns of an entry besides its key. *)
Definition entry_columns : list string := ["kind"; "user_id"; "verified"; "expires_at"; "provider"].

(** Values the columns accept. *)
Definition assignable (d_known : string → bool) (p : string * val) : bool :=
  let '(col, v) := p in
  if String.eqb col "kind" then match v with VStr _ => true | _ => false end
  else if String.eqb col "user_id" then match v with VStr u => d_known u | _ => false end
  else if String.eqb col "verified" then match v with VBool _ | VNull => true | _ => false end
  else if String.eqb col "expires_at" then match v with VDate _ | VNull => true | _ => false end
  else if String.eqb col "provider" then match v with VStr _ | VNull => true | _ => false end
  else false.

Definition is_str (v : val) : bool := match v with VStr _ => true | _ => false end.

(** Conditions whose parameters have the type of the column. *)
Definition well_typed (params : list val) (c : condition) : bool :=
  match c with
  | Cmp col op i =>
      if has ["key"; "kind"; "user_id"; "provider"] col then
        is_str (param params i) && match op with CEq | CNe => true | _ => false end
      else String.eqb col "expires_at" && match param params i with VDate _ => true | _ => false end
  | NotNull col => has ("key" :: entry_columns) col
  | AnyOf col i | NoneOf col i =>
      has ["key"; "kind"; "user_id"; "provider"] col
      && match param params i with VArr l => forallb is_str l | _ => false end
  end.

Class IndexDbLaws `(IndexDb) : Prop := {
  ix_key_of : ∀ d k r, entries d !! k = Some r → obj_get r "key" = VStr k;
  ix_select : ∀ w params d, w ≠ [] → forallb (well_typed params) w = true →
    (ipg (IxSelect w) params d = (inr ([], 0), d) ∧
       ∀ k r, entries d !! k = Some r → matches w params r = false) ∨
    ∃ k r, ipg (IxSelect w) params d = (inr ([r], 1), d) ∧ entries d !! k = Some r ∧ matches w params r = true;
  ix_select_key : ∀ w params d, w ≠ [] → forallb (well_typed params) w = true →
    (ipg (IxSelectKey w) params d = (inr ([], 0), d) ∧
       ∀ k r, entries d !! k = Some r → matches w params r = false) ∨
    ∃ k r, ipg (IxSelectKey w) params d = (inr ([[("key", VStr k)]], 1), d) ∧ entries d !! k = Some r ∧
           matches w params r = true;
  ix_update : ∀ cols vals k d r,
    entries d !! k = Some r → length cols = length vals → NoDup cols →
    forallb (assignable (known_user d)) (zip cols vals) = true →
    ∃ r' d', ipg (IxUpdate cols) (vals ++ [VStr k]) d = (inr ([], 1), d') ∧
             entries d' = <[k := r']> (entries d) ∧ same_row r' (written r cols vals) ∧
             known_user d' = known_user d;
  ix_insert : ∀ cols vals k d,
    entries d !! k = None → length cols = length vals → cols ≡ₚ entry_columns →
    forallb (assignable (known_user d)) (zip cols vals) = true →
    ∃ r' d', ipg (IxInsert ("key" :: cols)) (VStr k :: vals) d = (inr ([], 1), d') ∧
             entries d' = <[k := r']> (entries d) ∧ same_row r' (written [("key", VStr k)] cols vals) ∧
             known_user d' = known_user d;
  ix_delete : ∀ w params d, w ≠ [] → forallb (well_typed params) w = true →
    ∃ n d', ipg (IxDelete w) params d = (inr ([], n), d') ∧
            entries d' = filter (λ p, matches w params p.2 = false) (entries d) ∧
            known_user d' = known_user d;
}.

(** ** Programs over the table *)

(** What a piece of code reads from its surroundings. *)
Record Tick := { now : Z; uuid : string }.

Class HasIndex `{IndexDb} (St : Type) := {
  index_of : St → idb;
  with_index : idb → St → St;
  index_with : ∀ d s, index_of (with_index d s) = d;
  with_index_with : ∀ d d' s, with_index d (with_index d' s) = with_index d s;
  with_index_of : ∀ s, with_index (index_of s) s = s;
}.

Notation "'let*' x := p 'in' q" :=
  (bind p (λ r, match r with inl e => Ret (inl e) | inr x => q end))
  (at level 10, x pattern, p at level 100, q at level 200) : async_scope.

(** [new Date()] *)
Definition clock {St} : prog Tick St Z := act (λ t s, (now t, s)).

Section Operations.
Context `{IDB : IndexDb} {St : Type} {HI : HasIndex St}.

(** [await pool.query(...)] *)
Definition index_query (st : index_statement) (params : list val)
    : prog Tick St (failure + list object * Z) :=
  act (λ _ s, let '(r, d) := ipg st params (index_of s) in
              (match r with inl e => inl (Driver e) | inr x => inr x end, with_index d s)).

(** [await UserIdentityIndex.findOne(filter).lean()] *)
Definition findOne (filter : object) : prog Tick St (failure + option IUserIdentityIndex) :=
  match buildWhere filter [] with
  | Thrown e => Ret (inl (Err e))
  | Returned (w, params) =>
      let* (rows, _) := index_query (IxSelect w) params in
      Ret (inr (match rows with r :: _ => Some (rowToDoc r) | [] => None end))
  end.

Record UpdateResult := { matchedCount : Z; modifiedCount : Z; upsertedCount : Z }.

Definition null_of (v : val) : val := nullish v VNull.

(** The columns and parameters of the UPDATE for an existing row. *)
Definition update_fields (setDoc : object) (unsetKeys : list string) : object :=
  map (λ p, (index_column p.1, null_of p.2)) setDoc ++ map (λ f, (index_column f, VNull)) unsetKeys.

(** The document an upsert inserts. *)
Definition upsert_doc (filter setDoc : object) (unsetKeys : list string) : object :=
  obj_assign (obj_assign [("key", obj_get filter "key")] setDoc) (map (λ k, (k, VNull)) unsetKeys).

Definition insert_fields (doc : object) : object :=
  map (λ p, (index_column p.1, null_of p.2))
    (filter (λ p, negb (String.eqb p.1 "createdAt" || String.eqb p.1 "updatedAt") = true) doc).

(** [!key || !kind || !userId], where [kind] defaults to ['oauth'] *)
Definition incomplete (doc : object) : bool :=
  negb (truthy (obj_get doc "key")) || negb (truthy (nullish (obj_get doc "kind") (VStr "oauth")))
  || negb (truthy (obj_get doc "userId")).

(** [UserIdentityIndex.updateOne(filter, { $set, $unset }, { upsert })] *)
Definition updateOne (filter set_ : object) (unset : object) (upsert : bool)
    : prog Tick St (failure + UpdateResult) :=
  let setDoc := obj_assign [] set_ in
  let unsetKeys := obj_keys unset in
  match buildWhere filter [] with
  | Thrown e => Ret (inl (Err e))
  | Returned (w, params) =>
      let* (rows, count) := index_query (IxSelectKey w) params in
      if 0 <? count then
        match rows with
        | [] => Ret (inl (Err "TypeError"))
        | row :: _ =>
            let fields := update_fields setDoc unsetKeys in
            let* (_, n) := index_query (IxUpdate fields.*1) (fields.*2 ++ [obj_get row "key"]) in
            Ret (inr {| matchedCount := n; modifiedCount := n; upsertedCount := 0 |})
        end
      else if upsert then
        let doc := upsert_doc filter setDoc unsetKeys in
        if incomplete doc
        then Ret (inl (Err "identity index upsert requires key, kind, userId"))
        else
          let fields := insert_fields doc in
          let* _ := index_query (IxInsert fields.*1) fields.*2 in
          Ret (inr {| matchedCount := 0; modifiedCount := 0; upsertedCount := 1 |})
      else Ret (inr {| matchedCount := 0; modifiedCount := 0; upsertedCount := 0 |})
  end.

Definition deleteMany (filter : object) : prog Tick St (failure + Z) :=
  match buildWhere filter [] with
  | Thrown e => Ret (inl (Err e))
  | Returned (w, params) =>
      let* (_, n) := index_query (IxDelete w) params in
      Ret (inr n)
  end.

(** The same statement: nothing limits it to one row. *)
Definition deleteOne (filter : object) : prog Tick St (failure + Z) := deleteMany filter.
End Operations.

(** ** The service *)

Definition normalizeEmail (email : string) : string := toLowerCase (trim email).

Inductive EmailResolveMatch := MPrimary | MPrevious | MPending.

Record ResolvedEmailIdentity := { rs_userId : val; rs_match : EmailResolveMatch; rs_verified : val }.

(** The three kinds of e-mail keys. *)
Definition kind_text (m : EmailResolveMatch) : string :=
  match m with MPrimary => "primary_email" | MPrevious => "previous_email" | MPending => "pending_migration" end.

Definition oauthKey (provider providerId : string) : string := "oauth:" +:+ provider +:+ ":" +:+ providerId.

(** [!doc.expiresAt || doc.expiresAt > new Date()]; the column is a timestamp. *)
Definition isActive (doc : IUserIdentityIndex) (t : Z) : bool :=
  match ix_expiresAt doc with
  | VDate e => t <? e
  | v => negb (truthy v)
  end.

(** [f && e && e > new Date()] for a text and a timestamp field *)
Definition pending (f e : val) (t : Z) : bool :=
  truthy f && match e with VDate x => t <? x | _ => false end.

Section Service.
Context (hmac_sha256_hex : string → string → string).
(** [process.env.EMAIL_INDEX_SECRET] and [config.jwt.accessSecret] *)
Context (EMAIL_INDEX_SECRET : option string) (accessSecret : string).
Context (Date_toString : Z → string).
Context `{IDB : IndexDb} {St : Type} {HI : HasIndex St}.

Definition indexSecret : string :=
  match EMAIL_INDEX_SECRET with
  | Some s => if String.eqb s "" then accessSecret else s
  | None => accessSecret
  end.

Definition emailKey (kind : EmailResolveMatch) (email : string) : string :=
  let digest := hmac_sha256_hex indexSecret (normalizeEmail email) in
  kind_text kind +:+ ":" +:+ digest.

(** One round of the loop over the kinds. *)
Fixpoint resolve_kinds (kinds : list EmailResolveMatch) (normalized : string)
    : prog Tick St (failure + option ResolvedEmailIdentity) :=
  match kinds with
  | [] => Ret (inr None)
  | m :: kinds =>
      let* doc := findOne [("key", VStr (emailKey m normalized))] in
      match doc with
      | None => resolve_kinds kinds normalized
      | Some doc =>
          let! t := clock in
          if isActive doc t then
            Ret (inr (Some {| rs_userId := ix_userId doc; rs_match := m; rs_verified := ix_verified doc |}))
          else resolve_kinds kinds normalized
      end
  end.

Definition resolveEmailIdentity (email : string) : prog Tick St (failure + option ResolvedEmailIdentity) :=
  resolve_kinds [MPrimary; MPrevious; MPending] (normalizeEmail email).

Definition findUserIdByPrimaryEmail (email : string) : prog Tick St (failure + option val) :=
  let* doc := findOne [("key", VStr (emailKey MPrimary email))] in
  match doc with
  | None => Ret (inr None)
  | Some doc =>
      let! t := clock in
      Ret (inr (if isActive doc t then Some (ix_userId doc) else None))
  end.

Definition findPendingMigrationHolder (email : string) : prog Tick St (failure + option val) :=
  let! t := clock in
  let* doc := findOne [("key", VStr (emailKey MPending email)); ("expiresAt", VObj [("$gt", VDate t)])] in
  Ret (inr (match doc with Some doc => Some (ix_userId doc) | None => None end)).

Definition findUserIdByOAuth (provider providerId : string) : prog Tick St (failure + option val) :=
  let* doc := findOne [("key", VStr (oauthKey provider providerId))] in
  Ret (inr (match doc with Some doc => Some (ix_userId doc) | None => None end)).

Definition releaseUserIdentityIndexes (userId : string) : prog Tick St (failure + unit) :=
  let* _ := deleteMany [("userId", VStr userId)] in Ret (inr tt).

Definition releasePrimaryEmail (email : string) : prog Tick St (failure + unit) :=
  let* _ := deleteOne [("key", VStr (emailKey MPrimary email))] in Ret (inr tt).

Definition clearPendingMigration (email : string) : prog Tick St (failure + unit) :=
  let* _ := deleteOne [("key", VStr (emailKey MPending email))] in Ret (inr tt).

Definition clearPreviousEmail (email : string) : prog Tick St (failure + unit) :=
  let* _ := deleteOne [("key", VStr (emailKey MPrevious email))] in Ret (inr tt).

(** *** Synchronisation *)

(** [email.trim()] needs a string. *)
Definition email_key_of (kind : EmailResolveMatch) (email : val) : outcome string :=
  match email with VStr s => Returned (emailKey kind s) | _ => Thrown "TypeError" end.

(** The template literal prints its operands. *)
Definition oauth_key_of (user : User) : string :=
  oauthKey (to_string Date_toString (user_get user "provider")) (to_string Date_toString (user_get user "providerId")).

Definition has_previous (user : User) (t : Z) : bool :=
  pending (user_get user "previousEmail") (user_get user "migrationExpiry") t.

Definition has_pending (user : User) (t : Z) : bool :=
  pending (user_get user "newEmailPending") (user_get user "migrationTokenExpires") t.

Definition has_oauth (user : User) : bool :=
  negb (strict_eq (user_get user "provider") (VStr "local")) && truthy (user_get user "providerId").

Definition expectedKeysForUser (user : User) (t : Z) : outcome (list string) :=
  let? k := email_key_of MPrimary (user_get user "email") in
  let keys := set_add [] k in
  let? keys := if has_previous user t
               then let? k := email_key_of MPrevious (user_get user "previousEmail") in Returned (set_add keys k)
               else Returned keys in
  let? keys := if has_pending user t
               then let? k := email_key_of MPending (user_get user "newEmailPending") in Returned (set_add keys k)
               else Returned keys in
  Returned (if has_oauth user then set_add keys (oauth_key_of user) else keys).

(** [await UserIdentityIndex.updateOne({ key }, { $set, $unset }, { upsert: true })]; computing the key may throw. *)
Definition upsert (key : outcome string) (set_ unset : object) : prog Tick St (failure + UpdateResult) :=
  match key with
  | Thrown e => Ret (inl (Err e))
  | Returned k => updateOne [("key", VStr k)] set_ unset true
  end.

Definition when (b : bool) (p : prog Tick St (failure + UpdateResult)) : prog Tick St (failure + unit) :=
  if b then let* _ := p in Ret (inr tt) else Ret (inr tt).

Definition syncIdentityIndexesFromUser (user : User) : prog Tick St (failure + unit) :=
  let userId := user_get user "_id" in
  let! t := clock in
  match expectedKeysForUser user t with
  | Thrown e => Ret (inl (Err e))
  | Returned expected =>
      let* _ := upsert (email_key_of MPrimary (user_get user "email"))
        [("kind", VStr "primary_email"); ("userId", userId);
         ("verified", VBool (strict_eq (user_get user "isEmailVerified") (VBool true)))]
        [("expiresAt", VStr ""); ("provider", VStr "")] in
      let! t := clock in
      let* _ := when (has_previous user t) (upsert (email_key_of MPrevious (user_get user "previousEmail"))
        [("kind", VStr "previous_email"); ("userId", userId); ("expiresAt", user_get user "migrationExpiry")]
        [("verified", VStr ""); ("provider", VStr "")]) in
      let! t := clock in
      let* _ := when (has_pending user t) (upsert (email_key_of MPending (user_get user "newEmailPending"))
        [("kind", VStr "pending_migration"); ("userId", userId); ("expiresAt", user_get user "migrationTokenExpires")]
        [("verified", VStr ""); ("provider", VStr "")]) in
      let* _ := when (has_oauth user) (upsert (Returned (oauth_key_of user))
        [("kind", VStr "oauth"); ("userId", userId); ("provider", user_get user "provider")]
        [("verified", VStr ""); ("expiresAt", VStr "")]) in
      let* _ := deleteMany [("userId", userId); ("key", VObj [("$nin", VArr (map VStr expected))])] in
      Ret (inr tt)
  end.
End Service.

(** ** Facts *)

#[local] Arguments COLUMNS : simpl never.

Lemma written_get r (l : object) c :
  NoDup (obj_keys l) →
  obj_get (written r l.*1 l.*2) c = match obj_lookup l c with Some v => v | None => obj_get r c end.
Proof.
  unfold written. rewrite zip_fst_snd. revert r. induction l as [|[k v] l IH]; intros r Hnd; [done|].
  cbn in Hnd. apply NoDup_cons in Hnd as [Hk Hnd]. cbn [foldl fst snd obj_lookup]. rewrite (IH _ Hnd).
  destruct (String.eqb_spec k c) as [->|Hne].
  - apply obj_lookup_none in Hk. rewrite Hk. apply obj_get_set_eq.
  - destruct (obj_lookup l c); [done|]. by apply obj_get_set_ne.
Qed.

(** The row of key [k] whose other columns are [fields]. *)
Definition row_of (k : string) (fields r : object) : Prop :=
  obj_get r "key" = VStr k ∧ Forall (λ c, obj_get r c = obj_get fields c) entry_columns.

Section Facts.
Context `{IDB : IndexDb} {L : IndexDbLaws IDB} {St : Type} {HI : HasIndex St}.
Context (P : Tick → St → Prop).

Definition by_key : list condition := [Cmp "key" CEq 1].

Lemma matches_by_key d k k' r :
  entries d !! k' = Some r → matches by_key [VStr k] r = String.eqb k' k.
Proof. intros H. cbn. rewrite (ix_key_of _ _ _ H). cbn. by rewrite andb_true_r. Qed.

Lemma always_query {A} st params x d' (k : failure + list object * Z → prog Tick St A) s Q :
  ipg st params (index_of s) = (inr x, d') → always P (k (inr x)) (with_index d' s) Q →
  always P (bind (index_query st params) k) s Q.
Proof. intros H Hk. apply always_act. intros e _. cbn. by rewrite H. Qed.

Lemma always_clock {A} (k : Z → prog Tick St A) s Q :
  (∀ e, P e s → always P (k (now e)) s Q) → always P (bind clock k) s Q.
Proof. intros H. apply always_act. intros e He. by apply H. Qed.

(** [findOne] by key reads the entry. *)
Lemma findOne_key {A} k (K : failure + option IUserIdentityIndex → prog Tick St A) s Q :
  always P (K (inr (rowToDoc <$> entries (index_of s) !! k))) s Q →
  always P (bind (findOne [("key", VStr k)]) K) s Q.
Proof.
  intros HK. unfold findOne.
  change (buildWhere [("key", VStr k)] []) with (Returned (by_key, [VStr k])).
  apply always_bind. destruct (ix_select by_key [VStr k] (index_of s)) as [[H Hno]|(k' & r & H & Hr & Hm)]; try done;
    (eapply always_query; [exact H|]); rewrite with_index_of; apply always_ret.
  - destruct (entries (index_of s) !! k) as [r|] eqn:E; [|done]. specialize (Hno _ _ E).
    rewrite (matches_by_key _ _ _ _ E), String.eqb_refl in Hno. done.
  - rewrite (matches_by_key _ _ _ _ Hr) in Hm. apply String.eqb_eq in Hm as ->. by rewrite Hr in HK.
Qed.

(** An upsert by key writes the fields, whether the entry existed or not. *)
Lemma updateOne_upsert {A} k set_ unset doc fields (K : failure + UpdateResult → prog Tick St A) s Q :
  upsert_doc [("key", VStr k)] (obj_assign [] set_) (obj_keys unset) = doc → incomplete doc = false →
  insert_fields doc = ("key", VStr k) :: fields →
  obj_keys fields ≡ₚ entry_columns →
  forallb (assignable (known_user (index_of s))) fields = true →
  update_fields (obj_assign [] set_) (obj_keys unset) = fields →
  (∀ res d' r', entries d' = <[k := r']> (entries (index_of s)) → row_of k fields r' →
     known_user d' = known_user (index_of s) → always P (K (inr res)) (with_index d' s) Q) →
  always P (bind (updateOne [("key", VStr k)] set_ unset true) K) s Q.
Proof.
  intros Hdoc Hok Hins Hcols Has Hupd HK. unfold updateOne.
  change (buildWhere [("key", VStr k)] []) with (Returned (by_key, [VStr k])).
  assert (Hnd : NoDup (obj_keys fields)).
  { rewrite Hcols. apply (bool_decide_unpack _). by vm_compute. }
  assert (Hget : ∀ r r', same_row r' (written r fields.*1 fields.*2) → obj_get r "key" = VStr k → row_of k fields r').
  { intros r r' Hs Hr. split.
    - rewrite Hs by (apply has_false; by vm_compute). rewrite (written_get _ _ _ Hnd).
      destruct (obj_lookup fields "key") eqn:E; [|done]. exfalso.
      assert (Hin : "key" ∉ entry_columns) by (apply has_false; by vm_compute). rewrite <- Hcols in Hin.
      apply obj_lookup_none in Hin. congruence.
    - apply Forall_forall. intros c Hc. assert (Hc' : c ∉ timestamps).
      { intros Ht. apply has_spec in Ht. apply has_spec in Hc. unfold has in Ht, Hc. cbn in Ht, Hc.
        rewrite !orb_true_iff, !String.eqb_eq in Ht. destruct Ht as [->|[->|?]]; done. }
      rewrite (Hs c Hc'), (written_get _ _ _ Hnd). unfold obj_get at 2. rewrite <- Hcols in Hc.
      destruct (obj_lookup fields c) eqn:E; [done|]. apply obj_lookup_none in E. done. }
  apply always_bind.
  destruct (ix_select_key by_key [VStr k] (index_of s)) as [[H Hno]|(k' & r & H & Hr & Hm)]; try done;
    (eapply always_query; [exact H|]); rewrite with_index_of; cbn match.
  - change (0 <? 0) with false. cbn match. rewrite Hdoc, Hok, Hins.
    assert (Habs : entries (index_of s) !! k = None).
    { destruct (entries (index_of s) !! k) as [r|] eqn:E; [|done]. specialize (Hno _ _ E).
      by rewrite (matches_by_key _ _ _ _ E), String.eqb_refl in Hno. }
    destruct (ix_insert fields.*1 fields.*2 k (index_of s) Habs) as (r' & d' & Hpg & Hent & Hsame & Hknown).
    { by rewrite !length_fmap. } { done. } { by rewrite zip_fst_snd. }
    eapply always_query; [exact Hpg|]. apply always_ret. eapply HK; eauto.
  - rewrite (matches_by_key _ _ _ _ Hr) in Hm. apply String.eqb_eq in Hm as ->.
    change (0 <? 1) with true. cbn match. rewrite Hupd. change (obj_get [("key", VStr k)] "key") with (VStr k).
    destruct (ix_update fields.*1 fields.*2 k (index_of s) r Hr) as (r' & d' & Hpg & Hent & Hsame & Hknown).
    { by rewrite !length_fmap. } { done. } { by rewrite zip_fst_snd. }
    eapply always_query; [exact Hpg|]. apply always_ret.
    eapply HK; eauto using ix_key_of.
Qed.

(** *** Several upserts *)

Fixpoint assoc {A} (l : list (string * A)) (k : string) : option A :=
  match l with
  | [] => None
  | (k', a) :: l => if String.eqb k' k then Some a else assoc l k
  end.

Lemma assoc_snoc {A} (l : list (string * A)) k a k' :
  assoc l k = None → assoc (l ++ [(k, a)]) k' = if String.eqb k k' then Some a else assoc l k'.
Proof.
  induction l as [|[q b] l IH]; cbn; [done|]. destruct (String.eqb_spec q k) as [->|Hq]; [done|].
  intros H. rewrite (IH H). destruct (String.eqb_spec q k') as [->|]; [|done].
  destruct (String.eqb_spec k k'); [congruence|done].
Qed.

(** From [s] to [s'], exactly the entries of [l] were written. *)
Definition progressed (s : St) (l : list (string * object)) (s' : St) : Prop :=
  known_user (index_of s') = known_user (index_of s) ∧
  (∃ d', s' = with_index d' s) ∧
  ∀ k, match assoc l k with
       | Some f => ∃ r, entries (index_of s') !! k = Some r ∧ row_of k f r
       | None => entries (index_of s') !! k = entries (index_of s) !! k
       end.

Lemma progressed_refl s : progressed s [] s.
Proof. split; [done|]. split; [exists (index_of s); by rewrite with_index_of|done]. Qed.

Definition index_entry (kind uid : string) (verified expires provider : val) : object :=
  [("kind", VStr kind); ("user_id", VStr uid); ("verified", verified); ("expires_at", expires); ("provider", provider)].

(** What makes [set_] and [unset] write [entry] under the key [k]. *)
Definition writes (known : string → bool) (k : string) (set_ unset entry : object) : Prop :=
  let doc := upsert_doc [("key", VStr k)] (obj_assign [] set_) (obj_keys unset) in
  let fields := update_fields (obj_assign [] set_) (obj_keys unset) in
  incomplete doc = false ∧ insert_fields doc = ("key", VStr k) :: fields ∧
  obj_keys fields ≡ₚ entry_columns ∧ forallb (assignable known) fields = true ∧
  Forall (λ c, obj_get fields c = obj_get entry c) entry_columns.

Lemma upsert_step {A} s l s1 k set_ unset entry (K : failure + UpdateResult → prog Tick St A) Q :
  progressed s l s1 → assoc l k = None → writes (known_user (index_of s)) k set_ unset entry →
  (∀ res s2, progressed s (l ++ [(k, entry)]) s2 → always P (K (inr res)) s2 Q) →
  always P (bind (upsert (Returned k) set_ unset) K) s1 Q.
Proof.
  intros (Hknown & [d1 ->] & Hent) Hk (Hok & Hins & Hcols & Has & Hf) HK.
  eapply updateOne_upsert; try done; [by rewrite Hknown|].
  intros res d' r' Hent' [Hrk Hrow] Hknown'. apply HK. rewrite with_index_with. split; [|split].
  - rewrite index_with. congruence.
  - eauto.
  - intros k'. rewrite (assoc_snoc _ _ _ _ Hk), index_with, Hent'. destruct (String.eqb_spec k k') as [->|Hne].
    + exists r'. rewrite lookup_insert_eq. split; [done|]. split; [done|].
      rewrite Forall_forall in *. intros c Hc. rewrite (Hrow c Hc). by apply Hf.
    + specialize (Hent k'). rewrite lookup_insert_ne by done. done.
Qed.

Lemma when_step {A} (b : bool) s l s1 key k set_ unset entry (K : failure + unit → prog Tick St A) Q :
  progressed s l s1 →
  (b = true → key = Returned k ∧ assoc l k = None ∧ writes (known_user (index_of s)) k set_ unset entry) →
  (∀ s2, progressed s (l ++ if b then [(k, entry)] else []) s2 → always P (K (inr tt)) s2 Q) →
  always P (bind (when b (upsert key set_ unset)) K) s1 Q.
Proof.
  intros Hp Hb HK. destruct b; cbn [when].
  - destruct (Hb eq_refl) as (-> & Hk & Hw). apply always_bind. eapply upsert_step; [done..|].
    intros res s2 Hp2. apply always_ret. by apply HK.
  - apply HK. by rewrite app_nil_r.
Qed.

(** The entry belongs to the user. *)
Definition owned (uid : string) (r : object) : bool := sql_compare CEq (obj_get r "user_id") (VStr uid).

(** Pruning: of the user's entries only those under the given keys stay. *)
Lemma prune_step {A} uid keys (K : failure + Z → prog Tick St A) s Q :
  (∀ n d', known_user d' = known_user (index_of s) →
     (∀ k, entries d' !! k = match entries (index_of s) !! k with
                             | Some r => if owned uid r && negb (has keys k) then None else Some r
                             | None => None
                             end) →
     always P (K (inr n)) (with_index d' s) Q) →
  always P (bind (deleteMany [("userId", VStr uid); ("key", VObj [("$nin", VArr (map VStr keys))])]) K) s Q.
Proof.
  intros HK. unfold deleteMany. set (w := [Cmp "user_id" CEq 1; NoneOf "key" 2]).
  change (buildWhere _ []) with (Returned (w, [VStr uid; VArr (map VStr keys)])).
  apply always_bind. destruct (ix_delete w [VStr uid; VArr (map VStr keys)] (index_of s)) as (n & d' & Hpg & Hent & Hkn);
    [done| |].
  { change (forallb is_str (map VStr keys) && true = true). rewrite andb_true_r. apply forallb_forall. intros v Hv. apply in_map_iff in Hv as (x & <- & _). done. }
  eapply always_query; [exact Hpg|]. apply always_ret. apply HK; [done|]. intros k. rewrite Hent.
  destruct (entries (index_of s) !! k) as [r|] eqn:E.
  - assert (Hm : matches w [VStr uid; VArr (map VStr keys)] r = owned uid r && negb (has keys k)).
    { change (matches w [VStr uid; VArr (map VStr keys)] r) with
        (owned uid r && (forallb (sql_compare CNe (obj_get r "key")) (map VStr keys) && true)).
      rewrite (ix_key_of _ _ _ E), andb_true_r. f_equal. clear.
      induction keys as [|x keys IH]; [done|]. cbn. rewrite IH. by destruct (String.eqb k x). }
    rewrite <- Hm. destruct (matches w _ r) eqn:Em.
    + apply map_lookup_filter_None. right. intros r' Hr'. rewrite E in Hr'. injection Hr' as <-.
      change (matches w [VStr uid; VArr (map VStr keys)] r ≠ false). by rewrite Em.
    + apply map_lookup_filter_Some. done.
  - apply map_lookup_filter_None. by left.
Qed.
(** Releasing: all entries of the user go. *)
Lemma release_step {A} uid (K : failure + Z → prog Tick St A) s Q :
  (∀ n d', known_user d' = known_user (index_of s) →
     (∀ k, entries d' !! k = match entries (index_of s) !! k with
                             | Some r => if owned uid r then None else Some r
                             | None => None
                             end) →
     always P (K (inr n)) (with_index d' s) Q) →
  always P (bind (deleteMany [("userId", VStr uid)]) K) s Q.
Proof.
  intros HK. unfold deleteMany. set (w := [Cmp "user_id" CEq 1]).
  change (buildWhere _ []) with (Returned (w, [VStr uid])).
  apply always_bind. destruct (ix_delete w [VStr uid] (index_of s)) as (n & d' & Hpg & Hent & Hkn); [done|done|].
  eapply always_query; [exact Hpg|]. apply always_ret. apply HK; [done|]. intros k. rewrite Hent.
  rewrite map_lookup_filter. destruct (entries (index_of s) !! k) as [r|]; [|done]. cbn -[matches].
  assert (Hm : matches w [VStr uid] r = owned uid r) by (cbn; by rewrite andb_true_r).
  rewrite Hm. destruct (owned uid r); by case_guard.
Qed.

(** [findOne] by key of an entry that has not expired *)
Lemma findOne_live {A} k t (K : failure + option IUserIdentityIndex → prog Tick St A) s Q :
  always P (K (inr (match entries (index_of s) !! k with
                    | Some r => if sql_compare CGt (obj_get r "expires_at") (VDate t) then Some (rowToDoc r) else None
                    | None => None
                    end))) s Q →
  always P (bind (findOne [("key", VStr k); ("expiresAt", VObj [("$gt", VDate t)])]) K) s Q.
Proof.
  intros HK. unfold findOne. set (w := [Cmp "key" CEq 1; Cmp "expires_at" CGt 2]).
  change (buildWhere _ []) with (Returned (w, [VStr k; VDate t])).
  assert (Hm : ∀ k' r, entries (index_of s) !! k' = Some r →
    matches w [VStr k; VDate t] r = String.eqb k' k && sql_compare CGt (obj_get r "expires_at") (VDate t)).
  { intros k' r Hr. cbn. rewrite (ix_key_of _ _ _ Hr). cbn. by rewrite andb_true_r. }
  apply always_bind. destruct (ix_select w [VStr k; VDate t] (index_of s)) as [[H Hno]|(k' & r & H & Hr & Hsel)]; try done;
    (eapply always_query; [exact H|]); rewrite with_index_of; apply always_ret.
  - destruct (entries (index_of s) !! k) as [r|] eqn:E; [|done]. specialize (Hno _ _ E).
    rewrite (Hm _ _ E), String.eqb_refl in Hno. cbn [andb] in Hno. by rewrite Hno in HK.
  - rewrite (Hm _ _ Hr) in Hsel. apply andb_true_iff in Hsel as [Hk Hx]. apply String.eqb_eq in Hk as ->.
    rewrite Hr, Hx in HK. exact HK.
Qed.
End Facts.

(** ** Normalisation *)

Lemma is_ws_lower c : is_ws (lower_ascii c) = is_ws c.
Proof. by destruct c as [[] [] [] [] [] [] [] []]. Qed.

Lemma lower_lower c : lower_ascii (lower_ascii c) = lower_ascii c.
Proof. by destruct c as [[] [] [] [] [] [] [] []]. Qed.

Lemma toLowerCase_idem s : toLowerCase (toLowerCase s) = toLowerCase s.
Proof. induction s as [|c s IH]; [done|]. cbn. by rewrite IH, lower_lower. Qed.

Lemma trim_start_lower s : trim_start (toLowerCase s) = toLowerCase (trim_start s).
Proof. induction s as [|c s IH]; [done|]. cbn. rewrite is_ws_lower. by destruct (is_ws c). Qed.

Lemma trim_end_lower s : trim_end (toLowerCase s) = toLowerCase (trim_end s).
Proof.
  induction s as [|c s IH]; [done|]. cbn. rewrite IH, is_ws_lower.
  destruct (trim_end s); cbn; [|done]. by destruct (is_ws c).
Qed.

Lemma trim_start_idem s : trim_start (trim_start s) = trim_start s.
Proof. induction s as [|c s IH]; [done|]. cbn. destruct (is_ws c) eqn:E; [done|]. cbn. by rewrite E. Qed.

Lemma trim_end_idem s : trim_end (trim_end s) = trim_end s.
Proof.
  induction s as [|c s IH]; [done|]. cbn. destruct (trim_end s) as [|d t] eqn:E.
  - destruct (is_ws c) eqn:Ec; [done|]. cbn. by rewrite Ec.
  - remember (String d t) as u. cbn. rewrite IH. by subst u.
Qed.

Lemma trim_end_start s : trim_end (trim_start s) = trim_start (trim_end s).
Proof.
  induction s as [|c s IH]; [done|]. cbn. destruct (is_ws c) eqn:Ec.
  - rewrite IH. destruct (trim_end s) as [|d t]; [done|]. remember (String d t) as u. cbn. by rewrite Ec.
  - cbn. destruct (trim_end s) as [|d t]; cbn; by rewrite Ec.
Qed.

Lemma normalizeEmail_idem s : normalizeEmail (normalizeEmail s) = normalizeEmail s.
Proof.
  unfold normalizeEmail, trim. rewrite trim_end_lower, trim_start_lower, toLowerCase_idem.
  by rewrite trim_end_start, trim_end_idem, trim_start_idem.
Qed.

(** ** Synchronisation *)

(** A text field: a non-empty string, or nothing. *)
Definition text (v : val) : Prop := truthy v = true → ∃ s, v = VStr s.

(** A document as it is loaded: the columns have these types. *)
Record indexable (user : User) (uid email : string) : Prop := {
  ixb_id : user_get user "_id" = VStr uid;
  ixb_id_nonempty : uid ≠ "";
  ixb_email : user_get user "email" = VStr email;
  ixb_previous : text (user_get user "previousEmail");
  ixb_pending : text (user_get user "newEmailPending");
  ixb_provider : ∃ p, user_get user "provider" = VStr p;
  ixb_providerId : text (user_get user "providerId");
}.

Lemma pending_fields f e t : pending f e t = true → text f → ∃ s x, f = VStr s ∧ e = VDate x.
Proof. intros [Hf He]%andb_true_iff Ht. destruct (Ht Hf) as [s ->]. destruct e; try done. eauto. Qed.

(** The string a text field holds. *)
Definition text_of (v : val) : string := match v with VStr s => s | _ => "" end.

Section Sync.
Context (hmac_sha256_hex : string → string → string) (EMAIL_INDEX_SECRET : option string) (accessSecret : string).
Context (Date_toString : Z → string).
Context `{IDB : IndexDb} {L : IndexDbLaws IDB} {St : Type} {HI : HasIndex St}.
Local Abbreviation emailKey := (emailKey hmac_sha256_hex EMAIL_INDEX_SECRET accessSecret).
Local Abbreviation sync := (syncIdentityIndexesFromUser hmac_sha256_hex EMAIL_INDEX_SECRET accessSecret Date_toString).

(** The reservations of the user neither start nor expire during the run. *)
Definition steady (user : User) (previous waiting : bool) (e : Tick) (_ : St) : Prop :=
  has_previous user (now e) = previous ∧ has_pending user (now e) = waiting.

(** The entries a document stands for. *)
Definition primary_entry (user : User) (uid email : string) : string * object :=
  (emailKey MPrimary email,
   index_entry "primary_email" uid (VBool (strict_eq (user_get user "isEmailVerified") (VBool true))) VNull VNull).

Definition previous_entry (user : User) (uid : string) : string * object :=
  (emailKey MPrevious (text_of (user_get user "previousEmail")),
   index_entry "previous_email" uid VNull (user_get user "migrationExpiry") VNull).

Definition pending_entry (user : User) (uid : string) : string * object :=
  (emailKey MPending (text_of (user_get user "newEmailPending")),
   index_entry "pending_migration" uid VNull (user_get user "migrationTokenExpires") VNull).

Definition oauth_entry (user : User) (uid : string) : string * object :=
  (oauth_key_of Date_toString user, index_entry "oauth" uid VNull VNull (user_get user "provider")).

Definition expected_entries (user : User) (uid email : string) (previous waiting : bool) : list (string * object) :=
  ((([primary_entry user uid email] ++ (if previous then [previous_entry user uid] else []))
    ++ (if waiting then [pending_entry user uid] else []))
   ++ (if has_oauth user then [oauth_entry user uid] else [])).

Lemma expectedKeys_spec user uid email t :
  indexable user uid email →
  expectedKeysForUser hmac_sha256_hex EMAIL_INDEX_SECRET accessSecret Date_toString user t =
  Returned (expected_entries user uid email (has_previous user t) (has_pending user t)).*1.
Proof.
  intros Hu. unfold expectedKeysForUser. rewrite (ixb_email _ _ _ Hu). cbn [email_key_of outcome_bind].
  unfold expected_entries, primary_entry, previous_entry, pending_entry, oauth_entry.
  assert (Hp : has_previous user t = true → ∃ s, user_get user "previousEmail" = VStr s).
  { intros [H _]%andb_true_iff. by apply (ixb_previous _ _ _ Hu). }
  assert (Hq : has_pending user t = true → ∃ s, user_get user "newEmailPending" = VStr s).
  { intros [H _]%andb_true_iff. by apply (ixb_pending _ _ _ Hu). }
  destruct (has_previous user t), (has_pending user t);
    repeat match goal with H : true = true → _ |- _ => destruct (H eq_refl) as [? ->]; clear H end;
    cbn [email_key_of outcome_bind text_of]; destruct (has_oauth user); reflexivity.
Qed.

(** The three shapes of an upsert write their entries. *)
Lemma complete_doc k kind uid rest :
  k ≠ "" → kind ≠ "" → uid ≠ "" →
  incomplete (("key", VStr k) :: ("kind", VStr kind) :: ("userId", VStr uid) :: rest) = false.
Proof. intros Hk Hkind Huid. unfold incomplete. cbn. apply String.eqb_neq in Hk as ->, Hkind as ->, Huid as ->. done. Qed.

Ltac solve_writes :=
  intros Hk Hkind Huid Hknown; split; [by apply complete_doc|]; split; [reflexivity|];
  split; [cbn; solve_Permutation|]; split; [by cbn; rewrite Hknown|]; repeat constructor.

Lemma writes_verified known k kind uid b :
  k ≠ "" → kind ≠ "" → uid ≠ "" → known uid = true →
  writes known k [("kind", VStr kind); ("userId", VStr uid); ("verified", VBool b)]
    [("expiresAt", VStr ""); ("provider", VStr "")] (index_entry kind uid (VBool b) VNull VNull).
Proof. solve_writes. Qed.

Lemma writes_expiring known k kind uid x :
  k ≠ "" → kind ≠ "" → uid ≠ "" → known uid = true →
  writes known k [("kind", VStr kind); ("userId", VStr uid); ("expiresAt", VDate x)]
    [("verified", VStr ""); ("provider", VStr "")] (index_entry kind uid VNull (VDate x) VNull).
Proof. solve_writes. Qed.

Lemma writes_provider known k kind uid p :
  k ≠ "" → kind ≠ "" → uid ≠ "" → known uid = true →
  writes known k [("kind", VStr kind); ("userId", VStr uid); ("provider", VStr p)]
    [("verified", VStr ""); ("expiresAt", VStr "")] (index_entry kind uid VNull VNull (VStr p)).
Proof. solve_writes. Qed.

Section Document.
Context (user : User) (uid email : string) (Hu : indexable user uid email).
Local Abbreviation key_of := (email_key_of hmac_sha256_hex EMAIL_INDEX_SECRET accessSecret).

Lemma previous_writes known t :
  has_previous user t = true → known uid = true →
  key_of MPrevious (user_get user "previousEmail") = Returned (previous_entry user uid).1 ∧
  writes known (previous_entry user uid).1
    [("kind", VStr "previous_email"); ("userId", VStr uid); ("expiresAt", user_get user "migrationExpiry")]
    [("verified", VStr ""); ("provider", VStr "")] (previous_entry user uid).2.
Proof.
  intros Hb Hk. destruct (pending_fields _ _ _ Hb (ixb_previous _ _ _ Hu)) as (p & x & Hp & Hx).
  unfold previous_entry. rewrite Hp, Hx. split; [done|]. apply writes_expiring; try done. apply (ixb_id_nonempty _ _ _ Hu).
Qed.

Lemma pending_writes known t :
  has_pending user t = true → known uid = true →
  key_of MPending (user_get user "newEmailPending") = Returned (pending_entry user uid).1 ∧
  writes known (pending_entry user uid).1
    [("kind", VStr "pending_migration"); ("userId", VStr uid); ("expiresAt", user_get user "migrationTokenExpires")]
    [("verified", VStr ""); ("provider", VStr "")] (pending_entry user uid).2.
Proof.
  intros Hb Hk. destruct (pending_fields _ _ _ Hb (ixb_pending _ _ _ Hu)) as (p & x & Hp & Hx).
  unfold pending_entry. rewrite Hp, Hx. split; [done|]. apply writes_expiring; try done. apply (ixb_id_nonempty _ _ _ Hu).
Qed.

Lemma oauth_writes known :
  known uid = true →
  writes known (oauth_entry user uid).1
    [("kind", VStr "oauth"); ("userId", VStr uid); ("provider", user_get user "provider")]
    [("verified", VStr ""); ("expiresAt", VStr "")] (oauth_entry user uid).2.
Proof.
  intros Hk. unfold oauth_entry. destruct (ixb_provider _ _ _ Hu) as [p ->].
  apply writes_provider; try done. apply (ixb_id_nonempty _ _ _ Hu).
Qed.

(** Keys of different kinds differ in their prefix. *)
Lemma entries_fresh (previous waiting : bool) :
  assoc [primary_entry user uid email] (previous_entry user uid).1 = None ∧
  assoc ([primary_entry user uid email] ++ if previous then [previous_entry user uid] else [])
    (pending_entry user uid).1 = None ∧
  assoc (([primary_entry user uid email] ++ if previous then [previous_entry user uid] else [])
          ++ if waiting then [pending_entry user uid] else []) (oauth_entry user uid).1 = None.
Proof. split; [reflexivity|]. split; [by destruct previous|]. by destruct previous, waiting. Qed.

Lemma assoc_none {A} (l : list (string * A)) k : assoc l k = None ↔ has l.*1 k = false.
Proof.
  induction l as [|[q a] l IH]; [done|]. cbn. rewrite (String.eqb_sym k q).
  destruct (String.eqb q k); [done|]. apply IH.
Qed.
End Document.

(** Synchronising the index, on its own, succeeds and leaves exactly the
    entries the document stands for. *)
Lemma sync_entries user uid email previous waiting s :
  indexable user uid email → known_user (index_of s) uid = true →
  always (steady user previous waiting) (sync user) s (λ res s',
    res = inr tt ∧ (∃ d', s' = with_index d' s ∧ known_user d' = known_user (index_of s)) ∧
    ∀ k, match assoc (expected_entries user uid email previous waiting) k with
         | Some f => ∃ r, entries (index_of s') !! k = Some r ∧ row_of k f r
         | None => entries (index_of s') !! k =
                   match entries (index_of s) !! k with
                   | Some r => if owned uid r then None else Some r
                   | None => None
                   end
         end).
Proof.
  intros Hu Hknown. unfold syncIdentityIndexesFromUser. rewrite (ixb_id _ _ _ Hu), (ixb_email _ _ _ Hu).
  destruct (entries_fresh user uid email previous waiting) as (Hf1 & Hf2 & Hf3).
  apply always_clock. intros e [He1 He2]. rewrite (expectedKeys_spec _ _ _ _ Hu), He1, He2. cbn [email_key_of].
  eapply upsert_step with (l := []) (s := s) (entry := (primary_entry user uid email).2);
    [by apply progressed_refl|done|by apply writes_verified; try done; apply (ixb_id_nonempty _ _ _ Hu)|].
  intros _ s1 H1. apply always_clock. clear e He1 He2. intros e [He1 He2]. rewrite He1.
  eapply when_step with (k := (previous_entry user uid).1); [exact H1| |].
  { intros ->. destruct (previous_writes _ _ _ Hu _ _ He1 Hknown). done. }
  intros s2 H2. apply always_clock. clear e He1 He2. intros e [He1 He2]. rewrite He2.
  eapply when_step with (k := (pending_entry user uid).1); [exact H2| |].
  { intros ->. destruct (pending_writes _ _ _ Hu _ _ He2 Hknown). done. }
  intros s3 H3. eapply when_step with (k := (oauth_entry user uid).1); [exact H3| |].
  { intros _. split; [done|]. split; [done|]. by eapply oauth_writes. }
  intros s4 H4. change (progressed s (expected_entries user uid email previous waiting) s4) in H4.
  apply prune_step. intros n d' Hk Hent. apply always_ret. destruct H4 as (Hk4 & [d4 ->] & H4).
  split; [done|]. rewrite with_index_with. split; [exists d'; by rewrite Hk, Hk4|]. intros k. rewrite index_with, Hent, !index_with.
  specialize (H4 k). rewrite index_with in H4.
  destruct (assoc (expected_entries user uid email previous waiting) k) as [f|] eqn:E.
  - destruct H4 as (r & -> & Hr). exists r. split; [|done].
    destruct (has _ k) eqn:Eh; [by rewrite andb_false_r|]. apply assoc_none in Eh. congruence.
  - rewrite H4. apply assoc_none in E. rewrite E. cbn [negb].
    destruct (entries (index_of s) !! k) as [r|]; [by rewrite andb_true_r|done].
Qed.

(** *** Resolution *)

Lemma emailKey_normalize m email : emailKey m (normalizeEmail email) = emailKey m email.
Proof. unfold IdentityIndex.emailKey. by rewrite normalizeEmail_idem. Qed.

(** One kind after the other: the first active entry answers. *)
Lemma resolve_step P m ms email s Q :
  match entries (index_of s) !! emailKey m email with
  | Some r =>
      ∀ e, P e s →
      if isActive (rowToDoc r) (now e) then
        Q (inr (Some {| rs_userId := obj_get r "user_id"; rs_match := m; rs_verified := obj_get r "verified" |})) s
      else always P (resolve_kinds hmac_sha256_hex EMAIL_INDEX_SECRET accessSecret ms (normalizeEmail email)) s Q
  | None => always P (resolve_kinds hmac_sha256_hex EMAIL_INDEX_SECRET accessSecret ms (normalizeEmail email)) s Q
  end →
  always P (resolve_kinds hmac_sha256_hex EMAIL_INDEX_SECRET accessSecret (m :: ms) (normalizeEmail email)) s Q.
Proof.
  intros H. cbn [resolve_kinds]. apply findOne_key. rewrite emailKey_normalize.
  destruct (entries (index_of s) !! emailKey m email) as [r|]; [|exact H]. cbn.
  apply always_clock. intros e He. specialize (H e He). destruct (isActive (rowToDoc r) (now e)); [|done].
  by apply always_ret.
Qed.

Lemma emailKey_congr m a b : normalizeEmail a = normalizeEmail b → emailKey m a = emailKey m b.
Proof. unfold IdentityIndex.emailKey. by intros ->. Qed.

Lemma row_of_get k f r c : row_of k f r → c ∈ entry_columns → obj_get r c = obj_get f c.
Proof. intros [_ H] Hc. by apply (proj1 (Forall_forall _ _) H). Qed.

Lemma row_of_columns k kind uid verified expires provider r :
  row_of k (index_entry kind uid verified expires provider) r →
  obj_get r "user_id" = VStr uid ∧ obj_get r "verified" = verified ∧ obj_get r "expires_at" = expires.
Proof.
  intros H. split_and!; (rewrite (row_of_get _ _ _ _ H); [reflexivity|]); apply has_spec; by vm_compute.
Qed.

Lemma resolve_primary P user uid email address r s :
  normalizeEmail address = normalizeEmail email →
  entries (index_of s) !! emailKey MPrimary email = Some r → row_of (emailKey MPrimary email) (primary_entry user uid email).2 r →
  always P (resolveEmailIdentity hmac_sha256_hex EMAIL_INDEX_SECRET accessSecret address) s (λ res s', s' = s ∧
    res = inr (Some {| rs_userId := VStr uid; rs_match := MPrimary;
                       rs_verified := VBool (strict_eq (user_get user "isEmailVerified") (VBool true)) |})).
Proof.
  intros Hn Hr Hrow. apply resolve_step. rewrite (emailKey_congr _ _ _ Hn), Hr.
  apply row_of_columns in Hrow as (Huid & Hv & He). intros e _. unfold isActive. cbn. rewrite Huid, Hv, He. done.
Qed.

Lemma resolve_previous user uid waiting address r s :
  normalizeEmail address = normalizeEmail (text_of (user_get user "previousEmail")) →
  entries (index_of s) !! emailKey MPrimary address = None →
  entries (index_of s) !! (previous_entry user uid).1 = Some r →
  row_of (previous_entry user uid).1 (previous_entry user uid).2 r →
  always (steady user true waiting) (resolveEmailIdentity hmac_sha256_hex EMAIL_INDEX_SECRET accessSecret address) s
    (λ res s', s' = s ∧
      res = inr (Some {| rs_userId := VStr uid; rs_match := MPrevious; rs_verified := VNull |})).
Proof.
  intros Hn Hprim Hr Hrow. apply resolve_step. rewrite Hprim. apply resolve_step.
  rewrite (emailKey_congr _ _ _ Hn). unfold previous_entry in Hr. cbn [fst] in Hr. rewrite Hr.
  apply row_of_columns in Hrow as (Huid & Hv & He). intros e [Hp _]. unfold isActive. cbn. rewrite Huid, Hv, He.
  apply andb_true_iff in Hp as [_ Hp]. destruct (user_get user "migrationExpiry"); try done. by rewrite Hp.
Qed.

(** C16. Synchronising the index with a user document, with no other writer in
    between.  Whatever the index held, the run succeeds, and afterwards the
    index holds for this user exactly the entries the document stands for:
    primary address with its verification flag, previous and pending address
    while their reservations last, OAuth id.  Entries of other users are
    untouched unless one of those keys was theirs.  From then on the primary
    address in any spelling resolves to the user as a primary match; the
    previous address resolves to the user as a previous match while the
    reservation lasts and nobody else has it as primary address; and the OAuth
    id finds the user. *)
Theorem sync_resolves user uid email previous waiting s :
  indexable user uid email → known_user (index_of s) uid = true →
  let resolve := resolveEmailIdentity hmac_sha256_hex EMAIL_INDEX_SECRET accessSecret in
  always (steady user previous waiting) (sync user) s (λ res s',
    res = inr tt ∧
    (∀ k, match assoc (expected_entries user uid email previous waiting) k with
          | Some f => ∃ r, entries (index_of s') !! k = Some r ∧ row_of k f r
          | None => entries (index_of s') !! k =
                    match entries (index_of s) !! k with
                    | Some r => if owned uid r then None else Some r
                    | None => None
                    end
          end) ∧
    (∀ address, normalizeEmail address = normalizeEmail email →
       always (steady user previous waiting) (resolve address) s' (λ res s'', s'' = s' ∧
         res = inr (Some {| rs_userId := VStr uid; rs_match := MPrimary;
                            rs_verified := VBool (strict_eq (user_get user "isEmailVerified") (VBool true)) |}))) ∧
    (∀ address, previous = true → normalizeEmail address = normalizeEmail (text_of (user_get user "previousEmail")) →
       entries (index_of s') !! emailKey MPrimary address = None →
       always (steady user previous waiting) (resolve address) s' (λ res s'', s'' = s' ∧
         res = inr (Some {| rs_userId := VStr uid; rs_match := MPrevious; rs_verified := VNull |}))) ∧
    (has_oauth user = true →
       always (steady user previous waiting)
         (findUserIdByOAuth (text_of (user_get user "provider")) (text_of (user_get user "providerId"))) s'
         (λ res s'', s'' = s' ∧ res = inr (Some (VStr uid))))).
Proof.
  intros Hu Hknown resolve. eapply always_mono; [by apply sync_entries|].
  intros res s' (-> & _ & Hent). cbv beta. split; [done|]. split; [exact Hent|]. split; [|split].
  - intros address Hn. specialize (Hent (emailKey MPrimary email)).
    unfold expected_entries in Hent. cbn [app assoc fst primary_entry] in Hent. rewrite String.eqb_refl in Hent.
    destruct Hent as (r & Hr & Hrow). by eapply resolve_primary.
  - intros address -> Hn Hprim. specialize (Hent (previous_entry user uid).1).
    destruct (entries_fresh user uid email true waiting) as (Hf1 & _ & _). 
    assert (Hassoc : assoc (expected_entries user uid email true waiting) (previous_entry user uid).1 =
                     Some (previous_entry user uid).2).
    { cbn. by rewrite String.eqb_refl. }
    rewrite Hassoc in Hent. destruct Hent as (r & Hr & Hrow). by eapply resolve_previous.
  - intros Ho. destruct (ixb_provider _ _ _ Hu) as [p Hp].
    destruct (ixb_providerId _ _ _ Hu (proj2 (proj1 (andb_true_iff _ _) Ho))) as [i Hi].
    assert (Hkey : (oauth_entry user uid).1 = oauthKey p i)
      by (unfold oauth_entry, oauth_key_of; cbn [fst]; by rewrite Hp, Hi).
    rewrite Hp, Hi. apply findOne_key. apply always_ret. split; [done|]. cbn [text_of]. rewrite <- Hkey.
    destruct (entries_fresh user uid email previous waiting) as (_ & _ & Hf3).
    specialize (Hent (oauth_entry user uid).1). unfold expected_entries in Hent. rewrite Ho in Hent.
    rewrite (surjective_pairing (oauth_entry user uid)) in Hent. cbn [fst] in Hent.
    rewrite assoc_snoc, String.eqb_refl in Hent by exact Hf3.
    destruct Hent as (r & -> & Hrow). apply row_of_columns in Hrow as (Huid & _ & _). cbn. by rewrite Huid.
Qed.
End Sync.

(** ** A concrete table

    Rows by key, with the ids of the users table; it satisfies the laws, so
    they can hold together. *)

Module MemIndex.
Record mem := { rows : gmap string object; ids : list string }.

Definition keyed (k : string) (r : object) : object := obj_set r "key" (VStr k).
Definition content (m : mem) : gmap string object := map_imap (λ k r, Some (keyed k r)) (rows m).

Definition first_match (w : list condition) (params : list val) (m : mem) : option (string * object) :=
  head (filter (λ p, matches w params p.2 = true) (map_to_list (content m))).

Definition store (k : string) (r : object) (m : mem) : mem := {| rows := <[k := r]> (rows m); ids := ids m |}.

Definition unsupported : PgError := {| pe_code := "0A000"; pe_detail := None |}.

Definition query (st : index_statement) (params : list val) (m : mem) : (PgError + list object * Z) * mem :=
  match st with
  | IxSelect w =>
      (inr (match first_match w params m with Some p => ([p.2], 1) | None => ([], 0) end), m)
  | IxSelectKey w =>
      (inr (match first_match w params m with Some p => ([[("key", VStr p.1)]], 1) | None => ([], 0) end), m)
  | IxUpdate cols =>
      match last params with
      | Some (VStr k) =>
          match content m !! k with
          | Some r => (inr ([], 1), store k (written r cols (take (length cols) params)) m)
          | None => (inr ([], 0), m)
          end
      | _ => (inl unsupported, m)
      end
  | IxInsert cols =>
      match params with
      | VStr k :: vals =>
          match content m !! k with
          | None => (inr ([], 1), store k (written [("key", VStr k)] (tail cols) vals) m)
          | Some _ => (inl {| pe_code := "23505"; pe_detail := None |}, m)
          end
      | _ => (inl unsupported, m)
      end
  | IxDelete w =>
      (inr ([], 0), {| rows := filter (λ p, matches w params p.2 = false) (content m); ids := ids m |})
  end.

#[global] Instance mem_index : IndexDb :=
  {| idb := mem; entries := content; known_user := λ m u, has (ids m) u; ipg := query |}.

Lemma content_lookup m k : content m !! k = keyed k <$> rows m !! k.
Proof. unfold content. rewrite map_lookup_imap. by destruct (rows m !! k). Qed.

Lemma keyed_keyed k r : keyed k (keyed k r) = keyed k r.
Proof.
  unfold keyed. induction r as [|[q v] r IH]; cbn; [done|].
  destruct (String.eqb q "key") eqn:E; cbn; [done|]. rewrite E. by rewrite IH.
Qed.

Lemma content_store k r m : content (store k r m) = <[k := keyed k r]> (content m).
Proof.
  apply map_eq. intros k'. rewrite content_lookup. cbn. destruct (decide (k = k')) as [->|Hne].
  - by rewrite !lookup_insert_eq.
  - rewrite !lookup_insert_ne by done. by rewrite content_lookup.
Qed.

Lemma keyed_same k r : obj_get r "key" = VStr k → same_row (keyed k r) r.
Proof.
  intros Hk c _. unfold keyed. rewrite obj_get_set. destruct (String.eqb_spec "key" c) as [<-|]; [by rewrite Hk|done].
Qed.

Lemma first_match_cases w params m :
  match first_match w params m with
  | Some (k, r) => content m !! k = Some r ∧ matches w params r = true
  | None => ∀ k r, content m !! k = Some r → matches w params r = false
  end.
Proof.
  unfold first_match. destruct (filter _ _) as [|[k r] l] eqn:E; cbn.
  - intros k r Hr. apply elem_of_map_to_list in Hr. destruct (matches w params r) eqn:Em; [|done].
    assert (Hin : (k, r) ∈ filter (λ p : string * object, matches w params p.2 = true) (map_to_list (content m)))
      by (by apply list_elem_of_filter).
    rewrite E in Hin. by apply not_elem_of_nil in Hin.
  - assert (Hin : (k, r) ∈ filter (λ p : string * object, matches w params p.2 = true) (map_to_list (content m)))
      by (rewrite E; left).
    apply list_elem_of_filter in Hin as [Hm Hin]. apply elem_of_map_to_list in Hin. done.
Qed.

Lemma written_key r cols vals :
  forallb (λ c, negb (String.eqb c "key")) cols = true → obj_get (written r cols vals) "key" = obj_get r "key".
Proof.
  unfold written. revert r vals. induction cols as [|c cols IH]; intros r [|v vals]; cbn; try done.
  intros [Hc Hr]%andb_true_iff. etransitivity; [apply (IH _ _ Hr)|]. apply negb_true_iff, String.eqb_neq in Hc.
  by apply obj_get_set_ne.
Qed.

Lemma assignable_key known cols vals :
  length cols = length vals → forallb (assignable known) (zip cols vals) = true →
  forallb (λ c, negb (String.eqb c "key")) cols = true.
Proof.
  revert vals. induction cols as [|c cols IH]; intros [|v vals] Hl H; cbn in *; try done.
  apply andb_true_iff in H as [Ha H]. rewrite (IH vals) by (done || lia). rewrite andb_true_r.
  destruct (String.eqb_spec c "key") as [->|]; done.
Qed.

#[global] Instance mem_index_laws : IndexDbLaws mem_index.
Proof.
  split; cbn [idb entries known_user ipg mem_index].
  - intros m k r Hr. rewrite content_lookup in Hr. destruct (rows m !! k); cbn in Hr; [|done].
    injection Hr as <-. apply obj_get_set_eq.
  - intros w params m _ _. cbn [query]. pose proof (first_match_cases w params m) as H.
    destruct (first_match w params m) as [[k r]|]; [right; eauto|by left].
  - intros w params m _ _. cbn [query]. pose proof (first_match_cases w params m) as H.
    destruct (first_match w params m) as [[k r]|]; [right; eauto|by left].
  - intros cols vals k m r Hr Hl _ Ha. cbn [query]. rewrite last_snoc, Hr, Hl, take_app_length.
    eexists _, _. split; [done|]. rewrite content_store. split; [done|]. split; [|done]. apply keyed_same.
    rewrite written_key by by eapply assignable_key. rewrite content_lookup in Hr.
    destruct (rows m !! k); cbn in Hr; [|done]. injection Hr as <-. apply obj_get_set_eq.
  - intros cols vals k m Hr Hl _ Ha. cbn [query]. rewrite Hr. eexists _, _. split; [done|]. rewrite content_store.
    split; [done|]. split; [|done]. apply keyed_same. by rewrite written_key by by eapply assignable_key.
  - intros w params m _ _. eexists _, _. split; [done|]. split; [|done]. apply map_eq. intros k.
    rewrite content_lookup. cbn. rewrite map_lookup_filter.
    destruct (content m !! k) as [r|] eqn:E; cbn; [|done]. case_guard; cbn; [|done]. f_equal.
    rewrite content_lookup in E. destruct (rows m !! k); cbn in E; [|done]. injection E as <-. apply keyed_keyed.
Qed.

#[global] Instance mem_state : HasIndex (H := mem_index) mem.
Proof. by refine {| index_of := λ m, m; with_index := λ d _, d |}. Defined.

(** A user who moved to a new address and still holds the old one. *)
Definition moved : User :=
  new_User [("id", VStr "u1"); ("email", VStr "new@example.com"); ("previousEmail", VStr "old@example.com");
            ("migrationExpiry", VDate 1000); ("isEmailVerified", VBool true); ("provider", VStr "google");
            ("providerId", VStr "g-7"); ("newEmailPending", VNull)] false.

(** An index with a stale entry of the user. *)
Definition stale : mem :=
  {| rows := {["primary_email:x" := index_entry "primary_email" "u1" (VBool false) VNull VNull]};
     ids := ["u1"; "u2"] |}.

Definition at_noon : nat → Tick := λ _, {| now := 500; uuid := "" |}.

Lemma indexable_moved : indexable moved "u1" "new@example.com".
Proof.
  split; try done; first [by eexists|by intros _; eexists|by intros H; vm_compute in H].
Qed.
End MemIndex.

Lemma sync_resolves_witness :
  let sync := syncIdentityIndexesFromUser (IDB := MemIndex.mem_index) (HI := MemIndex.mem_state) (λ k m, m +:+ k) None "key" (λ _, "") in
  let s' := (run (sync MemIndex.moved) MemIndex.at_noon MemIndex.stale).2 in
  (run (sync MemIndex.moved) MemIndex.at_noon MemIndex.stale).1 = inr tt ∧
  entries s' !! "primary_email:x" = None ∧
  (run (resolveEmailIdentity (IDB := MemIndex.mem_index) (HI := MemIndex.mem_state) (λ k m, m +:+ k) None "key" " New@example.com ")
     MemIndex.at_noon s').1 =
    inr (Some {| rs_userId := VStr "u1"; rs_match := MPrimary; rs_verified := VBool true |}).
Proof.
  cbv zeta.
  destruct (sync_resolves (λ k m, m +:+ k) None "key" (λ _, "") (IDB := MemIndex.mem_index) (HI := MemIndex.mem_state)
              MemIndex.moved "u1" "new@example.com" true false MemIndex.stale MemIndex.indexable_moved eq_refl
              MemIndex.at_noon) as (H1 & H2 & H3 & _).
  { vm_compute. repeat split. }
  split; [exact H1|]. split.
  - exact (H2 "primary_email:x").
  - refine (proj2 (H3 " New@example.com " eq_refl MemIndex.at_noon _)).
    vm_compute. repeat split.
Defined.
