(* ===== verification/OAuthLogin.v ===== *)
(** * Sign-in with an OAuth provider

    Models [uam-backend/src/config/passport.ts] and
    [utils/oauth.util.ts]: how a provider profile is matched to an account
    ([findUserForOAuth]), when an existing local account may be taken over,
    and the verify callbacks of the two strategies, which refresh the profile
    of the account they found or create one.

    The state is the users table and the identity index; every query is one
    uninterrupted piece of [Async].  What the provider sends (the profile and
    GitHub's list of addresses) is an argument.  Both tables live in one
    database: that the foreign key of the index knows the users of the users
    table is stated where a theorem needs it. *)

From S2P Require Import Prelude CircuitConfig Json Async JsVal Columns SqlFilter Password UserModel IdentityIndex.
#[local] Open Scope string_scope.
#[local] Open Scope list_scope.
#[local] Open Scope Z_scope.
#[local] Open Scope async_scope.

(** ** [oauth.util] *)

Inductive Provider := Google | GitHub.

Definition provider_name (p : Provider) : string := match p with Google => "google" | GitHub => "github" end.

Section Util.
Context (Date_toString : Z → string).

Definition oauthProviderConflict (user : User) (incoming : Provider) : option string :=
  let provider := user_get user "provider" in
  if negb (strict_eq provider (VStr "local")) && negb (strict_eq provider (VStr (provider_name incoming))) then
    Some ("This email is registered with " +:+ to_string Date_toString provider +:+ ". Use that provider to sign in.")
  else if strict_eq provider (VStr "local") && truthy (user_get user "isEmailVerified")
          && truthy (user_get user "password") then
    Some "This email uses password login. Sign in with your password, then link OAuth in settings."
  else None.
End Util.

Definition canOAuthTakeOverLocalAccount (user : User) : bool :=
  negb (truthy (user_get user "password")) || negb (truthy (user_get user "isEmailVerified")).

(** ** What the providers send *)

Record GitHubEmailEntry := { gh_email : string; gh_primary : bool; gh_verified : bool }.

(** The answer of [api.github.com/user/emails]. *)
Inductive GitHubResponse :=
  | FetchFailed (message : string)
  | NotOk
  | Emails (l : list GitHubEmailEntry).

Definition fetchGitHubVerifiedPrimaryEmail (response : GitHubResponse) : outcome (option string) :=
  match response with
  | FetchFailed m => Thrown m
  | NotOk => Returned None
  | Emails emails =>
      let any := match find (λ e, gh_verified e) emails with
                 | Some e => Some (toLowerCase (gh_email e))
                 | None => None
                 end in
      Returned (match find (λ e, gh_primary e && gh_verified e) emails with
                | Some e => if String.eqb (gh_email e) "" then any else Some (toLowerCase (gh_email e))
                | None => any
                end)
  end.

(** [profile.id], [profile.displayName], [profile.username],
    [profile.photos?.[0]?.value] and [profile.emails?.[0]?.value] *)
Record Profile := {
  p_id : string;
  p_displayName : option string;
  p_username : option string;
  p_photo : option string;
  p_email : option string;
}.

(** [a || b] on strings that may be missing *)
Definition or_else (a b : option string) : option string :=
  match a with
  | Some s => if String.eqb s "" then b else a
  | None => b
  end.

(** [email.split('@')[0]] *)
Fixpoint local_part (s : string) : string :=
  match s with
  | EmptyString => ""
  | String c s => if Ascii.eqb c "@"%char then "" else String c (local_part s)
  end.

Definition opt_val (o : option string) : val := match o with Some s => VStr s | None => VUndef end.

(** What the callback hands to [done]. *)
Inductive Verdict :=
  | DoneError (message : string)
  | DoneFailure (e : failure)
  | DoneUser (u : User).

Section Passport.
Context (hmac_sha256_hex : string → string → string) (EMAIL_INDEX_SECRET : option string) (accessSecret : string).
Context (Date_toString Date_toISOString : Z → string).
Context `{UDB : UsersDb} `{IDB : IndexDb}.
Context (hashPassword : string → string).
Local Abbreviation sync := (syncIdentityIndexesFromUser hmac_sha256_hex EMAIL_INDEX_SECRET accessSecret Date_toString).

Record LoginState := mkLogin { users : db; index : idb }.

#[global] Instance login_index : HasIndex LoginState.
Proof. by refine {| index_of := index; with_index := λ i '(mkLogin u _), mkLogin u i |}; intros; destruct s. Defined.

(** A call of the user model, awaited. *)
Definition on_users {A} (f : Tick → db → (failure + A) * db) : prog Tick LoginState (failure + A) :=
  act (λ t s, let '(a, d) := f t (users s) in (a, mkLogin d (index s))).

(** [await User.findById(id)]; the id comes from a text column. *)
Definition find_user (id : val) : prog Tick LoginState (failure + option User) :=
  on_users (λ _, findById Date_toString Date_toISOString (text_of id) None).

Definition save_user (u : User) : prog Tick LoginState (failure + User) :=
  on_users (λ t, save Date_toISOString hashPassword (uuid t) u).

(** Second half of [findUserForOAuth]: the account was found by its address. *)
Definition take_over (user : User) (provider : Provider) (providerId : string)
    : prog Tick LoginState (failure + option User) :=
  if strict_eq (user_get user "provider") (VStr "local") then
    if canOAuthTakeOverLocalAccount user then
      let user := user_set user "provider" (VStr (provider_name provider)) in
      let user := user_set user "providerId" (VStr providerId) in
      let user := user_set user "isEmailVerified" (VBool true) in
      let* user := save_user user in
      let* _ := sync user in
      Ret (inr (Some user))
    else Ret (inr None)
  else Ret (inr (Some user)).

(** The account found by address may hold it as its previous address only. *)
Definition settle_previous (user : User) (normalized : string) (provider : Provider) (providerId : string)
    : prog Tick LoginState (failure + option User) :=
  if strict_eq (user_get user "previousEmail") (VStr normalized)
     && negb (strict_eq (user_get user "email") (VStr normalized)) then
    let! t := clock in
    if match user_get user "migrationExpiry" with VDate x => t <? x | _ => false end then Ret (inr (Some user))
    else
      let* primary := findUserIdByPrimaryEmail hmac_sha256_hex EMAIL_INDEX_SECRET accessSecret normalized in
      match primary with
      | Some id =>
          if truthy id then
            let* byNewEmail := find_user id in
            match byNewEmail with
            | Some u => take_over u provider providerId
            | None => take_over user provider providerId
            end
          else take_over user provider providerId
      | None => take_over user provider providerId
      end
  else take_over user provider providerId.

Definition find_by_address (email : string) (provider : Provider) (providerId : string)
    : prog Tick LoginState (failure + option User) :=
  let normalized := normalizeEmail email in
  let* resolved := resolveEmailIdentity hmac_sha256_hex EMAIL_INDEX_SECRET accessSecret normalized in
  match resolved with
  | None => Ret (inr None)
  | Some resolved =>
      let* user := find_user (rs_userId resolved) in
      match user with
      | None => Ret (inr None)
      | Some user => settle_previous user normalized provider providerId
      end
  end.

Definition findUserForOAuth (email : string) (provider : Provider) (providerId : string)
    : prog Tick LoginState (failure + option User) :=
  let* byOAuthId := findUserIdByOAuth (provider_name provider) providerId in
  match byOAuthId with
  | Some id =>
      if truthy id then
        let* user := find_user id in
        match user with
        | Some user => Ret (inr (Some user))
        | None => find_by_address email provider providerId
        end
      else find_by_address email provider providerId
  | None => find_by_address email provider providerId
  end.

(** ** The verify callbacks *)

(** The picture is replaced when there is none or the account belongs to the
    provider; the name only in the latter case. *)
Definition refreshed (provider : Provider) (photo name : option string) (user : User) : User * bool :=
  let own u := strict_eq (user_get u "provider") (VStr (provider_name provider)) in
  let '(user, modified) :=
    match or_else photo None with
    | Some pic =>
        if (negb (truthy (user_get user "avatar")) || own user) && negb (strict_eq (user_get user "avatar") (VStr pic))
        then (user_set user "avatar" (VStr pic), true) else (user, false)
    | None => (user, false)
    end in
  match or_else name None with
  | Some n =>
      if own user && negb (strict_eq (user_get user "displayName") (VStr n))
      then (user_set user "displayName" (VStr n), true) else (user, modified)
  | None => (user, modified)
  end.

(** The body both callbacks share; [name] is what the provider calls the user. *)
Definition sign_in (provider : Provider) (email : string) (profile : Profile) (name : option string)
    : prog Tick LoginState Verdict :=
  let! found := findUserForOAuth email provider (p_id profile) in
  match found with
  | inl e => Ret (DoneFailure e)
  | inr (Some user) =>
      match oauthProviderConflict Date_toString user provider with
      | Some conflict => Ret (DoneError conflict)
      | None =>
          let '(user, modified) := refreshed provider (p_photo profile) name user in
          if modified then
            let! saved := save_user user in
            match saved with
            | inl e => Ret (DoneFailure e)
            | inr user =>
                let! r := sync user in
                match r with inl e => Ret (DoneFailure e) | inr _ => Ret (DoneUser user) end
            end
          else Ret (DoneUser user)
      end
  | inr None =>
      let! created := on_users (λ t, create Date_toISOString hashPassword (uuid t)
        [("email", VStr email);
         ("displayName", VStr (default (local_part email) (or_else name None)));
         ("avatar", opt_val (p_photo profile)); ("provider", VStr (provider_name provider));
         ("providerId", VStr (p_id profile)); ("isEmailVerified", VBool true)]) in
      match created with
      | inl e => Ret (DoneFailure e)
      | inr user =>
          let! r := sync user in
          match r with inl e => Ret (DoneFailure e) | inr _ => Ret (DoneUser user) end
      end
  end.

Definition googleVerify (profile : Profile) : prog Tick LoginState Verdict :=
  match p_email profile with
  | Some value =>
      let email := toLowerCase value in
      if String.eqb email "" then Ret (DoneError "No email found in Google profile")
      else sign_in Google email profile (p_displayName profile)
  | None => Ret (DoneError "No email found in Google profile")
  end.

Definition githubVerify (response : GitHubResponse) (profile : Profile) : prog Tick LoginState Verdict :=
  match fetchGitHubVerifiedPrimaryEmail response with
  | Thrown m => Ret (DoneFailure (Err m))
  | Returned None => Ret (DoneError "No verified email found in GitHub profile")
  | Returned (Some email) =>
      if String.eqb email "" then Ret (DoneError "No verified email found in GitHub profile")
      else sign_in GitHub email profile (or_else (p_displayName profile) (p_username profile))
  end.
End Passport.

(** ** Facts *)

#[local] Arguments dict_get : simpl never.
#[local] Arguments COLUMN_TO_FIELD : simpl never.
#[local] Arguments FIELD_TO_COLUMN : simpl never.
#[local] Arguments ALL_FIELDS : simpl never.

(** The password is not among the selected columns, so the guards that look
    at it see no password. *)
Lemma loaded_guard r : canOAuthTakeOverLocalAccount (loaded r) = true.
Proof. unfold canOAuthTakeOverLocalAccount. load. done. Qed.

Section Facts.
Context (hmac_sha256_hex : string → string → string) (EMAIL_INDEX_SECRET : option string) (accessSecret : string).
Context (Date_toString Date_toISOString : Z → string).
Context `{UDB : UsersDb} {DL : UsersDbLaws UDB} `{IDB : IndexDb} {IL : IndexDbLaws IDB}.
Context (hashPassword : string → string).
Local Abbreviation emailKey := (emailKey hmac_sha256_hex EMAIL_INDEX_SECRET accessSecret).
Local Abbreviation findUserForOAuth :=
  (findUserForOAuth hmac_sha256_hex EMAIL_INDEX_SECRET accessSecret Date_toString Date_toISOString hashPassword).
Local Abbreviation sign_in :=
  (sign_in hmac_sha256_hex EMAIL_INDEX_SECRET accessSecret Date_toString Date_toISOString hashPassword).

Definition anytime (_ : Tick) (_ : LoginState) : Prop := True.

Lemma always_users {A B} (f : Tick → db → (failure + A) * db) (k : failure + A → prog Tick LoginState B) s Q :
  (∀ e, always anytime (k (f e (users s)).1) (mkLogin (f e (users s)).2 (index s)) Q) →
  always anytime (bind (on_users f) k) s Q.
Proof.
  intros H. apply always_act. intros e _. specialize (H e). cbn. by destruct (f e (users s)).
Qed.

Lemma always_find_user {B} i r (k : failure + option User → prog Tick LoginState B) s Q :
  table (users s) !! i = Some r → always anytime (k (inr (Some (loaded r)))) s Q →
  always anytime (bind (find_user Date_toString Date_toISOString (VStr i)) k) s Q.
Proof.
  intros Hr Hk. apply always_users. intros e. cbn [text_of].
  rewrite (findById_loaded _ _ (DL := DL)), Hr. by destruct s.
Qed.

(** The index says that [email] is the primary address of user [i], whose row
    is [r]; no account is linked to the OAuth id. *)
Record known_address (email : string) (provider : Provider) (pid i : string) (r : object) (s : LoginState) : Prop := {
  ka_oauth : entries (index s) !! oauthKey (provider_name provider) pid = None;
  ka_entry : ∃ entry, entries (index s) !! emailKey MPrimary email = Some entry ∧
                      obj_get entry "user_id" = VStr i ∧ obj_get entry "expires_at" = VNull;
  ka_row : table (users s) !! i = Some r;
  ka_previous : obj_get r "previous_email" = VNull;
}.

Lemma find_known email provider pid i r s Q :
  known_address email provider pid i r s →
  always anytime (take_over hmac_sha256_hex EMAIL_INDEX_SECRET accessSecret Date_toString Date_toISOString
                    hashPassword (loaded r) provider pid) s Q →
  always anytime (findUserForOAuth email provider pid) s Q.
Proof.
  intros [Ho (entry & He & Hi & Hx) Hr Hp] H. unfold OAuthLogin.findUserForOAuth, findUserIdByOAuth.
  apply always_bind, findOne_key, always_ret. change (index_of s) with (index s). rewrite Ho. cbn match.
  unfold find_by_address, resolveEmailIdentity. apply always_bind.
  rewrite normalizeEmail_idem. apply (resolve_step _ _ _ (L := IL)). change (index_of s) with (index s). rewrite He.
  intros e _. unfold isActive. cbn [rowToDoc ix_expiresAt]. rewrite Hx. cbn [truthy negb]. rewrite Hi.
  cbn [rs_userId]. eapply always_find_user; [exact Hr|]. unfold settle_previous.
  load. rewrite Hp. exact H.
Qed.

(** ** Taking over a local account *)

Definition linked (r : object) (provider : Provider) (pid : string) : User :=
  user_set (user_set (user_set (loaded r) "provider" (VStr (provider_name provider))) "providerId" (VStr pid))
    "isEmailVerified" (VBool true).

Definition link_cols : list string := ["provider"; "provider_id"; "is_email_verified"; "migration_history"].

Lemma linked_get r provider pid f :
  obj_get (_values (linked r provider pid)) f =
  if String.eqb "isEmailVerified" f then VBool true
  else if String.eqb "providerId" f then VStr pid
  else if String.eqb "provider" f then VStr (provider_name provider)
  else obj_get (_values (loaded r)) f.
Proof.
  unfold linked, user_set. change (startsWith "provider" "_") with false.
  change (startsWith "providerId" "_") with false. change (startsWith "isEmailVerified" "_") with false.
  cbn match. cbn [_values]. by rewrite !obj_get_set.
Qed.

Lemma linked_has r provider pid f :
  has ALL_FIELDS f = true → has default_cols (col_of f) = false →
  f ≠ "provider" → f ≠ "providerId" → f ≠ "isEmailVerified" →
  obj_has (_values (linked r provider pid)) f = false.
Proof.
  intros Hf Hc H1 H2 H3. unfold linked, user_set. change (startsWith "provider" "_") with false.
  change (startsWith "providerId" "_") with false. change (startsWith "isEmailVerified" "_") with false.
  cbn match. cbn [_values]. rewrite !obj_has_set, loaded_has by done.
  by apply not_eq_sym, String.eqb_neq in H1 as ->, H2 as ->, H3 as ->.
Qed.

Definition link_fields : list string := ["provider"; "providerId"; "isEmailVerified"; "migrationHistory"].

Lemma linked_write_fields r provider pid l :
  obj_get r "migration_history" = VArr l → write_fields (linked r provider pid) = link_fields.
Proof.
  intros Hh. unfold write_fields, JSONB_FIELDS.
  assert (H1 : obj_has (_values (linked r provider pid)) "refreshTokens" = false) by by apply linked_has.
  assert (H2 : obj_has (_values (linked r provider pid)) "activeAccessJtis" = false) by by apply linked_has.
  assert (H3 : obj_has (_values (linked r provider pid)) "migrationHistory" = true).
  { apply obj_has_defined. rewrite linked_get. cbn [String.eqb Ascii.eqb Bool.eqb].
    load. by rewrite Hh. }
  rewrite !filter_cons, H1, H2, H3. done.
Qed.

(** The parameters of the UPDATE. *)
Definition link_vals (provider : Provider) (pid : string) (l : list val) : list val :=
  [VStr (provider_name provider); VStr pid; VBool true;
   VStr (stringify (JArr (map (λ x, default JNull (to_json Date_toISOString x)) l)))].

Lemma linked_statement i r provider pid l :
  obj_get r "id" = VStr i → obj_get r "migration_history" = VArr l →
  update_statement Date_toISOString hashPassword (linked r provider pid) =
  Returned (UpdateById link_cols, link_vals provider pid l ++ [VStr i]).
Proof.
  intros Hid Hh. unfold update_statement. rewrite (linked_write_fields _ _ _ _ Hh).
  replace (columnNames link_fields) with (Returned link_cols : outcome (list string)) by (vm_compute; reflexivity).
  cbn [outcome_bind]. do 2 f_equal. unfold link_fields. cbn [map].
  rewrite !linked_get. cbn [String.eqb Ascii.eqb Bool.eqb].
  load. by rewrite Hid, Hh.
Qed.

(** No other account is linked to the OAuth id. *)
Definition unlinked_elsewhere (d : db) (i : string) (provider : Provider) (pid : string) : Prop :=
  ∀ j r', j ≠ i → table d !! j = Some r' →
  ¬ (obj_get r' "provider" = VStr (provider_name provider) ∧ obj_get r' "provider_id" = VStr pid).

(** The row [r'] is [r] linked to the OAuth id. *)
Definition linked_row (r r' : object) (provider : Provider) (pid : string) : Prop :=
  obj_get r' "provider" = VStr (provider_name provider) ∧ obj_get r' "provider_id" = VStr pid ∧
  obj_get r' "is_email_verified" = VBool true ∧
  ∀ c, c ∉ link_cols → c ≠ "updated_at" → obj_get r' c = obj_get r c.

Lemma write_linked r provider pid l now : linked_row r (write_row r link_cols (link_vals provider pid l) now) provider pid.
Proof.
  assert (Hnd : NoDup link_cols) by (apply (bool_decide_unpack _); by vm_compute).
  split_and!; try by (rewrite write_row_get by done; reflexivity).
  intros c Hc Hu. rewrite write_row_get by done.
  destruct (list_find (λ c', c' = c) link_cols) as [[n c1]|] eqn:E; [|done].
  apply list_find_Some in E as (Hn & -> & _). exfalso. apply Hc. by eapply list_elem_of_lookup_2.
Qed.

Lemma link_assignments provider pid l : Forall login_assignment (zip link_cols (link_vals provider pid l)).
Proof.
  apply Forall_cons_2; [|apply Forall_cons_2; [|apply Forall_cons_2; [|apply Forall_cons_2; [|apply Forall_nil_2]]]].
  - right. left. split; [done|]. destruct provider; cbn; rewrite !elem_of_cons; auto.
  - right. right. left. eauto.
  - right. right. right. eauto.
  - left. left. split; [apply has_spec; by vm_compute|eauto].
Qed.

Lemma linked_saved uuid i d r provider pid l :
  table d !! i = Some r → obj_get r "migration_history" = VArr l → unlinked_elsewhere d i provider pid →
  ∃ r' d', save Date_toISOString hashPassword uuid (linked r provider pid) d =
             (inr {| _values := rowToValues r'; _modified := []; _isNew := false |}, d') ∧
           table d' = <[i := r']> (table d) ∧ linked_row r r' provider pid.
Proof.
  intros Hr Hh Hfree. destruct (pg_row_id i d r Hr) as [Hid Hnd]. unfold save.
  assert (Hnew : _isNew (linked r provider pid) = false) by (unfold linked, user_set; by repeat case_match).
  rewrite Hnew, (linked_statement i r provider pid l Hid Hh).
  destruct (pg_link_id link_cols (link_vals provider pid l) i d r Hr eq_refl
              ltac:(apply (bool_decide_unpack _); by vm_compute) (link_assignments _ _ _))
    as (now & d' & Hpg & Htab).
  { intros j r' Hj Hr' Hsame. apply (Hfree j r' Hj Hr'). split; apply Hsame;
      apply list_elem_of_In; cbn; auto. }
  rewrite Hpg. eexists _, _. split; [done|]. split; [exact Htab|]. apply write_linked.
Qed.

Lemma stored_get d i r f :
  table d !! i = Some r → has ALL_FIELDS f = true → obj_get (rowToValues r) f = obj_get r (col_of f).
Proof.
  intros Hr Hf. destruct (pg_row_id i d r Hr) as [_ Hnd]. unfold obj_get.
  rewrite rowToValues_lookup; [done|done|]. by apply has_spec.
Qed.

(** Nothing about the account is reserved or pending. *)
Lemma linked_indexable d' i r r' provider pid email :
  table d' !! i = Some r' → linked_row r r' provider pid → i ≠ "" →
  obj_get r "email" = VStr email → obj_get r "previous_email" = VNull → obj_get r "new_email_pending" = VNull →
  let u := {| _values := rowToValues r'; _modified := []; _isNew := false |} in
  indexable u i email ∧ (∀ e s, steady (St := LoginState) u false false e s) ∧
  user_get u "provider" = VStr (provider_name provider).
Proof.
  intros Hr' (Hp & Hpid & Hv & Hrest) Hi He Hprev Hpend u.
  assert (Hget : ∀ f, has ALL_FIELDS f = true → f ≠ "_id" → user_get u f = obj_get r' (col_of f)).
  { intros f Hf Hid. rewrite user_get_value by done. by eapply stored_get. }
  assert (Hprev' : user_get u "previousEmail" = VNull).
  { rewrite Hget by (done || by vm_compute). change (col_of "previousEmail") with "previous_email".
    rewrite Hrest; [done|apply has_false; by vm_compute|done]. }
  assert (Hpend' : user_get u "newEmailPending" = VNull).
  { rewrite Hget by (done || by vm_compute). change (col_of "newEmailPending") with "new_email_pending".
    rewrite Hrest; [done|apply has_false; by vm_compute|done]. }
  assert (Hprov : user_get u "provider" = VStr (provider_name provider)) by (by rewrite Hget by (done || by vm_compute)).
  split_and!; [split|..].
  - change (user_get u "_id") with (obj_get (rowToValues r') "id"). rewrite (stored_get d' i r' "id" Hr') by by vm_compute.
    destruct (pg_row_id i d' r' Hr') as [Hid _]. exact Hid.
  - done.
  - rewrite Hget by (done || by vm_compute). change (col_of "email") with "email".
    rewrite Hrest; [done|apply has_false; by vm_compute|done].
  - by rewrite Hprev'.
  - by rewrite Hpend'.
  - eauto.
  - rewrite Hget by (done || by vm_compute). change (col_of "providerId") with "provider_id". rewrite Hpid. by eexists.
  - intros e s. unfold steady, has_previous, has_pending. by rewrite Hprev', Hpend'.
  - done.
Qed.

(** A run whose surroundings are arbitrary. *)
Lemma always_weaken {A} (P' : Tick → LoginState → Prop) (p : prog Tick LoginState A) s Q :
  (∀ e s, P' e s) → always P' p s Q → always anytime p s Q.
Proof.
  intros HP H es _. apply H. clear H. revert es s. induction p as [a|X f k IH]; intros es s; cbn; auto.
Qed.

(** C40. The takeover guard never fires.  Whoever signs in at a provider with
    the primary address of a local account gets that account, whatever its
    row says about a verified address and a password: the account is loaded
    without its password hash, so the guard against taking over a verified
    account with a password sees none.  The account ends up linked to the
    provider, marked as verified, with everything else (the password
    included) as it was, and is returned as the signed-in user. *)
Theorem local_account_taken_over email provider pid i r l address s :
  known_address email provider pid i r s → obj_get r "provider" = VStr "local" →
  obj_get r "migration_history" = VArr l → obj_get r "email" = VStr address →
  obj_get r "new_email_pending" = VNull → i ≠ "" → known_user (index s) i = true →
  unlinked_elsewhere (users s) i provider pid →
  always anytime (findUserForOAuth email provider pid) s (λ res s',
    ∃ u r', res = inr (Some u) ∧ user_get u "provider" = VStr (provider_name provider) ∧
            table (users s') = <[i := r']> (table (users s)) ∧ linked_row r r' provider pid).
Proof.
  intros Hka Hlocal Hh Haddr Hpend Hi Hknown Hfree. pose proof (ka_row _ _ _ _ _ _ Hka) as Hr.
  apply (find_known _ _ _ _ _ _ _ Hka). unfold take_over. load. rewrite Hlocal.
  change (strict_eq (VStr "local") (VStr "local")) with true. cbv iota. rewrite loaded_guard. fold (linked r provider pid).
  unfold save_user. apply always_users. intros e.
  destruct (linked_saved (uuid e) i (users s) r provider pid l Hr Hh Hfree) as (r' & d' & -> & Htab & Hlink). cbn [fst snd].
  destruct (linked_indexable d' i r r' provider pid address) as (Hix & Hst & Hp); try done.
  { rewrite Htab. by apply lookup_insert_eq. }
  { apply (ka_previous _ _ _ _ _ _ Hka). }
  set (u := {| _values := rowToValues r'; _modified := []; _isNew := false |}) in *.
  apply always_bind. eapply always_weaken; [exact Hst|].
  eapply always_mono; [by apply sync_entries|]. intros res s' (-> & (ix & -> & _) & _).
  apply always_ret. exists u, r'. done.
Qed.

(** ** The callbacks *)

Lemma loaded_conflict r provider :
  oauthProviderConflict Date_toString (loaded r) provider =
  let p := obj_get r "provider" in
  if negb (strict_eq p (VStr "local")) && negb (strict_eq p (VStr (provider_name provider))) then
    Some ("This email is registered with " +:+ to_string Date_toString p +:+ ". Use that provider to sign in.")
  else None.
Proof. unfold oauthProviderConflict. load. cbn [truthy]. by rewrite andb_false_r. Qed.

(** The account linked to the OAuth id is found without asking for the address. *)
Lemma find_linked email provider pid entry i r s Q :
  entries (index s) !! oauthKey (provider_name provider) pid = Some entry →
  obj_get entry "user_id" = VStr i → i ≠ "" → table (users s) !! i = Some r →
  Q (inr (Some (loaded r))) s → always anytime (findUserForOAuth email provider pid) s Q.
Proof.
  intros He Hu Hi Hr HQ. unfold OAuthLogin.findUserForOAuth, findUserIdByOAuth.
  apply always_bind, findOne_key, always_ret. change (index_of s) with (index s). rewrite He. cbn [fmap option_fmap option_map].
  change (ix_userId (rowToDoc entry)) with (obj_get entry "user_id"). rewrite Hu. cbn [truthy].
  apply String.eqb_neq in Hi as ->. cbn [negb]. eapply always_find_user; [exact Hr|]. by apply always_ret.
Qed.

(** Whom a callback lets in.  An address that belongs to an account of
    another provider is refused with that provider's name, and neither table
    changes.  A returning user, found by the OAuth id, is signed in to that
    account whatever address the provider reports now; when neither picture
    nor name changed, nothing is written. *)
Theorem sign_in_decision email provider profile name i r s :
  (∀ other, known_address email provider (p_id profile) i r s → obj_get r "provider" = VStr other →
     other ≠ "local" → other ≠ provider_name provider →
     always anytime (sign_in provider email profile name) s (λ v s',
       v = DoneError ("This email is registered with " +:+ other +:+ ". Use that provider to sign in.") ∧ s' = s)) ∧
  (∀ entry, entries (index s) !! oauthKey (provider_name provider) (p_id profile) = Some entry →
     obj_get entry "user_id" = VStr i → i ≠ "" → table (users s) !! i = Some r →
     obj_get r "provider" = VStr (provider_name provider) →
     (∀ pic, p_photo profile = Some pic → pic = "" ∨ obj_get r "avatar" = VStr pic) →
     (∀ n, name = Some n → n = "" ∨ obj_get r "display_name" = VStr n) →
     always anytime (sign_in provider email profile name) s (λ v s', v = DoneUser (loaded r) ∧ s' = s)).
Proof.
  split.
  - intros other Hka Hp Hl Ho. unfold OAuthLogin.sign_in. apply always_bind, (find_known _ _ _ _ _ _ _ Hka).
    unfold take_over. load. rewrite Hp. cbn [strict_eq]. rewrite (proj2 (String.eqb_neq _ _) Hl).
    apply always_ret. rewrite loaded_conflict, Hp. cbn [strict_eq to_string].
    rewrite (proj2 (String.eqb_neq _ _) Hl), (proj2 (String.eqb_neq _ _) Ho). by apply always_ret.
  - intros entry He Hu Hi Hr Hp Hpic Hname. unfold OAuthLogin.sign_in.
    apply always_bind, (find_linked _ _ _ _ _ _ _ _ He Hu Hi Hr). rewrite loaded_conflict, Hp. cbn [strict_eq].
    rewrite String.eqb_refl, andb_false_r.
    assert (Href : refreshed provider (p_photo profile) name (loaded r) = (loaded r, false)).
    { unfold refreshed. load. rewrite Hp. cbn [strict_eq]. rewrite String.eqb_refl, orb_true_r. cbn [andb].
      assert (H1 : match or_else (p_photo profile) None with
                   | Some pic => if negb (strict_eq (obj_get r "avatar") (VStr pic))
                                 then (user_set (loaded r) "avatar" (VStr pic), true) else (loaded r, false)
                   | None => (loaded r, false) end = (loaded r, false)).
      { destruct (p_photo profile) as [pic|]; [|done]. cbn. destruct (String.eqb_spec pic "") as [|Hne]; [done|].
        destruct (Hpic pic eq_refl) as [|Heq]; [done|]. rewrite Heq. cbn. by rewrite String.eqb_refl. }
      rewrite H1. destruct name as [n|]; [|done]. cbn [or_else]. destruct (String.eqb_spec n "") as [|Hne]; [done|].
      load. rewrite Hp. cbn [strict_eq]. rewrite String.eqb_refl. cbn [andb].
      destruct (Hname n eq_refl) as [|Heq]; [done|]. rewrite Heq. cbn. by rewrite String.eqb_refl. }
    rewrite Href. by apply always_ret.
Qed.
End Facts.

(** ** Concrete accounts *)

Module Accounts.
(** A verified account with a password. *)
Definition row (provider : string) : object :=
  [("id", VStr "u1"); ("email", VStr "ann@example.com"); ("previous_email", VNull); ("password", VStr "$2b$12$hash");
   ("display_name", VStr "Ann"); ("is_email_verified", VBool true); ("provider", VStr provider);
   ("provider_id", VNull); ("new_email_pending", VNull); ("migration_history", VArr [])].

Definition hmac (key message : string) : string := message +:+ key.

Definition login (provider : string) (oauth : list (string * object)) : LoginState (UDB := MemPg.mem_pg) (IDB := MemIndex.mem_index) :=
  {| users := {["u1" := row provider]};
     index := {| MemIndex.rows := list_to_map
                   (("primary_email:ann@example.comkey", index_entry "primary_email" "u1" (VBool true) VNull VNull) :: oauth);
                 MemIndex.ids := ["u1"] |} |}.

Lemma known email provider pid :
  normalizeEmail email = "ann@example.com" →
  known_address (UDB := MemPg.mem_pg) (IDB := MemIndex.mem_index) hmac None "key" email pid "42" "u1"
    (row provider) (login provider []).
Proof.
  intros He. split; [by destruct pid| |by vm_compute|done].
  unfold emailKey. rewrite He. eexists. split; [vm_compute; reflexivity|]. done.
Qed.

Definition linked : list (string * object) :=
  [("oauth:google:42", index_entry "oauth" "u1" VNull VNull (VStr "google"))].

Definition moment : nat → Tick := λ _, {| now := 1000; uuid := "u9" |}.

Definition profile : Profile :=
  {| p_id := "42"; p_displayName := Some "Ann"; p_username := None; p_photo := None; p_email := Some "Ann@example.com" |}.
End Accounts.

Lemma path_anytime `{UDB : UsersDb} `{IDB : IndexDb} {A} (p : prog Tick LoginState A) es s : path anytime p es s.
Proof. revert es s. induction p as [a|X f k IH]; intros es s; cbn; auto. done. Qed.

(** The account has a password and a verified address, and is taken over. *)
Lemma local_account_taken_over_witness :
  ∃ u r', let out := run (findUserForOAuth Accounts.hmac None "key" (λ _, "") (λ _, "") (λ s, s) "Ann@example.com" Google "42")
               Accounts.moment (Accounts.login "local" []) in
          out.1 = inr (Some u) ∧ user_get u "provider" = VStr "google" ∧
          table (users out.2) = <["u1" := r']> (table (users (Accounts.login "local" []))) ∧
          linked_row (Accounts.row "local") r' Google "42".
Proof.
  assert (Hfree : unlinked_elsewhere (UDB := MemPg.mem_pg) (users (Accounts.login "local" [])) "u1" Google "42").
  { intros j r' Hj Hr'. exfalso. apply MemPg.rows_lookup in Hr' as [Hr' _].
    cbn in Hr'. by rewrite lookup_singleton_ne in Hr'. }
  assert (Hknown : known_user (IndexDb := MemIndex.mem_index) (index (Accounts.login "local" [])) "u1" = true) by reflexivity.
  exact (local_account_taken_over Accounts.hmac None "key" (λ _, "") (λ _, "") (UDB := MemPg.mem_pg)
           (IDB := MemIndex.mem_index) (λ s, s) "Ann@example.com" Google "42" "u1" (Accounts.row "local") []
           "ann@example.com" (Accounts.login "local" []) (Accounts.known "Ann@example.com" "local" Google eq_refl) eq_refl eq_refl eq_refl
           eq_refl ltac:(discriminate) Hknown Hfree Accounts.moment (path_anytime _ _ _)).
Defined.

(** One address of another provider, one returning user. *)
Lemma sign_in_decision_witness :
  (run (sign_in Accounts.hmac None "key" (λ _, "") (λ _, "") (λ s, s) Google "ann@example.com" Accounts.profile (Some "Ann"))
     Accounts.moment (Accounts.login "github" [])).1 =
    DoneError "This email is registered with github. Use that provider to sign in." ∧
  (run (sign_in Accounts.hmac None "key" (λ _, "") (λ _, "") (λ s, s) Google "ann@example.com" Accounts.profile (Some "Ann"))
     Accounts.moment (Accounts.login "google" Accounts.linked)).1 = DoneUser (loaded (Accounts.row "google")).
Proof.
  split.
  - destruct (sign_in_decision Accounts.hmac None "key" (λ _, "") (λ _, "") (UDB := MemPg.mem_pg)
      (IDB := MemIndex.mem_index) (λ s, s) "ann@example.com" Google Accounts.profile (Some "Ann") "u1"
      (Accounts.row "github") (Accounts.login "github" [])) as [H _].
    exact (proj1 (H "github" (Accounts.known "ann@example.com" "github" Google eq_refl) eq_refl ltac:(discriminate) ltac:(discriminate)
                    Accounts.moment (path_anytime _ _ _))).
  - destruct (sign_in_decision Accounts.hmac None "key" (λ _, "") (λ _, "") (UDB := MemPg.mem_pg)
      (IDB := MemIndex.mem_index) (λ s, s) "ann@example.com" Google Accounts.profile (Some "Ann") "u1"
      (Accounts.row "google") (Accounts.login "google" Accounts.linked)) as [_ H].
    refine (proj1 (H (index_entry "oauth" "u1" VNull VNull (VStr "google") ++ [("key", VStr "oauth:google:42")])
                     ltac:(vm_compute; reflexivity) eq_refl ltac:(discriminate) ltac:(vm_compute; reflexivity) eq_refl _ _
                     Accounts.moment (path_anytime _ _ _))).
    + discriminate.
    + intros n [= <-]. right. reflexivity.
Defined.
