(* ===== verification/Tokens.v ===== *)
(** * Tokens, cookies and the authentication middleware

    Models [uam-backend/src/services/token.service.ts],
    [utils/cookie.util.ts], [middleware/auth.middleware.ts],
    [middleware/csrf.middleware.ts] and the parts of [config/index.ts] they
    read.

    [jsonwebtoken] is a third-party package: it is the class [Jwt], and
    [JwtLaws] states what it documents about verifying a token it signed.  A
    handler answers with a [Reply] or passes on with [Next]; what it does to
    the response before is the list of its [CookieOp]s. *)

From S2P Require Import Prelude CircuitConfig Json Async JsVal Columns SqlFilter Password UserModel.
#[local] Open Scope string_scope.
#[local] Open Scope list_scope.
#[local] Open Scope Z_scope.

(** ** Configuration *)

Record JwtConfig := {
  accessSecret : string;
  accessExpiresIn : string;
  refreshSecret : string;
  refreshExpiresIn : string;
  issuer : string;
  audience : string;
  defaultHomeRegion : string;
}.

Record CookieConfig := {
  ck_secure : bool;
  ck_sameSite : string;
  ck_path : string;
  omitRefreshInBody : bool;
}.

Section Environment.
(** [process.env] *)
Context (env : string → option string).

(** [process.env[name] || fallback] *)
Definition env_or (name fallback : string) : string :=
  match env name with
  | Some s => if String.eqb s "" then fallback else s
  | None => fallback
  end.

(** [process.env[name] === '1' || process.env[name] === 'true'] *)
Definition env_flag (name : string) : bool :=
  match env name with Some s => String.eqb s "1" || String.eqb s "true" | None => false end.

Definition jwt_config : JwtConfig :=
  {| accessSecret := env_or "JWT_ACCESS_SECRET" "default-access-secret";
     refreshSecret := env_or "JWT_REFRESH_SECRET" "default-refresh-secret";
     accessExpiresIn := env_or "JWT_ACCESS_EXPIRES_IN" "15m";
     refreshExpiresIn := env_or "JWT_REFRESH_EXPIRES_IN" "7d";
     issuer := env_or "JWT_ISSUER" "api-gateway-auth-server";
     audience := env_or "JWT_AUDIENCE" "api-gateway-clients";
     defaultHomeRegion := env_or "DEFAULT_HOME_REGION" "US" |}.

Definition cookie_config : CookieConfig :=
  {| ck_secure := env_flag "COOKIE_SECURE"; ck_sameSite := env_or "COOKIE_SAME_SITE" "strict";
     ck_path := env_or "COOKIE_PATH" "/api/auth"; omitRefreshInBody := env_flag "AUTH_OMIT_REFRESH_IN_BODY" |}.

Lemma env_or_nonempty name fallback : fallback ≠ "" → env_or name fallback ≠ "".
Proof. unfold env_or. destruct (env name) as [s|]; [|done]. by destruct (String.eqb_spec s ""). Qed.
End Environment.

(** ** Expiry strings *)

(** [expiry.match(/^(\d+)([smhd])$/)]: the number and the unit *)
Definition match_expiry (expiry : string) : option (Z * Ascii.ascii) :=
  let '(value, n, rest) := take_digits 0 0 expiry in
  match rest with
  | String c EmptyString =>
      if (0 <? n) && (Ascii.eqb c "s" || Ascii.eqb c "m" || Ascii.eqb c "h" || Ascii.eqb c "d")
      then Some (value, c) else None
  | _ => None
  end.

Definition unit_secs (c : Ascii.ascii) : Z :=
  if Ascii.eqb c "s" then 1 else if Ascii.eqb c "m" then 60 else if Ascii.eqb c "h" then 3600 else 86400.

Definition parseExpiry (expiry : string) : Z :=
  match match_expiry expiry with Some (value, c) => value * unit_secs c | None => 900 end.

Definition parseExpiryMs (expiry : string) : Z :=
  match match_expiry expiry with
  | Some (value, c) => value * unit_secs c * 1000
  | None => 7 * 24 * 60 * 60 * 1000
  end.

(** ** JSON web tokens *)

(** Times are in milliseconds.  [jwt_verify] gives the payload, or [None] when
    the package throws; the algorithm is HS256 throughout. *)
Class Jwt := {
  jwt_sign : object → string → Z → string → string → Z → outcome string;   (** payload, secret, expiresIn, iss, aud, now *)
  jwt_verify : string → string → string → string → Z → option object;      (** token, secret, iss, aud, now *)
}.

Definition registered : list string := ["iat"; "exp"; "iss"; "aud"].

Definition scalar (v : val) : bool := match v with VUndef | VBool _ | VNum _ | VStr _ => true | _ => false end.

Fixpoint no_space (s : string) : bool :=
  match s with
  | EmptyString => true
  | String c s => negb (Ascii.eqb c " "%char) && no_space s
  end.

Class JwtLaws `(Jwt) : Prop := {
  jwt_sign_total : ∀ p secret exp iss aud t0, secret ≠ "" → forallb scalar p.*2 = true → NoDup p.*1 →
    ∃ token, jwt_sign p secret exp iss aud t0 = Returned token ∧ no_space token = true ∧ token ≠ "";
  jwt_verify_sign : ∀ p secret exp iss aud t0 token t,
    jwt_sign p secret exp iss aud t0 = Returned token → t / 1000 < t0 / 1000 + exp →
    ∃ payload, jwt_verify token secret iss aud t = Some payload ∧
               ∀ k, k ∉ registered → obj_get payload k = obj_get p k;
  jwt_expired : ∀ p secret exp iss aud t0 token t,
    jwt_sign p secret exp iss aud t0 = Returned token → t0 / 1000 + exp ≤ t / 1000 →
    jwt_verify token secret iss aud t = None;
  jwt_payload : ∀ p secret exp iss aud t0 token secret' t payload,
    jwt_sign p secret exp iss aud t0 = Returned token → jwt_verify token secret' iss aud t = Some payload →
    ∀ k, k ∉ registered → obj_get payload k = obj_get p k;
}.

Section Tokens.
Context `{J : Jwt} (config : JwtConfig).

(** [user._id.toString()] *)
Definition id_string (user : User) : outcome string :=
  match user_get user "_id" with VStr s => Returned s | _ => Thrown "TypeError" end.

(** [jti] is [crypto.randomUUID()]. *)
Definition access_payload (user : User) (id jti : string) : object :=
  [("userId", VStr id); ("sub", VStr id); ("email", user_get user "email"); ("type", VStr "access");
   ("home_region", VStr (defaultHomeRegion config)); ("jti", VStr jti);
   ("tv", nullish (user_get user "tokenVersion") (VNum 0))].

Definition generateAccessToken (user : User) (jti : string) (t : Z) : outcome string :=
  let? id := id_string user in
  jwt_sign (access_payload user id jti) (accessSecret config) (parseExpiry (accessExpiresIn config))
    (issuer config) (audience config) t.

Definition refresh_payload (user : User) (id jti : string) : object :=
  [("userId", VStr id); ("email", user_get user "email"); ("type", VStr "refresh"); ("jti", VStr jti)].

Definition generateRefreshToken (user : User) (jti : string) (t : Z) : outcome string :=
  let? id := id_string user in
  jwt_sign (refresh_payload user id jti) (refreshSecret config) (parseExpiry (refreshExpiresIn config))
    (issuer config) (audience config) t.

Definition verifyAccessToken (token : string) (t : Z) : option object :=
  match jwt_verify token (accessSecret config) (issuer config) (audience config) t with
  | Some decoded => if strict_eq (obj_get decoded "type") (VStr "access") then Some decoded else None
  | None => None
  end.

Definition verifyRefreshToken (token : string) (t : Z) : option object :=
  match jwt_verify token (refreshSecret config) (issuer config) (audience config) t with
  | Some decoded => if strict_eq (obj_get decoded "type") (VStr "refresh") then Some decoded else None
  | None => None
  end.

Definition generateTokenPair (user : User) (jti1 jti2 : string) (t : Z) : outcome (string * string) :=
  let? accessToken := generateAccessToken user jti1 t in
  let? refreshToken := generateRefreshToken user jti2 t in
  Returned (accessToken, refreshToken).
End Tokens.

(** ** Requests and answers *)

(** [req.cookies], [req.headers.authorization], [req.headers['x-csrf-token']]
    and [req.body] *)
Record Request := {
  cookies : val;
  authorization : option string;
  csrfHeader : val;
  body : val;
}.

Inductive Answer :=
  | Next
  | NextAs (user : User)              (** [req.user = user; next()] *)
  | Reply (status : Z) (message : string) (code : option string).

Record CookieOptions := {
  co_secure : bool; co_sameSite : string; co_path : string;
  co_httpOnly : option bool; co_maxAge : option Z;
}.

Inductive CookieOp :=
  | SetCookie (name value : string) (o : CookieOptions)
  | ClearCookie (name : string) (o : CookieOptions).

(** ** Cookies *)

Section Cookies.
Context (config : CookieConfig) (refreshExpiresIn : string).

Definition REFRESH_COOKIE : string := "uam_refresh".
Definition CSRF_COOKIE : string := "uam_csrf".
Definition CSRF_MAX_AGE_MS : Z := 7 * 24 * 60 * 60 * 1000.

Definition publicTokenFields (accessToken refreshToken : string) : object :=
  if omitRefreshInBody config then [("accessToken", VStr accessToken)]
  else [("accessToken", VStr accessToken); ("refreshToken", VStr refreshToken)].

Definition cookieBase (httpOnly : option bool) (maxAge : option Z) : CookieOptions :=
  {| co_secure := ck_secure config; co_sameSite := ck_sameSite config; co_path := ck_path config;
     co_httpOnly := httpOnly; co_maxAge := maxAge |}.

(** [random] is the hexadecimal form of 32 random bytes. *)
Definition setAuthCookies (refreshToken random : string) : string * list CookieOp :=
  let maxAge := parseExpiryMs refreshExpiresIn in
  (random, [SetCookie REFRESH_COOKIE refreshToken (cookieBase (Some true) (Some maxAge));
            SetCookie CSRF_COOKIE random (cookieBase (Some false) (Some maxAge))]).

Definition clearAuthCookies : list CookieOp :=
  [ClearCookie REFRESH_COOKIE (cookieBase None None); ClearCookie CSRF_COOKIE (cookieBase None None)].

(** [undefined] is [VUndef]. *)
Definition getRefreshFromRequest (req : Request) : val :=
  let fromCookie := opt_prop (cookies req) REFRESH_COOKIE in
  if truthy fromCookie then fromCookie
  else if omitRefreshInBody config then VUndef
  else match opt_prop (body req) "refreshToken" with
       | VStr s => if 0 <? strlen s then VStr s else VUndef
       | _ => VUndef
       end.

Definition refreshUsesCookie (req : Request) : bool := truthy (opt_prop (cookies req) REFRESH_COOKIE).

Definition issueCsrfCookie (req : Request) (random : string) : val * list CookieOp :=
  let existing := opt_prop (cookies req) CSRF_COOKIE in
  if truthy existing then (existing, [])
  else (VStr random, [SetCookie CSRF_COOKIE random (cookieBase (Some false) (Some CSRF_MAX_AGE_MS))]).

(** The body of the answer. *)
Definition getCsrfToken (req : Request) (random : string) : object * list CookieOp :=
  let '(csrf, ops) := issueCsrfCookie req random in
  ([("success", VBool true); ("csrfToken", csrf)], ops).

Definition requireCsrf (req : Request) : Answer :=
  if negb (omitRefreshInBody config) then Next
  else
    let csrfCookie := opt_prop (cookies req) CSRF_COOKIE in
    let headerVal := match csrfHeader req with VStr s => VStr s | _ => VStr "" end in
    if negb (truthy csrfCookie) || negb (truthy headerVal) || negb (strict_eq csrfCookie headerVal)
    then Reply 403 "CSRF validation failed" None
    else Next.
End Cookies.

(** The double-submit check: in cookie mode the header must repeat the cookie. *)
Lemma requireCsrf_spec config req :
  requireCsrf config req = Next ↔
  omitRefreshInBody config = false ∨
  ∃ s, s ≠ "" ∧ opt_prop (cookies req) CSRF_COOKIE = VStr s ∧ csrfHeader req = VStr s.
Proof.
  unfold requireCsrf. destruct (omitRefreshInBody config); cbn [negb]; [|split; auto].
  set (c := opt_prop (cookies req) CSRF_COOKIE). split.
  - destruct (csrfHeader req) as [| | | |s| | | |] eqn:Eh; cbn; try by destruct (truthy c).
    destruct (String.eqb_spec s "") as [->|Hs]; cbn; [by destruct (truthy c)|].
    destruct (strict_eq c (VStr s)) eqn:E; cbn; [|by destruct (truthy c)].
    apply strict_eq_str in E. intros _. right. by exists s.
  - intros [?|(s & Hs & -> & ->)]; [done|]. cbn. apply String.eqb_neq in Hs as ->. by rewrite String.eqb_refl.
Qed.

(** The refresh token a browser sends back is found, in either mode. *)
Lemma getRefresh_after_set config expires refreshToken random rest b h x :
  refreshToken ≠ "" →
  getRefreshFromRequest config
    {| cookies := VObj ((REFRESH_COOKIE, VStr refreshToken) :: rest); authorization := b; csrfHeader := h; body := x |} =
    VStr refreshToken ∧
  ∃ o, In (SetCookie REFRESH_COOKIE refreshToken o) (setAuthCookies config expires refreshToken random).2 ∧
       co_httpOnly o = Some true.
Proof.
  intros Hr. split; [|eexists; split; [by left|done]].
  unfold getRefreshFromRequest. cbn. by apply String.eqb_neq in Hr as ->.
Qed.

(** ** The authentication middleware *)

(** [payloadTv ?? 0 !== userTv ?? 0] *)
Definition tokenVersionStale (payloadTv userTv : val) : bool :=
  let expected := nullish userTv (VNum 0) in
  let actual := nullish payloadTv (VNum 0) in
  negb (strict_eq actual expected).

(** [s.split(' ')[1]], [undefined] without a space *)
Fixpoint first_word (s : string) : string :=
  match s with
  | EmptyString => ""
  | String c s => if Ascii.eqb c " "%char then "" else String c (first_word s)
  end.

Fixpoint second_word (s : string) : option string :=
  match s with
  | EmptyString => None
  | String c s => if Ascii.eqb c " "%char then Some (first_word s) else second_word s
  end.

Section Middleware.
Context (Date_toString Date_toISOString : Z → string).
Context `{J : Jwt} (config : JwtConfig) `{UDB : UsersDb}.

(** [await User.findById(payload.userId).select(spec)]; the property may have
    any type. *)
Definition findById_value (id : val) (spec : option string) (d : db) : (failure + option User) * db :=
  let q := new_UserQuery (VObj [("id", id)]) true in
  let q := match spec with Some s => select s q | None => q end in
  match execute Date_toString Date_toISOString q d with
  | (inl e, d) => (inl e, d)
  | (inr users, d) => (inr (head users), d)
  end.

(** The bearer token of the request, if the header has the right form. *)
Definition bearer (req : Request) : option string :=
  match authorization req with
  | Some h => if negb (String.eqb h "") && startsWith h "Bearer " then second_word h else None
  | None => None
  end.

Definition authenticate (req : Request) (t : Z) (d : db) : Answer * db :=
  match bearer req with
  | None => (Reply 401 "Access token is required" None, d)
  | Some token =>
      match verifyAccessToken config token t with
      | None => (Reply 401 "Invalid or expired access token" None, d)
      | Some payload =>
          match findById_value (obj_get payload "userId") None d with
          | (inl _, d) => (Reply 500 "Authentication error" None, d)
          | (inr None, d) => (Reply 401 "User not found" None, d)
          | (inr (Some user), d) =>
              if tokenVersionStale (obj_get payload "tv") (user_get user "tokenVersion")
              then (Reply 401 "Session expired — please sign in again" None, d)
              else (NextAs user, d)
          end
      end
  end.

Definition optionalAuth (req : Request) (t : Z) (d : db) : Answer * db :=
  match bearer req with
  | None => (Next, d)
  | Some token =>
      match verifyAccessToken config token t with
      | None => (Next, d)
      | Some payload =>
          match findById_value (obj_get payload "userId") None d with
          | (inr (Some user), d) =>
              if tokenVersionStale (obj_get payload "tv") (user_get user "tokenVersion") then (Next, d)
              else (NextAs user, d)
          | (_, d) => (Next, d)
          end
      end
  end.

Definition requireVerifiedEmail (user : option User) : Answer :=
  match user with
  | Some u => if truthy (user_get u "isEmailVerified") then Next
              else Reply 403 "Email verification required" (Some "EMAIL_NOT_VERIFIED")
  | None => Reply 403 "Email verification required" (Some "EMAIL_NOT_VERIFIED")
  end.
End Middleware.

(** ** Facts *)

Lemma second_word_bearer token : no_space token = true → second_word ("Bearer " +:+ token) = Some token.
Proof.
  intros H. assert (Hf : first_word token = token).
  { induction token as [|c s IH]; [done|]. cbn in *. apply andb_true_iff in H as [Hc Hs].
    apply negb_true_iff in Hc. rewrite Hc. by rewrite IH. }
  transitivity (Some (first_word token)); [reflexivity|by rewrite Hf].
Qed.

Lemma startsWith_app p s : startsWith (p +:+ s) p = true.
Proof.
  unfold startsWith. induction p as [|c p IH]; [by destruct s|].
  change (String c p +:+ s) with (String c (p +:+ s)). cbn. by destruct (Ascii.ascii_dec c c).
Qed.

Section Facts.
Context (Date_toString Date_toISOString : Z → string).
Context `{J : Jwt} {JL : JwtLaws J} `{UDB : UsersDb} {DL : UsersDbLaws UDB}.
Local Abbreviation authenticate := (authenticate Date_toString Date_toISOString).
Local Abbreviation optionalAuth := (optionalAuth Date_toString Date_toISOString).

(** A request that presents a token. *)
Definition bearing (token : string) (req : Request) : Prop := authorization req = Some ("Bearer " +:+ token).

Lemma bearer_bearing token req : no_space token = true → bearing token req → bearer req = Some token.
Proof.
  intros Hs Hb. unfold bearer. rewrite Hb, startsWith_app, second_word_bearer by done. done.
Qed.

(** The token version of a row. *)
Definition version_of (r : object) : Z := match obj_get r "token_version" with VNum n => n | _ => 0 end.

(** The answer to a genuine access token of version [v], before its expiry. *)
Definition access_answer (i : string) (v : Z) (d : db) : Answer :=
  match table d !! i with
  | None => Reply 401 "User not found" None
  | Some r =>
      if version_of r =? v then NextAs (loaded r) else Reply 401 "Session expired — please sign in again" None
  end.

Lemma findById_value_loaded i d :
  findById_value Date_toString Date_toISOString (VStr i) None d = (inr (loaded <$> table d !! i), d).
Proof. rewrite <- (findById_loaded Date_toString Date_toISOString (DL := DL)). reflexivity. Qed.

(** *** Issued tokens *)

Section Issued.
Context (config : JwtConfig).

Lemma issue_access user i jti t0 :
  user_get user "_id" = VStr i → scalar (user_get user "email") = true →
  scalar (user_get user "tokenVersion") = true → accessSecret config ≠ "" →
  ∃ token, generateAccessToken config user jti t0 = Returned token ∧ no_space token = true ∧
    jwt_sign (access_payload config user i jti) (accessSecret config) (parseExpiry (accessExpiresIn config))
      (issuer config) (audience config) t0 = Returned token.
Proof.
  intros Hid He Hv Hs. unfold generateAccessToken, id_string. rewrite Hid. cbn [outcome_bind].
  destruct (jwt_sign_total (access_payload config user i jti) (accessSecret config)
              (parseExpiry (accessExpiresIn config)) (issuer config) (audience config) t0 Hs) as (token & Ht & Hn & _);
    [|apply (bool_decide_unpack _); by vm_compute|by exists token].
  cbn -[scalar user_get nullish]. rewrite He. by destruct (user_get user "tokenVersion").
Qed.

Lemma issue_refresh user i jti t0 :
  user_get user "_id" = VStr i → scalar (user_get user "email") = true → refreshSecret config ≠ "" →
  ∃ token, generateRefreshToken config user jti t0 = Returned token ∧ no_space token = true ∧
    jwt_sign (refresh_payload user i jti) (refreshSecret config) (parseExpiry (refreshExpiresIn config))
      (issuer config) (audience config) t0 = Returned token.
Proof.
  intros Hid He Hs. unfold generateRefreshToken, id_string. rewrite Hid. cbn [outcome_bind].
  destruct (jwt_sign_total (refresh_payload user i jti) (refreshSecret config)
              (parseExpiry (refreshExpiresIn config)) (issuer config) (audience config) t0 Hs) as (token & Ht & Hn & _);
    [|apply (bool_decide_unpack _); by vm_compute|by exists token].
  cbn -[scalar user_get]. by rewrite He.
Qed.

Lemma unregistered k : has registered k = false → k ∉ registered.
Proof. by apply has_false. Qed.

(** A token of one type does not pass as the other, whatever the secrets. *)
Lemma refresh_is_no_access user i jti t0 token secret exp t :
  jwt_sign (refresh_payload user i jti) secret exp (issuer config) (audience config) t0 = Returned token →
  verifyAccessToken config token t = None.
Proof.
  intros Hs. unfold verifyAccessToken. destruct (jwt_verify _ _ _ _ _) as [payload|] eqn:E; [|done].
  rewrite (jwt_payload _ _ _ _ _ _ _ _ _ _ Hs E) by (apply unregistered; by vm_compute). done.
Qed.

Lemma access_is_no_refresh user i jti t0 token secret exp t :
  jwt_sign (access_payload config user i jti) secret exp (issuer config) (audience config) t0 = Returned token →
  verifyRefreshToken config token t = None.
Proof.
  intros Hs. unfold verifyRefreshToken. destruct (jwt_verify _ _ _ _ _) as [payload|] eqn:E; [|done].
  rewrite (jwt_payload _ _ _ _ _ _ _ _ _ _ Hs E) by (apply unregistered; by vm_compute). done.
Qed.

Lemma verify_issued user i jti t0 token t :
  jwt_sign (access_payload config user i jti) (accessSecret config) (parseExpiry (accessExpiresIn config))
    (issuer config) (audience config) t0 = Returned token →
  if t / 1000 <? t0 / 1000 + parseExpiry (accessExpiresIn config) then
    ∃ payload, verifyAccessToken config token t = Some payload ∧ obj_get payload "userId" = VStr i ∧
               obj_get payload "tv" = nullish (user_get user "tokenVersion") (VNum 0)
  else verifyAccessToken config token t = None.
Proof.
  intros Hs. unfold verifyAccessToken. destruct (Z.ltb_spec (t / 1000) (t0 / 1000 + parseExpiry (accessExpiresIn config))) as [Hlt|Hge].
  - destruct (jwt_verify_sign _ _ _ _ _ _ _ _ Hs Hlt) as (payload & -> & Hget). exists payload.
    rewrite !Hget by (apply unregistered; by vm_compute). done.
  - by rewrite (jwt_expired _ _ _ _ _ _ _ _ Hs Hge).
Qed.


End Issued.

(** C15. The life of a token pair.  Issuing succeeds, and from then on, for a
    request that presents the access token: until the configured expiry the
    middleware lets it in exactly when the row of the user still exists and
    still has the token version of the moment of issue, and answers 401
    otherwise; from the expiry on it answers 401.  The refresh token is never
    accepted in its place, not even if both secrets are the same, and the
    access token is never accepted as a refresh token.  The database is not
    changed.  [optionalAuth] attaches the user in exactly the same cases and
    never refuses. *)
Theorem token_lifecycle env user i v jti1 jti2 t0 :
  let config := jwt_config env in
  user_get user "_id" = VStr i → scalar (user_get user "email") = true → user_get user "tokenVersion" = VNum v →
  ∃ access refresh, generateTokenPair config user jti1 jti2 t0 = Returned (access, refresh) ∧
    ∀ req t d, (∀ r, table d !! i = Some r → obj_get r "token_version" = VNum (version_of r)) →
    (bearing access req →
       authenticate config req t d =
         (if t / 1000 <? t0 / 1000 + parseExpiry (accessExpiresIn config) then access_answer i v d
          else Reply 401 "Invalid or expired access token" None, d) ∧
       (∀ u, (optionalAuth config req t d).1 = NextAs u ↔ (authenticate config req t d).1 = NextAs u)) ∧
    (bearing refresh req → authenticate config req t d = (Reply 401 "Invalid or expired access token" None, d)) ∧
    verifyRefreshToken config access t = None.
Proof.
  intros config Hid He Hv.
  assert (Hs1 : accessSecret config ≠ "") by by apply env_or_nonempty.
  assert (Hs2 : refreshSecret config ≠ "") by by apply env_or_nonempty.
  destruct (issue_access config user i jti1 t0 Hid He ltac:(by rewrite Hv) Hs1) as (access & Ha & Hna & Hsa).
  destruct (issue_refresh config user i jti2 t0 Hid He Hs2) as (refresh & Hr & Hnr & Hsr).
  exists access, refresh. unfold generateTokenPair. rewrite Ha, Hr. split; [done|]. intros req t d Hcol.
  pose proof (verify_issued _ _ _ _ _ _ t Hsa) as Hver. split; [|split].
  - intros Hb. unfold Tokens.authenticate, Tokens.optionalAuth. rewrite (bearer_bearing _ _ Hna Hb).
    destruct (t / 1000 <? _).
    + destruct Hver as (payload & -> & -> & ->). rewrite findById_value_loaded. unfold access_answer.
      destruct (table d !! i) as [r|]; cbn [fmap option_fmap option_map]; [|done]. load.
      rewrite (Hcol r eq_refl), Hv. unfold tokenVersionStale. cbn [nullish strict_eq]. rewrite (Z.eqb_sym v).
      by destruct (version_of r =? v).
    + by rewrite Hver.
  - intros Hb. unfold Tokens.authenticate. rewrite (bearer_bearing _ _ Hnr Hb).
    by rewrite (refresh_is_no_access _ _ _ _ _ _ _ _ t Hsr).
  - by eapply access_is_no_refresh.
Qed.
End Facts.

(** ** A concrete token package

    Tokens are the printed payload in hexadecimal; it satisfies the laws, so
    they can hold together. *)

Module ToyJwt.
Definition hex (n : N) : Ascii.ascii := Ascii.ascii_of_N (if (n <? 10)%N then 48 + n else 87 + n).
Definition unhex (c : Ascii.ascii) : N :=
  let n := Ascii.N_of_ascii c in if (n <? 58)%N then n - 48 else n - 87.

Fixpoint enc (s : string) : string :=
  match s with
  | EmptyString => ""
  | String c s =>
      let n := Ascii.N_of_ascii c in String (hex (n / 16)) (String (hex (n mod 16)) (enc s))
  end.

Fixpoint dec (s : string) : string :=
  match s with
  | String a (String b s) => String (Ascii.ascii_of_N (16 * unhex a + unhex b)) (dec s)
  | _ => ""
  end.

Lemma dec_enc s : dec (enc s) = s.
Proof.
  induction s as [|c s IH]; [done|]. cbn [enc dec]. rewrite IH. f_equal.
  by destruct c as [[] [] [] [] [] [] [] []].
Qed.

Lemma enc_no_space s : no_space (enc s) = true.
Proof.
  induction s as [|c s IH]; [done|]. cbn [enc no_space]. rewrite IH.
  by destruct c as [[] [] [] [] [] [] [] []].
Qed.

Definition fields (p : object) : list (string * json) :=
  omap (λ p, match to_json (λ _, "") p.2 with Some j => Some (p.1, j) | None => None end) p.

Definition sign (p : object) (secret : string) (exp : Z) (iss aud : string) (t0 : Z) : outcome string :=
  if negb (String.eqb secret "") && forallb scalar p.*2 && bool_decide (NoDup p.*1) then
    Returned (String "t" (enc (stringify
      (JArr [JStr secret; JNum (t0 / 1000 + exp); JStr iss; JStr aud; JObj (fields p)]))))
  else Thrown "secretOrPrivateKey must have a value".

Definition verify (token secret iss aud : string) (t : Z) : option object :=
  match token with
  | String _ s =>
      match parse (dec s) with
      | Some (JArr [JStr secret'; JNum e; JStr iss'; JStr aud'; JObj l]) =>
          if String.eqb secret secret' && String.eqb iss iss' && String.eqb aud aud' && (t / 1000 <? e)
          then Some (map (λ p, (p.1, of_json p.2)) l) else None
      | _ => None
      end
  | EmptyString => None
  end.

#[global] Instance toy_jwt : Jwt := {| jwt_sign := sign; jwt_verify := verify |}.

Lemma fields_get p k :
  forallb scalar p.*2 = true → NoDup p.*1 → obj_get (map (λ p, (p.1, of_json p.2)) (fields p)) k = obj_get p k.
Proof.
  unfold obj_get. induction p as [|[q v] p IH]; [done|]. intros [Hv Hs]%andb_true_iff [Hq Hnd]%NoDup_cons.
  cbn [fst snd] in *. specialize (IH Hs Hnd). unfold fields in *. cbn [omap list_omap fst snd].
  destruct v; try done; cbn; [|by destruct (String.eqb q k)..].
  destruct (String.eqb_spec q k) as [<-|]; [|done]. etransitivity; [apply IH|].
  by rewrite (proj2 (obj_lookup_none p q) Hq).
Qed.

Lemma sign_inv p secret exp iss aud t0 token :
  sign p secret exp iss aud t0 = Returned token →
  forallb scalar p.*2 = true ∧ NoDup p.*1 ∧
  ∀ secret' t, verify token secret' iss aud t =
    if String.eqb secret' secret && (t / 1000 <? t0 / 1000 + exp)
    then Some (map (λ p, (p.1, of_json p.2)) (fields p)) else None.
Proof.
  unfold sign. destruct (_ && _) eqn:E; [|done].
  remember (stringify _) as text eqn:Htext. intros [= <-].
  apply andb_true_iff in E as [[_ Hs]%andb_true_iff Hnd%bool_decide_eq_true]. split; [done|]. split; [done|].
  intros secret' t. unfold verify. rewrite dec_enc, Htext, parse_stringify, !String.eqb_refl, !andb_true_r. done.
Qed.

#[global] Instance toy_jwt_laws : JwtLaws toy_jwt.
Proof.
  split; cbn [jwt_sign jwt_verify toy_jwt].
  - intros p secret exp iss aud t0 Hs Hp Hnd. unfold sign.
    apply String.eqb_neq in Hs as ->. rewrite Hp, bool_decide_true by done. cbn [negb andb].
    eexists. split; [done|]. split; [|done]. cbn. apply enc_no_space.
  - intros p secret exp iss aud t0 token t Hsign Hlt. apply sign_inv in Hsign as (Hp & Hnd & Hv).
    rewrite Hv, String.eqb_refl. apply Z.ltb_lt in Hlt. rewrite Hlt. cbn [andb].
    eexists. split; [done|]. intros k _. by apply fields_get.
  - intros p secret exp iss aud t0 token t Hsign Hge. apply sign_inv in Hsign as (Hp & Hnd & Hv).
    rewrite Hv. apply Z.ltb_ge in Hge. by rewrite Hge, andb_false_r.
  - intros p secret exp iss aud t0 token secret' t payload Hsign Hver k _.
    apply sign_inv in Hsign as (Hp & Hnd & Hv). rewrite Hv in Hver. destruct (_ && _) in Hver; [|done].
    injection Hver as <-. by apply fields_get.
Qed.

Definition env (name : string) : option string :=
  if String.eqb name "JWT_ACCESS_SECRET" then Some "a" else None.

Definition row (version : Z) : object := MemPg.row "u1" [] [] version.

Lemma row_version v r :
  table (UsersDb := MemPg.mem_pg) {["u1" := row v]} !! "u1" = Some r → obj_get r "token_version" = VNum (version_of r).
Proof. intros [Hr _]%MemPg.rows_lookup. cbn in Hr. rewrite lookup_singleton_eq in Hr. by injection Hr as <-. Qed.
End ToyJwt.

(** A token issued at version 3 works until the version moves on. *)
Lemma token_lifecycle_witness :
  ∃ access refresh,
    generateTokenPair (jwt_config ToyJwt.env) (loaded (ToyJwt.row 3)) "j1" "j2" 0 = Returned (access, refresh) ∧
    ∀ req, bearing access req →
      let auth t v := (authenticate (λ _, "") (λ _, "") (jwt_config ToyJwt.env) (UDB := MemPg.mem_pg) req t {["u1" := ToyJwt.row v]}).1 in
      auth 899999 3 = NextAs (loaded (ToyJwt.row 3)) ∧
      auth 899999 4 = Reply 401 "Session expired — please sign in again" None ∧
      auth 900000 3 = Reply 401 "Invalid or expired access token" None.
Proof.
  destruct (token_lifecycle (λ _, "") (λ _, "") (UDB := MemPg.mem_pg) ToyJwt.env (loaded (ToyJwt.row 3)) "u1" 3 "j1" "j2" 0
    ltac:(vm_compute; reflexivity) ltac:(vm_compute; reflexivity) ltac:(vm_compute; reflexivity)) as (access & refresh & Hp & H).
  exists access, refresh. split; [exact Hp|]. intros req Hb. cbv zeta.
  split_and!; (rewrite (proj1 (proj1 (H req _ _ (ToyJwt.row_version _)) Hb)); vm_compute; reflexivity).
Defined.
