(* ===== verification/SessionHandlers.v ===== *)
(** * The session handlers

    Models the handlers of [uam-backend/src/controllers/auth.controller.ts]
    that keep a session alive and end it ([refreshAccessToken], [logout]), with
    [revokeAccessToken] of [services/revoke.service.ts].

    A handler is a program of [Async] over the state of [Sessions]; it is
    composed of the services as the source composes them, and returns what it
    sends: status, JSON body and cookie operations.  Reading the clock is a
    piece of its own.  Requests to the control plane are best-effort: the body
    is logged, the answer is not looked at. *)

From S2P Require Import Prelude CircuitConfig RollingWindow CircuitBreaker GuardedCalls Async RedisCache Json JsVal Columns SqlFilter Password UserModel OneTimeCodes Sessions Tokens.
#[local] Open Scope string_scope.
#[local] Open Scope list_scope.
#[local] Open Scope Z_scope.
#[local] Open Scope async_scope.

Record Response := { status : Z; json_body : object; cookie_ops : list CookieOp }.

(** [res.status(code).json({ success: false, message })] *)
Definition refuse (code : Z) (message : string) : Response :=
  {| status := code; json_body := [("success", VBool false); ("message", VStr message)]; cookie_ops := [] |}.

(** ** Revoking a presented access token *)

(** The rest after one or more white-space characters at the start *)
Definition skip_ws (s : string) : option string :=
  match s with
  | String c _ => if is_ws c then Some (trim_start s) else None
  | EmptyString => None
  end.

(** [rawToken.replace(/^Bearer\s+/i, '')] *)
Definition strip_bearer (s : string) : string :=
  if String.eqb (toLowerCase (String.substring 0 6 s)) "bearer" then
    default s (skip_ws (String.substring 6 (String.length s) s))
  else s.

(** [exp] comes from a token that was verified, so it is a number if it is
    there; any other value makes the arithmetic give [NaN], which JSON prints as
    [null]. *)
Definition remainingTtlSecs (exp : val) (fallback : Z) (t : Z) : val :=
  if negb (truthy exp) then VNum fallback
  else match exp with
       | VNum n =>
           let remaining := n - t / 1000 in
           if remaining <=? 0 then VNum 60 else VNum (Z.min (Z.max remaining 60) 86400)
       | _ => VNull
       end.

Section Handlers.
Context (sha256_hex : string → string) (base64url_decode : string → string).
Context (Date_toString Date_toISOString : Z → string).
Context `{RKV : RedisKV} `{UDB : UsersDb} `{J : Jwt}.
Context (hashPassword : string → string) (config : JwtConfig) (cookieConfig : CookieConfig).

(** [null] when the token is malformed *)
Definition decodePayload (token : string) : val :=
  match split_dot token with
  | [_; payload; _] =>
      match parse (base64url_decode payload) with
      | Some j => of_json j
      | None => VNull
      end
  | _ => VNull
  end.

(** [revokeAccessToken(rawToken)] with the default options *)
Definition revokeAccessToken (rawToken : string) : prog Env State unit :=
  let token := trim (strip_bearer rawToken) in
  if String.eqb token "" then Ret tt
  else
    let payload := decodePayload token in
    let jti := opt_prop payload "jti" in
    seg (λ _ s,
      let ttl_secs := remainingTtlSecs (opt_prop payload "exp") 3600 (clock (cache s)) in
      let bodyObj := ("ttl_secs", ttl_secs) :: (if truthy jti then [("jti", jti)] else []) ++ [("token", VStr token)] in
      (tt, s <| revocations ::= λ l, l ++ [bodyObj] |>)).

(** [Date.now()] *)
Definition time : prog Env State Z := seg (λ _ s, (clock (cache s), s)).

(** [issueSessionCookies(res, refreshToken)] *)
Definition issueSessionCookies (refreshToken : string) : prog Env State (list CookieOp) :=
  seg (λ e s, ((setAuthCookies cookieConfig (refreshExpiresIn config) refreshToken (fresh e)).2, s)).

(** Revoke the access token of the body, if it is a valid one. *)
Definition revoke_prior (accessToken : val) : prog Env State unit :=
  match accessToken with
  | VStr a =>
      if String.eqb a "" then Ret tt
      else
        let! t := time in
        match verifyAccessToken config a t with
        | Some _ => revokeAccessToken a
        | None => Ret tt
        end
  | _ => Ret tt
  end.

(** The id of a loaded document is a text. *)
Definition doc_id (user : User) : string := match user_get user "_id" with VStr s => s | _ => "" end.

Definition session_invalidated : Response := refuse 401 "Session invalidated — please sign in again".

(** [await invalidateAllSessions(id)], then 401 *)
Definition invalidate_and_refuse (id : string) : prog Env State Response :=
  let! r := invalidateAllSessions Date_toString Date_toISOString hashPassword id in
  match r with
  | inl _ => Ret (refuse 500 "Token refresh failed")
  | inr _ => Ret session_invalidated
  end.

(** [refreshAccessToken] from the point where the stored token is known. *)
Definition rotate_and_reply (user : User) (refreshToken : string) (priorAccessToken : val) : prog Env State Response :=
  let! tokens := seg (λ e s, (generateTokenPair config user (uuids e).1 (uuids e).2 (clock (cache s)), s)) in
  match tokens with
  | Thrown _ => Ret (refuse 500 "Token refresh failed")
  | Returned (newAccess, newRefresh) =>
      revoke_prior priorAccessToken ;;
      let! rotated := rotateSessionTokens sha256_hex base64url_decode Date_toString Date_toISOString
                        (doc_id user) refreshToken newAccess newRefresh (Some (token_version user)) in
      match rotated with
      | inl _ => Ret (refuse 500 "Token refresh failed")
      | inr false => invalidate_and_refuse (doc_id user)
      | inr true =>
          let! ops := issueSessionCookies newRefresh in
          Ret {| status := 200; json_body := ("success", VBool true) :: publicTokenFields cookieConfig newAccess newRefresh;
                 cookie_ops := ops |}
      end
  end.

Definition refreshAccessToken (req : Request) : prog Env State Response :=
  let refreshToken := getRefreshFromRequest cookieConfig req in
  match get_prop (body req) "accessToken" with
  | None => Ret (refuse 500 "Token refresh failed")
  | Some priorAccessToken =>
      if negb (truthy refreshToken) then Ret (refuse 401 "Refresh token is required")
      else
        match refreshToken with
        | VStr tok =>
            let! t := time in
            match verifyRefreshToken config tok t with
            | None => Ret (refuse 401 "Invalid refresh token")
            | Some payload =>
                let! found := on_db (findById_value Date_toString Date_toISOString
                                       (obj_get payload "userId") (Some "+refreshTokens")) in
                match found with
                | inl _ => Ret (refuse 500 "Token refresh failed")
                | inr None => Ret (refuse 401 "User not found")
                | inr (Some user) =>
                    match findStoredRefreshToken sha256_hex (user_get user "refreshTokens") tok with
                    | None => invalidate_and_refuse (doc_id user)
                    | Some _ => rotate_and_reply user tok priorAccessToken
                    end
                end
            end
        | _ => Ret (refuse 401 "Invalid refresh token")
        end
  end.

(** [await removeRefreshToken(payload.userId, refreshToken)] for a valid token;
    the refresh tokens this service signs carry a string. *)
Definition logout_refresh (refreshToken : val) : prog Env State (failure + unit) :=
  match refreshToken with
  | VStr tok =>
      if String.eqb tok "" then Ret (inr tt)
      else
        let! t := time in
        match verifyRefreshToken config tok t with
        | Some payload =>
            removeRefreshToken sha256_hex Date_toString Date_toISOString hashPassword
              (match obj_get payload "userId" with VStr i => i | _ => "" end) tok
        | None => Ret (inr tt)
        end
  | _ => Ret (inr tt)
  end.

Definition logout (req : Request) : prog Env State Response :=
  let refreshToken := getRefreshFromRequest cookieConfig req in
  match get_prop (body req) "accessToken" with
  | None => Ret (refuse 500 "Logout failed")
  | Some bodyAccessToken =>
      let! removed := logout_refresh refreshToken in
      match removed with
      | inl _ => Ret (refuse 500 "Logout failed")
      | inr _ =>
          revoke_prior bodyAccessToken ;;
          Ret {| status := 200;
                 json_body := [("success", VBool true); ("message", VStr "Logged out successfully")];
                 cookie_ops := clearAuthCookies cookieConfig |}
      end
  end.
End Handlers.

(** ** Facts *)

#[local] Arguments dict_get : simpl never.
#[local] Arguments COLUMN_TO_FIELD : simpl never.
#[local] Arguments FIELD_TO_COLUMN : simpl never.
#[local] Arguments ALL_FIELDS : simpl never.

(** Execute the program at the head. *)
Ltac step_prog es' :=
  match goal with
  | |- context [run (bind ?p ?q) ?es ?s] =>
      let H := fresh in destruct (run_bind_any p q es s) as [es' H]; rewrite H; clear H
  end.

(** The time to live a revocation asks for is between a minute and a day. *)
Lemma remainingTtl_bounds exp t n :
  remainingTtlSecs exp 3600 t = VNum n → 60 ≤ n ≤ 86400.
Proof.
  unfold remainingTtlSecs. destruct (truthy exp); cbn [negb]; [|intros [= <-]; lia].
  destruct exp; try done. case_match; intros [= <-]; [lia|]. breflect. lia.
Qed.

Section Facts.
Context (sha256_hex : string → string) (base64url_decode : string → string).
Context (Date_toString Date_toISOString : Z → string).
Context `{RKV : RedisKV} `{UDB : UsersDb} {DL : UsersDbLaws UDB} `{J : Jwt} {JL : JwtLaws J}.
Context (hashPassword : string → string) (config : JwtConfig) (cookieConfig : CookieConfig).
Local Abbreviation refresh_handler :=
  (refreshAccessToken sha256_hex base64url_decode Date_toString Date_toISOString hashPassword config cookieConfig).
Local Abbreviation invalidate_and_refuse := (invalidate_and_refuse Date_toString Date_toISOString hashPassword).

(** The row of a user as the schema keeps it. *)
Record user_row (i : string) (r : object) (rts : list string) (jtis h : list val) (n : Z) : Prop := {
  ur_tokens : obj_get r "refresh_tokens" = strs rts;
  ur_jtis : obj_get r "active_access_jtis" = VArr jtis;
  ur_history : obj_get r "migration_history" = VArr h;
  ur_version : obj_get r "token_version" = VNum n;
  ur_range : 0 ≤ n < 2 ^ 31 - 1;
  ur_email : scalar (obj_get r "email") = true;
}.

(** All sessions of the user are gone. *)
Definition sessions_emptied (d d' : db) (i : string) (n : Z) : Prop :=
  ∃ r', table d' = <[i := r']> (table d) ∧ obj_get r' "refresh_tokens" = strs [] ∧
        obj_get r' "active_access_jtis" = strs [] ∧ obj_get r' "token_version" = VNum (n + 1).

Lemma run_invalidate_refuse i es s r rts jtis h n :
  table (users s) !! i = Some r → user_row i r rts jtis h n →
  ∃ c d', run (invalidate_and_refuse i) es s =
            (session_invalidated, mkState c d' (revocations s ++ revoke_requests jtis)) ∧
          sessions_emptied (users s) d' i n.
Proof.
  intros Hr [_ Hj Hh Hn Hrange _]. unfold SessionHandlers.invalidate_and_refuse.
  step_prog es'.
  destruct (invalidate_run Date_toString Date_toISOString hashPassword i es s r jtis h n Hr Hj Hh Hn Hrange)
    as (c & d' & r' & -> & H). exists c, d'. cbn. split; [done|]. by exists r'.
Qed.

Lemma run_revoke_prior v {B} (k : prog Env State B) es s :
  ∃ c es' extra, run (revoke_prior base64url_decode config v ;; k) es s =
                 run k es' (mkState c (users s) (revocations s ++ extra)).
Proof.
  destruct s as [c d rv]. cbn [users revocations].
  assert (Hnone : ∀ es c, ∃ c' es' extra, run k es (mkState c d rv) = run k es' (mkState c' d (rv ++ extra))).
  { intros es' c'. exists c', es', []. by rewrite app_nil_r. }
  unfold revoke_prior. destruct v as [| | | |a| | | |]; try apply Hnone. destruct (String.eqb a ""); [apply Hnone|].
  unfold time, seg, act. cbn [bind run]. cbn [cache_of has_cache with_cache cache].
  destruct (verifyAccessToken _ _ _); [|apply Hnone].
  unfold revokeAccessToken. destruct (String.eqb _ ""); [apply Hnone|]. cbn. by eexists _, _, _.
Qed.

(** The document [refreshAccessToken] loads. *)
Lemma session_doc_get r f :
  has ALL_FIELDS f = true → has session_cols (col_of f) = true → f ≠ "_id" →
  user_get (new_User (rowToValues (project session_cols r)) false) f = obj_get r (col_of f).
Proof.
  intros Hf Hc Hid. assert (H1 : NoDup session_cols) by (apply (bool_decide_unpack _); by vm_compute).
  rewrite user_get_value by done. rewrite (document_get _ _ _ H1) by by apply has_spec. by rewrite Hc.
Qed.

Lemma session_doc_id d i r :
  table d !! i = Some r → user_get (new_User (rowToValues (project session_cols r)) false) "_id" = VStr i.
Proof.
  intros Hr. destruct (pg_row_id i d r Hr) as [Hid _]. unfold user_get. cbn [String.eqb Ascii.eqb Bool.eqb].
  assert (H1 : NoDup session_cols) by (apply (bool_decide_unpack _); by vm_compute).
  rewrite (document_get _ _ _ H1) by (apply has_spec; by vm_compute).
  replace (has session_cols (col_of "id")) with true by by vm_compute. exact Hid.
Qed.

(** A request that carries the refresh token [tok] of user [i], valid at the
    time of its first piece. *)
Record presents (req : Request) (tok i : string) (t : Z) : Prop := {
  pr_token : getRefreshFromRequest cookieConfig req = VStr tok;
  pr_nonempty : tok ≠ "";
  pr_body : is_Some (get_prop (body req) "accessToken");
  pr_valid : ∃ payload, verifyRefreshToken config tok t = Some payload ∧ obj_get payload "userId" = VStr i;
}.

Lemma run_refresh req tok i r rts es s :
  presents req tok i (clock (advance (es O) (cache s))) →
  table (users s) !! i = Some r → obj_get r "refresh_tokens" = strs rts →
  ∃ c es' prior, let u := new_User (rowToValues (project session_cols r)) false in
    run (refresh_handler req) es s =
    run (if decide (sha256_hex tok ∈ rts)
         then rotate_and_reply sha256_hex base64url_decode Date_toString Date_toISOString hashPassword config cookieConfig
                u tok prior
         else invalidate_and_refuse i) es' (mkState c (users s) (revocations s)).
Proof.
  intros [Ht Hne [prior Hb] (payload & Hv & Hid)] Hr Hrts. unfold refreshAccessToken. rewrite Ht, Hb.
  cbn [truthy]. apply String.eqb_neq in Hne as ->. cbn [negb]. unfold time, seg, act. cbn [bind run].
  destruct s as [c d rv]. cbn [cache_of has_cache with_cache cache] in *. rewrite Hv. cbn [fst snd].
  step_db c1. rewrite Hid. change (findById_value Date_toString Date_toISOString (VStr i) (Some "+refreshTokens"))
    with (findById Date_toString Date_toISOString i (Some "+refreshTokens")).
  destruct (find_tokens Date_toString Date_toISOString (DL := DL) i d r Hr) as (u & Hf & Hu & Hrt). cbn [users] in *.
  rewrite Hf. cbn [fst snd]. rewrite Hrt, Hrts, find_stored. exists c1, (env_tail (env_tail es)), prior. cbv zeta.
  destruct (decide _); [by rewrite Hu|].
  assert (Hdoc : doc_id u = i); [|by rewrite Hdoc].
  unfold doc_id. rewrite Hu. by rewrite (session_doc_id d i r Hr).
Qed.

(** The successful path, after the token was found. *)
Lemma run_rotate_reply u i r rts n tok prior es s :
  user_get u "_id" = VStr i → scalar (user_get u "email") = true → user_get u "tokenVersion" = VNum n →
  table (users s) !! i = Some r → obj_get r "refresh_tokens" = strs rts → sha256_hex tok ∈ rts →
  accessSecret config ≠ "" → refreshSecret config ≠ "" →
  ∃ access refresh c d' rv csrf t0,
    generateTokenPair config u (uuids (es O)).1 (uuids (es O)).2 t0 = Returned (access, refresh) ∧
    run (rotate_and_reply sha256_hex base64url_decode Date_toString Date_toISOString hashPassword config cookieConfig
           u tok prior) es s =
      ({| status := 200; json_body := ("success", VBool true) :: publicTokenFields cookieConfig access refresh;
          cookie_ops := (setAuthCookies cookieConfig (refreshExpiresIn config) refresh csrf).2 |},
       mkState c d' rv) ∧
    tokens_updated (users s) d' i r (pulled (sha256_hex tok) (pushed rts (sha256_hex refresh))).
Proof.
  intros Hid He Hv Hr Hrts Hin Hs1 Hs2.
  set (t0 := clock (advance (es O) (cache s))).
  destruct (issue_access config u i (uuids (es O)).1 t0 Hid He ltac:(by rewrite Hv) Hs1) as (access & Ha & _ & _).
  destruct (issue_refresh config u i (uuids (es O)).2 t0 Hid He Hs2) as (refresh & Hrf & _ & _).
  assert (Hpair : generateTokenPair config u (uuids (es O)).1 (uuids (es O)).2 t0 = Returned (access, refresh))
    by (unfold generateTokenPair; by rewrite Ha, Hrf).
  unfold rotate_and_reply. destruct s as [c d rv]. unfold seg at 1, act. cbn [bind run].
  cbn [cache_of has_cache with_cache cache] in *. fold t0. rewrite Hpair. cbn [fst snd users] in *.
  match goal with |- context [run (revoke_prior _ _ ?v ;; ?k) ?es ?s] =>
    destruct (run_revoke_prior v k es s) as (c1 & es1 & extra & ->) end.
  step_prog es2. unfold doc_id. rewrite Hid.
  match goal with |- context [run (rotateSessionTokens _ _ _ _ _ _ _ _ ?v) ?es ?s] =>
    pose proof (rotate_run sha256_hex base64url_decode Date_toString Date_toISOString (DL := DL)
                  i tok access refresh v es s r rts Hr Hrts) as Hrot end.
  rewrite decide_True in Hrot by done. destruct Hrot as (c2 & d' & Hrun & Hupd). rewrite Hrun. cbn [fst snd].
  unfold issueSessionCookies, seg, act. cbn [bind run].
  eexists access, refresh, _, d', _, _, t0. split; [done|]. split; [reflexivity|done].
Qed.

Lemma row_after_rotation d d' i r rts rts' jtis h n :
  user_row i r rts jtis h n → tokens_updated d d' i r rts' →
  ∃ r' jtis', table d' !! i = Some r' ∧ user_row i r' rts' jtis' h n.
Proof.
  intros [_ Hj Hh Hn Hrange He] (r' & Htab & Hrts' & Harr & Hrest). rewrite Hj in Harr. specialize (Harr eq_refl).
  destruct (obj_get r' "active_access_jtis") as [| | | | | | |jtis'|] eqn:Ej; try done.
  exists r', jtis'. rewrite Htab, lookup_insert_eq. split; [done|]. split; rewrite ?Hrest by done; done.
Qed.

Lemma run_refresh_unknown req tok i r rts jtis h n es s :
  presents req tok i (clock (advance (es O) (cache s))) → table (users s) !! i = Some r → user_row i r rts jtis h n →
  sha256_hex tok ∉ rts →
  let out := run (refresh_handler req) es s in
  out.1 = session_invalidated ∧ sessions_emptied (users s) (users out.2) i n ∧
  revocations out.2 = revocations s ++ revoke_requests jtis.
Proof.
  intros Hp Hr Hrow Hin. cbv zeta.
  destruct (run_refresh req tok i r rts es s Hp Hr (ur_tokens _ _ _ _ _ _ Hrow)) as (c & es' & prior & Hrun). cbv zeta in Hrun.
  rewrite Hrun, decide_False by done. set (s1 := mkState c (users s) (revocations s)).
  destruct (run_invalidate_refuse i es' s1 r rts jtis h n Hr Hrow) as (c' & d' & -> & He). done.
Qed.

Lemma session_doc_facts d i r rts jtis h n :
  table d !! i = Some r → user_row i r rts jtis h n →
  let u := new_User (rowToValues (project session_cols r)) false in
  user_get u "_id" = VStr i ∧ scalar (user_get u "email") = true ∧ user_get u "tokenVersion" = VNum n.
Proof.
  intros Hr Hrow. cbv zeta. split; [by eapply session_doc_id|].
  rewrite !session_doc_get by (done || by vm_compute). split; [apply (ur_email _ _ _ _ _ _ Hrow)|apply (ur_version _ _ _ _ _ _ Hrow)].
Qed.

(** C6. Refreshing a session.  A valid refresh token of a user is presented.
    If its hash is not stored (it was rotated or removed: reuse), the answer is
    401, every session of the user ends, the token version moves on and all
    tracked access tokens are revoked.  If it is stored, the answer is 200 with
    a new pair and a fresh refresh cookie, the stored hash is replaced, and
    whoever presents the old token again, whenever and with whatever request,
    triggers the former: rotation with reuse detection. *)
Theorem refresh_spec req tok i r rts jtis h n es s :
  accessSecret config ≠ "" → refreshSecret config ≠ "" →
  presents req tok i (clock (advance (es O) (cache s))) → table (users s) !! i = Some r → user_row i r rts jtis h n →
  let out := run (refresh_handler req) es s in
  (sha256_hex tok ∉ rts →
     out.1 = session_invalidated ∧ sessions_emptied (users s) (users out.2) i n ∧
     revocations out.2 = revocations s ++ revoke_requests jtis) ∧
  (sha256_hex tok ∈ rts →
     ∃ access refresh csrf,
       out.1 = {| status := 200;
                  json_body := ("success", VBool true) :: publicTokenFields cookieConfig access refresh;
                  cookie_ops := (setAuthCookies cookieConfig (refreshExpiresIn config) refresh csrf).2 |} ∧
       tokens_updated (users s) (users out.2) i r (pulled (sha256_hex tok) (pushed rts (sha256_hex refresh))) ∧
       ∀ req' es', presents req' tok i (clock (advance (es' O) (cache out.2))) →
         let out' := run (refresh_handler req') es' out.2 in
         out'.1 = session_invalidated ∧ sessions_emptied (users out.2) (users out'.2) i n).
Proof.
  intros Hs1 Hs2 Hp Hr Hrow. cbv zeta. split; [by eapply run_refresh_unknown|]. intros Hin.
  destruct (run_refresh req tok i r rts es s Hp Hr (ur_tokens _ _ _ _ _ _ Hrow)) as (c & es' & prior & Hrun). cbv zeta in Hrun.
  rewrite Hrun, decide_True by done. set (s1 := mkState c (users s) (revocations s)).
  destruct (session_doc_facts (users s) i r rts jtis h n Hr Hrow) as (Hid & He & Hv).
  destruct (run_rotate_reply _ i r rts n tok prior es' s1 Hid He Hv Hr (ur_tokens _ _ _ _ _ _ Hrow) Hin Hs1 Hs2)
    as (access & refresh & c' & d' & rv & csrf & t0 & _ & -> & Hupd).
  exists access, refresh, csrf. cbn [fst snd users]. split; [done|]. split; [exact Hupd|].
  intros req' es'' Hp'. destruct (row_after_rotation _ _ _ _ _ _ _ _ _ Hrow Hupd) as (r' & jtis' & Hr' & Hrow').
  destruct (run_refresh_unknown req' tok i r' _ jtis' h n es'' (mkState c' d' rv) Hp' Hr' Hrow') as (H1 & H2 & _); [|done].
  intros Hin'. unfold pulled in Hin'. by apply list_elem_of_filter in Hin' as [? _].
Qed.
End Facts.

(** ** A concrete refresh *)

Module RefreshRun.
Definition config : JwtConfig := jwt_config ToyJwt.env.
Definition cookieConfig : CookieConfig := cookie_config (λ _, None).

(** A refresh token of the user, issued at the time of the run. *)
Definition tok : string :=
  match generateRefreshToken config (loaded (MemPg.row "u1" [] [] 3)) "j0" 1000000 with
  | Returned t => t
  | Thrown _ => ""
  end.

Definition request : Request :=
  {| cookies := VObj [("uam_refresh", VStr tok)]; authorization := None; csrfHeader := VUndef; body := VObj [] |}.

Definition handler := refreshAccessToken SessionRuns.sha SessionRuns.decode SessionRuns.no_date SessionRuns.no_date
  (RKV := MemKV.mem_kv) (UDB := MemPg.mem_pg) (J := ToyJwt.toy_jwt) (λ s, s) config cookieConfig.

Lemma presented : presents config cookieConfig request tok "u1" 1000000.
Proof.
  split; [vm_compute; reflexivity|vm_compute; discriminate|by eexists|].
  eexists. split; [vm_compute; reflexivity|reflexivity].
Qed.

Lemma stored_row tokens jtis : user_row "u1" (MemPg.row "u1" tokens jtis 3) tokens (map VStr jtis) [] 3.
Proof. split; try done. Qed.
End RefreshRun.

(** The token is stored: 200; it is not: 401 and every session ends. *)
Lemma refresh_spec_witness :
  (∃ access refresh csrf,
     (run (RefreshRun.handler RefreshRun.request) (λ _, SessionRuns.e)
        (SessionRuns.start [SessionRuns.sha RefreshRun.tok] [])).1 =
     {| status := 200;
        json_body := ("success", VBool true) :: publicTokenFields RefreshRun.cookieConfig access refresh;
        cookie_ops := (setAuthCookies RefreshRun.cookieConfig (refreshExpiresIn RefreshRun.config) refresh csrf).2 |}) ∧
  (run (RefreshRun.handler RefreshRun.request) (λ _, SessionRuns.e) (SessionRuns.start ["#other"] ["j1"])).1 =
    session_invalidated.
Proof.
  split.
  - destruct (refresh_spec SessionRuns.sha SessionRuns.decode SessionRuns.no_date SessionRuns.no_date
      (RKV := MemKV.mem_kv) (UDB := MemPg.mem_pg) (J := ToyJwt.toy_jwt) (λ s, s) RefreshRun.config RefreshRun.cookieConfig
      RefreshRun.request RefreshRun.tok "u1" (MemPg.row "u1" [SessionRuns.sha RefreshRun.tok] [] 3)
      [SessionRuns.sha RefreshRun.tok] [] [] 3 (λ _, SessionRuns.e)
      (SessionRuns.start [SessionRuns.sha RefreshRun.tok] []) ltac:(discriminate) ltac:(discriminate)
      RefreshRun.presented ltac:(vm_compute; reflexivity) (RefreshRun.stored_row _ [])) as [_ H].
    destruct (H ltac:(left)) as (access & refresh & csrf & H1 & _). exists access, refresh, csrf. exact H1.
  - exact (proj1 (proj1 (refresh_spec SessionRuns.sha SessionRuns.decode SessionRuns.no_date SessionRuns.no_date
      (RKV := MemKV.mem_kv) (UDB := MemPg.mem_pg) (J := ToyJwt.toy_jwt) (λ s, s) RefreshRun.config RefreshRun.cookieConfig
      RefreshRun.request RefreshRun.tok "u1" (MemPg.row "u1" ["#other"] ["j1"] 3) ["#other"] [VStr "j1"] [] 3
      (λ _, SessionRuns.e) (SessionRuns.start ["#other"] ["j1"]) ltac:(discriminate) ltac:(discriminate)
      RefreshRun.presented ltac:(vm_compute; reflexivity) (RefreshRun.stored_row _ ["j1"]))
      ltac:(apply has_false; vm_compute; reflexivity))).
Defined.
