(* ===== verification/UsersTable.v ===== *)
(** * The users table

    The schema of the users table ([uam-backend/src/db/migrations.ts],
    migration [001_init]) and what PostgreSQL does with the statements of
    [UserModel] on a table with that schema: column types, NOT NULL, the check
    on the provider, the two uniqueness constraints, defaults on insertion, and
    the rows a condition selects ([SqlMeaning]).  [UsersTableLaws] states it as
    a class; [MemTable] is a database that satisfies it.

    Texts are free of the character NUL, which PostgreSQL does not store. *)

From S2P Require Import Prelude CircuitConfig Json Async JsVal Columns SqlFilter SqlMeaning Password UserModel.
#[local] Open Scope string_scope.
#[local] Open Scope list_scope.
#[local] Open Scope Z_scope.

(** ** The schema *)

Inductive coltype := TText | TBool | TInt | TTime | TJson.

(** Name, type, and whether the column is NOT NULL. *)
Definition users_schema : list (string * (coltype * bool)) :=
  [("id", (TText, true)); ("email", (TText, true)); ("previous_email", (TText, false));
   ("password", (TText, false)); ("display_name", (TText, true)); ("avatar", (TText, false));
   ("bio", (TText, false)); ("is_email_verified", (TBool, true)); ("login_count", (TInt, true));
   ("last_login", (TTime, false)); ("email_verification_token", (TText, false));
   ("email_verification_expires", (TTime, false)); ("password_reset_token", (TText, false));
   ("password_reset_expires", (TTime, false)); ("provider", (TText, true)); ("provider_id", (TText, false));
   ("refresh_tokens", (TJson, true)); ("active_access_jtis", (TJson, true)); ("token_version", (TInt, true));
   ("migration_expiry", (TTime, false)); ("migration_token", (TText, false));
   ("migration_token_expires", (TTime, false)); ("new_email_pending", (TText, false));
   ("last_migration_date", (TTime, false)); ("current_email_verified", (TBool, false));
   ("new_email_verified", (TBool, false)); ("current_email_token", (TText, false));
   ("new_email_token", (TText, false)); ("last_migration_email_sent", (TTime, false));
   ("migration_history", (TJson, true)); ("created_at", (TTime, true)); ("updated_at", (TTime, true))].

Definition column_type (c : string) : option (coltype * bool) :=
  snd <$> find (λ p, String.eqb p.1 c) users_schema.

(** Values that JSON can represent. *)
Fixpoint json_val (v : val) : bool :=
  match v with
  | VNull | VBool _ | VNum _ | VStr _ => true
  | VArr l => forallb json_val l
  | VObj l => forallb (λ p, json_val p.2) l
  | _ => false
  end.

Definition providers : list string := ["local"; "google"; "github"].

(** What a column may hold. *)
Definition cell_ok (c : string) (v : val) : bool :=
  match column_type c with
  | None => false
  | Some (ty, notnull) =>
      match v with
      | VNull => negb notnull
      | VStr s => match ty with TText => negb (String.eqb c "provider") || has providers s | _ => false end
      | VBool _ => match ty with TBool => true | _ => false end
      | VNum n => match ty with TInt => (- 2 ^ 31 <=? n) && (n <? 2 ^ 31) | _ => false end
      | VDate _ => match ty with TTime => true | _ => false end
      | VArr l => match ty with TJson => forallb json_val l | _ => false end
      | _ => false
      end
  end.

Definition row_typed (r : object) : bool :=
  bool_decide (NoDup (obj_keys r)) && forallb (λ p, cell_ok p.1 (obj_get r p.1)) users_schema.

(** What may be assigned to a column: JSON columns take the text of an array. *)
Definition param_ok (p : string * val) : bool :=
  if has jsonb_columns p.1 then
    match p.2 with VStr s => match parse s with Some (JArr _) => true | _ => false end | _ => false end
  else cell_ok p.1 p.2.

(** [UNIQUE (email)] and [UNIQUE (provider, provider_id)]; NULLs are distinct. *)
Definition same_email (r r' : object) : bool := same (obj_get r "email") (obj_get r' "email").
Definition same_oauth (r r' : object) : bool :=
  same (obj_get r "provider") (obj_get r' "provider") && same (obj_get r "provider_id") (obj_get r' "provider_id").

Definition unique_in (t : gmap string object) (i : string) (r : object) : Prop :=
  ∀ j r', t !! j = Some r' → j ≠ i → same_email r' r = false ∧ same_oauth r' r = false.

(** The row an INSERT starts from. *)
Definition default_cell (now : Z) (c : string) : val :=
  if String.eqb c "is_email_verified" then VBool false
  else if String.eqb c "login_count" || String.eqb c "token_version" then VNum 0
  else if String.eqb c "provider" then VStr "local"
  else if has jsonb_columns c then VArr []
  else if String.eqb c "created_at" || String.eqb c "updated_at" then VDate now
  else VNull.

Definition default_row (now : Z) : object := map (λ p, (p.1, default_cell now p.1)) users_schema.

Definition assign (r : object) (cols : list string) (vals : list val) : object :=
  foldl (λ r p, obj_set r p.1 (stored p.1 p.2)) r (zip cols vals).

(** ** The conditions of the code *)

Definition by_id : list sql := [SCmp "id" CEq 0].
Definition by_id_version : list sql := [SCmp "id" CEq 0; SCmp "token_version" CEq 1].
Definition by_token_provider : list sql :=
  [SCmp "email_verification_token" CEq 0; SGroup [SCmp "email_verification_expires" CGt 1]; SCmp "provider" CEq 2].
Definition by_reset_token : list sql :=
  [SCmp "password_reset_token" CEq 0; SGroup [SCmp "password_reset_expires" CGt 1]].
Definition by_current_token : list sql :=
  [SCmp "current_email_token" CEq 0; SGroup [SCmp "migration_token_expires" CGt 1]].
Definition by_new_token : list sql :=
  [SCmp "new_email_token" CEq 0; SGroup [SCmp "migration_token_expires" CGt 1];
   SGroup [SNull "new_email_pending" false; SNull "new_email_pending" false]].
Definition by_address : list sql :=
  [SOr [[SCmp "id" CEq 0]; [SCmp "email" CEq 1]; [SCmp "previous_email" CEq 2]]].

Definition by_email : list sql := [SCmp "email" CEq 0].
Definition is_set (col : string) : sql := SGroup [SNull col false; SNull col false].
Definition pending_verified : list sql :=
  [is_set "new_email_pending"; SCmp "current_email_verified" CEq 0; SCmp "new_email_verified" CEq 1].

Definition known_conditions : list (list sql) :=
  [by_id; by_id_version; by_token_provider; by_reset_token; by_current_token; by_new_token; by_address; by_email; pending_verified].

(** The conditions of the maintenance scripts, which read all rows they find *)
Definition expired_reservation : list sql :=
  [SGroup [SNull "migration_expiry" false; SCmp "migration_expiry" CLt 0]; is_set "previous_email"].
Definition migration_columns : list string :=
  ["previous_email"; "migration_expiry"; "migration_token"; "migration_token_expires"; "new_email_pending";
   "last_migration_date"; "current_email_verified"; "new_email_verified"; "current_email_token"; "new_email_token";
   "last_migration_email_sent"].
Definition migration_data : list sql :=
  [SOr (map (λ c, [is_set c]) migration_columns
        ++ [[SGroup [SNull "migration_history" false; SLength "migration_history" false 0]]])].

Definition scan_conditions : list (list sql) := [[]; expired_reservation; migration_data].

(** Parameters of the type of their column. *)
Fixpoint cond_typed (params : list val) (c : sql) : bool :=
  match c with
  | SCmp col _ i => cell_ok col (param_at params i) && negb (null (param_at params i))
  | SNull col _ => match column_type col with Some _ => true | None => false end
  | SConst _ => true
  | SLength col _ _ => has jsonb_columns col
  | SGroup l => forallb (cond_typed params) l
  | SOr l => forallb (forallb (cond_typed params)) l
  | SAny _ _ | SNotAny _ _ | SRegex _ _ _ | SHas _ _ => false
  end.

Fixpoint holes_of (c : sql) : nat :=
  match c with
  | SCmp _ _ _ | SAny _ _ | SNotAny _ _ | SRegex _ _ _ | SHas _ _ => 1%nat
  | SNull _ _ | SConst _ | SLength _ _ _ => 0%nat
  | SGroup l => list_sum (map holes_of l)
  | SOr l => list_sum (map (λ c, list_sum (map holes_of c)) l)
  end.

(** Conditions of the code compare texts for equality only, so the collation
    does not matter. *)
Definition no_order : TextOps := {| text_lt := λ _ _, false; text_like := λ _ _ _, false |}.

(** ** What the database does *)

Class UsersTableLaws `(UsersDb) : Prop := {
  tb_typed : ∀ i d r, table d !! i = Some r → row_typed r = true;
  tb_unique : ∀ i d r, table d !! i = Some r → unique_in (table d) i r;
  tb_update : ∀ cols vals i d r,
    table d !! i = Some r → length cols = length vals → "id" ∉ cols → forallb param_ok (zip cols vals) = true →
    unique_in (table d) i (assign r cols vals) →
    ∃ now d', pg (UpdateById cols) (vals ++ [VStr i]) d = (inr ([write_row r cols vals now], 1), d') ∧
              table d' = <[i := write_row r cols vals now]> (table d);
  tb_update_dup : ∀ cols vals i d r j r' email,
    table d !! i = Some r → length cols = length vals → "id" ∉ cols → forallb param_ok (zip cols vals) = true →
    table d !! j = Some r' → j ≠ i → obj_get (assign r cols vals) "email" = VStr email → obj_get r' "email" = VStr email →
    obj_get (assign r cols vals) "provider_id" = VNull →
    pg (UpdateById cols) (vals ++ [VStr i]) d =
      (inl {| pe_code := "23505"; pe_detail := Some ("Key (email)=(" +:+ email +:+ ") already exists.") |}, d);
  tb_insert : ∀ cols vals i d,
    table d !! i = None → length cols = length vals → NoDup cols → forallb param_ok (zip cols vals) = true →
    ("id", VStr i) ∈ zip cols vals → "email" ∈ cols → "display_name" ∈ cols →
    (∀ now, unique_in (table d) i (assign (default_row now) cols vals)) →
    ∃ now d', pg (InsertUser cols) vals d = (inr ([assign (default_row now) cols vals], 1), d') ∧
              table d' = <[i := assign (default_row now) cols vals]> (table d);
  tb_delete : ∀ i d,
    ∃ d', pg DeleteById [VStr i] d =
            (inr (match table d !! i with Some r => ([r], 1) | None => ([], 0) end), d') ∧
          table d' = delete i (table d);
  tb_select : ∀ w cols params d, w ∈ known_conditions → length params = list_sum (map holes_of w) →
    forallb (cond_typed params) w = true →
    (pg (Select cols (where_text_of w) None (Some 1)) params d = (inr ([], 0), d) ∧
       ∀ j r, table d !! j = Some r → selected no_order params r w = false) ∨
    ∃ j r, pg (Select cols (where_text_of w) None (Some 1)) params d = (inr ([project cols r], 1), d) ∧
           table d !! j = Some r ∧ selected no_order params r w = true;
  tb_lock_version : ∀ i n d, - 2 ^ 31 <= n < 2 ^ 31 →
    pg (SelectForUpdate (where_text_of by_id_version)) [VStr i; VNum n] d =
      (inr (match table d !! i with
            | Some r => if same (obj_get r "token_version") (VNum n) then ([r], 1) else ([], 0)
            | None => ([], 0)
            end), d);
}.

(** A statement without a limit returns every selected row once, in some order. *)
Class UsersScanLaws `(UsersDb) : Prop := {
  tb_scan : ∀ w cols params d, w ∈ scan_conditions → length params = list_sum (map holes_of w) →
    forallb (cond_typed params) w = true →
    ∃ ids, NoDup ids ∧ (∀ i, i ∈ ids ↔ ∃ r, table d !! i = Some r ∧ selected no_order params r w = true) ∧
      pg (Select cols (where_text_of w) None None) params d =
        (inr (omap (λ i, project cols <$> table d !! i) ids, Z.of_nat (length ids)), d);
}.

(** ** A concrete database *)

Lemma json_val_of_json j : json_val (of_json j) = true.
Proof.
  induction j as [| | | |l IH|l IH] using json_ind; try done; cbn [of_json json_val]; rewrite forallb_forall;
    intros v Hv; apply in_map_iff in Hv as (x & <- & Hx); rewrite Forall_forall in IH; apply IH; by apply list_elem_of_In.
Qed.

Lemma stored_plain c v : has jsonb_columns c = false → stored c v = v.
Proof. unfold stored. by intros ->. Qed.

Lemma param_stored c v : param_ok (c, v) = true → cell_ok c (stored c v) = true.
Proof.
  unfold param_ok, stored. cbn [fst snd]. destruct (has jsonb_columns c) eqn:Hc; [|done].
  destruct v as [| | | |s| | | |]; try done. destruct (parse s) as [[| | | |l|]|]; try done. intros _. cbn [of_json].
  assert (Hl : forallb json_val (map of_json l) = true).
  { apply forallb_forall. intros x Hx. apply in_map_iff in Hx as (y & <- & _). apply json_val_of_json. }
  apply has_spec in Hc. unfold jsonb_columns in Hc. rewrite !elem_of_cons in Hc.
  destruct Hc as [->|[->|[->|Hc]]]; [exact Hl..|]. by apply not_elem_of_nil in Hc.
Qed.

Section Assign.
Local Abbreviation params_ok := (forallb param_ok).

Lemma assign_other r cols vals c : c ∉ cols → obj_get (assign r cols vals) c = obj_get r c.
Proof.
  unfold assign. revert r vals. induction cols as [|c' cols IH]; intros r vals Hc; [done|].
  apply not_elem_of_cons in Hc as [Hne Hc]. destruct vals as [|v vals]; [done|]. cbn [zip zip_with foldl].
  rewrite (IH _ _ Hc). by apply obj_get_set_ne.
Qed.

Lemma assign_cell r cols vals c :
  length cols = length vals → params_ok (zip cols vals) = true →
  cell_ok c (obj_get r c) = true ∨ c ∈ cols → cell_ok c (obj_get (assign r cols vals) c) = true.
Proof.
  unfold assign. revert r vals. induction cols as [|c' cols IH]; intros r [|v vals] Hlen Hok Hc; try done.
  { destruct Hc as [?|Hc]; [done|by apply not_elem_of_nil in Hc]. }
  cbn [zip zip_with forallb] in Hok. apply andb_true_iff in Hok as [Hv Hok]. cbn [zip zip_with foldl fst snd].
  apply IH; [by injection Hlen|done|]. destruct (decide (c' = c)) as [->|Hne].
  - left. rewrite obj_get_set_eq. by apply param_stored.
  - rewrite obj_get_set_ne by done. destruct Hc as [?|[?|?]%elem_of_cons]; [by left|congruence|by right].
Qed.

Lemma assign_keys r cols vals : NoDup (obj_keys r) → NoDup (obj_keys (assign r cols vals)).
Proof.
  unfold assign. revert r. induction (zip cols vals) as [|p l IH]; intros r H; [done|]. cbn. by apply IH, obj_set_keys.
Qed.

Lemma row_typed_spec r :
  row_typed r = true ↔ NoDup (obj_keys r) ∧ ∀ c, has users_schema.*1 c = true → cell_ok c (obj_get r c) = true.
Proof.
  unfold row_typed. rewrite andb_true_iff, bool_decide_eq_true, forallb_forall. split; intros [H1 H2]; (split; [done|]).
  - intros c Hc. apply has_spec in Hc. apply list_elem_of_fmap in Hc as (p & -> & Hp). apply H2. by apply list_elem_of_In.
  - intros p Hp. apply H2, has_spec, list_elem_of_fmap_2. by apply list_elem_of_In.
Qed.

Lemma assign_typed r cols vals :
  length cols = length vals → params_ok (zip cols vals) = true → row_typed r = true → row_typed (assign r cols vals) = true.
Proof.
  rewrite !row_typed_spec. intros Hlen Hok [Hk Hc]. split; [by apply assign_keys|]. intros c Hin.
  apply assign_cell; auto.
Qed.

Lemma write_row_assign r cols vals now :
  write_row r cols vals now = obj_set (assign r cols vals) "updated_at" (VDate now).
Proof. done. Qed.

Lemma touch_typed r now : row_typed r = true → row_typed (obj_set r "updated_at" (VDate now)) = true.
Proof.
  rewrite !row_typed_spec. intros [Hk Hc]. split; [by apply obj_set_keys|]. intros c Hin.
  destruct (decide (c = "updated_at")) as [->|Hne]; [by rewrite obj_get_set_eq|].
  rewrite obj_get_set_ne by congruence. auto.
Qed.
End Assign.

(** Rows that agree on the unique columns. *)
Lemma unique_in_same t i r r' :
  obj_get r "email" = obj_get r' "email" → obj_get r "provider" = obj_get r' "provider" →
  obj_get r "provider_id" = obj_get r' "provider_id" → unique_in t i r → unique_in t i r'.
Proof. unfold unique_in, same_email, same_oauth. intros <- <- <-. done. Qed.

Lemma unique_touch t i r now : unique_in t i r → unique_in t i (obj_set r "updated_at" (VDate now)).
Proof. apply unique_in_same; by rewrite obj_get_set_ne. Qed.

Lemma same_sym a b : same a b = same b a.
Proof. destruct a, b; cbn; try done; [by destruct b, b0|apply Z.eqb_sym|apply String.eqb_sym|apply Z.eqb_sym]. Qed.

Lemma same_eq a b : same a b = true → a = b.
Proof.
  destruct a, b; cbn; try done.
  - by intros ->%Bool.eqb_prop.
  - by intros ->%Z.eqb_eq.
  - by intros ->%String.eqb_eq.
  - by intros ->%Z.eqb_eq.
Qed.

Lemma same_email_sym r r' : same_email r r' = same_email r' r.
Proof. apply same_sym. Qed.

Lemma same_oauth_sym r r' : same_oauth r r' = same_oauth r' r.
Proof. unfold same_oauth. by rewrite (same_sym (obj_get r "provider")), (same_sym (obj_get r "provider_id")). Qed.

Module MemTable.
Definition uniqueb (t : gmap string object) (i : string) (r : object) : bool :=
  forallb (λ p, String.eqb p.1 i || negb (same_email p.2 r || same_oauth p.2 r)) (map_to_list t).

Definition idb_of (r : object) : string := match obj_get r "id" with VStr i => i | _ => "" end.

Definition good (t : gmap string object) (p : string * object) : bool :=
  row_typed p.2 && String.eqb (idb_of p.2) p.1 && uniqueb t p.1 p.2.

(** The rows that satisfy the constraints. *)
Definition rows (m : gmap string object) : gmap string object := filter (λ p, good m p = true) m.

Definition unsupported : PgError := {| pe_code := "0A000"; pe_detail := None |}.

Definition duplicate (t : gmap string object) (i : string) (r : object) : PgError :=
  {| pe_code := "23505";
     pe_detail := match obj_get r "email" with
                  | VStr e => if existsb (λ p, negb (String.eqb p.1 i) && same_email p.2 r) (map_to_list t)
                              then Some ("Key (email)=(" +:+ e +:+ ") already exists.") else None
                  | _ => None
                  end |}.

(** Write a row if the constraints allow it. *)
Definition put (m : gmap string object) (i : string) (r : object)
    : (PgError + list object * Z) * gmap string object :=
  let t := rows m in
  if row_typed r && String.eqb (idb_of r) i then
    if uniqueb t i r then (inr ([r], 1), <[i := r]> t) else (inl (duplicate t i r), m)
  else (inl unsupported, m).

Definition decode (text : string) : option (list sql) :=
  find (λ w, String.eqb (where_text_of w) text) known_conditions.

Definition decode_scan (text : string) : option (list sql) :=
  find (λ w, String.eqb (where_text_of w) text) scan_conditions.

(** Rows in the order of their ids. *)
Fixpoint insert_sorted (x : string) (l : list string) : list string :=
  match l with
  | [] => [x]
  | y :: l => if String.ltb x y then x :: y :: l else y :: insert_sorted x l
  end.

Definition sorted_ids (t : gmap string object) : list string := foldr insert_sorted [] (map_to_list t).*1.

Definition page (t : gmap string object) (ids : list string) : list object := omap (λ i, t !! i) (take 500 ids).

Definition query (st : statement) (params : list val) (m : gmap string object)
    : (PgError + list object * Z) * gmap string object :=
  let t := rows m in
  match st with
  | Select cols text None (Some 1) =>
      if String.eqb text "(id = $1)" then
        match params with
        | [VStr i] => (inr (match t !! i with Some r => ([project cols r], 1) | None => ([], 0) end), m)
        | _ => (inl unsupported, m)
        end
      else
        match decode text with
        | Some w =>
            (inr (match find (λ p, selected no_order params p.2 w) (map_to_list t) with
                  | Some p => ([project cols p.2], 1)
                  | None => ([], 0)
                  end), m)
        | None => (inl unsupported, m)
        end
  | Select cols text None None =>
      match decode_scan text with
      | Some w =>
          let ids := (filter (λ p, selected no_order params p.2 w = true) (map_to_list t)).*1 in
          (inr (omap (λ i, project cols <$> t !! i) ids, Z.of_nat (length ids)), m)
      | None => (inl unsupported, m)
      end
  | SelectForUpdate text =>
      match params with
      | [VStr i] =>
          if String.eqb text "(id = $1)" then
            (inr (match t !! i with Some r => ([r], 1) | None => ([], 0) end), m)
          else (inl unsupported, m)
      | [VStr i; n] =>
          if String.eqb text (where_text_of by_id_version) then
            (inr (match t !! i with
                  | Some r => if same (obj_get r "token_version") n then ([r], 1) else ([], 0)
                  | None => ([], 0)
                  end), m)
          else (inl unsupported, m)
      | _ => (inl unsupported, m)
      end
  | UpdateById cols =>
      match last params with
      | Some (VStr i) =>
          match t !! i with
          | Some r => put m i (write_row r cols (take (length cols) params) 0)
          | None => (inr ([], 0), m)
          end
      | _ => (inl unsupported, m)
      end
  | InsertUser cols =>
      let r := assign (default_row 0) cols params in
      match t !! idb_of r with
      | Some _ => (inl unsupported, m)
      | None => put m (idb_of r) r
      end
  | DeleteById =>
      match params with
      | [VStr i] => (inr (match t !! i with Some r => ([r], 1) | None => ([], 0) end), delete i t)
      | _ => (inl unsupported, m)
      end
  | SelectPage text =>
      match params with
      | [] => let l := page t (sorted_ids t) in (inr (l, Z.of_nat (length l)), m)
      | [VStr x] =>
          let l := page t (filter (λ i, String.ltb x i = true) (sorted_ids t)) in (inr (l, Z.of_nat (length l)), m)
      | _ => (inl unsupported, m)
      end
  | _ => (inl unsupported, m)
  end.

#[global] Instance mem_table : UsersDb := {| db := gmap string object; table := rows; pg := query |}.

Lemma uniqueb_spec t i r : uniqueb t i r = true ↔ unique_in t i r.
Proof.
  unfold uniqueb, unique_in. rewrite forallb_forall. split.
  - intros H j r' Hj Hne. specialize (H (j, r')). rewrite <- list_elem_of_In, elem_of_map_to_list in H.
    specialize (H Hj). cbn in H. rewrite (proj2 (String.eqb_neq _ _) Hne) in H. cbn in H.
    apply negb_true_iff, orb_false_iff in H. done.
  - intros H [j r'] Hj. rewrite <- list_elem_of_In, elem_of_map_to_list in Hj. cbn.
    destruct (String.eqb_spec j i) as [|Hne]; [done|]. cbn. destruct (H j r' Hj Hne) as [-> ->]. done.
Qed.

Definition valid (t : gmap string object) : Prop :=
  ∀ i r, t !! i = Some r → row_typed r = true ∧ idb_of r = i ∧ unique_in t i r.

Lemma kept_lookup m i r :
  rows m !! i = Some r ↔ m !! i = Some r ∧ row_typed r = true ∧ idb_of r = i ∧ unique_in m i r.
Proof.
  unfold rows, good. rewrite map_lookup_filter_Some. cbn [fst snd].
  rewrite !andb_true_iff, String.eqb_eq, uniqueb_spec. tauto.
Qed.

Lemma rows_valid m : valid (rows m).
Proof.
  intros i r (_ & Ht & Hi & Hu)%kept_lookup. split_and!; [done..|]. intros j r' Hj. apply Hu.
  by apply kept_lookup in Hj as [? _].
Qed.

Lemma valid_rows t : valid t → rows t = t.
Proof.
  intros Hv. apply map_eq. intros i. destruct (t !! i) as [r|] eqn:E.
  - apply kept_lookup. destruct (Hv i r E) as (? & ? & ?). done.
  - destruct (rows t !! i) eqn:E'; [|done]. apply kept_lookup in E' as [? _]. congruence.
Qed.

Lemma valid_insert t i r :
  valid t → row_typed r = true → idb_of r = i → unique_in t i r → valid (<[i := r]> t).
Proof.
  intros Hv Ht Hi Hu j r' Hj. destruct (decide (j = i)) as [->|Hne].
  - rewrite lookup_insert_eq in Hj. injection Hj as <-. split_and!; [done..|]. intros k r' Hk Hne.
    rewrite lookup_insert_ne in Hk by done. by apply (Hu k).
  - rewrite lookup_insert_ne in Hj by done. destruct (Hv j r' Hj) as (? & ? & Hu'). split_and!; [done..|].
    intros k r2 Hk Hkj. destruct (decide (k = i)) as [->|Hki].
    + rewrite lookup_insert_eq in Hk. injection Hk as <-. rewrite same_email_sym, same_oauth_sym. by apply (Hu j).
    + rewrite lookup_insert_ne in Hk by done. by apply (Hu' k).
Qed.

Lemma valid_delete t i : valid t → valid (delete i t).
Proof.
  intros Hv j r Hj. apply lookup_delete_Some in Hj as [Hne Hj]. destruct (Hv j r Hj) as (? & ? & Hu).
  split_and!; [done..|]. intros k r' Hk. apply lookup_delete_Some in Hk as [_ Hk]. by apply Hu.
Qed.

Lemma put_ok m i r :
  row_typed r = true → idb_of r = i → unique_in (rows m) i r →
  put m i r = (inr ([r], 1), <[i := r]> (rows m)) ∧ rows (<[i := r]> (rows m)) = <[i := r]> (rows m).
Proof.
  intros Ht Hi Hu. unfold put. rewrite Ht, Hi, String.eqb_refl, (proj2 (uniqueb_spec _ _ _) Hu). split; [done|].
  apply valid_rows, valid_insert; [apply rows_valid|done..].
Qed.

Lemma idb_of_get r r' : obj_get r "id" = obj_get r' "id" → idb_of r = idb_of r'.
Proof. unfold idb_of. by intros ->. Qed.

(** An update goes through when the new row is typed, keeps its id and is
    unique. *)
Lemma update_ok cols vals i m r :
  rows m !! i = Some r → length cols = length vals → row_typed (assign r cols vals) = true →
  obj_get (assign r cols vals) "id" = obj_get r "id" → unique_in (rows m) i (assign r cols vals) →
  ∃ now m', query (UpdateById cols) (vals ++ [VStr i]) m = (inr ([write_row r cols vals now], 1), m') ∧
            rows m' = <[i := write_row r cols vals now]> (rows m).
Proof.
  intros Hr Hlen Ht Hid Hu. exists 0, (<[i := write_row r cols vals 0]> (rows m)). cbn [query].
  rewrite last_snoc, Hr, Hlen, take_app_length. apply put_ok.
  - rewrite write_row_assign. by apply touch_typed.
  - apply kept_lookup in Hr as (_ & _ & <- & _). apply idb_of_get. rewrite write_row_assign, obj_get_set_ne by done. done.
  - rewrite write_row_assign. by apply unique_touch.
Qed.

Lemma decode_known w : w ∈ known_conditions → decode (where_text_of w) = Some w.
Proof.
  unfold known_conditions. rewrite !elem_of_cons. intros H.
  repeat (destruct H as [->|H]; [by vm_compute|]). by apply not_elem_of_nil in H.
Qed.

Lemma zip_column {A} (cols : list string) (vals : list A) c :
  length cols = length vals → c ∈ cols → ∃ v, (c, v) ∈ zip cols vals.
Proof.
  revert vals. induction cols as [|c' cols IH]; intros [|v vals] Hlen Hc; try done; [by apply not_elem_of_nil in Hc|].
  apply elem_of_cons in Hc as [->|Hc]; [exists v; left|].
  destruct (IH vals) as [w Hw]; [by injection Hlen|done|]. exists w. by right.
Qed.

Lemma columns_in (P : string * val → Prop) cols vals c :
  length cols = length vals → Forall P (zip cols vals) → (∀ v, ¬ P (c, v)) → c ∉ cols.
Proof. intros Hlen HP Hc Hin. destruct (zip_column cols vals c Hlen Hin) as [v Hv]. rewrite Forall_forall in HP. by apply (Hc v), HP. Qed.

Lemma login_param p : login_assignment p → param_ok p = true.
Proof.
  destruct p as [c v]. intros [[[Hc [l Hv]]|[Hc [n [Hv Hn]]]]|[[Hc Hp]|[[Hc [s Hv]]|[Hc [b Hv]]]]]; cbn [fst snd] in *; subst.
  - unfold param_ok. cbn [fst]. rewrite (proj2 (has_spec _ _) Hc). cbn [snd]. by rewrite parse_stringify.
  - change (param_ok ("token_version", VNum n)) with ((- 2 ^ 31 <=? n) && (n <? 2 ^ 31)). apply andb_true_iff. lia.
  - rewrite !elem_of_cons in Hp. destruct Hp as [->|[->|[->|Hp]]]; [done..|]. by apply not_elem_of_nil in Hp.
  - done.
  - done.
Qed.

Lemma login_params l : Forall login_assignment l → forallb param_ok l = true.
Proof. intros H. apply forallb_forall. intros p Hp. apply login_param. rewrite Forall_forall in H. by apply H, list_elem_of_In. Qed.

(** The columns a login assignment leaves alone. *)
Lemma login_column c v : login_assignment (c, v) → c ∈ jsonb_columns ++ ["token_version"; "provider"; "provider_id"; "is_email_verified"].
Proof.
  intros [[[Hc _]|[Hc _]]|[[Hc _]|[[Hc _]|[Hc _]]]]; cbn [fst] in Hc; rewrite elem_of_app; [by left|..];
    subst; right; apply has_spec; by vm_compute.
Qed.

Lemma login_ok cols vals i m r :
  rows m !! i = Some r → length cols = length vals → Forall login_assignment (zip cols vals) →
  (∀ j r', j ≠ i → rows m !! j = Some r' → same_oauth r' (assign r cols vals) = false) →
  ∃ now m', query (UpdateById cols) (vals ++ [VStr i]) m = (inr ([write_row r cols vals now], 1), m') ∧
            rows m' = <[i := write_row r cols vals now]> (rows m).
Proof.
  intros Hr Hlen Hl Hoauth. pose proof (rows_valid m i r Hr) as (Ht & Hi & Hu).
  assert (Hid : "id" ∉ cols) by (eapply columns_in; [done|exact Hl|intros v Hv%login_column; by apply has_spec in Hv]).
  assert (He : "email" ∉ cols) by (eapply columns_in; [done|exact Hl|intros v Hv%login_column; by apply has_spec in Hv]).
  apply update_ok; [done..| | |].
  - apply assign_typed; [done|by apply login_params|done].
  - by apply assign_other.
  - intros j r' Hj Hne. split; [|by apply Hoauth with j]. unfold same_email. rewrite (assign_other _ _ _ _ He).
    by apply (Hu j).
Qed.

Lemma assign_value r cols vals c v :
  length cols = length vals → NoDup cols → (c, v) ∈ zip cols vals → has jsonb_columns c = false →
  obj_get (assign r cols vals) c = v.
Proof.
  unfold assign. revert r vals. induction cols as [|c' cols IH]; intros r [|w vals] Hlen Hnd Hin Hc; try done;
    [by apply not_elem_of_nil in Hin|]. cbn [zip zip_with foldl fst snd] in *. apply NoDup_cons in Hnd as [Hc' Hnd].
  apply elem_of_cons in Hin as [[= -> ->]|Hin]; [|by apply IH; [injection Hlen|..]].
  fold (assign (obj_set r c' (stored c' w)) cols vals). rewrite (assign_other _ _ _ _ Hc'), obj_get_set_eq.
  by apply stored_plain.
Qed.

Lemma row_id m i r : rows m !! i = Some r → obj_get r "id" = VStr i.
Proof.
  intros Hr. pose proof (rows_valid m i r Hr) as (Ht & Hi & _). apply row_typed_spec in Ht as [_ Hc].
  specialize (Hc "id" eq_refl). unfold idb_of in Hi. destruct (obj_get r "id"); try done. congruence.
Qed.

#[global] Instance mem_laws : UsersDbLaws mem_table.
Proof.
  split; cbn [db table pg mem_table].
  - done.
  - done.
  - intros cols vals i m r Hr Hlen _ Hs. pose proof (rows_valid m i r Hr) as (_ & _ & Hu).
    apply login_ok; [done..|by eapply Forall_impl; [exact Hs|left]|]. intros j r' Hne Hj.
    assert (Hout : ∀ c, c = "provider" ∨ c = "provider_id" → c ∉ cols).
    { intros c Hc. eapply columns_in; [done|exact Hs|]. intros v [[Hv _]|[Hv _]]; cbn in Hv.
      - apply has_spec in Hv. by destruct Hc as [->| ->].
      - by destruct Hc as [->| ->]. }
    unfold same_oauth. rewrite !assign_other by auto. by apply (Hu j).
  - intros cols vals i m r Hr Hlen Hnd Hs Hno. apply login_ok; [done..|]. intros j r' Hne Hj.
    destruct (same_oauth r' (assign r cols vals)) eqn:E; [|done]. exfalso. apply (Hno j r' Hne Hj).
    intros c v Hcv Hc. apply andb_true_iff in E as [E1 E2].
    assert (Hc2 : c = "provider" ∨ c = "provider_id").
    { rewrite !elem_of_cons in Hc. destruct Hc as [?|[?|Hc]]; [by left|by right|by apply not_elem_of_nil in Hc]. }
    assert (Hv : obj_get (assign r cols vals) c = v) by (apply assign_value; [done..|by destruct Hc2 as [->| ->]]).
    destruct Hc2 as [->| ->]; rewrite Hv in *; by apply same_eq.
  - intros cols vals i m Hr Hlen. cbn [query]. by rewrite last_snoc, Hr.
  - intros i m r Hr. split; [by apply (row_id m)|]. pose proof (rows_valid m i r Hr) as (Ht & _ & _).
    by apply row_typed_spec in Ht as [Hk _].
Qed.

Lemma select_known w cols params m :
  w ∈ known_conditions → where_text_of w ≠ "(id = $1)" →
  query (Select cols (where_text_of w) None (Some 1)) params m =
    (inr (match find (λ p, selected no_order params p.2 w) (map_to_list (rows m)) with
          | Some p => ([project cols p.2], 1)
          | None => ([], 0)
          end), m).
Proof. intros Hw Hne. cbn [query]. by rewrite (proj2 (String.eqb_neq _ _) Hne), decode_known. Qed.

Lemma select_by_id params r i :
  param_at params 0 = VStr i → selected no_order params r by_id = same (obj_get r "id") (VStr i).
Proof.
  intros Hp. unfold selected. cbn. rewrite Hp. destruct (obj_get r "id"); cbn; try done. by destruct (String.eqb s i).
Qed.

Lemma find_none {A} (f : A → bool) l : find f l = None → ∀ x, x ∈ l → f x = false.
Proof. intros H x Hx. apply (List.find_none _ _ H). by apply list_elem_of_In. Qed.

Lemma find_some {A} (f : A → bool) l x : find f l = Some x → x ∈ l ∧ f x = true.
Proof. intros [H1 H2]%List.find_some. split; [by apply list_elem_of_In|done]. Qed.

Lemma id_cases w : w ∈ known_conditions → w = by_id ∨ where_text_of w ≠ "(id = $1)".
Proof.
  unfold known_conditions. rewrite !elem_of_cons. intros [->|H]; [by left|]. right.
  repeat (destruct H as [->|H]; [by vm_compute|]). by apply not_elem_of_nil in H.
Qed.

#[global] Instance mem_table_laws : UsersTableLaws mem_table.
Proof.
  split; cbn [db table pg mem_table].
  - intros i m r Hr. by destruct (rows_valid m i r Hr).
  - intros i m r Hr. by destruct (rows_valid m i r Hr) as (_ & _ & ?).
  - intros cols vals i m r Hr Hlen Hid Hok Hu. destruct (rows_valid m i r Hr) as (Ht & _ & _).
    apply update_ok; [done..|by apply assign_typed|by apply assign_other|done].
  - intros cols vals i m r j r' email Hr Hlen Hid Hok Hj Hne He He' Hp. cbn [query].
    rewrite last_snoc, Hr, Hlen, take_app_length. destruct (rows_valid m i r Hr) as (Ht & Hi & _). unfold put.
    rewrite write_row_assign, touch_typed by by apply assign_typed.
    assert (Hidb : idb_of (obj_set (assign r cols vals) "updated_at" (VDate 0)) = i).
    { rewrite <- Hi. apply idb_of_get. rewrite obj_get_set_ne by done. by apply assign_other. }
    rewrite Hidb, String.eqb_refl. cbn [andb].
    set (r2 := obj_set _ _ _). assert (Hr2 : obj_get r2 "email" = VStr email) by (unfold r2; by rewrite obj_get_set_ne).
    assert (Hsame : same_email r' r2 = true) by (unfold same_email; rewrite Hr2, He'; cbn; apply String.eqb_refl).
    destruct (uniqueb (rows m) i r2) eqn:Eu.
    { apply uniqueb_spec in Eu. destruct (Eu j r' Hj Hne). congruence. }
    unfold duplicate. rewrite Hr2.
    assert (Hex : existsb (λ p, negb (String.eqb p.1 i) && same_email p.2 r2) (map_to_list (rows m)) = true); [|by rewrite Hex].
    apply existsb_exists. exists (j, r'). split; [by apply list_elem_of_In, elem_of_map_to_list|].
    cbn. by rewrite (proj2 (String.eqb_neq _ _) Hne), Hsame.
  - intros cols vals i m Hi Hlen Hnd Hok Hid He Hd Hu. exists 0, (<[i := assign (default_row 0) cols vals]> (rows m)).
    cbn [query]. assert (Hg : obj_get (assign (default_row 0) cols vals) "id" = VStr i) by by apply assign_value.
    assert (Hi' : idb_of (assign (default_row 0) cols vals) = i) by (unfold idb_of; by rewrite Hg).
    rewrite Hi', Hi. apply put_ok; [|done|apply Hu].
    apply row_typed_spec. split; [apply assign_keys; apply (bool_decide_unpack _); by vm_compute|].
    intros c Hc. apply assign_cell; [done..|]. destruct (decide (c ∈ cols)) as [|Hout]; [by right|left].
    apply elem_of_zip_l in Hid. apply has_spec in Hc.
    change (c ∈ users_schema.*1) in Hc. unfold users_schema in Hc. cbn [fmap list_fmap fst] in Hc. rewrite !elem_of_cons in Hc.
    repeat (destruct Hc as [->|Hc]; [first [by vm_compute|done]|]). by apply not_elem_of_nil in Hc.
  - intros i m. exists (delete i (rows m)). split; [done|]. apply valid_rows, valid_delete, rows_valid.
  - intros w cols params m Hw Hlen Hty. destruct (id_cases w Hw) as [->|Hne].
    + destruct params as [|v [|]]; try done. assert (Hv : ∃ i, v = VStr i) by (destruct v; try done; eauto).
      destruct Hv as [i ->]. change (where_text_of by_id) with "(id = $1)". cbn [query]. rewrite String.eqb_refl.
      assert (Hsel : ∀ j r, rows m !! j = Some r → selected no_order [VStr i] r by_id = bool_decide (j = i)).
      { intros j r Hj. rewrite (select_by_id _ _ i) by done. rewrite (row_id m j r Hj). cbn.
        destruct (String.eqb_spec j i); by case_bool_decide. }
      destruct (rows m !! i) as [r|] eqn:Hi.
      * right. exists i, r. split; [done|]. split; [done|]. rewrite (Hsel i r Hi). by apply bool_decide_eq_true.
      * left. split; [done|]. intros j r Hj. rewrite (Hsel j r Hj). apply bool_decide_eq_false. congruence.
    + rewrite select_known by done. destruct (find _ _) as [[j r]|] eqn:E.
      * right. apply find_some in E as [Hin Hs]. apply elem_of_map_to_list in Hin. by exists j, r.
      * left. split; [done|]. intros j r Hj. apply (find_none _ _ E (j, r)). by apply elem_of_map_to_list.
  - done.
Qed.
Lemma decode_scanned w : w ∈ scan_conditions → decode_scan (where_text_of w) = Some w.
Proof.
  unfold scan_conditions. rewrite !elem_of_cons. intros H.
  repeat (destruct H as [->|H]; [by vm_compute|]). by apply not_elem_of_nil in H.
Qed.

#[global] Instance mem_scan_laws : UsersScanLaws mem_table.
Proof.
  split. intros w cols params m Hw _ _. cbn [db table pg mem_table query]. rewrite decode_scanned by done.
  eexists. split; [|split; [|reflexivity]].
  - eapply sublist_NoDup; [apply (NoDup_fst_map_to_list (rows m))|]. apply fmap_sublist, sublist_filter.
  - intros i. rewrite list_elem_of_fmap. split.
    + intros ([j r] & -> & [Hsel Hin%elem_of_map_to_list]%list_elem_of_filter). by exists r.
    + intros (r & Hr & Hsel). exists (i, r). split; [done|]. apply list_elem_of_filter. split; [done|]. by apply elem_of_map_to_list.
Qed.
End MemTable.
