(* ===== verification/Documents.v ===== *)
(** * Documents and the rows behind them

    What the operations of the user model ([uam-backend/src/db/User.ts]) do on
    a table with the schema of [UsersTable]: a document holds the columns its
    query selected ([doc_of]); assigning fields and saving rewrites the columns
    of those fields ([save_patch]) and leaves the others; creation fills in the
    defaults; a query by condition finds a row that satisfies it; the
    version-checked update changes the row only in the state it was read in.
    The handlers' proofs use these facts instead of the SQL. *)

From S2P Require Import Prelude CircuitConfig Json Async JsVal Columns SqlFilter SqlMeaning Password UserModel UsersTable.
#[local] Open Scope string_scope.
#[local] Open Scope list_scope.
#[local] Open Scope Z_scope.

#[local] Arguments dict_get : simpl never.
#[local] Arguments COLUMN_TO_FIELD : simpl never.
#[local] Arguments FIELD_TO_COLUMN : simpl never.
#[local] Arguments ALL_FIELDS : simpl never.

(** ** JSON values survive a JSON column *)

Lemma json_val_roundtrip Date_toISOString v :
  json_val v = true → ∃ j, to_json Date_toISOString v = Some j ∧ of_json j = v.
Proof.
  induction v as [| |b|n|s|t|s f|l IH|l IH] using val_ind; cbn [json_val]; try done; intros Hv; try by eexists.
  - exists (JArr (map (λ x, default JNull (to_json Date_toISOString x)) l)). split; [done|]. cbn [of_json]. f_equal.
    rewrite map_map.  rewrite forallb_forall in Hv.
    rewrite Forall_forall in IH. clear -Hv IH. induction l as [|x l IHl]; [done|]. cbn [map]. f_equal.
    + destruct (IH x ltac:(left) (Hv x ltac:(by left))) as (j & -> & Hj). exact Hj.
    + apply IHl; [intros y Hy; apply IH; by right|intros y Hy; apply Hv; by right].
  - rewrite forallb_forall in Hv. rewrite Forall_forall in IH.
    exists (JObj (omap (λ p, match to_json Date_toISOString p.2 with Some j => Some (p.1, j) | None => None end) l)).
    split; [done|]. cbn [of_json]. f_equal. induction l as [|[k x] l IHl]; [done|].
    destruct (IH (k, x) ltac:(left) (Hv (k, x) ltac:(by left))) as (j & Hj & Hx). cbn [snd] in Hj, Hx.
    cbn [omap list_omap snd fst]. rewrite Hj. cbn [map fst snd]. rewrite Hx. f_equal.
    apply IHl; [intros y Hy; apply IH; by right|intros y Hy; apply Hv; by right].
Qed.

(** ** Documents *)

(** [u] holds the columns [cols] of the row [r], unchanged. *)
Record doc_of (cols : list string) (r : object) (u : User) : Prop := {
  doc_get : ∀ f, has ALL_FIELDS f = true →
    obj_get (_values u) f = if has cols (col_of f) then obj_get r (col_of f) else VUndef;
  doc_has : ∀ f, has ALL_FIELDS f = true → has cols (col_of f) = false → obj_has (_values u) f = false;
  doc_modified : _modified u = [];
  doc_isNew : _isNew u = false;
}.

Definition document (cols : list string) (r : object) : User := new_User (rowToValues (project cols r)) false.

(** The document of a whole row, as an update returns it, and after a save. *)
Definition all_columns : list string := users_schema.*1.
Definition updated (r : object) : User := new_User (rowToValues r) false.
Definition saved (r : object) : User := {| _values := rowToValues r; _modified := []; _isNew := false |}.

Lemma document_of cols r : NoDup cols → doc_of cols r (document cols r).
Proof.
  intros Hnd. split; [|intros f Hf Hc|done|done].
  - intros f Hf. apply document_get; [done|]. by apply has_spec.
  - apply new_User_has; [apply rowToValues_nodup|]. unfold obj_get.
    rewrite rowToValues_lookup by (rewrite ?project_keys; try done; by apply has_spec). rewrite obj_lookup_project. by rewrite Hc.
Qed.

Lemma all_columns_has f : has ALL_FIELDS f = true → has all_columns (col_of f) = true.
Proof.
  intros Hf. apply has_spec in Hf. unfold ALL_FIELDS in Hf. apply list_elem_of_fmap in Hf as ([f' c] & -> & Hin).
  unfold col_of. cbn [fst]. rewrite (dict_get_unique _ _ _ fields_nodup Hin). cbn [default].
  assert (H : forallb (λ p, has all_columns p.2) FIELD_TO_COLUMN = true) by by vm_compute.
  rewrite forallb_forall in H. by apply (H (f', c)), list_elem_of_In.
Qed.

Lemma row_value r f : row_typed r = true → has ALL_FIELDS f = true → obj_get (rowToValues r) f = obj_get r (col_of f).
Proof.
  intros Hr Hf. apply row_typed_spec in Hr as [Hnd _]. unfold obj_get. rewrite rowToValues_lookup; [done|done|by apply has_spec].
Qed.

Lemma updated_of r : row_typed r = true → doc_of all_columns r (updated r).
Proof.
  intros Hr. split; [|intros f Hf Hc|done|done].
  - intros f Hf. rewrite (all_columns_has f Hf). unfold updated. rewrite new_User_get by apply rowToValues_nodup. by apply row_value.
  - by rewrite (all_columns_has f Hf) in Hc.
Qed.

Lemma saved_of r : row_typed r = true → doc_of all_columns r (saved r).
Proof.
  intros Hr. split; [|intros f Hf Hc|done|done].
  - intros f Hf. rewrite (all_columns_has f Hf). by apply row_value.
  - by rewrite (all_columns_has f Hf) in Hc.
Qed.

(** Reading a field of such a document. *)
Lemma doc_field cols r u f :
  doc_of cols r u → has ALL_FIELDS f = true → f ≠ "_id" → has cols (col_of f) = true → user_get u f = obj_get r (col_of f).
Proof. intros Hu Hf Hid Hc. rewrite user_get_value by done. by rewrite (doc_get _ _ _ Hu f Hf), Hc. Qed.

Lemma doc_id_get cols r u : doc_of cols r u → has cols "id" = true → user_get u "_id" = obj_get r "id".
Proof.
  intros Hu Hc. unfold user_get. cbn [String.eqb Ascii.eqb Bool.eqb]. rewrite (doc_get _ _ _ Hu "id") by by vm_compute.
  change (col_of "id") with "id". by rewrite Hc.
Qed.

(** ** Assigning fields *)

Definition patch (u : User) (ps : object) : User := foldl (λ u p, user_set u p.1 p.2) u ps.

(** The last value assigned to a field. *)
Definition patch_value (ps : object) (f : string) : option val :=
  foldl (λ acc p, if String.eqb p.1 f then Some p.2 else acc) None ps.

(** Fields that may be assigned and are written back. *)
Definition writable (f : string) : bool :=
  has ALL_FIELDS f && negb (has ["id"; "createdAt"; "updatedAt"] f).

Lemma writable_plain f : writable f = true → startsWith f "_" = false.
Proof.
  unfold writable. intros [Hf _]%andb_true_iff.
  assert (H : forallb (λ f, negb (startsWith f "_")) ALL_FIELDS = true) by by vm_compute.
  rewrite forallb_forall in H. apply negb_true_iff. by apply H, list_elem_of_In, has_spec.
Qed.

Lemma user_set_values u f v :
  writable f = true → user_set u f v = {| _values := obj_set (_values u) f v; _modified := set_add (_modified u) f; _isNew := _isNew u |}.
Proof. intros Hf. unfold user_set. by rewrite (writable_plain f Hf). Qed.

Lemma patch_value_snoc ps p f : patch_value (ps ++ [p]) f = if String.eqb p.1 f then Some p.2 else patch_value ps f.
Proof. unfold patch_value. by rewrite foldl_app. Qed.

(** [u'] is [u] after the assignments [ps]: assigned fields are written by the
    next save because they are marked as modified or are JSON fields. *)
Record edited (u : User) (ps : object) (u' : User) : Prop := {
  ed_writable : forallb (λ p, writable p.1) ps = true;
  ed_get : ∀ f, obj_get (_values u') f = match patch_value ps f with Some v => v | None => obj_get (_values u) f end;
  ed_has : ∀ f, obj_has (_values u') f = match patch_value ps f with Some _ => true | None => obj_has (_values u) f end;
  ed_modified : ∀ f, f ∈ _modified u' → f ∈ _modified u ∨ is_Some (patch_value ps f);
  ed_written : ∀ f, is_Some (patch_value ps f) → f ∈ _modified u' ∨ f ∈ JSONB_FIELDS;
  ed_nodup : NoDup (_modified u');
  ed_isNew : _isNew u' = _isNew u;
}.

Lemma edited_refl u : NoDup (_modified u) → edited u [] u.
Proof. intros H. by split; auto; intros f [? ?]. Qed.

(** One more assignment; [m] is the new set of modified fields. *)
Lemma edited_snoc u ps u' f v m :
  edited u ps u' → writable f = true → NoDup m → (∀ g, g ∈ _modified u' → g ∈ m) → (f ∈ m ∨ f ∈ JSONB_FIELDS) →
  (∀ g, g ∈ m → g ∈ _modified u' ∨ g = f) →
  edited u (ps ++ [(f, v)]) {| _values := obj_set (_values u') f v; _modified := m; _isNew := _isNew u' |}.
Proof.
  intros [H1 H2 H3 H4 H5 H6 H7] Hf Hm Hin Hw Hout. split; cbn [_values _modified _isNew].
  - rewrite forallb_app, H1. cbn. by rewrite Hf.
  - intros g. rewrite patch_value_snoc, obj_get_set. cbn [fst snd]. by destruct (String.eqb f g).
  - intros g. rewrite patch_value_snoc, obj_has_set. cbn [fst snd]. destruct (String.eqb f g); [done|]. apply H3.
  - intros g Hg. rewrite patch_value_snoc. cbn [fst snd]. destruct (String.eqb_spec f g) as [->|Hne]; [right; eauto|].
    destruct (Hout g Hg) as [?| ->]; [auto|done].
  - intros g. rewrite patch_value_snoc. cbn [fst snd]. destruct (String.eqb_spec f g) as [->|Hne]; [done|].
    intros Hg. destruct (H5 g Hg) as [?|?]; [left; auto|by right].
  - done.
  - done.
Qed.

Lemma edited_set u ps u' f v : edited u ps u' → writable f = true → edited u (ps ++ [(f, v)]) (user_set u' f v).
Proof.
  intros H Hf. rewrite user_set_values by done. apply edited_snoc; try done.
  - apply set_add_nodup, H.
  - intros g Hg. apply set_add_elem. by left.
  - left. apply set_add_elem. by right.
  - intros g Hg. by apply set_add_elem in Hg.
Qed.

(** A JSON field that was changed in place *)
Lemma edited_json u ps u' f v :
  edited u ps u' → f ∈ JSONB_FIELDS →
  edited u (ps ++ [(f, v)]) {| _values := obj_set (_values u') f v; _modified := _modified u'; _isNew := _isNew u' |}.
Proof.
  intros H Hf. apply edited_snoc; auto; [|apply H].
  apply jsonb_field_cases in Hf. destruct Hf as [->|[->| ->]]; by vm_compute.
Qed.

(** A field that was assigned before is marked again. *)
Lemma edited_mark u ps u' f : edited u ps u' → is_Some (patch_value ps f) → edited u ps (markModified u' f).
Proof.
  intros [H1 H2 H3 H4 H5 H6 H7] Hf. split; auto; cbn [_modified markModified].
  - intros g [?| ->]%set_add_elem; auto.
  - intros g Hg. destruct (H5 g Hg); [left; apply set_add_elem; by left|by right].
  - by apply set_add_nodup.
Qed.

Lemma edited_patch u qs u' ps :
  edited u qs u' → forallb (λ p, writable p.1) ps = true → edited u (qs ++ ps) (patch u' ps).
Proof.
  intros H. induction ps as [|p ps IH] using rev_ind; intros Hw; [by rewrite app_nil_r|].
  rewrite forallb_app in Hw. apply andb_true_iff in Hw as [Hps Hp]. cbn in Hp. rewrite andb_true_r in Hp.
  unfold patch. rewrite foldl_app, app_assoc. cbn [foldl]. destruct p as [f v]. apply edited_set; auto.
Qed.

Lemma patch_value_writable ps f v : forallb (λ p, writable p.1) ps = true → patch_value ps f = Some v → writable f = true.
Proof.
  induction ps as [|p ps IH] using rev_ind; intros Hw; [done|].
  rewrite forallb_app in Hw. apply andb_true_iff in Hw as [Hps Hp]. cbn in Hp. rewrite andb_true_r in Hp.
  rewrite patch_value_snoc. destruct (String.eqb_spec p.1 f) as [<-|]; [done|auto].
Qed.

Lemma columnNames_known fields :
  Forall (λ f, has ALL_FIELDS f = true) fields → columnNames fields = Returned (map col_of fields).
Proof.
  induction 1 as [|f fields Hf _ IH]; [done|]. cbn [columnNames map].
  assert (Hc : columnName f = Returned (col_of f)); [|by rewrite Hc, IH].
  apply has_spec in Hf. unfold ALL_FIELDS in Hf. apply list_elem_of_fmap in Hf as ([f' c] & -> & Hin). cbn [fst].
  unfold columnName, col_of. rewrite (dict_get_unique _ _ _ fields_nodup Hin). destruct (String.eqb_spec f' "_id") as [->|]; [|done].
  exfalso. assert (H : has ALL_FIELDS "_id" = true); [|by vm_compute in H].
  apply has_spec. by apply (list_elem_of_fmap_2 fst _ ("_id", c)).
Qed.

Lemma col_of_inj f g : has ALL_FIELDS f = true → has ALL_FIELDS g = true → col_of f = col_of g → f = g.
Proof.
  intros Hf Hg H. pose proof (proj2 (dict_col f _ (proj1 (has_spec _ _) Hf)) eq_refl) as E1.
  pose proof (proj2 (dict_col g _ (proj1 (has_spec _ _) Hg)) eq_refl) as E2. rewrite H in E1. congruence.
Qed.

(** ** Saving a document *)

Section Save.
Context (Date_toString Date_toISOString : Z → string) (hashPassword : string → string).
Context `{UDB : UsersDb} {DL : UsersDbLaws UDB} {TL : UsersTableLaws UDB}.
Local Abbreviation param := (field_param Date_toISOString hashPassword true).
Local Abbreviation save := (save Date_toISOString hashPassword).

(** What the column of a field holds after the field was written. *)
Definition cell_of (f : string) (v : val) : val := stored (col_of f) (param f v).

(** The rows before and after: assigned fields have their new values, all
    other columns are as before. *)
Definition row_patched (r : object) (ps : object) (r' : object) : Prop :=
  ∀ f, has ALL_FIELDS f = true → f ≠ "updatedAt" →
    obj_get r' (col_of f) = match patch_value ps f with Some v => cell_of f v | None => obj_get r (col_of f) end.

(** The same in terms of columns. *)
Definition row_changed (r l r' : object) : Prop :=
  ∀ c, has all_columns c = true → c ≠ "updated_at" →
    obj_get r' c = match obj_lookup l c with Some v => v | None => obj_get r c end.

Lemma column_field c : has all_columns c = true → ∃ f, has ALL_FIELDS f = true ∧ col_of f = c.
Proof.
  intros Hc. assert (H : forallb (λ c, existsb (λ f, String.eqb (col_of f) c) ALL_FIELDS) all_columns = true) by by vm_compute.
  rewrite forallb_forall in H. apply has_spec, list_elem_of_In, H, existsb_exists in Hc as (f & Hf & He).
  exists f. split; [by apply has_spec, list_elem_of_In|]. by apply String.eqb_eq.
Qed.

Lemma row_patched_changed r ps r' l :
  row_patched r ps r' → Forall (λ f, obj_lookup l (col_of f) = cell_of f <$> patch_value ps f) ALL_FIELDS → row_changed r l r'.
Proof.
  intros Hp Hl c Hc Hup. pose proof (column_field c Hc) as Hf.
  destruct Hf as (f & Hf & <-). rewrite (Hp f Hf) by (intros ->; by apply Hup).
  rewrite Forall_forall in Hl. rewrite (Hl f) by by apply has_spec. by destruct (patch_value ps f).
Qed.

Lemma fields_column fs (g : string → val) r f :
  NoDup fs → Forall (λ f, has ALL_FIELDS f = true) fs → has ALL_FIELDS f = true →
  obj_get (assign r (map col_of fs) (map g fs)) (col_of f) =
    if has fs f then stored (col_of f) (g f) else obj_get r (col_of f).
Proof.
  unfold assign. intros Hnd Hall Hf. revert r. induction Hnd as [|f' fs Hf' _ IH]; intros r; [done|].
  apply Forall_cons in Hall as [Ha Hall]. cbn [map zip zip_with foldl fst snd]. rewrite (IH Hall).
  change (has (f' :: fs) f) with (String.eqb f f' || has fs f). destruct (has fs f) eqn:E.
  { by rewrite orb_true_r. }
  rewrite orb_false_r. destruct (String.eqb_spec f f') as [->|Hne]; [by rewrite obj_get_set_eq|].
  apply obj_get_set_ne. intros Heq. apply Hne. symmetry. by apply col_of_inj.
Qed.

Lemma write_fields_elem u f :
  f ∈ write_fields u ↔
  has ["id"; "createdAt"; "updatedAt"] f = false ∧ (f ∈ _modified u ∨ f ∈ JSONB_FIELDS ∧ obj_has (_values u) f = true).
Proof.
  unfold write_fields. rewrite list_elem_of_filter.
  change (foldl set_add (_modified u) ?l) with (foldl (λ fs t, set_add fs (id t)) (_modified u) l).
  rewrite fold_set_add_elem. cbn [has existsb]. rewrite orb_false_r, negb_true_iff.
  split; intros [H1 H2]; (split; [by rewrite <- orb_assoc in * || done|]); destruct H2 as [?|H2]; [by left| |by left|];
    right; [|destruct H2 as [H2 H3]; exists f; split; [|done]; apply list_elem_of_filter; done].
  destruct H2 as (x & Hx & ->). by apply list_elem_of_filter in Hx as [? ?].
Qed.

Lemma write_fields_nodup u : NoDup (_modified u) → NoDup (write_fields u).
Proof.
  intros H. unfold write_fields. apply NoDup_filter. apply (foldl_inv NoDup); [|done]. intros. by apply set_add_nodup.
Qed.

(** Loaded JSON columns are written back as they were. *)
Lemma json_column r f :
  row_typed r = true → f ∈ JSONB_FIELDS →
  param_ok (col_of f, param f (obj_get r (col_of f))) = true ∧
  stored (col_of f) (param f (obj_get r (col_of f))) = obj_get r (col_of f).
Proof.
  intros [_ Hr]%row_typed_spec Hf. assert (Hj : has JSONB_FIELDS f = true) by by apply has_spec.
  assert (Hc : has users_schema.*1 (col_of f) = true ∧ has jsonb_columns (col_of f) = true).
  { apply jsonb_field_cases in Hf. destruct Hf as [->|[->| ->]]; by vm_compute. }
  destruct Hc as [Hc Hjc]. specialize (Hr _ Hc).
  assert (Hv : ∃ l, obj_get r (col_of f) = VArr l ∧ forallb json_val l = true).
  { apply jsonb_field_cases in Hf.
    destruct Hf as [->|[->| ->]]; destruct (obj_get r (col_of _)) as [| | | | | | |l|];
      try (by vm_compute in Hr); by exists l. }
  destruct Hv as (l & Hv & Hl). rewrite Hv.
  destruct (json_val_roundtrip Date_toISOString (VArr l) Hl) as (j & Hto & Hof).
  unfold param_ok, stored, field_param. cbn [fst snd]. rewrite Hjc, Hj. cbn [jsonb_param]. unfold stringify_val.
  rewrite Hto. destruct j; try done. by rewrite parse_stringify.
Qed.

Lemma edited_fields cols r u ps u' f :
  doc_of cols r u → edited u ps u' →
  f ∈ write_fields u' ↔ is_Some (patch_value ps f) ∨ (f ∈ JSONB_FIELDS ∧ has cols (col_of f) = true ∧ obj_has (_values u') f = true).
Proof.
  intros Hu He. rewrite write_fields_elem. split.
  - intros [_ [[Hn|Hp]%(ed_modified _ _ _ He)|[Hj Hh]]]; [rewrite (doc_modified _ _ _ Hu) in Hn; by apply not_elem_of_nil in Hn|by left|].
    destruct (patch_value ps f) as [v|] eqn:E; [left; eauto|]. right. split; [done|]. split; [|done].
    destruct (has cols (col_of f)) eqn:Ec; [done|]. rewrite (ed_has _ _ _ He f), E in Hh.
    rewrite (doc_has _ _ _ Hu f) in Hh; [done| |done]. apply jsonb_field_cases in Hj. destruct Hj as [->|[->| ->]]; by vm_compute.
  - intros [[v Hv]|(Hj & _ & Hh)].
    + pose proof (patch_value_writable _ _ _ (ed_writable _ _ _ He) Hv) as Hw. unfold writable in Hw.
      apply andb_true_iff in Hw as [_ Hw]. apply negb_true_iff in Hw. split; [done|].
      destruct (ed_written _ _ _ He f ltac:(eauto)) as [?|?]; [by left|]. right. split; [done|].
      by rewrite (ed_has _ _ _ He f), Hv.
    + split; [|by right]. apply jsonb_field_cases in Hj. destruct Hj as [->|[->| ->]]; by vm_compute.
Qed.

Lemma write_fields_known cols r u ps u' :
  doc_of cols r u → edited u ps u' → Forall (λ f, has ALL_FIELDS f = true ∧ writable f = true) (write_fields u').
Proof.
  intros Hu He. apply Forall_forall. intros f Hf. apply (edited_fields _ _ _ _ _ _ Hu He) in Hf as [[v Hv]|(Hj & _ & _)].
  - pose proof (patch_value_writable _ _ _ (ed_writable _ _ _ He) Hv) as Hw. split; [|done]. unfold writable in Hw. by apply andb_true_iff in Hw as [? _].
  - apply jsonb_field_cases in Hj. destruct Hj as [->|[->| ->]]; by vm_compute.
Qed.

(** The row the UPDATE of a patched document makes. *)
Definition patched_row (r : object) (u : User) : object :=
  assign r (map col_of (write_fields u)) (map (λ f, param f (obj_get (_values u) f)) (write_fields u)).

Lemma patched_row_spec cols r u ps u' :
  doc_of cols r u → row_typed r = true → edited u ps u' → row_patched r ps (patched_row r u').
Proof.
  intros Hu Hr He f Hf Hup. unfold patched_row. rewrite (fields_column (write_fields u') (λ f, param f (obj_get (_values u') f))); [| | |done].
  2: apply write_fields_nodup, He.
  2: eapply Forall_impl; [by eapply write_fields_known|]; by intros g [? _].
  cbv beta. rewrite (ed_get _ _ _ He f). destruct (has (write_fields u') f) eqn:E.
  - apply has_spec, (edited_fields _ _ _ _ _ _ Hu He) in E as [[v Hv]|(Hj & Hc & _)].
    { by rewrite Hv. }
    destruct (patch_value ps f); [done|]. rewrite (doc_get _ _ _ Hu f Hf), Hc. by apply (json_column r f Hr Hj).
  - destruct (patch_value ps f) as [v|] eqn:Ev; [|done]. exfalso. apply has_false in E. apply E.
    apply (edited_fields _ _ _ _ _ _ Hu He). left. eauto.
Qed.

(** The assignments a patched document may carry. *)
Definition patch_ok (ps : object) : bool :=
  forallb (λ p, writable p.1 && param_ok (col_of p.1, param p.1 p.2)) ps.

Lemma history_patch_ok h : patch_ok [("migrationHistory", VArr h)] = true.
Proof.
  unfold patch_ok, param_ok. cbn [forallb fst snd]. change (writable "migrationHistory") with true.
  change (has jsonb_columns (col_of "migrationHistory")) with true. unfold field_param.
  change (has JSONB_FIELDS "migrationHistory") with true. cbv iota. unfold jsonb_param, stringify_val. cbn [to_json].
  by rewrite parse_stringify.
Qed.

Lemma patch_ok_writable ps : patch_ok ps = true → forallb (λ p, writable p.1) ps = true.
Proof. unfold patch_ok. rewrite !forallb_forall. intros H p Hp. by apply H, andb_true_iff in Hp as [? _]. Qed.

Lemma patch_ok_value ps f v : patch_ok ps = true → patch_value ps f = Some v → param_ok (col_of f, param f v) = true.
Proof.
  unfold patch_ok. revert f v. induction ps as [|p ps IH] using rev_ind; intros f v; [done|].
  rewrite forallb_app. intros [H1 H2]%andb_true_iff. cbn in H2. rewrite andb_true_r in H2.
  rewrite patch_value_snoc. destruct (String.eqb_spec p.1 f) as [<-|]; [|by apply IH]. intros [= <-].
  by apply andb_true_iff in H2 as [_ ?].
Qed.

Lemma zip_fields (g : string → val) fs p :
  p ∈ zip (map col_of fs) (map g fs) → ∃ f, f ∈ fs ∧ p = (col_of f, g f).
Proof.
  induction fs as [|f fs IH]; cbn; [by intros ?%not_elem_of_nil|]. intros [->|Hp]%elem_of_cons; [exists f; split; [left|done]|].
  destruct (IH Hp) as (h & Hh & ->). exists h. split; [by right|done].
Qed.

Lemma zip_fields_in (g : string → val) fs f : f ∈ fs → (col_of f, g f) ∈ zip (map col_of fs) (map g fs).
Proof. induction fs as [|h fs IH]; [by intros ?%not_elem_of_nil|]. intros [->|Hf]%elem_of_cons; cbn; [left|right; auto]. Qed.

Section Patched.
Context (cols : list string) (r : object) (u : User) (ps : object) (u' : User).
Context (Hu : doc_of cols r u) (Ht : row_typed r = true) (Hps : patch_ok ps = true) (He : edited u ps u').
Local Abbreviation fs := (write_fields u').
Local Abbreviation vals := (map (λ f, param f (obj_get (_values u') f)) (write_fields u')).

Lemma patch_params_ok : forallb param_ok (zip (map col_of fs) vals) = true.
Proof.
  apply forallb_forall. intros p Hp%list_elem_of_In. apply (zip_fields (λ f, param f (obj_get (_values u') f))) in Hp as (f & Hf & ->).
  pose proof (proj1 (edited_fields _ _ _ _ _ f Hu He) Hf) as Hcase. rewrite (ed_get _ _ _ He f).
  destruct (patch_value ps f) as [v|] eqn:Ev; [by apply (patch_ok_value ps)|].
  destruct Hcase as [[? ?]|(Hj & Hc & _)]; [done|]. rewrite (doc_get _ _ _ Hu f), Hc; [by apply json_column|].
  apply jsonb_field_cases in Hj. destruct Hj as [->|[->| ->]]; by vm_compute.
Qed.

Lemma patch_no_id : "id" ∉ map col_of fs.
Proof.
  intros (f & Hf & Hin)%list_elem_of_fmap. pose proof (write_fields_known cols r u ps u' Hu He) as Hk.
  rewrite Forall_forall in Hk. destruct (Hk f Hin) as [Ha Hwf].
  assert (f = "id") as -> by (apply col_of_inj; [done|by vm_compute|by rewrite <- Hf]). by vm_compute in Hwf.
Qed.

Lemma patch_statement i :
  has cols "id" = true → obj_get r "id" = VStr i →
  update_statement Date_toISOString hashPassword u' = Returned (UpdateById (map col_of fs), vals ++ [VStr i]).
Proof.
  intros Hid Hi. unfold update_statement. rewrite (columnNames_known fs).
  2: eapply Forall_impl; [by apply (write_fields_known cols r u ps)|]; by intros f [? _].
  cbn [outcome_bind]. rewrite (ed_get _ _ _ He "id").
  assert (patch_value ps "id" = None) as ->.
  { destruct (patch_value ps "id") as [v|] eqn:E; [|done]. by pose proof (patch_value_writable _ _ _ (ed_writable _ _ _ He) E). }
  rewrite (doc_get _ _ _ Hu "id") by by vm_compute. change (col_of "id") with "id". by rewrite Hid, Hi.
Qed.
End Patched.

(** Assigning fields of a document and saving it. *)
Lemma save_edited uuid cols r u ps u' i d :
  table d !! i = Some r → doc_of cols r u → has cols "id" = true → patch_ok ps = true → edited u ps u' →
  (∀ r', row_patched r ps r' → unique_in (table d) i r') →
  ∃ r' d', save uuid u' d = (inr (saved r'), d') ∧ table d' = <[i := r']> (table d) ∧
           row_patched r ps r' ∧ row_typed r' = true.
Proof.
  intros Hr Hu Hid Hok He Hun. pose proof (tb_typed _ _ _ Hr) as Ht. destruct (pg_row_id i d r Hr) as [Hi _].
  destruct (tb_update (map col_of (write_fields u')) (map (λ f, param f (obj_get (_values u') f)) (write_fields u')) i d r Hr)
    as (now & d' & Hpg & Htab).
  { by rewrite !length_map. }
  { by apply (patch_no_id cols r u ps). }
  { by apply (patch_params_ok cols r u ps). }
  { exact (Hun _ (patched_row_spec cols r u ps u' Hu Ht He)). }
  eexists _, d'. split_and!; [|exact Htab| |].
  - unfold UserModel.save. rewrite (ed_isNew _ _ _ He), (doc_isNew _ _ _ Hu), (patch_statement cols r u ps u' Hu He i Hid Hi).
    by rewrite Hpg.
  - intros f Hf Hne. rewrite write_row_assign, obj_get_set_ne; [by apply (patched_row_spec cols r u)|].
    intros Heq. apply Hne. apply col_of_inj; [done|by vm_compute|by rewrite <- Heq].
  - apply (tb_typed i d'). by rewrite Htab, lookup_insert_eq.
Qed.

(** The address that is assigned belongs to another account. *)
Lemma save_duplicate uuid cols r u ps u' i d j rj email :
  table d !! i = Some r → doc_of cols r u → has cols "id" = true → patch_ok ps = true → edited u ps u' →
  table d !! j = Some rj → j ≠ i → obj_get rj "email" = VStr email →
  (∀ r', row_patched r ps r' → obj_get r' "email" = VStr email ∧ obj_get r' "provider_id" = VNull) →
  ∃ e, save uuid u' d = (inl e, d).
Proof.
  intros Hr Hu Hid Hok He Hj Hne Hem Hnew. pose proof (tb_typed _ _ _ Hr) as Ht. destruct (pg_row_id i d r Hr) as [Hi _].
  destruct (Hnew _ (patched_row_spec cols r u ps u' Hu Ht He)) as [Hnewem Hnewp].
  eexists. unfold UserModel.save. rewrite (ed_isNew _ _ _ He), (doc_isNew _ _ _ Hu), (patch_statement cols r u ps u' Hu He i Hid Hi).
  rewrite (tb_update_dup _ _ i d r j rj email Hr); [done|by rewrite !length_map|by apply (patch_no_id cols r u ps)
    |by apply (patch_params_ok cols r u ps)|done..].
Qed.

(** The columns that must be unique are not assigned. *)
Lemma unique_kept r ps i d :
  table d !! i = Some r → patch_value ps "email" = None → patch_value ps "provider" = None → patch_value ps "providerId" = None →
  ∀ r', row_patched r ps r' → unique_in (table d) i r'.
Proof.
  intros Hr H1 H2 H3 r' Hp. eapply unique_in_same; [..|by apply (tb_unique i d r)].
  - pose proof (Hp "email" ltac:(by vm_compute) ltac:(done)) as H. rewrite H1 in H. symmetry. exact H.
  - pose proof (Hp "provider" ltac:(by vm_compute) ltac:(done)) as H. rewrite H2 in H. symmetry. exact H.
  - pose proof (Hp "providerId" ltac:(by vm_compute) ltac:(done)) as H. rewrite H3 in H. symmetry. exact H.
Qed.

(** *** Inserting *)

(** A new document with the fields [l]. *)
Definition created_row (uuid : string) (l : object) (r' : object) : Prop :=
  ∀ f, has ALL_FIELDS f = true → has ["createdAt"; "updatedAt"] f = false →
    obj_get r' (col_of f) =
      if String.eqb f "id" then VStr uuid
      else match obj_lookup l f with Some v => cell_of f v | None => obj_get (default_row 0) (col_of f) end.

Lemma created_row_changed uuid l r l' :
  created_row uuid l r →
  Forall (λ f, f = "updatedAt" ∨
    obj_lookup l' (col_of f) = if String.eqb f "id" then Some (VStr uuid) else if String.eqb f "createdAt" then Some (obj_get r "created_at")
                               else cell_of f <$> obj_lookup l f) ALL_FIELDS → row_changed (default_row 0) l' r.
Proof.
  intros Hr Hl c Hc Hup. destruct (column_field c Hc) as (f & Hf & <-). rewrite Forall_forall in Hl.
  destruct (Hl f) as [->|Hf']; [by apply has_spec|done|]. rewrite Hf'.
  destruct (String.eqb_spec f "createdAt") as [->|Hca]; [done|].
  rewrite (Hr f Hf). { destruct (String.eqb f "id"); [done|]. by destruct (obj_lookup l f). }
  cbn. rewrite (proj2 (String.eqb_neq _ _) Hca). destruct (String.eqb_spec f "updatedAt") as [->|]; [by exfalso; apply Hup|done].
Qed.

Lemma obj_set_fresh l k v : k ∉ obj_keys l → obj_set l k v = l ++ [(k, v)].
Proof.
  induction l as [|[k' v'] l IH]; [done|]. cbn. intros [Hne Hk]%not_elem_of_cons.
  rewrite (proj2 (String.eqb_neq _ _)) by congruence. by rewrite (IH Hk).
Qed.

Lemma obj_values_keys (g : string → val → val) l :
  NoDup (obj_keys l) → map (λ p, g p.1 p.2) l = map (λ f, g f (obj_get l f)) (obj_keys l).
Proof.
  intros Hnd. assert (H : ∀ l', (∀ p, p ∈ l → obj_get l' p.1 = p.2) → map (λ p, g p.1 p.2) l = map (λ f, g f (obj_get l' f)) (obj_keys l)).
  { intros l' Hl. induction l as [|[k v] l IH]; [done|]. cbn. f_equal.
    { pose proof (Hl (k, v) ltac:(left)) as E. cbn in E. by rewrite E. }
    apply IH; [by apply NoDup_cons in Hnd as [_ ?]|]. intros p Hp. apply Hl. by right. }
  apply H. clear H. induction l as [|[k v] l IH]; intros p Hp; [by apply not_elem_of_nil in Hp|].
  cbn in Hnd. apply NoDup_cons in Hnd as [Hk Hnd]. apply elem_of_cons in Hp as [->|Hp]; unfold obj_get; cbn.
  - by rewrite String.eqb_refl.
  - rewrite (proj2 (String.eqb_neq _ _)); [by apply (IH Hnd)|]. intros ->. apply Hk. by apply (list_elem_of_fmap_2 fst).
Qed.

Lemma obj_get_map {A} (g : string → val) (l : list (string * A)) c :
  obj_get (map (λ p, (p.1, g p.1)) l) c = if has l.*1 c then g c else VUndef.
Proof.
  unfold obj_get. induction l as [|[k a] l IH]; [done|]. cbn. rewrite (String.eqb_sym c k).
  destruct (String.eqb_spec k c) as [->|]; [done|]. apply IH.
Qed.

Lemma default_row_get now f :
  has ["createdAt"; "updatedAt"] f = false → has ALL_FIELDS f = true →
  obj_get (default_row now) (col_of f) = obj_get (default_row 0) (col_of f).
Proof.
  intros Hts Hf. assert (Hc : col_of f ≠ "created_at" ∧ col_of f ≠ "updated_at").
  { split; [change "created_at" with (col_of "createdAt")|change "updated_at" with (col_of "updatedAt")];
      intros ->%col_of_inj; done || by vm_compute. }
  destruct Hc as [H1 H2]. unfold default_row. rewrite !obj_get_map. unfold default_cell.
  by rewrite (proj2 (String.eqb_neq _ _) H1), (proj2 (String.eqb_neq _ _) H2).
Qed.

Lemma filter_all {A} (P : A → Prop) `{!∀ x, Decision (P x)} (l : list A) : Forall P l → filter P l = l.
Proof. induction 1 as [|x l Hx _ IH]; [done|]. by rewrite filter_cons_True, IH. Qed.

Section Insert.
Context (uuid : string) (l : object).
Context (Hnd : NoDup (obj_keys l)) (Hl : patch_ok l = true).
Local Abbreviation l' := (l ++ [("id", VStr uuid)]).
Local Abbreviation cols := (map col_of (obj_keys (l ++ [("id", VStr uuid)]))).
Local Abbreviation vals := (map (λ f, param f (obj_get (l ++ [("id", VStr uuid)]) f)) (obj_keys (l ++ [("id", VStr uuid)]))).

Lemma insert_keys f : f ∈ obj_keys l → writable f = true.
Proof.
  intros (p & -> & Hp)%list_elem_of_fmap. unfold patch_ok in Hl. rewrite forallb_forall in Hl.
  apply list_elem_of_In in Hp. by apply Hl, andb_true_iff in Hp as [? _].
Qed.

Lemma insert_keys_nodup : NoDup (obj_keys l').
Proof.
  unfold obj_keys. rewrite fmap_app. apply NoDup_app. split_and!; [done| |apply NoDup_singleton].
  intros f Hf ->%list_elem_of_singleton. apply insert_keys in Hf. by vm_compute in Hf.
Qed.

Lemma insert_known : Forall (λ f, has ALL_FIELDS f = true) (obj_keys l').
Proof.
  apply Forall_forall. intros f. unfold obj_keys. rewrite fmap_app, elem_of_app. intros [Hf| ->%list_elem_of_singleton]; [|by vm_compute].
  apply insert_keys in Hf. unfold writable in Hf. by apply andb_true_iff in Hf as [? _].
Qed.

Lemma insert_statement_spec u :
  _values u = l →
  insert_statement Date_toISOString hashPassword uuid u = Returned (InsertUser cols, vals).
Proof.
  intros Hu. unfold insert_statement. rewrite Hu.
  assert (Hid : "id" ∉ obj_keys l) by (intros Hid%insert_keys; by vm_compute in Hid).
  assert (Ht : truthy (obj_get l "id") = false) by (unfold obj_get; by rewrite (proj2 (obj_lookup_none l "id") Hid)).
  rewrite Ht, (obj_set_fresh _ _ _ Hid).
  assert (Hf : filter (λ p : string * val, negb (String.eqb p.1 "createdAt" || String.eqb p.1 "updatedAt") = true) l' = l').
  { apply filter_all. apply Forall_forall. intros p Hp. apply elem_of_app in Hp as [Hp| ->%list_elem_of_singleton]; [|done].
    assert (Hk : p.1 ∈ obj_keys l) by by apply list_elem_of_fmap_2.
    apply insert_keys in Hk. apply negb_true_iff, orb_false_iff.
    split; apply String.eqb_neq; intros E; rewrite E in Hk; by vm_compute in Hk. }
  rewrite Hf, (columnNames_known _ insert_known). cbn [outcome_bind].
  by rewrite (obj_values_keys (λ f v, param f v) l' insert_keys_nodup).
Qed.

Lemma insert_lookup f : f ≠ "id" → obj_lookup l' f = obj_lookup l f.
Proof.
  intros Hf. clear -Hf. induction l as [|[k v] l0 IH]; cbn [app obj_lookup].
  - assert (String.eqb "id" f = false) as -> by (apply String.eqb_neq; congruence). done.
  - by rewrite IH.
Qed.

Lemma inserted_id : obj_get l' "id" = VStr uuid.
Proof.
  assert (Hid : "id" ∉ obj_keys l) by (intros Hid%insert_keys; by vm_compute in Hid).
  rewrite <- (obj_set_fresh _ _ _ Hid). apply obj_get_set_eq.
Qed.

Lemma insert_row_spec now : created_row uuid l (assign (default_row now) cols vals).
Proof.
  intros f Hf Hts. rewrite (fields_column (obj_keys l') (λ f, param f (obj_get l' f))); [|apply insert_keys_nodup|apply insert_known|done].
  destruct (String.eqb_spec f "id") as [->|Hne].
  { replace (has (obj_keys l') "id") with true; [|symmetry; apply has_spec; unfold obj_keys; rewrite fmap_app, elem_of_app; right; left].
    by rewrite inserted_id. }
  unfold obj_get at 1. rewrite (insert_lookup f Hne), (default_row_get now f Hts Hf).
  destruct (obj_lookup l f) as [v|] eqn:E.
  - replace (has (obj_keys l') f) with true; [done|]. symmetry. apply has_spec. unfold obj_keys. rewrite fmap_app, elem_of_app. left.
    destruct (decide (f ∈ obj_keys l)) as [|Hn]; [done|]. apply obj_lookup_none in Hn. congruence.
  - apply obj_lookup_none in E. replace (has (obj_keys l') f) with false; [done|]. symmetry. apply has_false.
    unfold obj_keys. rewrite fmap_app, elem_of_app. by intros [?| ->%list_elem_of_singleton].
Qed.

Lemma insert_params_ok : forallb param_ok (zip cols vals) = true.
Proof.
  apply forallb_forall. intros p Hp%list_elem_of_In. apply (zip_fields (λ f, param f (obj_get l' f))) in Hp as (f & Hf & ->).
  unfold obj_keys in Hf. rewrite fmap_app, elem_of_app in Hf. destruct Hf as [Hf|Hf%list_elem_of_singleton]; [|subst f; cbn [fst]; by rewrite inserted_id].
  assert (Hne : f ≠ "id") by (intros ->; apply insert_keys in Hf; by vm_compute in Hf).
  unfold obj_get. rewrite (insert_lookup f Hne). unfold patch_ok in Hl. rewrite forallb_forall in Hl.
  destruct (obj_lookup l f) as [v|] eqn:E; [|apply obj_lookup_none in E; done].
  assert (Hin : (f, v) ∈ l).
  { clear -E. induction l as [|[k w] l0 IH]; [done|]. cbn in E. destruct (String.eqb_spec k f) as [->|]; [injection E as ->; left|right; auto]. }
  apply list_elem_of_In, Hl, andb_true_iff in Hin as [_ ?]. done.
Qed.

Lemma save_new u d :
  _isNew u = true → _values u = l → table d !! uuid = None → has (obj_keys l) "email" = true → has (obj_keys l) "displayName" = true →
  (∀ r', created_row uuid l r' → unique_in (table d) uuid r') →
  ∃ r' d', save uuid u d = (inr (saved r'), d') ∧ table d' = <[uuid := r']> (table d) ∧
           created_row uuid l r' ∧ row_typed r' = true.
Proof.
  intros Hnew Hu Hd He Hdn Hun. unfold UserModel.save. rewrite Hnew, (insert_statement_spec u Hu).
  destruct (tb_insert cols vals uuid d Hd) as (now & d' & -> & Htab).
  - by rewrite !length_map.
  - apply NoDup_fmap_2_strong; [|apply insert_keys_nodup]. intros x y Hx Hy.
    pose proof insert_known as Hk. rewrite Forall_forall in Hk. apply col_of_inj; by apply Hk.
  - apply insert_params_ok.
  - assert (Hin : "id" ∈ obj_keys l') by (unfold obj_keys; rewrite fmap_app, elem_of_app; right; left).
    pose proof (zip_fields_in (λ f, param f (obj_get l' f)) _ _ Hin) as Hz. cbv beta in Hz. rewrite inserted_id in Hz. exact Hz.
  - apply list_elem_of_fmap. exists "email". split; [done|]. unfold obj_keys. rewrite fmap_app, elem_of_app. left. by apply has_spec.
  - apply list_elem_of_fmap. exists "displayName". split; [done|]. unfold obj_keys. rewrite fmap_app, elem_of_app. left. by apply has_spec.
  - intros now. apply Hun, insert_row_spec.
  - eexists _, d'. split; [done|]. split; [exact Htab|]. split; [apply insert_row_spec|].
    apply (tb_typed uuid d'). by rewrite Htab, lookup_insert_eq.
Qed.
End Insert.
End Save.

(** ** Finding documents *)

Section Find.
Context (Date_toString Date_toISOString : Z → string).
Context `{UDB : UsersDb} {DL : UsersDbLaws UDB} {TL : UsersTableLaws UDB}.

(** The columns a projection selects. *)
Definition projection (spec : option string) : list string :=
  let q := new_UserQuery VUndef true in
  match columnNames (resolveFields (match spec with Some s => select s q | None => q end)) with
  | Returned cols => cols
  | Thrown _ => []
  end.

(** A projection that names known fields only. *)
Definition projection_ok (spec : option string) : bool :=
  let q := new_UserQuery VUndef true in
  match columnNames (resolveFields (match spec with Some s => select s q | None => q end)) with
  | Returned cols => bool_decide (NoDup cols)
  | Thrown _ => false
  end.

Lemma projection_spec filter spec :
  projection_ok spec = true →
  columnNames (resolveFields (match spec with Some s => select s (new_UserQuery filter true) | None => new_UserQuery filter true end))
    = Returned (projection spec) ∧ NoDup (projection spec).
Proof.
  unfold projection_ok, projection. destruct spec as [s|]; unfold select, new_UserQuery, resolveFields; cbn [q_projection].
  - destruct (columnNames _); [|done]. by intros ?%bool_decide_eq_true.
  - destruct (columnNames _); [|done]. by intros ?%bool_decide_eq_true.
Qed.

Lemma findById_document i spec d :
  projection_ok spec = true →
  findById Date_toString Date_toISOString i spec d = (inr (document (projection spec) <$> table d !! i), d).
Proof.
  intros Hs. rewrite (findById_spec _ _ (DL := DL)). destruct (projection_spec (VObj [("id", VStr i)]) spec Hs) as [-> _].
  by destruct (table d !! i).
Qed.

Lemma findOne_document filter w params spec d :
  projection_ok spec = true → buildWhere Date_toString Date_toISOString filter [] = Returned (where_text_of w, params) →
  w ∈ known_conditions → length params = list_sum (map holes_of w) → forallb (cond_typed params) w = true →
  (findOne Date_toString Date_toISOString filter spec d = (inr None, d) ∧
     ∀ j r, table d !! j = Some r → selected no_order params r w = false) ∨
  ∃ j r, findOne Date_toString Date_toISOString filter spec d = (inr (Some (document (projection spec) r)), d) ∧
         table d !! j = Some r ∧ selected no_order params r w = true.
Proof.
  intros Hs Hw Hk Hlen Hty. destruct (projection_spec filter spec Hs) as [Hc _]. set (cols := projection spec) in *.
  unfold findOne, execute, buildSelect. rewrite Hc. clearbody cols.
  destruct spec as [s|]; cbn [outcome_bind q_filter q_orderBy q_limit q_single select new_UserQuery];
    rewrite Hw; cbn [outcome_bind];
    (destruct (tb_select w cols params d Hk Hlen Hty) as [[-> Hno]|(j & r & -> & Hj & Hsel)];
      [left; split; [done|exact Hno]|right; exists j, r; split; [done|split; [exact Hj|exact Hsel]]]).
Qed.

(** Deleting by id. *)
Lemma findByIdAndDelete_spec i d :
  ∃ d', findByIdAndDelete i d = (inr (updated <$> table d !! i), d') ∧ table d' = delete i (table d).
Proof.
  destruct (tb_delete i d) as (d' & Hpg & Htab). exists d'. unfold findByIdAndDelete. rewrite Hpg.
  by destruct (table d !! i).
Qed.

(** *** The version-checked update *)

Definition set_update (ps : object) : UpdateDoc :=
  {| u_push := []; u_pull := []; u_set := ps; u_unset := []; u_inc := [("tokenVersion", 1)] |}.

Context (hashPassword : string → string).
Local Abbreviation param := (field_param Date_toISOString hashPassword true).
Local Abbreviation row_patched := (row_patched Date_toISOString hashPassword).
Local Abbreviation patch_ok := (patch_ok Date_toISOString hashPassword).

Lemma param_unhashed f v : f ≠ "password" → field_param Date_toISOString (λ s, s) false f v = param f v.
Proof.
  intros Hf. unfold field_param. destruct (has JSONB_FIELDS f); [done|]. destruct v; try done.
  rewrite (proj2 (String.eqb_neq _ _) Hf). by rewrite andb_false_r.
Qed.

Lemma apply_set_value values changed ps f :
  obj_get (foldl apply_set (values, changed) ps).1 f = match patch_value ps f with Some v => v | None => obj_get values f end.
Proof.
  induction ps as [|p ps IH] using rev_ind; [done|]. rewrite foldl_app, patch_value_snoc. cbn [foldl apply_set fst].
  rewrite obj_get_set. destruct (String.eqb p.1 f); [done|exact IH].
Qed.

Lemma apply_set_changed values changed ps f :
  f ∈ (foldl apply_set (values, changed) ps).2 ↔ f ∈ changed ∨ is_Some (patch_value ps f).
Proof.
  induction ps as [|p ps IH] using rev_ind.
  { cbn. split; [auto|]. by intros [?|[? ?]]. }
  rewrite foldl_app, patch_value_snoc. cbn [foldl apply_set snd]. rewrite set_add_elem, IH.
  destruct (String.eqb_spec p.1 f) as [->|Hne].
  - split; [|auto]. intros _. right. eauto.
  - split; [|tauto]. by intros [?| ->].
Qed.

(** What [$set] and [$inc] leave, as a patch. *)
Definition bumped (ps : object) (n : Z) : object := ps ++ [("tokenVersion", VNum (n + 1))].

Lemma set_update_value ps values n f :
  patch_value ps "tokenVersion" = None → obj_get values "tokenVersion" = VNum n →
  obj_get (apply_operators (set_update ps) values).1 f =
    match patch_value (bumped ps n) f with Some v => v | None => obj_get values f end.
Proof.
  intros Hps Hn. unfold apply_operators, set_update, bumped. cbn [u_push u_pull u_set u_unset u_inc foldl apply_inc fst snd].
  rewrite patch_value_snoc, apply_set_value, Hps, Hn. cbn [fst snd]. rewrite obj_get_set, apply_set_value.
  by destruct (String.eqb "tokenVersion" f).
Qed.

Lemma set_update_changed ps values n f :
  f ∈ (apply_operators (set_update ps) values).2 ↔ is_Some (patch_value (bumped ps n) f).
Proof.
  unfold apply_operators, set_update, bumped. cbn [u_push u_pull u_set u_unset u_inc foldl apply_inc fst snd].
  rewrite patch_value_snoc, set_add_elem, apply_set_changed. cbn [fst snd]. destruct (String.eqb_spec "tokenVersion" f) as [->|Hne].
  - split; [eauto|auto].
  - split; [|auto]. intros [[?%not_elem_of_nil|?]| ->]; done.
Qed.

Lemma version_where i n :
  buildWhere Date_toString Date_toISOString (VObj [("_id", VStr i); ("tokenVersion", VNum n)]) [] =
    Returned (where_text_of by_id_version, [VStr i; VNum n]).
Proof. reflexivity. Qed.

(** The row was changed since: nothing happens. *)
Lemma update_version_stale i n update d :
  - 2 ^ 31 <= n < 2 ^ 31 →
  match table d !! i with Some r => same (obj_get r "token_version") (VNum n) = false | None => True end →
  findOneAndUpdate Date_toString Date_toISOString (VObj [("_id", VStr i); ("tokenVersion", VNum n)]) update d = (inr None, d).
Proof.
  intros Hn Hr. unfold findOneAndUpdate, applyUpdate. rewrite version_where, tb_lock_version by done.
  destruct (table d !! i); [|done]. by rewrite Hr.
Qed.

Section Versioned.
Context (i : string) (n : Z) (ps : object) (d : db) (r : object).
Context (Hr : table d !! i = Some r) (Hn : obj_get r "token_version" = VNum n).
Context (Hps : patch_ok (bumped ps n) = true) (Hpw : patch_value ps "password" = None) (Htv : patch_value ps "tokenVersion" = None).
Local Abbreviation c := (apply_operators (set_update ps) (rowToValues r)).
Local Abbreviation vals := (map (λ f, param f (obj_get (apply_operators (set_update ps) (rowToValues r)).1 f)) (apply_operators (set_update ps) (rowToValues r)).2).

Lemma version_value : obj_get (rowToValues r) "tokenVersion" = VNum n.
Proof. rewrite row_value; [exact Hn|by eapply tb_typed|by vm_compute]. Qed.

Lemma changed_writable f : f ∈ c.2 → writable f = true.
Proof.
  intros [v Hv]%(set_update_changed ps (rowToValues r) n). eapply patch_value_writable; [|exact Hv]. by eapply patch_ok_writable.
Qed.

Lemma changed_known : Forall (λ f, has ALL_FIELDS f = true) c.2.
Proof. apply Forall_forall. intros f Hf%changed_writable. unfold writable in Hf. by apply andb_true_iff in Hf as [? _]. Qed.

Lemma version_statement :
  changed_statement Date_toISOString (VStr i) c = Returned (UpdateById (map col_of c.2), vals ++ [VStr i]).
Proof.
  unfold changed_statement. rewrite filter_all.
  2: { apply Forall_forall. intros f Hf%changed_writable. apply String.eqb_neq. intros ->. by vm_compute in Hf. }
  rewrite (columnNames_known _ changed_known). cbn [outcome_bind]. do 3 f_equal. apply map_ext_in. intros f Hf%list_elem_of_In.
  apply param_unhashed. intros ->. apply (set_update_changed ps (rowToValues r) n) in Hf. unfold bumped in Hf.
  rewrite patch_value_snoc in Hf. cbn in Hf. rewrite Hpw in Hf. by destruct Hf.
Qed.

Lemma version_row : row_patched r (bumped ps n) (assign r (map col_of c.2) vals).
Proof.
  intros f Hf Hup. rewrite (fields_column c.2 (λ f, param f (obj_get c.1 f))); [|apply apply_operators_nodup|apply changed_known|done].
  rewrite (set_update_value ps _ n f Htv version_value). destruct (has c.2 f) eqn:E.
  - apply has_spec, (set_update_changed ps (rowToValues r) n) in E as [v Hv]. by rewrite Hv.
  - apply has_false in E. destruct (patch_value (bumped ps n) f) eqn:Ev; [|done]. exfalso. apply E.
    apply (set_update_changed ps (rowToValues r) n). by eexists.
Qed.

Lemma version_params : forallb param_ok (zip (map col_of c.2) vals) = true.
Proof.
  apply forallb_forall. intros p Hp%list_elem_of_In. apply (zip_fields (λ f, param f (obj_get c.1 f))) in Hp as (f & Hf & ->).
  rewrite (set_update_value ps _ n f Htv version_value).
  apply (set_update_changed ps (rowToValues r) n) in Hf as [v Hv]. rewrite Hv. by eapply patch_ok_value.
Qed.

(** The row is as it was read: the update goes through and the version moves on. *)
Lemma update_version_current :
  - 2 ^ 31 <= n < 2 ^ 31 → (∀ r', row_patched r (bumped ps n) r' → unique_in (table d) i r') →
  ∃ r' d', findOneAndUpdate Date_toString Date_toISOString (VObj [("_id", VStr i); ("tokenVersion", VNum n)]) (set_update ps) d =
             (inr (Some (updated r')), d') ∧
           table d' = <[i := r']> (table d) ∧ row_patched r (bumped ps n) r' ∧ row_typed r' = true.
Proof.
  intros Hrange Hun. destruct (pg_row_id i d r Hr) as [Hid _].
  destruct (tb_update (map col_of c.2) vals i d r Hr) as (now & d' & Hpg & Htab).
  { by rewrite !length_map. }
  { intros (f & Hf & Hin)%list_elem_of_fmap. pose proof (changed_writable f Hin) as Hw.
    assert (f = "id") as ->; [|by vm_compute in Hw]. unfold writable in Hw. apply andb_true_iff in Hw as [Ha _].
    apply col_of_inj; [done|by vm_compute|by rewrite <- Hf]. }
  { apply version_params. }
  { apply Hun, version_row. }
  eexists _, d'. split_and!; [|exact Htab| |].
  - unfold findOneAndUpdate, applyUpdate. rewrite version_where, tb_lock_version by done. rewrite Hr, Hn. cbn [same].
    rewrite Z.eqb_refl, Hid, version_statement, Hpg. done.
  - intros f Hf Hne. rewrite write_row_assign, obj_get_set_ne; [by apply version_row|].
    intros Heq. apply Hne. apply col_of_inj; [done|by vm_compute|by rewrite <- Heq].
  - apply (tb_typed i d'). by rewrite Htab, lookup_insert_eq.
Qed.
End Versioned.
End Find.
