(* ===== verification/Application.v ===== *)
(** * The application

    The state the request handlers of [uam-backend] share and how they use the
    services: the cache, the two tables of the database, the process memory of
    the one-time-code services, the requests sent to the control plane and the
    mails handed to the SMTP server.  A service keeps its own small state;
    [embed] (in [Async]) runs its programs in the state of the application.

    [follow] is the foreign key of the identity index: its entries name users
    of the users table, and deleting a user deletes them (ON DELETE CASCADE).

    [services/email.service.ts] and [utils/gravatar.ts] are modelled here too.
    How an attempt to send a mail fares is read from the environment. *)

From S2P Require Import Prelude CircuitConfig RollingWindow CircuitBreaker GuardedCalls Async RedisCache Json JsVal Columns SqlFilter SqlMeaning Password UserModel OneTimeCodes Sessions IdentityIndex Tokens SessionHandlers UsersTable Documents.
#[local] Open Scope string_scope.
#[local] Open Scope list_scope.
#[local] Open Scope Z_scope.
#[local] Open Scope async_scope.

(** What a stretch of code reads from its surroundings: the network and the
    clock, the answer of the SMTP server ([None]: accepted), two more random
    values. *)
Record AppEnv := {
  net : Env;
  smtp : option string;
  randoms : string * string;
}.

Record AppConfig := {
  cfg_jwt : JwtConfig;
  cfg_cookies : CookieConfig;
  clientUrl : string;
  clientUrls : list string;
  autoVerifyEmail : bool;
  smtpConfigured : bool;
  maxDailyLogins : Z;
  googleEnabled : bool;
  githubEnabled : bool;
  emailIndexSecret : option string;
}.

Record Mail := { mail_to : string; mail_subject : string; mail_html : string }.

(** The two tables in one database. *)
Class ForeignKey `(UsersDb) `(IndexDb) := {
  follow : gmap string object → idb → idb;
}.

Definition owner_in (t : gmap string object) (r : object) : bool :=
  match obj_get r "user_id" with VStr i => bool_decide (is_Some (t !! i)) | _ => false end.

Class ForeignKeyLaws `(ForeignKey) : Prop := {
  follow_known : ∀ t x i, known_user (follow t x) i = bool_decide (is_Some (t !! i));
  follow_entries : ∀ t x,
    entries (follow t x) =
      filter (λ p, owner_in t p.2 = true) (entries x);
}.

Section App.
Context `{RKV : RedisKV} `{UDB : UsersDb} `{IDB : IndexDb}.

(** [config.nodeEnv] and the [Map]s of the one-time-code services *)
Record Memory := mkMemory {
  mem_nodeEnv : string;
  mem_links : MemMap json;
  mem_forms : MemMap json;
  mem_codes : MemMap json;
  mem_states : MemMap json;
  mem_polls : MemMap string;
}.

Record App := mkApp {
  app_cache : Cache;
  app_users : db;
  app_index : idb;
  app_revocations : list object;   (** bodies of the requests to the control plane *)
  app_memory : Memory;
  app_outbox : list Mail;          (** mails the SMTP server has accepted *)
}.

#[global] Instance set_app_cache : Setter app_cache :=
  λ g s, mkApp (g (app_cache s)) (app_users s) (app_index s) (app_revocations s) (app_memory s) (app_outbox s).
#[global] Instance set_app_users : Setter app_users :=
  λ g s, mkApp (app_cache s) (g (app_users s)) (app_index s) (app_revocations s) (app_memory s) (app_outbox s).
#[global] Instance set_app_index : Setter app_index :=
  λ g s, mkApp (app_cache s) (app_users s) (g (app_index s)) (app_revocations s) (app_memory s) (app_outbox s).
#[global] Instance set_app_outbox : Setter app_outbox :=
  λ g s, mkApp (app_cache s) (app_users s) (app_index s) (app_revocations s) (app_memory s) (g (app_outbox s)).

(** Time passes and the connection changes before a stretch of code. *)
Definition tick (e : AppEnv) (s : App) : App := s <| app_cache ::= advance (net e) |>.

Definition stretch {A} (f : AppEnv → App → A * App) : prog AppEnv App A := act (λ e s, f e (tick e s)).

(** The time and the random values of a stretch of code. *)
Definition here : prog AppEnv App (Z * AppEnv) := stretch (λ e s, ((RedisCache.clock (app_cache s), e), s)).

(** ** The services in the application *)

Definition direct (e : AppEnv) (s : App) : Env * App := (net e, s).

Definition session_part (s : App) : Sessions.State :=
  Sessions.mkState (app_cache s) (app_users s) (app_revocations s).
Definition put_session (t : Sessions.State) (s : App) : App :=
  mkApp (Sessions.cache t) (Sessions.users t) (app_index s) (Sessions.revocations t) (app_memory s) (app_outbox s).

(** The other services have the cache and a part of the memory. *)
Definition put_memory (c : Cache) (m : Memory) (s : App) : App :=
  mkApp c (app_users s) (app_index s) (app_revocations s) m (app_outbox s).

Definition link_part (s : App) : EmailLink.State :=
  EmailLink.mkState (app_cache s) (mem_nodeEnv (app_memory s)) (mem_links (app_memory s)) (mem_forms (app_memory s)).
Definition put_link (t : EmailLink.State) (s : App) : App :=
  let '(mkMemory _ _ _ co st po) := app_memory s in
  put_memory (EmailLink.cache t)
    (mkMemory (EmailLink.nodeEnv t) (EmailLink.memoryLinks t) (EmailLink.memoryForms t) co st po) s.

Definition exchange_part (s : App) : OAuthExchange.State :=
  OAuthExchange.mkState (app_cache s) (mem_nodeEnv (app_memory s)) (mem_codes (app_memory s)).
Definition put_exchange (t : OAuthExchange.State) (s : App) : App :=
  let '(mkMemory _ l f _ st po) := app_memory s in
  put_memory (OAuthExchange.cache t) (mkMemory (OAuthExchange.nodeEnv t) l f (OAuthExchange.memoryCodes t) st po) s.

Definition pkce_part (s : App) : OAuthPkce.State :=
  OAuthPkce.mkState (app_cache s) (mem_nodeEnv (app_memory s)) (mem_states (app_memory s)).
Definition put_pkce (t : OAuthPkce.State) (s : App) : App :=
  let '(mkMemory _ l f co _ po) := app_memory s in
  put_memory (OAuthPkce.cache t) (mkMemory (OAuthPkce.nodeEnv t) l f co (OAuthPkce.memoryStates t) po) s.

Definition poll_part (s : App) : VerificationPoll.State :=
  VerificationPoll.mkState (app_cache s) (mem_nodeEnv (app_memory s)) (mem_polls (app_memory s)).
Definition put_poll (t : VerificationPoll.State) (s : App) : App :=
  let '(mkMemory _ l f co st _) := app_memory s in
  put_memory (VerificationPoll.cache t) (mkMemory (VerificationPoll.nodeEnv t) l f co st (VerificationPoll.memoryPolls t)) s.

Definition session {A} (p : prog Env Sessions.State A) : prog AppEnv App A := embed direct session_part put_session p.
Definition link {A} (p : prog Env EmailLink.State A) : prog AppEnv App A := embed direct link_part put_link p.
Definition exchange {A} (p : prog Env OAuthExchange.State A) : prog AppEnv App A := embed direct exchange_part put_exchange p.
Definition pkce {A} (p : prog Env OAuthPkce.State A) : prog AppEnv App A := embed direct pkce_part put_pkce p.
Definition poll {A} (p : prog Env VerificationPoll.State A) : prog AppEnv App A := embed direct poll_part put_poll p.

(** The identity index sees the clock of the application. *)
#[global] Instance own_index : HasIndex idb.
Proof. by refine {| index_of := λ x, x; with_index := λ x _, x |}. Defined.

Definition enter_index (e : AppEnv) (s : App) : Tick * App :=
  let s := tick e s in ({| now := RedisCache.clock (app_cache s); uuid := (uuids (net e)).1 |}, s).

Definition indexed {A} (p : prog Tick idb A) : prog AppEnv App A :=
  embed enter_index app_index (λ x s, s <| app_index := x |>) p.

(** A call of the user model that changes no ids, awaited. *)
Definition on_users {A} (f : AppEnv → db → A * db) : prog AppEnv App A :=
  stretch (λ e s, let '(a, d) := f e (app_users s) in (a, s <| app_users := d |>)).

(** A call that may insert or delete rows: the foreign key follows. *)
Context `{FK : !ForeignKey UDB IDB}.

Definition on_rows {A} (f : AppEnv → db → A * db) : prog AppEnv App A :=
  stretch (λ e s, let '(a, d) := f e (app_users s) in
                  (a, s <| app_users := d |> <| app_index ::= follow (table d) |>)).

(** [try { p } catch (e) { handler }] *)
Definition catch {A} (p : prog AppEnv App (failure + A)) (handler : failure → prog AppEnv App A) : prog AppEnv App A :=
  let! r := p in match r with inl e => handler e | inr a => Ret a end.

(** A service that throws an [Error]. *)
Definition may_throw {A} (p : prog AppEnv App (outcome A)) : prog AppEnv App (failure + A) :=
  let! r := p in Ret (lift_error r).
End App.

Section Services.
Context (Date_toString Date_toISOString : Z → string) (hashPassword : string → string).
Context `{RKV : RedisKV} `{UDB : UsersDb} `{IDB : IndexDb} `{FK : !ForeignKey UDB IDB}.

(** [await User.findById(id).select(spec)] *)
Definition find_user (id : val) (spec : option string) : prog AppEnv App (failure + option User) :=
  on_users (λ _, findById_value Date_toString Date_toISOString id spec).

(** [id ? await User.findById(id) : null] *)
Definition find_if (id : option val) : prog AppEnv App (failure + option User) :=
  match id with
  | Some id => if truthy id then find_user id None else Ret (inr None)
  | None => Ret (inr None)
  end.

(** [await user.save()] *)
Definition save_user (u : User) : prog AppEnv App (failure + User) :=
  if _isNew u then on_rows (λ e, save Date_toISOString hashPassword (uuids (net e)).1 u)
  else on_users (λ e, save Date_toISOString hashPassword (uuids (net e)).1 u).
End Services.

(** ** Mail *)

Section Mailing.
Context `{RKV : RedisKV} `{UDB : UsersDb} `{IDB : IndexDb}.
Context (config : AppConfig).

(** [retryWithBackoff(fn, n)]: the delay before the next attempt is the time
    that passes before the next stretch. *)
Fixpoint retryWithBackoff (fn : prog AppEnv App (failure + unit)) (n : nat) : prog AppEnv App (failure + unit) :=
  match n with
  | O => Ret (inl (Err "undefined"))
  | S k =>
      let! r := fn in
      match r with
      | inr _ => Ret (inr tt)
      | inl e =>
          match k with
          | O => Ret (inl e)
          | S _ => stretch (λ _ s, (tt, s)) ;; retryWithBackoff fn k
          end
      end
  end.

(** [await transporter.sendMail(...)] *)
Definition sendMail (m : Mail) : prog AppEnv App (failure + unit) :=
  stretch (λ e s, match smtp e with
                  | None => (inr tt, s <| app_outbox ::= λ l, l ++ [m] |>)
                  | Some err => (inl (Err err), s)
                  end).

Definition sendEmail (m : Mail) : prog AppEnv App (failure + unit) :=
  if smtpConfigured config then retryWithBackoff (sendMail m) 3 else Ret (inr tt).
End Mailing.

Definition dq : string := String "034"%char "".

(** The text of the two mails; [year] is the current one. *)
Definition verification_html (url : string) (year : Z) : string :=
  "
    <!DOCTYPE html>
    <html>
    <head>
      <style>
        body { font-family: 'Segoe UI', Tahoma, Geneva, Verdana, sans-serif; background: #f4f4f7; margin: 0; padding: 40px 20px; }
        .container { max-width: 560px; margin: 0 auto; background: #ffffff; border-radius: 12px; box-shadow: 0 4px 24px rgba(0,0,0,0.08); overflow: hidden; }
        .header { background: linear-gradient(135deg, #667eea 0%, #764ba2 100%); padding: 40px 20px; text-align: center; }
        .header h1 { color: #ffffff; margin: 0; font-size: 28px; }
        .content { padding: 40px; }
        .content p { color: #51545e; font-size: 16px; line-height: 1.6; margin: 0 0 20px; }
        .button { display: inline-block; background: linear-gradient(135deg, #667eea 0%, #764ba2 100%); color: #ffffff !important; text-decoration: none; padding: 14px 32px; border-radius: 8px; font-weight: 600; font-size: 16px; }
        .footer { padding: 20px 40px; background: #f4f4f7; text-align: center; }
        .footer p { color: #9a9ea6; font-size: 14px; margin: 0; }
      </style>
    </head>
    <body>
      <div class=" +:+ dq +:+ "container" +:+ dq +:+ ">
        <div class=" +:+ dq +:+ "header" +:+ dq +:+ ">
          <h1>Verify Your Email</h1>
        </div>
        <div class=" +:+ dq +:+ "content" +:+ dq +:+ ">
          <p>Welcome! Please click the button below to verify your email address and activate your account.</p>
          <p style=" +:+ dq +:+ "text-align: center; margin: 30px 0;" +:+ dq +:+ ">
            <a href=" +:+ dq +:+ url +:+ dq +:+ " class=" +:+ dq +:+ "button" +:+ dq +:+ ">Verify Email Address</a>
          </p>
          <p>If you didn't create an account, you can safely ignore this email.</p>
          <p>This link will expire in 24 hours.</p>
        </div>
        <div class=" +:+ dq +:+ "footer" +:+ dq +:+ ">
          <p>© " +:+ Z_to_string year +:+ " UAM. All rights reserved.</p>
        </div>
      </div>
    </body>
    </html>
  ".

Definition reset_html (url : string) (year : Z) : string :=
  "
    <!DOCTYPE html>
    <html>
    <head>
      <style>
        body { font-family: 'Segoe UI', Tahoma, Geneva, Verdana, sans-serif; background: #f4f4f7; margin: 0; padding: 40px 20px; }
        .container { max-width: 560px; margin: 0 auto; background: #ffffff; border-radius: 12px; box-shadow: 0 4px 24px rgba(0,0,0,0.08); overflow: hidden; }
        .header { background: linear-gradient(135deg, #f093fb 0%, #f5576c 100%); padding: 40px 20px; text-align: center; }
        .header h1 { color: #ffffff; margin: 0; font-size: 28px; }
        .content { padding: 40px; }
        .content p { color: #51545e; font-size: 16px; line-height: 1.6; margin: 0 0 20px; }
        .button { display: inline-block; background: linear-gradient(135deg, #f093fb 0%, #f5576c 100%); color: #ffffff !important; text-decoration: none; padding: 14px 32px; border-radius: 8px; font-weight: 600; font-size: 16px; }
        .footer { padding: 20px 40px; background: #f4f4f7; text-align: center; }
        .footer p { color: #9a9ea6; font-size: 14px; margin: 0; }
      </style>
    </head>
    <body>
      <div class=" +:+ dq +:+ "container" +:+ dq +:+ ">
        <div class=" +:+ dq +:+ "header" +:+ dq +:+ ">
          <h1>Reset Your Password</h1>
        </div>
        <div class=" +:+ dq +:+ "content" +:+ dq +:+ ">
          <p>We received a request to reset your password. Click the button below to create a new password.</p>
          <p style=" +:+ dq +:+ "text-align: center; margin: 30px 0;" +:+ dq +:+ ">
            <a href=" +:+ dq +:+ url +:+ dq +:+ " class=" +:+ dq +:+ "button" +:+ dq +:+ ">Reset Password</a>
          </p>
          <p>If you didn't request a password reset, you can safely ignore this email.</p>
          <p>This link will expire in 1 hour.</p>
        </div>
        <div class=" +:+ dq +:+ "footer" +:+ dq +:+ ">
          <p>© " +:+ Z_to_string year +:+ " UAM. All rights reserved.</p>
        </div>
      </div>
    </body>
    </html>
  ".

Section MailService.
Context `{RKV : RedisKV} `{UDB : UsersDb} `{IDB : IndexDb}.
Context (config : AppConfig) (Date_getFullYear : Z → Z).

(** The shape both functions share. *)
Definition send_link (kind : EmailLink.EmailLinkKind) (path : string) (subject : string) (html : string → Z → string)
    (email token : string) : prog AppEnv App (failure + unit) :=
  let* linkCode := may_throw (link (EmailLink.createEmailLinkCode kind token None)) in
  let! h := here in
  let url := clientUrl config +:+ path +:+ "?code=" +:+ linkCode in
  sendEmail config {| mail_to := email; mail_subject := subject; mail_html := html url (Date_getFullYear h.1) |}.

Definition sendVerificationEmail (email token : string) : prog AppEnv App (failure + unit) :=
  send_link EmailLink.verify_email "/verify-email" "Verify Your Email Address" verification_html email token.

Definition sendPasswordResetEmail (email token : string) : prog AppEnv App (failure + unit) :=
  send_link EmailLink.reset_password "/reset-password" "Reset Your Password" reset_html email token.
End MailService.

(** ** Avatars *)

Section Gravatar.
Context (md5_hex : string → string).

Definition getGravatarUrl (email : string) (size : Z) : string :=
  if String.eqb email "" then ""
  else
    let normalizedEmail := toLowerCase (trim email) in
    "https://www.gravatar.com/avatar/" +:+ md5_hex normalizedEmail +:+ "?s=" +:+ Z_to_string size +:+ "&d=identicon&r=pg".

(** [getAvatarUrl(email)]; the size is 200 unless given. *)
Definition getAvatarUrl (email : string) (oauthAvatar : option string) (size : Z) : string :=
  match oauthAvatar with
  | Some a => if String.eqb a "" then getGravatarUrl email size else a
  | None => getGravatarUrl email size
  end.
End Gravatar.
