(* ===== verification/AuthController.v ===== *)
(** * The authentication controller

    Models the handlers of [uam-backend/src/controllers/auth.controller.ts]
    that are not in [SessionHandlers]: registration, login, verification of
    the address, password reset, the current user, e-mail links and the OAuth
    endpoints.  A handler is a program over the state of [Application],
    composed of the services as the source composes them; what [res] was told
    is its result.  The bodies of the requests are those the validators of the
    routes let through, so their fields are texts.  [hashPassword] is
    bcrypt with the salt it draws in the call: a function of the password here,
    and no statement relates the hashes of two calls. *)

From S2P Require Import Prelude CircuitConfig RollingWindow CircuitBreaker GuardedCalls Async RedisCache Json JsVal Columns SqlFilter SqlMeaning Password UserModel OneTimeCodes Sessions IdentityIndex Tokens SessionHandlers UsersTable Documents Application.
#[local] Open Scope string_scope.
#[local] Open Scope list_scope.
#[local] Open Scope Z_scope.
#[local] Open Scope async_scope.

Record RegisterInput := { ri_email : string; ri_password : string; ri_displayName : string }.
Record LoginInput := { li_email : string; li_password : string }.

(** [res.json(...)] with cookies that were set before *)
Definition reply (code : Z) (b : object) (ops : list CookieOp) : Response :=
  {| status := code; json_body := b; cookie_ops := ops |}.

(** [res.status(code).json({ success: false, message, ...more })] *)
Definition refuse_with (code : Z) (message : string) (more : object) : Response :=
  {| status := code; json_body := [("success", VBool false); ("message", VStr message)] ++ more; cookie_ops := [] |}.

Definition success (message : string) (more : object) : Response :=
  reply 200 ([("success", VBool true); ("message", VStr message)] ++ more) [].

(** [{ id: user._id, f: user.f, ... }] *)
Definition user_fields (u : User) (fields : list string) : val :=
  VObj (("id", user_get u "_id") :: map (λ f, (f, user_get u f)) fields).

Definition basic_fields : list string := ["email"; "displayName"; "avatar"; "bio"; "isEmailVerified"].
Definition account_fields : list string :=
  ["email"; "displayName"; "avatar"; "bio"; "isEmailVerified"; "provider"; "previousEmail"; "createdAt"].

(** [!s] for a text that may be missing *)
Definition given (s : option string) : option string :=
  match s with Some t => if String.eqb t "" then None else Some t | None => None end.

Definition DAY_MS : Z := 24 * 60 * 60 * 1000.

Definition login_spec : string :=
  "+password +refreshTokens +loginCount +lastLogin +bio +avatar +displayName +provider +providerId +previousEmail +migrationExpiry +newEmailPending +currentEmailVerified +newEmailVerified".
Definition account_spec : string :=
  "+bio +avatar +displayName +provider +providerId +previousEmail +migrationExpiry +createdAt".

(** [encodeURIComponent(s)], byte by byte *)
Definition unreserved (c : Ascii.ascii) : bool :=
  is_digit c || is_upper c || is_lower c || existsb (Ascii.eqb c) (String.list_ascii_of_string "-_.!~*'()").
Definition hex_digit (n : N) : Ascii.ascii := Ascii.ascii_of_N (if (n <? 10)%N then 48 + n else 55 + n).
Fixpoint encodeURIComponent (s : string) : string :=
  match s with
  | EmptyString => ""
  | String c s =>
      let n := Ascii.N_of_ascii c in
      if unreserved c then String c (encodeURIComponent s)
      else String "%"%char (String (hex_digit (n / 16)) (String (hex_digit (n mod 16)) (encodeURIComponent s)))
  end.

(** [createHash('sha256').update(secret)] needs a string. *)
Definition secret_text (secret : option json) : failure + string :=
  match secret with Some (JStr s) => inr s | _ => inl (Err "TypeError") end.

(** A field of stored JSON in a template literal *)
Definition json_text (v : option json) : string := match v with Some (JStr s) => s | _ => "undefined" end.

Section Handlers.
Context (sha256_hex sha256_base64url base64url_decode : string → string) (hmac_sha256_hex : string → string → string).
Context (Date_toString Date_toISOString : Z → string) (Date_getFullYear startOfDay : Z → Z).
Context (hashPassword : string → string) (verifyPassword : string → option string → VerifyResult).
Context (new_URL : string → option OAuthPkce.URL).
Context `{RKV : RedisKV} `{UDB : UsersDb} `{IDB : IndexDb} `{FK : !ForeignKey UDB IDB} `{J : Jwt}.
Context (config : AppConfig).

(** The services, with what they are configured with. *)
Definition find_account (id : val) (spec : option string) : prog AppEnv App (failure + option User) :=
  find_user Date_toString Date_toISOString id spec.
Definition find_account_if (id : option val) : prog AppEnv App (failure + option User) :=
  find_if Date_toString Date_toISOString id.
Definition save_account (u : User) : prog AppEnv App (failure + User) := save_user Date_toISOString hashPassword u.
Definition sync_account (u : User) : prog AppEnv App (failure + unit) :=
  indexed (syncIdentityIndexesFromUser hmac_sha256_hex (emailIndexSecret config) (accessSecret (cfg_jwt config))
             Date_toString u).
Definition primary_owner (email : string) : prog AppEnv App (failure + option val) :=
  indexed (findUserIdByPrimaryEmail hmac_sha256_hex (emailIndexSecret config) (accessSecret (cfg_jwt config)) email).
Definition pending_holder (email : string) : prog AppEnv App (failure + option val) :=
  indexed (findPendingMigrationHolder hmac_sha256_hex (emailIndexSecret config) (accessSecret (cfg_jwt config)) email).
Definition resolve_address (email : string) : prog AppEnv App (failure + option ResolvedEmailIdentity) :=
  indexed (resolveEmailIdentity hmac_sha256_hex (emailIndexSecret config) (accessSecret (cfg_jwt config)) email).

(** [generateTokenPair(user)], then [persistSessionTokens(user._id, ..., user.tokenVersion ?? 0)] *)
Definition open_session (user : User) : prog AppEnv App (failure + string * string) :=
  let! h := here in
  match generateTokenPair (cfg_jwt config) user (uuids (net h.2)).1 (uuids (net h.2)).2 h.1 with
  | Thrown e => Ret (inl (Err e))
  | Returned tokens =>
      let* _ := session (persistSessionTokens sha256_hex base64url_decode Date_toString Date_toISOString
                           (doc_id user) tokens.1 tokens.2 (Some (token_version user))) in
      Ret (inr tokens)
  end.

(** [issueSessionCookies(res, refreshToken)] *)
Definition set_cookies (refreshToken : string) : prog AppEnv App (list CookieOp) :=
  session (issueSessionCookies (cfg_jwt config) (cfg_cookies config) refreshToken).

Definition token_fields (tokens : string * string) : object := publicTokenFields (cfg_cookies config) tokens.1 tokens.2.

(** ** Registration *)

Definition checkEmailAvailability : Response :=
  reply 200 [("available", VBool true); ("message", VStr "Continue if this is your email address")] [].

Definition getVerificationStatus : Response := reply 200 [("success", VBool true); ("verified", VBool false)] [].

Definition postVerificationStatus (pollToken : option string) : prog AppEnv App Response :=
  match given pollToken with
  | None => Ret (refuse 400 "pollToken is required")
  | Some token =>
      catch (
        let! userId := poll (VerificationPoll.resolveVerificationPollToken token) in
        match given userId with
        | None => Ret (inr (reply 200 [("success", VBool true); ("verified", VBool false)] []))
        | Some id =>
            let* user := find_account (VStr id) (Some "isEmailVerified") in
            let verified := match user with
                            | Some u => strict_eq (user_get u "isEmailVerified") (VBool true)
                            | None => false
                            end in
            Ret (inr (reply 200 [("success", VBool true); ("verified", VBool verified)] []))
        end) (λ _, Ret (refuse 500 "Server error"))
  end.

(** From the point where the document is known; [user] is new or unverified. *)
Definition complete_registration (lowerEmail : string) (user : User) : prog AppEnv App (failure + Response) :=
  let! h := here in
  let verificationToken := fresh (net h.2) in
  let hashedToken := sha256_hex verificationToken in
  let user := user_set user "emailVerificationToken" (VStr hashedToken) in
  let user := user_set user "emailVerificationExpires" (VDate (h.1 + DAY_MS)) in
  let user := user_set user "isEmailVerified" (VBool false) in
  let user :=
    if autoVerifyEmail config then
      let user := user_set user "isEmailVerified" (VBool true) in
      let user := user_set user "emailVerificationToken" VUndef in
      user_set user "emailVerificationExpires" VUndef
    else user in
  let* user := save_account user in
  let* _ := sync_account user in
  if autoVerifyEmail config then
    let* tokens := open_session user in
    let! ops := set_cookies tokens.2 in
    Ret (inr (reply 201 ([("success", VBool true); ("message", VStr "Registration successful")] ++ token_fields tokens
                         ++ [("user", user_fields user basic_fields)]) ops))
  else
    let! _ := sendVerificationEmail config Date_getFullYear lowerEmail verificationToken in
    let* pollToken := may_throw (poll (VerificationPoll.createVerificationPollToken (doc_id user))) in
    Ret (inr (reply 201
      [("success", VBool true);
       ("message", VStr "Registration successful. Please check your email to verify your account.");
       ("verificationPollToken", VStr pollToken); ("user", user_fields user basic_fields)] [])).

Definition pending_migration_refusal : Response :=
  refuse_with 400 "This email is pending migration from another account. Please complete the migration process first."
    [("code", VStr "PENDING_MIGRATION"); ("requiresMigration", VBool true)].

Definition some_id (id : option val) : bool := match id with Some v => truthy v | None => false end.

Definition register_body (input : RegisterInput) : prog AppEnv App (failure + Response) :=
  let lowerEmail := toLowerCase (ri_email input) in
  let* pendingHolderId := pending_holder lowerEmail in
  if some_id pendingHolderId then Ret (inr pending_migration_refusal)
  else
    let* existingUserId := primary_owner lowerEmail in
    let* user := find_account_if existingUserId in
    match user with
    | Some user =>
        if truthy (user_get user "isEmailVerified") then Ret (inr (refuse 400 "Email already registered"))
        else
          let user := user_set user "password" (VStr (ri_password input)) in
          let user := user_set user "displayName" (VStr (ri_displayName input)) in
          let user := user_set user "provider" (VStr "local") in
          complete_registration lowerEmail user
    | None =>
        complete_registration lowerEmail
          (new_User [("email", VStr lowerEmail); ("password", VStr (ri_password input));
                     ("displayName", VStr (ri_displayName input)); ("provider", VStr "local")] true)
    end.

(** The [catch] of the handler: [error.code === 11000] *)
Definition registration_error (e : failure) : Response :=
  match e with
  | E11000 _ _ => refuse 400 "Email already registered"
  | _ => refuse 500 "Registration failed"
  end.

Definition register (input : RegisterInput) : prog AppEnv App Response :=
  catch (register_body input) (λ e, Ret (registration_error e)).

(** ** Login *)

Definition FIVE_DAYS_MS : Z := 5 * 24 * 60 * 60 * 1000.

(** The address is the one the account is migrating to: with both addresses
    verified the migration is completed now.  [inl] is an early answer. *)
Definition login_migration (user : User) (lowerEmail : string) : prog AppEnv App (failure + (Response + User)) :=
  if strict_eq (user_get user "newEmailPending") (VStr lowerEmail) then
    if truthy (user_get user "currentEmailVerified") && truthy (user_get user "newEmailVerified") then
      let oldEmail := user_get user "email" in
      let pendingEmail := user_get user "newEmailPending" in
      if negb (truthy pendingEmail) then Ret (inr (inl (refuse 500 "Migration state invalid")))
      else
        let! h := here in
        let user := user_set user "previousEmail" oldEmail in
        let user := user_set user "email" pendingEmail in
        let user := user_set user "migrationExpiry" (VDate (h.1 + FIVE_DAYS_MS)) in
        let user := user_set user "lastMigrationDate" (VDate h.1) in
        let user := user_set user "isEmailVerified" (VBool true) in
        let user := user_set user "newEmailPending" VUndef in
        let user := user_set user "currentEmailVerified" VUndef in
        let user := user_set user "newEmailVerified" VUndef in
        let user := user_set user "currentEmailToken" VUndef in
        let user := user_set user "newEmailToken" VUndef in
        let* user := save_account user in
        let* _ := sync_account user in
        Ret (inr (inr user))
    else Ret (inr (inl (refuse 403 "Please verify both email addresses before logging in with the new email.")))
  else Ret (inr (inr user)).

(** The address is a previous one and its time is over. *)
Definition previous_expired (user : User) (lowerEmail : string) (t : Z) : bool :=
  strict_eq (user_get user "previousEmail") (VStr lowerEmail)
  && match user_get user "migrationExpiry" with VDate x => x <? t | _ => false end.

Definition invalid_credentials : Response := refuse 401 "Invalid email or password".
Definition auth_failed : Response := refuse_with 401 "Invalid email or password" [("code", VStr "AUTH_FAILED")].

Definition count_of (v : val) : Z := match v with VNum n => n | _ => 0 end.

(** The daily limit: [None] when it is exceeded. *)
Definition count_login (user : User) (t : Z) : option User :=
  let today := startOfDay t in
  let lastLoginDate := match user_get user "lastLogin" with VDate x => startOfDay x | _ => 0 end in
  let user' :=
    if lastLoginDate =? today then
      if maxDailyLogins config <=? count_of (user_get user "loginCount") then None
      else Some (user_set user "loginCount" (VNum (count_of (user_get user "loginCount") + 1)))
    else Some (user_set user "loginCount" (VNum 1)) in
  match user' with Some u => Some (user_set u "lastLogin" (VDate t)) | None => None end.

(** Tokens and answer; the cookies are set before the account is reloaded. *)
Definition complete_login (user : User) : prog AppEnv App (failure + Response) :=
  let* tokens := open_session user in
  let! ops := set_cookies tokens.2 in
  let! freshUser := find_account (user_get user "_id") (Some account_spec) in
  match freshUser with
  | inl _ => Ret (inr {| status := 500; json_body := json_body (refuse 500 "Login failed"); cookie_ops := ops |})
  | inr None =>
      Ret (inr {| status := 500; json_body := json_body (refuse 500 "Failed to load user data"); cookie_ops := ops |})
  | inr (Some freshUser) =>
      Ret (inr (reply 200 ([("success", VBool true); ("message", VStr "Login successful");
                            ("user", user_fields freshUser account_fields)] ++ token_fields tokens) ops))
  end.

(** From the point where the account is known. *)
Definition check_login (user : User) (password : string) : prog AppEnv App (failure + Response) :=
  if negb (strict_eq (user_get user "provider") (VStr "local")) then Ret (inr auth_failed)
  else
    let! r := on_users (λ _ d, let '(b, u, d) := comparePassword Date_toISOString hashPassword verifyPassword password user d in
                               ((b, u), d)) in
    let '(isMatch, user) := r in
    if negb isMatch then Ret (inr invalid_credentials)
    else if negb (truthy (user_get user "isEmailVerified")) then Ret (inr auth_failed)
    else
      let! h := here in
      match count_login user h.1 with
      | None => Ret (inr (refuse 429 "Daily login limit exceeded. Please try again tomorrow."))
      | Some user => complete_login user
      end.

Definition login_body (input : LoginInput) : prog AppEnv App (failure + Response) :=
  let lowerEmail := toLowerCase (li_email input) in
  let* resolved := resolve_address lowerEmail in
  let* user := match resolved with
               | Some r => find_account (rs_userId r) (Some login_spec)
               | None => Ret (inr None)
               end in
  match user with
  | None => Ret (inr invalid_credentials)
  | Some user =>
      let* migrated := login_migration user lowerEmail in
      match migrated with
      | inl response => Ret (inr response)
      | inr user =>
          let! h := here in
          if previous_expired user lowerEmail h.1 then
            Ret (inr (refuse 403 "This email is no longer valid for this account. Please use your new email address."))
          else check_login user (li_password input)
      end
  end.

Definition login (input : LoginInput) : prog AppEnv App Response :=
  catch (login_body input) (λ _, Ret (refuse 500 "Login failed")).

(** ** Verification of the address *)

Definition generic_resend : Response :=
  success "If the account exists and is unverified, a verification email has been sent" [].

Definition resendVerification (email : string) : prog AppEnv App Response :=
  catch (
    let lowerEmail := toLowerCase email in
    let* userId := primary_owner lowerEmail in
    let* user := find_account_if userId in
    match user with
    | None => Ret (inr generic_resend)
    | Some user =>
        if truthy (user_get user "isEmailVerified") || negb (strict_eq (user_get user "provider") (VStr "local")) then
          Ret (inr generic_resend)
        else
          let! h := here in
          let verificationToken := fresh (net h.2) in
          let hashedToken := sha256_hex verificationToken in
          let user := user_set user "emailVerificationToken" (VStr hashedToken) in
          let user := user_set user "emailVerificationExpires" (VDate (h.1 + DAY_MS)) in
          let* _ := save_account user in
          let! _ := sendVerificationEmail config Date_getFullYear lowerEmail verificationToken in
          Ret (inr generic_resend)
    end) (λ _, Ret (refuse 500 "Server error")).

(** The account a verification token belongs to *)
Definition find_by_verification (hashedToken : string) : prog AppEnv App (failure + option User) :=
  stretch (λ e s,
    let '(r, d) := UserModel.findOne Date_toString Date_toISOString
      (VObj [("emailVerificationToken", VStr hashedToken);
             ("emailVerificationExpires", VObj [("$gt", VDate (RedisCache.clock (app_cache s)))]);
             ("provider", VStr "local")]) (Some "+refreshTokens +password") (app_users s) in
    (r, s <| app_users := d |>)).

Definition verifyEmail (formToken password : string) : prog AppEnv App Response :=
  catch (
    let! redeemed := link (EmailLink.consumeFormToken formToken EmailLink.verify_email) in
    match redeemed with
    | None => Ret (inr (refuse 400 "Invalid or expired verification session"))
    | Some (secret, _) =>
        let* secret := Ret (secret_text secret) in
        let* user := find_by_verification (sha256_hex secret) in
        match user with
        | None => Ret (inr (refuse 400 "Invalid or expired verification token"))
        | Some user =>
            let user := user_set user "password" (VStr password) in
            let user := user_set user "isEmailVerified" (VBool true) in
            let user := user_set user "emailVerificationToken" VUndef in
            let user := user_set user "emailVerificationExpires" VUndef in
            let* user := save_account user in
            let* _ := sync_account user in
            let* tokens := open_session user in
            let! ops := set_cookies tokens.2 in
            Ret (inr (reply 200 ([("success", VBool true); ("message", VStr "Email verified successfully");
                                  ("user", user_fields user basic_fields)] ++ token_fields tokens) ops))
        end
    end) (λ _, Ret (refuse 500 "Email verification failed")).

(** ** Password reset *)

Definition generic_reset : Response := success "If the email exists, a reset link has been sent" [].

Definition requestPasswordReset (email : string) : prog AppEnv App Response :=
  catch (
    let lowerEmail := toLowerCase email in
    let* userId := primary_owner lowerEmail in
    let* user := find_account_if userId in
    match user with
    | None => Ret (inr generic_reset)
    | Some user =>
        if negb (strict_eq (user_get user "provider") (VStr "local")) then Ret (inr generic_reset)
        else
          let! h := here in
          let resetToken := fresh (net h.2) in
          let hashedToken := sha256_hex resetToken in
          let user := user_set user "passwordResetToken" (VStr hashedToken) in
          let user := user_set user "passwordResetExpires" (VDate (h.1 + 60 * 60 * 1000)) in
          let* _ := save_account user in
          let! _ := sendPasswordResetEmail config Date_getFullYear lowerEmail resetToken in
          Ret (inr generic_reset)
    end) (λ _, Ret (refuse 500 "Password reset request failed")).

(** The account a reset token belongs to *)
Definition find_by_reset (hashedToken : string) : prog AppEnv App (failure + option User) :=
  stretch (λ e s,
    let '(r, d) := UserModel.findOne Date_toString Date_toISOString
      (VObj [("passwordResetToken", VStr hashedToken);
             ("passwordResetExpires", VObj [("$gt", VDate (RedisCache.clock (app_cache s)))])])
      (Some "+refreshTokens +activeAccessJtis") (app_users s) in
    (r, s <| app_users := d |>)).

Definition reset_not_published : Response :=
  refuse 503 "Password reset could not invalidate active sessions. Please try again.".

Definition resetPassword (formToken password : string) : prog AppEnv App Response :=
  catch (
    let! redeemed := link (EmailLink.consumeFormToken formToken EmailLink.reset_password) in
    match redeemed with
    | None => Ret (inr (refuse 400 "Invalid or expired reset session"))
    | Some (secret, _) =>
        let* secret := Ret (secret_text secret) in
        let* user := find_by_reset (sha256_hex secret) in
        match user with
        | None => Ret (inr (refuse 400 "Invalid or expired reset token"))
        | Some user =>
            let newVersion := token_version user + 1 in
            let! published := session (publishTokenVersion (doc_id user) newVersion) in
            if negb published then Ret (inr reset_not_published)
            else
              let! _ := session (revokeAllTrackedAccessJtis (user_get user "activeAccessJtis")) in
              let user := user_set user "password" (VStr password) in
              let user := user_set user "passwordResetToken" VUndef in
              let user := user_set user "passwordResetExpires" VUndef in
              let user := user_set user "refreshTokens" (VArr []) in
              let user := user_set user "activeAccessJtis" (VArr []) in
              let user := user_set user "tokenVersion" (VNum newVersion) in
              let* _ := save_account user in
              Ret (inr (success "Password reset successfully" []))
        end
    end) (λ _, Ret (refuse 500 "Password reset failed")).

(** ** The current user and e-mail links *)

(** [user] is what the middleware attached to the request. *)
Definition getCurrentUser (user : option User) : prog AppEnv App Response :=
  match user with
  | None => Ret (refuse 401 "Not authenticated")
  | Some user =>
      catch (
        let* freshUser := find_account (user_get user "_id") (Some account_spec) in
        match freshUser with
        | None => Ret (inr (refuse 404 "User not found"))
        | Some freshUser =>
            Ret (inr (reply 200 [("success", VBool true); ("user", user_fields freshUser account_fields)] []))
        end) (λ _, Ret (refuse 500 "Failed to get user"))
  end.

(** [undefined] for a missing member *)
Definition member_val (v : option json) : val := match v with Some j => of_json j | None => VUndef end.

Definition redeemEmailLink (code : option string) : prog AppEnv App Response :=
  match given code with
  | None => Ret (refuse 400 "Link code is required")
  | Some code =>
      let! redeemed := link (EmailLink.redeemEmailLinkCode code) in
      match redeemed with
      | None => Ret (refuse 400 "Invalid or expired link")
      | Some r =>
          Ret (reply 200 [("success", VBool true); ("kind", member_val (EmailLink.r_kind r));
                          ("formToken", VStr (EmailLink.r_formToken r)); ("meta", member_val (EmailLink.r_meta r))] [])
      end
  end.

(** ** OAuth *)

Definition getOAuthProviders : Response :=
  reply 200 [("success", VBool true); ("google", VBool (googleEnabled config)); ("github", VBool (githubEnabled config))] [].

Definition prepareOAuth (codeChallenge : option string) (redirectUri : option string) : prog AppEnv App Response :=
  match given codeChallenge with
  | None => Ret (refuse 400 "codeChallenge is required")
  | Some codeChallenge =>
      let prepare redirect :=
        let! state := pkce (OAuthPkce.createOAuthState codeChallenge redirect) in
        match state with
        | Thrown _ => Ret (refuse 500 "Failed to prepare OAuth")
        | Returned state => Ret (reply 200 [("success", VBool true); ("state", VStr state)] [])
        end in
      match redirectUri with
      | None => prepare None
      | Some uri =>
          match given (OAuthPkce.resolveClientRedirectUri new_URL (clientUrls config) (Some uri)) with
          | None => Ret (refuse 400 "redirectUri is not allowed")
          | Some resolved => prepare (Some resolved)
          end
      end
  end.

(** The answer is a redirect: its target. *)
Definition handleOAuthSuccess (user : option User) (state : option string) : prog AppEnv App string :=
  let defaultBase := clientUrl config in
  let failed := defaultBase +:+ "/login?error=oauth_failed" in
  match user, given state with
  | Some user, Some state =>
      catch (
        let* tokens := open_session user in
        let* code := may_throw (exchange (OAuthExchange.createOAuthExchangeCode tokens.1 tokens.2 state)) in
        let! callback := pkce (OAuthPkce.peekOAuthStateRedirectUri state) in
        let clientCallback :=
          match callback with
          | Some v => if json_truthy v then to_string Date_toString (of_json v) else defaultBase +:+ "/oauth-callback"
          | None => defaultBase +:+ "/oauth-callback"
          end in
        Ret (inr (clientCallback +:+ "?code=" +:+ code +:+ "&state=" +:+ encodeURIComponent state))) (λ _, Ret failed)
  | _, _ => Ret failed
  end.

Definition exchangeOAuthCode (code state codeVerifier : option string) : prog AppEnv App Response :=
  match given code, given state, given codeVerifier with
  | Some code, Some state, Some codeVerifier =>
      let! pkceValid := pkce (OAuthPkce.consumeOAuthState sha256_base64url state codeVerifier) in
      if negb pkceValid then Ret (refuse 400 "Invalid OAuth state or PKCE verifier")
      else
        let! tokens := exchange (OAuthExchange.consumeOAuthExchangeCode code state) in
        match tokens with
        | Some (Some issued) =>
            if negb (json_truthy issued) then Ret (refuse 400 "Invalid or expired OAuth code")
            else
              let access := json_text (get_member "accessToken" issued) in
              let refresh := json_text (get_member "refreshToken" issued) in
              let! ops := set_cookies refresh in
              Ret (reply 200 (("success", VBool true) :: token_fields (access, refresh)) ops)
        | _ => Ret (refuse 400 "Invalid or expired OAuth code")
        end
  | _, _, _ => Ret (refuse 400 "OAuth code, state, and codeVerifier are required")
  end.
End Handlers.
