(* ===== verification/MigrationController.v ===== *)
(** * E-mail migration

    Models [uam-backend/src/controllers/migration.controller.ts] and
    [utils/migration-data-preserver.ts]: moving an account to another address.
    A migration is started ([initiateMigration]), both addresses are verified
    by mail ([verifyCurrentEmail], [verifyNewEmail]), and then it is finalised
    ([finalizeMigrationInternal]): an account that already has the new address
    is deleted, the address is replaced and the old one stays valid for five
    days.

    The handlers are programs over the state of [Application].  The history of
    a document is an array of objects that the code changes in place:
    [with_history] writes it without marking the field as modified (JSON
    fields are written back by every save). *)

From S2P Require Import Prelude CircuitConfig RollingWindow CircuitBreaker GuardedCalls Async RedisCache Json JsVal Columns SqlFilter SqlMeaning Password UserModel OneTimeCodes Sessions IdentityIndex OAuthLogin Tokens SessionHandlers UsersTable Documents Application AuthController.
#[local] Open Scope string_scope.
#[local] Open Scope list_scope.
#[local] Open Scope Z_scope.
#[local] Open Scope async_scope.

(** [a || b] *)
Definition or_val (a b : val) : val := if truthy a then a else b.

(** ** Preserved data *)

Record PreservedUserData := {
  pd_bio : val;
  pd_displayName : val;
  pd_avatar : val;
  pd_loginCount : val;
  pd_lastLogin : val;
  pd_provider : val;
  pd_providerId : val;
  pd_createdAt : val;
}.

Definition extractUserData (user : User) : PreservedUserData :=
  {| pd_bio := or_val (user_get user "bio") (VStr ""); pd_displayName := user_get user "displayName";
     pd_avatar := user_get user "avatar"; pd_loginCount := or_val (user_get user "loginCount") (VNum 0);
     pd_lastLogin := user_get user "lastLogin"; pd_provider := user_get user "provider";
     pd_providerId := user_get user "providerId"; pd_createdAt := user_get user "createdAt" |}.

Section Preserver.
Context (md5_hex : string → string).

(** [newEmail] is always given by the callers. *)
Definition applyUserData (user : User) (data : PreservedUserData) (newEmail : string) : User :=
  let user := user_set user "bio" (or_val (pd_bio data) (VStr "")) in
  let user := user_set user "displayName" (pd_displayName data) in
  let user := user_set user "avatar"
    (or_val (pd_avatar data) (if String.eqb newEmail "" then VUndef else VStr (getAvatarUrl md5_hex newEmail None 200))) in
  let user := user_set user "loginCount" (pd_loginCount data) in
  let user := user_set user "lastLogin" (pd_lastLogin data) in
  let user := user_set user "provider" (pd_provider data) in
  let user := user_set user "providerId" (pd_providerId data) in
  markModified user "bio".
End Preserver.

Definition verifyPreservedData (user : User) (original : PreservedUserData) : bool :=
  (negb (truthy (pd_bio original)) || strict_eq (user_get user "bio") (pd_bio original))
  && strict_eq (user_get user "displayName") (pd_displayName original)
  && strict_eq (user_get user "provider") (pd_provider original).

(** ** The history *)

(** [o[k] = v] on a value that is an object *)
Definition set_prop (v : val) (k : string) (w : val) : val :=
  match v with VObj o => VObj (obj_set o k w) | _ => v end.

(** The array changed in place *)
Definition with_history (u : User) (g : list val → list val) : User :=
  {| _values := obj_set (_values u) "migrationHistory" (VArr (g (array_of (user_get u "migrationHistory"))));
     _modified := _modified u; _isNew := _isNew u |}.

(** [if (!u.migrationHistory) u.migrationHistory = []] *)
Definition ensure_history (u : User) : User :=
  if truthy (user_get u "migrationHistory") then u else user_set u "migrationHistory" (VArr []).

Definition is_pending_to (email : string) (m : val) : bool :=
  strict_eq (opt_prop m "status") (VStr "pending") && strict_eq (opt_prop m "toEmail") (VStr email).

(** The entry becomes a success. *)
Definition completed (m : val) (t : Z) : val :=
  let m := set_prop m "status" (VStr "success") in
  let m := set_prop m "completedAt" (VDate t) in
  let m := set_prop m "currentEmailVerified" (VBool true) in
  let m := set_prop m "newEmailVerified" (VBool true) in
  set_prop m "pendingFrom" VUndef.

Definition history_entry (fromEmail toEmail : val) (status : string) (initiatedAt completedAt : val)
    (verified : bool) (pendingFrom : val) : val :=
  VObj [("fromEmail", fromEmail); ("toEmail", toEmail); ("status", VStr status); ("initiatedAt", initiatedAt);
        ("completedAt", completedAt); ("revertedAt", VUndef); ("currentEmailVerified", VBool verified);
        ("newEmailVerified", VBool verified); ("pendingFrom", pendingFrom)].

(** The first pending entry for the address is completed; without one an entry
    is added. *)
Fixpoint complete_first (email : string) (t : Z) (l : list val) : option (list val) :=
  match l with
  | [] => None
  | m :: l =>
      if is_pending_to email m then Some (completed m t :: l)
      else match complete_first email t l with Some l => Some (m :: l) | None => None end
  end.

Definition complete_history (u : User) (fromEmail : val) (newEmail : string) (t : Z) : User :=
  with_history (ensure_history u) (λ l,
    match complete_first newEmail t l with
    | Some l => l
    | None => l ++ [history_entry fromEmail (VStr newEmail) "success" (VDate t) (VDate t) true VUndef]
    end).

(** [v?.toLowerCase()] of a text field *)
Definition lower_val (v : val) : val := match v with VStr s => VStr (toLowerCase s) | _ => VUndef end.

(** ** Finalising *)

Definition current_spec : string :=
  "+bio +avatar +displayName +loginCount +lastLogin +provider +providerId +createdAt +tokenVersion".
Definition reload_spec : string :=
  "+bio +avatar +displayName +loginCount +lastLogin +provider +providerId +createdAt".
Definition bio_spec : string := "+bio".
Definition profile_spec : string := "+bio +avatar +displayName".

(** The [$set] of both version-checked updates *)
Definition migration_set (email : val) (newEmail : string) (t : Z) : object :=
  [("previousEmail", email); ("email", VStr newEmail); ("migrationExpiry", VDate (t + FIVE_DAYS_MS));
   ("lastMigrationDate", VDate t); ("isEmailVerified", VBool true); ("newEmailPending", VUndef);
   ("migrationToken", VUndef); ("migrationTokenExpires", VUndef); ("currentEmailVerified", VUndef);
   ("newEmailVerified", VUndef); ("currentEmailToken", VUndef); ("newEmailToken", VUndef)].

(** ** The mails *)

Definition current_html (newEmail url : string) : string :=
  "
            <h3>Verify Your Current Email for Account Migration</h3>
            <p>You requested to migrate your account to a new email address: <strong>" +:+ newEmail +:+ "</strong></p>
            <p>To proceed, please verify your current email address by clicking the link below:</p>
            <a href=" +:+ dq +:+ url +:+ dq +:+ " style=" +:+ dq +:+ "display: inline-block; padding: 12px 24px; background: #7c3aed; color: white; text-decoration: none; border-radius: 8px; margin: 16px 0;" +:+ dq +:+ ">Verify Current Email</a>
            <p>If you did not request this migration, please ignore this email or contact support immediately.</p>
        ".

Definition new_html (newEmail url : string) (accountExists : bool) : string :=
  "
            <h3>Verify Your New Email for Account Migration</h3>
            <p>You are migrating your account to this email address: <strong>" +:+ newEmail +:+ "</strong></p>
            " +:+ (if accountExists then "<p><strong>⚠️ Warning:</strong> An account with this email already exists. After verification, the existing account will be merged with your current account.</p>" else "<p><strong>ℹ️ Note:</strong> No account exists with this email. A placeholder account will be created during verification, and your current account data will be migrated to this email.</p>") +:+ "
            <p>To complete the migration, please verify this email address by clicking the link below:</p>
            <a href=" +:+ dq +:+ url +:+ dq +:+ " style=" +:+ dq +:+ "display: inline-block; padding: 12px 24px; background: #7c3aed; color: white; text-decoration: none; border-radius: 8px; margin: 16px 0;" +:+ dq +:+ ">Verify New Email</a>
            <p>If you did not request this migration, please ignore this email.</p>
        ".

Definition current_resent_html (newEmail url : string) : string :=
  "
            <h3>Verify Your Current Email for Account Migration</h3>
            <p>You requested to migrate your account to a new email address: <strong>" +:+ newEmail +:+ "</strong></p>
            <p>To proceed, please verify your current email address by clicking the link below:</p>
            <a href=" +:+ dq +:+ url +:+ dq +:+ " style=" +:+ dq +:+ "display: inline-block; padding: 12px 24px; background: #7c3aed; color: white; text-decoration: none; border-radius: 8px; margin: 16px 0;" +:+ dq +:+ ">Verify Current Email</a>
            <p><strong>Note:</strong> This is a new verification link. Previous links are no longer valid.</p>
            <p>If you did not request this migration, please ignore this email or contact support immediately.</p>
        ".

Definition new_resent_html (newEmail url : string) (accountExists : bool) : string :=
  "
            <h3>Verify Your New Email for Account Migration</h3>
            <p>You are migrating your account to this email address: <strong>" +:+ newEmail +:+ "</strong></p>
            " +:+ (if accountExists then "<p><strong>⚠️ Warning:</strong> An account with this email already exists. After verification, you will be redirected to the login page.</p>" else "<p>To complete the migration, please verify this email address by clicking the link below. After verification, you will be redirected to the signup page.</p>") +:+ "
            <a href=" +:+ dq +:+ url +:+ dq +:+ " style=" +:+ dq +:+ "display: inline-block; padding: 12px 24px; background: #7c3aed; color: white; text-decoration: none; border-radius: 8px; margin: 16px 0;" +:+ dq +:+ ">Verify New Email</a>
            <p><strong>Note:</strong> This is a new verification link. Previous links are no longer valid.</p>
            <p>If you did not request this migration, please ignore this email.</p>
        ".

Definition override_warning (newEmail : string) : string :=
  "⚠️ WARNING: An account with email " +:+ dq +:+ newEmail +:+ dq +:+ " already exists.

" +:+ "If you proceed:
" +:+ "• The existing account will be PERMANENTLY DELETED
" +:+ "• All data from the existing account will be LOST
" +:+ "• Your current account data will be migrated to this email

" +:+ "This action cannot be undone. Please confirm to proceed.".

Definition concurrent_modification : Response := refuse 409 "Concurrent modification detected — please retry".

Section Handlers.
Context (sha256_hex base64url_decode md5_hex : string → string) (hmac_sha256_hex : string → string → string).
Context (Date_toString Date_toISOString : Z → string) (Date_getFullYear : Z → Z).
Context (hashPassword : string → string) (verifyPassword : string → option string → VerifyResult).
Context `{RKV : RedisKV} `{UDB : UsersDb} `{IDB : IndexDb} `{FK : !ForeignKey UDB IDB} `{J : Jwt}.
Context (config : AppConfig).
Local Abbreviation find_account := (find_account Date_toString Date_toISOString).
Local Abbreviation find_account_if := (find_account_if Date_toString Date_toISOString).
Local Abbreviation save_account := (save_account Date_toISOString hashPassword).
Local Abbreviation sync_account := (sync_account hmac_sha256_hex Date_toString config).
Local Abbreviation primary_owner := (primary_owner hmac_sha256_hex config).
Local Abbreviation open_session := (open_session sha256_hex base64url_decode Date_toString Date_toISOString config).
Local Abbreviation set_cookies := (set_cookies config).
Local Abbreviation token_fields := (token_fields config).

Definition release_account (id : string) : prog AppEnv App (failure + unit) := indexed (releaseUserIdentityIndexes id).
Definition delete_account (id : string) : prog AppEnv App (failure + option User) := on_rows (λ _, findByIdAndDelete id).

(** [await User.findOneAndUpdate({ _id, tokenVersion }, { $set, $inc: { tokenVersion: 1 } })] *)
Definition move_account (currentUser : User) (newEmail : string) : prog AppEnv App (failure + option User) :=
  stretch (λ _ s,
    let t := RedisCache.clock (app_cache s) in
    let '(r, d) := findOneAndUpdate Date_toString Date_toISOString
      (VObj [("_id", user_get currentUser "_id"); ("tokenVersion", user_get currentUser "tokenVersion")])
      (set_update (migration_set (user_get currentUser "email") newEmail t)) (app_users s) in
    (r, s <| app_users := d |>)).

(** The bio is read back and written again if it differs. *)
Definition check_bio (id : val) (preserved : PreservedUserData) : prog AppEnv App (failure + unit) :=
  let* verifyBio := find_account id (Some bio_spec) in
  match verifyBio with
  | Some u =>
      if strict_eq (user_get u "bio") (pd_bio preserved) then Ret (inr tt)
      else
        let u := markModified (user_set u "bio" (or_val (pd_bio preserved) (VStr ""))) "bio" in
        let* _ := save_account u in Ret (inr tt)
  | None => Ret (inr tt)
  end.

Definition mark_profile (u : User) : User := markModified (markModified (markModified u "bio") "displayName") "avatar".

(** Tokens for the migrated account, and the answer of both update branches *)
Definition migrated_reply (user : User) : prog AppEnv App (failure + Response) :=
  let* tokens := open_session user in
  let! ops := set_cookies tokens.2 in
  Ret (inr (reply 200 ([("success", VBool true); ("message", VStr "Migration completed successfully");
                        ("user", user_fields user basic_fields)] ++ token_fields tokens) ops)).

(** Another account has the new address: it is deleted first. *)
Definition merge_accounts (currentUser existing : User) (newEmail : string) : prog AppEnv App (failure + Response) :=
  let preserved := extractUserData currentUser in
  let* _ := release_account (doc_id existing) in
  let* _ := delete_account (doc_id existing) in
  let* updateResult := move_account currentUser newEmail in
  match updateResult with
  | None => Ret (inr concurrent_modification)
  | Some user =>
      let! h := here in
      let user := mark_profile (applyUserData md5_hex user preserved newEmail) in
      let user := complete_history user (or_val (user_get user "previousEmail") (user_get user "email")) newEmail h.1 in
      let* user := save_account user in
      let* _ := sync_account user in
      let* _ := check_bio (user_get user "_id") preserved in
      migrated_reply user
  end.

(** The account has the address already. *)
Definition same_account (currentUser : User) (newEmail : string) : prog AppEnv App (failure + Response) :=
  let* updateResult := move_account currentUser newEmail in
  match updateResult with
  | None => Ret (inr concurrent_modification)
  | Some user =>
      let! h := here in
      let user := complete_history user (user_get user "email") newEmail h.1 in
      let* user := save_account user in
      let* _ := sync_account user in
      migrated_reply user
  end.

(** The last answer; the cookies are set before the account is reloaded. *)
Definition final_reply (user : User) : prog AppEnv App (failure + Response) :=
  let* tokens := open_session user in
  let! ops := set_cookies tokens.2 in
  let! finalUser := find_account (user_get user "_id") (Some account_spec) in
  match finalUser with
  | inl _ => Ret (inr (reply 500 (json_body (refuse 500 "Migration failed")) ops))
  | inr None => Ret (inr (reply 500 (json_body (refuse 500 "Failed to retrieve migrated user data")) ops))
  | inr (Some u) =>
      Ret (inr (reply 200
        ([("success", VBool true);
          ("message", VStr "Account migrated successfully! You can login with both emails for 5 days.");
          ("user", VObj [("id", user_get u "_id"); ("email", user_get u "email"); ("displayName", user_get u "displayName");
                         ("avatar", or_val (user_get u "avatar")
                                      (VStr (getAvatarUrl md5_hex (text_of (user_get u "email")) None 200)));
                         ("bio", or_val (user_get u "bio") (VStr "")); ("isEmailVerified", user_get u "isEmailVerified");
                         ("previousEmail", user_get u "previousEmail"); ("provider", user_get u "provider")])]
         ++ token_fields tokens) ops))
  end.

(** No account has the new address. *)
Definition move_alone (user : User) (newEmail : string) : prog AppEnv App (failure + Response) :=
  let* userDoc := find_account (user_get user "_id") (Some reload_spec) in
  match userDoc with
  | None => Ret (inr (refuse 404 "User not found"))
  | Some u =>
      let preserved := extractUserData u in
      let! h := here in
      let oldEmail := user_get u "email" in
      let u := user_set u "previousEmail" oldEmail in
      let u := user_set u "email" (VStr newEmail) in
      let u := user_set u "migrationExpiry" (VDate (h.1 + FIVE_DAYS_MS)) in
      let u := user_set u "lastMigrationDate" (VDate h.1) in
      let u := user_set u "isEmailVerified" (VBool true) in
      let u := mark_profile (applyUserData md5_hex u preserved newEmail) in
      let u := complete_history u oldEmail newEmail h.1 in
      let u := user_set u "migrationToken" VUndef in
      let u := user_set u "migrationTokenExpires" VUndef in
      let u := user_set u "newEmailPending" VUndef in
      let u := user_set u "currentEmailVerified" VUndef in
      let u := user_set u "newEmailVerified" VUndef in
      let u := user_set u "currentEmailToken" VUndef in
      let u := user_set u "newEmailToken" VUndef in
      let* u := save_account u in
      let* _ := sync_account u in
      let* _ := check_bio (user_get u "_id") preserved in
      let* _ := find_account (user_get u "_id") (Some profile_spec) in
      final_reply u
  end.

Definition finalize_body (user : User) : prog AppEnv App (failure + Response) :=
  if negb (truthy (user_get user "newEmailPending")) then Ret (inr (refuse 400 "No pending migration"))
  else
    let* currentUser := find_account (user_get user "_id") (Some current_spec) in
    match currentUser with
    | None => Ret (inr (refuse 404 "User not found"))
    | Some currentUser =>
        if negb (strict_eq (user_get currentUser "tokenVersion") (user_get user "tokenVersion")) then
          Ret (inr concurrent_modification)
        else
          match lower_val (user_get currentUser "newEmailPending") with
          | VStr newEmail =>
              if String.eqb newEmail "" then Ret (inr (refuse 400 "No pending migration"))
              else
                let* existingUserId := primary_owner newEmail in
                let* existing := find_account_if existingUserId in
                match existing with
                | Some existing =>
                    if negb (String.eqb (doc_id existing) (doc_id currentUser)) then
                      merge_accounts currentUser existing newEmail
                    else same_account currentUser newEmail
                | None => move_alone user newEmail
                end
          | _ => Ret (inr (refuse 400 "No pending migration"))
          end
    end.

(** Another account took the address meanwhile: it is deleted, errors ignored. *)
Definition recover_duplicate (user : User) (email : option string) : prog AppEnv App unit :=
  match given email with
  | None => Ret tt
  | Some email =>
      let! r :=
        let* duplicateUserId := primary_owner email in
        let* duplicate := find_account_if duplicateUserId in
        match duplicate with
        | Some d =>
            if negb (String.eqb (doc_id d) (doc_id user)) then
              let* _ := release_account (doc_id d) in
              let* _ := delete_account (doc_id d) in Ret (inr tt)
            else Ret (inr tt)
        | None => Ret (inr tt)
        end in
      Ret tt
  end.

Definition duplicate_email_error : Response :=
  refuse_with 500 "Migration failed due to duplicate email. Please try again or contact support."
    [("code", VStr "DUPLICATE_EMAIL_ERROR"); ("retryable", VBool true)].

Definition finalizeMigrationInternal (user : User) : prog AppEnv App Response :=
  catch (finalize_body user) (λ e,
    match e with
    | E11000 field value =>
        if String.eqb field "email" then recover_duplicate user value ;; Ret duplicate_email_error
        else Ret (refuse 500 "Migration failed")
    | _ => Ret (refuse 500 "Migration failed")
    end).

(** ** Starting a migration *)

Definition buildMigrationVerifyUrl (kind : EmailLink.EmailLinkKind) (secretToken : string) (meta : option json)
    : prog AppEnv App (failure + string) :=
  let* code := may_throw (link (EmailLink.createEmailLinkCode kind secretToken meta)) in
  Ret (inr (clientUrl config +:+ "/migrate/verify?code=" +:+ code)).

(** [Promise.allSettled] of the two sends.  They run side by side; only the
    order of the mails in the outbox depends on how. *)
Definition send_both (m1 m2 : Mail) : prog AppEnv App (bool * bool) :=
  let! r1 := sendEmail config m1 in
  let! r2 := sendEmail config m2 in
  Ret (match r1 with inr _ => true | inl _ => false end, match r2 with inr _ => true | inl _ => false end).

Definition redirect_meta (accountExists : bool) : json :=
  JObj [("redirect", JStr (if accountExists then "login" else "signup"))].

Definition MIGRATION_COOLDOWN_MS : Z := 10 * 24 * 60 * 60 * 1000.

(** [Math.ceil(a / b)] *)
Definition ceil_div (a b : Z) : Z := - (- a / b).

(** The guards on the document of the request; [None]: go on. *)
Definition migration_guard (user : User) (t : Z) : option Response :=
  if truthy (user_get user "newEmailPending") then
    Some (refuse_with 400 "You already have a pending migration. Please complete or cancel it first."
            [("code", VStr "PENDING_MIGRATION_EXISTS")])
  else if pending (user_get user "previousEmail") (user_get user "migrationExpiry") t then
    Some (refuse_with 400 "You are currently in a migration grace period. Please wait until the grace period ends before migrating again."
            [("code", VStr "MIGRATION_IN_PROGRESS"); ("previousEmail", user_get user "previousEmail");
             ("migrationExpiry", user_get user "migrationExpiry")])
  else
    match user_get user "lastMigrationDate" with
    | VDate x =>
        let elapsed := t - x in
        if elapsed <? MIGRATION_COOLDOWN_MS then
          Some (refuse_with 429 ("Migration cooldown active. Try again in "
                                 +:+ Z_to_string (ceil_div (MIGRATION_COOLDOWN_MS - elapsed) DAY_MS) +:+ " day(s).")
                  [("code", VStr "MIGRATION_COOLDOWN")])
        else None
    | _ => None
    end.

(** Password check of a local account; [None]: go on. *)
Definition confirm_password (user : User) (password : option string) : prog AppEnv App (failure + option Response) :=
  if strict_eq (user_get user "provider") (VStr "local") then
    match given password with
    | None => Ret (inr (Some (refuse 400 "Password is required")))
    | Some password =>
        let* withPassword := find_account (user_get user "_id") (Some "+password") in
        match withPassword with
        | None => Ret (inr (Some (refuse 401 "Invalid password")))
        | Some u =>
            let! ok := on_users (λ _ d, let '(b, _, d) := comparePassword Date_toISOString hashPassword verifyPassword password u d in
                                        (b, d)) in
            Ret (inr (if ok then None else Some (refuse 401 "Invalid password")))
        end
    end
  else Ret (inr None).

(** The document of a started migration; tokens and time are those of this stretch. *)
Definition start_migration (u : User) (newEmail : string) (h : Z * AppEnv) : User :=
  let t := h.1 in
  let u := user_set u "newEmailPending" (VStr (toLowerCase newEmail)) in
  let u := user_set u "currentEmailToken" (VStr (sha256_hex (randoms h.2).1)) in
  let u := user_set u "newEmailToken" (VStr (sha256_hex (randoms h.2).2)) in
  let u := user_set u "currentEmailVerified" (VBool false) in
  let u := user_set u "newEmailVerified" (VBool false) in
  let u := user_set u "migrationTokenExpires" (VDate (t + DAY_MS)) in
  let u := user_set u "lastMigrationEmailSent" (VDate t) in
  with_history (ensure_history u) (λ l, l ++ [history_entry (user_get u "email") (VStr (toLowerCase newEmail)) "pending"
                                                (VDate t) VUndef false (VStr "both")]).

(** The two links and mails of a started migration *)
Definition mail_migration (currentEmail newEmail : string) (tokens : string * string) (accountExists : bool)
    : prog AppEnv App (failure + bool * bool) :=
  let* currentVerifyUrl := buildMigrationVerifyUrl EmailLink.migrate_current tokens.1 None in
  let* newVerifyUrl := buildMigrationVerifyUrl EmailLink.migrate_new tokens.2 (Some (redirect_meta accountExists)) in
  let! sent := send_both
    {| mail_to := currentEmail; mail_subject := "Verify Current Email - Account Migration";
       mail_html := current_html newEmail currentVerifyUrl |}
    {| mail_to := toLowerCase newEmail; mail_subject := "Verify New Email - Account Migration";
       mail_html := new_html newEmail newVerifyUrl accountExists |} in
  Ret (inr sent).

Definition start_and_mail (user : User) (newEmail : string) (accountExists : bool) : prog AppEnv App (failure + Response) :=
  let! h := here in
  let* userDoc := find_account (user_get user "_id") None in
  match userDoc with
  | None => Ret (inr (refuse 404 "User not found"))
  | Some u =>
      let! h' := here in
      let u := start_migration u newEmail (h'.1, h.2) in
      let* u := save_account u in
      let* _ := sync_account u in
      let* sent := mail_migration (text_of (user_get u "email")) newEmail (randoms h.2) accountExists in
      if negb (sent.1 || sent.2) then
        Ret (inr (refuse 500 "Failed to send verification emails. Please check your email configuration and try again later."))
      else
        Ret (inr (success "Verification links sent to both email addresses"
                    [("currentEmail", user_get u "email"); ("newEmail", VStr (toLowerCase newEmail))]))
  end.

(** Another account has the address: the caller must confirm. *)
Definition existing_guard (user : User) (existing : option User) (newEmail : string) (confirmOverride : option string)
    : option Response :=
  match existing with
  | None => None
  | Some e =>
      if String.eqb (doc_id e) (doc_id user) then Some (refuse 400 "This is already your current email address")
      else
        match confirmOverride with
        | Some "true" => None
        | _ => Some (refuse_with 409 "An account with this email already exists"
                       [("code", VStr "EMAIL_EXISTS"); ("requiresConfirmation", VBool true);
                        ("warning", VStr (override_warning newEmail))])
        end
  end.

Definition initiateMigration (user : User) (password newEmail confirmOverride : option string) : prog AppEnv App Response :=
  match given newEmail with
  | None => Ret (refuse 400 "New email is required")
  | Some newEmail =>
      catch (
        let! h := here in
        match migration_guard user h.1 with
        | Some r => Ret (inr r)
        | None =>
            let* existingUserId := primary_owner (toLowerCase newEmail) in
            let* existing := find_account_if existingUserId in
            match existing_guard user existing newEmail confirmOverride with
            | Some r => Ret (inr r)
            | None =>
                let* refused := confirm_password user password in
                match refused with
                | Some r => Ret (inr r)
                | None => start_and_mail user newEmail (match existing with Some _ => true | None => false end)
                end
            end
        end) (λ _, Ret (refuse 500 "Failed to initiate migration"))
  end.

(** ** Verifying the addresses *)

(** The last entry, if it is the pending migration to the given address *)
Definition latest_pending (l : list val) (toEmail : val) : bool :=
  match last l with
  | Some m => strict_eq (opt_prop m "status") (VStr "pending") && strict_eq (opt_prop m "toEmail") toEmail
  | None => false
  end.

Definition change_last (g : val → val) (l : list val) : list val :=
  match last l with Some m => removelast l ++ [g m] | None => l end.

(** The history of the reloaded document gets the new verification status. *)
Definition record_verification (user : User) (field : string) (pendingFrom : val) : prog AppEnv App (failure + unit) :=
  let* withHistory := find_account (user_get user "_id") None in
  match withHistory with
  | Some u =>
      if latest_pending (array_of (user_get u "migrationHistory")) (lower_val (user_get user "newEmailPending")) then
        let* _ := save_account (with_history u (change_last (λ m, set_prop (set_prop m field (VBool true)) "pendingFrom" pendingFrom))) in
        Ret (inr tt)
      else Ret (inr tt)
  | None => Ret (inr tt)
  end.

(** As the two handlers call it: the side that is verified now, and the one
    that is still missing *)
Definition record_current (user : User) : prog AppEnv App (failure + unit) :=
  record_verification user "currentEmailVerified" (if truthy (user_get user "newEmailVerified") then VUndef else VStr "new").
Definition record_new (user : User) : prog AppEnv App (failure + unit) :=
  record_verification user "newEmailVerified" (if truthy (user_get user "currentEmailVerified") then VUndef else VStr "current").

Definition bothVerified (u : User) : bool :=
  strict_eq (user_get u "currentEmailVerified") (VBool true) && strict_eq (user_get u "newEmailVerified") (VBool true)
  && truthy (user_get u "newEmailPending").

Definition find_by_current_token (hashedToken : string) : prog AppEnv App (failure + option User) :=
  stretch (λ e s,
    let '(r, d) := UserModel.findOne Date_toString Date_toISOString
      (VObj [("currentEmailToken", VStr hashedToken);
             ("migrationTokenExpires", VObj [("$gt", VDate (RedisCache.clock (app_cache s)))])]) None (app_users s) in
    (r, s <| app_users := d |>)).

Definition find_by_new_token (hashedToken : string) : prog AppEnv App (failure + option User) :=
  stretch (λ e s,
    let '(r, d) := UserModel.findOne Date_toString Date_toISOString
      (VObj [("newEmailToken", VStr hashedToken);
             ("migrationTokenExpires", VObj [("$gt", VDate (RedisCache.clock (app_cache s)))]);
             ("newEmailPending", VObj [("$exists", VBool true); ("$ne", VNull)])]) None (app_users s) in
    (r, s <| app_users := d |>)).

(** After an address was verified: reload, finalise if both are. *)
Definition after_verification (user : User) (answer : User → Response) : prog AppEnv App (failure + Response) :=
  let* updatedUser := find_account (user_get user "_id") (Some profile_spec) in
  match updatedUser with
  | None => Ret (inr (refuse 404 "User not found after verification"))
  | Some u =>
      if bothVerified u then
        let! r := finalizeMigrationInternal u in Ret (inr r)
      else Ret (inr (answer u))
  end.

Definition current_answer (u : User) : Response :=
  success (if truthy (user_get u "newEmailVerified")
           then "Current email verified! Both emails are now verified. Migration will finalize automatically."
           else "Current email verified successfully! Please verify your new email to complete migration.")
    [("currentEmailVerified", VBool true);
     ("newEmailVerified", VBool (strict_eq (user_get u "newEmailVerified") (VBool true))); ("bothVerified", VBool false);
     ("waitingFor", VStr (if truthy (user_get u "newEmailVerified") then "none" else "new"))].

Definition new_answer (u : User) : Response :=
  success "New email verified successfully! Status updated in real-time."
    [("currentEmailVerified", VBool (strict_eq (user_get u "currentEmailVerified") (VBool true)));
     ("newEmailVerified", VBool true); ("bothVerified", VBool false); ("redirectTo", VStr "login");
     ("waitingFor", VStr (if truthy (user_get u "currentEmailVerified") then "new" else "current"))].

Definition verifyCurrentEmail (formToken : option string) : prog AppEnv App Response :=
  match given formToken with
  | None => Ret (refuse 400 "formToken is required")
  | Some formToken =>
      catch (
        let! redeemed := link (EmailLink.consumeFormToken formToken EmailLink.migrate_current) in
        match redeemed with
        | None => Ret (inr (refuse 400 "Invalid or expired verification session"))
        | Some (secret, _) =>
            let* secret := Ret (secret_text secret) in
            let* user := find_by_current_token (sha256_hex secret) in
            match user with
            | None => Ret (inr (refuse 400 "Invalid or expired token"))
            | Some user =>
                let* user := save_account (user_set user "currentEmailVerified" (VBool true)) in
                let* _ := record_current user in
                after_verification user current_answer
            end
        end) (λ _, Ret (refuse 500 "Verification failed"))
  end.

(** The account that will be replaced at the end, if there is none yet *)
Definition ensure_placeholder (newEmail : string) : prog AppEnv App (failure + unit) :=
  let* existingUserId := primary_owner newEmail in
  let* existing := find_account_if existingUserId in
  match existing with
  | Some _ => Ret (inr tt)
  | None =>
      let* placeholder := save_account (new_User
        [("email", VStr newEmail); ("displayName", VStr ("User " +:+ local_part newEmail)); ("provider", VStr "local");
         ("isEmailVerified", VBool false)] true) in
      sync_account placeholder
  end.

Definition verifyNewEmail (formToken : option string) : prog AppEnv App Response :=
  match given formToken with
  | None => Ret (refuse 400 "formToken is required")
  | Some formToken =>
      catch (
        let! redeemed := link (EmailLink.consumeFormToken formToken EmailLink.migrate_new) in
        match redeemed with
        | None => Ret (inr (refuse 400 "Invalid or expired verification session"))
        | Some (secret, _) =>
            let* secret := Ret (secret_text secret) in
            let* user := find_by_new_token (sha256_hex secret) in
            match user with
            | None => Ret (inr (refuse 400 "Invalid or expired token"))
            | Some user =>
                let* _ := ensure_placeholder (toLowerCase (text_of (user_get user "newEmailPending"))) in
                let* user := save_account (user_set user "newEmailVerified" (VBool true)) in
                let* _ := record_new user in
                after_verification user new_answer
            end
        end) (λ _, Ret (refuse 500 "Verification failed"))
  end.

(** ** Resending, status, manual finalisation *)

(** [userDoc.lastMigrationEmailSent] less than 30 seconds ago: the seconds that
    remain, rounded up *)
Definition resend_cooldown (u : User) (t : Z) : option Z :=
  match user_get u "lastMigrationEmailSent" with
  | VDate x => if t - x <? 30000 then Some (ceil_div (30000 - (t - x)) 1000) else None
  | _ => None
  end.

Definition resend_mails (u : User) (tokens : string * string) (accountExists : bool) : prog AppEnv App (failure + Response) :=
  let newEmail := text_of (user_get u "newEmailPending") in
  let* currentVerifyUrl := buildMigrationVerifyUrl EmailLink.migrate_current tokens.1 None in
  let* newVerifyUrl := buildMigrationVerifyUrl EmailLink.migrate_new tokens.2 (Some (redirect_meta accountExists)) in
  let! sent := send_both
    {| mail_to := text_of (user_get u "email"); mail_subject := "Verify Current Email - Account Migration (Resent)";
       mail_html := current_resent_html newEmail currentVerifyUrl |}
    {| mail_to := newEmail; mail_subject := "Verify New Email - Account Migration (Resent)";
       mail_html := new_resent_html newEmail newVerifyUrl accountExists |} in
  if negb (sent.1 || sent.2) then
    Ret (inr (refuse 500 "Failed to resend verification emails. Please try again later."))
  else
    Ret (inr (success "Verification emails resent to both email addresses"
                [("currentEmail", user_get u "email"); ("newEmail", user_get u "newEmailPending");
                 ("accountExists", VBool accountExists)])).

Definition renew_tokens (u : User) (h : Z * AppEnv) : User :=
  let u := user_set u "currentEmailToken" (VStr (sha256_hex (randoms h.2).1)) in
  let u := user_set u "newEmailToken" (VStr (sha256_hex (randoms h.2).2)) in
  let u := user_set u "migrationTokenExpires" (VDate (h.1 + DAY_MS)) in
  user_set u "lastMigrationEmailSent" (VDate h.1).

Definition resendMigrationEmails (user : User) : prog AppEnv App Response :=
  catch (
    let* userDoc := find_account (user_get user "_id") None in
    match userDoc with
    | None => Ret (inr (refuse 404 "User not found"))
    | Some u =>
        let! h := here in
        if negb (truthy (user_get u "newEmailPending"))
           || match user_get u "migrationTokenExpires" with VDate x => x <? h.1 | _ => true end then
          Ret (inr (refuse 400 "No pending migration found"))
        else
          match resend_cooldown u h.1 with
          | Some remaining =>
              Ret (inr (refuse_with 429 ("Please wait " +:+ Z_to_string remaining +:+ " more second(s) before resending.")
                          [("cooldownRemaining", VNum remaining)]))
          | None =>
              let* u := save_account (renew_tokens u h) in
              let* _ := sync_account u in
              let* owner := primary_owner (toLowerCase (text_of (user_get u "newEmailPending"))) in
              resend_mails u (randoms h.2) (some_id owner)
          end
    end) (λ _, Ret (refuse 500 "Failed to resend emails")).

(** [!!a && e && e > new Date()]: a NULL expiry is answered as such. *)
Definition has_pending_migration (u : User) (t : Z) : val :=
  if truthy (user_get u "newEmailPending") then
    match user_get u "migrationTokenExpires" with VDate x => VBool (t <? x) | v => v end
  else VBool false.

Definition getMigrationStatus (user : User) : prog AppEnv App Response :=
  catch (
    let* userDoc := find_account (user_get user "_id")
                      (Some "+currentEmailVerified +newEmailVerified +currentEmailToken +newEmailToken") in
    match userDoc with
    | None => Ret (inr (refuse 404 "User not found"))
    | Some u =>
        let! h := here in
        let hasPendingMigration := has_pending_migration u h.1 in
        let cooldownRemaining := default 0 (resend_cooldown u h.1) in
        let currentEmailVerified := strict_eq (user_get u "currentEmailVerified") (VBool true) in
        let newEmailVerified := strict_eq (user_get u "newEmailVerified") (VBool true) in
        let common pending :=
          [("success", VBool true); ("hasPendingMigration", pending); ("currentEmail", user_get u "email");
           ("newEmail", or_val (user_get u "newEmailPending") VNull); ("currentEmailVerified", VBool currentEmailVerified);
           ("newEmailVerified", VBool newEmailVerified);
           ("migrationExpiry", or_val (user_get u "migrationTokenExpires") VNull);
           ("cooldownRemaining", VNum cooldownRemaining)] in
        if truthy hasPendingMigration && currentEmailVerified && newEmailVerified && truthy (user_get u "newEmailPending") then
          Ret (inr (reply 200 (common (VBool true)
            ++ [("needsFinalization", VBool true); ("message", VStr "Both emails verified! Finalizing migration...")]) []))
        else Ret (inr (reply 200 (common hasPendingMigration ++ [("needsFinalization", VBool false)]) []))
    end) (λ _, Ret (refuse 500 "Failed to get migration status")).

Definition finalizeMigration (user : User) : prog AppEnv App Response :=
  catch (
    let* userDoc := find_account (user_get user "_id") (Some "+currentEmailVerified +newEmailVerified +newEmailPending") in
    match userDoc with
    | None => Ret (inr (refuse 404 "User not found"))
    | Some u =>
        if negb (truthy (user_get u "newEmailPending")) then Ret (inr (refuse 400 "No pending migration found"))
        else if negb (strict_eq (user_get u "currentEmailVerified") (VBool true))
                || negb (strict_eq (user_get u "newEmailVerified") (VBool true)) then
          Ret (inr (refuse_with 400 "Both emails must be verified before finalizing migration"
            [("currentEmailVerified", VBool (strict_eq (user_get u "currentEmailVerified") (VBool true)));
             ("newEmailVerified", VBool (strict_eq (user_get u "newEmailVerified") (VBool true)))]))
        else
          let! r := finalizeMigrationInternal u in Ret (inr r)
    end) (λ _, Ret (refuse 500 "Failed to finalize migration")).

(** ** The history as it is shown *)

(** The status and the pending side that are displayed for an entry *)
Definition display (m : val) : val * val :=
  let displayStatus := or_val (opt_prop m "status") (VStr "pending") in
  let pendingFrom := opt_prop m "pendingFrom" in
  let currentVerified := strict_eq (opt_prop m "currentEmailVerified") (VBool true) in
  let newVerified := strict_eq (opt_prop m "newEmailVerified") (VBool true) in
  let '(displayStatus, pendingFrom) :=
    if currentVerified && newVerified then (VStr "success", VUndef)
    else if strict_eq displayStatus (VStr "pending") then
      if negb currentVerified && negb newVerified then (displayStatus, VStr "both")
      else if negb currentVerified then (displayStatus, VStr "current")
      else if negb newVerified then (displayStatus, VStr "new")
      else (VStr "success", VUndef)
    else (displayStatus, pendingFrom) in
  if truthy (opt_prop m "completedAt") && negb (strict_eq displayStatus (VStr "success")) then (VStr "success", VUndef)
  else (displayStatus, pendingFrom).

(** [v ? (typeof v === 'string' ? v : v.toISOString()) : fallback] *)
Definition date_text (v fallback : val) : outcome val :=
  if truthy v then
    match v with
    | VStr s => Returned (VStr s)
    | VDate t => Returned (VStr (Date_toISOString t))
    | _ => Thrown "TypeError"
    end
  else Returned fallback.

Definition display_entry (t : Z) (m : val) : outcome val :=
  let '(displayStatus, pendingFrom) := display m in
  let? initiatedAt := date_text (opt_prop m "initiatedAt") (VStr (Date_toISOString t)) in
  let? completedAt := date_text (opt_prop m "completedAt") VUndef in
  let? revertedAt := date_text (opt_prop m "revertedAt") VUndef in
  Returned (VObj [("fromEmail", or_val (opt_prop m "fromEmail") (VStr "")); ("toEmail", or_val (opt_prop m "toEmail") (VStr ""));
                  ("status", displayStatus); ("initiatedAt", initiatedAt); ("completedAt", completedAt);
                  ("revertedAt", revertedAt);
                  ("currentEmailVerified", VBool (strict_eq (opt_prop m "currentEmailVerified") (VBool true)));
                  ("newEmailVerified", VBool (strict_eq (opt_prop m "newEmailVerified") (VBool true)));
                  ("pendingFrom", pendingFrom)]).

Fixpoint display_all (t : Z) (l : list val) : outcome (list val) :=
  match l with
  | [] => Returned []
  | m :: l => let? d := display_entry t m in let? ds := display_all t l in Returned (d :: ds)
  end.

Definition getMigrationHistory (user : User) : prog AppEnv App Response :=
  catch (
    let* userDoc := find_account (user_get user "_id") (Some "+migrationHistory") in
    match userDoc with
    | None => Ret (inr (refuse 404 "User not found"))
    | Some u =>
        let! h := here in
        match display_all h.1 (array_of (user_get u "migrationHistory")) with
        | Thrown e => Ret (inl (Err e))
        | Returned history => Ret (inr (reply 200 [("success", VBool true); ("history", VArr (rev history))] []))
        end
    end) (λ _, Ret (refuse 500 "Failed to get migration history")).
End Handlers.
