(* ===== verification/AppFacts.v ===== *)
(** * Running handlers

    Proof rules for programs over the state of [Application]: one rule per
    kind of step (a read of the clock, a call of the user model, a program of a
    service), in the weakest-precondition style of [Async].  [P] is what is
    assumed of every stretch of code of the run, for instance that it happens
    within a window of time. *)

From S2P Require Import Prelude CircuitConfig RollingWindow CircuitBreaker GuardedCalls Async RedisCache Json JsVal Columns SqlFilter SqlMeaning Password UserModel OneTimeCodes Sessions IdentityIndex Tokens SessionHandlers UsersTable Documents Application AuthController.
#[local] Open Scope string_scope.
#[local] Open Scope list_scope.
#[local] Open Scope Z_scope.
#[local] Open Scope async_scope.

Section Rules.
Context `{RKV : RedisKV} `{UDB : UsersDb} `{IDB : IndexDb}.
Context (P : AppEnv → App → Prop).

Lemma always_stretch {A B} (f : AppEnv → App → A * App) (k : A → prog AppEnv App B) s Q :
  (∀ e, P e s → always P (k (f e (tick e s)).1) (f e (tick e s)).2 Q) → always P (bind (stretch f) k) s Q.
Proof. intros H. apply always_act. exact H. Qed.

Lemma always_here {B} (k : Z * AppEnv → prog AppEnv App B) s Q :
  (∀ e, P e s → always P (k (RedisCache.clock (app_cache (tick e s)), e)) (tick e s) Q) → always P (bind here k) s Q.
Proof. intros H. by apply always_stretch. Qed.

Lemma always_on_users {A B} (f : AppEnv → db → A * db) (k : A → prog AppEnv App B) s Q :
  (∀ e, P e s → always P (k (f e (app_users s)).1) (tick e s <| app_users := (f e (app_users s)).2 |>) Q) →
  always P (bind (on_users f) k) s Q.
Proof.
  intros H. apply always_stretch. intros e He. specialize (H e He). change (app_users (tick e s)) with (app_users s).
  by destruct (f e (app_users s)).
Qed.

Lemma always_rows `{FK : !ForeignKey UDB IDB} {A B} (f : AppEnv → db → A * db) (k : A → prog AppEnv App B) s Q :
  (∀ e, P e s → let r := f e (app_users s) in
     always P (k r.1) (tick e s <| app_users := r.2 |> <| app_index ::= follow (table r.2) |>) Q) →
  always P (bind (on_rows f) k) s Q.
Proof.
  intros H. apply always_stretch. intros e He. specialize (H e He). change (app_users (tick e s)) with (app_users s).
  cbv zeta in H. by destruct (f e (app_users s)).
Qed.

Lemma always_catch {A} (p : prog AppEnv App (failure + A)) (handler : failure → prog AppEnv App A) s Q :
  always P p s (λ r s', match r with inl e => always P (handler e) s' Q | inr a => Q a s' end) → always P (catch p handler) s Q.
Proof.
  intros H. apply always_bind. eapply always_mono; [exact H|]. intros [e|a] s'; [done|]. by apply always_ret.
Qed.

(** A service with its own part of the state. *)
Lemma always_part {S A} (get : App → S) (put : S → App → App) (p : prog Env S A) (PS : Env → S → Prop) s Q :
  (∀ t s, get (put t s) = t) → (∀ s, put (get s) s = s) → (∀ t u s, put t (put u s) = put t s) →
  (∀ e t, P e (put t s) → PS (net e) t) →
  always PS p (get s) (λ a t, Q a (put t s)) → always P (embed direct get put p) s Q.
Proof.
  intros Hgp Hpg Hpp HP H.
  eapply (always_embed direct get put (λ s s', ∃ t, s' = put t s) (PreOrder0 := _)) with (s0 := s) (P := PS).
  Unshelve.
  - done.
  - intros e s1. by exists (get s1).
  - done.
  - intros t s1. by exists t.
  - by exists (get s).
  - intros e s1 [t ->] He. cbn. rewrite Hgp. by apply HP.
  - eapply always_mono; [exact H|]. intros a t HQ s' [u ->] Hs. rewrite Hgp in Hs. subst u. exact HQ.
  - split; [intros x; by exists (get x)|]. intros x y z [t ->] [u ->]. exists u. apply Hpp.
Qed.
End Rules.

(** ** Steps of a handler

    A run is observed during the window of time from [t0] to [t1]; ids that the
    runtime draws are new.  The cache is not described: after every step it is
    some cache. *)

Definition during `{RKV : RedisKV} `{UDB : UsersDb} `{IDB : IndexDb} (t0 t1 : Z) (e : AppEnv) (s : App) : Prop :=
  t0 ≤ RedisCache.clock (app_cache (tick e s)) ≤ t1 ∧
  table (app_users s) !! (uuids (net e)).1 = None ∧ (uuids (net e)).1 ≠ "".

Definition duringb `{RKV : RedisKV} `{UDB : UsersDb} `{IDB : IndexDb} (t0 t1 : Z) (e : AppEnv) (s : App) : bool :=
  let t := RedisCache.clock (app_cache (tick e s)) in
  (t0 <=? t) && (t <=? t1) && bool_decide (table (app_users s) !! (uuids (net e)).1 = None) && negb (String.eqb (uuids (net e)).1 "").

Lemma duringb_spec `{RKV : RedisKV} `{UDB : UsersDb} `{IDB : IndexDb} t0 t1 e s : duringb t0 t1 e s = true → during t0 t1 e s.
Proof.
  intros [[[H1 H2]%andb_true_iff H3]%andb_true_iff H4]%andb_true_iff. split_and!; [lia|lia|by apply bool_decide_eq_true in H3|].
  apply negb_true_iff in H4. by apply String.eqb_neq.
Qed.

(** Redis is not available in any part of the run. *)
Definition without_redis `{RKV : RedisKV} `{UDB : UsersDb} `{IDB : IndexDb} (t0 t1 : Z) (e : AppEnv) (s : App) : Prop :=
  during t0 t1 e s ∧ isRedisAvailable (app_cache (tick e s)) = false.

(** Runs of which at least that is assumed *)
Class Window `{RKV : RedisKV} `{UDB : UsersDb} `{IDB : IndexDb} (P : AppEnv → App → Prop) (t0 t1 : Z) : Prop :=
  window : ∀ e s, P e s → during t0 t1 e s.

#[global] Instance during_window `{RKV : RedisKV} `{UDB : UsersDb} `{IDB : IndexDb} t0 t1 : Window (during t0 t1) t0 t1.
Proof. by intros e s. Qed.

#[global] Instance without_redis_window `{RKV : RedisKV} `{UDB : UsersDb} `{IDB : IndexDb} t0 t1 : Window (without_redis t0 t1) t0 t1.
Proof. by intros e s [? _]. Qed.

Section Steps.
Context (sha256_hex base64url_decode : string → string) (hmac_sha256_hex : string → string → string).
Context (Date_toString Date_toISOString : Z → string) (hashPassword : string → string).
Context `{RKV : RedisKV} `{UDB : UsersDb} {DL : UsersDbLaws UDB} {TL : UsersTableLaws UDB}.
Context `{IDB : IndexDb} {IL : IndexDbLaws IDB} `{FK : !ForeignKey UDB IDB} {FL : ForeignKeyLaws FK}.
Context `{J : Jwt} {JL : JwtLaws J}.
Context (config : AppConfig) (t0 t1 : Z) (P : AppEnv → App → Prop) {HP : Window P t0 t1}.
Local Abbreviation key := (emailKey hmac_sha256_hex (emailIndexSecret config) (accessSecret (cfg_jwt config))).

Section OneStep.
Context {B : Type} (Q : B → App → Prop) (c : Cache) (d : db) (x : idb) (rv : list object) (m : Memory) (o : list Mail).

Lemma step_here (k : Z * AppEnv → prog AppEnv App B) :
  (∀ c' e, t0 ≤ RedisCache.clock c' ≤ t1 → always P (k (RedisCache.clock c', e)) (mkApp c' d x rv m o) Q) →
  always P (bind here k) (mkApp c d x rv m o) Q.
Proof. intros H. apply always_here. intros e [Ht _]%window. by apply H. Qed.

Lemma step_find i spec (k : failure + option User → prog AppEnv App B) :
  projection_ok spec = true →
  (∀ c', always P (k (inr (document (projection spec) <$> table d !! i))) (mkApp c' d x rv m o) Q) →
  always P (bind (find_account Date_toString Date_toISOString (VStr i) spec) k) (mkApp c d x rv m o) Q.
Proof.
  intros Hs H. apply always_on_users. intros e _.
  change (findById_value Date_toString Date_toISOString (VStr i) spec) with (findById Date_toString Date_toISOString i spec).
  cbn [app_users]. rewrite (findById_document Date_toString Date_toISOString i spec d Hs). apply H.
Qed.

Lemma step_find_if i (k : failure + option User → prog AppEnv App B) :
  i ≠ "" → (∀ c', always P (k (inr (document (projection None) <$> table d !! i))) (mkApp c' d x rv m o) Q) →
  always P (bind (find_account_if Date_toString Date_toISOString (Some (VStr i))) k) (mkApp c d x rv m o) Q.
Proof.
  intros Hi H. unfold find_account_if, find_if. cbn [truthy]. rewrite (proj2 (String.eqb_neq _ _) Hi). cbn [negb].
  apply (step_find i None); [by vm_compute|exact H].
Qed.

(** The first document that meets a condition on the current time *)
Lemma step_find_where (filter : Z → val) w (params : Z → list val) spec (k : failure + option User → prog AppEnv App B) :
  projection_ok spec = true →
  (∀ t, SqlFilter.buildWhere Date_toString Date_toISOString (filter t) [] = Returned (where_text_of w, params t)) →
  w ∈ known_conditions → (∀ t, length (params t) = list_sum (map holes_of w)) → (∀ t, forallb (cond_typed (params t)) w = true) →
  (∀ c' t, t0 ≤ t ≤ t1 → (∀ j r, table d !! j = Some r → selected no_order (params t) r w = false) →
     always P (k (inr None)) (mkApp c' d x rv m o) Q) →
  (∀ c' t i r, t0 ≤ t ≤ t1 → table d !! i = Some r → selected no_order (params t) r w = true →
     always P (k (inr (Some (document (projection spec) r)))) (mkApp c' d x rv m o) Q) →
  always P (bind (stretch (λ _ s,
      let '(r, d) := UserModel.findOne Date_toString Date_toISOString (filter (RedisCache.clock (app_cache s))) spec (app_users s) in
      (r, s <| app_users := d |>))) k) (mkApp c d x rv m o) Q.
Proof.
  intros Hs Hw Hk Hlen Hty Hnone Hsome. apply always_stretch. intros e (Ht & _)%window.
  change (tick e (mkApp c d x rv m o)) with (mkApp (advance (net e) c) d x rv m o) in *. cbn [app_cache app_users] in *.
  set (c' := advance _ _) in *. set (t := RedisCache.clock c') in *.
  destruct (findOne_document Date_toString Date_toISOString (filter t) w (params t) spec d Hs (Hw t) Hk (Hlen t) (Hty t))
    as [[-> Hno]|(i & r & -> & Hr & Hsel)]; cbn [fst snd].
  - by apply (Hnone _ t).
  - by apply (Hsome _ t i r).
Qed.

(** Saving a document of a row *)
Lemma step_save i cols r u ps u' (k : failure + User → prog AppEnv App B) :
  table d !! i = Some r → doc_of cols r u → has cols "id" = true → patch_ok Date_toISOString hashPassword ps = true →
  edited u ps u' → (∀ r', row_patched Date_toISOString hashPassword r ps r' → unique_in (table d) i r') →
  (∀ c' d' r', table d' = <[i := r']> (table d) → row_patched Date_toISOString hashPassword r ps r' → row_typed r' = true →
     always P (k (inr (saved r'))) (mkApp c' d' x rv m o) Q) →
  always P (bind (save_account Date_toISOString hashPassword u') k) (mkApp c d x rv m o) Q.
Proof.
  intros Hr Hu Hid Hps He Hun H. unfold save_account, save_user. rewrite (ed_isNew _ _ _ He), (doc_isNew _ _ _ Hu).
  apply always_on_users. intros e _. cbn [app_users].
  destruct (save_edited Date_toISOString hashPassword (uuids (net e)).1 cols r u ps u' i d) as (r' & d' & -> & Ht & Hp & Hty);
    try done. by eapply H.
Qed.

Lemma step_save_duplicate i cols r u ps u' j rj email (k : failure + User → prog AppEnv App B) :
  table d !! i = Some r → doc_of cols r u → has cols "id" = true → patch_ok Date_toISOString hashPassword ps = true →
  edited u ps u' → table d !! j = Some rj → j ≠ i → obj_get rj "email" = VStr email →
  (∀ r', row_patched Date_toISOString hashPassword r ps r' → obj_get r' "email" = VStr email ∧ obj_get r' "provider_id" = VNull) →
  (∀ c' e, always P (k (inl e)) (mkApp c' d x rv m o) Q) →
  always P (bind (save_account Date_toISOString hashPassword u') k) (mkApp c d x rv m o) Q.
Proof.
  intros Hr Hu Hid Hps He Hj Hne Hem Hnew H. unfold save_account, save_user. rewrite (ed_isNew _ _ _ He), (doc_isNew _ _ _ Hu).
  apply always_on_users. intros e _. cbn [app_users].
  destruct (save_duplicate Date_toISOString hashPassword (uuids (net e)).1 cols r u ps u' i d j rj email) as [err ->]; try done. apply H.
Qed.

(** Saving a new document; the foreign key is not concerned. *)
Lemma step_create l u (k : failure + User → prog AppEnv App B) :
  NoDup (obj_keys l) → patch_ok Date_toISOString hashPassword l = true → _isNew u = true → _values u = l →
  has (obj_keys l) "email" = true → has (obj_keys l) "displayName" = true →
  (∀ uuid r', created_row Date_toISOString hashPassword uuid l r' → unique_in (table d) uuid r') →
  (∀ uuid c' d' r', uuid ≠ "" → table d !! uuid = None → table d' = <[uuid := r']> (table d) →
     created_row Date_toISOString hashPassword uuid l r' → row_typed r' = true →
     always P (k (inr (saved r'))) (mkApp c' d' (follow (table d') x) rv m o) Q) →
  always P (bind (save_account Date_toISOString hashPassword u) k) (mkApp c d x rv m o) Q.
Proof.
  intros Hnd Hl Hnew Hu He Hdn Hun H. unfold save_account, save_user. rewrite Hnew. apply always_rows.
  intros e (_ & Hfresh & Hne)%window. cbn [app_users] in Hfresh |- *.
  destruct (save_new Date_toISOString hashPassword (uuids (net e)).1 l Hnd Hl u d) as (r' & d' & -> & Ht & Hp & Hty); try done.
  { intros r' Hr'. by apply Hun. }
  cbn zeta. cbn [fst snd]. by eapply (H (uuids (net e)).1).
Qed.

(** Deleting an account; its index entries go with it. *)
Lemma step_delete i (k : failure + option User → prog AppEnv App B) :
  (∀ c' d', table d' = delete i (table d) →
     always P (k (inr (updated <$> table d !! i))) (mkApp c' d' (follow (table d') x) rv m o) Q) →
  always P (bind (on_rows (λ _, findByIdAndDelete i)) k) (mkApp c d x rv m o) Q.
Proof.
  intros H. apply always_rows. intros e _. cbn [app_users].
  destruct (findByIdAndDelete_spec i d) as (d' & -> & Ht). exact (H _ d' Ht).
Qed.

(** A program of the identity index *)
Lemma step_index {A} (p : prog Tick idb A) (k : A → prog AppEnv App B) (PI : Tick → idb → Prop) :
  (∀ t y, t0 ≤ now t ≤ t1 → PI t y) →
  always PI p x (λ a y, ∀ c', always P (k a) (mkApp c' d y rv m o) Q) →
  always P (bind (indexed p) k) (mkApp c d x rv m o) Q.
Proof.
  intros HPI H. apply always_bind.
  eapply (always_embed enter_index app_index _ (λ s s', ∃ c y, s' = s <| app_cache := c |> <| app_index := y |>) (PreOrder0 := _))
    with (s0 := mkApp c d x rv m o) (P := PI).
  Unshelve.
  - done.
  - intros e s. exists (app_cache (tick e s)), (app_index s). by destruct s.
  - done.
  - intros y s. exists (app_cache s), y. by destruct s.
  - exists c, x. done.
  - intros e s (c1 & y & ->) [Ht _]%window. by apply HPI.
  - eapply always_mono; [exact H|]. intros a y HQ s' (c1 & y1 & ->) Hs. cbn in Hs. subst y1. apply HQ.
  - split; [intros s; exists (app_cache s), (app_index s); by destruct s|].
    intros s1 s2 s3 (? & ? & ->) (c3 & y3 & ->). by exists c3, y3.
Qed.

(** *** Addresses *)

Lemma step_primary_none email (k : failure + option val → prog AppEnv App B) :
  entries x !! key MPrimary email = None →
  (∀ c', always P (k (inr None)) (mkApp c' d x rv m o) Q) →
  always P (bind (primary_owner hmac_sha256_hex config email) k) (mkApp c d x rv m o) Q.
Proof.
  intros Hx H. apply (step_index _ _ (λ _ _, True)); [done|]. unfold findUserIdByPrimaryEmail. apply findOne_key.
  change (index_of x) with x. rewrite Hx. apply always_ret. exact H.
Qed.

Lemma step_primary_some email r uid (k : failure + option val → prog AppEnv App B) :
  entries x !! key MPrimary email = Some r → obj_get r "user_id" = VStr uid → obj_get r "expires_at" = VNull →
  (∀ c', always P (k (inr (Some (VStr uid)))) (mkApp c' d x rv m o) Q) →
  always P (bind (primary_owner hmac_sha256_hex config email) k) (mkApp c d x rv m o) Q.
Proof.
  intros Hx Hu He H. apply (step_index _ _ (λ _ _, True)); [done|]. unfold findUserIdByPrimaryEmail. apply findOne_key.
  change (index_of x) with x. rewrite Hx. cbn [fmap option_fmap option_map]. apply always_clock. intros t _. apply always_ret.
  unfold isActive. cbn [rowToDoc ix_expiresAt ix_userId]. rewrite He, Hu. exact H.
Qed.

Lemma step_pending_none email (k : failure + option val → prog AppEnv App B) :
  entries x !! key MPending email = None →
  (∀ c', always P (k (inr None)) (mkApp c' d x rv m o) Q) →
  always P (bind (pending_holder hmac_sha256_hex config email) k) (mkApp c d x rv m o) Q.
Proof.
  intros Hx H. apply (step_index _ _ (λ _ _, True)); [done|]. unfold findPendingMigrationHolder. apply always_clock. intros t _.
  apply findOne_live. change (index_of x) with x. rewrite Hx. apply always_ret. exact H.
Qed.

(** The address is somebody's primary address. *)
Lemma step_resolve_primary email r uid (k : failure + option ResolvedEmailIdentity → prog AppEnv App B) :
  entries x !! key MPrimary email = Some r → obj_get r "user_id" = VStr uid → obj_get r "expires_at" = VNull →
  (∀ c' y, rs_userId y = VStr uid → always P (k (inr (Some y))) (mkApp c' d x rv m o) Q) →
  always P (bind (resolve_address hmac_sha256_hex config email) k) (mkApp c d x rv m o) Q.
Proof.
  intros Hx Hu He H. apply (step_index _ _ (λ _ _, True)); [done|]. apply (resolve_step _ _ _ (L := IL)). change (index_of x) with x.
  rewrite Hx. intros t _. unfold isActive. cbn [rowToDoc ix_expiresAt]. rewrite He. cbn [truthy negb]. intros c'. by apply H.
Qed.

(** All entries of an account are released. *)
Lemma step_release uid (k : failure + unit → prog AppEnv App B) :
  (∀ c' y, known_user y = known_user x →
     (∀ q, entries y !! q = match entries x !! q with Some r => if owned uid r then None else Some r | None => None end) →
     always P (k (inr tt)) (mkApp c' d y rv m o) Q) →
  always P (bind (indexed (releaseUserIdentityIndexes uid)) k) (mkApp c d x rv m o) Q.
Proof.
  intros H. apply (step_index _ _ (λ _ _, True)); [done|]. unfold releaseUserIdentityIndexes. apply release_step.
  intros n y Hk He. apply always_ret. intros c'. by apply H.
Qed.

(** Synchronising the index with a document whose reservations neither start
    nor end during the window *)
Lemma step_sync user uid email previous waiting (k : failure + unit → prog AppEnv App B) :
  indexable user uid email → known_user x uid = true →
  (∀ t, t0 ≤ t ≤ t1 → has_previous user t = previous ∧ has_pending user t = waiting) →
  (∀ c' y, known_user y = known_user x →
     (∀ q, match assoc (expected_entries hmac_sha256_hex (emailIndexSecret config) (accessSecret (cfg_jwt config)) Date_toString
                          user uid email previous waiting) q with
           | Some f => ∃ r, entries y !! q = Some r ∧ row_of q f r
           | None => entries y !! q = match entries x !! q with Some r => if owned uid r then None else Some r | None => None end
           end) →
     always P (k (inr tt)) (mkApp c' d y rv m o) Q) →
  always P (bind (sync_account hmac_sha256_hex Date_toString config user) k) (mkApp c d x rv m o) Q.
Proof.
  intros Hu Hk Hst H. apply (step_index _ _ (steady user previous waiting)).
  { intros t y Ht. by apply Hst. }
  eapply always_mono; [by apply (sync_entries _ _ _ _ (L := IL) user uid email previous waiting)|].
  intros res y (-> & (y' & -> & Hky) & Hent) c'. by apply H.
Qed.
End OneStep.

(** *** Services *)

Section ServiceStep.
Context {B : Type} (Q : B → App → Prop) (c : Cache) (d : db) (x : idb) (rv : list object) (m : Memory) (o : list Mail).

(** A program of the session service, whatever it meets *)
Lemma step_session {A} (p : prog Env Sessions.State A) (k : A → prog AppEnv App B) :
  (∀ es, let r := run p es (Sessions.mkState c d rv) in
     always P (k r.1) (mkApp (Sessions.cache r.2) (Sessions.users r.2) x (Sessions.revocations r.2) m o) Q) →
  always P (bind (session p) k) (mkApp c d x rv m o) Q.
Proof.
  intros H. apply always_bind.
  apply (always_part P session_part put_session p (λ _ _, True)); [by intros [] []|by intros []|by intros [] [] []|done|].
  intros es _. apply H.
Qed.

(** A program of the e-mail link service; it changes only its own memory. *)
Lemma step_link {A} (p : prog Env EmailLink.State A) (k : A → prog AppEnv App B) :
  (∀ es c' m', always P (k (run p es (link_part (mkApp c d x rv m o))).1) (mkApp c' d x rv m' o) Q) →
  always P (bind (link p) k) (mkApp c d x rv m o) Q.
Proof.
  intros H. apply always_bind.
  apply (always_part P link_part put_link p (λ _ _, True));
    [by intros [] [? ? ? ? [] ?]|by intros [? ? ? ? [] ?]|by intros [] [] [? ? ? ? [] ?]|done|].
  intros es _. destruct m as [? ? ? ? ? ?]. apply H.
Qed.

Lemma step_poll {A} (p : prog Env VerificationPoll.State A) (k : A → prog AppEnv App B) :
  (∀ es c' m', always P (k (run p es (poll_part (mkApp c d x rv m o))).1) (mkApp c' d x rv m' o) Q) →
  always P (bind (poll p) k) (mkApp c d x rv m o) Q.
Proof.
  intros H. apply always_bind.
  apply (always_part P poll_part put_poll p (λ _ _, True));
    [by intros [] [? ? ? ? [] ?]|by intros [? ? ? ? [] ?]|by intros [] [] [? ? ? ? [] ?]|done|].
  intros es _. destruct m as [? ? ? ? ? ?]. apply H.
Qed.

Lemma step_cookies refresh (k : list CookieOp → prog AppEnv App B) :
  (∀ c' csrf, always P (k (setAuthCookies (cfg_cookies config) (refreshExpiresIn (cfg_jwt config)) refresh csrf).2)
                (mkApp c' d x rv m o) Q) →
  always P (bind (set_cookies config refresh) k) (mkApp c d x rv m o) Q.
Proof. intros H. apply step_session. intros es. cbn. apply H. Qed.

(** The token version is published; users are not concerned. *)
Lemma step_publish i n (k : bool → prog AppEnv App B) :
  (∀ c' b, always P (k b) (mkApp c' d x rv m o) Q) →
  always P (bind (session (publishTokenVersion i n)) k) (mkApp c d x rv m o) Q.
Proof.
  intros H. apply step_session. intros es. cbn. unfold on_cache. cbn.
  destruct (isRedisAvailable _); cbn; [|apply H].
  destruct (cacheSet _ _ _ _ _) as [u c1]. cbn. unfold on_cache. cbn. destruct (cacheGet _ _ _) as [g c2]. cbn. apply H.
Qed.

(** Without Redis nothing is published. *)
Lemma step_publish_down i n (k : bool → prog AppEnv App B) :
  (∀ e s, P e s → isRedisAvailable (app_cache (tick e s)) = false) →
  (∀ c', always P (k false) (mkApp c' d x rv m o) Q) →
  always P (bind (session (publishTokenVersion i n)) k) (mkApp c d x rv m o) Q.
Proof.
  intros Hdown H. apply always_bind.
  apply (always_part P session_part put_session _ (λ e st, isRedisAvailable (advance e (Sessions.cache st)) = false));
    [by intros [] []|by intros []|by intros [] [] []| |].
  { intros e st He%Hdown. by destruct st. }
  intros es [Hav Hrest]. revert Hrest. cbn. change (advance (es O) c) with (advance (es O) (Sessions.cache (session_part (mkApp c d x rv m o)))).
  rewrite Hav. cbn. intros _. apply H.
Qed.

(** Revocations of the tracked access tokens are requested. *)
Lemma step_revoke jtis (k : unit → prog AppEnv App B) :
  (∀ c', always P (k tt) (mkApp c' d x (rv ++ revoke_requests jtis) m o) Q) →
  always P (bind (session (revokeAllTrackedAccessJtis (VArr jtis))) k) (mkApp c d x rv m o) Q.
Proof.
  intros H. apply step_session. intros es.
  destruct (run_revoke_all jtis (Ret tt) es (Sessions.mkState c d rv)) as (c' & es' & Hrun).
  assert (Hsame : ∀ p : prog Env Sessions.State unit, ∀ es s, run (bind p (λ _, Ret tt)) es s = run p es s).
  { induction p as [[]|X f q IH]; intros es0 s0; [done|]. cbn. destruct (f (es0 O) s0). apply IH. }
  rewrite Hsame in Hrun. rewrite Hrun. cbn. apply H.
Qed.

(** Tokens are issued for a document and recorded in its row. *)
Lemma step_open user i r rts (k : failure + string * string → prog AppEnv App B) :
  table d !! i = Some r → obj_get r "refresh_tokens" = strs rts →
  user_get user "_id" = VStr i → scalar (user_get user "email") = true → scalar (user_get user "tokenVersion") = true →
  accessSecret (cfg_jwt config) ≠ "" → refreshSecret (cfg_jwt config) ≠ "" →
  (∀ tokens jtis t c' d', t0 ≤ t ≤ t1 → generateTokenPair (cfg_jwt config) user jtis.1 jtis.2 t = Returned tokens →
     tokens_updated d d' i r (new_tokens None rts (sha256_hex tokens.2)) →
     always P (k (inr tokens)) (mkApp c' d' x rv m o) Q) →
  always P (bind (open_session sha256_hex base64url_decode Date_toString Date_toISOString config user) k) (mkApp c d x rv m o) Q.
Proof.
  intros Hr Hrts Hid He Hv Ha Hs H. apply always_bind. unfold open_session. apply step_here. intros c1 e Ht.
  destruct (issue_access (JL := JL) (cfg_jwt config) user i (uuids (net e)).1 (RedisCache.clock c1)) as (acc & Ha1 & _ & _); try done.
  destruct (issue_refresh (JL := JL) (cfg_jwt config) user i (uuids (net e)).2 (RedisCache.clock c1)) as (ref & Hr1 & _ & _); try done.
  assert (Hp : generateTokenPair (cfg_jwt config) user (uuids (net e)).1 (uuids (net e)).2 (RedisCache.clock c1) = Returned (acc, ref)).
  { unfold generateTokenPair. by rewrite Ha1, Hr1. }
  cbn [fst snd]. rewrite Hp. unfold doc_id. rewrite Hid. apply always_bind. cbn [fst snd].
  apply (always_part P session_part put_session _ (λ _ _, True)); [by intros [] []|by intros []|by intros [] [] []|done|].
  intros es _. unfold persistSessionTokens.
  destruct (run_on_db (findByIdAndUpdate Date_toString Date_toISOString i
              (persist_update (hashRefreshToken sha256_hex ref) (extractAccessJti base64url_decode acc)))
              (λ result, match result with inl e => Ret (inl e) | inr _ => publish_if i (Some (token_version user)) ;; Ret (inr tt) end)
              es (session_part (mkApp c1 d x rv m o))) as [c2 ->].
  destruct (session_update_db Date_toString Date_toISOString (DL := DL) i d r rts (sha256_hex ref) (extractAccessJti base64url_decode acc) None Hr Hrts)
    as (u' & d' & Hup & Htok).
  change (Sessions.users (session_part (mkApp c1 d x rv m o))) with d. unfold hashRefreshToken. rewrite Hup. cbn [fst snd].
  change (Sessions.revocations (session_part (mkApp c1 d x rv m o))) with rv.
  destruct (run_publish_if i (Some (token_version user)) (@inr failure unit tt) (env_tail es) (Sessions.mkState c2 d' rv)) as [c3 ->].
  apply always_ret. cbn. by apply (H (acc, ref) (uuids (net e)) (RedisCache.clock c1) c3 d').
Qed.
End ServiceStep.
End Steps.

(** Apply the rule for the step at the head of the program; the laws of the
    components are found by themselves. *)
Ltac law :=
  lazymatch goal with
  | |- UsersDbLaws _ => exact _
  | |- UsersTableLaws _ => exact _
  | |- IndexDbLaws _ => exact _
  | |- ForeignKeyLaws _ => exact _
  | |- JwtLaws _ => exact _
  | |- Window _ _ _ => exact _
  end.

Ltac step rule := eapply rule; try law.
