(* ===== verification/MemApp.v ===== *)
(** * An application in memory

    The two tables in memory with the foreign key between them, a
    configuration and accounts: what the examples of the handlers run on.  The
    laws of the foreign key hold here, together with those of both tables. *)

From S2P Require Import Prelude CircuitConfig RollingWindow CircuitBreaker GuardedCalls Async RedisCache Json JsVal Columns SqlFilter SqlMeaning Password UserModel OneTimeCodes Sessions IdentityIndex Tokens SessionHandlers UsersTable Documents Application AuthController AppFacts.
#[local] Open Scope string_scope.
#[local] Open Scope list_scope.
#[local] Open Scope Z_scope.

Module MemApp.

(** ON DELETE CASCADE, and the ids an entry may refer to *)
Definition cascade (t : gmap string object) (x : MemIndex.mem) : MemIndex.mem :=
  {| MemIndex.rows := filter (λ p, owner_in t p.2 = true) (MemIndex.rows x); MemIndex.ids := (map_to_list t).*1 |}.

#[global] Instance mem_fk : ForeignKey MemTable.mem_table MemIndex.mem_index := {| follow := cascade |}.

Lemma owner_keyed t k r : owner_in t (MemIndex.keyed k r) = owner_in t r.
Proof. unfold owner_in, MemIndex.keyed. by rewrite obj_get_set_ne. Qed.

#[global] Instance mem_fk_laws : ForeignKeyLaws mem_fk.
Proof.
  split; intros t x.
  - intros i. change (has (map_to_list t).*1 i = bool_decide (is_Some (t !! i))).
    apply eq_true_iff_eq. rewrite bool_decide_eq_true, has_spec. split.
    + intros ([j r] & -> & Hin)%list_elem_of_fmap. apply elem_of_map_to_list in Hin. cbn. eauto.
    + intros [r Hr]. apply list_elem_of_fmap. exists (i, r). split; [done|]. by apply elem_of_map_to_list.
  - apply map_eq. intros k. cbn. rewrite MemIndex.content_lookup. unfold cascade. cbn [MemIndex.rows].
    rewrite !map_lookup_filter, MemIndex.content_lookup. destruct (MemIndex.rows x !! k) as [r|]; [|done]. cbn.
    destruct (decide (owner_in t r = true)) as [H|H].
    + by rewrite !option_guard_True by (by rewrite ?owner_keyed).
    + by rewrite !option_guard_False by (by rewrite ?owner_keyed).
Qed.

(** ** A configuration *)

Definition env (name : string) : option string :=
  if String.eqb name "JWT_ACCESS_SECRET" then Some "a" else if String.eqb name "JWT_REFRESH_SECRET" then Some "r" else None.

Definition config : AppConfig :=
  {| cfg_jwt := jwt_config env; cfg_cookies := cookie_config (λ _, None); clientUrl := "https://app"; clientUrls := ["https://app"];
     autoVerifyEmail := false; smtpConfigured := true; maxDailyLogins := 50; googleEnabled := true; githubEnabled := true;
     emailIndexSecret := None |}.

Definition sha (s : string) : string := "#" +:+ s.
Definition hmac (k s : string) : string := s +:+ k.
Definition hash (s : string) : string := "h:" +:+ s.
Definition iso (t : Z) : string := Z_to_string t.
Definition verify (candidate : string) (h : option string) : VerifyResult :=
  {| pw_match := bool_decide (h = Some (hash candidate)); needsRehash := false |}.

(** ** Accounts *)

(** A row with the given columns, the others as a new row has them *)
Definition account (l : object) : object := obj_assign (default_row 0) l.

Definition alice : object :=
  account [("id", VStr "u1"); ("email", VStr "alice@x"); ("password", VStr "h:secret"); ("display_name", VStr "Alice");
           ("is_email_verified", VBool true); ("bio", VStr "hello"); ("token_version", VNum 3);
           ("refresh_tokens", strs ["#old"]); ("active_access_jtis", strs ["jti"])].

Definition primary (email uid : string) (verified : bool) : string * object :=
  (emailKey hmac None "a" MPrimary email, index_entry "primary_email" uid (VBool verified) VNull VNull).

Definition links (l : list (string * object)) (ids : list string) : MemIndex.mem :=
  {| MemIndex.rows := list_to_map l; MemIndex.ids := ids |}.

Definition no_memory : Memory := mkMemory "development" ∅ ∅ ∅ ∅ ∅.

Definition app (users : list (string * object)) (entries : list (string * object))
    : App (RKV := MemKV.mem_kv) (UDB := MemTable.mem_table) (IDB := MemIndex.mem_index) :=
  mkApp MemKV.fresh_cache (list_to_map users : gmap string object) (links entries users.*1) [] no_memory [].

Definition random : string := "0123456789abcdef0123456789abcdef0123456789abcdef0123456789abcdef".

(** A run in which Redis and the SMTP server answer; ids are numbered. *)
Definition always_fine (n : nat) : AppEnv :=
  {| net := {| elapse := 0; events := []; rand_begin := 0; rand_end := 0; fate := Answered; wait := 1; fresh := random;
               uuids := ("uuid-" +:+ Z_to_string (Z.of_nat n), "jti") |};
     smtp := None; randoms := ("random-1", "random-2") |}.

(** The state after a link was mailed for a secret and opened: its form token
    is the random value. *)
Definition opened (kind : EmailLink.EmailLinkKind) (secret : string)
    (s : App (RKV := MemKV.mem_kv) (UDB := MemTable.mem_table) (IDB := MemIndex.mem_index)) :=
  (run (link (bind (EmailLink.createEmailLinkCode kind secret None)
                   (λ code, match code with
                            | Returned code => EmailLink.redeemEmailLinkCode code
                            | Thrown _ => Ret None
                            end))) always_fine s).2.
End MemApp.
