(* ===== verification/MigrationHistory.v ===== *)
(** * The migration history

    The history of an account is a JSON array.  Entries are added when a
    migration starts, changed in place when an address is verified or the
    migration completes, stored as JSON text (dates become strings, undefined
    members disappear) and shown by [getMigrationHistory].

    [entry_ok] is the type [MigrationHistoryEntry] of [db/User.ts] as it is
    found at run time, with no other members; every operation on the history
    keeps it, storing included, and an entry of that type can always be shown. *)

From S2P Require Import Prelude CircuitConfig RollingWindow CircuitBreaker GuardedCalls Async RedisCache Json JsVal Columns SqlFilter SqlMeaning Password UserModel OneTimeCodes Sessions IdentityIndex OAuthLogin Tokens SessionHandlers UsersTable Documents Application AuthController MigrationController AppFacts MemApp.
#[local] Open Scope string_scope.
#[local] Open Scope list_scope.
#[local] Open Scope Z_scope.
#[local] Open Scope async_scope.

(** ** The type of an entry *)

Definition statuses : list string := ["success"; "failed"; "pending"; "reverted"].
Definition sides : list string := ["current"; "new"; "both"].

Definition a_text (v : val) : bool := match v with VStr _ => true | _ => false end.
Definition a_member (l : list string) (v : val) : bool := match v with VStr s => has l s | _ => false end.
(** A date, or the string it was stored as *)
Definition a_date (v : val) : bool := match v with VDate _ | VStr _ => true | _ => false end.
Definition a_flag (v : val) : bool := match v with VBool _ => true | _ => false end.
Definition optional (p : val → bool) (v : val) : bool := match v with VUndef => true | _ => p v end.

Definition MigrationHistoryEntry : list (string * (val → bool)) :=
  [("fromEmail", a_text); ("toEmail", a_text); ("status", a_member statuses); ("initiatedAt", a_date);
   ("completedAt", optional a_date); ("revertedAt", optional a_date); ("currentEmailVerified", optional a_flag);
   ("newEmailVerified", optional a_flag); ("pendingFrom", optional (a_member sides))].

Definition member (k : string) : bool := has MigrationHistoryEntry.*1 k.

Definition entry_ok (m : val) : bool :=
  match m with
  | VObj o => bool_decide (NoDup (obj_keys o) ∧ Forall (λ k, member k = true) (obj_keys o))
              && forallb (λ p, p.2 (obj_get o p.1)) MigrationHistoryEntry
  | _ => false
  end.

(** The field of a document: missing, or an array of entries *)
Definition history_ok (v : val) : bool :=
  match v with VUndef | VNull => true | VArr l => forallb entry_ok l | _ => false end.

Definition field_type (k : string) : val → bool :=
  match find (λ p, String.eqb p.1 k) MigrationHistoryEntry with Some p => p.2 | None => λ _, false end.

Lemma entry_field m k p : entry_ok m = true → In (k, p) MigrationHistoryEntry → p (opt_prop m k) = true.
Proof.
  destruct m as [| | | | | | | |o]; try done. intros [_ H]%andb_true_iff Hin. rewrite forallb_forall in H. exact (H _ Hin).
Qed.

(** ** Operations on entries *)

Lemma field_type_member k v : field_type k v = true → member k = true.
Proof.
  unfold field_type. destruct (find _ _) as [p|] eqn:E; [|done]. intros _. apply find_some in E as [Hin <-%String.eqb_eq].
  apply has_spec, list_elem_of_fmap_2. by apply list_elem_of_In.
Qed.

Lemma set_prop_ok m k v : entry_ok m = true → field_type k v = true → entry_ok (set_prop m k v) = true.
Proof.
  destruct m as [| | | | | | | |o]; try done. intros [Hnd H]%andb_true_iff Hv. apply andb_true_iff.
  apply bool_decide_eq_true in Hnd as [Hnd Hks]. split.
  { apply bool_decide_eq_true. split; [by apply obj_set_keys|]. apply Forall_forall.
    intros x [->|Hx]%obj_set_keys_in; [by eapply field_type_member|]. by apply (proj1 (Forall_forall _ _) Hks). }
  rewrite forallb_forall in H |- *. intros [k' p] Hin. cbn [fst snd]. rewrite obj_get_set.
  destruct (String.eqb_spec k k') as [->|]; [|exact (H _ Hin)].
  assert (Hty : field_type k' = p); [|by rewrite <- Hty].
  cbn in Hin. by repeat (destruct Hin as [[= <- <-]|Hin]; [reflexivity|]).
Qed.

Lemma completed_ok m t : entry_ok m = true → entry_ok (completed m t) = true.
Proof. intros H. unfold completed. by repeat (apply set_prop_ok; [|done]). Qed.

Lemma new_entry_ok from to status t completedAt verified side :
  a_text from = true → has statuses status = true → optional a_date completedAt = true → optional (a_member sides) side = true →
  entry_ok (history_entry from (VStr to) status (VDate t) completedAt verified side) = true.
Proof.
  intros H1 H2 H3 H4. apply andb_true_iff. split; [by vm_compute|].
  change (forallb _ _) with (a_text from && (true && (has statuses status && (true && (optional a_date completedAt &&
    (true && (true && (true && (optional (a_member sides) side && true))))))))). by rewrite H1, H2, H3, H4.
Qed.

Lemma complete_first_ok email t l l' :
  complete_first email t l = Some l' → forallb entry_ok l = true → forallb entry_ok l' = true.
Proof.
  revert l'. induction l as [|m l IH]; intros l'; [done|]. cbn [complete_first forallb].
  destruct (is_pending_to email m).
  - intros [= <-] [Hm Hl]%andb_true_iff. cbn [forallb]. by rewrite completed_ok.
  - destruct (complete_first email t l) as [l1|]; [|done]. intros [= <-] [Hm Hl]%andb_true_iff. cbn [forallb].
    rewrite Hm. by apply IH.
Qed.

Lemma change_last_ok g l :
  (∀ m, entry_ok m = true → entry_ok (g m) = true) → forallb entry_ok l = true → forallb entry_ok (change_last g l) = true.
Proof.
  intros Hg Hl. unfold change_last. induction l as [|m l _] using rev_ind; [done|].
  rewrite last_snoc, removelast_last. rewrite forallb_app in *. apply andb_true_iff in Hl as [-> Hm]. cbn in Hm |- *.
  rewrite andb_true_r in Hm. by rewrite Hg.
Qed.

(** ** Operations on the field *)

Lemma with_history_get u g :
  user_get (with_history u g) "migrationHistory" = VArr (g (array_of (user_get u "migrationHistory"))).
Proof. rewrite (user_get_value (with_history u g)) by done. apply obj_get_set_eq. Qed.

Lemma history_array v : history_ok v = true → forallb entry_ok (array_of v) = true.
Proof. by destruct v. Qed.

Lemma ensure_history_array u : history_ok (user_get u "migrationHistory") = true →
  array_of (user_get (ensure_history u) "migrationHistory") = array_of (user_get u "migrationHistory").
Proof.
  unfold ensure_history. destruct (truthy (user_get u "migrationHistory")) eqn:E; [done|]. intros H.
  rewrite (user_get_value (user_set _ _ _)), user_set_values by done. cbn [_values]. rewrite obj_get_set_eq.
  by destruct (user_get u "migrationHistory") as [| |[]| | | | | |].
Qed.

Lemma with_history_ok u g :
  history_ok (user_get u "migrationHistory") = true →
  (∀ l, forallb entry_ok l = true → forallb entry_ok (g l) = true) →
  history_ok (user_get (with_history u g) "migrationHistory") = true.
Proof. intros H Hg. rewrite with_history_get. by apply Hg, history_array. Qed.

(** ** Storing *)

Section Stored.
Context (Date_toISOString : Z → string).

(** What is left of a member that goes through JSON *)
Definition json_image (v : val) : val :=
  match to_json Date_toISOString v with Some j => of_json j | None => VUndef end.

Lemma json_object_get o k :
  NoDup (obj_keys o) →
  obj_get (map (λ p, (p.1, of_json p.2))
             (omap (λ p, match to_json Date_toISOString p.2 with Some j => Some (p.1, j) | None => None end) o)) k =
    json_image (obj_get o k).
Proof.
  induction o as [|[q v] o IH]; [done|]. intros [Hq Hnd]%NoDup_cons. cbn [omap list_omap fst snd].
  unfold obj_get at 2. cbn [obj_lookup]. specialize (IH Hnd). unfold obj_get at 2 in IH.
  destruct (String.eqb_spec q k) as [->|Hne].
  - cbn. unfold json_image. destruct (to_json Date_toISOString v) as [j|].
    { unfold obj_get. cbn. by rewrite String.eqb_refl. }
    rewrite IH. apply obj_lookup_none in Hq. cbn in Hq. by rewrite Hq.
  - destruct (to_json Date_toISOString v) as [j|]; [|exact IH]. unfold obj_get. cbn.
    rewrite (proj2 (String.eqb_neq _ _) Hne). exact IH.
Qed.

Lemma json_object_keys o :
  sublist (obj_keys (map (λ p, (p.1, of_json p.2))
    (omap (λ p, match to_json Date_toISOString p.2 with Some j => Some (p.1, j) | None => None end) o))) (obj_keys o).
Proof.
  unfold obj_keys.
  induction o as [|[q v] o IH]; [constructor|]. cbn [omap list_omap fst snd].
  destruct (to_json Date_toISOString v); cbn; [by apply sublist_skip|by apply sublist_cons].
Qed.

Lemma field_image k p v : In (k, p) MigrationHistoryEntry → p v = true → p (json_image v) = true.
Proof.
  intros Hin Hv. cbn in Hin. repeat (destruct Hin as [[= <- <-]|Hin]; [by destruct v|]). done.
Qed.

Lemma stored_entry m : entry_ok m = true → entry_ok (of_json (default JNull (to_json Date_toISOString m))) = true.
Proof.
  destruct m as [| | | | | | | |o]; try done. intros [Hnd H]%andb_true_iff. apply bool_decide_eq_true in Hnd as [Hnd Hks].
  cbn [to_json default of_json entry_ok]. apply andb_true_iff. split.
  { pose proof (json_object_keys o) as Hsub. apply bool_decide_eq_true. split; [by eapply sublist_NoDup|].
    apply Forall_forall. intros x Hx. apply (proj1 (Forall_forall _ _) Hks).
    eapply elem_of_submseteq; [exact Hx|by apply sublist_submseteq]. }
  rewrite forallb_forall in H |- *. intros [k p] Hin. cbn [fst snd]. rewrite json_object_get by done.
  by apply (field_image k); [|apply (H _ Hin)].
Qed.

(** The column holds the image of each entry. *)
Lemma stored_history_array hash l :
  cell_of Date_toISOString hash "migrationHistory" (VArr l) = VArr (map (λ m, of_json (default JNull (to_json Date_toISOString m))) l).
Proof.
  unfold cell_of. change (col_of "migrationHistory") with "migration_history". unfold stored, field_param.
  change (has jsonb_columns "migration_history") with true. change (has JSONB_FIELDS "migrationHistory") with true. cbv iota.
  unfold jsonb_param, stringify_val. cbn [to_json]. rewrite parse_stringify. cbn [of_json]. by rewrite map_map.
Qed.

(** A member of a stored entry *)
Lemma stored_member m k : entry_ok m = true →
  opt_prop (of_json (default JNull (to_json Date_toISOString m))) k = json_image (opt_prop m k).
Proof.
  destruct m as [| | | | | | | |o]; try done. intros [[Hnd _]%bool_decide_eq_true _]%andb_true_iff. by apply json_object_get.
Qed.

Lemma stored_history hash v : history_ok v = true →
  history_ok (cell_of Date_toISOString hash "migrationHistory" v) = true.
Proof.
  intros Hv. destruct v as [| | | | | | |l|]; try done. rewrite stored_history_array. cbn [history_ok] in *. apply forallb_forall.
  intros x Hx%list_elem_of_In. apply list_elem_of_fmap in Hx as (m & -> & Hm). apply stored_entry.
  rewrite forallb_forall in Hv. by apply Hv, list_elem_of_In.
Qed.

(** ** Showing *)

Definition finished (m : val) : bool :=
  strict_eq (opt_prop m "status") (VStr "success") || truthy (opt_prop m "completedAt")
  || (strict_eq (opt_prop m "currentEmailVerified") (VBool true) && strict_eq (opt_prop m "newEmailVerified") (VBool true)).

(** The side that still has to be verified *)
Definition missing_side (m : val) : val :=
  match strict_eq (opt_prop m "currentEmailVerified") (VBool true), strict_eq (opt_prop m "newEmailVerified") (VBool true) with
  | false, false => VStr "both"
  | false, true => VStr "current"
  | true, false => VStr "new"
  | true, true => VUndef
  end.

(** What the page receives for an entry: texts throughout, success exactly for
    finished migrations, and for a pending one the side that is missing. *)
Definition shown_as (m d : val) : Prop :=
  a_text (opt_prop d "initiatedAt") = true ∧ optional a_text (opt_prop d "completedAt") = true ∧
  optional a_text (opt_prop d "revertedAt") = true ∧
  opt_prop d "status" = (if finished m then VStr "success" else opt_prop m "status") ∧
  (opt_prop d "status" = VStr "pending" → opt_prop d "pendingFrom" = missing_side m).

Lemma date_text_ok v fallback :
  optional a_date v = true → ∃ w, date_text Date_toISOString v fallback = Returned w ∧ (w = fallback ∨ a_text w = true).
Proof.
  intros Hv. unfold date_text. destruct (truthy v) eqn:E; [|eauto]. destruct v; try done; eauto.
Qed.

Lemma a_date_optional v : a_date v = true → optional a_date v = true.
Proof. by destruct v. Qed.

Lemma display_status m : entry_ok m = true →
  (display m).1 = (if finished m then VStr "success" else opt_prop m "status") ∧
  ((display m).1 = VStr "pending" → (display m).2 = missing_side m).
Proof.
  intros Hm. pose proof (entry_field m "status" _ Hm ltac:(cbn; tauto)) as Hs.
  destruct (opt_prop m "status") as [| | | |s| | | |] eqn:Es; try done.
  apply has_spec in Hs. unfold statuses in Hs. unfold display, finished, missing_side. rewrite Es.
  destruct (strict_eq (opt_prop m "currentEmailVerified") _), (strict_eq (opt_prop m "newEmailVerified") _),
    (truthy (opt_prop m "completedAt"));
    repeat (apply elem_of_cons in Hs as [->|Hs]; [by vm_compute|]); by apply not_elem_of_nil in Hs.
Qed.

Lemma display_entry_ok t m : entry_ok m = true →
  ∃ d, display_entry Date_toISOString t m = Returned d ∧ shown_as m d.
Proof.
  intros Hm. destruct (display_status m Hm) as [H1 H2]. unfold display_entry. destruct (display m) as [st from]. cbn [fst snd] in *.
  destruct (date_text_ok (opt_prop m "initiatedAt") (VStr (Date_toISOString t))) as (a & -> & Ha).
  { apply a_date_optional. eapply (entry_field m "initiatedAt"); [done|cbn; tauto]. }
  destruct (date_text_ok (opt_prop m "completedAt") VUndef) as (b & -> & Hb).
  { eapply (entry_field m "completedAt"); [done|cbn; tauto]. }
  destruct (date_text_ok (opt_prop m "revertedAt") VUndef) as (c & -> & Hc).
  { eapply (entry_field m "revertedAt"); [done|cbn; tauto]. }
  cbn [outcome_bind]. eexists. split; [reflexivity|]. unfold shown_as, opt_prop, get_prop, obj_get. cbn. split_and!.
  - by destruct Ha as [->|?].
  - destruct Hb as [->|?]; [done|by destruct b].
  - destruct Hc as [->|?]; [done|by destruct c].
  - exact H1.
  - exact H2.
Qed.

Lemma display_all_ok t l : forallb entry_ok l = true →
  ∃ ds, display_all Date_toISOString t l = Returned ds ∧ Forall2 shown_as l ds.
Proof.
  induction l as [|m l IH]; [by exists []|]. intros [Hm Hl]%andb_true_iff.
  destruct (display_entry_ok t m Hm) as (d & Hd & Hs), (IH Hl) as (ds & Hds & Hss).
  exists (d :: ds). cbn [display_all]. rewrite Hd, Hds. split; [done|by constructor].
Qed.
End Stored.

Local Abbreviation history u := (user_get u "migrationHistory").

Lemma start_history sha256_hex u newEmail h :
  user_get (start_migration sha256_hex u newEmail h) "migrationHistory" =
    VArr (array_of (user_get (ensure_history u) "migrationHistory") ++
          [history_entry (user_get u "email") (VStr (toLowerCase newEmail)) "pending" (VDate h.1) VUndef false (VStr "both")]).
Proof.
  unfold start_migration. rewrite with_history_get.
  set (u1 := user_set _ "lastMigrationEmailSent" _).
  assert (Hv : ∀ f, has ["migrationHistory"; "email"] f = true → obj_get (_values u1) f = obj_get (_values u) f).
  { intros f Hf. unfold u1. rewrite !user_set_values by by vm_compute. cbn [_values]. rewrite !obj_get_set_ne; [done|..];
      by intros <-. }
  assert (Hm : user_get u1 "migrationHistory" = user_get u "migrationHistory").
  { rewrite !user_get_value by done. by apply Hv. }
  assert (He : user_get u1 "email" = user_get u "email"). { rewrite !user_get_value by done. by apply Hv. }
  rewrite He. f_equal. f_equal. unfold ensure_history. rewrite Hm.
  destruct (truthy (user_get u "migrationHistory")); [by rewrite Hm|].
  by rewrite !user_get_value, !user_set_values by done; cbn [_values]; rewrite !obj_get_set_eq.
Qed.

(** ** Recording a verification *)

Section Recording.
Context (Date_toString Date_toISOString : Z → string) (hashPassword : string → string).
Context `{RKV : RedisKV} `{UDB : UsersDb} {DL : UsersDbLaws UDB} {TL : UsersTableLaws UDB} `{IDB : IndexDb} `{FK : !ForeignKey UDB IDB}.
Context (t0 t1 : Z).

(** The row of the account got a well-typed history whose last entry has the
    verified side and names the missing one; nothing else has changed. *)
Definition flagged (field : string) (missing : val) (i : string) (r : object) (s s' : App) : Prop :=
  ∃ r' l m, table (app_users s') = <[i := r']> (table (app_users s)) ∧ row_changed r [("migration_history", VArr (l ++ [m]))] r' ∧
    forallb entry_ok (l ++ [m]) = true ∧ opt_prop m field = VBool true ∧ opt_prop m "pendingFrom" = missing.

Definition verification_recorded (field : string) (missing : val) (i : string) (r : object) (toEmail : val) (s : App)
    (res : failure + unit) (s' : App) : Prop :=
  res = inr tt ∧ app_index s' = app_index s ∧ app_outbox s' = app_outbox s ∧
  if latest_pending (array_of (obj_get r "migration_history")) toEmail then flagged field missing i r s s'
  else table (app_users s') = table (app_users s).

Lemma flag_entry m field missing :
  entry_ok m = true → field_type field (VBool true) = true → String.eqb field "pendingFrom" = false →
  optional (a_member sides) missing = true →
  let m' := of_json (default JNull (to_json Date_toISOString (set_prop (set_prop m field (VBool true)) "pendingFrom" missing))) in
  entry_ok m' = true ∧ opt_prop m' field = VBool true ∧ opt_prop m' "pendingFrom" = missing.
Proof.
  intros Hm Hf Hne Hs m'. assert (Hok : entry_ok (set_prop (set_prop m field (VBool true)) "pendingFrom" missing) = true).
  { apply set_prop_ok; [|exact Hs]. by apply set_prop_ok. }
  subst m'. split; [by apply stored_entry|]. rewrite !stored_member by done.
  destruct m as [| | | | | | | |o]; try done. unfold opt_prop, get_prop, set_prop. apply String.eqb_neq in Hne.
  rewrite obj_get_set_eq, obj_get_set_ne, obj_get_set_eq by congruence. split; [done|].
  by destruct missing as [| | | | | | | |].
Qed.

Lemma record_spec user field missing i r s :
  field_type field (VBool true) = true → String.eqb field "pendingFrom" = false → optional (a_member sides) missing = true →
  user_get user "_id" = VStr i → table (app_users s) !! i = Some r → history_ok (obj_get r "migration_history") = true →
  always (during t0 t1) (record_verification Date_toString Date_toISOString hashPassword user field missing) s
    (verification_recorded field missing i r (lower_val (user_get user "newEmailPending")) s).
Proof.
  intros Hf Hne Hs Hid Hr Hh. destruct s as [c d x rv m o]. unfold record_verification. rewrite Hid. cbn [app_users] in Hr.
  step step_find; [by vm_compute|]. intros c1. rewrite Hr. cbn [fmap option_fmap option_map].
  set (cols := projection None). assert (Hnd : NoDup cols) by (apply (bool_decide_unpack _); by vm_compute).
  pose proof (document_of cols r Hnd) as Hdoc.
  assert (Hget : user_get (document cols r) "migrationHistory" = obj_get r "migration_history").
  { by apply (doc_field cols r _ "migrationHistory" Hdoc); vm_compute. }
  rewrite Hget. unfold verification_recorded. destruct (latest_pending _ _) eqn:El; [|by apply always_ret].
  destruct (obj_get r "migration_history") as [| | | | | | |l|] eqn:Er; try done.
  destruct l as [|e l _] using rev_ind; [done|]. cbn [array_of history_ok] in *.
  rewrite forallb_app in Hh. apply andb_true_iff in Hh as [Hl [He _]%andb_true_iff].
  unfold with_history. rewrite Hget. cbn [array_of]. unfold change_last. rewrite last_snoc, removelast_last.
  set (h := l ++ _).
  eapply (step_save _ _ (during t0 t1)) with (i := i) (ps := [("migrationHistory", VArr h)]) (r := r) (cols := cols);
    [exact Hr|exact Hdoc|by vm_compute|by apply history_patch_ok| | |].
  - apply (edited_json _ [] _ "migrationHistory" (VArr h)); [apply edited_refl; by constructor|apply has_spec; by vm_compute].
  - by apply (unique_kept _ _ r _ i d Hr).
  - intros c2 d' r' Ht Hp _. apply always_ret. split_and!; [done|done|done|]. cbn [app_users].
    destruct (flag_entry e field missing He Hf Hne Hs) as (H1 & H2 & H3).
    eexists r', (map (λ m, of_json (default JNull (to_json Date_toISOString m))) l), _. split; [exact Ht|]. split; [|split; [|split; [exact H2|exact H3]]].
    + eapply row_patched_changed; [exact Hp|]. apply Forall_forall. intros f Hf'. cbn [obj_lookup patch_value foldl fst snd].
      destruct (String.eqb_spec "migrationHistory" f) as [<-|Hn].
      * cbn [fmap option_fmap option_map]. rewrite stored_history_array. unfold h. by rewrite map_app.
      * assert (Hc : String.eqb "migration_history" (col_of f) = false); [|by rewrite Hc].
        apply String.eqb_neq. intros Hc. apply Hn. by apply col_of_inj; [by vm_compute|by apply has_spec|].
    + rewrite forallb_app. cbn [forallb]. rewrite H1, andb_true_r. apply forallb_forall. intros y Hy%list_elem_of_In.
      apply list_elem_of_fmap in Hy as (z & -> & Hz). apply stored_entry. rewrite forallb_forall in Hl.
      by apply Hl, list_elem_of_In.
Qed.
End Recording.


(** A migration from its start to the verification of the new address. *)
Module HistoryRun.
Definition before : User := new_User [("email", VStr "a@x")] false.
Definition env : Z * AppEnv := (1000, MemApp.always_fine 0).
Definition started : User := start_migration MemApp.sha before "B@x" env.
Definition kept : val := cell_of MemApp.iso MemApp.hash "migrationHistory" (user_get started "migrationHistory").
Definition row : object :=
  MemApp.account [("id", VStr "u1"); ("email", VStr "a@x"); ("display_name", VStr "A"); ("new_email_pending", VStr "b@x"); ("migration_history", kept)].
Definition user : User := document all_columns row.
Definition app := MemApp.app [("u1", row)] [].
Definition final := run (record_new MemApp.iso MemApp.iso MemApp.hash (RKV := MemKV.mem_kv) (UDB := MemTable.mem_table)
  (IDB := MemIndex.mem_index) (FK := MemApp.mem_fk) user) MemApp.always_fine app.
Definition history_after : val :=
  match table (app_users final.2) !! "u1" with Some r => obj_get r "migration_history" | None => VUndef end.
End HistoryRun.

