(* ===== verification/AuthFacts.v ===== *)
(** * What the authentication handlers guarantee

    Theorems about whole handlers of [AuthController]: every run of the handler
    during a window of time, whatever the cache and the SMTP server do, and
    what it leaves in the users table, the identity index, the outbox and the
    revocation log. *)

From S2P Require Import Prelude CircuitConfig RollingWindow CircuitBreaker GuardedCalls Async RedisCache Json JsVal Columns SqlFilter SqlMeaning Password UserModel OneTimeCodes Sessions IdentityIndex Tokens SessionHandlers UsersTable Documents Application AuthController AppFacts MemApp.
#[local] Open Scope string_scope.
#[local] Open Scope list_scope.
#[local] Open Scope Z_scope.
#[local] Open Scope async_scope.

(** ** Cells *)

Section Cells.
Context (Date_toISOString : Z → string) (hashPassword : string → string).
Local Abbreviation param := (field_param Date_toISOString hashPassword true).
Local Abbreviation patch_ok := (patch_ok Date_toISOString hashPassword).

Lemma password_param p : p ≠ "" → param "password" (VStr p) = VStr (hashPassword p).
Proof.
  intros Hp. unfold field_param. change (has JSONB_FIELDS "password") with false. cbn [andb String.eqb Ascii.eqb Bool.eqb].
  destruct p as [|a p]; [done|]. unfold strlen. cbn [String.length]. by rewrite (proj2 (Z.ltb_lt _ _)) by lia.
Qed.

Lemma patch_ok_app ps qs : patch_ok (ps ++ qs) = patch_ok ps && patch_ok qs.
Proof. apply forallb_app. Qed.

Lemma patch_ok_password p : patch_ok [("password", VStr p)] = true.
Proof.
  unfold Documents.patch_ok. cbn [forallb fst snd]. unfold field_param. change (has JSONB_FIELDS "password") with false.
  cbn [andb String.eqb Ascii.eqb Bool.eqb]. by destruct (0 <? strlen p).
Qed.

Lemma patch_ok_version n : - 2 ^ 31 ≤ n < 2 ^ 31 → patch_ok [("tokenVersion", VNum n)] = true.
Proof.
  intros [H1 H2]. unfold Documents.patch_ok. cbn [forallb fst snd]. change (writable "tokenVersion") with true.
  change (param_ok _) with ((- 2 ^ 31 <=? n) && (n <? 2 ^ 31)).
  by rewrite (proj2 (Z.leb_le _ _) H1), (proj2 (Z.ltb_lt _ _) H2).
Qed.
End Cells.

(** A typed cell of a row *)
Lemma typed_cell r c : row_typed r = true → has all_columns c = true → cell_ok c (obj_get r c) = true.
Proof. intros [_ H]%row_typed_spec Hc. by apply H. Qed.

Lemma typed_array r c : row_typed r = true → has jsonb_columns c = true → ∃ l, obj_get r c = VArr l ∧ forallb json_val l = true.
Proof.
  intros Hr Hc. assert (Ha : cell_ok c (obj_get r c) = true).
  { apply typed_cell; [done|]. apply has_spec in Hc. unfold jsonb_columns in Hc.
    repeat (apply elem_of_cons in Hc as [->|Hc]; [by vm_compute|]). by apply not_elem_of_nil in Hc. }
  apply has_spec in Hc. unfold jsonb_columns in Hc.
  repeat (apply elem_of_cons in Hc as [->|Hc]; [destruct (obj_get r _); try (by vm_compute in Ha); eauto|]).
  by apply not_elem_of_nil in Hc.
Qed.

Lemma typed_version r : row_typed r = true → ∃ n, obj_get r "token_version" = VNum n ∧ - 2 ^ 31 ≤ n < 2 ^ 31.
Proof.
  intros Hr. pose proof (typed_cell r "token_version" Hr eq_refl) as H.
  unfold cell_ok in H. change (column_type "token_version") with (Some (TInt, true)) in H. cbv iota beta in H.
  destruct (obj_get r "token_version") as [| | |n|s| | | |]; try discriminate H. exists n. split; [done|].
  apply andb_true_iff in H as [H1 H2].
  by apply Z.leb_le in H1; apply Z.ltb_lt in H2.
Qed.

Lemma typed_text r c : row_typed r = true → column_type c = Some (TText, true) → ∃ s, obj_get r c = VStr s.
Proof.
  intros Hr Hc. assert (Hin : has all_columns c = true).
  { unfold column_type in Hc. destruct (find _ users_schema) as [[c' ty]|] eqn:E; [|done]. apply find_some in E as [Hin Heq].
    apply String.eqb_eq in Heq. cbn in Heq. subst c'. apply has_spec, list_elem_of_fmap. exists (c, ty). split; [done|]. by apply list_elem_of_In. }
  pose proof (typed_cell r c Hr Hin) as H. unfold cell_ok in H. rewrite Hc in H. destruct (obj_get r c); try discriminate H. eauto.
Qed.

Lemma typed_optional r c : row_typed r = true → column_type c = Some (TText, false) → text (obj_get r c).
Proof.
  intros Hr Hc Ht. assert (Hin : has all_columns c = true).
  { unfold column_type in Hc. destruct (find _ users_schema) as [[c' ty]|] eqn:E; [|done]. apply find_some in E as [Hin Heq].
    apply String.eqb_eq in Heq. cbn in Heq. subst c'. apply has_spec, list_elem_of_fmap. exists (c, ty). split; [done|]. by apply list_elem_of_In. }
  pose proof (typed_cell r c Hr Hin) as H. unfold cell_ok in H. rewrite Hc in H.
  destruct (obj_get r c); try discriminate H; try discriminate Ht. eauto.
Qed.

(** Token versions can be increased. *)
Definition versions_ok (t : gmap string object) : Prop :=
  ∀ i r n, t !! i = Some r → obj_get r "token_version" = VNum n → n + 1 < 2 ^ 31.

Lemma strict_neq v s : v ≠ VStr s → strict_eq v (VStr s) = false.
Proof. destruct v; try done. cbn. intros H. apply String.eqb_neq. congruence. Qed.

(** ** Selected rows *)

Lemma selected_all params r l : selected no_order params r l = true → Forall (λ c, sql_eval no_order params r c = Some true) l.
Proof. unfold selected. intros H. apply group_true. by destruct (sql_eval _ _ _ _) as [[]|]. Qed.

Lemma equal_true a v : cmp3 no_order SqlMeaning.CEq a v = Some true → a = v.
Proof. unfold cmp3. destruct (null a || null v); [done|]. intros [= H]. by apply same_eq. Qed.

Lemma later_true a t : cmp3 no_order SqlMeaning.CGt a (VDate t) = Some true → ∃ x, a = VDate x ∧ t < x.
Proof. unfold cmp3. destruct (null a || _); [done|]. intros [= H]. destruct a; try done. eexists. split; [done|]. by apply Z.ltb_lt. Qed.

(** ** Password reset *)

Section Reset.
Context (sha256_hex : string → string) (Date_toString Date_toISOString : Z → string) (hashPassword : string → string).
Context `{RKV : RedisKV} `{UDB : UsersDb} {DL : UsersDbLaws UDB} {TL : UsersTableLaws UDB} `{IDB : IndexDb}.
Context `{FK : !ForeignKey UDB IDB}.
Local Abbreviation reset := (resetPassword sha256_hex Date_toString Date_toISOString hashPassword).

(** At the time [t] a form token stands for [secret], for an action of the given kind:
    the record kept under it, in Redis or in memory, says so and has not expired. *)
Definition form_grants (s : App) (formToken : string) (kind : string) (t : Z) (secret : string) : Prop :=
  ∃ payload,
    ((∃ raw, kv_get t ("uam:email-form:" +:+ formToken) (store (app_cache s)) = Some raw ∧ parse raw = Some payload) ∨
     (∃ expires, mem_forms (app_memory s) !! formToken = Some (payload, expires) ∧ t ≤ expires)) ∧
    get_member "kind" payload = Some (JStr kind) ∧ get_member "secret" payload = Some (JStr secret).

(** A form token is consumed only as what it was issued for. *)
Lemma consumed_granted formToken kind es s secret meta :
  (run (EmailLink.consumeFormToken formToken kind) es (link_part s)).1 = Some (Some (JStr secret), meta) →
  ∃ t, RedisCache.clock (app_cache s) ≤ t ∧ form_grants s formToken (EmailLink.kind_name kind) t secret.
Proof.
  assert (Hform : ∀ payload, EmailLink.form_result kind payload = Some (Some (JStr secret), meta) →
    get_member "kind" payload = Some (JStr (EmailLink.kind_name kind)) ∧ get_member "secret" payload = Some (JStr secret)).
  { intros payload. unfold EmailLink.form_result. destruct (json_truthy payload); [cbn [negb]|done].
    destruct (get_member "kind" payload) as [[| | |k| |]|]; try done. destruct (String.eqb_spec k (EmailLink.kind_name kind)) as [->|]; [|done].
    by intros [= -> _]. }
  unfold EmailLink.consumeFormToken. destruct (malformed formToken); [done|]. unfold take_once, seg, act. cbn [bind run].
  set (c1 := advance (es O) (app_cache s)). destruct (advance_frame (es O) (app_cache s)) as (Hst & Hck & _). fold c1 in Hst, Hck.
  change (cache_of (with_cache _ (link_part s))) with c1. destruct (isRedisAvailable c1).
  - unfold on_cache. change (cache_of (with_cache _ (link_part s))) with c1.
    pose proof (cacheGet_spec (es O) (EmailLink.form_key formToken) c1) as Hg.
    destruct (cacheGet (es O) _ c1) as [[raw|] c2]; [|done]. destruct Hg as (_ & _ & Hg & _).
    destruct (String.eqb raw ""); [done|]. cbn [run bind]. unfold on_cache. destruct (cacheDel _ _ _) as [u c3]. cbn [run fst].
    destruct (parse raw) as [payload|] eqn:Ep; [|done]. intros [Hk Hs]%Hform. exists (RedisCache.clock c1). split; [lia|].
    exists payload. split; [|done]. left. exists raw. split; [|done]. destruct Hg as [|Hg]; [done|]. by rewrite Hg, Hst.
  - cbn [fst snd run]. change (EmailLink.memoryForms (with_cache _ (link_part s))) with (mem_forms (app_memory s)).
    change (RedisCache.clock (EmailLink.cache _)) with (RedisCache.clock c1).
    destruct (mem_forms (app_memory s) !! formToken) as [[payload expires]|] eqn:Em; [|done]. unfold live.
    destruct (Z.ltb_spec expires (RedisCache.clock c1)) as [|Hlt]; [done|]. intros [Hk Hs]%Hform. exists (RedisCache.clock c1). split; [lia|].
    exists payload. split; [|done]. right. exists expires. done.
Qed.

(** The row holds a reset token that is valid at the time [t]. *)
Definition reset_token_valid (r : object) (secret : string) (t : Z) : Prop :=
  obj_get r "password_reset_token" = VStr (sha256_hex secret) ∧
  ∃ expires, obj_get r "password_reset_expires" = VDate expires ∧ t < expires.

(** What a reset does to the row of the account *)
Definition reset_columns (password : string) (n : Z) : object :=
  [("password", VStr (hashPassword password)); ("password_reset_token", VNull); ("password_reset_expires", VNull);
   ("refresh_tokens", VArr []); ("active_access_jtis", VArr []); ("token_version", VNum (n + 1))].

Definition reset_patch (password : string) (n : Z) : object :=
  [("password", VStr password); ("passwordResetToken", VUndef); ("passwordResetExpires", VUndef);
   ("refreshTokens", VArr []); ("activeAccessJtis", VArr []); ("tokenVersion", VNum n)].

Lemma reset_patch_ok password n :
  password ≠ "" → - 2 ^ 31 ≤ n < 2 ^ 31 → patch_ok Date_toISOString hashPassword (reset_patch password n) = true.
Proof.
  intros Hp Hn. unfold reset_patch.
  change (_ :: _) with ([("password", VStr password)] ++ [("passwordResetToken", VUndef); ("passwordResetExpires", VUndef);
   ("refreshTokens", VArr []); ("activeAccessJtis", VArr [])] ++ [("tokenVersion", VNum n)]).
  rewrite !patch_ok_app, patch_ok_password, patch_ok_version by done. by vm_compute.
Qed.

Lemma reset_changed r r' password n :
  password ≠ "" → row_patched Date_toISOString hashPassword r (reset_patch password (n + 1)) r' →
  row_changed r (reset_columns password n) r'.
Proof.
  intros Hp H. eapply row_patched_changed; [exact H|]. unfold cell_of.
  repeat (constructor; [first [reflexivity | cbn [patch_value reset_patch foldl fst snd String.eqb Ascii.eqb Bool.eqb];
    cbn [fmap option_fmap option_map]; rewrite password_param by done; reflexivity]|]). constructor.
Qed.


(** Everything a reset may do, from the moment the account is known. *)
Definition reset_done (t0 t1 : Z) (formToken password : string) (s : App) (res : Response) (s' : App) : Prop :=
  app_index s' = app_index s ∧ app_outbox s' = app_outbox s ∧
  (status res ≠ 200 ∧ app_users s' = app_users s ∧ app_revocations s' = app_revocations s ∨
   res = success "Password reset successfully" [] ∧
   ∃ secret tf t i r n jtis r',
     RedisCache.clock (app_cache s) ≤ tf ∧ form_grants s formToken "reset-password" tf secret ∧
     t0 ≤ t ≤ t1 ∧ table (app_users s) !! i = Some r ∧ reset_token_valid r secret t ∧
     obj_get r "token_version" = VNum n ∧ obj_get r "active_access_jtis" = VArr jtis ∧
     table (app_users s') = <[i := r']> (table (app_users s)) ∧ row_changed r (reset_columns password n) r' ∧
     app_revocations s' = app_revocations s ++ revoke_requests jtis).

Section Runs.
Context (t0 t1 : Z) (P : AppEnv → App → Prop) {HP : Window P t0 t1} (s : App) (formToken password : string).
Context (Hpw : password ≠ "") (Hver : versions_ok (table (app_users s))).

Lemma reset_refused c m code message :
  code ≠ 200 →
  reset_done t0 t1 formToken password s (refuse code message) (mkApp c (app_users s) (app_index s) (app_revocations s) m (app_outbox s)).
Proof. intros Hc. split; [done|]. split; [done|]. by left. Qed.

(** The account was found and its new version is published. *)
Lemma reset_saves secret tf t i r c m :
  RedisCache.clock (app_cache s) ≤ tf → form_grants s formToken "reset-password" tf secret →
  t0 ≤ t ≤ t1 → table (app_users s) !! i = Some r → reset_token_valid r secret t →
  let user := document (projection (Some "+refreshTokens +activeAccessJtis")) r in
  always P
    (session (revokeAllTrackedAccessJtis (user_get user "activeAccessJtis")) ;;
     let* _ := save_account Date_toISOString hashPassword (patch user (reset_patch password (token_version user + 1))) in
     Ret (inr (success "Password reset successfully" [])))
    (mkApp c (app_users s) (app_index s) (app_revocations s) m (app_outbox s))
    (λ res s', match res with inl _ => False | inr a => reset_done t0 t1 formToken password s a s' end).
Proof.
  intros Htf Hform Ht01 Hr Hsec user. pose proof (tb_typed _ _ _ Hr) as Ht.
  set (cols := projection _) in user. assert (Hcols : NoDup cols ∧ has cols "id" = true).
  { split; [apply (bool_decide_unpack _)|]; by vm_compute. }
  destruct Hcols as [Hnd Hid]. pose proof (document_of cols r Hnd) as Hdoc. fold user in Hdoc.
  destruct (typed_version r Ht) as (n & Hn & Hrange), (typed_array r "active_access_jtis" Ht eq_refl) as (jtis & Hj & _).
  assert (Huv : user_get user "tokenVersion" = VNum n).
  { rewrite (doc_field cols r user "tokenVersion" Hdoc) by by vm_compute. exact Hn. }
  assert (Huj : user_get user "activeAccessJtis" = VArr jtis).
  { rewrite (doc_field cols r user "activeAccessJtis" Hdoc) by by vm_compute. exact Hj. }
  unfold token_version. rewrite Huv, Huj. apply step_revoke. intros c1.
  assert (Hlim : n + 1 < 2 ^ 31) by (eapply Hver; eauto).
  pose proof (reset_patch_ok password (n + 1) Hpw ltac:(lia)) as Hok.
  eapply (step_save Date_toISOString hashPassword P _ _ _ _ _ _ _ i cols r user (reset_patch password (n + 1)));
    [exact Hr|exact Hdoc|exact Hid|exact Hok| | |].
  - apply (edited_patch user [] user); [|by eapply patch_ok_writable].
    apply edited_refl. rewrite (doc_modified _ _ _ Hdoc). constructor.
  - by apply unique_kept.
  - intros c2 d' r' Htab Hp Hty. apply always_ret. split; [done|]. split; [done|]. right. split; [done|].
    exists secret, tf, t, i, r, n, jtis, r'. split_and!; try done; try lia. by apply reset_changed.
Qed.
End Runs.

(** C9. A password is changed only by a reset token that was mailed for the
    account and has not expired.  Every run of the reset handler either leaves
    all accounts as they are and answers with an error, or answers success
    after exactly this: the presented form token stood, unexpired, for a
    password reset with some secret (in Redis or in memory); one account, whose
    row holds the digest of that secret with an expiry after a moment of the
    run, has the hash of the new
    password; its reset token is used up, all its refresh tokens are gone, its
    token version is one higher (so every access token issued before is
    refused), and revocation of the access tokens it tracked was requested. *)
Theorem reset_spec t0 t1 formToken password s :
  password ≠ "" → versions_ok (table (app_users s)) →
  always (during t0 t1) (reset formToken password) s (reset_done t0 t1 formToken password s).
Proof.
  intros Hpw Hver. unfold resetPassword. apply always_catch. set (s0 := s). destruct s as [c d x rv m o]. subst s0.
  apply step_link. intros es c1 m1. destruct (run _ _ _).1 as [[secret meta]|] eqn:Econ; [|by apply always_ret, reset_refused].
  destruct (secret_text secret) as [e|sec] eqn:Esec; cbn [bind]; [by apply always_ret, always_ret, reset_refused|].
  assert (Hgrant : ∃ tf, RedisCache.clock c ≤ tf ∧ form_grants (mkApp c d x rv m o) formToken "reset-password" tf sec).
  { apply (consumed_granted formToken EmailLink.reset_password es (mkApp c d x rv m o) sec meta).
    rewrite Econ. by destruct secret as [[]|]; simplify_eq/=. }
  destruct Hgrant as (tf & Htf & Hform).
  eapply (step_find_where Date_toString Date_toISOString t0 t1 (during t0 t1) _ _ _ _ _ _ _
    (λ t, VObj [("passwordResetToken", VStr (sha256_hex sec)); ("passwordResetExpires", VObj [("$gt", VDate t)])])
    by_reset_token (λ t, [VStr (sha256_hex sec); VDate t]) (Some "+refreshTokens +activeAccessJtis"));
    [by vm_compute|reflexivity|apply list_elem_of_In; cbn; tauto|reflexivity|reflexivity| |].
  { intros c2 t _ _. by apply always_ret, reset_refused. }
  intros c2 t i r Ht Hr Hsel. apply selected_all in Hsel. apply Forall_cons in Hsel as [H1 Hsel]. apply Forall_cons in Hsel as [H2 _].
  apply group_true, Forall_cons in H2 as [H2 _]. apply equal_true in H1. apply later_true in H2 as (exp & Hexp & Hlt).
  apply step_publish. intros c3 b. destruct b; [|by apply always_ret, reset_refused]. cbn [negb].
  eapply always_mono; [eapply (reset_saves t0 t1 (during t0 t1) (mkApp c d x rv m o) formToken password Hpw Hver sec tf t i r);
    [exact Htf|exact Hform|exact Ht|exact Hr|]|].
  - split; [exact H1|]. exists exp. split; [exact Hexp|lia].
  - by intros [e|a] s'.
Qed.

(** Without Redis no password can be reset: whatever form token is presented,
    no run of the handler answers success and no account changes. *)
Theorem reset_needs_redis t0 t1 formToken password s :
  always (without_redis t0 t1) (reset formToken password) s (λ res s',
    status res ≠ 200 ∧ app_users s' = app_users s).
Proof.
  unfold resetPassword. apply always_catch. destruct s as [c d x rv m o].
  apply step_link. intros es c1 m1. destruct (run _ _ _).1 as [[secret meta]|]; [|by apply always_ret].
  destruct (secret_text secret) as [e|sec] eqn:Esec; cbn [bind]; [by apply always_ret, always_ret|].
  eapply (step_find_where Date_toString Date_toISOString t0 t1 (without_redis t0 t1) _ _ _ _ _ _ _
    (λ t, VObj [("passwordResetToken", VStr (sha256_hex sec)); ("passwordResetExpires", VObj [("$gt", VDate t)])])
    by_reset_token (λ t, [VStr (sha256_hex sec); VDate t]) (Some "+refreshTokens +activeAccessJtis"));
    [by vm_compute|reflexivity|apply list_elem_of_In; cbn; tauto|reflexivity|reflexivity|by intros; apply always_ret|].
  intros c2 t i r Ht Hr Hsel. apply step_publish_down; [by intros e s [_ ?]|]. intros c3. by apply always_ret.
Qed.
End Reset.

(** ** Login *)

(** Rows that agree except in the given columns *)
Definition row_kept (changed : list string) (r r' : object) : Prop :=
  ∀ c, has all_columns c = true → has ("updated_at" :: changed) c = false → obj_get r' c = obj_get r c.

Lemma row_kept_refl l r : row_kept l r r.
Proof. by intros c. Qed.

Lemma row_kept_trans l1 l2 l r1 r2 r3 :
  row_kept l1 r1 r2 → row_kept l2 r2 r3 → forallb (has l) (l1 ++ l2) = true → row_kept l r1 r3.
Proof.
  intros H12 H23 Hl c Hc Hn. rewrite forallb_forall in Hl. cbn in Hn. apply orb_false_iff in Hn as [Hu Hn].
  assert (Hno : ∀ l', (∀ x, In x l' → In x (l1 ++ l2)) → has ("updated_at" :: l') c = false).
  { intros l' Hsub. cbn. rewrite Hu. cbn. destruct (has l' c) eqn:E; [|done]. apply has_spec, list_elem_of_In, Hsub, Hl in E.
    change (has l c = false) in Hn. congruence. }
  rewrite (H23 c Hc), (H12 c Hc); [done|apply Hno|apply Hno]; intros x Hx; apply in_or_app; auto.
Qed.

(** A document that shows the given fields of a row *)
Definition shows (fields : list string) (r : object) (u : User) : Prop :=
  user_get u "_id" = obj_get r "id" ∧ ∀ f, has fields f = true → user_get u f = obj_get r (col_of f).

Lemma doc_shows fields cols r u :
  doc_of cols r u → has cols "id" = true →
  forallb (λ f, has ALL_FIELDS f && negb (String.eqb f "_id") && has cols (col_of f)) fields = true → shows fields r u.
Proof.
  intros Hu Hid Hf. split; [by apply (doc_id_get cols)|]. intros f Hin. rewrite forallb_forall in Hf.
  apply has_spec, list_elem_of_In, Hf, andb_true_iff in Hin as [[Ha Hne]%andb_true_iff Hc].
  apply (doc_field cols); try done. apply negb_true_iff in Hne. by apply String.eqb_neq.
Qed.

(** Documents of rows can be synchronised with the index. *)
Definition index_fields : list string := ["email"; "previousEmail"; "newEmailPending"; "provider"; "providerId"].

Lemma shows_indexable r u uid email :
  shows index_fields r u → row_typed r = true → obj_get r "id" = VStr uid → uid ≠ "" → obj_get r "email" = VStr email →
  indexable u uid email.
Proof.
  intros [Hid Hf] Hr Hi Hne He. split.
  - by rewrite Hid.
  - done.
  - rewrite (Hf "email" eq_refl). exact He.
  - rewrite (Hf "previousEmail" eq_refl). by apply (typed_optional r "previous_email").
  - rewrite (Hf "newEmailPending" eq_refl). by apply (typed_optional r "new_email_pending").
  - rewrite (Hf "provider" eq_refl). by apply (typed_text r "provider").
  - rewrite (Hf "providerId" eq_refl). by apply (typed_optional r "provider_id").
Qed.

Lemma saved_shows fields r :
  row_typed r = true → forallb (λ f, has ALL_FIELDS f && negb (String.eqb f "_id")) fields = true → shows fields r (saved r).
Proof.
  intros Hr Hf. split; [apply (doc_id_get all_columns); [by apply saved_of|by vm_compute]|].
  intros f Hin. rewrite forallb_forall in Hf. apply has_spec, list_elem_of_In, Hf, andb_true_iff in Hin as [Ha Hn].
  apply (doc_field all_columns); [by apply saved_of|done|by apply String.eqb_neq, negb_true_iff|by apply all_columns_has].
Qed.

Lemma shows_set fields r u f v : shows fields r u → writable f = true → has fields f = false → shows fields r (user_set u f v).
Proof.
  intros [Hid H] Hf Hn. assert (Hget : ∀ g, g ≠ "_id" → g ≠ f → user_get (user_set u f v) g = user_get u g).
  { intros g Hg Hgf. rewrite !user_get_value, user_set_values by done. cbn [_values]. apply obj_get_set_ne. congruence. }
  split.
  - rewrite <- Hid. unfold user_get. cbn [String.eqb Ascii.eqb Bool.eqb]. rewrite user_set_values by done. cbn [_values].
    apply obj_get_set_ne. intros ->. by vm_compute in Hf.
  - intros g Hg. destruct (String.eqb_spec g "_id") as [->|Hne].
    { rewrite <- (H "_id" Hg). unfold user_get. cbn [String.eqb Ascii.eqb Bool.eqb]. rewrite user_set_values by done. cbn [_values].
      apply obj_get_set_ne. intros ->. by vm_compute in Hf. }
    rewrite Hget; [by apply H|done|]. intros ->. congruence.
Qed.

Section Login.
Context (sha256_hex base64url_decode : string → string) (hmac_sha256_hex : string → string → string).
Context (Date_toString Date_toISOString : Z → string) (startOfDay : Z → Z) (hashPassword : string → string).
Context (verifyPassword : string → option string → VerifyResult).
Context `{RKV : RedisKV} `{UDB : UsersDb} {DL : UsersDbLaws UDB} {TL : UsersTableLaws UDB}.
Context `{IDB : IndexDb} {IL : IndexDbLaws IDB} `{FK : !ForeignKey UDB IDB} `{J : Jwt} {JL : JwtLaws J}.
Context (config : AppConfig).
Local Abbreviation key := (emailKey hmac_sha256_hex (emailIndexSecret config) (accessSecret (cfg_jwt config))).

(** The password of the row is the given one. *)
Definition password_matches (r : object) (candidate : string) : bool :=
  match obj_get r "password" with
  | VStr h => negb (String.eqb h "") && pw_match (verifyPassword candidate (Some h))
  | _ => false
  end.

(** Comparing touches at most the hash, and only of the right password. *)
Lemma compare_spec candidate cols r u i d :
  table d !! i = Some r → doc_of cols r u → has cols "id" = true → has cols "password" = true →
  ∃ u' d' r', comparePassword Date_toISOString hashPassword verifyPassword candidate u d = (password_matches r candidate, u', d') ∧
    table d' = <[i := r']> (table d) ∧ row_kept ["password"] r r' ∧ (password_matches r candidate = false → r' = r ∧ d' = d) ∧
    ((u' = u ∧ r' = r) ∨ u' = saved r' ∧ row_typed r' = true).
Proof.
  intros Hr Hu Hid Hpw. unfold comparePassword, password_matches. rewrite (doc_get _ _ _ Hu "password") by by vm_compute.
  change (col_of "password") with "password". rewrite Hpw.
  assert (Hsame : ∃ u' d' r', (false, u, d) = (false, u', d') ∧ table d' = <[i := r']> (table d) ∧ row_kept ["password"] r r' ∧
    (false = false → r' = r ∧ d' = d) ∧ ((u' = u ∧ r' = r) ∨ u' = saved r' ∧ row_typed r' = true)).
  { exists u, d, r. rewrite insert_id by done. split_and!; try done. by left. }
  destruct (obj_get r "password") as [| | | |h| | | |] eqn:Eh; try exact Hsame.
  destruct (String.eqb h ""); [exact Hsame|]. cbn [negb andb].
  destruct (pw_match (verifyPassword candidate (Some h))); [|exact Hsame]. cbn [andb].
  destruct (needsRehash _).
  2: { exists u, d, r. rewrite insert_id by done. split_and!; try done. by left. }
  assert (He : edited u [("password", VStr candidate)] {| _values := obj_set (_values u) "password" (VStr candidate);
     _modified := set_add (_modified u) "password"; _isNew := _isNew u |}).
  { rewrite <- (user_set_values u "password" (VStr candidate)) by by vm_compute. apply (edited_set u [] u); [|by vm_compute].
    apply edited_refl. rewrite (doc_modified _ _ _ Hu). constructor. }
  destruct (save_edited Date_toISOString hashPassword "" cols r u _ _ i d Hr Hu Hid (patch_ok_password _ _ _) He)
    as (r' & d' & -> & Htab & Hp & Hty). { by apply unique_kept. }
  exists (saved r'), d', r'. split_and!; try done; [|by right].
  intros c Hc Hn. assert (Hch : row_changed r [("password", obj_get r' "password")] r').
  { eapply row_patched_changed; [exact Hp|]. pose proof (Hp "password" eq_refl ltac:(done)) as Hcell.
    change (col_of "password") with "password" in Hcell. rewrite Hcell. repeat (constructor; [reflexivity|]). constructor. }
  rewrite (Hch c Hc); [|by intros ->]. cbn [obj_lookup].
  destruct (String.eqb_spec "password" c) as [<-|]; [by vm_compute in Hn|done].
Qed.

(** *** The handler *)

Definition login_fields : list string := ["email"; "tokenVersion"; "isEmailVerified"; "lastLogin"; "loginCount"].
Definition login_cols : list string := projection (Some login_spec).

Lemma login_cols_ok :
  projection_ok (Some login_spec) = true ∧ NoDup login_cols ∧ has login_cols "id" = true ∧ has login_cols "password" = true.
Proof. split_and!; try (by vm_compute). apply (bool_decide_unpack _). by vm_compute. Qed.

Lemma count_login_shows u r t u' :
  count_login startOfDay config u t = Some u' → shows login_fields r u → shows ["email"; "tokenVersion"] r u'.
Proof.
  intros Hc Hu. assert (Hs : shows ["email"; "tokenVersion"] r u).
  { destruct Hu as [Hid H]. split; [done|]. intros f Hf. apply H. cbn in Hf |- *. destruct (String.eqb f "email"), (String.eqb f "tokenVersion"); done. }
  unfold count_login in Hc. destruct (_ =? _); [destruct (_ <=? _); [done|]|]; injection Hc as <-;
    (apply shows_set; [|by vm_compute|by vm_compute]; apply shows_set; [exact Hs|by vm_compute|by vm_compute]).
Qed.

(** The daily limit is reached by what the row says. *)
Definition limit_reached (r : object) (t : Z) : bool :=
  (match obj_get r "last_login" with VDate x => startOfDay x | _ => 0 end =? startOfDay t)
  && (maxDailyLogins config <=? count_of (obj_get r "login_count")).

Lemma count_login_limit u r t :
  shows login_fields r u → (count_login startOfDay config u t = None ↔ limit_reached r t = true).
Proof.
  intros [_ H]. unfold count_login, limit_reached.
  rewrite (H "lastLogin" eq_refl), (H "loginCount" eq_refl). change (col_of "lastLogin") with "last_login".
  change (col_of "loginCount") with "login_count". destruct (_ =? _); [|done]. by destruct (_ <=? _).
Qed.

(** What the login handler does with an account. *)
Definition session_opened (t0 t1 : Z) (r r' : object) (rts : list string) (res : Response) : Prop :=
  status res = 200 ∧
  ∃ access refresh csrf, obj_get r' "refresh_tokens" = strs (new_tokens None rts (sha256_hex refresh)) ∧
    (∃ u jtis t, t0 ≤ t ≤ t1 ∧ shows ["email"; "tokenVersion"] r u ∧
       generateTokenPair (cfg_jwt config) u jtis.1 jtis.2 t = Returned (access, refresh)) ∧
    cookie_ops res = (setAuthCookies (cfg_cookies config) (refreshExpiresIn (cfg_jwt config)) refresh csrf).2 ∧
    obj_get (json_body res) "accessToken" = VStr access.

Definition login_verdict (t0 t1 : Z) (r r' : object) (rts : list string) (candidate : string) (res : Response) : Prop :=
  if negb (strict_eq (obj_get r "provider") (VStr "local")) then res = auth_failed ∧ r' = r
  else if negb (password_matches r candidate) then res = invalid_credentials ∧ r' = r
  else if negb (truthy (obj_get r "is_email_verified")) then res = auth_failed ∧ row_kept ["password"] r r'
  else row_kept ["password"; "refresh_tokens"; "active_access_jtis"] r r' ∧
       ∃ t, t0 ≤ t ≤ t1 ∧
         if limit_reached r t
         then res = refuse 429 "Daily login limit exceeded. Please try again tomorrow." ∧ row_kept ["password"] r r'
         else session_opened t0 t1 r r' rts res.

Lemma shows_kept fields changed r r' u :
  shows fields r' u → row_kept changed r r' → has changed "id" = false →
  forallb (λ f, has all_columns (col_of f) && negb (has ("updated_at" :: changed) (col_of f))) fields = true → shows fields r u.
Proof.
  intros [Hid H] Hk Hi Hf. rewrite forallb_forall in Hf. split.
  - rewrite Hid. apply Hk; [by vm_compute|]. cbn. exact Hi.
  - intros f Hin. rewrite (H f Hin). apply has_spec, list_elem_of_In, Hf, andb_true_iff in Hin as [Ha Hn]. apply negb_true_iff in Hn.
    by apply Hk.
Qed.

Section Run.
Context (t0 t1 : Z) (s : App) (i : string) (r : object) (rts : list string).
Context (Hr : table (app_users s) !! i = Some r) (Hrts : obj_get r "refresh_tokens" = strs rts).
Context (Ha : accessSecret (cfg_jwt config) ≠ "") (Hs : refreshSecret (cfg_jwt config) ≠ "").
Local Abbreviation sessions := ["password"; "refresh_tokens"; "active_access_jtis"].

(** The state after a step that changed at most the row of the account *)
Local Abbreviation after c d := (mkApp c d (app_index s) (app_revocations s) (app_memory s) (app_outbox s)).

Lemma complete_login_spec r1 c d u :
  table d = <[i := r1]> (table (app_users s)) → row_kept ["password"] r r1 → row_typed r1 = true →
  shows ["email"; "tokenVersion"] r1 u →
  always (during t0 t1) (complete_login sha256_hex base64url_decode Date_toString Date_toISOString config u) (after c d)
    (λ res s', ∃ res' r' c' d', res = inr res' ∧ s' = after c' d' ∧ table d' = <[i := r']> (table (app_users s)) ∧
       row_kept sessions r r' ∧ session_opened t0 t1 r r' rts res').
Proof.
  intros Htab Hkept Hty Hu. assert (Hr1 : table d !! i = Some r1) by (rewrite Htab; apply lookup_insert_eq).
  assert (Hr1t : obj_get r1 "refresh_tokens" = strs rts) by (rewrite (Hkept "refresh_tokens"); by vm_compute || done).
  destruct (pg_row_id i d r1 Hr1) as [Hid _], (typed_text r1 "email" Hty eq_refl) as [em Hem], (typed_version r1 Hty) as (n & Hn & _).
  pose proof Hu as [Huid Hf]. unfold complete_login.
  assert (Hue : user_get u "email" = VStr em) by (rewrite (Hf "email" eq_refl); exact Hem).
  assert (Huv : user_get u "tokenVersion" = VNum n) by (rewrite (Hf "tokenVersion" eq_refl); exact Hn).
  eapply (step_open sha256_hex base64url_decode Date_toString Date_toISOString config t0 t1 (during t0 t1) _ _ _ _ _ _ _ u i r1 rts);
    [exact Hr1|exact Hr1t|by rewrite Huid|by rewrite Hue|by rewrite Huv|exact Ha|exact Hs|].
  intros [access refresh] jtis t c1 d1 Ht Hgen (r2 & Htab2 & Hrt2 & _ & Hkept2). cbn [fst snd] in *.
  step step_cookies. intros c2 csrf. rewrite Huid, Hid. step step_find; [by vm_compute|]. intros c3.
  rewrite Htab2, lookup_insert_eq. cbn [fmap option_fmap option_map]. apply always_ret.
  eexists _, r2, c3, d1. split; [reflexivity|]. split; [reflexivity|]. split; [by rewrite Htab2, Htab, insert_insert_eq|]. split.
  - eapply (row_kept_trans ["password"] ["refresh_tokens"; "active_access_jtis"]); [exact Hkept| |by vm_compute].
    intros q Hq Hn'. cbn in Hn'. apply orb_false_iff in Hn' as [H1 Hn']. apply orb_false_iff in Hn' as [H2 Hn'].
    apply orb_false_iff in Hn' as [H3 _]. apply String.eqb_neq in H1, H2, H3. by apply Hkept2.
  - split; [done|]. exists access, refresh, csrf. split; [exact Hrt2|]. split; [|split; [done|]].
    + exists u, jtis, t. split; [done|]. split; [|done]. by eapply (shows_kept _ ["password"]).
    + unfold token_fields, publicTokenFields. cbn [json_body reply fst snd]. destruct (omitRefreshInBody _); done.
Qed.

Lemma check_login_spec c u candidate :
  doc_of login_cols r u →
  always (during t0 t1) (check_login sha256_hex base64url_decode Date_toString Date_toISOString startOfDay hashPassword
                           verifyPassword config u candidate) (after c (app_users s))
    (λ res s', ∃ res' r' c' d', res = inr res' ∧ s' = after c' d' ∧ table d' = <[i := r']> (table (app_users s)) ∧
       row_kept sessions r r' ∧ login_verdict t0 t1 r r' rts candidate res').
Proof.
  intros Hu. destruct login_cols_ok as (_ & _ & Hid & Hpwc). pose proof (tb_typed _ _ _ Hr) as Hty.
  pose proof (doc_shows ("provider" :: login_fields) login_cols r u Hu Hid ltac:(by vm_compute)) as [Hi Hf].
  unfold check_login, login_verdict. rewrite (Hf "provider" eq_refl). change (col_of "provider") with "provider".
  destruct (strict_eq (obj_get r "provider") (VStr "local")); cbn [negb].
  2: { apply always_ret. exists auth_failed, r, c, (app_users s). rewrite insert_id by exact Hr.
       split; [reflexivity|]. split; [reflexivity|]. split; [reflexivity|]. split; [apply row_kept_refl|by split]. }
  apply always_on_users. intros e _. cbn [app_users].
  destruct (compare_spec candidate login_cols r u i (app_users s) Hr Hu Hid Hpwc) as (u' & d' & r1 & Hcmp & Htab & Hkept & Hno & Hdoc).
  rewrite Hcmp. cbn [fst snd]. destruct (password_matches r candidate); cbn [negb].
  2: { destruct (Hno eq_refl) as [-> ->]. apply always_ret. eexists invalid_credentials, r, _, (app_users s). rewrite insert_id by exact Hr.
       split; [reflexivity|]. split; [reflexivity|]. split; [reflexivity|]. split; [apply row_kept_refl|by split]. }
  assert (Hty1 : row_typed r1 = true) by (destruct Hdoc as [[_ ->]|[_ ?]]; done).
  assert (Hk1 : row_kept sessions r r1) by (eapply (row_kept_trans ["password"] []); [exact Hkept|apply row_kept_refl|by vm_compute]).
  assert (Hu1 : shows login_fields r1 u').
  { destruct Hdoc as [[-> ->]|[-> _]]; [split; [exact Hi|intros f Hin; apply Hf; apply has_spec; right; by apply has_spec]|].
    eapply (doc_shows _ all_columns); [by apply saved_of|by vm_compute|by vm_compute]. }
  pose proof (shows_kept _ _ _ _ _ Hu1 Hkept eq_refl ltac:(by vm_compute)) as Hu0.
  rewrite (proj2 Hu0 "isEmailVerified" eq_refl). change (col_of "isEmailVerified") with "is_email_verified".
  destruct (truthy (obj_get r "is_email_verified")); cbn [negb].
  2: { apply always_ret. eexists auth_failed, r1, _, d'.
       split; [reflexivity|]. split; [reflexivity|]. split; [exact Htab|]. split; [exact Hk1|]. split; [reflexivity|exact Hkept]. }
  apply step_here with (t0 := t0) (t1 := t1); [exact _|]. intros c1 e1 Ht. cbn [fst].
  destruct (count_login startOfDay config u' (RedisCache.clock c1)) as [u2|] eqn:Ec.
  - eapply always_mono; [eapply (complete_login_spec r1 c1 d' u2 Htab Hkept Hty1); by eapply count_login_shows|].
    intros res s' (res' & r' & c' & d2 & -> & -> & Ht2 & Hk2 & Hses). exists res', r', c', d2.
    split; [reflexivity|]. split; [reflexivity|]. split; [exact Ht2|]. split; [exact Hk2|]. split; [exact Hk2|]. exists (RedisCache.clock c1). split; [done|].
    destruct (limit_reached r (RedisCache.clock c1)) eqn:El; [|exact Hses]. apply (count_login_limit _ _ _ Hu0) in El. congruence.
  - apply always_ret. eexists _, r1, c1, d'. split; [reflexivity|]. split; [reflexivity|]. split; [exact Htab|].
    split; [exact Hk1|]. split; [exact Hk1|]. exists (RedisCache.clock c1). split; [done|].
    rewrite (proj1 (count_login_limit _ _ _ Hu0) Ec). by split.
Qed.
End Run.

(** C7. What a login decides.  The address is the primary address of an account
    that is not migrating to or from it.  Accounts of another provider, wrong
    passwords and unverified addresses are refused in this order; a legacy hash
    is replaced on the way.  Otherwise there is a moment of the run at which
    the row decides: if it says that the daily limit is reached at that
    moment, the answer is 429 and no token is stored; if not, a session is
    opened: the refresh token's hash is stored (at most five are kept) and the
    token is set as a cookie.  Nothing else of
    the database changes; in particular the counters the daily limit is
    computed from are never written, so a login does not count. *)
Theorem login_decision t0 t1 input s i r er rts :
  let email := toLowerCase (li_email input) in
  entries (app_index s) !! key MPrimary email = Some er → obj_get er "user_id" = VStr i → obj_get er "expires_at" = VNull →
  table (app_users s) !! i = Some r → obj_get r "refresh_tokens" = strs rts →
  obj_get r "new_email_pending" ≠ VStr email → obj_get r "previous_email" ≠ VStr email →
  accessSecret (cfg_jwt config) ≠ "" → refreshSecret (cfg_jwt config) ≠ "" →
  always (during t0 t1)
    (login sha256_hex base64url_decode hmac_sha256_hex Date_toString Date_toISOString startOfDay hashPassword verifyPassword config input)
    s (λ res s', app_index s' = app_index s ∧ app_outbox s' = app_outbox s ∧ app_revocations s' = app_revocations s ∧
         ∃ r', table (app_users s') = <[i := r']> (table (app_users s)) ∧ login_verdict t0 t1 r r' rts (li_password input) res ∧
           obj_get r' "login_count" = obj_get r "login_count" ∧ obj_get r' "last_login" = obj_get r "last_login").
Proof.
  intros email He Hei Hex Hr Hrts Hnp Hpp Ha Hs. destruct login_cols_ok as (Hok & Hnd & Hid & _).
  unfold login. apply always_catch. set (s0 := s). destruct s as [c d x rv m o] eqn:Es. subst s0. cbn [app_index app_users] in *.
  unfold login_body. fold email. step step_resolve_primary; [exact He|exact Hei|exact Hex|]. intros c1 y ->.
  step step_find; [exact Hok|]. intros c2. rewrite Hr. cbn [fmap option_fmap option_map]. fold login_cols.
  pose proof (document_of login_cols r Hnd) as Hdoc. set (u := document login_cols r) in *.
  pose proof (doc_shows ["newEmailPending"; "previousEmail"] login_cols r u Hdoc Hid ltac:(by vm_compute)) as [_ Hf].
  unfold login_migration. rewrite (Hf "newEmailPending" eq_refl).
  change (col_of "newEmailPending") with "new_email_pending". rewrite (strict_neq _ _ Hnp). cbn [bind].
  step step_here. intros c3 e Ht. unfold previous_expired. rewrite (Hf "previousEmail" eq_refl).
  change (col_of "previousEmail") with "previous_email". rewrite (strict_neq _ _ Hpp). cbn [andb].
  eapply always_mono; [eapply (check_login_spec t0 t1 (mkApp c d x rv m o) i r rts Hr Hrts Ha Hs c3 u _ Hdoc)|].
  intros res s' (res' & r' & c' & d' & -> & -> & Htab & Hk & Hv). cbn. split; [done|]. split; [done|]. split; [done|]. exists r'.
  split; [exact Htab|]. split; [exact Hv|]. split; by apply Hk.
Qed.
(** *** A login at the new address of a migration *)

Section Unauthenticated.
Context (t0 t1 : Z) (i old email : string) (r : object).
Context (Ht1 : t1 < t0 + FIVE_DAYS_MS) (Hi : i ≠ "") (Hold : old ≠ email) (Hold' : old ≠ "").

(** The columns that [login_migration] writes at time [t] *)
Definition finalised (t : Z) (r' : object) : Prop :=
  row_changed r
    [("previous_email", VStr old); ("email", VStr email); ("migration_expiry", VDate (t + FIVE_DAYS_MS));
     ("last_migration_date", VDate t); ("is_email_verified", VBool true); ("new_email_pending", VNull);
     ("current_email_verified", VNull); ("new_email_verified", VNull); ("current_email_token", VNull);
     ("new_email_token", VNull)] r'.

Definition finalise_patch (t : Z) : object :=
  [("previousEmail", VStr old); ("email", VStr email); ("migrationExpiry", VDate (t + FIVE_DAYS_MS)); ("lastMigrationDate", VDate t);
   ("isEmailVerified", VBool true); ("newEmailPending", VUndef); ("currentEmailVerified", VUndef); ("newEmailVerified", VUndef);
   ("currentEmailToken", VUndef); ("newEmailToken", VUndef)].

Lemma finalise_patched t r' : row_patched Date_toISOString hashPassword r (finalise_patch t) r' → finalised t r'.
Proof.
  intros Hp. eapply row_patched_changed; [exact Hp|]. repeat (constructor; [reflexivity|]). constructor.
Qed.

Lemma finalised_unique d t r' :
  table d !! i = Some r → (∀ j rj, table d !! j = Some rj → obj_get rj "email" ≠ VStr email) →
  finalised t r' → unique_in (table d) i r'.
Proof.
  intros Hr Hno Hf j rj Hj Hne. split.
  - unfold same_email. rewrite (Hf "email" eq_refl) by done. cbn [obj_lookup String.eqb Ascii.eqb Bool.eqb].
    destruct (SqlMeaning.same _ _) eqn:E; [|done]. by apply same_eq, (Hno j rj Hj) in E.
  - pose proof (tb_unique i d r Hr j rj Hj Hne) as [_ H]. unfold same_oauth in *.
    by rewrite (Hf "provider" eq_refl), (Hf "provider_id" eq_refl) by done.
Qed.

(** The address is known only as the new address of a migration. *)
Lemma step_resolve_pending {B} (Q : B → App → Prop) c d x rv m o er expires
    (k : failure + option ResolvedEmailIdentity → prog AppEnv App B) :
  entries x !! key MPrimary email = None → entries x !! key MPrevious email = None →
  entries x !! key MPending email = Some er → obj_get er "user_id" = VStr i → obj_get er "expires_at" = VDate expires → t1 < expires →
  (∀ c' y, rs_userId y = VStr i → always (during t0 t1) (k (inr (Some y))) (mkApp c' d x rv m o) Q) →
  always (during t0 t1) (bind (resolve_address hmac_sha256_hex config email) k) (mkApp c d x rv m o) Q.
Proof.
  intros H1 H2 H3 Hu He Hlt H. apply (step_index t0 t1 (during t0 t1) _ _ _ _ _ _ _ _ _ (λ t _, t0 ≤ now t ≤ t1)); [done|].
  apply (resolve_step _ _ _ (L := IL)). change (index_of x) with x. rewrite H1.
  apply (resolve_step _ _ _ (L := IL)). change (index_of x) with x. rewrite H2.
  apply (resolve_step _ _ _ (L := IL)). change (index_of x) with x. rewrite H3. intros t Ht.
  unfold isActive. cbn [rowToDoc ix_expiresAt]. rewrite He. cbn [truthy negb].
  rewrite (proj2 (Z.ltb_lt (now t) expires)) by lia. intros c'. by apply H.
Qed.

(** The account as it was moved *)
Context (Hpr : obj_get r "provider" = VStr "local").

Lemma finalised_fields t r' :
  row_typed r' = true → finalised t r' →
  user_get (saved r') "previousEmail" = VStr old ∧ user_get (saved r') "migrationExpiry" = VDate (t + FIVE_DAYS_MS) ∧
  user_get (saved r') "newEmailPending" = VNull ∧ user_get (saved r') "provider" = VStr "local".
Proof.
  intros Hty Hf. pose proof (saved_shows ("provider" :: "migrationExpiry" :: index_fields) r' Hty eq_refl) as [_ Hs].
  rewrite (Hs "previousEmail" eq_refl), (Hs "migrationExpiry" eq_refl), (Hs "newEmailPending" eq_refl), (Hs "provider" eq_refl).
  rewrite <- Hpr. split_and!; by apply Hf.
Qed.

Lemma step_sync_finalised {B} (Q : B → App → Prop) c d x rv m o t r' (k : failure + unit → prog AppEnv App B) :
  t0 ≤ t ≤ t1 → table d !! i = Some r' → row_typed r' = true → finalised t r' → known_user x i = true →
  (∀ c' y er, entries y !! key MPrimary email = Some er → obj_get er "user_id" = VStr i →
     always (during t0 t1) (k (inr tt)) (mkApp c' d y rv m o) Q) →
  always (during t0 t1) (bind (sync_account hmac_sha256_hex Date_toString config (saved r')) k) (mkApp c d x rv m o) Q.
Proof.
  intros Ht Hr Hty Hf Hk H. destruct (pg_row_id i d r' Hr) as [Hid _].
  assert (Hem : obj_get r' "email" = VStr email) by (by rewrite (Hf "email" eq_refl)).
  assert (Hix : indexable (saved r') i email) by (apply (shows_indexable r'); [by apply saved_shows|done..]).
  destruct (finalised_fields t r' Hty Hf) as (Hprev & Hexp & Hpend & _).
  eapply (step_sync _ _ _ t0 t1 (during t0 t1)) with (uid := i) (email := email) (previous := true) (waiting := false);
    [exact Hix|exact Hk| |].
  { intros w Hw. unfold has_previous, has_pending, pending. rewrite Hprev, Hexp, Hpend. cbn.
    rewrite (proj2 (String.eqb_neq _ _) Hold'). split; [|done]. cbn. apply Z.ltb_lt. lia. }
  intros c1 y _ Hent. specialize (Hent (key MPrimary email)). unfold expected_entries, primary_entry in Hent.
  cbn [app assoc fst] in Hent. rewrite String.eqb_refl in Hent. destruct Hent as (er & Her & (Huid & _)%row_of_columns).
  by eapply H.
Qed.

(** The password is wrong. *)
Lemma finalised_refused candidate c d y rv m o t r' :
  table d !! i = Some r' → row_typed r' = true → finalised t r' → password_matches r candidate = false →
  always (during t0 t1)
    (let! h := here in
     if previous_expired (saved r') email h.1 then
       Ret (inr (refuse 403 "This email is no longer valid for this account. Please use your new email address."))
     else check_login sha256_hex base64url_decode Date_toString Date_toISOString startOfDay hashPassword verifyPassword config (saved r') candidate)
    (mkApp c d y rv m o) (λ res s', res = inr invalid_credentials ∧ ∃ c', s' = mkApp c' d y rv m o).
Proof.
  intros Hr Hty Hf Hpw. destruct (finalised_fields t r' Hty Hf) as (Hprev & _ & _ & Hprov).
  step step_here. intros c2 e _. unfold previous_expired. rewrite Hprev. cbn [strict_eq]. rewrite (proj2 (String.eqb_neq _ _) Hold).
  cbn [andb]. unfold check_login. rewrite Hprov. cbn [strict_eq String.eqb Ascii.eqb Bool.eqb negb].
  apply always_on_users. intros e' _. cbn [app_users].
  assert (Hpm : password_matches r' candidate = false) by (unfold password_matches in *; by rewrite (Hf "password" eq_refl)).
  destruct (compare_spec candidate all_columns r' (saved r') i d Hr (saved_of r' Hty) eq_refl eq_refl) as (u' & d' & r2 & Hc & _ & _ & Hno & _).
  rewrite Hpm in *. destruct (Hno eq_refl) as [_ ->]. rewrite Hc. cbn [fst snd negb]. apply always_ret. split; [done|]. by eexists.
Qed.
End Unauthenticated.

(** C39. A login finalises a migration before the password is looked at.  The
    address is the new one of an account's migration, both sides are verified,
    and nobody has it yet.  A login at it with any wrong password is refused as
    such, and yet the account has the new address afterwards: it is moved as
    by a finished migration, the old address becomes the previous one for five
    days, and the index resolves the new address to the account. *)
Theorem login_finalises_unauthenticated t0 t1 input s i r er expires old :
  let email := toLowerCase (li_email input) in
  t1 < t0 + FIVE_DAYS_MS → email ≠ "" → i ≠ "" → old ≠ email → old ≠ "" →
  entries (app_index s) !! key MPrimary email = None → entries (app_index s) !! key MPrevious email = None →
  entries (app_index s) !! key MPending email = Some er → obj_get er "user_id" = VStr i →
  obj_get er "expires_at" = VDate expires → t1 < expires → known_user (app_index s) i = true →
  table (app_users s) !! i = Some r → obj_get r "email" = VStr old → obj_get r "new_email_pending" = VStr email →
  obj_get r "current_email_verified" = VBool true → obj_get r "new_email_verified" = VBool true →
  (∀ j rj, table (app_users s) !! j = Some rj → obj_get rj "email" ≠ VStr email) →
  obj_get r "provider" = VStr "local" → password_matches r (li_password input) = false →
  always (during t0 t1)
    (login sha256_hex base64url_decode hmac_sha256_hex Date_toString Date_toISOString startOfDay hashPassword verifyPassword config input)
    s (λ res s', res = invalid_credentials ∧ app_outbox s' = app_outbox s ∧
         (∃ t r', t0 ≤ t ≤ t1 ∧ table (app_users s') = <[i := r']> (table (app_users s)) ∧ finalised old email r t r') ∧
         ∃ er', entries (app_index s') !! key MPrimary email = Some er' ∧ obj_get er' "user_id" = VStr i).
Proof.
  intros email Ht1 Hne Hi Hold Hold' H1 H2 H3 Heu Hee Hlt Hk Hr Hem Hp Hcv Hnv Hno Hpr Hpw.
  destruct login_cols_ok as (Hok & Hnd & Hid & _). unfold login. apply always_catch. destruct s as [c d x rv m o].
  cbn [app_index app_users app_outbox] in *. unfold login_body. fold email. 
  eapply step_resolve_pending; [exact H1|exact H2|exact H3|exact Heu|exact Hee|exact Hlt|]. intros c1 y ->.
  step step_find; [exact Hok|]. intros c2. rewrite Hr. cbn [fmap option_fmap option_map]. fold login_cols.
  pose proof (document_of login_cols r Hnd) as Hdoc. set (u := document login_cols r) in *.
  pose proof (doc_shows ["newEmailPending"; "email"; "currentEmailVerified"; "newEmailVerified"] login_cols r u Hdoc Hid
    ltac:(by vm_compute)) as [_ Hf].
  apply always_bind. unfold login_migration.
  rewrite (Hf "newEmailPending" eq_refl), (Hf "email" eq_refl), (Hf "currentEmailVerified" eq_refl), (Hf "newEmailVerified" eq_refl).
  change (col_of "newEmailPending") with "new_email_pending". change (col_of "email") with "email".
  change (col_of "currentEmailVerified") with "current_email_verified". change (col_of "newEmailVerified") with "new_email_verified".
  rewrite Hp, Hem, Hcv, Hnv. cbn [strict_eq truthy andb]. rewrite String.eqb_refl, (proj2 (String.eqb_neq _ _) Hne). cbn [negb].
  step step_here. intros c3 e Ht. cbn [fst]. set (t := RedisCache.clock c3) in *.
  change (user_set (user_set (user_set (user_set (user_set (user_set (user_set (user_set (user_set (user_set u _ _) _ _) _ _) _ _) _ _) _ _) _ _) _ _) _ _) _ _)
    with (patch u (finalise_patch old email t)).
  eapply (step_save _ _ (during t0 t1)) with (i := i) (ps := finalise_patch old email t) (r := r) (cols := login_cols);
    [exact Hr|exact Hdoc|exact Hid|by vm_compute| | |].
  { apply (edited_patch u [] u); [apply edited_refl; rewrite (doc_modified _ _ _ Hdoc); constructor|by vm_compute]. }
  { intros r' Hp'. eapply finalised_unique; [exact Hr|exact Hno|by apply finalise_patched]. }
  intros c4 d' r' Htab Hp' Hty. apply finalise_patched in Hp'.
  assert (Hr' : table d' !! i = Some r') by (rewrite Htab; apply lookup_insert_eq).
  eapply (step_sync_finalised t0 t1 i old email r); [assumption..|exact Ht|exact Hr'|exact Hty|exact Hp'|exact Hk|].
  intros c5 z er' Her' Hui'. apply always_ret.
  eapply always_mono; [eapply (finalised_refused t0 t1 i old email r); [assumption..|exact Hr'|exact Hty|exact Hp'|exact Hpw]|].
  intros res s' (-> & c6 & ->). cbn. split; [done|]. split; [done|]. split.
  - exists t, r'. split; [exact Ht|]. split; [exact Htab|exact Hp'].
  - exists er'. split; [exact Her'|exact Hui'].
Qed.
End Login.

Module ResetRun.
Definition alice : object :=
  obj_assign MemApp.alice [("password_reset_token", VStr "#s3cret"); ("password_reset_expires", VDate 2000000)].
Definition start := MemApp.opened EmailLink.reset_password "s3cret" (MemApp.app [("u1", alice)] [MemApp.primary "alice@x" "u1" true]).
Definition handler := resetPassword MemApp.sha MemApp.iso MemApp.iso MemApp.hash (RKV := MemKV.mem_kv) (UDB := MemTable.mem_table)
  (IDB := MemIndex.mem_index) (FK := MemApp.mem_fk).
Definition final := run (handler MemApp.random "n3w") MemApp.always_fine start.
Definition column (s : App (RKV := MemKV.mem_kv) (UDB := MemTable.mem_table) (IDB := MemIndex.mem_index)) (i c : string) : val :=
  match table (app_users s) !! i with Some r => obj_get r c | None => VUndef end.
End ResetRun.

Lemma reset_spec_witness :
  (status ResetRun.final.1 = 200 ∧ ResetRun.column ResetRun.final.2 "u1" "password" = VStr "h:n3w") ∧
  reset_done MemApp.sha MemApp.hash (RKV := MemKV.mem_kv) (UDB := MemTable.mem_table) (IDB := MemIndex.mem_index)
    1000000 3000000 MemApp.random "n3w" ResetRun.start ResetRun.final.1 ResetRun.final.2.
Proof.
  split; [split; vm_compute; reflexivity|].
  apply (reset_spec MemApp.sha MemApp.iso MemApp.iso MemApp.hash (UDB := MemTable.mem_table) (IDB := MemIndex.mem_index)
           (FK := MemApp.mem_fk) 1000000 3000000 MemApp.random "n3w" ResetRun.start); [done| |].
  - intros i r n Hr Hn. assert (Ht : table (app_users ResetRun.start) = {["u1" := ResetRun.alice]}) by (vm_compute; reflexivity).
    rewrite Ht in Hr. apply lookup_singleton_Some in Hr as [<- <-]. vm_compute in Hn. injection Hn as <-. lia.
  - apply (path_check _ (duringb 1000000 3000000)); [apply duringb_spec|vm_compute; reflexivity].
Defined.

(** The same account and a valid form token, with Redis down. *)
Lemma reset_needs_redis_witness :
  let down := MemApp.opened EmailLink.reset_password "s3cret"
    (MemApp.app [("u1", ResetRun.alice)] [MemApp.primary "alice@x" "u1" true]
       <| app_cache ::= (λ c, c <| cacheReady := false |>) |>) in
  let final := run (ResetRun.handler MemApp.random "n3w") MemApp.always_fine down in
  final.1 = reset_not_published ∧ status final.1 ≠ 200 ∧ app_users final.2 = app_users down.
Proof.
  intros down final. split; [vm_compute; reflexivity|].
  apply (reset_needs_redis MemApp.sha MemApp.iso MemApp.iso MemApp.hash (UDB := MemTable.mem_table) (IDB := MemIndex.mem_index)
           (FK := MemApp.mem_fk) 1000000 3000000 MemApp.random "n3w" down).
  apply (path_check _ (λ e s, duringb 1000000 3000000 e s && negb (isRedisAvailable (app_cache (tick e s)))));
    [|vm_compute; reflexivity].
  intros e s [H1 H2]%andb_true_iff. split; [by apply duringb_spec|by apply negb_true_iff].
Defined.

Module LoginRun.
Definition handler := login MemApp.sha id MemApp.hmac MemApp.iso MemApp.iso (λ t, t / 86400000) MemApp.hash MemApp.verify
  (RKV := MemKV.mem_kv) (UDB := MemTable.mem_table) (IDB := MemIndex.mem_index) (FK := MemApp.mem_fk) (J := ToyJwt.toy_jwt)
  MemApp.config.
Definition start := MemApp.app [("u1", MemApp.alice)] [MemApp.primary "alice@x" "u1" true].
Definition input : LoginInput := {| li_email := "Alice@X"; li_password := "secret" |}.

(** Alice has verified both addresses of a migration that was not finalised. *)
Definition migrating : object :=
  obj_assign MemApp.alice [("new_email_pending", VStr "new@x"); ("current_email_verified", VBool true);
    ("new_email_verified", VBool true); ("migration_token_expires", VDate 4000000)].
Definition pending_start := MemApp.app [("u1", migrating)]
  [MemApp.primary "alice@x" "u1" true;
   (emailKey MemApp.hmac None "a" MPending "new@x", index_entry "pending_migration" "u1" VNull (VDate 4000000) VNull)].
End LoginRun.

Lemma login_decision_witness :
  let final := run (LoginRun.handler LoginRun.input) MemApp.always_fine LoginRun.start in
  status final.1 = 200 ∧
  ∃ r', table (app_users final.2) = <["u1" := r']> (table (app_users LoginRun.start)) ∧
    login_verdict MemApp.sha (λ t, t / 86400000) MemApp.verify (J := ToyJwt.toy_jwt) MemApp.config 1000000 3000000
      MemApp.alice r' ["#old"] "secret" final.1.
Proof.
  intros final. split; [vm_compute; reflexivity|].
  edestruct (login_decision MemApp.sha id MemApp.hmac MemApp.iso MemApp.iso (λ t, t / 86400000) MemApp.hash MemApp.verify
    (RKV := MemKV.mem_kv) (UDB := MemTable.mem_table) (IDB := MemIndex.mem_index) (FK := MemApp.mem_fk) (J := ToyJwt.toy_jwt)
    MemApp.config 1000000 3000000 LoginRun.input LoginRun.start "u1" MemApp.alice
    (MemIndex.keyed (MemApp.primary "alice@x" "u1" true).1 (MemApp.primary "alice@x" "u1" true).2) ["#old"])
    with (es := MemApp.always_fine) as (_ & _ & _ & r' & H1 & H2 & _);
    [vm_compute; reflexivity|reflexivity|reflexivity|vm_compute; reflexivity|reflexivity|discriminate|discriminate
    |discriminate|discriminate| |].
  - apply (path_check _ (duringb 1000000 3000000)); [apply duringb_spec|vm_compute; reflexivity].
  - exists r'. split; [exact H1|exact H2].
Defined.

Lemma login_finalises_unauthenticated_witness :
  let final := run (LoginRun.handler {| li_email := "New@x"; li_password := "wrong" |}) MemApp.always_fine LoginRun.pending_start in
  ResetRun.column final.2 "u1" "email" = VStr "new@x" ∧
  final.1 = invalid_credentials ∧
  ∃ t r', 1000000 ≤ t ≤ 3000000 ∧
    table (app_users final.2) = <["u1" := r']> (table (app_users LoginRun.pending_start)) ∧
    finalised "alice@x" "new@x" LoginRun.migrating t r'.
Proof.
  intros final. split; [vm_compute; reflexivity|].
  edestruct (login_finalises_unauthenticated MemApp.sha id MemApp.hmac MemApp.iso MemApp.iso (λ t, t / 86400000) MemApp.hash MemApp.verify
    (RKV := MemKV.mem_kv) (UDB := MemTable.mem_table) (IDB := MemIndex.mem_index) (FK := MemApp.mem_fk) (J := ToyJwt.toy_jwt)
    MemApp.config 1000000 3000000 {| li_email := "New@x"; li_password := "wrong" |} LoginRun.pending_start "u1" LoginRun.migrating
    (MemIndex.keyed (emailKey MemApp.hmac None "a" MPending "new@x") (index_entry "pending_migration" "u1" VNull (VDate 4000000) VNull))
    4000000 "alice@x")
    with (es := MemApp.always_fine) as (Hres & _ & Hrow & _);
    [reflexivity|discriminate|discriminate|vm_compute; discriminate|discriminate|vm_compute; reflexivity|vm_compute; reflexivity
    |vm_compute; reflexivity|reflexivity|reflexivity|reflexivity|vm_compute; reflexivity|vm_compute; reflexivity|reflexivity
    |vm_compute; reflexivity|reflexivity|reflexivity| |reflexivity|vm_compute; reflexivity| |split; [exact Hres|exact Hrow]].
  - intros j rj. assert (Ht : table (app_users LoginRun.pending_start) = {["u1" := LoginRun.migrating]}) by (vm_compute; reflexivity).
    rewrite Ht. intros [<- <-]%lookup_singleton_Some. vm_compute. discriminate.
  - apply (path_check _ (duringb 1000000 3000000)); [apply duringb_spec|vm_compute; reflexivity].
Defined.
