(* ===== verification/RegisterFacts.v ===== *)
(** * What registration guarantees

    A registration of an unused address, as a whole: the row it creates, the
    index entry that reserves the address, and the mail with the link. *)

From S2P Require Import Prelude CircuitConfig RollingWindow CircuitBreaker GuardedCalls Async RedisCache Json JsVal Columns SqlFilter SqlMeaning Password UserModel OneTimeCodes Sessions IdentityIndex Tokens SessionHandlers UsersTable Documents Application AuthController AppFacts MemApp AuthFacts.
#[local] Open Scope string_scope.
#[local] Open Scope list_scope.
#[local] Open Scope Z_scope.
#[local] Open Scope async_scope.

(** ** Sending a link *)

Section Sending.
Context `{RKV : RedisKV} `{UDB : UsersDb} `{IDB : IndexDb} (config : AppConfig) (Date_getFullYear : Z → Z).
Context (t0 t1 : Z) (P : AppEnv → App → Prop) {HP : Window P t0 t1}.

(** One of at most three attempts succeeds, or none does. *)
Lemma retry_sends mail n c d x rv m o :
  always P (retryWithBackoff (sendMail mail) n) (mkApp c d x rv m o) (λ r s', ∃ c' o',
    s' = mkApp c' d x rv m o' ∧ (o' = o ∨ r = inr tt ∧ o' = o ++ [mail])).
Proof.
  revert c. induction n as [|n IH]; intros c; [by apply always_ret; eexists _, _; split; [reflexivity|left]|]. cbn [retryWithBackoff].
  apply always_stretch. intros e _. destruct (smtp e) as [err|]; cbn [fst snd].
  - destruct n as [|n]; [by apply always_ret; eexists _, _; split; [reflexivity|left]|]. apply always_stretch. intros e2 _. apply IH.
  - apply always_ret. eexists _, _. split; [reflexivity|by right].
Qed.

(** A new link changes neither the environment nor anything outside the cache
    and the memory of its service. *)
Lemma step_new_link {B} (Q : B → App → Prop) kind secret meta c d x rv m o (k : outcome string → prog AppEnv App B) :
  (∀ r c' m', mem_nodeEnv m' = mem_nodeEnv m → always P (k r) (mkApp c' d x rv m' o) Q) →
  always P (bind (link (EmailLink.createEmailLinkCode kind secret meta)) k) (mkApp c d x rv m o) Q.
Proof.
  intros H. apply always_bind.
  apply (always_part P link_part put_link _ (λ _ _, True));
    [by intros [] [? ? ? ? [] ?]|by intros [? ? ? ? [] ?]|by intros [] [] [? ? ? ? [] ?]|done|].
  intros es _. destruct m as [env ? ? ? ? ?]. apply H. cbn. unfold on_cache. repeat case_match; simplify_eq; by cbn.
Qed.

(** A poll token is refused exactly when Redis is away in production, and then
    nothing has changed. *)
Lemma step_new_poll {B} (Q : B → App → Prop) userId c d x rv m o (k : outcome string → prog AppEnv App B) :
  (∀ r c' m', match r with
              | Returned _ => True
              | Thrown _ => isRedisAvailable c' = false ∧ mem_nodeEnv m = "production" ∧ m' = m
              end → always P (k r) (mkApp c' d x rv m' o) Q) →
  always P (bind (poll (VerificationPoll.createVerificationPollToken userId)) k) (mkApp c d x rv m o) Q.
Proof.
  intros H. apply always_bind.
  apply (always_part P poll_part put_poll _ (λ _ _, True));
    [by intros [] [? ? ? ? [] ?]|by intros [? ? ? ? [] ?]|by intros [] [] [? ? ? ? [] ?]|done|].
  intros es _. destruct m as [env ? ? ? ? ?]. apply H. cbn. unfold on_cache.
  repeat case_match; simplify_eq; cbn; try done. split_and!; [done|by apply String.eqb_eq|done].
Qed.

(** A mail with a link: sent once or not at all, whatever fails on the way. *)
Lemma step_send_link {B} (Q : B → App → Prop) kind path subject html email token c d x rv m o
    (k : failure + unit → prog AppEnv App B) :
  (∀ r c' m' o', mem_nodeEnv m' = mem_nodeEnv m → (o' = o ∨ r = inr tt ∧ ∃ code year, o' = o ++ [{| mail_to := email; mail_subject := subject;
      mail_html := html (clientUrl config +:+ path +:+ "?code=" +:+ code) year |}]) →
     always P (k r) (mkApp c' d x rv m' o') Q) →
  always P (bind (send_link config Date_getFullYear kind path subject html email token) k) (mkApp c d x rv m o) Q.
Proof.
  intros H. apply always_bind. unfold send_link, may_throw. apply always_bind, step_new_link. intros r0 c1 m1 Hm. apply always_ret.
  destruct r0 as [code|err]; cbn [lift_error]; [|apply always_ret, H; [done|by left]].
  step step_here. intros c2 e _. unfold sendEmail. destruct (smtpConfigured config); [|apply always_ret, H; [done|by left]].
  eapply always_mono; [apply retry_sends|]. intros r s' (c' & o' & -> & Ho). apply H; [done|]. destruct Ho as [?|[-> ->]]; [by left|].
  right. split; [done|]. eauto.
Qed.
End Sending.

(** ** Registration of an unused address *)

Section Register.
Context (sha256_hex base64url_decode : string → string) (hmac_sha256_hex : string → string → string).
Context (Date_toString Date_toISOString : Z → string) (Date_getFullYear : Z → Z) (hashPassword : string → string).
Context `{RKV : RedisKV} `{UDB : UsersDb} {DL : UsersDbLaws UDB} {TL : UsersTableLaws UDB}.
Context `{IDB : IndexDb} {IL : IndexDbLaws IDB} `{FK : !ForeignKey UDB IDB} {FL : ForeignKeyLaws FK} `{J : Jwt}.
Context (config : AppConfig).
Local Abbreviation key := (emailKey hmac_sha256_hex (emailIndexSecret config) (accessSecret (cfg_jwt config))).

(** Nobody has the address. *)
Definition address_free (s : App) (email : string) : Prop :=
  entries (app_index s) !! key MPending email = None ∧ entries (app_index s) !! key MPrimary email = None ∧
  ∀ j r, table (app_users s) !! j = Some r → obj_get r "email" ≠ VStr email.

(** The fields of the new document *)
Definition new_fields (email password displayName hashed : string) (t : Z) : object :=
  [("email", VStr email); ("password", VStr password); ("displayName", VStr displayName); ("provider", VStr "local");
   ("emailVerificationToken", VStr hashed); ("emailVerificationExpires", VDate (t + DAY_MS)); ("isEmailVerified", VBool false)].

Lemma new_fields_ok email password displayName hashed t :
  NoDup (obj_keys (new_fields email password displayName hashed t)) ∧
  patch_ok Date_toISOString hashPassword (new_fields email password displayName hashed t) = true.
Proof.
  split; [apply (bool_decide_unpack _); by vm_compute|].
  change (new_fields email password displayName hashed t) with
    ([("email", VStr email)] ++ [("password", VStr password)] ++ [("displayName", VStr displayName); ("provider", VStr "local");
     ("emailVerificationToken", VStr hashed); ("emailVerificationExpires", VDate (t + DAY_MS)); ("isEmailVerified", VBool false)]).
  rewrite !patch_ok_app, patch_ok_password. by vm_compute.
Qed.

(** The row of the new account *)
Definition registered_row (uid email password displayName hashed : string) (t : Z) (r : object) : Prop :=
  row_changed (default_row 0)
    [("id", VStr uid); ("email", VStr email); ("password", VStr (hashPassword password)); ("display_name", VStr displayName);
     ("email_verification_token", VStr hashed); ("email_verification_expires", VDate (t + DAY_MS));
     ("provider", VStr "local"); ("is_email_verified", VBool false); ("created_at", obj_get r "created_at")] r.

Lemma created_registered uid email password displayName hashed t r :
  password ≠ "" → created_row Date_toISOString hashPassword uid (new_fields email password displayName hashed t) r →
  registered_row uid email password displayName hashed t r.
Proof.
  intros Hpw Hr. eapply created_row_changed; [exact Hr|]. unfold cell_of.
  repeat (constructor; [first [by left | right; reflexivity | right; cbn -[field_param]; rewrite password_param by done; reflexivity]|]).
  constructor.
Qed.

(** The answer and the state after a registration *)
Definition registered_state (t0 t1 : Z) (input : RegisterInput) (s : App) (res : Response) (s' : App) : Prop :=
  let email := toLowerCase (ri_email input) in
  ∃ uid token t r er,
    t0 ≤ t ≤ t1 ∧ table (app_users s) !! uid = None ∧ table (app_users s') = <[uid := r]> (table (app_users s)) ∧
    registered_row uid email (ri_password input) (ri_displayName input) (sha256_hex token) t r ∧
    entries (app_index s') !! key MPrimary email = Some er ∧ obj_get er "user_id" = VStr uid ∧
    app_revocations s' = app_revocations s ∧
    (app_outbox s' = app_outbox s ∨
     ∃ code year, app_outbox s' = app_outbox s ++ [{| mail_to := email; mail_subject := "Verify Your Email Address";
       mail_html := verification_html (clientUrl config +:+ "/verify-email?code=" +:+ code) year |}]) ∧
    (status res = 201 ∧ obj_get (json_body res) "user" = user_fields (saved r) basic_fields ∧
       (∃ pollToken, obj_get (json_body res) "verificationPollToken" = VStr pollToken) ∨
     res = refuse 500 "Registration failed" ∧ isRedisAvailable (app_cache s') = false ∧
       mem_nodeEnv (app_memory s) = "production").

Section Created.
Context (t0 t1 : Z) (input : RegisterInput) (s : App).
Context (Hfree : address_free s (toLowerCase (ri_email input))) (Hpw : ri_password input ≠ "").
Local Abbreviation email := (toLowerCase (ri_email input)).

Lemma new_unique uid hashed t r :
  created_row Date_toISOString hashPassword uid (new_fields email (ri_password input) (ri_displayName input) hashed t) r →
  unique_in (table (app_users s)) uid r.
Proof.
  intros Hr j r' Hj _. apply created_registered in Hr; [|done]. destruct Hfree as (_ & _ & Hno). split.
  - unfold same_email. rewrite (Hr "email" eq_refl) by done. cbn [obj_lookup String.eqb Ascii.eqb Bool.eqb].
    destruct (same _ _) eqn:E; [|done]. by apply same_eq, (Hno j r' Hj) in E.
  - unfold same_oauth. rewrite (Hr "provider_id" eq_refl) by done. cbn. destruct (obj_get r' "provider_id"); by rewrite andb_false_r.
Qed.

(** From the stored row to the answer *)
Lemma registered_reply uid token t r c d x m :
  t0 ≤ t ≤ t1 → uid ≠ "" → table (app_users s) !! uid = None → table d = <[uid := r]> (table (app_users s)) → row_typed r = true →
  registered_row uid email (ri_password input) (ri_displayName input) (sha256_hex token) t r → known_user x uid = true →
  autoVerifyEmail config = false → mem_nodeEnv m = mem_nodeEnv (app_memory s) →
  always (during t0 t1)
    (let* _ := sync_account hmac_sha256_hex Date_toString config (saved r) in
     let! _ := sendVerificationEmail config Date_getFullYear email token in
     let* pollToken := may_throw (poll (VerificationPoll.createVerificationPollToken (doc_id (saved r)))) in
     Ret (inr (reply 201
      [("success", VBool true);
       ("message", VStr "Registration successful. Please check your email to verify your account.");
       ("verificationPollToken", VStr pollToken); ("user", user_fields (saved r) basic_fields)] [])))
    (mkApp c d x (app_revocations s) m (app_outbox s))
    (λ res s', match res with
               | inl e => registration_error e = refuse 500 "Registration failed" ∧
                          registered_state t0 t1 input s (refuse 500 "Registration failed") s'
               | inr a => registered_state t0 t1 input s a s'
               end).
Proof.
  intros Ht Hne Hnew Htab Hty Hrow Hknown Hauto Henv.
  assert (Hid : obj_get r "id" = VStr uid) by (by rewrite (Hrow "id" eq_refl) by done).
  assert (Hem : obj_get r "email" = VStr email) by (by rewrite (Hrow "email" eq_refl) by done).
  pose proof (saved_shows index_fields r Hty eq_refl) as Hs.
  pose proof (shows_indexable r (saved r) uid email Hs Hty Hid Hne Hem) as Hix.
  assert (Hprev : user_get (saved r) "previousEmail" = VNull) by (rewrite (proj2 Hs "previousEmail" eq_refl); by apply Hrow).
  assert (Hpend : user_get (saved r) "newEmailPending" = VNull) by (rewrite (proj2 Hs "newEmailPending" eq_refl); by apply Hrow).
  eapply (step_sync _ _ _ t0 t1 (during t0 t1)) with (uid := uid) (email := email) (previous := false) (waiting := false);
    [exact Hix|exact Hknown| |].
  { intros u _. unfold has_previous, has_pending. by rewrite Hprev, Hpend. }
  intros c1 y _ Hent. specialize (Hent (key MPrimary email)). unfold expected_entries, primary_entry in Hent.
  cbn [app assoc fst] in Hent. rewrite String.eqb_refl in Hent. destruct Hent as (er & Her & Hrowof).
  apply row_of_columns in Hrowof as (Huid & _ & _).
  step (step_send_link config Date_getFullYear t0 t1). intros rr c2 m2 o2 Hm2 Ho. unfold may_throw. apply always_bind.
  step step_new_poll. intros tok c3 m3 Htok. apply always_ret.
  assert (Hstate : ∀ res, (status res = 201 ∧ obj_get (json_body res) "user" = user_fields (saved r) basic_fields ∧
      (∃ pollToken, obj_get (json_body res) "verificationPollToken" = VStr pollToken)) ∨
    res = refuse 500 "Registration failed" ∧ isRedisAvailable c3 = false ∧ mem_nodeEnv (app_memory s) = "production" →
    registered_state t0 t1 input s res (mkApp c3 d y (app_revocations s) m3 o2)).
  { intros res Hres. exists uid, token, t, r, er. do 6 (split; [done|]). split; [done|]. split; [|exact Hres].
    destruct Ho as [->|(_ & code & year & ->)]; [by left|right; eauto]. }
  destruct tok as [tok|err]; cbn [lift_error]; apply always_ret.
  - apply Hstate. left. split_and!; [done|done|by exists tok].
  - destruct Htok as (Hav & Hprod & _). split; [done|]. apply Hstate. right. split_and!; [done|done|congruence].
Qed.
End Created.

(** C8. Registering an address nobody has, with [AUTO_VERIFY_EMAIL] off.  Every
    run stores exactly one new account: the lower-case address, the hash of the
    password, the address not verified, and the digest of a fresh verification
    token that expires after 24 hours; every other account is as before.  The
    index resolves the address to the account, so it cannot be registered
    again.  At most one mail is sent, to the address, with a link; a mail that
    cannot be sent does not change the answer.  The answer is 201 with the new
    account and a poll token; it is 500, though the account is stored, only when
    no poll token can be made because Redis is not available and the server runs
    in production. *)
Theorem register_spec t0 t1 input s :
  address_free s (toLowerCase (ri_email input)) → ri_password input ≠ "" → autoVerifyEmail config = false →
  always (during t0 t1)
    (register sha256_hex base64url_decode hmac_sha256_hex Date_toString Date_toISOString Date_getFullYear hashPassword config input)
    s (registered_state t0 t1 input s).
Proof.
  intros Hfree Hpw Hauto. unfold register. apply always_catch. destruct s as [c d x rv m o].
  pose proof Hfree as (H1 & H2 & _). unfold register_body. step step_pending_none; [exact H1|]. intros c1. cbn [some_id].
  step step_primary_none; [exact H2|]. intros c2. cbn [find_account_if find_if bind]. unfold complete_registration.
  step step_here. intros c3 e Ht. rewrite Hauto. set (t := RedisCache.clock c3) in *.
  destruct (new_fields_ok (toLowerCase (ri_email input)) (ri_password input) (ri_displayName input) (sha256_hex (fresh (net e))) t)
    as [Hnd Hok].
  eapply (step_create Date_toISOString hashPassword t0 t1 (during t0 t1))
    with (l := new_fields (toLowerCase (ri_email input)) (ri_password input) (ri_displayName input) (sha256_hex (fresh (net e))) t);
    [exact Hnd|exact Hok|reflexivity|reflexivity|reflexivity|reflexivity| |].
  { intros uid r Hr. eapply new_unique in Hr; [|exact Hfree|exact Hpw]. exact Hr. }
  intros uid c4 d' r Hne Hnew Htab Hr Hty.
  eapply always_mono; [eapply (registered_reply t0 t1 input (mkApp c d x rv m o) uid (fresh (net e)) t r)|]; try done.
  - by apply created_registered.
  - rewrite follow_known, Htab, lookup_insert_eq. by apply bool_decide_eq_true.
  - intros [e'|a] s'; [|done]. intros [-> H]. by apply always_ret.
Qed.
End Register.

Module RegisterRun.
Definition start := MemApp.app [("u1", MemApp.alice)] [MemApp.primary "alice@x" "u1" true].
Definition input : RegisterInput := {| ri_email := "Bob@X"; ri_password := "s3cret"; ri_displayName := "Bob" |}.
Definition handler := register MemApp.sha id MemApp.hmac MemApp.iso MemApp.iso (λ _, 2025) MemApp.hash (RKV := MemKV.mem_kv)
  (UDB := MemTable.mem_table) (IDB := MemIndex.mem_index) (FK := MemApp.mem_fk) (J := ToyJwt.toy_jwt) MemApp.config.
Definition final := run (handler input) MemApp.always_fine start.
End RegisterRun.

Lemma register_spec_witness :
  status RegisterRun.final.1 = 201 ∧
  registered_state MemApp.sha MemApp.hmac MemApp.hash MemApp.config 1000000 3000000 RegisterRun.input RegisterRun.start
    RegisterRun.final.1 RegisterRun.final.2.
Proof.
  split; [vm_compute; reflexivity|].
  apply (register_spec MemApp.sha id MemApp.hmac MemApp.iso MemApp.iso (λ _, 2025) MemApp.hash (RKV := MemKV.mem_kv)
    (UDB := MemTable.mem_table) (IDB := MemIndex.mem_index) (FK := MemApp.mem_fk) (J := ToyJwt.toy_jwt) MemApp.config
    1000000 3000000 RegisterRun.input RegisterRun.start).
  - split; [vm_compute; reflexivity|]. split; [vm_compute; reflexivity|]. intros j r.
    assert (Ht : table (app_users RegisterRun.start) = {["u1" := MemApp.alice]}) by (vm_compute; reflexivity).
    rewrite Ht. intros [<- <-]%lookup_singleton_Some. vm_compute. discriminate.
  - discriminate.
  - reflexivity.
  - apply (path_check _ (duringb 1000000 3000000)); [apply duringb_spec|vm_compute; reflexivity].
Defined.
