(* ===== verification/MigrationFacts.v ===== *)
(** * What the migration handlers guarantee

    Whole handlers of [MigrationController]: which requests are refused, what
    finalising a migration onto the address of another account does, and what
    happens when the account was changed in between. *)

From S2P Require Import Prelude CircuitConfig RollingWindow CircuitBreaker GuardedCalls Async RedisCache Json JsVal Columns SqlFilter SqlMeaning Password UserModel OneTimeCodes Sessions IdentityIndex OAuthLogin Tokens SessionHandlers UsersTable Documents Application AuthController MigrationController AppFacts MemApp AuthFacts.
#[local] Open Scope string_scope.
#[local] Open Scope list_scope.
#[local] Open Scope Z_scope.
#[local] Open Scope async_scope.

(** ** Requests that are refused *)

Section Refused.
Context (sha256_hex base64url_decode md5_hex : string → string) (hmac_sha256_hex : string → string → string).
Context (Date_toString Date_toISOString : Z → string) (hashPassword : string → string).
Context (verifyPassword : string → option string → VerifyResult).
Context `{RKV : RedisKV} `{UDB : UsersDb} {DL : UsersDbLaws UDB} {TL : UsersTableLaws UDB}.
Context `{IDB : IndexDb} {IL : IndexDbLaws IDB} `{FK : !ForeignKey UDB IDB} `{J : Jwt}.
Context (config : AppConfig).

(** Both addresses of the migration are verified. *)
Definition both_verified (r : object) : bool :=
  strict_eq (obj_get r "current_email_verified") (VBool true) && strict_eq (obj_get r "new_email_verified") (VBool true).

(** Refused with 400, and nothing is changed *)
Definition refused_unchanged (s : App) (res : Response) (s' : App) : Prop :=
  status res = 400 ∧ app_users s' = app_users s ∧ app_index s' = app_index s ∧ app_outbox s' = app_outbox s.

Definition flag_spec : string := "+currentEmailVerified +newEmailVerified +newEmailPending".

(** C38. A started migration whose links have expired before both addresses were
    verified cannot be finished, restarted or renewed: starting a migration is
    refused because one is pending, resending the links because none is, and
    finalising because an address is not verified.  No request of the account
    changes anything. *)
Theorem expired_migration_stuck t0 t1 s i r user x password newEmail confirmOverride :
  table (app_users s) !! i = Some r → shows ["newEmailPending"] r user →
  truthy (obj_get r "new_email_pending") = true → obj_get r "migration_token_expires" = VDate x → x < t0 →
  both_verified r = false →
  always (during t0 t1)
    (initiateMigration sha256_hex hmac_sha256_hex Date_toString Date_toISOString hashPassword verifyPassword config
       user password newEmail confirmOverride) s (refused_unchanged s) ∧
  always (during t0 t1)
    (resendMigrationEmails sha256_hex hmac_sha256_hex Date_toString Date_toISOString hashPassword config user) s (refused_unchanged s) ∧
  always (during t0 t1)
    (finalizeMigration sha256_hex base64url_decode md5_hex hmac_sha256_hex Date_toString Date_toISOString hashPassword config user)
    s (refused_unchanged s).
Proof.
  intros Hr [Hid Hf] Hp Hx Hlt Hb. destruct (pg_row_id i _ r Hr) as [Hi _]. destruct s as [c d y rv m o]. cbn [app_users] in *.
  assert (Hup : user_get user "newEmailPending" = obj_get r "new_email_pending") by by apply Hf. split_and!.
  - unfold initiateMigration. destruct (given newEmail); [|by apply always_ret]. apply always_catch. step step_here.
    intros c1 e Ht. unfold migration_guard. rewrite Hup, Hp. by apply always_ret.
  - unfold resendMigrationEmails. apply always_catch. rewrite Hid, Hi. step step_find; [by vm_compute|]. intros c1. rewrite Hr.
    cbn [fmap option_fmap option_map]. step step_here. intros c2 e Ht.
    set (cols := projection None). assert (Hnd : NoDup cols) by (apply (bool_decide_unpack _); by vm_compute).
    pose proof (doc_shows ["newEmailPending"; "migrationTokenExpires"] cols r _ (document_of cols r Hnd) eq_refl eq_refl) as [_ Hd].
    rewrite (Hd "migrationTokenExpires" eq_refl). change (col_of "migrationTokenExpires") with "migration_token_expires".
    rewrite Hx. cbn [fst]. rewrite (proj2 (Z.ltb_lt _ _)), orb_true_r by lia. by apply always_ret.
  - unfold finalizeMigration. apply always_catch. rewrite Hid, Hi. step step_find; [by vm_compute|]. intros c1. rewrite Hr.
    cbn [fmap option_fmap option_map]. fold flag_spec. set (cols := projection (Some flag_spec)).
    assert (Hnd : NoDup cols) by (apply (bool_decide_unpack _); by vm_compute).
    pose proof (doc_shows ["newEmailPending"; "currentEmailVerified"; "newEmailVerified"] cols r _ (document_of cols r Hnd) eq_refl eq_refl) as [_ Hd].
    rewrite (Hd "newEmailPending" eq_refl), (Hd "currentEmailVerified" eq_refl), (Hd "newEmailVerified" eq_refl).
    change (col_of "newEmailPending") with "new_email_pending". rewrite Hp. cbn [negb].
    unfold both_verified in Hb. change (col_of "currentEmailVerified") with "current_email_verified".
    change (col_of "newEmailVerified") with "new_email_verified". rewrite <- negb_andb, Hb. by apply always_ret.
Qed.
End Refused.

(** ** Finalising onto the address of another account *)

Section Merge.
Context (sha256_hex base64url_decode md5_hex : string → string) (hmac_sha256_hex : string → string → string).
Context (Date_toString Date_toISOString : Z → string) (hashPassword : string → string).
Context `{RKV : RedisKV} `{UDB : UsersDb} {DL : UsersDbLaws UDB} {TL : UsersTableLaws UDB}.
Context `{IDB : IndexDb} {IL : IndexDbLaws IDB} `{FK : !ForeignKey UDB IDB} {FL : ForeignKeyLaws FK} `{J : Jwt} {JL : JwtLaws J}.
Context (config : AppConfig) (t0 t1 : Z).
Local Abbreviation key := (emailKey hmac_sha256_hex (emailIndexSecret config) (accessSecret (cfg_jwt config))).
Local Abbreviation row_patched := (row_patched Date_toISOString hashPassword).
Local Abbreviation patch_ok := (patch_ok Date_toISOString hashPassword).

Lemma migration_set_ok old newEmail t n :
  - 2 ^ 31 ≤ n + 1 < 2 ^ 31 → patch_ok (bumped (migration_set (VStr old) newEmail t) n) = true.
Proof. intros Hn. unfold bumped. rewrite patch_ok_app, patch_ok_version by done. by vm_compute. Qed.

(** The version-checked update of an account that was not changed since *)
Lemma step_move {B} (Q : B → App → Prop) i n r old newEmail u c d x rv m o (k : failure + option User → prog AppEnv App B) :
  table d !! i = Some r → obj_get r "token_version" = VNum n → - 2 ^ 31 ≤ n + 1 < 2 ^ 31 → - 2 ^ 31 ≤ n →
  user_get u "_id" = VStr i → user_get u "tokenVersion" = VNum n → user_get u "email" = VStr old →
  (∀ t r1, row_patched r (bumped (migration_set (VStr old) newEmail t) n) r1 → unique_in (table d) i r1) →
  (∀ t c' d' r1, t0 ≤ t ≤ t1 → table d' = <[i := r1]> (table d) →
     row_patched r (bumped (migration_set (VStr old) newEmail t) n) r1 → row_typed r1 = true →
     always (during t0 t1) (k (inr (Some (updated r1)))) (mkApp c' d' x rv m o) Q) →
  always (during t0 t1) (bind (move_account Date_toString Date_toISOString u newEmail) k) (mkApp c d x rv m o) Q.
Proof.
  intros Hr Hn Hn1 Hlo Hid Hv He Hun H. unfold move_account. apply always_stretch. intros e (Ht & _).
  change (tick e (mkApp c d x rv m o)) with (mkApp (advance (net e) c) d x rv m o) in *. cbn [app_cache app_users] in *.
  set (t := RedisCache.clock _) in *. rewrite Hid, Hv, He.
  destruct (update_version_current Date_toString Date_toISOString hashPassword i n (migration_set (VStr old) newEmail t) d r Hr Hn
              (migration_set_ok old newEmail t n Hn1) eq_refl eq_refl ltac:(lia) (Hun t)) as (r1 & d1 & -> & Htab & Hp & Hty).
  by apply (H t).
Qed.

(** The account was changed since: nothing is moved. *)
Lemma step_move_stale {B} (Q : B → App → Prop) i n newEmail u c d x rv m o (k : failure + option User → prog AppEnv App B) :
  - 2 ^ 31 <= n < 2 ^ 31 →
  match table d !! i with Some r => same (obj_get r "token_version") (VNum n) = false | None => True end →
  user_get u "_id" = VStr i → user_get u "tokenVersion" = VNum n →
  (∀ c', always (during t0 t1) (k (inr None)) (mkApp c' d x rv m o) Q) →
  always (during t0 t1) (bind (move_account Date_toString Date_toISOString u newEmail) k) (mkApp c d x rv m o) Q.
Proof.
  intros Hn Hr Hid Hv H. unfold move_account. apply always_stretch. intros e _.
  change (tick e (mkApp c d x rv m o)) with (mkApp (advance (net e) c) d x rv m o). cbn [app_cache app_users].
  rewrite Hid, Hv, (update_version_stale Date_toString Date_toISOString i n _ d Hn Hr). apply H.
Qed.

(** No index entry names an account that is not in the table. *)
Lemma no_entry_left d x j q e :
  table d !! j = None → entries (follow (table d) x) !! q = Some e → obj_get e "user_id" ≠ VStr j.
Proof.
  intros Hj He Hju. rewrite follow_entries in He. apply map_lookup_filter_Some in He as [_ Ho]. cbn in Ho. unfold owner_in in Ho.
  rewrite Hju in Ho. apply bool_decide_eq_true in Ho. rewrite Hj in Ho. by destruct Ho.
Qed.

(** Finalising deletes the other account before the version of the migrating
    account is checked: when that account was changed meanwhile, the answer is
    409, "please retry", the address is not moved, and the other account and
    all its index entries are gone. *)
Theorem merge_conflict_loses_account s currentUser existing i j n newEmail :
  user_get currentUser "_id" = VStr i → user_get currentUser "tokenVersion" = VNum n → user_get existing "_id" = VStr j →
  i ≠ j → - 2 ^ 31 <= n < 2 ^ 31 →
  match table (app_users s) !! i with Some r => same (obj_get r "token_version") (VNum n) = false | None => True end →
  always (during t0 t1)
    (merge_accounts sha256_hex base64url_decode md5_hex hmac_sha256_hex Date_toString Date_toISOString hashPassword config
       currentUser existing newEmail) s (λ res s',
      res = inr concurrent_modification ∧ table (app_users s') = delete j (table (app_users s)) ∧
      ∀ q e, entries (app_index s') !! q = Some e → obj_get e "user_id" ≠ VStr j).
Proof.
  intros Hid Hv Hj Hij Hn Hst. destruct s as [c d x rv m o]. cbn [app_users app_index] in *. unfold merge_accounts, doc_id. rewrite Hj.
  step step_release. intros c1 y Hk Hy. step step_delete. intros c2 d1 Htab. eapply step_move_stale; [exact Hn| |exact Hid|exact Hv|].
  { by rewrite Htab, lookup_delete_ne by done. }
  intros c3. apply always_ret. split; [done|]. split; [exact Htab|]. intros q e. apply no_entry_left.
  by rewrite Htab, lookup_delete_eq.
Qed.

(** *** The data that is carried over *)

(** Cells of a row can be written back. *)
Lemma patch_ok_cell r f :
  row_typed r = true → writable f = true → has JSONB_FIELDS f = false → f ≠ "password" →
  patch_ok [(f, obj_get r (col_of f))] = true ∧ cell_of Date_toISOString hashPassword f (obj_get r (col_of f)) = obj_get r (col_of f).
Proof.
  intros Hr Hw Hj Hp. assert (Ha : has ALL_FIELDS f = true) by (unfold writable in Hw; by apply andb_true_iff in Hw as [? _]).
  assert (Hjc : has jsonb_columns (col_of f) = false).
  { assert (H : forallb (λ f, Bool.eqb (has jsonb_columns (col_of f)) (has JSONB_FIELDS f)) ALL_FIELDS = true) by by vm_compute.
    rewrite forallb_forall in H. apply has_spec, list_elem_of_In, H in Ha. apply eqb_prop in Ha. by rewrite Ha. }
  pose proof (typed_cell r (col_of f) Hr (all_columns_has f Ha)) as Hc.
  assert (Hpar : field_param Date_toISOString hashPassword true f (obj_get r (col_of f)) = obj_get r (col_of f)).
  { unfold field_param. rewrite Hj. destruct (obj_get r (col_of f)) as [| | | |s| | | |]; try done.
    - unfold cell_ok in Hc. by destruct (column_type _) as [[]|].
    - rewrite (proj2 (String.eqb_neq _ _) Hp). by rewrite andb_false_r. }
  unfold Documents.patch_ok, cell_of, param_ok. cbn [forallb fst snd]. rewrite Hpar, Hw, stored_plain, Hjc, Hc by done. done.
Qed.

Section Kept.
Context (r : object) (Hr : row_typed r = true).

Definition kept_bio : val := VStr (text_of (obj_get r "bio")).
Definition kept_avatar (newEmail : string) : val :=
  or_val (obj_get r "avatar") (VStr (getAvatarUrl md5_hex newEmail None 200)).

(** What is assigned to the moved document *)
Definition kept_patch (newEmail : string) (h : list val) : object :=
  [("bio", kept_bio); ("displayName", obj_get r "display_name"); ("avatar", kept_avatar newEmail);
   ("loginCount", obj_get r "login_count"); ("lastLogin", obj_get r "last_login"); ("provider", obj_get r "provider");
   ("providerId", obj_get r "provider_id"); ("migrationHistory", VArr h)].

Lemma kept_avatar_text newEmail : ∃ a, kept_avatar newEmail = VStr a.
Proof.
  unfold kept_avatar, or_val. destruct (truthy (obj_get r "avatar")) eqn:E; [|eauto].
  by apply (typed_optional r "avatar" Hr eq_refl).
Qed.

Lemma kept_patch_ok newEmail h : patch_ok (kept_patch newEmail h) = true.
Proof.
  destruct (kept_avatar_text newEmail) as [a Ha]. unfold kept_patch. rewrite Ha.
  change (_ :: _) with ([("bio", kept_bio)] ++ [("displayName", obj_get r "display_name")] ++ [("avatar", VStr a)] ++
    [("loginCount", obj_get r "login_count")] ++ [("lastLogin", obj_get r "last_login")] ++ [("provider", obj_get r "provider")] ++
    [("providerId", obj_get r "provider_id")] ++ [("migrationHistory", VArr h)]).
  rewrite !patch_ok_app, history_patch_ok.
  pose proof (proj1 (patch_ok_cell r "displayName" Hr eq_refl eq_refl ltac:(done)) : patch_ok [("displayName", obj_get r "display_name")] = true) as ->.
  pose proof (proj1 (patch_ok_cell r "loginCount" Hr eq_refl eq_refl ltac:(done)) : patch_ok [("loginCount", obj_get r "login_count")] = true) as ->.
  pose proof (proj1 (patch_ok_cell r "lastLogin" Hr eq_refl eq_refl ltac:(done)) : patch_ok [("lastLogin", obj_get r "last_login")] = true) as ->.
  pose proof (proj1 (patch_ok_cell r "provider" Hr eq_refl eq_refl ltac:(done)) : patch_ok [("provider", obj_get r "provider")] = true) as ->.
  pose proof (proj1 (patch_ok_cell r "providerId" Hr eq_refl eq_refl ltac:(done)) : patch_ok [("providerId", obj_get r "provider_id")] = true) as ->.
  by vm_compute.
Qed.

Definition carried : list string := ["bio"; "displayName"; "avatar"; "loginCount"; "lastLogin"; "provider"; "providerId"].

(** The history with the migration completed *)
Definition completed_list (l : list val) (from : val) (newEmail : string) (t : Z) : list val :=
  match complete_first newEmail t l with
  | Some l => l
  | None => l ++ [history_entry from (VStr newEmail) "success" (VDate t) (VDate t) true VUndef]
  end.

Lemma extract_kept u :
  shows carried r u →
  or_val (pd_bio (extractUserData u)) (VStr "") = kept_bio ∧ pd_bio (extractUserData u) = kept_bio ∧
  pd_displayName (extractUserData u) = obj_get r "display_name" ∧
  pd_avatar (extractUserData u) = obj_get r "avatar" ∧ pd_loginCount (extractUserData u) = obj_get r "login_count" ∧
  pd_lastLogin (extractUserData u) = obj_get r "last_login" ∧ pd_provider (extractUserData u) = obj_get r "provider" ∧
  pd_providerId (extractUserData u) = obj_get r "provider_id".
Proof.
  intros [_ H]. unfold extractUserData. cbn [pd_bio pd_displayName pd_avatar pd_loginCount pd_lastLogin pd_provider pd_providerId].
  pose proof (H "bio" eq_refl : user_get u "bio" = obj_get r "bio") as ->.
  pose proof (H "loginCount" eq_refl : user_get u "loginCount" = obj_get r "login_count") as ->.
  assert (Hb : or_val (obj_get r "bio") (VStr "") = kept_bio).
  { unfold or_val, kept_bio. pose proof (typed_cell r "bio" Hr eq_refl) as Hc. unfold cell_ok in Hc.
    change (column_type "bio") with (Some (TText, false)) in Hc. cbv iota beta in Hc.
    destruct (obj_get r "bio") as [| | | |s| | | |]; try discriminate Hc; [done|]. cbn. by destruct (String.eqb_spec s "") as [->|]. }
  assert (Hl : or_val (obj_get r "login_count") (VNum 0) = obj_get r "login_count").
  { unfold or_val. pose proof (typed_cell r "login_count" Hr eq_refl) as Hc. unfold cell_ok in Hc.
    change (column_type "login_count") with (Some (TInt, true)) in Hc. cbv iota beta in Hc.
    destruct (obj_get r "login_count") as [| | |n| | | | |]; try discriminate Hc. cbn. by destruct (Z.eqb_spec n 0) as [->|]. }
  rewrite Hb, Hl. split_and!; try done; try (by apply H). unfold or_val, kept_bio. cbn. by destruct (String.eqb_spec (text_of (obj_get r "bio")) "") as [->|].
Qed.

Definition profile_patch (newEmail : string) : object :=
  [("bio", kept_bio); ("displayName", obj_get r "display_name"); ("avatar", kept_avatar newEmail);
   ("loginCount", obj_get r "login_count"); ("lastLogin", obj_get r "last_login"); ("provider", obj_get r "provider");
   ("providerId", obj_get r "provider_id")].

Lemma profile_edited u1 u newEmail :
  shows carried r u → newEmail ≠ "" → NoDup (_modified u1) →
  edited u1 (profile_patch newEmail) (mark_profile (applyUserData md5_hex u1 (extractUserData u) newEmail)).
Proof.
  intros Hu Hne Hnd. destruct (extract_kept u Hu) as (Hb & _ & Hd & Hav & Hl & Hll & Hp & Hpi).
  unfold mark_profile, applyUserData. rewrite Hb, Hd, Hav, Hl, Hll, Hp, Hpi, (proj2 (String.eqb_neq _ _) Hne).
  fold (kept_avatar newEmail). do 4 (apply edited_mark; [|by vm_compute; eauto]).
  apply (edited_patch u1 [] u1 (profile_patch newEmail)); [by apply edited_refl|done].
Qed.

Lemma complete_edited u1 u2 newEmail from t l :
  edited u1 (profile_patch newEmail) u2 → user_get u1 "migrationHistory" = VArr l →
  edited u1 (kept_patch newEmail (completed_list l from newEmail t)) (complete_history u2 from newEmail t).
Proof.
  intros He Hh. assert (Hh2 : user_get u2 "migrationHistory" = VArr l).
  { rewrite user_get_value by done. rewrite (ed_get _ _ _ He). cbn [profile_patch patch_value foldl fst snd String.eqb Ascii.eqb Bool.eqb].
    by rewrite <- user_get_value. }
  unfold complete_history, ensure_history. rewrite Hh2. cbn [truthy]. unfold with_history. rewrite Hh2. cbn [array_of].
  apply (edited_json u1 _ u2 "migrationHistory" _ He). apply has_spec. by vm_compute.
Qed.
End Kept.

(** *** The row after the merge *)

(** Everything of the account is as before except the given columns and its
    session. *)
Definition session_columns : list string := ["updated_at"; "refresh_tokens"; "active_access_jtis"].

Definition moved (r l r' : object) : Prop :=
  ∀ c, has all_columns c = true → has session_columns c = false →
    obj_get r' c = match obj_lookup l c with Some v => v | None => obj_get r c end.

Definition merged_columns (r : object) (old newEmail : string) (n t : Z) (h : val) : object :=
  [("email", VStr newEmail); ("previous_email", VStr old); ("migration_expiry", VDate (t + FIVE_DAYS_MS));
   ("last_migration_date", VDate t); ("is_email_verified", VBool true); ("new_email_pending", VNull); ("migration_token", VNull);
   ("migration_token_expires", VNull); ("current_email_verified", VNull); ("new_email_verified", VNull);
   ("current_email_token", VNull); ("new_email_token", VNull); ("token_version", VNum (n + 1));
   ("bio", kept_bio r); ("avatar", kept_avatar r newEmail); ("migration_history", h)].

Lemma moved_row r r1 old newEmail n t :
  row_patched r (bumped (migration_set (VStr old) newEmail t) n) r1 →
  row_changed r [("email", VStr newEmail); ("previous_email", VStr old); ("migration_expiry", VDate (t + FIVE_DAYS_MS));
   ("last_migration_date", VDate t); ("is_email_verified", VBool true); ("new_email_pending", VNull); ("migration_token", VNull);
   ("migration_token_expires", VNull); ("current_email_verified", VNull); ("new_email_verified", VNull);
   ("current_email_token", VNull); ("new_email_token", VNull); ("token_version", VNum (n + 1))] r1.
Proof. intros H. eapply row_patched_changed; [exact H|]. repeat (constructor; [reflexivity|]). constructor. Qed.

Lemma kept_row r r1 r2 newEmail h :
  row_typed r = true → row_patched r1 (kept_patch r newEmail h) r2 →
  row_changed r1 [("bio", kept_bio r); ("display_name", obj_get r "display_name"); ("avatar", kept_avatar r newEmail);
    ("login_count", obj_get r "login_count"); ("last_login", obj_get r "last_login"); ("provider", obj_get r "provider");
    ("provider_id", obj_get r "provider_id"); ("migration_history", cell_of Date_toISOString hashPassword "migrationHistory" (VArr h))] r2.
Proof.
  intros Hr H. eapply row_patched_changed; [exact H|]. destruct (kept_avatar_text r Hr newEmail) as [a Ha]. unfold kept_patch. rewrite Ha.
  pose proof (proj2 (patch_ok_cell r "displayName" Hr eq_refl eq_refl ltac:(done))) as H1.
  pose proof (proj2 (patch_ok_cell r "loginCount" Hr eq_refl eq_refl ltac:(done))) as H2.
  pose proof (proj2 (patch_ok_cell r "lastLogin" Hr eq_refl eq_refl ltac:(done))) as H3.
  pose proof (proj2 (patch_ok_cell r "provider" Hr eq_refl eq_refl ltac:(done))) as H4.
  pose proof (proj2 (patch_ok_cell r "providerId" Hr eq_refl eq_refl ltac:(done))) as H5.
  repeat (constructor; [first [reflexivity | symmetry; apply (f_equal Some); first [exact H1|exact H2|exact H3|exact H4|exact H5]]|]).
  constructor.
Qed.

Lemma merged_row r r1 r2 r3 old newEmail n t h :
  row_typed r = true →
  row_patched r (bumped (migration_set (VStr old) newEmail t) n) r1 → row_patched r1 (kept_patch r newEmail h) r2 →
  (∀ c, c ≠ "refresh_tokens" → c ≠ "active_access_jtis" → c ≠ "updated_at" → obj_get r3 c = obj_get r2 c) →
  moved r (merged_columns r old newEmail n t (cell_of Date_toISOString hashPassword "migrationHistory" (VArr h))) r3.
Proof.
  intros Hr H1%moved_row H2%kept_row H3 c Hc Hs; [|done]. cbn in Hs. apply orb_false_iff in Hs as [Hu Hs].
  apply orb_false_iff in Hs as [Hrt Hs]. apply orb_false_iff in Hs as [Hj _]. apply String.eqb_neq in Hu, Hrt, Hj.
  rewrite H3, (H2 c Hc) by done. apply has_spec in Hc. unfold all_columns in Hc. cbn [users_schema fmap list_fmap fst] in Hc.
  repeat (apply elem_of_cons in Hc as [->|Hc]; 
    [cbn [obj_lookup merged_columns String.eqb Ascii.eqb Bool.eqb];
     first [reflexivity | match goal with |- obj_get r1 ?q = _ => rewrite (H1 q eq_refl) by done end; reflexivity | by exfalso]|]).
  by apply not_elem_of_nil in Hc.
Qed.

(** *** Uniqueness *)

(** Once the other account is gone, the address is free for this one. *)
Lemma move_unique d d1 i j r rj old newEmail n t r1 :
  table d !! i = Some r → table d !! j = Some rj → obj_get rj "email" = VStr newEmail → table d1 = delete j (table d) →
  row_patched r (bumped (migration_set (VStr old) newEmail t) n) r1 → unique_in (table d1) i r1.
Proof.
  intros Hr Hj He Htab H1%moved_row k r' Hk Hne. rewrite Htab in Hk. apply lookup_delete_Some in Hk as [Hjk Hk]. split.
  - pose proof (tb_unique j d rj Hj k r' Hk ltac:(done)) as [Hs _]. unfold same_email in *. rewrite He in Hs.
    by rewrite (H1 "email" eq_refl) by done.
  - pose proof (tb_unique i d r Hr k r' Hk Hne) as [_ Hs]. unfold same_oauth in *.
    rewrite (H1 "provider" eq_refl), (H1 "provider_id" eq_refl) by done. exact Hs.
Qed.

Lemma kept_unique d i r r1 r2 old newEmail n t h :
  table d !! i = Some r1 → row_typed r = true → row_patched r (bumped (migration_set (VStr old) newEmail t) n) r1 →
  row_patched r1 (kept_patch r newEmail h) r2 → unique_in (table d) i r2.
Proof.
  intros Hr1 Hr H1%moved_row H2%kept_row; [|done]. eapply unique_in_same; [..|by apply (tb_unique i d r1)].
  - by rewrite (H2 "email" eq_refl) by done.
  - rewrite (H2 "provider" eq_refl) by done. by rewrite (H1 "provider" eq_refl) by done.
  - rewrite (H2 "provider_id" eq_refl) by done. by rewrite (H1 "provider_id" eq_refl) by done.
Qed.

Lemma expected_owner user uid email previous waiting q f :
  assoc (expected_entries hmac_sha256_hex (emailIndexSecret config) (accessSecret (cfg_jwt config)) Date_toString
           user uid email previous waiting) q = Some f → obj_get f "user_id" = VStr uid.
Proof.
  assert (Hall : Forall (λ p, obj_get p.2 "user_id" = VStr uid) (expected_entries hmac_sha256_hex (emailIndexSecret config)
    (accessSecret (cfg_jwt config)) Date_toString user uid email previous waiting)).
  { unfold expected_entries. destruct previous, waiting, (has_oauth user); repeat constructor. }
  induction Hall as [|[k g] l Hg _ IH]; [done|]. cbn. destruct (String.eqb k q); [by intros [= <-]|done].
Qed.

(** *** The handler *)

(** What finalising leaves *)
Definition merged_state (s : App) (i j : string) (r : object) (old newEmail : string) (n : Z) (rts : list string) (l : list val)
    (res : Response) (s' : App) : Prop :=
  status res = 200 ∧ app_outbox s' = app_outbox s ∧ app_revocations s' = app_revocations s ∧
  ∃ t t' r' refresh primary previous,
    t0 ≤ t ≤ t1 ∧ table (app_users s') = <[i := r']> (delete j (table (app_users s))) ∧
    moved r (merged_columns r old newEmail n t
      (cell_of Date_toISOString hashPassword "migrationHistory" (VArr (completed_list l (VStr old) newEmail t')))) r' ∧
    obj_get r' "refresh_tokens" = strs (new_tokens None rts (sha256_hex refresh)) ∧
    entries (app_index s') !! key MPrimary newEmail = Some primary ∧ obj_get primary "user_id" = VStr i ∧
    entries (app_index s') !! key MPrevious old = Some previous ∧ obj_get previous "user_id" = VStr i ∧
    obj_get previous "expires_at" = VDate (t + FIVE_DAYS_MS) ∧
    ∀ q e, entries (app_index s') !! q = Some e → obj_get e "user_id" ≠ VStr j.

Section Run.
Context (s : App) (i j : string) (r rj : object) (old newEmail : string) (n : Z) (rts : list string) (l : list val).
Context (Hr : table (app_users s) !! i = Some r) (Hrj : table (app_users s) !! j = Some rj) (Hij : i ≠ j) (Hi : i ≠ "") (Hj : j ≠ "").
Context (He : obj_get r "email" = VStr old) (Hold : old ≠ "") (Hej : obj_get rj "email" = VStr newEmail) (Hne : newEmail ≠ "").
Context (Hn : obj_get r "token_version" = VNum n) (Hlim : n + 1 < 2 ^ 31) (Hrts : obj_get r "refresh_tokens" = strs rts).
Context (Hh : obj_get r "migration_history" = VArr l) (Hwin : t1 < t0 + FIVE_DAYS_MS).
Context (Hsa : accessSecret (cfg_jwt config) ≠ "") (Hsr : refreshSecret (cfg_jwt config) ≠ "").

(** The index once the moved account has been synchronised *)
Definition indexed_as (expires : val) (y : idb) : Prop :=
  (∃ e, entries y !! key MPrimary newEmail = Some e ∧ obj_get e "user_id" = VStr i) ∧
  (∃ e, entries y !! key MPrevious old = Some e ∧ obj_get e "user_id" = VStr i ∧ obj_get e "expires_at" = expires) ∧
  ∀ q e, entries y !! q = Some e → obj_get e "user_id" ≠ VStr j.

Lemma merged_index x y user :
  user_get user "previousEmail" = VStr old →
  (∀ q e, entries x !! q = Some e → obj_get e "user_id" ≠ VStr j) →
  (∀ q, match assoc (expected_entries hmac_sha256_hex (emailIndexSecret config) (accessSecret (cfg_jwt config)) Date_toString
                       user i newEmail true false) q with
        | Some f => ∃ r, entries y !! q = Some r ∧ row_of q f r
        | None => entries y !! q = match entries x !! q with Some r => if owned i r then None else Some r | None => None end
        end) →
  indexed_as (user_get user "migrationExpiry") y.
Proof.
  intros Hprev Hnoj Hent. split_and!.
  - specialize (Hent (key MPrimary newEmail)). unfold expected_entries, primary_entry in Hent.
    cbn [app assoc fst] in Hent. rewrite String.eqb_refl in Hent. destruct Hent as (e & Hq & _ & Hcols). exists e. split; [done|].
    by apply (Forall_forall _ _) with (x := "user_id") in Hcols; [|apply has_spec].
  - specialize (Hent (key MPrevious old)). unfold expected_entries, primary_entry, previous_entry in Hent. rewrite Hprev in Hent.
    cbn [app assoc fst text_of] in Hent. rewrite (proj2 (String.eqb_neq _ _)), String.eqb_refl in Hent by done.
    destruct Hent as (e & Hq & _ & Hcols). exists e. rewrite Forall_forall in Hcols.
    split; [done|]. split; [by apply (Hcols "user_id"), has_spec|by apply (Hcols "expires_at"), has_spec].
  - intros q e Hq Hju. specialize (Hent q). destruct (assoc _ q) as [f|] eqn:Hf.
    + destruct Hent as (e' & He' & _ & Hcols). rewrite Hq in He'. injection He' as <-. rewrite Forall_forall in Hcols.
      pose proof (Hcols "user_id" ltac:(by apply has_spec)) as Hc. rewrite (expected_owner _ _ _ _ _ _ _ Hf), Hju in Hc. congruence.
    + rewrite Hq in Hent. destruct (entries x !! q) as [e'|] eqn:Hx; [|done]. destruct (owned i e'); [done|].
      injection Hent as ->. by apply (Hnoj q e').
Qed.

(** The tokens of the moved account *)
Lemma merge_reply c d x m t t' r1 r2 :
  let h := completed_list l (VStr old) newEmail t' in
  t0 ≤ t ≤ t1 → table d = <[i := r2]> (delete j (table (app_users s))) → row_typed r2 = true →
  row_patched r (bumped (migration_set (VStr old) newEmail t) n) r1 → row_patched r1 (kept_patch r newEmail h) r2 →
  indexed_as (VDate (t + FIVE_DAYS_MS)) x →
  always (during t0 t1)
    (migrated_reply sha256_hex base64url_decode Date_toString Date_toISOString config (saved r2))
    (mkApp c d x (app_revocations s) m (app_outbox s))
    (λ res s', match res with inl _ => False | inr a => merged_state s i j r old newEmail n rts l a s' end).
Proof.
  intros h Ht Htab Hty H1 H2 (Hp & Hpv & Hnoj). pose proof (tb_typed _ _ _ Hr) as Hrt.
  pose proof (merged_row r r1 r2 r2 old newEmail n t h Hrt H1 H2 ltac:(done)) as Hm.
  assert (Hr2 : table d !! i = Some r2) by (rewrite Htab; apply lookup_insert_eq).
  destruct (pg_row_id i d r2 Hr2) as [Hid _].
  pose proof (saved_shows ["email"; "tokenVersion"] r2 Hty eq_refl) as [Hsid Hsf].
  assert (Hrts2 : obj_get r2 "refresh_tokens" = strs rts).
  { rewrite (kept_row _ _ _ _ _ Hrt H2 "refresh_tokens" eq_refl) by done.
    by rewrite (moved_row _ _ _ _ _ _ H1 "refresh_tokens" eq_refl) by done. }
  assert (Hem : user_get (saved r2) "email" = VStr newEmail) by (rewrite (Hsf "email" eq_refl); by apply Hm).
  assert (Hv : user_get (saved r2) "tokenVersion" = VNum (n + 1)) by (rewrite (Hsf "tokenVersion" eq_refl); by apply Hm).
  unfold migrated_reply. eapply (step_open _ _ _ _ _ t0 t1 (during t0 t1)) with (i := i) (r := r2) (rts := rts); try done.
  { by rewrite Hsid. } { by rewrite Hem. } { by rewrite Hv. }
  intros tokens jtis w c1 d1 Hw _ (r3 & Htab3 & Hrts3 & _ & Hsame). step step_cookies. intros c2 csrf. apply always_ret.
  split; [done|]. split; [done|]. split; [done|]. cbn [app_users app_index].
  destruct Hp as (e1 & Hp1 & Hp2), Hpv as (e2 & Hv1 & Hv2 & Hv3).
  exists t, t', r3, tokens.2, e1, e2. split; [done|]. split; [by rewrite Htab3, Htab, insert_insert_eq|].
  split; [by apply (merged_row r r1 r2)|]. by split_and!.
Qed.

(** From the saved document to the answer *)
Lemma merge_tail c d x m u t t' r1 r2 :
  let h := completed_list l (VStr old) newEmail t' in
  t0 ≤ t ≤ t1 → shows carried r u → table d = <[i := r2]> (delete j (table (app_users s))) → row_typed r2 = true →
  row_patched r (bumped (migration_set (VStr old) newEmail t) n) r1 → row_patched r1 (kept_patch r newEmail h) r2 →
  known_user x i = true → (∀ q e, entries x !! q = Some e → obj_get e "user_id" ≠ VStr j) →
  always (during t0 t1)
    (let* _ := sync_account hmac_sha256_hex Date_toString config (saved r2) in
     let* _ := check_bio Date_toString Date_toISOString hashPassword (user_get (saved r2) "_id") (extractUserData u) in
     migrated_reply sha256_hex base64url_decode Date_toString Date_toISOString config (saved r2))
    (mkApp c d x (app_revocations s) m (app_outbox s))
    (λ res s', match res with inl _ => False | inr a => merged_state s i j r old newEmail n rts l a s' end).
Proof.
  intros h Ht Hu Htab Hty H1 H2 Hknown Hnoj. pose proof (tb_typed _ _ _ Hr) as Hrt.
  pose proof (merged_row r r1 r2 r2 old newEmail n t h Hrt H1 H2 ltac:(done)) as Hm.
  assert (Hr2 : table d !! i = Some r2) by (rewrite Htab; apply lookup_insert_eq).
  destruct (pg_row_id i d r2 Hr2) as [Hid _].
  assert (Hem : obj_get r2 "email" = VStr newEmail) by by apply Hm.
  pose proof (saved_shows ("tokenVersion" :: "migrationExpiry" :: index_fields) r2 Hty eq_refl) as [Hsid Hsf].
  assert (Hs : shows index_fields r2 (saved r2)) by by apply saved_shows.
  pose proof (shows_indexable r2 (saved r2) i newEmail Hs Hty Hid Hi Hem) as Hix.
  assert (Hprev : user_get (saved r2) "previousEmail" = VStr old) by (rewrite (Hsf "previousEmail" eq_refl); by apply Hm).
  assert (Hexp : user_get (saved r2) "migrationExpiry" = VDate (t + FIVE_DAYS_MS)) by (rewrite (Hsf "migrationExpiry" eq_refl); by apply Hm).
  assert (Hpend : user_get (saved r2) "newEmailPending" = VNull) by (rewrite (Hsf "newEmailPending" eq_refl); by apply Hm).
  eapply (step_sync _ _ _ t0 t1 (during t0 t1)) with (uid := i) (email := newEmail) (previous := true) (waiting := false);
    [exact Hix|exact Hknown| |].
  { intros w Hw. unfold has_previous, has_pending, pending. rewrite Hprev, Hexp, Hpend. cbn.
    rewrite (proj2 (String.eqb_neq _ _) Hold). split; [|done]. cbn. apply Z.ltb_lt. lia. }
  intros c1 y _ Hent. unfold check_bio. apply always_bind. rewrite Hsid, Hid. step step_find; [by vm_compute|]. intros c2. rewrite Hr2.
  cbn [fmap option_fmap option_map]. destruct (extract_kept r Hrt u Hu) as (_ & -> & _).
  set (cols := projection (Some bio_spec)). assert (Hnd : NoDup cols) by (apply (bool_decide_unpack _); by vm_compute).
  pose proof (doc_shows ["bio"] cols r2 _ (document_of cols r2 Hnd) eq_refl eq_refl) as [_ Hb].
  assert (Hbio : user_get (document cols r2) "bio" = kept_bio r) by (rewrite (Hb "bio" eq_refl); by apply Hm).
  rewrite Hbio. unfold kept_bio. cbn [strict_eq]. rewrite String.eqb_refl. apply always_ret.
  eapply merge_reply; [exact Ht|exact Htab|exact Hty|exact H1|exact H2|]. rewrite <- Hexp. by apply (merged_index x).
Qed.

Lemma moved_document r1 t :
  row_typed r = true → row_typed r1 = true → row_patched r (bumped (migration_set (VStr old) newEmail t) n) r1 →
  user_get (updated r1) "previousEmail" = VStr old ∧ user_get (updated r1) "migrationHistory" = VArr l.
Proof.
  intros Hrt Hty H1%moved_row. pose proof (updated_of r1 Hty) as Hd.
  pose proof (doc_shows ["previousEmail"; "migrationHistory"] all_columns r1 _ Hd eq_refl eq_refl) as [_ Hs].
  rewrite (Hs "previousEmail" eq_refl), (Hs "migrationHistory" eq_refl). change (col_of "previousEmail") with "previous_email".
  change (col_of "migrationHistory") with "migration_history".
  split; [by rewrite (H1 "previous_email" eq_refl) by done|by rewrite (H1 "migration_history" eq_refl) by done].
Qed.

(** The document that is saved: the moved one with the data carried over *)
Lemma kept_edited r1 t t' u :
  shows carried r u → row_typed r1 = true → row_patched r (bumped (migration_set (VStr old) newEmail t) n) r1 →
  let u1 := mark_profile (applyUserData md5_hex (updated r1) (extractUserData u) newEmail) in
  edited (updated r1) (kept_patch r newEmail (completed_list l (VStr old) newEmail t'))
    (complete_history u1 (or_val (user_get u1 "previousEmail") (user_get u1 "email")) newEmail t').
Proof.
  intros Hu Hty H1 u1. pose proof (tb_typed _ _ _ Hr) as Hrt. destruct (moved_document r1 t Hrt Hty H1) as [Hp Hh1].
  assert (He1 : edited (updated r1) (profile_patch r newEmail) u1).
  { apply profile_edited; [done..|]. rewrite (doc_modified _ _ _ (updated_of r1 Hty)). constructor. }
  assert (Hp1 : user_get u1 "previousEmail" = VStr old).
  { rewrite user_get_value by done. rewrite (ed_get _ _ _ He1). cbn [profile_patch patch_value foldl fst snd String.eqb Ascii.eqb Bool.eqb].
    by rewrite <- user_get_value. }
  rewrite Hp1. unfold or_val at 1. cbn [truthy]. rewrite (proj2 (String.eqb_neq _ _) Hold). cbn [negb].
  by apply complete_edited.
Qed.

(** The other account is released and deleted, this one is moved, its data is
    kept, and it gets a session. *)
Lemma merge_accounts_spec c d x m u ue :
  d = app_users s → x = app_index s → shows ("email" :: "tokenVersion" :: carried) r u → user_get ue "_id" = VStr j →
  always (during t0 t1)
    (merge_accounts sha256_hex base64url_decode md5_hex hmac_sha256_hex Date_toString Date_toISOString hashPassword config u ue newEmail)
    (mkApp c d x (app_revocations s) m (app_outbox s))
    (λ res s', match res with inl _ => False | inr a => merged_state s i j r old newEmail n rts l a s' end).
Proof.
  intros -> -> Hu Hue. pose proof (tb_typed _ _ _ Hr) as Hrt. destruct (pg_row_id i _ r Hr) as [Hid _].
  destruct (typed_version r Hrt) as (n' & Hn' & Hlo). rewrite Hn in Hn'. injection Hn' as <-. destruct Hu as [Huid Huf].
  assert (Huc : shows carried r u) by (split; [done|]; intros f Hf; apply Huf, has_spec; apply has_spec in Hf; by do 2 right).
  unfold merge_accounts, doc_id. rewrite Hue. step step_release. intros c1 y Hk Hy. step step_delete. intros c2 d1 Htab.
  assert (Hr1 : table d1 !! i = Some r) by by rewrite Htab, lookup_delete_ne.
  eapply step_move with (i := i) (n := n) (r := r) (old := old); [done|done|lia|lia| | | | |].
  { by rewrite Huid. } { rewrite (Huf "tokenVersion" eq_refl). exact Hn. } { rewrite (Huf "email" eq_refl). exact He. }
  { intros t r1 H1. by apply (move_unique (app_users s) d1 i j r rj old newEmail n t r1). }
  intros t c3 d2 r1 Ht Htab2 H1 Hty1. step step_here. intros c4 e Ht'. cbn [fst].
  assert (Hr2 : table d2 !! i = Some r1) by by rewrite Htab2, lookup_insert_eq.
  eapply (step_save Date_toISOString hashPassword (during t0 t1) _ _ _ _ _ _ _ i all_columns r1 (updated r1)
    (kept_patch r newEmail (completed_list l (VStr old) newEmail (RedisCache.clock c4))));
    [exact Hr2|by apply updated_of|by vm_compute|by apply kept_patch_ok|by apply (kept_edited r1 t)| |].
  { intros r2 H2. by apply (kept_unique d2 i r r1 r2 old newEmail n t _ Hr2 Hrt H1 H2). }
  intros c5 d3 r2 Htab3 H2 Hty2. eapply merge_tail; [exact Ht|exact Huc| |exact Hty2|exact H1|exact H2| |].
  { by rewrite Htab3, Htab2, insert_insert_eq, Htab. }
  { rewrite follow_known, Hr1. by apply bool_decide_eq_true. }
  intros q e1 Hq. by apply (no_entry_left d1 y j q e1); [rewrite Htab, lookup_delete_eq|].
Qed.
End Run.

(** C4. A migration whose new address is that of another account takes the
    address over: the other account and its index entries are deleted; the
    account has the new address, verified, and keeps its old one as a reserved
    previous address for five days; its profile, its login data and provider,
    and every column that is not named are kept, the migration is completed in
    the history, the pending data is cleared and the token version bumped; the
    index says so, and the answer is 200 with a new session. *)
Theorem finalize_merges s user i j r rj entry old pending n rts l :
  let newEmail := toLowerCase pending in
  table (app_users s) !! i = Some r → table (app_users s) !! j = Some rj → i ≠ j → i ≠ "" → j ≠ "" →
  shows ["newEmailPending"; "tokenVersion"] r user →
  obj_get r "email" = VStr old → old ≠ "" → obj_get rj "email" = VStr newEmail → newEmail ≠ "" →
  obj_get r "new_email_pending" = VStr pending → obj_get r "token_version" = VNum n → n + 1 < 2 ^ 31 →
  obj_get r "refresh_tokens" = strs rts → obj_get r "migration_history" = VArr l →
  entries (app_index s) !! key MPrimary newEmail = Some entry → obj_get entry "user_id" = VStr j → obj_get entry "expires_at" = VNull →
  t1 < t0 + FIVE_DAYS_MS → accessSecret (cfg_jwt config) ≠ "" → refreshSecret (cfg_jwt config) ≠ "" →
  always (during t0 t1)
    (finalizeMigrationInternal sha256_hex base64url_decode md5_hex hmac_sha256_hex Date_toString Date_toISOString hashPassword config user)
    s (merged_state s i j r old newEmail n rts l).
Proof.
  intros newEmail Hr Hrj Hij Hi Hj [Huid Huf] He Hold Hej Hne Hp Hn Hlim Hrts Hh Hx Hxu Hxe Hwin Hsa Hsr.
  destruct (pg_row_id i _ r Hr) as [Hid _], (pg_row_id j _ rj Hrj) as [Hidj _].
  set (cols := projection (Some current_spec)). assert (Hnd : NoDup cols) by (apply (bool_decide_unpack _); by vm_compute).
  pose proof (doc_shows ("newEmailPending" :: "email" :: "tokenVersion" :: carried) cols r _ (document_of cols r Hnd) eq_refl eq_refl) as [Hcid Hcf].
  set (current := document cols r) in *. destruct s as [c d x rv m o]. cbn [app_users app_index] in *.
  assert (Hpu : user_get user "newEmailPending" = VStr pending) by (rewrite (Huf "newEmailPending" eq_refl); exact Hp).
  assert (Hpc : user_get current "newEmailPending" = VStr pending) by (rewrite (Hcf "newEmailPending" eq_refl); exact Hp).
  assert (Hvu : user_get user "tokenVersion" = VNum n) by (rewrite (Huf "tokenVersion" eq_refl); exact Hn).
  assert (Hvc : user_get current "tokenVersion" = VNum n) by (rewrite (Hcf "tokenVersion" eq_refl); exact Hn).
  unfold finalizeMigrationInternal. apply always_catch. unfold finalize_body. rewrite Hpu. cbn [truthy].
  rewrite (proj2 (String.eqb_neq pending "")) by (intros ->; by apply Hne). cbn [negb]. rewrite Huid, Hid.
  step step_find; [by vm_compute|]. intros c1. rewrite Hr. cbn [fmap option_fmap option_map]. fold cols current.
  rewrite Hvc, Hvu, Hpc. cbn [strict_eq lower_val]. rewrite Z.eqb_refl. cbn [negb]. fold newEmail.
  rewrite (proj2 (String.eqb_neq _ _) Hne). step step_primary_some; [exact Hx|exact Hxu|exact Hxe|]. intros c2. step step_find_if; [exact Hj|]. intros c3. rewrite Hrj.
  cbn [fmap option_fmap option_map]. unfold doc_id at 1 2. rewrite Hcid, Hid.
  assert (Hje : user_get (document (projection None) rj) "_id" = VStr j).
  { rewrite (doc_id_get (projection None) rj); [done|apply document_of|by vm_compute].
    apply (bool_decide_unpack _); by vm_compute. }
  rewrite Hje. rewrite (proj2 (String.eqb_neq j i)) by done. cbn [negb].
  eapply always_mono; [apply (merge_accounts_spec (mkApp c d x rv m o) i j r rj old newEmail n rts l); try done|by intros [e|a]].
  split; [done|]. intros f Hf. apply Hcf, has_spec. apply has_spec in Hf. by right.
Qed.
End Merge.

Module MigrationRun.
Definition now0 : Z := 1000000.
Definition later : Z := 3000000.

(** Alice moves to Bob's address; the links are still valid. *)
Definition alice : object :=
  obj_assign MemApp.alice [("new_email_pending", VStr "bob@x"); ("migration_token_expires", VDate 2000000);
    ("current_email_verified", VBool true); ("new_email_verified", VBool true)].
Definition bob : object := MemApp.account [("id", VStr "u2"); ("email", VStr "bob@x"); ("display_name", VStr "Bob")].
Definition start :=
  MemApp.app [("u1", alice); ("u2", bob)] [MemApp.primary "alice@x" "u1" true; MemApp.primary "bob@x" "u2" true].
Definition user : User := document all_columns alice.
Definition other : User := document all_columns bob.
Definition final := run (finalizeMigrationInternal MemApp.sha id MemApp.sha MemApp.hmac MemApp.iso MemApp.iso MemApp.hash
  (RKV := MemKV.mem_kv) (UDB := MemTable.mem_table) (IDB := MemIndex.mem_index) (FK := MemApp.mem_fk) (J := ToyJwt.toy_jwt)
  MemApp.config user) MemApp.always_fine start.
End MigrationRun.

(** Alice's migration onto Bob's address *)
Lemma finalize_merges_witness :
  (status MigrationRun.final.1 = 200 ∧ ResetRun.column MigrationRun.final.2 "u1" "email" = VStr "bob@x") ∧
  merged_state MemApp.sha MemApp.sha MemApp.hmac MemApp.iso MemApp.hash (RKV := MemKV.mem_kv) (UDB := MemTable.mem_table)
    (IDB := MemIndex.mem_index) MemApp.config 1000000 3000000 MigrationRun.start "u1" "u2" MigrationRun.alice "alice@x" "bob@x" 3
    ["#old"] [] MigrationRun.final.1 MigrationRun.final.2.
Proof.
  split; [split; vm_compute; reflexivity|].
  apply (finalize_merges MemApp.sha id MemApp.sha MemApp.hmac MemApp.iso MemApp.iso MemApp.hash (RKV := MemKV.mem_kv)
    (UDB := MemTable.mem_table) (IDB := MemIndex.mem_index) (FK := MemApp.mem_fk) (J := ToyJwt.toy_jwt) MemApp.config 1000000 3000000
    MigrationRun.start MigrationRun.user "u1" "u2" MigrationRun.alice MigrationRun.bob
    (MemIndex.keyed (MemApp.primary "bob@x" "u2" true).1 (MemApp.primary "bob@x" "u2" true).2) "alice@x" "bob@x" 3 ["#old"] []);
    [vm_compute; reflexivity|vm_compute; reflexivity|discriminate|discriminate|discriminate| |reflexivity|discriminate|reflexivity
    |discriminate|reflexivity|reflexivity|reflexivity|reflexivity|reflexivity|vm_compute; reflexivity|reflexivity|reflexivity
    |reflexivity|discriminate|discriminate|].
  - apply (doc_shows _ all_columns); [apply document_of|vm_compute; reflexivity..]. apply (bool_decide_unpack _); vm_compute; exact I.
  - apply (path_check _ (duringb 1000000 3000000)); [apply duringb_spec|vm_compute; reflexivity].
Defined.

(** Alice signed in elsewhere meanwhile: Bob's account is lost. *)
Lemma merge_conflict_loses_account_witness :
  let final := run (merge_accounts MemApp.sha id MemApp.sha MemApp.hmac MemApp.iso MemApp.iso MemApp.hash
    (RKV := MemKV.mem_kv) (UDB := MemTable.mem_table) (IDB := MemIndex.mem_index) (FK := MemApp.mem_fk) (J := ToyJwt.toy_jwt)
    MemApp.config (document all_columns (obj_assign MigrationRun.alice [("token_version", VNum 2)])) MigrationRun.other "bob@x")
    MemApp.always_fine MigrationRun.start in
  final.1 = inr concurrent_modification ∧
  table (app_users final.2) = delete "u2" (table (app_users MigrationRun.start)) ∧
  ∀ q e, entries (app_index final.2) !! q = Some e → obj_get e "user_id" ≠ VStr "u2".
Proof.
  apply (merge_conflict_loses_account MemApp.sha id MemApp.sha MemApp.hmac MemApp.iso MemApp.iso MemApp.hash (RKV := MemKV.mem_kv)
    (UDB := MemTable.mem_table) (IDB := MemIndex.mem_index) (FK := MemApp.mem_fk) (J := ToyJwt.toy_jwt) MemApp.config 1000000 3000000
    MigrationRun.start (document all_columns (obj_assign MigrationRun.alice [("token_version", VNum 2)])) MigrationRun.other "u1" "u2" 2 "bob@x");
    [reflexivity|reflexivity|reflexivity|discriminate|lia|vm_compute; reflexivity|].
  apply (path_check _ (duringb 1000000 3000000)); [apply duringb_spec|vm_compute; reflexivity].
Defined.

(** Alice's links have expired before she opened the second one. *)
Lemma expired_migration_stuck_witness :
  let alice := obj_assign MigrationRun.alice [("new_email_verified", VBool false); ("migration_token_expires", VDate 1)] in
  let user := document all_columns alice in
  let start := MemApp.app [("u1", alice)] [MemApp.primary "alice@x" "u1" true] in
  let final := run (finalizeMigration MemApp.sha id MemApp.sha MemApp.hmac MemApp.iso MemApp.iso MemApp.hash
    (RKV := MemKV.mem_kv) (UDB := MemTable.mem_table) (IDB := MemIndex.mem_index) (FK := MemApp.mem_fk) (J := ToyJwt.toy_jwt)
    MemApp.config user) MemApp.always_fine start in
  refused_unchanged start final.1 final.2.
Proof.
  intros alice user start final.
  apply (expired_migration_stuck MemApp.sha id MemApp.sha MemApp.hmac MemApp.iso MemApp.iso MemApp.hash MemApp.verify (RKV := MemKV.mem_kv)
    (UDB := MemTable.mem_table) (IDB := MemIndex.mem_index) (FK := MemApp.mem_fk) (J := ToyJwt.toy_jwt) MemApp.config 1000000 3000000
    start "u1" alice user 1 None None None); [vm_compute; reflexivity| |reflexivity|reflexivity|lia|reflexivity|].
  - apply (doc_shows _ all_columns); [apply document_of|vm_compute; reflexivity..]. apply (bool_decide_unpack _); vm_compute; exact I.
  - apply (path_check _ (duringb 1000000 3000000)); [apply duringb_spec|vm_compute; reflexivity].
Defined.
