(* ===== verification/Backfill.v ===== *)
(** * The backfill of the identity index

    Models the keyset cursor over the users table ([UserQuery.cursor] of
    [uam-backend/src/db/User.ts]) and [backfillIdentityIndexes] of
    [uam-backend/src/services/identity-index.service.ts], which runs at every
    start of the server.

    The cursor's [for (;;)] reads pages of 500 rows until a page is empty; it
    is bounded by fuel here, and the theorem says how much is enough.  What the
    cursor relies on of PostgreSQL, [ORDER BY id] with the condition on the last
    id, is the class [UsersPageLaws]; the order of ids is the collation of the
    database, of which only that it is a strict total order is used. *)

From Stdlib Require Import Sorted.
From stdpp Require Import sorting.
From S2P Require Import Prelude CircuitConfig RollingWindow CircuitBreaker GuardedCalls Async RedisCache Json JsVal Columns SqlFilter SqlMeaning Password UserModel OneTimeCodes Sessions IdentityIndex OAuthLogin Tokens SessionHandlers UsersTable Documents Application AuthController AppFacts MemApp AuthFacts.
#[local] Open Scope string_scope.
#[local] Open Scope list_scope.
#[local] Open Scope Z_scope.
#[local] Open Scope async_scope.

(** ** The cursor *)

Definition PAGE_SIZE : nat := 500.

(** The statement of one page; [lastId] is [null] at first. *)
Definition page_query (baseWhere : string) (baseParams : list val) (lastId : val) : statement * list val :=
  match lastId with
  | VNull => (SelectPage baseWhere, baseParams)
  | _ =>
      let params := baseParams ++ [lastId] in
      let extra := "id > $" +:+ Z_to_string (Z.of_nat (length params)) in
      (SelectPage (if String.eqb baseWhere "" then extra else "(" +:+ baseWhere +:+ ") AND " +:+ extra), params)
  end.

Section Cursor.
Context (Date_toString Date_toISOString : Z → string) (hmac_sha256_hex : string → string → string).
Context `{RKV : RedisKV} `{UDB : UsersDb} `{IDB : IndexDb}.

(** [await pool.query(sql, params)] *)
Definition query_page (st : statement) (params : list val) : prog AppEnv App (failure + list object) :=
  on_users (λ _ d, let '(r, d) := pg st params d in
                   (match r with inl e => inl (Driver e) | inr (rows, _) => inr rows end, d)).

(** The body of [for await] on the documents of one page *)
Fixpoint for_rows {A} (body : A → User → prog AppEnv App (failure + A)) (rows : list object) (acc : A)
    : prog AppEnv App (failure + A) :=
  match rows with
  | [] => Ret (inr acc)
  | r :: rows => let* acc := body acc (new_User (rowToValues r) false) in for_rows body rows acc
  end.

(** [for (;;)]; [None]: out of fuel. *)
Fixpoint cursor_loop {A} (body : A → User → prog AppEnv App (failure + A)) (baseWhere : string) (baseParams : list val)
    (fuel : nat) (lastId : val) (acc : A) : prog AppEnv App (option (failure + A)) :=
  match fuel with
  | O => Ret None
  | S fuel =>
      let '(st, params) := page_query baseWhere baseParams lastId in
      let! rows := query_page st params in
      match rows with
      | inl e => Ret (Some (inl e))
      | inr rows =>
          match last rows with
          | None => Ret (Some (inr acc))
          | Some r =>
              let! res := for_rows body rows acc in
              match res with
              | inl e => Ret (Some (inl e))
              | inr acc => cursor_loop body baseWhere baseParams fuel (obj_get r "id") acc
              end
          end
      end
  end.

(** [for await (const user of query.cursor()) body] *)
Definition for_cursor {A} (q : UserQuery) (body : A → User → prog AppEnv App (failure + A)) (fuel : nat) (acc : A)
    : prog AppEnv App (option (failure + A)) :=
  match SqlFilter.buildWhere Date_toString Date_toISOString (q_filter q) [] with
  | Thrown e => Ret (Some (inl (Err e)))
  | Returned (baseWhere, baseParams) => cursor_loop body baseWhere baseParams fuel VNull acc
  end.

Context (config : AppConfig).

(** [(scanned, synced)] *)
Definition backfill_one (acc : Z * Z) (user : User) : prog AppEnv App (failure + Z * Z) :=
  let* _ := sync_account hmac_sha256_hex Date_toString config user in
  Ret (inr (acc.1 + 1, acc.2 + 1)).

Definition backfillIdentityIndexes (fuel : nat) : prog AppEnv App (option (failure + Z * Z)) :=
  for_cursor (new_UserQuery (VObj []) false) backfill_one fuel (0, 0).
End Cursor.

(** ** What is relied on *)

(** The ids of the table in order *)
Definition enumerates (before : string → string → Prop) (t : gmap string object) (ids : list string) : Prop :=
  StronglySorted before ids ∧ ∀ i, i ∈ ids ↔ is_Some (t !! i).

Definition rows_at (t : gmap string object) (ids : list string) : list object := omap (λ i, t !! i) ids.

Class UsersPageLaws `(UDB : UsersDb) : Type := {
  id_before : string → string → Prop;
  id_before_order :: StrictOrder id_before;
  id_before_dec :: RelDecision id_before;
  page_first : ∀ d, ∃ ids, enumerates id_before (table d) ids ∧
    pg (SelectPage "") [] d = (inr (rows_at (table d) (take PAGE_SIZE ids), Z.of_nat (length (take PAGE_SIZE ids))), d);
  page_next : ∀ d a, ∃ ids, enumerates id_before (table d) ids ∧
    let rest := filter (id_before a) ids in
    pg (SelectPage "id > $1") [VStr a] d = (inr (rows_at (table d) (take PAGE_SIZE rest), Z.of_nat (length (take PAGE_SIZE rest))), d);
}.

(** ** The cursor visits every row once, in order *)

Section Order.
Context (before : string → string → Prop) {SO : StrictOrder before} {BD : RelDecision before}.

Lemma enumerates_nodup t ids : enumerates before t ids → NoDup ids.
Proof.
  intros [Hs _]. induction Hs as [|i ids Hs IH Hall]; constructor; [|done].
  intros Hi. rewrite Forall_forall in Hall. by apply (irreflexivity before i), Hall.
Qed.

Lemma enumerates_unique t ids ids' : enumerates before t ids → enumerates before t ids' → ids = ids'.
Proof.
  intros H H'. apply (StronglySorted_unique_strong before); [|exact (proj1 H)|exact (proj1 H')|].
  - intros x y _ _ Hxy Hyx. exfalso. apply (irreflexivity before x). by transitivity y.
  - apply NoDup_Permutation; [by apply (enumerates_nodup t)..|]. intros i. by rewrite (proj2 H i), (proj2 H' i).
Qed.

(** What is left after a row that was visited *)
Lemma filter_after seen a rest :
  StronglySorted before (seen ++ a :: rest) → filter (before a) (seen ++ a :: rest) = rest.
Proof.
  induction seen as [|x seen IH]; cbn [app]; intros [Hall Hs]%StronglySorted_cons.
  - rewrite filter_cons_False by apply irreflexivity, SO. by apply filter_all.
  - rewrite filter_cons_False; [by apply IH|]. intros Hax. apply Forall_app in Hall as [_ [Hxa _]%Forall_cons].
    apply (irreflexivity before x). by transitivity a.
Qed.
End Order.

Section Loop.
Context `{RKV : RedisKV} `{UDB : UsersDb} {DL : UsersDbLaws UDB} {PL : UsersPageLaws UDB} `{IDB : IndexDb}.
Context (P : AppEnv → App → Prop) {A : Type} (body : A → User → prog AppEnv App (failure + A)).
Context (t : gmap string object) (I : list string → A → App → Prop).

(** One round of the body keeps the invariant and the table; time may pass. *)
Context (Hbody : ∀ seen i r acc s, i ∉ seen → t !! i = Some r → table (app_users s) = t → I seen acc s →
  always P (body acc (updated r)) s (λ res s',
    match res with inl _ => False | inr acc => table (app_users s') = t ∧ I (seen ++ [i]) acc s' end)).
Context (Htick : ∀ seen acc c s, I seen acc s → I seen acc (s <| app_cache := c |>)).

Lemma for_rows_rule ids seen acc s :
  NoDup (seen ++ ids) → (∀ i, i ∈ ids → is_Some (t !! i)) → table (app_users s) = t → I seen acc s →
  always P (for_rows body (rows_at t ids) acc) s (λ res s',
    match res with inl _ => False | inr acc => table (app_users s') = t ∧ I (seen ++ ids) acc s' end).
Proof.
  revert seen acc s. induction ids as [|i ids IH]; intros seen acc s Hnd Hin Ht HI.
  { apply always_ret. by rewrite app_nil_r. }
  destruct (Hin i) as [r Hr]; [by left|]. unfold rows_at. cbn [omap list_omap]. rewrite Hr. cbn [for_rows].
  apply always_bind. eapply always_mono; [apply (Hbody seen i r); try done|].
  { intros Hi. by apply NoDup_app in Hnd as (_ & Hx & _); apply (Hx i); [|left]. }
  intros [e|acc'] s'; [done|]. intros [Ht' HI']. rewrite (cons_middle i seen ids), app_assoc in Hnd |- *.
  apply IH; try done. intros j Hj. apply Hin. by right.
Qed.

Definition last_id (seen : list string) : val := match last seen with None => VNull | Some a => VStr a end.

Lemma page_of seen rest d :
  enumerates id_before (table d) (seen ++ rest) →
  let '(st, params) := page_query "" [] (last_id seen) in
  ∃ n, pg st params d = (inr (rows_at (table d) (take PAGE_SIZE rest), n), d).
Proof.
  intros He. unfold last_id. destruct (last seen) as [a|] eqn:Hl; cbn [page_query].
  - apply last_Some in Hl as [seen' ->]. cbn [app length String.eqb]. change (Z_to_string (Z.of_nat 1)) with "1".
    destruct (page_next d a) as (ids & Hids & Hq). cbv zeta in Hq.
    rewrite (enumerates_unique id_before _ _ _ Hids He), <- app_assoc in Hq. cbn [app] in Hq.
    rewrite <- app_assoc in He. pose proof (filter_after id_before seen' a rest (proj1 He)) as Hf. cbn [app] in Hf. rewrite Hf in Hq. eauto.
  - apply last_None in Hl as ->. destruct (page_first d) as (ids & Hids & Hq).
    rewrite (enumerates_unique id_before _ _ _ Hids He) in Hq. eauto.
Qed.

(** Enough fuel: a page for every 500 rows, and the empty one *)
Lemma cursor_rule fuel seen rest acc s :
  enumerates id_before t (seen ++ rest) → (length rest ≤ PAGE_SIZE * fuel)%nat → table (app_users s) = t → I seen acc s →
  always P (cursor_loop body "" [] (S fuel) (last_id seen) acc) s (λ res s',
    ∃ acc', res = Some (inr acc') ∧ table (app_users s') = t ∧ I (seen ++ rest) acc' s').
Proof.
  revert seen rest acc s. induction fuel as [|fuel IH]; intros seen rest acc s He Hlen Ht HI.
  all: cbn [cursor_loop]; pose proof (page_of seen rest (app_users s)) as Hq; rewrite Ht in Hq; specialize (Hq He);
    destruct (page_query "" [] (last_id seen)) as [st params]; destruct Hq as [n Hq];
    apply always_on_users; intros e _; rewrite Hq; cbn [fst snd];
    set (s1 := _ <| app_users := _ |>); assert (Ht1 : table (app_users s1) = t) by exact Ht;
    assert (HI1 : I seen acc s1) by exact (Htick _ _ (advance (net e) (app_cache s)) s HI).
  - destruct rest; [|cbn in Hlen; lia]. apply always_ret. exists acc. by rewrite app_nil_r.
  - destruct (take PAGE_SIZE rest) as [|i0 ids0] eqn:Hpage.
    { destruct rest; [|done]. apply always_ret. exists acc. by rewrite app_nil_r. }
    rewrite <- Hpage. assert (Hne : take PAGE_SIZE rest ≠ []) by by rewrite Hpage.
    destruct (exists_last Hne) as (page & a & Ea). assert (Hin : ∀ i, i ∈ take PAGE_SIZE rest → is_Some (t !! i)).
    { intros i Hi. apply He. rewrite <- (take_drop PAGE_SIZE rest). set_solver. }
    destruct (Hin a) as [r Hr]; [rewrite Ea; set_solver|].
    assert (Hlast : last (rows_at t (take PAGE_SIZE rest)) = Some r).
    { rewrite Ea. unfold rows_at. rewrite omap_app. cbn. by rewrite Hr, last_snoc. }
    rewrite Hlast. assert (Heq : seen ++ rest = (seen ++ take PAGE_SIZE rest) ++ drop PAGE_SIZE rest).
    { by rewrite <- app_assoc, take_drop. }
    apply always_bind. eapply always_mono; [apply (for_rows_rule _ seen acc s1); try done|].
    { pose proof (enumerates_nodup id_before _ _ He) as Hnd. rewrite Heq in Hnd. by apply NoDup_app in Hnd as (? & _). }
    intros [e'|acc'] s'; [done|]. intros [Ht' HI']. rewrite Heq in He |- *.
    replace (obj_get r "id") with (last_id (seen ++ take PAGE_SIZE rest)).
    + apply IH; try done. rewrite length_drop. lia.
    + unfold last_id. rewrite Ea, app_assoc, last_snoc. rewrite <- Ht' in Hr. by destruct (pg_row_id a _ r Hr) as [-> _].
Qed.
End Loop.

(** ** The backfill *)

Section Backfilled.
Context (hmac_sha256_hex : string → string → string) (Date_toString Date_toISOString : Z → string).
Context `{RKV : RedisKV} `{UDB : UsersDb} {DL : UsersDbLaws UDB} {TL : UsersTableLaws UDB} {PL : UsersPageLaws UDB}.
Context `{IDB : IndexDb} {IL : IndexDbLaws IDB} (config : AppConfig) (t0 t1 : Z).
Local Abbreviation key := (emailKey hmac_sha256_hex (emailIndexSecret config) (accessSecret (cfg_jwt config))).

(** No reservation of the account ends in the window. *)
Definition undisturbed (r : object) : Prop :=
  ∀ c x, c ∈ ["migration_expiry"; "migration_token_expires"] → obj_get r c = VDate x → x ≤ t0 ∨ t1 < x.

(** The address of the account is indexed as its primary address. *)
Definition address_indexed (x : idb) (i : string) (r : object) : Prop :=
  ∃ e, entries x !! key MPrimary (text_of (obj_get r "email")) = Some e ∧ obj_get e "user_id" = VStr i.

Lemma pending_steady v e t :
  t0 ≤ t ≤ t1 → (∀ x, e = VDate x → x ≤ t0 ∨ t1 < x) → pending v e t = pending v e t0.
Proof.
  intros Ht He. unfold pending. f_equal. destruct e as [| | | | |x| | |]; try done.
  destruct (He x eq_refl); [rewrite !(proj2 (Z.ltb_ge _ _)) by lia|rewrite !(proj2 (Z.ltb_lt _ _)) by lia]; done.
Qed.

Lemma updated_steady r t :
  row_typed r = true → undisturbed r → t0 ≤ t ≤ t1 →
  has_previous (updated r) t = has_previous (updated r) t0 ∧ has_pending (updated r) t = has_pending (updated r) t0.
Proof.
  intros Hty Hu Ht.
  pose proof (doc_shows ["migrationExpiry"; "migrationTokenExpires"] all_columns r _ (updated_of r Hty) eq_refl eq_refl) as [_ Hs].
  unfold has_previous, has_pending. rewrite (Hs "migrationExpiry" eq_refl), (Hs "migrationTokenExpires" eq_refl).
  split; apply pending_steady; try done; intros x Hx; (eapply Hu; [|exact Hx]); apply list_elem_of_In; cbn; auto.
Qed.

(** A key of another account's primary address is none of this account's. *)
Lemma foreign_key_unexpected user uid email previous waiting address :
  key MPrimary address ≠ key MPrimary email →
  assoc (expected_entries hmac_sha256_hex (emailIndexSecret config) (accessSecret (cfg_jwt config)) Date_toString
           user uid email previous waiting) (key MPrimary address) = None.
Proof.
  intros Hne. unfold expected_entries, primary_entry, previous_entry, pending_entry, oauth_entry. apply String.eqb_neq in Hne.
  destruct previous, waiting, (has_oauth user); cbn [app assoc fst]; rewrite String.eqb_sym, Hne; reflexivity.
Qed.

Definition distinct_keys (t : gmap string object) : Prop :=
  ∀ i r j r', t !! i = Some r → t !! j = Some r' → i ≠ j →
    key MPrimary (text_of (obj_get r "email")) ≠ key MPrimary (text_of (obj_get r' "email")).

(** What holds after the documents [seen] *)
Definition backfilled (t : gmap string object) (seen : list string) (acc : Z * Z) (s : App) : Prop :=
  acc = (Z.of_nat (length seen), Z.of_nat (length seen)) ∧
  (∀ i, is_Some (t !! i) → known_user (app_index s) i = true) ∧
  (∀ i r, i ∈ seen → t !! i = Some r → address_indexed (app_index s) i r).

Lemma owned_other i j e : obj_get e "user_id" = VStr j → j ≠ i → owned i e = false.
Proof. intros He Hne. unfold owned. rewrite He. cbn. by apply String.eqb_neq. Qed.

Lemma backfill_step t seen i r acc s :
  distinct_keys t → undisturbed r → i ≠ "" →
  i ∉ seen → t !! i = Some r → table (app_users s) = t → backfilled t seen acc s →
  always (during t0 t1) (backfill_one Date_toString hmac_sha256_hex config acc (updated r)) s (λ res s',
    match res with inl _ => False | inr acc => table (app_users s') = t ∧ backfilled t (seen ++ [i]) acc s' end).
Proof.
  intros Hd Hu Hi Hin Hr Ht (-> & Hk & Hs). destruct s as [c d x rv m o]. cbn [app_users app_index] in *. subst t.
  pose proof (tb_typed i d r Hr) as Hty. destruct (pg_row_id i d r Hr) as [Hid _], (typed_text r "email" Hty eq_refl) as [em Hem].
  pose proof (doc_shows index_fields all_columns r _ (updated_of r Hty) eq_refl eq_refl) as Hsh.
  unfold backfill_one. eapply (step_sync _ _ _ t0 t1 (during t0 t1)) with (uid := i) (email := em)
    (previous := has_previous (updated r) t0) (waiting := has_pending (updated r) t0).
  { by apply (shows_indexable r). } { by apply Hk. } { intros t Ht. by apply updated_steady. }
  intros c1 y Hky Hent. apply always_ret. split; [done|]. split; [|split].
  - rewrite length_app. cbn. f_equal; lia.
  - intros j Hj. cbn [app_index]. rewrite Hky. by apply Hk.
  - intros j r' Hj Hr'. unfold address_indexed. cbn [app_index]. apply elem_of_app in Hj as [Hj| ->%list_elem_of_singleton].
    + assert (Hne : j ≠ i) by by intros ->. destruct (Hs j r' Hj Hr') as (e & He & Heu). exists e. split; [|done].
      specialize (Hent (key MPrimary (text_of (obj_get r' "email")))). rewrite foreign_key_unexpected in Hent.
      * by rewrite Hent, He, (owned_other i j).
      * pose proof (Hd j r' i r Hr' Hr Hne) as H. by rewrite Hem in H.
    + rewrite Hr in Hr'. injection Hr' as <-. rewrite Hem. specialize (Hent (key MPrimary em)). unfold expected_entries, primary_entry in Hent.
      cbn [app assoc fst] in Hent. rewrite String.eqb_refl in Hent. destruct Hent as (e & He & _ & Hcols). exists e. split; [done|].
      rewrite Forall_forall in Hcols. by apply (Hcols "user_id"), has_spec.
Qed.

(** C14. The backfill ends, and it does its work: with a page for every 500
    accounts and one more, the loop returns; it has scanned and synchronised
    every account exactly once, no account has changed, and the address of
    every account is indexed as its own.  Accounts are typed as the table is;
    their ids are not empty, no reservation ends while the backfill runs, and no
    two addresses have the same index key. *)
Theorem backfill_terminates pages s :
  let t := table (app_users s) in
  (size t ≤ PAGE_SIZE * pages)%nat → distinct_keys t →
  (∀ i r, t !! i = Some r → i ≠ "" ∧ undisturbed r ∧ known_user (app_index s) i = true) →
  always (during t0 t1) (backfillIdentityIndexes Date_toString Date_toISOString hmac_sha256_hex config (S pages)) s (λ res s',
    res = Some (inr (Z.of_nat (size t), Z.of_nat (size t))) ∧ table (app_users s') = t ∧
    ∀ i r, t !! i = Some r → address_indexed (app_index s') i r).
Proof.
  intros t Hn Hd Hrows. destruct (page_first (app_users s)) as (ids & He & _). fold t in He.
  assert (Hsize : length ids = size t).
  { pose proof (enumerates_nodup id_before t ids He) as Hnd. rewrite <- size_dom, <- (size_list_to_set (C := gset string) ids Hnd).
    f_equal. apply set_eq. intros i. rewrite elem_of_list_to_set, elem_of_dom. apply He. }
  unfold backfillIdentityIndexes, for_cursor. change (SqlFilter.buildWhere Date_toString Date_toISOString _ _) with (Returned ("", @nil val)).
  cbv iota beta. change VNull with (last_id []).
  eapply always_mono; [apply (cursor_rule _ _ t (backfilled t)) with (rest := ids)|]; try done.
  - intros seen i r acc s1 Hi Hr Ht1 HI. destruct (Hrows i r Hr) as (? & ? & _). by apply backfill_step.
  - lia.
  - split; [done|]. split; [intros i [r Hr]; by apply (Hrows i r)|]. by intros i r ?%not_elem_of_nil.
  - intros res s' (acc & -> & Ht' & -> & _ & Hin). cbn [app] in Hin |- *. rewrite Hsize. split; [done|]. split; [done|].
    intros i r Hr. apply Hin; [|done]. apply He. by eexists.
Qed.
End Backfilled.

(** ** The concrete table has pages *)

Module MemPages.
Definition before (x y : string) : Prop := String.ltb x y = true.

Lemma compare_trans x y z : String.compare x y = Lt → String.compare y z = Lt → String.compare x z = Lt.
Proof.
  revert y z. induction x as [|a x IH]; intros [|b y] [|c z]; cbn; try done.
  unfold Ascii.compare. set (p := Ascii.N_of_ascii a). set (q := Ascii.N_of_ascii b). set (r := Ascii.N_of_ascii c).
  destruct (N.compare_spec p q), (N.compare_spec q r); intros H1 H2; try done; (destruct (N.compare_spec p r); [|done|]); try lia.
  by apply (IH y).
Qed.

#[global] Instance before_order : StrictOrder before.
Proof.
  unfold before, String.ltb. split.
  - intros x. unfold complement. pose proof (String.compare_antisym x x) as H. by destruct (String.compare x x).
  - intros x y z. destruct (String.compare x y) eqn:E1; try done. destruct (String.compare y z) eqn:E2; try done.
    by rewrite (compare_trans x y z).
Qed.

#[global] Instance before_dec : RelDecision before.
Proof. intros x y. unfold before. apply _. Defined.

Lemma before_total x y : x ≠ y → String.ltb x y = false → before y x.
Proof.
  unfold before, String.ltb. intros Hne. rewrite (String.compare_antisym y x).
  destruct (String.compare x y) eqn:E; [by apply String.compare_eq_iff in E|done|done].
Qed.

Lemma insert_sorted_elem x l i : i ∈ MemTable.insert_sorted x l ↔ i = x ∨ i ∈ l.
Proof. induction l as [|y l IH]; cbn; [set_solver|]. destruct (String.ltb x y); set_solver. Qed.

Lemma insert_sorted_sorted x l : x ∉ l → StronglySorted before l → StronglySorted before (MemTable.insert_sorted x l).
Proof.
  intros Hx Hs. induction Hs as [|y l Hs IH Hall]; cbn; [by repeat constructor|].
  destruct (String.ltb x y) eqn:E.
  - constructor; [by constructor|]. constructor; [done|]. eapply Forall_impl; [exact Hall|]. intros z Hz. by transitivity y.
  - constructor; [apply IH; set_solver|]. apply Forall_forall. intros z [->|Hz]%insert_sorted_elem.
    + apply before_total; [set_solver|done].
    + by apply (proj1 (Forall_forall _ _) Hall).
Qed.

Lemma sorted_ids_spec t : enumerates before t (MemTable.sorted_ids t).
Proof.
  unfold MemTable.sorted_ids. pose proof (NoDup_fst_map_to_list t) as Hnd. split.
  - induction (map_to_list t).*1 as [|x l IH]; cbn; [constructor|]. apply NoDup_cons in Hnd as [Hx Hnd].
    apply insert_sorted_sorted; [|by apply IH]. clear IH Hnd. intros Hin. apply Hx. clear Hx. revert Hin. induction l as [|y l IH]; cbn; [done|].
    rewrite insert_sorted_elem. set_solver.
  - intros i. trans (i ∈ (map_to_list t).*1).
    + clear Hnd. induction (map_to_list t).*1 as [|x l IH]; cbn; [done|]. rewrite insert_sorted_elem. set_solver.
    + rewrite list_elem_of_fmap. split.
      * intros ([j r] & -> & Hin%elem_of_map_to_list). by eexists.
      * intros [r Hr]. exists (i, r). split; [done|]. by apply elem_of_map_to_list.
Qed.

Lemma rows_at_length t ids : (∀ i, i ∈ ids → is_Some (t !! i)) → length (rows_at t ids) = length ids.
Proof.
  induction ids as [|i ids IH]; [done|]. intros H. destruct (H i ltac:(by left)) as [r Hr]. unfold rows_at. cbn. rewrite Hr. cbn.
  f_equal. apply IH. intros j Hj. apply H. by right.
Qed.

#[global] Instance mem_pages : UsersPageLaws MemTable.mem_table.
Proof.
  refine {| id_before := before |}; intros d; [|intros a]; exists (MemTable.sorted_ids (MemTable.rows d));
    (split; [apply sorted_ids_spec|]); cbn [pg MemTable.mem_table MemTable.query table];
    unfold MemTable.page; fold (rows_at (MemTable.rows d) (take 500 (MemTable.sorted_ids (MemTable.rows d)))).
  - rewrite rows_at_length; [done|]. intros i Hi%elem_of_take. apply sorted_ids_spec. naive_solver eauto using list_elem_of_lookup_2.
  - fold (before a). change (omap _ (take 500 ?l)) with (rows_at (MemTable.rows d) (take 500 l)).
    rewrite rows_at_length; [done|]. intros i (k & Hk & _)%elem_of_take. apply sorted_ids_spec.
    apply list_elem_of_lookup_2, list_elem_of_filter in Hk. by destruct Hk.
Defined.
End MemPages.

(** Two accounts: two statements, two entries *)
Module BackfillRun.
Definition bob : object := MemApp.account [("id", VStr "u2"); ("email", VStr "bob@x"); ("display_name", VStr "Bob")].
Definition start := MemApp.app [("u2", bob); ("u1", MemApp.alice)] [].
Definition final := run (backfillIdentityIndexes (RKV := MemKV.mem_kv) (UDB := MemTable.mem_table) (IDB := MemIndex.mem_index)
  MemApp.iso MemApp.iso MemApp.hmac MemApp.config 2) MemApp.always_fine start.
End BackfillRun.

Lemma backfill_terminates_witness :
  BackfillRun.final.1 = Some (inr (2, 2)) ∧
  ∀ i r, table (app_users BackfillRun.start) !! i = Some r →
    address_indexed MemApp.hmac MemApp.config (IDB := MemIndex.mem_index) (app_index BackfillRun.final.2) i r.
Proof.
  split; [vm_compute; reflexivity|].
  assert (Ht : table (app_users BackfillRun.start) = <["u2" := BackfillRun.bob]> {["u1" := MemApp.alice]}) by (vm_compute; reflexivity).
  assert (Hcase : ∀ i r, table (app_users BackfillRun.start) !! i = Some r →
    (i = "u2" ∧ r = BackfillRun.bob) ∨ (i = "u1" ∧ r = MemApp.alice)).
  { rewrite Ht. intros i r [[<- <-]|[_ [<- <-]%lookup_singleton_Some]]%lookup_insert_Some; auto. }
  edestruct (backfill_terminates MemApp.hmac MemApp.iso MemApp.iso (RKV := MemKV.mem_kv) (UDB := MemTable.mem_table)
    (IDB := MemIndex.mem_index) MemApp.config 1000000 3000000 1 BackfillRun.start) with (es := MemApp.always_fine) as (_ & _ & H);
    [vm_compute; lia| | | |exact H].
  - intros i r j r' [[-> ->]|[-> ->]]%Hcase [[-> ->]|[-> ->]]%Hcase Hne;
      first [exact (False_ind _ (Hne eq_refl))|vm_compute; discriminate].
  - intros i r [[-> ->]|[-> ->]]%Hcase; (split; [discriminate|split; [|vm_compute; reflexivity]]);
      intros c x Hc Hx; apply list_elem_of_In in Hc; destruct Hc as [<-|[<-|[]]]; vm_compute in Hx; discriminate.
  - apply (path_check _ (duringb 1000000 3000000)); [apply duringb_spec|vm_compute; reflexivity].
Defined.
