(* ===== verification/Profile.v ===== *)
(** * The profile

    Models [uam-backend/src/controllers/profile.controller.ts]: changing the
    biography. *)

From S2P Require Import Prelude CircuitConfig RollingWindow CircuitBreaker GuardedCalls Async RedisCache Json JsVal Columns SqlFilter SqlMeaning Password UserModel OneTimeCodes Sessions IdentityIndex OAuthLogin Tokens SessionHandlers UsersTable Documents Application AuthController AppFacts MemApp AuthFacts.
#[local] Open Scope string_scope.
#[local] Open Scope list_scope.
#[local] Open Scope Z_scope.
#[local] Open Scope async_scope.

(** [bio && bio.length > 500] for a value of the request body; the [length] of
    an object counts when it is a number. *)
Definition bio_too_long (bio : val) : bool :=
  truthy bio &&
  match bio with
  | VStr s => 500 <? strlen s
  | VArr l => 500 <? Z.of_nat (length l)
  | VObj o => match obj_get o "length" with VNum n => 500 <? n | _ => false end
  | _ => false
  end.

Section Profile.
Context (Date_toString Date_toISOString : Z → string) (hashPassword : string → string).
Context `{RKV : RedisKV} `{UDB : UsersDb} `{IDB : IndexDb} `{FK : !ForeignKey UDB IDB}.

Definition profile_filter (user : User) : val :=
  VObj [("$or", VArr [VObj [("_id", user_get user "_id")]; VObj [("email", user_get user "email")];
                      VObj [("previousEmail", user_get user "email")]])].

Definition updateBio (user : User) (bio : val) : prog AppEnv App Response :=
  catch
    (if bio_too_long bio then Ret (inr (refuse 400 "Bio must be 500 characters or less"))
     else
       let* userDoc := stretch (λ _ s,
         let '(r, d) := UserModel.findOne Date_toString Date_toISOString (profile_filter user) None (app_users s) in
         (r, s <| app_users := d |>)) in
       match userDoc with
       | None => Ret (inr (refuse 404 "User not found"))
       | Some userDoc =>
           let userDoc := user_set userDoc "bio" (if truthy bio then bio else VUndef) in
           let* userDoc := save_account Date_toISOString hashPassword userDoc in
           Ret (inr (success "Bio updated successfully" [("user", user_fields userDoc basic_fields)]))
       end)
    (λ _, Ret (refuse 500 "Failed to update bio")).
End Profile.

Section Facts.
Context (Date_toString Date_toISOString : Z → string) (hashPassword : string → string).
Context `{RKV : RedisKV} `{UDB : UsersDb} {DL : UsersDbLaws UDB} {TL : UsersTableLaws UDB}.
Context `{IDB : IndexDb} `{FK : !ForeignKey UDB IDB} (t0 t1 : Z).

(** The rows that the filter finds *)
Lemma by_address_selects i email r :
  selected no_order [VStr i; VStr email; VStr email] r by_address = true →
  obj_get r "id" = VStr i ∨ obj_get r "email" = VStr email ∨ obj_get r "previous_email" = VStr email.
Proof.
  intros [H _]%selected_all%Forall_cons. cbn [by_address sql_eval foldr] in H.
  apply or3_true in H as [[H _]%and3_true|H]; [left; by apply equal_true in H|right].
  apply or3_true in H as [[H _]%and3_true|H]; [left; by apply equal_true in H|right].
  apply or3_true in H as [[H _]%and3_true|H]; [by apply equal_true in H|discriminate].
Qed.

Lemma own_row_selected i email r :
  obj_get r "id" = VStr i → selected no_order [VStr i; VStr email; VStr email] r by_address ≠ false.
Proof. intros Hi. unfold selected. cbn -[cmp3]. rewrite Hi. cbn. by rewrite String.eqb_refl. Qed.

Lemma bio_changed rj r' bio :
  row_patched Date_toISOString hashPassword rj [("bio", if negb (String.eqb bio "") then VStr bio else VUndef)] r' →
  row_changed rj [("bio", if String.eqb bio "" then VNull else VStr bio)] r'.
Proof.
  intros H. eapply row_patched_changed; [exact H|]. destruct (String.eqb bio ""); repeat (constructor; [reflexivity|]); constructor.
Qed.

(** An address is the primary address of one account only. *)
Lemma account_or_previous d i r j rj email :
  table d !! i = Some r → obj_get r "email" = VStr email → table d !! j = Some rj →
  obj_get rj "id" = VStr i ∨ obj_get rj "email" = VStr email ∨ obj_get rj "previous_email" = VStr email →
  j = i ∨ obj_get rj "previous_email" = VStr email.
Proof.
  intros Hr He Hrj [H|[H|H]]; [left|left|by right].
  - destruct (pg_row_id j d rj Hrj) as [Hid _]. congruence.
  - destruct (decide (j = i)) as [->|Hne]; [done|]. pose proof (tb_unique i d r Hr j rj Hrj Hne) as [Hs _].
    unfold same_email in Hs. rewrite He, H in Hs. cbn in Hs. by rewrite String.eqb_refl in Hs.
Qed.

(** What changing the biography does.  A text of more than 500 characters is
    refused and nothing changes.  Otherwise exactly one account has the new
    biography afterwards, and nothing else of it has changed: the account of
    the request, or another one that has the address of the request as its
    previous address. *)
Theorem update_bio_spec s user i r email bio :
  table (app_users s) !! i = Some r → shows ["email"] r user → obj_get r "email" = VStr email →
  always (during t0 t1) (updateBio Date_toString Date_toISOString hashPassword user (VStr bio)) s (λ res s',
    app_index s' = app_index s ∧
    if 500 <? strlen bio then status res = 400 ∧ app_users s' = app_users s
    else status res = 200 ∧ ∃ j rj r',
      table (app_users s) !! j = Some rj ∧ table (app_users s') = <[j := r']> (table (app_users s)) ∧
      row_changed rj [("bio", if String.eqb bio "" then VNull else VStr bio)] r' ∧
      (j = i ∨ obj_get rj "previous_email" = VStr email)).
Proof.
  intros Hr [Hid Hf] He. destruct (pg_row_id i _ r Hr) as [Hi _]. destruct s as [c d x rv m o]. cbn [app_users app_index] in *.
  assert (Hue : user_get user "email" = VStr email) by (rewrite (Hf "email" eq_refl); exact He). rewrite Hi in Hid.
  unfold updateBio. apply always_catch. unfold bio_too_long. cbn [truthy].
  assert (Hlen : negb (String.eqb bio "") && (500 <? strlen bio) = (500 <? strlen bio)).
  { destruct (String.eqb_spec bio "") as [->|]; done. }
  rewrite Hlen. destruct (500 <? strlen bio); [by apply always_ret|].
  unfold profile_filter. rewrite Hid, Hue.
  eapply (step_find_where Date_toString Date_toISOString t0 t1 (during t0 t1) _ _ _ _ _ _ _
    (λ _, VObj [("$or", VArr [VObj [("_id", VStr i)]; VObj [("email", VStr email)]; VObj [("previousEmail", VStr email)]])])
    by_address (λ _, [VStr i; VStr email; VStr email]) None);
    [by vm_compute|reflexivity|apply list_elem_of_In; cbn; tauto|reflexivity|reflexivity| |].
  { intros c1 t _ Hno. exfalso. apply (own_row_selected i email r Hi). by apply (Hno i r). }
  intros c1 t j rj _ Hrj Hsel%by_address_selects. set (cols := projection None).
  assert (Hnd : NoDup cols) by (apply (bool_decide_unpack _); by vm_compute).
  pose proof (document_of cols rj Hnd) as Hdoc. set (v := if negb (String.eqb bio "") then VStr bio else VUndef).
  eapply (step_save Date_toISOString hashPassword (during t0 t1) _ _ _ _ _ _ _ j cols rj (document cols rj) [("bio", v)]);
    [exact Hrj|exact Hdoc|by vm_compute|by unfold v; destruct (String.eqb bio "")| | |].
  - apply (edited_set _ []); [|done]. apply edited_refl. rewrite (doc_modified _ _ _ Hdoc). constructor.
  - by apply unique_kept.
  - intros c2 d' r' Htab Hp Hty. apply always_ret. split; [done|]. split; [done|]. exists j, rj, r'. split; [done|]. split; [done|].
    split; [apply (bio_changed rj r' bio Hp)|]. by apply (account_or_previous d i r).
Qed.
End Facts.

(** Alice changes her biography. *)
Module BioRun.
Definition start := MemApp.app [("u1", MemApp.alice)] [MemApp.primary "alice@x" "u1" true].
Definition user : User := document all_columns MemApp.alice.
Definition handler := updateBio MemApp.iso MemApp.iso MemApp.hash (RKV := MemKV.mem_kv) (UDB := MemTable.mem_table)
  (IDB := MemIndex.mem_index) (FK := MemApp.mem_fk).

(** Mallory had the address alice@x before; Alice registered it when the
    reservation had ended. *)
Definition mallory : object :=
  MemApp.account [("id", VStr "u3"); ("email", VStr "mallory@x"); ("previous_email", VStr "alice@x"); ("display_name", VStr "Mallory");
                  ("bio", VStr "mine"); ("migration_expiry", VDate 1)].
Definition shared := MemApp.app [("u1", MemApp.alice); ("u3", mallory)] [MemApp.primary "alice@x" "u1" true].
End BioRun.

Lemma update_bio_spec_witness :
  let final := run (BioRun.handler BioRun.user (VStr "new")) MemApp.always_fine BioRun.start in
  status final.1 = 200 ∧ ResetRun.column final.2 "u1" "bio" = VStr "new" ∧
  ∃ j rj r',
    table (app_users BioRun.start) !! j = Some rj ∧ table (app_users final.2) = <[j := r']> (table (app_users BioRun.start)) ∧
    row_changed rj [("bio", VStr "new")] r' ∧ (j = "u1" ∨ obj_get rj "previous_email" = VStr "alice@x").
Proof.
  intros final. split; [vm_compute; reflexivity|]. split; [vm_compute; reflexivity|].
  edestruct (update_bio_spec MemApp.iso MemApp.iso MemApp.hash (RKV := MemKV.mem_kv) (UDB := MemTable.mem_table)
    (IDB := MemIndex.mem_index) (FK := MemApp.mem_fk) 1000000 3000000 BioRun.start BioRun.user "u1" MemApp.alice "alice@x" "new")
    with (es := MemApp.always_fine) as (_ & _ & H); [vm_compute; reflexivity| |reflexivity| |exact H].
  - apply (doc_shows _ all_columns); [apply document_of|vm_compute; reflexivity..]. apply (bool_decide_unpack _); vm_compute; exact I.
  - apply (path_check _ (duringb 1000000 3000000)); [apply duringb_spec|vm_compute; reflexivity].
Defined.

(** The biography of another account can be overwritten: Alice's request
    succeeds and changes the account that had her address before. *)
Theorem bio_of_another_account :
  let final := run (BioRun.handler BioRun.user (VStr "new")) MemApp.always_fine BioRun.shared in
  status final.1 = 200 ∧ ResetRun.column BioRun.shared "u3" "bio" = VStr "mine" ∧
  ResetRun.column final.2 "u3" "bio" = VStr "new" ∧ ResetRun.column final.2 "u1" "bio" = ResetRun.column BioRun.shared "u1" "bio".
Proof. split_and!; vm_compute; reflexivity. Qed.
