(* ===== verification/Scripts.v ===== *)
(** * Maintenance scripts

    Models the scripts of [uam-backend/src/scripts] that change accounts:
    [cleanup-expired-migrations], [clear-migration-data] with its check
    [verify-migration-cleared], [fix-migration-merge] and [fix-migration-bio].
    A script is the program between [connectDatabase] and
    [disconnectDatabase]; its result is the exit code.  What is printed is not
    modelled. *)

From S2P Require Import Prelude CircuitConfig RollingWindow CircuitBreaker GuardedCalls Async RedisCache Json JsVal Columns SqlFilter SqlMeaning Password UserModel OneTimeCodes Sessions IdentityIndex OAuthLogin Tokens SessionHandlers UsersTable Documents Application AuthController MigrationController AppFacts MemApp AuthFacts MigrationFacts Profile.
#[local] Open Scope string_scope.
#[local] Open Scope list_scope.
#[local] Open Scope Z_scope.
#[local] Open Scope async_scope.

Section Scripts.
Context (Date_toString Date_toISOString : Z → string) (hashPassword : string → string).
Context `{RKV : RedisKV} `{UDB : UsersDb} `{IDB : IndexDb} `{FK : !ForeignKey UDB IDB}.

(** [await User.find(filter)]; the filter may use the current time. *)
Definition find_all (filter : Z → val) : prog AppEnv App (failure + list User) :=
  stretch (λ _ s,
    let '(r, d) := execute Date_toString Date_toISOString (new_UserQuery (filter (RedisCache.clock (app_cache s))) false) (app_users s) in
    (r, s <| app_users := d |>)).

(** [await User.findOne(filter)] *)
Definition find_one (filter : val) : prog AppEnv App (failure + option User) :=
  stretch (λ _ s,
    let '(r, d) := UserModel.findOne Date_toString Date_toISOString filter None (app_users s) in
    (r, s <| app_users := d |>)).

(** [for (const user of users) { ...; await user.save(); }] *)
Fixpoint save_each (change : User → User) (users : list User) : prog AppEnv App (failure + unit) :=
  match users with
  | [] => Ret (inr tt)
  | u :: users =>
      let* _ := save_account Date_toISOString hashPassword (change u) in
      save_each change users
  end.

(** [{ $exists: true, $ne: null }] *)
Definition given_filter : val := VObj [("$exists", VBool true); ("$ne", VNull)].

(** ** cleanup-expired-migrations *)

Definition expired_filter (now : Z) : val :=
  VObj [("migrationExpiry", VObj [("$exists", VBool true); ("$lt", VDate now)]); ("previousEmail", given_filter)].

Definition end_reservation (user : User) : User :=
  user_set (user_set user "previousEmail" VUndef) "migrationExpiry" VUndef.

Definition cleanupExpiredMigrations : prog AppEnv App Z :=
  catch
    (let* expiredUsers := find_all expired_filter in
     match expiredUsers with
     | [] => Ret (inr 0)
     | _ => let* _ := save_each end_reservation expiredUsers in Ret (inr 0)
     end)
    (λ _, Ret 1).

(** ** clear-migration-data, verify-migration-cleared *)

Definition migration_fields : list string :=
  ["previousEmail"; "migrationExpiry"; "migrationToken"; "migrationTokenExpires"; "newEmailPending"; "lastMigrationDate";
   "currentEmailVerified"; "newEmailVerified"; "currentEmailToken"; "newEmailToken"; "lastMigrationEmailSent"].

Definition migration_filter (_ : Z) : val :=
  VObj [("$or", VArr (map (λ f, VObj [(f, given_filter)]) migration_fields
     ++ [VObj [("migrationHistory", VObj [("$exists", VBool true); ("$not", VObj [("$size", VNum 0)])])]]))].

Definition clear_migration (user : User) : User :=
  foldl (λ u f, user_set u f VUndef) user (migration_fields ++ ["migrationHistory"]).

Definition clearMigrationData : prog AppEnv App Z :=
  catch
    (let* usersWithMigration := find_all migration_filter in
     match usersWithMigration with
     | [] => Ret (inr 0)
     | _ => let* _ := save_each clear_migration usersWithMigration in Ret (inr 0)
     end)
    (λ _, Ret 1).

Definition verifyMigrationCleared : prog AppEnv App Z :=
  catch
    (let* usersWithMigration := find_all migration_filter in
     let* _ := find_all (λ _, VObj []) in
     Ret (inr (match usersWithMigration with [] => 0 | _ => 1 end)))
    (λ _, Ret 1).

(** ** fix-migration-merge *)

Definition merge_filter : val :=
  VObj [("newEmailPending", given_filter); ("currentEmailVerified", VBool true); ("newEmailVerified", VBool true)].

(** The assignments to the old account; the data that is set aside first is
    assigned back unchanged, the login count with a default. *)
Definition merge_document (old : User) (now : Z) : User :=
  let u := old in
  let u := user_set u "previousEmail" (user_get old "email") in
  let u := user_set u "email" (user_get u "newEmailPending") in
  let u := user_set u "migrationExpiry" (VDate (now + 5 * 24 * 60 * 60 * 1000)) in
  let u := user_set u "lastMigrationDate" (VDate now) in
  let u := user_set u "isEmailVerified" (VBool true) in
  let u := user_set u "bio" (user_get old "bio") in
  let u := user_set u "displayName" (user_get old "displayName") in
  let u := user_set u "avatar" (user_get old "avatar") in
  let u := user_set u "loginCount" (or_val (user_get old "loginCount") (VNum 0)) in
  let u := user_set u "lastLogin" (user_get old "lastLogin") in
  let u := user_set u "provider" (user_get old "provider") in
  let u := user_set u "providerId" (user_get old "providerId") in
  foldl (λ u f, user_set u f VUndef) u
    ["migrationToken"; "migrationTokenExpires"; "newEmailPending"; "currentEmailVerified"; "newEmailVerified";
     "currentEmailToken"; "newEmailToken"].

Definition fixMigrationMerge : prog AppEnv App Z :=
  catch
    (let* oldAccount := find_one merge_filter in
     match oldAccount with
     | None => Ret (inr 0)
     | Some oldAccount =>
         let* newAccount := find_one (VObj [("email", user_get oldAccount "newEmailPending")]) in
         match newAccount with
         | None => Ret (inr 0)
         | Some newAccount =>
             let! h := here in
             let* oldAccount := save_account Date_toISOString hashPassword (merge_document oldAccount h.1) in
             let* _ := delete_account (doc_id newAccount) in
             let* _ := find_account Date_toString Date_toISOString (user_get oldAccount "_id") None in
             Ret (inr 0)
         end
     end)
    (λ _, Ret 1).

(** ** fix-migration-bio *)

Definition fixMigrationBio : prog AppEnv App Z :=
  catch
    (let* oldUser := find_one (VObj [("email", VStr "manish1217.be22@chitkarauniversity.edu.in")]) in
     let* newUser := find_one (VObj [("email", VStr "at38157@gmail.com")]) in
     match oldUser, newUser with
     | Some oldUser, Some newUser =>
         if strict_eq (user_get newUser "previousEmail") (user_get oldUser "email")
            && negb (truthy (user_get newUser "bio")) && truthy (user_get oldUser "bio") then
           let* _ := save_account Date_toISOString hashPassword (user_set newUser "bio" (user_get oldUser "bio")) in
           Ret (inr 0)
         else Ret (inr 0)
     | _, _ => Ret (inr 1)
     end)
    (λ _, Ret 1).
End Scripts.

(** ** What the scripts do *)

Section Facts.
Context (Date_toString Date_toISOString : Z → string) (hashPassword : string → string).
Context `{RKV : RedisKV} `{UDB : UsersDb} {DL : UsersDbLaws UDB} {TL : UsersTableLaws UDB} {SL : UsersScanLaws UDB}.
Context `{IDB : IndexDb} `{FK : !ForeignKey UDB IDB} (t0 t1 : Z).
Local Abbreviation row_patched := (row_patched Date_toISOString hashPassword).
Local Abbreviation patch_ok := (patch_ok Date_toISOString hashPassword).
Local Abbreviation plain := (projection None).

Definition docs_at (t : gmap string object) (ids : list string) : list User := omap (λ i, document plain <$> t !! i) ids.

(** The rows a scan is about *)
Definition scanned (t : gmap string object) (w : list sql) (params : list val) (ids : list string) : Prop :=
  NoDup ids ∧ ∀ i, i ∈ ids ↔ ∃ r, t !! i = Some r ∧ selected no_order params r w = true.

Section Step.
Context {B : Type} (Q : B → App → Prop) (c : Cache) (d : db) (x : idb) (rv : list object) (m : Memory) (o : list Mail).

Lemma step_find_all (filter : Z → val) w (params : Z → list val) (k : failure + list User → prog AppEnv App B) :
  (∀ t, SqlFilter.buildWhere Date_toString Date_toISOString (filter t) [] = Returned (where_text_of w, params t)) →
  w ∈ scan_conditions → (∀ t, length (params t) = list_sum (map holes_of w)) → (∀ t, forallb (cond_typed (params t)) w = true) →
  (∀ c' t ids, t0 ≤ t ≤ t1 → scanned (table d) w (params t) ids →
     always (during t0 t1) (k (inr (docs_at (table d) ids))) (mkApp c' d x rv m o) Q) →
  always (during t0 t1) (bind (find_all Date_toString Date_toISOString filter) k) (mkApp c d x rv m o) Q.
Proof.
  intros Hw Hk Hlen Hty H. unfold find_all. apply always_stretch. intros e (Ht & _).
  change (tick e (mkApp c d x rv m o)) with (mkApp (advance (net e) c) d x rv m o) in *. cbn [app_cache app_users] in *.
  set (c' := advance _ _) in *. set (t := RedisCache.clock c') in *.
  unfold execute, buildSelect. change (columnNames _) with (Returned plain). cbn [outcome_bind q_filter new_UserQuery]. rewrite Hw.
  cbn [outcome_bind q_orderBy q_limit q_single new_UserQuery].
  destruct (tb_scan w plain (params t) d Hk (Hlen t) (Hty t)) as (ids & Hnd & Hids & ->). cbn [fst snd].
  assert (Hdocs : map (λ r, new_User (rowToValues r) false) (omap (λ i, project plain <$> table d !! i) ids) = docs_at (table d) ids).
  { unfold docs_at. clear Hids Hnd. induction ids as [|i ids IH]; [done|]. cbn. destruct (table d !! i); cbn; [by rewrite IH|done]. }
  rewrite Hdocs. by apply (H c' t ids).
Qed.
End Step.

(** Every row with an id of the list is changed as [R] says, the others are
    not. *)
Definition rows_changed (R : object → object → Prop) (ids : list string) (t t' : gmap string object) : Prop :=
  ∀ i, match t !! i with
       | None => t' !! i = None
       | Some r => if decide (i ∈ ids) then ∃ r', t' !! i = Some r' ∧ R r r' else t' !! i = Some r
       end.

Lemma rows_changed_cons R i ids t ta tb r r' :
  i ∉ ids → t !! i = Some r → R r r' → ta = <[i := r']> t → rows_changed R ids ta tb → rows_changed R (i :: ids) t tb.
Proof.
  intros Hi Hr HR -> H j. specialize (H j). destruct (decide (j = i)) as [->|Hne].
  - rewrite Hr. rewrite lookup_insert_eq, decide_False in H by done. rewrite decide_True by left. eauto.
  - rewrite lookup_insert_ne in H by done. destruct (t !! j) as [rj|]; [|done].
    destruct (decide (j ∈ ids)) as [Hj|Hj]; [rewrite decide_True by by right|rewrite decide_False by (intros [?|?]%elem_of_cons; done)]; done.
Qed.

Lemma save_each_rule change ps ids t c d x rv m o :
  (∀ u, NoDup (_modified u) → edited u ps (change u)) → patch_ok ps = true →
  patch_value ps "email" = None → patch_value ps "provider" = None → patch_value ps "providerId" = None →
  NoDup ids → (∀ i, i ∈ ids → is_Some (table d !! i) ∧ t !! i = table d !! i) →
  always (during t0 t1) (save_each Date_toISOString hashPassword change (docs_at t ids)) (mkApp c d x rv m o) (λ res s',
    res = inr tt ∧ rows_changed (λ r r', row_patched r ps r') ids (table d) (table (app_users s')) ∧
    app_index s' = x ∧ app_outbox s' = o).
Proof.
  intros Hch Hok H1 H2 H3. revert c d. induction ids as [|i ids IH]; intros c d Hnd Hin.
  { apply always_ret. split; [done|]. split; [|done]. intros i. cbn. by destruct (table d !! i). }
  apply NoDup_cons in Hnd as [Hi Hnd]. destruct (Hin i) as [[r Hr] Heq]; [by left|]. unfold docs_at. cbn [omap list_omap].
  rewrite Heq, Hr. cbn [fmap option_fmap option_map save_each].
  assert (Hnc : NoDup plain) by (apply (bool_decide_unpack _); by vm_compute). pose proof (document_of plain r Hnc) as Hdoc.
  eapply (step_save Date_toISOString hashPassword (during t0 t1) _ _ _ _ _ _ _ i plain r (document plain r) ps);
    [exact Hr|exact Hdoc|by vm_compute|exact Hok|apply Hch; rewrite (doc_modified _ _ _ Hdoc); constructor|by apply unique_kept|].
  intros c1 d1 r1 Htab Hp _. eapply always_mono; [apply (IH c1 d1 Hnd)|].
  - intros j Hj. assert (Hne : j ≠ i) by by intros ->. rewrite Htab, lookup_insert_ne by done. apply Hin. by right.
  - intros res s' (-> & Hrows & Hx & Ho). split; [done|]. split; [|done]. by eapply rows_changed_cons.
Qed.

(** *** Scripts that change all rows they find *)

Section ScanSave.
Context (filter : Z → val) (w : list sql) (params : Z → list val) (change : User → User) (ps : object) (sel : object → Z → bool).
Context (Hw : ∀ t, SqlFilter.buildWhere Date_toString Date_toISOString (filter t) [] = Returned (where_text_of w, params t)).
Context (Hk : w ∈ scan_conditions) (Hlen : ∀ t, length (params t) = list_sum (map holes_of w)).
Context (Hty : ∀ t, forallb (cond_typed (params t)) w = true).
Context (Hsel : ∀ r t, row_typed r = true → selected no_order (params t) r w = sel r t).
Context (Hch : ∀ u, NoDup (_modified u) → edited u ps (change u)) (Hok : patch_ok ps = true).
Context (H1 : patch_value ps "email" = None) (H2 : patch_value ps "provider" = None) (H3 : patch_value ps "providerId" = None).

Lemma scanned_iff d t ids i r :
  scanned (table d) w (params t) ids → table d !! i = Some r → sel r t = bool_decide (i ∈ ids).
Proof.
  intros [_ Hids] Hr. apply eq_bool_prop_intro. rewrite bool_decide_spec, Hids. split.
  - intros H. exists r. split; [done|]. rewrite Hsel by by apply (tb_typed i d). by apply Is_true_eq_true.
  - intros (r' & Hr' & H). rewrite Hr in Hr'. injection Hr' as <-. rewrite Hsel in H by by apply (tb_typed i d). by rewrite H.
Qed.

Lemma scan_and_save s :
  always (during t0 t1)
    (catch
       (let* users := find_all Date_toString Date_toISOString filter in
        match users with
        | [] => Ret (inr 0)
        | _ => let* _ := save_each Date_toISOString hashPassword change users in Ret (inr 0)
        end)
       (λ _, Ret 1)) s (λ code s',
    code = 0 ∧ app_index s' = app_index s ∧ app_outbox s' = app_outbox s ∧
    ∃ t, t0 ≤ t ≤ t1 ∧ ∀ i,
      match table (app_users s) !! i with
      | None => table (app_users s') !! i = None
      | Some r => if sel r t then ∃ r', table (app_users s') !! i = Some r' ∧ row_patched r ps r'
                  else table (app_users s') !! i = Some r
      end).
Proof.
  destruct s as [c d x rv m o]. cbn [app_users app_index app_outbox]. apply always_catch.
  eapply (step_find_all _ _ _ _ _ _ _ filter w params); [exact Hw|exact Hk|exact Hlen|exact Hty|].
  intros c1 t ids Ht Hscan. pose proof Hscan as [Hnd Hids]. destruct (docs_at (table d) ids) as [|u us] eqn:Hdocs.
  - apply always_ret. split; [done|]. split; [done|]. split; [done|]. exists t. split; [done|]. intros i. cbn.
    destruct (table d !! i) as [r|] eqn:Hr; [|done]. rewrite (scanned_iff d t ids i r Hscan Hr), bool_decide_eq_false_2; [done|]. intros Hi.
    assert (document plain r ∈ docs_at (table d) ids) as Hin; [|rewrite Hdocs in Hin; by apply not_elem_of_nil in Hin].
    apply list_elem_of_omap. exists i. by rewrite Hr.
  - rewrite <- Hdocs. apply always_bind. eapply always_mono.
    { apply (save_each_rule change ps); try done. intros i (r & Hr & _)%Hids. by rewrite Hr. }
    intros res s' (-> & Hrows & Hx & Ho). apply always_ret. split; [done|]. split; [done|]. split; [done|]. exists t. split; [done|].
    intros i. specialize (Hrows i). destruct (table d !! i) as [r|] eqn:Hr; [|done]. rewrite (scanned_iff d t ids i r Hscan Hr).
    destruct (decide (i ∈ ids)); [by rewrite bool_decide_eq_true_2|by rewrite bool_decide_eq_false_2].
Qed.
End ScanSave.

(** *** Reservations that have ended *)

Definition reservation_ended (r : object) (t : Z) : bool :=
  match obj_get r "migration_expiry" with VDate x => x <? t | _ => false end && negb (null (obj_get r "previous_email")).

Lemma and3_some a b : and3 (Some a) (Some b) = Some (a && b).
Proof. by destruct a, b. Qed.

Lemma or3_some a b : or3 (Some a) (Some b) = Some (a || b).
Proof. by destruct a, b. Qed.

Lemma expired_selected r t : row_typed r = true → selected no_order [VDate t] r expired_reservation = reservation_ended r t.
Proof.
  intros Hr. pose proof (typed_cell r "migration_expiry" Hr eq_refl) as Hc. unfold cell_ok in Hc.
  change (column_type "migration_expiry") with (Some (TTime, false)) in Hc. cbv iota beta in Hc.
  unfold selected, reservation_ended. cbn -[null and3]. destruct (obj_get r "migration_expiry") as [| | | | |x| | |]; try discriminate Hc;
    cbn; [by destruct (obj_get r "previous_email")|]. by destruct (x <? t), (obj_get r "previous_email").
Qed.

Lemma end_reservation_edited u : NoDup (_modified u) → edited u [("previousEmail", VUndef); ("migrationExpiry", VUndef)] (end_reservation u).
Proof. intros H. apply (edited_set u [("previousEmail", VUndef)]); [|done]. apply (edited_set u []); [by apply edited_refl|done]. Qed.

(** The script exits with 0 and has ended exactly the reservations that were
    over when it read the clock: those accounts have no previous address and no
    expiry any more and are otherwise unchanged, every other account is as it
    was. *)
Theorem cleanup_expired_spec s :
  always (during t0 t1) (cleanupExpiredMigrations Date_toString Date_toISOString hashPassword) s (λ code s',
    code = 0 ∧ app_index s' = app_index s ∧ app_outbox s' = app_outbox s ∧
    ∃ t, t0 ≤ t ≤ t1 ∧ ∀ i,
      match table (app_users s) !! i with
      | None => table (app_users s') !! i = None
      | Some r =>
          if reservation_ended r t
          then ∃ r', table (app_users s') !! i = Some r' ∧ row_changed r [("previous_email", VNull); ("migration_expiry", VNull)] r'
          else table (app_users s') !! i = Some r
      end).
Proof.
  eapply always_mono.
  - apply (scan_and_save expired_filter expired_reservation (λ t, [VDate t]) end_reservation
      [("previousEmail", VUndef); ("migrationExpiry", VUndef)] reservation_ended); try done;
      [apply list_elem_of_In; cbn; tauto|apply expired_selected|apply end_reservation_edited].
  - intros code s' (-> & Hx & Ho & t & Ht & Hrows). split; [done|]. split; [done|]. split; [done|]. exists t. split; [done|].
    intros i. specialize (Hrows i). destruct (table (app_users s) !! i) as [r|]; [|done]. destruct (reservation_ended r t); [|done].
    destruct Hrows as (r' & Hr' & Hp). exists r'. split; [done|].
    eapply row_patched_changed; [exact Hp|]. repeat (constructor; [reflexivity|]). constructor.
Qed.

(** *** Clearing everything *)

Definition cleared : object := map (λ c, (c, VNull)) migration_columns ++ [("migration_history", VArr [])].

Definition has_migration_data (r : object) : bool :=
  existsb (λ c, negb (null (obj_get r c))) migration_columns
  || match obj_get r "migration_history" with VArr l => negb (Z.of_nat (length l) =? 0) | _ => false end.

Lemma is_set_eval params r c : sql_eval no_order params r (is_set c) = Some (negb (null (obj_get r c))).
Proof. cbn -[null]. by destruct (null (obj_get r c)). Qed.

Lemma or3_any {A} (f : A → bool) l b :
  foldr (λ a acc, or3 (Some (f a)) acc) (Some b) l = Some (existsb f l || b).
Proof. induction l as [|a l IH]; [done|]. cbn [foldr existsb]. by rewrite IH, or3_some, orb_assoc. Qed.

Lemma migration_selected r : row_typed r = true → selected no_order [] r migration_data = has_migration_data r.
Proof.
  intros Hr. destruct (typed_array r "migration_history" Hr eq_refl) as (l & Hl & _).
  unfold selected, migration_data, has_migration_data. cbn [sql_eval foldr]. rewrite foldr_app.
  assert (Hlast : sql_eval no_order [] r (SGroup [SNull "migration_history" false; SLength "migration_history" false 0])
                  = Some (negb (Z.of_nat (length l) =? 0))).
  { cbn -[null Z.of_nat]. rewrite Hl. cbn -[Z.of_nat]. by destruct (_ =? 0). }
  cbn [foldr]. rewrite Hlast, Hl, and3_some, or3_some, andb_true_r, orb_false_r.
  assert (Hfold : ∀ cs b, foldr (λ c acc, or3 (foldr (λ c acc, and3 (sql_eval no_order [] r c) acc) (Some true) c) acc) (Some b)
                            (map (λ c, [is_set c]) cs) = Some (existsb (λ c, negb (null (obj_get r c))) cs || b)).
  { intros cs b. induction cs as [|c cs IH]; [done|]. cbn [map foldr existsb].
    by rewrite IH, is_set_eval, and3_some, or3_some, andb_true_r, orb_assoc. }
  rewrite Hfold, and3_some, andb_true_r. by destruct (_ || _).
Qed.

Lemma obj_lookup_elem o k v : obj_lookup o k = Some v → (k, v) ∈ o.
Proof.
  induction o as [|[q w] o IH]; [done|]. cbn. destruct (String.eqb_spec q k) as [->|]; [intros [= ->]; by left|].
  intros H. right. by apply IH.
Qed.

Lemma no_data_cleared r : row_typed r = true → has_migration_data r = false → row_changed r cleared r.
Proof.
  intros Hr [Hc Hh]%orb_false_iff c Hcol _. destruct (obj_lookup cleared c) as [v|] eqn:E; [|done].
  assert (Hin : (c, v) ∈ cleared) by by apply obj_lookup_elem.
  unfold cleared in Hin. apply elem_of_app in Hin as [Hin|Hin].
  - apply list_elem_of_fmap in Hin as (c' & [= <- ->] & Hin%list_elem_of_In).
    assert (Hn : null (obj_get r c) = true).
    { destruct (null (obj_get r c)) eqn:En; [done|]. exfalso. assert (He : existsb (λ c, negb (null (obj_get r c))) migration_columns = true).
      { apply existsb_exists. exists c. by rewrite En. } congruence. }
    pose proof (typed_cell r c Hr Hcol) as Hcell. destruct (obj_get r c); try discriminate Hn; [|done].
    unfold cell_ok in Hcell. destruct (column_type c) as [[[] []]|]; discriminate.
  - apply list_elem_of_singleton in Hin as [= -> ->]. destruct (typed_array r "migration_history" Hr eq_refl) as (l & Hl & _).
    rewrite Hl in Hh |- *. by destruct l.
Qed.

Lemma cleared_no_data r r' : row_changed r cleared r' → has_migration_data r' = false.
Proof.
  intros H. unfold has_migration_data. rewrite (H "migration_history" eq_refl) by done.
  cbn [migration_columns existsb]. 
  rewrite (H "previous_email" eq_refl), (H "migration_expiry" eq_refl), (H "migration_token" eq_refl),
    (H "migration_token_expires" eq_refl), (H "new_email_pending" eq_refl), (H "last_migration_date" eq_refl),
    (H "current_email_verified" eq_refl), (H "new_email_verified" eq_refl), (H "current_email_token" eq_refl),
    (H "new_email_token" eq_refl), (H "last_migration_email_sent" eq_refl) by done. reflexivity.
Qed.

Definition clear_patch : object := map (λ f, (f, VUndef)) (migration_fields ++ ["migrationHistory"]).

Lemma clear_edited u : NoDup (_modified u) → edited u clear_patch (clear_migration u).
Proof. intros H. apply (edited_patch u [] u clear_patch); [by apply edited_refl|by vm_compute]. Qed.

Lemma clear_changed r r' : row_patched r clear_patch r' → row_changed r cleared r'.
Proof. intros H. eapply row_patched_changed; [exact H|]. repeat (constructor; [reflexivity|]). constructor. Qed.

(** Clearing the migration data works as the check expects it: run one after
    the other, both scripts exit with 0.  Every account then has no migration
    data (no pending or previous address, no token, flag or date, an empty
    history) and is otherwise unchanged. *)
Theorem clear_then_verify s :
  always (during t0 t1)
    (let! a := clearMigrationData Date_toString Date_toISOString hashPassword in
     let! b := verifyMigrationCleared Date_toString Date_toISOString in Ret (a, b)) s (λ codes s',
    codes = (0, 0) ∧ app_index s' = app_index s ∧
    ∀ i, match table (app_users s) !! i with
         | None => table (app_users s') !! i = None
         | Some r => ∃ r', table (app_users s') !! i = Some r' ∧ row_changed r cleared r'
         end).
Proof.
  apply always_bind. eapply always_mono.
  { apply (scan_and_save migration_filter migration_data (λ _, []) clear_migration clear_patch (λ r _, has_migration_data r)); try done;
      [apply list_elem_of_In; cbn; tauto|intros r _; apply migration_selected|apply clear_edited]. }
  intros a s1 (-> & Hx & _ & t & _ & Hrows).
  assert (Hall : ∀ i, match table (app_users s) !! i with
                      | None => table (app_users s1) !! i = None
                      | Some r => ∃ r', table (app_users s1) !! i = Some r' ∧ row_changed r cleared r'
                      end).
  { intros i. specialize (Hrows i). destruct (table (app_users s) !! i) as [r|] eqn:Hr; [|done].
    destruct (has_migration_data r) eqn:E.
    - destruct Hrows as (r' & Hr' & Hp). exists r'. split; [done|]. by apply clear_changed.
    - exists r. split; [done|]. apply no_data_cleared; [by apply (tb_typed i (app_users s))|done]. }
  destruct s1 as [c1 d1 x1 rv1 m1 o1]. cbn [app_users app_index] in *. apply always_bind. unfold verifyMigrationCleared. apply always_catch.
  eapply (step_find_all _ _ _ _ _ _ _ migration_filter migration_data (λ _, []));
    [reflexivity|apply list_elem_of_In; cbn; tauto|reflexivity|reflexivity|].
  intros c2 t2 ids _ [_ Hids]. eapply (step_find_all _ _ _ _ _ _ _ (λ _, VObj []) [] (λ _, []));
    [reflexivity|apply list_elem_of_In; cbn; tauto|reflexivity|reflexivity|].
  intros c3 t3 ids3 _ _. assert (ids = []) as ->.
  { destruct ids as [|i ids]; [done|]. exfalso. destruct (proj1 (Hids i) ltac:(by left)) as (r' & Hr' & Hs).
    rewrite migration_selected in Hs by by apply (tb_typed i d1). specialize (Hall i). destruct (table (app_users s) !! i) as [r|]; [|congruence].
    destruct Hall as (r2 & Hr2 & Hc). rewrite Hr' in Hr2. injection Hr2 as <-. by rewrite (cleared_no_data r r') in Hs. }
  apply always_ret, always_ret. by split_and!.
Qed.

(** *** The merge script *)

Definition merge_patch (r : object) (now : Z) : object :=
  [("previousEmail", obj_get r "email"); ("email", obj_get r "new_email_pending"); ("migrationExpiry", VDate (now + 432000000));
   ("lastMigrationDate", VDate now); ("isEmailVerified", VBool true); ("bio", obj_get r "bio");
   ("displayName", obj_get r "display_name"); ("avatar", obj_get r "avatar"); ("loginCount", obj_get r "login_count");
   ("lastLogin", obj_get r "last_login"); ("provider", obj_get r "provider"); ("providerId", obj_get r "provider_id");
   ("migrationToken", VUndef); ("migrationTokenExpires", VUndef); ("newEmailPending", VUndef); ("currentEmailVerified", VUndef);
   ("newEmailVerified", VUndef); ("currentEmailToken", VUndef); ("newEmailToken", VUndef)].

Definition merge_fields : list string :=
  ["email"; "newEmailPending"; "bio"; "displayName"; "avatar"; "loginCount"; "lastLogin"; "provider"; "providerId"].

Lemma typed_count r : row_typed r = true → or_val (obj_get r "login_count") (VNum 0) = obj_get r "login_count".
Proof.
  intros Hr. unfold or_val. pose proof (typed_cell r "login_count" Hr eq_refl) as Hc. unfold cell_ok in Hc.
  change (column_type "login_count") with (Some (TInt, true)) in Hc. cbv iota beta in Hc.
  destruct (obj_get r "login_count") as [| | |n| | | | |]; try discriminate Hc. cbn. by destruct (Z.eqb_spec n 0) as [->|].
Qed.

Lemma merge_edited r u now :
  row_typed r = true → shows merge_fields r u → NoDup (_modified u) → edited u (merge_patch r now) (merge_document u now).
Proof.
  intros Hr [_ Hs] Hnd.
  assert (Hdoc : merge_document u now = patch u (merge_patch r now)).
  { assert (Hp : ∀ v, user_get (user_set u "previousEmail" v) "newEmailPending" = user_get u "newEmailPending").
    { intros v. rewrite !user_get_value, user_set_values by done. cbn [_values]. by rewrite obj_get_set_ne. }
    unfold merge_document. rewrite Hp.
    rewrite (Hs "email" eq_refl), (Hs "newEmailPending" eq_refl), (Hs "bio" eq_refl), (Hs "displayName" eq_refl), (Hs "avatar" eq_refl),
      (Hs "loginCount" eq_refl), (Hs "lastLogin" eq_refl), (Hs "provider" eq_refl), (Hs "providerId" eq_refl).
    change (col_of "loginCount") with "login_count". rewrite (typed_count r Hr). reflexivity. }
  rewrite Hdoc. apply (edited_patch u [] u); [by apply edited_refl|by vm_compute].
Qed.

Local Abbreviation one_ok := (patch_ok_cell Date_toISOString hashPassword).

Lemma patch_ok_cons f v ps : patch_ok [(f, v)] = true → patch_ok ps = true → patch_ok ((f, v) :: ps) = true.
Proof. intros H1 H2. change ((f, v) :: ps) with ([(f, v)] ++ ps). by rewrite patch_ok_app, H1, H2. Qed.

Lemma merge_patch_ok r em p now :
  row_typed r = true → obj_get r "email" = VStr em → obj_get r "new_email_pending" = VStr p → patch_ok (merge_patch r now) = true.
Proof.
  intros Hr He Hp. unfold merge_patch. rewrite He, Hp.
  pose proof (proj1 (one_ok r "bio" Hr eq_refl eq_refl ltac:(done))) as H1.
  pose proof (proj1 (one_ok r "displayName" Hr eq_refl eq_refl ltac:(done))) as H2.
  pose proof (proj1 (one_ok r "avatar" Hr eq_refl eq_refl ltac:(done))) as H3.
  pose proof (proj1 (one_ok r "loginCount" Hr eq_refl eq_refl ltac:(done))) as H4.
  pose proof (proj1 (one_ok r "lastLogin" Hr eq_refl eq_refl ltac:(done))) as H5.
  pose proof (proj1 (one_ok r "provider" Hr eq_refl eq_refl ltac:(done))) as H6.
  pose proof (proj1 (one_ok r "providerId" Hr eq_refl eq_refl ltac:(done))) as H7.
  repeat (apply patch_ok_cons; [first [reflexivity|exact H1|exact H2|exact H3|exact H4|exact H5|exact H6|exact H7]|]). reflexivity.
Qed.

Lemma pending_address r :
  row_typed r = true → selected no_order [VBool true; VBool true] r pending_verified = true → ∃ p, obj_get r "new_email_pending" = VStr p.
Proof.
  intros Hty Hsel. apply selected_all, Forall_cons in Hsel as [Hset _]. rewrite is_set_eval in Hset. injection Hset as Hset.
  pose proof (typed_cell r "new_email_pending" Hty eq_refl) as Hc. unfold cell_ok in Hc.
  change (column_type "new_email_pending") with (Some (TText, false)) in Hc. cbv iota beta in Hc.
  destruct (obj_get r "new_email_pending"); try discriminate; eauto.
Qed.

(** The merge script cannot do what it is for.  The address is moved before
    the account that holds it is deleted, which the unique index refuses: in
    every run no account is changed or deleted.  The exit code is 1, or 0 when
    no verified migration is pending or nobody holds the new address.  (The
    pending accounts sign in with a password, and do not migrate to the address
    they have.) *)
Theorem merge_script_never_merges s :
  (∀ i r, table (app_users s) !! i = Some r → selected no_order [VBool true; VBool true] r pending_verified = true →
     obj_get r "provider_id" = VNull ∧ obj_get r "new_email_pending" ≠ obj_get r "email") →
  always (during t0 t1) (fixMigrationMerge Date_toString Date_toISOString hashPassword) s (λ code s',
    app_users s' = app_users s ∧ app_index s' = app_index s ∧
    (code = 1 ∨ code = 0 ∧
      ((∀ i r, table (app_users s) !! i = Some r → selected no_order [VBool true; VBool true] r pending_verified = false) ∨
       ∃ i r p, table (app_users s) !! i = Some r ∧ obj_get r "new_email_pending" = VStr p ∧
         ∀ j rj, table (app_users s) !! j = Some rj → obj_get rj "email" ≠ VStr p))).
Proof.
  destruct s as [c d x rv m o]. cbn [app_users app_index]. intros Hpend. unfold fixMigrationMerge. apply always_catch. unfold find_one at 1.
  eapply (step_find_where Date_toString Date_toISOString t0 t1 (during t0 t1) _ _ _ _ _ _ _ (λ _, merge_filter) pending_verified
    (λ _, [VBool true; VBool true]) None);
    [by vm_compute|reflexivity|apply list_elem_of_In; cbn; tauto|reflexivity|reflexivity| |].
  { intros c1 t _ Hno. apply always_ret. split; [done|]. split; [done|]. right. split; [done|]. by left. }
  intros c1 t i r _ Hr Hsel. destruct (Hpend i r Hr Hsel) as [Hpid Hne]. pose proof (tb_typed i d r Hr) as Hty.
  destruct (typed_text r "email" Hty eq_refl) as [em Hem].
  destruct (pending_address r Hty Hsel) as [p Hp].
  assert (Hnd : NoDup plain) by (apply (bool_decide_unpack _); by vm_compute). pose proof (document_of plain r Hnd) as Hdoc.
  pose proof (doc_shows merge_fields plain r _ Hdoc eq_refl eq_refl) as Hsh.
  assert (Hup : user_get (document plain r) "newEmailPending" = VStr p) by (rewrite (proj2 Hsh "newEmailPending" eq_refl); exact Hp).
  rewrite Hup. unfold find_one.
  eapply (step_find_where Date_toString Date_toISOString t0 t1 (during t0 t1) _ _ _ _ _ _ _ (λ _, VObj [("email", VStr p)]) by_email
    (λ _, [VStr p]) None); [by vm_compute|reflexivity|apply list_elem_of_In; cbn; tauto|reflexivity|reflexivity| |].
  { intros c2 t' _ Hno. apply always_ret. split; [done|]. split; [done|]. right. split; [done|]. right. exists i, r, p.
    split; [done|]. split; [done|]. intros j rj Hj Hejp. specialize (Hno j rj Hj). revert Hno. unfold selected. cbn -[cmp3].
    rewrite Hejp. cbn. by rewrite String.eqb_refl. }
  intros c2 t' j rj _ Hrj [Hej%equal_true _]%selected_all%Forall_cons.
  assert (Hji : j ≠ i). { intros ->. rewrite Hr in Hrj. injection Hrj as <-. apply Hne. rewrite Hp. symmetry. exact Hej. }
  step step_here. intros c3 e _. cbn [fst].
  eapply (step_save_duplicate Date_toISOString hashPassword (during t0 t1) _ _ _ _ _ _ _ i plain r (document plain r)
    (merge_patch r (RedisCache.clock c3)) _ j rj p); [exact Hr|exact Hdoc|by vm_compute|by apply (merge_patch_ok r em p)| |exact Hrj|exact Hji
    |exact Hej| |].
  - apply merge_edited; [done|exact Hsh|]. rewrite (doc_modified _ _ _ Hdoc). constructor.
  - intros r' H. split; [pose proof (H "email" eq_refl ltac:(done)) as H'|pose proof (H "providerId" eq_refl ltac:(done)) as H'].
    + change (obj_get r' "email" = cell_of Date_toISOString hashPassword "email" (obj_get r "new_email_pending")) in H'. by rewrite H', Hp.
    + change (obj_get r' "provider_id" = cell_of Date_toISOString hashPassword "providerId" (obj_get r "provider_id")) in H'. by rewrite H', Hpid.
  - intros c4 err. apply always_ret, always_ret. split; [done|]. split; [done|]. by left.
Qed.
End Facts.

Module ScriptRun.
(** Alice's reservation has ended, Carol's has not. *)
Definition alice : object := obj_assign MemApp.alice [("previous_email", VStr "a@x"); ("migration_expiry", VDate 5)].
Definition carol : object :=
  MemApp.account [("id", VStr "u2"); ("email", VStr "carol@x"); ("display_name", VStr "Carol"); ("previous_email", VStr "c@x");
                  ("migration_expiry", VDate 9000000)].
Definition start := MemApp.app [("u1", alice); ("u2", carol)] [].
Definition cleanup := cleanupExpiredMigrations MemApp.iso MemApp.iso MemApp.hash (RKV := MemKV.mem_kv) (UDB := MemTable.mem_table)
  (IDB := MemIndex.mem_index) (FK := MemApp.mem_fk).
Definition cleaned := run cleanup MemApp.always_fine start.
Definition clear_and_verify :=
  bind (clearMigrationData MemApp.iso MemApp.iso MemApp.hash (RKV := MemKV.mem_kv) (UDB := MemTable.mem_table)
          (IDB := MemIndex.mem_index) (FK := MemApp.mem_fk))
       (λ a, bind (verifyMigrationCleared MemApp.iso MemApp.iso (RKV := MemKV.mem_kv) (UDB := MemTable.mem_table)
                     (IDB := MemIndex.mem_index)) (λ b, Ret (a, b))).
Definition cleared_run := run clear_and_verify MemApp.always_fine start.
Definition merging := MigrationRun.start.
Definition merge := fixMigrationMerge MemApp.iso MemApp.iso MemApp.hash (RKV := MemKV.mem_kv) (UDB := MemTable.mem_table)
  (IDB := MemIndex.mem_index) (FK := MemApp.mem_fk).
Definition merged := run merge MemApp.always_fine merging.
End ScriptRun.

Lemma cleanup_expired_spec_witness :
  ResetRun.column ScriptRun.cleaned.2 "u1" "previous_email" = VNull ∧
  ResetRun.column ScriptRun.cleaned.2 "u2" "previous_email" = VStr "c@x" ∧
  ScriptRun.cleaned.1 = 0 ∧ app_index ScriptRun.cleaned.2 = app_index ScriptRun.start.
Proof.
  split; [vm_compute; reflexivity|]. split; [vm_compute; reflexivity|].
  edestruct (cleanup_expired_spec MemApp.iso MemApp.iso MemApp.hash (RKV := MemKV.mem_kv) (UDB := MemTable.mem_table)
    (IDB := MemIndex.mem_index) (FK := MemApp.mem_fk) 1000000 3000000 ScriptRun.start) with (es := MemApp.always_fine) as (H1 & H2 & _);
    [|split; [exact H1|exact H2]].
  apply (path_check _ (duringb 1000000 3000000)); [apply duringb_spec|vm_compute; reflexivity].
Defined.

Lemma clear_then_verify_witness :
  ResetRun.column ScriptRun.cleared_run.2 "u2" "previous_email" = VNull ∧
  ScriptRun.cleared_run.1 = (0, 0) ∧ app_index ScriptRun.cleared_run.2 = app_index ScriptRun.start.
Proof.
  split; [vm_compute; reflexivity|].
  edestruct (clear_then_verify MemApp.iso MemApp.iso MemApp.hash (RKV := MemKV.mem_kv) (UDB := MemTable.mem_table)
    (IDB := MemIndex.mem_index) (FK := MemApp.mem_fk) 1000000 3000000 ScriptRun.start) with (es := MemApp.always_fine) as (H1 & H2 & _);
    [|split; [exact H1|exact H2]].
  apply (path_check _ (duringb 1000000 3000000)); [apply duringb_spec|vm_compute; reflexivity].
Defined.

(** Alice is to take over Bob's address. *)
Lemma merge_script_never_merges_witness :
  ScriptRun.merged.1 = 1 ∧ app_users ScriptRun.merged.2 = app_users ScriptRun.merging ∧
  app_index ScriptRun.merged.2 = app_index ScriptRun.merging.
Proof.
  split; [vm_compute; reflexivity|].
  edestruct (merge_script_never_merges MemApp.iso MemApp.iso MemApp.hash (RKV := MemKV.mem_kv) (UDB := MemTable.mem_table)
    (IDB := MemIndex.mem_index) (FK := MemApp.mem_fk) 1000000 3000000 ScriptRun.merging) with (es := MemApp.always_fine) as (H1 & H2 & _);
    [| |split; [exact H1|exact H2]].
  - assert (Ht : table (app_users ScriptRun.merging) = <["u1" := MigrationRun.alice]> {["u2" := MigrationRun.bob]}) by (vm_compute; reflexivity).
    rewrite Ht. intros i r [[<- <-]|[_ [<- <-]%lookup_singleton_Some]]%lookup_insert_Some Hs;
      [split; [reflexivity|discriminate]|vm_compute in Hs; discriminate].
  - apply (path_check _ (duringb 1000000 3000000)); [apply duringb_spec|vm_compute; reflexivity].
Defined.
