(* ===== verification/RequestLimits.v ===== *)
(** * Request limits of the routes

    Models [uam-backend/src/middleware/limiter.middleware.ts] (the stores behind
    the limiters of the routes), [uam-backend/src/middleware/advancedLimiter.ts]
    (the login limiter with its growing delays) and their constants in
    [uam-backend/src/config/rateLimit.config.ts].

    The packages [express-rate-limit] and [rate-limit-redis] are not part of
    the repository.  A limiter asks its store to count a request and lets it
    pass as long as the count is within the limit: [admits] is that decision, a
    parameter with its documented meaning as hypothesis.  What the Redis store
    of the package returns is read from the environment. *)

From S2P Require Import Prelude CircuitConfig RollingWindow CircuitBreaker GuardedCalls Async Json RedisCache OneTimeCodes.
#[local] Open Scope string_scope.
#[local] Open Scope list_scope.
#[local] Open Scope Z_scope.
#[local] Open Scope async_scope.

(** ** The stores of the route limiters *)

Record Hits := { totalHits : Z; resetTime : Z }.

(** [FailClosedRateLimitStore.increment] *)
Definition failclosed_increment (now : Z) : Hits := {| totalHits := MAX_SAFE_INTEGER; resetTime := now + 60000 |}.

(** [InMemoryRateLimitStore]: the [Map] of counts *)
Abbreviation MemHits := (gmap string Hits).

Definition memory_increment (key : string) (now : Z) (hits : MemHits) : Hits * MemHits :=
  let start := {| totalHits := 1; resetTime := now + 60000 |} in
  match hits !! key with
  | Some entry =>
      if resetTime entry <=? now then (start, <[key := start]> hits)
      else
        let entry := {| totalHits := totalHits entry + 1; resetTime := resetTime entry |} in
        (entry, <[key := entry]> hits)
  | None => (start, <[key := start]> hits)
  end.

Definition memory_decrement (_ : string) (hits : MemHits) : MemHits := hits.
Definition memory_resetKey (key : string) (hits : MemHits) : MemHits := delete key hits.

(** [FallbackStore] *)
Inductive ActiveStore := active_redis | active_memory.
#[global] Instance ActiveStore_eq_dec : EqDecision ActiveStore.
Proof. solve_decision. Defined.

Record Fallback := mkFallback { active : ActiveStore; memoryHits : MemHits }.

(** One call of the Redis store: whether the connection is up, whether a
    command was declined or failed (the callback [sendCommand] then switches to
    memory and answers "1"), and what the call returns; [None]: it throws. *)
Record RedisReply := { rr_available : bool; rr_declined : bool; rr_hits : option Hits }.

Definition new_FallbackStore (available : bool) : Fallback :=
  mkFallback (if available then active_redis else active_memory) ∅.

Definition switchToMemory (s : Fallback) : Fallback := mkFallback active_memory (memoryHits s).

Definition fallback_uses_redis (e : RedisReply) (s : Fallback) : bool := bool_decide (active s = active_redis) && rr_available e.

Definition fallback_increment (e : RedisReply) (key : string) (now : Z) (s : Fallback) : Hits * Fallback :=
  let in_memory s := let '(h, m) := memory_increment key now (memoryHits s) in (h, mkFallback (active s) m) in
  if fallback_uses_redis e s then
    let s := if rr_declined e then switchToMemory s else s in
    match rr_hits e with
    | Some h => (h, s)
    | None => in_memory (switchToMemory s)
    end
  else in_memory s.

(** [decrement] and [resetKey]: the Redis store is asked too, its errors are ignored. *)
Definition fallback_touch (e : RedisReply) (s : Fallback) : Fallback :=
  if fallback_uses_redis e s && rr_declined e then switchToMemory s else s.

Definition fallback_decrement (e : RedisReply) (key : string) (s : Fallback) : Fallback :=
  let s := fallback_touch e s in mkFallback (active s) (memory_decrement key (memoryHits s)).

Definition fallback_resetKey (e : RedisReply) (key : string) (s : Fallback) : Fallback :=
  let s := fallback_touch e s in mkFallback (active s) (memory_resetKey key (memoryHits s)).

(** A store of either class *)
Inductive Store := FailClosed | InMemory (hits : MemHits) | WithFallback (s : Fallback).

(** [getStore(prefix)]: [enabled] is [config.redis.enabled], [client] whether
    the rate-limit client exists, [available] whether it is connected. *)
Definition getStore (enabled client available : bool) : Store :=
  if enabled && client then WithFallback (new_FallbackStore available) else InMemory ∅.

Definition increment (e : RedisReply) (key : string) (now : Z) (s : Store) : Hits * Store :=
  match s with
  | FailClosed => (failclosed_increment now, FailClosed)
  | InMemory hits => let '(h, m) := memory_increment key now hits in (h, InMemory m)
  | WithFallback f => let '(h, f) := fallback_increment e key now f in (h, WithFallback f)
  end.

(** ** The limiters *)

(** [rateLimit({ windowMs, limit, store: getStore(prefix) })] *)
Record Limiter := { windowMs : Z; limit : Z; prefix : string }.

Definition relaxAuthLimits (nodeEnv : string) (UAM_RELAX_AUTH_LIMITS : option string) : bool :=
  negb (String.eqb nodeEnv "production")
  && match UAM_RELAX_AUTH_LIMITS with Some v => String.eqb v "1" || String.eqb v "true" | None => false end.

(** [rateLimitConfig] *)
Definition emailCheck_windowMs : Z := 60 * 1000.
Definition emailCheck_limit : Z := 10.
Definition passwordReset_windowMs : Z := 12 * 60 * 60 * 1000.
Definition passwordReset_limitPerWindow : Z := 5.
Definition session_windowMs : Z := 60 * 1000.
Definition session_limit : Z := 30.

Section Limiters.
Context (relax : bool).
Definition relaxed (n : Z) : Z := if relax then 10000 else n.
Definition apiLimiter : Limiter := {| windowMs := 60 * 1000; limit := 1000; prefix := "rl:api:" |}.
Definition authLimiter : Limiter := {| windowMs := 60 * 60 * 1000; limit := relaxed 20; prefix := "rl:auth:" |}.
Definition emailCheckLimiter : Limiter :=
  {| windowMs := emailCheck_windowMs; limit := emailCheck_limit; prefix := "rl:email:" |}.
Definition passwordResetLimiter : Limiter :=
  {| windowMs := passwordReset_windowMs; limit := relaxed passwordReset_limitPerWindow; prefix := "rl:pwd:" |}.
Definition sessionLimiter : Limiter :=
  {| windowMs := session_windowMs; limit := relaxed session_limit; prefix := "rl:session:" |}.
Definition migrationLimiter : Limiter := {| windowMs := 60 * 60 * 1000; limit := relaxed 15; prefix := "rl:migrate:" |}.
End Limiters.

(** ** What the stores guarantee *)

Section Admission.
(** [express-rate-limit]: a request passes while the count is within the limit. *)
Context (admits : Z → Z → bool) (admits_spec : ∀ l n, admits l n = (n <=? l)).

(** Requests of one client at the given times: which pass, and the store afterwards. *)
Fixpoint serve (l : Limiter) (key : string) (times : list Z) (hits : MemHits) : list bool * MemHits :=
  match times with
  | [] => ([], hits)
  | t :: times =>
      let '(h, hits) := memory_increment key t hits in
      let '(rest, hits) := serve l key times hits in
      (admits (limit l) (totalHits h) :: rest, hits)
  end.

Lemma serve_app l key ts ts' hits :
  serve l key (ts ++ ts') hits =
    let '(a, hits) := serve l key ts hits in
    let '(b, hits) := serve l key ts' hits in (a ++ b, hits).
Proof.
  revert hits. induction ts as [|t ts IH]; intros hits; cbn [app serve]; [by destruct (serve l key ts' hits)|].
  destruct (memory_increment key t hits) as [h m]. rewrite IH. destruct (serve l key ts m) as [a m'].
  by destruct (serve l key ts' m') as [b m''].
Qed.

(** Further requests of a minute that has begun *)
Lemma serve_same_minute l key t n h hits :
  hits !! key = Some h → t < resetTime h → 0 ≤ totalHits h →
  (∀ k, (k ≤ n)%nat → totalHits h + Z.of_nat k ≤ limit l) →
  ∃ hits', serve l key (replicate n t) hits = (replicate n true, hits') ∧
    hits' !! key = Some {| totalHits := totalHits h + Z.of_nat n; resetTime := resetTime h |}.
Proof.
  revert h hits. induction n as [|n IH]; intros h hits Hh Ht H0 Hl.
  { exists hits. split; [done|]. rewrite Hh. by destruct h; cbn; rewrite Z.add_0_r. }
  cbn [replicate serve]. unfold memory_increment. rewrite Hh, (proj2 (Z.leb_gt _ _)) by done.
  set (h1 := {| totalHits := totalHits h + 1; resetTime := resetTime h |}).
  destruct (IH h1 (<[key := h1]> hits)) as (hits' & -> & Hk); try done; [by rewrite lookup_insert_eq|cbn; lia| |].
  { intros k Hk. specialize (Hl (S k) ltac:(lia)). cbn. lia. }
  exists hits'. split; [|rewrite Hk; cbn; f_equal; f_equal; lia].
  rewrite admits_spec. specialize (Hl 1%nat ltac:(lia)). cbn in Hl |- *. by rewrite (proj2 (Z.leb_le _ _)) by lia.
Qed.

(** A minute's worth of requests, from an entry that is over *)
Lemma serve_minute l key t n hits :
  Z.of_nat (S n) ≤ limit l → (∀ h, hits !! key = Some h → resetTime h ≤ t) →
  ∃ hits', serve l key (replicate (S n) t) hits = (replicate (S n) true, hits') ∧
    hits' !! key = Some {| totalHits := Z.of_nat (S n); resetTime := t + 60000 |}.
Proof.
  intros Hl Hold. cbn [replicate serve].
  assert (memory_increment key t hits = ({| totalHits := 1; resetTime := t + 60000 |}, <[key := {| totalHits := 1; resetTime := t + 60000 |}]> hits)) as ->.
  { unfold memory_increment. destruct (hits !! key) as [h|] eqn:Hh; [|done]. by rewrite (proj2 (Z.leb_le _ _)) by by apply Hold. }
  destruct (serve_same_minute l key t n {| totalHits := 1; resetTime := t + 60000 |}
    (<[key := {| totalHits := 1; resetTime := t + 60000 |}]> hits)) as (hits' & -> & Hk); cbn in *; try lia; [by rewrite lookup_insert_eq|].
  exists hits'. split; [|rewrite Hk; f_equal; f_equal; lia]. rewrite admits_spec, (proj2 (Z.leb_le _ _)) by lia. done.
Qed.

(** [n] requests at the beginning of every minute *)
Definition every_minute (n rounds : nat) (t : Z) : list Z :=
  concat (map (λ j, replicate n (t + 60000 * Z.of_nat j)) (seq 0 rounds)).

Lemma every_minute_snoc n rounds t :
  every_minute n (S rounds) t = every_minute n rounds t ++ replicate n (t + 60000 * Z.of_nat rounds).
Proof. unfold every_minute. rewrite seq_S, map_app, concat_app. cbn. by rewrite app_nil_r. Qed.

(** Without Redis the configured window is not used: the in-memory store
    starts a new count every minute.  So as many requests as the limit allows
    for the whole window pass in every single minute of it; the next one in the
    same minute is refused. *)
Theorem memory_window_is_a_minute l key n rounds t :
  limit l = Z.of_nat (S n) →
  ∃ hits, serve l key (every_minute (S n) (S rounds) t) ∅ = (replicate (S n * S rounds) true, hits) ∧
    (serve l key [t + 60000 * Z.of_nat rounds] hits).1 = [false].
Proof.
  intros Hl.
  assert (H : ∃ hits, serve l key (every_minute (S n) (S rounds) t) ∅ = (replicate (S n * S rounds) true, hits) ∧
    hits !! key = Some {| totalHits := Z.of_nat (S n); resetTime := t + 60000 * Z.of_nat rounds + 60000 |}).
  { induction rounds as [|rounds IH].
    - destruct (serve_minute l key t n ∅) as (hits & Hs & Hk); [lia|by intros h; rewrite lookup_empty|].
      exists hits. unfold every_minute. cbn [seq map concat]. rewrite app_nil_r.
      replace (t + 60000 * Z.of_nat 0) with t by lia. rewrite Hs, Nat.mul_1_r. split; [done|]. rewrite Hk. f_equal.
    - destruct IH as (hits & Hs & Hk). rewrite every_minute_snoc, serve_app, Hs.
      destruct (serve_minute l key (t + 60000 * Z.of_nat (S rounds)) n hits) as (hits' & -> & Hk'); [lia| |].
      { intros h Hh. rewrite Hk in Hh. injection Hh as <-. cbn [resetTime]. lia. }
      exists hits'. rewrite <- replicate_add. split; [do 2 f_equal; lia|]. exact Hk'. }
  destruct H as (hits & Hs & Hk). exists hits. split; [exact Hs|]. cbn [serve]. unfold memory_increment.
  rewrite Hk. cbn [resetTime totalHits]. rewrite (proj2 (Z.leb_gt _ _)) by lia. cbn [fst totalHits].
  rewrite admits_spec, (proj2 (Z.leb_gt _ _)) by lia. done.
Qed.
End Admission.

(** An hour of authentication requests: twenty are meant to pass, 1200 do. *)
Lemma memory_window_is_a_minute_witness :
  windowMs (authLimiter false) = 60 * 60000 ∧
  ∃ hits, serve (λ l n, n <=? l) (authLimiter false) "ip" (every_minute 20 60 0) ∅ = (replicate (20 * 60) true, hits) ∧
    (serve (λ l n, n <=? l) (authLimiter false) "ip" [0 + 60000 * Z.of_nat 59] hits).1 = [false].
Proof.
  split; [reflexivity|]. apply (memory_window_is_a_minute (λ l n, n <=? l) (λ l n, eq_refl) (authLimiter false) "ip" 19 59 0). reflexivity.
Defined.

(** ** The fallback is final *)

Inductive StoreOp := op_increment (key : string) (now : Z) | op_decrement (key : string) | op_reset (key : string).

Definition store_step (s : Fallback) (p : RedisReply * StoreOp) : Fallback :=
  match p.2 with
  | op_increment key now => (fallback_increment p.1 key now s).2
  | op_decrement key => fallback_decrement p.1 key s
  | op_reset key => fallback_resetKey p.1 key s
  end.

Definition memory_step (m : MemHits) (p : RedisReply * StoreOp) : MemHits :=
  match p.2 with
  | op_increment key now => (memory_increment key now m).2
  | op_decrement key => memory_decrement key m
  | op_reset key => memory_resetKey key m
  end.

Lemma memory_step_final s p :
  active s = active_memory → active (store_step s p) = active_memory ∧ memoryHits (store_step s p) = memory_step (memoryHits s) p.
Proof.
  destruct s as [a m], p as [e op]. cbn [active memoryHits]. intros ->. unfold store_step, memory_step. cbn [fst snd].
  destruct op; unfold fallback_increment, fallback_decrement, fallback_resetKey, fallback_touch, fallback_uses_redis; cbn -[memory_increment]; [|done|done].
  by destruct (memory_increment key now m).
Qed.

(** The store falls back for good.  After one command that Redis declined or
    failed, whatever Redis answers later, every operation is that of the
    in-memory store of this process: limits that are meant to hold across
    processes no longer do. *)
Theorem fallback_is_final e key now s ops e' key' now' :
  fallback_uses_redis e s = true → rr_declined e = true ∨ rr_hits e = None →
  let s1 := (fallback_increment e key now s).2 in
  let s2 := foldl store_step s1 ops in
  active s2 = active_memory ∧ memoryHits s2 = foldl memory_step (memoryHits s1) ops ∧
  (fallback_increment e' key' now' s2).1 = (memory_increment key' now' (memoryHits s2)).1.
Proof.
  intros Hu Hd s1 s2. assert (H1 : active s1 = active_memory).
  { unfold s1, fallback_increment. rewrite Hu. destruct (rr_hits e) eqn:Eh; [|by destruct (memory_increment _ _ _)].
    destruct Hd as [->|]; [done|congruence]. }
  assert (H2 : active s2 = active_memory ∧ memoryHits s2 = foldl memory_step (memoryHits s1) ops).
  { unfold s2. clearbody s1. revert s1 H1 s2. clear. induction ops as [|p ops IH]; intros s1 H1 _; [done|]. cbn [foldl].
    destruct (memory_step_final s1 p H1) as [Ha Hm]. rewrite <- Hm. by apply IH. }
  destruct H2 as [Ha Hm]. split; [done|]. split; [done|]. unfold fallback_increment, fallback_uses_redis. rewrite Ha, bool_decide_eq_false_2 by done.
  cbn [andb]. by destruct (memory_increment key' now' (memoryHits s2)).
Qed.

(** Redis declines once and is up again afterwards. *)
Lemma fallback_is_final_witness :
  let up := {| rr_available := true; rr_declined := false; rr_hits := Some {| totalHits := 7; resetTime := 100 |} |} in
  let down := {| rr_available := true; rr_declined := true; rr_hits := None |} in
  let s1 := (fallback_increment down "ip" 0 (new_FallbackStore true)).2 in
  let s2 := foldl store_step s1 [(up, op_increment "ip" 10)] in
  active s2 = active_memory ∧ memoryHits s2 = foldl memory_step (memoryHits s1) [(up, op_increment "ip" 10)] ∧
  (fallback_increment up "ip" 20 s2).1 = (memory_increment "ip" 20 (memoryHits s2)).1.
Proof.
  intros up down. apply (fallback_is_final down "ip" 0 (new_FallbackStore true) [(up, op_increment "ip" 10)] up "ip" 20);
    [reflexivity|left; reflexivity].
Defined.

(** ** The login limiter *)

Module LoginLimiter.

(** [rateLimitConfig.login] *)
Definition allowedAttempts : Z := 5.
Definition step1 : Z := 5 * 60 * 1000.
Definition step2 : Z := 25 * 60 * 1000.
Definition step3 : Z := 125 * 60 * 1000.

Definition LOGIN_PREFIX : string := "login_attempt:".

(** A record of attempts; [resetTime] is always 0 and never read. *)
Record Attempts := { count : Z; blockUntil : Z }.

Definition no_attempts : Attempts := {| count := 0; blockUntil := 0 |}.

Definition to_json (a : Attempts) : json := JObj [("count", JNum (count a)); ("blockUntil", JNum (blockUntil a))].

Fixpoint member (l : list (string * json)) (k : string) : option json :=
  match l with
  | [] => None
  | (q, v) :: l => if String.eqb q k then Some v else member l k
  end.

(** Reading [record.count] and [record.blockUntil] of what was parsed; what is
    not a number counts as 0.  [None]: [JSON.parse] or the access throws. *)
Definition number (v : option json) : Z := match v with Some (JNum n) => n | _ => 0 end.

Definition of_text (raw : string) : option Attempts :=
  match parse raw with
  | None | Some JNull => None
  | Some (JObj l) => Some {| count := number (member l "count"); blockUntil := number (member l "blockUntil") |}
  | Some _ => Some no_attempts
  end.

Section Limiter.
Context `{RKV : RedisKV}.

Record State := mkState { cache : Cache; memoryStore : gmap string Attempts }.

#[global] Instance has_cache : HasCache State.
Proof. refine {| cache_of := cache; with_cache := λ c s, mkState c (memoryStore s) |}; done. Defined.

(** [config.rateLimit.requireDistributed] *)
Context (requireDistributed : bool).

(** The answer: 503, 429 with the time that remains, or the next handler with
    the key and the attempts counted so far. *)
Inductive Verdict := Unavailable | TooMany (remainingTime : Z) | Next (key : string) (attempts : Z).

Definition judge (key : string) (now : Z) (a : Attempts) : Verdict :=
  if negb (blockUntil a =? 0) && (now <? blockUntil a) then TooMany (blockUntil a - now) else Next key (count a).

(** [Math.ceil(remaining / 60000)], in the message *)
Definition remaining_minutes (remainingTime : Z) : Z := - (- remainingTime / 60000).

Definition login_key (ip : string) (email : option string) : string :=
  LOGIN_PREFIX +:+ ip +:+ "_" +:+ match email with Some e => if String.eqb e "" then "unknown" else e | None => "unknown" end.

(** The [catch] branch; [key] is built from [req.ip] there. *)
Definition limiter_fallback (key : string) : prog Env State Verdict :=
  if requireDistributed then Ret Unavailable
  else seg (λ _ s, (judge key (RedisCache.clock (cache s)) (default no_attempts (memoryStore s !! key)), s)).

Definition advancedLoginLimiter (key fallbackKey : string) : prog Env State Verdict :=
  let! r := seg (λ e s,
    let now := RedisCache.clock (cache s) in
    if isRedisAvailable (cache s) then
      match on_cache (runCacheCommand e (λ t kv, (kv_get t key kv, kv))) s with
      | (Succeeded (Some raw), s) =>
          if String.eqb raw "" then (Some (judge key now no_attempts), s)
          else (match of_text raw with Some a => Some (judge key now a) | None => None end, s)
      | (Succeeded None, s) => (Some (judge key now no_attempts), s)
      | (_, s) => (Some (if requireDistributed then Unavailable else judge key now no_attempts), s)
      end
    else if requireDistributed then (Some Unavailable, s)
    else (Some (judge key now (default no_attempts (memoryStore s !! key))), s)) in
  match r with Some v => Ret v | None => limiter_fallback fallbackKey end.

Definition block_for (n now : Z) : Z :=
  if allowedAttempts <? n then
    if n =? allowedAttempts + 1 then now + step1
    else if n =? allowedAttempts + 2 then now + step2
    else now + step3
  else 0.

(** [handleLoginFailure(req)] with the key and the attempts of the limiter; the result is [blockUntil] or [null]. *)
Definition handleLoginFailure (key : string) (attempts : Z) : prog Env State (option Z) :=
  seg (λ e s,
    let now := RedisCache.clock (cache s) in
    let a := {| count := attempts + 1; blockUntil := block_for (attempts + 1) now |} in
    let answer := if 0 <? blockUntil a then Some (blockUntil a) else None in
    let remember s := mkState (cache s) (<[key := a]> (memoryStore s)) in
    if isRedisAvailable (cache s) then
      let ttl := - (- step3 / 1000) + 600 in
      match on_cache (runCacheCommand e (λ t kv, (tt, kv_setex t key ttl (stringify (to_json a)) kv))) s with
      | (Succeeded _, s) => (answer, s)
      | (_, s) => if requireDistributed then (None, s) else (answer, remember s)
      end
    else if requireDistributed then (None, s)
    else (answer, remember s)).

Definition resetLoginAttempts (key : string) : prog Env State unit :=
  seg (λ e s,
    let forget s := mkState (cache s) (delete key (memoryStore s)) in
    if isRedisAvailable (cache s) then
      match on_cache (runCacheCommand e (λ _ kv, (tt, kv_del key kv))) s with
      | (Succeeded _, s) => (tt, s)
      | (_, s) => (tt, if requireDistributed then s else forget s)
      end
    else (tt, forget s)).

(** The timer of 60 s *)
Definition sweep (now : Z) (m : gmap string Attempts) : gmap string Attempts :=
  filter (λ p, negb (negb (blockUntil p.2 =? 0) && (blockUntil p.2 <? now)) = true) m.

Definition on_timer : prog Env State unit :=
  seg (λ _ s, (tt, mkState (cache s) (sweep (RedisCache.clock (cache s)) (memoryStore s)))).

(** An attempt to sign in that fails: the limiter, then the failure is counted
    unless the limiter has refused. *)
Definition failed_attempt (key : string) : prog Env State Verdict :=
  let! v := advancedLoginLimiter key key in
  match v with
  | Next key n => handleLoginFailure key n ;; Ret v
  | _ => Ret v
  end.
End Limiter.

(** ** The delays *)

Section Delays.
Context `{RKV : RedisKV} (key : string) (t0 t1 : Z) (Ht0 : 0 ≤ t0) (Ht1 : t0 ≤ t1).

(** The in-memory mode: Redis is not connected; the run lies in the window. *)
Definition offline (e : Env) (s : State) : Prop :=
  isRedisAvailable (advance e (cache s)) = false ∧ t0 ≤ RedisCache.clock (advance e (cache s)) ≤ t1.

Definition offlineb (e : Env) (s : State) : bool :=
  negb (isRedisAvailable (advance e (cache s))) && (t0 <=? RedisCache.clock (advance e (cache s)))
  && (RedisCache.clock (advance e (cache s)) <=? t1).

Lemma offlineb_spec e s : offlineb e s = true → offline e s.
Proof. intros [[H1%negb_true_iff H2]%andb_true_iff H3]%andb_true_iff. split; [done|lia]. Qed.

(** [m] failing attempts with one key; how many of them the limiter let pass *)
Fixpoint attack (m : nat) : prog Env State Z :=
  match m with
  | O => Ret 0
  | S m =>
      let! v := failed_attempt false key in
      let! n := attack m in
      Ret (n + match v with Next _ _ => 1 | _ => 0 end)
  end.

(** After [n] counted attempts *)
Definition counted (n : Z) (s : State) : Prop :=
  let a := default no_attempts (memoryStore s !! key) in
  count a = n ∧ 0 ≤ n ∧ (8 ≤ n → t0 + (n - 7) * step3 ≤ blockUntil a).

Lemma block_for_late n t : 7 ≤ n → block_for (n + 1) t = t + step3.
Proof. intros Hn. unfold block_for, allowedAttempts. rewrite (proj2 (Z.ltb_lt _ _)), !(proj2 (Z.eqb_neq _ _)) by lia. done. Qed.

Lemma judge_cases (a : Attempts) now :
  (∃ r, judge key now a = TooMany r) ∨ judge key now a = Next key (count a) ∧ (0 < blockUntil a → blockUntil a ≤ now).
Proof.
  unfold judge. destruct (blockUntil a =? 0) eqn:E0; cbn [negb andb].
  - right. split; [done|]. lia.
  - destruct (now <? blockUntil a) eqn:E; [left; eauto|]. right. split; [done|]. lia.
Qed.

Lemma attempt_step n s :
  counted n s →
  always offline (failed_attempt false key) s (λ v s',
    match v with
    | Unavailable => False
    | TooMany _ => counted n s'
    | Next _ _ => counted (n + 1) s' ∧ (8 ≤ n → t0 + (n - 7) * step3 ≤ t1)
    end).
Proof.
  intros (Hc & H0 & Hb). destruct s as [c m]. cbn [memoryStore] in *. unfold failed_attempt, advancedLoginLimiter.
  apply always_act. intros e [He Ht]. cbn [cache_of with_cache has_cache cache memoryStore] in *. rewrite He. cbn [fst snd bind].
  set (c1 := advance e c) in *. set (a := default no_attempts (m !! key)) in *.
  destruct (judge_cases a (RedisCache.clock c1)) as [[r ->]|[-> Hnow]]; [by apply always_ret|].
  apply always_act. intros e2 [He2 Ht2]. cbn [cache_of with_cache has_cache cache memoryStore] in *. rewrite He2. cbn [fst snd bind].
  apply always_ret. destruct (advance_frame e2 c1) as (_ & Hcl & _). pose proof (N2Z.is_nonneg (elapse e2)) as Hel.
  assert (Hbn : 8 ≤ n → t0 + (n - 7) * step3 ≤ RedisCache.clock c1).
  { intros Hn. specialize (Hb Hn). unfold step3 in *. etransitivity; [exact Hb|]. apply Hnow. lia. }
  split; [|intros Hn; specialize (Hbn Hn); lia].
  unfold counted. cbn [memoryStore]. rewrite lookup_insert_eq. cbn [default count blockUntil]. rewrite Hc. split; [done|]. split; [lia|].
  intros Hn. rewrite block_for_late, Hcl by lia. unfold id. cbn [blockUntil]. destruct (decide (8 ≤ n)) as [Hn8|Hn8]; [specialize (Hbn Hn8); unfold step3 in *; lia|].
  assert (n = 7) by lia. unfold step3 in *. lia.
Qed.

Lemma attack_bound m n s :
  counted n s → n ≤ 8 + (t1 - t0) / step3 → always offline (attack m) s (λ k _, n + k ≤ 8 + (t1 - t0) / step3).
Proof.
  revert n s. induction m as [|m IH]; intros n s Hs Hn; [apply always_ret; lia|]. cbn [attack].
  apply always_bind. eapply always_mono; [by apply (attempt_step n)|]. intros v s1. destruct v as [|r|q k]; [done|..].
  - intros Hs1. apply always_bind. eapply always_mono; [by apply (IH n)|]. intros k s2 Hk. apply always_ret. cbv iota beta in *. lia.
  - intros [Hs1 Hb]. assert (Hn1 : n + 1 ≤ 8 + (t1 - t0) / step3).
    { destruct (decide (8 ≤ n)) as [H8|H8].
      - specialize (Hb H8). assert (n - 7 ≤ (t1 - t0) / step3); [|lia]. apply Z.div_le_lower_bound; unfold step3 in *; lia.
      - assert (0 ≤ (t1 - t0) / step3) by (apply Z.div_pos; unfold step3; lia). lia. }
    apply always_bind. eapply always_mono; [by apply (IH (n + 1))|]. intros j s2 Hj. apply always_ret. cbv iota beta in *. lia.
Qed.

(** Guessing is slow.  Whoever keeps trying a password with one key gets at
    most eight attempts, and one more for every 125 minutes of the attack; all
    others are refused with the time that remains. *)
Theorem attack_is_slow m s :
  memoryStore s !! key = None → always offline (attack m) s (λ k _, k ≤ 8 + (t1 - t0) / step3).
Proof.
  intros Hk. eapply always_mono; [apply (attack_bound m 0)|].
  - unfold counted. rewrite Hk. cbn. lia.
  - assert (0 ≤ (t1 - t0) / step3) by (apply Z.div_pos; unfold step3; lia). lia.
  - intros k s'. cbv beta. lia.
Qed.

(** The timer undoes the delays: when a block has ended and the timer runs,
    the attempts are forgotten, and the next five are free again. *)
Theorem sweep_forgets a s now :
  memoryStore s !! key = Some a → 0 < blockUntil a < now →
  sweep now (memoryStore s) !! key = None.
Proof.
  intros Hk Hb. unfold sweep. apply map_lookup_filter_None. right. intros x Hx. rewrite Hk in Hx. injection Hx as <-. cbn [snd].
  rewrite (proj2 (Z.eqb_neq _ _)), (proj2 (Z.ltb_lt _ _)) by lia. done.
Qed.
End Delays.
End LoginLimiter.

(** Twelve attempts in a row within two minutes *)
Module AttackRun.
Definition env (n : nat) : Env :=
  {| elapse := 5000; events := []; rand_begin := 0; rand_end := 0; fate := Answered; wait := 1; fresh := ""; uuids := ("", "") |}.
Definition start : LoginLimiter.State (RKV := MemKV.mem_kv) :=
  LoginLimiter.mkState (MemKV.fresh_cache <| cacheReady := false |>) ∅.
Definition final := run (LoginLimiter.attack (RKV := MemKV.mem_kv) "k" 12) env start.
End AttackRun.

Lemma attack_is_slow_witness : AttackRun.final.1 = 6 ∧ AttackRun.final.1 ≤ 8 + (9000000 - 0) / LoginLimiter.step3.
Proof.
  split; [vm_compute; reflexivity|].
  apply (LoginLimiter.attack_is_slow (RKV := MemKV.mem_kv) "k" 0 9000000 ltac:(lia) ltac:(lia) 12 AttackRun.start); [reflexivity|].
  apply (path_check _ (LoginLimiter.offlineb 0 9000000)); [apply LoginLimiter.offlineb_spec|vm_compute; reflexivity].
Defined.

Lemma sweep_forgets_witness :
  LoginLimiter.sweep 1400000 (LoginLimiter.memoryStore AttackRun.final.2) !! "k" = None.
Proof.
  apply (LoginLimiter.sweep_forgets (RKV := MemKV.mem_kv) "k" {| LoginLimiter.count := 6; LoginLimiter.blockUntil := 1360000 |} AttackRun.final.2);
    [vm_compute; reflexivity|cbn; lia].
Defined.
