(* ===== verification/Validators.v ===== *)
(** * Validation of request bodies

    Models [uam-backend/src/validators/auth.validators.ts],
    [uam-backend/src/validators/migration.validators.ts],
    [uam-backend/src/middleware/validate.middleware.ts], and the rules the front
    end applies before it sends a form: [validatePassword] and the avatar check
    of [uam-frontend/src/utils/security.ts], [validateField] of
    [uam-frontend/src/pages/RegisterPage.tsx].

    The schemas are data, built with the constructors of the package [zod]; the
    package itself is not part of the repository.  Its [parse] is an interface
    ([Zod]) whose laws ([ZodLaws]) state the documented meaning of each check.
    The formats behind [.email()] and [.url()] stay unspecified. *)

From S2P Require Import Prelude Async Json JsVal.
#[local] Open Scope string_scope.
#[local] Open Scope list_scope.
#[local] Open Scope Z_scope.

(** ** Character classes *)

(** [/[p]/.test(s)] *)
Fixpoint some_char (p : Ascii.ascii → bool) (s : string) : bool :=
  match s with EmptyString => false | String c s => p c || some_char p s end.

Fixpoint all_chars (p : Ascii.ascii → bool) (s : string) : bool :=
  match s with EmptyString => true | String c s => p c && all_chars p s end.

Definition is_letter (c : Ascii.ascii) : bool := is_upper c || is_lower c.
Definition is_special (c : Ascii.ascii) : bool := negb (is_letter c || is_digit c).

(** [/\.[a-zA-Z]{2,}$/.test(s)] *)
Fixpoint tld_test (s : string) : bool :=
  match s with
  | EmptyString => false
  | String c s' => Ascii.eqb c "."%char && (2 <=? strlen s') && all_chars is_letter s' || tld_test s'
  end.

(** [/^[a-zA-Z0-9\s\-_]+$/.test(s)] *)
Definition is_name_char (c : Ascii.ascii) : bool :=
  is_letter c || is_digit c || is_ws c || Ascii.eqb c "-"%char || Ascii.eqb c "_"%char.
Definition name_test (s : string) : bool := (0 <? strlen s) && all_chars is_name_char s.

(** [s.split(sep)] for a one-character separator *)
Fixpoint split_char (sep : Ascii.ascii) (s : string) : list string :=
  match s with
  | EmptyString => [""]
  | String c s' =>
      if Ascii.eqb c sep then "" :: split_char sep s'
      else match split_char sep s' with
           | [] => [String c ""]
           | w :: ws => String c w :: ws
           end
  end.

(** ** Schemas *)

Inductive Check :=
  | min (n : Z) (message : string)
  | max (n : Z) (message : string)
  | email (message : string)
  | url
  | regex (test : string → bool) (message : string)
  | refine (test : string → bool) (message : string).

Inductive FieldSchema :=
  | z_string (checks : list Check)
  | z_enum (values : list string)
  | z_optional (inner : FieldSchema).

(** [z.object({ ... })] *)
Abbreviation Schema := (list (string * FieldSchema)).

Record Issue := { path : list string; message : string }.

(** What [schema.parse(body)] does *)
Inductive Parse := Parsed | ZodError (issues : list Issue) | ParseFailed (error : string).

Class Zod := {
  email_format : string → bool;
  url_format : string → bool;
  parse : Schema → val → Parse;
}.

Section Meaning.
Context `{Z : Zod}.

Definition holds (c : Check) (s : string) : bool :=
  match c with
  | min n _ => n <=? strlen s
  | max n _ => strlen s <=? n
  | email _ => email_format s
  | url => url_format s
  | regex t _ | refine t _ => t s
  end.

Fixpoint accepts (f : FieldSchema) (v : val) : bool :=
  match f with
  | z_string checks => match v with VStr s => forallb (λ c, holds c s) checks | _ => false end
  | z_enum values => match v with VStr s => existsb (String.eqb s) values | _ => false end
  | z_optional inner => match v with VUndef => true | _ => accepts inner v end
  end.

Definition valid (schema : Schema) (body : val) : bool :=
  match body with VObj o => forallb (λ p, accepts p.2 (obj_get o p.1)) schema | _ => false end.
End Meaning.

Class ZodLaws `(Zod) : Prop := {
  (** [parse] returns exactly on the values of the schema's type, *)
  parse_valid schema body : parse schema body = Parsed ↔ valid schema body = true;
  (** otherwise it throws a [ZodError], *)
  parse_invalid schema body : valid schema body = false → ∃ issues, parse schema body = ZodError issues ∧ issues ≠ [];
  (** whose issues name the failing fields of an object. *)
  parse_path schema o issues i :
    parse schema (VObj o) = ZodError issues → In i issues →
    ∃ f, In f schema ∧ path i = [f.1] ∧ accepts f.2 (obj_get o f.1) = false;
}.

(** ** The schemas of the authentication routes *)

Definition disposableDomains : list string := ["tempmail.com"; "throwaway.com"; "10minutemail.com"; "guerrillamail.com"].

(** [email.split('@')[1]?.toLowerCase()] *)
Definition email_domain (s : string) : option string := toLowerCase <$> split_char "@"%char s !! 1%nat.

Definition not_disposable (s : string) : bool :=
  match email_domain s with Some d => negb (existsb (String.eqb d) disposableDomains) | None => true end.

Definition emailSchema : FieldSchema :=
  z_string [min 1 "Email is required"; email "Invalid email format"; max 255 "Email is too long";
            refine not_disposable "Disposable email addresses are not allowed"; refine tld_test "Invalid email domain"].

Definition passwordSchema : FieldSchema :=
  z_string [min 8 "Password must be at least 8 characters"; max 128 "Password is too long";
            refine (some_char is_upper) "Password must contain at least one uppercase letter";
            refine (some_char is_lower) "Password must contain at least one lowercase letter";
            refine (some_char is_digit) "Password must contain at least one number";
            refine (some_char is_special) "Password must contain at least one special character"].

Definition displayNameSchema : FieldSchema :=
  z_string [min 2 "Display name must be at least 2 characters"; max 50 "Display name is too long";
            regex name_test "Display name can only contain letters, numbers, spaces, hyphens, and underscores"].

Definition registerSchema : Schema :=
  [("email", emailSchema); ("password", passwordSchema); ("displayName", displayNameSchema)].
Definition loginSchema : Schema := [("email", emailSchema); ("password", z_string [min 1 "Password is required"])].
Definition emailCheckSchema : Schema := [("email", emailSchema)].
Definition passwordResetRequestSchema : Schema := [("email", emailSchema)].

(** [z.string().min(n, msg).max(128)]; the message of [max] is the package's. *)
Section Messages.
Context (too_long too_short : string).

Definition between (n : Z) (message : string) : FieldSchema := z_string [min n message; max 128 too_long].

Definition passwordResetSchema : Schema := [("formToken", between 64 "Invalid form token"); ("password", passwordSchema)].
Definition emailVerifySchema : Schema := [("formToken", between 64 "Invalid form token"); ("password", passwordSchema)].
Definition redeemEmailLinkSchema : Schema := [("code", between 64 "Invalid link code")].
Definition oauthPrepareSchema : Schema :=
  [("codeChallenge", between 43 too_short); ("redirectUri", z_optional (z_string [url; max 200 too_long]))].
Definition oauthExchangeSchema : Schema :=
  [("code", between 64 "Invalid OAuth code"); ("state", between 64 "Invalid OAuth state"); ("codeVerifier", between 43 too_short)].
Definition resendVerificationSchema : Schema := [("email", emailSchema)].
Definition refreshTokenSchema : Schema :=
  [("refreshToken", z_optional (z_string [])); ("accessToken", z_optional (z_string []))].
Definition verificationPollSchema : Schema := [("pollToken", between 64 "Invalid poll token")].

(** ** The schemas of the migration routes *)

Definition migration_emailSchema : FieldSchema :=
  z_string [min 1 "Email is required"; email "Invalid email format"; max 255 "Email is too long"].
Definition migration_passwordSchema : FieldSchema :=
  z_string [min 8 "Password must be at least 8 characters"; max 128 "Password is too long"].

Definition migrationInitSchema : Schema :=
  [("newEmail", migration_emailSchema); ("password", z_optional migration_passwordSchema);
   ("confirmOverride", z_optional (z_enum ["true"]))].
Definition migrationVerifySchema : Schema := [("formToken", between 64 "Invalid form token")].
End Messages.

(** ** The middleware *)

Inductive Validated := Proceed | Invalid (code : Z) (body : object) | NextError (error : string).

Definition issue_entry (i : Issue) : val :=
  VObj [("field", VStr (join "." (path i))); ("message", VStr (message i))].

Definition validate `{Z : Zod} (schema : Schema) (body : val) : Validated :=
  match parse schema body with
  | Parsed => Proceed
  | ZodError issues =>
      Invalid 400 [("success", VBool false); ("message", VStr "Validation failed"); ("errors", VArr (map issue_entry issues))]
  | ParseFailed error => NextError error
  end.

(** ** The rules of the front end *)

(** [validatePassword]: [None] is [null]. *)
Definition validatePassword (password : string) : option string :=
  if String.eqb password "" then Some "Password is required"
  else if strlen password <? 8 then Some "Password must be at least 8 characters"
  else if 128 <? strlen password then Some "Password is too long"
  else if negb (some_char is_upper password) then Some "Password must contain an uppercase letter"
  else if negb (some_char is_lower password) then Some "Password must contain a lowercase letter"
  else if negb (some_char is_digit password) then Some "Password must contain a number"
  else if negb (some_char is_special password) then Some "Password must contain a special character"
  else None.

(** [/^[^\s@]+@[^\s@]+\.[^\s@]+$/.test(s)] *)
Definition is_plain (c : Ascii.ascii) : bool := negb (is_ws c || Ascii.eqb c "@"%char).

(** The rest after the at sign: a dot with characters before and behind. *)
Fixpoint dotted (seen : bool) (s : string) : bool :=
  match s with
  | EmptyString => false
  | String c s' => (seen && Ascii.eqb c "."%char && negb (String.eqb s' "")) || dotted true s'
  end.

Definition page_email_test (s : string) : bool :=
  match split_char "@"%char s with
  | [l; d] => negb (String.eqb l "") && all_chars is_plain l && all_chars is_plain d && dotted false d
  | _ => false
  end.

(** [validateField] of the registration page: the empty string is no error. *)
Definition validateField (name value : string) : string :=
  if String.eqb name "displayName" then
    if String.eqb value "" then "Display name is required"
    else if strlen value <? 2 then "Display name must be at least 2 characters"
    else if 50 <? strlen value then "Display name is too long"
    else ""
  else if String.eqb name "email" then
    if String.eqb value "" then "Email is required"
    else if negb (page_email_test value) then "Invalid email format"
    else ""
  else if String.eqb name "password" then
    if String.eqb value "" then "Password is required"
    else if strlen value <? 8 then "Password must be at least 8 characters"
    else if negb (some_char is_upper value) then "Password must contain an uppercase letter"
    else if negb (some_char is_lower value) then "Password must contain a lowercase letter"
    else if negb (some_char is_digit value) then "Password must contain a number"
    else if negb (some_char is_special value) then "Password must contain a special character"
    else ""
  else "".

(** [new URL(url)]: protocol and host name, [None] when it throws *)
Section Avatar.
Context (new_URL : string → option (string * string)).

Definition ALLOWED_AVATAR_HOSTS : list string :=
  ["lh3.googleusercontent.com"; "avatars.githubusercontent.com"; "secure.gravatar.com"; "www.gravatar.com"; "gravatar.com"].

Definition isSafeAvatarUrl (url : option string) : bool :=
  match url with
  | None => false
  | Some u =>
      if String.eqb u "" then false
      else match new_URL u with
           | Some (protocol, hostname) =>
               if negb (String.eqb protocol "https:") then false else existsb (String.eqb hostname) ALLOWED_AVATAR_HOSTS
           | None => false
           end
  end.

Definition sanitizeAvatarUrl (url : option string) : option string := if isSafeAvatarUrl url then url else None.
End Avatar.

(** ** Facts *)

Lemma forallb_false_exists {A} (p : A → bool) l : forallb p l = false ↔ ∃ x, In x l ∧ p x = false.
Proof.
  induction l as [|x l IH]; cbn; [split; [done|by intros (? & [] & _)]|].
  destruct (p x) eqn:E; cbn.
  - rewrite IH. split; [intros (y & Hy & H); exists y; auto|].
    intros (y & [->|Hy] & H); [congruence|by exists y].
  - split; [|done]. intros _. exists x. auto.
Qed.

Lemma strlen_pos s : String.eqb s "" = negb (1 <=? strlen s).
Proof. destruct s; [done|]. unfold strlen. cbn [String.length String.eqb]. destruct (Z.leb_spec 1 (Z.of_nat (S (String.length s)))); [done|lia]. Qed.

(** The two formulations of a bound, in the schema and in the forms *)
Lemma ltb_negb_leb a b : (a <? b) = negb (b <=? a).
Proof. apply Z.ltb_antisym. Qed.

#[local] Ltac by_tests := repeat match goal with |- context [if ?b then _ else _] => destruct b eqn:?; cbn [negb] end.

Section Facts.
Context `{ZP : Zod} {ZL : ZodLaws ZP}.

(** The front-end rule is the back-end schema. *)
Lemma password_accepts p : accepts passwordSchema (VStr p) = true ↔ validatePassword p = None.
Proof.
  unfold validatePassword. cbn. rewrite strlen_pos, !ltb_negb_leb.
  destruct (1 <=? strlen p) eqn:E1; cbn.
  - destruct (8 <=? strlen p); [|done]. destruct (strlen p <=? 128); [|done].
    destruct (some_char is_upper p); [|done]. destruct (some_char is_lower p); [|done].
    destruct (some_char is_digit p); [|done]. by destruct (some_char is_special p).
  - destruct (Z.leb_spec 8 (strlen p)) as [H|]; [|done]. apply Z.leb_gt in E1. lia.
Qed.

(** The registration page never stops a name or a password that the server
    would take. *)
Lemma page_lets_through v :
  (accepts displayNameSchema (VStr v) = true → validateField "displayName" v = "") ∧
  (accepts passwordSchema (VStr v) = true → validateField "password" v = "").
Proof.
  split.
  - cbn. intros H. apply andb_true_iff in H as [H1 H]. apply andb_true_iff in H as [H2 _].
    unfold validateField. cbn. rewrite strlen_pos, !ltb_negb_leb, H1, H2. cbn.
    apply Z.leb_le in H1. by rewrite (proj2 (Z.leb_le 1 (strlen v)) ltac:(lia)).
  - intros H%password_accepts. revert H. unfold validateField, validatePassword. cbn.
    by repeat match goal with |- context [if ?b then _ else _] => destruct b; [done|] end.
Qed.

Lemma valid_proceeds schema body : validate schema body = Proceed ↔ valid schema body = true.
Proof.
  rewrite <- parse_valid. unfold validate. destruct (parse schema body); split; done.
Qed.

(** The validation middleware: the handler runs exactly on a body of the
    schema's type; any other body is answered with 400 and at least one error,
    and every error about an object names a field that the schema rejects. *)
Theorem validate_spec schema o :
  (valid schema (VObj o) = true → validate schema (VObj o) = Proceed) ∧
  (valid schema (VObj o) = false →
   ∃ errors, errors ≠ [] ∧
     validate schema (VObj o) =
       Invalid 400 [("success", VBool false); ("message", VStr "Validation failed"); ("errors", VArr errors)] ∧
     Forall (λ e, ∃ f, In f schema ∧ accepts f.2 (obj_get o f.1) = false ∧ opt_prop e "field" = VStr f.1) errors).
Proof.
  split; [apply valid_proceeds|]. intros H. destruct (parse_invalid _ _ H) as (issues & Hp & Hne).
  exists (map issue_entry issues). split; [by destruct issues|]. unfold validate. rewrite Hp. split; [done|].
  apply Forall_forall. intros e (i & <- & Hi)%list_elem_of_In%in_map_iff.
  destruct (parse_path _ _ _ _ Hp Hi) as (f & Hf & Hpath & Ha). exists f. split; [done|]. split; [done|].
  unfold issue_entry. by rewrite Hpath.
Qed.

(** C25. One password policy: for a well-formed reset request the form of the
    front end accepts the new password exactly when the server does. *)
Theorem password_policy_agrees too_long formToken password :
  64 ≤ strlen formToken ≤ 128 →
  validatePassword password = None ↔
  validate (passwordResetSchema too_long) (VObj [("formToken", VStr formToken); ("password", VStr password)]) = Proceed.
Proof.
  intros [H1 H2]. rewrite valid_proceeds, <- password_accepts.
  apply Z.leb_le in H1, H2. unfold valid. cbn [forallb passwordResetSchema]. rewrite andb_true_r.
  cbn [obj_get obj_lookup fst snd]. cbn. rewrite H1, H2. done.
Qed.

(** An address with a disposable domain, or without a proper top-level
    domain, can be migrated to, but every request that names it afterwards is
    refused: sign-in, password reset, resending and registration alike. *)
Theorem migrated_address_locked_out address body :
  email_format address = true → 1 ≤ strlen address ≤ 255 →
  not_disposable address = false ∨ tld_test address = false →
  obj_get body "email" = VStr address →
  validate migrationInitSchema (VObj [("newEmail", VStr address)]) = Proceed ∧
  Forall (λ schema, ∃ errors, validate schema (VObj body) = Invalid 400 errors)
    [registerSchema; loginSchema; emailCheckSchema; passwordResetRequestSchema; resendVerificationSchema].
Proof.
  intros Hf [H1 H2] Hbad Hb. apply Z.leb_le in H1, H2. split.
  - apply valid_proceeds. cbn. by rewrite Hf, H1, H2.
  - assert (Ha : accepts emailSchema (VStr address) = false).
    { cbn. rewrite Hf, H1, H2. cbn. by destruct Hbad as [-> | ->]; [|rewrite andb_false_r]. }
    assert (Hs : ∀ rest, ∃ errors, validate (("email", emailSchema) :: rest) (VObj body) = Invalid 400 errors).
    { intros rest. destruct (parse_invalid (("email", emailSchema) :: rest) (VObj body)) as (issues & Hp & _).
      - unfold valid. cbn [forallb fst snd]. by rewrite Hb, Ha.
      - unfold validate. rewrite Hp. eauto. }
    repeat (apply Forall_cons_2; [apply Hs|]). apply Forall_nil_2.
Qed.
End Facts.

(** ** A parser *)

Module ToyZod.
Definition failing `{Zod} (schema : Schema) (o : object) : list Issue :=
  map (λ f, {| path := [f.1]; message := "Invalid input" |}) (List.filter (λ f, negb (accepts f.2 (obj_get o f.1))) schema).

Definition toy_parse (format : string → bool) (schema : Schema) (body : val) : Parse :=
  let formats := {| email_format := format; url_format := format; parse := λ _ _, Parsed |} in
  match body with
  | VObj o => if @valid formats schema body then Parsed else ZodError (@failing formats schema o)
  | _ => ZodError [{| path := []; message := "Expected object" |}]
  end.

#[global] Instance toy_zod : Zod :=
  {| email_format := page_email_test; url_format := page_email_test; parse := toy_parse page_email_test |}.

#[global] Instance toy_laws : ZodLaws toy_zod.
Proof.
  split.
  - intros schema body. destruct body as [| | | | | | | |o]; try (split; discriminate).
    change (toy_parse page_email_test schema (VObj o) = Parsed ↔ valid schema (VObj o) = true).
    unfold toy_parse. change (@valid _ schema (VObj o)) with (valid (Z := toy_zod) schema (VObj o)).
    by destruct (valid schema (VObj o)).
  - intros schema body H. destruct body as [| | | | | | | |o]; try (eexists; split; [reflexivity|discriminate]).
    exists (failing schema o). split.
    + change (toy_parse page_email_test schema (VObj o) = ZodError (failing schema o)). unfold toy_parse.
      change (@valid _ schema (VObj o)) with (valid (Z := toy_zod) schema (VObj o)). by rewrite H.
    + unfold valid in H. apply forallb_false_exists in H as (f & Hf & Ha).
      intros E%map_eq_nil. assert (In f []) as []. rewrite <- E. apply filter_In. split; [done|].
      by apply negb_true_iff.
  - intros schema o issues i H Hi.
    change (toy_parse page_email_test schema (VObj o) = ZodError issues) in H. unfold toy_parse in H.
    destruct (@valid _ schema (VObj o)); [done|]. injection H as <-.
    apply in_map_iff in Hi as (f & <- & [Hf Ha%negb_true_iff]%filter_In). by exists f.
Qed.
End ToyZod.

Module ValidatorRun.
Definition weak : object := [("email", VStr "bob@x.dev"); ("password", VStr "weak"); ("displayName", VStr "Bob")].
Definition gone : string := "bob@TempMail.com".
Definition token : string := "0123456789abcdef0123456789abcdef0123456789abcdef0123456789abcdef".
End ValidatorRun.

Lemma validate_spec_witness :
  ∃ errors, errors ≠ [] ∧ validate registerSchema (VObj ValidatorRun.weak) =
    Invalid 400 [("success", VBool false); ("message", VStr "Validation failed"); ("errors", VArr errors)].
Proof.
  destruct (proj2 (validate_spec (ZP := ToyZod.toy_zod) registerSchema ValidatorRun.weak)) as (errors & Hne & H & _).
  - vm_compute. reflexivity.
  - exists errors. split; [exact Hne|exact H].
Defined.

Lemma password_policy_agrees_witness :
  validatePassword "Tr0ub4dor&3" = None ∧
  validate (passwordResetSchema "too long")
    (VObj [("formToken", VStr ValidatorRun.token); ("password", VStr "Tr0ub4dor&3")]) = Proceed.
Proof.
  split; [reflexivity|].
  apply (password_policy_agrees (ZP := ToyZod.toy_zod)); [vm_compute; split; discriminate|reflexivity].
Defined.

Lemma migrated_address_locked_out_witness :
  validate migrationInitSchema (VObj [("newEmail", VStr ValidatorRun.gone)]) = Proceed ∧
  ∃ errors, validate loginSchema (VObj [("email", VStr ValidatorRun.gone); ("password", VStr "Tr0ub4dor&3")]) = Invalid 400 errors.
Proof.
  destruct (migrated_address_locked_out (ZP := ToyZod.toy_zod) ValidatorRun.gone
    [("email", VStr ValidatorRun.gone); ("password", VStr "Tr0ub4dor&3")]) as [H1 H2].
  - vm_compute. reflexivity.
  - vm_compute. split; discriminate.
  - left. vm_compute. reflexivity.
  - reflexivity.
  - split; [exact H1|]. apply Forall_cons in H2 as [_ [H2 _]%Forall_cons]. exact H2.
Defined.
