(* ===== verification/Server.v ===== *)
(** * The HTTP server

    Models [uam-backend/src/index.ts] (origin check, probes, error handler, the
    mounts), [uam-backend/src/routes/auth.routes.ts],
    [uam-backend/src/routes/migration.routes.ts] and
    [uam-backend/src/routes/profile.routes.ts]: every route is its list of
    guards and its handler, and [serve] takes a request through the guards of
    its route to the handlers of the controllers.

    Express and passport are not part of the repository.  A route is found by
    its method and full path, mounts and routes in the order of the source,
    paths compared as Express does by default; a guard that answers ends the
    request.  (That Express lets a GET route answer HEAD, without the body, is
    left out.)  The bodies and cookies come parsed.
    What passport makes of a callback of a provider is a parameter. *)

From S2P Require Import Prelude CircuitConfig RollingWindow CircuitBreaker GuardedCalls Async RedisCache Json JsVal Columns SqlFilter SqlMeaning Password UserModel OneTimeCodes Sessions IdentityIndex Tokens SessionHandlers UsersTable Documents Application AuthController MigrationController AppFacts MemApp Profile Validators.
#[local] Open Scope string_scope.
#[local] Open Scope list_scope.
#[local] Open Scope Z_scope.
#[local] Open Scope async_scope.

(** ** Routes *)

Inductive Provider := google | github.

Inductive Guard :=
  | requires_csrf
  | validates (schema : Schema)
  | authenticates
  | verified_email
  | requireOAuthProvider (provider : Provider).

Inductive Handler :=
  | h_getCsrfToken | h_getOAuthProviders | h_checkEmailAvailability | h_postVerificationStatus | h_redeemEmailLink
  | h_prepareOAuth | h_register | h_login | h_verifyEmail | h_resendVerification | h_requestPasswordReset
  | h_resetPassword | h_refreshAccessToken | h_logout | h_exchangeOAuthCode | h_getCurrentUser
  | h_startOAuth (provider : Provider) | h_oauthCallback (provider : Provider)
  | h_initiateMigration | h_verifyCurrentEmail | h_verifyNewEmail | h_resendMigrationEmails | h_getMigrationStatus
  | h_getMigrationHistory | h_finalizeMigration | h_updateBio.

Record Route := route { r_method : string; r_path : string; r_guards : list Guard; r_handler : Handler }.

Definition csrfProtected : list Guard := [requires_csrf].
Definition protectedMigration : list Guard := [authenticates; verified_email].

Section Tables.
(** The package's own messages *)
Context (too_long too_short : string).

Definition auth_routes : list Route :=
  [route "GET" "/csrf" [] h_getCsrfToken;
   route "GET" "/oauth/providers" [] h_getOAuthProviders;
   route "POST" "/check-email" [validates emailCheckSchema] h_checkEmailAvailability;
   route "POST" "/verification-status" [validates (verificationPollSchema too_long)] h_postVerificationStatus;
   route "POST" "/redeem-email-link" [validates (redeemEmailLinkSchema too_long)] h_redeemEmailLink;
   route "POST" "/oauth/prepare" [validates (oauthPrepareSchema too_long too_short)] h_prepareOAuth;
   route "POST" "/register" (csrfProtected ++ [validates registerSchema]) h_register;
   route "POST" "/login" (csrfProtected ++ [validates loginSchema]) h_login;
   route "POST" "/verify-email" (csrfProtected ++ [validates (emailVerifySchema too_long)]) h_verifyEmail;
   route "POST" "/resend-verification" (csrfProtected ++ [validates resendVerificationSchema]) h_resendVerification;
   route "POST" "/forgot-password" (csrfProtected ++ [validates passwordResetRequestSchema]) h_requestPasswordReset;
   route "POST" "/reset-password" (csrfProtected ++ [validates (passwordResetSchema too_long)]) h_resetPassword;
   route "POST" "/refresh-token" (csrfProtected ++ [validates refreshTokenSchema]) h_refreshAccessToken;
   route "POST" "/logout" csrfProtected h_logout;
   route "POST" "/oauth/exchange" (csrfProtected ++ [validates (oauthExchangeSchema too_long too_short)]) h_exchangeOAuthCode;
   route "GET" "/me" [authenticates; verified_email] h_getCurrentUser;
   route "GET" "/google" [requireOAuthProvider google] (h_startOAuth google);
   route "GET" "/google/callback" [requireOAuthProvider google] (h_oauthCallback google);
   route "GET" "/github" [requireOAuthProvider github] (h_startOAuth github);
   route "GET" "/github/callback" [requireOAuthProvider github] (h_oauthCallback github)].

Definition migration_routes : list Route :=
  [route "POST" "/init" (protectedMigration ++ [validates migrationInitSchema]) h_initiateMigration;
   route "POST" "/verify-current" [validates (migrationVerifySchema too_long)] h_verifyCurrentEmail;
   route "POST" "/verify-new" [validates (migrationVerifySchema too_long)] h_verifyNewEmail;
   route "POST" "/resend" protectedMigration h_resendMigrationEmails;
   route "GET" "/status" protectedMigration h_getMigrationStatus;
   route "GET" "/history" protectedMigration h_getMigrationHistory;
   route "POST" "/finalize" protectedMigration h_finalizeMigration].

Definition profile_routes : list Route := [route "PUT" "/bio" [authenticates; verified_email] h_updateBio].

Definition mounts : list (string * list Route) :=
  [("/api/auth", auth_routes); ("/api/auth/migrate", migration_routes); ("/api/auth/profile", profile_routes)].

(** Express compares paths without regard to case and allows one slash more at
    the end (the settings [case sensitive routing] and [strict routing] are off). *)
Definition same_path (pattern path : string) : bool :=
  String.eqb (toLowerCase pattern) (toLowerCase path) || String.eqb (toLowerCase pattern +:+ "/") (toLowerCase path).

Definition find_in (method path : string) (m : string * list Route) : option Route :=
  List.find (λ r, String.eqb (r_method r) method && same_path (m.1 +:+ r_path r) path) m.2.

Definition find_route (method path : string) : option Route :=
  foldr (λ m rest, match find_in method path m with Some r => Some r | None => rest end) None mounts.
End Tables.

(** ** Requests *)

Record HttpRequest := {
  method : string;
  target : string;                     (** the path *)
  origin : option string;
  query : object;
  message_parts : Request;             (** cookies, headers and body *)
}.

Inductive HttpAnswer :=
  | JsonAnswer (r : Response)
  | RedirectTo (url : string)
  | ToPassport (provider : Provider) (options : object).

(** A field of the body that the schema lets through only as a text *)
Definition text_of (v : val) : option string := match v with VStr s => Some s | _ => None end.
Definition body_text (rq : Request) (k : string) : option string := text_of (opt_prop (body rq) k).
Definition body_string (rq : Request) (k : string) : string := default "" (body_text rq k).

(** The options of [passport.authenticate('google', options)] *)
Definition google_options (q : object) : object :=
  let login_hint := obj_get q "login_hint" in
  let prompt := obj_get q "prompt" in
  let o := [("scope", VArr [VStr "profile"; VStr "email"]); ("session", VBool false)] in
  let o := if truthy login_hint then o ++ [("loginHint", login_hint)] else o in
  let o := if strict_eq prompt (VStr "select_account") || (negb (truthy login_hint) && negb (truthy prompt))
           then o ++ [("prompt", VStr "select_account")] else o in
  match obj_get q "state" with
  | VStr s => if String.eqb s "" then o else o ++ [("state", VStr s)]
  | _ => o
  end.

Definition github_options (q : object) : object :=
  let o := [("scope", VArr [VStr "user:email"]); ("session", VBool false)] in
  match obj_get q "state" with
  | VStr s => if String.eqb s "" then o else o ++ [("state", VStr s)]
  | _ => o
  end.

(** ** Origins, probes, errors *)

Definition localOrigins : list string :=
  ["http://localhost:5173"; "http://127.0.0.1:5173"; "http://localhost:5174"; "http://127.0.0.1:5174";
   "http://localhost:3000"; "http://localhost:8091"; "http://127.0.0.1:8091"; "http://localhost:4321";
   "http://127.0.0.1:4321"].

(** [origin: (origin, callback) => ...] of the CORS options *)
Definition origin_allowed (nodeEnv clientUrl : string) (clientUrls : list string) (origin : option string) : bool :=
  if String.eqb nodeEnv "development" then true
  else match origin with
       | None => true
       | Some o => if String.eqb o "" then true else existsb (String.eqb o) (localOrigins ++ clientUrl :: clientUrls)
       end.

(** The last middleware: [(err, req, res, next)] *)
Definition error_handler (nodeEnv message : string) : Response :=
  let isCors := String.eqb message "Not allowed by CORS" in
  refuse (if isCors then 403 else 500)
    (if String.eqb nodeEnv "development" && negb isCors then message
     else if isCors then "Forbidden" else "Internal server error").

Definition not_found : Response := refuse 404 "Route not found".

Definition requireMetricsAuth (metricsToken authorization : option string) : Answer :=
  match given metricsToken with
  | None => Next
  | Some token =>
      if bool_decide (authorization = Some ("Bearer " +:+ token)) then Next else Reply 401 "Unauthorized" None
  end.

(** [GET /ready] *)
Definition ready (redisRequired dbOk pinged : bool) (timestamp : string) : Response :=
  let redisOk := if redisRequired then pinged else true in
  if dbOk && redisOk then
    reply 200 [("status", VStr "ready"); ("postgres", VBool true);
               ("redis", if redisRequired then VBool true else VStr "disabled"); ("timestamp", VStr timestamp)] []
  else
    reply 503 [("status", VStr "not_ready"); ("postgres", VBool dbOk);
               ("redis", if redisRequired then VBool redisOk else VStr "disabled"); ("timestamp", VStr timestamp)] [].

(** The address of the client behind the proxies; [None]: not set *)
Definition client_ip (cf real forwarded : option string) : option string :=
  match given cf, given real with
  | Some ip, _ => Some ip
  | None, Some ip => Some ip
  | None, None => forwarded ≫= λ f, given (Some (trim (default "" (head (split_char ","%char f)))))
  end.

(** ** Serving a request *)

Section Serve.
Context (sha256_hex sha256_base64url base64url_decode md5_hex : string → string) (hmac_sha256_hex : string → string → string).
Context (Date_toString Date_toISOString : Z → string) (Date_getFullYear startOfDay : Z → Z).
Context (hashPassword : string → string) (verifyPassword : string → option string → VerifyResult).
Context (new_URL : string → option OAuthPkce.URL).
Context `{RKV : RedisKV} `{UDB : UsersDb} `{IDB : IndexDb} `{FK : !ForeignKey UDB IDB} `{J : Jwt} `{ZP : Zod}.
Context (config : AppConfig) (nodeEnv too_long too_short : string).
(** [passport.authenticate(provider, ...)] on a callback: [None] goes to [failureRedirect] *)
Context (passport_user : Provider → HttpRequest → prog AppEnv App (option User)).

Definition of_answer (user : option User) (a : Answer) : Response + option User :=
  match a with
  | Next => inr user
  | NextAs u => inr (Some u)
  | Reply status message None => inl (refuse status message)
  | Reply status message (Some code) => inl (refuse_with status message [("code", VStr code)])
  end.

Definition provider_enabled (p : Provider) : bool :=
  match p with google => googleEnabled config | github => githubEnabled config end.

(** One guard; the OAuth routes are all [GET]. *)
Definition run_guard (g : Guard) (rq : Request) (user : option User) : prog AppEnv App (HttpAnswer + option User) :=
  let json (r : Response + option User) := match r with inl r => inl (JsonAnswer r) | inr u => inr u end in
  match g with
  | requires_csrf => Ret (json (of_answer user (requireCsrf (cfg_cookies config) rq)))
  | validates schema =>
      Ret match validate schema (body rq) with
          | Proceed => inr user
          | Invalid code b => inl (JsonAnswer (reply code b []))
          | NextError e => inl (JsonAnswer (error_handler nodeEnv e))
          end
  | authenticates =>
      let! h := here in
      let! a := on_users (λ _ d, authenticate Date_toString Date_toISOString (cfg_jwt config) rq h.1 d) in
      Ret (json (of_answer user a))
  | verified_email => Ret (json (of_answer user (requireVerifiedEmail user)))
  | requireOAuthProvider p =>
      Ret (if provider_enabled p then inr user else inl (RedirectTo (clientUrl config +:+ "/login?error=oauth_not_configured")))
  end.

Fixpoint run_guards (gs : list Guard) (rq : Request) (user : option User) : prog AppEnv App (HttpAnswer + option User) :=
  match gs with
  | [] => Ret (inr user)
  | g :: gs =>
      let! r := run_guard g rq user in
      match r with inl a => Ret (inl a) | inr user => run_guards gs rq user end
  end.

(** [req.user] of the handlers behind [authenticate] *)
Definition as_user (user : option User) (f : User → prog AppEnv App Response) : prog AppEnv App HttpAnswer :=
  match user with
  | Some u => let! r := f u in Ret (JsonAnswer r)
  | None => Ret (JsonAnswer (error_handler nodeEnv "TypeError"))
  end.

Definition handle (h : Handler) (q : HttpRequest) (user : option User) : prog AppEnv App HttpAnswer :=
  let rq := message_parts q in
  let json (p : prog AppEnv App Response) : prog AppEnv App HttpAnswer := let! r := p in Ret (JsonAnswer r) in
  match h with
  | h_getCsrfToken =>
      let! e := here in
      let '(b, ops) := getCsrfToken (cfg_cookies config) rq (fresh (net e.2)) in Ret (JsonAnswer (reply 200 b ops))
  | h_getOAuthProviders => Ret (JsonAnswer (getOAuthProviders config))
  | h_checkEmailAvailability => Ret (JsonAnswer checkEmailAvailability)
  | h_postVerificationStatus => json (postVerificationStatus Date_toString Date_toISOString (body_text rq "pollToken"))
  | h_redeemEmailLink => json (redeemEmailLink (body_text rq "code"))
  | h_prepareOAuth => json (prepareOAuth new_URL config (body_text rq "codeChallenge") (body_text rq "redirectUri"))
  | h_register =>
      json (register sha256_hex base64url_decode hmac_sha256_hex Date_toString Date_toISOString Date_getFullYear hashPassword config
              {| ri_email := body_string rq "email"; ri_password := body_string rq "password"; ri_displayName := body_string rq "displayName" |})
  | h_login =>
      json (AuthController.login sha256_hex base64url_decode hmac_sha256_hex Date_toString Date_toISOString startOfDay hashPassword verifyPassword config
              {| li_email := body_string rq "email"; li_password := body_string rq "password" |})
  | h_verifyEmail =>
      json (verifyEmail sha256_hex base64url_decode hmac_sha256_hex Date_toString Date_toISOString hashPassword config
              (body_string rq "formToken") (body_string rq "password"))
  | h_resendVerification => json (resendVerification sha256_hex hmac_sha256_hex Date_toString Date_toISOString Date_getFullYear hashPassword config (body_string rq "email"))
  | h_requestPasswordReset => json (requestPasswordReset sha256_hex hmac_sha256_hex Date_toString Date_toISOString Date_getFullYear hashPassword config (body_string rq "email"))
  | h_resetPassword => json (resetPassword sha256_hex Date_toString Date_toISOString hashPassword (body_string rq "formToken") (body_string rq "password"))
  | h_refreshAccessToken =>
      json (session (refreshAccessToken sha256_hex base64url_decode Date_toString Date_toISOString hashPassword (cfg_jwt config) (cfg_cookies config) rq))
  | h_logout =>
      json (session (SessionHandlers.logout sha256_hex base64url_decode Date_toString Date_toISOString hashPassword (cfg_jwt config) (cfg_cookies config) rq))
  | h_exchangeOAuthCode => json (exchangeOAuthCode sha256_base64url config (body_text rq "code") (body_text rq "state") (body_text rq "codeVerifier"))
  | h_getCurrentUser => json (getCurrentUser Date_toString Date_toISOString user)
  | h_startOAuth google => Ret (ToPassport google (google_options (query q)))
  | h_startOAuth github => Ret (ToPassport github (github_options (query q)))
  | h_oauthCallback p =>
      let! u := passport_user p q in
      match u with
      | None => Ret (RedirectTo (clientUrl config +:+ "/login?error=oauth_failed"))
      | Some _ => let! url := handleOAuthSuccess sha256_hex base64url_decode Date_toString Date_toISOString config u (text_of (obj_get (query q) "state")) in
                  Ret (RedirectTo url)
      end
  | h_initiateMigration =>
      as_user user (λ u, initiateMigration sha256_hex hmac_sha256_hex Date_toString Date_toISOString hashPassword verifyPassword config u
                           (body_text rq "password") (body_text rq "newEmail") (body_text rq "confirmOverride"))
  | h_verifyCurrentEmail => json (verifyCurrentEmail sha256_hex base64url_decode md5_hex hmac_sha256_hex Date_toString Date_toISOString hashPassword config (body_text rq "formToken"))
  | h_verifyNewEmail => json (verifyNewEmail sha256_hex base64url_decode md5_hex hmac_sha256_hex Date_toString Date_toISOString hashPassword config (body_text rq "formToken"))
  | h_resendMigrationEmails => as_user user (resendMigrationEmails sha256_hex hmac_sha256_hex Date_toString Date_toISOString hashPassword config)
  | h_getMigrationStatus => as_user user (getMigrationStatus Date_toString Date_toISOString)
  | h_getMigrationHistory => as_user user (getMigrationHistory Date_toString Date_toISOString)
  | h_finalizeMigration => as_user user (finalizeMigration sha256_hex base64url_decode md5_hex hmac_sha256_hex Date_toString Date_toISOString hashPassword config)
  | h_updateBio => as_user user (λ u, updateBio Date_toString Date_toISOString hashPassword u (opt_prop (body rq) "bio"))
  end.

Definition serve (q : HttpRequest) : prog AppEnv App HttpAnswer :=
  if negb (origin_allowed nodeEnv (clientUrl config) (clientUrls config) (origin q))
  then Ret (JsonAnswer (error_handler nodeEnv "Not allowed by CORS"))
  else match find_route too_long too_short (method q) (target q) with
       | None => Ret (JsonAnswer not_found)
       | Some r =>
           let! g := run_guards (r_guards r) (message_parts q) None in
           match g with inl a => Ret a | inr user => handle (r_handler r) q user end
       end.
End Serve.

(** ** Admission *)

(** What a guard that lets a request pass has established, with the user the
    handler is given *)
Definition passes `{UDB : UsersDb} `{J : Jwt} `{ZP : Zod} (config : AppConfig) (g : Guard) (rq : Request) (d : db) (user : option User) : Prop :=
  match g with
  | requires_csrf => requireCsrf (cfg_cookies config) rq = Next
  | validates schema => valid schema (body rq) = true
  | authenticates =>
      ∃ token payload t i r, bearer rq = Some token ∧ verifyAccessToken (cfg_jwt config) token t = Some payload ∧
        obj_get payload "userId" = VStr i ∧ table d !! i = Some r ∧ user = Some (loaded r) ∧
        tokenVersionStale (obj_get payload "tv") (user_get (loaded r) "tokenVersion") = false
  | verified_email => ∃ u, user = Some u ∧ truthy (user_get u "isEmailVerified") = true
  | requireOAuthProvider p => provider_enabled config p = true
  end.

(** The tokens that verify name a user: the service signs no others. *)
Definition names_user `{J : Jwt} (config : AppConfig) (rq : Request) : Prop :=
  ∀ token t payload, bearer rq = Some token → verifyAccessToken (cfg_jwt config) token t = Some payload →
  ∃ i, obj_get payload "userId" = VStr i.

(** Only the clock and the connection have moved on. *)
Definition untouched `{RKV : RedisKV} `{UDB : UsersDb} `{IDB : IndexDb} (s s' : App) : Prop :=
  ∃ c, s' = s <| app_cache := c |>.

#[global] Instance untouched_preorder `{RKV : RedisKV} `{UDB : UsersDb} `{IDB : IndexDb} : PreOrder untouched.
Proof. split; [intros s; exists (app_cache s); by destruct s|]. intros s s' s'' [c ->] [c' ->]. by exists c'. Qed.

Definition is_authenticates (g : Guard) : bool := match g with authenticates => true | _ => false end.

(** A user is looked up at most once, by the first guard. *)
Definition authenticates_first (gs : list Guard) : bool := forallb (λ g, negb (is_authenticates g)) (tail gs).

Section Admission.
Context (sha256_hex sha256_base64url base64url_decode md5_hex : string → string) (hmac_sha256_hex : string → string → string).
Context (Date_toString Date_toISOString : Z → string) (Date_getFullYear startOfDay : Z → Z).
Context (hashPassword : string → string) (verifyPassword : string → option string → VerifyResult).
Context (new_URL : string → option OAuthPkce.URL).
Context `{RKV : RedisKV} `{UDB : UsersDb} {DL : UsersDbLaws UDB} `{IDB : IndexDb} `{FK : !ForeignKey UDB IDB}.
Context `{J : Jwt} `{ZP : Zod} {ZL : ZodLaws ZP}.
Context (config : AppConfig) (nodeEnv too_long too_short : string).
Context (passport_user : Provider → HttpRequest → prog AppEnv App (option User)).
Local Abbreviation run_guard := (run_guard Date_toString Date_toISOString config nodeEnv).
Local Abbreviation run_guards := (run_guards Date_toString Date_toISOString config nodeEnv).
Local Abbreviation passes := (passes config).

Lemma of_answer_next (user user' : option User) (a : Answer) :
  of_answer user a = inr user' → a = Next ∧ user' = user ∨ ∃ u, a = NextAs u ∧ user' = Some u.
Proof. destruct a as [|u|status msg [code|]]; cbn; intros [= <-]; eauto. Qed.

(** The middleware that looks the user up *)
Lemma authenticate_reads rq t d :
  names_user config rq →
  (authenticate Date_toString Date_toISOString (cfg_jwt config) rq t d).2 = d ∧
  match (authenticate Date_toString Date_toISOString (cfg_jwt config) rq t d).1 with
  | Next => False
  | NextAs u => passes authenticates rq d (Some u)
  | Reply _ _ _ => True
  end.
Proof.
  intros Hn. unfold authenticate. destruct (bearer rq) as [token|] eqn:Eb; [|done].
  destruct (verifyAccessToken (cfg_jwt config) token t) as [payload|] eqn:Ev; [|done].
  destruct (Hn _ _ _ Eb Ev) as [i Hi]. rewrite Hi.
  rewrite (findById_value_loaded Date_toString Date_toISOString). destruct (table d !! i) as [r|] eqn:Hr; [|done].
  change (loaded <$> Some r) with (Some (loaded r)). cbv beta iota.
  destruct (tokenVersionStale _ _) eqn:Es; [done|]. split; [done|].
  exists token, payload, t, i, r. split_and!; [exact Eb|exact Ev|exact Hi|exact Hr|reflexivity|exact Es].
Qed.

Lemma run_guard_spec g rq user es s :
  names_user config rq →
  let x := run (run_guard g rq user) es s in
  untouched s x.2 ∧
  match x.1 with
  | inl _ => True
  | inr user' => passes g rq (app_users s) user' ∧ (is_authenticates g = false → user' = user)
  end.
Proof.
  intros Hn. cbv zeta. destruct g as [|schema| | |p]; cbn [Server.run_guard run fst snd is_authenticates].
  - split; [reflexivity|]. destruct (requireCsrf (cfg_cookies config) rq) as [|u|? ? []] eqn:E; cbn; [done| |done|done].
    exfalso. revert E. unfold requireCsrf. repeat case_match; discriminate.
  - split; [reflexivity|]. destruct (validate schema (body rq)) eqn:E; cbn; [|done|done].
    split; [by apply valid_proceeds|done].
  - unfold here, on_users, stretch. cbn [bind run act fst snd].
    set (s1 := tick (es O) s). set (s2 := tick _ s1).
    destruct (authenticate_reads rq (RedisCache.clock (app_cache s1)) (app_users s2) Hn) as [Hd Ha].
    destruct (authenticate _ _ _ _ _ _) as [a d]. cbn [fst snd] in *. subst d. cbn [run fst snd]. split.
    + exists (app_cache s2). by destruct s.
    + by destruct a as [|u|? ? []].
  - split; [reflexivity|]. unfold requireVerifiedEmail. destruct user as [u|]; [|done].
    destruct (truthy (user_get u "isEmailVerified")) eqn:E; [|done]. cbn. split; [by exists u|done].
  - split; [reflexivity|]. by destruct (provider_enabled config p) eqn:E.
Qed.

Lemma run_guards_spec gs rq user es s :
  names_user config rq → forallb (λ g, negb (is_authenticates g)) gs = true →
  let x := run (run_guards gs rq user) es s in
  untouched s x.2 ∧
  match x.1 with inl _ => True | inr user' => user' = user ∧ Forall (λ g, passes g rq (app_users s) user) gs end.
Proof.
  intros Hn. revert es s. induction gs as [|g gs IH]; intros es s Hg; cbv zeta; [split; [reflexivity|]; by split|].
  cbn [forallb] in Hg. apply andb_true_iff in Hg as [Hg%negb_true_iff Hgs].
  cbn [Server.run_guards]. destruct (run_bind_any (run_guard g rq user)
    (λ r, match r with inl a => Ret (inl a) | inr user => run_guards gs rq user end) es s) as [es' ->].
  destruct (run_guard_spec g rq user es s Hn) as [Hu Hp].
  destruct (run (run_guard g rq user) es s) as [[a|user'] s1]; cbn [fst snd] in *; [by split|].
  destruct Hp as [Hp Heq]. rewrite (Heq Hg) in *. destruct (IH es' s1 Hgs) as [Hu' H']. split; [by etransitivity|].
  destruct (run (run_guards gs rq user) es' s1).1; [done|]. destruct H' as [-> H']. split; [done|].
  destruct Hu as [c ->]. apply Forall_cons_2; [exact Hp|exact H'].
Qed.

(** The first guard may look the user up. *)
Lemma guards_admit gs rq es s :
  names_user config rq → authenticates_first gs = true →
  let x := run (run_guards gs rq None) es s in
  untouched s x.2 ∧
  match x.1 with inl _ => True | inr user => Forall (λ g, passes g rq (app_users s) user) gs end.
Proof.
  intros Hn Hg. destruct gs as [|g gs]; [split; [reflexivity|apply Forall_nil_2]|]. cbv zeta. cbn [Server.run_guards].
  destruct (run_bind_any (run_guard g rq None)
    (λ r, match r with inl a => Ret (inl a) | inr user => run_guards gs rq user end) es s) as [es' ->].
  destruct (run_guard_spec g rq None es s Hn) as [Hu Hp].
  destruct (run (run_guard g rq None) es s) as [[a|user'] s1]; cbn [fst snd] in *; [by split|].
  destruct (run_guards_spec gs rq user' es' s1 Hn Hg) as [Hu' H']. split; [by etransitivity|].
  destruct (run (run_guards gs rq user') es' s1).1; [done|]. destruct H' as [-> H'].
  destruct Hu as [c ->]. by apply Forall_cons_2; [apply Hp|].
Qed.

Local Abbreviation serve := (serve sha256_hex sha256_base64url base64url_decode md5_hex hmac_sha256_hex Date_toString
  Date_toISOString Date_getFullYear startOfDay hashPassword verifyPassword new_URL config nodeEnv too_long too_short passport_user).
Local Abbreviation handle := (handle sha256_hex sha256_base64url base64url_decode md5_hex hmac_sha256_hex Date_toString
  Date_toISOString Date_getFullYear startOfDay hashPassword verifyPassword new_URL config nodeEnv passport_user).

(** A route that is found is one of the tables. *)
Definition all_routes : list Route :=
  auth_routes too_long too_short ++ migration_routes too_long ++ profile_routes.

Lemma find_route_in m path r : find_route too_long too_short m path = Some r → In r all_routes.
Proof.
  assert (Hin : ∀ mount, find_in m path mount = Some r → In r mount.2) by (intros mount H; by apply find_some in H as [H _]).
  unfold find_route, mounts. cbn [foldr].
  destruct (find_in _ _ ("/api/auth", _)) eqn:E1; [intros [= ->]; apply in_or_app; left; exact (Hin _ E1)|].
  destruct (find_in _ _ ("/api/auth/migrate", _)) eqn:E2;
    [intros [= ->]; apply in_or_app; right; apply in_or_app; left; exact (Hin _ E2)|].
  destruct (find_in _ _ ("/api/auth/profile", _)) eqn:E3; [|done].
  intros [= ->]; apply in_or_app; right; apply in_or_app; right; exact (Hin _ E3).
Qed.

(** The handlers that act on the caller's own account, and those that open,
    renew or end a session by cookie *)
Definition account_handler (h : Handler) : bool :=
  match h with
  | h_getCurrentUser | h_initiateMigration | h_resendMigrationEmails | h_getMigrationStatus | h_getMigrationHistory
  | h_finalizeMigration | h_updateBio => true
  | _ => false
  end.

Definition session_handler (h : Handler) : bool :=
  match h with
  | h_register | h_login | h_verifyEmail | h_resendVerification | h_requestPasswordReset | h_resetPassword
  | h_refreshAccessToken | h_logout | h_exchangeOAuthCode => true
  | _ => false
  end.

(** What the tables promise of a route *)
Definition guarded (r : Route) : Prop :=
  authenticates_first (r_guards r) = true ∧
  (account_handler (r_handler r) = true → In authenticates (r_guards r) ∧ In verified_email (r_guards r)) ∧
  (session_handler (r_handler r) = true → In requires_csrf (r_guards r)).

Lemma routes_guarded r : In r all_routes → guarded r.
Proof.
  assert (H : Forall guarded all_routes).
  { unfold all_routes, auth_routes, migration_routes, profile_routes. cbn [app].
    repeat (apply Forall_cons_2;
      [split_and!; [reflexivity|cbn; first [discriminate|intros _; split; auto]|cbn; first [discriminate|intros _; auto]]|]).
    apply Forall_nil_2. }
  intros Hr. apply (proj1 (Forall_forall _ _) H). by apply list_elem_of_In.
Qed.

(** C5. Admission.  A request that some guard of its route refuses gets the
    guard's answer, and nothing but the clock has changed.  Otherwise its
    handler runs, on the same accounts, and every guard of the route has been
    passed: behind the account routes the handler is given a stored account
    with a verified address whose token version is the token's, and in cookie
    mode the session routes are reached only with a header that repeats the
    CSRF cookie.  The origin is an allowed one, and a token that verifies
    carries the user id as a text. *)
Theorem serve_admission q r es s :
  names_user config (message_parts q) →
  origin_allowed nodeEnv (clientUrl config) (clientUrls config) (origin q) = true →
  find_route too_long too_short (method q) (target q) = Some r →
  let g := run (run_guards (r_guards r) (message_parts q) None) es s in
  untouched s g.2 ∧
  match g.1 with
  | inl a => run (serve q) es s = (a, g.2)
  | inr user =>
      (∃ es', run (serve q) es s = run (handle (r_handler r) q user) es' g.2) ∧
      Forall (λ g, passes g (message_parts q) (app_users s) user) (r_guards r) ∧
      (account_handler (r_handler r) = true →
       ∃ i row, table (app_users s) !! i = Some row ∧ user = Some (loaded row) ∧ truthy (user_get (loaded row) "isEmailVerified") = true) ∧
      (session_handler (r_handler r) = true → omitRefreshInBody (cfg_cookies config) = true →
       ∃ c, c ≠ "" ∧ opt_prop (cookies (message_parts q)) CSRF_COOKIE = VStr c ∧ csrfHeader (message_parts q) = VStr c)
  end.
Proof.
  intros Hn Ho Hr. cbv zeta. destruct (routes_guarded r (find_route_in _ _ _ Hr)) as (Hfirst & Hacc & Hses).
  destruct (guards_admit (r_guards r) (message_parts q) es s Hn Hfirst) as [Hu Hp]. cbv zeta in Hu, Hp. split; [exact Hu|].
  unfold Server.serve. rewrite Ho, Hr. cbn [negb].
  destruct (run_bind_any (run_guards (r_guards r) (message_parts q) None)
    (λ g, match g with inl a => Ret a | inr user => handle (r_handler r) q user end) es s) as [es' ->].
  destruct (run (run_guards (r_guards r) (message_parts q) None) es s) as [[a|user] s1]; cbn [fst snd] in *; [reflexivity|].
  pose proof (proj1 (Forall_forall _ _) Hp) as Hall. split_and!; [by exists es'|exact Hp| |].
  - intros H. destruct (Hacc H) as [Ha Hv]. apply list_elem_of_In in Ha, Hv.
    destruct (Hall _ Ha) as (token & payload & t & i & row & _ & _ & _ & Hrow & Huser & _).
    destruct (Hall _ Hv) as (u & Hu' & Ht). exists i, row. rewrite Huser in Hu'. injection Hu' as <-. by split_and!.
  - intros H Hm. pose proof (Hall _ (proj2 (list_elem_of_In _ _) (Hses H))) as Hc.
    apply requireCsrf_spec in Hc as [Hc|Hc]; [congruence|exact Hc].
Qed.
End Admission.

(** ** A server in memory *)

Module MemServer.
(** The browser mode: the refresh token travels in a cookie only. *)
Definition config : AppConfig :=
  {| cfg_jwt := cfg_jwt MemApp.config;
     cfg_cookies := cookie_config (λ name, if String.eqb name "AUTH_OMIT_REFRESH_IN_BODY" then Some "true" else None);
     clientUrl := clientUrl MemApp.config; clientUrls := clientUrls MemApp.config; autoVerifyEmail := false; smtpConfigured := true;
     maxDailyLogins := 50; googleEnabled := true; githubEnabled := true; emailIndexSecret := None |}.

Definition nobody (p : Provider) (q : HttpRequest)
    : prog AppEnv (App (RKV := MemKV.mem_kv) (UDB := MemTable.mem_table) (IDB := MemIndex.mem_index)) (option User) := Ret None.

Definition serve := Server.serve MemApp.sha MemApp.sha (λ s, s) MemApp.sha MemApp.hmac MemApp.iso MemApp.iso (λ _, 2026) (λ t, t)
  MemApp.hash MemApp.verify (λ _, None) (FK := MemApp.mem_fk) (J := ToyJwt.toy_jwt) (ZP := ToyZod.toy_zod)
  config "production" "long" "short" nobody.

Definition start := MemApp.app [("u1", obj_assign MemApp.alice [("email", VStr "alice@x.dev")])]
  [MemApp.primary "alice@x.dev" "u1" true].

Definition login_with (csrf : val) : HttpRequest :=
  {| method := "POST"; target := "/api/auth/login"; origin := Some "https://app"; query := [];
     message_parts := {| cookies := VObj [(CSRF_COOKIE, VStr "c1")]; authorization := None; csrfHeader := csrf;
                         body := VObj [("email", VStr "alice@x.dev"); ("password", VStr "secret")] |} |}.
End MemServer.

(** Without the header the sign-in is refused; with it the handler opens a session. *)
Lemma serve_admission_witness :
  (run (MemServer.serve (MemServer.login_with VUndef)) MemApp.always_fine MemServer.start).1 =
    JsonAnswer (refuse 403 "CSRF validation failed") ∧
  untouched MemServer.start (run (MemServer.serve (MemServer.login_with VUndef)) MemApp.always_fine MemServer.start).2 ∧
  match (run (MemServer.serve (MemServer.login_with (VStr "c1"))) MemApp.always_fine MemServer.start).1 with
  | JsonAnswer r => status r = 200
  | _ => False
  end.
Proof.
  destruct (serve_admission MemApp.sha MemApp.sha (λ s, s) MemApp.sha MemApp.hmac MemApp.iso MemApp.iso (λ _, 2026) (λ t, t)
    MemApp.hash MemApp.verify (λ _, None) (FK := MemApp.mem_fk) (J := ToyJwt.toy_jwt) (ZP := ToyZod.toy_zod)
    MemServer.config "production" "long" "short" MemServer.nobody (MemServer.login_with VUndef)
    (route "POST" "/login" (csrfProtected ++ [validates loginSchema]) h_login) MemApp.always_fine MemServer.start) as [Hu H].
  - intros token t payload Hb _. discriminate Hb.
  - reflexivity.
  - reflexivity.
  - cbv zeta in Hu, H. split; [|split].
    + vm_compute. reflexivity.
    + exact Hu.
    + vm_compute. reflexivity.
Defined.
