(* ===== verification/RecentAccounts.v ===== *)
(** * Recently used accounts

    Models [uam-frontend/src/utils/recentAccounts.ts]: the accounts offered on
    the sign-in page, kept as JSON text under one key of [localStorage].  The
    text is parsed and printed by the model of JSON, so that what is stored is
    what is read back. *)

From Stdlib Require Import Sorted.
From S2P Require Import Prelude Async Json JsVal.
#[local] Open Scope string_scope.
#[local] Open Scope list_scope.
#[local] Open Scope Z_scope.

Record RecentAccount := {
  ra_email : string;
  ra_displayName : string;
  ra_avatar : option string;
  ra_provider : string;
  lastUsed : Z;
}.

Definition RECENT_ACCOUNTS_KEY : string := "recent_accounts".
Definition MAX_RECENT_ACCOUNTS : nat := 5.

(** An entry as an object: an undefined avatar is left out by [JSON.stringify]. *)
Definition entry (a : RecentAccount) : json :=
  JObj ([("email", JStr (ra_email a)); ("displayName", JStr (ra_displayName a))]
        ++ match ra_avatar a with Some s => [("avatar", JStr s)] | None => [] end
        ++ [("provider", JStr (ra_provider a)); ("lastUsed", JNum (lastUsed a))]).

(** [x.lastUsed] in the subtraction: [None] is [NaN]. *)
Definition last_used (x : json) : option Z := match get_member "lastUsed" x with Some (JNum n) => Some n | _ => None end.

(** [b.lastUsed - a.lastUsed <= 0]; the comparison treats [NaN] as equal. *)
Definition in_order (a b : json) : bool :=
  match last_used a, last_used b with Some m, Some n => n <=? m | _, _ => true end.

(** [Array.prototype.sort], stable: an element goes before the first that it
    does not have to follow. *)
Fixpoint insert_account (x : json) (l : list json) : list json :=
  match l with
  | [] => [x]
  | y :: l' => if in_order x y then x :: l else y :: insert_account x l'
  end.
Definition sort_accounts (l : list json) : list json := foldr insert_account [] l.

(** Reading a property of [null] throws. *)
Definition readable (x : json) : bool := match x with JNull => false | _ => true end.

Section Storage.
(** [localStorage.getItem(RECENT_ACCOUNTS_KEY)] *)
Abbreviation Stored := (option string).

(** The sort looks at properties only when there is something to compare. *)
Definition getRecentAccounts (stored : Stored) : list json :=
  match stored with
  | None => []
  | Some text =>
      if String.eqb text "" then []
      else match parse text with
           | Some (JArr l) => if (Nat.leb (length l) 1) || forallb readable l then sort_accounts l else []
           | _ => []
           end
  end.

Definition has_email (email : string) (x : json) : bool :=
  match get_member "email" x with Some (JStr e) => String.eqb e email | _ => false end.

(** [accounts.splice(accounts.findIndex(...), 1)] when found; [None]: the
    callback throws on the way *)
Fixpoint remove_first (email : string) (l : list json) : option (list json) :=
  match l with
  | [] => Some []
  | x :: l' =>
      if negb (readable x) then None
      else if has_email email x then Some l'
      else cons x <$> remove_first email l'
  end.

(** [saveRecentAccount(user)] at time [lastUsed]; errors are caught and logged. *)
Definition saveRecentAccount (a : RecentAccount) (stored : Stored) : Stored :=
  match remove_first (ra_email a) (getRecentAccounts stored) with
  | Some rest => Some (stringify (JArr (take MAX_RECENT_ACCOUNTS (entry a :: rest))))
  | None => stored
  end.

Definition clearAllRecentAccounts (_ : Stored) : Stored := None.

Definition removeRecentAccount (email : string) (stored : Stored) : Stored :=
  let accounts := getRecentAccounts stored in
  if forallb readable accounts
  then Some (stringify (JArr (filter (λ x, has_email email x = false) accounts)))
  else stored.
End Storage.

(** ** The accounts a history of sign-ins leaves *)

Definition other (a b : RecentAccount) : bool := negb (String.eqb (ra_email b) (ra_email a)).

(** Each address once, the first occurrence kept *)
Fixpoint distinct (l : list RecentAccount) : list RecentAccount :=
  match l with
  | [] => []
  | a :: l => a :: List.filter (other a) (distinct l)
  end.

(** The history in the order of time *)
Definition by_time (a b : RecentAccount) : Prop := lastUsed a ≤ lastUsed b.

(** The most recent first *)
Definition latest_first (a b : RecentAccount) : Prop := lastUsed b ≤ lastUsed a.

Lemma last_used_entry a : last_used (entry a) = Some (lastUsed a).
Proof. unfold last_used, entry. by destruct (ra_avatar a). Qed.

Lemma has_email_entry a b : has_email (ra_email a) (entry b) = negb (other a b).
Proof. unfold has_email, other. destruct b as [e n [v|] p t]; cbn; by rewrite negb_involutive. Qed.

Lemma sort_sorted l : StronglySorted latest_first l → sort_accounts (map entry l) = map entry l.
Proof.
  induction 1 as [|a l Hs IH Ha]; [done|]. cbn [map].
  change (sort_accounts (entry a :: map entry l)) with (insert_account (entry a) (sort_accounts (map entry l))).
  rewrite IH. destruct l as [|b l]; [done|]. cbn [map insert_account].
  unfold in_order. rewrite !last_used_entry. apply Forall_cons in Ha as [Ha _]. unfold latest_first in Ha.
  by rewrite (proj2 (Z.leb_le _ _) Ha).
Qed.

Lemma readable_entries l : forallb readable (map entry l) = true.
Proof. by induction l. Qed.

Lemma get_saved l : StronglySorted latest_first l → getRecentAccounts (Some (stringify (JArr (map entry l)))) = map entry l.
Proof.
  intros H. unfold getRecentAccounts. rewrite parse_stringify, readable_entries, orb_true_r, sort_sorted by done.
  by destruct l.
Qed.

Lemma filter_other_not a l : ra_email a ∉ (map ra_email l) → List.filter (other a) l = l.
Proof.
  induction l as [|b l IH]; [done|]. cbn. intros [Hb Hl]%not_elem_of_cons. unfold other at 1.
  rewrite (proj2 (String.eqb_neq _ _)) by congruence. cbn. by rewrite IH.
Qed.

Lemma filter_emails_in f e l : e ∈ map ra_email (List.filter f l) → e ∈ map ra_email l.
Proof.
  induction l as [|a l IH]; [done|]. cbn. destruct (f a); cbn; rewrite ?elem_of_cons; naive_solver.
Qed.

Lemma filter_emails_nodup f l : NoDup (map ra_email l) → NoDup (map ra_email (List.filter f l)).
Proof.
  induction l as [|a l IH]; [done|]. cbn. intros [Ha Hl]%NoDup_cons. destruct (f a); cbn; [|by apply IH].
  apply NoDup_cons. split; [|by apply IH]. intros H. by apply filter_emails_in in H.
Qed.

Lemma remove_first_filter a l :
  NoDup (map ra_email l) → remove_first (ra_email a) (map entry l) = Some (map entry (List.filter (other a) l)).
Proof.
  induction l as [|b l IH]; [done|]. cbn [map]. intros [Hb Hl]%NoDup_cons. cbn [remove_first readable negb].
  rewrite has_email_entry. cbn [List.filter]. unfold entry at 1. cbn [readable negb].
  destruct (other a b) eqn:E; cbn [negb]; [by rewrite IH|]. f_equal. f_equal.
  apply negb_false_iff, String.eqb_eq in E. rewrite filter_other_not; [done|congruence].
Qed.

Lemma filter_other_removes a l : ra_email a ∉ map ra_email (List.filter (other a) l).
Proof.
  induction l as [|b l IH]; cbn; [apply not_elem_of_nil|]. destruct (other a b) eqn:E; [|done]. cbn.
  apply not_elem_of_cons. split; [|done]. intros He. unfold other in E. by rewrite He, String.eqb_refl in E.
Qed.

Lemma distinct_nodup l : NoDup (map ra_email (distinct l)).
Proof.
  induction l as [|a l IH]; cbn; [apply NoDup_nil_2|]. apply NoDup_cons. split; [apply filter_other_removes|by apply filter_emails_nodup].
Qed.

Lemma filter_forall {A} (P : A → Prop) f (l : list A) : Forall P l → Forall P (List.filter f l).
Proof. induction 1 as [|x l Hx _ IH]; cbn; [done|]. destruct (f x); [by apply Forall_cons_2|done]. Qed.

Lemma filter_sorted {A} (R : A → A → Prop) f (l : list A) : StronglySorted R l → StronglySorted R (List.filter f l).
Proof. induction 1 as [|x l Hs IH Hx]; cbn; [constructor|]. destruct (f x); [|done]. constructor; [done|by apply filter_forall]. Qed.

Lemma distinct_forall P l : Forall P l → Forall P (distinct l).
Proof. induction 1 as [|a l Ha _ IH]; cbn; [done|]. apply Forall_cons_2; [done|by apply filter_forall]. Qed.

Lemma distinct_sorted l : StronglySorted latest_first l → StronglySorted latest_first (distinct l).
Proof.
  induction 1 as [|a l Hs IH Ha]; cbn; constructor; [by apply filter_sorted|]. by apply filter_forall, distinct_forall.
Qed.

Lemma take_sorted {A} (R : A → A → Prop) n (l : list A) : StronglySorted R l → StronglySorted R (take n l).
Proof.
  intros H. revert n. induction H as [|x l Hs IH Hx]; intros [|n]; cbn; try constructor; [done|by apply Forall_take].
Qed.

(** Of a list without repetitions, one more element than is kept is enough. *)
Lemma take_filter_take a n l :
  NoDup (map ra_email l) → take n (List.filter (other a) (take (S n) l)) = take n (List.filter (other a) l).
Proof.
  revert n. induction l as [|b l IH]; intros n; [by rewrite take_nil|]. cbn [map]. intros [Hb Hl]%NoDup_cons.
  rewrite firstn_cons. cbn [List.filter]. destruct (other a b) eqn:E.
  - destruct n as [|n]; [done|]. rewrite !firstn_cons. f_equal. by apply IH.
  - apply negb_false_iff, String.eqb_eq in E. rewrite (filter_other_not a l) by congruence.
    rewrite filter_other_not; [by rewrite take_take, Nat.min_id|].
    intros (c & Hc & Hin)%list_elem_of_fmap. apply Hb. rewrite E, Hc. apply list_elem_of_fmap. exists c. split; [done|].
    rewrite <- (take_drop n l). apply elem_of_app. by left.
Qed.

Lemma sorted_snoc {A} (R : A → A → Prop) l x :
  StronglySorted R l → Forall (λ y, R y x) l → StronglySorted R (l ++ [x]).
Proof.
  induction 1 as [|y l Hs IH Hy]; intros Hx; cbn; [by repeat constructor|]. apply Forall_cons in Hx as [Hyx Hx].
  constructor; [by apply IH|]. apply Forall_app. split; [done|]. by apply Forall_cons_2.
Qed.

Lemma by_time_rev h : StronglySorted by_time h → StronglySorted latest_first (rev h).
Proof.
  induction 1 as [|a h Hs IH Ha]; cbn; [constructor|]. apply sorted_snoc; [done|].
  apply Forall_forall. intros b Hb. apply (proj1 (Forall_forall _ _) Ha). apply list_elem_of_In, in_rev, list_elem_of_In, Hb.
Qed.

(** C23. The list of recent accounts.  After any history of sign-ins in the order of
    time, the page offers the five most recently used addresses, each once,
    latest first, with the data of its last sign-in. *)
Theorem recent_accounts_spec h :
  StronglySorted by_time h →
  getRecentAccounts (foldl (λ stored a, saveRecentAccount a stored) None h) =
  map entry (take MAX_RECENT_ACCOUNTS (distinct (rev h))).
Proof.
  intros Hs. apply by_time_rev in Hs. revert Hs. induction h as [|a h IH] using rev_ind; [done|].
  rewrite foldl_app, rev_unit. cbn [foldl distinct]. intros Hs. pose proof (distinct_sorted _ Hs) as Hd. cbn [distinct] in Hd.
  apply StronglySorted_inv in Hs as [Hs _]. unfold saveRecentAccount at 1. rewrite IH by done.
  set (D := distinct (rev h)) in *.
  assert (HD : NoDup (map ra_email D)) by apply distinct_nodup.
  rewrite remove_first_filter.
  - change (entry a :: map entry ?l) with (map entry (a :: l)).
    assert (E : take MAX_RECENT_ACCOUNTS (a :: List.filter (other a) (take MAX_RECENT_ACCOUNTS D)) =
                take MAX_RECENT_ACCOUNTS (a :: List.filter (other a) D)).
    { unfold MAX_RECENT_ACCOUNTS. rewrite !firstn_cons. f_equal. by apply take_filter_take. }
    rewrite firstn_map, E, get_saved; [done|]. by apply take_sorted.
  - rewrite <- firstn_map. rewrite <- (take_drop MAX_RECENT_ACCOUNTS (map ra_email D)) in HD.
    by apply NoDup_app in HD as [HD _].
Qed.

Module SignInHistory.
Definition account (email : string) (t : Z) : RecentAccount :=
  {| ra_email := email; ra_displayName := email; ra_avatar := None; ra_provider := "local"; lastUsed := t |}.
Definition history : list RecentAccount :=
  [account "a@x" 1; account "b@x" 2; account "c@x" 3; account "a@x" 4; account "d@x" 5; account "e@x" 6; account "f@x" 7].
End SignInHistory.

(** Seven sign-ins with six addresses: the oldest address is dropped. *)
Lemma recent_accounts_spec_witness :
  getRecentAccounts (foldl (λ stored a, saveRecentAccount a stored) None SignInHistory.history) =
  map entry [SignInHistory.account "f@x" 7; SignInHistory.account "e@x" 6; SignInHistory.account "d@x" 5;
             SignInHistory.account "a@x" 4; SignInHistory.account "c@x" 3].
Proof.
  refine (recent_accounts_spec SignInHistory.history _).
  repeat constructor; discriminate.
Defined.
