(* ===== verification/Base64.v ===== *)
(** * Base64url

    Models the two encoders of the repository: [base64UrlEncode] of
    [uam-frontend/src/utils/pkce.ts] (the PKCE verifier and challenge) and
    [b64url] of [demo-backend/src/server.ts] (the parts of a token).  Both post-process
    the standard Base64 text of [btoa] and [Buffer.toString('base64')], in
    different orders.  A byte string is a [string]. *)

From S2P Require Import Prelude.
#[local] Open Scope string_scope.
#[local] Open Scope list_scope.

(** ** The standard encoding *)

Definition digits : string := "ABCDEFGHIJKLMNOPQRSTUVWXYZabcdefghijklmnopqrstuvwxyz0123456789+/".

Definition digit (n : N) : Ascii.ascii := default "A"%char (String.get (N.to_nat n) digits).

Definition byte (c : Ascii.ascii) : N := Ascii.N_of_ascii c.

(** The four digits of three bytes *)
Definition digit1 (a : N) : Ascii.ascii := digit (N.shiftr a 2).
Definition digit2 (a b : N) : Ascii.ascii := digit (N.lor (N.shiftl (N.land a 3) 4) (N.shiftr b 4)).
Definition digit3 (b c : N) : Ascii.ascii := digit (N.lor (N.shiftl (N.land b 15) 2) (N.shiftr c 6)).
Definition digit4 (c : N) : Ascii.ascii := digit (N.land c 63).

(** [btoa(s)], [Buffer.from(s).toString('base64')] *)
Fixpoint base64 (s : string) : string :=
  match s with
  | EmptyString => ""
  | String a EmptyString => String (digit1 (byte a)) (String (digit2 (byte a) 0) "==")
  | String a (String b EmptyString) =>
      String (digit1 (byte a)) (String (digit2 (byte a) (byte b)) (String (digit3 (byte b) 0) "="))
  | String a (String b (String c rest)) =>
      String (digit1 (byte a)) (String (digit2 (byte a) (byte b))
        (String (digit3 (byte b) (byte c)) (String (digit4 (byte c)) (base64 rest))))
  end.

(** [s.replace(/c/g, d)] for one character, and with the empty text *)
Fixpoint replace_all (c d : Ascii.ascii) (s : string) : string :=
  match s with
  | EmptyString => ""
  | String x s => String (if Ascii.eqb x c then d else x) (replace_all c d s)
  end.

Fixpoint remove_all (c : Ascii.ascii) (s : string) : string :=
  match s with
  | EmptyString => ""
  | String x s => if Ascii.eqb x c then remove_all c s else String x (remove_all c s)
  end.

(** [s.replace(/c+$/, '')] *)
Fixpoint strip_end (c : Ascii.ascii) (s : string) : string :=
  match s with
  | EmptyString => ""
  | String x s =>
      match strip_end c s with
      | EmptyString => if Ascii.eqb x c then "" else String x ""
      | t => String x t
      end
  end.

(** ** The two encoders *)

Definition base64UrlEncode (s : string) : string :=
  strip_end "="%char (replace_all "/"%char "_"%char (replace_all "+"%char "-"%char (base64 s))).

Definition b64url (s : string) : string :=
  replace_all "/"%char "_"%char (replace_all "+"%char "-"%char (remove_all "="%char (base64 s))).

(** [generateCodeVerifier()] of the 32 random bytes, and [generateCodeChallenge(verifier)] *)
Definition generateCodeVerifier (bytes : string) : string := base64UrlEncode bytes.
Definition generateCodeChallenge (sha256 : string → string) (verifier : string) : string := base64UrlEncode (sha256 verifier).

(** ** A decoder to compare with *)

Definition value (c : Ascii.ascii) : N :=
  if is_upper c then byte c - 65
  else if is_lower c then byte c - 71
  else if is_digit c then byte c + 4
  else if Ascii.eqb c "-"%char then 62 else 63.

Definition byte1 (x y : N) : Ascii.ascii := Ascii.ascii_of_N (N.lor (N.shiftl x 2) (N.shiftr y 4)).
Definition byte2 (y z : N) : Ascii.ascii := Ascii.ascii_of_N (N.lor (N.land (N.shiftl y 4) 255) (N.shiftr z 2)).
Definition byte3 (z w : N) : Ascii.ascii := Ascii.ascii_of_N (N.lor (N.land (N.shiftl z 6) 255) w).

Fixpoint decode (s : string) : string :=
  match s with
  | String x (String y EmptyString) => String (byte1 (value x) (value y)) ""
  | String x (String y (String z EmptyString)) =>
      String (byte1 (value x) (value y)) (String (byte2 (value y) (value z)) "")
  | String x (String y (String z (String w rest))) =>
      String (byte1 (value x) (value y)) (String (byte2 (value y) (value z)) (String (byte3 (value z) (value w)) (decode rest)))
  | _ => ""
  end.

(** ** Facts *)

(** A digit in the URL alphabet *)
Definition url_digit (c : Ascii.ascii) : Ascii.ascii :=
  if Ascii.eqb c "+"%char then "-"%char else if Ascii.eqb c "/"%char then "_"%char else c.

Definition below (n : nat) : list N := map N.of_nat (seq 0 n).

Lemma below_spec n k : (n < N.of_nat k)%N → In n (below k).
Proof. intros H. apply in_map_iff. exists (N.to_nat n). split; [lia|]. apply in_seq. lia. Qed.

(** All 64 digits, by computation *)
Lemma digit_facts n : (n < 64)%N → Ascii.eqb (digit n) "="%char = false ∧ value (url_digit (digit n)) = n.
Proof.
  intros H. assert (Hall : forallb (λ n, negb (Ascii.eqb (digit n) "="%char) && N.eqb (value (url_digit (digit n))) n) (below 64) = true)
    by (vm_compute; reflexivity).
  rewrite forallb_forall in Hall. specialize (Hall n (below_spec n 64 H)). apply andb_true_iff in Hall as [H1 H2].
  split; [by apply negb_true_iff|by apply N.eqb_eq].
Qed.

Lemma byte_bound c : (byte c < 256)%N.
Proof. apply Ascii.N_ascii_bounded. Qed.

Lemma forall_below k (p : N → bool) n : forallb p (below k) = true → (n < N.of_nat k)%N → p n = true.
Proof. intros H Hn. rewrite forallb_forall in H. by apply H, below_spec. Qed.

Lemma forall_below2 j k (p : N → N → bool) m n :
  forallb (λ m, forallb (p m) (below k)) (below j) = true → (m < N.of_nat j)%N → (n < N.of_nat k)%N → p m n = true.
Proof.
  intros H Hm Hn. apply (forall_below k (p m)); [|done]. by apply (forall_below j (λ m, forallb (p m) (below k))).
Qed.

(** The sextets of the bytes, and the parts of the neighbours they depend on *)
Lemma high_parts a : (a < 256)%N → (N.shiftr a 2 < 64 ∧ N.land a 3 < 4 ∧ N.shiftr a 4 < 16 ∧ N.land a 15 < 16 ∧ N.shiftr a 6 < 4 ∧ N.land a 63 < 64)%N.
Proof.
  intros H. assert (E := forall_below 256 (λ a, (N.shiftr a 2 <? 64) && (N.land a 3 <? 4) && (N.shiftr a 4 <? 16) && (N.land a 15 <? 16)
    && (N.shiftr a 6 <? 4) && (N.land a 63 <? 64))%N a ltac:(vm_compute; reflexivity) H).
  repeat (apply andb_true_iff in E as [E ?]). repeat match goal with Hx : (_ <? _)%N = true |- _ => apply N.ltb_lt in Hx end. tauto.
Qed.

Lemma sextet2 h k : (h < 4)%N → (k < 16)%N → (N.lor (N.shiftl h 4) k < 64)%N.
Proof. intros Hh Hk. apply N.ltb_lt. apply (forall_below2 4 16 (λ h k, N.lor (N.shiftl h 4) k <? 64)%N); [vm_compute; reflexivity|done|done]. Qed.

Lemma sextet3 l k : (l < 16)%N → (k < 4)%N → (N.lor (N.shiftl l 2) k < 64)%N.
Proof. intros Hl Hk. apply N.ltb_lt. apply (forall_below2 16 4 (λ l k, N.lor (N.shiftl l 2) k <? 64)%N); [vm_compute; reflexivity|done|done]. Qed.

Lemma byte1_back a k : (k < 16)%N → byte1 (N.shiftr (byte a) 2) (N.lor (N.shiftl (N.land (byte a) 3) 4) k) = a.
Proof.
  intros Hk. rewrite <- (Ascii.ascii_N_embedding a) at 3. unfold byte1. f_equal. apply N.eqb_eq.
  apply (forall_below2 256 16 (λ a k, N.lor (N.shiftl (N.shiftr a 2) 2) (N.shiftr (N.lor (N.shiftl (N.land a 3) 4) k) 4) =? a)%N);
    [vm_compute; reflexivity|apply byte_bound|done].
Qed.

Lemma byte2_back b h k : (h < 4)%N → (k < 4)%N →
  byte2 (N.lor (N.shiftl h 4) (N.shiftr (byte b) 4)) (N.lor (N.shiftl (N.land (byte b) 15) 2) k) = b.
Proof.
  intros Hh Hk. rewrite <- (Ascii.ascii_N_embedding b) at 3. unfold byte2. f_equal. apply N.eqb_eq.
  apply (forall_below2 4 256 (λ h b, forallb (λ k,
      N.lor (N.land (N.shiftl (N.lor (N.shiftl h 4) (N.shiftr b 4)) 4) 255) (N.shiftr (N.lor (N.shiftl (N.land b 15) 2) k) 2) =? b)%N (below 4))
    h (byte b)) in Hh; [|vm_compute; reflexivity|apply byte_bound].
  by apply (forall_below 4 (λ k, _ =? _)%N k Hh).
Qed.

Lemma byte3_back c l : (l < 16)%N → byte3 (N.lor (N.shiftl l 2) (N.shiftr (byte c) 6)) (N.land (byte c) 63) = c.
Proof.
  intros Hl. rewrite <- (Ascii.ascii_N_embedding c) at 3. unfold byte3. f_equal. apply N.eqb_eq.
  apply (forall_below2 16 256 (λ l c, N.lor (N.land (N.shiftl (N.lor (N.shiftl l 2) (N.shiftr c 6)) 6) 255) (N.land c 63) =? c)%N);
    [vm_compute; reflexivity|done|apply byte_bound].
Qed.

(** The text without padding, in the URL alphabet *)
Fixpoint plain (s : string) : string :=
  match s with
  | EmptyString => ""
  | String a EmptyString => String (url_digit (digit1 (byte a))) (String (url_digit (digit2 (byte a) 0)) "")
  | String a (String b EmptyString) =>
      String (url_digit (digit1 (byte a))) (String (url_digit (digit2 (byte a) (byte b))) (String (url_digit (digit3 (byte b) 0)) ""))
  | String a (String b (String c rest)) =>
      String (url_digit (digit1 (byte a))) (String (url_digit (digit2 (byte a) (byte b)))
        (String (url_digit (digit3 (byte b) (byte c))) (String (url_digit (digit4 (byte c))) (plain rest))))
  end.

(** Induction by groups of three bytes *)
Lemma string_ind3 (P : string → Prop) :
  P "" → (∀ a, P (String a "")) → (∀ a b, P (String a (String b ""))) →
  (∀ a b c s, P s → P (String a (String b (String c s)))) → ∀ s, P s.
Proof.
  intros H0 H1 H2 H3. fix IH 1. intros [|a [|b [|c s]]]; [exact H0|exact (H1 a)|exact (H2 a b)|exact (H3 a b c s (IH s))].
Qed.

Lemma is_digit1 a : (N.shiftr (byte a) 2 < 64)%N.
Proof. apply (high_parts _ (byte_bound a)). Qed.
Lemma is_digit2 a k : (k < 256)%N → (N.lor (N.shiftl (N.land (byte a) 3) 4) (N.shiftr k 4) < 64)%N.
Proof. intros Hk. apply sextet2; [apply (high_parts _ (byte_bound a))|apply (high_parts _ Hk)]. Qed.
Lemma is_digit3 b k : (k < 256)%N → (N.lor (N.shiftl (N.land (byte b) 15) 2) (N.shiftr k 6) < 64)%N.
Proof. intros Hk. apply sextet3; [apply (high_parts _ (byte_bound b))|apply (high_parts _ Hk)]. Qed.
Lemma is_digit4 c : (N.land (byte c) 63 < 64)%N.
Proof. apply (high_parts _ (byte_bound c)). Qed.

Create HintDb base64.
#[local] Hint Resolve is_digit1 is_digit2 is_digit3 is_digit4 byte_bound : base64.
#[local] Hint Extern 1 (_ < _)%N => reflexivity : base64.

(** The post-processing of one digit, in either order *)
Lemma replace_digit c s :
  replace_all "/"%char "_"%char (replace_all "+"%char "-"%char (String c s)) =
  String (url_digit c) (replace_all "/"%char "_"%char (replace_all "+"%char "-"%char s)).
Proof. cbn. unfold url_digit. destruct (Ascii.eqb_spec c "+"%char) as [->|]; reflexivity. Qed.

Lemma remove_digit n s : (n < 64)%N → remove_all "="%char (String (digit n) s) = String (digit n) (remove_all "="%char s).
Proof. intros H. cbn [remove_all]. by rewrite (proj1 (digit_facts n H)). Qed.

Lemma url_digit_not_pad n : (n < 64)%N → Ascii.eqb (url_digit (digit n)) "="%char = false.
Proof.
  intros H. unfold url_digit. destruct (Ascii.eqb (digit n) "+"%char); [done|]. destruct (Ascii.eqb (digit n) "/"%char); [done|].
  apply (digit_facts n H).
Qed.

Lemma strip_digit n s : (n < 64)%N → strip_end "="%char (String (url_digit (digit n)) s) = String (url_digit (digit n)) (strip_end "="%char s).
Proof. intros H. cbn [strip_end]. rewrite (url_digit_not_pad n H). by destruct (strip_end "="%char s). Qed.

Lemma b64url_plain s : b64url s = plain s.
Proof.
  unfold b64url. induction s as [|a|a b|a b c s IH] using string_ind3; [done|..]; cbn [base64 plain];
    unfold digit1, digit2, digit3, digit4; rewrite !remove_digit by eauto with base64; rewrite !replace_digit; [done|done|].
  by rewrite IH.
Qed.

Lemma base64UrlEncode_plain s : base64UrlEncode s = plain s.
Proof.
  unfold base64UrlEncode. induction s as [|a|a b|a b c s IH] using string_ind3; [done|..]; cbn [base64 plain];
    unfold digit1, digit2, digit3, digit4; rewrite !replace_digit, !strip_digit by eauto with base64; [done|done|].
  by rewrite IH.
Qed.

Lemma value_digit n : (n < 64)%N → value (url_digit (digit n)) = n.
Proof. intros H. apply (digit_facts n H). Qed.

Lemma decode_plain s : decode (plain s) = s.
Proof.
  induction s as [|a|a b|a b c s IH] using string_ind3; [done|..]; cbn [plain decode]; unfold digit1, digit2, digit3, digit4;
    rewrite ?value_digit by eauto with base64.
  - by rewrite byte1_back by reflexivity.
  - rewrite byte1_back by apply (high_parts _ (byte_bound b)).
    by rewrite byte2_back by first [reflexivity|apply (high_parts _ (byte_bound a))].
  - rewrite byte1_back by apply (high_parts _ (byte_bound b)).
    rewrite byte2_back by first [apply (high_parts _ (byte_bound a))|apply (high_parts _ (byte_bound c))].
    rewrite byte3_back by apply (high_parts _ (byte_bound b)). by rewrite IH.
Qed.

Lemma plain_length s : (3 * String.length (plain s) = 4 * String.length s + Nat.modulo (2 * String.length s) 3)%nat.
Proof.
  induction s as [|a|a b|a b c s IH] using string_ind3; [done|done|done|]. cbn [plain String.length].
  replace (2 * S (S (S (String.length s))))%nat with (2 * String.length s + 2 * 3)%nat by lia.
  rewrite Nat.Div0.mod_add. lia.
Qed.

(** C24. Both encoders of the repository compute the same text; decoding it gives
    the bytes back, and its length is that of the bytes times four thirds,
    rounded up. *)
Theorem base64url_roundtrip s :
  base64UrlEncode s = b64url s ∧ decode (b64url s) = s ∧
  Z.of_nat (String.length (b64url s)) = ceil_div (4 * Z.of_nat (String.length s)) 3.
Proof.
  rewrite base64UrlEncode_plain, b64url_plain. split; [done|]. split; [apply decode_plain|].
  pose proof (plain_length s) as H. pose proof (Nat.mod_upper_bound (2 * String.length s) 3 ltac:(lia)) as Hm.
  unfold ceil_div. apply Z.opp_inj. rewrite Z.opp_involutive.
  apply (Z.div_unique _ _ _ (Z.of_nat (Nat.modulo (2 * String.length s) 3))); lia.
Qed.

Lemma b64url_chars s : ∀ c, In c (String.list_ascii_of_string (plain s)) → Ascii.eqb c "."%char = false.
Proof.
  assert (Hd : ∀ n, (n < 64)%N → Ascii.eqb (url_digit (digit n)) "."%char = false).
  { intros n Hn. apply negb_true_iff. apply (forall_below 64 (λ n, negb (Ascii.eqb (url_digit (digit n)) "."%char))); [vm_compute; reflexivity|done]. }
  induction s as [|a|a b|a b c s IH] using string_ind3; cbn [plain String.list_ascii_of_string In]; [done|..];
    unfold digit1, digit2, digit3, digit4; intros x Hx;
    repeat (destruct Hx as [<-|Hx]; [apply Hd; eauto with base64|]); [done|done|by apply IH].
Qed.
