(* ===== verification/ApiClient.v ===== *)
(** * The API client of the front end

    Models [uam-frontend/src/api/client.ts]: the class [ApiClient] with its
    fields (access token, CSRF token and the promise that fetches it), every
    method, and the browser around it (cookie jar, session storage, address
    bar).  A [fetch] runs the request in [Server.serve] on the state of the
    application, so that the client is composed with the server it talks to.

    Calls are taken one after the other: an awaited promise has settled when
    the next call begins.  A fetch fails when the request is not delivered or
    the answer is lost.  [document.cookie] is a parameter: the cookies have the
    path [/api/auth] and pages elsewhere do not see them. *)

From S2P Require Import Prelude CircuitConfig RollingWindow CircuitBreaker GuardedCalls Async RedisCache Json JsVal Columns SqlFilter SqlMeaning Password UserModel OneTimeCodes Sessions IdentityIndex Tokens SessionHandlers UsersTable Documents Application AuthController AppFacts MemApp Validators Server Base64.
#[local] Open Scope string_scope.
#[local] Open Scope list_scope.
#[local] Open Scope Z_scope.
#[local] Open Scope async_scope.

(** ** State *)

(** A promise that has settled *)
Inductive Settled := Fulfilled | Rejected (message : string).

Record Client := mkClient {
  accessToken : option string;
  csrfToken : option string;
  csrfInit : option Settled;
}.
#[global] Instance set_accessToken : Setter accessToken := λ g c, mkClient (g (accessToken c)) (csrfToken c) (csrfInit c).
#[global] Instance set_csrfToken : Setter csrfToken := λ g c, mkClient (accessToken c) (g (csrfToken c)) (csrfInit c).
#[global] Instance set_csrfInit : Setter csrfInit := λ g c, mkClient (accessToken c) (csrfToken c) (g (csrfInit c)).

(** The constructor also removes the tokens of earlier versions from
    [localStorage]. *)
Definition new_ApiClient : Client := mkClient None None None.

Record Browser := mkBrowser {
  client : Client;
  jar : object;                                (** cookies by name *)
  sessionStorage : gmap string string;
  location : string;                           (** [window.location.href] *)
}.
#[global] Instance set_client : Setter client := λ g b, mkBrowser (g (client b)) (jar b) (sessionStorage b) (location b).
#[global] Instance set_jar : Setter jar := λ g b, mkBrowser (client b) (g (jar b)) (sessionStorage b) (location b).
#[global] Instance set_sessionStorage : Setter sessionStorage := λ g b, mkBrowser (client b) (jar b) (g (sessionStorage b)) (location b).
#[global] Instance set_location : Setter location := λ g b, mkBrowser (client b) (jar b) (sessionStorage b) (g (location b)).

(** ** Cookies of the browser *)

Definition obj_delete (o : object) (k : string) : object := List.filter (λ p, negb (String.eqb p.1 k)) o.

Definition apply_cookie (o : object) (op : CookieOp) : object :=
  match op with
  | SetCookie name value _ => obj_set o name (VStr value)
  | ClearCookie name _ => obj_delete o name
  end.

(** [decodeURIComponent(s)], byte by byte; [None] throws *)
Definition hex_value (c : Ascii.ascii) : option N :=
  let n := Ascii.N_of_ascii c in
  if is_digit c then Some (n - 48)%N
  else if ((65 <=? n) && (n <=? 70))%N then Some (n - 55)%N
  else if ((97 <=? n) && (n <=? 102))%N then Some (n - 87)%N
  else None.

Fixpoint decodeURIComponent (s : string) : option string :=
  match s with
  | EmptyString => Some ""
  | String c s' =>
      if Ascii.eqb c "%"%char then
        match s' with
        | String h (String l rest) =>
            match hex_value h, hex_value l with
            | Some a, Some b => String (Ascii.ascii_of_N (16 * a + b)) <$> decodeURIComponent rest
            | _, _ => None
            end
        | _ => None
        end
      else String c <$> decodeURIComponent s'
  end.

Definition after_prefix (p s : string) : option string :=
  if startsWith s p then Some (String.substring (String.length p) (String.length s - String.length p) s) else None.

(** The first cookie of the text with that name and a value: the pattern
    anchors the name at the start or behind a semicolon and white space. *)
Definition cookie_match (text : string) : option string :=
  let pieces := match split_char ";"%char text with [] => [] | p :: ps => p :: map trim_start ps end in
  head (omap (λ p, given (after_prefix "uam_csrf=" p)) pieces).

(** [getCsrfFromCookie()]; it throws only on a malformed escape. *)
Definition getCsrfFromCookie (document_cookie : string) : option string := cookie_match document_cookie ≫= decodeURIComponent.

(** ** Requests *)

(** What the network does to one exchange *)
Record NetEnv := { app_env : AppEnv; delivered : bool; answered : bool }.

(** What a method throws: an [Error], or the body of a refusal *)
Inductive ApiError :=
  | Failed (message : string)
  | Refused (data : object).

(** [JSON.stringify({ ... })], read back by the server *)
Definition json_body_of (fields : object) : val :=
  VObj (List.filter (λ p, match p.2 with VUndef => false | _ => true end) fields).

Definition ok (r : Response) : bool := (200 <=? status r) && (status r <? 300).

Section Client.
Context `{RKV : RedisKV} `{UDB : UsersDb} `{IDB : IndexDb}.
Context (server : HttpRequest → prog AppEnv App HttpAnswer).
Context (document_cookie : object → string) (sha256 : string → string) (urlencode : list (string * string) → string).
(** [window.location.origin] *)
Context (page_origin : string).

Record World := mkWorld { browser : Browser; app : App }.
#[global] Instance set_browser : Setter browser := λ g w, mkWorld (g (browser w)) (app w).
#[global] Instance set_app : Setter app := λ g w, mkWorld (browser w) (g (app w)).

Definition API_BASE_URL : string := "/api".

Definition on_browser {A} (f : NetEnv → Browser → A * Browser) : prog NetEnv World A :=
  act (λ e w, let '(a, b) := f e (browser w) in (a, w <| browser := b |>)).

Definition this : prog NetEnv World Client := on_browser (λ _ b, (client b, b)).
Definition assign (f : Client → Client) : prog NetEnv World unit := on_browser (λ _ b, (tt, b <| client ::= f |>)).

(** [await fetch(url, { method, headers, credentials: 'include', body })] *)
Definition fetch (verb path : string) (csrf authorization : option string) (fields : object) : prog NetEnv World (ApiError + HttpAnswer) :=
  let! sent := on_browser (λ e b, ((delivered e, jar b), b)) in
  if negb sent.1 then Ret (inl (Failed "Failed to fetch"))
  else
    let! a := embed (λ e w, (app_env e, w)) app (λ s w, w <| app := s |>)
      (server {| method := verb; target := API_BASE_URL +:+ path; origin := Some page_origin; query := [];
                 message_parts := {| cookies := VObj sent.2; authorization := authorization;
                                     csrfHeader := match csrf with Some c => VStr c | None => VUndef end;
                                     body := json_body_of fields |} |}) in
    on_browser (λ e b,
      if negb (answered e) then (inl (Failed "Failed to fetch"), b)
      else (inr a, match a with JsonAnswer r => b <| jar ::= λ o, foldl apply_cookie o (cookie_ops r) |> | _ => b end)).

(** [parseJsonResponse(response)]; a redirect ends at a page. *)
Definition parseJsonResponse (a : HttpAnswer) : ApiError + Response :=
  match a with JsonAnswer r => inr r | _ => inl (Failed "Unexpected server response") end.

Definition setTokens (t : string) (c : Client) : Client := c <| accessToken := Some t |>.
Definition clearTokens (c : Client) : Client := c <| accessToken := None |>.

(** A property that is a text *)
Definition text_field (o : object) (k : string) : option string := text_of (obj_get o k).

(** [if (response.accessToken) this.setTokens(response.accessToken)] *)
Definition keep_token (data : object) : prog NetEnv World unit :=
  match given (text_field data "accessToken") with Some t => assign (setTokens t) | None => Ret tt end.

Definition fetch_csrf : prog NetEnv World (ApiError + unit) :=
  let* a := fetch "GET" "/auth/csrf" None None [] in
  match parseJsonResponse a with
  | inl e => Ret (inl e)
  | inr r =>
      let! _ := on_browser (λ _ b,
        (tt, b <| client ::= λ c, c <| csrfToken := match obj_get (json_body r) "csrfToken" with
                                                   | VStr t => Some t
                                                   | _ => getCsrfFromCookie (document_cookie (jar b))
                                                   end |> |>)) in
      Ret (inr tt)
  end.

Definition ensureCsrf : prog NetEnv World (ApiError + unit) :=
  let! c := this in
  match given (csrfToken c) with
  | Some _ => Ret (inr tt)
  | None =>
      match csrfInit c with
      | Some Fulfilled => Ret (inr tt)
      | Some (Rejected m) => Ret (inl (Failed m))
      | None =>
          let! r := fetch_csrf in
          match r with
          | inr _ => assign (λ c, c <| csrfInit := Some Fulfilled |>) ;; Ret (inr tt)
          | inl (Failed m) => assign (λ c, c <| csrfInit := Some (Rejected m) |>) ;; Ret (inl (Failed m))
          | inl (Refused d) => assign (λ c, c <| csrfInit := Some (Rejected "") |>) ;; Ret (inl (Refused d))
          end
      end
  end.

Definition syncCsrf : prog NetEnv World (ApiError + unit) :=
  assign (λ c, c <| csrfToken := None |> <| csrfInit := None |>) ;; ensureCsrf.

(** The CSRF header of [sessionHeaders()]; an empty text is left out. *)
Definition sessionHeaders (b : Browser) : option string :=
  given match csrfToken (client b) with Some t => Some t | None => getCsrfFromCookie (document_cookie (jar b)) end.

(** [this.request(endpoint, { method, body })] *)
Definition request (verb path : string) (fields : object) : prog NetEnv World (ApiError + object) :=
  let* _ := if String.eqb verb "GET" || String.eqb verb "HEAD" then Ret (inr tt) else ensureCsrf in
  let! h := on_browser (λ _ b, ((sessionHeaders b, given (accessToken (client b))), b)) in
  let* a := fetch verb path h.1 (match h.2 with Some t => Some ("Bearer " +:+ t) | None => None end) fields in
  Ret match parseJsonResponse a with
      | inl e => inl e
      | inr r => if ok r then inr (json_body r) else inl (Refused (json_body r))
      end.

(** ** The methods *)

Definition checkEmail (email : string) := request "POST" "/auth/check-email" [("email", VStr email)].

(** Methods after which the server has a new CSRF cookie *)
Definition request_session (path : string) (fields : object) : prog NetEnv World (ApiError + object) :=
  let* data := request "POST" path fields in
  keep_token data ;;
  let* _ := syncCsrf in
  Ret (inr data).

Definition register (email password displayName : string) :=
  request_session "/auth/register" [("email", VStr email); ("password", VStr password); ("displayName", VStr displayName)].
Definition login (email password : string) :=
  request_session "/auth/login" [("email", VStr email); ("password", VStr password)].
Definition exchangeOAuthCode (code state codeVerifier : string) :=
  request_session "/auth/oauth/exchange" [("code", VStr code); ("state", VStr state); ("codeVerifier", VStr codeVerifier)].

Definition redeemEmailLink (code : string) := request "POST" "/auth/redeem-email-link" [("code", VStr code)].

Definition verifyEmail (formToken password : string) : prog NetEnv World (ApiError + object) :=
  let* data := request "POST" "/auth/verify-email" [("formToken", VStr formToken); ("password", VStr password)] in
  keep_token data ;; Ret (inr data).

Definition resendVerification (email : string) := request "POST" "/auth/resend-verification" [("email", VStr email)].
Definition getVerificationStatus (pollToken : string) := request "POST" "/auth/verification-status" [("pollToken", VStr pollToken)].
Definition forgotPassword (email : string) := request "POST" "/auth/forgot-password" [("email", VStr email)].
Definition resetPassword (formToken password : string) :=
  request "POST" "/auth/reset-password" [("formToken", VStr formToken); ("password", VStr password)].

Definition refreshToken : prog NetEnv World (ApiError + object) :=
  let* _ := ensureCsrf in
  let! h := on_browser (λ _ b, ((sessionHeaders b, accessToken (client b)), b)) in
  let* a := fetch "POST" "/auth/refresh-token" h.1 None [("accessToken", match h.2 with Some t => VStr t | None => VUndef end)] in
  match parseJsonResponse a with
  | inl e => Ret (inl e)
  | inr r =>
      if negb (ok r) then Ret (inl (Refused (json_body r)))
      else
        keep_token (json_body r) ;;
        let* _ := syncCsrf in
        Ret (inr (json_body r))
  end.

Definition logout : prog NetEnv World (ApiError + unit) :=
  let! before := this in
  let* _ := ensureCsrf in
  let! csrf := on_browser (λ _ b, (sessionHeaders b, b)) in
  let! _ := fetch "POST" "/auth/logout" csrf None
              [("accessToken", match accessToken before with Some t => VStr t | None => VNull end)] in
  assign (λ c, clearTokens c <| csrfToken := None |> <| csrfInit := None |>) ;;
  Ret (inr tt).

Definition getMe := request "GET" "/auth/me" [].

Definition initiateMigration (password newEmail : string) (confirmOverride : bool) :=
  request "POST" "/auth/migrate/init"
    [("password", VStr password); ("newEmail", VStr newEmail); ("confirmOverride", if confirmOverride then VStr "true" else VUndef)].
Definition verifyCurrentEmail (formToken : string) := request "POST" "/auth/migrate/verify-current" [("formToken", VStr formToken)].
Definition verifyNewEmail (formToken : string) := request "POST" "/auth/migrate/verify-new" [("formToken", VStr formToken)].
Definition getMigrationStatus := request "GET" "/auth/migrate/status" [].
Definition finalizeMigration := request "POST" "/auth/migrate/finalize" [].
Definition resendMigrationEmails := request "POST" "/auth/migrate/resend" [].
Definition getMigrationHistory := request "GET" "/auth/migrate/history" [].
Definition updateBio (bio : string) := request "PUT" "/auth/profile/bio" [("bio", VStr bio)].

Definition getOAuthProviders : prog NetEnv World (ApiError + (val * val)) :=
  let* data := request "GET" "/auth/oauth/providers" [] in
  Ret (inr (obj_get data "google", obj_get data "github")).

Definition OAUTH_VERIFIER_KEY : string := "uam_oauth_code_verifier".
Definition OAUTH_STATE_KEY : string := "uam_oauth_state".

(** [startOAuth(provider, { email, prompt })] *)
Definition startOAuth (provider : Provider) (email prompt : option string) : prog NetEnv World (ApiError + unit) :=
  let! codeVerifier := on_browser (λ e b, (generateCodeVerifier (randoms (app_env e)).1, b)) in
  let* prepared := request "POST" "/auth/oauth/prepare" [("codeChallenge", VStr (generateCodeChallenge sha256 codeVerifier))] in
  let state := match obj_get prepared "state" with VStr s => s | _ => "undefined" end in
  on_browser (λ _ b,
    let params := [("state", state)] in
    let params := match provider with
                  | google =>
                      params ++ match given email with Some e => [("login_hint", e)] | None => [] end
                             ++ match given prompt with Some p => [("prompt", p)] | None => [] end
                  | github => params
                  end in
    (tt, b <| sessionStorage ::= λ s, <[OAUTH_STATE_KEY := state]> (<[OAUTH_VERIFIER_KEY := codeVerifier]> s) |>
           <| location := API_BASE_URL +:+ (match provider with google => "/auth/google?" | github => "/auth/github?" end)
                          +:+ urlencode params |>)) ;;
  Ret (inr tt).
End Client.

(** ** Facts *)

(** The client repeats the cookie that the browser sends. *)
Definition in_sync (b : Browser) : Prop :=
  ∃ c, c ≠ "" ∧ csrfToken (client b) = Some c ∧ obj_get (jar b) CSRF_COOKIE = VStr c.

(** Cookies are texts. *)
Definition jar_ok (o : object) : Prop := ∀ k, obj_get o k = VUndef ∨ ∃ s, obj_get o k = VStr s.

Lemma obj_delete_get o k k' : obj_get (obj_delete o k) k' = if String.eqb k k' then VUndef else obj_get o k'.
Proof.
  unfold obj_delete, obj_get. induction o as [|[a v] o IH]; [by destruct (String.eqb k k')|]. cbn [List.filter fst].
  destruct (String.eqb_spec a k) as [->|Hak]; cbn [negb obj_lookup].
  - rewrite IH. by destruct (String.eqb k k').
  - destruct (String.eqb_spec a k') as [->|]; [|exact IH]. by rewrite (proj2 (String.eqb_neq k k')) by congruence.
Qed.

Lemma jar_ok_cookies ops o : jar_ok o → jar_ok (foldl apply_cookie o ops).
Proof.
  revert o. induction ops as [|[name value opts|name opts] ops IH]; intros o Ho; cbn; [done| |]; apply IH; intros k.
  - rewrite obj_get_set. destruct (String.eqb name k); [right; by exists value|apply Ho].
  - rewrite obj_delete_get. destruct (String.eqb name k); [by left|apply Ho].
Qed.

Lemma given_some s t : given s = Some t → s = Some t ∧ t ≠ "".
Proof. destruct s as [u|]; [|done]. cbn. destruct (String.eqb_spec u ""); [done|]. by intros [= <-]. Qed.

Lemma given_text t : t ≠ "" → given (Some t) = Some t.
Proof. intros H. cbn. by rewrite (proj2 (String.eqb_neq _ _) H). Qed.

Section Stuck.
Context `{RKV : RedisKV} `{UDB : UsersDb} `{IDB : IndexDb}.
Context (server : HttpRequest → prog AppEnv App HttpAnswer).
Context (document_cookie : object → string) (sha256 : string → string) (urlencode : list (string * string) → string).
Context (page_origin : string).
Local Abbreviation ensureCsrf := (ensureCsrf server document_cookie page_origin).
Local Abbreviation request := (request server document_cookie page_origin).

(** The fetch of the CSRF token has failed once. *)
Definition stuck (m : string) (w : World) : Prop :=
  given (csrfToken (client (browser w))) = None ∧ csrfInit (client (browser w)) = Some (Rejected m).

Lemma same_browser (w : World) : w <| browser := browser w |> = w.
Proof. by destruct w. Qed.

(** The methods that write *)
Definition writes {A} (p : prog NetEnv World (ApiError + A)) : Prop :=
  ∀ m es w, stuck m w → run p es w = (inl (Failed m), w).

Lemma writes_then {A B} (p : prog NetEnv World (ApiError + A)) (k : A → prog NetEnv World (ApiError + B)) :
  writes p → writes (let* x := p in k x).
Proof.
  intros Hp m es w Hs. destruct (run_bind_any p (λ r, match r with inl e => Ret (inl e) | inr x => k x end) es w) as [es' ->].
  by rewrite (Hp _ _ _ Hs).
Qed.

Lemma writes_ensure : writes ensureCsrf.
Proof.
  intros m es w [Hc Hi]. unfold ApiClient.ensureCsrf, this, on_browser. cbn [bind run act]. by rewrite Hc, Hi, same_browser.
Qed.

Lemma writes_request verb path fields : String.eqb verb "GET" || String.eqb verb "HEAD" = false → writes (request verb path fields).
Proof. intros Hv. unfold ApiClient.request. rewrite Hv. apply writes_then, writes_ensure. Qed.

Lemma writes_logout : writes (logout server document_cookie page_origin).
Proof.
  intros m es w Hs. unfold logout, this at 1, on_browser at 1. cbn [bind run act]. rewrite same_browser.
  apply writes_then; [apply writes_ensure|exact Hs].
Qed.

Lemma writes_oauth provider email prompt :
  writes (startOAuth server document_cookie sha256 urlencode page_origin provider email prompt).
Proof.
  intros m es w Hs. unfold startOAuth, on_browser at 1. cbn [bind run act]. rewrite same_browser.
  apply writes_then; [by apply writes_request|exact Hs].
Qed.

Lemma writes_session path fields : writes (request_session server document_cookie page_origin path fields).
Proof. apply writes_then. by apply writes_request. Qed.

Lemma writes_verify token password : writes (verifyEmail server document_cookie page_origin token password).
Proof. apply writes_then. by apply writes_request. Qed.

Lemma writes_refresh : writes (refreshToken server document_cookie page_origin).
Proof. apply writes_then, writes_ensure. Qed.

(** When the first fetch of the CSRF token does not reach the server, the
    rejected promise is kept: from then on every method that writes throws,
    without asking the server and without leaving that state, the logout that
    would reset the promise included. *)
Theorem failed_bootstrap_is_final es w email password name code state verifier token bio newEmail override provider hint prompt :
  given (csrfToken (client (browser w))) = None → csrfInit (client (browser w)) = None → delivered (env_tail es O) = false →
  let w1 := (run ensureCsrf es w).2 in
  ∃ m, ∀ es',
    run (login server document_cookie page_origin email password) es' w1 = (inl (Failed m), w1) ∧
    run (register server document_cookie page_origin email password name) es' w1 = (inl (Failed m), w1) ∧
    run (exchangeOAuthCode server document_cookie page_origin code state verifier) es' w1 = (inl (Failed m), w1) ∧
    run (verifyEmail server document_cookie page_origin token password) es' w1 = (inl (Failed m), w1) ∧
    run (resetPassword server document_cookie page_origin token password) es' w1 = (inl (Failed m), w1) ∧
    run (forgotPassword server document_cookie page_origin email) es' w1 = (inl (Failed m), w1) ∧
    run (refreshToken server document_cookie page_origin) es' w1 = (inl (Failed m), w1) ∧
    run (initiateMigration server document_cookie page_origin password newEmail override) es' w1 = (inl (Failed m), w1) ∧
    run (updateBio server document_cookie page_origin bio) es' w1 = (inl (Failed m), w1) ∧
    run (startOAuth server document_cookie sha256 urlencode page_origin provider hint prompt) es' w1 = (inl (Failed m), w1) ∧
    run (logout server document_cookie page_origin) es' w1 = (inl (Failed m), w1) ∧
    run ensureCsrf es' w1 = (inl (Failed m), w1).
Proof.
  intros Hc Hi Hd. cbv zeta. exists "Failed to fetch".
  assert (Hs : stuck "Failed to fetch" (run ensureCsrf es w).2).
  { unfold ApiClient.ensureCsrf, this, on_browser. cbn [bind run act]. rewrite Hc, Hi, same_browser.
    unfold fetch_csrf, fetch, on_browser. cbn [bind run act fst snd]. rewrite Hd. cbn. by split. }
  intros es'. revert Hs. generalize (run ensureCsrf es w).2. intros w1 Hs.
  split_and!; [apply writes_session|apply writes_session|apply writes_session|apply writes_verify|apply writes_request|
    apply writes_request|apply writes_refresh|apply writes_request|apply writes_request|apply writes_oauth|apply writes_logout|
    apply writes_ensure]; first [exact Hs|reflexivity].
Qed.
End Stuck.

(** ** The CSRF protocol between client and server *)

(** The paths behind the CSRF guard *)
Definition protected_paths : list string :=
  ["/auth/register"; "/auth/login"; "/auth/verify-email"; "/auth/resend-verification"; "/auth/forgot-password";
   "/auth/reset-password"; "/auth/refresh-token"; "/auth/logout"; "/auth/oauth/exchange"].

Definition fresh_random (e : AppEnv) : Prop := fresh (net e) ≠ "".

(** What the client relies on: the server hands out the value of the cookie,
    which it sets when there is none, and refuses a header that differs. *)
Class CsrfProtocol `{RKV : RedisKV} `{UDB : UsersDb} `{IDB : IndexDb} (server : HttpRequest → prog AppEnv App HttpAnswer)
    (page_origin : string) : Prop := {
  csrf_issued q o s :
    method q = "GET" → target q = "/api/auth/csrf" → origin q = Some page_origin → cookies (message_parts q) = VObj o → jar_ok o →
    always (λ e _, fresh_random e) (server q) s (λ a s', ∃ r c, a = JsonAnswer r ∧ untouched s s' ∧ c ≠ "" ∧
      obj_get (json_body r) "csrfToken" = VStr c ∧ obj_get (foldl apply_cookie o (cookie_ops r)) CSRF_COOKIE = VStr c);
  csrf_refused q path c c' :
    method q = "POST" → In path protected_paths → target q = "/api" +:+ path → origin q = Some page_origin →
    opt_prop (cookies (message_parts q)) CSRF_COOKIE = VStr c → csrfHeader (message_parts q) = VStr c' → c ≠ c' →
    server q = Ret (JsonAnswer (refuse 403 "CSRF validation failed"));
}.

Lemma always_any {E S A} (P : E → S → Prop) (p : prog E S A) s : always P p s (λ _ _, True).
Proof. by intros es _. Qed.

(** The value that the guard compares is the one the client sends. *)
Lemma in_sync_passes config document_cookie b rq :
  in_sync b → cookies rq = VObj (jar b) →
  csrfHeader rq = match sessionHeaders document_cookie b with Some c => VStr c | None => VUndef end →
  requireCsrf config rq = Next.
Proof.
  intros (c & Hc & Ht & Hj) Hk Hh. apply requireCsrf_spec. right. exists c. split; [done|]. rewrite Hk, Hh.
  unfold sessionHeaders. rewrite Ht, given_text by done. split; [exact Hj|done].
Qed.

Section Protocol.
Context `{RKV : RedisKV} `{UDB : UsersDb} `{IDB : IndexDb}.
Context (server : HttpRequest → prog AppEnv App HttpAnswer) (page_origin : string) {CP : CsrfProtocol server page_origin}.
Context (document_cookie : object → string).
Local Abbreviation fetch := (fetch server page_origin).

(** Every exchange is completed. *)
Definition online (e : NetEnv) (_ : World) : Prop := delivered e = true ∧ answered e = true ∧ fresh_random (app_env e).

Lemma always_browser {A B} P (f : NetEnv → Browser → A * Browser) (k : A → prog NetEnv World B) w Q :
  (∀ e, P e w → always P (k (f e (browser w)).1) (mkWorld (f e (browser w)).2 (app w)) Q) →
  always P (bind (on_browser f) k) w Q.
Proof. intros H. apply always_act. intros e He. specialize (H e He). by destruct (f e (browser w)). Qed.

(** The browser after an answer *)
Definition with_cookies (a : HttpAnswer) (b : Browser) : Browser :=
  match a with JsonAnswer r => b <| jar ::= λ o, foldl apply_cookie o (cookie_ops r) |> | _ => b end.

Definition sent (verb path : string) (csrf authorization : option string) (fields o : object) : HttpRequest :=
  {| method := verb; target := API_BASE_URL +:+ path; origin := Some page_origin; query := [];
     message_parts := {| cookies := VObj o; authorization := authorization;
                         csrfHeader := match csrf with Some c => VStr c | None => VUndef end; body := json_body_of fields |} |}.

Lemma always_fetch {B} verb path csrf auth fields (k : ApiError + HttpAnswer → prog NetEnv World B) w Q :
  always (λ e _, fresh_random e) (server (sent verb path csrf auth fields (jar (browser w)))) (app w)
    (λ a s, always online (k (inr a)) (mkWorld (with_cookies a (browser w)) s) Q) →
  always online (bind (fetch verb path csrf auth fields) k) w Q.
Proof.
  intros H. unfold ApiClient.fetch. apply always_bind, always_browser. intros e (Hd & _ & _). cbn [fst snd]. rewrite Hd. cbn [negb].
  apply always_bind. apply (always_embed (λ e w, (app_env e, w)) app (λ s w, w <| app := s |>) (λ w w', browser w = browser w')
    (PreOrder0 := ltac:(split; [by intros ?|by intros ??? -> ->]))) with (P := λ e _, fresh_random e) (s0 := mkWorld (browser w) (app w)); try done.
  - by intros e' w' _ (_ & _ & Hf).
  - cbn [app]. eapply always_mono; [exact H|]. intros a s HQ w' Hb Hs.
    apply always_act. intros e' (_ & Ha & _). rewrite Ha. cbn [negb fst snd].
    destruct w' as [b' s']. cbn in Hb, Hs. subst b' s'. destruct a; apply always_ret; exact HQ.
Qed.

Lemma with_cookies_client a b : client (with_cookies a b) = client b.
Proof. by destruct a. Qed.

Lemma with_cookies_jar a b : jar_ok (jar b) → jar_ok (jar (with_cookies a b)).
Proof. destruct a; [apply jar_ok_cookies|done..]. Qed.

(** Fetching the token anew *)
Lemma always_sync {B} (k : ApiError + unit → prog NetEnv World B) w Q :
  jar_ok (jar (browser w)) →
  (∀ b s, in_sync b → jar_ok (jar b) → accessToken (client b) = accessToken (client (browser w)) → untouched (app w) s →
     always online (k (inr tt)) (mkWorld b s) Q) →
  always online (bind (syncCsrf server document_cookie page_origin) k) w Q.
Proof.
  intros Hj H. unfold syncCsrf, assign. apply always_bind. apply always_browser. intros e0 _. cbn [fst snd browser app].
  unfold ensureCsrf, this. apply always_browser. intros e1 _. cbn [fst snd browser app].
  change (given (csrfToken (client (browser w <| client ::= λ c, c <| csrfToken := None |> <| csrfInit := None |> |>)))) with (@None string).
  cbn [csrfInit client set_field set_client set_csrfInit]. cbv iota.
  apply always_bind. unfold fetch_csrf. apply always_fetch. cbn [browser app].
  eapply always_mono.
  - apply (csrf_issued _ (jar (browser w))); [reflexivity|reflexivity|reflexivity|reflexivity|exact Hj].
  - intros a s (r & c & -> & Hu & Hc & Hb & Hk). cbv beta. cbn [parseJsonResponse].
    apply always_browser. intros e2 _. cbn [fst snd browser app]. rewrite Hb. apply always_ret.
    apply always_browser. intros e3 _. cbn [fst snd browser app]. apply always_ret.
    apply H; [|by apply jar_ok_cookies|reflexivity|exact Hu]. exists c. split_and!; [exact Hc|reflexivity|exact Hk].
Qed.

(** A request of any method: the jar stays well formed. *)
Lemma always_request {B} verb path fields (k : ApiError + object → prog NetEnv World B) w Q :
  jar_ok (jar (browser w)) → in_sync (browser w) →
  (∀ r b s, jar_ok (jar b) → client b = client (browser w) → always online (k r) (mkWorld b s) Q) →
  always online (bind (request server document_cookie page_origin verb path fields) k) w Q.
Proof.
  intros Hj (c & Hc & Ht & _) H. unfold request. apply always_bind.
  assert (Hrest : always online (
      let! h := on_browser (λ _ b, ((sessionHeaders document_cookie b, given (accessToken (client b))), b)) in
      let* a := fetch verb path h.1 (match h.2 with Some t => Some ("Bearer " +:+ t) | None => None end) fields in
      Ret match parseJsonResponse a with
          | inl e => inl e
          | inr r => if ok r then inr (json_body r) else inl (Refused (json_body r))
          end) w (λ a s', always online (k a) s' Q)).
  { apply always_browser. intros e _. cbn [fst snd]. apply always_fetch. cbn [browser app]. eapply always_mono; [apply always_any|].
    intros a s _. apply always_ret. apply H; [by apply with_cookies_jar|apply with_cookies_client]. }
  destruct (String.eqb verb "GET" || String.eqb verb "HEAD"); [exact Hrest|].
  unfold ensureCsrf, this. apply always_bind, always_browser. intros e _. cbn [fst snd]. rewrite Ht, given_text by done.
  apply always_ret. cbv iota. destruct w. exact Hrest.
Qed.

Lemma always_keep {B} data (k : unit → prog NetEnv World B) w Q :
  (∀ b, jar b = jar (browser w) →
     (∀ t, given (text_field data "accessToken") = Some t → accessToken (client b) = Some t) →
     always online (k tt) (mkWorld b (app w)) Q) →
  always online (bind (keep_token data) k) w Q.
Proof.
  intros H. unfold keep_token. destruct (given (text_field data "accessToken")) as [t|].
  - apply always_browser. intros e _. apply H; [done|]. by intros t' [= <-].
  - destruct w. by apply H.
Qed.

Definition is_inr {A B} (x : A + B) : bool := match x with inr _ => true | inl _ => false end.

(** A successful call has left client and cookie in agreement and kept the token. *)
Definition session_open (r : ApiError + object) (w : World) : Prop :=
  match r with
  | inl _ => True
  | inr data =>
      in_sync (browser w) ∧ jar_ok (jar (browser w)) ∧
      ∀ t, given (text_field data "accessToken") = Some t → accessToken (client (browser w)) = Some t
  end.

Lemma always_keep_sync data w :
  jar_ok (jar (browser w)) →
  always online (keep_token data ;; let* _ := syncCsrf server document_cookie page_origin in Ret (inr data)) w session_open.
Proof.
  intros Hj. apply always_keep. intros b Hb Ht. apply always_sync; cbn [browser app]; [by rewrite Hb|].
  intros b' s Hs Hj' Ha _. apply always_ret. split_and!; [done|done|]. intros t Hd. cbn [browser]. rewrite Ha. by apply Ht.
Qed.

Lemma always_request_session path fields w :
  jar_ok (jar (browser w)) → in_sync (browser w) →
  always online (request_session server document_cookie page_origin path fields) w session_open.
Proof.
  intros Hj Hs. unfold request_session. apply always_request; [done|done|]. intros [e|data] b s Hb _; [by apply always_ret|].
  by apply always_keep_sync.
Qed.

Lemma always_refresh w :
  jar_ok (jar (browser w)) → in_sync (browser w) →
  always online (refreshToken server document_cookie page_origin) w session_open.
Proof.
  intros Hj (c & Hc & Ht & _). unfold refreshToken, ensureCsrf, this. apply always_bind. apply always_browser. intros e _.
  cbn [fst snd]. rewrite Ht, given_text by done. apply always_ret. cbv iota.
  apply always_browser. intros e1 _. cbn [fst snd browser app]. apply always_fetch. cbn [browser app].
  eapply always_mono; [apply always_any|]. intros a s _. cbv beta iota.
  destruct (parseJsonResponse a) as [er|r]; [by apply always_ret|]. destruct (negb (ok r)); [by apply always_ret|].
  apply always_keep_sync. by apply with_cookies_jar.
Qed.

(** C10. Signing in, registering, exchanging an OAuth code and refreshing keep the
    client in agreement with the server: if its CSRF token is the cookie's value
    before the call, then after each of them, when it succeeds, the client holds the access token of the answer and the value of the CSRF
    cookie, so that the CSRF guard lets the next request pass. *)
Theorem sessions_stay_in_sync call w config rq :
  jar_ok (jar (browser w)) → in_sync (browser w) →
  (∃ path fields, call = request_session server document_cookie page_origin path fields) ∨ call = refreshToken server document_cookie page_origin →
  always online call w (λ r w',
    session_open r w' ∧
    (is_inr r = true → cookies rq = VObj (jar (browser w')) →
     csrfHeader rq = match sessionHeaders document_cookie (browser w') with Some c => VStr c | None => VUndef end →
     requireCsrf config rq = Next)).
Proof.
  intros Hj Hs Hcall. eapply always_mono.
  - destruct Hcall as [(path & fields & ->) | ->]; [by apply always_request_session|by apply always_refresh].
  - intros [e|data] w' H; (split; [exact H|]); [done|]. intros _. apply in_sync_passes, H.
Qed.

(** C37. A client whose CSRF token is no longer the cookie: the server refuses the
    logout, and the client does not notice.  It forgets its access token and
    reports success, while the refresh cookie, the stored session and every
    account stay as they are. *)
Theorem stale_logout_keeps_session w es c c' :
  csrfToken (client (browser w)) = Some c → c ≠ "" → obj_get (jar (browser w)) CSRF_COOKIE = VStr c' → c' ≠ c →
  let x := run (logout server document_cookie page_origin) es w in
  x.1 = inr tt ∧ accessToken (client (browser x.2)) = None ∧ jar (browser x.2) = jar (browser w) ∧ app x.2 = app w.
Proof.
  intros Ht Hc Hj Hne. unfold logout, ensureCsrf, this, on_browser. cbn [bind run act]. rewrite !same_browser.
  rewrite Ht, given_text by done. cbn [bind run].
  unfold sessionHeaders. rewrite !same_browser, Ht, given_text by done. cbn [fst snd].
  unfold ApiClient.fetch, on_browser. cbn [bind run act fst snd].
  destruct (delivered _); cbn [negb bind run fst snd].
  - rewrite (csrf_refused _ "/auth/logout" c' c); [|reflexivity|cbn; tauto|reflexivity|reflexivity|exact Hj|reflexivity|done].
    cbn [embed bind run act]. destruct (answered _); cbn [negb fst snd bind run]; by destruct w.
  - by destruct w.
Qed.
End Protocol.

(** ** The server keeps the protocol *)

Section Implements.
Context (sha256_hex sha256_base64url base64url_decode md5_hex : string → string) (hmac_sha256_hex : string → string → string).
Context (Date_toString Date_toISOString : Z → string) (Date_getFullYear startOfDay : Z → Z).
Context (hashPassword : string → string) (verifyPassword : string → option string → VerifyResult).
Context (new_URL : string → option OAuthPkce.URL).
Context `{RKV : RedisKV} `{UDB : UsersDb} `{IDB : IndexDb} `{FK : !ForeignKey UDB IDB} `{J : Jwt} `{ZP : Zod}.
Context (config : AppConfig) (nodeEnv too_long too_short : string).
Context (passport_user : Provider → HttpRequest → prog AppEnv App (option User)).
Local Abbreviation serve := (serve sha256_hex sha256_base64url base64url_decode md5_hex hmac_sha256_hex Date_toString
  Date_toISOString Date_getFullYear startOfDay hashPassword verifyPassword new_URL config nodeEnv too_long too_short passport_user).

Lemma protected_found path :
  In path protected_paths →
  ∃ m p gs h, find_route too_long too_short "POST" ("/api" +:+ path) = Some (route m p (requires_csrf :: gs) h).
Proof.
  intros H. cbn in H.
  repeat match type of H with _ ∨ _ => destruct H as [<-|H]; [do 4 eexists; reflexivity|] end. done.
Qed.

Lemma serve_csrf_protocol page_origin :
  origin_allowed nodeEnv (clientUrl config) (clientUrls config) (Some page_origin) = true →
  omitRefreshInBody (cfg_cookies config) = true → CsrfProtocol serve page_origin.
Proof.
  intros Ho Hm. split.
  - intros q o s Hme Hta Hor Hck Hj. unfold Server.serve. rewrite Hor, Ho, Hme, Hta. cbn [negb].
    change (find_route too_long too_short "GET" "/api/auth/csrf") with (Some (route "GET" "/csrf" [] h_getCsrfToken)).
    cbn [r_guards r_handler run_guards bind handle]. apply always_here. intros e He. cbn [snd].
    unfold getCsrfToken, issueCsrfCookie. rewrite Hck.
    change (opt_prop (VObj o) CSRF_COOKIE) with (obj_get o CSRF_COOKIE).
    assert (Hu : untouched s (tick e s)) by (eexists; reflexivity).
    destruct (truthy (obj_get o CSRF_COOKIE)) eqn:Et; apply always_ret.
    + destruct (Hj CSRF_COOKIE) as [Hg|[c Hg]]; rewrite Hg in *; [done|]. eexists _, c. split_and!; [reflexivity|exact Hu| |reflexivity|exact Hg].
      cbn in Et. apply negb_true_iff in Et. by apply String.eqb_neq.
    + eexists _, (fresh (net e)). split_and!; [reflexivity|exact Hu|exact He|reflexivity|]. apply obj_get_set_eq.
  - intros q path c c' Hme Hin Hta Hor Hck Hh Hne. destruct (protected_found path Hin) as (m & p & gs & h & Hr).
    unfold Server.serve. rewrite Hor, Ho, Hme, Hta, Hr. cbn [negb r_guards run_guards run_guard bind].
    assert (Hc : requireCsrf (cfg_cookies config) (message_parts q) = Reply 403 "CSRF validation failed" None).
    { unfold requireCsrf. rewrite Hm, Hck, Hh. cbn [negb truthy strict_eq].
      rewrite (proj2 (String.eqb_neq c c') Hne). by rewrite orb_true_r. }
    by rewrite Hc.
Qed.
End Implements.

(** ** The PKCE values of the client *)

(** The verifier and the challenge that the front end derives from 32 random
    bytes pass the schemas of the routes they are sent to and the length check
    of the state, and the server accepts the verifier for the challenge. *)
Theorem pkce_accepted `{ZP : Zod} too_long too_short sha256 bytes code state :
  String.length bytes = 32%nat → (∀ v, String.length (sha256 v) = 32%nat) →
  64 ≤ strlen code ≤ 128 → 64 ≤ strlen state ≤ 128 →
  let verifier := generateCodeVerifier bytes in
  let challenge := generateCodeChallenge sha256 verifier in
  valid (oauthPrepareSchema too_long too_short) (VObj [("codeChallenge", VStr challenge)]) = true ∧
  valid (oauthExchangeSchema too_long too_short)
    (VObj [("code", VStr code); ("state", VStr state); ("codeVerifier", VStr verifier)]) = true ∧
  OAuthPkce.verifyPkceChallenge (λ v, b64url (sha256 v)) verifier (Some (JStr challenge)) = true.
Proof.
  intros Hb Hs Hc Hst. cbv zeta.
  assert (Hl : ∀ s, String.length s = 32%nat → strlen (base64UrlEncode s) = 43).
  { intros s H. rewrite base64UrlEncode_plain. unfold strlen. pose proof (plain_length s) as Hp. rewrite H in Hp. cbn in Hp. lia. }
  unfold generateCodeChallenge, generateCodeVerifier. set (v := base64UrlEncode bytes).
  assert (Hv : strlen v = 43) by by apply Hl. assert (Hch : strlen (base64UrlEncode (sha256 v)) = 43) by apply Hl, Hs.
  pose proof (proj2 (Z.leb_le _ _) (proj1 Hc)). pose proof (proj2 (Z.leb_le _ _) (proj2 Hc)).
  pose proof (proj2 (Z.leb_le _ _) (proj1 Hst)). pose proof (proj2 (Z.leb_le _ _) (proj2 Hst)).
  split_and!.
  - cbn. by rewrite Hch.
  - cbn. rewrite Hv. cbn. rewrite !andb_true_r. by rewrite !andb_true_iff.
  - cbn. rewrite b64url_plain, <- base64UrlEncode_plain. apply String.eqb_refl.
Qed.

(** ** A browser and a server *)

Module ClientRun.
Definition server := MemServer.serve.

#[global] Instance protocol : CsrfProtocol server "https://app".
Proof. by apply serve_csrf_protocol. Qed.

(** Nothing of the cookies is visible to the pages. *)
Definition hidden (_ : object) : string := "".

(** Exchanges that are completed, with a random value of their own *)
Definition online_with (r : string) (n : nat) : NetEnv :=
  {| app_env := {| net := {| elapse := 0; events := []; rand_begin := 0; rand_end := 0; fate := Answered; wait := 1; fresh := r;
                             uuids := ("uuid-" +:+ Z_to_string (Z.of_nat n), "jti-" +:+ r) |};
                   smtp := None; randoms := ("random-1", "random-2") |};
     delivered := true; answered := true |}.
Definition offline (n : nat) : NetEnv := {| app_env := app_env (online_with "" n); delivered := false; answered := false |}.

Definition bob : object :=
  obj_assign MemApp.alice [("is_email_verified", VBool false); ("refresh_tokens", VArr []); ("active_access_jtis", VArr []);
    ("email_verification_token", VStr (MemApp.sha "token")); ("email_verification_expires", VDate 86400000)].

(** The page after the link in the mail was opened *)
Definition start : World (RKV := MemKV.mem_kv) (UDB := MemTable.mem_table) (IDB := MemIndex.mem_index) :=
  mkWorld (mkBrowser new_ApiClient [] ∅ "/verify-email")
    (MemApp.opened EmailLink.verify_email "token" (MemApp.app [("u1", bob)] [MemApp.primary "alice@x" "u1" false])).

Definition ready := (run (ensureCsrf server hidden "https://app") (online_with "csrf-1") start).2.
Definition verified := run (verifyEmail server hidden "https://app" MemApp.random "Tr0ub4dor&3") (online_with "csrf-2") ready.
Definition stored_sessions (w : World (RKV := MemKV.mem_kv) (UDB := MemTable.mem_table) (IDB := MemIndex.mem_index)) : option val :=
  (λ r, obj_get r "refresh_tokens") <$> (table (app_users (app w)) !! "u1").
End ClientRun.

(** The token fetch fails once; with the network back the sign-in still throws. *)
Lemma failed_bootstrap_is_final_witness :
  let w1 := (run (ensureCsrf ClientRun.server ClientRun.hidden "https://app") ClientRun.offline ClientRun.start).2 in
  ∃ m, run (login ClientRun.server ClientRun.hidden "https://app" "alice@x.dev" "Tr0ub4dor&3") (ClientRun.online_with "r") w1 = (inl (Failed m), w1).
Proof.
  destruct (failed_bootstrap_is_final ClientRun.server ClientRun.hidden MemApp.sha (λ _, "") "https://app" ClientRun.offline ClientRun.start
    "alice@x.dev" "Tr0ub4dor&3" "" "" "" "" "" "" "" false google None None) as [m H].
  - reflexivity.
  - reflexivity.
  - reflexivity.
  - exists m. exact (proj1 (H (ClientRun.online_with "r"))).
Defined.

(** A sign-in after the page was loaded. *)
Lemma sessions_stay_in_sync_witness :
  let x := run (login ClientRun.server ClientRun.hidden "https://app" "alice@x.dev" "secret") (ClientRun.online_with "csrf-2")
    (mkWorld (browser ClientRun.ready) MemServer.start) in
  is_inr x.1 = true ∧ in_sync (browser x.2) ∧ csrfToken (client (browser x.2)) = Some "csrf-2".
Proof.
  set (w := mkWorld (browser ClientRun.ready) MemServer.start).
  destruct (sessions_stay_in_sync ClientRun.server "https://app" ClientRun.hidden
    (login ClientRun.server ClientRun.hidden "https://app" "alice@x.dev" "secret") w
    (cfg_cookies MemServer.config) (message_parts (MemServer.login_with VUndef))) with (es := ClientRun.online_with "csrf-2") as [H _].
  - assert (E : jar (browser w) = [(CSRF_COOKIE, VStr "csrf-1")]) by (vm_compute; reflexivity). rewrite E.
    intros k. unfold obj_get. cbn [obj_lookup]. destruct (String.eqb CSRF_COOKIE k); [right; by exists "csrf-1"|by left].
  - exists "csrf-1". split_and!; [discriminate|vm_compute; reflexivity|vm_compute; reflexivity].
  - left. eexists _, _. reflexivity.
  - apply (path_check _ (λ e _, delivered e && answered e && negb (String.eqb (fresh (net (app_env e))) ""))).
    + intros e w' H. apply andb_true_iff in H as [H H3]. apply andb_true_iff in H as [H1 H2]. apply negb_true_iff in H3.
      split_and!; [exact H1|exact H2|by apply String.eqb_neq].
    + vm_compute. reflexivity.
  - cbv zeta. split; [vm_compute; reflexivity|]. split; [|vm_compute; reflexivity].
    unfold session_open in H. assert (E : ∃ data, (run (login ClientRun.server ClientRun.hidden "https://app" "alice@x.dev" "secret")
      (ClientRun.online_with "csrf-2") w).1 = inr data) by (eexists; vm_compute; reflexivity).
    destruct E as [data E]. rewrite E in H. exact (proj1 H).
Defined.

(** After the address was verified the server has a new cookie and the client
    the old token; a logout then leaves the session of the account stored. *)
Lemma stale_logout_keeps_session_witness :
  let x := run (logout ClientRun.server ClientRun.hidden "https://app") (ClientRun.online_with "r") ClientRun.verified.2 in
  is_inr ClientRun.verified.1 = true ∧ x.1 = inr tt ∧ jar (browser x.2) = jar (browser ClientRun.verified.2) ∧
  app x.2 = app ClientRun.verified.2 ∧ ClientRun.stored_sessions x.2 ≠ Some (VArr []).
Proof.
  cbv zeta.
  destruct (stale_logout_keeps_session ClientRun.server "https://app" ClientRun.hidden ClientRun.verified.2 (ClientRun.online_with "r") "csrf-1" "csrf-2")
    as (H1 & _ & H3 & H4).
  - vm_compute. reflexivity.
  - discriminate.
  - vm_compute. reflexivity.
  - discriminate.
  - split; [vm_compute; reflexivity|]. split; [exact H1|]. split; [exact H3|]. split; [exact H4|].
    vm_compute. discriminate.
Defined.

Lemma pkce_accepted_witness :
  let bytes := "abcdefghijklmnopqrstuvwxyz012345" in
  let verifier := generateCodeVerifier bytes in
  valid (oauthPrepareSchema "" "") (VObj [("codeChallenge", VStr (generateCodeChallenge (λ _, bytes) verifier))]) = true ∧
  OAuthPkce.verifyPkceChallenge (λ _, b64url bytes) verifier (Some (JStr (generateCodeChallenge (λ _, bytes) verifier))) = true.
Proof.
  cbv zeta. destruct (pkce_accepted (ZP := ToyZod.toy_zod) "" "" (λ _, "abcdefghijklmnopqrstuvwxyz012345")
    "abcdefghijklmnopqrstuvwxyz012345" MemApp.random MemApp.random) as (H1 & _ & H3).
  - reflexivity.
  - reflexivity.
  - vm_compute. split; discriminate.
  - vm_compute. split; discriminate.
  - split; [exact H1|exact H3].
Defined.
