(* ===== verification/AuthContext.v ===== *)
(** * The authentication context of the front end

    Models the provider of [uam-frontend/src/context/AuthContext.tsx]: the
    signed-in user the pages see, kept by [refreshUser], [login], [register],
    [logout] and [setUserFromOAuth] over the API client, and the list of recent
    accounts in [localStorage].  React's state is a field of [Page]; a
    component sees it after the handler. *)

From S2P Require Import Prelude CircuitConfig RollingWindow CircuitBreaker GuardedCalls Async RedisCache Json JsVal Columns SqlFilter SqlMeaning Password UserModel OneTimeCodes Sessions IdentityIndex Tokens SessionHandlers UsersTable Documents Application AuthController MigrationController AppFacts MigrationHistory MemApp AuthFacts MigrationFacts Validators Server RecentAccounts ApiClient.
#[local] Open Scope string_scope.
#[local] Open Scope list_scope.
#[local] Open Scope Z_scope.
#[local] Open Scope async_scope.

Section Context.
Context `{RKV : RedisKV} `{UDB : UsersDb} `{IDB : IndexDb}.
Context (server : HttpRequest → prog AppEnv App HttpAnswer).
Context (document_cookie : object → string) (page_origin : string).
Context (new_URL : string → option (string * string)).

Record Page := mkPage {
  world : World;
  user : option val;                (** [null]: nobody is signed in *)
  isLoading : bool;
  recent : option string;           (** [localStorage] under [RECENT_ACCOUNTS_KEY] *)
}.
#[global] Instance set_world : Setter world := λ g p, mkPage (g (world p)) (user p) (isLoading p) (recent p).
#[global] Instance set_user : Setter user := λ g p, mkPage (world p) (g (user p)) (isLoading p) (recent p).
#[global] Instance set_isLoading : Setter isLoading := λ g p, mkPage (world p) (user p) (g (isLoading p)) (recent p).
#[global] Instance set_recent : Setter recent := λ g p, mkPage (world p) (user p) (isLoading p) (g (recent p)).

Definition isAuthenticated (p : Page) : bool := match user p with Some _ => true | None => false end.

(** The methods of the API client *)
Definition api {A} (p : prog NetEnv World A) : prog NetEnv Page A :=
  embed (λ e p, (e, p)) world (λ w p, p <| world := w |>) p.

Definition now (p : Page) : Z := RedisCache.clock (app_cache (app (world p))).
Definition update (f : Page → Page) : prog NetEnv Page unit := act (λ _ p, (tt, f p)).

Definition setUser (u : option val) : prog NetEnv Page unit := update (λ p, p <| user := u |>).

(** [saveRecentAccount({ email, displayName, avatar: sanitizeAvatarUrl(...), provider: ... || 'local' })]; by
    its type the response has both texts. *)
Definition recent_of (u : val) (t : Z) : RecentAccount :=
  {| ra_email := default "" (text_of (opt_prop u "email"));
     ra_displayName := default "" (text_of (opt_prop u "displayName"));
     ra_avatar := sanitizeAvatarUrl new_URL (text_of (opt_prop u "avatar"));
     ra_provider := default "local" (given (text_of (opt_prop u "provider")));
     lastUsed := t |}.
Definition remember (u : val) : prog NetEnv Page unit :=
  update (λ p, p <| recent ::= saveRecentAccount (recent_of u (now p)) |>).

(** [response.success && response.user] *)
Definition user_in (data : object) : option val :=
  let u := obj_get data "user" in
  if truthy (obj_get data "success") && truthy u then Some u else None.

Definition clear : prog NetEnv Page unit := api (assign clearTokens).
Definition get_token : prog NetEnv Page (option string) := api (let! c := this in Ret (given (accessToken c))).

(** [const response = await api.getMe()] and what follows it; [save]: with the list of recent accounts *)
Definition load_user (save : bool) : prog NetEnv Page (ApiError + unit) :=
  let* data := api (getMe server document_cookie page_origin) in
  match user_in data with
  | Some u =>
      setUser (Some u) ;;
      (if save then remember u else Ret tt) ;;
      Ret (inr tt)
  | None => setUser None ;; clear ;; Ret (inr tt)
  end.

(** The outer [catch] *)
Definition retry_user : prog NetEnv Page unit :=
  let! r := (let* _ := api (refreshToken server document_cookie page_origin) in load_user false) in
  match r with
  | inr _ => Ret tt
  | inl _ => setUser None ;; clear
  end.

Definition refreshUser : prog NetEnv Page unit :=
  let! token := get_token in
  let! ready := match token with
                | Some _ => Ret true
                | None =>
                    let! r := api (refreshToken server document_cookie page_origin) in
                    match r with inr _ => Ret true | inl _ => setUser None ;; Ret false end
                end in
  if negb ready then Ret tt
  else
    let! r := load_user true in
    match r with inr _ => Ret tt | inl _ => retry_user end.

(** The effect that runs when the provider is mounted *)
Definition initAuth : prog NetEnv Page unit :=
  let! r := api (ensureCsrf server document_cookie page_origin) in
  let! _ := match r with inr _ => refreshUser | inl _ => Ret tt end in
  update (λ p, p <| isLoading := false |>).

Definition login (email password : string) : prog NetEnv Page (ApiError + object) :=
  let* data := api (ApiClient.login server document_cookie page_origin email password) in
  let! _ := match user_in data with Some u => setUser (Some u) ;; remember u | None => Ret tt end in
  Ret (inr data).

Definition register (email password displayName : string) : prog NetEnv Page (ApiError + object) :=
  let* data := api (ApiClient.register server document_cookie page_origin email password displayName) in
  let! _ :=
    match truthy (obj_get data "success"), given (text_field data "accessToken") with
    | true, Some t =>
        api (assign (setTokens t)) ;;
        (if truthy (obj_get data "user") then setUser (Some (obj_get data "user")) ;; remember (obj_get data "user") else Ret tt)
    | _, _ => Ret tt
    end in
  Ret (inr data).

Definition logout : prog NetEnv Page (ApiError + unit) :=
  let* _ := api (ApiClient.logout server document_cookie page_origin) in
  setUser None ;;
  update (λ p, p <| recent ::= clearAllRecentAccounts |>) ;;
  Ret (inr tt).

Definition setUserFromOAuth (accessToken : string) : prog NetEnv Page unit :=
  api (assign (setTokens accessToken)) ;; refreshUser.
End Context.

(** ** A migration finalised in the browser *)

Module SignedIn.
Definition server := MemServer.serve.

Definition start : Page (RKV := MemKV.mem_kv) (UDB := MemTable.mem_table) (IDB := MemIndex.mem_index) :=
  mkPage (mkWorld (browser ClientRun.ready)
    (MemApp.app [("u1", obj_assign MemApp.alice [("email", VStr "alice@x.dev")]);
                 ("u2", MemApp.account [("id", VStr "u2"); ("email", VStr "alice@y.dev"); ("display_name", VStr "Alice")])]
       [MemApp.primary "alice@x.dev" "u1" true; MemApp.primary "alice@y.dev" "u2" true])) None true None.
Definition signed_in := run (login server ClientRun.hidden "https://app" (λ _, None) "alice@x.dev" "secret") (ClientRun.online_with "csrf-2") start.

(** Both addresses of a migration have been verified since. *)
Definition pending (p : Page (RKV := MemKV.mem_kv) (UDB := MemTable.mem_table) (IDB := MemIndex.mem_index)) :=
  p <| world ::= λ w, w <| app ::= λ s, s <| app_users ::= (alter (λ r, obj_assign r [("new_email_pending", VStr "alice@y.dev");
    ("migration_token_expires", VDate 2000000); ("current_email_verified", VBool true); ("new_email_verified", VBool true)]) "u1"
      : MemTable.mem_table.(db) → MemTable.mem_table.(db)) |> |> |>.

Definition finalised := run (api (finalizeMigration server ClientRun.hidden "https://app")) (ClientRun.online_with "csrf-3") (pending signed_in.2).
Definition refreshed := run (refreshUser server ClientRun.hidden "https://app" (λ _, None)) (ClientRun.online_with "csrf-4") finalised.2.
End SignedIn.

(** The provider always stops loading, whatever the server answers. *)
Lemma initAuth_loaded `{RKV : RedisKV} `{UDB : UsersDb} `{IDB : IndexDb} server document_cookie page_origin new_URL es (p : Page) :
  isLoading (run (initAuth server document_cookie page_origin new_URL) es p).2 = false.
Proof.
  unfold initAuth. destruct (run_bind_any (api (ensureCsrf server document_cookie page_origin)) (λ r,
    let! _ := match r with inr _ => refreshUser server document_cookie page_origin new_URL | inl _ => Ret tt end in
    update (λ p, p <| isLoading := false |>)) es p) as [es' ->].
  destruct (run_bind_any match (run (api (ensureCsrf server document_cookie page_origin)) es p).1 with
    | inr _ => refreshUser server document_cookie page_origin new_URL | inl _ => Ret tt end
    (λ _, update (λ p, p <| isLoading := false |>)) es' (run (api (ensureCsrf server document_cookie page_origin)) es p).2) as [es'' ->].
  reflexivity.
Qed.

(** Finalising a migration onto the address of another account, from the page
    of the signed-in user: the server answers with a new session, but the
    client takes neither the new access token nor the new CSRF token.  When the
    page then asks who is signed in, the old token is stale, the refresh is
    refused for its CSRF token, and the user is signed out; after a reload the
    same browser is signed in again. *)
Theorem migration_signs_out :
  isAuthenticated SignedIn.signed_in.2 = true ∧ is_inr SignedIn.finalised.1 = true ∧
  isAuthenticated SignedIn.refreshed.2 = false ∧ accessToken (client (browser (world SignedIn.refreshed.2))) = None ∧
  let reloaded := SignedIn.refreshed.2 <| world ::= λ w, w <| browser ::= λ b, b <| client := new_ApiClient |> |> |> in
  isAuthenticated (run (initAuth SignedIn.server ClientRun.hidden "https://app" (λ _, None)) (ClientRun.online_with "csrf-5") reloaded).2 = true.
Proof. vm_compute. repeat split. Qed.
