(* ===== verification/DemoBackend.v ===== *)
(** * The demo backend

    Models [demo-backend/src/users.ts] (a store of credentials in one JSON file)
    and the authentication endpoints of [demo-backend/src/server.ts] (registration,
    login, tokens for development, the identity of a proxied request).

    The state is the file.  [registerUser] reads it, waits for bcrypt and writes
    it, so that requests may interleave at the wait.  bcrypt and HMAC are the
    operations of [Crypto]; strings are texts of bytes. *)

From S2P Require Import Prelude CircuitConfig Async Json JsVal Password Base64 Validators.
#[local] Open Scope string_scope.
#[local] Open Scope list_scope.
#[local] Open Scope Z_scope.
#[local] Open Scope async_scope.

(** ** The store *)

Definition DEFAULT_COST : Z := 12.
Definition MIN_PASSWORD_LEN : Z := 8.
Definition MAX_PASSWORD_LEN : Z := 128.

(** [process.env.BCRYPT_COST || '12'] *)
Definition bcryptCost (env : option string) : Z :=
  let s := match env with Some s => if String.eqb s "" then "12" else s | None => "12" end in
  match parseInt10 s with
  | Fin n => if (n <? 10) || (15 <? n) then DEFAULT_COST else n
  | _ => DEFAULT_COST
  end.

(** [parsed.users] in the file: not an object, [null], or an object.  The
    service writes no other object than a plain one. *)
Inductive StoredUsers := NoUsers | NullUsers | Users (o : object).

(** The file: missing, not JSON (with the message of the parser), or parsed *)
Inductive StoreFile := Absent | Corrupt (message : string) | Holds (u : StoredUsers).

Definition loadStore (f : StoreFile) : outcome (option object) :=
  match f with
  | Absent | Holds NoUsers => Returned (Some [])
  | Corrupt m => Thrown ("user store read failed: " +:+ m)
  | Holds NullUsers => Returned None
  | Holds (Users o) => Returned (Some o)
  end.

(** [{ users }] written to a temporary file that replaces the old one *)
Definition saveStore (o : object) : StoreFile := Holds (Users o).

(** The members every object inherits *)
Definition Object_prototype : list string :=
  ["constructor"; "__defineGetter__"; "__defineSetter__"; "hasOwnProperty"; "__lookupGetter__"; "__lookupSetter__";
   "isPrototypeOf"; "propertyIsEnumerable"; "toString"; "valueOf"; "__proto__"; "toLocaleString"].

(** What [store.users[username]] is *)
Inductive Found := NotThere | Own (record : val) | Inherited.

Definition lookup_user (o : object) (username : string) : Found :=
  match obj_lookup o username with
  | Some r => if truthy r then Own r else NotThere
  | None => if existsb (String.eqb username) Object_prototype then Inherited else NotThere
  end.

(** ** Validation *)

(** [/^[a-zA-Z0-9._-]{3,64}$/] *)
Definition username_char (c : Ascii.ascii) : bool :=
  is_letter c || is_digit c || Ascii.eqb c "."%char || Ascii.eqb c "_"%char || Ascii.eqb c "-"%char.
Definition USERNAME_RE (s : string) : bool := (3 <=? strlen s) && (strlen s <=? 64) && all_chars username_char s.

Definition validateUsername (username : string) : option string :=
  if negb (USERNAME_RE username) then Some "username must be 3–64 chars (letters, digits, . _ -)" else None.

Definition validatePassword (password : string) : option string :=
  if (strlen password <? MIN_PASSWORD_LEN) || (MAX_PASSWORD_LEN <? strlen password)
  then Some "password must be 8–128 characters" else None.

(** ** Registration and authentication *)

Inductive Result := Ok (username home_region : string) | Bad (status : Z) (error : string).

(** What a piece of code reads: the salt bcrypt draws, the time as a text, the
    seconds of the clock and a UUID *)
Record DemoEnv := { salt : string; iso : string; secs : Z; new_uuid : string }.

Section Users.
Context `{C : Crypto}.

Definition pepperedMaterial (password pepper : string) : string := hmac_sha256_hex pepper password.
Definition hashPassword (salt password pepper : string) : string := bcrypt_hash (pepperedMaterial password pepper) salt.
Definition verifyPassword (password pepper storedHash : string) : bool :=
  bcrypt_compare (pepperedMaterial password pepper) storedHash.

(** [bcrypt.hashSync('no-such-user-dummy', bcryptCost())] at start *)
Context (DUMMY_HASH : string).

Definition user_record (hash region created : string) : val :=
  VObj [("password_hash", VStr hash); ("home_region", VStr region); ("created_at", VStr created)].

Definition null_error : string := "Cannot read properties of null".

Definition registerUser (username password homeRegion pepper : string) : prog DemoEnv StoreFile (outcome Result) :=
  match validateUsername username, validatePassword password with
  | Some e, _ => Ret (Returned (Bad 400 e))
  | None, Some e => Ret (Returned (Bad 400 e))
  | None, None =>
      if String.eqb pepper "" then Ret (Returned (Bad 500 "PASSWORD_PEPPER not configured"))
      else
        let! loaded := act (λ _ f, (loadStore f, f)) in
        match loaded with
        | Thrown e => Ret (Thrown e)
        | Returned None => Ret (Thrown null_error)
        | Returned (Some users) =>
            match lookup_user users username with
            | NotThere =>
                act (λ e _,
                  let region := if String.eqb homeRegion "" then "US" else homeRegion in
                  let users := obj_set users username (user_record (hashPassword (salt e) password pepper) region (iso e)) in
                  (Returned (Ok username region), saveStore users))
            | _ => Ret (Returned (Bad 409 "username already exists"))
            end
        end
  end.

(** [record.password_hash]: [bcrypt.compare] throws when it is not a text. *)
Definition stored_hash (found : Found) : outcome string :=
  match found with
  | NotThere => Returned DUMMY_HASH
  | Own r => match opt_prop r "password_hash" with VStr h => Returned h | _ => Thrown "data and hash must be strings" end
  | Inherited => Thrown "data and hash must be strings"
  end.

Definition authenticateUser (username password pepper : string) : prog DemoEnv StoreFile (outcome Result) :=
  if String.eqb username "" || String.eqb password "" then Ret (Returned (Bad 400 "username and password required"))
  else if String.eqb pepper "" then Ret (Returned (Bad 500 "PASSWORD_PEPPER not configured"))
  else
    let! loaded := act (λ _ f, (loadStore f, f)) in
    match loaded with
    | Thrown e => Ret (Thrown e)
    | Returned None => Ret (Thrown null_error)
    | Returned (Some users) =>
        let found := lookup_user users username in
        match stored_hash found with
        | Thrown e => Ret (Thrown e)
        | Returned hash =>
            let matches := verifyPassword password pepper hash in
            match found with
            | Own r =>
                if matches
                then Ret (Returned (Ok username (match opt_prop r "home_region" with
                                                  | VStr s => if String.eqb s "" then "US" else s
                                                  | _ => "US"
                                                  end)))
                else Ret (Returned (Bad 401 "invalid username or password"))
            | _ => Ret (Returned (Bad 401 "invalid username or password"))
            end
        end
    end.
End Users.

(** ** Tokens *)

Section Server.
Context `{C : Crypto} (DUMMY_HASH : string).
(** [createHmac('sha256', secret).update(text).digest()], as bytes *)
Context (hmac_sha256 : string → string → string).
(** [process.env] *)
Context (JWT_SECRET PASSWORD_PEPPER : string) (EXPECTED_ISSUER EXPECTED_AUDIENCE : string) (AUTH_DEV_TOKENS : bool).

(** The claims, in the order in which they are printed *)
Definition claims (sub homeRegion jti : string) (now ttl : Z) : json :=
  JObj [("sub", JStr sub); ("home_region", JStr homeRegion); ("iss", JStr EXPECTED_ISSUER); ("aud", JStr EXPECTED_AUDIENCE);
        ("iat", JNum now); ("nbf", JNum now); ("exp", JNum (now + ttl)); ("jti", JStr jti)].

Definition header : json := JObj [("alg", JStr "HS256"); ("typ", JStr "JWT")].

(** [mintJwt({ sub, homeRegion, jti, ttlSecs })] at [now] seconds; [uuid] is the one drawn when [jti] is missing *)
Definition mintJwt (sub homeRegion : string) (jti : option string) (ttlSecs now : Z) (uuid : string) : string * json :=
  let id := match jti with Some j => if String.eqb j "" then uuid else j | None => uuid end in
  let payload := claims sub homeRegion id now (if ttlSecs =? 0 then 3600 else ttlSecs) in
  let signingInput := b64url (stringify header) +:+ "." +:+ b64url (stringify payload) in
  (signingInput +:+ "." +:+ b64url (hmac_sha256 JWT_SECRET signingInput), payload).

(** [Number.isFinite(ttl) ? Math.max(1, Math.min(86400, ttl)) : 3600]; the numbers are whole. *)
Definition ttl_of (ttl : val) : Z := match ttl with VNum n => Z.max 1 (Z.min 86400 n) | _ => 3600 end.

(** [String(a || b || fallback)]; parsed JSON holds no dates. *)
Definition first_text (vs : list val) (fallback : string) : string :=
  match List.find truthy vs with Some v => to_string (λ _, "") v | None => fallback end.

Record Reply := { r_status : Z; r_json : json }.
Definition error_reply (status : Z) (error : string) : Reply := {| r_status := status; r_json := JObj [("error", JStr error)] |}.

(** [POST /auth/register] *)
Definition register_handler (body : val) : prog DemoEnv StoreFile Reply :=
  let username := trim (first_text [opt_prop body "username"; opt_prop body "sub"] "") in
  let password := first_text [opt_prop body "password"] "" in
  let homeRegion := first_text [opt_prop body "home_region"] "US" in
  let! r := registerUser username password homeRegion PASSWORD_PEPPER in
  Ret match r with
      | Returned (Ok u region) =>
          {| r_status := 201;
             r_json := JObj [("status", JStr "registered"); ("username", JStr u); ("home_region", JStr region);
                             ("note", JStr "password stored as bcrypt hash; pepper never persisted (ADR-0049)")] |}
      | Returned (Bad status e) => error_reply status e
      | Thrown e => error_reply 500 e
      end.

(** [POST /auth/login] *)
Definition login_handler (body : val) : prog DemoEnv StoreFile Reply :=
  if String.eqb JWT_SECRET "" then Ret (error_reply 500 "JWT_SECRET not configured")
  else
    let username := trim (first_text [opt_prop body "username"; opt_prop body "sub"] "") in
    let password := first_text [opt_prop body "password"] "" in
    let! r := authenticateUser DUMMY_HASH username password PASSWORD_PEPPER in
    match r with
    | Returned (Ok u region) =>
        act (λ e f, let '(token, payload) := mintJwt u region None (ttl_of (opt_prop body "ttl")) (secs e) (new_uuid e) in
                    ({| r_status := 200; r_json := JObj [("token", JStr token); ("claims", payload)] |}, f))
    | Returned (Bad status e) => Ret (error_reply status e)
    | Thrown e => Ret (error_reply 500 e)
    end.

(** [POST /auth/dev-token]; a [jti] that is not a text is not modelled. *)
Definition dev_token_handler (body : val) : prog DemoEnv StoreFile Reply :=
  if negb AUTH_DEV_TOKENS then
    Ret {| r_status := 403;
           r_json := JObj [("error", JStr "dev token minting disabled");
                           ("hint", JStr "AUTH_DEV_TOKENS=0 — point the frontend /auth proxy at a real auth service.")] |}
  else if String.eqb JWT_SECRET "" then Ret (error_reply 500 "JWT_SECRET not configured on backend-test-service")
  else
    let sub := first_text [opt_prop body "sub"] "test-user" in
    let homeRegion := first_text [opt_prop body "home_region"] "US" in
    let jti := match opt_prop body "jti" with VStr s => Some s | _ => None end in
    act (λ e f, let '(token, payload) := mintJwt sub homeRegion jti (ttl_of (opt_prop body "ttl")) (secs e) (new_uuid e) in
                ({| r_status := 200;
                    r_json := JObj [("token", JStr token); ("claims", payload); ("note", JStr "dev token — signed with shared JWT_SECRET")] |}, f)).
End Server.

(** ** Facts *)

Section Facts.
Context `{C : Crypto} {CL : CryptoLaws C} (DUMMY_HASH : string).

(** A name that can be registered *)
Definition acceptable (username password pepper : string) : Prop :=
  validateUsername username = None ∧ validatePassword password = None ∧ pepper ≠ "".

Definition same_password (pepper p q : string) : bool := String.eqb (hmac_sha256_hex pepper p) (hmac_sha256_hex pepper q).

Lemma verify_hash salt password candidate pepper :
  verifyPassword candidate pepper (hashPassword salt password pepper) = same_password pepper candidate password.
Proof.
  unfold verifyPassword, hashPassword, pepperedMaterial, same_password. rewrite bcrypt_compare_hash.
  rewrite !substring_full by (rewrite hmac_length; lia). done.
Qed.

Lemma lookup_set o u v w : truthy v = true → lookup_user (obj_set o u v) w = if String.eqb u w then Own v else lookup_user o w.
Proof.
  intros Hv. unfold lookup_user. rewrite obj_lookup_set. destruct (String.eqb u w); [by rewrite Hv|done].
Qed.

Lemma acceptable_nonempty username password pepper :
  acceptable username password pepper → String.eqb username "" = false ∧ String.eqb password "" = false ∧ String.eqb pepper "" = false.
Proof.
  intros (Hu & Hp & Hn). split_and!; [|by destruct password|by apply String.eqb_neq].
  by destruct username.
Qed.

(** The file after a registration *)
Lemma register_run username password region pepper es f users :
  acceptable username password pepper → loadStore f = Returned (Some users) → lookup_user users username = NotThere →
  let home := if String.eqb region "" then "US" else region in
  run (registerUser username password region pepper) es f =
  (Returned (Ok username home),
   saveStore (obj_set users username (user_record (hashPassword (salt (es 1%nat)) password pepper) home (iso (es 1%nat))))).
Proof.
  intros Ha Hl Hn. destruct (acceptable_nonempty _ _ _ Ha) as (_ & _ & Hp). destruct Ha as (Hu & Hv & _). cbv zeta.
  unfold registerUser. rewrite Hu, Hv, Hp. cbn [bind run act]. rewrite Hl. cbn [bind run]. rewrite Hn. reflexivity.
Qed.

Lemma authenticate_run username candidate pepper es f users :
  username ≠ "" → candidate ≠ "" → pepper ≠ "" → loadStore f = Returned (Some users) →
  run (authenticateUser DUMMY_HASH username candidate pepper) es f =
  (match stored_hash DUMMY_HASH (lookup_user users username) with
   | Thrown e => Thrown e
   | Returned hash =>
       match lookup_user users username with
       | Own r => if verifyPassword candidate pepper hash
                  then Returned (Ok username (match opt_prop r "home_region" with
                                              | VStr s => if String.eqb s "" then "US" else s | _ => "US" end))
                  else Returned (Bad 401 "invalid username or password")
       | _ => Returned (Bad 401 "invalid username or password")
       end
   end, f).
Proof.
  intros Hu Hc Hp Hl. unfold authenticateUser. rewrite !(proj2 (String.eqb_neq _ _)) by done. cbn [orb bind run act]. rewrite Hl.
  cbn [bind run]. destruct (stored_hash _ _); [|reflexivity]. destruct (lookup_user users username); [reflexivity| |reflexivity].
  by destruct (verifyPassword candidate pepper a).
Qed.

(** A registered user can sign in, and only with a password of the same HMAC;
    the region is the one of the registration.  The other users are not
    affected, and a second registration of the name is refused without change. *)
Theorem register_then_login username password region pepper es es' f users candidate :
  acceptable username password pepper → loadStore f = Returned (Some users) → lookup_user users username = NotThere →
  candidate ≠ "" →
  let x := run (registerUser username password region pepper) es f in
  let home := if String.eqb region "" then "US" else region in
  x.1 = Returned (Ok username home) ∧
  run (authenticateUser DUMMY_HASH username candidate pepper) es' x.2 =
    (if same_password pepper candidate password then Returned (Ok username home)
     else Returned (Bad 401 "invalid username or password"), x.2) ∧
  (∀ other, other ≠ username → other ≠ "" →
   (run (authenticateUser DUMMY_HASH other candidate pepper) es' x.2).1 = (run (authenticateUser DUMMY_HASH other candidate pepper) es' f).1) ∧
  run (registerUser username candidate region pepper) es' x.2 =
    (match validatePassword candidate with Some e => Returned (Bad 400 e) | None => Returned (Bad 409 "username already exists") end, x.2).
Proof.
  intros Ha Hl Hn Hc. cbv zeta. rewrite (register_run _ _ _ _ es f users Ha Hl Hn). cbn [fst snd].
  set (home := if String.eqb region "" then "US" else region).
  set (r := user_record _ home _). set (users' := obj_set users username r).
  assert (Hl' : loadStore (saveStore users') = Returned (Some users')) by done.
  destruct (acceptable_nonempty _ _ _ Ha) as (Hu & _ & Hp). pose proof Ha as (Hv & _ & Hne). apply String.eqb_neq in Hu.
  assert (Hhome : String.eqb home "" = false) by (unfold home; by destruct (String.eqb region "") eqn:E).
  assert (Hown : lookup_user users' username = Own r) by (unfold users'; by rewrite lookup_set, String.eqb_refl).
  split_and!; [done| | |].
  - rewrite (authenticate_run username candidate pepper es' _ users') by done. rewrite Hown. cbn [stored_hash].
    change (opt_prop r "password_hash") with (VStr (hashPassword (salt (es 1%nat)) password pepper)). cbv iota.
    rewrite verify_hash. change (opt_prop r "home_region") with (VStr home). cbv iota. rewrite Hhome.
    by destruct (same_password pepper candidate password).
  - intros other Ho Hoe. rewrite (authenticate_run other candidate pepper es' _ users'), (authenticate_run other candidate pepper es' f users) by done.
    assert (E : lookup_user users' other = lookup_user users other)
      by (unfold users'; rewrite lookup_set by done; by rewrite (proj2 (String.eqb_neq _ _)) by congruence).
    by rewrite E.
  - unfold registerUser. rewrite Hv. destruct (validatePassword candidate); [done|]. rewrite Hp. cbn [bind run act].
    rewrite Hl'. cbn [bind run]. by rewrite Hown.
Qed.

(** Two registrations that overlap: both are answered with success, but the
    second write replaces the file by the users it had read before the first,
    and the first user cannot sign in. *)
Theorem registration_lost u1 p1 u2 p2 region pepper f users e0 e1 e2 e3 es :
  acceptable u1 p1 pepper → acceptable u2 p2 pepper → u1 ≠ u2 → region ≠ "" →
  loadStore f = Returned (Some users) → lookup_user users u1 = NotThere → lookup_user users u2 = NotThere →
  let x := play [(0%nat, e0); (1%nat, e1); (0%nat, e2); (1%nat, e3)] [registerUser u1 p1 region pepper; registerUser u2 p2 region pepper] f in
  x.1 = [Ret (Returned (Ok u1 region)); Ret (Returned (Ok u2 region))] ∧
  run (authenticateUser DUMMY_HASH u1 p1 pepper) es x.2 = (Returned (Bad 401 "invalid username or password"), x.2).
Proof.
  intros H1 H2 Hne Hr Hl Hn1 Hn2. cbv zeta. apply String.eqb_neq in Hr.
  destruct (acceptable_nonempty _ _ _ H1) as (Hu & Hw & Hp). pose proof H1 as (Hv1 & Hw1 & Hpe). pose proof H2 as (Hv2 & Hw2 & _).
  unfold registerUser. rewrite Hv1, Hw1, Hv2, Hw2, Hp.
  cbn [play bind act lookup list_lookup]. cbn. rewrite !Hl. cbn. rewrite !Hn1, !Hn2. cbn. rewrite Hr. split; [reflexivity|].
  rewrite (authenticate_run u1 p1 pepper es _ (obj_set users u2 (user_record (hashPassword (salt e3) p2 pepper) region (iso e3))));
    [|by apply String.eqb_neq|by apply String.eqb_neq|done|done].
  rewrite lookup_set by done. by rewrite (proj2 (String.eqb_neq u2 u1)), Hn1 by congruence.
Qed.

(** The names that every object inherits are valid user names, but can never
    be registered, and a login with them fails with an exception instead of 401. *)
Theorem inherited_names_refused username password region pepper es f users :
  In username Object_prototype → validatePassword password = None → pepper ≠ "" →
  loadStore f = Returned (Some users) → obj_lookup users username = None →
  validateUsername username = None ∧
  run (registerUser username password region pepper) es f = (Returned (Bad 409 "username already exists"), f) ∧
  run (authenticateUser DUMMY_HASH username password pepper) es f = (Thrown "data and hash must be strings", f).
Proof.
  intros Hin Hw Hp Hl Ho.
  assert (Hv : validateUsername username = None ∧ username ≠ "").
  { assert (Hall : forallb (λ u, bool_decide (validateUsername u = None) && negb (String.eqb u "")) Object_prototype = true)
      by (vm_compute; reflexivity).
    rewrite forallb_forall in Hall. apply Hall, andb_true_iff in Hin as [H1 H2]. apply bool_decide_eq_true in H1.
    apply negb_true_iff in H2. split; [done|by apply String.eqb_neq]. }
  destruct Hv as [Hv Hu].
  assert (Hf : lookup_user users username = Inherited).
  { unfold lookup_user. rewrite Ho. replace (existsb (String.eqb username) Object_prototype) with true; [done|].
    symmetry. apply existsb_exists. exists username. by rewrite String.eqb_refl. }
  split_and!; [done| |].
  - unfold registerUser. rewrite Hv, Hw, (proj2 (String.eqb_neq _ _) Hp). cbn [bind run act]. rewrite Hl. cbn [bind run]. by rewrite Hf.
  - rewrite (authenticate_run username password pepper es f users) by (done || by destruct password). by rewrite Hf.
Qed.
End Facts.

(** *** Tokens *)

Lemma string_app_assoc s t u : (s +:+ t) +:+ u = s +:+ (t +:+ u).
Proof. induction s as [|c s IH]; [done|]. change (String c ((s +:+ t) +:+ u) = String c (s +:+ (t +:+ u))). by rewrite IH. Qed.

Lemma split_char_app c s t :
  (∀ x, In x (String.list_ascii_of_string s) → Ascii.eqb x c = false) → split_char c (s +:+ String c "" +:+ t) = s :: split_char c t.
Proof.
  induction s as [|x s IH]; intros H.
  - change ("" +:+ String c "" +:+ t) with (String c t). cbn [split_char]. by rewrite Ascii.eqb_refl.
  - change (String x s +:+ String c "" +:+ t) with (String x (s +:+ String c "" +:+ t)). cbn [split_char].
    rewrite (H x) by (by left). rewrite IH; [done|]. intros y Hy. apply H. by right.
Qed.

Lemma split_char_none c s : (∀ x, In x (String.list_ascii_of_string s) → Ascii.eqb x c = false) → split_char c s = [s].
Proof.
  induction s as [|x s IH]; intros H; [done|]. cbn [split_char]. rewrite (H x) by (by left). rewrite IH; [done|]. intros y Hy. apply H. by right.
Qed.

(** A token of the demo backend has three parts; the second decodes to the
    claims, whose lifetime is the requested one within a second and a day, and
    the third is the signature over the first two. *)
Theorem minted_token_decodes hmac_sha256 JWT_SECRET issuer audience sub region jti body now uuid :
  let '(token, payload) := mintJwt hmac_sha256 JWT_SECRET issuer audience sub region jti (ttl_of body) now uuid in
  ∃ h p s, split_char "."%char token = [h; p; s] ∧ Json.parse (decode h) = Some header ∧ Json.parse (decode p) = Some payload ∧
    decode s = hmac_sha256 JWT_SECRET (h +:+ "." +:+ p) ∧
    ∃ exp, get_member "exp" payload = Some (JNum exp) ∧ get_member "sub" payload = Some (JStr sub) ∧ now + 1 ≤ exp ≤ now + 86400 ∧
      (∀ n, body = VNum n → 1 ≤ n ≤ 86400 → exp = now + n).
Proof.
  unfold mintJwt. set (payload := claims _ _ _ _ _ _ _).
  exists (b64url (stringify header)), (b64url (stringify payload)), (b64url (hmac_sha256 JWT_SECRET (b64url (stringify header) +:+ "." +:+ b64url (stringify payload)))).
  assert (Hnd : ∀ s x, In x (String.list_ascii_of_string (b64url s)) → Ascii.eqb x "."%char = false)
    by (intros s x; rewrite b64url_plain; apply b64url_chars).
  split_and!.
  - rewrite !string_app_assoc, !split_char_app by apply Hnd.
    by rewrite split_char_none by apply Hnd.
  - by rewrite b64url_plain, decode_plain, parse_stringify.
  - by rewrite b64url_plain, decode_plain, parse_stringify.
  - by rewrite (b64url_plain (hmac_sha256 _ _)), decode_plain.
  - assert (Ht : 1 ≤ ttl_of body ≤ 86400) by (unfold ttl_of; destruct body; lia).
    eexists. split; [reflexivity|]. split; [reflexivity|].
    rewrite (proj2 (Z.eqb_neq (ttl_of body) 0)) by lia. split; [lia|]. intros n -> Hn. unfold ttl_of. lia.
Qed.

(** ** A run *)

Module DemoRun.
Definition e (n : Z) : DemoEnv := {| salt := "s"; iso := "2026-01-01T00:00:00.000Z"; secs := n; new_uuid := "uuid" |}.
Definition es (n : nat) : DemoEnv := e (Z.of_nat n).
Definition empty : StoreFile := Holds (Users []).
End DemoRun.

(** Ada registers in an empty store and signs in. *)
Lemma register_then_login_witness :
  let x := run (registerUser (C := ToyCrypto.toy) "ada" "correct horse" "EU" "pepper") DemoRun.es DemoRun.empty in
  x.1 = Returned (Ok "ada" "EU") ∧
  (run (authenticateUser (C := ToyCrypto.toy) "dummy" "ada" "correct horse" "pepper") DemoRun.es x.2).1 = Returned (Ok "ada" "EU") ∧
  (run (authenticateUser (C := ToyCrypto.toy) "dummy" "ada" "wrong horse" "pepper") DemoRun.es x.2).1 =
    Returned (Bad 401 "invalid username or password").
Proof.
  cbv zeta.
  destruct (register_then_login (C := ToyCrypto.toy) "dummy" "ada" "correct horse" "EU" "pepper" DemoRun.es DemoRun.es DemoRun.empty []
    "correct horse") as (H1 & H2 & _).
  - split_and!; [reflexivity|reflexivity|discriminate].
  - reflexivity.
  - reflexivity.
  - discriminate.
  - split; [exact H1|]. split; [rewrite H2; reflexivity|reflexivity].
Defined.

(** Ada and Bob register at the same time; Ada is lost. *)
Lemma registration_lost_witness :
  let x := play [(0%nat, DemoRun.e 0); (1%nat, DemoRun.e 1); (0%nat, DemoRun.e 2); (1%nat, DemoRun.e 3)]
    [registerUser (C := ToyCrypto.toy) "ada" "correct horse" "EU" "pepper"; registerUser (C := ToyCrypto.toy) "bob" "battery staple" "EU" "pepper"]
    DemoRun.empty in
  x.1 = [Ret (Returned (Ok "ada" "EU")); Ret (Returned (Ok "bob" "EU"))] ∧
  (run (authenticateUser (C := ToyCrypto.toy) "dummy" "ada" "correct horse" "pepper") DemoRun.es x.2).1 =
    Returned (Bad 401 "invalid username or password").
Proof.
  cbv zeta.
  destruct (registration_lost (C := ToyCrypto.toy) "dummy" "ada" "correct horse" "bob" "battery staple" "EU" "pepper" DemoRun.empty []
    (DemoRun.e 0) (DemoRun.e 1) (DemoRun.e 2) (DemoRun.e 3) DemoRun.es) as [H1 H2].
  - split_and!; [reflexivity|reflexivity|discriminate].
  - split_and!; [reflexivity|reflexivity|discriminate].
  - discriminate.
  - discriminate.
  - reflexivity.
  - reflexivity.
  - reflexivity.
  - split; [exact H1|]. rewrite H2. reflexivity.
Defined.

Lemma inherited_names_refused_witness :
  run (registerUser (C := ToyCrypto.toy) "constructor" "correct horse" "EU" "pepper") DemoRun.es DemoRun.empty =
    (Returned (Bad 409 "username already exists"), DemoRun.empty).
Proof.
  refine (proj1 (proj2 (inherited_names_refused (C := ToyCrypto.toy) "dummy" "constructor" "correct horse" "EU" "pepper" DemoRun.es DemoRun.empty []
    _ _ _ _ _))).
  - left. reflexivity.
  - reflexivity.
  - discriminate.
  - reflexivity.
  - reflexivity.
Defined.
