(* ===== verification/SchemaRunner.v ===== *)
(** * The migration runner and the start of the database

    Models [runMigrations] and the sweeper of [uam-backend/src/db/migrations.ts]
    and [connectDatabase] of [uam-backend/src/config/database.ts].

    The database is the table of applied migrations and the rest of its
    content; what PostgreSQL makes of the statements of a migration ([exec]) is
    a parameter.  A transaction takes effect at its commit, as one step; the
    name column is unique, so a second insert of a name fails and rolls the
    transaction back.  Several processes may start at the same time. *)

From S2P Require Import Prelude CircuitConfig RollingWindow CircuitBreaker GuardedCalls Async RedisCache Json JsVal Columns SqlFilter SqlMeaning Password UserModel OneTimeCodes Sessions IdentityIndex Tokens SessionHandlers UsersTable Documents Application AuthController.
#[local] Open Scope string_scope.
#[local] Open Scope list_scope.
#[local] Open Scope Z_scope.
#[local] Open Scope async_scope.

Record Migration := { name : string; up : string }.

Section Runner.
Context {Content : Type}.
(** The statements of a migration: an error, or the new content *)
Context (exec : string → Content → string + Content).

(** [applied]: the rows of schema_migrations; [None]: the table does not exist *)
Record Db := mkDb { applied : option (list string); content : Content }.

(** How a step on the database can fail: the pool gives no connection; or the
    connection is lost at a statement, and then the ROLLBACK that follows is
    answered or fails as well. *)
Inductive Fault := no_connection (message : string) | lost (message : string) (rollback : option string).

(** [None]: the step is served. *)
Abbreviation Link := (option Fault).

(** The error of a query on its own *)
Definition query_error (f : Fault) : string := match f with no_connection m | lost m _ => m end.

(** BEGIN, CREATE TABLE IF NOT EXISTS, COMMIT; the error is passed on as it is. *)
Definition create_table : prog Link Db (outcome unit) :=
  act (λ e d, match e with
              | Some (lost _ (Some m)) => (Thrown m, d)
              | Some f => (Thrown (query_error f), d)
              | None => (Returned tt, mkDb (Some (default [] (applied d))) (content d))
              end).

Definition is_applied (n : string) : prog Link Db (outcome bool) :=
  act (λ e d, match e, applied d with
              | Some f, _ => (Thrown (query_error f), d)
              | None, None => (Thrown "relation schema_migrations does not exist", d)
              | None, Some l => (Returned (existsb (String.eqb n) l), d)
              end).

(** BEGIN, the statements, the insert, COMMIT; ROLLBACK on any error.  The
    transaction is one step: it takes effect at its commit, and a connection that
    is lost is lost before.  A failing [pool.connect] or ROLLBACK throws its own
    error, any other failure names the migration. *)
Definition apply_migration (m : Migration) : prog Link Db (outcome unit) :=
  act (λ e d,
    let failed msg := (Thrown ("Migration " +:+ name m +:+ " failed: " +:+ msg), d) in
    match e with
    | Some (no_connection msg) => (Thrown msg, d)
    | Some (lost _ (Some msg)) => (Thrown msg, d)
    | Some (lost msg None) => failed msg
    | None =>
        match exec (up m) (content d) with
        | inl msg => failed msg
        | inr c =>
            let l := default [] (applied d) in
            if existsb (String.eqb (name m)) l
            then failed "duplicate key value violates unique constraint schema_migrations_name_key"
            else (Returned tt, mkDb (Some (l ++ [name m])) c)
        end
    end).

Fixpoint run_each (ms : list Migration) (count : Z) : prog Link Db (outcome Z) :=
  match ms with
  | [] => Ret (Returned count)
  | m :: ms =>
      let! seen := is_applied (name m) in
      match seen with
      | Thrown e => Ret (Thrown e)
      | Returned true => run_each ms count
      | Returned false =>
          let! r := apply_migration m in
          match r with
          | Thrown e => Ret (Thrown e)
          | Returned _ => run_each ms (count + 1)
          end
      end
  end.

Definition runMigrations (ms : list Migration) : prog Link Db (outcome Z) :=
  let! r := create_table in
  match r with
  | Thrown e => Ret (Thrown e)
  | Returned _ => run_each ms 0
  end.

(** [SELECT 1] *)
Definition ping : prog Link Db (outcome unit) :=
  act (λ e d, (match e with Some f => Thrown (query_error f) | None => Returned tt end, d)).

Definition pingDatabase : prog Link Db bool :=
  let! r := ping in Ret (match r with Returned _ => true | Thrown _ => false end).

(** [connectDatabase]: [None] is [process.exit(1)]; the backfill that follows the
    migrations is best effort. *)
Definition connectDatabase (ms : list Migration) : prog Link Db (option Z) :=
  let! up := ping in
  match up with
  | Thrown _ => Ret None
  | Returned _ =>
      let! r := runMigrations ms in
      Ret (match r with Returned n => Some n | Thrown _ => None end)
  end.

(** ** One process *)

(** Every statement is served. *)
Definition served (_ : nat) : Link := None.

Definition missing (l : list string) (ms : list Migration) : list Migration :=
  List.filter (λ m, negb (existsb (String.eqb (name m)) l)) ms.

(** Executing migrations one after the other *)
Fixpoint exec_all (ms : list Migration) (c : Content) : string + Content :=
  match ms with
  | [] => inr c
  | m :: ms => match exec (up m) c with inl e => inl e | inr c => exec_all ms c end
  end.

Lemma missing_snoc l n ms : n ∉ map name ms → missing (l ++ [n]) ms = missing l ms.
Proof.
  induction ms as [|m ms IH]; [done|]. cbn [map]. intros [Hn Hms]%not_elem_of_cons. unfold missing in *. cbn [List.filter].
  rewrite existsb_app. cbn [existsb]. rewrite (proj2 (String.eqb_neq (name m) n)) by congruence. rewrite !orb_false_r. by rewrite IH.
Qed.

Lemma run_each_served ms count es l c c' :
  (∀ n, es n = None) → NoDup (map name ms) → exec_all (missing l ms) c = inr c' →
  run (run_each ms count) es (mkDb (Some l) c) =
  (Returned (count + Z.of_nat (length (missing l ms))), mkDb (Some (l ++ map name (missing l ms))) c').
Proof.
  revert count es l c. induction ms as [|m ms IH]; intros count es l c He Hn Hx.
  - cbn in *. injection Hx as ->. by rewrite Z.add_0_r, app_nil_r.
  - cbn [map] in Hn. apply NoDup_cons in Hn as [Hm Hn]. cbn [run_each]. unfold is_applied. cbn [bind act run]. rewrite He.
    cbn [applied]. unfold missing in *. cbn [List.filter] in *. destruct (existsb (String.eqb (name m)) l) eqn:E; cbn [negb] in *.
    + apply IH; [intros k; apply He|done|done].
    + cbn [exec_all] in Hx. destruct (exec (up m) c) as [er|c1] eqn:Ex; [done|]. cbn [bind act run apply_migration].
      change (env_tail es O) with (es 1%nat). rewrite He. cbn [content applied default]. rewrite Ex. cbn [from_option id]. rewrite E.
      rewrite (IH _ _ (l ++ [name m]) c1); [|intros k; apply He|done|].
      * fold (missing (l ++ [name m]) ms). rewrite missing_snoc by done. unfold missing. cbn [length map]. f_equal; [f_equal; lia|].
        by rewrite <- app_assoc.
      * fold (missing (l ++ [name m]) ms). by rewrite missing_snoc.
Qed.

Lemma missing_done l ms : missing (l ++ map name (missing l ms)) ms = [].
Proof.
  assert (H : ∀ m, In m ms → existsb (String.eqb (name m)) (l ++ map name (missing l ms)) = true).
  { intros m Hm. rewrite existsb_app. destruct (existsb (String.eqb (name m)) l) eqn:E; [done|]. cbn [orb].
    apply existsb_exists. exists (name m). split; [|apply String.eqb_refl]. apply in_map. apply filter_In. by rewrite E. }
  revert H. generalize (l ++ map name (missing l ms)). intros k H. induction ms as [|m ms IH]; [done|]. unfold missing in *. cbn [List.filter].
  rewrite (H m) by (by left). cbn [negb]. apply IH. intros m' Hm'. apply H. by right.
Qed.

(** Whatever statement the connection fails at, every migration has been
    applied and recorded, or neither. *)
Lemma run_each_prefix ms count es l c :
  NoDup (map name ms) →
  ∃ k c', let x := run (run_each ms count) es (mkDb (Some l) c) in
    exec_all (take k (missing l ms)) c = inr c' ∧ x.2 = mkDb (Some (l ++ map name (take k (missing l ms)))) c' ∧
    (∀ n, x.1 = Returned n → take k (missing l ms) = missing l ms ∧ n = count + Z.of_nat (length (missing l ms))).
Proof.
  cbv zeta. revert count es l c. induction ms as [|m ms IH]; intros count es l c Hn.
  - exists O, c. cbn. rewrite app_nil_r. split_and!; [done|done|]. intros n [= <-]. split; [done|lia].
  - cbn [map] in Hn. apply NoDup_cons in Hn as [Hm Hn]. cbn [run_each]. unfold is_applied. cbn [bind act run applied].
    assert (Hstop : ∀ e, ∃ k c', exec_all (take k (missing l (m :: ms))) c = inr c' ∧
      mkDb (Some l) c = mkDb (Some (l ++ map name (take k (missing l (m :: ms))))) c' ∧
      (∀ n, Thrown e = Returned n → take k (missing l (m :: ms)) = missing l (m :: ms) ∧ n = count + Z.of_nat (length (missing l (m :: ms))))).
    { intros e. exists O, c. rewrite take_0. cbn. by rewrite app_nil_r. }
    destruct (es O) as [er|]; [apply Hstop|]. unfold missing at 1 2 3 4 5. cbn [List.filter].
    destruct (existsb (String.eqb (name m)) l) eqn:E; cbn [negb]; [by apply IH|].
    fold (missing l ms). cbn [bind act run apply_migration content applied]. unfold missing in Hstop. cbn [List.filter] in Hstop.
    rewrite E in Hstop. cbn [negb] in Hstop. fold (missing l ms) in Hstop.
    destruct (env_tail es O) as [[er|er [rb|]]|]; [apply Hstop..|]. destruct (exec (up m) c) as [er|c1] eqn:Ex; [apply Hstop|].
    cbn [default from_option id]. rewrite E.
    destruct (IH (count + 1) (env_tail (env_tail es)) (l ++ [name m]) c1 Hn) as (k & c' & H1 & H2 & H3). rewrite missing_snoc in H1, H2, H3 by done.
    exists (S k), c'. rewrite firstn_cons. cbn [exec_all map]. rewrite Ex. split_and!; [exact H1| |].
    + etransitivity; [exact H2|]. by rewrite <- app_assoc.
    + intros n Hr. destruct (H3 n Hr) as [-> ->]. split; [done|]. cbn [length]. lia.
Qed.

(** C19. The runner.  However the connection fails, each migration is applied and
    recorded together or not at all, in the order of the list.  When every
    statement is served and the missing migrations execute, they are all
    applied, their number is returned, and a second start applies nothing. *)
Theorem migrations_spec ms es d :
  NoDup (map name ms) →
  let l := default [] (applied d) in
  (∃ k c', let x := run (runMigrations ms) es d in
     exec_all (take k (missing l ms)) (content d) = inr c' ∧ content x.2 = c' ∧
     default [] (applied x.2) = l ++ map name (take k (missing l ms)) ∧
     (∀ n, x.1 = Returned n → take k (missing l ms) = missing l ms)) ∧
  (∀ c', exec_all (missing l ms) (content d) = inr c' →
     let x := run (runMigrations ms) served d in
     x = (Returned (Z.of_nat (length (missing l ms))), mkDb (Some (l ++ map name (missing l ms))) c') ∧
     run (runMigrations ms) served x.2 = (Returned 0, x.2)).
Proof.
  intros Hn. cbv zeta. destruct d as [a c]. cbn [applied content]. split.
  - unfold runMigrations, create_table. cbn [bind act run]. destruct (es O) as [f|].
    + exists O, c. rewrite take_0. destruct f as [er|er [rb|]]; cbn; by rewrite app_nil_r.
    + cbn [applied content]. destruct (run_each_prefix ms 0 (env_tail es) (default [] a) c Hn) as (k & c' & H1 & H2 & H3).
      exists k, c'. split; [exact H1|]. rewrite H2. split; [done|]. split; [done|]. intros n Hr. by destruct (H3 n Hr).
  - intros c' Hx. unfold runMigrations, create_table. cbn [bind act run served applied content].
    rewrite (run_each_served ms 0 _ _ _ c'); [|done|done|exact Hx]. split; [done|]. cbn [snd applied content default from_option id].
    rewrite (run_each_served ms 0 _ _ _ c'); [|done|done|by rewrite missing_done]. rewrite missing_done. cbn. by rewrite app_nil_r.
Qed.

(** Two processes that start on an empty database at the same time: both find
    the migration missing, one applies it, and the other fails on the unique
    name and exits, although the schema is in place. *)
Theorem concurrent_start_exits m c c' c'' :
  exec (up m) c = inr c' → exec (up m) c' = inr c'' →
  let step i := (i, None : Link) in
  let x := play (map step [0; 1; 0; 1; 0; 1; 0; 1]%nat) [connectDatabase [m]; connectDatabase [m]] (mkDb None c) in
  x = ([Ret (Some 1); Ret None], mkDb (Some [name m]) c').
Proof.
  intros H1 H2. cbn. rewrite H1. cbn. rewrite H2. cbn. by rewrite String.eqb_refl.
Qed.
End Runner.

(** ** The sweeper of the identity index *)

(** [DELETE FROM user_identity_indexes WHERE expires_at IS NOT NULL AND expires_at < NOW()] *)
Definition is_expired (t : Z) (r : object) : bool := match obj_get r "expires_at" with VDate e => e <? t | _ => false end.

Definition sweep_expired (t : Z) (entries : gmap string object) : gmap string object :=
  filter (λ p, is_expired t p.2 = false) entries.

(** What a lookup that checks the expiry sees *)
Definition active_at (entries : gmap string object) (k : string) (t : Z) : option object :=
  entries !! k ≫= λ r, if isActive (rowToDoc r) t then Some r else None.

(** Sweeping cannot be observed: no lookup, at that time or later, sees a difference. *)
Theorem sweep_unobservable entries t t' k : t ≤ t' → active_at (sweep_expired t entries) k t' = active_at entries k t'.
Proof.
  intros Ht. unfold active_at, sweep_expired. rewrite map_lookup_filter. destruct (entries !! k) as [r|]; [|done].
  cbn [option_bind mbind]. destruct (is_expired t r) eqn:E; [|by rewrite option_guard_True].
  case_guard as Hc; [cbn in Hc; congruence|]. unfold isActive. cbn [mbind option_bind ix_expiresAt rowToDoc].
  unfold is_expired in E. destruct (obj_get r "expires_at") as [| | | | |e| | |]; try done.
  apply Z.ltb_lt in E. by rewrite (proj2 (Z.ltb_ge t' e)) by lia.
Qed.

(** ** Starts *)

Module StartTwice.
(** Creating a table that may exist *)
Definition exec (sql : string) (tables : list string) : string + list string :=
  if String.eqb sql "FAIL" then inl "syntax error" else inr (if existsb (String.eqb sql) tables then tables else tables ++ [sql]).
Definition init : Migration := {| name := "001_init"; up := "users" |}.
End StartTwice.

Lemma migrations_spec_witness :
  run (runMigrations StartTwice.exec [StartTwice.init]) served (mkDb None []) = (Returned 1, mkDb (Some ["001_init"]) ["users"]) ∧
  run (runMigrations StartTwice.exec [StartTwice.init]) served (mkDb (Some ["001_init"]) ["users"]) =
    (Returned 0, mkDb (Some ["001_init"]) ["users"]).
Proof.
  destruct (migrations_spec StartTwice.exec [StartTwice.init] served (mkDb None [])) as [_ H].
  - apply NoDup_singleton.
  - destruct (H ["users"] eq_refl) as [H1 H2]. split; [exact H1|]. rewrite H1 in H2. exact H2.
Defined.

Lemma concurrent_start_exits_witness :
  play (map (λ i, (i, None)) [0; 1; 0; 1; 0; 1; 0; 1]%nat)
    [connectDatabase StartTwice.exec [StartTwice.init]; connectDatabase StartTwice.exec [StartTwice.init]] (mkDb None []) =
  ([Ret (Some 1); Ret None], mkDb (Some ["001_init"]) ["users"]).
Proof. exact (concurrent_start_exits StartTwice.exec StartTwice.init [] ["users"] ["users"] eq_refl eq_refl). Defined.

Lemma sweep_unobservable_witness :
  active_at (sweep_expired 10 {["k" := [("expires_at", VDate 5)]]}) "k" 10 = active_at {["k" := [("expires_at", VDate 5)]]} "k" 10.
Proof. apply sweep_unobservable. lia. Defined.
