(* ===== verification/Pages.v ===== *)
(** * The pages of the front end

    Models the routes of [uam-frontend/src/App.tsx] and the state and handlers
    of the pages under [uam-frontend/src/pages]: sign-in, registration,
    forgotten and reset password, verification of an address, the callback of
    an OAuth sign-in, the links of a migration, and the profile; and the
    components with behaviour of [uam-frontend/src/components].  The page that
    runs a migration has a file of its own, [MigrationPage].

    The values of [useState] and [useRef] are the fields of a record per page;
    a handler is a program over that record, the authentication context and
    the browser.  It reads the form before its first request, as the closure
    of the last render does.  [navigate] calls and timers are recorded. *)

From S2P Require Import Prelude CircuitConfig RollingWindow CircuitBreaker GuardedCalls Async RedisCache Json JsVal Columns SqlFilter SqlMeaning Password UserModel OneTimeCodes Sessions IdentityIndex Tokens SessionHandlers UsersTable Documents Application AuthController AppFacts MemApp Validators Server RecentAccounts ApiClient AuthContext.
#[local] Open Scope string_scope.
#[local] Open Scope list_scope.
#[local] Open Scope Z_scope.
#[local] Open Scope async_scope.

(** ** Routes *)

Module Routes.
Record Location := { pathname : string; search : string }.

(** What a route renders *)
Inductive View := AuthLoading | Navigate (to : Location) | Shown (page : string).

(** The element of a route: a page for everyone, for signed-in users, for
    others, or a redirect *)
Inductive Element := Open (page : string) | Protected (page : string) | Public (page : string) | Redirect (to : string).

Definition routes : list (string * Element) :=
  [("/", Redirect "/login"); ("/home", Open "HomePage"); ("/login", Public "LoginPage"); ("/register", Public "RegisterPage");
   ("/dashboard", Protected "DashboardPage"); ("/migrate", Protected "MigrationPage"); ("/account", Protected "AccountPage");
   ("/oauth-callback", Open "OAuthCallbackPage"); ("/migrate/verify", Open "MigrationVerifyPage");
   ("/verify-email", Open "VerifyEmailPage"); ("/forgot-password", Public "ForgotPasswordPage");
   ("/reset-password", Public "ResetPasswordPage")].

Section View.
Context `{RKV : RedisKV} `{UDB : UsersDb} `{IDB : IndexDb}.

(** [user.isEmailVerified] of the signed-in user *)
Definition verified (p : Page) : bool :=
  match user p with Some u => truthy (opt_prop u "isEmailVerified") | None => false end.

Definition ProtectedRoute (p : Page) (here : Location) (children : string) : View :=
  if isLoading p then AuthLoading
  else if negb (isAuthenticated p) then
    Navigate {| pathname := "/login"; search := "?returnTo=" +:+ encodeURIComponent (pathname here +:+ search here) |}
  else if negb (verified p) then Navigate {| pathname := "/verify-email"; search := "" |}
  else Shown children.

Definition PublicRoute (p : Page) (children : string) : View :=
  if isLoading p then AuthLoading
  else if isAuthenticated p && verified p then Navigate {| pathname := "/dashboard"; search := "" |}
  else Shown children.

Definition render (p : Page) (here : Location) (e : Element) : View :=
  match e with
  | Open page => Shown page
  | Protected page => ProtectedRoute p here page
  | Public page => PublicRoute p page
  | Redirect to => Navigate {| pathname := to; search := "" |}
  end.

(** How the router compares a static path with a location *)
Context (matches : string → string → bool).

Definition find_element (path : string) : Element :=
  match List.find (λ r, matches r.1 path) routes with Some r => r.2 | None => Redirect "/" end.

Definition AppRoutes (p : Page) (here : Location) : View := render p here (find_element (pathname here)).

(** Following redirects, at most [n] *)
Fixpoint follow (n : nat) (p : Page) (here : Location) : option string :=
  match AppRoutes p here, n with
  | Shown page, _ => Some page
  | Navigate to, S n => follow n p to
  | _, _ => None
  end.

(** Where a user ends, by the element asked for *)
Definition destination (p : Page) (e : Element) : string :=
  match e with
  | Open page => page
  | Protected page => if isAuthenticated p then (if verified p then page else "VerifyEmailPage") else "LoginPage"
  | Public page => if isAuthenticated p && verified p then "DashboardPage" else page
  | Redirect _ => if isAuthenticated p && verified p then "DashboardPage" else "LoginPage"
  end.

(** Static paths of the table are told apart. *)
Context (matches_static : ∀ a b, In a (map fst routes) → In b (map fst routes) → matches a b = String.eqb a b).

Lemma find_static path e : In (path, e) routes → find_element path = e.
Proof.
  intros H. unfold find_element.
  assert (Hp : In path (map fst routes)) by (change path with (fst (path, e)); by apply in_map).
  assert (E : List.find (λ r, matches r.1 path) routes = List.find (λ r, String.eqb r.1 path) routes).
  { assert (Hs : ∀ l, incl l routes → List.find (λ r, matches r.1 path) l = List.find (λ r, String.eqb r.1 path) l).
    { induction l as [|r l IH]; [done|]. intros Hl. cbn [List.find].
      rewrite matches_static; [|apply in_map, Hl; by left|done]. by rewrite IH by (intros x Hx; apply Hl; by right). }
    apply Hs, incl_refl. }
  rewrite E. clear E Hp. cbn in H. repeat destruct H as [[= <- <-]|H]; by cbn.
Qed.

Ltac at_route path e := unfold AppRoutes; cbn [pathname]; by rewrite (find_static path e) by (cbn; tauto).

Lemma at_login p s : AppRoutes p {| pathname := "/login"; search := s |} = PublicRoute p "LoginPage".
Proof. at_route "/login" (Public "LoginPage"). Qed.

Lemma at_dashboard p s :
  AppRoutes p {| pathname := "/dashboard"; search := s |} = ProtectedRoute p {| pathname := "/dashboard"; search := s |} "DashboardPage".
Proof. at_route "/dashboard" (Protected "DashboardPage"). Qed.

Lemma at_verify p s : AppRoutes p {| pathname := "/verify-email"; search := s |} = Shown "VerifyEmailPage".
Proof. at_route "/verify-email" (Open "VerifyEmailPage"). Qed.

Lemma at_root p s : AppRoutes p {| pathname := "/"; search := s |} = Navigate {| pathname := "/login"; search := "" |}.
Proof. at_route "/" (Redirect "/login"). Qed.

Lemma follow_step n p here :
  follow (S n) p here = match AppRoutes p here with Shown page => Some page | Navigate to => follow n p to | AuthLoading => None end.
Proof. cbn [follow]. by destruct (AppRoutes p here). Qed.

(** A page for others shows itself or the dashboard. *)
Lemma public_settles n p page to :
  isLoading p = false → PublicRoute p page = Navigate to → follow n p to = Some "DashboardPage" ∧ isAuthenticated p && verified p = true.
Proof.
  intros Hl. unfold PublicRoute. rewrite Hl. destruct (isAuthenticated p && verified p) eqn:E; [|done]. intros [= <-].
  split; [|done]. destruct n; cbn [follow]; rewrite at_dashboard; unfold ProtectedRoute; rewrite Hl; apply andb_true_iff in E as [-> ->]; done.
Qed.

Lemma follow_login n p s : isLoading p = false → follow (S n) p {| pathname := "/login"; search := s |} = Some (destination p (Public "LoginPage")).
Proof.
  intros Hl. rewrite follow_step, at_login. cbn [destination]. destruct (PublicRoute p "LoginPage") as [|to|q] eqn:E.
  - unfold PublicRoute in E. rewrite Hl in E. by destruct (_ && _).
  - by destruct (public_settles n p _ to Hl E) as [-> ->].
  - unfold PublicRoute in E. rewrite Hl in E. destruct (_ && _); [done|by injection E as <-].
Qed.

(** C29. The redirects of the application come to an end: from every location a
    page is shown after at most three, and it is the page the user's state
    allows.  In particular a protected page is shown exactly to signed-in
    users with a verified address. *)
Theorem routes_settle p here : isLoading p = false → follow 3 p here = Some (destination p (find_element (pathname here))).
Proof.
  intros Hl. rewrite follow_step. unfold AppRoutes at 1. destruct (find_element (pathname here)) as [q|q|q|to] eqn:E; cbn [render].
  - done.
  - unfold ProtectedRoute at 1. rewrite Hl. cbn [destination]. destruct (isAuthenticated p) eqn:Ea; cbn [negb].
    + destruct (verified p); cbn [negb]; [done|]. by rewrite follow_step, at_verify.
    + rewrite follow_login by done. cbn [destination]. by rewrite Ea.
  - destruct (PublicRoute p q) as [|to|q'] eqn:Ep.
    + unfold PublicRoute in Ep. rewrite Hl in Ep. by destruct (_ && _).
    + destruct (public_settles 2 p q to Hl Ep) as [-> Ev]. cbn [destination]. by rewrite Ev.
    + unfold PublicRoute in Ep. rewrite Hl in Ep. cbn [destination]. destruct (_ && _); [done|by injection Ep as <-].
  - assert (Hto : to = "/" ∨ to = "/login").
    { revert E. unfold find_element. destruct (List.find _ routes) as [[q e]|] eqn:F; [|intros [= <-]; by left].
      apply find_some in F as [Hin _]. cbn [snd]. intros ->. cbn in Hin. right. by repeat destruct Hin as [[=]|Hin]. }
    destruct Hto as [-> | ->]; [|by rewrite follow_login]. rewrite follow_step, at_root. by apply follow_login.
Qed.
End View.
End Routes.

(** ** Screens *)

(** What a timer does when it fires *)
Inductive Timer := GoTo (path : string) | ClearSuccess | ShowHistory.

(** A page with its state [ui], inside the authentication context *)
Record Screen {UI : Type} `{RKV : RedisKV} `{UDB : UsersDb} `{IDB : IndexDb} := mkScreen {
  auth : Page;
  ui : UI;
  visited : list string;           (** arguments of [navigate], first to last *)
  timers : list (Z * Timer);       (** timers set, with their delays *)
}.
Arguments Screen UI {_ _ _}.
#[global] Instance set_auth {UI} `{RKV : RedisKV} `{UDB : UsersDb} `{IDB : IndexDb} : Setter (auth (UI := UI)) :=
  λ g s, mkScreen UI _ _ _ (g (auth s)) (ui s) (visited s) (timers s).
#[global] Instance set_ui {UI} `{RKV : RedisKV} `{UDB : UsersDb} `{IDB : IndexDb} : Setter (ui (UI := UI)) :=
  λ g s, mkScreen UI _ _ _ (auth s) (g (ui s)) (visited s) (timers s).
#[global] Instance set_visited {UI} `{RKV : RedisKV} `{UDB : UsersDb} `{IDB : IndexDb} : Setter (visited (UI := UI)) :=
  λ g s, mkScreen UI _ _ _ (auth s) (ui s) (g (visited s)) (timers s).
#[global] Instance set_timers {UI} `{RKV : RedisKV} `{UDB : UsersDb} `{IDB : IndexDb} : Setter (timers (UI := UI)) :=
  λ g s, mkScreen UI _ _ _ (auth s) (ui s) (visited s) (g (timers s)).

Section Effects.
Context `{RKV : RedisKV} `{UDB : UsersDb} `{IDB : IndexDb} {UI : Type}.

(** A program of the authentication context *)
Definition useAuth {A} (p : prog NetEnv Page A) : prog NetEnv (Screen UI) A :=
  embed (λ e s, (e, s)) auth (λ p s, s <| auth := p |>) p.
(** A method of the API client *)
Definition call {A} (p : prog NetEnv World A) : prog NetEnv (Screen UI) A := useAuth (AuthContext.api p).

Definition state : prog NetEnv (Screen UI) UI := act (λ _ s, (ui s, s)).
Definition set_state (f : UI → UI) : prog NetEnv (Screen UI) unit := act (λ _ s, (tt, s <| ui ::= f |>)).
Definition navigate (path : string) : prog NetEnv (Screen UI) unit := act (λ _ s, (tt, s <| visited ::= (λ l, l ++ [path]) |>)).
Definition setTimeout (t : Timer) (ms : Z) : prog NetEnv (Screen UI) unit := act (λ _ s, (tt, s <| timers ::= (λ l, l ++ [(ms, t)]) |>)).
(** [window.history.replaceState({}, '', path)] *)
Definition replaceState (path : string) : prog NetEnv (Screen UI) unit := call (on_browser (λ _ b, (tt, b <| location := path |>))).
(** [sessionStorage] *)
Definition storage {A} (f : gmap string string → A * gmap string string) : prog NetEnv (Screen UI) A :=
  call (on_browser (λ _ b, let '(a, m) := f (sessionStorage b) in (a, b <| sessionStorage := m |>))).
End Effects.

(** [error.message || fallback] *)
Definition error_message (e : ApiError) (fallback : string) : string :=
  match e with
  | Failed m => default fallback (given (Some m))
  | Refused data => default fallback (given (text_field data "message"))
  end.

(** [data.message || fallback] *)
Definition message_or (data : object) (fallback : string) : string := default fallback (given (text_field data "message")).

Definition succeeded (data : object) : bool := truthy (obj_get data "success").

(** The value of a field of an [errors] record; [setErrors(prev => ({ ...prev, [name]: v }))] *)
Abbreviation Errors := (list (string * string)).
Definition set_error (name v : string) (e : Errors) : Errors := (name, v) :: List.filter (λ p, negb (String.eqb p.1 name)) e.

(** ** [pages/OAuthCallbackPage.tsx] *)

Module OAuthCallbackPage.
Definition OAUTH_ERRORS : list string := ["oauth_failed"; "access_denied"; "provider_conflict"].

Section Page.
Context `{RKV : RedisKV} `{UDB : UsersDb} `{IDB : IndexDb}.
Context (server : HttpRequest → prog AppEnv App HttpAnswer).
Context (document_cookie : object → string) (page_origin : string) (new_URL : string → option (string * string)).

(** [params] are the parameters of the address; the state is [exchangeStarted.current]. *)
Definition handleCallback (params : string → option string) : prog NetEnv (Screen bool) unit :=
  let! started := state in
  if started : bool then Ret tt
  else
    match given (params "error") with
    | Some error =>
        navigate ("/login?error=" +:+ encodeURIComponent (if existsb (String.eqb error) OAUTH_ERRORS then error else "oauth_failed"))
    | None =>
        let! stored := storage (λ m, ((m !! OAUTH_VERIFIER_KEY, m !! OAUTH_STATE_KEY), m)) in
        match given (params "code"), given (params "state"), given stored.1, stored.2 with
        | Some code, Some st, Some codeVerifier, Some expectedState =>
            if negb (String.eqb st expectedState) then navigate "/login?error=oauth_failed"
            else
              set_state (λ _, true) ;;
              storage (λ m, (tt, delete OAUTH_STATE_KEY (delete OAUTH_VERIFIER_KEY m))) ;;
              replaceState "/oauth-callback" ;;
              let! r := call (exchangeOAuthCode server document_cookie page_origin code st codeVerifier) in
              match r with
              | inl _ => navigate "/login?error=oauth_failed"
              | inr data =>
                  match given (text_field data "accessToken") with
                  | Some token =>
                      useAuth (setUserFromOAuth server document_cookie page_origin new_URL token) ;;
                      navigate "/dashboard"
                  | None => navigate "/login?error=oauth_failed"
                  end
              end
        | _, _, _, _ => navigate "/login?error=oauth_failed"
        end
    end.
End Page.
End OAuthCallbackPage.

(** ** [pages/VerifyEmailPage.tsx] *)

Module VerifyEmailPage.
Definition MAX_POLL_ATTEMPTS : Z := 40.

Inductive Status := loading | form | success | error | pending.

Record State := mkState {
  status : Status;
  message : string;
  password : string;
  confirmPassword : string;
  formError : string;
  isSubmitting : bool;
  formToken : option string;
  cooldown : Z;
  redeemStarted : bool;
  poll : option (string * Z);       (** the interval with its token and the attempts made *)
}.
Definition init : State := mkState loading "" "" "" "" false None 0 false None.
Definition shown (st : Status) (m : string) (s : State) : State :=
  mkState st m (password s) (confirmPassword s) (formError s) (isSubmitting s) (formToken s) (cooldown s) (redeemStarted s) (poll s).
#[global] Instance set_formError : Setter formError := λ g s,
  mkState (status s) (message s) (password s) (confirmPassword s) (g (formError s)) (isSubmitting s) (formToken s) (cooldown s) (redeemStarted s) (poll s).
#[global] Instance set_isSubmitting : Setter isSubmitting := λ g s,
  mkState (status s) (message s) (password s) (confirmPassword s) (formError s) (g (isSubmitting s)) (formToken s) (cooldown s) (redeemStarted s) (poll s).
#[global] Instance set_formToken : Setter formToken := λ g s,
  mkState (status s) (message s) (password s) (confirmPassword s) (formError s) (isSubmitting s) (g (formToken s)) (cooldown s) (redeemStarted s) (poll s).
#[global] Instance set_cooldown : Setter cooldown := λ g s,
  mkState (status s) (message s) (password s) (confirmPassword s) (formError s) (isSubmitting s) (formToken s) (g (cooldown s)) (redeemStarted s) (poll s).
#[global] Instance set_redeemStarted : Setter redeemStarted := λ g s,
  mkState (status s) (message s) (password s) (confirmPassword s) (formError s) (isSubmitting s) (formToken s) (cooldown s) (g (redeemStarted s)) (poll s).
#[global] Instance set_poll : Setter poll := λ g s,
  mkState (status s) (message s) (password s) (confirmPassword s) (formError s) (isSubmitting s) (formToken s) (cooldown s) (redeemStarted s) (g (poll s)).

Section Page.
Context `{RKV : RedisKV} `{UDB : UsersDb} `{IDB : IndexDb}.
Context (server : HttpRequest → prog AppEnv App HttpAnswer).
Context (document_cookie : object → string) (page_origin : string) (new_URL : string → option (string * string)).
Abbreviation Verify A := (prog NetEnv (Screen State) A).

Definition redeem (linkCode : string) : Verify unit :=
  let! r := call (redeemEmailLink server document_cookie page_origin linkCode) in
  let refused := set_state (shown error "Invalid or expired verification link.") in
  match r with
  | inl _ => refused
  | inr data =>
      match text_field data "kind", given (text_field data "formToken") with
      | Some kind, Some token =>
          if String.eqb kind "verify-email" then
            set_state (λ s, shown form "Set your password to complete email verification." (s <| formToken := Some token |>))
          else refused
      | _, _ => refused
      end
  end.

(** The effect of the page, for the parameters of the address *)
Definition mount (params : string → option string) : Verify unit :=
  match given (params "code"), given (params "poll") with
  | Some linkCode, _ =>
      let! s := state in
      if redeemStarted s then Ret tt
      else set_state (λ s, s <| redeemStarted := true |>) ;; replaceState "/verify-email" ;; redeem linkCode
  | None, Some pollToken =>
      set_state (λ s, shown pending "Check your inbox and complete verification from the email link." (s <| poll := Some (pollToken, 0) |>)) ;;
      replaceState "/verify-email"
  | None, None =>
      match given (params "email") with
      | Some _ => set_state (shown pending "Check your inbox for the verification link. You can resend below if needed.")
      | None => set_state (shown error "Invalid verification state")
      end
  end.

(** The cleanup of the effect *)
Definition unmount : Verify unit := set_state (λ s, s <| poll := None |>).

(** The interval fires: up to the request, the code is not interrupted.  The
    result is the token to ask about, if there is a request. *)
Definition tick_start (s : State) : option string * State :=
  match poll s with
  | None => (None, s)
  | Some (pollToken, attempts) =>
      let attempts := attempts + 1 in
      if MAX_POLL_ATTEMPTS <? attempts then
        (None, shown (status s) "Still waiting for verification. Check your inbox or resend the email." (s <| poll := None |>))
      else (Some pollToken, s <| poll := Some (pollToken, attempts) |>)
  end.

Definition verified (r : ApiError + object) : bool :=
  match r with inr data => truthy (obj_get data "verified") | inl _ => false end.

(** The request has settled. *)
Definition tick_settle (r : ApiError + object) (s : Screen State) : Screen State :=
  if verified r then
    s <| ui ::= λ u, shown success "Email verified! Redirecting to login..." (u <| poll := None |>) |>
      <| timers ::= λ l, l ++ [(2500, GoTo "/login")] |>
  else s.

(** The whole callback; while it awaits the answer, the interval may fire again. *)
Definition poll_tick : Verify unit :=
  let! t := act (λ _ s, ((tick_start (ui s)).1, s <| ui := (tick_start (ui s)).2 |>)) in
  match t with
  | None => Ret tt
  | Some pollToken =>
      let! r := call (getVerificationStatus server document_cookie page_origin pollToken) in
      act (λ _ s, (tt, tick_settle r s))
  end.

Definition cooldown_tick : Verify unit := set_state (λ s, if 0 <? cooldown s then s <| cooldown ::= Z.pred |> else s).

Definition handleVerifySubmit : Verify unit :=
  let! s := state in
  match given (formToken s) with
  | None => Ret tt
  | Some token =>
      match validatePassword (password s) with
      | Some passwordError => set_state (λ s, s <| formError := passwordError |>)
      | None =>
          if negb (String.eqb (password s) (confirmPassword s)) then set_state (λ s, s <| formError := "Passwords do not match" |>)
          else
            set_state (λ s, s <| isSubmitting := true |> <| formError := "" |>) ;;
            let! r := call (verifyEmail server document_cookie page_origin token (password s)) in
            let! _ := match r with
                      | inr data =>
                          if succeeded data then
                            set_state (shown success "Your email has been verified successfully! Redirecting...") ;;
                            match given (text_field data "accessToken") with
                            | Some t =>
                                useAuth (setUserFromOAuth server document_cookie page_origin new_URL t) ;;
                                setTimeout (GoTo "/dashboard") 2000
                            | None => Ret tt
                            end
                          else set_state (shown error (message_or data "Verification failed"))
                      | inl e => set_state (shown error (error_message e "Verification failed"))
                      end in
            set_state (λ s, s <| isSubmitting := false |>)
      end
  end.

Definition handleResend (emailToVerify : option string) : Verify unit :=
  match given emailToVerify with
  | None => Ret tt
  | Some address =>
      let! r := call (resendVerification server document_cookie page_origin address) in
      match r with
      | inr _ =>
          set_state (λ s, shown (status s) "If the account exists and is unverified, a verification email has been sent." (s <| cooldown := 30 |>))
      | inl _ => set_state (λ s, shown (status s) "Failed to resend verification email." s)
      end
  end.
End Page.
End VerifyEmailPage.

(** ** [pages/ResetPasswordPage.tsx] *)

Module ResetPasswordPage.
Record State := mkState {
  formToken : option string;
  password : string;
  confirmPassword : string;
  errors : Errors;
  status : option (bool * string);      (** success or error, with its message *)
  isSubmitting : bool;
  redeemError : string;
  isRedeeming : bool;
  redeemStarted : bool;
}.
Definition init : State := mkState None "" "" [] None false "" true false.
#[global] Instance set_formToken : Setter formToken := λ g s,
  mkState (g (formToken s)) (password s) (confirmPassword s) (errors s) (status s) (isSubmitting s) (redeemError s) (isRedeeming s) (redeemStarted s).
#[global] Instance set_password : Setter password := λ g s,
  mkState (formToken s) (g (password s)) (confirmPassword s) (errors s) (status s) (isSubmitting s) (redeemError s) (isRedeeming s) (redeemStarted s).
#[global] Instance set_confirmPassword : Setter confirmPassword := λ g s,
  mkState (formToken s) (password s) (g (confirmPassword s)) (errors s) (status s) (isSubmitting s) (redeemError s) (isRedeeming s) (redeemStarted s).
#[global] Instance set_errors : Setter errors := λ g s,
  mkState (formToken s) (password s) (confirmPassword s) (g (errors s)) (status s) (isSubmitting s) (redeemError s) (isRedeeming s) (redeemStarted s).
#[global] Instance set_status : Setter status := λ g s,
  mkState (formToken s) (password s) (confirmPassword s) (errors s) (g (status s)) (isSubmitting s) (redeemError s) (isRedeeming s) (redeemStarted s).
#[global] Instance set_isSubmitting : Setter isSubmitting := λ g s,
  mkState (formToken s) (password s) (confirmPassword s) (errors s) (status s) (g (isSubmitting s)) (redeemError s) (isRedeeming s) (redeemStarted s).
#[global] Instance set_redeemError : Setter redeemError := λ g s,
  mkState (formToken s) (password s) (confirmPassword s) (errors s) (status s) (isSubmitting s) (g (redeemError s)) (isRedeeming s) (redeemStarted s).
#[global] Instance set_isRedeeming : Setter isRedeeming := λ g s,
  mkState (formToken s) (password s) (confirmPassword s) (errors s) (status s) (isSubmitting s) (redeemError s) (g (isRedeeming s)) (redeemStarted s).
#[global] Instance set_redeemStarted : Setter redeemStarted := λ g s,
  mkState (formToken s) (password s) (confirmPassword s) (errors s) (status s) (isSubmitting s) (redeemError s) (isRedeeming s) (g (redeemStarted s)).

Section Page.
Context `{RKV : RedisKV} `{UDB : UsersDb} `{IDB : IndexDb}.
Context (server : HttpRequest → prog AppEnv App HttpAnswer).
Context (document_cookie : object → string) (page_origin : string).
Abbreviation Reset A := (prog NetEnv (Screen State) A).

Definition redeem (linkCode : string) : Reset unit :=
  let! r := call (redeemEmailLink server document_cookie page_origin linkCode) in
  let refused := set_state (λ s, s <| redeemError := "Invalid or expired reset link." |>) in
  let! _ := match r with
            | inl _ => refused
            | inr data =>
                match text_field data "kind", given (text_field data "formToken") with
                | Some kind, Some token =>
                    if String.eqb kind "reset-password" then set_state (λ s, s <| formToken := Some token |>) else refused
                | _, _ => refused
                end
            end in
  set_state (λ s, s <| isRedeeming := false |>).

Definition mount (params : string → option string) : Reset unit :=
  match given (params "code") with
  | None => set_state (λ s, s <| redeemError := "Invalid or missing reset link." |> <| isRedeeming := false |>)
  | Some linkCode =>
      let! s := state in
      if redeemStarted s then Ret tt
      else set_state (λ s, s <| redeemStarted := true |>) ;; replaceState "/reset-password" ;; redeem linkCode
  end.

Definition handleChange (name value : string) : Reset unit :=
  set_state (λ s, (if String.eqb name "password" then s <| password := value |>
                   else if String.eqb name "confirmPassword" then s <| confirmPassword := value |> else s)
                  <| errors ::= set_error name "" |>).

Definition newErrors (s : State) : Errors :=
  match validatePassword (password s) with Some e => [("password", e)] | None => [] end
  ++ (if String.eqb (password s) (confirmPassword s) then [] else [("confirmPassword", "Passwords do not match")]).

Definition handleSubmit : Reset unit :=
  set_state (λ s, s <| errors := [] |> <| status := None |>) ;;
  let! s := state in
  match given (formToken s) with
  | None => Ret tt
  | Some token =>
      match newErrors s with
      | [] =>
          set_state (λ s, s <| isSubmitting := true |>) ;;
          let! r := call (ApiClient.resetPassword server document_cookie page_origin token (password s)) in
          let! _ := match r with
                    | inr data =>
                        if succeeded data then
                          set_state (λ s, s <| status := Some (true, "Password reset successfully! Redirecting...") |>) ;;
                          setTimeout (GoTo "/login") 2000
                        else Ret tt
                    | inl e => set_state (λ s, s <| status := Some (false, error_message e "Failed to reset password") |>)
                    end in
          set_state (λ s, s <| isSubmitting := false |>)
      | es => set_state (λ s, s <| errors := es |>)
      end
  end.

(** What is shown: the spinner, the refusal, or the form *)
Definition shows_form (s : State) : bool :=
  negb (isRedeeming s) && String.eqb (redeemError s) "" && match given (formToken s) with Some _ => true | None => false end.
End Page.
End ResetPasswordPage.

(** ** [pages/ForgotPasswordPage.tsx] *)

Module ForgotPasswordPage.
Record State := mkState { address : string; error : string; success : string; isSubmitting : bool }.

Definition handleSubmit `{RKV : RedisKV} `{UDB : UsersDb} `{IDB : IndexDb} (server : HttpRequest → prog AppEnv App HttpAnswer)
    (document_cookie : object → string) (page_origin : string) : prog NetEnv (Screen State) unit :=
  set_state (λ s, mkState (address s) "" "" (isSubmitting s)) ;;
  let! s := state in
  if String.eqb (address s) "" then set_state (λ s, mkState (address s) "Email is required" (success s) (isSubmitting s))
  else
    set_state (λ s, mkState (address s) (error s) (success s) true) ;;
    let! r := call (forgotPassword server document_cookie page_origin (address s)) in
    let! _ := match r with
              | inr data =>
                  if succeeded data then
                    set_state (λ s, mkState (address s) (error s)
                      (message_or data "If an account exists, a reset link has been sent.") (isSubmitting s))
                  else Ret tt
              | inl e => set_state (λ s, mkState (address s) (error_message e "Failed to request password reset") (success s) (isSubmitting s))
              end in
    set_state (λ s, mkState (address s) (error s) (success s) false).
End ForgotPasswordPage.

(** ** [pages/MigrationVerifyPage.tsx] *)

Module MigrationVerifyPage.
Inductive Status := loading | success | error.
Record State := mkState { status : Status; message : string; redeemStarted : bool }.
Definition init : State := mkState loading "" false.
Definition shown (st : Status) (m : string) (s : State) : State := mkState st m (redeemStarted s).

Section Page.
Context `{RKV : RedisKV} `{UDB : UsersDb} `{IDB : IndexDb}.
Context (server : HttpRequest → prog AppEnv App HttpAnswer).
Context (document_cookie : object → string) (page_origin : string).
Abbreviation Verify A := (prog NetEnv (Screen State) A).

Definition run_link (code : string) : Verify unit :=
  let! r := call (redeemEmailLink server document_cookie page_origin code) in
  match r with
  | inl e => set_state (shown error (error_message e "Migration verification failed."))
  | inr redeemed =>
      match given (text_field redeemed "formToken"), text_field redeemed "kind" with
      | Some token, Some kind =>
          if negb (startsWith kind "migrate-") then set_state (shown error "Invalid or expired migration link.")
          else
            let! r := call (if String.eqb kind "migrate-current" then verifyCurrentEmail server document_cookie page_origin token
                            else verifyNewEmail server document_cookie page_origin token) in
            match r with
            | inl e => set_state (shown error (error_message e "Migration verification failed."))
            | inr result =>
                if negb (succeeded result) then set_state (shown error (message_or result "Migration verification failed."))
                else
                  set_state (shown success (message_or result "Email verified successfully.")) ;;
                  let redirect := text_of (opt_prop (obj_get redeemed "meta") "redirect") in
                  setTimeout (GoTo (if bool_decide (redirect = Some "signup") then "/register" else "/login")) 3000
            end
      | _, _ => set_state (shown error "Invalid or expired migration link.")
      end
  end.

Definition mount (params : string → option string) : Verify unit :=
  match given (params "code") with
  | None => set_state (shown error "Invalid migration verification link.")
  | Some code =>
      let! s := state in
      if redeemStarted s then Ret tt
      else set_state (λ s, mkState (status s) (message s) true) ;; replaceState "/migrate/verify" ;; run_link code
  end.
End Page.
End MigrationVerifyPage.

(** ** [pages/LoginPage.tsx] *)

Module LoginPage.
Record State := mkState {
  email : string;
  password : string;
  errors : Errors;
  isSubmitting : bool;
  serverError : string;
  conflictInfo : option string;
  recentAccounts : list json;
}.
Definition init : State := mkState "" "" [] false "" None [].
#[global] Instance set_email : Setter email := λ g s,
  mkState (g (email s)) (password s) (errors s) (isSubmitting s) (serverError s) (conflictInfo s) (recentAccounts s).
#[global] Instance set_password : Setter password := λ g s,
  mkState (email s) (g (password s)) (errors s) (isSubmitting s) (serverError s) (conflictInfo s) (recentAccounts s).
#[global] Instance set_errors : Setter errors := λ g s,
  mkState (email s) (password s) (g (errors s)) (isSubmitting s) (serverError s) (conflictInfo s) (recentAccounts s).
#[global] Instance set_isSubmitting : Setter isSubmitting := λ g s,
  mkState (email s) (password s) (errors s) (g (isSubmitting s)) (serverError s) (conflictInfo s) (recentAccounts s).
#[global] Instance set_serverError : Setter serverError := λ g s,
  mkState (email s) (password s) (errors s) (isSubmitting s) (g (serverError s)) (conflictInfo s) (recentAccounts s).
#[global] Instance set_conflictInfo : Setter conflictInfo := λ g s,
  mkState (email s) (password s) (errors s) (isSubmitting s) (serverError s) (g (conflictInfo s)) (recentAccounts s).
#[global] Instance set_recentAccounts : Setter recentAccounts := λ g s,
  mkState (email s) (password s) (errors s) (isSubmitting s) (serverError s) (conflictInfo s) (g (recentAccounts s)).

Section Page.
Context `{RKV : RedisKV} `{UDB : UsersDb} `{IDB : IndexDb}.
Context (server : HttpRequest → prog AppEnv App HttpAnswer).
Context (document_cookie : object → string) (sha256 : string → string) (urlencode : list (string * string) → string).
Context (page_origin : string) (new_URL : string → option (string * string)).
Abbreviation Login A := (prog NetEnv (Screen State) A).

(** The effect on [isAuthenticated] *)
Definition redirect_signed_in : Login unit :=
  let! p := useAuth (act (λ _ p, (isAuthenticated p, p))) in
  if p : bool then navigate "/dashboard" else Ret tt.

Definition load_recent : Login unit :=
  let! stored := useAuth (act (λ _ p, (recent p, p))) in
  set_state (λ s, s <| recentAccounts := getRecentAccounts stored |>).

(** The effect on the address: the messages for [error=...] *)
Definition oauth_error (params : string → option string) : Login unit :=
  match params "error" with
  | Some e =>
      if String.eqb e "oauth_not_configured" then
        set_state (λ s, s <| serverError :=
          "Google/GitHub sign-in is not configured. Add credentials to dev/.env.dev and restart uam-backend." |>)
      else if String.eqb e "oauth_failed" then
        set_state (λ s, s <| serverError := "OAuth sign-in failed. Please try again or use email and password." |>)
      else Ret tt
  | None => Ret tt
  end.

Definition handleChange (name value : string) : Login unit :=
  set_state (λ s, (if String.eqb name "email" then s <| email := value |>
                   else if String.eqb name "password" then s <| password := value |> else s)
                  <| errors ::= set_error name "" |> <| serverError := "" |> <| conflictInfo := None |>).

Definition text_member (x : json) (k : string) : option string :=
  match get_member k x with Some (JStr s) => Some s | _ => None end.

Definition handleRecentClick (account : json) : Login unit :=
  let provider := text_member account "provider" in
  if bool_decide (provider = Some "local") then
    set_state (λ s, s <| email := default "" (text_member account "email") |>)
  else
    let is_google := bool_decide (provider = Some "google") in
    let! _ := call (startOAuth server document_cookie sha256 urlencode page_origin (if is_google then google else github)
                      (if is_google then text_member account "email" else None) None) in
    Ret tt.

Definition handleRemoveRecent (address : string) : Login unit :=
  let! stored := useAuth (act (λ _ p, let r := removeRecentAccount address (recent p) in (r, p <| recent := r |>))) in
  set_state (λ s, s <| recentAccounts := getRecentAccounts stored |>).

Definition newErrors (s : State) : Errors :=
  (if String.eqb (email s) "" then [("email", "Email is required")] else [])
  ++ (if String.eqb (password s) "" then [("password", "Password is required")] else []).

Definition handleSubmit : Login unit :=
  set_state (λ s, s <| serverError := "" |>) ;;
  let! s := state in
  match newErrors s with
  | [] =>
      set_state (λ s, s <| isSubmitting := true |>) ;;
      let! r := useAuth (AuthContext.login server document_cookie page_origin new_URL (email s) (password s)) in
      let! _ := match r with
                | inr data => if succeeded data then navigate "/dashboard" else Ret tt
                | inl e => set_state (λ s, s <| serverError := error_message e "Invalid email or password" |>)
                end in
      set_state (λ s, s <| isSubmitting := false |>)
  | es => set_state (λ s, s <| errors := es |>)
  end.
End Page.
End LoginPage.

(** ** [pages/RegisterPage.tsx] *)

Module RegisterPage.
Record State := mkState {
  displayName : string;
  email : string;
  password : string;
  errors : Errors;
  isSubmitting : bool;
  serverError : string;
  conflictInfo : option string;
}.
Definition init : State := mkState "" "" "" [] false "" None.
#[global] Instance set_displayName : Setter displayName := λ g s,
  mkState (g (displayName s)) (email s) (password s) (errors s) (isSubmitting s) (serverError s) (conflictInfo s).
#[global] Instance set_email : Setter email := λ g s,
  mkState (displayName s) (g (email s)) (password s) (errors s) (isSubmitting s) (serverError s) (conflictInfo s).
#[global] Instance set_password : Setter password := λ g s,
  mkState (displayName s) (email s) (g (password s)) (errors s) (isSubmitting s) (serverError s) (conflictInfo s).
#[global] Instance set_errors : Setter errors := λ g s,
  mkState (displayName s) (email s) (password s) (g (errors s)) (isSubmitting s) (serverError s) (conflictInfo s).
#[global] Instance set_isSubmitting : Setter isSubmitting := λ g s,
  mkState (displayName s) (email s) (password s) (errors s) (g (isSubmitting s)) (serverError s) (conflictInfo s).
#[global] Instance set_serverError : Setter serverError := λ g s,
  mkState (displayName s) (email s) (password s) (errors s) (isSubmitting s) (g (serverError s)) (conflictInfo s).
#[global] Instance set_conflictInfo : Setter conflictInfo := λ g s,
  mkState (displayName s) (email s) (password s) (errors s) (isSubmitting s) (serverError s) (g (conflictInfo s)).

Section Page.
Context `{RKV : RedisKV} `{UDB : UsersDb} `{IDB : IndexDb}.
Context (server : HttpRequest → prog AppEnv App HttpAnswer).
Context (document_cookie : object → string) (urlencode : list (string * string) → string).
Context (page_origin : string) (new_URL : string → option (string * string)).
Abbreviation Register A := (prog NetEnv (Screen State) A).

Definition handleChange (name value : string) : Register unit :=
  set_state (λ s, (if String.eqb name "displayName" then s <| displayName := value |>
                   else if String.eqb name "email" then s <| email := value |>
                   else if String.eqb name "password" then s <| password := value |> else s)
                  <| errors ::= set_error name (validateField name value) |> <| serverError := "" |> <| conflictInfo := None |>).

Definition newErrors (s : State) : Errors :=
  List.filter (λ p, negb (String.eqb p.2 ""))
    [("displayName", validateField "displayName" (displayName s)); ("email", validateField "email" (email s));
     ("password", validateField "password" (password s))].

Definition handleSubmit : Register unit :=
  set_state (λ s, s <| serverError := "" |>) ;;
  let! s := state in
  match newErrors s with
  | [] =>
      set_state (λ s, s <| isSubmitting := true |>) ;;
      let! r := useAuth (AuthContext.register server document_cookie page_origin new_URL (email s) (password s) (displayName s)) in
      let! _ :=
        match r with
        | inr data =>
            if succeeded data then
              match given (text_field data "accessToken") with
              | Some _ => navigate "/dashboard"
              | None =>
                  navigate ("/verify-email?" +:+ urlencode ([("email", email s)]
                    ++ match given (text_field data "verificationPollToken") with Some p => [("poll", p)] | None => [] end))
              end
            else Ret tt
        | inl (Refused data) =>
            if bool_decide (text_field data "code" = Some "PROVIDER_MISMATCH") then
              set_state (λ s, s <| conflictInfo := Some (default "" (text_field data "provider")) |>)
            else set_state (λ s, s <| serverError := "Registration failed" |>)
        | inl (Failed m) => set_state (λ s, s <| serverError := m |>)
        end in
      set_state (λ s, s <| isSubmitting := false |>)
  | es => set_state (λ s, s <| errors := es |>)
  end.
End Page.
End RegisterPage.

(** ** [pages/AccountPage.tsx] and the components *)

Module AccountPage.
Record Status := mkStatus { loading : bool; error : string; success : string }.
Record State := mkState { isEditingBio : bool; bio : string; status : Status }.

Section Page.
Context `{RKV : RedisKV} `{UDB : UsersDb} `{IDB : IndexDb}.
Context (server : HttpRequest → prog AppEnv App HttpAnswer).
Context (document_cookie : object → string) (page_origin : string) (new_URL : string → option (string * string)).
Abbreviation Account A := (prog NetEnv (Screen State) A).

Definition show (st : Status) : Account unit := set_state (λ s, mkState (isEditingBio s) (bio s) st).

Definition handleSaveBio : Account unit :=
  let! s := state in
  if 500 <? strlen (bio s) then show (mkStatus false "Bio must be 500 characters or less" "")
  else
    show (mkStatus true "" "") ;;
    let! r := call (updateBio server document_cookie page_origin (bio s)) in
    match r with
    | inr data =>
        if succeeded data then
          show (mkStatus false "" "Bio updated successfully!") ;;
          set_state (λ s, mkState false (bio s) (status s)) ;;
          useAuth (refreshUser server document_cookie page_origin new_URL)
        else show (mkStatus false (message_or data "Failed to update bio") "")
    | inl e => show (mkStatus false (error_message e "Failed to update bio") "")
    end.

Definition handleCancelEdit : Account unit :=
  let! b := useAuth (act (λ _ p, (match user p with Some u => default "" (text_of (opt_prop u "bio")) | None => "" end, p))) in
  set_state (λ _, mkState false b (mkStatus false "" "")).
End Page.
End AccountPage.

Module Components.
(** [getStrength] of [PasswordStrength] *)
Definition getStrength (password : string) : Z :=
  (if 8 <=? strlen password then 1 else 0)
  + (if some_char is_upper password && some_char is_lower password then 1 else 0)
  + (if some_char is_digit password then 1 else 0)
  + (if some_char is_special password then 1 else 0).

(** The bars that are lit *)
Definition active_bars (password : string) : list bool :=
  if String.eqb password "" then [] else map (λ level, level <=? getStrength password) [1; 2; 3; 4].

(** [OAuthButtons]: the providers, whether they were loaded, and the error reported to the page *)
Record Buttons := mkButtons { b_google : bool; b_github : bool; loaded : bool; reported : option string }.

Section Buttons.
Context `{RKV : RedisKV} `{UDB : UsersDb} `{IDB : IndexDb}.
Context (server : HttpRequest → prog AppEnv App HttpAnswer).
Context (document_cookie : object → string) (sha256 : string → string) (urlencode : list (string * string) → string).
Context (page_origin : string).

Definition load_providers : prog NetEnv (Screen Buttons) unit :=
  let! r := call (getOAuthProviders server document_cookie page_origin) in
  set_state (λ b, match r with
                  | inr p => mkButtons (truthy p.1) (truthy p.2) true (reported b)
                  | inl _ => mkButtons false false true (reported b)
                  end).

Definition notConfiguredMsg : string :=
  "OAuth is not configured yet. Add GOOGLE_CLIENT_ID / GITHUB_CLIENT_ID to dev/.env.dev and restart uam-backend.".

Definition start_with (enabled : Buttons → bool) (provider : Provider) (prompt : option string) : prog NetEnv (Screen Buttons) unit :=
  let! b := state in
  if negb (enabled b) then set_state (λ b, mkButtons (b_google b) (b_github b) (loaded b) (Some notConfiguredMsg))
  else
    let! _ := call (startOAuth server document_cookie sha256 urlencode page_origin provider None prompt) in
    Ret tt.
Definition startGoogle := start_with b_google google (Some "select_account").
Definition startGithub := start_with b_github github None.

(** [handleLogout] of [ProfileDropdown]: a logout that throws does not navigate. *)
Definition handleLogout : prog NetEnv (Screen unit) unit :=
  let! r := useAuth (AuthContext.logout server document_cookie page_origin) in
  match r with inr _ => navigate "/login" | inl _ => Ret tt end.
End Buttons.
End Components.

(** ** Facts *)

(** A part that sees the environment as it is runs as it does alone. *)
Lemma run_embed_direct {E S S' A} (get : S' → S) (put : S → S' → S') (p : prog E S A) :
  (∀ t s, get (put t s) = t) → (∀ t t' s, put t (put t' s) = put t s) → (∀ s, put (get s) s = s) →
  ∀ es s, run (embed (λ e s, (e, s)) get put p) es s = ((run p es (get s)).1, put (run p es (get s)).2 s).
Proof.
  intros Hg Hp Hid. induction p as [a|X f k IH]; intros es s; cbn; [by rewrite Hid|].
  destruct (f (es O) (get s)) as [x t]. by rewrite IH, Hg, Hp.
Qed.

Section Facts.
Context `{RKV : RedisKV} `{UDB : UsersDb} `{IDB : IndexDb}.
Context (server : HttpRequest → prog AppEnv App HttpAnswer).
Context (document_cookie : object → string) (urlencode : list (string * string) → string).
Context (page_origin : string) (new_URL : string → option (string * string)).

Lemma run_useAuth {UI A} (p : prog NetEnv Page A) es (s : Screen UI) :
  run (useAuth p) es s = ((run p es (auth s)).1, s <| auth := (run p es (auth s)).2 |>).
Proof. exact (run_embed_direct auth (λ p s, s <| auth := p |>) p ltac:(done) ltac:(done) ltac:(by intros []) es s). Qed.

Lemma run_call {UI A} (p : prog NetEnv World A) es (s : Screen UI) :
  run (call p) es s =
  ((run p es (world (auth s))).1, s <| auth := auth s <| world := (run p es (world (auth s))).2 |> |>).
Proof.
  unfold call. rewrite run_useAuth. unfold AuthContext.api.
  by rewrite (run_embed_direct world (λ w p, p <| world := w |>) p ltac:(done) ltac:(done) ltac:(by intros []) es (auth s)).
Qed.

(** What a request leaves of the screen *)
Lemma run_call_then {UI A B} (p : prog NetEnv World A) (q : A → prog NetEnv (Screen UI) B) es s :
  ∃ es' a w, run (bind (call p) q) es s = run (q a) es' (s <| auth := auth s <| world := w |> |>).
Proof.
  destruct (run_bind_any (call p) q es s) as [es' ->]. rewrite run_call. eauto.
Qed.

Lemma run_useAuth_then {UI A B} (p : prog NetEnv Page A) (q : A → prog NetEnv (Screen UI) B) es s :
  ∃ es' a w, run (bind (useAuth p) q) es s = run (q a) es' (s <| auth := w |>).
Proof. destruct (run_bind_any (useAuth p) q es s) as [es' ->]. rewrite run_useAuth. eauto. Qed.

Ltac after_call a :=
  let es := fresh "es" in let w := fresh "w" in
  match goal with |- context [run (bind (call ?p) ?q) ?es0 ?s] => destruct (run_call_then p q es0 s) as (es & a & w & ->) end.

(** *** The verification page *)

Section Polling.
Import VerifyEmailPage.

(** The page with the requests of the interval: those not settled, and all that
    were sent.  A callback of the interval may start while others await their
    answers, which arrive in any order. *)
Record Polling := mkPolling { screen : Screen State; waiting : nat; sent : nat }.

Inductive PollEvent :=
  | Fires
  | Answers (a : Page) (r : ApiError + object).    (** a request settles; [a] is the page around it by then *)

(** [None]: the event cannot happen; a cleared interval does not fire. *)
Definition poll_event (e : PollEvent) (p : Polling) : option Polling :=
  match e with
  | Fires =>
      match poll (ui (screen p)) with
      | None => None
      | Some _ =>
          let '(t, u) := tick_start (ui (screen p)) in
          Some (match t with
                | Some _ => mkPolling (screen p <| ui := u |>) (S (waiting p)) (S (sent p))
                | None => mkPolling (screen p <| ui := u |>) (waiting p) (sent p)
                end)
      end
  | Answers a r =>
      match waiting p with
      | O => None
      | S n => Some (mkPolling (tick_settle r (screen p <| auth := a |>)) n (sent p))
      end
  end.

Fixpoint polls (evs : list PollEvent) (p : Polling) : option Polling :=
  match evs with [] => Some p | e :: evs => poll_event e p ≫= polls evs end.

Lemma polls_snoc evs e p p' : polls (evs ++ [e]) p = Some p' → ∃ q, polls evs p = Some q ∧ poll_event e q = Some p'.
Proof.
  revert p. induction evs as [|x evs IH]; intros p; cbn.
  - destruct (poll_event e p) as [q|] eqn:E; [|done]. cbn. intros [= <-]. eauto.
  - destruct (poll_event x p) as [q|]; [|done]. cbn. apply IH.
Qed.

(** A callback that nothing overlaps: it fires, and its request settles. *)
Lemma poll_tick_alone es s x :
  poll (ui s) = Some x →
  ∃ evs p, polls evs (mkPolling s 0 0) = Some p ∧
    (run (poll_tick server document_cookie page_origin) es s).2 = screen p ∧ waiting p = O.
Proof.
  intros Hp. unfold poll_tick. cbn [bind act run]. destruct (tick_start (ui s)) as [[t|] u] eqn:E; cbn [fst snd].
  - destruct (run_call_then (getVerificationStatus server document_cookie page_origin t)
      (λ r, act (λ _ s, (tt, tick_settle r s))) (env_tail es) (s <| ui := u |>)) as (es1 & r & w & ->).
    exists [Fires; Answers (auth s <| world := w |>) r]. eexists. cbn. rewrite Hp, E. cbn. by split.
  - exists [Fires]. eexists. cbn. rewrite Hp, E. cbn. by split.
Qed.

Definition firings (evs : list PollEvent) : nat := length (omap (λ e, match e with Fires => Some tt | _ => None end) evs).
Definition answers (evs : list PollEvent) : nat := length (omap (λ e, match e with Answers _ _ => Some tt | _ => None end) evs).
(** Answers that say that the address is verified *)
Definition confirmations (evs : list PollEvent) : nat :=
  length (omap (λ e, match e with Answers _ r => if verified r then Some tt else None | _ => None end) evs).

Lemma counts_snoc evs e :
  firings (evs ++ [e]) = (firings evs + match e with Fires => 1 | _ => 0 end)%nat ∧
  answers (evs ++ [e]) = (answers evs + match e with Answers _ _ => 1 | _ => 0 end)%nat ∧
  confirmations (evs ++ [e]) = (confirmations evs + match e with Answers _ r => if verified r then 1 else 0 | _ => 0 end)%nat.
Proof.
  unfold firings, answers, confirmations. rewrite !omap_app, !length_app. by destruct e as [|a r]; cbn; [|destruct (verified r)].
Qed.

(** What a course of events determines *)
Record polled (token : string) (st : Status) (ts : list (Z * Timer)) (f n c : nat) (p : Polling) : Prop := {
  p_sent : sent p = (f `min` 40)%nat;
  p_open : (waiting p + n)%nat = sent p;
  p_fired : (f ≤ 41)%nat;
  p_live : poll (ui (screen p)) = if decide (f = 41 ∨ c ≠ 0)%nat then None else Some (token, Z.of_nat f);
  p_status : status (ui (screen p)) = if decide (c = 0)%nat then st else success;
  p_timers : timers (screen p) = ts ++ replicate c (2500, GoTo "/login");
  p_message : (f = 41)%nat → c = O →
    message (ui (screen p)) = "Still waiting for verification. Check your inbox or resend the email.";
}.

Lemma polled_fires token st ts f n c p p' :
  polled token st ts f n c p → poll_event Fires p = Some p' → polled token st ts (S f) n c p'.
Proof.
  intros [Hs Ho Hf Hl Hst Ht Hm] He. destruct p as [[au u vi ti] w k]. cbn in *.
  destruct (poll u) as [[t m]|] eqn:E; [|done]. destruct (decide (f = 41 ∨ c ≠ 0)%nat) as [Hd|Hd]; [done|]. injection Hl as -> ->.
  assert (c = O) as -> by lia. assert (Hlt : (f ≠ 41)%nat) by lia.
  unfold tick_start in He. rewrite E in He. destruct (MAX_POLL_ATTEMPTS <? Z.of_nat f + 1) eqn:Em;
    unfold MAX_POLL_ATTEMPTS in Em; breflect; injection He as <-; (split; cbn in *; try done; try lia).
  - by rewrite decide_True by lia.
  - rewrite decide_False by lia. do 2 f_equal. lia.
Qed.

Lemma polled_answers token st ts f n c p p' a r :
  polled token st ts f n c p → poll_event (Answers a r) p = Some p' →
  polled token st ts f (S n) (if verified r then S c else c) p'.
Proof.
  intros [Hs Ho Hf Hl Hst Ht Hm] He. destruct p as [[au u vi ti] [|w] k]; [done|]. cbn in *. injection He as <-.
  unfold tick_settle. destruct (verified r); (split; cbn in *; try done; try lia).
  - by rewrite decide_True by lia.
  - subst ti. by rewrite <- app_assoc, <- replicate_S_end.
Qed.

Lemma polled_course token s evs p :
  poll (ui s) = Some (token, 0) → polls evs (mkPolling s 0 0) = Some p →
  polled token (status (ui s)) (timers s) (firings evs) (answers evs) (confirmations evs) p.
Proof.
  intros Hp. revert p. induction evs as [|e evs IH] using rev_ind; intros p.
  - cbn. intros [= <-]. split; cbn; try done; try lia. by rewrite app_nil_r.
  - intros (q & Hq & He)%polls_snoc. apply IH in Hq. destruct (counts_snoc evs e) as (-> & -> & ->).
    destruct e as [|a r].
    + rewrite !Nat.add_0_r, Nat.add_1_r. by eapply polled_fires.
    + rewrite Nat.add_0_r, Nat.add_1_r. eapply polled_answers in He; [|exact Hq].
      destruct (verified r); [by rewrite Nat.add_1_r|by rewrite Nat.add_0_r].
Qed.

(** C30. Waiting for the verification in another window ends, however the
    callbacks of the interval overlap, whatever the server answers and whichever
    requests fail.  The interval fires at most 41 times and sends one request
    each of the first forty times, none the last: at most forty in all.  It is
    cleared as soon as it has fired 41 times or an answer says that the address
    is verified, and then never fires again.  Each such answer makes the sign-in
    page due and the page a success; without one the page stays pending and at
    the end says that it is still waiting. *)
Theorem polling_ends params token es s evs p :
  given (params "code") = None → given (params "poll") = Some token →
  polls evs (mkPolling (run (mount server document_cookie page_origin params) es s).2 0 0) = Some p →
  let u := ui (screen p) in
  (firings evs ≤ 41)%nat ∧ sent p = (firings evs `min` 40)%nat ∧ (waiting p + answers evs)%nat = sent p ∧
  (poll u = None ↔ firings evs = 41%nat ∨ confirmations evs ≠ O) ∧ (poll u = None → poll_event Fires p = None) ∧
  status u = (if decide (confirmations evs = O) then pending else success) ∧
  timers (screen p) = timers s ++ replicate (confirmations evs) (2500, GoTo "/login") ∧
  (firings evs = 41%nat → confirmations evs = O →
     message u = "Still waiting for verification. Check your inbox or resend the email.").
Proof.
  intros Hc Hp. unfold mount. rewrite Hc, Hp. set (s0 := (run _ es s).2). intros He. cbv zeta.
  assert (H0 : poll (ui s0) = Some (token, 0) ∧ status (ui s0) = pending ∧ timers s0 = timers s) by done.
  destruct H0 as (H1 & H2 & H3). destruct (polled_course token s0 evs p H1 He) as [Hs Ho Hf Hl Hst Ht Hm].
  rewrite H2 in Hst. rewrite H3 in Ht. split_and!; try done.
  - rewrite Hl. destruct (decide (firings evs = 41 ∨ confirmations evs ≠ 0)%nat); [by split|]. split; [done|by intros ?].
  - intros Hn. cbn. by rewrite Hn.
Qed.
End Polling.

(** *** Links are redeemed once *)

Lemma verify_redeem_started code es s :
  VerifyEmailPage.redeemStarted (ui (run (VerifyEmailPage.redeem server document_cookie page_origin code) es s).2) =
  VerifyEmailPage.redeemStarted (ui s).
Proof.
  unfold VerifyEmailPage.redeem.
  after_call a.
  destruct a as [e|data]; [done|]. destruct (text_field data "kind") as [kind|]; [|done].
  destruct (given (text_field data "formToken")); [|done]. by destruct (String.eqb kind "verify-email").
Qed.

Lemma reset_redeem_started code es s :
  ResetPasswordPage.redeemStarted (ui (run (ResetPasswordPage.redeem server document_cookie page_origin code) es s).2) =
  ResetPasswordPage.redeemStarted (ui s).
Proof.
  unfold ResetPasswordPage.redeem.
  after_call a.
  destruct a as [e|data]; [done|]. destruct (text_field data "kind") as [kind|]; [|done].
  destruct (given (text_field data "formToken")); [|done]. by destruct (String.eqb kind "reset-password").
Qed.

Lemma migrate_redeem_started code es s :
  MigrationVerifyPage.redeemStarted (ui (run (MigrationVerifyPage.run_link server document_cookie page_origin code) es s).2) =
  MigrationVerifyPage.redeemStarted (ui s).
Proof.
  unfold MigrationVerifyPage.run_link.
  after_call a.
  destruct a as [e|data]; [done|]. destruct (given (text_field data "formToken")) as [token|]; [|done].
  destruct (text_field data "kind") as [kind|]; [|done]. destruct (startsWith kind "migrate-"); [|done]. cbn [negb].
  after_call a.
  destruct a as [e|result]; [done|]. by destruct (succeeded result).
Qed.

(** An effect guarded by a flag that it sets and its body keeps *)
Lemma once {UI} (started : UI → bool) (mark : UI → UI) path body es es' (s : Screen UI) :
  (∀ u, started (mark u) = true) → (∀ es s, started (ui (run body es s).2) = started (ui s)) →
  let p := let! u := state in if started u then Ret tt else set_state mark ;; replaceState path ;; body in
  run p es' (run p es s).2 = (tt, (run p es s).2).
Proof.
  intros Hm Hb. cbv zeta. set (p := let! u := state in _).
  assert (H : started (ui (run p es s).2) = true).
  { subst p. cbn [bind act run state]. destruct (started (ui s)) eqn:E; [done|]. cbn [bind act run set_state].
    unfold replaceState. after_call a. rewrite Hb. apply Hm. }
  unfold p at 1. cbn [bind act run state]. by rewrite H.
Qed.

(** A link code is good for one request only, and an effect may run twice: the
    three pages that redeem a link send its code at most once. *)
Theorem link_redeemed_once params code es es' sv sr sm :
  given (params "code") = Some code →
  (let s := (run (VerifyEmailPage.mount server document_cookie page_origin params) es sv).2 in
   run (VerifyEmailPage.mount server document_cookie page_origin params) es' s = (tt, s)) ∧
  (let s := (run (ResetPasswordPage.mount server document_cookie page_origin params) es sr).2 in
   run (ResetPasswordPage.mount server document_cookie page_origin params) es' s = (tt, s)) ∧
  (let s := (run (MigrationVerifyPage.mount server document_cookie page_origin params) es sm).2 in
   run (MigrationVerifyPage.mount server document_cookie page_origin params) es' s = (tt, s)).
Proof.
  intros Hc. cbv zeta. unfold VerifyEmailPage.mount, ResetPasswordPage.mount, MigrationVerifyPage.mount. rewrite Hc. split_and!.
  - apply (once VerifyEmailPage.redeemStarted); [done|]. apply verify_redeem_started.
  - apply (once ResetPasswordPage.redeemStarted); [done|]. apply reset_redeem_started.
  - apply (once MigrationVerifyPage.redeemStarted); [done|]. apply migrate_redeem_started.
Qed.

(** *** The callback of an OAuth sign-in *)

(** The answer of the provider belongs to the sign-in that this browser started. *)
Definition answers_own_request (params : string → option string) (m : gmap string string) : Prop :=
  given (params "error") = None ∧
  ∃ code st verifier, given (params "code") = Some code ∧ given (params "state") = Some st ∧
    given (m !! OAUTH_VERIFIER_KEY) = Some verifier ∧ m !! OAUTH_STATE_KEY = Some st.

Lemma run_read_storage {UI A B} (f : gmap string string → A) (q : A → prog NetEnv (Screen UI) B) es s :
  run (bind (storage (λ m, (f m, m))) q) es s = run (q (f (sessionStorage (browser (world (auth s)))))) (env_tail es) s.
Proof. destruct s as [[[[]]]]. done. Qed.

(** Reading an answer of one's own, the page notes it and asks for the session. *)
Lemma callback_exchange params code st v es (s : Screen bool) :
  given (params "error") = None → given (params "code") = Some code → given (params "state") = Some st →
  given (sessionStorage (browser (world (auth s))) !! OAUTH_VERIFIER_KEY) = Some v →
  sessionStorage (browser (world (auth s))) !! OAUTH_STATE_KEY = Some st →
  ui s = false →
  let s' := (run (OAuthCallbackPage.handleCallback server document_cookie page_origin new_URL params) es s).2 in
  ui s' = true ∧ (visited s' = visited s ++ ["/dashboard"] ∨ visited s' = visited s ++ ["/login?error=oauth_failed"]).
Proof.
  intros He H1 H2 H3 H4 Hs. cbv zeta. unfold OAuthCallbackPage.handleCallback. cbn [bind act run state]. rewrite Hs, He.
  rewrite run_read_storage. cbn [fst snd]. rewrite H1, H2, H3, H4, String.eqb_refl. cbn [negb bind act run set_state].
  unfold storage, replaceState. after_call u. after_call u'. after_call a.
  destruct a as [e|data]; [split; [done|by right]|]. destruct (given (text_field data "accessToken")) as [t|]; [|split; [done|by right]].
  match goal with |- context [run (bind (useAuth ?p) ?q) ?es0 ?s] => destruct (run_useAuth_then p q es0 s) as (? & ? & pg & ->) end.
  split; [done|by left].
Qed.

(** C33. An answer that is not for a sign-in of this browser (its state is not the
    stored one, or no verifier is stored) sends no request: the page only
    navigates to the sign-in page, with an error name out of the known three.
    Otherwise the code is exchanged, once: the page ends on the dashboard or on
    the sign-in page, and running the effect again changes nothing. *)
Theorem oauth_callback_guarded params es (s : Screen bool) :
  ui s = false →
  let p := OAuthCallbackPage.handleCallback server document_cookie page_origin new_URL params in
  (¬ answers_own_request params (sessionStorage (browser (world (auth s)))) →
   ∃ e, In e OAuthCallbackPage.OAUTH_ERRORS ∧ run p es s = (tt, s <| visited ::= λ l, l ++ ["/login?error=" +:+ e] |>)) ∧
  (answers_own_request params (sessionStorage (browser (world (auth s)))) →
   let s' := (run p es s).2 in
   (visited s' = visited s ++ ["/dashboard"] ∨ visited s' = visited s ++ ["/login?error=oauth_failed"]) ∧
   ∀ es', run p es' s' = (tt, s')).
Proof.
  intros Hs. cbv zeta. unfold answers_own_request. split.
  - unfold OAuthCallbackPage.handleCallback. cbn [bind act run state]. rewrite Hs. intros Hno. destruct (given (params "error")) as [e|].
    + destruct (existsb (String.eqb e) OAuthCallbackPage.OAUTH_ERRORS) eqn:E.
      * apply existsb_exists in E as (x & Hx & Heq). apply String.eqb_eq in Heq as <-. exists e. split; [exact Hx|].
        cbn in Hx. by repeat destruct Hx as [<-|Hx].
      * exists "oauth_failed". split; [by left|done].
    + exists "oauth_failed". split; [by left|]. rewrite run_read_storage. cbn [fst snd].
      destruct (given (params "code")) as [code|] eqn:E1; [|done]. destruct (given (params "state")) as [st|] eqn:E2; [|done].
      destruct (given (_ !! OAUTH_VERIFIER_KEY)) as [v|] eqn:E3; [|done]. destruct (_ !! OAUTH_STATE_KEY) as [st'|] eqn:E4; [|done].
      destruct (String.eqb_spec st st') as [->|]; [|done].
      exfalso. apply Hno. split; [done|]. by exists code, st', v.
  - intros (He & code & st & v & H1 & H2 & H3 & H4).
    destruct (callback_exchange params code st v es s He H1 H2 H3 H4 Hs) as [Hu Hv]. split; [exact Hv|].
    intros es'. set (s' := (run _ es s).2) in *. unfold OAuthCallbackPage.handleCallback. cbn [bind act run state]. by rewrite Hu.
Qed.

(** *** Forms *)

(** A password that the server would refuse, or that was not repeated, is not
    sent: the two forms that set a password leave everything but themselves
    alone. *)
Theorem forms_hold_back es (sv : Screen VerifyEmailPage.State) (sr : Screen ResetPasswordPage.State) :
  (accepts passwordSchema (VStr (VerifyEmailPage.password (ui sv)))
     && String.eqb (VerifyEmailPage.password (ui sv)) (VerifyEmailPage.confirmPassword (ui sv)) = false →
   auth (run (VerifyEmailPage.handleVerifySubmit server document_cookie page_origin new_URL) es sv).2 = auth sv) ∧
  (accepts passwordSchema (VStr (ResetPasswordPage.password (ui sr)))
     && String.eqb (ResetPasswordPage.password (ui sr)) (ResetPasswordPage.confirmPassword (ui sr)) = false →
   auth (run (ResetPasswordPage.handleSubmit server document_cookie page_origin) es sr).2 = auth sr).
Proof.
  split; intros H.
  - unfold VerifyEmailPage.handleVerifySubmit. cbn [bind act run state].
    destruct (given (VerifyEmailPage.formToken (ui sv))) as [t|]; [|done].
    destruct (validatePassword (VerifyEmailPage.password (ui sv))) eqn:E; [done|].
    apply password_accepts in E. rewrite E in H. cbn [andb] in H. rewrite H. done.
  - unfold ResetPasswordPage.handleSubmit. cbn [bind act run set_state state].
    set (s1 := sr <| ui ::= _ |>). destruct (given (ResetPasswordPage.formToken (ui s1))) as [t|]; [|done].
    assert (Hn : ResetPasswordPage.newErrors (ui s1) ≠ []).
    { unfold ResetPasswordPage.newErrors. subst s1. cbn. destruct (validatePassword (ResetPasswordPage.password (ui sr))) eqn:E; [done|].
      apply password_accepts in E. rewrite E in H. cbn [andb] in H. by rewrite H. }
    by destruct (ResetPasswordPage.newErrors (ui s1)).
Qed.

(** A registration that the server refuses shows the same text whatever the
    reason: the client throws the body of the answer, which is not an [Error]. *)
Theorem registration_reason_hidden es (s : Screen RegisterPage.State) data :
  RegisterPage.newErrors (ui s) = [] →
  (run (AuthContext.register server document_cookie page_origin new_URL (RegisterPage.email (ui s)) (RegisterPage.password (ui s))
     (RegisterPage.displayName (ui s))) (λ n, es (S (S (S n)))) (auth s)).1 = inl (Refused data) →
  text_field data "code" ≠ Some "PROVIDER_MISMATCH" →
  let s' := (run (RegisterPage.handleSubmit server document_cookie urlencode page_origin new_URL) es s).2 in
  RegisterPage.serverError (ui s') = "Registration failed" ∧ RegisterPage.conflictInfo (ui s') = RegisterPage.conflictInfo (ui s) ∧
  visited s' = visited s.
Proof.
  intros Hn Hr Hc. cbv zeta. unfold RegisterPage.handleSubmit. cbn [bind act run set_state state].
  set (s1 := s <| ui ::= _ |>). change (RegisterPage.newErrors (ui s1)) with (RegisterPage.newErrors (ui s)). rewrite Hn.
  cbn [bind act run]. 
  match goal with |- context [run (bind (useAuth ?p) ?q) ?es0 ?s] => destruct (run_bind_any (useAuth p) q es0 s) as (es1 & ->) end.
  rewrite run_useAuth. cbn [fst snd].
  match type of Hr with (?r).1 = _ => match goal with |- context [run (AuthContext.register ?a ?b ?c ?d ?x ?y ?z) ?e ?st] =>
    change (run (AuthContext.register a b c d x y z) e st) with r end end.
  rewrite Hr. rewrite bool_decide_eq_false_2 by exact Hc. done.
Qed.

(** The four bars are lit exactly for the passwords that the form accepts. *)
Theorem strength_is_acceptance password :
  (Components.getStrength password = 4 ↔ validateField "password" password = "") ∧
  (Components.active_bars password = [true; true; true; true] ↔ validateField "password" password = "").
Proof.
  assert (H : Components.getStrength password = 4 ↔ validateField "password" password = "").
  { unfold Components.getStrength, validateField. cbn. rewrite strlen_pos, !ltb_negb_leb. 
    destruct (Z.leb_spec 8 (strlen password)) as [H8|H8]; cbn.
    - rewrite (proj2 (Z.leb_le 1 (strlen password))) by lia. cbn.
      destruct (some_char is_upper password); cbn; [|destruct (some_char is_digit password), (some_char is_special password); split; intros; (lia || done)].
      destruct (some_char is_lower password); cbn; [|destruct (some_char is_digit password), (some_char is_special password); split; intros; (lia || done)].
      destruct (some_char is_digit password); cbn; [|destruct (some_char is_special password); split; intros; (lia || done)].
      destruct (some_char is_special password); cbn; split; intros; (lia || done).
    - split; [|by destruct (1 <=? strlen password)].
      destruct (some_char is_upper password && some_char is_lower password), (some_char is_digit password), (some_char is_special password); intros; lia. }
  split; [exact H|]. rewrite <- H. unfold Components.active_bars. destruct (String.eqb_spec password "") as [->|].
  - split; [done|]. by vm_compute.
  - cbn [map]. split.
    + intros [= H1 H2 H3 H4]. apply Z.leb_le in H4. revert H4. unfold Components.getStrength.
      destruct (8 <=? _), (_ && _), (some_char is_digit _), (some_char is_special _); lia.
    + intros ->. done.
Qed.
End Facts.

(** ** A browser with the server in memory *)

Module ScreenRun.
Definition page : Page (RKV := MemKV.mem_kv) (UDB := MemTable.mem_table) (IDB := MemIndex.mem_index) :=
  mkPage (mkWorld (browser ClientRun.ready) MemServer.start) None false None.
Definition screen {UI} (u : UI) : Screen (RKV := MemKV.mem_kv) (UDB := MemTable.mem_table) (IDB := MemIndex.mem_index) UI :=
  mkScreen UI _ _ _ page u [] [].
Definition params (l : list (string * string)) (k : string) : option string :=
  snd <$> List.find (λ p, String.eqb p.1 k) l.
Definition filled := screen (RegisterPage.mkState "Alice" "alice@x.dev" "Tr0ub4dor&3" [] false "" None).
End ScreenRun.

Lemma routes_settle_witness :
  Routes.follow String.eqb 3 ScreenRun.page {| Routes.pathname := "/dashboard"; Routes.search := "" |} = Some "LoginPage".
Proof. exact (Routes.routes_settle String.eqb ltac:(done) ScreenRun.page {| Routes.pathname := "/dashboard"; Routes.search := "" |} eq_refl). Defined.

(** Three firings before the first answer, which says that the address is
    verified; the answer to the second request comes after the interval was cleared. *)
Module PollRun.
Definition yes := Answers ScreenRun.page (inr [("verified", VBool true)]).
Definition evs := [Fires; Fires; Fires; yes; yes].
Definition start := mkPolling (run (VerifyEmailPage.mount ClientRun.server ClientRun.hidden "https://app" (ScreenRun.params [("poll", "token")]))
  ClientRun.offline (ScreenRun.screen VerifyEmailPage.init)).2 0 0.
Definition final := default start (polls evs start).

Lemma possible : polls evs start = Some final.
Proof.
  unfold final. assert (H : match polls evs start with Some _ => true | None => false end = true) by (vm_compute; reflexivity).
  by destruct (polls evs start).
Qed.
End PollRun.

Lemma polling_ends_witness :
  sent PollRun.final = 3%nat ∧ timers (screen PollRun.final) = replicate 2 (2500, GoTo "/login").
Proof.
  destruct (polling_ends ClientRun.server ClientRun.hidden "https://app" (ScreenRun.params [("poll", "token")]) "token"
    ClientRun.offline (ScreenRun.screen VerifyEmailPage.init) PollRun.evs PollRun.final eq_refl eq_refl PollRun.possible)
    as (_ & Hs & _ & _ & _ & _ & Ht & _).
  split; [exact Hs|exact Ht].
Defined.

Lemma link_redeemed_once_witness :
  let p := VerifyEmailPage.mount ClientRun.server ClientRun.hidden "https://app" (ScreenRun.params [("code", "c")]) in
  let s := (run p (ClientRun.online_with "r") (ScreenRun.screen VerifyEmailPage.init)).2 in
  run p (ClientRun.online_with "r") s = (tt, s).
Proof.
  exact (proj1 (link_redeemed_once ClientRun.server ClientRun.hidden "https://app" (ScreenRun.params [("code", "c")]) "c"
    (ClientRun.online_with "r") (ClientRun.online_with "r") (ScreenRun.screen VerifyEmailPage.init) (ScreenRun.screen ResetPasswordPage.init)
    (ScreenRun.screen MigrationVerifyPage.init) eq_refl)).
Defined.

Lemma oauth_callback_guarded_witness :
  ∃ e, In e OAuthCallbackPage.OAUTH_ERRORS ∧
    run (OAuthCallbackPage.handleCallback ClientRun.server ClientRun.hidden "https://app" (λ _, None)
           (ScreenRun.params [("code", "stolen"); ("state", "other")])) (ClientRun.online_with "r") (ScreenRun.screen false) =
    (tt, ScreenRun.screen false <| visited := ["/login?error=" +:+ e] |>).
Proof.
  apply (oauth_callback_guarded ClientRun.server ClientRun.hidden "https://app" (λ _, None)
    (ScreenRun.params [("code", "stolen"); ("state", "other")]) (ClientRun.online_with "r") (ScreenRun.screen false) eq_refl).
  intros (_ & code & st & v & _ & _ & H & _). vm_compute in H. discriminate H.
Defined.

Lemma forms_hold_back_witness :
  auth (run (VerifyEmailPage.handleVerifySubmit ClientRun.server ClientRun.hidden "https://app" (λ _, None)) (ClientRun.online_with "r")
    (ScreenRun.screen (VerifyEmailPage.mkState VerifyEmailPage.form "" "weak" "weak" "" false (Some "token") 0 true None))).2 = ScreenRun.page.
Proof.
  exact (proj1 (forms_hold_back ClientRun.server ClientRun.hidden "https://app" (λ _, None) (ClientRun.online_with "r")
    (ScreenRun.screen (VerifyEmailPage.mkState VerifyEmailPage.form "" "weak" "weak" "" false (Some "token") 0 true None))
    (ScreenRun.screen ResetPasswordPage.init)) eq_refl).
Defined.

(** The address is registered already, and the server says so. *)
Lemma registration_reason_hidden_witness :
  RegisterPage.serverError (ui (run (RegisterPage.handleSubmit ClientRun.server ClientRun.hidden (λ _, "") "https://app" (λ _, None))
    (ClientRun.online_with "csrf-2") ScreenRun.filled).2) = "Registration failed".
Proof.
  apply (registration_reason_hidden ClientRun.server ClientRun.hidden (λ _, "") "https://app" (λ _, None) (ClientRun.online_with "csrf-2") ScreenRun.filled
    [("success", VBool false); ("message", VStr "Email already registered")]).
  - vm_compute. reflexivity.
  - vm_compute. reflexivity.
  - discriminate.
Defined.
