(* ===== verification/MigrationPage.v ===== *)
(** * The page that migrates an account

    Models [uam-frontend/src/pages/MigrationPage.tsx]: the form that starts a
    migration and asks for confirmation when the new address is taken, the
    page that waits for the two verifications, resends the mails and finalises,
    and the history.  The interval and the effects that React runs when their
    dependencies change are programs of their own. *)

From S2P Require Import Prelude CircuitConfig RollingWindow CircuitBreaker GuardedCalls Async RedisCache Json JsVal Columns SqlFilter SqlMeaning Password UserModel OneTimeCodes Sessions IdentityIndex Tokens SessionHandlers UsersTable Documents Application AuthController MigrationController AppFacts MigrationHistory MemApp Validators Server RecentAccounts ApiClient AuthContext Pages.
#[local] Open Scope string_scope.
#[local] Open Scope list_scope.
#[local] Open Scope Z_scope.
#[local] Open Scope async_scope.

(** ** State *)

Record MigrationStatus := {
  hasPendingMigration : bool;
  currentEmail : option string;
  newEmail : option string;
  currentEmailVerified : bool;
  newEmailVerified : bool;
  migrationExpiry : val;
  cooldownRemaining : Z;
}.

Record Notice := mkNotice { loading : bool; error : string; success : string }.

Record State := mkState {
  form_password : string;
  form_newEmail : string;
  status : Notice;
  migrationStatus : option MigrationStatus;
  cooldown : Z;
  isResending : bool;
  emailExistsWarning : bool;
  migrationHistory : val;
  showHistory : bool;
  interval : bool;                     (** the interval that polls is set *)
}.
Definition init : State := mkState "" "" (mkNotice false "" "") None 0 false false (VArr []) false false.

#[global] Instance set_form_password : Setter form_password := λ g s,
  mkState (g (form_password s)) (form_newEmail s) (status s) (migrationStatus s) (cooldown s) (isResending s) (emailExistsWarning s) (migrationHistory s) (showHistory s) (interval s).
#[global] Instance set_form_newEmail : Setter form_newEmail := λ g s,
  mkState (form_password s) (g (form_newEmail s)) (status s) (migrationStatus s) (cooldown s) (isResending s) (emailExistsWarning s) (migrationHistory s) (showHistory s) (interval s).
#[global] Instance set_status : Setter status := λ g s,
  mkState (form_password s) (form_newEmail s) (g (status s)) (migrationStatus s) (cooldown s) (isResending s) (emailExistsWarning s) (migrationHistory s) (showHistory s) (interval s).
#[global] Instance set_migrationStatus : Setter migrationStatus := λ g s,
  mkState (form_password s) (form_newEmail s) (status s) (g (migrationStatus s)) (cooldown s) (isResending s) (emailExistsWarning s) (migrationHistory s) (showHistory s) (interval s).
#[global] Instance set_cooldown : Setter cooldown := λ g s,
  mkState (form_password s) (form_newEmail s) (status s) (migrationStatus s) (g (cooldown s)) (isResending s) (emailExistsWarning s) (migrationHistory s) (showHistory s) (interval s).
#[global] Instance set_isResending : Setter isResending := λ g s,
  mkState (form_password s) (form_newEmail s) (status s) (migrationStatus s) (cooldown s) (g (isResending s)) (emailExistsWarning s) (migrationHistory s) (showHistory s) (interval s).
#[global] Instance set_emailExistsWarning : Setter emailExistsWarning := λ g s,
  mkState (form_password s) (form_newEmail s) (status s) (migrationStatus s) (cooldown s) (isResending s) (g (emailExistsWarning s)) (migrationHistory s) (showHistory s) (interval s).
#[global] Instance set_migrationHistory : Setter migrationHistory := λ g s,
  mkState (form_password s) (form_newEmail s) (status s) (migrationStatus s) (cooldown s) (isResending s) (emailExistsWarning s) (g (migrationHistory s)) (showHistory s) (interval s).
#[global] Instance set_showHistory : Setter showHistory := λ g s,
  mkState (form_password s) (form_newEmail s) (status s) (migrationStatus s) (cooldown s) (isResending s) (emailExistsWarning s) (migrationHistory s) (g (showHistory s)) (interval s).
#[global] Instance set_interval : Setter interval := λ g s,
  mkState (form_password s) (form_newEmail s) (status s) (migrationStatus s) (cooldown s) (isResending s) (emailExistsWarning s) (migrationHistory s) (showHistory s) (g (interval s)).

(** ** Answers of the server *)

Definition flag (data : object) (k : string) : bool := truthy (obj_get data k).
(** A number, or 0 *)
Definition number (data : object) (k : string) : Z := match obj_get data k with VNum n => n | _ => 0 end.

Definition status_of (data : object) : MigrationStatus :=
  {| hasPendingMigration := flag data "hasPendingMigration"; currentEmail := text_field data "currentEmail";
     newEmail := text_field data "newEmail"; currentEmailVerified := flag data "currentEmailVerified";
     newEmailVerified := flag data "newEmailVerified"; migrationExpiry := obj_get data "migrationExpiry";
     cooldownRemaining := number data "cooldownRemaining" |}.

Definition both_verified (data : object) : bool := flag data "currentEmailVerified" && flag data "newEmailVerified".

(** [migrationStatus?.hasPendingMigration] *)
Definition is_pending (s : State) : bool := match migrationStatus s with Some m => hasPendingMigration m | None => false end.

Section Page.
Context `{RKV : RedisKV} `{UDB : UsersDb} `{IDB : IndexDb}.
Context (server : HttpRequest → prog AppEnv App HttpAnswer).
Context (document_cookie : object → string) (page_origin : string) (new_URL : string → option (string * string)).
Abbreviation Migrate A := (prog NetEnv (Screen State) A).

Definition notice (n : Notice) : Migrate unit := set_state (λ s, s <| status := n |>).
Definition failed (m : string) : Notice := mkNotice false m "".
Definition completed : Notice := mkNotice false "" "Migration completed successfully! You can start a new migration below.".

(** [setMigrationStatus(...)] and the cooldown of the server *)
Definition take_status (data : object) (s : State) : State :=
  let s := s <| migrationStatus := Some (status_of data) |> in
  if 0 <? number data "cooldownRemaining" then s <| cooldown := number data "cooldownRemaining" |> else s.

Definition finish : Migrate unit :=
  useAuth (refreshUser server document_cookie page_origin new_URL) ;;
  set_state (λ s, s <| migrationStatus := None |> <| status := completed |>).

Definition checkMigrationStatus : Migrate (option MigrationStatus) :=
  let! r := call (getMigrationStatus server document_cookie page_origin) in
  match r with
  | inl _ => Ret None
  | inr data =>
      if negb (succeeded data) then Ret None
      else
        set_state (take_status data) ;;
        let! _ :=
          if both_verified data then
            if flag data "needsFinalization" || flag data "hasPendingMigration" then
              let! f := call (finalizeMigration server document_cookie page_origin) in
              match f with
              | inr result => if succeeded result then finish else notice (failed (message_or result "Failed to finalize migration"))
              | inl e => notice (failed (error_message e "Failed to finalize migration"))
              end
            else finish
          else if flag data "currentEmailVerified" || flag data "newEmailVerified" then
            notice (mkNotice false "" ((if flag data "currentEmailVerified" then "Current" else "New") +:+ " email verified! Waiting for the other..."))
          else Ret tt in
        Ret (Some (status_of data))
  end.

Definition handleResendEmails : Migrate unit :=
  let! s := state in
  if negb (is_pending s) then notice (failed "No pending migration to resend emails for")
  else
    set_state (λ s, s <| isResending := true |> <| status := mkNotice true "" "" |>) ;;
    let! r := call (resendMigrationEmails server document_cookie page_origin) in
    let! _ :=
      match r with
      | inr data =>
          if succeeded data then
            set_state (λ s, s <| status := mkNotice false "" "Verification emails resent to both email addresses!" |> <| cooldown := 30 |>) ;;
            let! _ := checkMigrationStatus in
            setTimeout ClearSuccess 3000
          else
            set_state (λ s, let s := s <| status := failed (message_or data "Failed to resend emails") |> in
                            match obj_get data "cooldownRemaining" with VNum n => s <| cooldown := n |> | _ => s end)
      | inl e =>
          set_state (λ s, let s := s <| status := failed (error_message e "Failed to resend emails") |> in
                          match e with
                          | Refused data => if negb (number data "cooldownRemaining" =? 0) then s <| cooldown := number data "cooldownRemaining" |> else s
                          | Failed _ => s
                          end)
      end in
    set_state (λ s, s <| isResending := false |>).

(** The effect that polls, run when [hasPendingMigration] changes *)
Definition poll_effect : Migrate unit :=
  let! s := state in
  match migrationStatus s with
  | Some m =>
      if negb (hasPendingMigration m) then Ret tt
      else if currentEmailVerified m && newEmailVerified m then
        useAuth (refreshUser server document_cookie page_origin new_URL) ;; setTimeout ShowHistory 1000
      else set_state (λ s, s <| interval := true |>)
  | None => Ret tt
  end.
(** Its cleanup *)
Definition poll_cleanup : Migrate unit := set_state (λ s, s <| interval := false |>).

(** The interval fires. *)
Definition poll_tick : Migrate unit :=
  let! s := state in
  if negb (interval s) then Ret tt
  else
    let! r := call (getMigrationStatus server document_cookie page_origin) in
    match r with
    | inl _ => Ret tt
    | inr data =>
        let! cancelled := act (λ _ s, (negb (interval (ui s)), s)) in
        if negb (succeeded data) || cancelled then Ret tt
        else
          (if flag data "hasPendingMigration" then set_state (take_status data) else Ret tt) ;;
          (if both_verified data then
             set_state (λ s, s <| interval := false |>) ;;
             useAuth (refreshUser server document_cookie page_origin new_URL) ;;
             setTimeout ShowHistory 1000
           else Ret tt)
    end.

(** A timer of the page fires. *)
Definition fire (t : Timer) : Migrate unit :=
  match t with
  | ClearSuccess => set_state (λ s, s <| status ::= λ n, mkNotice (loading n) (error n) "" |>)
  | ShowHistory => set_state (λ s, s <| migrationStatus := None |> <| status := mkNotice false "" "" |> <| showHistory := true |>)
  | GoTo path => navigate path
  end.

Definition cooldown_tick : Migrate unit := set_state (λ s, if cooldown s <=? 0 then s else s <| cooldown := Z.max 0 (cooldown s - 1) |>).

Definition mount : Migrate unit :=
  let! signed_in := useAuth (act (λ _ p, (isAuthenticated p, p))) in
  if signed_in : bool then (let! _ := checkMigrationStatus in Ret tt) else Ret tt.

Definition loadMigrationHistory : Migrate unit :=
  let! r := call (getMigrationHistory server document_cookie page_origin) in
  match r with
  | inr data =>
      if succeeded data then set_state (λ s, s <| migrationHistory := or_val (obj_get data "history") (VArr []) |>) else Ret tt
  | inl _ => Ret tt
  end.

(** [error.code === 'EMAIL_EXISTS' && error.requiresConfirmation], for the body of an answer *)
Definition wants_confirmation (data : object) : bool :=
  bool_decide (text_field data "code" = Some "EMAIL_EXISTS") && flag data "requiresConfirmation".

Definition ask_confirmation (data : object) : Migrate unit :=
  set_state (λ s, s <| emailExistsWarning := true |>
    <| status := failed (match text_field data "warning", text_field data "message" with
                         | Some w, _ => w
                         | None, Some m => m
                         | None, None => "Confirmation required"
                         end) |>).

Definition handleSubmit (confirmOverride : bool) : Migrate unit :=
  set_state (λ s, s <| status := mkNotice true "" "" |> <| emailExistsWarning := false |>) ;;
  let! s := state in
  let! r := call (initiateMigration server document_cookie page_origin (form_password s) (form_newEmail s) confirmOverride) in
  match r with
  | inr data =>
      if succeeded data then
        set_state (λ s, s <| status := mkNotice false "" "Verification links sent to both email addresses! Please check your emails." |>
                          <| cooldown := 30 |> <| emailExistsWarning := false |>) ;;
        let! _ := checkMigrationStatus in Ret tt
      else if wants_confirmation data then ask_confirmation data
      else notice (failed (message_or data "Failed to initiate migration"))
  | inl e =>
      match e with
      | Refused data => if wants_confirmation data then ask_confirmation data else notice (failed (error_message e "Failed to initiate migration"))
      | Failed _ => notice (failed (error_message e "Failed to initiate migration"))
      end
  end.
Definition handleConfirmOverride : Migrate unit := handleSubmit true.

(** The fields of the form; the cancel button of the warning *)
Definition change_password (v : string) : Migrate unit := set_state (λ s, s <| form_password := v |>).
Definition change_newEmail (v : string) : Migrate unit := set_state (λ s, s <| form_newEmail := toLowerCase v |>).
Definition cancel_warning : Migrate unit := set_state (λ s, s <| emailExistsWarning := false |> <| status := mkNotice false "" "" |>).

(** [disabled] of the button that resends *)
Definition resend_disabled (s : State) : bool := (0 <? cooldown s) || isResending s || loading (status s) || negb (is_pending s).
End Page.

(** ** Facts *)

(** What the status request answers when nothing is pending any more: an
    error, or a status without a pending migration *)
Definition gone (r : ApiError + object) : bool :=
  match r with
  | inl _ => true
  | inr data => negb (flag data "hasPendingMigration") && negb (both_verified data)
  end.

Section Facts.
Context `{RKV : RedisKV} `{UDB : UsersDb} `{IDB : IndexDb}.
Context (server : HttpRequest → prog AppEnv App HttpAnswer).
Context (document_cookie : object → string) (page_origin : string) (new_URL : string → option (string * string)).

(** A migration completes when its second link is opened, on another page: the
    server finalises it, clears its flags and makes the old token stale.  The
    page that waits never notices: a poll that finds nothing pending, or is
    refused, changes nothing, so the page goes on showing a migration that
    waits for verification, and goes on polling. *)
Theorem poll_misses_completion es s :
  gone (run (getMigrationStatus server document_cookie page_origin) (env_tail es) (world (auth s))).1 = true →
  let s' := (run (poll_tick server document_cookie page_origin new_URL) es s).2 in
  ui s' = ui s ∧ timers s' = timers s ∧ visited s' = visited s ∧ user (auth s') = user (auth s).
Proof.
  intros Hg. cbv zeta. unfold poll_tick. cbn [bind act run state]. destruct (interval (ui s)); [|done]. cbn [negb].
  match goal with |- context [run (bind (call ?p) ?q) ?e s] => destruct (run_bind_any (call p) q e s) as (es1 & ->) end.
  rewrite run_call. cbn [fst snd]. destruct (run _ (env_tail es) (world (auth s))) as [[e|data] w]; [done|]. cbn [fst snd gone] in *.
  apply andb_true_iff in Hg as [H1%negb_true_iff H2%negb_true_iff]. cbn [bind act run].
  destruct (negb (succeeded data) || _); [done|]. by rewrite H1, H2.
Qed.

(** Looking at the status finalises nothing unless both addresses are verified. *)
Theorem check_only_reads es s data :
  let x := run (getMigrationStatus server document_cookie page_origin) es (world (auth s)) in
  x.1 = inr data → both_verified data = false →
  let y := run (checkMigrationStatus server document_cookie page_origin new_URL) es s in
  auth y.2 = auth s <| world := x.2 |> ∧ y.1 = (if succeeded data then Some (status_of data) else None) ∧
  migrationStatus (ui y.2) = (if succeeded data then Some (status_of data) else migrationStatus (ui s)).
Proof.
  cbv zeta. intros Hx Hb. unfold checkMigrationStatus.
  match goal with |- context [run (bind (call ?p) ?q) ?e s] => destruct (run_bind_any (call p) q e s) as (es1 & ->) end.
  rewrite run_call. cbn [fst snd]. rewrite Hx. destruct (succeeded data); [|done]. cbn [negb bind act run set_state]. rewrite Hb.
  assert (Ht : ∀ u, migrationStatus (take_status data u) = Some (status_of data)) by (intros u; unfold take_status; by destruct (0 <? _)).
  destruct (flag data "currentEmailVerified" || flag data "newEmailVerified"); cbn; (split; [done|split; [done|apply Ht]]).
Qed.

Fixpoint cool (n : nat) : prog NetEnv (Screen State) unit :=
  match n with O => Ret tt | S n => cooldown_tick ;; cool n end.

(** The cooldown counts down to zero and stays there; until then the mails
    cannot be sent again. *)
Theorem cooldown_runs_down n es s :
  0 ≤ cooldown (ui s) →
  let s' := (run (cool n) es s).2 in
  cooldown (ui s') = Z.max 0 (cooldown (ui s) - Z.of_nat n) ∧ (Z.of_nat n < cooldown (ui s) → resend_disabled (ui s') = true) ∧ auth s' = auth s.
Proof.
  cbv zeta. revert es s. induction n as [|n IH]; intros es s Hc; cbn [cool].
  - cbn [run snd]. split_and!; [lia| |done]. intros H. unfold resend_disabled. by rewrite (proj2 (Z.ltb_lt 0 _)) by lia.
  - cbn [bind act run cooldown_tick set_state]. set (s1 := s <| ui ::= _ |>).
    assert (H1 : cooldown (ui s1) = Z.max 0 (cooldown (ui s) - 1) ∧ auth s1 = auth s).
    { subst s1. cbn. destruct (Z.leb_spec (cooldown (ui s)) 0); cbn; (split; [lia|done]). }
    destruct H1 as [H1 Ha]. destruct (IH (env_tail es) s1 ltac:(lia)) as (H2 & H3 & H4). rewrite H1 in H2, H3. split_and!; [lia| |congruence].
    intros H. apply H3. lia.
Qed.
End Facts.

Section EmptyPassword.
Context (sha256_hex sha256_base64url base64url_decode md5_hex : string → string) (hmac_sha256_hex : string → string → string).
Context (Date_toString Date_toISOString : Z → string) (Date_getFullYear startOfDay : Z → Z).
Context (hashPassword : string → string) (verifyPassword : string → option string → VerifyResult).
Context (new_URL : string → option OAuthPkce.URL).
Context `{RKV : RedisKV} `{UDB : UsersDb} {DL : UsersDbLaws UDB} `{IDB : IndexDb} `{FK : !ForeignKey UDB IDB}.
Context `{J : Jwt} `{ZP : Zod} {ZL : ZodLaws ZP}.
Context (config : AppConfig) (nodeEnv too_long too_short : string).
Context (passport_user : Provider → HttpRequest → prog AppEnv App (option User)).
Abbreviation serve := (Server.serve sha256_hex sha256_base64url base64url_decode md5_hex hmac_sha256_hex Date_toString Date_toISOString
  Date_getFullYear startOfDay hashPassword verifyPassword new_URL config nodeEnv too_long too_short passport_user).

(** The body of the request that the form sends *)
Definition init_fields (password newEmail : string) (confirmOverride : bool) : object :=
  [("password", VStr password); ("newEmail", VStr newEmail); ("confirmOverride", if confirmOverride then VStr "true" else VUndef)].

Lemma init_needs_password newEmail confirmOverride :
  valid migrationInitSchema (json_body_of (init_fields "" newEmail confirmOverride)) = false.
Proof. destruct confirmOverride; cbn; by rewrite andb_false_r. Qed.

(** An account of a provider has no password, and the page says that none is
    needed.  It then sends an empty one, which the schema of the route does not
    let through: whoever is signed in, the server changes no account. *)
Theorem empty_password_refused q newEmail confirmOverride es s :
  names_user config (message_parts q) →
  method q = "POST" → target q = "/api/auth/migrate/init" →
  body (message_parts q) = json_body_of (init_fields "" newEmail confirmOverride) →
  untouched s (run (serve q) es s).2.
Proof.
  intros Hn Hm Ht Hb. unfold Server.serve. destruct (origin_allowed _ _ _ _); [|cbn; reflexivity]. cbn [negb]. rewrite Hm, Ht.
  assert (E : find_route too_long too_short "POST" "/api/auth/migrate/init" =
    Some (route "POST" "/init" (protectedMigration ++ [validates migrationInitSchema]) h_initiateMigration)) by reflexivity.
  rewrite E. cbn [r_guards r_handler].
  match goal with |- context [run (bind ?p ?q) es s] => destruct (run_bind_any p q es s) as [es' ->] end.
  destruct (guards_admit Date_toString Date_toISOString config nodeEnv (protectedMigration ++ [validates migrationInitSchema])
    (message_parts q) es s Hn eq_refl) as [Hu Hp].
  destruct (run _ es s) as [[a|user] s1]; cbn [fst snd] in *; [exact Hu|]. exfalso.
  apply Forall_app in Hp as [_ Hp]. apply Forall_cons in Hp as [Hp _]. cbn in Hp. rewrite Hb, init_needs_password in Hp. discriminate.
Qed.
End EmptyPassword.

(** ** A page that waits *)

Module WaitingPage.
(** Both addresses were verified on another page and the server has finalised
    the migration; this page has its status from before. *)
Definition waiting : MigrationStatus :=
  {| hasPendingMigration := true; currentEmail := Some "alice@x.dev"; newEmail := Some "alice@y.dev"; currentEmailVerified := true;
     newEmailVerified := false; migrationExpiry := VNull; cooldownRemaining := 0 |}.
Definition screen : Screen (RKV := MemKV.mem_kv) (UDB := MemTable.mem_table) (IDB := MemIndex.mem_index) State :=
  mkScreen State _ _ _ SignedIn.finalised.2 (init <| migrationStatus := Some waiting |> <| interval := true |> <| cooldown := 30 |>) [] [].
(** Nobody has verified anything yet. *)
Definition started : Screen (RKV := MemKV.mem_kv) (UDB := MemTable.mem_table) (IDB := MemIndex.mem_index) State :=
  mkScreen State _ _ _ SignedIn.signed_in.2 init [] [].
Definition env := ClientRun.online_with "csrf-9".
Definition answer := (run (getMigrationStatus ClientRun.server ClientRun.hidden "https://app") env (world (auth started))).1.
Definition init_request : HttpRequest :=
  {| method := "POST"; target := "/api/auth/migrate/init"; origin := Some "https://app"; query := [];
     message_parts := {| cookies := VObj []; authorization := None; csrfHeader := VUndef;
                         body := json_body_of (init_fields "" "new@x.dev" false) |} |}.
End WaitingPage.

Lemma poll_misses_completion_witness :
  let s' := (run (poll_tick ClientRun.server ClientRun.hidden "https://app" (λ _, None)) WaitingPage.env WaitingPage.screen).2 in
  ui s' = ui WaitingPage.screen ∧ is_pending (ui s') = true.
Proof.
  cbv zeta. destruct (poll_misses_completion ClientRun.server ClientRun.hidden "https://app" (λ _, None) WaitingPage.env WaitingPage.screen) as [H _].
  - vm_compute. reflexivity.
  - split; [exact H|]. rewrite H. reflexivity.
Defined.

Lemma check_only_reads_witness :
  is_inr WaitingPage.answer = true ∧
  ∀ data, WaitingPage.answer = inr data →
    (run (checkMigrationStatus ClientRun.server ClientRun.hidden "https://app" (λ _, None)) WaitingPage.env WaitingPage.started).1 = Some (status_of data).
Proof.
  split; [vm_compute; reflexivity|]. intros data Hd.
  assert (Hb : both_verified data = false ∧ succeeded data = true).
  { revert Hd. set (r := WaitingPage.answer). vm_compute in r. subst r. intros [= <-]. split; reflexivity. }
  destruct Hb as [Hb Hs]. destruct (check_only_reads ClientRun.server ClientRun.hidden "https://app" (λ _, None) WaitingPage.env WaitingPage.started data Hd Hb)
    as (_ & H & _). rewrite Hs in H. exact H.
Defined.

Lemma cooldown_runs_down_witness :
  cooldown (ui (run (cool 30) WaitingPage.env WaitingPage.screen).2) = 0 ∧
  resend_disabled (ui (run (cool 29) WaitingPage.env WaitingPage.screen).2) = true.
Proof.
  split.
  - exact (proj1 (cooldown_runs_down 30 WaitingPage.env WaitingPage.screen ltac:(done))).
  - apply (cooldown_runs_down 29 WaitingPage.env WaitingPage.screen ltac:(done)). reflexivity.
Defined.

Lemma empty_password_refused_witness :
  untouched MemServer.start (run (MemServer.serve WaitingPage.init_request) MemApp.always_fine MemServer.start).2.
Proof.
  apply (empty_password_refused MemApp.sha MemApp.sha (λ s, s) MemApp.sha MemApp.hmac MemApp.iso MemApp.iso (λ _, 2026) (λ t, t)
    MemApp.hash MemApp.verify (λ _, None) (FK := MemApp.mem_fk) (J := ToyJwt.toy_jwt) (ZP := ToyZod.toy_zod)
    MemServer.config "production" "long" "short" MemServer.nobody WaitingPage.init_request "new@x.dev" false MemApp.always_fine MemServer.start).
  - intros token t payload Hb _. discriminate Hb.
  - reflexivity.
  - reflexivity.
  - reflexivity.
Defined.
