(* ===== verification/Metrics.v ===== *)
(** * Metrics

    Models [uam-backend/src/metrics.ts] and the metrics of
    [uam-backend/src/otel.ts]: the counters and gauges that are copied from the
    circuit breaker at every scrape, into the Prometheus registry and, when
    telemetry is enabled, into OpenTelemetry, and the request counter with its
    normalised route.

    The two client packages are an interface ([Meter]): a counter is increased,
    a gauge is set.  The history of a process interleaves the event loop of
    [GuardedCalls] with scrapes. *)

From Stdlib Require Import QArith.
From S2P Require Import Prelude CircuitConfig RollingWindow CircuitBreaker GuardedCalls Json JsVal Password Validators.
#[local] Open Scope string_scope.
#[local] Open Scope list_scope.
#[local] Open Scope Z_scope.

(** ** The client packages *)

(** A series is named and labelled. *)
Class Meter := {
  meter : Type;
  value : meter → string → list string → Z;
  gauge : meter → string → Q;
  inc : string → list string → Z → meter → meter;
  set_gauge : string → Q → meter → meter;
}.

Class MeterLaws (M : Meter) := {
  value_inc k ls n m k' ls' : value (inc k ls n m) k' ls' = value m k' ls' + (if decide (k = k' ∧ ls = ls') then n else 0);
  value_set k q m k' ls' : value (set_gauge k q m) k' ls' = value m k' ls';
  gauge_set k q m k' : gauge (set_gauge k q m) k' = if decide (k = k') then q else gauge m k';
  gauge_inc k ls n m k' : gauge (inc k ls n m) k' = gauge m k';
}.

(** ** Copying the breaker *)

(** The counters of the breaker, with their series of the two packages *)
Definition counters : list (string * string * (CircuitBreaker → Z)) :=
  [("uam_redis_requests_total", "uam.redis.requests", requestsTotal); ("uam_redis_success_total", "uam.redis.success", successTotal);
   ("uam_redis_errors_total", "uam.redis.errors", errorsTotal); ("uam_redis_timeouts_total", "uam.redis.timeouts", timeoutsTotal);
   ("uam_redis_circuit_open_total", "uam.redis.circuit.open", circuitOpenTotal);
   ("uam_redis_circuit_half_open_total", "uam.redis.circuit.half_open", circuitHalfOpenTotal);
   ("uam_redis_circuit_rejected_total", "uam.redis.circuit.rejected", circuitRejectedTotal)].

Definition gauges : list (string * string * (Host → CircuitBreaker → Q)) :=
  [("uam_redis_circuit_state", "uam.redis.circuit.state", λ _ b, inject_Z (STATE_VALUE (currentState b)));
   ("uam_redis_inflight_current", "uam.redis.inflight", λ _ b, inject_Z (inflightCount b));
   ("uam_redis_latency_p50_us", "uam.redis.latency.p50", λ h b, inject_Z (p50Us h b));
   ("uam_redis_latency_p95_us", "uam.redis.latency.p95", λ h b, inject_Z (p95Us h b));
   ("uam_redis_latency_p99_us", "uam.redis.latency.p99", λ h b, inject_Z (p99Us h b));
   ("uam_redis_error_rate_rolling", "uam.redis.error_rate", λ h b, breakerErrorRate h b)].

Section Copying.
Context `{M : Meter}.

(** A registry with [lastCounterValues] *)
Record Exporter := mkExporter { registry : meter; lastCounterValues : gmap string Z }.

(** [setCounterDelta] and [addCounterDelta] *)
Definition setCounterDelta (k : string) (current : Z) (x : Exporter) : Exporter :=
  let last := default 0 (lastCounterValues x !! k) in
  mkExporter (if last <? current then inc k [] (current - last) (registry x) else registry x)
    (<[k := current]> (lastCounterValues x)).

Definition record_gauge (k : string) (q : Q) (x : Exporter) : Exporter := mkExporter (set_gauge k q (registry x)) (lastCounterValues x).

(** All series of one package; [name] selects its names *)
Definition copy (name : string * string → string) (h : Host) (b : CircuitBreaker) (x : Exporter) : Exporter :=
  let x := foldl (λ x c, setCounterDelta (name c.1) (c.2 b) x) x counters in
  foldl (λ x g, record_gauge (name g.1) (g.2 h b) x) x gauges.

Record Metrics := mkMetrics { prom : Exporter; enabled : bool; otel : Exporter }.

Definition recordOtelRedisMetrics (h : Host) (b : CircuitBreaker) (m : Metrics) : Metrics :=
  if enabled m then mkMetrics (prom m) (enabled m) (copy snd h b (otel m)) else m.

Definition refreshRedisCircuitMetrics (h : Host) (b : CircuitBreaker) (m : Metrics) : Metrics :=
  recordOtelRedisMetrics h b (mkMetrics (copy fst h b (prom m)) (enabled m) (otel m)).

(** [initTelemetry] when the module is loaded *)
Definition initTelemetry (env : string → option string) (p o : meter) : Metrics :=
  mkMetrics (mkExporter p ∅) match env "OTEL_EXPORTER_OTLP_ENDPOINT" with Some s => negb (String.eqb s "") | None => false end (mkExporter o ∅).

(** The [finish] callback of [metricsMiddleware] with [recordOtelHttpRequest] *)
Definition count_request (verb route code : string) (m : Metrics) : Metrics :=
  let p := mkExporter (inc "uam_http_requests_total" [verb; route; code] 1 (registry (prom m))) (lastCounterValues (prom m)) in
  let o := if enabled m
           then mkExporter (inc "uam.http.requests" [verb; route; code] 1 (registry (otel m))) (lastCounterValues (otel m)) else otel m in
  mkMetrics p (enabled m) o.
End Copying.

(** ** The label of a request *)

(** [s] without its first [n] characters, if they all satisfy [p] *)
Fixpoint take_id (p : Ascii.ascii → bool) (n : nat) (s : string) : option string :=
  match n, s with
  | O, _ => Some s
  | S n, String c s => if p c then take_id p n s else None
  | S _, EmptyString => None
  end.

(** [s.replace(/\/[...]{n}/gi, '/:id')]; every turn takes a character at least *)
Fixpoint replace_ids (p : Ascii.ascii → bool) (n fuel : nat) (s : string) : string :=
  match fuel, s with
  | S fuel, String c s' =>
      if Ascii.eqb c "/"%char then
        match take_id p n s' with
        | Some rest => "/:id" +:+ replace_ids p n fuel rest
        | None => String c (replace_ids p n fuel s')
        end
      else String c (replace_ids p n fuel s')
  | _, _ => s
  end.

Definition is_hex (c : Ascii.ascii) : bool :=
  let n := Ascii.N_of_ascii c in
  is_digit c || ((97 <=? n) && (n <=? 102))%N || ((65 <=? n) && (n <=? 70))%N.
Definition is_uuid_char (c : Ascii.ascii) : bool := is_hex c || Ascii.eqb c "-"%char.

(** The segments of an unmatched path *)
Definition path_parts (path : string) : list string :=
  let once := replace_ids is_hex 24 (String.length path) path in
  let normalized := replace_ids is_uuid_char 36 (String.length once) once in
  take 4 (List.filter (λ s, negb (String.eqb s "")) (split_char "/"%char normalized)).

(** [route] is [req.baseUrl] and [req.route.path], for a request that a route matched. *)
Definition normalizeRoute (route : option (string * string)) (path : string) : string :=
  match route with
  | Some (base, r) => if String.eqb r "" then "/" +:+ join "/" (path_parts path) else base +:+ r
  | None => "/" +:+ join "/" (path_parts path)
  end.

(** ** The exported counters are the breaker's *)

(** Steps of the breaker never decrease a counter. *)
Definition no_less (b b' : CircuitBreaker) : Prop := Forall (λ c : _ * (CircuitBreaker → Z), c.2 b ≤ c.2 b') counters.

#[global] Instance no_less_preorder : PreOrder no_less.
Proof.
  split; [intros b; unfold no_less; apply Forall_true; intros; lia|].
  intros a b c H1 H2. unfold no_less in *. rewrite Forall_forall in *. intros x Hx. etransitivity; [apply H1, Hx|apply H2, Hx].
Qed.

Ltac counted := unfold no_less, counters; repeat (apply Forall_cons_2; [cbn; lia|]); apply Forall_nil_2.

Lemma tripOpen_no_less h b : no_less b (tripOpen h b).
Proof. unfold tripOpen. destruct (decide _); [reflexivity|]. destruct b. counted. Qed.

Lemma checkStatisticalOpen_no_less h b : no_less b (checkStatisticalOpen h b).
Proof. unfold checkStatisticalOpen. destruct (statistically_bad h b); [apply tripOpen_no_less|reflexivity]. Qed.

Lemma rejected_no_less b : no_less b (b <| circuitRejectedTotal ::= Z.succ |>).
Proof. destruct b. counted. Qed.

#[local] Hint Resolve tripOpen_no_less checkStatisticalOpen_no_less rejected_no_less : core.

Lemma acquireHalfOpen_no_less h b : no_less b (acquireHalfOpen h b).2.
Proof.
  unfold acquireHalfOpen. destruct (_ <=? _); cbn [snd].
  - destruct (decide _); [|done]. etransitivity; [apply tripOpen_no_less|apply rejected_no_less].
  - destruct (_ <=? _); cbn [snd]; [done|]. destruct (_ <=? _); cbn [snd]; [done|]. destruct b. counted.
Qed.

Lemma acquire_no_less h b : no_less b (acquire h b).2.
Proof.
  unfold acquire. destruct (state b).
  - destruct (_ <=? _); cbn [snd]; [done|]. destruct b. counted.
  - destruct (_ <=? _); cbn [snd]; [|done]. etransitivity; [|apply acquireHalfOpen_no_less]. destruct b. counted.
  - apply acquireHalfOpen_no_less.
Qed.

Lemma release_success_no_less h b : no_less b (release_success h b).
Proof.
  unfold release_success. set (b1 := b <| successTotal ::= _ |> <| consecutiveFail := _ |> <| consecutiveTimeout := _ |>).
  assert (H1 : no_less b b1) by (subst b1; destruct b; counted). clearbody b1. etransitivity; [exact H1|].
  destruct (state b1); [done|done|]. destruct (_ && _); destruct b1; counted.
Qed.

Lemma release_timeout_no_less h b : no_less b (release_timeout h b).
Proof.
  unfold release_timeout. set (b1 := b <| timeoutsTotal ::= _ |> <| consecutiveFail ::= _ |> <| consecutiveTimeout ::= _ |>).
  assert (H1 : no_less b b1) by (subst b1; destruct b; counted). clearbody b1. etransitivity; [exact H1|].
  destruct (state b1); try done; by destruct (_ || _).
Qed.

Lemma release_error_no_less h b : no_less b (release_error h b).
Proof.
  unfold release_error. set (b1 := b <| errorsTotal ::= _ |> <| consecutiveFail ::= _ |>).
  assert (H1 : no_less b b1) by (subst b1; destruct b; counted). clearbody b1. etransitivity; [exact H1|].
  destruct (state b1); try done; by destruct (_ <=? _).
Qed.

Lemma release_no_less h b o l : no_less b (release h b o l).
Proof.
  unfold release. set (b1 := b <| inflight ::= _ |> <| window ::= _ |> <| requestsTotal ::= _ |>).
  assert (H1 : no_less b b1) by (subst b1; destruct b; counted). clearbody b1. etransitivity; [exact H1|].
  destruct o; [apply release_success_no_less|apply release_error_no_less|apply release_timeout_no_less|reflexivity|reflexivity].
Qed.

Lemma step_no_less {T} (s s' : System T) : step s s' → no_less (breaker s) (breaker s').
Proof.
  assert (Hf : ∀ h hr b (c : Call T) o r, no_less b (finish h hr b c o r).1)
    by (intros h hr b c o r; unfold finish; destruct (settled c); [reflexivity|apply release_no_less]).
  destruct 1 as [h hr f id s _ _|h hr id c s d _ _ _ _|h hr id c s v _ _ _|h hr id c s e _ _ _]; cbn.
  - unfold begin_call. pose proof (acquire_no_less h (breaker s)) as H. destruct (acquire h (breaker s)) as [[r|] b]; exact H.
  - apply Hf.
  - apply Hf.
  - apply Hf.
Qed.

(** Requests that are in none of the three classes *)
Definition ledger (b : CircuitBreaker) : Z := requestsTotal b - successTotal b - errorsTotal b - timeoutsTotal b.

Lemma tripOpen_ledger h b : ledger (tripOpen h b) = ledger b.
Proof. unfold tripOpen. destruct (decide _); [done|]. by destruct b. Qed.

Lemma checkStatisticalOpen_ledger h b : ledger (checkStatisticalOpen h b) = ledger b.
Proof. unfold checkStatisticalOpen. destruct (statistically_bad h b); [apply tripOpen_ledger|done]. Qed.

Lemma acquire_ledger h b : ledger (acquire h b).2 = ledger b.
Proof.
  assert (Hh : ∀ b, ledger (acquireHalfOpen h b).2 = ledger b).
  { intros b'. unfold acquireHalfOpen. destruct (_ <=? _); cbn [snd].
    - transitivity (ledger (if decide (state b' = HALF_OPEN) then tripOpen h b' else b')); [by destruct (if decide _ then _ else _)|].
      destruct (decide _); [apply tripOpen_ledger|done].
    - destruct (_ <=? _); cbn [snd]; [by destruct b'|]. destruct (_ <=? _); by destruct b'. }
  unfold acquire. destruct (state b).
  - destruct (_ <=? _); by destruct b.
  - destruct (_ <=? _); [|by destruct b]. rewrite Hh. by destruct b.
  - apply Hh.
Qed.

Lemma release_ledger h b o l : ran o → ledger (release h b o l) = ledger b.
Proof.
  intros Ho. unfold release. set (b1 := b <| inflight ::= _ |> <| window ::= _ |> <| requestsTotal ::= _ |>).
  assert (H1 : ledger b1 = ledger b + 1) by (subst b1; destruct b; unfold ledger; cbn; lia). clearbody b1.
  destruct Ho as [->|[->| ->]].
  - unfold release_success. set (b2 := b1 <| successTotal ::= _ |> <| consecutiveFail := _ |> <| consecutiveTimeout := _ |>).
    assert (H2 : ledger b2 = ledger b) by (subst b2; destruct b1; unfold ledger in *; cbn in *; lia). clearbody b2.
    destruct (state b2); [by rewrite checkStatisticalOpen_ledger|by rewrite checkStatisticalOpen_ledger|]. rewrite <- H2. destruct (_ && _); by destruct b2.
  - unfold release_error. set (b2 := b1 <| errorsTotal ::= _ |> <| consecutiveFail ::= _ |>).
    assert (H2 : ledger b2 = ledger b) by (subst b2; destruct b1; unfold ledger in *; cbn in *; lia). clearbody b2.
    destruct (state b2); [destruct (_ <=? _)|destruct (_ <=? _)|]; by rewrite ?tripOpen_ledger, ?checkStatisticalOpen_ledger.
  - unfold release_timeout. set (b2 := b1 <| timeoutsTotal ::= _ |> <| consecutiveFail ::= _ |> <| consecutiveTimeout ::= _ |>).
    assert (H2 : ledger b2 = ledger b) by (subst b2; destruct b1; unfold ledger in *; cbn in *; lia). clearbody b2.
    destruct (state b2); [destruct (_ || _)|destruct (_ || _)|]; by rewrite ?tripOpen_ledger, ?checkStatisticalOpen_ledger.
Qed.

Lemma step_ledger {T} (s s' : System T) : step s s' → ledger (breaker s') = ledger (breaker s).
Proof.
  assert (Hf : ∀ h hr b (c : Call T) o r, ran o → ledger (finish h hr b c o r).1 = ledger b)
    by (intros h hr b c o r Ho; unfold finish; destruct (settled c); [done|by apply release_ledger]).
  destruct 1 as [h hr f id s _ _|h hr id c s d _ _ _ _|h hr id c s v _ _ _|h hr id c s e _ _ _]; cbn.
  - unfold begin_call. pose proof (acquire_ledger h (breaker s)) as H. destruct (acquire h (breaker s)) as [[r|] b]; exact H.
  - apply Hf. unfold ran. tauto.
  - apply Hf. unfold ran. tauto.
  - apply Hf. unfold classifyRedisError, ran. repeat case_match; tauto.
Qed.

(** A process: the event loop of the breaker and scrapes, in any order *)
Section History.
Context `{M : Meter} {ML : MeterLaws M} {T : Type} (cfg : CircuitBreakerConfig) (m0 : Metrics).

Inductive history : System T → Metrics → Prop :=
  | history_start : history (initial cfg) m0
  | history_step s s' m : history s m → step s s' → history s' m
  | history_scrape s m h : history s m → history s (refreshRedisCircuitMetrics h (breaker s) m).

(** An exporter has shown what it has read last, and the breaker has not gone back. *)
Definition caught_up (name : string * string → string) (b : CircuitBreaker) (x : Exporter) : Prop :=
  Forall (λ c : _ * (CircuitBreaker → Z), value (registry x) (name c.1) [] = default 0 (lastCounterValues x !! name c.1) ∧
    default 0 (lastCounterValues x !! name c.1) ≤ c.2 b) counters.

Definition exact (name : string * string → string) (b : CircuitBreaker) (x : Exporter) : Prop :=
  Forall (λ c : _ * (CircuitBreaker → Z), value (registry x) (name c.1) [] = c.2 b ∧ lastCounterValues x !! name c.1 = Some (c.2 b)) counters.

Lemma gauges_keep (name : string * string → string) (h : Host) (b : CircuitBreaker) (gs : list (string * string * (Host → CircuitBreaker → Q))) x :
  let x' := foldl (λ x g, record_gauge (name g.1) (g.2 h b) x) x gs in
  (∀ k ls, value (registry x') k ls = value (registry x) k ls) ∧ lastCounterValues x' = lastCounterValues x.
Proof.
  cbv zeta. revert x. induction gs as [|g gs IH]; intros x; [done|]. cbn [foldl]. destruct (IH (record_gauge (name g.1) (g.2 h b) x)) as [H1 H2].
  split; [|by rewrite H2]. intros k ls. rewrite H1. apply value_set.
Qed.

(** One counter is brought up to date, the others stay. *)
Lemma delta_spec k n x :
  value (registry x) k [] = default 0 (lastCounterValues x !! k) → default 0 (lastCounterValues x !! k) ≤ n →
  let x' := setCounterDelta k n x in
  value (registry x') k [] = n ∧ lastCounterValues x' !! k = Some n ∧
  ∀ k', k' ≠ k → value (registry x') k' [] = value (registry x) k' [] ∧ lastCounterValues x' !! k' = lastCounterValues x !! k'.
Proof.
  intros Hv Hn. cbv zeta. unfold setCounterDelta. cbn [registry lastCounterValues]. split_and!.
  - destruct (Z.ltb_spec (default 0 (lastCounterValues x !! k)) n); [|lia]. rewrite value_inc, decide_True by done. lia.
  - apply lookup_insert_eq.
  - intros k' Hk. split; [|by apply lookup_insert_ne]. destruct (_ <? _); [|done]. rewrite value_inc, decide_False by (intros [? _]; congruence). lia.
Qed.

Lemma deltas_spec (name : string * string → string) b (cs : list (string * string * (CircuitBreaker → Z))) x :
  NoDup (map (λ c, name c.1) cs) →
  Forall (λ c : _ * (CircuitBreaker → Z), value (registry x) (name c.1) [] = default 0 (lastCounterValues x !! name c.1) ∧
    default 0 (lastCounterValues x !! name c.1) ≤ c.2 b) cs →
  let x' := foldl (λ x c, setCounterDelta (name c.1) (c.2 b) x) x cs in
  Forall (λ c : _ * (CircuitBreaker → Z), value (registry x') (name c.1) [] = c.2 b ∧ lastCounterValues x' !! name c.1 = Some (c.2 b)) cs ∧
  ∀ k, k ∉ map (λ c, name c.1) cs → value (registry x') k [] = value (registry x) k [] ∧ lastCounterValues x' !! k = lastCounterValues x !! k.
Proof.
  cbv zeta. revert x. induction cs as [|c cs IH]; intros x Hn Hx; [split; [apply Forall_nil_2|done]|].
  cbn [map] in Hn. apply NoDup_cons in Hn as [Hc Hn]. apply Forall_cons in Hx as [[Hv Hle] Hx]. cbn [foldl].
  destruct (delta_spec (name c.1) (c.2 b) x Hv Hle) as (D1 & D2 & D3).
  assert (Hx' : Forall (λ d : _ * (CircuitBreaker → Z), value (registry (setCounterDelta (name c.1) (c.2 b) x)) (name d.1) [] =
      default 0 (lastCounterValues (setCounterDelta (name c.1) (c.2 b) x) !! name d.1) ∧
      default 0 (lastCounterValues (setCounterDelta (name c.1) (c.2 b) x) !! name d.1) ≤ d.2 b) cs).
  { rewrite Forall_forall in Hx |- *. intros d Hd. destruct (D3 (name d.1)) as [-> ->]; [|by apply Hx].
    intros E. apply Hc. rewrite <- E. apply list_elem_of_fmap. by exists d. }
  destruct (IH _ Hn Hx') as [I1 I2]. split.
  - apply Forall_cons_2; [|exact I1]. destruct (I2 (name c.1) Hc) as [-> ->]. by split.
  - intros k Hk. cbn [map] in Hk. apply not_elem_of_cons in Hk as [Hk1 Hk2]. destruct (I2 k Hk2) as [-> ->]. by apply D3.
Qed.

Lemma copy_exact name h b x : NoDup (map (λ c, name c.1) counters) → caught_up name b x → exact name b (copy name h b x).
Proof.
  intros Hn Hx. destruct (deltas_spec name b counters x Hn Hx) as [H _]. unfold copy.
  destruct (gauges_keep name h b gauges (foldl (λ x c, setCounterDelta (name c.1) (c.2 b) x) x counters)) as [G1 G2].
  unfold exact. rewrite Forall_forall in H |- *. intros c Hc. rewrite G1, G2. by apply H.
Qed.

Lemma exact_caught_up name b b' x : exact name b x → no_less b b' → caught_up name b' x.
Proof.
  unfold exact, caught_up, no_less. rewrite !Forall_forall. intros H Hb c Hc. destruct (H c Hc) as [-> ->]. cbn. split; [done|by apply Hb].
Qed.

Lemma caught_up_mono name b b' x : caught_up name b x → no_less b b' → caught_up name b' x.
Proof.
  unfold caught_up, no_less. rewrite !Forall_forall. intros H Hb c Hc. destruct (H c Hc) as [H1 H2]. split; [exact H1|].
  etransitivity; [exact H2|by apply Hb].
Qed.

Lemma names_distinct (name : string * string → string) : name = fst ∨ name = snd → NoDup (map (λ c : _ * (CircuitBreaker → Z), name c.1) counters).
Proof. intros [-> | ->]; apply (bool_decide_unpack _); vm_compute; exact I. Qed.

Lemma history_caught_up s m :
  caught_up fst (new_CircuitBreaker cfg) (prom m0) → caught_up snd (new_CircuitBreaker cfg) (otel m0) → history s m →
  caught_up fst (breaker s) (prom m) ∧ caught_up snd (breaker s) (otel m).
Proof.
  intros Hp Ho. induction 1 as [|s s' m _ [IH1 IH2] Hs|s m h _ [IH1 IH2]].
  - by split.
  - apply step_no_less in Hs. split; eapply caught_up_mono; eauto.
  - unfold refreshRedisCircuitMetrics, recordOtelRedisMetrics. cbn [enabled prom otel].
    assert (H1 : caught_up fst (breaker s) (copy fst h (breaker s) (prom m)))
      by (eapply exact_caught_up; [apply copy_exact; [apply names_distinct; by left|exact IH1]|reflexivity]).
    destruct (enabled m); cbn [prom otel]; (split; [exact H1|]); [|exact IH2].
    eapply exact_caught_up; [apply copy_exact; [apply names_distinct; by right|exact IH2]|reflexivity].
Qed.
End History.

(** C26. Every scrape shows the counters of the breaker exactly, in Prometheus and,
    when telemetry is enabled, in OpenTelemetry, whatever calls and scrapes
    came before; and the shown requests are the successes, errors and timeouts
    taken together. *)
Theorem scrape_exact `{M : Meter} {ML : MeterLaws M} {T} cfg env p o (s : System T) m h :
  (∀ k, value p k [] = 0) → (∀ k, value o k [] = 0) →
  history cfg (initTelemetry env p o) s m →
  let m' := refreshRedisCircuitMetrics h (breaker s) m in
  exact fst (breaker s) (prom m') ∧ (enabled m = true → exact snd (breaker s) (otel m')) ∧
  requestsTotal (breaker s) = successTotal (breaker s) + errorsTotal (breaker s) + timeoutsTotal (breaker s).
Proof.
  intros Hp Ho Hh. cbv zeta.
  assert (Hl : ledger (breaker s) = 0) by (clear Hp Ho; induction Hh as [|s s' m _ IH Hs|]; [done|by rewrite (step_ledger _ _ Hs)|done]).
  assert (H0 : ∀ name q, (∀ k, value q k [] = 0) → caught_up name (new_CircuitBreaker cfg) (mkExporter q ∅)).
  { intros name q Hq. unfold caught_up. cbn [registry lastCounterValues]. apply Forall_forall. intros c Hc. rewrite Hq, lookup_empty.
    split; [done|]. cbn in Hc. repeat (apply elem_of_cons in Hc as [->|Hc]; [done|]). by apply not_elem_of_nil in Hc. }
  destruct (history_caught_up cfg (initTelemetry env p o) s m (H0 fst p Hp) (H0 snd o Ho) Hh) as [H1 H2].
  unfold refreshRedisCircuitMetrics, recordOtelRedisMetrics. cbn [enabled]. split_and!; [| |unfold ledger in Hl; lia].
  - destruct (enabled m); cbn [prom]; (apply copy_exact; [apply names_distinct; by left|exact H1]).
  - intros ->. cbn [otel]. apply copy_exact; [apply names_distinct; by right|exact H2].
Qed.

(** ** Labels of unmatched paths *)

Definition no_slash (c : Ascii.ascii) : bool := negb (Ascii.eqb c "/"%char).

Lemma take_id_short p n s : (String.length s < n)%nat → take_id p n s = None.
Proof.
  revert n. induction s as [|c s IH]; intros [|n] Hn; cbn in *; try lia; [done|]. destruct (p c); [|done]. apply IH. lia.
Qed.

Lemma replace_ids_plain p n fuel s : all_chars no_slash s = true → replace_ids p n fuel s = s.
Proof.
  revert fuel. induction s as [|c s IH]; intros [|fuel] H; try done. cbn in *. apply andb_true_iff in H as [Hc Hs].
  unfold no_slash in Hc. apply negb_true_iff in Hc. rewrite Hc. by rewrite IH.
Qed.

Lemma replace_ids_segment p n fuel s :
  all_chars no_slash s = true → (String.length s < n)%nat → replace_ids p n (S fuel) ("/" +:+ s) = "/" +:+ s.
Proof.
  intros Hs Hn. change ("/" +:+ s) with (String "/"%char s). cbn [replace_ids]. rewrite Ascii.eqb_refl, take_id_short by done. by rewrite replace_ids_plain.
Qed.

Lemma split_plain s : all_chars no_slash s = true → split_char "/"%char s = [s].
Proof.
  induction s as [|c s IH]; [done|]. cbn. intros H. apply andb_true_iff in H as [Hc Hs]. unfold no_slash in Hc. apply negb_true_iff in Hc.
  rewrite Hc. by rewrite (IH Hs).
Qed.

(** A path that no route matches keeps its segments unless they look like an
    identifier: different short segments give different labels, so clients
    decide how many series there are. *)
Theorem unmatched_paths_keep_labels segment :
  all_chars no_slash segment = true → segment ≠ "" → (String.length segment < 24)%nat →
  normalizeRoute None ("/" +:+ segment) = "/" +:+ segment.
Proof.
  intros Hs Hne Hl. unfold normalizeRoute, path_parts.
  change (String.length ("/" +:+ segment)) with (S (String.length segment)). rewrite replace_ids_segment by done.
  change (String.length ("/" +:+ segment)) with (S (String.length segment)). rewrite replace_ids_segment by (done || lia).
  change (split_char "/"%char ("/" +:+ segment)) with ("" :: split_char "/"%char segment). rewrite (split_plain _ Hs). cbn [List.filter].
  change (String.eqb "" "") with true. cbn [negb]. rewrite (proj2 (String.eqb_neq segment "")) by done. done.
Qed.

(** ** A process that is scraped *)

Module ScrapeRun.
#[global] Instance table : Meter :=
  {| meter := (string → list string → Z) * (string → Q); value m k ls := m.1 k ls; gauge m k := m.2 k;
     inc k ls n m := (λ k' ls', m.1 k' ls' + (if decide (k = k' ∧ ls = ls') then n else 0), m.2);
     set_gauge k q m := (m.1, λ k', if decide (k = k') then q else m.2 k') |}.
#[global] Instance table_laws : MeterLaws table.
Proof. by split. Qed.

Definition empty : meter := (λ _ _, 0, λ _, 0%Q).
Definition env (_ : string) : option string := Some "https://otlp".
Definition m0 := initTelemetry env empty empty.
End ScrapeRun.

(** Two calls have started and one has timed out; before that a scrape. *)
Lemma scrape_exact_witness :
  let m := refreshRedisCircuitMetrics (demo_host 1000) (breaker demo1) ScrapeRun.m0 in
  let m' := refreshRedisCircuitMetrics (demo_host 7000) (breaker demo3) m in
  value (registry (prom m')) "uam_redis_timeouts_total" [] = 1 ∧ value (registry (otel m')) "uam.redis.requests" [] = 1.
Proof.
  cbv zeta. set (m := refreshRedisCircuitMetrics (demo_host 1000) (breaker demo1) ScrapeRun.m0).
  assert (Hh : history (defaultCircuitBreakerConfig (λ _, None)) ScrapeRun.m0 demo3 m).
  { apply (history_step _ _ demo2).
    - apply (history_step _ _ demo1).
      + apply history_scrape. apply (history_step _ _ demo0); [apply history_start|]. apply step_call; [apply demo_host_ok|done].
      + apply step_call; [apply demo_host_ok|done].
    - apply (step_timer (demo_host 6000) 5000000000 0 demo_call0 demo2 6000); [apply demo_host_ok|apply demo2_call0|done|done]. }
  destruct (scrape_exact _ ScrapeRun.env ScrapeRun.empty ScrapeRun.empty demo3 m (demo_host 7000) ltac:(done) ltac:(done) Hh) as (H1 & H2 & _).
  specialize (H2 eq_refl). unfold exact, counters in H1, H2. rewrite Forall_forall in H1, H2. split.
  - transitivity (timeoutsTotal (breaker demo3)); [|vm_compute; reflexivity].
    apply (H1 ("uam_redis_timeouts_total", "uam.redis.timeouts", timeoutsTotal)). apply list_elem_of_In. cbn. tauto.
  - transitivity (requestsTotal (breaker demo3)); [|vm_compute; reflexivity].
    apply (H2 ("uam_redis_requests_total", "uam.redis.requests", requestsTotal)). apply list_elem_of_In. cbn. tauto.
Defined.

Lemma unmatched_paths_keep_labels_witness : normalizeRoute None "/wp-admin-1" = "/wp-admin-1".
Proof. apply (unmatched_paths_keep_labels "wp-admin-1"); [reflexivity|discriminate|]. cbn. lia. Defined.
