(* ===== verification/ControlPlane.v ===== *)
(** * Requests to the control plane

    Models the transport of [uam-backend/src/services/revoke.service.ts]: the
    revocations that the session layer and the handlers decide on ([Sessions],
    [SessionHandlers]) are printed as JSON, signed with
    [adminSignHeaders] of [Config], and posted with a timeout of three seconds.

    HMAC is a parameter.  The receiver's check is stated for the theorem: it
    recomputes the signature over the headers and the body it received. *)

From S2P Require Import Prelude CircuitConfig RollingWindow CircuitBreaker GuardedCalls Async RedisCache Json JsVal Columns SqlFilter SqlMeaning Password UserModel OneTimeCodes Sessions IdentityIndex Tokens SessionHandlers UsersTable Documents Application AuthController Validators Server RequestLimits Config.
#[local] Open Scope string_scope.
#[local] Open Scope list_scope.
#[local] Open Scope Z_scope.

Record RevokeRequest := { url : string; headers : AdminSignHeaders; payload : string }.

(** How the exchange ends: an answer with its status, or no answer *)
Inductive Exchange := Responded (status : Z) | NoAnswer.

(** The abort timer fires 3000 ms after the start. *)
Definition ABORT_MS : Z := 3000.

Section Transport.
Context (hmac_sha256_hex : string → string → string) (Date_toISOString : Z → string).
Context (env : string → option string).

(** [JSON.stringify(bodyObj)]; the bodies hold texts and numbers only *)
Definition body_text_of (bodyObj : object) : string :=
  match JsVal.to_json Date_toISOString (VObj bodyObj) with Some j => stringify j | None => "undefined" end.

(** [`${config.controlPlane.url.replace(/\/$/, '')}/revoke`] *)
Definition revoke_url : string := OAuthPkce.strip_slash (controlPlaneUrl env) +:+ "/revoke".

Definition signBody (t : Z) (nonce body : string) : AdminSignHeaders :=
  adminSignHeaders hmac_sha256_hex (adminApiKey env) (t / 1000) nonce body.

(** The request for a body, at time [t] with the random [nonce] *)
Definition revoke_request (bodyObj : object) (t : Z) (nonce : string) : RevokeRequest :=
  let body := body_text_of bodyObj in
  {| url := revoke_url; headers := signBody t nonce body; payload := body |}.

(** The result of the two functions: whether the control plane accepted.
    [elapsed] is how long the exchange took; neither function throws. *)
Definition revoke_result (elapsed : Z) (x : Exchange) : bool :=
  if ABORT_MS <=? elapsed then false
  else match x with Responded code => (200 <=? code) && (code <? 300) | NoAnswer => false end.
End Transport.

(** ** Facts *)

(** The receiver recomputes the signature. *)
Definition authentic (hmac_sha256_hex : string → string → string) (key : string) (r : RevokeRequest) : bool :=
  String.eqb (h_signature (headers r))
    ("sha256=" +:+ hmac_sha256_hex key (signingMaterial (h_timestamp (headers r)) (h_nonce (headers r)) (payload r))).

Definition plain : string → bool := all_chars (λ c, negb (Ascii.eqb c "010"%char)).

Lemma string_app_inj_l a b c : a +:+ b = a +:+ c → b = c.
Proof. induction a as [|x a IH]; [done|]. intros [= H]. by apply IH. Qed.

(** With an API key of its own, every revocation passes the receiver's check,
    and its signature vouches for nothing else: a request that carries it,
    with whatever timestamp, nonce and body, passes only if it is the same
    request.  HMAC is taken to have no collisions. *)
Theorem revocation_authentic hmac iso env bodyObj t nonce r :
  (∀ k a b, hmac k a = hmac k b → a = b) →
  adminApiKey env ≠ "" → adminApiKey env ≠ "CHANGE_ME_ADMIN_API_KEY" →
  plain (Z_to_string (t / 1000)) = true → plain nonce = true →
  plain (h_timestamp (headers r)) = true → plain (h_nonce (headers r)) = true →
  let sent := revoke_request hmac iso env bodyObj t nonce in
  authentic hmac (adminApiKey env) sent = true ∧
  (h_signature (headers r) = h_signature (headers sent) → authentic hmac (adminApiKey env) r = true →
   headers r = headers sent ∧ payload r = payload sent).
Proof.
  intros Hinj Hk1 Hk2 Ht Hn Ht' Hn'. cbv zeta. unfold revoke_request, signBody, authentic. cbn [headers payload].
  unfold adminSignHeaders. cbn [h_signature h_timestamp h_nonce].
  rewrite (proj2 (String.eqb_neq _ _) Hk1), (proj2 (String.eqb_neq _ _) Hk2). cbn [orb]. split; [apply String.eqb_refl|].
  intros Hs Ha. apply String.eqb_eq in Ha. rewrite Hs in Ha. apply string_app_inj_l, Hinj in Ha.
  apply signing_material_injective in Ha as (E1 & E2 & E3); [|done|done|done|done].
  destruct r as [u [ts nc sg] pl]. cbn in *. by subst.
Qed.

(** ** A revocation *)

Module RevokeRun.
Definition hmac (k m : string) : string := m +:+ k.
Definition env (name : string) : option string := if String.eqb name "ADMIN_API_KEY" then Some "key-1" else None.
Definition body : object := [("jti", VStr "j1"); ("ttl_secs", VNum 900)].
Definition sent := revoke_request hmac (λ _, "") env body 5000 "n1".
Lemma hmac_inj k a b : hmac k a = hmac k b → a = b.
Proof.
  unfold hmac. intros H. apply (f_equal String.list_ascii_of_string) in H.
  assert (E : ∀ s, String.list_ascii_of_string (s +:+ k) = String.list_ascii_of_string s ++ String.list_ascii_of_string k)
    by (induction s as [|c s IH]; [done|exact (f_equal (cons c) IH)]).
  rewrite !E in H. apply app_inv_tail in H. rewrite <- (String.string_of_list_ascii_of_string a), <- (String.string_of_list_ascii_of_string b). by rewrite H.
Qed.
End RevokeRun.

Lemma revocation_authentic_witness :
  authentic RevokeRun.hmac "key-1" RevokeRun.sent = true ∧ url RevokeRun.sent = "http://control-plane:8081/revoke".
Proof.
  split; [|reflexivity].
  exact (proj1 (revocation_authentic RevokeRun.hmac (λ _, "") RevokeRun.env RevokeRun.body 5000 "n1" RevokeRun.sent RevokeRun.hmac_inj
    ltac:(discriminate) ltac:(discriminate) eq_refl eq_refl eq_refl eq_refl)).
Defined.
