(* ===== verification/BreakerTests.v ===== *)
(** * The unit tests of the circuit breaker

    Models [uam-backend/src/scripts/test-redis-circuit-breaker.ts]: every
    numbered test is a program over the model of the breaker and of
    [withCircuitBreaker], written with the calls, loops, sleeps and
    assertions of the script.  [run] is the JavaScript run of such a program:
    it keeps the clock, fires the timers of guarded calls that fall due
    while the program sleeps and counts the assertions.  A timer is [late]
    milliseconds late, [Math.random()] answers [u] during one test.

    The script asserts what the theorems of [CircuitBreaker] and
    [GuardedCalls] prove in general; running it inside the logic shows that
    the model and the expectations of the authors agree, and on which inputs
    outside the script (the environment, the random source, the clock) its
    verdict depends. *)

From S2P Require Import Prelude CircuitConfig RollingWindow CircuitBreaker GuardedCalls.
#[local] Open Scope string_scope.
#[local] Open Scope Z_scope.

(** ** Assignments to the fields of a configuration *)

#[local] Abbreviation mkConfig := Build_CircuitBreakerConfig.
#[export] Instance set_minSamples : Setter minSamples := λ g '(mkConfig a b c d e f h i j k l m n o p q),
  mkConfig a (g b) c d e f h i j k l m n o p q.
#[export] Instance set_consecutiveFailOpen : Setter consecutiveFailOpen := λ g '(mkConfig a b c d e f h i j k l m n o p q),
  mkConfig a b (g c) d e f h i j k l m n o p q.
#[export] Instance set_consecutiveTimeoutOpen : Setter consecutiveTimeoutOpen := λ g '(mkConfig a b c d e f h i j k l m n o p q),
  mkConfig a b c (g d) e f h i j k l m n o p q.
#[export] Instance set_errorRateOpen : Setter errorRateOpen := λ g '(mkConfig a b c d e f h i j k l m n o p q),
  mkConfig a b c d (g e) f h i j k l m n o p q.
#[export] Instance set_timeoutRateOpen : Setter timeoutRateOpen := λ g '(mkConfig a b c d e f h i j k l m n o p q),
  mkConfig a b c d e (g f) h i j k l m n o p q.
#[export] Instance set_p99UsOpen : Setter p99UsOpen := λ g '(mkConfig a b c d e f h i j k l m n o p q),
  mkConfig a b c d e f (g h) i j k l m n o p q.
#[export] Instance set_p99UsRecovery : Setter p99UsRecovery := λ g '(mkConfig a b c d e f h i j k l m n o p q),
  mkConfig a b c d e f h (g i) j k l m n o p q.
#[export] Instance set_errorRateRecovery : Setter errorRateRecovery := λ g '(mkConfig a b c d e f h i j k l m n o p q),
  mkConfig a b c d e f h i (g j) k l m n o p q.
#[export] Instance set_openCooldownMs : Setter openCooldownMs := λ g '(mkConfig a b c d e f h i j k l m n o p q),
  mkConfig a b c d e f h i j (g k) l m n o p q.
#[export] Instance set_cooldownJitterMs : Setter cooldownJitterMs := λ g '(mkConfig a b c d e f h i j k l m n o p q),
  mkConfig a b c d e f h i j k (g l) m n o p q.
#[export] Instance set_halfOpenProbes : Setter halfOpenProbes := λ g '(mkConfig a b c d e f h i j k l m n o p q),
  mkConfig a b c d e f h i j k l (g m) n o p q.
#[export] Instance set_recoverySuccesses : Setter recoverySuccesses := λ g '(mkConfig a b c d e f h i j k l m n o p q),
  mkConfig a b c d e f h i j k l m (g n) o p q.
#[export] Instance set_maxInflight : Setter maxInflight := λ g '(mkConfig a b c d e f h i j k l m n o p q),
  mkConfig a b c d e f h i j k l m n (g o) p q.
#[export] Instance set_halfOpenMaxMs : Setter halfOpenMaxMs := λ g '(mkConfig a b c d e f h i j k l m n o p q),
  mkConfig a b c d e f h i j k l m n o (g p) q.
#[export] Instance set_operationTimeoutMs : Setter operationTimeoutMs := λ g '(mkConfig a b c d e f h i j k l m n o p q),
  mkConfig a b c d e f h i j k l m n o p (g q).

Definition Modify := CircuitBreakerConfig → CircuitBreakerConfig.

(** The helper [breaker]: the environment's defaults, the fast detector
    isolated, then the test's own changes. *)
Definition test_breaker (env : Env) (modify : Modify) : CircuitBreaker :=
  let cfg := defaultCircuitBreakerConfig env in
  let cfg := cfg <| minSamples := 100000 |> <| p99UsRecovery := 1000000%Q |>
                 <| errorRateRecovery := 1%Q |> in
  new_CircuitBreaker (modify cfg).

(** ** Test programs *)

(** What a test reads of the breaker and of its last guarded call. *)
Record View := {
  v_state : CircuitState;
  v_inflight : Z;
  v_requests : Z;
  v_errors : Z;
  v_timeouts : Z;
  v_result : option (CallResult nat);
}.

(** The function handed to [withCircuitBreaker]. *)
Inductive Fn := Resolves (v : nat) | Hangs.

Inductive Prog :=
  | Stop
  | Acquire (k : option RedisCallOutcome → Prog)
  | Release (o : RedisCallOutcome) (latencyUs : Z) (k : Prog)
  | Sleep (ms : Z) (k : Prog)
  | With (f : Fn) (k : bool → Prog)       (** [k invoked] *)
  | Look (k : View → Prog)
  | Peek (k : Z → Z → Prog)               (** [k openedAtMs cooldownMs] *)
  | Now (k : Z → Prog)                    (** [Date.now()] *)
  | Assert (cond : bool) (label : string) (k : Prog).

Record World := mkWorld {
  sys : System nat;
  clock : Z;
  next : nat;
  checks : nat;
  failures : list string;
}.

Section Run.
Variables (late : Z) (u : Q).

Definition at_ (t : Z) : Host := {| now := t; random := u |}.

Definition on_breaker (g : CircuitBreaker → CircuitBreaker) (w : World) : World :=
  mkWorld {| breaker := g (breaker (sys w)); calls := calls (sys w) |}
    (clock w) (next w) (checks w) (failures w).

Definition with_sys (g : System nat → System nat) (w : World) : World :=
  mkWorld (g (sys w)) (clock w) (next w) (checks w) (failures w).

Definition look (w : World) : View :=
  let b := breaker (sys w) in
  {| v_state := currentState b; v_inflight := inflightCount b;
     v_requests := requestsTotal b; v_errors := errorsTotal b;
     v_timeouts := timeoutsTotal b;
     v_result := calls (sys w) !! pred (next w) ≫= result |}.

(** The timers of guarded calls that are due by [t]. *)
Definition fire (t : Z) (p : nat * Call nat) (s : System nat) : System nat :=
  let '(id, c) := p in
  match timer c with
  | Some deadline =>
      if deadline + late <=? t
      then on_timer (at_ (deadline + late)) ((deadline + late) * 1000000) id c s else s
  | None => s
  end.

Definition fire_due (t : Z) (s : System nat) : System nat :=
  foldr (fire t) s (map_to_list (calls s)).

(** [await new Promise(resolve => setTimeout(resolve, ms))] *)
Definition sleep (ms : Z) (w : World) : World :=
  let t := clock w + ms + late in
  mkWorld (fire_due t (sys w)) t (next w) (checks w) (failures w).

(** [withCircuitBreaker(cb, fn)], with the microtask in which an already
    resolved promise settles. *)
Definition guard (f : Fn) (w : World) : bool * World :=
  let hr := clock w * 1000000 in
  let id := next w in
  let s := begin_call (at_ (clock w)) hr ReturnsPromise id (sys w) in
  let w' s := mkWorld s (clock w) (S id) (checks w) (failures w) in
  match calls s !! id with
  | Some c =>
      if fn_pending c then
        (true, w' match f with
                  | Resolves v => on_fulfil (at_ (clock w)) hr id c s v
                  | Hangs => s
                  end)
      else (false, w' s)
  | None => (false, w' s)
  end.

(** [ok(cond, label)] *)
Definition ok (cond : bool) (label : string) (w : World) : World :=
  mkWorld (sys w) (clock w) (next w) (S (checks w))
    (if cond then failures w else failures w ++ [label]).

Fixpoint run (p : Prog) (w : World) : World :=
  match p with
  | Stop => w
  | Acquire k =>
      let '(r, b) := acquire (at_ (clock w)) (breaker (sys w)) in
      run (k r) (on_breaker (λ _, b) w)
  | Release o l k => run k (on_breaker (λ b, release (at_ (clock w)) b o l) w)
  | Sleep ms k => run k (sleep ms w)
  | With f k => let '(invoked, w) := guard f w in run (k invoked) w
  | Look k => run (k (look w)) w
  | Peek k => run (k (openedAtMs (breaker (sys w))) (cooldownMs (breaker (sys w)))) w
  | Now k => run (k (clock w)) w
  | Assert c label k => run k (ok c label w)
  end.
End Run.

#[global] Arguments at_ : simpl never.

(** The two assertion helpers in continuation form; [eq] is [===]. *)
Definition Eq_ {A} `{EqDecision A} (actual expected : A) (label : string) (k : Prog) : Prog :=
  Assert (bool_decide (actual = expected)) label k.

Definition StateIs (s : CircuitState) (label : string) (k : Prog) : Prog :=
  Look (λ v, Eq_ (v_state v) s label k).

Definition InflightIs (n : Z) (label : string) (k : Prog) : Prog :=
  Look (λ v, Eq_ (v_inflight v) n label k).

Definition RequestsAre (n : Z) (label : string) (k : Prog) : Prog :=
  Look (λ v, Eq_ (v_requests v) n label k).

Definition Acquired (r : option RedisCallOutcome) (label : string) (k : Prog) : Prog :=
  Acquire (λ a, Eq_ a r label k).

(** [cb.acquire(); cb.release(o, l);] *)
Definition hit (o : RedisCallOutcome) (l : Z) (k : Prog) : Prog :=
  Acquire (λ _, Release o l k).

(** [if (cb.acquire() === null) cb.release(o, l);] *)
Definition hit_if (o : RedisCallOutcome) (l : Z) (k : Prog) : Prog :=
  Acquire (λ a, match a with None => Release o l k | Some _ => k end).

(** [for (let i = 0; i < n; i += 1) { body }] *)
Definition times (n : nat) (body : Prog → Prog) (k : Prog) : Prog := Nat.iter n body k.

(** The same loop, counting the admitted calls. *)
Fixpoint count_allowed (n : nat) (o : RedisCallOutcome) (l : Z) (allowed : Z) (k : Z → Prog) : Prog :=
  match n with
  | O => k allowed
  | S n => Acquire (λ a, match a with
                         | None => Release o l (count_allowed n o l (allowed + 1) k)
                         | Some _ => count_allowed n o l allowed k
                         end)
  end.

(** ** The tests, under their numbers in the script *)

Definition test1 : Prog :=
  times 100 (hit SUCCESS 500)
  (StateIs CLOSED "healthy Redis stays CLOSED" Stop).

Definition test2 : Prog :=
  hit SUCCESS 500 (hit REDIS_ERROR 1000 (hit SUCCESS 500
  (StateIs CLOSED "single transient failure stays CLOSED" Stop))).

Definition modify3 : Modify := λ c, c <| consecutiveFailOpen := 3 |>.
Definition test3 : Prog :=
  times 3 (hit REDIS_ERROR 1000)
  (StateIs OPEN "consecutive failures open the circuit" Stop).

Definition modify4 : Modify := λ c,
  c <| timeoutRateOpen := (4 # 10)%Q |> <| minSamples := 5 |>
    <| consecutiveTimeoutOpen := 100 |> <| consecutiveFailOpen := 100 |>.
Definition test4 : Prog :=
  times 2 (hit SUCCESS 500) (times 3 (hit TIMEOUT 500000)
  (StateIs OPEN "high timeout rate opens the circuit" Stop)).

Definition modify5 : Modify := λ c,
  c <| errorRateOpen := (1 # 2)%Q |> <| minSamples := 5 |> <| consecutiveFailOpen := 100 |>.
Definition test5 : Prog :=
  times 2 (hit SUCCESS 500) (times 3 (hit REDIS_ERROR 1000)
  (StateIs OPEN "high error rate opens the circuit" Stop)).

Definition modify6 : Modify := λ c,
  c <| p99UsOpen := 100000 |> <| minSamples := 5 |> <| consecutiveFailOpen := 100 |>.
Definition test6 : Prog :=
  times 10 (hit SUCCESS 300000)
  (StateIs OPEN "high p99 latency opens the circuit" Stop).

Definition modify7 : Modify := λ c,
  c <| minSamples := 20 |> <| errorRateOpen := (1 # 2)%Q |> <| consecutiveFailOpen := 100 |>.
Definition test7 : Prog :=
  hit SUCCESS 500 (hit REDIS_ERROR 1000 (hit REDIS_ERROR 1000
  (StateIs CLOSED "tiny sample does not open the circuit" Stop))).

Definition modify8 : Modify := λ c, c <| consecutiveFailOpen := 2 |>.
Definition test8 : Prog :=
  times 2 (hit REDIS_ERROR 1000)
  (StateIs OPEN "circuit is open"
  (Acquired (Some CIRCUIT_OPEN) "OPEN circuit rejects acquire without calling Redis" Stop)).

(** The changes tests 9, 12 and 26 make: no jitter, the shortest cooldown. *)
Definition modify9 : Modify := λ c,
  c <| consecutiveFailOpen := 2 |> <| openCooldownMs := 100 |> <| cooldownJitterMs := 0 |>.
Definition test9 : Prog :=
  times 2 (hit REDIS_ERROR 1000)
  (StateIs OPEN "open before cooldown"
  (Sleep 150
  (Acquire (λ result,
    Assert (bool_decide (result = None) || bool_decide (result = Some CIRCUIT_OPEN))
      "acquire after cooldown is a probe or rejected"
    (if bool_decide (result = None)
     then StateIs HALF_OPEN "transitions to HALF_OPEN" Stop else Stop))))).

Definition modify10 : Modify := λ c,
  modify9 c <| halfOpenProbes := 2 |> <| p99UsRecovery := 1000%Q |>.
Definition test10 : Prog :=
  times 2 (hit REDIS_ERROR 1000)
  (Sleep 150
  (count_allowed 10 SUCCESS 50000 0 (λ allowed,
    Eq_ allowed 2 "HALF_OPEN limits probes"
    (StateIs HALF_OPEN "stays HALF_OPEN (recovery not met)" Stop)))).

Definition modify11 : Modify := λ c, modify9 c <| recoverySuccesses := 2 |>.
Definition test11 : Prog :=
  times 2 (hit REDIS_ERROR 1000)
  (Sleep 150
  (times 2 (λ k, Acquired None "probe allowed in HALF_OPEN" (Release SUCCESS 500 k))
  (StateIs CLOSED "successful probes close the circuit" Stop))).

Definition test12 : Prog :=
  times 2 (hit REDIS_ERROR 1000)
  (Sleep 150
  (Acquire (λ _,
    StateIs HALF_OPEN "entered HALF_OPEN"
    (Release TIMEOUT 500000
    (StateIs OPEN "failed probe reopens the circuit" Stop))))).

Definition modify13 : Modify := λ c,
  c <| p99UsOpen := 200000 |> <| p99UsRecovery := 30000%Q |> <| minSamples := 5 |>
    <| consecutiveFailOpen := 100 |>.
Definition test13 : Prog :=
  times 5 (hit SUCCESS 100000)
  (StateIs CLOSED "mid-range latency stays CLOSED (no flap)"
  (times 5 (hit SUCCESS 300000)
  (StateIs OPEN "high p99 opens after sustained degradation" Stop))).

(** Test 14 reads the cooldown of five fresh breakers, each with its own
    random draw, and asserts that they are not all the same. *)
Definition modify14 : Modify := λ c,
  c <| consecutiveFailOpen := 2 |> <| openCooldownMs := 5000 |> <| cooldownJitterMs := 2000 |>.

(** The jobs of test 15 interleave at the microtask each iteration awaits:
    all eight run their first iteration, then their second, and so on. *)
Definition modify15 : Modify := λ c,
  c <| consecutiveFailOpen := 100 |> <| consecutiveTimeoutOpen := 100 |>.
Definition job_outcome (t i : nat) : RedisCallOutcome :=
  if decide ((t + i) mod 5 = 0)%nat then REDIS_ERROR else SUCCESS.
Definition jobs (ids iterations : nat) : list RedisCallOutcome :=
  i ← seq 0 iterations; t ← seq 0 ids; [job_outcome t i].
Definition test15 : Prog :=
  foldr (λ o k, hit_if o 500 k)
    (RequestsAre 8000 "all concurrent releases recorded"
    (InflightIs 0 "no inflight leak after concurrency"
    (StateIs CLOSED "state remains valid after concurrency" Stop)))
    (jobs 8 1000).

Definition test16 : Prog :=
  times 3 (hit TIMEOUT 500000)
  (Look (λ v, Eq_ (v_timeouts v) 3 "timeouts recorded"
  (Eq_ (v_errors v) 0 "timeouts do NOT inflate the error counter"
  (StateIs CLOSED "low-volume slow ops stay CLOSED" Stop)))).

Definition modify17 : Modify := λ c, c <| maxInflight := 2 |>.
Definition test17 : Prog :=
  Acquire (λ _, Acquire (λ _,
    Acquired (Some CONCURRENCY_REJECTED) "concurrency limit rejects excess in-flight ops"
    (Release SUCCESS 500 (Acquired None "slot freed after release" Stop)))).

(** [new Error(message)], with an optional [code]. *)
Definition js_error (message : string) (code : option string) : RedisFailure :=
  {| f_message := Some message; f_code := code; repr := "Error: " +:+ message |}.
Definition test18 : Prog :=
  Eq_ (classifyRedisError (js_error "command timed out" None)) TIMEOUT "timed out message → TIMEOUT"
  (Eq_ (classifyRedisError (js_error "boom" (Some "ETIMEDOUT"))) TIMEOUT "ETIMEDOUT → TIMEOUT"
  (Eq_ (classifyRedisError (js_error "WRONGTYPE Operation against a key" None)) REDIS_ERROR
     "server error → REDIS_ERROR"
  (Eq_ (classifyRedisError (js_error "ECONNREFUSED" None)) REDIS_ERROR
     "connect refused → REDIS_ERROR" Stop))).

(** The fifty pairs run inside [Array.from], one after the other. *)
Definition test20 : Prog :=
  foldr (λ i k, hit_if SUCCESS (100 + Z.of_nat i) k)
    (Eq_ (length (seq 0 50)) 50%nat "parallel acquire/release pairs completed"
    (RequestsAre 50 "all pairs recorded exactly once"
    (InflightIs 0 "inflight back to zero after parallel pairs" Stop)))
    (seq 0 50).

Definition modify21 : Modify := λ c, modify10 c <| recoverySuccesses := 2 |>.
Definition test21 : Prog :=
  times 2 (hit REDIS_ERROR 1000)
  (Sleep 150
  (count_allowed 10 SUCCESS 50000 0 (λ allowed,
    Eq_ allowed 2 "HALF_OPEN allows exactly halfOpenProbes probes"
    (Acquired (Some CIRCUIT_OPEN) "probes beyond the budget are rejected" Stop)))).

Definition modify22 : Modify := λ c, modify21 c <| halfOpenMaxMs := 1000 |>.
Definition test22 : Prog :=
  times 2 (hit REDIS_ERROR 1000)
  (Sleep 150
  (times 2 (hit_if SUCCESS 50000)
  (StateIs HALF_OPEN "probes stay in HALF_OPEN (hysteresis zone)"
  (Acquired (Some CIRCUIT_OPEN) "budget exhausted → degradation path"
  (Sleep 1100
  (Acquired (Some CIRCUIT_OPEN) "first acquire after the deadline re-arms OPEN"
  (Sleep 150
  (Acquired None "breaker probes again after re-arming instead of wedging" Stop)))))))).

Definition declined_with (o : RedisCallOutcome) (r : option (CallResult nat)) : bool :=
  match r with Some (Declined o') => bool_decide (o' = o) | _ => false end.
Definition not_ok (r : option (CallResult nat)) : bool :=
  match r with Some (Declined _) => true | _ => false end.

Definition test23 : Prog :=
  times 2 (hit REDIS_ERROR 1000)
  (StateIs OPEN "circuit is open"
  (With (Resolves 42) (λ invoked, Look (λ v,
    Assert (not_ok (v_result v)) "operation rejected while OPEN"
    (Assert (declined_with CIRCUIT_OPEN (v_result v)) "rejection reason is CIRCUIT_OPEN"
    (Assert (negb invoked) "fn is NOT invoked while OPEN"
    (InflightIs 0 "no inflight slot leaked" Stop))))))).

Definition modify24 : Modify := λ c, c <| operationTimeoutMs := 100 |>.
Definition test24 : Prog :=
  Now (λ startedAt, With Hangs (λ _, Sleep 500 (Look (λ v,
    Assert (not_ok (v_result v)) "hanging command is rejected"
    (Assert (declined_with TIMEOUT (v_result v)) "hang observed as TIMEOUT"
    (Now (λ now, Assert (90 <=? now - startedAt) "breaker deadline enforced"
    (Eq_ (v_inflight v) 0 "inflight slot released after breaker timeout"
    (Eq_ (v_timeouts v) 1 "timeout recorded exactly once"
    (Eq_ (v_requests v) 1 "release recorded exactly once" Stop)))))))))).

Definition test25 (env : Env) : Prog :=
  let cfg := defaultCircuitBreakerConfig env <| halfOpenProbes := 2 |> <| recoverySuccesses := 5 |> in
  let c := config (new_CircuitBreaker cfg) in
  Assert (recoverySuccesses c <=? halfOpenProbes c) "recoverySuccesses clamped to halfOpenProbes"
  (Eq_ (recoverySuccesses c) 2 "clamped value equals halfOpenProbes" Stop).

Definition test26 : Prog :=
  times 2 (hit REDIS_ERROR 1000)
  (StateIs OPEN "circuit is open"
  (Peek (λ openedAt1 cooldown1,
    Eq_ cooldown1 100 "cooldown set to base (no jitter)"
    (Sleep 10
    (Release TIMEOUT 500000
    (Peek (λ openedAt2 cooldown2,
      Eq_ openedAt2 openedAt1 "OPEN cooldown not re-armed"
      (Eq_ cooldown2 cooldown1 "cooldown unchanged by late failure" Stop)))))))).

(** ** The script *)

Definition fresh (b : CircuitBreaker) (t : Z) : World :=
  mkWorld {| breaker := b; calls := ∅ |} t 0 0 [].

Definition run_test (env : Env) (late : Z) (u : Q) (t : Z) (modify : Modify) (p : Prog) : nat * list string :=
  let w := run late u p (fresh (test_breaker env modify) t) in (checks w, failures w).

(** The cooldown one breaker of test 14 draws. *)
Definition drawn_cooldown (env : Env) (u : Q) (t : Z) : Z :=
  cooldownMs (breaker (sys (run 0 u (times 2 (hit REDIS_ERROR 1000) Stop)
                              (fresh (test_breaker env modify14) t)))).

Definition test14 (env : Env) (t : Z) (draws : list Q) : nat * list string :=
  let seen := remove_dups (map (λ u, drawn_cooldown env u t) draws) in
  (1%nat, if (1 <? length seen)%nat then [] else ["cooldown jitter is randomized"]).

Definition add_report (r s : nat * list string) : nat * list string :=
  ((r.1 + s.1)%nat, (r.2 ++ s.2)%list).

Definition run_tests (env : Env) (late : Z) (rnd : nat → Q) (start : nat → Z)
    (l : list (nat * Modify * Prog)) : nat * list string :=
  foldr (λ '(n, m, p) r, add_report (run_test env late (rnd n) (start n) m p) r) (0%nat, []) l.

Definition tests_1_13 : list (nat * Modify * Prog) :=
  [(1%nat, id, test1); (2%nat, id, test2); (3%nat, modify3, test3); (4%nat, modify4, test4);
   (5%nat, modify5, test5); (6%nat, modify6, test6); (7%nat, modify7, test7);
   (8%nat, modify8, test8); (9%nat, modify9, test9); (10%nat, modify10, test10);
   (11%nat, modify11, test11); (12%nat, modify9, test12); (13%nat, modify13, test13)].

Definition tests_15_26 (env : Env) : list (nat * Modify * Prog) :=
  [(15%nat, modify15, test15); (16%nat, modify15, test16); (17%nat, modify17, test17);
   (18%nat, id, test18); (20%nat, id, test20); (21%nat, modify21, test21);
   (22%nat, modify22, test22); (23%nat, modify8, test23); (24%nat, modify24, test24);
   (25%nat, id, test25 env); (26%nat, modify9, test26)].

(** [run]: the checks made and the labels of those that failed.  Test [n]
    starts at [start n]; [draws] are the random numbers of test 14. *)
Definition suite (env : Env) (late : Z) (rnd : nat → Q) (draws : list Q) (start : nat → Z)
    : nat * list string :=
  add_report (run_tests env late rnd start tests_1_13)
    (add_report (test14 env (start 14%nat) draws)
      (run_tests env late rnd start (tests_15_26 env))).

(** ** What the verdict depends on *)

(** Without a sleep the clock stands still, so an opened circuit stays
    opened and neither its cooldown nor the millisecond is observable. *)
Fixpoint sleepless (p : Prog) : Prop :=
  match p with
  | Stop => True
  | Acquire k => ∀ r, sleepless (k r)
  | Release _ _ k => sleepless k
  | With _ k => ∀ i, sleepless (k i)
  | Look k => ∀ v, sleepless (k v)
  | Assert _ _ k => sleepless k
  | Sleep _ _ | Peek _ | Now _ => False
  end.

Lemma times_sleepless n body k :
  (∀ k, sleepless k → sleepless (body k)) → sleepless k → sleepless (times n body k).
Proof. intros Hb Hk. induction n; [done|]. apply Hb, IHn. Qed.

Lemma hits_sleepless {A} (f : A → RedisCallOutcome) (g : A → Z) l k :
  sleepless k → sleepless (foldr (λ a k, hit_if (f a) (g a) k) k l).
Proof. intros Hk. induction l; [done|]. intros [|]; [done|]. done. Qed.

Ltac sleepless_solve :=
  repeat first
    [ exact I
    | apply times_sleepless; [intros ? ? ?|]
    | apply hits_sleepless
    | progress intros
    | done
    | progress simpl ].

(** Two breakers that differ in when they opened and for how long. *)
Record settled_at (t : Z) (b : CircuitBreaker) : Prop := {
  sa_config : ConfigOk (config b);
  sa_state : state b = CLOSED ∨ state b = OPEN ∧ openedAtMs b = t ∧ 0 < cooldownMs b;
}.

Definition same (b b' : CircuitBreaker) : Prop :=
  ∃ o d, b' = b <| openedAtMs := o |> <| cooldownMs := d |>.

Section Still.
Variables (h h' : Host).
Hypotheses (Hh : HostOk h) (Hh' : HostOk h').
Hypothesis (Hsec : nowSecs (now h) = nowSecs (now h')).

Lemma stats_same b b' : same b b' → stats h b = stats h' b'.
Proof.
  intros (o & d & ->). destruct b. unfold stats, aggregate. cbn. by rewrite Hsec.
Qed.

Lemma record_same w o l : record w (now h) o l = record w (now h') o l.
Proof. unfold record. by rewrite Hsec. Qed.

Lemma trip_same b b' : same b b' → same (tripOpen h b) (tripOpen h' b').
Proof.
  intros (o & d & ->). destruct b as [c s]. unfold same, tripOpen. cbn.
  case_decide; cbn; eauto.
Qed.

Lemma check_same b b' : same b b' → same (checkStatisticalOpen h b) (checkStatisticalOpen h' b').
Proof.
  intros Hs. unfold checkStatisticalOpen, statistically_bad. rewrite <- (stats_same b b' Hs).
  assert (config b' = config b) as -> by (destruct Hs as (o & d & ->); by destruct b).
  case_match; [by apply trip_same|done].
Qed.

Lemma release_same b b' o l : state b ≠ HALF_OPEN → same b b' →
  same (release h b o l) (release h' b' o l).
Proof.
  intros Hst (oo & d & ->). unfold release.
  destruct b as [c s]; cbn in Hst |- *. rewrite <- record_same. destruct o; cbn.
  1: unfold release_success; cbn; destruct s; try done; apply check_same; red; eauto.
  3, 4: red; eauto.
  1: unfold release_error. 2: unfold release_timeout.
  all: cbn; destruct s; try done; case_match; first [apply trip_same|apply check_same]; red; eauto.
Qed.
End Still.

Lemma trip_settled h b : HostOk h → settled_at (now h) b → settled_at (now h) (tripOpen h b).
Proof.
  intros Hh [Hc Hs]. split; [by rewrite tripOpen_config|]. right. split; [apply tripOpen_state|].
  pose proof (effectiveCooldown_bounds h _ Hh Hc). pose proof (ok_cooldown _ Hc).
  unfold tripOpen. case_decide.
  - destruct Hs as [Hs|(_ & ? & ?)]; [congruence|done].
  - destruct b; cbn in *. lia.
Qed.

Lemma check_settled h b : HostOk h → settled_at (now h) b → settled_at (now h) (checkStatisticalOpen h b).
Proof. intros. unfold checkStatisticalOpen. case_match; [by apply trip_settled|done]. Qed.

Lemma release_settled h b o l : HostOk h → settled_at (now h) b → settled_at (now h) (release h b o l).
Proof.
  intros Hh [Hc Hs]. unfold release. destruct b as [c s]; cbn in Hc, Hs |- *.
  destruct o; cbn; unfold release_success, release_error, release_timeout; cbn;
    [destruct s; [..|by destruct Hs as [|[]]]..| |]; repeat case_match;
    first [apply trip_settled|apply check_settled|idtac]; try done; split; cbn; done.
Qed.

Lemma acquire_settled h b : settled_at (now h) b → settled_at (now h) (acquire h b).2.
Proof.
  intros [Hc Hs]. unfold acquire. destruct b as [c s]; cbn in Hc, Hs |- *.
  destruct s; [|destruct Hs as [|(_ & -> & ?)]; [done|]|by destruct Hs as [|[]]].
  - case_match; split; cbn; auto.
  - replace (_ <=? _) with false by lia. split; cbn; auto.
Qed.

Lemma acquire_same h h' b b' :
  settled_at (now h) b → settled_at (now h') b' → same b b' →
  (acquire h b).1 = (acquire h' b').1 ∧ same (acquire h b).2 (acquire h' b').2.
Proof.
  intros [_ Hs] [_ Hs'] (o & d & ->). destruct b as [c s]; unfold acquire; cbn in Hs, Hs' |- *.
  destruct s; [| |by destruct Hs as [|[]]].
  - case_match; split; try done; red; eauto.
  - destruct Hs as [|(_ & -> & ?)]; [done|]. destruct Hs' as [|(_ & -> & ?)]; [done|].
    replace (_ <=? _) with false by lia. replace (_ <=? _) with false by lia.
    split; [done|]. red; eauto.
Qed.

Lemma elapsedUs_self x : elapsedUs x x = 0.
Proof. unfold elapsedUs. by rewrite Z.sub_diag. Qed.

(** Two runs of one sleepless program in the same second. *)
Record twin (t t' : Z) (w w' : World) : Prop := {
  tw_clock : clock w = t ∧ clock w' = t';
  tw_next : next w = next w';
  tw_checks : checks w = checks w';
  tw_failures : failures w = failures w';
  tw_same : same (breaker (sys w)) (breaker (sys w'));
  tw_settled : settled_at t (breaker (sys w)) ∧ settled_at t' (breaker (sys w'));
  tw_results : result <$> calls (sys w) = result <$> calls (sys w');
}.

Lemma twin_look t t' w w' : twin t t' w w' → look w = look w'.
Proof.
  intros [_ Hn _ _ (o & d & Hs) _ Hr]. unfold look. rewrite Hs, Hn.
  f_equal; try by destruct (breaker (sys w)).
  apply (f_equal (λ m, m !! pred (next w'))) in Hr. rewrite !lookup_fmap in Hr.
  destruct (calls (sys w) !! _), (calls (sys w') !! _); by simplify_eq/=.
Qed.

Section Twins.
Variables (t t' : Z) (u u' : Q).
Hypotheses (Hu : (0 <= u < 1)%Q) (Hu' : (0 <= u' < 1)%Q).
Hypothesis (Hsec : nowSecs t = nowSecs t').

Lemma twin_acquire w w' :
  twin t t' w w' →
  let r := acquire (at_ u (clock w)) (breaker (sys w)) in
  let r' := acquire (at_ u' (clock w')) (breaker (sys w')) in
  r.1 = r'.1 ∧ twin t t' (on_breaker (λ _, r.2) w) (on_breaker (λ _, r'.2) w').
Proof.
  intros [[Ht Ht'] Hn Hc Hf Hs [Ha Ha'] Hr]. cbv zeta. rewrite Ht, Ht'.
  destruct (acquire_same (at_ u t) (at_ u' t') _ _ Ha Ha' Hs) as [-> Hs2].
  split; [done|]. split; cbn; try done.
  split; [by apply (acquire_settled (at_ u t))|by apply (acquire_settled (at_ u' t'))].
Qed.

Lemma twin_release w w' o l :
  twin t t' w w' →
  twin t t' (on_breaker (λ b, release (at_ u (clock w)) b o l) w)
            (on_breaker (λ b, release (at_ u' (clock w')) b o l) w').
Proof.
  intros [[Ht Ht'] Hn Hc Hf Hs [Ha Ha'] Hr]. rewrite Ht, Ht'. split; cbn; try done.
  - apply release_same; [done| |done]. destruct Ha as [_ [->|[-> _]]]; done.
  - split; [by apply (release_settled (at_ u t))|by apply (release_settled (at_ u' t'))].
Qed.

Lemma twin_guard f w w' :
  twin t t' w w' →
  (guard u f w).1 = (guard u' f w').1 ∧ twin t t' (guard u f w).2 (guard u' f w').2.
Proof.
  intros [[Ht Ht'] Hn Hc Hf Hs [Ha Ha'] Hr]. unfold guard, begin_call.
  rewrite Ht, Ht'.
  destruct (acquire_same (at_ u t) (at_ u' t') _ _ Ha Ha' Hs) as [Hr1 Hs2].
  pose proof (acquire_settled (at_ u t) _ Ha) as Hq.
  pose proof (acquire_settled (at_ u' t') _ Ha') as Hq'.
  destruct (acquire (at_ u t) _) as [r b], (acquire (at_ u' t') _) as [r' b'];
    cbn in Hr1, Hs2, Hq, Hq'. subst r'. rewrite Hn.
  destruct r; cbn; rewrite !lookup_insert_eq; cbn; [|destruct f as [v|]];
    (split; [done|]); split; cbn; try done.
  all: rewrite ?insert_insert_eq, ?fmap_insert, ?Hr, ?elapsedUs_self; cbn; try done.
  - apply release_same; [done| |done]. destruct Hq as [_ [->|[-> _]]]; done.
  - split; [by apply (release_settled (at_ u t))|by apply (release_settled (at_ u' t'))].
Qed.

Lemma twin_run late late' p w w' :
  sleepless p → twin t t' w w' → twin t t' (run late u p w) (run late' u' p w').
Proof.
  revert w w'. induction p as [|k IH|o l k IH| |f k IH|k IH| | |c lb k IH];
    intros w w' Hp Hw; cbn; try done.
  - destruct (twin_acquire w w' Hw) as [Hr Hw2].
    destruct (acquire _ (breaker (sys w))), (acquire _ (breaker (sys w'))). cbn in Hr, Hw2.
    subst. by apply IH.
  - apply IH; [done|]. by apply twin_release.
  - destruct (twin_guard f w w' Hw) as [Hr Hw2].
    destruct (guard u f w), (guard u' f w'). cbn in Hr, Hw2. subst. by apply IH.
  - rewrite (twin_look _ _ _ _ Hw). by apply IH.
  - apply IH; [done|]. destruct Hw as [? ? Hc Hf ? ? ?]. split; cbn; rewrite ?Hc, ?Hf; done.
Qed.
End Twins.

(** The millisecond within a second and the random draw cannot be observed
    by a test that does not sleep. *)
Lemma sleepless_run env late late' u u' t t' modify p :
  (0 <= u < 1)%Q → (0 <= u' < 1)%Q → nowSecs t = nowSecs t' → sleepless p →
  run_test env late u t modify p = run_test env late' u' t' modify p.
Proof.
  intros Hu Hu' Hs Hp. unfold run_test.
  destruct (twin_run t t' u u' Hu Hu' Hs late late' p
    (fresh (test_breaker env modify) t) (fresh (test_breaker env modify) t') Hp)
    as [_ _ Hc Hf _ _ _]; [|congruence].
  split; cbn; try done.
  - unfold same, test_breaker. cbn. by eexists _, _.
  - split; split; cbn; auto using clampConfig_ok.
Qed.

(** Without jitter [Math.random()] is not read. *)
Lemma release_no_jitter t u u' b o l :
  cooldownJitterMs (config b) = 0 → release (at_ u t) b o l = release (at_ u' t) b o l.
Proof.
  intros Hj. unfold release, release_success, release_timeout, release_error,
    checkStatisticalOpen, statistically_bad, recovered, tripOpen, effectiveCooldown.
  destruct b; cbn in Hj |- *. rewrite Hj. done.
Qed.

Lemma acquire_no_jitter t u u' b :
  cooldownJitterMs (config b) = 0 → acquire (at_ u t) b = acquire (at_ u' t) b.
Proof.
  intros Hj. unfold acquire, acquireHalfOpen, tripOpen, effectiveCooldown.
  destruct b; cbn in Hj |- *. rewrite Hj. done.
Qed.

Definition jitterless (w : World) : Prop := cooldownJitterMs (config (breaker (sys w))) = 0.

Lemma finish_config {T} h hr b (c : Call T) o r : config (finish h hr b c o r).1 = config b.
Proof. unfold finish. destruct (settled c); cbn; autorewrite with uam; done. Qed.

Lemma finish_no_jitter {T} t u u' hr b (c : Call T) o r :
  cooldownJitterMs (config b) = 0 → finish (at_ u t) hr b c o r = finish (at_ u' t) hr b c o r.
Proof. intros. unfold finish. by rewrite (release_no_jitter t u u'). Qed.

Lemma fire_no_jitter late u u' t p s :
  cooldownJitterMs (config (breaker s)) = 0 →
  fire late u t p s = fire late u' t p s ∧ config (breaker (fire late u t p s)) = config (breaker s).
Proof.
  destruct p as [id c]. intros Hj. unfold fire. destruct (timer c); [|done]. case_match; [|done].
  unfold on_timer, update_call. cbn. rewrite finish_config. split; [|done].
  by rewrite (finish_no_jitter _ u u' _ _ _ _ _ Hj).
Qed.

Lemma fire_due_no_jitter late u u' t s :
  cooldownJitterMs (config (breaker s)) = 0 →
  fire_due late u t s = fire_due late u' t s ∧
  config (breaker (fire_due late u t s)) = config (breaker s).
Proof.
  intros Hj. unfold fire_due. induction (map_to_list (calls s)) as [|p l [IH1 IH2]]; cbn; [done|].
  rewrite <- IH1. rewrite <- IH2 in Hj.
  destruct (fire_no_jitter late u u' t p _ Hj) as [H1 H2]. by rewrite H2.
Qed.

Lemma guard_no_jitter u u' f w :
  jitterless w → guard u f w = guard u' f w ∧ jitterless (guard u f w).2.
Proof.
  unfold jitterless. intros Hj. unfold guard, begin_call. rewrite (acquire_no_jitter _ u u' _ Hj).
  pose proof (acquire_config (at_ u' (clock w)) (breaker (sys w))) as Hc.
  destruct (acquire _ _) as [[r|] b]; cbn in Hc; cbn; rewrite !lookup_insert_eq; cbn.
  - split; [done|]. congruence.
  - destruct f; cbn; [|split; [reflexivity|congruence]].
    unfold on_fulfil, fn_settles, update_call, finish. cbn. rewrite release_config.
    split; [|congruence]. by rewrite (release_no_jitter _ u u') by congruence.
Qed.

Lemma run_no_jitter late u u' p w : jitterless w → run late u p w = run late u' p w.
Proof.
  revert w. induction p as [|k IH|o l k IH|ms k IH|f k IH|k IH|k IH|k IH|c lb k IH];
    intros w Hw; cbn; auto.
  - rewrite (acquire_no_jitter _ u u' _ Hw). destruct (acquire _ _) as [r b] eqn:E.
    apply IH. red. cbn. apply (f_equal snd) in E. cbn in E. subst. by rewrite acquire_config.
  - rewrite IH by (red; cbn; by rewrite release_config). unfold on_breaker.
    by rewrite (release_no_jitter _ u u').
  - destruct (fire_due_no_jitter late u u' (clock w + ms + late) (sys w) Hw) as [H1 H2].
    rewrite IH by (red; cbn; by rewrite H2). unfold sleep. by rewrite H1.
  - destruct (guard_no_jitter u u' f w Hw) as [H1 H2]. rewrite H1 in H2 |- *.
    destruct (guard u' f w). by apply IH.
Qed.

(** With none of the breaker's variables set, the defaults apply. *)
Definition no_cb_settings (env : Env) : Prop := ∀ name, String.prefix "REDIS_CB_" name = true → env name = None.

Lemma default_config env :
  no_cb_settings env → defaultCircuitBreakerConfig env = defaultCircuitBreakerConfig (λ _, None).
Proof.
  intros He. unfold defaultCircuitBreakerConfig, intEnv, floatEnv.
  by rewrite !He by reflexivity.
Qed.

Lemma run_test_env env late u t modify p :
  no_cb_settings env → run_test env late u t modify p = run_test (λ _, None) late u t modify p.
Proof. intros He. unfold run_test, test_breaker. by rewrite default_config. Qed.

(** ** The verdict *)

(** The sleeping tests are run from each of forty milliseconds, chosen so
    that a sleep of 150 ms stays within the second from some and crosses into
    the next from others, and with every lateness below [max_late]. *)
Definition t0 : Z := 1760000000830.
Definition max_late : Z := 4.

Definition passes_on_grid (n : nat) (u : Q) (modify : Modify) (p : Prog) : bool :=
  forallb (λ t, forallb (λ late,
    bool_decide (run_test (λ _, None) late u t modify p = (n, []))) (seqZ 0 max_late)) (seqZ t0 40).

Lemma grid_run n u modify p env late t :
  passes_on_grid n u modify p = true → no_cb_settings env →
  0 ≤ late < max_late → t0 ≤ t < t0 + 40 → run_test env late u t modify p = (n, []).
Proof.
  intros Hg He Hl Ht. rewrite run_test_env by done. unfold passes_on_grid in Hg.
  rewrite forallb_forall in Hg. specialize (Hg t). rewrite forallb_forall in Hg.
  apply (bool_decide_eq_true_1 _). apply Hg; apply list_elem_of_In, elem_of_seqZ; lia.
Qed.

(** A test that sleeps switches the jitter off. *)
Lemma grid_run_any n u modify p env late t :
  passes_on_grid n 0 modify p = true → jitterless (fresh (test_breaker (λ _, None) modify) 0) →
  no_cb_settings env → 0 ≤ late < max_late → t0 ≤ t < t0 + 40 →
  run_test env late u t modify p = (n, []).
Proof.
  intros Hg Hj He Hl Ht. rewrite run_test_env by done.
  rewrite <- (grid_run n 0 modify p (λ _, None) late t) by done.
  unfold run_test. by rewrite (run_no_jitter late u 0).
Qed.

Lemma same_second t : t0 ≤ t < t0 + 40 → nowSecs t = nowSecs t0.
Proof.
  intros Ht. unfold nowSecs. transitivity 1760000000; [|reflexivity].
  symmetry. apply (Z.div_unique _ _ _ (t - t0 + 830)); unfold t0 in *; lia.
Qed.

Lemma still_run n u modify p env late t :
  sleepless p → run_test (λ _, None) 0 0 t0 modify p = (n, []) →
  (0 <= u < 1)%Q → no_cb_settings env → t0 ≤ t < t0 + 40 →
  run_test env late u t modify p = (n, []).
Proof.
  intros Hp Hr Hu He Ht. rewrite run_test_env, <- Hr by done.
  apply sleepless_run; try done. by apply same_second.
Qed.

Lemma grid_9 : passes_on_grid 3 0 modify9 test9 = true.
Proof. vm_compute. reflexivity. Qed.
Lemma grid_10 : passes_on_grid 2 0 modify10 test10 = true.
Proof. vm_compute. reflexivity. Qed.
Lemma grid_11 : passes_on_grid 3 0 modify11 test11 = true.
Proof. vm_compute. reflexivity. Qed.
Lemma grid_12 : passes_on_grid 2 0 modify9 test12 = true.
Proof. vm_compute. reflexivity. Qed.
Lemma grid_21 : passes_on_grid 2 0 modify21 test21 = true.
Proof. vm_compute. reflexivity. Qed.
Lemma grid_22 : passes_on_grid 4 0 modify22 test22 = true.
Proof. vm_compute. reflexivity. Qed.
Lemma grid_24 u : passes_on_grid 6 u modify24 test24 = true.
Proof. vm_compute. reflexivity. Qed.
Lemma grid_26 : passes_on_grid 4 0 modify9 test26 = true.
Proof. vm_compute. reflexivity. Qed.
Lemma still_15 : run_test (λ _, None) 0 0 t0 modify15 test15 = (3%nat, []).
Proof. vm_compute. reflexivity. Qed.

(** *** Test 14 *)

Definition jitter (u : Q) : Z := Qfloor (u * 2000).
#[local] Arguments jitter : simpl never.

(** The failure that reaches the threshold arms the cooldown. *)
Lemma release_trips h b l :
  state b = CLOSED → consecutiveFailOpen (config b) ≤ consecutiveFail b + 1 →
  cooldownMs (release h b REDIS_ERROR l) = effectiveCooldown h (config b).
Proof.
  intros Hs Hf. unfold release, release_error. destruct b; cbn in *. subst.
  case_match eqn:E; [done|]. breflect. lia.
Qed.

Lemma same_fields b b' :
  same b b' → config b = config b' ∧ state b = state b' ∧ consecutiveFail b = consecutiveFail b'.
Proof. intros (o & d & ->). by destruct b. Qed.

(** The breaker of test 14 just before its second failure. *)
Definition armed (u : Q) (t : Z) : CircuitBreaker :=
  breaker (sys (run 0 u (hit REDIS_ERROR 1000 (Acquire (λ _, Stop)))
                 (fresh (test_breaker (λ _, None) modify14) t))).

Lemma twin_fresh b t t' : state b = CLOSED → ConfigOk (config b) → twin t t' (fresh b t) (fresh b t').
Proof.
  intros Hs Hc. split; cbn; try done.
  - exists (openedAtMs b), (cooldownMs b). by destruct b.
  - split; split; auto.
Qed.

Lemma armed_same u t :
  (0 <= u < 1)%Q → nowSecs t = nowSecs t0 → same (armed u t) (armed 0 t0).
Proof.
  intros Hu Ht. unfold armed.
  refine (tw_same _ _ _ _ (twin_run t t0 u 0 Hu _ Ht 0 0 _ _ _ _ (twin_fresh _ t t0 _ _))); done.
Qed.

Lemma drawn_cooldown_eq env u t :
  (0 <= u < 1)%Q → nowSecs t = nowSecs t0 → no_cb_settings env →
  drawn_cooldown env u t = 5000 + jitter u.
Proof.
  intros Hu Ht He. unfold drawn_cooldown, test_breaker. rewrite default_config by done.
  transitivity (cooldownMs (release (at_ u t) (armed u t) REDIS_ERROR 1000)).
  { unfold armed, test_breaker. cbn -[acquire release new_CircuitBreaker].
    by do 2 (destruct (acquire _ _); cbn -[acquire release new_CircuitBreaker]). }
  destruct (same_fields _ _ (armed_same u t Hu Ht)) as (Hc & Hs & Hf).
  rewrite release_trips; rewrite ?Hc, ?Hs, ?Hf; [|vm_compute; done..].
  replace (config (armed 0 t0)) with (config (test_breaker (λ _, None) modify14)) by (vm_compute; done).
  reflexivity.
Qed.

Lemma distinct_values {A} `{EqDecision A} (l : list A) :
  (1 < length (remove_dups l))%nat ↔ ∃ x y, x ∈ l ∧ y ∈ l ∧ x ≠ y.
Proof.
  setoid_rewrite <- elem_of_remove_dups. pose proof (NoDup_remove_dups l) as Hn.
  destruct (remove_dups l) as [|x [|y k]]; cbn; split; intros H0; try lia.
  - destruct H0 as (x & ? & Hx & _). by apply not_elem_of_nil in Hx.
  - destruct H0 as (a & b & Ha%list_elem_of_singleton & Hb%list_elem_of_singleton & Hab). congruence.
  - apply NoDup_cons in Hn as [Hn _]. exists x, y. set_solver.
Qed.

(** The test makes [n] checks, all of which pass, on any random draw. *)
Definition passes (n : nat) (modify : Modify) (p : Prog) : Prop := ∀ env late u t,
  no_cb_settings env → 0 ≤ late < max_late → (0 <= u < 1)%Q → t0 ≤ t < t0 + 40 →
  run_test env late u t modify p = (n, []).

Lemma passes_still n modify p :
  sleepless p → run_test (λ _, None) 0 0 t0 modify p = (n, []) → passes n modify p.
Proof. intros Hs Hr env late u t ????. by apply still_run. Qed.

Lemma passes_sleeping n modify p :
  passes_on_grid n 0 modify p = true → jitterless (fresh (test_breaker (λ _, None) modify) 0) →
  passes n modify p.
Proof. intros Hg Hj env late u t ????. by apply grid_run_any. Qed.

Lemma run_tests_pass env late rnd start l ns :
  no_cb_settings env → 0 ≤ late < max_late → (∀ n, 0 <= rnd n < 1)%Q →
  (∀ n, t0 ≤ start n < t0 + 40) →
  Forall2 (λ x n, passes n x.1.2 x.2) l ns →
  run_tests env late rnd start l = (sum_list ns, []).
Proof.
  intros He Hl Hr Ht. induction 1 as [|[[i m] p] n l ns Hp _ IH]; [done|].
  unfold run_tests in *. cbn. rewrite Hp, IH by auto. done.
Qed.

Ltac still := apply passes_still; [sleepless_solve|vm_compute; reflexivity].
Ltac asleep H := apply passes_sleeping; [exact H|vm_compute; reflexivity].

Lemma pass_1_13 : Forall2 (λ x n, passes n x.1.2 x.2) tests_1_13
  [1; 1; 1; 1; 1; 1; 1; 2; 3; 2; 3; 2; 2]%nat.
Proof.
  repeat apply Forall2_cons_2; try apply Forall2_nil_2.
  9: asleep grid_9. 9: asleep grid_10. 9: asleep grid_11. 9: asleep grid_12.
  all: still.
Qed.

Lemma pass_15_26 : Forall2 (λ x n, passes n x.1.2 x.2) (tests_15_26 (λ _, None))
  [3; 3; 2; 4; 3; 2; 4; 5; 6; 2; 4]%nat.
Proof.
  repeat apply Forall2_cons_2; try apply Forall2_nil_2.
  11: asleep grid_26. 9: intros env late u t ????; by apply grid_run; [apply grid_24|..].
  7: asleep grid_22. 6: asleep grid_21.
  1: apply passes_still; [sleepless_solve|exact still_15].
  all: still.
Qed.

Lemma test25_env env : no_cb_settings env → test25 env = test25 (λ _, None).
Proof. intros He. unfold test25. by rewrite default_config. Qed.

(** C13. The unit tests of the breaker pass.  Run against the model with none of
    the [REDIS_CB_*] variables set, the script makes its 60 checks and all
    pass, whatever the random source answers, from each of the start times
    and latenesses of the grid, except that the check of test 14 passes
    exactly when two of the random draws of that test floor to different
    jitters: the one assertion whose verdict is left to chance. *)
Theorem breaker_suite_verdict env late rnd draws start :
  no_cb_settings env → 0 ≤ late < max_late → (∀ n, 0 <= rnd n < 1)%Q →
  Forall (λ u, 0 <= u < 1)%Q draws → (∀ n, t0 ≤ start n < t0 + 40) →
  (suite env late rnd draws start).1 = 60%nat ∧
  ((suite env late rnd draws start).2 = [] ↔
   ∃ u v, u ∈ draws ∧ v ∈ draws ∧ jitter u ≠ jitter v).
Proof.
  intros He Hl Hr Hd Ht. unfold suite.
  replace (tests_15_26 env) with (tests_15_26 (λ _, None)) by (unfold tests_15_26; by rewrite (test25_env env He)).
  rewrite (run_tests_pass _ _ _ _ _ _ He Hl Hr Ht pass_1_13).
  rewrite (run_tests_pass _ _ _ _ _ _ He Hl Hr Ht pass_15_26).
  split; [reflexivity|]. unfold test14. cbn.
  assert (map (λ u, drawn_cooldown env u (start 14%nat)) draws = map (λ u, 5000 + jitter u) draws) as ->.
  { apply map_ext_in. intros u Hu%list_elem_of_In. apply drawn_cooldown_eq; [|apply same_second, Ht|done].
    by eapply (proj1 (Forall_forall _ _)) in Hd. }
  rewrite app_nil_r. transitivity (1 < length (remove_dups (map (λ u, 5000 + jitter u)%Z draws)))%nat.
  { destruct (length _) as [|[|n]]; split; intros; done || (exfalso; lia) || lia. }
  rewrite distinct_values. setoid_rewrite list_elem_of_fmap. split.
  - intros (x & y & (u & -> & Hu) & (v & -> & Hv) & Hne). exists u, v. split_and!; [done..|]. intros E. apply Hne. cbv beta. by rewrite E.
  - intros (u & v & Hu & Hv & Hne). exists (5000 + jitter u), (5000 + jitter v). split_and!; [eauto..|lia].
Qed.

Lemma breaker_suite_verdict_witness :
  (suite (λ _, None) 1 (λ _, 1 # 3) [0; 1 # 2; 1 # 3; 1 # 4; 1 # 5]%Q (λ _, t0)).1 = 60%nat ∧
  ((suite (λ _, None) 1 (λ _, 1 # 3) [0; 1 # 2; 1 # 3; 1 # 4; 1 # 5]%Q (λ _, t0)).2 = [] ↔
   ∃ u v, u ∈ [0; 1 # 2; 1 # 3; 1 # 4; 1 # 5]%Q ∧ v ∈ [0; 1 # 2; 1 # 3; 1 # 4; 1 # 5]%Q ∧
          jitter u ≠ jitter v).
Proof.
  apply (breaker_suite_verdict (λ _, None) 1 (λ _, 1 # 3) [0; 1 # 2; 1 # 3; 1 # 4; 1 # 5]%Q (λ _, t0)).
  - intros name _. reflexivity.
  - vm_compute. split; [discriminate|reflexivity].
  - intros _. split; [discriminate|reflexivity].
  - repeat constructor; discriminate || reflexivity.
  - intros _. vm_compute. split; [discriminate|reflexivity].
Defined.
