(* ===== verification/AuthContract.v ===== *)
(** * The contract test of passwords and access tokens

    Models [uam-backend/src/scripts/test-auth-contract.ts]: the environment it
    prepares and the checks it makes on [hashPassword], [verifyPassword] and
    [generateAccessToken].  [jwt.verify(token, secret)] without options is an
    operation of the third-party package, so it is an argument with its
    documented behaviour ([VerifyAny]); so is the shape of a bcrypt hash. *)

From S2P Require Import Prelude CircuitConfig Json Async JsVal Columns Password UserModel Tokens.
#[local] Open Scope string_scope.
#[local] Open Scope list_scope.
#[local] Open Scope Z_scope.

(** The environment after the assignments at the top of the script. *)
Definition contract_env (env : string → option string) (name : string) : option string :=
  if String.eqb name "PASSWORD_PEPPER" then Some (env_or env name "unit_test_pepper_value_1234567890")
  else if String.eqb name "JWT_ACCESS_SECRET" then Some (env_or env name "unit_test_access_secret")
  else if String.eqb name "JWT_ISSUER" then Some "api-gateway-auth-server"
  else if String.eqb name "JWT_AUDIENCE" then Some "api-gateway-clients"
  else if String.eqb name "DEFAULT_HOME_REGION" then Some "US"
  else env name.

(** [/^\$2[aby]\$\d{2}\$/.test(hash)] *)
Definition bcrypt_string (hash : string) : bool :=
  match hash with
  | String d0 (String v (String r (String d1 (String a (String b (String d2 _)))))) =>
      Ascii.eqb d0 "$" && Ascii.eqb v "2" && (Ascii.eqb r "a" || Ascii.eqb r "b" || Ascii.eqb r "y")
      && Ascii.eqb d1 "$" && is_digit a && is_digit b && Ascii.eqb d2 "$"
  | _ => false
  end.

(** [typeof v === 'number'], [typeof v === 'string' && v.length > 0] *)
Definition is_number (v : val) : bool := match v with VNum _ => true | _ => false end.
Definition nonempty_string (v : val) : bool :=
  match v with VStr s => negb (String.eqb s "") | _ => false end.

Section Contract.
Context `{C : Crypto} `{J : Jwt}.
(** [jwt.verify(token, secret)] at a time *)
Context (jwt_verify_any : string → string → Z → option object).
Context (process_env : string → option string).

#[local] Abbreviation env := (contract_env process_env).

Definition test_password : string := "S3cure!Passw0rd".

Definition fakeUser : User :=
  {| _values := [("id", VStr "user_abc123"); ("email", VStr "tester@example.com")];
     _modified := []; _isNew := false |}.

(** Checks 1 to 4; [salt] is the random salt of each hash. *)
Definition password_checks (salt : nat → string) : list (string * bool) :=
  let pepper := env "PASSWORD_PEPPER" in
  let hash := hashPassword pepper (salt 0%nat) test_password in
  let ok := verifyPassword pepper test_password (Some hash) in
  let bad := verifyPassword pepper "wrong-password" (Some hash) in
  let legacyHash := bcrypt_hash test_password (salt 1%nat) in
  let legacy := verifyPassword pepper test_password (Some legacyHash) in
  let plainHash := hashPassword None (salt 2%nat) test_password in
  let plainVerify := verifyPassword None test_password (Some plainHash) in
  [("hash is a bcrypt string", bcrypt_string hash);
   ("correct password matches", pw_match ok);
   ("current-scheme hash does not need rehash", negb (needsRehash ok));
   ("wrong password rejected", negb (pw_match bad));
   ("legacy un-peppered hash still authenticates", pw_match legacy);
   ("legacy hash is flagged for rehash (migration)", needsRehash legacy);
   ("no-pepper mode: hash + verify works", pw_match plainVerify);
   ("no-pepper mode: no spurious rehash", negb (needsRehash plainVerify))].

Definition claim_checks (decoded : object) : list (string * bool) :=
  let claim := obj_get decoded in
  [("token has sub == userId", strict_eq (claim "sub") (VStr "user_abc123"));
   ("token type is access", strict_eq (claim "type") (VStr "access"));
   ("token issuer matches gateway", strict_eq (claim "iss") (VStr "api-gateway-auth-server"));
   ("token audience matches gateway", strict_eq (claim "aud") (VStr "api-gateway-clients"));
   ("token has home_region", strict_eq (claim "home_region") (VStr "US"));
   ("token has jti", nonempty_string (claim "jti"));
   ("token has tv (token version)", strict_eq (claim "tv") (VNum 0));
   ("token has exp", is_number (claim "exp"));
   ("token has iat", is_number (claim "iat"))].

(** [run]: the token is signed at [t] and verified at [t']; a throw ends the
    script through [run().catch]. *)
Definition contract_run (salt : nat → string) (jti : string) (t t' : Z) : outcome (list (string * bool)) :=
  let checks := password_checks salt in
  let? token := generateAccessToken (jwt_config env) fakeUser jti t in
  match jwt_verify_any token (accessSecret (jwt_config env)) t' with
  | Some decoded => Returned (checks ++ claim_checks decoded)
  | None => Thrown "JsonWebTokenError"
  end.

(** The exit code: [process.exit(failed === 0 ? 0 : 1)]. *)
Definition exit_code (r : outcome (list (string * bool))) : Z :=
  match r with
  | Returned checks => if forallb snd checks then 0 else 1
  | Thrown _ => 1
  end.

(** What [jsonwebtoken] documents of a token it signed itself. *)
Record VerifyAny : Prop := {
  any_accepts : ∀ p secret exp iss aud t0 token t,
    jwt_sign p secret exp iss aud t0 = Returned token → t / 1000 < t0 / 1000 + exp →
    ∃ payload, jwt_verify_any token secret t = Some payload ∧
      (∀ k, k ∉ registered → obj_get payload k = obj_get p k) ∧
      obj_get payload "iss" = VStr iss ∧ obj_get payload "aud" = VStr aud ∧
      is_number (obj_get payload "exp") = true ∧ is_number (obj_get payload "iat") = true;
}.

Context {L : CryptoLaws C} {JL : JwtLaws J}.

Lemma hmac_differs key msg s :
  String.length (String.substring 0 72 s) ≠ 64%nat →
  String.eqb (String.substring 0 72 s) (hmac_sha256_hex key msg) = false ∧
  String.eqb (hmac_sha256_hex key msg) (String.substring 0 72 s) = false.
Proof.
  intros Hs. rewrite !String.eqb_neq. split; intros E; apply (f_equal String.length) in E;
    rewrite hmac_length in E; congruence.
Qed.

Lemma contract_pepper : ∃ p, env "PASSWORD_PEPPER" = Some p ∧ p ≠ "".
Proof. eexists. split; [reflexivity|]. by apply env_or_nonempty. Qed.

Lemma password_checks_pass salt :
  (∀ m s, bcrypt_string (bcrypt_hash m s) = true) →
  (∀ key, hmac_sha256_hex key "wrong-password" ≠ hmac_sha256_hex key test_password) →
  forallb snd (password_checks salt) = true.
Proof.
  intros Hb Hw. destruct contract_pepper as (p & Hp & Hne). unfold password_checks. rewrite Hp.
  destruct (verifyPassword_spec (Some p) (salt 0%nat) test_password "wrong-password") as (H1 & H2 & _).
  destruct (verifyPassword_spec (Some p) (salt 1%nat) test_password "") as (_ & _ & H5 & H6).
  destruct (verifyPassword_spec None (salt 2%nat) test_password "") as (_ & H7 & _).
  unfold getPepper in *. apply String.eqb_neq in Hne. rewrite Hne in H1, H6.
  cbn [forallb snd] in *. rewrite H2, H7, H5, H6, H1. unfold hashPassword. rewrite Hb. cbn [pw_match needsRehash].
  destruct (hmac_differs p test_password "wrong-password") as [-> _]; [done|].
  destruct (hmac_differs p test_password test_password) as [_ ->]; [done|].
  by rewrite (proj2 (String.eqb_neq _ _) (Hw p)).
Qed.

(** The contract test of passwords and tokens succeeds: with laws of
    bcrypt, HMAC and [jsonwebtoken] as documented, whatever environment the
    script is started in, it makes 17 checks, all of them pass, and it exits
    with code 0, provided the token has not expired when it is decoded and
    the HMAC separates the two passwords the script tries. *)
Theorem auth_contract_passes salt jti t t' :
  (∀ m s, bcrypt_string (bcrypt_hash m s) = true) →
  (∀ key, hmac_sha256_hex key "wrong-password" ≠ hmac_sha256_hex key test_password) →
  VerifyAny → jti ≠ "" →
  t' / 1000 < t / 1000 + parseExpiry (accessExpiresIn (jwt_config env)) →
  exit_code (contract_run salt jti t t') = 0 ∧
  ∃ checks, contract_run salt jti t t' = Returned checks ∧ length checks = 17%nat.
Proof.
  intros Hb Hw [HV] Hj Ht. unfold contract_run.
  destruct (issue_access (jwt_config env) fakeUser "user_abc123" jti t) as (token & -> & _ & Hs); try done.
  { apply env_or_nonempty. by cbn. }
  destruct (HV _ _ _ _ _ _ _ _ Hs Ht) as (payload & Hv & Hk & Hi & Ha & He & Hiat).
  cbn [outcome_bind]. rewrite Hv. split; [|eexists; split; done].
  cbn [exit_code]. rewrite forallb_app, (password_checks_pass _ Hb Hw). cbn [andb].
  unfold claim_checks. cbn [forallb snd].
  rewrite Hi, Ha, He, Hiat, !Hk by (by apply unregistered). cbn. by destruct jti.
Qed.
End Contract.

(** Concrete primitives: a hash in bcrypt's format, a decoder of the toy
    tokens that adds the registered claims. *)
Module ToyContract.
#[local] Instance toy2 : Crypto :=
  {| hmac_sha256_hex := hmac_sha256_hex (Crypto := ToyCrypto.toy);
     bcrypt_hash := λ m salt, "$2b$12$" +:+ String.substring 0 72 m;
     bcrypt_compare := λ m h, String.eqb ("$2b$12$" +:+ String.substring 0 72 m) h |}.

#[local] Instance toy2_laws : CryptoLaws toy2.
Proof.
  split; cbn; try done.
  - exact (hmac_length (CryptoLaws := ToyCrypto.toy_laws)).
Qed.

Definition verify_any (token secret : string) (t : Z) : option object :=
  match token with
  | String _ s =>
      match parse (ToyJwt.dec s) with
      | Some (JArr [JStr secret'; JNum e; JStr iss; JStr aud; JObj l]) =>
          if String.eqb secret secret' && (t / 1000 <? e)
          then Some ([("iss", VStr iss); ("aud", VStr aud); ("exp", VNum e); ("iat", VNum 0)]
                     ++ map (λ p, (p.1, of_json p.2)) l) else None
      | _ => None
      end
  | EmptyString => None
  end.

Lemma verify_any_ok : VerifyAny (J := ToyJwt.toy_jwt) verify_any.
Proof.
  constructor. intros p secret exp iss aud t0 token t Hsign Hlt. cbn [jwt_sign ToyJwt.toy_jwt] in Hsign.
  unfold ToyJwt.sign in Hsign. destruct (_ && _) eqn:E; [|done].
  apply andb_true_iff in E as [[_ Hs]%andb_true_iff Hnd%bool_decide_eq_true].
  remember (stringify _) as text eqn:Htext. injection Hsign as <-.
  apply Z.ltb_lt in Hlt. unfold verify_any.
  rewrite ToyJwt.dec_enc, Htext, parse_stringify, String.eqb_refl, Hlt. cbn [andb].
  eexists. split; [reflexivity|]. split; [|done].
  intros k Hk. rewrite <- (ToyJwt.fields_get p k Hs Hnd).
  assert (∀ r, r ∈ registered → String.eqb r k = false) as Hr.
  { intros r Hr. apply String.eqb_neq. by intros ->. }
  unfold obj_get. cbn [app obj_lookup fst snd].
  by rewrite !Hr by (apply has_spec; reflexivity).
Qed.

Lemma auth_contract_passes_witness :
  exit_code (contract_run (C := toy2) (J := ToyJwt.toy_jwt) verify_any (λ _, None) (λ _, "s") "j" 1000 2000) = 0 ∧
  ∃ checks, contract_run (C := toy2) (J := ToyJwt.toy_jwt) verify_any (λ _, None) (λ _, "s") "j" 1000 2000
    = Returned checks ∧ length checks = 17%nat.
Proof.
  apply (auth_contract_passes (C := toy2) (J := ToyJwt.toy_jwt) (L := toy2_laws) (JL := ToyJwt.toy_jwt_laws)
    verify_any (λ _, None) (λ _, "s") "j" 1000 2000).
  - reflexivity.
  - intros key E. discriminate E.
  - exact verify_any_ok.
  - discriminate.
  - vm_compute. reflexivity.
Defined.
End ToyContract.
