(* ===== verification/Schema.v ===== *)
(** * The schema, stated twice

    The columns of the database are written down in two places: the
    statements of migration [001_init] in [uam-backend/src/db/migrations.ts],
    which create the tables, and the table descriptions of
    [uam-backend/src/db/schema.ts].  A comment in the first asks that the two
    stay in lockstep; a third list, the dictionary of [Columns], names the
    same columns again.  Here both are data, and the predicates on which the
    theorems about the users table rest ([UsersTable.row_typed],
    [default_row], the uniqueness tests) are shown to be what the statements
    of the migration say. *)

From S2P Require Import Prelude CircuitConfig Json Async JsVal Columns SqlFilter SqlMeaning Password UserModel UsersTable IdentityIndex.
#[local] Open Scope string_scope.
#[local] Open Scope list_scope.
#[local] Open Scope Z_scope.

(** ** Column definitions *)

Inductive nullability := nullable | not_null | pk.

Inductive default_expr := DBool (b : bool) | DInt (n : Z) | DText (s : string) | DEmptyArray | DNow.

#[export] Instance coltype_eq_dec : EqDecision coltype.
Proof. solve_decision. Defined.
#[export] Instance nullability_eq_dec : EqDecision nullability.
Proof. solve_decision. Defined.
#[export] Instance default_expr_eq_dec : EqDecision default_expr.
Proof. solve_decision. Defined.

(** [c_references] is the table and column referred to and whether a deletion
    there cascades. *)
Record Column := column {
  c_name : string;
  c_type : coltype;
  c_null : nullability;
  c_default : option default_expr;
  c_references : option (string * string * bool);
}.

#[export] Instance Column_eq_dec : EqDecision Column.
Proof. solve_decision. Defined.

Inductive table_constraint :=
  | Unique (name : string) (cols : list string)
  | CheckIn (name col : string) (values : list string)
  | CheckArray (name col : string).

(** ** Migration 001_init *)

Definition ddl_users : list Column :=
  [
   column "id" TText pk None None;
   column "email" TText not_null None None;
   column "previous_email" TText nullable None None;
   column "password" TText nullable None None;
   column "display_name" TText not_null None None;
   column "avatar" TText nullable None None;
   column "bio" TText nullable None None;
   column "is_email_verified" TBool not_null (Some (DBool false)) None;
   column "login_count" TInt not_null (Some (DInt 0)) None;
   column "last_login" TTime nullable None None;
   column "email_verification_token" TText nullable None None;
   column "email_verification_expires" TTime nullable None None;
   column "password_reset_token" TText nullable None None;
   column "password_reset_expires" TTime nullable None None;
   column "provider" TText not_null (Some (DText "local")) None;
   column "provider_id" TText nullable None None;
   column "refresh_tokens" TJson not_null (Some DEmptyArray) None;
   column "active_access_jtis" TJson not_null (Some DEmptyArray) None;
   column "token_version" TInt not_null (Some (DInt 0)) None;
   column "migration_expiry" TTime nullable None None;
   column "migration_token" TText nullable None None;
   column "migration_token_expires" TTime nullable None None;
   column "new_email_pending" TText nullable None None;
   column "last_migration_date" TTime nullable None None;
   column "current_email_verified" TBool nullable None None;
   column "new_email_verified" TBool nullable None None;
   column "current_email_token" TText nullable None None;
   column "new_email_token" TText nullable None None;
   column "last_migration_email_sent" TTime nullable None None;
   column "migration_history" TJson not_null (Some DEmptyArray) None;
   column "created_at" TTime not_null (Some DNow) None;
   column "updated_at" TTime not_null (Some DNow) None].

Definition ddl_users_constraints : list table_constraint :=
  [Unique "users_email_key" ["email"];
   Unique "users_provider_provider_id_key" ["provider"; "provider_id"];
   CheckIn "users_provider_check" "provider" ["local"; "google"; "github"];
   CheckArray "users_refresh_tokens_check" "refresh_tokens";
   CheckArray "users_active_access_jtis_check" "active_access_jtis";
   CheckArray "users_migration_history_check" "migration_history"].

(** Name and columns of each index. *)
Definition ddl_users_indexes : list (string * list string) :=
  [("idx_users_email", ["email"]); ("idx_users_previous_email", ["previous_email"]);
   ("idx_users_provider_provider_id", ["provider"; "provider_id"]); ("idx_users_created_at", ["created_at"])].

Definition ddl_identity : list Column :=
  [
   column "key" TText pk None None;
   column "kind" TText not_null None None;
   column "user_id" TText not_null None (Some ("users", "id", true));
   column "provider" TText nullable None None;
   column "verified" TBool nullable None None;
   column "expires_at" TTime nullable None None;
   column "created_at" TTime not_null (Some DNow) None;
   column "updated_at" TTime not_null (Some DNow) None].

Definition ddl_identity_indexes : list (string * list string) :=
  [("idx_uii_user_id_kind", ["user_id"; "kind"]); ("idx_uii_expires_at", ["expires_at"])].

(** ** schema.ts: the field of the row object and its column *)

Definition orm_users : list (string * Column) :=
  [
   ("id", column "id" TText pk None None);
   ("email", column "email" TText not_null None None);
   ("previousEmail", column "previous_email" TText nullable None None);
   ("password", column "password" TText nullable None None);
   ("displayName", column "display_name" TText not_null None None);
   ("avatar", column "avatar" TText nullable None None);
   ("bio", column "bio" TText nullable None None);
   ("isEmailVerified", column "is_email_verified" TBool not_null (Some (DBool false)) None);
   ("loginCount", column "login_count" TInt not_null (Some (DInt 0)) None);
   ("lastLogin", column "last_login" TTime nullable None None);
   ("emailVerificationToken", column "email_verification_token" TText nullable None None);
   ("emailVerificationExpires", column "email_verification_expires" TTime nullable None None);
   ("passwordResetToken", column "password_reset_token" TText nullable None None);
   ("passwordResetExpires", column "password_reset_expires" TTime nullable None None);
   ("provider", column "provider" TText not_null (Some (DText "local")) None);
   ("providerId", column "provider_id" TText nullable None None);
   ("refreshTokens", column "refresh_tokens" TJson not_null (Some DEmptyArray) None);
   ("activeAccessJtis", column "active_access_jtis" TJson not_null (Some DEmptyArray) None);
   ("tokenVersion", column "token_version" TInt not_null (Some (DInt 0)) None);
   ("migrationExpiry", column "migration_expiry" TTime nullable None None);
   ("migrationToken", column "migration_token" TText nullable None None);
   ("migrationTokenExpires", column "migration_token_expires" TTime nullable None None);
   ("newEmailPending", column "new_email_pending" TText nullable None None);
   ("lastMigrationDate", column "last_migration_date" TTime nullable None None);
   ("currentEmailVerified", column "current_email_verified" TBool nullable None None);
   ("newEmailVerified", column "new_email_verified" TBool nullable None None);
   ("currentEmailToken", column "current_email_token" TText nullable None None);
   ("newEmailToken", column "new_email_token" TText nullable None None);
   ("lastMigrationEmailSent", column "last_migration_email_sent" TTime nullable None None);
   ("migrationHistory", column "migration_history" TJson not_null (Some DEmptyArray) None);
   ("createdAt", column "created_at" TTime not_null (Some DNow) None);
   ("updatedAt", column "updated_at" TTime not_null (Some DNow) None)].

Definition orm_users_constraints : list table_constraint :=
  [Unique "users_email_key" ["email"];
   Unique "users_provider_provider_id_key" ["provider"; "provider_id"]].

Definition orm_identity : list (string * Column) :=
  [
   ("key", column "key" TText pk None None);
   ("kind", column "kind" TText not_null None None);
   ("userId", column "user_id" TText not_null None (Some ("users", "id", true)));
   ("provider", column "provider" TText nullable None None);
   ("verified", column "verified" TBool nullable None None);
   ("expiresAt", column "expires_at" TTime nullable None None);
   ("createdAt", column "created_at" TTime not_null (Some DNow) None);
   ("updatedAt", column "updated_at" TTime not_null (Some DNow) None)].

Definition orm_identity_indexes : list (string * list string) :=
  [("idx_uii_user_id_kind", ["user_id"; "kind"]); ("idx_uii_expires_at", ["expires_at"])].

(** ** What the definitions accept *)

(** A value of the type, or NULL where the column allows it. *)
Definition type_accepts (ty : coltype) (v : val) : bool :=
  match ty, v with
  | TText, VStr _ => true
  | TBool, VBool _ => true
  | TInt, VNum n => (- 2 ^ 31 <=? n) && (n <? 2 ^ 31)
  | TTime, VDate _ => true
  | TJson, (VArr _ | VObj _ | VStr _ | VNum _ | VBool _) => json_val v
  | _, _ => false
  end.

Definition column_accepts (c : Column) (v : val) : bool :=
  match v with
  | VNull => bool_decide (c_null c = nullable)
  | _ => type_accepts (c_type c) v
  end.

(** A CHECK that evaluates to NULL is satisfied. *)
Definition check_accepts (k : table_constraint) (r : object) : bool :=
  match k with
  | Unique _ _ => true
  | CheckIn _ col values =>
      match obj_get r col with VNull => true | VStr s => has values s | _ => false end
  | CheckArray _ col =>
      match obj_get r col with VNull => true | VArr _ => true | _ => false end
  end.

Definition row_accepted (cols : list Column) (ks : list table_constraint) (r : object) : bool :=
  bool_decide (NoDup (obj_keys r))
  && forallb (λ c, column_accepts c (obj_get r (c_name c))) cols
  && forallb (λ k, check_accepts k r) ks.

(** Two rows that a UNIQUE constraint does not let stand together: NULLs are
    distinct. *)
Definition conflict (k : table_constraint) (r r' : object) : bool :=
  match k with
  | Unique _ cols => forallb (λ c, same (obj_get r c) (obj_get r' c)) cols
  | _ => false
  end.

Definition eval_default (now : Z) (d : option default_expr) : val :=
  match d with
  | None => VNull
  | Some (DBool b) => VBool b
  | Some (DInt n) => VNum n
  | Some (DText s) => VStr s
  | Some DEmptyArray => VArr []
  | Some DNow => VDate now
  end.

(** A value for a column that refers to the users. *)
Definition reference_accepts (known : string → bool) (c : Column) (v : val) : bool :=
  match c_references c with
  | None => true
  | Some _ => match v with VStr u => known u | VNull => true | _ => false end
  end.

Definition uniques (ks : list table_constraint) : list (list string) :=
  omap (λ k, match k with Unique _ cols => Some cols | _ => None end) ks.

(** ** Agreement *)

(** The checks that concern one column. *)
Definition column_check (ks : list table_constraint) (c : string) (v : val) : bool :=
  forallb (λ k, match k with
                | Unique _ _ => true
                | CheckIn _ col values =>
                    negb (String.eqb col c) || match v with VNull => true | VStr s => has values s | _ => false end
                | CheckArray _ col =>
                    negb (String.eqb col c) || match v with VNull => true | VArr _ => true | _ => false end
                end) ks.

Lemma forallb_andb {A} (f g : A → bool) l :
  forallb (λ x, f x && g x) l = forallb f l && forallb g l.
Proof.
  induction l as [|x l IH]; [done|]. cbn. rewrite IH. by destruct (f x), (g x), (forallb f l), (forallb g l).
Qed.

Lemma forallb_ext_elem {A} (f g : A → bool) l : (∀ x, x ∈ l → f x = g x) → forallb f l = forallb g l.
Proof.
  induction l as [|x l IH]; intros H; [done|]. cbn. rewrite (H x), IH; [done| |left].
  intros y Hy. apply H. by right.
Qed.

(** [cell_ok] is the column's type, nullability and checks. *)
Lemma cell_ok_ddl c v :
  c ∈ ddl_users → cell_ok (c_name c) v = column_accepts c v && column_check ddl_users_constraints (c_name c) v.
Proof.
  intros Hc. unfold ddl_users in Hc. repeat (apply elem_of_cons in Hc as [->|Hc]); [..|by apply elem_of_nil in Hc];
    cbn; destruct v; cbn; rewrite ?andb_true_r, ?andb_false_r; try done;
    unfold cell_ok; cbn; rewrite ?andb_true_r; done.
Qed.

Lemma column_checks r :
  forallb (λ c, column_check ddl_users_constraints (c_name c) (obj_get r (c_name c))) ddl_users
  = forallb (λ k, check_accepts k r) ddl_users_constraints.
Proof. cbn. rewrite !andb_true_r. done. Qed.

(** The three lists of columns are one.  The descriptions of [schema.ts]
    and the statements of migration 001 define the same columns with the same
    types, nullability, defaults and references, the same uniqueness
    constraints and the same indexes on the identity entries; their fields and
    columns are the dictionary of [columns.ts], whose JSON fields are the
    columns of type JSONB, each of which has its check. *)
Theorem schema_lockstep :
  orm_users.*2 = ddl_users ∧ orm_identity.*2 = ddl_identity ∧
  uniques orm_users_constraints = uniques ddl_users_constraints ∧
  orm_identity_indexes = ddl_identity_indexes ∧
  map (λ p, (p.1, c_name p.2)) orm_users = FIELD_TO_COLUMN ∧
  map fst (filter (λ p, c_type p.2 = TJson) orm_users) = JSONB_FIELDS ∧
  map c_name (filter (λ c, c_type c = TJson) ddl_users) =
    omap (λ k, match k with CheckArray _ col => Some col | _ => None end) ddl_users_constraints.
Proof. vm_compute. done. Qed.

(** The users table of the theorems is the one the migration creates:
    [row_typed] accepts exactly the rows that satisfy every column definition
    and every CHECK of the statement, an INSERT starts from its DEFAULTs, the
    two uniqueness tests are its UNIQUE constraints, and what the identity
    entries accept on assignment is what their columns and the reference to
    the users accept. *)
Theorem users_table_is_ddl :
  (∀ r, row_typed r = row_accepted ddl_users ddl_users_constraints r) ∧
  (∀ now, default_row now = map (λ c, (c_name c, eval_default now (c_default c))) ddl_users) ∧
  (∀ r r', existsb (λ k, conflict k r r') ddl_users_constraints = same_email r r' || same_oauth r r') ∧
  (∀ known v,
     Forall (λ c, assignable known (c_name c, v) = column_accepts c v && reference_accepts known c v)
       (filter (λ c, c_name c ∈ entry_columns) ddl_identity)).
Proof.
  split_and!.
  - intros r. unfold row_typed, row_accepted. rewrite <- andb_assoc, <- column_checks, <- forallb_andb. f_equal.
    transitivity (forallb (λ c, cell_ok (c_name c) (obj_get r (c_name c))) ddl_users); [done|].
    apply forallb_ext_elem. intros c Hc. by apply cell_ok_ddl.
  - reflexivity.
  - intros r r'. unfold same_email, same_oauth. cbn. by rewrite !andb_true_r, ?orb_false_r.
  - intros known v. set (l := filter _ _). vm_compute in l. subst l.
    repeat apply Forall_cons_2; [..|apply Forall_nil_2]; destruct v; cbn; rewrite ?andb_true_r; done.
Qed.
