(* ===== verification/Maintenance.v ===== *)
(** * Scripts that delete

    Models [cleanup-users], [drop-users-collection] and [check-user-bio] of
    [uam-backend/src/scripts].  The first and the last are programs over the
    application of [Scripts]; dropping tables works on the database of
    [SchemaRunner], where the rest of the content is a parameter.  What is
    printed is not modelled. *)

From Stdlib Require Import Qround Lqa.
From S2P Require Import Prelude CircuitConfig RollingWindow CircuitBreaker GuardedCalls Async RedisCache Json JsVal Columns SqlFilter SqlMeaning Password UserModel OneTimeCodes Sessions IdentityIndex OAuthLogin Tokens SessionHandlers UsersTable Documents Application AuthController MigrationController SchemaRunner Scripts.
#[local] Open Scope string_scope.
#[local] Open Scope list_scope.
#[local] Open Scope Z_scope.
#[local] Open Scope async_scope.

(** ** cleanup-users *)

Definition randomPassages : list string :=
  ["The journey of a thousand miles begins with a single step. Every great achievement starts with the decision to try.";
   "In the depths of winter, I finally learned that there was in me an invincible summer. The human spirit is resilient beyond measure.";
   "The only way to do great work is to love what you do. Passion drives excellence and transforms ordinary into extraordinary.";
   "Success is not final, failure is not fatal: it is the courage to continue that counts. Perseverance is the key to victory.";
   "The future belongs to those who believe in the beauty of their dreams. Vision and determination create tomorrow's reality.";
   "It is during our darkest moments that we must focus to see the light. Adversity reveals our true strength and character.";
   "The only impossible journey is the one you never begin. Taking action is the first step toward any meaningful change.";
   "Life is what happens to you while you're busy making other plans. Embrace the present moment and live fully.";
   "The way to get started is to quit talking and begin doing. Action speaks louder than words in achieving goals.";
   "Innovation distinguishes between a leader and a follower. Creativity and forward thinking drive progress.";
   "Your limitation—it's only your imagination. Break free from self-imposed boundaries and reach for the stars.";
   "Great things never come from comfort zones. Growth requires stepping into the unknown with courage and determination.";
   "Dream it. Wish it. Do it. Dreams become reality through persistent effort and unwavering commitment.";
   "The harder you work for something, the greater you'll feel when you achieve it. Effort multiplies satisfaction.";
   "Don't wait for opportunity. Create it. Proactive individuals shape their own destiny through initiative and action."].

(** [randomPassages[Math.floor(Math.random() * randomPassages.length)]] *)
Definition random_passage (u : Q) : option string :=
  let i := Qfloor (u * inject_Z (Z.of_nat (length randomPassages))) in
  if i <? 0 then None else randomPassages !! Z.to_nat i.

(** [Math.floor(Math.random() * n)] is an index below [n]. *)
Lemma random_index u n : (0 <= u < 1)%Q → 0 < n → 0 ≤ Qfloor (u * inject_Z n) < n.
Proof.
  intros [H0 H1] Hn. rewrite Zlt_Qlt in Hn. split.
  - apply (Qfloor_resp_le 0). apply Qmult_le_0_compat; [done|]. by apply Qlt_le_weak.
  - rewrite Zlt_Qlt. eapply Qle_lt_trans; [apply Qfloor_le|].
    rewrite <- (Qmult_1_l (inject_Z n)) at 2. by apply Qmult_lt_r.
Qed.

(** So the script never assigns [undefined]. *)
Lemma random_passage_given u : (0 <= u < 1)%Q → is_Some (random_passage u).
Proof.
  intros Hu. unfold random_passage. destruct (random_index u 15 Hu) as [H0 H1]; [lia|].
  change (Z.of_nat (length randomPassages)) with 15.
  rewrite (proj2 (Z.ltb_ge _ 0)) by done. apply lookup_lt_is_Some. cbn [length randomPassages]. lia.
Qed.

Section Delete.
Context (Date_toString Date_toISOString : Z → string) (hashPassword : string → string).
Context `{RKV : RedisKV} `{UDB : UsersDb} `{IDB : IndexDb} `{FK : !ForeignKey UDB IDB}.
(** The values of [Math.random()], for the target and for the accounts left *)
Context (draw : nat → Q).

Definition everyone (_ : Z) : val := VObj [].
Definition target_filter : val := VObj [("email", VObj [("$regex", VRegExp "mmk605" "i")])].
Definition others_filter (id : val) : val := VObj [("_id", VObj [("$ne", id)])].

(** [await User.deleteMany(filter)]; the identity entries follow the rows. *)
Definition delete_all (filter : val) : prog AppEnv App (failure + Z) := on_rows (λ _, UserModel.deleteMany Date_toString Date_toISOString filter).

Definition with_passage (n : nat) (user : User) : User :=
  user_set user "bio" (match random_passage (draw n) with Some p => VStr p | None => VUndef end).

(** [if (!user.bio) { user.bio = ...; await user.save(); }] *)
Definition give_bio (n : nat) (user : User) : prog AppEnv App (failure + User) :=
  if truthy (user_get user "bio") then Ret (inr user)
  else save_account Date_toISOString hashPassword (with_passage n user).

Fixpoint give_bios (n : nat) (users : list User) : prog AppEnv App (failure + unit) :=
  match users with
  | [] => Ret (inr tt)
  | u :: users => let* _ := give_bio n u in give_bios (S n) users
  end.

(** The exit code; without a target nothing is deleted. *)
Definition cleanupUsers : prog AppEnv App Z :=
  catch
    (let* allUsers := find_all Date_toString Date_toISOString everyone in
     let* targetUser := find_one Date_toString Date_toISOString target_filter in
     match targetUser with
     | None => Ret (inr 1)
     | Some targetUser =>
         let* targetUser := give_bio 0 targetUser in
         let* _ := delete_all (others_filter (user_get targetUser "_id")) in
         let* remainingUsers := find_all Date_toString Date_toISOString everyone in
         let* _ := give_bios 1 remainingUsers in
         Ret (inr 0)
     end)
    (λ _, Ret 1).

(** ** check-user-bio: reads every account and prints it. *)
Definition checkUserBio : prog AppEnv App Z :=
  catch (let* users := find_all Date_toString Date_toISOString everyone in Ret (inr 0)) (λ _, Ret 1).

(** The one statement of the script that deletes, for a target of id [i]. *)
Lemma others_where i :
  SqlFilter.buildWhere Date_toString Date_toISOString (others_filter (VStr i)) [] = Returned ("((id IS DISTINCT FROM $1))", [VStr i]).
Proof. reflexivity. Qed.

(** Without a matching account the script stops before it deletes: it exits
    with code 1 in the state its two queries left. *)
Theorem cleanup_needs_target es s x1 s1 x2 s2 :
  run (find_all Date_toString Date_toISOString everyone) es s = (inr x1, s1) →
  run (find_one Date_toString Date_toISOString target_filter) (env_tail es) s1 = (x2, s2) →
  x2 = inr None →
  run cleanupUsers es s = (1, s2).
Proof.
  unfold cleanupUsers, catch, find_all, find_one, stretch. cbn [bind act run]. intros H1 H2 Hx. subst x2.
  destruct (execute _ _ _ _) as [r d]. cbn [bind run] in *. injection H1 as -> <-. cbn [bind run].
  destruct (UserModel.findOne _ _ _ _ _) as [r2 d2]. injection H2 as -> <-. reflexivity.
Qed.
End Delete.

(** ** drop-users-collection *)

Section Drop.
Context {Content : Type}.
Context (exec : string → Content → string + Content).
(** The names of the tables of the schema [public], and [DROP TABLE ... CASCADE] *)
Context (tables : Content → list string) (drop : string → Content → string + Content).

Definition doomed : list string := ["users"; "user_identity_indexes"].

Definition list_tables : prog (option Fault) (Db (Content := Content)) (outcome (list string)) :=
  act (λ e d, (match e with Some f => Thrown (query_error f) | None => Returned (tables (content d)) end, d)).

Definition drop_table (t : string) : prog (option Fault) (Db (Content := Content)) (outcome unit) :=
  act (λ e d, match e with
              | Some f => (Thrown (query_error f), d)
              | None => match drop t (content d) with
                        | inl m => (Thrown m, d)
                        | inr c => (Returned tt, mkDb (applied d) c)
                        end
              end).

(** [for (const table of tables)]: only the tables of the listing are dropped. *)
Fixpoint drop_each (rows ts : list string) : prog (option Fault) (Db (Content := Content)) (outcome unit) :=
  match ts with
  | [] => Ret (Returned tt)
  | t :: ts =>
      if existsb (String.eqb t) rows then
        let! r := drop_table t in
        match r with Thrown m => Ret (Thrown m) | Returned _ => drop_each rows ts end
      else drop_each rows ts
  end.

(** The exit code. *)
Definition dropUsersCollection (ms : list Migration) : prog (option Fault) (Db (Content := Content)) Z :=
  let! up := connectDatabase exec ms in
  match up with
  | None => Ret 1
  | Some _ =>
      let! rows := list_tables in
      match rows with
      | Thrown _ => Ret 1
      | Returned rows =>
          let! r := drop_each rows doomed in
          Ret (match r with Thrown _ => 1 | Returned _ => 0 end)
      end
  end.

(** What PostgreSQL documents: a table of the listing can be dropped, and
    only it leaves the listing. *)
Hypothesis drop_law : ∀ t c, t ∈ tables c →
  ∃ c', drop t c = inr c' ∧ ∀ t', t' ∈ tables c' ↔ t' ∈ tables c ∧ t' ≠ t.

Lemma run_bind_served {A B} (p : prog (option Fault) (Db (Content := Content)) A) (q : A → prog _ _ B) d :
  run (bind p q) served d = (let '(a, d) := run p served d in run (q a) served d).
Proof.
  revert d. induction p as [a|X f k IH]; intros d; cbn; [done|].
  destruct (f _ d) as [x d']. change (env_tail served) with served. apply IH.
Qed.

Lemma drop_each_served rows ts d :
  NoDup ts → (∀ t, t ∈ ts → t ∈ rows ↔ t ∈ tables (content d)) →
  ∃ c, run (drop_each rows ts) served d = (Returned tt, mkDb (applied d) c) ∧
       ∀ t, t ∈ tables c ↔ t ∈ tables (content d) ∧ t ∉ ts.
Proof.
  revert d. induction ts as [|t ts IH]; intros d Hn Hr.
  { exists (content d). destruct d. split; [done|]. intros t. split; [|by intros []]. split; [done|apply not_elem_of_nil]. }
  apply NoDup_cons in Hn as [Ht Hn]. cbn [drop_each].
  destruct (existsb (String.eqb t) rows) eqn:E.
  - apply existsb_exists in E as (t' & Hin & ->%String.eqb_eq). apply list_elem_of_In in Hin.
    destruct (drop_law t' (content d)) as (c1 & Hd & Hc1); [apply Hr; [left|done]|].
    destruct (IH (mkDb (applied d) c1)) as (c2 & H2 & Hc2); [done| |].
    { intros t Hti. cbn [content]. rewrite Hc1, Hr by (by right). split; [|by intros []].
      split; [done|]. by intros ->. }
    exists c2. rewrite run_bind_served. unfold drop_table at 1. cbn [run act served]. rewrite Hd. cbn [run].
    split; [exact H2|]. intros t. rewrite Hc2. cbn [content]. rewrite Hc1, not_elem_of_cons. tauto.
  - assert (Hnt : t ∉ rows).
    { intros Hin%list_elem_of_In. rewrite (proj2 (existsb_exists _ _)) in E; [done|]. exists t. by rewrite String.eqb_refl. }
    destruct (IH d) as (c2 & H2 & Hc2); [done|intros t' ?; apply Hr; by right|].
    exists c2. split; [exact H2|]. intros t'. rewrite Hc2, not_elem_of_cons.
    split; [|tauto]. intros [H3 H4]. split; [done|]. split; [|done]. intros ->. by apply Hnt, Hr; [left|].
Qed.

Lemma connect_migrated ms l c :
  NoDup (map name ms) → missing l ms = [] →
  run (connectDatabase exec ms) served (mkDb (Some l) c) = (Some 0, mkDb (Some l) c).
Proof.
  intros Hn Hm. unfold connectDatabase, runMigrations. rewrite run_bind_served. cbn [run ping act served].
  rewrite run_bind_served, run_bind_served. cbn [run create_table act served applied content default from_option id].
  rewrite (run_each_served exec ms 0 served l c c); [|done..|by rewrite Hm].
  rewrite Hm. cbn. by rewrite app_nil_r.
Qed.

(** Dropping the tables cannot be undone by a restart.  On a migrated
    database the script exits with code 0 and removes exactly the two tables;
    it leaves the record of the migrations, so every later start finds nothing
    to apply, creates no table and reports success: the server runs without
    the tables of the accounts. *)
Theorem dropped_tables_stay_dropped ms l c :
  NoDup (map name ms) → missing l ms = [] →
  ∃ c', run (dropUsersCollection ms) served (mkDb (Some l) c) = (0, mkDb (Some l) c') ∧
    (∀ t, t ∈ tables c' ↔ t ∈ tables c ∧ t ∉ doomed) ∧
    run (connectDatabase exec ms) served (mkDb (Some l) c') = (Some 0, mkDb (Some l) c').
Proof.
  intros Hn Hm.
  destruct (drop_each_served (tables c) doomed (mkDb (Some l) c)) as (c' & H1 & H2).
  { by apply (bool_decide_unpack _). }
  { done. }
  exists c'. split; [|split; [exact H2|by apply connect_migrated]].
  unfold dropUsersCollection. rewrite run_bind_served, connect_migrated by done.
  rewrite run_bind_served. cbn [run list_tables act served content].
  rewrite run_bind_served, H1. reflexivity.
Qed.
End Drop.

(** A database that is the list of its tables. *)
Module DropRun.
Definition drop (t : string) (l : list string) : string + list string :=
  inr (List.filter (λ x, negb (String.eqb t x)) l).

Lemma drop_ok t (l : list string) : t ∈ l → ∃ l', drop t l = inr l' ∧ ∀ t', t' ∈ l' ↔ t' ∈ l ∧ t' ≠ t.
Proof.
  intros _. eexists. split; [reflexivity|]. intros t'. rewrite !list_elem_of_In, filter_In.
  destruct (String.eqb_spec t t'); cbn; split; intros []; split; congruence || done.
Qed.

Definition script := dropUsersCollection StartTwice.exec id drop [StartTwice.init].
End DropRun.

Lemma dropped_tables_stay_dropped_witness :
  ∃ c', run DropRun.script served (mkDb (Some ["001_init"]) ["users"; "user_identity_indexes"; "schema_migrations"])
        = (0, mkDb (Some ["001_init"]) c') ∧
    (∀ t, t ∈ c' ↔ t ∈ ["users"; "user_identity_indexes"; "schema_migrations"] ∧ t ∉ doomed) ∧
    run (connectDatabase StartTwice.exec [StartTwice.init]) served (mkDb (Some ["001_init"]) c')
      = (Some 0, mkDb (Some ["001_init"]) c').
Proof.
  apply (dropped_tables_stay_dropped StartTwice.exec id DropRun.drop DropRun.drop_ok [StartTwice.init] ["001_init"]
    ["users"; "user_identity_indexes"; "schema_migrations"]).
  - apply NoDup_singleton.
  - reflexivity.
Defined.
