(* ===== verification/Screens.v ===== *)
(** * What a page shows and what its user can do

    The markup of a page is a list of [node]s, computed from the state of the
    page as its [return (...)] does.  Class names, styles, placeholders and
    icons are left out.  [can] reads off a view what its user can do: press an
    enabled button or a clickable element, type into an enabled field, submit
    a form whose submit button is enabled (HTML blocks the implicit submission
    of a form whose default button is disabled).

    The second part is the life of a form page: its user acts as the view
    allows, the handlers of earlier actions run on, piece by piece and in any
    order.  A handler runs without interruption to its first [await]. *)

From S2P Require Import Prelude CircuitConfig RollingWindow CircuitBreaker GuardedCalls Async RedisCache Json JsVal Columns SqlFilter SqlMeaning Password UserModel OneTimeCodes Sessions IdentityIndex Tokens SessionHandlers UsersTable Documents Application AuthController Validators Server RecentAccounts ApiClient AuthContext Pages.
#[local] Open Scope string_scope.
#[local] Open Scope list_scope.
#[local] Open Scope async_scope.

(** ** Markup *)

Inductive node (A : Type) : Type :=
  | Text (s : string)
  | El (tag : string) (kids : list (node A))
  | Image (src alt : string)
  | Field (kind name value : string) (disabled : bool) (change : string → A)
  | Button (disabled : bool) (click : A) (kids : list (node A))
  | SubmitButton (disabled : bool) (kids : list (node A))
  | Form (submit : A) (kids : list (node A))
  | Clickable (click : A) (kids : list (node A))
  | Link (to : string) (kids : list (node A)).
Arguments Text {A} _.
Arguments El {A} _ _.
Arguments Image {A} _ _.
Arguments Field {A} _ _ _ _ _.
Arguments Button {A} _ _ _.
Arguments SubmitButton {A} _ _.
Arguments Form {A} _ _.
Arguments Clickable {A} _ _.
Arguments Link {A} _ _.

(** [{cond && <X/>}], for a condition and for a text, which is falsy when empty *)
Definition when {A} (c : bool) (l : list (node A)) : list (node A) := if c then l else [].
Definition when_text {A} (s : string) (l : list (node A)) : list (node A) := when (negb (String.eqb s "")) l.

Inductive offer (A : Type) := Press (a : A) | Fill (change : string → A).
Arguments Press {A} _.
Arguments Fill {A} _.

(** An enabled submit button below a node *)
Fixpoint submits {A} (n : node A) : bool :=
  match n with
  | SubmitButton disabled _ => negb disabled
  | El _ kids | Button _ _ kids | Clickable _ kids | Link _ kids => existsb submits kids
  | _ => false
  end.

Fixpoint offers {A} (n : node A) : list (offer A) :=
  match n with
  | Text _ | Image _ _ => []
  | El _ kids | SubmitButton _ kids | Link _ kids => flat_map offers kids
  | Field _ _ _ disabled change => if disabled then [] else [Fill change]
  | Button disabled click kids => (if disabled then [] else [Press click]) ++ flat_map offers kids
  | Form submit kids => (if existsb submits kids then [Press submit] else []) ++ flat_map offers kids
  | Clickable click kids => Press click :: flat_map offers kids
  end.

Definition offered {A} (v : list (node A)) : list (offer A) := flat_map offers v.

Definition can {A} (v : list (node A)) (a : A) : Prop :=
  Exists (λ o, match o with Press b => a = b | Fill f => ∃ x, a = f x end) (offered v).

Lemma can_nil {A} (a : A) : can [] a ↔ False.
Proof. unfold can. cbn. by rewrite Exists_nil. Qed.

Lemma can_app {A} (l k : list (node A)) a : can (l ++ k) a ↔ can l a ∨ can k a.
Proof. unfold can, offered. by rewrite flat_map_app, Exists_app. Qed.

Lemma can_cons {A} (n : node A) k a : can (n :: k) a ↔ can [n] a ∨ can k a.
Proof. apply (can_app [n] k). Qed.

Lemma can_text {A} s (a : A) : can [Text s] a ↔ False.
Proof. apply can_nil. Qed.

Lemma can_image {A} src alt (a : A) : can [Image src alt] a ↔ False.
Proof. apply can_nil. Qed.

Lemma can_el {A} tag kids (a : A) : can [El tag kids] a ↔ can kids a.
Proof. unfold can, offered. cbn. by rewrite app_nil_r. Qed.

Lemma can_link {A} to kids (a : A) : can [Link to kids] a ↔ can kids a.
Proof. unfold can, offered. cbn. by rewrite app_nil_r. Qed.

Lemma can_submit_button {A} d kids (a : A) : can [SubmitButton d kids] a ↔ can kids a.
Proof. unfold can, offered. cbn. by rewrite app_nil_r. Qed.

Lemma can_field {A} kind name value d (f : string → A) a :
  can [Field kind name value d f] a ↔ d = false ∧ ∃ x, a = f x.
Proof. unfold can, offered. destruct d; cbn; rewrite ?Exists_cons, Exists_nil; naive_solver. Qed.

Lemma can_button {A} d (c : A) kids a : can [Button d c kids] a ↔ (d = false ∧ a = c) ∨ can kids a.
Proof.
  unfold can, offered. cbn. rewrite app_nil_r, Exists_app.
  destruct d; rewrite ?Exists_cons, Exists_nil; naive_solver.
Qed.

Lemma can_clickable {A} (c : A) kids a : can [Clickable c kids] a ↔ a = c ∨ can kids a.
Proof. unfold can, offered. cbn. by rewrite app_nil_r, Exists_cons. Qed.

Lemma can_form {A} (f : A) kids a : can [Form f kids] a ↔ (existsb submits kids = true ∧ a = f) ∨ can kids a.
Proof.
  unfold can, offered. cbn. rewrite app_nil_r, Exists_app.
  destruct (existsb submits kids); rewrite ?Exists_cons, Exists_nil; naive_solver.
Qed.

Lemma can_when {A} c (l : list (node A)) a : can (when c l) a ↔ c = true ∧ can l a.
Proof. destruct c; cbn; rewrite ?can_nil; naive_solver. Qed.

Lemma can_map {A B} (g : B → node A) l a : can (map g l) a ↔ ∃ b, In b l ∧ can [g b] a.
Proof.
  induction l as [|b l IH]; cbn; [rewrite can_nil; naive_solver|].
  rewrite can_cons, IH. naive_solver.
Qed.

(** Split a possibility into the elements of the view that offer it. *)
Ltac can_inv H :=
  lazymatch type of H with
  | can [] _ => apply can_nil in H; destruct H
  | can (_ ++ _) _ => apply can_app in H; destruct H as [H|H]; can_inv H
  | can (when _ _) _ => apply can_when in H; let E := fresh "Hwhen" in destruct H as [E H]; can_inv H
  | can (when_text _ _) _ => apply can_when in H; let E := fresh "Hwhen" in destruct H as [E H]; can_inv H
  | can (map _ _) _ => apply can_map in H; let b := fresh "b" in let Hb := fresh "Hb" in destruct H as (b & Hb & H); can_inv H
  | can [Text _] _ => apply can_text in H; destruct H
  | can [Image _ _] _ => apply can_image in H; destruct H
  | can [El _ _] _ => apply can_el in H; can_inv H
  | can [Link _ _] _ => apply can_link in H; can_inv H
  | can [SubmitButton _ _] _ => apply can_submit_button in H; can_inv H
  | can [Field _ _ _ _ _] _ => apply can_field in H
  | can [Button _ _ _] _ => apply can_button in H; destruct H as [H|H]; [|can_inv H]
  | can [Clickable _ _] _ => apply can_clickable in H; destruct H as [H|H]; [|can_inv H]
  | can [Form _ _] _ => apply can_form in H; destruct H as [H|H]; [|can_inv H]
  | can [if ?c then _ else _] _ => destruct c eqn:?; can_inv H
  | can (if ?c then _ else _) _ => destruct c eqn:?; can_inv H
  | can [match ?o with _ => _ end] _ => destruct o eqn:?; can_inv H
  | can (match ?o with _ => _ end) _ => destruct o eqn:?; can_inv H
  | can [?n] ?a => let n' := eval hnf in n in change (can [n'] a) in H; can_inv H
  | can (_ :: _) _ => apply can_cons in H; destruct H as [H|H]; can_inv H
  | can ?l ?a => let l' := eval hnf in l in change (can l' a) in H; can_inv H
  end.

(** An element that offers something else *)
Ltac can_done :=
  match goal with
  | H : _ ∧ (∃ _, _ = _) |- _ => destruct H as [? [? ?]]; discriminate
  | H : _ = false ∧ _ = _ |- _ => destruct H; discriminate
  | H : _ = _ |- _ => discriminate H
  end.

(** The texts of a view, in order *)
Fixpoint texts {A} (n : node A) : list string :=
  match n with
  | Text s => [s]
  | Image _ _ | Field _ _ _ _ _ => []
  | El _ kids | SubmitButton _ kids | Link _ kids | Button _ _ kids | Form _ kids | Clickable _ kids =>
      flat_map texts kids
  end.

(** The targets of its links *)
Fixpoint links {A} (n : node A) : list string :=
  match n with
  | Text _ | Image _ _ | Field _ _ _ _ _ => []
  | Link to kids => to :: flat_map links kids
  | El _ kids | SubmitButton _ kids | Button _ _ kids | Form _ kids | Clickable _ kids => flat_map links kids
  end.

(** ** The life of a form page *)

Section Life.
Context `{RKV : RedisKV} `{UDB : UsersDb} `{IDB : IndexDb} {UI Action : Type}.
Context (view : UI → list (node Action)).
(** The flag that disables the submit button *)
Context (busy : UI → bool).

(** How the handler of an action runs: it submits, it is synchronous, or it
    may wait *)
Inductive manner := Submits | Synchronous | Waits.
Context (how : Action → manner).
Context (perform : Action → prog NetEnv (Screen UI) unit).

(** The first part of a submission: as far as it marks the page as busy. *)
Fixpoint until_busy (fuel : nat) (es : envs) (p : prog NetEnv (Screen UI) unit) (s : Screen UI)
    : prog NetEnv (Screen UI) unit * Screen UI :=
  if busy (ui s) then (p, s)
  else match fuel, p with
       | S fuel, Act X f k => let '(x, s) := f (es O) s in until_busy fuel (env_tail es) (k x) s
       | _, _ => (p, s)
       end.

Definition first_part : nat := 6.

(** The running handlers; [true] marks submissions. *)
Abbreviation Tasks := (list (bool * prog NetEnv (Screen UI) unit)).

Inductive live : Screen UI * Tasks → Screen UI * Tasks → Prop :=
  | live_submit a es p s s' ts :
      can (view (ui s)) a → how a = Submits → until_busy first_part es (perform a) s = (p, s') →
      live (s, ts) (s', ts ++ [(true, p)])
  | live_sync a es s s' ts :
      can (view (ui s)) a → how a = Synchronous → run (perform a) es s = (tt, s') → live (s, ts) (s', ts)
  | live_start a s ts :
      can (view (ui s)) a → how a = Waits → live (s, ts) (s, ts ++ [(false, perform a)])
  | live_go i b X f k e x s s' ts :
      ts !! i = Some (b, Act X f k) → f e s = (x, s') → live (s, ts) (s', <[i := (b, k x)]> ts).

(** A program that never changes the flag *)
Fixpoint keeps {A} (p : prog NetEnv (Screen UI) A) : Prop :=
  match p with
  | Ret _ => True
  | Act X f k => (∀ e s, busy (ui (f e s).2) = busy (ui s)) ∧ ∀ x, keeps (k x)
  end.

(** A program that sends no request: what is outside the page stays as it is. *)
Fixpoint quiet {A} (p : prog NetEnv (Screen UI) A) : Prop :=
  match p with
  | Ret _ => True
  | Act X f k => (∀ e s, world (auth (f e s).2) = world (auth s)) ∧ ∀ x, quiet (k x)
  end.

(** A submission that has the flag: it keeps it until it clears it, once, and
    after that sends no request. *)
Fixpoint holds (p : prog NetEnv (Screen UI) unit) : Prop :=
  match p with
  | Ret _ => False
  | Act X f k =>
      (∀ e s, busy (ui (f e s).2) = busy (ui s)) ∧ (∀ x, holds (k x)) ∨
      (∀ e s, busy (ui (f e s).2) = false) ∧ (∀ x, keeps (k x) ∧ quiet (k x))
  end.

Lemma keeps_bind {A B} (p : prog NetEnv (Screen UI) A) (q : A → prog NetEnv (Screen UI) B) :
  keeps p → (∀ a, keeps (q a)) → keeps (bind p q).
Proof. induction p as [a|X f k IH]; cbn; [auto|]. intros [Hf Hk] Hq. split; auto. Qed.

Lemma holds_bind {A} (p : prog NetEnv (Screen UI) A) (q : A → prog NetEnv (Screen UI) unit) :
  keeps p → (∀ a, holds (q a)) → holds (bind p q).
Proof. induction p as [a|X f k IH]; cbn; [auto|]. intros [Hf Hk] Hq. left. split; auto. Qed.

Lemma holds_clear (f : UI → UI) (q : unit → prog NetEnv (Screen UI) unit) :
  (∀ s, busy (f s) = false) → (∀ a, keeps (q a) ∧ quiet (q a)) → holds (bind (set_state f) q).
Proof. intros Hf Hq. right. split; [by intros; cbn|exact Hq]. Qed.

Lemma holds_clear_last (f : UI → UI) : (∀ s, busy (f s) = false) → holds (set_state f).
Proof. intros Hf. right. split; [by intros; cbn|done]. Qed.

Lemma keeps_useAuth {A} (p : prog NetEnv Page A) : keeps (useAuth p).
Proof.
  unfold useAuth. induction p as [a|X f k IH]; cbn; [done|]. split; [|done].
  intros e s. by destruct (f e (auth s)).
Qed.

Lemma keeps_call {A} (p : prog NetEnv World A) : keeps (call p).
Proof. apply keeps_useAuth. Qed.

Lemma keeps_set_state f : (∀ s, busy (f s) = busy s) → keeps (set_state f).
Proof. intros Hf. split; [by intros; cbn|done]. Qed.

Lemma keeps_state : keeps state.
Proof. by split. Qed.

Lemma keeps_navigate path : keeps (navigate path).
Proof. by split. Qed.

Lemma keeps_setTimeout t ms : keeps (setTimeout t ms).
Proof. by split. Qed.

Lemma keeps_run {A} (p : prog NetEnv (Screen UI) A) es s : keeps p → busy (ui (run p es s).2) = busy (ui s).
Proof.
  revert es s. induction p as [a|X f k IH]; intros es s; cbn; [done|]. intros [Hf Hk].
  specialize (Hf (es O) s). destruct (f (es O) s) as [x s']. rewrite IH by done. exact Hf.
Qed.

(** What a page promises. *)
Record FormPage : Prop := {
  submit_guarded : ∀ u a, can (view u) a → how a = Submits → busy u = false;
  submit_starts : ∀ a es s, how a = Submits → busy (ui s) = false →
    let '(p, s') := until_busy first_part es (perform a) s in
    world (auth s') = world (auth s) ∧ (p = Ret tt ∧ busy (ui s') = false ∨ busy (ui s') = true ∧ holds p);
  sync_neutral : ∀ a es s, can (view (ui s)) a → how a = Synchronous →
    busy (ui (run (perform a) es s).2) = busy (ui s);
  wait_neutral : ∀ a, how a = Waits → keeps (perform a);
}.

(** A handler that leaves the flag alone and, if it is a submission, sends no
    request any more *)
Definition spent (t : bool * prog NetEnv (Screen UI) unit) : Prop := keeps t.2 ∧ (t.1 = true → quiet t.2).

(** Task [i] holds the flag and all others are spent. *)
Definition holder (ts : Tasks) (i : nat) : Prop :=
  (∃ p, ts !! i = Some (true, p) ∧ holds p) ∧ ∀ j t, j ≠ i → ts !! j = Some t → spent t.

Definition well_used (c : Screen UI * Tasks) : Prop :=
  (busy (ui c.1) = false ∧ ∀ j t, c.2 !! j = Some t → spent t) ∨
  (busy (ui c.1) = true ∧ ∃ i, holder c.2 i).

Lemma snoc_lookup (ts : Tasks) t j t' :
  (ts ++ [t]) !! j = Some t' → ts !! j = Some t' ∨ j = length ts ∧ t = t'.
Proof. intros [[_ H]|[H1 H2]]%lookup_snoc_Some; [by left|by right]. Qed.

Lemma well_used_snoc s ts t : spent t → well_used (s, ts) → well_used (s, ts ++ [t]).
Proof.
  intros Hp [[Hb Hk]|[Hb (i & (p' & Hi & Hp') & Ho)]]; [left|right]; (split; [done|]).
  - intros j t' [?|[_ <-]]%snoc_lookup; eauto.
  - exists i. split.
    + exists p'. split; [|done]. cbn. by apply lookup_app_l_Some.
    + intros j t' Hj [?|[_ <-]]%snoc_lookup; eauto.
Qed.

(** One more piece of a spent handler *)
Lemma spent_go b X f (k : X → prog NetEnv (Screen UI) unit) :
  spent (b, Act X f k) → (∀ e s, busy (ui (f e s).2) = busy (ui s)) ∧ ∀ x, spent (b, k x).
Proof. intros [[Hf Hk] Hq]. split; [done|]. intros x. split; [apply Hk|]. intros Hb. by apply (Hq Hb). Qed.

Lemma well_used_go s ts i b X f (k : X → _) e :
  ts !! i = Some (b, Act X f k) → well_used (s, ts) →
  well_used ((f e s).2, <[i := (b, k (f e s).1)]> ts).
Proof.
  intros Hi [[Hb Hk]|[Hb (h & (p & Hh & Hp) & Ho)]]; cbn in *.
  - destruct (spent_go _ _ _ _ (Hk _ _ Hi)) as [Hf Hx]. left. cbn. rewrite Hf. split; [done|].
    intros j t [[_ [<- _]]|[_ ?]]%list_lookup_insert_Some; [apply Hx|eauto].
  - destruct (decide (i = h)) as [->|Hne].
    + rewrite Hi in Hh. injection Hh as -> <-. destruct Hp as [[Hf Hx]|[Hf Hx]]; [right|left]; cbn; rewrite Hf; (split; [done|]).
      * exists h. split; [eexists; split; [apply list_lookup_insert_eq; by eapply lookup_lt_Some|done]|].
        intros j t Hj Hq. rewrite list_lookup_insert_ne in Hq by done. eauto.
      * intros j t [[_ [<- _]]|[Hj ?]]%list_lookup_insert_Some; [|eauto]. destruct (Hx (f e s).1). by split.
    + destruct (spent_go _ _ _ _ (Ho _ _ Hne Hi)) as [Hf Hx]. right. cbn. rewrite Hf. split; [done|]. exists h. split.
      * exists p. split; [|done]. by rewrite list_lookup_insert_ne.
      * intros j t Hj [[_ [<- _]]|[_ ?]]%list_lookup_insert_Some; [apply Hx|eauto].
Qed.

Lemma live_well_used c c' : FormPage → live c c' → well_used c → well_used c'.
Proof.
  intros [Hg Hst Hsy Hw] Hl. destruct Hl as [a es p s s' ts Hc Ha Hp|a es s s' ts Hc Ha Hr|a s ts Hc Ha|i b X f k e x s s' ts Hi Hf].
  - intros Hu. pose proof (Hg _ _ Hc Ha) as Hb. specialize (Hst a es s Ha Hb). rewrite Hp in Hst.
    destruct Hu as [[_ Hk]|[Hb' _]]; [|cbn in Hb'; congruence]. destruct Hst as [_ [[-> Hb']|[Hb' Hp']]].
    + apply (well_used_snoc s' ts (true, Ret tt)); [done|]. left. done.
    + right. split; [done|]. exists (length ts). split.
      * exists p. split; [|done]. cbn. by rewrite lookup_app_r, Nat.sub_diag by lia.
      * intros j t Hj [?|[-> _]]%snoc_lookup; [|done]. cbn in Hk. eauto.
  - intros Hu. pose proof (Hsy a es s Hc Ha) as Hb. rewrite Hr in Hb. cbn in Hb.
    unfold well_used in *. cbn in *. by rewrite Hb.
  - intros Hu. apply well_used_snoc; [|done]. split; [by apply Hw|done].
  - intros Hu. pose proof (well_used_go _ _ _ _ _ _ _ e Hi Hu) as H. by rewrite Hf in H.
Qed.

(** A form page makes one submission at a time: of two submissions at most one
    can still send a request, and while one can, the page offers none. *)
Lemma one_at_a_time s0 s ts :
  FormPage → busy (ui s0) = false → rtc live (s0, []) (s, ts) →
  (∀ i j p q, i ≠ j → ts !! i = Some (true, p) → ts !! j = Some (true, q) → quiet p ∨ quiet q) ∧
  (∀ i p a, ts !! i = Some (true, p) → how a = Submits → can (view (ui s)) a → quiet p) ∧
  (busy (ui s) = true → ∃ i p, ts !! i = Some (true, p) ∧ holds p).
Proof.
  intros HF H0 Hr. assert (Hu : well_used (s, ts)).
  { assert (∀ c c', rtc live c c' → well_used c → well_used c') as Hi.
    { induction 1; eauto using live_well_used. }
    eapply Hi; [exact Hr|]. left. split; [exact H0|]. by intros [|j] t Hq. }
  destruct Hu as [[Hb Hk]|[Hb (h & (p & Hh & Hp) & Ho)]]; cbn in *.
  - split_and!; [|intros i p a Hi _ _|congruence].
    + intros i j p q _ Hi _. left. by apply (Hk _ _ Hi).
    + by apply (Hk _ _ Hi).
  - split_and!; [|intros i q a _ Ha Hc; pose proof (submit_guarded HF _ _ Hc Ha); congruence|eauto].
    intros i j p' q Hne Hi Hj. destruct (decide (i = h)) as [->|Hn]; [right|left].
    + by apply (Ho _ _ (not_eq_sym Hne) Hj).
    + by apply (Ho _ _ Hn Hi).
Qed.
End Life.
Create HintDb pages.
#[export] Hint Resolve keeps_bind holds_bind keeps_useAuth keeps_call keeps_state keeps_navigate keeps_setTimeout : pages.
