(* ===== verification/Views.v ===== *)
(** * The views of the front end

    The [return (...)] of every page under [uam-frontend/src/pages] and of the
    components they are made of ([AuthLayout.tsx], [AuthVisualSide.tsx],
    [FormElements.tsx], [OAuthButtons.tsx], [ProfileDropdown.tsx]), as the
    markup of [Screens] computed from the state of [Pages] and
    [MigrationPage].  Each page has its actions, what they perform, and the
    proof that it is a form page: one submission at a time. *)

From S2P Require Import Prelude CircuitConfig RollingWindow CircuitBreaker GuardedCalls Async RedisCache Json JsVal Columns SqlFilter SqlMeaning Password UserModel OneTimeCodes Sessions IdentityIndex Tokens SessionHandlers UsersTable Documents Application AuthController Validators Server RecentAccounts ApiClient AuthContext Pages Screens.
#[local] Open Scope string_scope.
#[local] Open Scope list_scope.
#[local] Open Scope Z_scope.
#[local] Open Scope async_scope.

(** ** Components *)

Section Parts.
Context {A : Type}.
Abbreviation nodes := (list (node A)).

Definition Spinner : node A := El "spinner" [].
Definition Alert (type : string) (children : nodes) : node A := El ("alert-" +:+ type) children.
Definition InfoAlert (title : string) (children : nodes) : node A :=
  El "alert-info" [El "div" [El "span" [Text "ℹ️"]; El "span" [Text title]]; El "div" children].

Definition AuthLayout (visualSide : option (node A)) (children : nodes) : nodes :=
  [El "auth-layout" [El "auth-layout-container"
     (match visualSide with Some v => [El "auth-visual-side" [v]] | None => [] end ++ [El "auth-container" children])]].
Definition AuthCard (children : nodes) : node A := El "auth-card" children.
Definition AuthHeader (title subtitle : string) : node A :=
  El "auth-header" ([El "auth-logo" [Image "/logo.png" "Routiq logo"]; El "h1" [Text title]]
                    ++ when_text subtitle [El "p" [Text subtitle]]).
Definition AuthFooter (children : nodes) : node A := El "auth-footer" children.
Definition AuthVisualSide (title description : string) (features : list string) : node A :=
  El "auth-visual-content"
    ([El "auth-visual-logo" [Image "/logo.png" "Routiq logo"]; El "h2" [Text title]; El "p" [Text description]]
     ++ when (0 <? Z.of_nat (length features))
          [El "ul" (map (λ f, El "li" [El "span" [Text "✓"]; El "span" [Text f]]) features)]).
Definition Divider : node A := El "divider" [Text "or continue with"].

(** [PasswordStrength]: the four bars, lit and how *)
Definition PasswordStrength (password : string) : nodes :=
  if String.eqb password "" then []
  else
    let strength := Components.getStrength password in
    [El "password-strength"
       (map (λ lit : bool, El ("bar" +:+ (if lit then " active" else "")
              +:+ (if 3 <=? strength then " strong" else if 2 <=? strength then " medium" else "")) [])
          (Components.active_bars password))].

(** A labelled input with its error: the [form-group] of the forms *)
Definition form_group (label kind name value error : string) (disabled : bool) (change : string → A) (below : nodes) : node A :=
  El "form-group"
    ([El "label" [Text label]; Field kind name value disabled change] ++ below
     ++ when_text error [El "form-error" [Text error]]).

(** [{isSubmitting ? <Spinner /> : label}] *)
Definition submit_button (isSubmitting : bool) (label : string) : node A :=
  SubmitButton isSubmitting [if isSubmitting then Spinner else Text label].

(** [OAuthButtons]: both buttons stay enabled; without a provider they report. *)
Definition OAuthButtons (b : Components.Buttons) (google github : A) : nodes :=
  [Divider]
  ++ when (Components.loaded b && negb (Components.b_google b) && negb (Components.b_github b))
       [El "p" [Text "Google / GitHub sign-in needs OAuth credentials in "; El "code" [Text "dev/.env.dev"]]]
  ++ [El "div" [Button false google [El "span" [Text "Continue with Google"]];
                Button false github [El "span" [Text "Continue with GitHub"]]]].
End Parts.

Lemma submits_strength {A} p : existsb submits (PasswordStrength (A := A) p) = false.
Proof.
  unfold PasswordStrength. destruct (String.eqb p ""); [done|]. cbn. rewrite orb_false_r.
  by induction (Components.active_bars p).
Qed.

Lemma submits_group {A} label kind name value error disabled (change : string → A) below :
  submits (form_group label kind name value error disabled change below) = existsb submits below.
Proof.
  unfold form_group. cbn. rewrite existsb_app. unfold when_text, when.
  by destruct (negb _); cbn; rewrite orb_false_r.
Qed.

(** A form of [form_group]s offers its submission when the button is enabled. *)
Ltac form_guard H :=
  destruct H as [H _]; cbn [existsb] in H;
  rewrite ?existsb_app, ?submits_group in H; cbn [existsb app] in H;
  repeat match type of H with
    | context [existsb submits (when_text ?t ?l)] =>
        replace (existsb submits (when_text t l)) with false in H by (unfold when_text, when; by destruct (negb _))
    end;
  rewrite ?submits_strength in H; cbn in H; rewrite ?orb_false_r in H; by apply negb_true_iff in H.

(** [errors.name], empty when there is none *)
Definition error_of (errors : Errors) (name : string) : string :=
  match List.find (λ p, String.eqb p.1 name) errors with Some p => p.2 | None => "" end.

Definition upper_char (c : Ascii.ascii) : Ascii.ascii :=
  if is_lower c then Ascii.ascii_of_N (Ascii.N_of_ascii c - 32) else c.
Fixpoint toUpperCase (s : string) : string :=
  match s with EmptyString => "" | String c s => String (upper_char c) (toUpperCase s) end.

(** [name.split(' ').map(n => n[0]).join('').toUpperCase().slice(0, 2)] *)
Definition getInitials (name : string) : string :=
  String.substring 0 2 (toUpperCase (String.concat "" (map (String.substring 0 1) (split_char " "%char name)))).

(** A text between double quotes *)
Definition quoted (s : string) : string :=
  let q := String (Ascii.ascii_of_N 34) "" in q +:+ s +:+ q.

(** A text field of the signed-in user, [''] when it is missing *)
Definition user_text (u : val) (k : string) : string := default "" (text_of (opt_prop u k)).

(** [{user.avatar ? <img .../> : getInitials(user.displayName)}] *)
Definition avatar {A} (u : val) : node A :=
  if String.eqb (user_text u "avatar") "" then Text (getInitials (user_text u "displayName"))
  else Image (user_text u "avatar") (user_text u "displayName").

(** [{user.isEmailVerified ? '✓ Verified' : '⏳ Pending'}] *)
Definition verified_text (v : bool) : string := if v then "✓ Verified" else "⏳ Pending".

(** [{user.provider || 'Local'}] *)
Definition provider_text (u : val) : string := default "Local" (given (text_of (opt_prop u "provider"))).

(** The alerts of a page that reports errors and successes *)
Definition alerts {A} (error success : string) : list (node A) :=
  when_text error [Alert "error" [Text error]] ++ when_text success [Alert "success" [Text success]].

(** ** The sign-in page *)

Module LoginView.
Inductive Action := Submit | Change (name value : string) | Recent (account : json) | Remove (address : string) | Google | Github.

Definition account_card (a : json) : node Action :=
  let text k := default "" (LoginPage.text_member a k) in
  Clickable (Recent a)
    [El "recent-account-info"
       [El "recent-account-avatar"
          [if String.eqb (text "avatar") "" then Text (toUpperCase (String.substring 0 1 (text "displayName")))
           else Image (text "avatar") (text "displayName")];
        El "recent-account-details" [El "span" [Text (text "displayName")]; El "span" [Text (text "email")]]];
     Button false (Remove (text "email")) []].

Definition visualSide : node Action :=
  AuthVisualSide "Welcome Back" "Sign in to access your secure account and continue your journey with us."
    ["Secure authentication"; "Fast & reliable access"; "Your data protected"].

Definition view (b : Components.Buttons) (s : LoginPage.State) : list (node Action) :=
  AuthLayout (Some visualSide)
    [AuthCard
       ([AuthHeader "Welcome Back" "Sign in to continue to your account"]
        ++ when_text (LoginPage.serverError s) [Alert "error" [Text (LoginPage.serverError s)]]
        ++ match LoginPage.conflictInfo s with
           | Some provider =>
               [InfoAlert ("Account Exists via " +:+ provider)
                  [Text "You previously signed up using your "; El "strong" [Text provider]; Text " account with this email address.";
                   Text "For security reasons, you cannot log in using a password. Please use the ";
                   El "strong" [Text (quoted ("Continue with " +:+ provider))]; Text " button below to access your account."]]
           | None => []
           end
        ++ when (0 <? Z.of_nat (length (LoginPage.recentAccounts s)))
             [El "recent-accounts-section"
                [El "h3" [Text "Continue as..."]; El "recent-accounts-list" (map account_card (LoginPage.recentAccounts s)); Divider]]
        ++ [Form Submit
              [form_group "Email" "email" "email" (LoginPage.email s) (error_of (LoginPage.errors s) "email") false (Change "email") [];
               form_group "Password" "password" "password" (LoginPage.password s) (error_of (LoginPage.errors s) "password") false
                 (Change "password") [];
               El "div" [Link "/forgot-password" [Text "Forgot password?"]];
               submit_button (LoginPage.isSubmitting s) "Sign In"]]
        ++ OAuthButtons b Google Github
        ++ [AuthFooter [Text "Don't have an account? "; Link "/register" [Text "Create one"]]])].
End LoginView.

(** ** The registration page *)

Module RegisterView.
Inductive Action := Submit | Change (name value : string) | Google | Github.

Definition visualSide : node Action :=
  AuthVisualSide "Join Us Today" "Create your account and unlock a world of possibilities with our secure platform."
    ["Free account creation"; "Email verification"; "Secure password protection"].

Definition view (b : Components.Buttons) (s : RegisterPage.State) : list (node Action) :=
  let error := error_of (RegisterPage.errors s) in
  AuthLayout (Some visualSide)
    [AuthCard
       ([AuthHeader "Create Account" "Join us and start your journey"]
        ++ when_text (RegisterPage.serverError s) [Alert "error" [Text (RegisterPage.serverError s)]]
        ++ match RegisterPage.conflictInfo s with
           | Some provider =>
               [InfoAlert ("Account Exists via " +:+ provider)
                  [Text "This email address is already associated with an account created via "; El "strong" [Text provider]; Text ".";
                   Text "You don't need to create a new password. Please use the ";
                   El "strong" [Text (quoted ("Continue with " +:+ provider))]; Text " button below to access your existing account."]]
           | None => []
           end
        ++ [Form Submit
              [form_group "Display Name" "text" "displayName" (RegisterPage.displayName s) (error "displayName") false (Change "displayName") [];
               form_group "Email" "email" "email" (RegisterPage.email s) (error "email") false (Change "email") [];
               form_group "Password" "password" "password" (RegisterPage.password s) (error "password") false (Change "password")
                 (PasswordStrength (RegisterPage.password s));
               submit_button (RegisterPage.isSubmitting s) "Create Account"];
            Divider]
        ++ OAuthButtons b Google Github
        ++ [AuthFooter [Text "Already have an account? "; Link "/login" [Text "Sign in"]]])].
End RegisterView.

(** ** Forgotten and reset password *)

Module ForgotView.
Inductive Action := Submit | SetEmail (value : string).

Definition view (s : ForgotPasswordPage.State) : list (node Action) :=
  let error := ForgotPasswordPage.error s in
  let success := ForgotPasswordPage.success s in
  let isSubmitting := ForgotPasswordPage.isSubmitting s in
  AuthLayout None
    [AuthCard
       ([AuthHeader "Forgot Password?" "Enter your email to receive a reset link"]
        ++ alerts error success
        ++ (if String.eqb success "" then
              [Form Submit
                 [form_group "Email Address" "email" "" (ForgotPasswordPage.address s) error isSubmitting SetEmail [];
                  submit_button isSubmitting "Send Reset Link"]]
            else
              [El "div" [El "h3" [Text "Check your email"];
                         El "p" [Text "We've sent a password reset link to "; El "strong" [Text (ForgotPasswordPage.address s)]];
                         El "div" [Link "/login" [Text "Back to Login"]]]])
        ++ [AuthFooter [Text "Remember your password? "; Link "/login" [Text "Sign In"]]])].
End ForgotView.

Module ResetView.
Inductive Action := Submit | Change (name value : string).

Definition view (s : ResetPasswordPage.State) : list (node Action) :=
  let error := error_of (ResetPasswordPage.errors s) in
  let isSubmitting := ResetPasswordPage.isSubmitting s in
  if ResetPasswordPage.isRedeeming s then
    AuthLayout None [AuthCard [El "div" [Spinner; El "p" [Text "Validating reset link..."]]]]
  else if negb (ResetPasswordPage.shows_form s) then
    AuthLayout None
      [AuthCard
         [AuthHeader "Invalid Link" (default "This password reset link is invalid or expired." (given (Some (ResetPasswordPage.redeemError s))));
          El "div" [Link "/forgot-password" [Text "Request New Link"]]]]
  else
    AuthLayout None
      [AuthCard
         ([AuthHeader "Reset Password" "Create a new strong password"]
          ++ match ResetPasswordPage.status s with
             | Some (ok, message) => [Alert (if ok : bool then "success" else "error") [Text message]]
             | None => []
             end
          ++ [Form Submit
                [form_group "New Password" "password" "password" (ResetPasswordPage.password s) (error "password") isSubmitting
                   (Change "password") [];
                 form_group "Confirm Password" "password" "confirmPassword" (ResetPasswordPage.confirmPassword s) (error "confirmPassword")
                   isSubmitting (Change "confirmPassword") [];
                 submit_button isSubmitting "Reset Password"]])].
End ResetView.

(** ** Verification of an address *)

Module VerifyView.
Inductive Action := Submit | SetPassword (value : string) | SetConfirm (value : string) | Resend.

(** The button that resends, when the address is known *)
Definition resend_button (emailToVerify : option string) (cooldown : Z) : list (node Action) :=
  match given emailToVerify with
  | Some _ =>
      [Button (0 <? cooldown) Resend
         [Text (if 0 <? cooldown then "Resend in " +:+ Z_to_string cooldown +:+ "s" else "Resend Verification Email")]]
  | None => []
  end.

Definition body (emailToVerify : option string) (s : VerifyEmailPage.State) : list (node Action) :=
  let message := El "p" [Text (VerifyEmailPage.message s)] in
  match VerifyEmailPage.status s with
  | VerifyEmailPage.loading => [El "div" [Spinner; El "p" [Text "Loading..."]]]
  | VerifyEmailPage.form =>
      [Form Submit
         ([message] ++ when_text (VerifyEmailPage.formError s) [Alert "error" [Text (VerifyEmailPage.formError s)]]
          ++ [form_group "Password" "password" "" (VerifyEmailPage.password s) "" (VerifyEmailPage.isSubmitting s) SetPassword [];
              form_group "Confirm Password" "password" "" (VerifyEmailPage.confirmPassword s) "" (VerifyEmailPage.isSubmitting s) SetConfirm [];
              submit_button (VerifyEmailPage.isSubmitting s) "Verify Email & Set Password"])]
  | VerifyEmailPage.pending => [El "div" ([Spinner; message] ++ resend_button emailToVerify (VerifyEmailPage.cooldown s))]
  | VerifyEmailPage.success => [El "div" [message; Link "/login" [Text "Continue to Login"]]]
  | VerifyEmailPage.error =>
      [El "div" ([message] ++ resend_button emailToVerify (VerifyEmailPage.cooldown s)
                 ++ [Link "/register" [Text "Back to Registration"]])]
  end.

Definition view (emailToVerify : option string) (s : VerifyEmailPage.State) : list (node Action) :=
  AuthLayout None [AuthCard [AuthHeader "Email Verification" ""; El "div" (body emailToVerify s)]].
End VerifyView.

(** ** The pages of links *)

Module LinkViews.
(** [MigrationVerifyPage] *)
Definition migration_verify (s : MigrationVerifyPage.State) : list (node Empty_set) :=
  let message := [Text (MigrationVerifyPage.message s)] in
  AuthLayout None
    [AuthCard
       [AuthHeader "Migration Verification" "";
        El "div"
          [match MigrationVerifyPage.status s with
           | MigrationVerifyPage.loading => El "div" [Spinner; El "p" [Text "Verifying your email..."]]
           | MigrationVerifyPage.success => El "div" [Alert "success" message; Link "/login" [Text "Continue to Login"]]
           | MigrationVerifyPage.error => El "div" [Alert "error" message; Link "/login" [Text "Back to Login"]]
           end]]].

(** [OAuthCallbackPage] *)
Definition oauth_callback : list (node Empty_set) :=
  AuthLayout None [AuthCard [El "div" [Spinner; El "p" [Text "Completing authentication..."]]]].

(** [HomePage] *)
Definition home : list (node Empty_set) :=
  AuthLayout None
    [El "home-page"
       [El "home-brand" [El "h1" [Text "AuthAdvance"]];
        El "p" [Text "Secure account management behind your API gateway — sign in, manage your profile, or migrate your email."];
        El "home-actions" [Link "/login" [Text "Sign in"]; Link "/register" [Text "Create account"]]]].
End LinkViews.

(** ** The account *)

Module AccountView.
Inductive Action := Edit | SetBio (value : string) | Cancel | Save.

Definition info (label : string) (value : node Action) : node Action :=
  El "account-info-item" [El "label" [Text label]; El "account-info-value" [value]].

(** [maxLength={500}]: the browser cuts what is typed or pasted. *)
Definition typed_bio (value : string) : Action := SetBio (String.substring 0 500 value).

Definition bio_section (u : val) (s : AccountPage.State) : node Action :=
  let loading := AccountPage.loading (AccountPage.status s) in
  El "account-section"
    [El "account-section-header"
       ([El "h2" [Text "Bio"]] ++ when (negb (AccountPage.isEditingBio s)) [Button false Edit [Text "Edit Bio"]]);
     if AccountPage.isEditingBio s then
       El "bio-edit-container"
         [Field "textarea" "" (AccountPage.bio s) false typed_bio;
          El "bio-edit-footer"
            [El "span" [Text (Z_to_string (strlen (AccountPage.bio s)) +:+ "/500 characters")];
             El "bio-edit-actions"
               [Button loading Cancel [Text "Cancel"]; Button loading Save [if loading then Spinner else Text "Save"]]]]
     else
       El "bio-display"
         [El "p" [Text (match given (Some (user_text u "bio")) with
                        | Some b => quoted b
                        | None => "No bio added yet. Click " +:+ quoted "Edit Bio" +:+ " to add one."
                        end)]]].

Definition view (user : option val) (s : AccountPage.State) : list (node Action) :=
  match user with
  | None => []
  | Some u =>
      [El "dashboard-layout"
         [El "header" [El "dashboard-brand" [El "span" [Text "AuthAdvance"]]];
          El "main"
            [El "account-page-container"
               ([El "account-header"
                   [El "account-avatar-large" [avatar u];
                    El "account-header-info" [El "h1" [Text (user_text u "displayName")]; El "p" [Text (user_text u "email")]]]]
                ++ alerts (AccountPage.error (AccountPage.status s)) (AccountPage.success (AccountPage.status s))
                ++ [El "account-section"
                      [El "h2" [Text "Profile Information"];
                       El "account-info-grid"
                         [info "Display Name" (Text (user_text u "displayName")); info "Email" (Text (user_text u "email"));
                          info "Provider" (Text (provider_text u));
                          info "Account Status" (El "span" [Text (verified_text (truthy (opt_prop u "isEmailVerified")))])]];
                    bio_section u s;
                    El "account-section"
                      [El "h2" [Text "Account Migration"];
                       El "account-actions"
                         [Link "/migrate" [Text "Migrate Account"];
                          El "p" [Text "Change your email address and transfer your account data"]]]])]]]
  end.
End AccountView.

Module DropdownView.
(** [isOpen] of [ProfileDropdown], [setIsOpen(!isOpen)], a click outside *)
Inductive Action := Toggle | Account | Logout.
Definition toggle (isOpen : bool) : bool := negb isOpen.
(** [handleClickOutside] listens only while the menu is open. *)
Definition outside (inside : bool) (isOpen : bool) : bool := if isOpen then inside else isOpen.

Definition view (u : val) (isOpen : bool) : list (node Action) :=
  [El "profile-dropdown"
     ([Button false Toggle [El "user-avatar" [avatar u]]]
      ++ when isOpen
           [El "profile-dropdown-menu"
              [El "profile-dropdown-header"
                 [El "user-avatar-large" [avatar u];
                  El "profile-dropdown-info" [El "div" [Text (user_text u "displayName")]; El "div" [Text (user_text u "email")]]];
               Button false Account [El "span" [Text "Account Settings"]];
               Button false Logout [El "span" [Text "Logout"]]]])].
End DropdownView.

Module DashboardView.
Section View.
(** [new Date(s).toLocaleDateString('en-US', ...)] *)
Context (toLocaleDateString : string → string).

Definition info (label value : string) : node DropdownView.Action :=
  El "user-info-item" [El "div" [Text label]; El "div" [Text value]].

Definition view (user : option val) (isOpen : bool) : list (node DropdownView.Action) :=
  match user with
  | None => []
  | Some u =>
      let verified := truthy (opt_prop u "isEmailVerified") in
      [El "dashboard-layout"
         [El "header" [El "dashboard-brand" [El "span" [Text "AuthAdvance"]]; El "dashboard-user" (DropdownView.view u isOpen)];
          El "main"
            [El "welcome-card"
               ([El "h1" [Text ("Welcome, " +:+ user_text u "displayName" +:+ "!")];
                 El "p" [Text "You have successfully authenticated. Your account is ";
                         El "span" [Text (if verified then "verified" else "pending verification")]; Text "."]]
                ++ when_text (user_text u "bio")
                     [El "user-bio-section" [El "div" [Text "Bio"];
                                             El "div" [Text (quoted (user_text u "bio"))]]]
                ++ [El "user-info-grid"
                      [info "Email" (user_text u "email"); info "Provider" (provider_text u);
                       info "Account Status" (verified_text verified);
                       info "Member Since"
                         (match given (text_of (opt_prop u "createdAt")) with Some c => toLocaleDateString c | None => "N/A" end)]])]]]
  end.
End View.
End DashboardView.

(** ** One submission at a time *)

Section Promises.
Context `{RKV : RedisKV} `{UDB : UsersDb} `{IDB : IndexDb}.
Context (server : HttpRequest → prog AppEnv App HttpAnswer).
Context (document_cookie : object → string) (sha256 : string → string) (urlencode : list (string * string) → string).
Context (page_origin : string) (new_URL : string → option (string * string)).

(** A button of [OAuthButtons] inside a page that is told of errors by [report] *)
Definition oauth {UI} (enabled : bool) (provider : Provider) (prompt : option string) (report : string → UI → UI) : prog NetEnv (Screen UI) unit :=
  if enabled then
    let! _ := call (startOAuth server document_cookie sha256 urlencode page_origin provider None prompt) in Ret tt
  else set_state (report Components.notConfiguredMsg).

Lemma keeps_oauth {UI} (busy : UI → bool) enabled provider prompt report :
  (∀ m s, busy (report m s) = busy s) → keeps busy (oauth enabled provider prompt report).
Proof.
  intros Hr. unfold oauth. destruct enabled; [|by apply keeps_set_state].
  apply keeps_bind; [apply keeps_call|done].
Qed.

Definition login_perform (b : Components.Buttons) (a : LoginView.Action) : prog NetEnv (Screen LoginPage.State) unit :=
  let report m := set_field LoginPage.serverError (λ _, m) in
  match a with
  | LoginView.Submit => LoginPage.handleSubmit server document_cookie page_origin new_URL
  | LoginView.Change name value => LoginPage.handleChange name value
  | LoginView.Recent account => LoginPage.handleRecentClick server document_cookie sha256 urlencode page_origin account
  | LoginView.Remove address => LoginPage.handleRemoveRecent address
  | LoginView.Google => oauth (Components.b_google b) google (Some "select_account") report
  | LoginView.Github => oauth (Components.b_github b) github None report
  end.
Definition login_how (a : LoginView.Action) : manner :=
  match a with LoginView.Submit => Submits | LoginView.Change _ _ => Synchronous | _ => Waits end.

Definition register_perform (b : Components.Buttons) (a : RegisterView.Action) : prog NetEnv (Screen RegisterPage.State) unit :=
  match a with
  | RegisterView.Submit => RegisterPage.handleSubmit server document_cookie urlencode page_origin new_URL
  | RegisterView.Change name value => RegisterPage.handleChange name value
  | RegisterView.Google => oauth (Components.b_google b) google (Some "select_account") (λ _ s, s)
  | RegisterView.Github => oauth (Components.b_github b) github None (λ _ s, s)
  end.
Definition register_how (a : RegisterView.Action) : manner :=
  match a with RegisterView.Submit => Submits | RegisterView.Change _ _ => Synchronous | _ => Waits end.

Definition forgot_perform (a : ForgotView.Action) : prog NetEnv (Screen ForgotPasswordPage.State) unit :=
  match a with
  | ForgotView.Submit => ForgotPasswordPage.handleSubmit server document_cookie page_origin
  | ForgotView.SetEmail v => set_state (λ s, ForgotPasswordPage.mkState v (ForgotPasswordPage.error s)
      (ForgotPasswordPage.success s) (ForgotPasswordPage.isSubmitting s))
  end.
Definition forgot_how (a : ForgotView.Action) : manner :=
  match a with ForgotView.Submit => Submits | ForgotView.SetEmail _ => Synchronous end.

Definition reset_perform (a : ResetView.Action) : prog NetEnv (Screen ResetPasswordPage.State) unit :=
  match a with
  | ResetView.Submit => ResetPasswordPage.handleSubmit server document_cookie page_origin
  | ResetView.Change name value => ResetPasswordPage.handleChange name value
  end.
Definition reset_how (a : ResetView.Action) : manner :=
  match a with ResetView.Submit => Submits | ResetView.Change _ _ => Synchronous end.

Definition verify_perform (emailToVerify : option string) (a : VerifyView.Action) : prog NetEnv (Screen VerifyEmailPage.State) unit :=
  let put p c (s : VerifyEmailPage.State) :=
    VerifyEmailPage.mkState (VerifyEmailPage.status s) (VerifyEmailPage.message s) (p s) (c s) (VerifyEmailPage.formError s)
      (VerifyEmailPage.isSubmitting s) (VerifyEmailPage.formToken s) (VerifyEmailPage.cooldown s)
      (VerifyEmailPage.redeemStarted s) (VerifyEmailPage.poll s) in
  match a with
  | VerifyView.Submit => VerifyEmailPage.handleVerifySubmit server document_cookie page_origin new_URL
  | VerifyView.SetPassword v => set_state (put (λ _, v) VerifyEmailPage.confirmPassword)
  | VerifyView.SetConfirm v => set_state (put VerifyEmailPage.password (λ _, v))
  | VerifyView.Resend => VerifyEmailPage.handleResend server document_cookie page_origin emailToVerify
  end.
Definition verify_how (a : VerifyView.Action) : manner :=
  match a with VerifyView.Submit => Submits | VerifyView.Resend => Waits | _ => Synchronous end.

Definition account_perform (a : AccountView.Action) : prog NetEnv (Screen AccountPage.State) unit :=
  match a with
  | AccountView.Edit => set_state (λ s, AccountPage.mkState true (AccountPage.bio s) (AccountPage.status s))
  | AccountView.SetBio v => set_state (λ s, AccountPage.mkState (AccountPage.isEditingBio s) v (AccountPage.status s))
  | AccountView.Cancel => AccountPage.handleCancelEdit
  | AccountView.Save => AccountPage.handleSaveBio server document_cookie page_origin new_URL
  end.
Definition account_how (a : AccountView.Action) : manner :=
  match a with AccountView.Save => Submits | _ => Synchronous end.
Definition account_busy (s : AccountPage.State) : bool := AccountPage.loading (AccountPage.status s).

(** A program made of requests and of assignments that keep the flag *)
Ltac keep :=
  repeat first
    [ done
    | apply keeps_bind; [|intros ?]
    | apply keeps_useAuth | apply keeps_call | apply keeps_navigate | apply keeps_setTimeout | apply keeps_state
    | apply keeps_set_state; intros ?; repeat case_match; done
    | lazymatch goal with |- keeps _ (Act _ _ _) => split; [intros ? ?; reflexivity|intros ?] end
    | case_match ].

(** A submission that has set the flag *)
Ltac hold := apply holds_bind; [keep|intros ?]; apply holds_bind; [keep|intros ?]; apply holds_clear_last; done.

#[local] Arguments LoginPage.newErrors : simpl never.
#[local] Arguments RegisterPage.newErrors : simpl never.
#[local] Arguments ResetPasswordPage.newErrors : simpl never.
#[local] Arguments validatePassword : simpl never.
#[local] Arguments given : simpl never.
#[local] Arguments useAuth : simpl never.
#[local] Arguments call : simpl never.
#[local] Arguments String.eqb : simpl never.

Lemma login_page b : FormPage (LoginView.view b) LoginPage.isSubmitting login_how (login_perform b).
Proof.
  split.
  - intros u [] H; try discriminate. intros _. unfold LoginView.view in H. can_inv H; try can_done. form_guard H.
  - intros [] es [au [em pw er sub se ci ra] vi ti] Ha; try discriminate. cbn. intros ->. cbn.
    destruct (LoginPage.newErrors _) eqn:E; cbn; (split; [done|]); [right|left; done]. split; [done|]. hold.
  - intros [] es s _; try discriminate. intros _. apply keeps_run. cbn. keep.
  - intros []; try discriminate; intros _; cbn; [unfold LoginPage.handleRecentClick; keep|unfold LoginPage.handleRemoveRecent; keep|..];
      by apply keeps_oauth.
Qed.

Lemma register_page b : FormPage (RegisterView.view b) RegisterPage.isSubmitting register_how (register_perform b).
Proof.
  split.
  - intros u [] H; try discriminate. intros _. unfold RegisterView.view in H. can_inv H; try can_done. form_guard H.
  - intros [] es [au [dn em pw er sub se ci] vi ti] Ha; try discriminate. cbn. intros ->. cbn.
    destruct (RegisterPage.newErrors _) eqn:E; cbn; (split; [done|]); [right|left; done]. split; [done|]. hold.
  - intros [] es s _; try discriminate. intros _. apply keeps_run. cbn. keep.
  - intros []; try discriminate; intros _; cbn; by apply keeps_oauth.
Qed.

Lemma forgot_page : FormPage ForgotView.view ForgotPasswordPage.isSubmitting forgot_how forgot_perform.
Proof.
  split.
  - intros u [] H; try discriminate. intros _. unfold ForgotView.view in H. can_inv H; try can_done. form_guard H.
  - intros [] es [au [ad er su sub] vi ti] Ha; try discriminate. cbn. intros ->. cbn.
    destruct (String.eqb ad "") eqn:E; cbn; (split; [done|]); [left; done|right]. split; [done|]. hold.
  - intros [] es s _; try discriminate. intros _. apply keeps_run. cbn. keep.
  - intros []; discriminate.
Qed.

Lemma reset_page : FormPage ResetView.view ResetPasswordPage.isSubmitting reset_how reset_perform.
Proof.
  split.
  - intros u [] H; try discriminate. intros _. unfold ResetView.view in H. can_inv H; try can_done. form_guard H.
  - intros [] es [au [ft pw cp er st sub re ir rs] vi ti] Ha; try discriminate. cbn. intros ->. cbn.
    destruct (given ft) as [token|]; cbn; [|split; [done|by left]].
    destruct (ResetPasswordPage.newErrors _) eqn:E; cbn; (split; [done|]); [right|left; done]. split; [done|]. hold.
  - intros [] es s _; try discriminate. intros _. apply keeps_run. cbn. keep.
  - intros []; discriminate.
Qed.

Lemma verify_page emailToVerify :
  FormPage (VerifyView.view emailToVerify) VerifyEmailPage.isSubmitting verify_how (verify_perform emailToVerify).
Proof.
  split.
  - intros u [] H; try discriminate. intros _. unfold VerifyView.view in H. can_inv H; try can_done. form_guard H.
  - intros [] es [au [st me pw cp fe sub ft co rs po] vi ti] Ha; try discriminate. cbn. intros ->. cbn.
    destruct (given ft) as [token|]; cbn; [|split; [done|by left]].
    destruct (validatePassword pw); cbn; [split; [done|by left]|].
    destruct (String.eqb pw cp); cbn; (split; [done|]); [right|left; done]. split; [done|]. hold.
  - intros [] es s _; try discriminate; intros _; apply keeps_run; cbn; keep.
  - intros []; try discriminate. intros _. cbn. unfold VerifyEmailPage.handleResend. keep.
Qed.

(** The account page offers to save only while no save is under way; after a
    save its handler goes on to read the account again. *)
Lemma account_save_guarded user u a :
  can (AccountView.view user u) a → account_how a = Submits → a = AccountView.Save ∧ account_busy u = false.
Proof.
  destruct a; try discriminate. intros H _. split; [done|]. unfold AccountView.view in H. can_inv H; try can_done. by destruct H.
Qed.

(** What [one_at_a_time] says of a page. *)
Definition single_submission {UI Action} (view : UI → list (node Action)) (busy : UI → bool) (how : Action → manner)
    (perform : Action → prog NetEnv (Screen UI) unit) : Prop :=
  ∀ s0 s ts, busy (ui s0) = false → rtc (live view busy how perform) (s0, []) (s, ts) →
  (∀ i j p q, i ≠ j → ts !! i = Some (true, p) → ts !! j = Some (true, q) → quiet p ∨ quiet q) ∧
  (∀ i p a, ts !! i = Some (true, p) → how a = Submits → can (view (ui s)) a → quiet p) ∧
  (busy (ui s) = true → ∃ i p, ts !! i = Some (true, p) ∧ holds busy p).

(** C31. A form cannot be sent twice.  On the sign-in, registration, forgotten
    and reset password and verification pages, whatever their user
    clicks and types where the view allows it, and however the handlers that
    wait for the server interleave: of two submissions at most one has a request
    under way or still to send, the rest of the other leaves cookies, network
    and server alone; the page offers to submit only when the rest of every
    submission made so far is like that; and while the button is disabled, some
    submission is under way that will enable it again. *)
Theorem forms_submit_once b emailToVerify :
  single_submission (LoginView.view b) LoginPage.isSubmitting login_how (login_perform b) ∧
  single_submission (RegisterView.view b) RegisterPage.isSubmitting register_how (register_perform b) ∧
  single_submission ForgotView.view ForgotPasswordPage.isSubmitting forgot_how forgot_perform ∧
  single_submission ResetView.view ResetPasswordPage.isSubmitting reset_how reset_perform ∧
  single_submission (VerifyView.view emailToVerify) VerifyEmailPage.isSubmitting verify_how (verify_perform emailToVerify).
Proof.
  split_and!; intros s0 s ts H0 Hr; eapply one_at_a_time; try exact Hr; try exact H0;
    first [apply login_page|apply register_page|apply forgot_page|apply reset_page|apply verify_page].
Qed.

(** The button of the sign-in page as it is clicked: offered, then locked
    before the first request leaves. *)
Theorem login_click_locks b es (s : Screen LoginPage.State) :
  LoginPage.isSubmitting (ui s) = false → LoginPage.newErrors (ui s) = [] →
  can (LoginView.view b (ui s)) LoginView.Submit ∧
  let s' := (until_busy LoginPage.isSubmitting first_part es (login_perform b LoginView.Submit) s).2 in
  LoginPage.isSubmitting (ui s') = true ∧ ¬ can (LoginView.view b (ui s')) LoginView.Submit.
Proof.
  intros Hb He. split.
  - unfold LoginView.view, AuthLayout, AuthCard. rewrite can_el, can_el, can_app. right.
    rewrite can_el, can_el, !can_app. do 4 right. left. rewrite can_form. left. split; [|done].
    cbn [existsb]. rewrite !submits_group. cbn. by rewrite Hb.
  - assert (Hs : LoginPage.isSubmitting
      (ui (until_busy LoginPage.isSubmitting first_part es (login_perform b LoginView.Submit) s).2) = true).
    { destruct s as [au [em pw er sub se ci ra] vi ti]. cbn in Hb. subst sub. cbn.
      change (LoginPage.newErrors _) with (LoginPage.newErrors (LoginPage.mkState em pw er false se ci ra)).
      cbn in He. rewrite He. reflexivity. }
    split; [exact Hs|]. intros Hc.
    pose proof (submit_guarded _ _ _ _ (login_page b) _ _ Hc eq_refl) as Hf. congruence.
Qed.

(** Pages of signed-in users show nothing without one. *)
Lemma no_user_no_view toLocale isOpen s : DashboardView.view toLocale None isOpen = [] ∧ AccountView.view None s = [].
Proof. done. Qed.

End Promises.

(** The filled form of the sign-in page is clicked. *)
Module ClickRun.
Definition buttons : Components.Buttons := Components.mkButtons true false true None.
Definition filled := ScreenRun.screen (LoginPage.mkState "alice@x.dev" "Tr0ub4dor&3" [] false "" None []).
End ClickRun.

Lemma login_click_locks_witness :
  can (LoginView.view ClickRun.buttons (ui ClickRun.filled)) LoginView.Submit ∧
  let s' := (until_busy LoginPage.isSubmitting first_part (ClientRun.online_with "csrf-1")
    (login_perform ClientRun.server ClientRun.hidden (λ s, s) (λ _, "") "https://app" (λ _, None) ClickRun.buttons LoginView.Submit)
    ClickRun.filled).2 in
  LoginPage.isSubmitting (ui s') = true ∧ ¬ can (LoginView.view ClickRun.buttons (ui s')) LoginView.Submit.
Proof.
  apply (login_click_locks (RKV := MemKV.mem_kv) (UDB := MemTable.mem_table) (IDB := MemIndex.mem_index)
    ClientRun.server ClientRun.hidden (λ s, s) (λ _, "") "https://app" (λ _, None) ClickRun.buttons (ClientRun.online_with "csrf-1") ClickRun.filled);
    reflexivity.
Defined.
