(* ===== verification/MigrationView.v ===== *)
(** * The view of the migration page

    The three faces of [uam-frontend/src/pages/MigrationPage.tsx]: the
    history, the page that waits for the two verifications, and the form with
    its warning, as the markup of [Screens] computed from the state of
    [MigrationPage], and what they let the user do.  Dates are shown by
    [toLocaleString], which is a parameter. *)

From S2P Require Import Prelude CircuitConfig RollingWindow CircuitBreaker GuardedCalls Async RedisCache Json JsVal Columns SqlFilter SqlMeaning Password UserModel OneTimeCodes Sessions IdentityIndex Tokens SessionHandlers UsersTable Documents Application AuthController Validators Server RecentAccounts ApiClient AuthContext Pages MigrationPage Screens Views.
#[local] Open Scope string_scope.
#[local] Open Scope list_scope.
#[local] Open Scope Z_scope.
#[local] Open Scope async_scope.

Inductive MigrateAction :=
  | Back | Resend | ShowHistoryView | StartMigration | ConfirmOverride | CancelWarning
  | SetPassword (value : string) | SetNewEmail (value : string).

Section View.
(** [new Date(s).toLocaleString()] *)
Context (toLocaleString : string → string).

Definition entry_text (e : val) (k : string) : string := default "" (text_of (opt_prop e k)).

(** What an entry of the history waits for *)
Definition pending_text (e : val) : string :=
  let from := entry_text e "pendingFrom" in
  if String.eqb from "both" then "Both emails need verification"
  else if String.eqb from "current" then "Waiting for current email (" +:+ entry_text e "fromEmail" +:+ ") verification"
  else "Waiting for new email (" +:+ entry_text e "toEmail" +:+ ") verification".

Definition history_entry (e : val) : node MigrateAction :=
  let pending := String.eqb (entry_text e "status") "pending" in
  El "div"
    [El "div"
       ([El "span" [Text (toUpperCase (entry_text e "status"))];
         El "p" [El "strong" [Text "From:"]; Text (entry_text e "fromEmail")];
         El "p" [El "strong" [Text "To:"]; Text (entry_text e "toEmail")]]
        ++ when (pending && negb (String.eqb (entry_text e "pendingFrom") ""))
             [El "p" [Text ("⏳ Pending: " +:+ pending_text e)]]
        ++ when pending
             [El "div" [El "p" [Text ("Current Email: " +:+ verified_text (truthy (opt_prop e "currentEmailVerified")))];
                        El "p" [Text ("New Email: " +:+ verified_text (truthy (opt_prop e "newEmailVerified")))]]]);
     El "div"
       ([El "p" [El "strong" [Text "Initiated:"]; Text (toLocaleString (entry_text e "initiatedAt"))]]
        ++ when_text (entry_text e "completedAt")
             [El "p" [El "strong" [Text "Completed:"]; Text (toLocaleString (entry_text e "completedAt"))]])].

Definition history_view (s : State) : list (node MigrateAction) :=
  AuthLayout None
    [AuthCard
       [AuthHeader "Migration History" "View all your account migration attempts";
        El "div" [Button false Back [Text "← Back"]];
        El "migration-history-section"
          [match migrationHistory s with
           | VArr (e :: l) => El "div" (map history_entry (e :: l))
           | _ => El "p" [Text "No migration history found."]
           end]]].

(** One of the two cards of the waiting page *)
Definition verification_card (title email : string) (verified : bool) : node MigrateAction :=
  El (if verified then "verification-card verified" else "verification-card pending")
    [El "verification-card-header" [El "h4" [Text title]];
     El "verification-card-body"
       [El "p" [Text email]; El "verification-status" [El "span" [Text (verified_text verified)]]]].

Definition waiting_view (m : MigrationStatus) (s : State) : list (node MigrateAction) :=
  let current := default "" (currentEmail m) in
  let new := default "" (newEmail m) in
  AuthLayout None
    [AuthCard
       ([AuthHeader "Account Migration" "Verify both email addresses to complete migration"]
        ++ alerts (error (status s)) (success (status s))
        ++ [El "migration-status-container"
              ([El "migration-instructions"
                  [El "div"
                     [El "h3" [Text "Migration Instructions"];
                      Button (resend_disabled s) Resend
                        (if isResending s then [Spinner; Text "Resending..."]
                         else [Text (if 0 <? cooldown s then "Resend (" +:+ Z_to_string (cooldown s) +:+ "s)" else "Resend Emails")])];
                   El "p" [Text "To complete your account migration, you need to verify both email addresses. Check your email inboxes and click the verification links."];
                   El "ul"
                     [El "li" [Text "Verify your "; El "strong" [Text "current email"]; Text (" (" +:+ current +:+ ")")];
                      El "li" [Text "Verify your "; El "strong" [Text "new email"]; Text (" (" +:+ new +:+ ")")];
                      El "li" [Text "Once both are verified, your account will be migrated automatically"];
                      El "li" [Text "You'll be able to login with both emails for 5 days"];
                      El "li" [El "strong" [Text "Note:"]; Text " Old verification links become invalid when you resend emails"]]];
                El "verification-status-grid"
                  [verification_card "Current Email" current (currentEmailVerified m);
                   verification_card "New Email" new (newEmailVerified m)]]
               ++ when (negb (currentEmailVerified m && newEmailVerified m))
                    [El "div" [Button false ShowHistoryView [Text "View Migration History"]]])])].

Definition warning_box (s : State) : node MigrateAction :=
  let loading := loading (status s) in
  El "div"
    [El "h4" [Text "Warning: Account with New Email Already Exists!"];
     El "p" [Text "An account with the email "; El "strong" [Text (form_newEmail s)];
             Text " already exists. Proceeding will permanently delete that account and all of its data."];
     El "p" [Text "Do you want to proceed and delete the existing account to migrate your current account to ";
             El "strong" [Text (form_newEmail s)]; Text "? This action cannot be undone."];
     El "div" [Button loading ConfirmOverride [if loading then Spinner else Text "Yes, Delete Existing Account & Migrate"];
               Button loading CancelWarning [Text "Cancel"]];
     El "p" [Text "Please review the warning above and confirm to proceed."]].

(** [required] inputs are checked by the browser: an empty one blocks the
    submission of the form. *)
Definition form_view (user : option val) (s : State) : list (node MigrateAction) :=
  let loading := loading (status s) in
  let local := bool_decide ((user ≫= λ u, text_of (opt_prop u "provider")) = Some "local") in
  AuthLayout None
    [AuthCard
       ([AuthHeader "Migrate Account" "Change your email address and transfer your account data"]
        ++ alerts (error (status s)) (success (status s))
        ++ when (emailExistsWarning s) [warning_box s]
        ++ [Form StartMigration
              [El "migration-form-group"
                 [El "label" [Text ("Password " +:+ (if local then "(required)" else "(not required for OAuth accounts)"))];
                  Field "password" "password" (form_password s) false SetPassword];
               El "migration-form-group"
                 [El "label" [Text "New Email Address"]; Field "email" "newEmail" (form_newEmail s) false SetNewEmail];
               SubmitButton loading (if loading then [Spinner; Text "Initiating Migration..."] else [Text "Start Migration"])];
            El "div" [Button false ShowHistoryView [Text "View Migration History"]]])].

Definition migration_view (user : option val) (s : State) : list (node MigrateAction) :=
  if showHistory s then history_view s
  else match migrationStatus s with
       | Some m => if hasPendingMigration m then waiting_view m s else form_view user s
       | None => form_view user s
       end.

(** The form is shown: neither the history nor a pending migration *)
Definition at_form (s : State) : Prop := showHistory s = false ∧ is_pending s = false.

(** What each action needs. *)
Definition needs (a : MigrateAction) (s : State) : Prop :=
  match a with
  | Back => showHistory s = true
  | ShowHistoryView => showHistory s = false
  | Resend => showHistory s = false ∧ is_pending s = true ∧ cooldown s ≤ 0 ∧ isResending s = false ∧ loading (status s) = false
  | StartMigration => at_form s ∧ loading (status s) = false
  | ConfirmOverride | CancelWarning => at_form s ∧ emailExistsWarning s = true ∧ loading (status s) = false
  | SetPassword _ | SetNewEmail _ => at_form s
  end.

(** An element that offers [a]: its equation and its condition *)
Ltac offers_it H :=
  match type of H with
  | _ ∧ (∃ _, _ = _) => destruct H as [? [? ->]]
  | _ = false ∧ _ = _ => destruct H as [? ->]
  | existsb _ _ = true ∧ _ = _ => destruct H as [? ->]
  end; cbn in *; unfold at_form, is_pending.

Lemma history_needs s a : showHistory s = true → can (history_view s) a → needs a s.
Proof.
  intros Hs H. unfold history_view in H. can_inv H; try offers_it H; auto.
Qed.

Lemma waiting_needs m s a :
  showHistory s = false → can (waiting_view m s) a → needs a s.
Proof.
  intros Hs H. unfold waiting_view in H. can_inv H; try offers_it H; auto.
  match goal with Hd : resend_disabled s = false |- _ => unfold resend_disabled in Hd; rename Hd into Hr end.
  rewrite !orb_false_iff, negb_false_iff, Z.ltb_ge in Hr. unfold is_pending in Hr. tauto.
Qed.

Lemma form_needs user s a : at_form s → can (form_view user s) a → needs a s.
Proof.
  intros Hs H. unfold form_view in H. can_inv H; try offers_it H; auto.
  - split; [done|]. rewrite orb_false_r in *. by apply negb_true_iff.
  - by destruct Hs.
Qed.

(** The page offers only what its state allows.  The button that deletes
    the account behind the new address is offered only below its warning,
    mails are resent only while a migration is pending and no cooldown, request
    or resend is running. *)
Theorem migration_view_safe user s a : can (migration_view user s) a → needs a s.
Proof.
  unfold migration_view. destruct (showHistory s) eqn:Eh; [by apply history_needs|].
  destruct (migrationStatus s) as [m|] eqn:Em.
  - destruct (hasPendingMigration m) eqn:Ep; [by apply waiting_needs|].
    apply form_needs. split; [done|]. unfold is_pending. by rewrite Em.
  - apply form_needs. split; [done|]. unfold is_pending. by rewrite Em.
Qed.
End View.


(** A page that shows the warning for [taken@x.dev]. *)
Module WarnedRun.
Definition warned : State :=
  mkState "pw" "taken@x.dev" (mkNotice false "taken" "") None 0 false true (VArr []) false false.
Definition screen := ScreenRun.screen warned.
End WarnedRun.

Lemma migration_view_safe_witness : needs ConfirmOverride WarnedRun.warned.
Proof.
  apply (migration_view_safe (λ s, s) None WarnedRun.warned ConfirmOverride).
  vm_compute. left. reflexivity.
Defined.

