(* ===== verification/Boot.v ===== *)
(** * The boot banner

    Models [uam-backend/src/utils/boot.ts]: the lines that the parts of the
    program report while it starts, and the box in which [flush] prints them
    once.  A text is the list of its UTF-16 code units, as [String.length]
    counts them; the box is 48 columns wide inside its borders. *)

From stdpp Require Import pretty.
From S2P Require Import Prelude.
#[local] Open Scope string_scope.
#[local] Open Scope list_scope.
#[local] Open Scope Z_scope.

(** ** Text *)

Abbreviation text := (list N).

(** An ASCII literal *)
Definition ascii (s : string) : text := map Ascii.N_of_ascii (String.list_ascii_of_string s).

(** [' '.repeat(n)] and its like; a negative count throws, so the callers clamp it. *)
Definition repeated (c : N) (n : Z) : text := repeat c (Z.to_nat n).
Definition spaces (n : Z) : text := repeated 32 n.
Definition len (t : text) : Z := Z.of_nat (length t).

(** [s.padEnd(n)] *)
Definition padEnd (t : text) (n : Z) : text := t ++ spaces (n - len t).

Definition ESC : N := 27.

(** What follows [[0-9;]*m] at the start of the text, when it matches *)
Fixpoint after_m (t : text) : option text :=
  match t with
  | [] => None
  | c :: t => if (c =? 109)%N then Some t else if ((48 <=? c) && (c <=? 57) || (c =? 59))%N then after_m t else None
  end.

(** What follows one match of the expression of [strip] *)
Definition after_colour (t : text) : option text :=
  match t with
  | c :: b :: t => if ((c =? ESC) && (b =? 91))%N then after_m t else None
  | _ => None
  end.

(** [s.replace(/\x1b\[[0-9;]*m/g, '')]; every turn consumes a unit. *)
Fixpoint strip_fuel (fuel : nat) (t : text) : text :=
  match fuel, t with
  | O, _ | _, [] => t
  | S n, c :: r => match after_colour t with Some rest => strip_fuel n rest | None => c :: strip_fuel n r end
  end.

Definition strip (t : text) : text := strip_fuel (length t) t.

Definition center (t : text) (width : Z) : text :=
  let left := (width - len t) / 2 in
  let right := width - len t - left in
  spaces (Z.max 0 left) ++ t ++ spaces (Z.max 0 right).

(** ** The lines *)

Record BootLine := { label : string; value : string; ok : bool }.

(** The variables [lines] and [flushed] *)
Record Boot := mkBoot { lines : list BootLine; flushed : bool }.

Definition fresh_boot : Boot := mkBoot [] false.

Definition addLine (l v : string) (o : bool) (b : Boot) : Boot :=
  mkBoot (lines b ++ [{| label := l; value := v; ok := o |}]) (flushed b).

Inductive LimitMode := distributed | fallback | memory.

(** The methods of [boot] that report something *)
Inductive Report :=
  | postgres (connected : bool) (poolMax : Z)
  | migrations (count : Z)
  | backfill (scanned synced : Z)
  | redis (role : string) (connected viaUrl : bool)
  | rateLimit (mode : LimitMode).

Definition report (r : Report) (b : Boot) : Boot :=
  match r with
  | postgres connected poolMax =>
      addLine "PostgreSQL" (if connected then "connected (pool max=" +:+ pretty poolMax +:+ ")" else "FAILED") connected b
  | migrations count => if 0 <? count then addLine "Migrations" (pretty count +:+ " applied") true b else b
  | backfill scanned synced => if 0 <? scanned then addLine "Backfill" (pretty synced +:+ "/" +:+ pretty scanned +:+ " users") true b else b
  | redis role connected viaUrl => if connected then addLine "Redis" (role +:+ " ready" +:+ (if viaUrl then " (URL)" else "")) true b else b
  | rateLimit mode =>
      let label := match mode with
                   | distributed => "distributed (Redis)"
                   | fallback => "fallback (in-memory)"
                   | memory => "local (in-memory)"
                   end in
      addLine "Rate Limit" label (match mode with fallback => false | _ => true end) b
  end.

(** ** The box *)

Definition w : Z := 48.

(** [═ ║ ╔ ╗ ╚ ╝ ╠ ╣ ✓ ✗] *)
Definition bar : text := repeated 9552 w.
Definition row (inside : text) : text := ascii "  " ++ [9553]%N ++ inside ++ [9553]%N.
Definition edge (l r : N) : text := ascii "  " ++ [l] ++ bar ++ [r].

Definition coloured (code : string) (c : N) : text := [ESC] ++ ascii code ++ [c; ESC] ++ ascii "[0m".

Definition raw_line (l : BootLine) : text :=
  ascii "  " ++ (if ok l then coloured "[32m" 10003 else coloured "[31m" 10007)
  ++ ascii "  " ++ padEnd (ascii (label l)) 14 ++ ascii " " ++ ascii (value l).

Definition banner_line (l : BootLine) : text :=
  let raw := raw_line l in
  let visibleLen := len (strip raw) in
  let pad := Z.max 0 (w - visibleLen) in
  row (raw ++ spaces pad).

Definition footer (nodeEnv : string) (port : Z) : text := ascii (nodeEnv +:+ " | port " +:+ pretty port).

(** What [flush] prints, line by line *)
Definition flush (nodeEnv : string) (port : Z) (b : Boot) : list text * Boot :=
  if flushed b then ([], b)
  else
    ([[]; edge 9556 9559; row (spaces w); row (center (ascii "UAM BACKEND") w); row (spaces w); edge 9568 9571]
     ++ map banner_line (lines b)
     ++ [row (spaces w); edge 9568 9571; row (center (footer nodeEnv port) w); edge 9562 9565; []],
     mkBoot (lines b) true).

(** ** The width of the box *)

Lemma len_app a b : len (a ++ b) = len a + len b.
Proof. unfold len. rewrite length_app. lia. Qed.

Lemma len_ascii s : len (ascii s) = strlen s.
Proof. unfold len, ascii, strlen. rewrite length_map. f_equal. induction s as [|c s IH]; cbn; [done|by rewrite IH]. Qed.

Lemma len_repeated c n : len (repeated c n) = Z.max 0 n.
Proof. unfold len, repeated. rewrite repeat_length. lia. Qed.

Lemma strlen_app s t : strlen (s +:+ t) = strlen s + strlen t.
Proof. unfold strlen. rewrite string_length_app. lia. Qed.

Lemma len_nonneg t : 0 ≤ len t.
Proof. unfold len. lia. Qed.

(** No terminal escape in a text: [strip] leaves it alone. *)
Definition plain (t : text) : Prop := ESC ∉ t.

#[export] Instance plain_dec t : Decision (plain t) := not_dec _.

(** A literal is plain by computation. *)
Ltac plain_lit := by apply (bool_decide_unpack _); vm_compute.

Lemma strip_plain_app fuel a t : plain a → (length a ≤ fuel)%nat →
  strip_fuel fuel (a ++ t) = a ++ strip_fuel (fuel - length a) t.
Proof.
  revert fuel. induction a as [|c a IH]; intros fuel Hp Hf; cbn [length] in *.
  - by rewrite Nat.sub_0_r.
  - destruct fuel as [|n]; [lia|]. apply not_elem_of_cons in Hp as [Hc Hp]. cbn [app strip_fuel]. unfold after_colour.
    assert (Hn : (c =? ESC)%N = false) by (apply N.eqb_neq; congruence).
    rewrite Hn. cbn [andb Nat.sub]. rewrite <- IH by (done || lia). by destruct (a ++ t).
Qed.

Lemma strip_plain fuel t : plain t → strip_fuel fuel t = t.
Proof.
  revert t. induction fuel as [|n IH]; intros [|c t] Hp; try done. cbn [strip_fuel].
  apply not_elem_of_cons in Hp as [Hc Hp]. unfold after_colour.
  assert (Hn : (c =? ESC)%N = false) by (apply N.eqb_neq; congruence).
  destruct t; [|rewrite Hn; cbn [andb]]; by rewrite IH.
Qed.

(** The two icons print as one unit each. *)
Lemma strip_icon (o : bool) a t : plain a → plain t →
  len (strip (a ++ (if o then coloured "[32m" 10003 else coloured "[31m" 10007) ++ t)) = len a + 1 + len t.
Proof.
  intros Ha Ht. unfold strip. rewrite strip_plain_app by (done || rewrite length_app; lia).
  rewrite length_app, Nat.add_comm, Nat.add_sub, len_app, <- Z.add_assoc. f_equal.
  rewrite length_app. destruct o.
  - change (strip_fuel _ _) with (10003%N :: strip_fuel (7 + length t) t). rewrite strip_plain by done. unfold len. cbn [length]. lia.
  - change (strip_fuel _ _) with (10007%N :: strip_fuel (7 + length t) t). rewrite strip_plain by done. unfold len. cbn [length]. lia.
Qed.

Lemma plain_spaces n : plain (spaces n).
Proof. unfold plain, spaces, repeated. rewrite list_elem_of_In. intros H%repeat_spec. done. Qed.

Lemma plain_app a b : plain a → plain b → plain (a ++ b).
Proof. unfold plain. rewrite elem_of_app. tauto. Qed.

Lemma plain_ascii_app s t : plain (ascii s) → plain (ascii t) → plain (ascii (s +:+ t)).
Proof.
  intros Hs Ht. replace (ascii (s +:+ t)) with (ascii s ++ ascii t); [by apply plain_app|].
  unfold ascii. rewrite <- map_app. f_equal. clear. induction s as [|c s IH]; [done|]. change (String c s +:+ t) with (String c (s +:+ t)). cbn. by rewrite IH.
Qed.

(** The line after the icon *)
Definition line_tail (l : BootLine) : text := ascii "  " ++ padEnd (ascii (label l)) 14 ++ ascii " " ++ ascii (value l).

Definition plain_line (l : BootLine) : Prop := plain (ascii (label l)) ∧ plain (ascii (value l)).

Lemma plain_tail l : plain_line l → plain (line_tail l).
Proof.
  intros [Hl Hv]. unfold line_tail, padEnd. repeat apply plain_app; try done; try apply plain_spaces; plain_lit.
Qed.

Lemma len_tail l : len (line_tail l) = 3 + Z.max 14 (strlen (label l)) + strlen (value l).
Proof.
  unfold line_tail, padEnd, spaces. rewrite !len_app, len_repeated, !len_ascii.
  change (strlen " ") with 1. change (strlen "  ") with 2. lia.
Qed.

(** The columns a printed line takes *)
Definition columns (t : text) : Z := len (strip t).

Lemma columns_plain t : plain t → columns t = len t.
Proof. intros H. unfold columns, strip. by rewrite strip_plain. Qed.

Lemma columns_line l : plain_line l →
  columns (banner_line l) = 4 + Z.max w (6 + Z.max 14 (strlen (label l)) + strlen (value l)).
Proof.
  intros Hp. unfold banner_line, row, columns.
  assert (Hr : len (strip (raw_line l)) = 6 + Z.max 14 (strlen (label l)) + strlen (value l)).
  { unfold raw_line. rewrite strip_icon; [|plain_lit|by apply plain_tail].
    fold (line_tail l). rewrite len_tail, len_ascii. change (strlen "  ") with 2. lia. }
  rewrite Hr. set (pad := spaces _). set (icon := if ok l then coloured "[32m" 10003 else coloured "[31m" 10007).
  replace (ascii "  " ++ [9553%N] ++ (raw_line l ++ pad) ++ [9553%N])
    with ((ascii "  " ++ [9553%N] ++ ascii "  ") ++ icon ++ (line_tail l ++ pad ++ [9553%N]))
    by (unfold raw_line, line_tail, icon; by rewrite <- !app_assoc).
  unfold icon. rewrite strip_icon.
  - rewrite !len_app, len_tail, !len_ascii. unfold pad, spaces. rewrite len_repeated. change (strlen "  ") with 2.
    unfold len, w. cbn [length]. lia.
  - plain_lit.
  - apply plain_app; [by apply plain_tail|]. apply plain_app; [apply plain_spaces|]. plain_lit.
Qed.

Lemma len_center t width : len t ≤ width → len (center t width) = width.
Proof.
  intros H. unfold center, spaces. rewrite !len_app, !len_repeated. pose proof (len_nonneg t).
  assert (0 ≤ (width - len t) / 2 ≤ width - len t) by (split; [apply Z.div_pos|apply Z.div_le_upper_bound]; lia). lia.
Qed.

Lemma columns_row t : plain t → columns (row t) = 4 + len t.
Proof.
  intros H. unfold row. rewrite columns_plain.
  - rewrite !len_app, len_ascii. change (strlen "  ") with 2. change (len [9553%N]) with 1. lia.
  - repeat apply plain_app; try done; plain_lit.
Qed.

Lemma plain_center t width : plain t → plain (center t width).
Proof. intros H. unfold center. repeat apply plain_app; try done; apply plain_spaces. Qed.

(** ** Numbers *)

Lemma pretty_char_plain x : Ascii.N_of_ascii (pretty_N_char x) ≠ ESC.
Proof. unfold pretty_N_char. by repeat case_match. Qed.

Lemma pretty_go_spec (k : nat) : ∀ x s, (x < 10 ^ N.of_nat k)%N → plain (ascii s) →
  plain (ascii (pretty_N_go x s)) ∧ (String.length (pretty_N_go x s) ≤ k + String.length s)%nat.
Proof.
  induction k as [|k IH]; intros x s Hx Hs.
  - assert (x = 0%N) as -> by (cbn in Hx; lia). rewrite pretty_N_go_0. split; [done|lia].
  - destruct (decide (x = 0%N)) as [->|Hn]; [rewrite pretty_N_go_0; split; [done|lia]|].
    rewrite pretty_N_go_step by lia.
    destruct (IH (x `div` 10)%N (String (pretty_N_char (x `mod` 10)) s)) as [Hp Hl].
    + rewrite Nat2N.inj_succ, N.pow_succ_r' in Hx. apply N.Div0.div_lt_upper_bound; lia.
    + unfold plain. cbn. rewrite not_elem_of_cons. split; [apply not_eq_sym, pretty_char_plain|done].
    + split; [done|]. cbn [String.length] in Hl. lia.
Qed.

(** A natural number below [10 ^ k] prints in at most [k] plain units. *)
Lemma pretty_spec (k : nat) n : (0 < k)%nat → 0 ≤ n < 10 ^ Z.of_nat k →
  plain (ascii (pretty n)) ∧ strlen (pretty n) ≤ Z.of_nat k.
Proof.
  intros Hk Hn. unfold strlen. destruct n as [|p|p]; [|..|lia].
  - split; [plain_lit|cbn; lia].
  - destruct (pretty_go_spec k (N.pos p) "") as [Hp Hl]; [|plain_lit|].
    + apply N2Z.inj_lt. rewrite N2Z.inj_pow, nat_N_Z. cbn. lia.
    + change (pretty (Z.pos p)) with (pretty_N_go (N.pos p) ""). cbn [String.length] in Hl. split; [done|lia].
Qed.

(** ** The banner of a start *)

(** What the program reports: the roles of its two Redis clients, pool sizes
    below 10^7, counts below 10^10 *)
Definition usual (r : Report) : Prop :=
  match r with
  | postgres _ poolMax => 0 ≤ poolMax < 10 ^ 7
  | migrations count => count < 10 ^ 10
  | backfill scanned synced => scanned < 10 ^ 10 ∧ 0 ≤ synced < 10 ^ 10
  | redis role _ _ => role = "cache" ∨ role = "ratelimit"
  | rateLimit _ => True
  end.

(** A line that fits into the box *)
Definition fits (l : BootLine) : Prop := plain_line l ∧ strlen (label l) ≤ 14 ∧ strlen (value l) ≤ 28.

Lemma fits_line l v o : plain (ascii l) → plain (ascii v) → strlen l ≤ 14 → strlen v ≤ 28 →
  fits {| label := l; value := v; ok := o |}.
Proof. by repeat split. Qed.

Lemma addLine_fits l v o b : Forall fits (lines b) → plain (ascii l) → plain (ascii v) → strlen l ≤ 14 → strlen v ≤ 28 →
  Forall fits (lines (addLine l v o b)).
Proof. intros Hb **. cbn. apply Forall_app. split; [done|]. constructor; [by apply fits_line|constructor]. Qed.

(** The value of a line: literals around numbers *)
Ltac plain_value := repeat apply plain_ascii_app; first [done | plain_lit].

Lemma report_fits r b : usual r → Forall fits (lines b) → Forall fits (lines (report r b)).
Proof.
  destruct r as [c n|n|sc sy|role c v|m]; cbn [usual report]; intros Hr Hb.
  - destruct c; apply addLine_fits; [done|plain_lit| |done| |done|plain_lit|plain_lit|done|done].
    + destruct (pretty_spec 7 n) as [Hp _]; [lia..|]. plain_value.
    + destruct (pretty_spec 7 n) as [_ Hp]; [lia..|]. rewrite !strlen_app.
      change (strlen "connected (pool max=") with 20. change (strlen ")") with 1. lia.
  - destruct (0 <? n) eqn:E; [|done]. apply Z.ltb_lt in E. destruct (pretty_spec 10 n) as [Hp Hl]; [lia..|].
    apply addLine_fits; [done|plain_lit|plain_value|done|]. rewrite !strlen_app. change (strlen " applied") with 8. lia.
  - destruct (0 <? sc) eqn:E; [|done]. apply Z.ltb_lt in E.
    destruct (pretty_spec 10 sc) as [Hp Hl]; [lia..|]. destruct (pretty_spec 10 sy) as [Hp' Hl']; [lia..|].
    apply addLine_fits; [done|plain_lit|plain_value|done|]. rewrite !strlen_app.
    change (strlen "/") with 1. change (strlen " users") with 6. lia.
  - destruct c; [|done]. by destruct Hr as [-> | ->]; destruct v; apply addLine_fits; try done; plain_lit.
  - by destruct m; apply addLine_fits; try done; plain_lit.
Qed.

Definition reports (rs : list Report) : Boot := foldl (λ b r, report r b) fresh_boot rs.

Lemma reports_fit rs : Forall usual rs → Forall fits (lines (reports rs)) ∧ flushed (reports rs) = false.
Proof.
  unfold reports. assert (H : Forall fits (lines fresh_boot) ∧ flushed fresh_boot = false) by done.
  revert H. generalize fresh_boot. induction rs as [|r rs IH]; intros b [Hb Hf] Hu; [done|].
  inversion Hu; subst. cbn. apply IH; [|done]. split; [by apply report_fits|].
  destruct r as [c n|n|sc sy|role c v|m]; cbn; try done; split_ifs; done.
Qed.

(** C28. The banner is a box.  Whatever the parts of the program report while it
    starts, and for any environment name of at most 35 characters, every
    line between the two blank ones takes exactly 52 columns on the screen,
    colours not counted; the box has one row per reported line and nine more;
    and a second [flush] prints nothing. *)
Theorem banner_is_a_box rs nodeEnv port :
  Forall usual rs → plain (ascii nodeEnv) → strlen nodeEnv ≤ 35 → 0 ≤ port < 10 ^ 5 →
  let '(printed, b) := flush nodeEnv port (reports rs) in
  ∃ box, printed = [[]] ++ box ++ [[]] ∧ Forall (λ t, columns t = w + 4) box ∧
    (length box = 9 + length (lines (reports rs)))%nat ∧ flush nodeEnv port b = ([], b).
Proof.
  intros Hu Hp Hl Hport. destruct (reports_fit rs Hu) as [Hf Hb]. unfold flush at 1. rewrite Hb.
  set (top := [edge 9556 9559; row (spaces w); row (center (ascii "UAM BACKEND") w); row (spaces w); edge 9568 9571]).
  set (bottom := [row (spaces w); edge 9568 9571; row (center (footer nodeEnv port) w); edge 9562 9565]).
  exists (top ++ map banner_line (lines (reports rs)) ++ bottom). split; [|split; [|split; [|done]]].
  - unfold top, bottom. cbn [app]. by rewrite <- app_assoc.
  - destruct (pretty_spec 5 port) as [Hpp Hpl]; [lia..|].
    assert (Hfoot : columns (row (center (footer nodeEnv port) w)) = w + 4).
    { rewrite columns_row, len_center; [unfold w; lia|..].
      - unfold footer. rewrite len_ascii, !strlen_app. change (strlen " | port ") with 8. unfold w. lia.
      - apply plain_center. unfold footer. plain_value. }
    apply Forall_app. split; [by repeat constructor; vm_compute|]. apply Forall_app. split.
    + apply Forall_fmap. eapply Forall_impl; [exact Hf|]. intros l (Hpl' & H1 & H2). change (columns (banner_line l) = w + 4).
      rewrite columns_line by done. unfold w. lia.
    + unfold bottom. apply Forall_cons; split; [by vm_compute|]. apply Forall_cons; split; [by vm_compute|].
      apply Forall_cons; split; [done|]. by repeat constructor; vm_compute.
  - rewrite !length_app, length_map. cbn. lia.
Qed.

Lemma banner_is_a_box_witness :
  let rs := [postgres true 10; migrations 2; backfill 1000 998; redis "cache" true true; redis "ratelimit" true true] in
  let '(printed, b) := flush "production" 3000 (reports rs) in
  ∃ box, printed = [[]] ++ box ++ [[]] ∧ Forall (λ t, columns t = w + 4) box ∧
    (length box = 9 + length (lines (reports rs)))%nat ∧ flush "production" 3000 b = ([], b).
Proof.
  apply (banner_is_a_box [postgres true 10; migrations 2; backfill 1000 998; redis "cache" true true; redis "ratelimit" true true]
           "production" 3000); [|plain_lit|by vm_compute|lia].
  repeat (apply Forall_cons; split; [cbn; first [lia | auto]|]). constructor.
Defined.
