(* ===== verification/Telemetry.v ===== *)
(** * Telemetry

    Models the life of the OpenTelemetry module [uam-backend/src/otel.ts]:
    [initTelemetry], [shutdownTelemetry], [otelLog] and
    [recordOtelHttpRequest], and the latency of [metricsMiddleware] of
    [metrics.ts].  The SDK is a third-party package: what the module hands to
    it is the list of [Signal]s, first to last.  Copying the breaker into the
    instruments is in [Metrics]. *)

From Stdlib Require Import QArith.
From S2P Require Import Prelude CircuitConfig RollingWindow CircuitBreaker GuardedCalls Json Async JsVal Columns SqlFilter Password UserModel Tokens Metrics.
#[local] Open Scope string_scope.
#[local] Open Scope list_scope.

Inductive InstrumentKind := CounterKind | GaugeKind | HistogramKind.

(** [unit] is empty when the options name none. *)
Record Instrument := instrument {
  i_kind : InstrumentKind;
  i_name : string;
  i_description : string;
  i_unit : string;
}.

Definition instruments : list Instrument :=
  [instrument CounterKind "uam.redis.requests" "Total Redis operations attempted (breaker-protected)" "";
   instrument CounterKind "uam.redis.success" "Successful Redis operations" "";
   instrument CounterKind "uam.redis.errors" "Redis operation errors (excludes timeouts)" "";
   instrument CounterKind "uam.redis.timeouts" "Redis operation timeouts" "";
   instrument CounterKind "uam.redis.circuit.open" "Times the Redis circuit transitioned to OPEN" "";
   instrument CounterKind "uam.redis.circuit.half_open" "Times the Redis circuit transitioned to HALF_OPEN" "";
   instrument CounterKind "uam.redis.circuit.rejected" "Requests rejected because the circuit was OPEN or the concurrency limit was hit" "";
   instrument GaugeKind "uam.redis.circuit.state" "Redis circuit state (0=CLOSED,1=OPEN,2=HALF_OPEN)" "";
   instrument GaugeKind "uam.redis.inflight" "Current Redis operations in flight" "";
   instrument GaugeKind "uam.redis.latency.p50" "Rolling p50 Redis latency in microseconds" "us";
   instrument GaugeKind "uam.redis.latency.p95" "Rolling p95 Redis latency in microseconds" "us";
   instrument GaugeKind "uam.redis.latency.p99" "Rolling p99 Redis latency in microseconds" "us";
   instrument GaugeKind "uam.redis.error_rate" "Rolling Redis error rate (0.0-1.0)" "";
   instrument CounterKind "uam.http.requests" "Total HTTP requests handled" "";
   instrument HistogramKind "uam.http.duration" "HTTP request duration in seconds" "s"].

(** The options of [new NodeSDK(...)] that are not defaults of the package *)
Record SdkOptions := {
  serviceName : string;
  serviceNamespace : string;
  exportIntervalMillis : Z;
  instrumentations : list string;
}.

(** What is handed to the SDK: its start, log records, counts and durations *)
Inductive Signal :=
  | Started (o : SdkOptions)
  | Created (i : Instrument)
  | Emitted (severityNumber : Z) (severityText body : string) (attributes : object)
  | Added (name : string) (labels : list string)
  | Recorded (name : string) (q : Q) (labels : list string)
  | Stopped.

(** The variables of the module; [meters]: the instruments exist. *)
Record Telemetry := mkTelemetry {
  t_enabled : bool;
  sdk : bool;
  otelLogger : option string;
  meters : bool;
  sent : list Signal;
}.

Definition loaded_module : Telemetry := mkTelemetry false false None false [].

Definition isTelemetryEnabled (t : Telemetry) : bool := t_enabled t.

Definition send (l : list Signal) (t : Telemetry) : Telemetry :=
  mkTelemetry (t_enabled t) (sdk t) (otelLogger t) (meters t) (sent t ++ l).

Definition sdk_options (name : string) : SdkOptions :=
  {| serviceName := name; serviceNamespace := "nginx-rust-api-gateway"; exportIntervalMillis := 15000;
     instrumentations := ["http"; "express"] |}.

Definition start_telemetry (env : string → option string) (t : Telemetry) : bool * Telemetry :=
  let endpoint := env_or env "OTEL_EXPORTER_OTLP_ENDPOINT" "" in
  if String.eqb endpoint "" || t_enabled t then (t_enabled t, t)
  else
    let name := env_or env "OTEL_SERVICE_NAME" "uam-backend" in
    (true, mkTelemetry true true (Some name) true (sent t ++ Started (sdk_options name) :: map Created instruments)).

(** [sdk.shutdown()] may throw; [finally] forgets the SDK either way. *)
Definition shutdownTelemetry (throws : bool) (t : Telemetry) : outcome unit * Telemetry :=
  if sdk t then
    (if throws then Thrown "shutdown" else Returned tt,
     mkTelemetry (t_enabled t) false (otelLogger t) (meters t) (sent t ++ [Stopped]))
  else (Returned tt, t).

Inductive Level := info | warn | error.

Definition severity (l : Level) : Z := match l with info => 9 | warn => 13 | error => 17 end.
Definition level_text (l : Level) : string := match l with info => "INFO" | warn => "WARN" | error => "ERROR" end.

Definition otelLog (l : Level) (message : string) (attrs : object) (t : Telemetry) : Telemetry :=
  match otelLogger t with
  | Some _ => send [Emitted (severity l) (level_text l) message attrs] t
  | None => t
  end.

Definition recordOtelHttpRequest (method route status : string) (durationSeconds : Q) (t : Telemetry) : Telemetry :=
  if negb (t_enabled t) then t
  else if meters t then
    send [Added "uam.http.requests" [method; route; status]; Recorded "uam.http.duration" durationSeconds [method; route; status]] t
  else t.

(** [Number(process.hrtime.bigint() - start) / 1e9] *)
Definition seconds (start stop : Z) : Q := inject_Z (stop - start) / 1000000000.

(** ** A process *)

Inductive Event :=
  | Initialise (env : string → option string)
  | ShutDown (throws : bool)
  | Log (l : Level) (message : string) (attrs : object)
  | Finished (method route status : string) (start stop : Z).

Definition happen (e : Event) (t : Telemetry) : Telemetry :=
  match e with
  | Initialise env => (start_telemetry env t).2
  | ShutDown throws => (shutdownTelemetry throws t).2
  | Log l m a => otelLog l m a t
  | Finished m r s a b => recordOtelHttpRequest m r s (seconds a b) t
  end.

Definition history (es : list Event) : Telemetry := foldl (λ t e, happen e t) loaded_module es.

Definition silent (e : Event) : Prop :=
  match e with Initialise env => env_or env "OTEL_EXPORTER_OTLP_ENDPOINT" "" = "" | _ => True end.

(** The variables agree: enabled exactly when a logger and instruments exist;
    an SDK only when enabled. *)
Record coherent (t : Telemetry) : Prop := {
  co_logger : t_enabled t = true ↔ is_Some (otelLogger t);
  co_meters : t_enabled t = meters t;
  co_sdk : sdk t = true → t_enabled t = true;
  co_off : t_enabled t = false → sent t = [];
}.

Lemma happen_coherent e t : coherent t → coherent (happen e t).
Proof.
  intros [Hl Hm Hs Ho]. destruct t as [en sd lo me se]. cbn in *. subst me.
  destruct e as [env|thr|l m a|m r st x y]; cbn.
  - unfold start_telemetry. cbn. destruct (_ || en) eqn:E; [done|].
    split; cbn; eauto; done.
  - unfold shutdownTelemetry. cbn. destruct sd; [|done]. split; cbn; try done. intros ->. discriminate (Hs eq_refl).
  - unfold otelLog. cbn. destruct lo as [n|]; [|done]. split; cbn; try done.
    intros ->. assert (false = true) by (apply Hl; eauto). done.
  - unfold recordOtelHttpRequest. cbn. destruct en; cbn; [|done]. split; cbn; done.
Qed.

Lemma history_coherent es : coherent (history es).
Proof.
  unfold history. assert (H : coherent loaded_module) by (split; cbn; try done; by rewrite is_Some_alt).
  revert H. generalize loaded_module. induction es as [|e es IH]; intros t H; cbn; [done|].
  apply IH. by apply happen_coherent.
Qed.

Definition is_start (x : Signal) : bool := match x with Started _ => true | _ => false end.
Definition starts (t : Telemetry) : nat := length (List.filter is_start (sent t)).

Lemma starts_app (a b : list Signal) :
  length (List.filter is_start (a ++ b)) = (length (List.filter is_start a) + length (List.filter is_start b))%nat.
Proof. by rewrite List.filter_app, length_app. Qed.

Lemma happen_starts e t : coherent t →
  (starts t = if t_enabled t then 1 else 0)%nat → (starts (happen e t) = if t_enabled (happen e t) then 1 else 0)%nat.
Proof.
  intros [Hl Hm Hs Ho] Hst. unfold starts in *. destruct t as [en sd lo me se]. cbn in *. subst me.
  destruct e as [env|thr|l m a|m r st x y]; cbn.
  - unfold start_telemetry. cbn. destruct (_ || en) eqn:E; [done|]. cbn.
    apply orb_false_iff in E as [_ ->]. by rewrite starts_app, Hst.
  - unfold shutdownTelemetry. cbn. destruct sd; cbn; [|done]. by rewrite starts_app, Hst, Nat.add_0_r.
  - unfold otelLog. cbn. destruct lo; cbn; [|done]. by rewrite starts_app, Hst, Nat.add_0_r.
  - unfold recordOtelHttpRequest. cbn. destruct en; cbn; [|done]. by rewrite starts_app, Hst.
Qed.

(** Telemetry in any history of the process.  Without an endpoint nothing is
    ever handed to the SDK; the SDK is started at most once, however often
    [initTelemetry] is called, and exactly when telemetry is enabled; a
    shutdown that throws leaves the module in the same state as one that does
    not; and every series that the breaker is copied into is an instrument of
    the module, of the right kind and under a name of its own. *)
Theorem telemetry_history es :
  (Forall silent es → history es = loaded_module) ∧
  (starts (history es) = if isTelemetryEnabled (history es) then 1 else 0)%nat ∧
  (shutdownTelemetry true (history es)).2 = (shutdownTelemetry false (history es)).2 ∧
  NoDup (map i_name instruments) ∧
  map (λ c, c.1.2) counters ++ ["uam.http.requests"]
    = map i_name (List.filter (λ i, match i_kind i with CounterKind => true | _ => false end) instruments) ∧
  map (λ g, g.1.2) gauges
    = map i_name (List.filter (λ i, match i_kind i with GaugeKind => true | _ => false end) instruments).
Proof.
  split_and!; try reflexivity.
  - unfold history. intros Hs.
    assert (∀ t, t = loaded_module → foldl (λ t e, happen e t) t es = loaded_module) as Hi; [|by apply Hi].
    induction Hs as [|e es He _ IH]; intros t ->; cbn; [done|]. apply IH.
    destruct e; cbn; try done. unfold start_telemetry. cbn in *. by rewrite He.
  - unfold history, isTelemetryEnabled.
    assert (H : coherent loaded_module) by apply (history_coherent []).
    assert (Hst : (starts loaded_module = if t_enabled loaded_module then 1 else 0)%nat) by reflexivity.
    revert H Hst. generalize loaded_module. induction es as [|e es IH]; intros t H Hst; cbn; [done|].
    apply IH; [by apply happen_coherent|by apply happen_starts].
  - unfold shutdownTelemetry. by destruct (sdk _).
  - by apply (bool_decide_unpack _); vm_compute.
Qed.

(** After a shutdown telemetry still counts as enabled, and log records are
    still handed to the SDK that was stopped. *)
Theorem logs_after_shutdown es l m a :
  sdk (history es) = true →
  let t := otelLog l m a (shutdownTelemetry false (history es)).2 in
  isTelemetryEnabled t = true ∧ sdk t = false ∧
  sent t = sent (history es) ++ [Stopped; Emitted (severity l) (level_text l) m a].
Proof.
  intros Hs. destruct (history_coherent es) as [Hl _ He _]. specialize (He Hs). cbv zeta.
  apply Hl in He as Hlog. destruct Hlog as [n Hn]. unfold shutdownTelemetry, otelLog. rewrite Hs. cbn. rewrite Hn. cbn.
  by rewrite <- app_assoc.
Qed.

Lemma logs_after_shutdown_witness :
  let es := [Initialise (λ _, Some "https://otlp")] in
  let t := otelLog warn "late" [] (shutdownTelemetry false (history es)).2 in
  isTelemetryEnabled t = true ∧ sdk t = false ∧
  sent t = sent (history es) ++ [Stopped; Emitted (severity warn) (level_text warn) "late" []].
Proof. apply (logs_after_shutdown [Initialise (λ _, Some "https://otlp")] warn "late" []). reflexivity. Defined.
