(* ===== verification/Lifecycle.v ===== *)
(** * The life of the server process

    Models the start and the shutdown of [uam-backend/src/index.ts]
    ([startServer], [shutdown]) with [connectDatabase] and
    [disconnectDatabase] of [config/database.ts] as far as they change the
    process (the migrations themselves are in [SchemaRunner]), [connectRedis]
    and [closeRedis] of [config/redis.ts], the banner of [Boot] and the
    telemetry of [Telemetry]; and the request log and [GET /health] of
    [index.ts].

    A process is a state that changes with [Event]s: an awaited call that
    settles, the socket that is bound, a request, a signal.  Several signals
    start several shutdowns, which interleave; a signal before [startServer]
    has registered its handlers ends the process at once and is not an event.  Express, [pg] and Node are not
    part of the repository: how their calls settle is part of the event (of the
    pool, the documented rule that ending it a second time rejects), and
    whether [app.listen] passes a bind error to its callback (Express 5 does,
    Express 4 leaves it unhandled) is a parameter. *)

From stdpp Require Import pretty.
From S2P Require Import Prelude CircuitConfig RollingWindow CircuitBreaker GuardedCalls Async RedisCache Json JsVal Columns SqlFilter SqlMeaning Password UserModel OneTimeCodes Sessions IdentityIndex Tokens SessionHandlers UsersTable Documents Application AuthController Validators SchemaRunner Boot Telemetry.
#[local] Open Scope string_scope.
#[local] Open Scope list_scope.
#[local] Open Scope Z_scope.

(** ** The request log *)

(** [GET /health] *)
Definition health (timestamp : string) : Response :=
  {| status := 200; json_body := [("status", VStr "ok"); ("timestamp", VStr timestamp)]; cookie_ops := [] |}.

(** [req.headers['x-request-id'] || `uam-${++uamReqSeq}`] *)
Definition log_rid (header : option string) (uamReqSeq : Z) : string * Z :=
  match given header with
  | Some rid => (rid, uamReqSeq)
  | None => ("uam-" +:+ pretty (uamReqSeq + 1), uamReqSeq + 1)
  end.

Definition logged_path (originalUrl : string) : string := default "" (head (split_char "?"%char originalUrl)).

Definition start_line (rid method originalUrl : string) : string := "-> " +:+ rid +:+ " " +:+ method +:+ " " +:+ logged_path originalUrl.
Definition finish_line (rid : string) (statusCode start now : Z) : string :=
  "<- " +:+ rid +:+ " " +:+ pretty statusCode +:+ " " +:+ pretty (now - start) +:+ "ms".

(** The line of the error handler; [_rid] is what [(req as any)._rid] gives. *)
Definition exception_line (_rid : option string) (name message : string) : string :=
  "└ END " +:+ default "-" (given _rid) +:+ " status=500 exception=" +:+ name +:+ ": " +:+ message.

(** ** The process *)

Inductive Listener := not_bound | binding | bound | closed.

(** Where [startServer] is *)
Inductive Phase := connecting_database | connecting_redis | started.

(** What a shutdown awaits *)
Inductive Stage := closing_redis | ending_pool | ending_pool_again | stopping_telemetry.

#[export] Instance phase_eq_dec : EqDecision Phase := ltac:(solve_decision).

Section Process.
Context `{RKV : RedisKV}.
Context (express_reports : bool) (nodeEnv : string) (port poolMax : Z) (viaUrl : bool).

Record Process := mkProcess {
  phase : Phase;
  boot : Boot;
  ttlSweeper : bool;
  pool_ended : bool;
  cache : Cache;
  server : Listener;
  requests : nat;                 (** accepted and not answered *)
  telemetry : Telemetry;
  shutdowns : list Stage;         (** the calls of [shutdown] that have not ended *)
  banner : list text;             (** printed by [flush] *)
  console : list string;          (** printed otherwise, the request log aside *)
  exit_code : option Z;
}.

#[export] Instance set_phase : Setter phase := λ f '(mkProcess a b c d e g h i j k l m), mkProcess (f a) b c d e g h i j k l m.
#[export] Instance set_boot : Setter boot := λ f '(mkProcess a b c d e g h i j k l m), mkProcess a (f b) c d e g h i j k l m.
#[export] Instance set_sweeper : Setter ttlSweeper := λ f '(mkProcess a b c d e g h i j k l m), mkProcess a b (f c) d e g h i j k l m.
#[export] Instance set_pool : Setter pool_ended := λ f '(mkProcess a b c d e g h i j k l m), mkProcess a b c (f d) e g h i j k l m.
#[export] Instance set_cache : Setter cache := λ f '(mkProcess a b c d e g h i j k l m), mkProcess a b c d (f e) g h i j k l m.
#[export] Instance set_server : Setter server := λ f '(mkProcess a b c d e g h i j k l m), mkProcess a b c d e (f g) h i j k l m.
#[export] Instance set_requests : Setter requests := λ f '(mkProcess a b c d e g h i j k l m), mkProcess a b c d e g (f h) i j k l m.
#[export] Instance set_telemetry : Setter telemetry := λ f '(mkProcess a b c d e g h i j k l m), mkProcess a b c d e g h (f i) j k l m.
#[export] Instance set_shutdowns : Setter shutdowns := λ f '(mkProcess a b c d e g h i j k l m), mkProcess a b c d e g h i (f j) k l m.
#[export] Instance set_banner : Setter banner := λ f '(mkProcess a b c d e g h i j k l m), mkProcess a b c d e g h i j (f k) l m.
#[export] Instance set_console : Setter console := λ f '(mkProcess a b c d e g h i j k l m), mkProcess a b c d e g h i j k (f l) m.
#[export] Instance set_exit_code : Setter exit_code := λ f '(mkProcess a b c d e g h i j k l m), mkProcess a b c d e g h i j k l (f m).

(** The modules are loaded and have printed their [warnings] (insecure secrets,
    no SMTP server, an invalid Redis URL); [createClients] and [initTelemetry]
    have run. *)
Definition loaded_process (warnings : list string) (c : Cache) (t : Telemetry) : Process :=
  mkProcess connecting_database fresh_boot false false c not_bound 0 t [] [] warnings None.

Definition print (line : string) (p : Process) : Process := p <| console ::= λ l, l ++ [line] |>.
Definition exit (code : Z) (p : Process) : Process := p <| exit_code := Some code |>.

(** The calls of [boot] in [connectRedis] *)
Definition redis_reports (connected : bool) (c : Cache) (b : Boot) : Boot :=
  match enabled c, redisCache c, redisRateLimit c with
  | true, Some _, Some _ =>
      if connected then report (redis "ratelimit" true viaUrl) (report (redis "cache" true viaUrl) b) else b
  | _, _, _ => b
  end.

Inductive Event :=
  | DatabaseUp (count : Z) (scan : option (Z * Z))   (** migrations applied; what the backfill returned, unless it threw *)
  | DatabaseDown (answered : bool)                   (** [SELECT 1] was answered, a migration failed *)
  | RedisSettled (connected : bool)
  | Bound                                            (** the server listens *)
  | BindFailed (message : string)
  | RequestArrives
  | RequestAnswered
  | PoolError (message : string)                     (** the pool emits [error] *)
  | Signal (name : string)
  | Settled (i : nat) (o : outcome unit).            (** the call that shutdown [i] awaits *)

(** [connectDatabase], with the lines it reports *)
Definition database_up (count : Z) (scan : option (Z * Z)) (p : Process) : Process :=
  let b := report (migrations count) (report (postgres true poolMax) (boot p)) in
  let b := match scan with Some (scanned, synced) => report (backfill scanned synced) b | None => b end in
  p <| boot := b |> <| ttlSweeper := true |> <| phase := connecting_redis |>.

Definition database_down (answered : bool) (p : Process) : Process :=
  let b := if answered then report (postgres true poolMax) (boot p) else boot p in
  exit 1 (p <| boot := report (postgres false 0) b |>).

(** [connectRedis] returns; [app.listen] and [process.on] follow at once. *)
Definition redis_settled (connected : bool) (p : Process) : Process :=
  p <| boot ::= redis_reports connected (cache p) |> <| cache ::= connectRedis connected |>
    <| server := binding |> <| phase := started |>.

(** The callback of [app.listen] *)
Definition listening (p : Process) : Process :=
  let '(lines, b) := flush nodeEnv port (boot p) in p <| boot := b |> <| banner ::= λ l, l ++ lines |>.

Definition shutdown (signal : string) (p : Process) : Process :=
  print ("[shutdown] " +:+ signal +:+ " received") p <| server := closed |> <| shutdowns ::= λ l, l ++ [closing_redis] |>.

(** The line that [pool.on('error')] prints *)
Definition pool_error_line (message : string) : string := "PostgreSQL pool error: " +:+ message.

(** What follows an awaited call of shutdown [i]; [closeRedis] never rejects, and
    a rejection of the others is not handled and ends the process.
    [pool.end()] on a pool that was ended before rejects. *)
Definition resume (i : nat) (st : Stage) (o : outcome unit) (p : Process) : Process :=
  match st, o with
  | closing_redis, _ =>
      p <| cache ::= closeRedis |> <| ttlSweeper := false |> <| pool_ended := true |>
        <| shutdowns ::= <[i := if pool_ended p then ending_pool_again else ending_pool]> |>
  | ending_pool, Thrown _ => exit 1 p
  | ending_pool_again, _ => exit 1 p
  | ending_pool, Returned _ => print "PostgreSQL pool closed" p <| shutdowns ::= <[i := stopping_telemetry]> |>
  | stopping_telemetry, _ =>
      let '(r, t) := shutdownTelemetry (match o with Thrown _ => true | Returned _ => false end) (telemetry p) in
      exit (match r with Returned _ => 0 | Thrown _ => 1 end) (p <| telemetry := t |>)
  end.

(** [None]: the event cannot happen in this state. *)
Definition step (e : Event) (p : Process) : option Process :=
  match exit_code p, e with
  | Some _, _ => None
  | None, DatabaseUp count scan => match phase p with connecting_database => Some (database_up count scan p) | _ => None end
  | None, DatabaseDown answered => match phase p with connecting_database => Some (database_down answered p) | _ => None end
  | None, RedisSettled connected => match phase p with connecting_redis => Some (redis_settled connected p) | _ => None end
  | None, Bound => match server p with binding => Some (listening (p <| server := bound |>)) | _ => None end
  | None, BindFailed _ =>
      match server p with
      | binding => Some (if express_reports then listening (p <| server := closed |>) else exit 1 (p <| server := closed |>))
      | _ => None
      end
  | None, RequestArrives => match server p with bound => Some (p <| requests ::= S |>) | _ => None end
  | None, RequestAnswered => match requests p with S n => Some (p <| requests := n |>) | O => None end
  | None, PoolError message => Some (print (pool_error_line message) p)
  | None, Signal name => match phase p with started => Some (shutdown name p) | _ => None end
  | None, Settled i o => match shutdowns p !! i with Some st => Some (resume i st o p) | None => None end
  end.

(** A course of events from the start *)
Inductive lives (p0 : Process) : list Event → Process → Prop :=
  | lives_start : lives p0 [] p0
  | lives_step es p e p' : lives p0 es p → step e p = Some p' → lives p0 (es ++ [e]) p'.

(** ** What holds in every life *)

(** Both ready flags are down. *)
Definition redis_down (c : Cache) : Prop := cacheReady c = false ∧ rateLimitReady c = false.

(** What the listener of the pool has printed *)
Definition pool_lines (es : list Event) : list string :=
  omap (λ e, match e with PoolError message => Some (pool_error_line message) | _ => None end) es.

Record inv (warnings : list string) (es : list Event) (p : Process) : Prop := {
  i_early : phase p ≠ started → server p = not_bound ∧ requests p = O ∧ shutdowns p = [] ∧ console p = warnings ++ pool_lines es;
  i_late : phase p ≠ connecting_database → ∃ n scan, DatabaseUp n scan ∈ es;
  i_unbound : server p = not_bound ∨ server p = binding → banner p = [] ∧ flushed (boot p) = false ∧ requests p = O;
  i_banner : banner p = [] ∨ flushed (boot p) = true ∧ ∃ b, flushed b = false ∧ banner p = (flush nodeEnv port b).1;
  i_shut : shutdowns p ≠ [] → server p = closed ∧ ∃ name, Signal name ∈ es;
  i_past : Exists (λ st, st ≠ closing_redis) (shutdowns p) → ttlSweeper p = false ∧ pool_ended p = true ∧ redis_down (cache p);
  i_pool : pool_ended p = true → Exists (λ st, st ≠ closing_redis) (shutdowns p);
  i_zero : exit_code p = Some 0 → Exists (λ st, st ≠ closing_redis) (shutdowns p) ∧ sdk (telemetry p) = false;
  i_down : ∀ a, DatabaseDown a ∈ es → phase p = connecting_database ∧ exit_code p = Some 1 ∧ banner p = [];
}.

Lemma inv_start w c t : inv w [] (loaded_process w c t).
Proof.
  split; cbn; try done; try (by intros []); try (by rewrite app_nil_r); try (by auto).
  - by intros H%Exists_nil.
  - by intros a H%not_elem_of_nil.
Qed.

(** An event that has happened *)
Ltac in_past := apply elem_of_app; first [by left | by right; constructor].

Lemma inv_mono w es e p : inv w es p → exit_code p = None →
  (phase p ≠ connecting_database → ∃ n scan, DatabaseUp n scan ∈ es ++ [e]) ∧
  (shutdowns p ≠ [] → ∃ name, Signal name ∈ es ++ [e]) ∧ (∀ a, DatabaseDown a ∉ es).
Proof.
  intros [_ Hl _ _ Hs _ _ _ Hd] He. split; [|split].
  - intros (n & scan & H)%Hl. exists n, scan. in_past.
  - intros (_ & name & H)%Hs. exists name. in_past.
  - intros a (_ & H & _)%Hd. congruence.
Qed.

(** The part of the invariant that concerns the failure of the database *)
Lemma no_down es e (P : Prop) : (∀ a, DatabaseDown a ∉ es) → (∀ a, e ≠ DatabaseDown a) → ∀ a, DatabaseDown a ∈ es ++ [e] → P.
Proof. intros H Hn a [Ha|Ha%list_elem_of_singleton]%elem_of_app; [by destruct (H a)|by destruct (Hn a)]. Qed.

Ltac life H := destruct H as [Hearly Hlate Hunb Hban Hshut Hpast Hpool Hzero Hdown].

Lemma pool_lines_app es es' : pool_lines (es ++ es') = pool_lines es ++ pool_lines es'.
Proof. apply omap_app. Qed.

(** An event that is no error of the pool adds no line. *)
Lemma pool_lines_other es e w (co : list string) :
  match e with PoolError _ => False | _ => True end → co = w ++ pool_lines es → co = w ++ pool_lines (es ++ [e]).
Proof. intros He ->. rewrite pool_lines_app. destruct e; try done; cbn; by rewrite app_nil_r. Qed.

Lemma inv_database w es p e p' : exit_code p = None → phase p = connecting_database →
  (∃ n scan, e = DatabaseUp n scan ∧ p' = database_up n scan p) ∨ (∃ a, e = DatabaseDown a ∧ p' = database_down a p) →
  inv w es p → inv w (es ++ [e]) p'.
Proof.
  intros He Hp Hc Hi. destruct (inv_mono w es e p Hi He) as (_ & _ & Hnd). life Hi.
  destruct p as [ph bo sw po ca se rq te sh ba co ex]. cbn in *. subst ph ex.
  destruct Hearly as (-> & -> & -> & Hco); [done|]. destruct Hunb as (-> & Hf & _); [by left|].
  destruct Hc as [(n & scan & -> & ->)|(a & -> & ->)].
  - apply (pool_lines_other _ (DatabaseUp n scan)) in Hco; [|done]. split; cbn; try done; try by auto.
    + intros _. exists n, scan. in_past.
    + intros _. split; [done|]. split; [|done]. destruct scan as [[x y]|], bo; cbn in *; by split_ifs.
    + by intros H%Exists_nil.
    + by apply no_down.
  - apply (pool_lines_other _ (DatabaseDown a)) in Hco; [|done]. split; cbn; try done; try by auto.
    intros _. split; [done|]. split; [|done]. destruct a, bo; cbn in *; by split_ifs.
Qed.

Lemma inv_redis w es p connected : exit_code p = None → phase p = connecting_redis →
  inv w es p → inv w (es ++ [RedisSettled connected]) (redis_settled connected p).
Proof.
  intros He Hp Hi. destruct (inv_mono w es (RedisSettled connected) p Hi He) as (Hm & _ & Hnd). life Hi.
  destruct p as [ph bo sw po ca se rq te sh ba co ex]. cbn in *. subst ph ex.
  destruct Hearly as (-> & -> & -> & Hco); [done|]. destruct Hunb as (-> & Hf & _); [by left|].
  split; cbn; try done; try by auto.
  - intros _. split; [done|]. split; [|done]. unfold redis_reports. destruct bo. cbn in *. by repeat case_match; subst.
  - by intros H%Exists_nil.
  - by apply no_down.
Qed.

(** The callback of [app.listen], after the socket was bound or not *)
Lemma inv_listening w es p e l : exit_code p = None → server p = binding → l = bound ∨ l = closed →
  (∀ a, e ≠ DatabaseDown a) → inv w es p → inv w (es ++ [e]) (listening (p <| server := l |>)).
Proof.
  intros He Hs Hl Hne Hi. destruct (inv_mono w es e p Hi He) as (Hm & Hm' & Hnd). life Hi.
  destruct p as [ph bo sw po ca se rq te sh ba co ex]. cbn in *. subst se ex.
  destruct Hunb as (-> & Hf & ->); [by right|]. assert (sh = []) as ->.
  { destruct sh; [done|]. by destruct Hshut. }
  unfold listening, flush. cbn. rewrite Hf. split; cbn; try done.
  - intros H. by destruct (Hearly H).
  - by intros [-> | ->]; destruct Hl.
  - right. split; [done|]. exists bo. split; [done|]. unfold flush. by rewrite Hf.
  - by apply no_down.
Qed.

Lemma inv_shutdown w es p name : exit_code p = None → phase p = started →
  inv w es p → inv w (es ++ [Signal name]) (shutdown name p).
Proof.
  intros He Hp Hi. destruct (inv_mono w es (Signal name) p Hi He) as (Hm & _ & Hnd). life Hi.
  destruct p as [ph bo sw po ca se rq te sh ba co ex]. cbn in *. subst ph ex.
  split; cbn; try done.
  - by intros [|].
  - intros _. split; [done|]. exists name. in_past.
  - intros [H|H]%Exists_app; [by apply Hpast|]. by apply Exists_cons in H as [|H%Exists_nil].
  - intros H%Hpool. apply Exists_app. by left.
  - by apply no_down.
Qed.

Lemma inv_resume w es p i st o : exit_code p = None → shutdowns p !! i = Some st →
  inv w es p → inv w (es ++ [Settled i o]) (resume i st o p).
Proof.
  intros He Hst Hi. destruct (inv_mono w es (Settled i o) p Hi He) as (Hm & Hm' & Hnd). life Hi.
  destruct p as [ph bo sw po ca se rq te sh ba co ex]. cbn in *. subst ex.
  assert (Hsh : sh ≠ []) by (by intros ->). destruct (Hshut Hsh) as [-> _].
  assert (Hph : ph = started).
  { destruct (decide (ph = started)) as [|H]; [done|]. by destruct (Hearly H) as (? & _). }
  subst ph. assert (Hlt : (i < length sh)%nat) by (by apply lookup_lt_Some in Hst).
  assert (Hne : ∀ x, <[i := x]> sh ≠ []) by (intros x H%(f_equal length); rewrite length_insert in H; cbn in H; lia).
  assert (Hin : ∀ x, x ≠ closing_redis → Exists (λ s, s ≠ closing_redis) (<[i := x]> sh)).
  { intros x Hx. apply Exists_exists. exists x. split; [|done]. by eapply list_elem_of_lookup_2, list_lookup_insert_eq. }
  assert (Hex : st ≠ closing_redis → Exists (λ s, s ≠ closing_redis) sh).
  { intros H. apply Exists_exists. exists st. split; [by eapply list_elem_of_lookup_2|done]. }
  destruct st; [|destruct o as [u|m]| |unfold resume, shutdownTelemetry; cbn [telemetry]; destruct (sdk te) eqn:Esdk, o as [u|m]];
    split; cbn; try done; try (by intros [|]); try (by apply no_down); try (by intros _; split; [done|apply Hm']);
    try (by auto).
  - intros _. destruct ca. by repeat split.
  - intros _. apply Hin. by destruct po.
Qed.

Lemma inv_requests w es p e n : exit_code p = None → e = RequestArrives ∧ server p = bound ∨ e = RequestAnswered ∧ requests p = S n →
  inv w es p → inv w (es ++ [e]) (p <| requests := n |>).
Proof.
  intros He Hc Hi. destruct (inv_mono w es e p Hi He) as (Hm & Hm' & Hnd).
  life Hi. destruct p as [ph bo sw po ca se rq te sh ba co ex]. cbn in *. subst.
  split; cbn; try done; try (by apply no_down; [done|intros a ->; destruct Hc as [[? _]|[? _]]]); try (by auto).
  - intros H. destruct (Hearly H) as (-> & -> & _). by destruct Hc as [[_ ?]|[_ ?]].
  - intros H. destruct (Hunb H) as (_ & _ & ->). destruct Hc as [[_ ->]|[_ ?]]; [|done]. by destruct H.
  - intros H. split; [by apply Hshut|by apply Hm'].
Qed.

Lemma inv_pool_error w es p m : exit_code p = None →
  inv w es p → inv w (es ++ [PoolError m]) (print (pool_error_line m) p).
Proof.
  intros He Hi. destruct (inv_mono w es (PoolError m) p Hi He) as (Hm & Hm' & Hnd).
  life Hi. destruct p as [ph bo sw po ca se rq te sh ba co ex]. cbn in *. subst.
  split; cbn; try done; try (by apply no_down); try (by auto).
  - intros H. destruct (Hearly H) as (-> & -> & -> & ->). split_and!; try done. by rewrite pool_lines_app, app_assoc.
  - intros H. split; [by apply Hshut|by apply Hm'].
Qed.

Lemma inv_step w es e p p' : step e p = Some p' → inv w es p → inv w (es ++ [e]) p'.
Proof.
  unfold step. intros Hs Hi. destruct (exit_code p) eqn:He; [done|].
  destruct e as [n scan|a|c| |m| | |m|name|i o].
  - destruct (phase p) eqn:E; try done. simplify_eq. eapply inv_database; eauto.
  - destruct (phase p) eqn:E; try done. simplify_eq. eapply inv_database; eauto.
  - destruct (phase p) eqn:E; try done. simplify_eq. by apply inv_redis.
  - destruct (server p) eqn:E; try done. simplify_eq. by apply inv_listening; auto.
  - destruct (server p) eqn:E; try done. destruct express_reports; simplify_eq; [by apply inv_listening; auto|].
    destruct (inv_mono w es (BindFailed m) p Hi He) as (Hm & Hm' & Hnd). life Hi.
    destruct p as [ph bo sw po ca se rq te sh ba co ex]. cbn in *. subst. destruct Hunb as (-> & Hf & ->); [by right|].
    split; cbn; try done; try (by intros [|]); try (by apply no_down); try (by auto).
    intros H. by destruct (Hearly H).
  - destruct (server p) eqn:E; try done. simplify_eq.
    replace (p <| requests ::= S |>) with (p <| requests := S (requests p) |>) by (by destruct p).
    apply (inv_requests _ _ _ _ (S (requests p))); auto.
  - destruct (requests p) as [|k] eqn:E; try done. simplify_eq. apply (inv_requests _ _ _ _ k); auto.
  - simplify_eq. by apply inv_pool_error.
  - destruct (phase p) eqn:E; try done. simplify_eq. by apply inv_shutdown.
  - destruct (shutdowns p !! i) as [st|] eqn:E; try done. simplify_eq. by apply inv_resume.
Qed.

Lemma inv_lives w c t es p : lives (loaded_process w c t) es p → inv w es p.
Proof. induction 1 as [|es p e p' _ IH Hs]; [apply inv_start|by eapply inv_step]. Qed.

(** The state after a course of events, when it is possible *)
Fixpoint after (es : list Event) (p : Process) : option Process :=
  match es with [] => Some p | e :: es => step e p ≫= after es end.

Lemma after_lives p0 past es p p' : lives p0 past p → after es p = Some p' → lives p0 (past ++ es) p'.
Proof.
  revert past p. induction es as [|e es IH]; intros past p Hl Ha; cbn in Ha.
  - simplify_eq. by rewrite app_nil_r.
  - destruct (step e p) as [q|] eqn:E; [|done]. cbn in Ha. replace (past ++ e :: es) with ((past ++ [e]) ++ es) by (by rewrite <- app_assoc).
    apply (IH _ q); [|done]. by apply (lives_step _ _ p).
Qed.

Lemma lives_snoc p0 es e p' : lives p0 (es ++ [e]) p' → ∃ p, lives p0 es p ∧ step e p = Some p'.
Proof.
  intros H. inversion H as [Hn|es0 p e0 q Hl Hs He]; [by destruct es|].
  apply app_inj_tail in He as [-> ->]. eauto.
Qed.

(** A course of events determines the state. *)
Lemma lives_det p0 es p p' : lives p0 es p → lives p0 es p' → p = p'.
Proof.
  intros H. revert p'. induction H as [|es p e q _ IH Hs]; intros p' H'.
  - inversion H' as [|es' ? ? ? _ _ He]; [done|]. by destruct es'.
  - apply lives_snoc in H' as (r & Hr & Hs'). apply IH in Hr as <-. congruence.
Qed.

(** ** One shutdown *)

(** How many awaited calls have settled *)
Definition settled_calls (es : list Event) : nat :=
  length (omap (λ e, match e with Settled i _ => Some i | _ => None end) es).

(** The shutdown of a process that had [n] requests open, after [k] settled calls *)
Definition shutting_down (name : string) (n k : nat) (p : Process) : Prop :=
  server p = closed ∧ phase p = started ∧ (requests p ≤ n)%nat ∧ ("[shutdown] " +:+ name +:+ " received") ∈ console p ∧
  (k ≠ O → redis_down (cache p) ∧ ttlSweeper p = false ∧ pool_ended p = true) ∧
  match k with
  | 0%nat => shutdowns p = [closing_redis] ∧ pool_ended p = false ∧ exit_code p = None
  | 1%nat => shutdowns p = [ending_pool] ∧ exit_code p = None
  | 2%nat => shutdowns p = [stopping_telemetry] ∧ "PostgreSQL pool closed" ∈ console p ∧ exit_code p = None
  | 3%nat => exit_code p = Some 0 ∧ sdk (telemetry p) = false
  | _ => False
  end.

Lemma in_console {l : list string} {x y} : x ∈ l → x ∈ l ++ [y].
Proof. intros H. apply elem_of_app. by left. Qed.

Lemma shutting_down_settled name n k p p' i :
  shutting_down name n k p → step (Settled i (Returned tt)) p = Some p' → shutting_down name n (S k) p'.
Proof.
  destruct p as [ph bo sw po ca se rq te sh ba co ex]. intros (Hse & Hph & Hrq & Hco & Hk & Hst). cbn in *. subst se ph.
  destruct k as [|[|[|[|k]]]]; cbn in Hst; try done.
  - destruct Hst as (-> & -> & ->). cbn. destruct i as [|i]; [|done]. cbn. intros [= <-].
    repeat split; cbn; try done; by destruct ca.
  - destruct Hst as (-> & ->). destruct Hk as (Hr & -> & ->); [done|]. cbn. destruct i as [|i]; [|done]. cbn. intros [= <-].
    repeat split; cbn; try done; try by apply in_console. all: try by destruct Hr.
    apply elem_of_app. right. constructor.
  - destruct Hst as (-> & Hpc & ->). destruct Hk as (Hr & -> & ->); [done|]. cbn. destruct i as [|i]; [|done]. cbn.
    unfold shutdownTelemetry. destruct (sdk te) eqn:E; intros [= <-]; repeat split; cbn; try done; by destruct Hr.
  - by destruct Hst as (-> & _).
Qed.

(** Any other event that can happen, a second signal excepted *)
Lemma shutting_down_other name n k e p p' :
  shutting_down name n k p → step e p = Some p' →
  (∀ m, e ≠ Signal m) → (∀ i o, e ≠ Settled i o) → shutting_down name n k p'.
Proof.
  destruct p as [ph bo sw po ca se rq te sh ba co ex]. intros (Hse & Hph & Hrq & Hco & Hk & Hst) Hs Hn Hd. cbn in *. subst se ph.
  destruct ex as [x|]; [by destruct e|].
  destruct e as [? ?|?|?| |?| | |m|m|i o]; cbn in Hs; try done; try by destruct (Hn m). 3: by destruct (Hd i o).
  - destruct rq as [|rq]; [done|]. injection Hs as <-. unfold shutting_down. cbn. split_and!; (done || lia).
  - injection Hs as <-. unfold shutting_down. cbn. split_and!; try done; try by apply in_console.
    destruct k as [|[|[|[|k]]]]; try done. destruct Hst as (? & ? & ?). split_and!; [done|by apply in_console|done].
Qed.

Lemma shutting_down_lives p0 name n es es' p p' :
  lives p0 es p → shutting_down name n 0 p → lives p0 (es ++ es') p' →
  (∀ m, Signal m ∉ es') → (∀ i m, Settled i (Thrown m) ∉ es') → shutting_down name n (settled_calls es') p'.
Proof.
  intros Hl H0. revert p'. induction es' as [|e es' IH] using rev_ind; intros p' Hl' Hn Hd.
  - rewrite app_nil_r in Hl'. by rewrite <- (lives_det _ _ _ _ Hl Hl').
  - rewrite app_assoc in Hl'. apply lives_snoc in Hl' as (q & Hq & Hs).
    assert (Hqs : shutting_down name n (settled_calls es') q).
    { apply IH; [done|..]; intros; [intros H; eapply Hn|intros H; eapply Hd]; apply elem_of_app; by left. }
    unfold settled_calls in *. rewrite omap_app, length_app. destruct e as [| | | | | | | |m|i [u|m]];
      try (rewrite Nat.add_0_r; eapply shutting_down_other; done).
    + exfalso. apply (Hn m), elem_of_app. right. constructor.
    + destruct u. rewrite Nat.add_1_r. by eapply shutting_down_settled.
    + exfalso. apply (Hd i m), elem_of_app. right. constructor.
Qed.

(** C20. Every life of the process.  A request is accepted only after the database
    was reached and migrated; the banner is printed at most once; the process
    exits with 0 only after a signal, with the socket closed, both Redis flags
    down, the sweeper stopped, the pool ended and the telemetry SDK gone; and
    when the database cannot be reached or migrated it exits with 1 and has
    printed nothing but what the modules printed as they were loaded and the
    errors of idle connections of the pool: neither the banner nor a line that
    says why. *)
Theorem process_lives w c t es p : lives (loaded_process w c t) es p →
  (server p = bound ∨ requests p ≠ O → ∃ n scan, DatabaseUp n scan ∈ es) ∧
  (banner p = [] ∨ ∃ b, flushed b = false ∧ banner p = (flush nodeEnv port b).1) ∧
  (exit_code p = Some 0 → (∃ name, Signal name ∈ es) ∧ server p = closed ∧ redis_down (cache p) ∧
     ttlSweeper p = false ∧ pool_ended p = true ∧ sdk (telemetry p) = false) ∧
  (∀ a, DatabaseDown a ∈ es → exit_code p = Some 1 ∧ banner p = [] ∧ console p = w ++ pool_lines es).
Proof.
  intros Hi%inv_lives. life Hi. split; [|split; [|split]].
  - intros Hs. destruct (decide (phase p = started)) as [H|H].
    + apply Hlate. by rewrite H.
    + destruct (Hearly H) as (Hn & Hr & _). by destruct Hs; congruence.
  - destruct Hban as [|(_ & b & Hb)]; [by left|]. right. by exists b.
  - intros [Hx Hsdk]%Hzero. destruct (Hpast Hx) as (Hsw & Hpo & Hrd).
    assert (Hne : shutdowns p ≠ []) by (intros Hn; rewrite Hn in Hx; by apply Exists_nil in Hx).
    destruct (Hshut Hne). done.
  - intros a (Hp & He & Hb)%Hdown. destruct Hearly as (_ & _ & _ & Hc); [by rewrite Hp|]. done.
Qed.

(** C21. A shutdown runs to its end, in order.  In a process that has started and
    is not shutting down, let a signal come, and then any events but a second
    signal and a rejected call.  From the signal on the socket is closed and no
    request is accepted; the first settled call leaves both Redis flags down,
    the sweeper stopped and the pool ended; the second is followed by the line
    on the closed pool; the third leaves the telemetry SDK gone and the process
    has exited with 0, though requests may be unanswered.  It cannot hang
    otherwise: until the exit, the awaited call can settle. *)
Theorem shutdown_completes w c t es p name es' p' :
  lives (loaded_process w c t) es p → exit_code p = None → phase p = started → shutdowns p = [] →
  (∀ m, Signal m ∉ es') → (∀ i m, Settled i (Thrown m) ∉ es') →
  lives (loaded_process w c t) (es ++ Signal name :: es') p' →
  server p' = closed ∧ (requests p' ≤ requests p)%nat ∧ step RequestArrives p' = None ∧
  ("[shutdown] " +:+ name +:+ " received") ∈ console p' ∧
  match settled_calls es' with
  | 0%nat => exit_code p' = None
  | 1%nat => exit_code p' = None ∧ redis_down (cache p') ∧ ttlSweeper p' = false ∧ pool_ended p' = true
  | 2%nat => exit_code p' = None ∧ redis_down (cache p') ∧ ttlSweeper p' = false ∧ pool_ended p' = true ∧
       "PostgreSQL pool closed" ∈ console p'
  | 3%nat => exit_code p' = Some 0 ∧ redis_down (cache p') ∧ ttlSweeper p' = false ∧ pool_ended p' = true ∧
       sdk (telemetry p') = false
  | _ => False
  end ∧
  (exit_code p' = None → is_Some (step (Settled 0 (Returned tt)) p')).
Proof.
  intros Hl He Hp Hs Hn Hd Hl'.
  assert (H1 : lives (loaded_process w c t) (es ++ [Signal name]) (shutdown name p)).
  { eapply lives_step; [exact Hl|]. unfold step. by rewrite He, Hp. }
  assert (H0 : shutting_down name (requests p) 0 (shutdown name p)).
  { apply inv_lives in Hl. life Hl. destruct p as [ph bo sw po ca se rq te sh ba co ex]. cbn in *. subst.
    assert (Hpo : po = false) by (destruct po; [by apply Exists_nil in Hpool|done]).
    repeat split; cbn; try done. apply elem_of_app. right. constructor. }
  replace (es ++ Signal name :: es') with ((es ++ [Signal name]) ++ es') in Hl' by (by rewrite <- app_assoc).
  destruct (shutting_down_lives _ _ _ _ _ _ _ H1 H0 Hl' Hn Hd) as (Hse & Hph & Hrq & Hco & Hk & Hst).
  split; [done|]. split; [done|]. split; [unfold step; rewrite Hse; by destruct (exit_code p')|]. split; [done|].
  destruct (settled_calls es') as [|[|[|[|k]]]]; try done; try (destruct Hk as (? & ? & ?); [done|]); unfold step.
  - destruct Hst as (-> & _ & ->). by split.
  - destruct Hst as (-> & ->). split; [done|]. by eexists.
  - destruct Hst as (-> & ? & ->). split; [done|]. by eexists.
  - destruct Hst as (-> & ?). by split.
Qed.

(** A second signal aborts the shutdown.  Once a shutdown has asked the pool to
    end, the shutdown that another signal starts asks it again, which rejects:
    the rejection is not handled, so the process exits with 1, whatever the
    first shutdown still has to do. *)
Theorem second_signal_aborts w c t es p name o o' :
  lives (loaded_process w c t) es p → exit_code p = None → pool_ended p = true →
  let k := length (shutdowns p) in
  ∃ p', lives (loaded_process w c t) (es ++ [Signal name; Settled k o; Settled k o']) p' ∧ exit_code p' = Some 1 ∧
    telemetry p' = telemetry p.
Proof.
  intros Hl He Hpo k. pose proof (inv_lives _ _ _ _ _ Hl) as Hi. life Hi.
  assert (Hp : phase p = started).
  { destruct (decide (phase p = started)) as [|H]; [done|]. destruct (Hearly H) as (_ & _ & Hn & _).
    apply Hpool in Hpo. rewrite Hn in Hpo. by apply Exists_nil in Hpo. }
  replace (es ++ [Signal name; Settled k o; Settled k o']) with (((es ++ [Signal name]) ++ [Settled k o]) ++ [Settled k o'])
    by (by rewrite <- !app_assoc).
  clear -Hl He Hpo Hp. subst k. destruct p as [ph bo sw po ca se rq te sh ba co ex]. cbn in *. subst.
  eexists. split; [eapply lives_step; [eapply lives_step; [eapply lives_step; [exact Hl|reflexivity]|]|]|].
  - unfold step. cbn. rewrite lookup_app_r, Nat.sub_diag by done. reflexivity.
  - unfold step. cbn. rewrite list_lookup_insert_eq by (rewrite length_app; cbn; lia). reflexivity.
  - done.
Qed.
End Process.

(** With an [app.listen] that passes a bind error to its callback, the process
    that cannot listen looks like the one that does: the same banner, nothing
    else printed, no exit; it never accepts a request. *)
Theorem bind_failure_unnoticed `{RKV : RedisKV} nodeEnv port poolMax viaUrl w c t es p message :
  lives true nodeEnv port poolMax viaUrl (loaded_process w c t) es p → server p = binding → exit_code p = None →
  ∃ ok failed, step true nodeEnv port poolMax viaUrl Bound p = Some ok ∧
    step true nodeEnv port poolMax viaUrl (BindFailed message) p = Some failed ∧
    banner failed = banner ok ∧ banner ok ≠ [] ∧ console failed = console ok ∧ exit_code failed = None ∧
    server failed = closed ∧ step true nodeEnv port poolMax viaUrl RequestArrives failed = None.
Proof.
  intros Hl Hs He. apply inv_lives in Hl. destruct (i_unbound _ _ _ _ _ Hl (or_intror Hs)) as (Hb & Hf & _).
  destruct p as [ph bo sw po ca se rq te sh ba co ex]. cbn in *. subst. eexists _, _.
  unfold step, listening, flush. cbn. rewrite Hf. split; [reflexivity|]. split; [reflexivity|]. by repeat split.
Qed.

(** ** Witnesses *)

Module ToyProcess.
Definition env (k : string) : option string := if String.eqb k "OTEL_EXPORTER_OTLP_ENDPOINT" then Some "https://otlp" else None.
Definition redis_config : RedisConfig :=
  {| rc_enabled := true; rc_host := "localhost"; rc_port := 6379; rc_username := ""; rc_password := ""; rc_tls := false; rc_db := 0;
     rc_connectTimeoutMs := 10000; rc_commandTimeoutMs := 5000; rc_keepAliveMs := 30000; rc_maxRetriesPerRequest := 3 |}.
Definition cache0 : Cache := createClients (RKV := MemKV.mem_kv) redis_config None (new_CircuitBreaker (defaultCircuitBreakerConfig (λ _, None))) ∅ 0.
Definition p0 : Process := loaded_process [] cache0 (start_telemetry env loaded_module).2.

(** A start, two requests, one of them answered *)
Definition es : list Event := [DatabaseUp 2 (Some (10, 10)); RedisSettled true; Bound; RequestArrives; RequestArrives; RequestAnswered].
Definition at_ (es : list Event) : Process := default p0 (after (RKV := MemKV.mem_kv) true "production" 3000 10 false es p0).

Lemma at_lives es : match after (RKV := MemKV.mem_kv) true "production" 3000 10 false es p0 with Some _ => true | None => false end = true →
  lives (RKV := MemKV.mem_kv) true "production" 3000 10 false p0 es (at_ es).
Proof.
  unfold at_. destruct (after _ _ _ _ _ es p0) as [p|] eqn:Hp; [|done]. intros _. apply (after_lives _ _ _ _ _ p0 [] es p0 p); [constructor|exact Hp].
Qed.
End ToyProcess.

Lemma process_lives_witness :
  let p := ToyProcess.at_ ToyProcess.es in
  (server p = bound ∨ requests p ≠ O → ∃ n scan, DatabaseUp n scan ∈ ToyProcess.es) ∧ server p = bound ∧ requests p = 1%nat.
Proof.
  split; [|by vm_compute].
  apply (process_lives (RKV := MemKV.mem_kv) true "production" 3000 10 false [] ToyProcess.cache0 (start_telemetry ToyProcess.env loaded_module).2 _ _ (ToyProcess.at_lives ToyProcess.es ltac:(vm_compute; reflexivity))).
Defined.

Lemma shutdown_completes_witness :
  let r := Settled 0 (Returned tt) in
  let es' := [r; RequestAnswered; r; PoolError "terminated"; r] in
  let p' := ToyProcess.at_ (ToyProcess.es ++ Signal "SIGTERM" :: es') in
  settled_calls es' = 3%nat ∧ exit_code p' = Some 0 ∧ redis_down (cache p') ∧ ttlSweeper p' = false ∧ pool_ended p' = true ∧
  sdk (telemetry p') = false.
Proof.
  cbv zeta. split; [vm_compute; reflexivity|].
  eapply (shutdown_completes (RKV := MemKV.mem_kv) true "production" 3000 10 false [] ToyProcess.cache0
    (start_telemetry ToyProcess.env loaded_module).2 ToyProcess.es (ToyProcess.at_ ToyProcess.es) "SIGTERM"
    [Settled 0 (Returned tt); RequestAnswered; Settled 0 (Returned tt); PoolError "terminated"; Settled 0 (Returned tt)]);
    try (apply ToyProcess.at_lives); try (vm_compute; reflexivity).
  - intros m H. repeat (apply elem_of_cons in H as [H|H]; [discriminate H|]). by apply not_elem_of_nil in H.
  - intros i m H. repeat (apply elem_of_cons in H as [H|H]; [discriminate H|]). by apply not_elem_of_nil in H.
Defined.

Lemma second_signal_aborts_witness :
  let r := Settled 0 (Returned tt) in
  ∃ p', lives (RKV := MemKV.mem_kv) true "production" 3000 10 false ToyProcess.p0
      ((ToyProcess.es ++ [Signal "SIGTERM"; r]) ++ [Signal "SIGINT"; Settled 1 (Returned tt); Settled 1 (Thrown "end")]) p' ∧
    exit_code p' = Some 1 ∧ telemetry p' = telemetry (ToyProcess.at_ (ToyProcess.es ++ [Signal "SIGTERM"; r])).
Proof.
  apply (second_signal_aborts (RKV := MemKV.mem_kv) true "production" 3000 10 false [] ToyProcess.cache0
    (start_telemetry ToyProcess.env loaded_module).2 (ToyProcess.es ++ [Signal "SIGTERM"; Settled 0 (Returned tt)])
    (ToyProcess.at_ (ToyProcess.es ++ [Signal "SIGTERM"; Settled 0 (Returned tt)])) "SIGINT" (Returned tt) (Thrown "end"));
    [apply ToyProcess.at_lives; vm_compute; reflexivity|by vm_compute..].
Defined.

Lemma bind_failure_unnoticed_witness :
  let p := ToyProcess.at_ [DatabaseUp 0 None; RedisSettled false] in
  ∃ ok failed, step (RKV := MemKV.mem_kv) true "production" 3000 10 false Bound p = Some ok ∧
    step (RKV := MemKV.mem_kv) true "production" 3000 10 false (BindFailed "EADDRINUSE") p = Some failed ∧
    banner failed = banner ok ∧ banner ok ≠ [] ∧ console failed = console ok ∧ exit_code failed = None ∧
    server failed = closed ∧ step (RKV := MemKV.mem_kv) true "production" 3000 10 false RequestArrives failed = None.
Proof.
  apply (bind_failure_unnoticed (RKV := MemKV.mem_kv) "production" 3000 10 false [] ToyProcess.cache0 (start_telemetry ToyProcess.env loaded_module).2 [DatabaseUp 0 None; RedisSettled false]
           (ToyProcess.at_ [DatabaseUp 0 None; RedisSettled false]) "EADDRINUSE");
    [apply ToyProcess.at_lives; vm_compute; reflexivity|by vm_compute..].
Defined.
