(* ===== verification/Clients.v ===== *)
(** * Clients of other services

    Models how the program builds its clients from the environment and waits
    for them: [createRedisClient] of [uam-backend/src/redisClient.ts],
    [ensureRedisConnected] of [config/redis.ts], [promiseWithTimeout],
    [setRedisClient] and [disconnect] of [robustRateLimiter.ts], the pool of
    [db/client.ts], the SMTP transport of [services/email.service.ts], the
    registration of the strategies in [config/passport.ts] and
    [warnIfInsecurePepper] of [utils/password.util.ts].

    The packages behind the clients are not part of the repository: the
    options handed to them are the result; the events of a Redis client and
    the times at which promises settle are arguments. *)

From S2P Require Import Prelude CircuitConfig RollingWindow CircuitBreaker GuardedCalls Async RedisCache Json JsVal Columns SqlFilter SqlMeaning Password UserModel OneTimeCodes Sessions IdentityIndex Tokens SessionHandlers UsersTable Documents Application AuthController Validators Server RequestLimits Config.
#[local] Open Scope string_scope.
#[local] Open Scope list_scope.
#[local] Open Scope Z_scope.

(** ** [redisClient.ts] *)

Section FromEnvironment.
Context (env : string → option string).

(** The options of [new Redis(...)]; the retry strategy is [retryStrategy]. *)
Record ClientOptions := {
  cl_target : string + string * js_number Z;     (** a URL, or host and port *)
  cl_password : option string;
  cl_tls : bool;
  cl_db : option (js_number Z);
  cl_maxRetriesPerRequest : js_number Z;
  cl_connectTimeout : js_number Z;
  cl_commandTimeout : js_number Z;
  cl_keepAlive : js_number Z;
}.

Definition client_with (target : string + string * js_number Z) (password : option string) (tls : bool) (db : option (js_number Z)) : ClientOptions :=
  {| cl_target := target; cl_password := password; cl_tls := tls; cl_db := db;
     cl_maxRetriesPerRequest := env_number env "REDIS_MAX_RETRIES_PER_REQUEST" "3";
     cl_connectTimeout := env_number env "REDIS_CONNECT_TIMEOUT_MS" "10000";
     cl_commandTimeout := env_number env "REDIS_COMMAND_TIMEOUT_MS" "5000";
     cl_keepAlive := env_number env "REDIS_KEEPALIVE_MS" "30000" |}.

Definition createRedisClient : ClientOptions :=
  match given (env "REDIS_URL") with
  | Some redisUrl => client_with (inl redisUrl) None false None
  | None =>
      client_with (inr (env_or env "REDIS_HOST" "localhost", env_number env "REDIS_PORT" "6379"))
        (or_undefined (env_or env "REDIS_PASSWORD" "")) (is_env env "REDIS_TLS" "true") (Some (env_number env "REDIS_DB" "0"))
  end.

(** ** The pool, the transport, the strategies *)

Record PoolOptions := {
  po_connectionString : string;
  po_max : Z;
  po_idleTimeoutMillis : Z;
  po_connectionTimeoutMillis : Z;
  po_ssl : option (bool * string);               (** [rejectUnauthorized] and the certificate *)
  po_application_name : string;
}.

(** [ca]: the text of [ca.crt]; [None] when reading it throws, which ends the program. *)
Definition pool_options (ca : option string) : option PoolOptions :=
  let cfg := postgres env in
  let with_ssl ssl :=
    {| po_connectionString := pg_url cfg; po_max := pool_max (pg_pool cfg); po_idleTimeoutMillis := pool_idleTimeoutMs (pg_pool cfg);
       po_connectionTimeoutMillis := pool_connectTimeoutMs (pg_pool cfg); po_ssl := ssl; po_application_name := pg_appName cfg |} in
  if pg_ssl cfg then match ca with Some text => Some (with_ssl (Some (true, text))) | None => None end
  else Some (with_ssl None).

Record TransportOptions := {
  tr_host : string;
  tr_port : js_number Z;
  tr_secure : bool;
  tr_auth : option (string * string);
  tr_debug : bool;
  tr_logger : bool;
}.

Definition transport : TransportOptions :=
  let port := env_number env "SMTP_PORT" "587" in
  let isDev := String.eqb (nodeEnv env) "development" in
  let user := env_or env "SMTP_USER" "" in
  let pass := env_or env "SMTP_PASS" "" in
  {| tr_host := env_or env "SMTP_HOST" "smtp.gmail.com"; tr_port := port;
     tr_secure := match port with Fin p => p =? 465 | _ => false end;
     tr_auth := if smtpConfigured env then Some (user, pass) else None;
     tr_debug := isDev && smtpConfigured env; tr_logger := isDev && smtpConfigured env |}.

Record StrategyOptions := {
  clientID : string;
  clientSecret : string;
  callbackURL : string;
  scope : list string;
}.

(** [passport.use(...)], in order *)
Definition strategies : list (Provider * StrategyOptions) :=
  let register p id secret callback default_callback scope :=
    let clientId := env_or env id "" in
    let clientSecret := env_or env secret "" in
    if negb (String.eqb clientId "") && negb (String.eqb clientSecret "") then
      [(p, {| clientID := clientId; clientSecret := clientSecret; callbackURL := env_or env callback default_callback; scope := scope |})]
    else [] in
  register google "GOOGLE_CLIENT_ID" "GOOGLE_CLIENT_SECRET" "GOOGLE_CALLBACK_URL" "http://localhost:5000/api/auth/google/callback" ["profile"; "email"]
  ++ register github "GITHUB_CLIENT_ID" "GITHUB_CLIENT_SECRET" "GITHUB_CALLBACK_URL" "http://localhost:5000/api/auth/github/callback" ["user:email"].

(** [warnIfInsecurePepper]: whether it warns *)
Definition warnIfInsecurePepper : bool := listed DEV_PEPPERS (env_or env "PASSWORD_PEPPER" "").
End FromEnvironment.

(** ** Waiting *)

(** [client.status] *)
Inductive Status := status_wait | status_ready | status_other.

(** A promise: not settled yet, resolved, or rejected *)
Inductive Promised (A : Type) := Pending | Resolved (a : A) | Rejected (e : string).
Arguments Pending {A}.
Arguments Resolved {A} a.
Arguments Rejected {A} e.

(** An event of a client with the message of its error *)
Definition ClientEvent : Type := RedisEvent * string.

(** The listeners of [ensureRedisConnected] on the events that follow *)
Fixpoint first_settling (evs : list ClientEvent) : Promised unit :=
  match evs with
  | [] => Pending
  | (ev_ready, _) :: _ => Resolved tt
  | (ev_error, m) :: _ => Rejected m
  | _ :: evs => first_settling evs
  end.

(** [connected]: what [client.connect()] gives *)
Definition ensureRedisConnected (s : Status) (connected : Promised unit) (evs : list ClientEvent) : Promised unit :=
  match s with
  | status_ready => Resolved tt
  | status_wait => connected
  | status_other => first_settling evs
  end.

(** [Promise.all] of two promises *)
Definition both (a b : Promised unit) : Promised unit :=
  match a, b with
  | Rejected e, _ | _, Rejected e => Rejected e
  | Resolved _, Resolved _ => Resolved tt
  | _, _ => Pending
  end.

(** The [try] of [connectRedis]: [Pending] when it waits for ever *)
Definition redis_start (cache rateLimit : Promised unit) (pings : Promised unit) : Promised bool :=
  match both cache rateLimit with
  | Pending => Pending
  | Rejected _ => Resolved false
  | Resolved _ => match pings with Pending => Pending | Rejected _ => Resolved false | Resolved _ => Resolved true end
  end.

(** [promiseWithTimeout(promise, ms)] of a promise that settles [at_] ms
    later, or never: the result, and when it is known.  A promise that settles
    at the very time of the timer may lose the race ([tie]). *)
Definition promiseWithTimeout {A} (tie : bool) (settles : option (Z * outcome A)) (ms : Z) : Z * outcome A :=
  let timeout := (ms, Thrown ("Timeout after " +:+ stringify (JNum ms) +:+ "ms")) in
  match settles with
  | Some (at_, o) => if (at_ <? ms) || ((at_ =? ms) && tie) then (at_, o) else timeout
  | None => timeout
  end.

(** The health check of [init]: five attempts of at most 5 s, a pause of [2 i]
    s after the failed attempt [i] unless it is the last; when it ends, and
    whether a PING was answered *)
Fixpoint health_check (tie : bool) (pings : nat → option (Z * outcome string)) (todo i : nat) (t : Z) : Z * bool :=
  match todo with
  | O => (t, false)
  | S todo =>
      let '(d, o) := promiseWithTimeout tie (pings i) 5000 in
      match o with
      | Returned _ => (t + d, true)
      | Thrown _ => health_check tie pings todo (S i) (t + d + (if bool_decide (todo = O) then 0 else Z.of_nat i * 2000))
      end
  end.

(** [setRedisClient] and [disconnect]: the field [redis], and its [quit], whose failure is ignored *)
Definition setRedisClient {Client} (client : Client) (redis : option Client) : option Client := Some client.
Definition disconnect (quit : outcome unit) : outcome unit := match quit with Returned _ | Thrown _ => Returned tt end.

(** ** Facts *)

Lemma promiseWithTimeout_bound {A} tie (s : option (Z * outcome A)) ms :
  match s with Some (t, _) => 0 ≤ t | None => True end → 0 ≤ ms → 0 ≤ (promiseWithTimeout tie s ms).1 ≤ ms.
Proof.
  intros Hs Hm. unfold promiseWithTimeout. destruct s as [[t o]|]; cbn; [|lia].
  destruct ((t <? ms) || _) eqn:E; cbn; [|lia]. apply orb_true_iff in E as [E|E]; [lia|]. apply andb_true_iff in E as [E _]. lia.
Qed.

(** The pauses after the failed attempts [i], ..., with [todo] attempts to go *)
Fixpoint pauses (todo i : nat) : Z :=
  match todo with O => 0 | S todo => (if bool_decide (todo = O) then 0 else Z.of_nat i * 2000) + pauses todo (S i) end.

Lemma health_check_bound tie pings todo i t :
  (∀ k, match pings k with Some (t, _) => 0 ≤ t | None => True end) →
  t ≤ (health_check tie pings todo i t).1 ≤ t + 5000 * Z.of_nat todo + pauses todo i.
Proof.
  intros Hp. revert i t. induction todo as [|todo IH]; intros i t; cbn [health_check pauses]; [cbn; lia|].
  pose proof (promiseWithTimeout_bound tie (pings i) 5000 (Hp i)) as Hb.
  destruct (promiseWithTimeout tie (pings i) 5000) as [d [v|m]]; cbn [fst] in *.
  - assert (0 ≤ pauses todo (S i)). { clear. generalize (S i). induction todo as [|l IH]; intros k; cbn; [done|]. specialize (IH (S k)). case_bool_decide; lia. }
    case_bool_decide; lia.
  - specialize (IH (S i) (t + d + (if bool_decide (todo = O) then 0 else Z.of_nat i * 2000))). case_bool_decide; lia.
Qed.

(** C27. The health check of the limiter always ends, within 45 seconds: five
    attempts of at most five seconds and pauses of 2, 4, 6 and 8.  It succeeds
    exactly when one of the five PINGs is answered in time. *)
Theorem health_check_ends tie pings t :
  (∀ k, match pings k with Some (d, _) => 0 ≤ d | None => True end) →
  let '(t', ok) := health_check tie pings 5 1 t in
  t ≤ t' ≤ t + 45000 ∧
  (ok = true ↔ ∃ k v, (1 ≤ k ≤ 5)%nat ∧ (promiseWithTimeout tie (pings k) 5000).2 = Returned v).
Proof.
  intros Hp. pose proof (health_check_bound tie pings 5 1 t Hp) as Hb. change (pauses 5 1) with 20000 in Hb.
  assert (Hok : ∀ todo i t, (health_check tie pings todo i t).2 = true ↔
    ∃ k v, (i ≤ k < i + todo)%nat ∧ (promiseWithTimeout tie (pings k) 5000).2 = Returned v).
  { clear. induction todo as [|todo IH]; intros i t; cbn [health_check].
    - split; [done|]. intros (k & _ & H & _). lia.
    - destruct (promiseWithTimeout tie (pings i) 5000) as [d [v|m]] eqn:E; cbn [snd].
      + split; [|done]. intros _. exists i, v. rewrite E. split; [lia|done].
      + rewrite IH. split; intros (k & v & Hk & Hv).
        * exists k, v. split; [lia|done].
        * exists k, v. split; [|done]. destruct (decide (k = i)) as [->|]; [by rewrite E in Hv|lia]. }
  specialize (Hok 5%nat 1%nat t). destruct (health_check tie pings 5 1 t) as [t' ok]. cbn [fst snd] in *.
  split; [lia|]. rewrite Hok. split; intros (k & v & Hk & Hv); exists k, v; (split; [lia|done]).
Qed.

Lemma health_check_ends_witness :
  let pings k := if bool_decide (k = 3%nat) then Some (20, Returned "PONG") else None in
  let '(t', ok) := health_check true pings 5 1 0 in
  0 ≤ t' ≤ 0 + 45000 ∧ (ok = true ↔ ∃ k v, (1 ≤ k ≤ 5)%nat ∧ (promiseWithTimeout true (pings k) 5000).2 = Returned v).
Proof.
  apply (health_check_ends true (λ k, if bool_decide (k = 3%nat) then Some (20, Returned "PONG") else None) 0).
  intros k. by case_bool_decide.
Defined.

Lemma given_env_or env k : negb (String.eqb (env_or env k "") "") = match given (env k) with Some _ => true | None => false end.
Proof. unfold env_or, given. destruct (env k) as [s|]; [|done]. by destruct (String.eqb s "") eqn:E; [|cbn; rewrite E]. Qed.

(** The OAuth routes and passport agree: a route passes the guard for a
    provider exactly when its strategy was registered, so passport never meets
    an unknown one. *)
Theorem guarded_strategies env p :
  provider_enabled (app_config env) p
  = existsb (λ s, match s.1, p with google, google | github, github => true | _, _ => false end) (strategies env).
Proof.
  unfold strategies. rewrite !given_env_or, existsb_app. unfold provider_enabled, app_config. cbn.
  unfold googleEnabled, githubEnabled, both_set.
  destruct p, (given (env "GOOGLE_CLIENT_ID")), (given (env "GOOGLE_CLIENT_SECRET")), (given (env "GITHUB_CLIENT_ID")), (given (env "GITHUB_CLIENT_SECRET")); reflexivity.
Qed.

(** Clients that have not connected yet cannot hold up the start once their
    connection attempts and PINGs have settled; what the cache is told is
    whether all four succeeded. *)
Lemma fresh_clients_start a b pings evs evs' :
  a ≠ Pending → b ≠ Pending → pings ≠ Pending →
  redis_start (ensureRedisConnected status_wait a evs) (ensureRedisConnected status_wait b evs') pings
  = Resolved (match a, b, pings with Resolved _, Resolved _, Resolved _ => true | _, _, _ => false end).
Proof. by destruct a, b, pings. Qed.
