(* ===== verification/Background.v ===== *)
(** * The animated background

    Models the effect of [uam-frontend/src/components/AnimatedBackground.tsx]:
    the particles, the resize handler and the animation loop.  Coordinates are
    rational numbers (the browser rounds them to doubles); [Math.random()] is a
    stream of numbers between 0 and 1; the drawing itself is left out. *)

From Stdlib Require Import QArith Lqa.
From S2P Require Import Prelude.
#[local] Open Scope list_scope.
#[local] Open Scope Q_scope.

Record Particle := mkParticle { x : Q; y : Q; radius : Q; speedX : Q; speedY : Q; opacity : Q }.

Definition particleCount : nat := 50.

(** One turn of the loop of [createParticles]: six draws, in this order *)
Definition new_particle (width height : Q) (random : nat → Q) (i : nat) : Particle :=
  let draw k := random (6 * i + k)%nat in
  mkParticle (draw 0%nat * width) (draw 1%nat * height) (draw 2%nat * 2 + 1)
    ((draw 3%nat - (1 # 2)) * (1 # 2)) ((draw 4%nat - (1 # 2)) * (1 # 2)) (draw 5%nat * (1 # 2) + (1 # 5)).

Definition createParticles (width height : Q) (random : nat → Q) : list Particle :=
  map (new_particle width height random) (seq 0 particleCount).

(** One coordinate in [animate]: move, and turn round outside of the canvas *)
Definition bounce (size : Q) (p s : Q) : Q * Q :=
  let p := p + s in (p, if Qlt_bool p 0 || Qlt_bool size p then s * -(1) else s).

Definition move (width height : Q) (p : Particle) : Particle :=
  let '(px, sx) := bounce width (x p) (speedX p) in
  let '(py, sy) := bounce height (y p) (speedY p) in
  mkParticle px py (radius p) sx sy (opacity p).

(** What the effect keeps: the canvas with its particles, the listener, and
    the requested animation frame *)
Record Background := mkBackground {
  width : Q;
  height : Q;
  particles : list Particle;
  listening : bool;
  requested : bool;
}.

Inductive Event :=
  | Frame                                             (** the requested frame is due *)
  | Resize (innerWidth innerHeight : Q) (random : nat → Q)
  | Unmount.

(** The effect when the component is mounted: [resizeCanvas()], the listener, [animate()] *)
Definition animate (b : Background) : Background :=
  mkBackground (width b) (height b) (map (move (width b) (height b)) (particles b)) (listening b) true.

Definition resizeCanvas (w h : Q) (random : nat → Q) (b : Background) : Background :=
  mkBackground w h (createParticles w h random) (listening b) (requested b).

Definition mount (w h : Q) (random : nat → Q) : Background :=
  animate (mkBackground w h (createParticles w h random) true false).

Definition happen (e : Event) (b : Background) : Background :=
  match e with
  | Frame => if requested b then animate b else b
  | Resize w h random => if listening b then resizeCanvas w h random b else b
  | Unmount => mkBackground (width b) (height b) (particles b) false (requested b)
  end.

Definition history (w h : Q) (random : nat → Q) (es : list Event) : Background :=
  foldl (λ b e, happen e b) (mount w h random) es.

(** ** Bounds *)

Definition draws (random : nat → Q) : Prop := ∀ n, 0 <= random n < 1.

Definition sane (e : Event) : Prop := match e with Resize w h random => 0 <= w /\ 0 <= h /\ draws random | _ => True end.

(** One coordinate: inside, or just outside and on its way back in *)
Definition kept (size p s : Q) : Prop :=
  -(1 # 4) <= s <= (1 # 4) /\ (0 <= p <= size \/ (-(1 # 4) <= p <= size + (1 # 4) /\ 0 <= p + s <= size)).

Lemma Qlt_bool_spec (a b : Q) : if Qlt_bool a b then a < b else b <= a.
Proof. unfold Qlt_bool. destruct (Qle_bool b a) eqn:E; cbn; [by apply Qle_bool_iff|]. apply Qnot_le_lt. intros H%Qle_bool_iff. congruence. Qed.

Lemma bounce_kept size p s : kept size p s → kept size (bounce size p s).1 (bounce size p s).2.
Proof.
  intros [Hs Hp]. unfold bounce, kept. cbn [fst snd].
  pose proof (Qlt_bool_spec (p + s) 0) as H0. pose proof (Qlt_bool_spec size (p + s)) as H1.
  destruct (Qlt_bool (p + s) 0), (Qlt_bool size (p + s)); cbn [orb]; destruct Hp as [Hp|[Hp Hq]]; split; try lra.
  all: try (left; lra). all: right; lra.
Qed.

Definition in_view (w h : Q) (p : Particle) : Prop :=
  kept w (x p) (speedX p) /\ kept h (y p) (speedY p) /\ 1 <= radius p < 3 /\ (1 # 5) <= opacity p < (7 # 10).

Lemma move_in_view w h p : in_view w h p → in_view w h (move w h p).
Proof.
  intros (Hx & Hy & Hr). unfold move. apply bounce_kept in Hx, Hy.
  destruct (bounce w (x p) (speedX p)), (bounce h (y p) (speedY p)). done.
Qed.

Lemma draw_scaled r size : 0 <= r < 1 → 0 <= size → 0 <= r * size <= size.
Proof. intros Hr Hs. split; nra. Qed.

Lemma created_in_view w h random : 0 <= w → 0 <= h → draws random → Forall (in_view w h) (createParticles w h random).
Proof.
  intros Hw Hh Hr. apply Forall_fmap, Forall_forall. intros i _. unfold in_view, kept, new_particle. cbn -[Nat.mul].
  pose proof (draw_scaled _ w (Hr (6 * i + 0)%nat) Hw). pose proof (draw_scaled _ h (Hr (6 * i + 1)%nat) Hh).
  pose proof (Hr (6 * i + 2)%nat). pose proof (Hr (6 * i + 3)%nat). pose proof (Hr (6 * i + 4)%nat). pose proof (Hr (6 * i + 5)%nat).
  repeat split; try (left); lra.
Qed.

(** The particles never leave the canvas by more than a quarter of a pixel,
    and there are always fifty, whatever frames and changes of the window
    come; their radius and opacity stay in range.  The animation never stops:
    a frame is requested at any time, also after the component is gone. *)
Theorem particles_stay w h random es :
  0 <= w → 0 <= h → draws random → Forall sane es →
  let b := history w h random es in
  Forall (λ p, -(1 # 4) <= x p <= width b + (1 # 4) /\ -(1 # 4) <= y p <= height b + (1 # 4) /\
               1 <= radius p < 3 /\ (1 # 5) <= opacity p < (7 # 10)) (particles b) /\
  length (particles b) = particleCount /\ requested b = true.
Proof.
  intros Hw Hh Hr Hes b.
  assert (H : 0 <= width b /\ 0 <= height b /\ Forall (in_view (width b) (height b)) (particles b) /\ length (particles b) = particleCount /\ requested b = true).
  { unfold b, history.
    assert (H0 : let m := mount w h random in 0 <= width m /\ 0 <= height m /\ Forall (in_view (width m) (height m)) (particles m) /\
                   length (particles m) = particleCount /\ requested m = true).
    { cbn [mount animate width height particles requested]. split; [done|]. split; [done|]. split; [|done].
      apply Forall_fmap. eapply Forall_impl; [by apply created_in_view|]. intros p. apply move_in_view. }
    revert H0. generalize (mount w h random). induction Hes as [|e es He _ IH]; intros m (H1 & H2 & H3 & H4 & H5); [done|].
    cbn [foldl]. apply IH. destruct e as [|w' h' r'|]; cbn [happen].
    - rewrite H5. cbn [animate width height particles requested]. rewrite length_map. split; [done|]. split; [done|]. split; [|done].
      apply Forall_fmap. eapply Forall_impl; [exact H3|]. intros p. apply move_in_view.
    - destruct (listening m); [|done]. destruct He as (Hw' & Hh' & Hr'). split; [done|]. split; [done|]. split; [by apply created_in_view|done].
    - done. }
  destruct H as (H1 & H2 & H3 & H4). split; [|done]. eapply Forall_impl; [exact H3|].
  intros p ((_ & Hx) & (_ & Hy) & Hrest). destruct Hx as [Hx|[Hx _]], Hy as [Hy|[Hy _]]; repeat split; try (apply Hrest); lra.
Qed.

Lemma particles_stay_witness :
  let b := history 800 600 (λ _, 1 # 3) [Frame; Resize 400 300 (λ _, 0); Frame; Unmount; Frame] in
  Forall (λ p, -(1 # 4) <= x p <= width b + (1 # 4) /\ -(1 # 4) <= y p <= height b + (1 # 4) /\
               1 <= radius p < 3 /\ (1 # 5) <= opacity p < (7 # 10)) (particles b) /\
  length (particles b) = particleCount /\ requested b = true.
Proof.
  apply (particles_stay 800 600 (λ _, 1 # 3) [Frame; Resize 400 300 (λ _, 0); Frame; Unmount; Frame]); [lra..| |].
  - intros n. lra.
  - repeat constructor; cbn; lra.
Defined.
